(* ===== verification/_CoqProject ===== *)
-Q . S2P
Prelude.v
Bytes.v
Mmu.v
KState.v
Pmap.v
PageTable.v
AddrSpace.v
VmLife.v
Env.v
EnvFree.v
EnvInv.v
Sched.v
Syscall.v
SyscallSpec.v
XBio.v
XLog.v
XLogSpace.v
XProc.v
XProcSpec.v
XProcInv.v
XProcThm.v
JString.v
JStringSpec.v
JPrintf.v
JPrintfSpec.v
JPrintThm.v
XLock.v
XKalloc.v
XPipe.v
JBlock.v
JBlockSpec.v
JFs.v
JFsSpec.v
JFile.v
JFileIO.v
JFileTrunc.v
JDir.v
JDirMake.v
JFsThm.v
XFs.v
XFsAlloc.v
XFile.v
XFileIO.v
XTrunc.v
XInode.v
XDir.v
XPath.v
XFsThm.v
XFd.v
XFdSpec.v
XFdRefs.v
XFdThm.v
XVm.v
XVmSpec.v
XVmOps.v
XVmKern.v
XVmUser.v
XVmCopy.v
XVmOut.v
XVmInv.v
XVmThm.v
XMem.v
JServ.v
JServThm.v
