(* ===== verification/Prelude.v ===== *)
(** * Two teaching kernels, JOS and xv6

    The repository holds the exercises of an operating systems course: JOS, an
    exokernel built up in several stages ([src/lab1], [src/lab5] and the final
    [src/oslab6]), and the monolithic kernel xv6 ([src/xv6]) with the exercises
    made in it (process priorities, accounting, a few system calls).  This
    library models the core of both, file by file, and proves what makes each
    part correct.

    ** The program and the files that model it

    JOS, the kernel.
    - [Mmu]: constants and address arithmetic of [inc/mmu.h],
      [inc/memlayout.h], [inc/error.h].
    - [KState]: the state of the kernel -- physical memory as words, the
      [PageInfo] array, the free list, the environments -- and pointer checks.
    - [Pmap]: physical pages of [kern/pmap.c] (memory detection, [boot_alloc],
      [page_init], [page_alloc], [page_free], the boot-time check of the list).
    - [PageTable], [AddrSpace]: page tables of [kern/pmap.c] ([pgdir_walk],
      [page_insert], [page_lookup], [page_remove], [boot_map_region],
      [mmio_map_region], [user_mem_check]) and what they do to the map of an
      address space; [VmLife] the life of a page directory.
    - [Env], [EnvFree], [EnvInv]: environments of [kern/env.c]; [Sched]:
      [kern/sched.c] and [envid2env].
    - [Syscall], [SyscallSpec]: [kern/syscall.c] and [kern/trap.c].

    JOS, code shared with user mode.
    - [JString], [JStringSpec]: [lib/string.c].
    - [JPrintf], [JPrintfSpec], [JPrintThm]: [lib/printfmt.c], [lib/printf.c],
      [kern/printf.c].

    Both file systems read words out of bytes: [Bytes].

    JOS, the file server.
    - [JBlock], [JBlockSpec]: the block cache [fs/bc.c], which maps the disk into
      memory page fault by page fault, with the checks of [fs/fs.c] it needs.
      The class [BlockMem] is what it promises: flat memory with an explicit
      flush.
    - [JFs]: [fs/fs.c], written against that interface; [JFsSpec] the bitmap
      and the allocator, [JFile] the blocks of a file, [JFileIO] reading and
      writing, [JFileTrunc] truncating, [JDir] directories and paths,
      [JDirMake] creating files, [JFsThm] the properties and a small disk.
    - [JServ]: the requests of [fs/serv.c] and, of [lib/file.c], what a client
      does around a request; [JServThm] its properties.  The pages that server
      and clients share are behind the class [PageSys].

    xv6.
    - [XBio]: the buffer cache [bio.c] over [ide.c]; [XLog], [XLogSpace]: the
      crash-safe log [log.c].
    - [XFs]: all of [fs.c], run by one process inside a transaction, over blocks
      of bytes that may be logged; [XFsAlloc] the layout of the disk and the
      block allocator, [XFile] the blocks of an inode, [XFileIO] reading and
      writing, [XTrunc] truncating, [XInode] the inode cache, [XDir]
      directories, [XPath] path names, [XFsThm] the properties and a small disk.
    - [XFd]: the open files of [file.c], the system calls of [sysfile.c] and the
      arguments of [syscall.c], for one process, with [pipealloc]; [XFdSpec]
      reading and writing through an open file and the blocks a transaction
      logs, [XFdRefs] the references of files and inodes, [XFdThm] the
      properties.
    - [XProc], [XProcSpec], [XProcInv], [XProcThm]: processes and scheduling,
      [proc.c], [sysproc.c], [trap.c].
    - [XLock]: [spinlock.c] at the grain of single shared accesses, and
      [sleeplock.c]; [XKalloc]: [kalloc.c]; [XPipe]: [pipe.c].
    - [XVm]: the page tables of [vm.c], in the pages that [XKalloc] hands out; [XVmSpec] gives every page a role (the directory of
      an address space, one of its tables, the page at an address), [XVmOps]
      walking, mapping, shrinking and freeing, [XVmKern] the kernel's part,
      [XVmUser] growing, [XVmCopy] copying, [XVmOut] writing to user memory,
      [XVmInv] all address spaces together, [XVmThm] the properties.
    - [XMem] puts processes and memory together: the class [KernOps] against which
      [XProc] is written, with the operations of [XKalloc] and [XVm].

    This file holds what they share: the monad, machine integers, arrays,
    memories as maps, the tactics [exec] and [zlia] and the hint database [os].

    ** How the code is rendered

    A C function is a definition of the same name in the state monad [M] over
    the state of its component.  Its outcome is [Ret] with the result, [Panic]
    with the message, [Leave] when it never returns to its caller (it runs
    another environment, or exits), or [UB] when it runs into undefined
    behaviour: a null or dangling pointer, an index out of range, an
    uninitialised variable.  Integers are [Z] with the wrap-around of their C
    type written out ([u8], [u16], [u32], [s32]).  Memory is a map from addresses
    to words or bytes, so that aliasing is the code's.  Locks are dropped in
    single-threaded models; where interleaving matters -- spin locks, sleep
    locks, pipes, the log's space reservation, processes -- the code is cut into
    the segments between two points where others may run, and a theorem
    quantifies over all sequences of segments.

    ** Bounds

    Loops of the code that run over an index are loops over the list of its
    values.  The others have fuel, and running out is a panic that the theorems
    exclude: searches of a linked list take as many steps as there are nodes;
    loops over strings as many as there are allocated bytes ([cstr_fuel]);
    [vprintfmt] the length of the format, since each round consumes a
    character; [mappages] the number of pages between its ends, and the loops of
    [allocuvm], [deallocuvm], [copyuvm] and [copyout] the pages of the range and
    one or two more, for ends that are not aligned; [printnum] the number of binary digits; nested page faults of
    the block cache go three deep, a block, its bitmap block and the first
    bitmap block ([access_ok]); [file_read] and [file_write] move by a byte or
    more in each round, as do [readi] and [writei]; [walk_path] and [namex]
    consume a character per element.

    ** What the theorems show

    - JOS memory: start-up builds an allocator that refines a stack of distinct
      pages; mapping and unmapping have exactly the effect asked for, with
      reference counts that equal the number of mappings, and keep the page
      tables well formed; [user_mem_check] accepts exactly the accessible
      ranges that do not wrap around.
    - JOS environments: allocation and freeing keep the table, the free list and
      all page reference counts consistent; identifiers name one environment;
      scheduling is round robin; system calls affect only the environments the
      caller may name and never the kernel's part of an address space.
    - JOS library: [memmove] is right under any overlap, formatted output is
      bounded, terminates, and round trips with [strtol].
    - JOS file server: the block cache is invisible; files keep their bytes
      through allocation, writing and truncation of themselves and of others;
      paths resolve as the reference definition says.  Through requests to the
      server a client reads back what it wrote; file ids name one open file, and
      stay refused once its entry is reused.
    - xv6 storage: the buffer cache refines the disk; a transaction is atomic
      and durable whatever write the machine crashes at; the log never
      overflows.
    - xv6 file system: what [writei] writes [readi] reads back, nothing outside
      of the file and of logged blocks changes, and the inode on the disk is
      current again; the inode cache counts references exactly, with one entry
      per inode; the last [iput] of an unlinked inode frees exactly its blocks;
      a linked name is found; [namex] follows the reference walk and gives back
      every reference but the one it returns.
    - xv6 open files: what [filewrite] writes, in transactions that fit the log,
      [fileread] reads back through any other open file; [open], [close] and
      [dup] keep the reference counts of files and inodes exact on every path.
    - xv6 processes: the table is consistent in every interleaving; exit and
      wait meet; the scheduler picks the best process; spin locks exclude; the
      page allocator never hands out a page twice; a pipe is a FIFO queue.
    - xv6 memory: whatever sequence of address spaces is made, grown, shrunk,
      copied and freed, every page has exactly one use and no call panics;
      growing gives cleared pages or undoes itself; a copy reads the same bytes
      from pages of its own; [copyout] writes what it says and nothing else.
      From boot on, however processes fork, exit, wait, grow and shrink, every
      page belongs to one process, to another part of the kernel or to nobody,
      and nothing is lost.
    - Deviations found in the code are theorems too where they can be stated
      (double free of the last page, wrap-around in [user_mem_check], the order
      of a check and a dereference in [sys_ipc_try_send], the accounting of
      [waitsch], a wakeup that a killed pipe writer forgets, a directory
      entry that makes [dirlink] wait for its own lock, a read that makes the
      file server write past the page of the request, a null page table entry
      in [uva2ka], a process that shrinks to nothing and is told that it failed,
      and others).

    ** Not modelled

    Drivers, interrupt controllers, boot code and assembly: their behaviour is
    the hardware's, and what the modelled code needs of them (a disk transfer, a
    page table walk, an atomic exchange) is written down where it is used.
    [mem_init] and the [check_*] self-tests of [kern/pmap.c], which call the
    modelled operations at boot.  The user programs and test programs of both
    kernels.  [src/lab1] and [src/lab5], earlier states of files that [src/oslab6]
    has in their final form.  The user library of JOS beyond
    strings, output and the file device (file descriptors, fork, pipes, spawn),
    and of xv6 [exec] with [sys_exec] and [loaduvm], which it calls.  Of [vm.c]
    also [seginit] and the switching of address spaces, which load processor
    registers, and [kvmalloc], one [setupkvm] at boot.  [XMem] leaves the file system
    abstract, so that the pages of pipes are pages that another part holds. *)
From stdpp Require Export base tactics gmap strings numbers.
From stdpp Require Export list.

Declare Scope os_scope.
Delimit Scope os_scope with os.
#[global] Open Scope os_scope.
#[global] Open Scope Z_scope.

(** ** Outcomes and the state monad

    Every stateful C function is a computation [M S A] over the state [S] of
    its component.  Besides returning a value a C function of these kernels can
    - call [panic] (or fail an [assert]): [Panic], with the message;
    - never come back to its caller because it hands the processor to another
      thread or to user mode ([env_run], [sched_yield], [exit]): [Leave];
    - run into undefined behaviour (a null or out-of-range access, an
      uninitialised pointer): [UB].  No theorem assumes that UB is benign. *)

Inductive outcome (S A : Type) : Type :=
| Ret (a : A) (s : S)
| Panic (msg : string) (s : S)
| Leave (s : S)
| UB.
Arguments Ret {S A} a s.
Arguments Panic {S A} msg s.
Arguments Leave {S A} s.
Arguments UB {S A}.

Definition M (S A : Type) : Type := S -> outcome S A.

#[export] Instance M_ret (S : Type) : MRet (M S) := fun A a s => Ret a s.
#[export] Instance M_bind (S : Type) : MBind (M S) := fun A B k m s =>
  match m s with
  | Ret a s' => k a s'
  | Panic msg s' => Panic msg s'
  | Leave s' => Leave s'
  | UB => UB
  end.

Section Primitives.
Context {S : Type}.

Definition get : M S S := fun s => Ret s s.
Definition gets {A} (f : S -> A) : M S A := fun s => Ret (f s) s.
Definition modify (f : S -> S) : M S unit := fun s => Ret tt (f s).
Definition panic {A} (msg : string) : M S A := fun s => Panic msg s.
Definition leave {A} : M S A := fun s => Leave s.
Definition ub {A} : M S A := fun _ => UB.

(** [assert(b)]: panics when [b] is false. *)
Definition assertb (msg : string) (b : bool) : M S unit :=
  if b then mret tt else panic msg.

(** A read through a pointer or an array index: [None] is undefined. *)
Definition deref {A} (o : option A) : M S A :=
  match o with Some a => mret a | None => ub end.

Definition when (b : bool) (m : M S unit) : M S unit :=
  if b then m else mret tt.

(** [for (x in l) body]: a loop whose body falls through. *)
Fixpoint for_each {A} (l : list A) (body : A -> M S unit) : M S unit :=
  match l with
  | [] => mret tt
  | x :: l' => body x ;; for_each l' body
  end.

(** [for (x in l) body]: a loop whose body may [return]. *)
Fixpoint for_until {A B} (l : list A) (body : A -> M S (option B))
  : M S (option B) :=
  match l with
  | [] => mret None
  | x :: l' =>
      r ← body x;
      match r with Some b => mret (Some b) | None => for_until l' body end
  end.
(** A loop without a bound of its own: the body either goes on ([inl]) or leaves
    ([inr]).  The fuel is given where the loop is used. *)
Fixpoint loop {X A} (fuel : nat) (body : X -> M S (X + A)) (x : X) : M S A :=
  match fuel with
  | O => panic "fuel"
  | Datatypes.S f => r ← body x;
           match r with inl x' => loop f body x' | inr a => mret a end
  end.
End Primitives.

(** [wp m Q s]: from [s], [m] returns, and the result and the final state
    satisfy [Q].  Panics, UB and not returning are all excluded. *)
Definition wp {S A} (m : M S A) (Q : A -> S -> Prop) (s : S) : Prop :=
  match m s with Ret a s' => Q a s' | _ => False end.

(** [safe m Q s]: [m] does not run into UB from [s], and if it returns then
    [Q] holds. *)
Definition safe {S A} (m : M S A) (Q : A -> S -> Prop) (s : S) : Prop :=
  match m s with Ret a s' => Q a s' | UB => False | _ => True end.

Section WpLemmas.
Context {S : Type}.
Implicit Types (s : S).

Lemma bind_Ret {A B} (m : M S A) (k : A -> M S B) s a s' :
  m s = Ret a s' -> (m ≫= k) s = k a s'.
Proof. unfold mbind, M_bind. by intros ->. Qed.

Lemma bind_Leave {A B} (m : M S A) (k : A -> M S B) s s' :
  m s = Leave s' -> (m ≫= k) s = Leave s'.
Proof. unfold mbind, M_bind. by intros ->. Qed.

Lemma bind_inv {A B} (m : M S A) (k : A -> M S B) s b s' :
  (m ≫= k) s = Ret b s' -> exists a s1, m s = Ret a s1 /\ k a s1 = Ret b s'.
Proof. unfold mbind, M_bind. destruct (m s) eqn:E; naive_solver. Qed.

Lemma wp_ret {A} (a : A) (Q : A -> S -> Prop) s : Q a s -> wp (mret a) Q s.
Proof. done. Qed.

Lemma wp_bind {A B} (m : M S A) (k : A -> M S B) (Q : B -> S -> Prop) s :
  wp m (fun a s' => wp (k a) Q s') s -> wp (m ≫= k) Q s.
Proof. unfold wp, mbind, M_bind. by destruct (m s). Qed.

Lemma wp_mono {A} (m : M S A) (P Q : A -> S -> Prop) s :
  wp m P s -> (forall a s', P a s' -> Q a s') -> wp m Q s.
Proof. unfold wp. destruct (m s); naive_solver. Qed.

(** Symbolic execution inside [wp]. *)
Lemma wp_call {A B} (m : M S A) (k : A -> M S B) (Q : B -> S -> Prop) s a s' :
  m s = Ret a s' -> wp (k a) Q s' -> wp (m ≫= k) Q s.
Proof. intros H ?. apply wp_bind. unfold wp at 1. by rewrite H. Qed.
Lemma wp_get {B} (k : S -> M S B) (Q : B -> S -> Prop) s :
  wp (k s) Q s -> wp (get ≫= k) Q s.
Proof. done. Qed.
Lemma wp_gets {A B} (f : S -> A) (k : A -> M S B) (Q : B -> S -> Prop) s :
  wp (k (f s)) Q s -> wp (gets f ≫= k) Q s.
Proof. done. Qed.
Lemma wp_modify {B} (f : S -> S) (k : unit -> M S B) (Q : B -> S -> Prop) s :
  wp (k tt) Q (f s) -> wp (modify f ≫= k) Q s.
Proof. done. Qed.

Lemma wp_for_each {A} (l : list A) (body : A -> M S unit)
    (I : list A -> S -> Prop) s :
  I [] s ->
  (forall pre x rest s', l = pre ++ x :: rest -> I pre s' ->
     wp (body x) (fun _ s'' => I (pre ++ [x]) s'') s') ->
  wp (for_each l body) (fun _ s' => I l s') s.
Proof.
  intros H0 Hstep.
  enough (G : forall rest pre s0, l = pre ++ rest -> I pre s0 ->
            wp (for_each rest body) (fun _ s' => I l s') s0)
    by (apply (G l [] s); [done|exact H0]).
  induction rest as [|x rest IH]; intros pre s0 -> HI; simpl.
  - apply wp_ret. by rewrite app_nil_r in *.
  - apply wp_bind. eapply wp_mono; [by apply (Hstep pre x rest)|].
    intros [] s1 HI1. apply (IH (pre ++ [x])); [by rewrite <-app_assoc|done].
Qed.
End WpLemmas.

(** ** Machine integers

    A C integer of width [w] is a [Z] in range; every operation that can leave
    the range is followed by the wrap-around of its type. *)

Definition u8 (x : Z) : Z := x `mod` 256.
Definition u16 (x : Z) : Z := x `mod` 65536.
Definition u32 (x : Z) : Z := x `mod` 4294967296.
Definition u64 (x : Z) : Z := x `mod` 18446744073709551616.
Definition s32 (x : Z) : Z :=
  let y := x `mod` 4294967296 in
  if y <? 2147483648 then y else y - 4294967296.

Definition is_u32 (x : Z) : Prop := 0 <= x < 4294967296.
Definition is_u16 (x : Z) : Prop := 0 <= x < 65536.

(** [lia] with division and remainder by constants. *)
Ltac zlia := Z.div_mod_to_equations; lia.

Lemma u32_range x : is_u32 (u32 x).
Proof. unfold is_u32, u32. zlia. Qed.
Lemma u32_id x : is_u32 x -> u32 x = x.
Proof. apply Z.mod_small. Qed.
Lemma u16_id x : is_u16 x -> u16 x = x.
Proof. apply Z.mod_small. Qed.
Lemma s32_range x : -2147483648 <= s32 x < 2147483648.
Proof. unfold s32. case_match; zlia. Qed.
Lemma s32_id x : -2147483648 <= x < 2147483648 -> s32 x = x.
Proof. unfold s32. intros. case_match; zlia. Qed.

(** Bit masks. *)
Definition has (x m : Z) : bool := negb (Z.land x m =? 0).

Lemma land_pow2_mod x n : 0 <= n -> Z.land x (2 ^ n - 1) = x `mod` 2 ^ n.
Proof.
  intros. replace (2 ^ n - 1) with (Z.ones n) by (rewrite Z.ones_equiv; lia).
  by apply Z.land_ones.
Qed.

Lemma lor_disjoint_add x y n :
  0 <= n -> 0 <= y < 2 ^ n -> Z.lor (x * 2 ^ n) y = x * 2 ^ n + y.
Proof.
  intros Hn Hy. rewrite Z.add_nocarry_lxor, Z.lxor_lor; [done|..];
    apply Z.bits_inj'; intros i Hi; rewrite Z.land_spec, Z.bits_0;
    (destruct (decide (i < n)) as [Hin|Hin];
     [by rewrite Z.mul_pow2_bits_low by lia|]);
    rewrite <-(Z.mod_small y (2 ^ n)), (Z.mod_pow2_bits_high y) by lia;
    apply andb_false_r.
Qed.

(** ** Arrays

    A C array is a list read and written at a [Z] index.  Reading out of range
    gives [None] (which the code models turn into [UB]); writing out of range
    changes nothing, so models check the index with a read first. *)

Definition zlen {A} (l : list A) : Z := Z.of_nat (length l).
Definition zget {A} (l : list A) (i : Z) : option A :=
  if 0 <=? i then l !! Z.to_nat i else None.
Definition zset {A} (l : list A) (i : Z) (x : A) : list A :=
  if 0 <=? i then <[Z.to_nat i := x]> l else l.

Section Arrays.
Context {A : Type}.
Implicit Types (l : list A) (i j : Z) (x y : A).

Lemma zlen_nonneg l : 0 <= zlen l.
Proof. unfold zlen. lia. Qed.

Lemma zlen_zset l i x : zlen (zset l i x) = zlen l.
Proof. unfold zlen, zset. case_match; by rewrite ?length_insert. Qed.

Lemma zget_Some_range l i x : zget l i = Some x -> 0 <= i < zlen l.
Proof.
  unfold zget, zlen. case_match; [|done]. intros ?%lookup_lt_Some. lia.
Qed.

Lemma zget_is_Some l i : is_Some (zget l i) <-> 0 <= i < zlen l.
Proof.
  split; [intros [x ?]; by eapply zget_Some_range|].
  unfold zget, zlen. intros. case_match; [|lia].
  apply lookup_lt_is_Some. lia.
Qed.

Lemma zget_in_range l i : 0 <= i < zlen l -> exists x, zget l i = Some x.
Proof. intros H%zget_is_Some. destruct H; eauto. Qed.

Lemma zget_zset_eq l i x : 0 <= i < zlen l -> zget (zset l i x) i = Some x.
Proof.
  unfold zget, zset, zlen. intros. case_match; [|lia].
  apply list_lookup_insert_eq. lia.
Qed.

Lemma zget_zset_ne l i j x : i <> j -> zget (zset l i x) j = zget l j.
Proof.
  unfold zget, zset. intros. repeat case_match; try done.
  apply list_lookup_insert_ne. lia.
Qed.

Lemma zget_zset l i j x :
  zget (zset l i x) j
  = if decide (i = j /\ 0 <= i < zlen l) then Some x else zget l j.
Proof.
  case_decide as H; [destruct H as [<- ?]; by apply zget_zset_eq|].
  destruct (decide (i = j)) as [<-|]; [|by apply zget_zset_ne].
  assert (zget l i = None) as ->.
  { apply eq_None_not_Some. rewrite zget_is_Some. tauto. }
  apply eq_None_not_Some. rewrite zget_is_Some, zlen_zset. tauto.
Qed.

Lemma zset_zset_eq l i x y : zset (zset l i x) i y = zset l i y.
Proof. unfold zset. case_match; [apply list_insert_insert_eq|done]. Qed.

Lemma zset_id l i x : zget l i = Some x -> zset l i x = l.
Proof.
  unfold zget, zset. case_match; [|done]. apply list_insert_id.
Qed.

Lemma zget_ext l l' :
  zlen l = zlen l' -> (forall i, 0 <= i < zlen l -> zget l i = zget l' i) ->
  l = l'.
Proof.
  unfold zlen, zget. intros Hlen Heq. apply list_eq. intros i.
  destruct (decide (i < length l)%nat) as [Hi|Hi].
  - specialize (Heq (Z.of_nat i) ltac:(lia)).
    assert ((0 <=? Z.of_nat i) = true) as E by lia. rewrite E in Heq.
    by rewrite Nat2Z.id in Heq.
  - rewrite !lookup_ge_None_2; [done|lia..].
Qed.
End Arrays.

Lemma length_filter_split {A} (P : A -> Prop) `{forall x, Decision (P x)} (l : list A) :
  zlen l = Z.of_nat (length (filter P l)) + Z.of_nat (length (filter (fun x => ~ P x) l)).
Proof.
  unfold zlen. induction l as [|x l IH]; [done|].
  rewrite !list.filter_cons. repeat case_decide; simpl; try tauto; lia.
Qed.

(** Elements, extensions and prefixes of arrays. *)
Lemma zget_elem {A} (l : list A) i x : zget l i = Some x -> x ∈ l.
Proof. unfold zget. case_match; [|done]. apply list_elem_of_lookup_2. Qed.
Lemma elem_zget {A} (l : list A) x : x ∈ l -> exists i, zget l i = Some x.
Proof.
  intros [i Hi]%list_elem_of_lookup. exists (Z.of_nat i). unfold zget.
  destruct (Z.leb_spec 0 (Z.of_nat i)); [|lia]. by rewrite Nat2Z.id.
Qed.
Lemma zget_cons {A} (a : A) l j : zget (a :: l) j = if decide (j = 0) then Some a else zget l (j - 1).
Proof.
  unfold zget. case_decide as E; [by subst|]. destruct (Z.leb_spec 0 j), (Z.leb_spec 0 (j - 1)); try lia; [|done].
  by replace (Z.to_nat j) with (S (Z.to_nat (j - 1))) by lia.
Qed.
Lemma zlen_cons {A} (a : A) l : zlen (a :: l) = zlen l + 1.
Proof. unfold zlen. simpl. lia. Qed.
Lemma zget_snoc {A} (l : list A) x j : zget (l ++ [x]) j = if decide (j = zlen l) then Some x else zget l j.
Proof.
  unfold zget, zlen. destruct (Z.leb_spec 0 j); [|case_decide; [lia|done]]. case_decide as E.
  - subst. rewrite Nat2Z.id. by apply list_lookup_middle.
  - destruct (decide (Z.to_nat j < length l)%nat); [by rewrite lookup_app_l|].
    rewrite !lookup_ge_None_2; [done| |rewrite length_app; simpl]; lia.
Qed.
Lemma zlen_snoc {A} (l : list A) x : zlen (l ++ [x]) = zlen l + 1.
Proof. unfold zlen. rewrite length_app. simpl. lia. Qed.
Lemma seqZ_step i n : 0 <= n -> seqZ i (n + 1) = i :: seqZ (i + 1) n.
Proof. intros. rewrite seqZ_cons by lia. f_equal. unfold Z.succ, Z.pred. f_equal; lia. Qed.
Lemma zlen_app {A} (l1 l2 : list A) : zlen (l1 ++ l2) = zlen l1 + zlen l2.
Proof. unfold zlen. rewrite length_app. lia. Qed.
Lemma zget_take {A} (l : list A) n i : 0 <= i < Z.of_nat n -> zget (take n l) i = zget l i.
Proof. intros. unfold zget. case_match; [|done]. apply lookup_take_lt. lia. Qed.

(** Words of a memory: absent cells read as 0, so that a [gmap] denotes a total
    memory and every content is the denotation of some map. *)
Definition rdw (m : gmap Z Z) (a : Z) : Z := default 0 (m !! a).
Definition wrw (m : gmap Z Z) (a v : Z) : gmap Z Z := <[a := v]> m.

(** Write [v] to every address of [l]. *)
Definition fillw (m : gmap Z Z) (l : list Z) (v : Z) : gmap Z Z :=
  foldr (fun a m' => wrw m' a v) m l.

Lemma rdw_wrw_eq m a v : rdw (wrw m a v) a = v.
Proof. unfold rdw, wrw. by rewrite lookup_insert_eq. Qed.
Lemma rdw_wrw_ne m a b v : a <> b -> rdw (wrw m a v) b = rdw m b.
Proof. unfold rdw, wrw. intros. by rewrite lookup_insert_ne. Qed.
Lemma rdw_fillw_in m l v a : a ∈ l -> rdw (fillw m l v) a = v.
Proof.
  induction l as [|b l IH]; intros Hin; [by apply elem_of_nil in Hin|].
  simpl. destruct (decide (b = a)) as [->|]; [apply rdw_wrw_eq|].
  rewrite rdw_wrw_ne by done. apply IH. set_solver.
Qed.
Lemma rdw_fillw_out m l v a : a ∉ l -> rdw (fillw m l v) a = rdw m a.
Proof.
  induction l as [|b l IH]; intros Hin; [done|].
  simpl. rewrite rdw_wrw_ne by set_solver. apply IH. set_solver.
Qed.

(** Closed facts by evaluation: an equation, or an inequality of [Z]. *)
Ltac by_vm :=
  lazymatch goal with
  | |- _ /\ _ => split; by_vm
  | |- _ <= _ < _ => split; by_vm
  | |- _ < _ < _ => split; by_vm
  | |- _ = _ => vm_compute; reflexivity
  | |- _ => vm_compute; first [reflexivity | discriminate]
  end.

Create HintDb os.
Create Rewrite HintDb os.
#[export] Hint Resolve u32_range zlen_nonneg : os.
#[export] Hint Rewrite @zlen_zset rdw_wrw_eq : os.
#[export] Hint Rewrite @zget_zset_eq @zget_zset_ne rdw_wrw_ne using (lia || done) : os.

(** Run a monadic program one step in a hypothesis or in the goal: unfold the
    monad's operations and split on the first scrutinee. *)
Ltac unfold_m :=
  unfold mbind, M_bind, mret, M_ret, get, gets, modify, panic, leave, ub,
         assertb, deref, when in *; simpl in *.
Ltac run_m :=
  unfold_m; repeat (case_match; simplify_eq/=; unfold_m); simplify_eq/=.

(** Symbolic execution by rewriting: the primitives at the head of a bind. *)
Section Exec.
Context {S : Type}.
Implicit Types (s : S).
Lemma exec_get {B} (k : S -> M S B) s : (get ≫= k) s = k s s.
Proof. done. Qed.
Lemma exec_gets {A B} (f : S -> A) (k : A -> M S B) s : (gets f ≫= k) s = k (f s) s.
Proof. done. Qed.
Lemma exec_modify {B} (f : S -> S) (k : unit -> M S B) s :
  (modify f ≫= k) s = k tt (f s).
Proof. done. Qed.
Lemma exec_mret {A B} (a : A) (k : A -> M S B) s : (mret a ≫= k) s = k a s.
Proof. done. Qed.
Lemma exec_bind {A B C} (m : M S A) (f : A -> M S B) (g : B -> M S C) s :
  ((m ≫= f) ≫= g) s = (m ≫= (fun a => f a ≫= g)) s.
Proof. unfold mbind, M_bind. by destruct (m s). Qed.
Lemma exec_when_true (m : M S unit) s : when true m s = m s.
Proof. done. Qed.
Lemma exec_panic {A B} msg (k : A -> M S B) s : (panic msg ≫= k) s = Panic msg s.
Proof. done. Qed.
End Exec.
Create Rewrite HintDb exec.
#[export] Hint Rewrite @exec_get @exec_gets @exec_modify @exec_mret @exec_bind
  @exec_panic : exec.

(** [exec]: run the primitives; [exec_by H]: run the head call by [H : m s = Ret a s']. *)
Ltac exec := repeat (progress autorewrite with exec; cbv beta).
Tactic Notation "exec_by" constr(H) := rewrite (bind_Ret _ _ _ _ _ H); cbv beta.
Tactic Notation "exec_by" constr(H) "in" hyp(G) :=
  rewrite (bind_Ret _ _ _ _ _ H) in G; cbv beta in G.
(** [exec_call lem]: the same with a lemma whose side conditions are arithmetic
    or in the context. *)
Tactic Notation "exec_call" uconstr(H) :=
  erewrite bind_Ret; [cbv beta|solve [eapply H; first [eassumption | simpl; lia | simpl; eauto]]].
