(* ===== verification/Bytes.v ===== *)
(** * Byte memories

    Both file systems read words out of bytes: a memory is a function from
    addresses to bytes, [word] a little-endian word of it, and [upd8], [upd32]
    the effect of a store. *)
From S2P Require Import Prelude.

(** Little-endian words of a byte memory. *)
Definition word (v : Z -> Z) (a : Z) : Z :=
  v a + 256 * v (a + 1) + 65536 * v (a + 2) + 16777216 * v (a + 3).
Definition upd8 (v : Z -> Z) (a x : Z) : Z -> Z := fun i => if decide (i = a) then u8 x else v i.
Definition upd32 (v : Z -> Z) (a x : Z) : Z -> Z :=
  upd8 (upd8 (upd8 (upd8 v a x) (a + 1) (x / 256)) (a + 2) (x / 65536)) (a + 3) (x / 16777216).

Lemma u8_range x : 0 <= u8 x < 256.
Proof. unfold u8. zlia. Qed.
Lemma word_range v a : (forall i, 0 <= v i < 256) -> is_u32 (word v a).
Proof.
  intros H. unfold word, is_u32. pose proof (H a). pose proof (H (a + 1)).
  pose proof (H (a + 2)). pose proof (H (a + 3)). lia.
Qed.
Lemma word_upd32_eq v a x : is_u32 x -> word (upd32 v a x) a = x.
Proof.
  intros Hx. unfold word, upd32, upd8.
  repeat (case_decide; [try lia|try lia]). unfold u8, is_u32 in *. zlia.
Qed.
Lemma upd32_out v a x i : ~ a <= i <= a + 3 -> upd32 v a x i = v i.
Proof. intros. unfold upd32, upd8. repeat (case_decide; [lia|]). done. Qed.
Lemma word_upd32_ne v a b x : a + 3 < b \/ b + 3 < a -> word (upd32 v a x) b = word v b.
Proof. intros. unfold word. rewrite !upd32_out by lia. done. Qed.
Lemma upd8_out v a x i : i <> a -> upd8 v a x i = v i.
Proof. intros. unfold upd8. by rewrite decide_False. Qed.
Lemma upd8_eq v a x : upd8 v a x a = u8 x.
Proof. unfold upd8. by rewrite decide_True. Qed.
Lemma word_ext v v' a : (forall i, 0 <= i <= 3 -> v' (a + i) = v (a + i)) -> word v' a = word v a.
Proof. intros G. pose proof (G 0 ltac:(lia)) as G0. rewrite Z.add_0_r in G0. unfold word. by rewrite G0, !G by lia. Qed.
Lemma word_zero v a : (forall i, 0 <= i <= 3 -> v (a + i) = 0) -> word v a = 0.
Proof. intros G. pose proof (G 0 ltac:(lia)) as G0. rewrite Z.add_0_r in G0. unfold word. by rewrite G0, !G by lia. Qed.

(** ** Lists of consecutive bytes *)
Lemma fmap_seqZ_ext {A} (g h : Z -> A) a b n :
  (forall i, 0 <= i < n -> g (a + i) = h (b + i)) -> g <$> seqZ a n = h <$> seqZ b n.
Proof.
  destruct (decide (0 <= n)) as [Hn|Hn].
  2: { intros _. unfold seqZ. by replace (Z.to_nat n) with 0%nat by lia. }
  destruct (Z_of_nat_complete n Hn) as [k ->]. clear Hn. revert a b.
  induction k as [|k IH]; intros a b Hgh; [done|]. rewrite Nat2Z.inj_succ in *. unfold Z.succ in *.
  rewrite !seqZ_step by lia. cbn. f_equal.
  - specialize (Hgh 0). rewrite !Z.add_0_r in Hgh. apply Hgh. lia.
  - apply IH. intros i Hi. replace (a + 1 + i) with (a + (i + 1)) by lia.
    replace (b + 1 + i) with (b + (i + 1)) by lia. apply Hgh. lia.
Qed.
Lemma zget_app {A} (l1 l2 : list A) i :
  zget (l1 ++ l2) i = if decide (i < zlen l1) then zget l1 i else zget l2 (i - zlen l1).
Proof.
  unfold zget, zlen. destruct (Z.leb_spec 0 i) as [Hi|Hi].
  - case_decide as H; [by rewrite lookup_app_l by lia|].
    destruct (Z.leb_spec 0 (i - Z.of_nat (length l1))); [|lia].
    rewrite lookup_app_r by lia. f_equal. lia.
  - case_decide; [done|]. destruct (Z.leb_spec 0 (i - Z.of_nat (length l1))); [lia|done].
Qed.
Lemma zget_none {A} (l : list A) i : ~ 0 <= i < zlen l -> zget l i = None.
Proof. intros H. apply eq_None_not_Some. by rewrite zget_is_Some. Qed.
Lemma zlen_take {A} (l : list A) n : 0 <= n <= zlen l -> zlen (take (Z.to_nat n) l) = n.
Proof. unfold zlen. rewrite length_take. lia. Qed.
Lemma zlen_drop {A} (l : list A) n : 0 <= n <= zlen l -> zlen (drop (Z.to_nat n) l) = zlen l - n.
Proof. unfold zlen. rewrite length_drop. lia. Qed.
