(* ===== verification/Mmu.v ===== *)
(** * Paging constants and address arithmetic of the JOS kernel

    [oslab6/inc/mmu.h], [oslab6/inc/memlayout.h], [oslab6/inc/types.h] and
    [oslab6/inc/error.h]: the constants the kernel files use, the macros that
    take a linear address apart and the rounding macros, on 32-bit integers. *)
From S2P Require Import Prelude.

Definition PGSIZE : Z := 4096.
Definition PGSHIFT : Z := 12.
Definition PTXSHIFT : Z := 12.
Definition PDXSHIFT : Z := 22.
Definition NPDENTRIES : Z := 1024.
Definition NPTENTRIES : Z := 1024.
Definition PTSIZE : Z := PGSIZE * NPTENTRIES.

Definition PTE_P : Z := 1.
Definition PTE_W : Z := 2.
Definition PTE_U : Z := 4.
Definition PTE_PWT : Z := 8.
Definition PTE_PCD : Z := 16.
Definition PTE_D : Z := 64.
Definition PTE_AVAIL : Z := 3584.
Definition PTE_SYSCALL : Z := Z.lor PTE_AVAIL (Z.lor PTE_P (Z.lor PTE_W PTE_U)).

(** [inc/memlayout.h] *)
Definition KERNBASE : Z := 4026531840.           (* 0xF0000000 *)
Definition IOPHYSMEM : Z := 655360.              (* 0x0A0000 *)
Definition EXTPHYSMEM : Z := 1048576.            (* 0x100000 *)
Definition KSTACKTOP : Z := KERNBASE.
Definition KSTKSIZE : Z := 8 * PGSIZE.
Definition KSTKGAP : Z := 8 * PGSIZE.
Definition MMIOLIM : Z := KSTACKTOP - PTSIZE.
Definition MMIOBASE : Z := MMIOLIM - PTSIZE.
Definition ULIM : Z := MMIOBASE.
Definition UVPT : Z := ULIM - PTSIZE.
Definition UPAGES : Z := UVPT - PTSIZE.
Definition UENVS : Z := UPAGES - PTSIZE.
Definition UTOP : Z := UENVS.
Definition UXSTACKTOP : Z := UTOP.
Definition USTACKTOP : Z := UTOP - 2 * PGSIZE.
Definition UTEXT : Z := 2 * PTSIZE.
Definition UTEMP : Z := PTSIZE.
Definition PFTEMP : Z := UTEMP + PTSIZE - PGSIZE.
Definition MPENTRY_PADDR : Z := 28672.           (* 0x7000 *)

(** [inc/error.h] *)
Definition E_UNSPECIFIED : Z := 1.
Definition E_BAD_ENV : Z := 2.
Definition E_INVAL : Z := 3.
Definition E_NO_MEM : Z := 4.
Definition E_NO_FREE_ENV : Z := 5.
Definition E_FAULT : Z := 6.
Definition E_IPC_NOT_RECV : Z := 7.
Definition E_EOF : Z := 8.
Definition E_NO_DISK : Z := 9.
Definition E_MAX_OPEN : Z := 10.
Definition E_NOT_FOUND : Z := 11.
Definition E_BAD_PATH : Z := 12.
Definition E_FILE_EXISTS : Z := 13.
Definition E_NOT_EXEC : Z := 14.
Definition E_NOT_SUPP : Z := 15.
Definition MAXERROR : Z := 16.

(** The macros, on a 32-bit address. *)
Definition PGNUM (la : Z) : Z := Z.shiftr (u32 la) PTXSHIFT.
Definition PDX (la : Z) : Z := Z.land (Z.shiftr (u32 la) PDXSHIFT) 1023.
Definition PTX (la : Z) : Z := Z.land (Z.shiftr (u32 la) PTXSHIFT) 1023.
Definition PGOFF (la : Z) : Z := Z.land (u32 la) 4095.
Definition PGADDR (d t o : Z) : Z :=
  u32 (Z.lor (Z.lor (Z.shiftl d PDXSHIFT) (Z.shiftl t PTXSHIFT)) o).
Definition PTE_ADDR (pte : Z) : Z := Z.land (u32 pte) 4294963200. (* ~0xFFF *)

Definition ROUNDDOWN (a n : Z) : Z := let a := u32 a in u32 (a - a `mod` n).
Definition ROUNDUP (a n : Z) : Z := ROUNDDOWN (u32 a + u32 n - 1) n.

Create HintDb mmu.
#[export] Hint Unfold PGSIZE PGSHIFT PTXSHIFT PDXSHIFT NPDENTRIES NPTENTRIES
  PTSIZE KERNBASE IOPHYSMEM EXTPHYSMEM KSTACKTOP KSTKSIZE KSTKGAP MMIOLIM
  MMIOBASE ULIM UVPT UPAGES UENVS UTOP UXSTACKTOP USTACKTOP MPENTRY_PADDR
  UTEXT UTEMP PFTEMP is_u32 u32 : mmu.
(** Arithmetic on layout constants. *)
Ltac mlia := autounfold with mmu in *; zlia.

(** ** The macros as arithmetic *)

Lemma PGNUM_div la : is_u32 la -> PGNUM la = la / 4096.
Proof.
  intros. unfold PGNUM, PTXSHIFT. rewrite u32_id, Z.shiftr_div_pow2 by done.
  done.
Qed.

Lemma PDX_div la : is_u32 la -> PDX la = la / 4194304.
Proof.
  intros H. unfold PDX, PDXSHIFT. rewrite u32_id by done.
  rewrite Z.shiftr_div_pow2 by done.
  change 1023 with (2 ^ 10 - 1). rewrite land_pow2_mod by done.
  unfold is_u32 in H. apply Z.mod_small. change (2 ^ 22) with 4194304.
  change (2 ^ 10) with 1024. zlia.
Qed.

Lemma PTX_div la : is_u32 la -> PTX la = (la / 4096) `mod` 1024.
Proof.
  intros H. unfold PTX, PTXSHIFT. rewrite u32_id by done.
  rewrite Z.shiftr_div_pow2 by done.
  change 1023 with (2 ^ 10 - 1). by rewrite land_pow2_mod by done.
Qed.

Lemma PGOFF_mod la : is_u32 la -> PGOFF la = la `mod` 4096.
Proof.
  intros H. unfold PGOFF. rewrite u32_id by done.
  change 4095 with (2 ^ 12 - 1). by rewrite land_pow2_mod by done.
Qed.

Lemma PTE_ADDR_sub pte : is_u32 pte -> PTE_ADDR pte = pte - pte `mod` 4096.
Proof.
  intros H. unfold PTE_ADDR. rewrite u32_id by done.
  transitivity (Z.ldiff pte (Z.ones 12)).
  - change 4294963200 with (Z.ldiff (Z.ones 32) (Z.ones 12)).
    apply Z.bits_inj'. intros i Hi.
    rewrite Z.land_spec, !Z.ldiff_spec.
    destruct (decide (i < 32)) as [Hlt|Hge].
    + rewrite (Z.ones_spec_low 32) by lia. done.
    + rewrite <-(Z.mod_small pte (2 ^ 32)) by (unfold is_u32 in H; lia).
      by rewrite Z.mod_pow2_bits_high by lia.
  - rewrite Z.ldiff_ones_r, Z.shiftl_mul_pow2, Z.shiftr_div_pow2 by done.
    change (2 ^ 12) with 4096. zlia.
Qed.

Lemma PDX_range la : 0 <= PDX la < 1024.
Proof.
  unfold PDX. change 1023 with (2 ^ 10 - 1). rewrite land_pow2_mod by done.
  change (2 ^ 10) with 1024. zlia.
Qed.
Lemma PTX_range la : 0 <= PTX la < 1024.
Proof.
  unfold PTX. change 1023 with (2 ^ 10 - 1). rewrite land_pow2_mod by done.
  change (2 ^ 10) with 1024. zlia.
Qed.

Lemma PGADDR_add d t o :
  0 <= d < 1024 -> 0 <= t < 1024 -> 0 <= o < 4096 ->
  PGADDR d t o = d * 4194304 + t * 4096 + o.
Proof.
  intros. unfold PGADDR, PDXSHIFT, PTXSHIFT. rewrite !Z.shiftl_mul_pow2 by done.
  change (2 ^ 22) with (2 ^ 10 * 2 ^ 12). rewrite Z.mul_assoc.
  rewrite <-Z.lor_assoc.
  rewrite (lor_disjoint_add t o 12) by (change (2 ^ 12) with 4096; lia).
  replace (d * 2 ^ 10 * 2 ^ 12) with (d * 2 ^ 22) by (change (2 ^ 22) with (2 ^ 10 * 2 ^ 12); lia).
  rewrite lor_disjoint_add by (try done; change (2 ^ 22) with 4194304; change (2 ^ 12) with 4096; lia).
  change (2 ^ 22) with 4194304; change (2 ^ 12) with 4096.
  rewrite u32_id by mlia. lia.
Qed.

Lemma ROUNDDOWN_spec a : is_u32 a -> ROUNDDOWN a PGSIZE = a - a `mod` 4096.
Proof. intros. unfold ROUNDDOWN. rewrite (u32_id a) by done. mlia. Qed.

Lemma ROUNDUP_spec a :
  0 <= a -> a + 4095 < 4294967296 ->
  ROUNDUP a PGSIZE = (a + 4095) / 4096 * 4096.
Proof.
  intros. unfold ROUNDUP. rewrite (u32_id a), (u32_id PGSIZE) by mlia.
  rewrite ROUNDDOWN_spec by mlia. mlia.
Qed.

(** ** Entries *)

Lemma PTE_ADDR_range v : is_u32 v -> is_u32 (PTE_ADDR v) /\ PTE_ADDR v `mod` 4096 = 0.
Proof. intros H. rewrite PTE_ADDR_sub by done. mlia. Qed.

Lemma has_PTE_P_mod v : has v PTE_P = (v `mod` 2 =? 1).
Proof.
  unfold has, PTE_P. change 1 with (2 ^ 1 - 1) at 1. rewrite land_pow2_mod by done.
  change (2 ^ 1) with 2. zlia.
Qed.

(** A page address or'ed with flag bits. *)
Lemma lor_flags p f : 0 <= f < 4096 -> Z.lor (p * 4096) f = p * 4096 + f.
Proof. intros. change 4096 with (2 ^ 12). by apply lor_disjoint_add. Qed.

Lemma lor_range x y n : 0 <= n -> 0 <= x < 2 ^ n -> 0 <= y < 2 ^ n -> 0 <= Z.lor x y < 2 ^ n.
Proof.
  intros Hn Hx Hy. split; [apply Z.lor_nonneg; lia|].
  destruct (decide (Z.lor x y = 0)) as [->|Hne]; [lia|].
  assert (0 < Z.lor x y) by (pose proof (proj2 (Z.lor_nonneg x y)); lia).
  apply Z.log2_lt_pow2; [done|]. rewrite Z.log2_lor by lia.
  destruct (decide (0 < n)); [|replace n with 0 in * by lia; 
    change (2 ^ 0) with 1 in *; replace x with 0 in * by lia; replace y with 0 in * by lia; done].
  apply Z.max_lub_lt; 
    (destruct (decide (0 < x)); destruct (decide (0 < y));
     try replace x with 0 by lia; try replace y with 0 by lia;
     try (apply Z.log2_lt_pow2; lia); simpl; try lia).
Qed.

Lemma flags_range f g : 0 <= f < 4096 -> 0 <= g < 4096 -> 0 <= Z.lor f g < 4096.
Proof. change 4096 with (2 ^ 12). intros. apply lor_range; lia. Qed.

Lemma has_lor_P f : has (Z.lor f PTE_P) PTE_P = true.
Proof.
  unfold has, PTE_P. rewrite Z.land_lor_distr_l.
  destruct (Z.eqb_spec (Z.lor (Z.land f 1) (Z.land 1 1)) 0) as [E|]; [|done].
  apply Z.lor_eq_0_iff in E. by destruct E.
Qed.

(** Entries of page-aligned tables do not overlap. *)
Lemma entry_inj p q i j :
  p `mod` 4096 = 0 -> q `mod` 4096 = 0 -> 0 <= i < 1024 -> 0 <= j < 1024 ->
  p + 4 * i = q + 4 * j -> p = q /\ i = j.
Proof. intros. zlia. Qed.
