(* ===== verification/KState.v ===== *)
(** * The state of the JOS kernel

    The data the kernel files of [oslab6/kern] share: the physical-page table
    of [pmap.c], physical memory, the environment table of [env.c] and the
    per-CPU data of [cpu.h].  A pointer into an array ([struct PageInfo *],
    [struct Env *]) is the index of the element, [None] for NULL; every other
    pointer is its 32-bit address.  Padding fields of the trap frame are left
    out: no code reads them. *)
From S2P Require Import Prelude.

(** [struct PageInfo] ([inc/memlayout.h]). *)
Record PageInfo : Type := MkPageInfo {
  pp_link : option Z;
  pp_ref : Z;
}.

(** [struct PushRegs] and [struct Trapframe] ([inc/trap.h]). *)
Record PushRegs : Type := MkPushRegs {
  reg_edi : Z;
  reg_esi : Z;
  reg_ebp : Z;
  reg_oesp : Z;
  reg_ebx : Z;
  reg_edx : Z;
  reg_ecx : Z;
  reg_eax : Z;
}.

Record Trapframe : Type := MkTrapframe {
  tf_regs : PushRegs;
  tf_es : Z;
  tf_ds : Z;
  tf_trapno : Z;
  tf_err : Z;
  tf_eip : Z;
  tf_cs : Z;
  tf_eflags : Z;
  tf_esp : Z;
  tf_ss : Z;
}.

(** The values of [env_status] and [enum EnvType] ([inc/env.h]). *)
Inductive EnvStatus : Type :=
| ENV_FREE
| ENV_DYING
| ENV_RUNNABLE
| ENV_RUNNING
| ENV_NOT_RUNNABLE.

Inductive EnvType : Type :=
| ENV_TYPE_USER
| ENV_TYPE_FS.

#[export] Instance EnvStatus_eq_dec : EqDecision EnvStatus.
Proof. solve_decision. Defined.
#[export] Instance EnvType_eq_dec : EqDecision EnvType.
Proof. solve_decision. Defined.

(** [struct Env] ([inc/env.h]). *)
Record Env : Type := MkEnv {
  env_tf : Trapframe;
  env_link : option Z;
  env_id : Z;
  env_parent_id : Z;
  env_type : EnvType;
  env_status : EnvStatus;
  env_runs : Z;
  env_cpunum : Z;
  env_pgdir : Z;
  env_pgfault_upcall : Z;
  env_ipc_recving : bool;
  env_ipc_dstva : Z;
  env_ipc_value : Z;
  env_ipc_from : Z;
  env_ipc_perm : Z;
}.

(** The kernel's global variables. *)
Record kstate : Type := MkKstate {
  npages : Z;  (* amount of physical memory, in pages *)
  npages_basemem : Z;  (* amount of base memory, in pages *)
  pages : list PageInfo;  (* the PageInfo array *)
  page_free_list : option Z;  (* head of the free list *)
  mem : gmap Z Z;  (* physical memory: the 32-bit word at each word-aligned address *)
  kern_pgdir : Z;  (* kernel virtual address of the kernel page directory *)
  kend : Z;  (* the linker symbol end *)
  nextfree : Z;  (* boot_alloc's static nextfree, 0 before the first call *)
  mmio_base : Z;  (* mmio_map_region's static base *)
  user_mem_check_addr : Z;  (* first bad address found by user_mem_check *)
  envs : list Env;  (* the environment table *)
  env_free_list : option Z;  (* head of the free environments *)
  cpu_env : list (option Z);  (* cpus[i].cpu_env *)
  cpu_status : list Z;  (* cpus[i].cpu_status *)
  this_cpu : Z;  (* cpunum(): the CPU that is executing *)
  cr3 : Z;  (* page directory in force, physical address *)
  invlpgs : list Z;  (* addresses given to invlpg since boot, latest first *)
  kernel_lock : bool;  (* the big kernel lock is held *)
}.

(** Field updates. *)
Definition with_pp_link (v : option Z) (x : PageInfo) : PageInfo :=
  MkPageInfo v (pp_ref x).
Definition with_pp_ref (v : Z) (x : PageInfo) : PageInfo :=
  MkPageInfo (pp_link x) v.
Definition with_reg_eax (v : Z) (x : PushRegs) : PushRegs :=
  MkPushRegs (reg_edi x) (reg_esi x) (reg_ebp x) (reg_oesp x) (reg_ebx x)
    (reg_edx x) (reg_ecx x) v.
Definition with_tf_regs (v : PushRegs) (x : Trapframe) : Trapframe :=
  MkTrapframe v (tf_es x) (tf_ds x) (tf_trapno x) (tf_err x) (tf_eip x)
    (tf_cs x) (tf_eflags x) (tf_esp x) (tf_ss x).
Definition with_tf_es (v : Z) (x : Trapframe) : Trapframe :=
  MkTrapframe (tf_regs x) v (tf_ds x) (tf_trapno x) (tf_err x) (tf_eip x)
    (tf_cs x) (tf_eflags x) (tf_esp x) (tf_ss x).
Definition with_tf_ds (v : Z) (x : Trapframe) : Trapframe :=
  MkTrapframe (tf_regs x) (tf_es x) v (tf_trapno x) (tf_err x) (tf_eip x)
    (tf_cs x) (tf_eflags x) (tf_esp x) (tf_ss x).
Definition with_tf_trapno (v : Z) (x : Trapframe) : Trapframe :=
  MkTrapframe (tf_regs x) (tf_es x) (tf_ds x) v (tf_err x) (tf_eip x) (tf_cs
    x) (tf_eflags x) (tf_esp x) (tf_ss x).
Definition with_tf_err (v : Z) (x : Trapframe) : Trapframe :=
  MkTrapframe (tf_regs x) (tf_es x) (tf_ds x) (tf_trapno x) v (tf_eip x)
    (tf_cs x) (tf_eflags x) (tf_esp x) (tf_ss x).
Definition with_tf_eip (v : Z) (x : Trapframe) : Trapframe :=
  MkTrapframe (tf_regs x) (tf_es x) (tf_ds x) (tf_trapno x) (tf_err x) v
    (tf_cs x) (tf_eflags x) (tf_esp x) (tf_ss x).
Definition with_tf_cs (v : Z) (x : Trapframe) : Trapframe :=
  MkTrapframe (tf_regs x) (tf_es x) (tf_ds x) (tf_trapno x) (tf_err x)
    (tf_eip x) v (tf_eflags x) (tf_esp x) (tf_ss x).
Definition with_tf_eflags (v : Z) (x : Trapframe) : Trapframe :=
  MkTrapframe (tf_regs x) (tf_es x) (tf_ds x) (tf_trapno x) (tf_err x)
    (tf_eip x) (tf_cs x) v (tf_esp x) (tf_ss x).
Definition with_tf_esp (v : Z) (x : Trapframe) : Trapframe :=
  MkTrapframe (tf_regs x) (tf_es x) (tf_ds x) (tf_trapno x) (tf_err x)
    (tf_eip x) (tf_cs x) (tf_eflags x) v (tf_ss x).
Definition with_tf_ss (v : Z) (x : Trapframe) : Trapframe :=
  MkTrapframe (tf_regs x) (tf_es x) (tf_ds x) (tf_trapno x) (tf_err x)
    (tf_eip x) (tf_cs x) (tf_eflags x) (tf_esp x) v.
Definition with_env_tf (v : Trapframe) (x : Env) : Env :=
  MkEnv v (env_link x) (env_id x) (env_parent_id x) (env_type x) (env_status
    x) (env_runs x) (env_cpunum x) (env_pgdir x) (env_pgfault_upcall x)
    (env_ipc_recving x) (env_ipc_dstva x) (env_ipc_value x) (env_ipc_from x)
    (env_ipc_perm x).
Definition with_env_link (v : option Z) (x : Env) : Env :=
  MkEnv (env_tf x) v (env_id x) (env_parent_id x) (env_type x) (env_status
    x) (env_runs x) (env_cpunum x) (env_pgdir x) (env_pgfault_upcall x)
    (env_ipc_recving x) (env_ipc_dstva x) (env_ipc_value x) (env_ipc_from x)
    (env_ipc_perm x).
Definition with_env_id (v : Z) (x : Env) : Env :=
  MkEnv (env_tf x) (env_link x) v (env_parent_id x) (env_type x) (env_status
    x) (env_runs x) (env_cpunum x) (env_pgdir x) (env_pgfault_upcall x)
    (env_ipc_recving x) (env_ipc_dstva x) (env_ipc_value x) (env_ipc_from x)
    (env_ipc_perm x).
Definition with_env_parent_id (v : Z) (x : Env) : Env :=
  MkEnv (env_tf x) (env_link x) (env_id x) v (env_type x) (env_status x)
    (env_runs x) (env_cpunum x) (env_pgdir x) (env_pgfault_upcall x)
    (env_ipc_recving x) (env_ipc_dstva x) (env_ipc_value x) (env_ipc_from x)
    (env_ipc_perm x).
Definition with_env_type (v : EnvType) (x : Env) : Env :=
  MkEnv (env_tf x) (env_link x) (env_id x) (env_parent_id x) v (env_status
    x) (env_runs x) (env_cpunum x) (env_pgdir x) (env_pgfault_upcall x)
    (env_ipc_recving x) (env_ipc_dstva x) (env_ipc_value x) (env_ipc_from x)
    (env_ipc_perm x).
Definition with_env_status (v : EnvStatus) (x : Env) : Env :=
  MkEnv (env_tf x) (env_link x) (env_id x) (env_parent_id x) (env_type x) v
    (env_runs x) (env_cpunum x) (env_pgdir x) (env_pgfault_upcall x)
    (env_ipc_recving x) (env_ipc_dstva x) (env_ipc_value x) (env_ipc_from x)
    (env_ipc_perm x).
Definition with_env_runs (v : Z) (x : Env) : Env :=
  MkEnv (env_tf x) (env_link x) (env_id x) (env_parent_id x) (env_type x)
    (env_status x) v (env_cpunum x) (env_pgdir x) (env_pgfault_upcall x)
    (env_ipc_recving x) (env_ipc_dstva x) (env_ipc_value x) (env_ipc_from x)
    (env_ipc_perm x).
Definition with_env_cpunum (v : Z) (x : Env) : Env :=
  MkEnv (env_tf x) (env_link x) (env_id x) (env_parent_id x) (env_type x)
    (env_status x) (env_runs x) v (env_pgdir x) (env_pgfault_upcall x)
    (env_ipc_recving x) (env_ipc_dstva x) (env_ipc_value x) (env_ipc_from x)
    (env_ipc_perm x).
Definition with_env_pgdir (v : Z) (x : Env) : Env :=
  MkEnv (env_tf x) (env_link x) (env_id x) (env_parent_id x) (env_type x)
    (env_status x) (env_runs x) (env_cpunum x) v (env_pgfault_upcall x)
    (env_ipc_recving x) (env_ipc_dstva x) (env_ipc_value x) (env_ipc_from x)
    (env_ipc_perm x).
Definition with_env_pgfault_upcall (v : Z) (x : Env) : Env :=
  MkEnv (env_tf x) (env_link x) (env_id x) (env_parent_id x) (env_type x)
    (env_status x) (env_runs x) (env_cpunum x) (env_pgdir x) v
    (env_ipc_recving x) (env_ipc_dstva x) (env_ipc_value x) (env_ipc_from x)
    (env_ipc_perm x).
Definition with_env_ipc_recving (v : bool) (x : Env) : Env :=
  MkEnv (env_tf x) (env_link x) (env_id x) (env_parent_id x) (env_type x)
    (env_status x) (env_runs x) (env_cpunum x) (env_pgdir x)
    (env_pgfault_upcall x) v (env_ipc_dstva x) (env_ipc_value x)
    (env_ipc_from x) (env_ipc_perm x).
Definition with_env_ipc_dstva (v : Z) (x : Env) : Env :=
  MkEnv (env_tf x) (env_link x) (env_id x) (env_parent_id x) (env_type x)
    (env_status x) (env_runs x) (env_cpunum x) (env_pgdir x)
    (env_pgfault_upcall x) (env_ipc_recving x) v (env_ipc_value x)
    (env_ipc_from x) (env_ipc_perm x).
Definition with_env_ipc_value (v : Z) (x : Env) : Env :=
  MkEnv (env_tf x) (env_link x) (env_id x) (env_parent_id x) (env_type x)
    (env_status x) (env_runs x) (env_cpunum x) (env_pgdir x)
    (env_pgfault_upcall x) (env_ipc_recving x) (env_ipc_dstva x) v
    (env_ipc_from x) (env_ipc_perm x).
Definition with_env_ipc_from (v : Z) (x : Env) : Env :=
  MkEnv (env_tf x) (env_link x) (env_id x) (env_parent_id x) (env_type x)
    (env_status x) (env_runs x) (env_cpunum x) (env_pgdir x)
    (env_pgfault_upcall x) (env_ipc_recving x) (env_ipc_dstva x)
    (env_ipc_value x) v (env_ipc_perm x).
Definition with_env_ipc_perm (v : Z) (x : Env) : Env :=
  MkEnv (env_tf x) (env_link x) (env_id x) (env_parent_id x) (env_type x)
    (env_status x) (env_runs x) (env_cpunum x) (env_pgdir x)
    (env_pgfault_upcall x) (env_ipc_recving x) (env_ipc_dstva x)
    (env_ipc_value x) (env_ipc_from x) v.
Definition with_npages (v : Z) (x : kstate) : kstate :=
  MkKstate v (npages_basemem x) (pages x) (page_free_list x) (mem x)
    (kern_pgdir x) (kend x) (nextfree x) (mmio_base x) (user_mem_check_addr
    x) (envs x) (env_free_list x) (cpu_env x) (cpu_status x) (this_cpu x)
    (cr3 x) (invlpgs x) (kernel_lock x).
Definition with_npages_basemem (v : Z) (x : kstate) : kstate :=
  MkKstate (npages x) v (pages x) (page_free_list x) (mem x) (kern_pgdir x)
    (kend x) (nextfree x) (mmio_base x) (user_mem_check_addr x) (envs x)
    (env_free_list x) (cpu_env x) (cpu_status x) (this_cpu x) (cr3 x)
    (invlpgs x) (kernel_lock x).
Definition with_pages (v : list PageInfo) (x : kstate) : kstate :=
  MkKstate (npages x) (npages_basemem x) v (page_free_list x) (mem x)
    (kern_pgdir x) (kend x) (nextfree x) (mmio_base x) (user_mem_check_addr
    x) (envs x) (env_free_list x) (cpu_env x) (cpu_status x) (this_cpu x)
    (cr3 x) (invlpgs x) (kernel_lock x).
Definition with_page_free_list (v : option Z) (x : kstate) : kstate :=
  MkKstate (npages x) (npages_basemem x) (pages x) v (mem x) (kern_pgdir x)
    (kend x) (nextfree x) (mmio_base x) (user_mem_check_addr x) (envs x)
    (env_free_list x) (cpu_env x) (cpu_status x) (this_cpu x) (cr3 x)
    (invlpgs x) (kernel_lock x).
Definition with_mem (v : gmap Z Z) (x : kstate) : kstate :=
  MkKstate (npages x) (npages_basemem x) (pages x) (page_free_list x) v
    (kern_pgdir x) (kend x) (nextfree x) (mmio_base x) (user_mem_check_addr
    x) (envs x) (env_free_list x) (cpu_env x) (cpu_status x) (this_cpu x)
    (cr3 x) (invlpgs x) (kernel_lock x).
Definition with_kern_pgdir (v : Z) (x : kstate) : kstate :=
  MkKstate (npages x) (npages_basemem x) (pages x) (page_free_list x) (mem
    x) v (kend x) (nextfree x) (mmio_base x) (user_mem_check_addr x) (envs
    x) (env_free_list x) (cpu_env x) (cpu_status x) (this_cpu x) (cr3 x)
    (invlpgs x) (kernel_lock x).
Definition with_kend (v : Z) (x : kstate) : kstate :=
  MkKstate (npages x) (npages_basemem x) (pages x) (page_free_list x) (mem
    x) (kern_pgdir x) v (nextfree x) (mmio_base x) (user_mem_check_addr x)
    (envs x) (env_free_list x) (cpu_env x) (cpu_status x) (this_cpu x) (cr3
    x) (invlpgs x) (kernel_lock x).
Definition with_nextfree (v : Z) (x : kstate) : kstate :=
  MkKstate (npages x) (npages_basemem x) (pages x) (page_free_list x) (mem
    x) (kern_pgdir x) (kend x) v (mmio_base x) (user_mem_check_addr x) (envs
    x) (env_free_list x) (cpu_env x) (cpu_status x) (this_cpu x) (cr3 x)
    (invlpgs x) (kernel_lock x).
Definition with_mmio_base (v : Z) (x : kstate) : kstate :=
  MkKstate (npages x) (npages_basemem x) (pages x) (page_free_list x) (mem
    x) (kern_pgdir x) (kend x) (nextfree x) v (user_mem_check_addr x) (envs
    x) (env_free_list x) (cpu_env x) (cpu_status x) (this_cpu x) (cr3 x)
    (invlpgs x) (kernel_lock x).
Definition with_user_mem_check_addr (v : Z) (x : kstate) : kstate :=
  MkKstate (npages x) (npages_basemem x) (pages x) (page_free_list x) (mem
    x) (kern_pgdir x) (kend x) (nextfree x) (mmio_base x) v (envs x)
    (env_free_list x) (cpu_env x) (cpu_status x) (this_cpu x) (cr3 x)
    (invlpgs x) (kernel_lock x).
Definition with_envs (v : list Env) (x : kstate) : kstate :=
  MkKstate (npages x) (npages_basemem x) (pages x) (page_free_list x) (mem
    x) (kern_pgdir x) (kend x) (nextfree x) (mmio_base x)
    (user_mem_check_addr x) v (env_free_list x) (cpu_env x) (cpu_status x)
    (this_cpu x) (cr3 x) (invlpgs x) (kernel_lock x).
Definition with_env_free_list (v : option Z) (x : kstate) : kstate :=
  MkKstate (npages x) (npages_basemem x) (pages x) (page_free_list x) (mem
    x) (kern_pgdir x) (kend x) (nextfree x) (mmio_base x)
    (user_mem_check_addr x) (envs x) v (cpu_env x) (cpu_status x) (this_cpu
    x) (cr3 x) (invlpgs x) (kernel_lock x).
Definition with_cpu_env (v : list (option Z)) (x : kstate) : kstate :=
  MkKstate (npages x) (npages_basemem x) (pages x) (page_free_list x) (mem
    x) (kern_pgdir x) (kend x) (nextfree x) (mmio_base x)
    (user_mem_check_addr x) (envs x) (env_free_list x) v (cpu_status x)
    (this_cpu x) (cr3 x) (invlpgs x) (kernel_lock x).
Definition with_cpu_status (v : list Z) (x : kstate) : kstate :=
  MkKstate (npages x) (npages_basemem x) (pages x) (page_free_list x) (mem
    x) (kern_pgdir x) (kend x) (nextfree x) (mmio_base x)
    (user_mem_check_addr x) (envs x) (env_free_list x) (cpu_env x) v
    (this_cpu x) (cr3 x) (invlpgs x) (kernel_lock x).
Definition with_this_cpu (v : Z) (x : kstate) : kstate :=
  MkKstate (npages x) (npages_basemem x) (pages x) (page_free_list x) (mem
    x) (kern_pgdir x) (kend x) (nextfree x) (mmio_base x)
    (user_mem_check_addr x) (envs x) (env_free_list x) (cpu_env x)
    (cpu_status x) v (cr3 x) (invlpgs x) (kernel_lock x).
Definition with_cr3 (v : Z) (x : kstate) : kstate :=
  MkKstate (npages x) (npages_basemem x) (pages x) (page_free_list x) (mem
    x) (kern_pgdir x) (kend x) (nextfree x) (mmio_base x)
    (user_mem_check_addr x) (envs x) (env_free_list x) (cpu_env x)
    (cpu_status x) (this_cpu x) v (invlpgs x) (kernel_lock x).
Definition with_invlpgs (v : list Z) (x : kstate) : kstate :=
  MkKstate (npages x) (npages_basemem x) (pages x) (page_free_list x) (mem
    x) (kern_pgdir x) (kend x) (nextfree x) (mmio_base x)
    (user_mem_check_addr x) (envs x) (env_free_list x) (cpu_env x)
    (cpu_status x) (this_cpu x) (cr3 x) v (kernel_lock x).
Definition with_kernel_lock (v : bool) (x : kstate) : kstate :=
  MkKstate (npages x) (npages_basemem x) (pages x) (page_free_list x) (mem
    x) (kern_pgdir x) (kend x) (nextfree x) (mmio_base x)
    (user_mem_check_addr x) (envs x) (env_free_list x) (cpu_env x)
    (cpu_status x) (this_cpu x) (cr3 x) (invlpgs x) v.

(** Zeroed structures, as in a fresh BSS or after [memset]. *)
Definition zero_regs : PushRegs := MkPushRegs 0 0 0 0 0 0 0 0.
Definition zero_tf : Trapframe := MkTrapframe zero_regs 0 0 0 0 0 0 0 0 0.
Definition zero_env : Env :=
  MkEnv zero_tf None 0 0 ENV_TYPE_USER ENV_FREE 0 0 0 0 false 0 0 0 0.
