(* ===== verification/Pmap.v ===== *)
(** * The physical page allocator of JOS ([oslab6/kern/pmap.c], [pmap.h])

    Memory detection, the boot-time allocator, the [PageInfo] array and the
    free list threaded through it ([page_init], [page_alloc], [page_free],
    [page_decref]), and the free-list reordering and checks of
    [check_page_free_list].  [alloc_ok s l] is the allocator's invariant with
    its abstract state: [l] is the stack of free pages. *)
From S2P Require Import Prelude.
From S2P Require Import Mmu.
From S2P Require Import KState.

(** ** Memory detection *)

(** [cmos] is the content of the CMOS RAM that [mc146818_read] reads through
    the RTC ports, a byte per register. *)
Section Detect.
Variable cmos : Z -> Z.

Definition NVRAM_BASELO : Z := 21.
Definition NVRAM_EXTLO : Z := 23.
Definition NVRAM_EXT16LO : Z := 52.

Definition mc146818_read (reg : Z) : Z := u8 (cmos reg).

Definition nvram_read (r : Z) : Z :=
  Z.lor (mc146818_read r) (Z.shiftl (mc146818_read (r + 1)) 8).

Definition i386_detect_memory : M kstate unit :=
  let basemem := u32 (nvram_read NVRAM_BASELO) in
  let extmem := u32 (nvram_read NVRAM_EXTLO) in
  let ext16mem := u32 (nvram_read NVRAM_EXT16LO * 64) in
  let totalmem :=
    if negb (ext16mem =? 0) then u32 (16 * 1024 + ext16mem)
    else if negb (extmem =? 0) then u32 (1 * 1024 + extmem)
    else basemem in
  modify (with_npages (totalmem / (PGSIZE / 1024))) ;;
  modify (with_npages_basemem (basemem / (PGSIZE / 1024))).
End Detect.

(** ** Addresses and pages ([kern/pmap.h]) *)

Definition PADDR (kva : Z) : M kstate Z :=
  if kva <? KERNBASE then panic "PADDR called with invalid kva"
  else mret (kva - KERNBASE).

Definition KADDR (pa : Z) : M kstate Z :=
  n ← gets npages;
  if n <=? PGNUM pa then panic "KADDR called with invalid pa"
  else mret (u32 (pa + KERNBASE)).

Definition page2pa (pp : Z) : Z := u32 (Z.shiftl pp PGSHIFT).

Definition pa2page (pa : Z) : M kstate Z :=
  n ← gets npages;
  if n <=? PGNUM pa then panic "pa2page called with invalid pa"
  else mret (PGNUM pa).

Definition page2kva (pp : Z) : M kstate Z := KADDR (page2pa pp).

(** A 32-bit load and store at a kernel virtual address of the region that maps
    physical memory at KERNBASE. *)
Definition ld32 (kva : Z) : M kstate Z :=
  if kva <? KERNBASE then ub else gets (fun s => rdw (mem s) (kva - KERNBASE)).
Definition st32 (kva v : Z) : M kstate unit :=
  if kva <? KERNBASE then ub
  else modify (fun s => with_mem (wrw (mem s) (kva - KERNBASE) v) s).

(** The word addresses of the page at [a], and [memset(kva, c, PGSIZE)] on it. *)
Definition page_words (a : Z) : list Z := (fun i => a + 4 * i) <$> seqZ 0 1024.
Definition memset_page (kva c : Z) : M kstate unit :=
  let b := u8 c in
  let w := Z.lor (Z.lor (Z.shiftl b 24) (Z.shiftl b 16)) (Z.lor (Z.shiftl b 8) b) in
  if kva <? KERNBASE then ub
  else modify (fun s => with_mem (fillw (mem s) (page_words (kva - KERNBASE)) w) s).

(** [pp->f], [pp->f = v]: accesses to the [pages] array. *)
Definition get_page (pp : Z) : M kstate PageInfo :=
  s ← get; deref (zget (pages s) pp).
Definition set_page (pp : Z) (pi : PageInfo) : M kstate unit :=
  _ ← get_page pp;
  modify (fun s => with_pages (zset (pages s) pp pi) s).

(** ** The boot-time allocator *)

Definition boot_alloc (n : Z) : M kstate Z :=
  s ← get;
  when (nextfree s =? 0) (modify (with_nextfree (ROUNDUP (kend s) PGSIZE))) ;;
  result ← gets nextfree;
  modify (with_nextfree (ROUNDUP (u32 (result + n)) PGSIZE)) ;;
  mret result.

(** ** The page allocator *)

Definition page_init : M kstate unit :=
  let io_hole_start_page := IOPHYSMEM / PGSIZE in
  brk ← boot_alloc 0;
  pa ← PADDR brk;
  let kernel_end_page := pa / PGSIZE in
  n ← gets npages;
  for_each (seqZ 0 n) (fun i =>
    if i =? 0 then set_page i (MkPageInfo None 1)
    else if (io_hole_start_page <=? i) && (i <? kernel_end_page) then
      set_page i (MkPageInfo None 1)
    else if i =? MPENTRY_PADDR / PGSIZE then set_page i (MkPageInfo None 1)
    else
      head ← gets page_free_list;
      set_page i (MkPageInfo head 0) ;;
      modify (with_page_free_list (Some i))).

Definition ALLOC_ZERO : Z := 1.

Definition page_alloc (alloc_flags : Z) : M kstate (option Z) :=
  ret ← gets page_free_list;
  match ret with
  | None => mret None
  | Some pp =>
      pi ← get_page pp;
      modify (with_page_free_list (pp_link pi)) ;;
      set_page pp (with_pp_link None pi) ;;
      when (has alloc_flags ALLOC_ZERO)
        (kva ← page2kva pp; memset_page kva 0) ;;
      mret (Some pp)
  end.

Definition page_free (pp : Z) : M kstate unit :=
  pi ← get_page pp;
  if negb (pp_ref pi =? 0) || negb (bool_decide (pp_link pi = None)) then
    panic "page_free: pp->pp_ref is nonzero or pp->pp_link is not NULL"
  else
    head ← gets page_free_list;
    set_page pp (with_pp_link head pi) ;;
    modify (with_page_free_list (Some pp)).

Definition page_decref (pp : Z) : M kstate unit :=
  pi ← get_page pp;
  let r := u16 (pp_ref pi - 1) in
  set_page pp (with_pp_ref r pi) ;;
  if r =? 0 then page_free pp else mret tt.

(** [pp->pp_ref++] on a [uint16_t]. *)
Definition page_incref (pp : Z) : M kstate unit :=
  pi ← get_page pp;
  set_page pp (with_pp_ref (u16 (pp_ref pi + 1)) pi).

#[global] Arguments PADDR : simpl never.
#[global] Arguments KADDR : simpl never.
#[global] Arguments pa2page : simpl never.
#[global] Arguments page2kva : simpl never.
#[global] Arguments page2pa : simpl never.
#[global] Arguments ld32 : simpl never.
#[global] Arguments st32 : simpl never.
#[global] Arguments memset_page : simpl never.
#[global] Arguments get_page : simpl never.
#[global] Arguments set_page : simpl never.
#[global] Arguments boot_alloc : simpl never.
#[global] Arguments page_alloc : simpl never.
#[global] Arguments page_free : simpl never.
#[global] Arguments page_decref : simpl never.
#[global] Arguments page_incref : simpl never.

(** ** The free-list checks *)

(** The cells the reordering loop of [check_page_free_list] stores through its
    two tail pointers [tp[0]], [tp[1]]: the locals [pp1], [pp2] and the
    [pp_link] field of a page. *)
Inductive fl_cell : Type := CPp1 | CPp2 | CLink (p : Z).

Record fl_locals : Type := MkFl {
  fl_tp0 : fl_cell; fl_tp1 : fl_cell; fl_pp1 : option Z; fl_pp2 : option Z }.

Definition store_cell (c : fl_cell) (v : option Z) (x : fl_locals)
  : M kstate fl_locals :=
  match c with
  | CPp1 => mret (MkFl (fl_tp0 x) (fl_tp1 x) v (fl_pp2 x))
  | CPp2 => mret (MkFl (fl_tp0 x) (fl_tp1 x) (fl_pp1 x) v)
  | CLink p =>
      pi ← get_page p; set_page p (with_pp_link v pi) ;; mret x
  end.

(** The loop over the free list; [fuel] bounds the number of nodes. *)
Fixpoint relink_loop (fuel : nat) (pdx_limit : Z) (pp : option Z)
    (x : fl_locals) : M kstate fl_locals :=
  match pp, fuel with
  | None, _ => mret x
  | Some _, O => ub
  | Some p, S fuel' =>
      let pagetype := pdx_limit <=? PDX (page2pa p) in
      x' ← store_cell (if pagetype then fl_tp1 x else fl_tp0 x) (Some p) x;
      pi ← get_page p;
      relink_loop fuel' pdx_limit (pp_link pi)
        (if pagetype then MkFl (fl_tp0 x') (CLink p) (fl_pp1 x') (fl_pp2 x')
         else MkFl (CLink p) (fl_tp1 x') (fl_pp1 x') (fl_pp2 x'))
  end.

Definition relink_low_first (pdx_limit : Z) : M kstate unit :=
  s ← get;
  x ← relink_loop (length (pages s)) pdx_limit (page_free_list s)
        (MkFl CPp1 CPp2 None None);
  x ← store_cell (fl_tp1 x) None x;
  x ← store_cell (fl_tp0 x) (fl_pp2 x) x;
  modify (with_page_free_list (fl_pp1 x)).

(** A [for (pp = page_free_list; pp; pp = pp->pp_link)] loop whose body does not
    touch the list. *)
Fixpoint for_free_list (fuel : nat) (pp : option Z) (body : Z -> M kstate unit)
  : M kstate unit :=
  match pp, fuel with
  | None, _ => mret tt
  | Some _, O => ub
  | Some p, S fuel' =>
      body p ;; pi ← get_page p; for_free_list fuel' (pp_link pi) body
  end.

Definition is_low (pdx_limit p : Z) : bool := PDX (page2pa p) <? pdx_limit.

(** The asserts on one page of the free list; the alignment assert
    [((char * ) pp - (char * ) pages) % sizeof( *pp) == 0] holds of every index. *)
Definition check_free_page (first_free_page pp : Z) : M kstate unit :=
  s ← get;
  assertb "pp >= pages" (0 <=? pp) ;;
  assertb "pp < pages + npages" (pp <? npages s) ;;
  assertb "page2pa(pp) != 0" (negb (page2pa pp =? 0)) ;;
  assertb "page2pa(pp) != IOPHYSMEM" (negb (page2pa pp =? IOPHYSMEM)) ;;
  assertb "page2pa(pp) != EXTPHYSMEM - PGSIZE"
    (negb (page2pa pp =? EXTPHYSMEM - PGSIZE)) ;;
  assertb "page2pa(pp) != EXTPHYSMEM" (negb (page2pa pp =? EXTPHYSMEM)) ;;
  (if page2pa pp <? EXTPHYSMEM then mret tt
   else kva ← page2kva pp; assertb "page2kva(pp) >= first_free_page"
                             (first_free_page <=? kva)) ;;
  assertb "page2pa(pp) != MPENTRY_PADDR" (negb (page2pa pp =? MPENTRY_PADDR)).

(** The checking loop, with its counters [nfree_basemem] and [nfree_extmem]. *)
Fixpoint check_loop (fuel : nat) (first_free_page : Z) (pp : option Z)
    (nbase next : Z) : M kstate (Z * Z) :=
  match pp, fuel with
  | None, _ => mret (nbase, next)
  | Some _, O => ub
  | Some p, S fuel' =>
      check_free_page first_free_page p ;;
      pi ← get_page p;
      if page2pa p <? EXTPHYSMEM
      then check_loop fuel' first_free_page (pp_link pi) (nbase + 1) next
      else check_loop fuel' first_free_page (pp_link pi) nbase (next + 1)
  end.

Definition check_page_free_list (only_low_memory : bool) : M kstate unit :=
  let pdx_limit := if only_low_memory then 1 else NPDENTRIES in
  head ← gets page_free_list;
  match head with
  | None => panic "'page_free_list' is a null pointer!"
  | Some _ =>
      when only_low_memory (relink_low_first pdx_limit) ;;
      s ← get;
      let fuel := length (pages s) in
      for_free_list fuel (page_free_list s) (fun pp =>
        when (is_low pdx_limit pp)
          (kva ← page2kva pp;
           modify (fun s => with_mem
             (fillw (mem s) ((fun i => kva - KERNBASE + 4 * i) <$> seqZ 0 32)
                2543294359) s))) ;;                (* memset(.., 0x97, 128) *)
      first_free_page ← boot_alloc 0;
      '(nbase, next) ← check_loop fuel first_free_page (page_free_list s) 0 0;
      assertb "nfree_basemem > 0" (0 <? nbase) ;;
      assertb "nfree_extmem > 0" (0 <? next)
  end.

(** ** The invariant *)

(** [chain ps h l]: following [pp_link] from [h] visits exactly [l]. *)
Fixpoint chain (ps : list PageInfo) (h : option Z) (l : list Z) : Prop :=
  match l with
  | [] => h = None
  | p :: l' => h = Some p /\ exists pi, zget ps p = Some pi /\ chain ps (pp_link pi) l'
  end.

(** [npages <= 65536]: the kernel maps at most 256MB at KERNBASE. *)
Record alloc_ok (s : kstate) (l : list Z) : Prop := {
  ao_len : zlen (pages s) = npages s;
  ao_npages : npages s <= 65536;
  ao_chain : chain (pages s) (page_free_list s) l;
  ao_nodup : NoDup l;
  ao_free : forall p, p ∈ l -> exists pi, zget (pages s) p = Some pi /\ pp_ref pi = 0;
  ao_used : forall p pi, zget (pages s) p = Some pi -> p ∉ l -> pp_link pi = None
}.

Lemma chain_ext ps ps' h l :
  (forall p, p ∈ l -> zget ps' p = zget ps p) -> chain ps h l -> chain ps' h l.
Proof.
  revert h. induction l as [|p l IH]; intros h Heq; [done|].
  intros (-> & pi & Hp & Hl). split; [done|]. exists pi.
  split; [rewrite Heq by set_solver; done|]. apply IH; [set_solver|done].
Qed.

Lemma chain_zset ps h l p pi : p ∉ l -> chain ps h l -> chain (zset ps p pi) h l.
Proof. intros Hp. apply chain_ext. intros q Hq. apply zget_zset_ne. set_solver. Qed.

Lemma chain_head ps h l : chain ps h l -> h = head l.
Proof. destruct l; [done|]. by intros [-> _]. Qed.

Lemma chain_in_range ps h l p : chain ps h l -> p ∈ l -> 0 <= p < zlen ps.
Proof.
  revert h. induction l as [|q l IH]; intros h; [by intros _ ?%elem_of_nil|].
  intros (-> & pi & Hq & Hl) [->|Hp]%elem_of_cons; [by eapply zget_Some_range|].
  by eapply IH.
Qed.

Lemma page2pa_mul p : 0 <= p < 65536 -> page2pa p = p * 4096.
Proof.
  intros. unfold page2pa, PGSHIFT. rewrite Z.shiftl_mul_pow2 by done.
  apply u32_id. unfold is_u32. change (2 ^ 12) with 4096. lia.
Qed.

Lemma KADDR_ok s pa :
  is_u32 pa -> PGNUM pa < npages s -> npages s <= 65536 ->
  KADDR pa s = Ret (pa + KERNBASE) s.
Proof.
  intros Hpa Hlt Hmax. unfold KADDR. unfold_m.
  destruct (Z.leb_spec (npages s) (PGNUM pa)); [lia|].
  rewrite PGNUM_div in * by done. rewrite u32_id; [done|]. mlia.
Qed.

Lemma page2kva_ok s p :
  0 <= p < npages s -> npages s <= 65536 ->
  page2kva p s = Ret (p * 4096 + KERNBASE) s.
Proof.
  intros. unfold page2kva. rewrite page2pa_mul by lia.
  apply KADDR_ok; [mlia| |done]. rewrite PGNUM_div by mlia. mlia.
Qed.

Lemma pa2page_ok s pa :
  is_u32 pa -> PGNUM pa < npages s -> pa2page pa s = Ret (pa / 4096) s.
Proof.
  intros Hpa Hlt. unfold pa2page. unfold_m.
  destruct (Z.leb_spec (npages s) (PGNUM pa)); [lia|].
  by rewrite PGNUM_div.
Qed.

Lemma set_page_ok s p pi :
  0 <= p < zlen (pages s) ->
  set_page p pi s = Ret tt (with_pages (zset (pages s) p pi) s).
Proof.
  intros [x Hx]%zget_in_range. unfold set_page, get_page. unfold_m.
  by rewrite Hx.
Qed.

Lemma get_page_ok s p pi :
  zget (pages s) p = Some pi -> get_page p s = Ret pi s.
Proof. unfold get_page. unfold_m. by intros ->. Qed.

(** The state after [page_alloc] popped [p] off [p :: l], and after [page_free]
    pushed [p]. *)
Definition alloc_st (flags p : Z) (l : list Z) (s : kstate) : kstate :=
  let s1 := with_page_free_list (head l)
              (with_pages (zset (pages s) p (MkPageInfo None 0)) s) in
  if has flags ALLOC_ZERO
  then with_mem (fillw (mem s) (page_words (p * 4096)) 0) s1 else s1.

Definition free_st (p : Z) (s : kstate) : kstate :=
  with_page_free_list (Some p)
    (with_pages (zset (pages s) p (MkPageInfo (page_free_list s) 0)) s).

Lemma page_alloc_nil s flags : alloc_ok s [] -> page_alloc flags s = Ret None s.
Proof. intros Hok. unfold page_alloc. unfold_m. by rewrite (ao_chain _ _ Hok). Qed.

Lemma page_alloc_cons s flags p l :
  alloc_ok s (p :: l) -> page_alloc flags s = Ret (Some p) (alloc_st flags p l s).
Proof.
  intros Hok. destruct (ao_chain _ _ Hok) as (Hh & pi & Hpi & Hl).
  destruct (ao_free _ _ Hok p) as (pi' & Hpi' & Href); [set_solver|]. simplify_eq.
  pose proof (zget_Some_range _ _ _ Hpi) as Hr.
  pose proof (ao_len _ _ Hok). pose proof (ao_npages _ _ Hok).
  unfold page_alloc, alloc_st. exec. rewrite Hh.
  exec_by (get_page_ok s p pi Hpi). exec.
  exec_by (set_page_ok (with_page_free_list (pp_link pi) s) p
             (with_pp_link None pi) Hr).
  rewrite <-(chain_head _ _ _ Hl). unfold with_pp_link. rewrite Href.
  destruct (has flags ALLOC_ZERO); [|done]. unfold when. exec.
  exec_call page2kva_ok.
  unfold memset_page.
  destruct (Z.ltb_spec (p * 4096 + KERNBASE) KERNBASE); [lia|]. exec.
  by replace (p * 4096 + KERNBASE - KERNBASE) with (p * 4096) by lia.
Qed.

(** Changing one page outside the list, and pushing a page, keep [alloc_ok]. *)
Lemma alloc_ok_push s s' p l :
  alloc_ok s l -> p ∉ l -> 0 <= p < npages s -> npages s' = npages s ->
  page_free_list s' = Some p ->
  pages s' = zset (pages s) p (MkPageInfo (page_free_list s) 0) ->
  alloc_ok s' (p :: l).
Proof.
  intros Hok Hp Hr Hn Hfl Hpg. destruct Hok as [Hlen Hmax Hch Hnd Hfree Hused].
  assert (0 <= p < zlen (pages s)) as Hr' by lia.
  split; rewrite ?Hpg, ?Hn, ?zlen_zset; try done.
  - rewrite Hfl. split; [done|]. eexists. rewrite zget_zset_eq by done.
    split; [done|]. by apply chain_zset.
  - by constructor.
  - intros q [->|Hq]%elem_of_cons.
    + eexists. by rewrite zget_zset_eq.
    + rewrite zget_zset_ne by (intros ->; done). by apply Hfree.
  - intros q pi Hq [Hqp Hql]%not_elem_of_cons.
    rewrite zget_zset_ne in Hq by done. by eapply Hused.
Qed.

Lemma alloc_ok_pop s s' p l :
  alloc_ok s (p :: l) -> npages s' = npages s -> page_free_list s' = head l ->
  (exists r, pages s' = zset (pages s) p (MkPageInfo None r)) -> alloc_ok s' l.
Proof.
  intros Hok Hn Hfl (r & Hpg). destruct Hok as [Hlen Hmax Hch Hnd Hfree Hused].
  apply list.NoDup_cons in Hnd as [Hp Hnd]. destruct Hch as (Hh & pi & Hpi & Hl).
  split; rewrite ?Hpg, ?Hn, ?zlen_zset; try done.
  - rewrite Hfl, <-(chain_head _ _ _ Hl). by apply chain_zset.
  - intros q Hq. rewrite zget_zset_ne by (intros ->; done).
    apply Hfree. set_solver.
  - intros q qi Hq Hql. rewrite zget_zset in Hq. case_decide as D.
    + by simplify_eq.
    + eapply Hused; [done|]. apply not_elem_of_cons. split; [|done].
      intros ->. apply D. split; [done|]. by eapply zget_Some_range.
Qed.

Lemma alloc_ok_upd s s' l p pi :
  alloc_ok s l -> p ∉ l -> npages s' = npages s ->
  page_free_list s' = page_free_list s -> pages s' = zset (pages s) p pi ->
  pp_link pi = None -> alloc_ok s' l.
Proof.
  intros Hok Hp Hn Hfl Hpg Hli. destruct Hok as [Hlen Hmax Hch Hnd Hfree Hused].
  split; rewrite ?Hpg, ?Hn, ?Hfl, ?zlen_zset; try done.
  - by apply chain_zset.
  - intros q Hq. rewrite zget_zset_ne by (intros ->; done). by apply Hfree.
  - intros q qi Hq Hql. rewrite zget_zset in Hq. case_decide as D.
    + by simplify_eq.
    + by eapply Hused.
Qed.

Lemma alloc_ok_same s s' l :
  alloc_ok s l -> npages s' = npages s -> pages s' = pages s ->
  page_free_list s' = page_free_list s -> alloc_ok s' l.
Proof.
  intros [Hlen Hmax Hch Hnd Hfree Hused] Hn Hpg Hfl.
  split; rewrite ?Hn, ?Hpg, ?Hfl; done.
Qed.

Lemma alloc_st_pages flags p l s :
  pages (alloc_st flags p l s) = zset (pages s) p (MkPageInfo None 0).
Proof. unfold alloc_st. by case_match. Qed.
Lemma alloc_st_npages flags p l s : npages (alloc_st flags p l s) = npages s.
Proof. unfold alloc_st. by case_match. Qed.
Lemma alloc_st_free_list flags p l s :
  page_free_list (alloc_st flags p l s) = head l.
Proof. unfold alloc_st. by case_match. Qed.

Lemma alloc_st_ok s flags p l :
  alloc_ok s (p :: l) -> alloc_ok (alloc_st flags p l s) l.
Proof.
  intros Hok. eapply alloc_ok_pop; [done|..].
  - apply alloc_st_npages.
  - apply alloc_st_free_list.
  - eexists. apply alloc_st_pages.
Qed.

Lemma page_free_ok s p l :
  alloc_ok s l -> p ∉ l -> (exists li, zget (pages s) p = Some (MkPageInfo li 0)) ->
  page_free p s = Ret tt (free_st p s).
Proof.
  intros Hok Hp [li Hpi]. pose proof (ao_used _ _ Hok _ _ Hpi Hp) as Hl.
  simpl in Hl. subst li. unfold page_free. exec_by (get_page_ok s p _ Hpi).
  simpl. exec. apply zget_Some_range in Hpi. exec_call set_page_ok. done.
Qed.

Lemma free_st_ok s p l :
  alloc_ok s l -> p ∉ l -> 0 <= p < npages s -> alloc_ok (free_st p s) (p :: l).
Proof. intros Hok Hp Hr. by apply (alloc_ok_push s). Qed.

(** ** Initialisation *)

(** The pages [page_init] keeps out of the free list, when the first page after
    the kernel is [kernel_end_page]: page 0, the IO hole with the kernel, and the
    page of the AP startup code. *)
Definition reserved (kernel_end_page i : Z) : bool :=
  (i =? 0) || ((160 <=? i) && (i <? kernel_end_page)) || (i =? 7).

Definition init_free (kernel_end_page n : Z) : list Z :=
  rev (filter (fun i => reserved kernel_end_page i = false) (seqZ 0 n)).

Lemma boot_alloc_ok n s :
  let brk := if nextfree s =? 0 then ROUNDUP (kend s) PGSIZE else nextfree s in
  boot_alloc n s = Ret brk (with_nextfree (ROUNDUP (u32 (brk + n)) PGSIZE) s).
Proof. unfold boot_alloc. exec. by destruct (nextfree s =? 0). Qed.

(** The loop invariant of [page_init] after the pages [pre]. *)
Record init_inv (ke : Z) (s0 : kstate) (pre : list Z) (s : kstate) : Prop := {
  ii_npages : npages s = npages s0;
  ii_nextfree : nextfree s = nextfree s0;
  ii_kend : kend s = kend s0;
  ii_len : zlen (pages s) = zlen (pages s0);
  ii_chain : chain (pages s) (page_free_list s)
               (rev (filter (fun i => reserved ke i = false) pre));
  ii_ref : forall i, i ∈ pre -> exists li,
    zget (pages s) i = Some (MkPageInfo li (if reserved ke i then 1 else 0)) /\
    (reserved ke i -> li = None)
}.

Lemma init_inv_step ke s0 pre i s pi :
  init_inv ke s0 pre s -> i ∉ pre -> 0 <= i < zlen (pages s0) ->
  pp_ref pi = (if reserved ke i then 1 else 0) ->
  pp_link pi = (if reserved ke i then None else page_free_list s) ->
  forall s', npages s' = npages s -> nextfree s' = nextfree s -> kend s' = kend s ->
  pages s' = zset (pages s) i pi ->
  page_free_list s' = (if reserved ke i then page_free_list s else Some i) ->
  init_inv ke s0 (pre ++ [i]) s'.
Proof.
  intros [Hn Hnf Hke Hlen Hch Href] Hi Hr Hpr Hpl s' Hn' Hnf' Hke' Hpg Hfl.
  split; rewrite ?Hpg, ?zlen_zset; [congruence..| |].
  - rewrite list.filter_app, rev_app_distr, Hfl.
    assert (i ∉ rev (filter (λ i, reserved ke i = false) pre)) as Hnot.
    { rewrite list_elem_of_In, <-in_rev, <-list_elem_of_In, list_elem_of_filter. tauto. }
    destruct (reserved ke i) eqn:E; rewrite list.filter_cons, E;
      case_decide as D; try done; simpl.
    + by apply chain_zset.
    + split; [done|]. exists pi. rewrite zget_zset_eq by lia.
      split; [done|]. rewrite Hpl. by apply chain_zset.
  - intros j [Hj|Hj%list_elem_of_singleton]%elem_of_app.
    + rewrite zget_zset_ne by (intros ->; done). by apply Href.
    + subst j. destruct pi as [li r]; simpl in *. exists li.
      rewrite zget_zset_eq by lia. split; [by rewrite Hpr|].
      intros E. rewrite Hpl. by destruct (reserved ke i).
Qed.

Lemma page_init_wp s :
  let brk := if nextfree s =? 0 then ROUNDUP (kend s) PGSIZE else nextfree s in
  let ke := (brk - KERNBASE) / PGSIZE in
  zlen (pages s) = npages s -> page_free_list s = None -> KERNBASE <= brk ->
  wp page_init (fun _ s' =>
    init_inv ke (with_nextfree (ROUNDUP (u32 (brk + 0)) PGSIZE) s)
      (seqZ 0 (npages s)) s') s.
Proof.
  intros brk ke Hlen Hfl Hbrk. unfold page_init.
  apply wp_bind. unfold wp at 1. rewrite boot_alloc_ok. fold brk.
  apply wp_bind. unfold wp at 1, PADDR.
  destruct (Z.ltb_spec brk KERNBASE); [lia|]. simpl. fold ke.
  apply wp_bind. unfold wp at 1. simpl.
  apply wp_for_each.
  - split; simpl; rewrite ?Hfl; try done. by intros i ?%elem_of_nil.
  - intros pre i rest s' Hl Hinv.
    pose proof (NoDup_seqZ 0 (npages s)) as Hnd. rewrite Hl in Hnd.
    apply list.NoDup_app in Hnd as (_ & Hdis & _).
    assert (i ∉ pre) as Hi by (intros Hin; apply (Hdis i Hin); set_solver).
    assert (i ∈ seqZ 0 (npages s)) as Hr by (rewrite Hl; set_solver).
    apply elem_of_seqZ in Hr.
    assert (0 <= i < zlen (pages s')) as Hr' by (rewrite (ii_len _ _ _ _ Hinv); simpl; lia).
    change (IOPHYSMEM / PGSIZE) with 160. change (MPENTRY_PADDR / PGSIZE) with 7.
    unfold wp.
    destruct (i =? 0) eqn:E0; [|destruct ((160 <=? i) && (i <? ke)) eqn:E1;
      [|destruct (i =? 7) eqn:E7]];
      (assert (reserved ke i = (i =? 0) || ((160 <=? i) && (i <? ke)) || (i =? 7))
        as Eres by done; rewrite E0, ?E1, ?E7 in Eres; simpl in Eres;
       exec; rewrite ?(set_page_ok s') by done; try (exec_call set_page_ok);
       eapply init_inv_step; rewrite ?Eres; simpl; try done; first [done|lia]).
Qed.

(** The page index whose address is [pa] is on the initial free list iff it is not
    reserved. *)
Lemma elem_of_init_free ke n i :
  i ∈ init_free ke n <-> 0 <= i < n /\ reserved ke i = false.
Proof.
  unfold init_free. rewrite list_elem_of_In, <-in_rev, <-list_elem_of_In.
  rewrite list_elem_of_filter, elem_of_seqZ. rewrite Z.add_0_l. tauto.
Qed.

Lemma init_inv_alloc_ok ke s0 s :
  init_inv ke s0 (seqZ 0 (npages s0)) s -> zlen (pages s0) = npages s0 ->
  npages s0 <= 65536 -> alloc_ok s (init_free ke (npages s0)).
Proof.
  intros [Hn _ _ Hl Hch Href] Hlen Hmax. split; try done; try lia.
  - unfold init_free. apply NoDup_ListNoDup, NoDup_rev, NoDup_ListNoDup.
    apply list.NoDup_filter, NoDup_seqZ.
  - intros i [Hi Hre]%elem_of_init_free.
    destruct (Href i) as (li & Hg & _); [apply elem_of_seqZ; lia|].
    rewrite Hre in Hg. eauto.
  - intros i pi Hg Hni. pose proof (zget_Some_range _ _ _ Hg).
    destruct (Href i) as (li & Hg' & Hli); [apply elem_of_seqZ; lia|].
    simplify_eq/=. apply Hli. destruct (reserved ke i) eqn:E; [done|].
    exfalso. apply Hni, elem_of_init_free. split; [lia|done].
Qed.

(** ** Reference counts *)

Lemma page_incref_ok s p pi :
  zget (pages s) p = Some pi ->
  page_incref p s
  = Ret tt (with_pages (zset (pages s) p (MkPageInfo (pp_link pi) (u16 (pp_ref pi + 1)))) s).
Proof.
  intros Hp. unfold page_incref. exec_by (get_page_ok s p pi Hp).
  apply set_page_ok. by eapply zget_Some_range.
Qed.

(** The state after [page_decref p]. *)
Definition decref_st (p : Z) (pi : PageInfo) (s : kstate) : kstate :=
  if pp_ref pi =? 1 then free_st p s
  else with_pages (zset (pages s) p (MkPageInfo (pp_link pi) (u16 (pp_ref pi - 1)))) s.

Lemma page_decref_ok s l p pi :
  alloc_ok s l -> p ∉ l -> zget (pages s) p = Some pi -> is_u16 (pp_ref pi) ->
  page_decref p s = Ret tt (decref_st p pi s).
Proof.
  intros Hok Hp Hpi Href. pose proof (zget_Some_range _ _ _ Hpi) as Hr.
  pose proof (ao_used _ _ Hok _ _ Hpi Hp) as Hli. unfold page_decref, decref_st.
  exec_by (get_page_ok s p pi Hpi). exec_call set_page_ok. unfold with_pp_ref.
  unfold is_u16 in Href.
  destruct (Z.eqb_spec (pp_ref pi) 1) as [->|Hne].
  - simpl. erewrite page_free_ok with (l := l); [|..].
    + unfold free_st; simpl. by rewrite zset_zset_eq, ?Hli.
    + by eapply alloc_ok_upd.
    + done.
    + eexists. by apply zget_zset_eq.
  - destruct (Z.eqb_spec (u16 (pp_ref pi - 1)) 0) as [E|E]; [|done].
    unfold u16 in E. zlia.
Qed.

(** The free list after [page_decref p]. *)
Definition decref_list (p : Z) (pi : PageInfo) (l : list Z) : list Z :=
  if pp_ref pi =? 1 then p :: l else l.

Lemma decref_st_ok s l p pi :
  alloc_ok s l -> p ∉ l -> zget (pages s) p = Some pi ->
  alloc_ok (decref_st p pi s) (decref_list p pi l).
Proof.
  intros Hok Hp Hpi. pose proof (zget_Some_range _ _ _ Hpi) as Hr.
  pose proof (ao_len _ _ Hok). unfold decref_st, decref_list. case_match.
  - apply free_st_ok; [done..|lia].
  - eapply alloc_ok_upd; [done..|]. simpl. by eapply ao_used.
Qed.

(** ** Reordering the free list *)

(** [seg ps h L]: from [h], [L] is linked, whatever its last [pp_link] is. *)
Fixpoint seg (ps : list PageInfo) (h : option Z) (L : list Z) : Prop :=
  match L with
  | [] => True
  | p :: L' => h = Some p /\ exists pi, zget ps p = Some pi /\ seg ps (pp_link pi) L'
  end.

Lemma seg_ext ps ps' h L :
  (forall p, p ∈ L -> zget ps' p = zget ps p) -> seg ps h L -> seg ps' h L.
Proof.
  revert h. induction L as [|p L IH]; intros h Heq; [done|].
  intros (-> & pi & Hp & Hl). split; [done|]. exists pi.
  split; [rewrite Heq by set_solver; done|]. apply IH; [set_solver|done].
Qed.

(** Storing through the last link of a segment: by a tail, by one more page. *)
Lemma seg_snoc_chain ps h L q qi T v :
  seg ps h (L ++ [q]) -> NoDup (L ++ [q]) -> zget ps q = Some qi ->
  chain ps v T -> (forall p, p ∈ L ++ [q] -> p ∉ T) ->
  chain (zset ps q (with_pp_link v qi)) h (L ++ [q] ++ T).
Proof.
  revert h. induction L as [|p L IH]; intros h; simpl.
  - intros (-> & qi' & Hq' & _) _ Hq Hch Hdis.
    assert (qi' = qi) as -> by congruence. split; [done|].
    eexists. rewrite zget_zset_eq by (by eapply zget_Some_range). split; [done|].
    apply chain_zset; [apply Hdis; set_solver|done].
  - intros (-> & pi & Hp & Hl) [Hnp Hnd]%list.NoDup_cons Hq Hch Hdis.
    split; [done|]. exists pi. rewrite zget_zset_ne by set_solver.
    split; [done|]. apply IH; try done. intros r Hr. apply Hdis. set_solver.
Qed.

Lemma seg_snoc_page ps h L q qi p :
  seg ps h (L ++ [q]) -> NoDup (L ++ [q]) -> zget ps q = Some qi ->
  is_Some (zget ps p) ->
  seg (zset ps q (with_pp_link (Some p) qi)) h ((L ++ [q]) ++ [p]).
Proof.
  revert h. induction L as [|r L IH]; intros h; simpl.
  - intros (-> & qi' & Hq' & _) _ Hq Hp%zget_is_Some.
    assert (qi' = qi) as -> by congruence. split; [done|].
    eexists. rewrite zget_zset_eq by (by eapply zget_Some_range). split; [done|].
    split; [done|].
    destruct (zget_in_range (zset ps q (with_pp_link (Some p) qi)) p) as [pi ?];
      [by rewrite zlen_zset|eauto].
  - intros (-> & pi & Hr & Hl) [Hnr Hnd]%list.NoDup_cons Hq Hp.
    split; [done|]. exists pi. rewrite zget_zset_ne by set_solver.
    split; [done|]. by apply IH.
Qed.

(** Only the links of the pages of [L] differ between [s] and [s']. *)
Record relinked (L : list Z) (s s' : kstate) : Prop := {
  rl_npages : npages s' = npages s;
  rl_head : page_free_list s' = page_free_list s;
  rl_kend : kend s' = kend s;
  rl_nextfree : nextfree s' = nextfree s;
  rl_len : zlen (pages s') = zlen (pages s);
  rl_out : forall i, i ∉ L -> zget (pages s') i = zget (pages s) i;
  rl_ref : forall i pi, zget (pages s) i = Some pi ->
    exists li, zget (pages s') i = Some (MkPageInfo li (pp_ref pi))
}.

Lemma relinked_refl L s : relinked L s s.
Proof. split; try done. intros i [li r] ?. eauto. Qed.

Lemma relinked_trans L L' s1 s2 s3 :
  relinked L s1 s2 -> relinked L' s2 s3 -> relinked (L ++ L') s1 s3.
Proof.
  intros [] []. split; try congruence.
  - intros i Hi. rewrite not_elem_of_app in Hi. destruct Hi. 
    rewrite rl_out1, rl_out0; done.
  - intros i pi [li Hi]%rl_ref0. by apply rl_ref1 in Hi.
Qed.

Lemma relinked_mono L L' s s' :
  relinked L s s' -> (forall i, i ∈ L -> i ∈ L') -> relinked L' s s'.
Proof. intros [] Hsub. split; try done. intros i Hi. apply rl_out0. naive_solver. Qed.

Lemma relinked_set s q qi v :
  zget (pages s) q = Some qi ->
  relinked [q] s (with_pages (zset (pages s) q (with_pp_link v qi)) s).
Proof.
  intros Hq. split; simpl; rewrite ?zlen_zset; try done.
  - intros i Hi. rewrite zget_zset_ne; [done|]. set_solver.
  - intros i pi Hi. rewrite zget_zset. case_decide as D.
    + destruct D as [-> _]. simplify_eq. unfold with_pp_link. eauto.
    + destruct pi. eauto.
Qed.

(** The two lists under construction: [false] is [pp1]/[tp[0]], [true] is
    [pp2]/[tp[1]]. *)
Definition side_pp (b : bool) (x : fl_locals) : option Z :=
  if b then fl_pp2 x else fl_pp1 x.
Definition side_tp (b : bool) (x : fl_locals) : fl_cell :=
  if b then fl_tp1 x else fl_tp0 x.
Definition end_cell (b : bool) (L : list Z) : fl_cell :=
  match last L with Some q => CLink q | None => if b then CPp2 else CPp1 end.

(** Storing [v] at the end of the list of side [b]: if [L] is empty the local is
    set, otherwise the last link. *)
Lemma store_cell_end b L v x s :
  seg (pages s) (side_pp b x) L ->
  (exists x', L = [] /\ store_cell (end_cell b L) v x s = Ret x' s /\
    side_pp b x' = v /\ side_pp (negb b) x' = side_pp (negb b) x /\
    fl_tp0 x' = fl_tp0 x /\ fl_tp1 x' = fl_tp1 x) \/
  (exists L0 q qi, L = L0 ++ [q] /\ zget (pages s) q = Some qi /\
    store_cell (end_cell b L) v x s
    = Ret x (with_pages (zset (pages s) q (with_pp_link v qi)) s)).
Proof.
  intros Hseg. destruct (decide (L = [])) as [->|Hne]; [left|right].
  - destruct b; eexists; (split; [done|]); (split; [reflexivity|]); done.
  - destruct (exists_last Hne) as (L0 & q & ->). 
    assert (exists qi, zget (pages s) q = Some qi) as [qi Hq].
    { clear Hne. revert Hseg. generalize (side_pp b x).
      induction L0 as [|r L0 IH]; intros h; simpl.
      - intros (_ & qi & ? & _). eauto.
      - intros (_ & ri & _ & Hl). by eapply IH. }
    exists L0, q, qi. split; [done|]. split; [done|].
    unfold end_cell. rewrite last_snoc. simpl.
    exec_by (get_page_ok s q qi Hq). apply zget_Some_range in Hq.
    exec_call set_page_ok. done.
Qed.

(** The invariant of the reordering loop after [pre], with [rest] to come. *)
Record relink_inv (lim : Z) (s0 : kstate) (pre rest : list Z) (pp : option Z)
    (x : fl_locals) (s : kstate) : Prop := {
  ri_rel : relinked pre s0 s;
  ri_tp : forall b, side_tp b x
            = end_cell b (filter (fun p => is_low lim p = negb b) pre);
  ri_seg : forall b, seg (pages s) (side_pp b x)
            (filter (fun p => is_low lim p = negb b) pre);
  ri_rest : chain (pages s) pp rest
}.

Lemma relink_inv_step lim s0 pre p rest x s :
  NoDup (pre ++ p :: rest) -> relink_inv lim s0 pre (p :: rest) (Some p) x s ->
  let b := lim <=? PDX (page2pa p) in
  exists x' s' pi, store_cell (side_tp b x) (Some p) x s = Ret x' s' /\
    zget (pages s') p = Some pi /\
    relink_inv lim s0 (pre ++ [p]) rest (pp_link pi)
      (if b then MkFl (fl_tp0 x') (CLink p) (fl_pp1 x') (fl_pp2 x')
       else MkFl (CLink p) (fl_tp1 x') (fl_pp1 x') (fl_pp2 x')) s'.
Proof.
  intros Hnd [Hrel Htp Hseg (_ & pi & Hpi & Hrest)] b.
  set (side := fun b => filter (fun p => is_low lim p = negb b) pre).
  change (forall b, side_tp b x = end_cell b (side b)) in Htp.
  change (forall b, seg (pages s) (side_pp b x) (side b)) in Hseg.
  assert (is_low lim p = negb b) as Hlow by (unfold is_low, b; lia).
  clearbody b.
  assert (forall c, filter (fun p => is_low lim p = negb c) (pre ++ [p])
            = if decide (c = b) then side c ++ [p] else side c) as Hfil.
  { intros c. rewrite list.filter_app, list.filter_cons, list.filter_nil. 
    rewrite Hlow. destruct c, b; simpl; by rewrite ?app_nil_r. }
  apply list.NoDup_app in Hnd as (Hndpre & Hdis & Hndr).
  assert (p ∉ pre) as Hp by (intros Hin; apply (Hdis p Hin); set_solver).
  apply list.NoDup_cons in Hndr as [Hprest Hndr].
  assert (forall c, NoDup (side c)) as Hnds by (intros c; by apply list.NoDup_filter).
  assert (forall c i, i ∈ side c -> i ∈ pre /\ is_low lim i = negb c) as Hside
    by (intros c i [? ?]%list_elem_of_filter; done).
  destruct (store_cell_end b (side b) (Some p) x s (Hseg b))
    as [(x' & HL & Hst & Hb & Hnb & H0 & H1)|(L0 & q & qi & HL & Hq & Hst)];
    rewrite (Htp b); rewrite Hst; do 3 eexists; (split; [done|]).
  - split; [exact Hpi|]. split.
    + eapply relinked_mono; [done|]. set_solver.
    + intros c. rewrite Hfil. specialize (Htp c).
      destruct c, b; simpl in *; rewrite ?H0, ?H1; unfold end_cell; 
        rewrite ?last_snoc; try done.
    + intros c. rewrite Hfil. specialize (Hseg c).
      destruct c, b; simpl in *; rewrite ?HL, ?Hnb; simpl; eauto.
    + done.
  - assert (q ∈ side b) as [Hqp Hql]%Hside by (rewrite HL; set_solver).
    split; [simpl; rewrite zget_zset_ne by (intros ->; done); exact Hpi|]. split.
    + eapply relinked_mono; [eapply relinked_trans; [done|by apply relinked_set]|].
      set_solver.
    + intros c. rewrite Hfil. specialize (Htp c).
      destruct c, b; simpl in *; unfold end_cell; rewrite ?last_snoc; done.
    + intros c. rewrite Hfil. simpl. destruct (decide (c = b)) as [->|Hcb].
      * replace (side_pp b _) with (side_pp b x) by (by destruct b).
        rewrite HL. apply seg_snoc_page; [by rewrite <-HL|by rewrite <-HL|done|eauto].
      * replace (side_pp c _) with (side_pp c x) by (by destruct c, b).
        eapply seg_ext; [|apply Hseg]. intros i [_ Hi]%Hside.
        apply zget_zset_ne. intros ->. destruct b, c; simpl in *; congruence.
    + apply chain_zset; [|done]. intros Hin. apply (Hdis q Hqp). set_solver.
Qed.

Lemma relink_loop_ok lim s0 rest : forall fuel pre pp x s,
  NoDup (pre ++ rest) -> (length rest <= fuel)%nat ->
  relink_inv lim s0 pre rest pp x s ->
  wp (relink_loop fuel lim pp x)
    (fun x' s' => relink_inv lim s0 (pre ++ rest) [] None x' s') s.
Proof.
  induction rest as [|p rest IH]; intros fuel pre pp x s Hnd Hfuel Hinv.
  - pose proof (ri_rest _ _ _ _ _ _ _ Hinv) as Hc. simpl in Hc. subst pp.
    rewrite app_nil_r. by destruct fuel.
  - destruct (ri_rest _ _ _ _ _ _ _ Hinv) as [-> _].
    destruct fuel as [|fuel]; simpl in Hfuel; [lia|].
    destruct (relink_inv_step _ _ _ _ _ _ _ Hnd Hinv) as (x' & s' & pi & Hst & Hpi & Hinv').
    cbn [relink_loop]. apply wp_bind. unfold wp at 1.
    replace (if lim <=? PDX (page2pa p) then fl_tp1 x else fl_tp0 x)
      with (side_tp (lim <=? PDX (page2pa p)) x) by done.
    rewrite Hst. apply wp_bind. unfold wp at 1. rewrite (get_page_ok _ _ _ Hpi).
    replace (pre ++ p :: rest) with ((pre ++ [p]) ++ rest) in * by (by rewrite <-app_assoc).
    apply IH; [done|lia|done].
Qed.

Lemma length_le_npages s l : alloc_ok s l -> (length l <= length (pages s))%nat.
Proof.
  intros Hok. pose proof (ao_len _ _ Hok).
  assert (l ⊆+ seqZ 0 (npages s)) as Hsub%submseteq_length.
  { apply NoDup_submseteq; [apply (ao_nodup _ _ Hok)|]. intros p Hp.
    apply elem_of_seqZ. rewrite <-H.
    pose proof (chain_in_range _ _ _ p (ao_chain _ _ Hok) Hp). lia. }
  rewrite length_seqZ in Hsub. unfold zlen in H. lia.
Qed.

Lemma store_end_chain b L v T x s :
  seg (pages s) (side_pp b x) L -> NoDup L -> chain (pages s) v T ->
  (forall p, p ∈ L -> p ∉ T) ->
  exists x' s', store_cell (end_cell b L) v x s = Ret x' s' /\
    chain (pages s') (side_pp b x') (L ++ T) /\
    side_pp (negb b) x' = side_pp (negb b) x /\
    fl_tp0 x' = fl_tp0 x /\ fl_tp1 x' = fl_tp1 x /\ relinked L s s'.
Proof.
  intros Hseg Hnd Hch Hdis.
  destruct (store_cell_end b L v x s Hseg)
    as [(x' & -> & Hst & Hb & Hnb & H0 & H1)|(L0 & q & qi & -> & Hq & Hst)];
    rewrite Hst; do 2 eexists; (split; [done|]).
  - simpl. rewrite Hb. split_and!; try done. apply relinked_refl.
  - split; [rewrite <-app_assoc; by apply seg_snoc_chain|]. split_and!; try done.
    eapply relinked_mono; [by apply relinked_set|]. set_solver.
Qed.

(** The list with the pages of the first [lim] page directory entries first. *)
Definition low_first (lim : Z) (l : list Z) : list Z :=
  filter (fun p => is_low lim p = true) l ++ filter (fun p => is_low lim p = false) l.

Lemma low_first_perm lim l : low_first lim l ≡ₚ l.
Proof.
  unfold low_first. induction l as [|p l IH]; [done|].
  rewrite !list.filter_cons. destruct (is_low lim p); simpl.
  - by rewrite IH.
  - rewrite <-Permutation_middle. by rewrite IH.
Qed.

Lemma alloc_ok_relinked s s' l l' :
  alloc_ok s l -> relinked l s s' -> l' ≡ₚ l -> forall h s'',
  chain (pages s') h l' -> npages s'' = npages s' -> pages s'' = pages s' ->
  page_free_list s'' = h -> alloc_ok s'' l'.
Proof.
  intros [Hlen Hmax Hch Hnd Hfree Hused] [] Hperm h s'' Hch' Hn Hpg Hh.
  split; rewrite ?Hn, ?Hpg, ?Hh, ?Hperm; try congruence; try done.
  - intros p Hp. rewrite Hperm in Hp. destruct (Hfree p Hp) as (pi & Hg & Hr).
    destruct (rl_ref0 _ _ Hg) as [li Hg']. eexists. split; [done|]. done.
  - intros p pi Hg Hp. rewrite Hperm in Hp. rewrite rl_out0 in Hg by done.
    by eapply Hused.
Qed.

Lemma relink_low_first_ok lim s l :
  alloc_ok s l ->
  wp (relink_low_first lim) (fun _ s' => alloc_ok s' (low_first lim l) /\
    npages s' = npages s /\ kend s' = kend s /\ nextfree s' = nextfree s) s.
Proof.
  intros Hok. pose proof (ao_nodup _ _ Hok) as Hnd. unfold relink_low_first.
  apply wp_bind. unfold wp at 1. simpl.
  apply wp_bind. eapply wp_mono.
  { apply (relink_loop_ok lim s l _ []); [done|by apply length_le_npages|].
    split; [apply relinked_refl|by intros []|by intros []|apply (ao_chain _ _ Hok)]. }
  intros x s1 [Hrel Htp Hseg _]. simpl in *.
  pose proof (Htp true) as Ht1. pose proof (Htp false) as Ht0. simpl in Ht0, Ht1.
  assert (forall b, NoDup (filter (fun p => is_low lim p = b) l)) as Hnds
    by (intros b; by apply list.NoDup_filter).
  destruct (store_end_chain true _ None [] x s1 (Hseg true) (Hnds _) eq_refl)
    as (x2 & s2 & E2 & C2 & N2 & A2 & B2 & R2); [set_solver|].
  rewrite app_nil_r in C2. simpl in *.
  apply wp_bind. unfold wp at 1. rewrite Ht1, E2.
  destruct (store_end_chain false (filter (fun p => is_low lim p = true) l)
     (fl_pp2 x2) (filter (fun p => is_low lim p = false) l) x2 s2) as (x3 & s3 & E3 & C3 & N3 & A3 & B3 & R3).
  - simpl. rewrite N2. eapply seg_ext; [|apply (Hseg false)].
    intros p Hp. apply (rl_out _ _ _ R2).
    intros [? _]%list_elem_of_filter. apply list_elem_of_filter in Hp as [? _]. congruence.
  - done.
  - exact C2.
  - intros p [? _]%list_elem_of_filter [? _]%list_elem_of_filter. congruence.
  - apply wp_bind. unfold wp at 1. rewrite A2, Ht0, E3. unfold wp. simpl.
    assert (relinked l s s3) as Hrel3.
    { eapply relinked_mono; [eapply relinked_trans; [done|eapply relinked_trans; done]|].
      intros i. rewrite !elem_of_app, !list_elem_of_filter. tauto. }
    split; [|destruct Hrel3; done].
    eapply (alloc_ok_relinked s s3); try done. apply low_first_perm.
Qed.

(** ** The boot-time check *)

Lemma for_free_list_ok (body : Z -> M kstate unit) (I : kstate -> Prop) l :
  forall fuel h s, chain (pages s) h l -> (length l <= fuel)%nat -> I s ->
  (forall p s', p ∈ l -> I s' -> wp (body p) (fun _ s'' => I s'' /\ pages s'' = pages s') s') ->
  wp (for_free_list fuel h body) (fun _ s' => I s' /\ pages s' = pages s) s.
Proof.
  induction l as [|p l IH]; intros fuel h s Hch Hfuel HI Hbody.
  - simpl in Hch. subst h. by destruct fuel.
  - destruct Hch as (-> & pi & Hpi & Hl). destruct fuel; simpl in Hfuel; [lia|].
    cbn [for_free_list]. apply wp_bind. eapply wp_mono; [apply Hbody; [set_solver|done]|].
    intros [] s1 [HI1 Hpg1]. apply wp_bind. unfold wp at 1.
    rewrite (get_page_ok s1 p pi) by (by rewrite Hpg1).
    rewrite <-Hpg1. apply IH; [by rewrite Hpg1|lia|done|].
    intros q s2 Hq. apply Hbody. set_solver.
Qed.

(** A page that passes [check_free_page] when the kernel data ends at page [ke]. *)
Definition checkable (ke p : Z) : Prop := reserved ke p = false /\ 256 < ke.

Lemma check_free_page_ok s p ke :
  0 <= p < npages s -> npages s <= 65536 -> checkable ke p ->
  check_free_page (ke * 4096 + KERNBASE) p s = Ret tt s.
Proof.
  intros Hp Hmax [Hre Hke]. unfold check_free_page. exec.
  rewrite page2pa_mul by lia. unfold reserved in Hre.
  assert (p <> 0 /\ ~ (160 <= p < ke) /\ p <> 7) as (? & ? & ?) by lia.
  unfold assertb.
  repeat match goal with |- context [if ?b then mret tt else _] =>
    (replace b with true by (symmetry; autounfold with mmu in *; lia)); exec end.
  destruct (Z.ltb_spec (p * 4096) EXTPHYSMEM) as [Hlt|Hge]; exec.
  - by replace (negb (p * 4096 =? MPENTRY_PADDR)) with true by (autounfold with mmu in *; lia).
  - exec_call page2kva_ok.
    replace (ke * 4096 + KERNBASE <=? p * 4096 + KERNBASE) with true
      by (autounfold with mmu in *; lia). exec.
    by replace (negb (p * 4096 =? MPENTRY_PADDR)) with true by (autounfold with mmu in *; lia).
Qed.

Definition count_below (l : list Z) : Z := zlen (filter (fun p => p < 256) l).

Lemma check_loop_ok ke l : forall fuel h nb nx s,
  chain (pages s) h l -> (length l <= fuel)%nat -> zlen (pages s) = npages s ->
  npages s <= 65536 -> (forall p, p ∈ l -> checkable ke p) ->
  check_loop fuel (ke * 4096 + KERNBASE) h nb nx s
  = Ret (nb + count_below l, nx + (zlen l - count_below l)) s.
Proof.
  induction l as [|p l IH]; intros fuel h nb nx s Hch Hfuel Hlen Hmax Hck.
  - simpl in Hch. subst h. unfold count_below, zlen; simpl.
    destruct fuel; simpl; unfold mret, M_ret; do 2 f_equal; lia.
  - destruct Hch as (-> & pi & Hpi & Hl). destruct fuel; simpl in Hfuel; [lia|].
    pose proof (zget_Some_range _ _ _ Hpi) as Hr.
    cbn [check_loop]. rewrite page2pa_mul by lia.
    erewrite bind_Ret; [|apply check_free_page_ok; [lia|lia|apply Hck; set_solver]].
    exec_by (get_page_ok s p pi Hpi).
    destruct (Z.ltb_spec (p * 4096) EXTPHYSMEM) as [Hlt|Hge];
      rewrite IH; try done; try lia; try set_solver;
      unfold count_below, zlen in *; rewrite list.filter_cons;
      autounfold with mmu in *; case_decide; try lia; simpl; f_equal; f_equal; lia.
Qed.

Lemma count_below_bounds l :
  (exists p, p ∈ l /\ p < 256) -> (exists p, p ∈ l /\ ~ p < 256) ->
  0 < count_below l < zlen l.
Proof.
  intros (p & Hp & Hlt) (q & Hq & Hge). unfold count_below.
  rewrite (length_filter_split (fun p => p < 256) l).
  assert (p ∈ filter (fun p => p < 256) l) as H1 by (apply list_elem_of_filter; done).
  assert (q ∈ filter (fun p => ~ p < 256) l) as H2 by (apply list_elem_of_filter; done).
  apply list_elem_of_split in H1 as (? & ? & ->).
  apply list_elem_of_split in H2 as (? & ? & ->).
  unfold zlen. rewrite !length_app. simpl. lia.
Qed.

(** [check_page_free_list(1)] on an allocator whose free pages are checkable. *)
Lemma check_page_free_list_ok s l ke :
  alloc_ok s l -> nextfree s = ke * 4096 + KERNBASE -> 0 < ke < npages s ->
  (forall p, p ∈ l -> checkable ke p) ->
  (exists p, p ∈ l /\ p < 256) -> (exists p, p ∈ l /\ ~ p < 256) ->
  wp (check_page_free_list true) (fun _ s' => alloc_ok s' (low_first 1 l)) s.
Proof.
  intros Hok Hnf Hke Hck Hlo Hhi. unfold check_page_free_list.
  apply wp_gets. cbv beta.
  destruct (page_free_list s) eqn:Eh.
  2: { pose proof (ao_chain _ _ Hok) as Hc. rewrite Eh in Hc.
       destruct l; [set_solver|by destruct Hc]. }
  apply wp_bind. eapply wp_mono; [by apply relink_low_first_ok|].
  intros [] s1 (Hok1 & Hn1 & Hk1 & Hnf1).
  set (l1 := low_first 1 l) in *.
  assert (forall p, p ∈ l1 <-> p ∈ l) as Hl1 by (intros p; unfold l1; by rewrite low_first_perm).
  apply wp_get. cbv beta zeta. apply wp_bind. eapply wp_mono.
  { apply (for_free_list_ok _ (fun s' => npages s' = npages s1 /\ nextfree s' = nextfree s1
       /\ page_free_list s' = page_free_list s1) l1); [apply (ao_chain _ _ Hok1)|
       by apply length_le_npages|done|].
    intros p s' Hp (Hn' & Hnf' & Hh'). unfold when. destruct (is_low 1 p); [|done].
    eapply wp_call; [apply page2kva_ok|done].
    - rewrite Hn', <-(ao_len _ _ Hok1). eapply chain_in_range; [apply (ao_chain _ _ Hok1)|done].
    - rewrite Hn'. apply (ao_npages _ _ Hok1). }
  intros [] s2 ((Hn2 & Hnf2 & Hh2) & Hpg2).
  pose proof (ao_npages _ _ Hok) as Hmax. pose proof (ao_len _ _ Hok1) as Hlen1.
  eapply wp_call; [apply boot_alloc_ok|]. rewrite Hnf2, Hnf1, Hnf.
  destruct (Z.eqb_spec (ke * 4096 + KERNBASE) 0); [mlia|].
  eapply wp_call; [apply check_loop_ok with (l := l1)|]; simpl.
  6: { destruct (count_below_bounds l1) as [H0 H1]; [set_solver..|].
    unfold wp, assertb.
    rewrite !Z.add_0_l. replace (0 <? count_below l1) with true by lia.
    replace (0 <? zlen l1 - count_below l1) with true by lia. exec.
    eapply alloc_ok_same; [apply Hok1|done..]. }
  - rewrite Hpg2. apply (ao_chain _ _ Hok1).
  - by apply length_le_npages.
  - rewrite Hpg2. lia.
  - lia.
  - intros p Hp%Hl1. by apply Hck.
Qed.

(** ** The allocator as a stack of pages

    What the rest of the kernel relies on: a page table or a system call sees the
    allocator as a stack of free pages, plus the set of pages handed out and not
    yet referenced, which are the ones it may free. *)
Inductive alloc_op : Type :=
| OpAlloc (flags : Z)
| OpFree (p : Z).

Record astack : Type := MkAstack { as_free : list Z; as_taken : gset Z }.

Definition astack_step (o : alloc_op) (a : astack) : option (option Z * astack) :=
  match o with
  | OpAlloc _ =>
      match as_free a with
      | [] => Some (None, a)
      | p :: l => Some (Some p, MkAstack l ({[p]} ∪ as_taken a))
      end
  | OpFree p =>
      if decide (p ∈ as_taken a)
      then Some (None, MkAstack (p :: as_free a) (as_taken a ∖ {[p]}))
      else None
  end.

Fixpoint astack_run (os : list alloc_op) (a : astack)
  : option (list (option Z) * astack) :=
  match os with
  | [] => Some ([], a)
  | o :: os' =>
      '(r, a1) ← astack_step o a;
      '(rs, a2) ← astack_run os' a1;
      Some (r :: rs, a2)
  end.

Definition alloc_do (o : alloc_op) : M kstate (option Z) :=
  match o with
  | OpAlloc flags => page_alloc flags
  | OpFree p => page_free p ;; mret None
  end.

Fixpoint alloc_run (os : list alloc_op) : M kstate (list (option Z)) :=
  match os with
  | [] => mret []
  | o :: os' => r ← alloc_do o; rs ← alloc_run os'; mret (r :: rs)
  end.

(** The concrete state [s] implements the stack [a]. *)
Definition astack_rel (s : kstate) (a : astack) : Prop :=
  alloc_ok s (as_free a) /\
  forall p, p ∈ as_taken a -> p ∉ as_free a /\
    zget (pages s) p = Some (MkPageInfo None 0).

Lemma astack_step_sim o a s r a' :
  astack_rel s a -> astack_step o a = Some (r, a') ->
  exists s', alloc_do o s = Ret r s' /\ astack_rel s' a'.
Proof.
  intros [Hok Htk] Hstep. destruct a as [l tk], o as [flags|p]; simpl in *.
  - destruct l as [|p l]; simplify_eq.
    + exists s. split; [by apply page_alloc_nil|done].
    + exists (alloc_st flags p l s). split; [by apply page_alloc_cons|].
      pose proof (ao_nodup _ _ Hok) as [Hp _]%list.NoDup_cons.
      assert (0 <= p < zlen (pages s)) as Hr
        by (eapply chain_in_range; [apply (ao_chain _ _ Hok)|set_solver]).
      split; [by apply alloc_st_ok|]. simpl. intros q Hq.
      rewrite alloc_st_pages. apply elem_of_union in Hq as [->%elem_of_singleton|Hq].
      * split; [done|]. by apply zget_zset_eq.
      * destruct (Htk q Hq) as [Hql ?]. split; [set_solver|].
        rewrite zget_zset_ne; [done|]. set_solver.
  - case_decide as Hin; simplify_eq. destruct (Htk p Hin) as [Hp Hpi].
    pose proof (zget_Some_range _ _ _ Hpi) as Hr. pose proof (ao_len _ _ Hok).
    exists (free_st p s). split.
    { exec_by (page_free_ok s p l Hok Hp (ex_intro _ None Hpi)). done. }
    split; [apply free_st_ok; [done..|lia]|]. simpl. intros q Hq.
    destruct (Htk q) as [Hql ?]; [set_solver|]. split; [set_solver|].
    rewrite zget_zset_ne; [done|]. set_solver.
Qed.

(** ** Properties of the allocator *)

(** C1 (page_init).  From a zeroed [pages] array ([page_free_list] NULL), with the
    first free kernel address at or above KERNBASE, [page_init] returns with the
    allocator invariant established: the free list holds, from the highest page
    down, exactly the pages that are neither page 0, nor in [IOPHYSMEM, end of the
    kernel data), nor the AP startup page, each with reference count 0; every
    reserved page has count 1 and is not linked. *)
Theorem page_init_establishes_allocator s :
  let brk := if nextfree s =? 0 then ROUNDUP (kend s) PGSIZE else nextfree s in
  let ke := (brk - KERNBASE) / PGSIZE in
  zlen (pages s) = npages s -> npages s <= 65536 -> page_free_list s = None ->
  KERNBASE <= brk ->
  wp page_init (fun _ s' =>
    alloc_ok s' (init_free ke (npages s)) /\
    forall i, 0 <= i < npages s -> reserved ke i ->
      zget (pages s') i = Some (MkPageInfo None 1)) s.
Proof.
  intros brk ke Hlen Hmax Hfl Hbrk.
  eapply wp_mono; [by apply page_init_wp|]. fold brk ke.
  intros [] s' Hinv. split; [by apply (init_inv_alloc_ok _ _ _ Hinv)|].
  intros i Hi Hre.
  destruct (ii_ref _ _ _ _ Hinv i) as (li & Hg & Hli); [apply elem_of_seqZ; lia|].
  rewrite (Hli Hre) in Hg. by destruct (reserved ke i).
Qed.

(** C2 (page_alloc, page_free).  The free list implements the stack of free
    pages: every sequence of allocations and of frees of pages that were handed
    out and are not referenced runs without a panic, returns what the stack
    returns (NULL exactly when no page is free), and re-establishes the
    invariant. *)
Theorem page_allocator_refines_stack os s a rs a' :
  astack_rel s a -> astack_run os a = Some (rs, a') ->
  exists s', alloc_run os s = Ret rs s' /\ astack_rel s' a'.
Proof.
  revert s a rs a'. induction os as [|o os IH]; intros s a rs a' Hrel Hrun.
  - simplify_eq/=. by exists s.
  - simpl in Hrun. destruct (astack_step o a) as [[r a1]|] eqn:Hstep; [|done].
    simpl in Hrun. destruct (astack_run os a1) as [[rs' a2]|] eqn:Hos; [|done].
    simplify_eq/=. destruct (astack_step_sim _ _ _ _ _ Hrel Hstep) as (s1 & E1 & R1).
    destruct (IH _ _ _ _ R1 Hos) as (s2 & E2 & R2). exists s2. split; [|done].
    exec_by E1. by exec_by E2.
Qed.

(** (page_free's double-free check).  The check [pp_ref != 0 || pp_link !=
    NULL] does not catch a second free of the page at the end of the free list,
    whose [pp_link] is NULL: [page_free] accepts it and the list becomes cyclic,
    ending in a page linked back to the old head, so it never runs out again. *)
Theorem page_free_misses_double_free_of_tail s l p :
  alloc_ok s (l ++ [p]) ->
  exists s', page_free p s = Ret tt s' /\ page_free_list s' = Some p /\
    zget (pages s') p = Some (MkPageInfo (page_free_list s) 0).
Proof.
  intros Hok. destruct (ao_free _ _ Hok p) as ([li r] & Hpi & Hr); [set_solver|].
  simpl in Hr. subst r.
  assert (li = None) as ->.
  { pose proof (ao_chain _ _ Hok) as Hch. revert Hch. generalize (page_free_list s).
    clear Hok. induction l as [|q l IH]; intros h; simpl.
    - intros (_ & pi & Hpi' & Hl). by simplify_eq.
    - intros (_ & qi & _ & Hl). by eapply IH. }
  pose proof (zget_Some_range _ _ _ Hpi) as Hrange.
  exists (free_st p s). unfold page_free. exec_by (get_page_ok s p _ Hpi). simpl.
  exec. exec_call set_page_ok. split; [done|]. split; [done|].
  by apply zget_zset_eq.
Qed.

(** (check_page_free_list).  After [page_init], on a machine with memory beyond
    the kernel data ([256 < ke < npages], page 256 being 1MB), the boot-time
    self-check [check_page_free_list(1)] passes every assert, and its in-place
    reordering of the linked list leaves the free pages of the first 4MB first,
    both parts in the order they had: no page is lost or duplicated. *)
Theorem check_page_free_list_passes_after_init s :
  let brk := if nextfree s =? 0 then ROUNDUP (kend s) PGSIZE else nextfree s in
  let ke := (brk - KERNBASE) / PGSIZE in
  zlen (pages s) = npages s -> npages s <= 65536 -> page_free_list s = None ->
  KERNBASE <= brk -> brk `mod` PGSIZE = 0 -> 256 < ke < npages s ->
  wp (page_init ;; check_page_free_list true) (fun _ s' =>
    alloc_ok s' (low_first 1 (init_free ke (npages s)))) s.
Proof.
  intros brk ke Hlen Hmax Hfl Hbrk Hal Hke. apply wp_bind.
  eapply wp_mono; [by apply page_init_wp|]. fold brk ke. intros [] s1 Hinv.
  pose proof (init_inv_alloc_ok _ _ _ Hinv Hlen Hmax) as Hok. simpl in Hok.
  assert (brk = ke * 4096 + KERNBASE) as Hb by (unfold ke in *; mlia).
  apply (check_page_free_list_ok _ _ ke); [done|..].
  - rewrite (ii_nextfree _ _ _ _ Hinv). simpl. rewrite Z.add_0_r.
    rewrite (u32_id brk), ROUNDUP_spec by mlia. mlia.
  - rewrite (ii_npages _ _ _ _ Hinv). simpl. lia.
  - intros p [_ Hp]%elem_of_init_free. split; [done|lia].
  - exists 1. rewrite elem_of_init_free. unfold reserved. lia.
  - exists (npages s - 1). rewrite elem_of_init_free. unfold reserved. lia.
Qed.

(** ** Instances *)

(** A machine with 264 pages whose kernel data ends at page 258, before
    [page_init]: the [pages] array is zeroed. *)
Definition ex_boot : kstate :=
  MkKstate 264 160 (replicate 264 (MkPageInfo None 0)) None ∅ 4027580416
    4027588600 0 MMIOBASE 0 [] None [None] [1] 0 0 [] true.

Lemma ex_boot_kernel_end :
  ((if nextfree ex_boot =? 0 then ROUNDUP (kend ex_boot) PGSIZE
    else nextfree ex_boot) - KERNBASE) / PGSIZE = 258.
Proof. vm_compute. reflexivity. Defined.

Lemma page_init_establishes_allocator_witness :
  wp page_init (fun _ s' => alloc_ok s' (init_free 258 (npages ex_boot)) /\
    forall i, 0 <= i < npages ex_boot -> reserved 258 i ->
      zget (pages s') i = Some (MkPageInfo None 1)) ex_boot.
Proof.
  pose proof (page_init_establishes_allocator ex_boot) as H. cbv zeta in H.
  rewrite ex_boot_kernel_end in H. refine (H _ _ _ _); by_vm.
Defined.

Lemma check_page_free_list_passes_after_init_witness :
  wp (page_init ;; check_page_free_list true) (fun _ s' =>
    alloc_ok s' (low_first 1 (init_free 258 (npages ex_boot)))) ex_boot.
Proof.
  pose proof (check_page_free_list_passes_after_init ex_boot) as H. cbv zeta in H.
  rewrite ex_boot_kernel_end in H.
  refine (H _ _ _ _ _ _); by_vm.
Defined.

(** Three free pages, 2 on top, and page 0 in use. *)
Definition ex_alloc : kstate :=
  with_page_free_list (Some 2) (with_npages 4 (with_pages
    [MkPageInfo None 1; MkPageInfo None 0; MkPageInfo (Some 3) 0;
     MkPageInfo (Some 1) 0] ex_boot)).

Lemma ex_alloc_ok : alloc_ok ex_alloc [2; 3; 1].
Proof.
  split; [done|done| |by apply (bool_decide_unpack _)|..].
  - simpl. eauto 10.
  - intros p Hp. repeat (apply elem_of_cons in Hp as [->|Hp]; [eexists; done|]).
    by apply elem_of_nil in Hp.
  - intros p pi Hg Hp. pose proof (zget_Some_range _ _ _ Hg) as Hr.
    change (zlen (pages ex_alloc)) with 4 in Hr.
    assert (p = 0) as -> by (apply dec_stable; set_solver by lia).
    change (Some (MkPageInfo None 1) = Some pi) in Hg. by simplify_eq.
Defined.

Lemma page_allocator_refines_stack_witness :
  exists s', alloc_run [OpAlloc 1; OpAlloc 0; OpFree 2; OpAlloc 0; OpAlloc 0; OpAlloc 0] ex_alloc
    = Ret [Some 2; Some 3; None; Some 2; Some 1; None] s' /\
    astack_rel s' (MkAstack [] {[1; 2; 3]}).
Proof.
  apply (page_allocator_refines_stack _ ex_alloc (MkAstack [2; 3; 1] ∅)).
  - split; [apply ex_alloc_ok|]. intros p Hp. exfalso. set_solver.
  - vm_compute. reflexivity.
Defined.

Lemma page_free_misses_double_free_of_tail_witness :
  exists s', page_free 1 ex_alloc = Ret tt s' /\ page_free_list s' = Some 1 /\
    zget (pages s') 1 = Some (MkPageInfo (Some 2) 0).
Proof. apply (page_free_misses_double_free_of_tail ex_alloc [2; 3] 1), ex_alloc_ok. Defined.
