(* ===== verification/PageTable.v ===== *)
(** * Page tables of JOS ([oslab6/kern/pmap.c])

    [pgdir_walk], [page_lookup], [page_insert], [page_remove],
    [boot_map_region], [mmio_map_region], [user_mem_check] and [check_va2pa] on
    the word memory of [KState], and the invariant [vm_ok] of all user address
    spaces together: page tables are private, every present user mapping
    is paid for by a reference of its page, so nothing mapped is ever free. *)
From S2P Require Import Prelude.
From S2P Require Import Mmu.
From S2P Require Import KState.
From S2P Require Import Pmap.

(** ** The code *)

Definition curenv : M kstate (option Z) :=
  s ← get; deref (zget (cpu_env s) (this_cpu s)).

(** [e->f]: an access to the environment table. *)
Definition get_env (e : Z) : M kstate Env :=
  s ← get; deref (zget (envs s) e).
Definition set_env (e : Z) (v : Env) : M kstate unit :=
  _ ← get_env e; modify (fun s => with_envs (zset (envs s) e v) s).

(** Result: the kernel virtual address of the PTE, [None] for NULL. *)
Definition pgdir_walk (pgdir va : Z) (create : bool) : M kstate (option Z) :=
  let pde_ptr := pgdir + 4 * PDX va in
  pde ← ld32 pde_ptr;
  exists_pt ←
    (if negb (has pde PTE_P) then
       if create then
         pp ← page_alloc 1;
         match pp with
         | None => mret false
         | Some p =>
             page_incref p ;;
             st32 pde_ptr (Z.lor (Z.lor (Z.lor (page2pa p) PTE_P) PTE_U) PTE_W) ;;
             mret true
         end
       else mret false
     else mret true);
  if exists_pt : bool then
    pde ← ld32 pde_ptr;
    kva ← KADDR (PTE_ADDR pde);
    mret (Some (kva + 4 * PTX va))
  else mret None.

(** [n] pages from [va] to [pa]. *)
Fixpoint boot_map_loop (n : nat) (pgdir va pa perm : Z) : M kstate unit :=
  match n with
  | O => mret tt
  | S n' =>
      pte ← pgdir_walk pgdir va true;
      match pte with
      | None => panic "boot_map_region(): out of memory"
      | Some pte =>
          st32 pte (u32 (Z.lor (Z.lor pa PTE_P) perm)) ;;
          boot_map_loop n' pgdir (u32 (va + PGSIZE)) (u32 (pa + PGSIZE)) perm
      end
  end.

Definition boot_map_region (pgdir va size pa perm : Z) : M kstate unit :=
  let pgs := size / PGSIZE in
  let pgs := if negb (size `mod` PGSIZE =? 0) then pgs + 1 else pgs in
  boot_map_loop (Z.to_nat pgs) pgdir va pa perm.

(** The page and the address of its PTE (stored through [pte_store]).  The test
    is [!( *pte) & PTE_P], which negates before it masks. *)
Definition page_lookup (pgdir va : Z) : M kstate (option (Z * Z)) :=
  pte ← pgdir_walk pgdir va false;
  match pte with
  | None => mret None
  | Some pte =>
      v ← ld32 pte;
      if has (if v =? 0 then 1 else 0) PTE_P then mret None
      else
        let pa := PTE_ADDR v in
        pp ← pa2page pa;
        mret (Some (pp, pte))
  end.

Definition invlpg (va : Z) : M kstate unit :=
  modify (fun s => with_invlpgs (va :: invlpgs s) s).

Definition tlb_invalidate (pgdir va : Z) : M kstate unit :=
  cur ← curenv;
  match cur with
  | None => invlpg va
  | Some e => env ← get_env e; if env_pgdir env =? pgdir then invlpg va else mret tt
  end.

Definition page_remove (pgdir va : Z) : M kstate unit :=
  r ← page_lookup pgdir va;
  match r with
  | None => mret tt
  | Some (pp, pte_store) =>
      page_decref pp ;;
      st32 pte_store 0 ;;
      tlb_invalidate pgdir va
  end.

Definition page_insert (pgdir pp va perm : Z) : M kstate Z :=
  pte ← pgdir_walk pgdir va true;
  match pte with
  | None => mret (- E_NO_MEM)
  | Some pte =>
      page_incref pp ;;
      v ← ld32 pte;
      when (has v PTE_P) (page_remove pgdir va) ;;
      let pa := page2pa pp in
      st32 pte (u32 (Z.lor (Z.lor pa perm) PTE_P)) ;;
      pde ← ld32 (pgdir + 4 * PDX va);
      st32 (pgdir + 4 * PDX va) (u32 (Z.lor pde perm)) ;;
      mret 0
  end.

Definition mmio_map_region (pa size : Z) : M kstate Z :=
  let size := ROUNDUP (u32 (pa + size)) PGSIZE in
  let pa := ROUNDDOWN pa PGSIZE in
  let size := u32 (size - pa) in
  s ← get;
  if MMIOLIM <=? u32 (mmio_base s + size) then panic "not enough memory"
  else
    boot_map_region (kern_pgdir s) (mmio_base s) size pa
      (Z.lor (Z.lor PTE_PCD PTE_PWT) PTE_W) ;;
    modify (fun s => with_mmio_base (u32 (mmio_base s + size)) s) ;;
    base ← gets mmio_base;
    mret (u32 (base - size)).

(** [begin] and [end] are page-aligned, so [i] never wraps: the loop visits
    [begin, begin + PGSIZE, ...] below [end]. *)
Definition user_mem_check (env : Z) (va len perm : Z) : M kstate Z :=
  let begin_ := ROUNDDOWN va PGSIZE in
  let end_ := ROUNDUP (u32 (va + len)) PGSIZE in
  e ← get_env env;
  r ← for_until ((fun k => begin_ + k * PGSIZE) <$> seqZ 0 ((end_ - begin_) / PGSIZE))
    (fun i =>
       pte ← pgdir_walk (env_pgdir e) i false;
       bad ← (if ULIM <=? i then mret true
              else match pte with
                   | None => mret true
                   | Some p =>
                       v ← ld32 p;
                       mret (negb (has v PTE_P) || negb (Z.land v perm =? perm))
                   end);
       if bad : bool then
         modify (with_user_mem_check_addr (if i <? va then va else i)) ;;
         mret (Some (- E_FAULT))
       else mret None);
  mret (default 0 r).

(** The software page walk the kernel checks its tables with; [~0] when there is
    no mapping. *)
Definition check_va2pa (pgdir va : Z) : M kstate Z :=
  pde ← ld32 (pgdir + 4 * PDX va);
  if negb (has pde PTE_P) then mret 4294967295
  else
    p ← KADDR (PTE_ADDR pde);
    v ← ld32 (p + 4 * PTX va);
    if negb (has v PTE_P) then mret 4294967295
    else mret (PTE_ADDR v).

#[global] Arguments page_words : simpl never.
#[global] Arguments fillw : simpl never.
#[global] Arguments curenv : simpl never.
#[global] Arguments get_env : simpl never.
#[global] Arguments set_env : simpl never.
#[global] Arguments pgdir_walk : simpl never.
#[global] Arguments page_lookup : simpl never.
#[global] Arguments page_remove : simpl never.
#[global] Arguments page_insert : simpl never.
#[global] Arguments tlb_invalidate : simpl never.
#[global] Arguments user_mem_check : simpl never.
#[global] Arguments check_va2pa : simpl never.

(** ** Address spaces *)

(** The user part of a page directory: indices below [PDX(UTOP)]. *)
Definition NUPDE : Z := 955.
Definition user_slot (i j : Z) : Prop := 0 <= i < NUPDE /\ 0 <= j < 1024.

(** Entry [i] of the directory at physical address [pd], and entry [j] of the
    page table it points to. *)
Definition pde_at (m : gmap Z Z) (pd i : Z) : Z := rdw m (pd + 4 * i).
Definition pte_addr (m : gmap Z Z) (pd i j : Z) : Z := PTE_ADDR (pde_at m pd i) + 4 * j.
Definition pte_at (m : gmap Z Z) (pd i j : Z) : Z := rdw m (pte_addr m pd i j).

Definition page_ref (s : kstate) (p : Z) : option Z := pp_ref <$> zget (pages s) p.

(** A slot [(pd, i, j)]: PTE [j] of the page table of user entry [i]; [maps x t]:
    it is present and maps page [t]. *)
Notation slot := (Z * Z * Z)%type.
Definition has_pt (m : gmap Z Z) (pds : list Z) (pd i : Z) : Prop :=
  pd ∈ pds /\ 0 <= i < NUPDE /\ has (pde_at m pd i) PTE_P.
Definition maps (m : gmap Z Z) (pds : list Z) (x : slot) (t : Z) : Prop :=
  let '(pd, i, j) := x in
  has_pt m pds pd i /\ 0 <= j < 1024 /\
  has (pte_at m pd i j) PTE_P /\ PTE_ADDR (pte_at m pd i j) = t * 4096.

(** The invariant: [l] is the free list, [pds] the page directories of the live
    environments (physical addresses), and [ex t] the references to page [t]
    held by running kernel code rather than by a mapping. *)
Record vm_ok (s : kstate) (l pds : list Z) (ex : Z -> Z) : Prop := {
  vo_alloc : alloc_ok s l;
  vo_ref16 : forall p r, page_ref s p = Some r -> is_u16 r;
  vo_word : forall a, is_u32 (rdw (mem s) a);
  vo_pd : forall pd, pd ∈ pds -> pd `mod` 4096 = 0 /\ page_ref s (pd / 4096) = Some 1;
  vo_pt : forall pd i, has_pt (mem s) pds pd i ->
    page_ref s (PTE_ADDR (pde_at (mem s) pd i) / 4096) = Some 1 /\
    PTE_ADDR (pde_at (mem s) pd i) ∉ pds;
  vo_inj : forall pd i pd' i', has_pt (mem s) pds pd i -> has_pt (mem s) pds pd' i' ->
    PTE_ADDR (pde_at (mem s) pd i) = PTE_ADDR (pde_at (mem s) pd' i') ->
    pd = pd' /\ i = i';
  vo_pte : forall pd i j, has_pt (mem s) pds pd i -> 0 <= j < 1024 ->
    pte_at (mem s) pd i j = 0 \/ has (pte_at (mem s) pd i j) PTE_P;
  vo_data : forall x t, maps (mem s) pds x t ->
    t * 4096 ∉ pds /\
    forall pd i, has_pt (mem s) pds pd i -> PTE_ADDR (pde_at (mem s) pd i) <> t * 4096;
  vo_tgt : forall x t, maps (mem s) pds x t -> is_Some (page_ref s t);
  vo_ex : forall t, 0 <= ex t;
  vo_count : forall t r xs, page_ref s t = Some r -> NoDup xs ->
    (forall x, x ∈ xs -> maps (mem s) pds x t) -> zlen xs + ex t <= r
}.

(** ** Words and addresses *)

(** The PTE value [page2pa(pp) | perm | PTE_P]. *)
Lemma pte_value p perm :
  0 <= p < 65536 -> 0 <= perm < 4096 ->
  let v := u32 (Z.lor (Z.lor (page2pa p) perm) PTE_P) in
  is_u32 v /\ has v PTE_P = true /\ PTE_ADDR v = p * 4096 /\
  v = p * 4096 + Z.lor perm PTE_P.
Proof.
  intros Hp Hperm. rewrite page2pa_mul by done.
  assert (0 <= Z.lor perm PTE_P < 4096) as Hf by (apply flags_range; [done|by_vm]).
  rewrite <-Z.lor_assoc, lor_flags by done.
  assert (is_u32 (p * 4096 + Z.lor perm PTE_P)) as H32 by (unfold is_u32; lia).
  rewrite u32_id by done. split_and!; try done.
  - pose proof (has_lor_P perm) as Hh. rewrite has_PTE_P_mod in *. zlia.
  - rewrite PTE_ADDR_sub by done. zlia.
Qed.

Lemma elem_of_page_words a p :
  a ∈ page_words p <-> exists i, 0 <= i < 1024 /\ a = p + 4 * i.
Proof.
  unfold page_words. rewrite list_elem_of_fmap. setoid_rewrite elem_of_seqZ. naive_solver lia.
Qed.

Lemma ld32_ok s a : 0 <= a -> ld32 (a + KERNBASE) s = Ret (rdw (mem s) a) s.
Proof.
  intros. unfold ld32. destruct (Z.ltb_spec (a + KERNBASE) KERNBASE); [lia|].
  unfold gets. by replace (a + KERNBASE - KERNBASE) with a by lia.
Qed.

Lemma st32_ok s a v :
  0 <= a -> st32 (a + KERNBASE) v s = Ret tt (with_mem (wrw (mem s) a v) s).
Proof.
  intros. unfold st32. destruct (Z.ltb_spec (a + KERNBASE) KERNBASE); [lia|].
  unfold modify. by replace (a + KERNBASE - KERNBASE) with a by lia.
Qed.

(** ** Consequences of the invariant *)

Lemma page_ref_range s p r : page_ref s p = Some r -> 0 <= p < zlen (pages s).
Proof.
  unfold page_ref. destruct (zget (pages s) p) eqn:E; [|done]. intros _.
  by eapply zget_Some_range.
Qed.

Lemma page_ref_inv s p r :
  page_ref s p = Some r -> exists li, zget (pages s) p = Some (MkPageInfo li r).
Proof.
  unfold page_ref. destruct (zget (pages s) p) as [[li r']|]; [|done].
  intros. simplify_eq/=. eauto.
Qed.

Section VmFacts.
Context {s : kstate} {l pds : list Z} {ex : Z -> Z} (Hvm : vm_ok s l pds ex).

Lemma vm_len : zlen (pages s) = npages s.
Proof. apply (ao_len _ _ (vo_alloc _ _ _ _ Hvm)). Qed.
Lemma vm_npages : npages s <= 65536.
Proof. apply (ao_npages _ _ (vo_alloc _ _ _ _ Hvm)). Qed.

Lemma vm_page_bound p r : page_ref s p = Some r -> 0 <= p < npages s /\ p < 65536.
Proof. intros H%page_ref_range. rewrite vm_len in H. pose proof vm_npages. lia. Qed.

Lemma vm_pd_bound pd : pd ∈ pds -> 0 <= pd < 268435456 /\ pd `mod` 4096 = 0.
Proof.
  intros Hpd. destruct (vo_pd _ _ _ _ Hvm pd Hpd) as [Hm Hr%vm_page_bound]. zlia.
Qed.

Lemma vm_pt_bound pd i :
  has_pt (mem s) pds pd i ->
  let pt := PTE_ADDR (pde_at (mem s) pd i) in
  0 <= pt < 268435456 /\ pt `mod` 4096 = 0 /\ PGNUM pt < npages s /\ is_u32 pt.
Proof.
  intros H pt. destruct (vo_pt _ _ _ _ Hvm pd i H) as [Hr%vm_page_bound _].
  fold pt in Hr. destruct (PTE_ADDR_range (pde_at (mem s) pd i)) as [Hu Hm].
  { apply (vo_word _ _ _ _ Hvm). }
  fold pt in Hu, Hm. rewrite PGNUM_div by done. split_and!; try done; zlia.
Qed.

(** A page on the free list has count 0: it is not mapped, nor a table. *)
Lemma vm_free_ref p : p ∈ l -> page_ref s p = Some 0.
Proof.
  intros Hp. destruct (ao_free _ _ (vo_alloc _ _ _ _ Hvm) p Hp) as (pi & Hg & Hr).
  unfold page_ref. rewrite Hg. simpl. by rewrite Hr.
Qed.

Lemma vm_not_free p r : page_ref s p = Some r -> r <> 0 -> p ∉ l.
Proof. intros H Hr Hp%vm_free_ref. congruence. Qed.

Lemma vm_maps_ref x t : maps (mem s) pds x t -> exists r, page_ref s t = Some r /\ 1 + ex t <= r.
Proof.
  intros Hx. destruct (vo_tgt _ _ _ _ Hvm x t Hx) as [r Hr]. exists r. split; [done|].
  pose proof (vo_count _ _ _ _ Hvm t r [x] Hr (NoDup_singleton x)) as Hc.
  unfold zlen in Hc. simpl in Hc. apply Hc. intros y ->%list_elem_of_singleton. done.
Qed.

Lemma vm_maps_ref1 x t : maps (mem s) pds x t -> exists r, page_ref s t = Some r /\ 1 <= r.
Proof.
  intros (r & ? & ?)%vm_maps_ref. exists r. split; [done|].
  pose proof (vo_ex _ _ _ _ Hvm t). lia.
Qed.

(** Storing [v] in slot [(pd0, i0, j0)] changes no directory and no other slot. *)
Context (pd0 i0 j0 v : Z) (H0 : has_pt (mem s) pds pd0 i0) (Hj0 : 0 <= j0 < 1024).
Let m' : gmap Z Z := wrw (mem s) (pte_addr (mem s) pd0 i0 j0) v.

Lemma pde_slot_write pd i : pd ∈ pds -> 0 <= i < 1024 -> pde_at m' pd i = pde_at (mem s) pd i.
Proof.
  intros Hpd Hi. unfold pde_at, m'. apply rdw_wrw_ne. unfold pte_addr. intros E.
  destruct (vm_pt_bound _ _ H0) as (_ & Hm & _). destruct (vm_pd_bound pd Hpd) as [_ Hm'].
  apply entry_inj in E as [E _]; try done.
  destruct (vo_pt _ _ _ _ Hvm _ _ H0) as [_ Hn]. apply Hn. by rewrite E.
Qed.

Lemma has_pt_slot_write pd i : has_pt m' pds pd i <-> has_pt (mem s) pds pd i.
Proof.
  unfold has_pt. split; intros (Hpd & Hi & Hp); (split; [done|]); (split; [done|]);
    unfold NUPDE in Hi; [rewrite pde_slot_write in Hp by (done || lia); done|
    by rewrite pde_slot_write by (done || lia)].
Qed.

Lemma pte_slot_write pd i j :
  has_pt (mem s) pds pd i -> 0 <= j < 1024 ->
  pte_at m' pd i j = if decide ((pd, i, j) = (pd0, i0, j0)) then v
                     else pte_at (mem s) pd i j.
Proof.
  intros Hpt Hj. assert (0 <= i < 1024) as Hi by (destruct Hpt as (_ & Hi & _); unfold NUPDE in Hi; lia).
  unfold pte_at, pte_addr. rewrite pde_slot_write; [|apply Hpt|done].
  unfold m', pte_addr. case_decide as E; [simplify_eq; apply rdw_wrw_eq|].
  apply rdw_wrw_ne. intros Ea. apply E.
  destruct (vm_pt_bound _ _ H0) as (_ & Hm & _). destruct (vm_pt_bound _ _ Hpt) as (_ & Hm' & _).
  apply entry_inj in Ea as [Ea <-]; try done.
  by destruct (vo_inj _ _ _ _ Hvm _ _ _ _ H0 Hpt Ea) as [<- <-].
Qed.

Lemma PTE_ADDR_slot_write pd i :
  has_pt (mem s) pds pd i -> PTE_ADDR (pde_at m' pd i) = PTE_ADDR (pde_at (mem s) pd i).
Proof.
  intros (Hpd & Hi & _). unfold NUPDE in Hi. by rewrite pde_slot_write by (done || lia).
Qed.

Lemma maps_slot_write x t :
  maps m' pds x t <->
  if decide (x = (pd0, i0, j0)) then has v PTE_P /\ PTE_ADDR v = t * 4096
  else maps (mem s) pds x t.
Proof.
  destruct x as [[pd i] j]. unfold maps. rewrite has_pt_slot_write.
  split.
  - intros (Hpt & Hj & Hv & Ha). rewrite pte_slot_write in Hv, Ha by done.
    repeat case_decide; done.
  - case_decide as E.
    + simplify_eq. intros [Hv Ha]. rewrite pte_slot_write by done.
      rewrite decide_True by done. done.
    + intros (Hpt & Hj & Hv & Ha). rewrite pte_slot_write by done.
      rewrite decide_False by done. done.
Qed.

Lemma word_slot_write a : is_u32 v -> is_u32 (rdw m' a).
Proof.
  intros Hv. unfold m'. destruct (decide (pte_addr (mem s) pd0 i0 j0 = a)) as [<-|].
  - by rewrite rdw_wrw_eq.
  - rewrite rdw_wrw_ne by done. apply (vo_word _ _ _ _ Hvm).
Qed.
End VmFacts.

(** ** How the operations change the invariant *)

Lemma page_ref_zset s s' p pi q :
  pages s' = zset (pages s) p pi -> 0 <= p < zlen (pages s) ->
  page_ref s' q = if decide (q = p) then Some (pp_ref pi) else page_ref s q.
Proof.
  intros Hpg Hp. unfold page_ref. rewrite Hpg. case_decide as E.
  - subst q. by rewrite zget_zset_eq.
  - by rewrite zget_zset_ne by done.
Qed.

(** The pages of [s'] differ from those of [s] by the count of [p], now [r]. *)
Definition ref_upd (s s' : kstate) (p r : Z) : Prop :=
  forall q, page_ref s' q = if decide (q = p) then Some r else page_ref s q.

Lemma decref_st_ref s t pi :
  zget (pages s) t = Some pi -> 1 <= pp_ref pi -> is_u16 (pp_ref pi) ->
  ref_upd s (decref_st t pi s) t (pp_ref pi - 1).
Proof.
  intros Ht Hr Hu q. pose proof (zget_Some_range _ _ _ Ht) as Hrange.
  unfold decref_st. destruct (Z.eqb_spec (pp_ref pi) 1) as [E|E].
  - rewrite (page_ref_zset s _ t (MkPageInfo (page_free_list s) 0)) by done.
    simpl. by rewrite E.
  - erewrite (page_ref_zset s _ t) by done. simpl.
    rewrite u16_id; [done|]. unfold is_u16 in *. lia.
Qed.

(** Moving [x0] out of a list of slots. *)
Lemma NoDup_remove_slot (x0 : slot) (xs : list slot) :
  NoDup xs -> exists ys, NoDup ys /\ x0 ∉ ys /\ (forall x, x ∈ ys -> x ∈ xs) /\
    zlen xs <= zlen ys + (if decide (x0 ∈ xs) then 1 else 0).
Proof.
  intros Hnd. destruct (decide (x0 ∈ xs)) as [Hin|Hni].
  - apply list_elem_of_split in Hin as (a & b & ->). exists (a ++ b).
    rewrite NoDup_app in Hnd. destruct Hnd as (Ha & Hd & Hb).
    apply NoDup_cons in Hb as [Hx Hb]. split_and!.
    + apply NoDup_app. split_and!; try done. set_solver.
    + intros [H|H]%elem_of_app; [apply (Hd x0 H); set_solver|done].
    + set_solver.
    + unfold zlen. rewrite !length_app. simpl. lia.
  - exists xs. split_and!; try done. lia.
Qed.

Lemma vm_ok_unmap s l pds ex pd i j t pi s' :
  vm_ok s l pds ex -> maps (mem s) pds (pd, i, j) t -> zget (pages s) t = Some pi ->
  npages s' = npages s -> pages s' = pages (decref_st t pi s) ->
  page_free_list s' = page_free_list (decref_st t pi s) ->
  mem s' = wrw (mem s) (pte_addr (mem s) pd i j) 0 ->
  vm_ok s' (decref_list t pi l) pds ex.
Proof.
  intros Hvm Hx Ht Hn Hpg Hfl Hmem.
  destruct (vm_maps_ref Hvm _ _ Hx) as (r & Hr & Hrex).
  assert (pp_ref pi = r) as Hpr by (unfold page_ref in Hr; rewrite Ht in Hr; by simplify_eq/=).
  pose proof (vo_ex _ _ _ _ Hvm t) as Hex. pose proof (vo_ref16 _ _ _ _ Hvm _ _ Hr) as H16.
  assert (ref_upd s s' t (r - 1)) as Hupd.
  { intros q. rewrite <-Hpr. rewrite <-decref_st_ref; [|done|lia|by rewrite Hpr].
    unfold page_ref. by rewrite Hpg. }
  pose proof Hx as (Hpt0 & Hj0 & _).
  assert (forall x u, maps (mem s') pds x u -> x <> (pd, i, j) /\ maps (mem s) pds x u) as Hmaps.
  { intros x u. rewrite Hmem, (maps_slot_write Hvm) by done. case_decide; [|done].
    intros [Hbad _]. done. }
  destruct (vo_data _ _ _ _ Hvm _ _ Hx) as [Htpd Htpt].
  split.
  - eapply alloc_ok_same with (s := decref_st t pi s); try done.
    + apply decref_st_ok; try done; [apply (vo_alloc _ _ _ _ Hvm)|].
      eapply (vm_not_free Hvm); [done|lia].
    + rewrite Hn. unfold decref_st. by case_match.
  - intros p r'. rewrite Hupd. case_decide.
    + intros. simplify_eq. unfold is_u16 in *. lia.
    + apply (vo_ref16 _ _ _ _ Hvm).
  - intros a. rewrite Hmem. apply (word_slot_write Hvm). unfold is_u32; lia.
  - intros pd' Hpd'. destruct (vo_pd _ _ _ _ Hvm pd' Hpd') as [Hm Hr']. split; [done|].
    rewrite Hupd. case_decide as E; [|done]. exfalso. apply Htpd.
    replace (t * 4096) with pd' by zlia. done.
  - intros pd' i'. rewrite Hmem. intros Hpt%(has_pt_slot_write Hvm); try done.
    rewrite (PTE_ADDR_slot_write Hvm) by done.
    destruct (vo_pt _ _ _ _ Hvm _ _ Hpt) as [Hr' Hni]. split; [|done].
    rewrite Hupd. case_decide as E; [|done]. exfalso. apply (Htpt _ _ Hpt).
    destruct (vm_pt_bound Hvm _ _ Hpt) as (_ & Hm & _). zlia.
  - intros pd1 i1 pd2 i2. rewrite Hmem. rewrite !(has_pt_slot_write Hvm) by done.
    intros H1 H2. rewrite !(PTE_ADDR_slot_write Hvm) by done. by apply (vo_inj _ _ _ _ Hvm).
  - intros pd' i' j'. rewrite Hmem. rewrite (has_pt_slot_write Hvm) by done. intros Hpt Hj.
    rewrite (pte_slot_write Hvm) by done. case_decide; [by left|]. by apply (vo_pte _ _ _ _ Hvm).
  - intros x u [_ Hxu]%Hmaps. destruct (vo_data _ _ _ _ Hvm _ _ Hxu) as [A B].
    split; [done|]. intros pd' i'. rewrite Hmem. intros Hpt%(has_pt_slot_write Hvm); try done.
    rewrite (PTE_ADDR_slot_write Hvm) by done. by apply B.
  - intros x u [_ Hxu]%Hmaps. rewrite Hupd. case_decide; [done|]. by eapply (vo_tgt _ _ _ _ Hvm).
  - apply (vo_ex _ _ _ _ Hvm).
  - intros u r' xs Hr' Hnd Hxs. rewrite Hupd in Hr'. case_decide as E.
    + simplify_eq.
      assert (zlen ((pd, i, j) :: xs) + ex t <= pp_ref pi) as Hc.
      { apply (vo_count _ _ _ _ Hvm t); [done| |].
        - apply NoDup_cons. split; [|done]. intros Hin. by destruct (Hmaps _ _ (Hxs _ Hin)).
        - intros x [->|Hin]%elem_of_cons; [done|]. by apply Hmaps, Hxs. }
      unfold zlen in *. simpl in Hc. lia.
    + apply (vo_count _ _ _ _ Hvm u); [done|done|]. intros x Hin. by apply Hmaps, Hxs.
Qed.

(** Page [t] is data: neither a directory nor a page table. *)
Definition is_data (m : gmap Z Z) (pds : list Z) (t : Z) : Prop :=
  t * 4096 ∉ pds /\
  forall pd i, has_pt m pds pd i -> PTE_ADDR (pde_at m pd i) <> t * 4096.

Definition upd_ex (ex : Z -> Z) (t d : Z) : Z -> Z :=
  fun u => if decide (u = t) then ex u + d else ex u.

Lemma vm_ok_map s l pds ex pd i j t r v s' :
  vm_ok s l pds ex -> has_pt (mem s) pds pd i -> 0 <= j < 1024 ->
  pte_at (mem s) pd i j = 0 -> page_ref s t = Some r -> 1 <= ex t ->
  is_data (mem s) pds t -> is_u32 v -> has v PTE_P -> PTE_ADDR v = t * 4096 ->
  npages s' = npages s -> pages s' = pages s -> page_free_list s' = page_free_list s ->
  mem s' = wrw (mem s) (pte_addr (mem s) pd i j) v ->
  vm_ok s' l pds (upd_ex ex t (-1)).
Proof.
  intros Hvm Hpt0 Hj0 H0 Hr Hex [Htpd Htpt] Hv Hvp Hva Hn Hpg Hfl Hmem.
  assert (forall q, page_ref s' q = page_ref s q) as Href by (intros q; unfold page_ref; by rewrite Hpg).
  assert (forall x u, maps (mem s') pds x u -> (x = (pd, i, j) /\ u = t) \/
            (x <> (pd, i, j) /\ maps (mem s) pds x u)) as Hmaps.
  { intros x u. rewrite Hmem, (maps_slot_write Hvm) by done. case_decide; [|naive_solver].
    intros [_ Hbad]. left. split; [done|]. lia. }
  split.
  - eapply alloc_ok_same; [apply (vo_alloc _ _ _ _ Hvm)|done..].
  - intros p r'. rewrite Href. apply (vo_ref16 _ _ _ _ Hvm).
  - intros a. rewrite Hmem. by apply (word_slot_write Hvm).
  - intros pd'. rewrite Href. apply (vo_pd _ _ _ _ Hvm).
  - intros pd' i'. rewrite Hmem. intros Hpt%(has_pt_slot_write Hvm); try done.
    rewrite (PTE_ADDR_slot_write Hvm), Href by done. by apply (vo_pt _ _ _ _ Hvm).
  - intros pd1 i1 pd2 i2. rewrite Hmem. rewrite !(has_pt_slot_write Hvm) by done.
    intros H1 H2. rewrite !(PTE_ADDR_slot_write Hvm) by done. by apply (vo_inj _ _ _ _ Hvm).
  - intros pd' i' j'. rewrite Hmem. rewrite (has_pt_slot_write Hvm) by done. intros Hpt Hj.
    rewrite (pte_slot_write Hvm) by done. case_decide; [by right|]. by apply (vo_pte _ _ _ _ Hvm).
  - intros x u Hxu.
    assert (is_data (mem s) pds u) as [A B]
      by (destruct (Hmaps _ _ Hxu) as [[_ ->]|[_ Hxu']]; [done|by apply (vo_data _ _ _ _ Hvm _ _ Hxu')]).
    split; [done|]. intros pd' i'. rewrite Hmem. intros Hpt%(has_pt_slot_write Hvm); try done.
    rewrite (PTE_ADDR_slot_write Hvm) by done. by apply B.
  - intros x u Hxu. rewrite Href. destruct (Hmaps _ _ Hxu) as [[_ ->]|[_ Hxu']]; [eauto|].
    by eapply (vo_tgt _ _ _ _ Hvm).
  - intros u. unfold upd_ex. case_decide; [subst; lia|]. apply (vo_ex _ _ _ _ Hvm).
  - intros u r' xs Hr' Hnd Hxs. rewrite Href in Hr'.
    destruct (NoDup_remove_slot (pd, i, j) xs Hnd) as (ys & Hnd' & Hni & Hsub & Hlen).
    assert (zlen ys + ex u <= r') as Hc.
    { apply (vo_count _ _ _ _ Hvm u); try done. intros x Hx.
      destruct (Hmaps x u (Hxs _ (Hsub _ Hx))) as [[-> _]|[_ ?]]; done. }
    unfold upd_ex. destruct (decide (u = t)) as [->|E]; [destruct (decide (_ ∈ xs)); lia|].
    rewrite decide_False in Hlen; [lia|]. intros Hin.
    destruct (Hmaps _ _ (Hxs _ Hin)) as [[_ ?]|[? _]]; done.
Qed.

(** Taking one more reference to a data page. *)
Lemma vm_ok_incref s l pds ex t r li s' :
  vm_ok s l pds ex -> zget (pages s) t = Some (MkPageInfo li r) -> r < 65535 -> t ∉ l ->
  is_data (mem s) pds t ->
  npages s' = npages s -> pages s' = zset (pages s) t (MkPageInfo li (r + 1)) ->
  page_free_list s' = page_free_list s -> mem s' = mem s ->
  vm_ok s' l pds (upd_ex ex t 1).
Proof.
  intros Hvm Ht Hr Hni [Htpd Htpt] Hn Hpg Hfl Hmem.
  pose proof (zget_Some_range _ _ _ Ht) as Hrange.
  assert (page_ref s t = Some r) as Hrt by (unfold page_ref; by rewrite Ht).
  assert (ref_upd s s' t (r + 1)) as Hupd by (intros q; by eapply page_ref_zset in Hpg as ->).
  pose proof (vo_ref16 _ _ _ _ Hvm _ _ Hrt) as H16.
  pose proof (vo_ex _ _ _ _ Hvm) as Hex.
  split; rewrite ?Hmem.
  - eapply alloc_ok_upd; [apply (vo_alloc _ _ _ _ Hvm)|done..|].
    by apply (ao_used _ _ (vo_alloc _ _ _ _ Hvm) t _ Ht).
  - intros p r'. rewrite Hupd. case_decide; [intros; simplify_eq; unfold is_u16 in *; lia|].
    apply (vo_ref16 _ _ _ _ Hvm).
  - apply (vo_word _ _ _ _ Hvm).
  - intros pd Hpd. destruct (vo_pd _ _ _ _ Hvm pd Hpd) as [Hm Hr']. split; [done|].
    rewrite Hupd. case_decide; [|done]. exfalso. apply Htpd. replace (t * 4096) with pd by zlia. done.
  - intros pd i Hpt. destruct (vo_pt _ _ _ _ Hvm _ _ Hpt) as [Hr' ?]. split; [|done].
    rewrite Hupd. case_decide; [|done]. exfalso. apply (Htpt _ _ Hpt).
    destruct (vm_pt_bound Hvm _ _ Hpt) as (_ & Hm & _). zlia.
  - apply (vo_inj _ _ _ _ Hvm).
  - apply (vo_pte _ _ _ _ Hvm).
  - apply (vo_data _ _ _ _ Hvm).
  - intros x u Hx. rewrite Hupd. case_decide; [done|]. by eapply (vo_tgt _ _ _ _ Hvm).
  - intros u. unfold upd_ex. specialize (Hex u). case_decide; lia.
  - intros u r' xs Hr' Hnd Hxs. rewrite Hupd in Hr'. unfold upd_ex.
    destruct (decide (u = t)) as [->|E]; simplify_eq.
    + pose proof (vo_count _ _ _ _ Hvm t r xs Hrt Hnd Hxs). lia.
    + by apply (vo_count _ _ _ _ Hvm u).
Qed.

(** Changing only permission bits of a present directory entry. *)
Lemma vm_ok_pde_flags s l pds ex pd i v s' :
  vm_ok s l pds ex -> has_pt (mem s) pds pd i -> is_u32 v -> has v PTE_P ->
  PTE_ADDR v = PTE_ADDR (pde_at (mem s) pd i) ->
  npages s' = npages s -> pages s' = pages s -> page_free_list s' = page_free_list s ->
  mem s' = wrw (mem s) (pd + 4 * i) v ->
  vm_ok s' l pds ex /\ (forall x t, maps (mem s') pds x t <-> maps (mem s) pds x t) /\
  (forall pd' i' j, has_pt (mem s) pds pd' i' -> 0 <= j < 1024 ->
     has_pt (mem s') pds pd' i' /\
     pte_at (mem s') pd' i' j = pte_at (mem s) pd' i' j).
Proof.
  intros Hvm Hpt0 Hv Hvp Hva Hn Hpg Hfl Hmem.
  assert (forall q, page_ref s' q = page_ref s q) as Href by (intros q; unfold page_ref; by rewrite Hpg).
  pose proof Hpt0 as (Hpd0 & Hi0 & _). unfold NUPDE in Hi0.
  destruct (vm_pd_bound Hvm pd Hpd0) as [_ Hm0].
  assert (forall pd' i', pd' ∈ pds -> 0 <= i' < NUPDE ->
    pde_at (mem s') pd' i' = if decide ((pd', i') = (pd, i)) then v else pde_at (mem s) pd' i') as Hpde.
  { intros pd' i' Hpd' Hi'. unfold NUPDE in Hi'. destruct (vm_pd_bound Hvm pd' Hpd') as [_ Hm'].
    unfold pde_at. rewrite Hmem. case_decide as E; [simplify_eq; apply rdw_wrw_eq|].
    apply rdw_wrw_ne. intros Ea. apply E. apply entry_inj in Ea as [-> ->]; try done; lia. }
  assert (forall pd' i', has_pt (mem s') pds pd' i' <-> has_pt (mem s) pds pd' i') as Hhp.
  { intros pd' i'. unfold has_pt. split; intros (A & B & C); (split; [done|]; split; [done|]);
      [rewrite Hpde in C by done|rewrite Hpde by done]; case_decide; simplify_eq; try done.
    apply Hpt0. }
  assert (forall pd' i', has_pt (mem s) pds pd' i' ->
    PTE_ADDR (pde_at (mem s') pd' i') = PTE_ADDR (pde_at (mem s) pd' i')) as Haddr.
  { intros pd' i' (A & B & C). rewrite Hpde by done. case_decide; by simplify_eq. }
  assert (forall pd' i' j, has_pt (mem s) pds pd' i' -> 0 <= j < 1024 ->
    pte_at (mem s') pd' i' j = pte_at (mem s) pd' i' j) as Hpte.
  { intros pd' i' j Hpt Hj. unfold pte_at, pte_addr. rewrite Haddr by done. rewrite Hmem.
    apply rdw_wrw_ne. intros Ea. destruct (vm_pt_bound Hvm _ _ Hpt) as (_ & Hm & _).
    apply entry_inj in Ea as [Ea _]; try done; [|lia].
    destruct (vo_pt _ _ _ _ Hvm _ _ Hpt) as [_ Hn']. apply Hn'. by rewrite <-Ea. }
  assert (forall x t, maps (mem s') pds x t <-> maps (mem s) pds x t) as Hmaps.
  { intros [[pd' i'] j] t. unfold maps. rewrite Hhp. split; intros (A & B & C & D);
      [rewrite Hpte in C, D by done|rewrite Hpte by done]; done. }
  split_and!; [|done|intros; split; [by apply Hhp|by apply Hpte]].
  split.
  - eapply alloc_ok_same; [apply (vo_alloc _ _ _ _ Hvm)|done..].
  - intros p r'. rewrite Href. apply (vo_ref16 _ _ _ _ Hvm).
  - intros a. rewrite Hmem. destruct (decide (pd + 4 * i = a)) as [<-|]; [by rewrite rdw_wrw_eq|].
    rewrite rdw_wrw_ne by done. apply (vo_word _ _ _ _ Hvm).
  - intros pd'. rewrite Href. apply (vo_pd _ _ _ _ Hvm).
  - intros pd' i' Hpt%Hhp. rewrite Haddr, Href by done. by apply (vo_pt _ _ _ _ Hvm).
  - intros pd1 i1 pd2 i2 H1%Hhp H2%Hhp. rewrite !Haddr by done. by apply (vo_inj _ _ _ _ Hvm).
  - intros pd' i' j' Hpt%Hhp Hj. rewrite Hpte by done. by apply (vo_pte _ _ _ _ Hvm).
  - intros x u Hxu%Hmaps. destruct (vo_data _ _ _ _ Hvm _ _ Hxu) as [A B]. split; [done|].
    intros pd' i' Hpt%Hhp. rewrite Haddr by done. by apply B.
  - intros x u Hxu%Hmaps. rewrite Href. by eapply (vo_tgt _ _ _ _ Hvm).
  - apply (vo_ex _ _ _ _ Hvm).
  - intros u r' xs Hr' Hnd Hxs. rewrite Href in Hr'. apply (vo_count _ _ _ _ Hvm u); try done.
    intros x Hx. by apply Hmaps, Hxs.
Qed.

(** A free page is neither a directory, nor a page table, nor mapped. *)
Lemma vm_free_apart s l pds ex p :
  vm_ok s l pds ex -> p ∈ l ->
  p * 4096 ∉ pds /\ (forall pd i, has_pt (mem s) pds pd i -> PTE_ADDR (pde_at (mem s) pd i) <> p * 4096) /\
  (forall x, ~ maps (mem s) pds x p).
Proof.
  intros Hvm Hp. pose proof (vm_free_ref Hvm p Hp) as Hr. split_and!.
  - intros Hpd. destruct (vo_pd _ _ _ _ Hvm _ Hpd) as [_ Hr'].
    rewrite Z.div_mul in Hr' by done. congruence.
  - intros pd i Hpt E. destruct (vo_pt _ _ _ _ Hvm _ _ Hpt) as [Hr' _].
    rewrite E, Z.div_mul in Hr' by done. congruence.
  - intros x Hx. destruct (vm_maps_ref1 Hvm _ _ Hx) as (r & Hr' & ?). congruence || (rewrite Hr in Hr'; simplify_eq; lia).
Qed.

(** Writing a free page and one user entry of a directory. *)
Section NewPt.
Context (s : kstate) (l pds : list Z) (ex : Z -> Z) (p pd i v : Z).
Context (Hvm : vm_ok s (p :: l) pds ex) (Hpd : pd ∈ pds) (Hi : 0 <= i < NUPDE).
Context (Hno : has (pde_at (mem s) pd i) PTE_P = false).
Context (Hv : is_u32 v) (Hvp : has v PTE_P = true) (Hva : PTE_ADDR v = p * 4096).
Let m' : gmap Z Z := wrw (fillw (mem s) (page_words (p * 4096)) 0) (pd + 4 * i) v.

Lemma newpt_outside a :
  a <> pd + 4 * i -> (forall j, 0 <= j < 1024 -> a <> p * 4096 + 4 * j) -> rdw m' a = rdw (mem s) a.
Proof.
  intros Ha Hout. unfold m'. rewrite rdw_wrw_ne by done. apply rdw_fillw_out.
  intros (j & Hj & E)%elem_of_page_words. by apply (Hout j).
Qed.

Lemma newpt_apart : p * 4096 ∉ pds /\
  (forall pd i, has_pt (mem s) pds pd i -> PTE_ADDR (pde_at (mem s) pd i) <> p * 4096) /\
  (forall x, ~ maps (mem s) pds x p).
Proof. apply (vm_free_apart _ _ _ _ p Hvm), list_elem_of_here. Qed.

Lemma newpt_pde pd' i' : pd' ∈ pds -> 0 <= i' < NUPDE ->
  pde_at m' pd' i' = if decide ((pd', i') = (pd, i)) then v else pde_at (mem s) pd' i'.
Proof.
  intros Hpd' Hi'. unfold NUPDE in *. destruct (vm_pd_bound Hvm pd' Hpd') as [_ Hm'].
  destruct (vm_pd_bound Hvm pd Hpd) as [_ Hm]. destruct newpt_apart as [Hp _].
  unfold pde_at. case_decide as E; [simplify_eq; apply rdw_wrw_eq|].
  apply newpt_outside.
  - intros Ea. apply E. apply entry_inj in Ea as [-> ->]; try done; lia.
  - intros j Hj Ea. apply entry_inj in Ea as [-> _]; try done; zlia.
Qed.

Lemma newpt_has_pt pd' i' :
  has_pt m' pds pd' i' <-> has_pt (mem s) pds pd' i' \/ (pd', i') = (pd, i).
Proof.
  unfold has_pt. split.
  - intros (A & B & C). rewrite newpt_pde in C by done. case_decide; [by right|by left].
  - intros [(A & B & C)|E]; [|simplify_eq]; (split; [done|]; split; [done|]);
      rewrite newpt_pde by done; case_decide; rewrite ?Hvp; done.
Qed.

Lemma newpt_pt_addr pd' i' : has_pt (mem s) pds pd' i' ->
  PTE_ADDR (pde_at m' pd' i') = PTE_ADDR (pde_at (mem s) pd' i').
Proof.
  intros (A & B & C). rewrite newpt_pde by done. case_decide; [|done]. simplify_eq.
  by rewrite Hno in C.
Qed.

Lemma newpt_addr : PTE_ADDR (pde_at m' pd i) = p * 4096.
Proof. rewrite newpt_pde by done. by rewrite decide_True. Qed.

Lemma newpt_pte pd' i' j : has_pt (mem s) pds pd' i' -> 0 <= j < 1024 ->
  pte_at m' pd' i' j = pte_at (mem s) pd' i' j.
Proof.
  intros Hpt Hj. unfold pte_at, pte_addr. rewrite newpt_pt_addr by done.
  destruct (vm_pt_bound Hvm _ _ Hpt) as (_ & Hm' & _).
  destruct (vm_pd_bound Hvm pd Hpd) as [_ Hm]. destruct newpt_apart as (_ & Hp & _).
  unfold NUPDE in Hi. apply newpt_outside.
  - intros Ea. apply entry_inj in Ea as [Ea _]; try done; [|lia].
    destruct (vo_pt _ _ _ _ Hvm _ _ Hpt) as [_ Hn]. apply Hn. by rewrite Ea.
  - intros k Hk Ea. apply entry_inj in Ea as [Ea _]; try done; [|zlia]. by apply (Hp _ _ Hpt).
Qed.

Lemma newpt_pte_new j : 0 <= j < 1024 -> pte_at m' pd i j = 0.
Proof.
  intros Hj. unfold pte_at, pte_addr. rewrite newpt_addr.
  destruct (vm_pd_bound Hvm pd Hpd) as [_ Hm]. destruct newpt_apart as (Hp & _).
  unfold NUPDE in Hi. unfold m'. rewrite rdw_wrw_ne.
  - apply rdw_fillw_in, elem_of_page_words. eauto.
  - intros Ea. apply entry_inj in Ea as [-> _]; try done; zlia.
Qed.

Lemma newpt_maps x t : maps m' pds x t <-> maps (mem s) pds x t.
Proof.
  destruct x as [[pd' i'] j]. unfold maps. rewrite newpt_has_pt. split.
  - intros ([Hpt|E] & Hj & Hp & Ha).
    + rewrite newpt_pte in Hp, Ha by done. done.
    + simplify_eq. rewrite newpt_pte_new in Hp by done. done.
  - intros (Hpt & Hj & Hp & Ha). rewrite newpt_pte by done. eauto.
Qed.

Lemma vm_ok_newpt s' :
  npages s' = npages s -> pages s' = zset (pages s) p (MkPageInfo None 1) ->
  page_free_list s' = head l -> mem s' = m' -> vm_ok s' l pds ex.
Proof.
  intros Hn Hpg Hfl Hmem. destruct newpt_apart as (Hppd & Hppt & Hpm).
  pose proof (vm_free_ref Hvm p (list_elem_of_here _ _)) as Hrp.
  assert (ref_upd s s' p 1) as Hupd.
  { intros q. eapply page_ref_zset in Hpg as ->; [done|by eapply page_ref_range]. }
  assert (forall q r, q <> p -> page_ref s q = Some r -> page_ref s' q = Some r) as Hkeep.
  { intros q r Hq Hr. rewrite Hupd. by rewrite decide_False. }
  split; rewrite ?Hmem.
  - eapply alloc_ok_pop; [apply (vo_alloc _ _ _ _ Hvm)|done..|eauto].
  - intros q r. rewrite Hupd. case_decide; [intros; by simplify_eq|]. apply (vo_ref16 _ _ _ _ Hvm).
  - intros a. destruct (decide (a = pd + 4 * i)) as [->|]; [unfold m'; by rewrite rdw_wrw_eq|].
    unfold m'. rewrite rdw_wrw_ne by done.
    destruct (decide (a ∈ page_words (p * 4096))); [by rewrite rdw_fillw_in|].
    rewrite rdw_fillw_out by done. apply (vo_word _ _ _ _ Hvm).
  - intros pd' Hpd'. destruct (vo_pd _ _ _ _ Hvm _ Hpd') as [Hm Hr]. split; [done|].
    apply Hkeep; [|done]. intros <-. apply Hppd. by replace (pd' / 4096 * 4096) with pd' by zlia.
  - intros pd' i'. rewrite newpt_has_pt. intros [Hpt|E].
    + rewrite newpt_pt_addr by done. destruct (vo_pt _ _ _ _ Hvm _ _ Hpt) as [Hr Hni].
      split; [|done]. apply Hkeep; [|done]. intros Ep. apply (Hppt _ _ Hpt).
      destruct (vm_pt_bound Hvm _ _ Hpt) as (_ & Hm & _). zlia.
    + injection E as -> ->. rewrite newpt_addr, Z.div_mul by done. split; [|done].
      rewrite Hupd. by rewrite decide_True.
  - intros pd1 i1 pd2 i2. rewrite !newpt_has_pt. intros [H1|E1] [H2|E2]; try injection E1 as -> ->; try injection E2 as -> ->;
      rewrite ?newpt_addr, ?newpt_pt_addr by done; try done.
    + by apply (vo_inj _ _ _ _ Hvm).
    + intros Ea. by destruct (Hppt _ _ H1).
    + intros Ea. by destruct (Hppt _ _ H2).
  - intros pd' i' j. rewrite newpt_has_pt. intros [Hpt|E] Hj; try injection E as -> ->.
    + rewrite newpt_pte by done. by apply (vo_pte _ _ _ _ Hvm).
    + left. by apply newpt_pte_new.
  - intros x t. rewrite newpt_maps. intros Hx. destruct (vo_data _ _ _ _ Hvm _ _ Hx) as [A B].
    split; [done|]. intros pd' i'. rewrite newpt_has_pt. intros [Hpt|E]; try injection E as -> ->.
    + rewrite newpt_pt_addr by done. by apply B.
    + rewrite newpt_addr. intros Ep. apply (Hpm x). by replace p with t by lia.
  - intros x t. rewrite newpt_maps. intros Hx. rewrite Hupd. case_decide; [done|]. by eapply (vo_tgt _ _ _ _ Hvm).
  - apply (vo_ex _ _ _ _ Hvm).
  - intros t r xs Hr Hnd Hxs. rewrite Hupd in Hr. case_decide as E.
    + rewrite E in Hxs |- *. injection Hr as <-. destruct xs as [|x xs].
      * pose proof (vo_count _ _ _ _ Hvm p 0 [] Hrp (NoDup_nil_2) ltac:(by intros x ?%elem_of_nil)) as Hc.
        change (zlen (@nil slot)) with 0 in *. lia.
      * exfalso. apply (Hpm x). rewrite <-newpt_maps. apply Hxs, list_elem_of_here.
    + apply (vo_count _ _ _ _ Hvm t); try done. intros x Hx. rewrite <-newpt_maps. by apply Hxs.
Qed.
End NewPt.

(** ** Address spaces as partial maps

    [vlookup m pd i j]: the entry the MMU uses for the user page [(i, j)] of the
    address space [pd], [None] when the page is not mapped. *)
Definition vlookup (m : gmap Z Z) (pd i j : Z) : option Z :=
  if has (pde_at m pd i) PTE_P then
    if has (pte_at m pd i j) PTE_P then Some (pte_at m pd i j) else None
  else None.

(** The user tables of [m'] are those of [m]. *)
Definition tables_eq (pds : list Z) (m m' : gmap Z Z) : Prop :=
  forall pd i, pd ∈ pds -> 0 <= i < NUPDE ->
    pde_at m' pd i = pde_at m pd i /\
    (has (pde_at m pd i) PTE_P -> forall j, 0 <= j < 1024 -> pte_at m' pd i j = pte_at m pd i j).

Definition views_eq (pds : list Z) (m m' : gmap Z Z) : Prop :=
  forall pd i j, pd ∈ pds -> user_slot i j -> vlookup m' pd i j = vlookup m pd i j.

Lemma tables_eq_views pds m m' : tables_eq pds m m' -> views_eq pds m m'.
Proof.
  intros H pd i j Hpd [Hi Hj]. destruct (H pd i Hpd Hi) as [E1 E2]. unfold vlookup.
  rewrite E1. destruct (has (pde_at m pd i) PTE_P); [|done]. by rewrite E2.
Qed.

Lemma tables_eq_has_pt pds m m' pd i :
  tables_eq pds m m' -> has_pt m' pds pd i <-> has_pt m pds pd i.
Proof.
  intros H. unfold has_pt. split; intros (A & B & C); destruct (H pd i A B) as [E _];
    (split; [done|]; split; [done|]); congruence.
Qed.

Lemma tables_eq_maps pds m m' x t :
  tables_eq pds m m' -> maps m' pds x t <-> maps m pds x t.
Proof.
  intros H. destruct x as [[pd i] j]. unfold maps. rewrite tables_eq_has_pt by done.
  split; intros (A & B & C & D); pose proof A as (A1 & A2 & A3);
    destruct (H pd i A1 A2) as [_ E]; rewrite E in *; done.
Qed.

(** Changes that leave the user tables and the counts alone. *)
Lemma vm_ok_tables s s' l l' pds ex :
  vm_ok s l pds ex -> tables_eq pds (mem s) (mem s') -> alloc_ok s' l' ->
  (forall a, is_u32 (rdw (mem s') a)) -> (forall q, page_ref s' q = page_ref s q) ->
  vm_ok s' l' pds ex.
Proof.
  intros Hvm Ht Hal Hw Href.
  assert (forall pd i, has_pt (mem s) pds pd i -> pde_at (mem s') pd i = pde_at (mem s) pd i) as Hpde.
  { intros pd i (A & B & _). by apply Ht. }
  split; try done.
  - intros p r. rewrite Href. apply (vo_ref16 _ _ _ _ Hvm).
  - intros pd. rewrite Href. apply (vo_pd _ _ _ _ Hvm).
  - intros pd i. rewrite tables_eq_has_pt by done. intros Hpt. rewrite Hpde, Href by done.
    by apply (vo_pt _ _ _ _ Hvm).
  - intros pd i pd' i' H1 H2. rewrite tables_eq_has_pt in H1, H2 by done. rewrite !Hpde by done.
    by apply (vo_inj _ _ _ _ Hvm).
  - intros pd i j. rewrite tables_eq_has_pt by done. intros Hpt Hj.
    pose proof Hpt as (A & B & C). destruct (Ht pd i A B) as [_ E]. rewrite E by done.
    by apply (vo_pte _ _ _ _ Hvm).
  - intros x t. rewrite tables_eq_maps by done. intros Hx.
    destruct (vo_data _ _ _ _ Hvm _ _ Hx) as [A B]. split; [done|].
    intros pd i. rewrite tables_eq_has_pt by done. intros Hpt. rewrite Hpde by done. by apply B.
  - intros x t. rewrite tables_eq_maps, Href by done. apply (vo_tgt _ _ _ _ Hvm).
  - apply (vo_ex _ _ _ _ Hvm).
  - intros t r xs. rewrite Href. intros Hr Hnd Hxs. apply (vo_count _ _ _ _ Hvm t); try done.
    intros x Hx. rewrite <-tables_eq_maps by done. by apply Hxs.
Qed.

(** Filling a page that holds no table. *)
Lemma tables_eq_fill s l pds ex p w :
  vm_ok s l pds ex -> is_data (mem s) pds p -> tables_eq pds (mem s) (fillw (mem s) (page_words (p * 4096)) w).
Proof.
  intros Hvm [Hpd Hpt].
  assert (forall q k, q `mod` 4096 = 0 -> q <> p * 4096 -> 0 <= k < 1024 ->
    rdw (fillw (mem s) (page_words (p * 4096)) w) (q + 4 * k) = rdw (mem s) (q + 4 * k)) as Hout.
  { intros q k Hq Hne Hk. apply rdw_fillw_out. intros (j & Hj & E)%elem_of_page_words.
    apply entry_inj in E as [-> _]; try done. zlia. }
  intros pd i Hpd' Hi. unfold NUPDE in Hi. destruct (vm_pd_bound Hvm pd Hpd') as [_ Hm].
  assert (pde_at (fillw (mem s) (page_words (p * 4096)) w) pd i = pde_at (mem s) pd i) as E.
  { apply Hout; [done| |lia]. intros ->. done. }
  split; [done|]. intros Hp j Hj. unfold pte_at, pte_addr. rewrite E.
  assert (has_pt (mem s) pds pd i) as Hhp by (unfold has_pt, NUPDE; auto).
  destruct (vm_pt_bound Hvm _ _ Hhp) as (_ & Hm' & _). apply Hout; [done| |done]. by apply Hpt.
Qed.

Lemma vm_ok_alloc s l pds ex p flags :
  vm_ok s (p :: l) pds ex ->
  let s' := alloc_st flags p l s in
  vm_ok s' l pds ex /\ tables_eq pds (mem s) (mem s') /\ is_data (mem s') pds p /\ p ∉ l /\
  zget (pages s') p = Some (MkPageInfo None 0) /\ (forall q, page_ref s' q = page_ref s q).
Proof.
  intros Hvm s'. pose proof (vo_alloc _ _ _ _ Hvm) as Hal.
  destruct (vm_free_apart _ _ _ _ p Hvm (list_elem_of_here _ _)) as (Hpd & Hpt & _).
  assert (tables_eq pds (mem s) (mem s')) as Ht.
  { unfold s', alloc_st. case_match; [|done]. eapply tables_eq_fill; [done|]. split; done. }
  pose proof (vm_free_ref Hvm p (list_elem_of_here _ _)) as Hrp.
  assert (forall q, page_ref s' q = page_ref s q) as Href.
  { intros q. erewrite page_ref_zset; [|apply alloc_st_pages|by eapply page_ref_range].
    case_decide; [by subst|done]. }
  assert (vm_ok s' l pds ex) as Hvm'.
  { eapply vm_ok_tables; [done..|by apply alloc_st_ok| |done].
    intros a. unfold s', alloc_st. case_match; [|apply (vo_word _ _ _ _ Hvm)]. simpl.
    destruct (decide (a ∈ page_words (p * 4096))); [by rewrite rdw_fillw_in|].
    rewrite rdw_fillw_out by done. apply (vo_word _ _ _ _ Hvm). }
  split_and!; try done.
  - split; [done|]. intros pd i. rewrite tables_eq_has_pt by done. intros Hhp.
    pose proof Hhp as (A & B & _). destruct (Ht pd i A B) as [-> _]. by apply Hpt.
  - pose proof (ao_nodup _ _ Hal) as Hnd. by apply list.NoDup_cons in Hnd as [? _].
  - unfold s'. rewrite alloc_st_pages. apply zget_zset_eq. by eapply page_ref_range.
Qed.
