(* ===== verification/AddrSpace.v ===== *)
(** * Address spaces of JOS: the page-table operations are correct

    Specifications of [pgdir_walk], [page_lookup], [page_remove],
    [page_insert], [user_mem_check] and [check_va2pa] over the partial map
    [vlookup] from user pages to page-table entries, under the invariant
    [vm_ok] of [PageTable]. *)
From S2P Require Import Prelude.
From S2P Require Import Mmu.
From S2P Require Import KState.
From S2P Require Import Pmap.
From S2P Require Import PageTable.

(** The kernel state outside the memory system is unchanged. *)
Definition vm_frame (s s' : kstate) : Prop :=
  s' = with_pages (pages s') (with_page_free_list (page_free_list s')
         (with_mem (mem s') (with_invlpgs (invlpgs s') s))).

Lemma vm_frame_refl s : vm_frame s s.
Proof. by destruct s. Qed.
Lemma vm_frame_trans s1 s2 s3 : vm_frame s1 s2 -> vm_frame s2 s3 -> vm_frame s1 s3.
Proof.
  unfold vm_frame. destruct s1, s2, s3. cbn. intros H1 H2. injection H1. injection H2.
  intros. subst. reflexivity.
Qed.
Lemma vm_frame_npages s s' : vm_frame s s' -> npages s' = npages s.
Proof. intros ->. done. Qed.
Lemma vm_frame_envs s s' : vm_frame s s' -> envs s' = envs s.
Proof. intros ->. done. Qed.

(** [curenv] is null or an environment. *)
Definition cpu_ok (s : kstate) : Prop :=
  exists c, zget (cpu_env s) (this_cpu s) = Some c /\
    forall e, c = Some e -> is_Some (zget (envs s) e).

Lemma cpu_ok_frame s s' : vm_frame s s' -> cpu_ok s -> cpu_ok s'.
Proof. intros ->. done. Qed.

#[export] Hint Resolve vm_frame_refl vm_frame_trans cpu_ok_frame : os.

(** [va] is below UTOP, the part of an address space the kernel manages for the
    user. *)
Definition user_va (va : Z) : Prop := 0 <= va < UTOP.

Lemma user_va_u32 va : user_va va -> is_u32 va.
Proof. unfold user_va, is_u32. change UTOP with 4005560320. lia. Qed.

Lemma user_va_slot va : user_va va -> user_slot (PDX va) (PTX va).
Proof.
  intros H. split; [|apply PTX_range]. rewrite PDX_div by (by apply user_va_u32).
  unfold user_va in H. change UTOP with 4005560320 in H. unfold NUPDE. zlia.
Qed.

Lemma user_slot_1024 i j : user_slot i j -> 0 <= i < 1024.
Proof. unfold user_slot, NUPDE. lia. Qed.

(** ** [pgdir_walk] *)
Section Walk.
Context (s : kstate) (l pds : list Z) (ex : Z -> Z) (pd va : Z).
Context (Hvm : vm_ok s l pds ex) (Hpd : pd ∈ pds) (Hva : user_slot (PDX va) (PTX va)).
Let i := PDX va.
Let j := PTX va.

Lemma ld_pde : ld32 (pd + KERNBASE + 4 * PDX va) s = Ret (pde_at (mem s) pd i) s.
Proof.
  destruct (vm_pd_bound Hvm pd Hpd). pose proof (PDX_range va).
  replace (pd + KERNBASE + 4 * PDX va) with (pd + 4 * PDX va + KERNBASE) by lia.
  by rewrite ld32_ok by lia.
Qed.

Lemma has_pt_slot : has (pde_at (mem s) pd i) PTE_P = true -> has_pt (mem s) pds pd i.
Proof. intros E. split; [done|]. split; [apply Hva|]. by rewrite E. Qed.

Lemma pgdir_walk_present create :
  has (pde_at (mem s) pd i) PTE_P = true ->
  pgdir_walk (pd + KERNBASE) va create s = Ret (Some (pte_addr (mem s) pd i j + KERNBASE)) s.
Proof.
  intros E. unfold pgdir_walk. cbv zeta. exec_by ld_pde. rewrite E. cbn [negb]. exec.
  exec_by ld_pde. destruct (vm_pt_bound Hvm _ _ (has_pt_slot E)) as (A & B & C & D).
  exec_by (KADDR_ok s _ D C (vm_npages Hvm)). unfold mret, M_ret, pte_addr. do 2 f_equal.
  fold j. lia.
Qed.

Lemma pgdir_walk_absent :
  has (pde_at (mem s) pd i) PTE_P = false ->
  pgdir_walk (pd + KERNBASE) va false s = Ret None s.
Proof.
  intros E. unfold pgdir_walk. cbv zeta. exec_by ld_pde. rewrite E. by exec.
Qed.

Lemma pgdir_walk_create_full :
  has (pde_at (mem s) pd i) PTE_P = false -> l = [] ->
  pgdir_walk (pd + KERNBASE) va true s = Ret None s.
Proof.
  intros E El. pose proof (vo_alloc _ _ _ _ Hvm) as Hal. rewrite El in Hal.
  unfold pgdir_walk. cbv zeta. exec_by ld_pde. rewrite E. cbn [negb].
  exec. by exec_by (page_alloc_nil s 1 Hal).
Qed.
End Walk.

(** The directory entry [pgdir_walk] writes: [page2pa(pp) | PTE_P | PTE_U | PTE_W]. *)
Lemma pde_value p : 0 <= p < 65536 ->
  let v := Z.lor (Z.lor (Z.lor (page2pa p) PTE_P) PTE_U) PTE_W in
  is_u32 v /\ has v PTE_P = true /\ PTE_ADDR v = p * 4096.
Proof.
  intros Hp. rewrite page2pa_mul by done. rewrite <-!Z.lor_assoc, lor_flags by (done || by_vm).
  change (Z.lor PTE_P (Z.lor PTE_U PTE_W)) with 7.
  assert (is_u32 (p * 4096 + 7)) by (unfold is_u32; lia).
  split_and!; [done| |].
  - rewrite has_PTE_P_mod. zlia.
  - rewrite PTE_ADDR_sub by done. zlia.
Qed.

(** No page outside [l] that holds no table became a table or changed its
    contents. *)
Definition keeps (l pds : list Z) (m m' : gmap Z Z) : Prop :=
  forall q, q ∉ l -> is_data m pds q -> is_data m' pds q /\
    forall k, 0 <= k < 1024 -> rdw m' (q * 4096 + 4 * k) = rdw m (q * 4096 + 4 * k).

Lemma keeps_refl l pds m : keeps l pds m m.
Proof. done. Qed.
Lemma keeps_trans l l' pds m1 m2 m3 :
  l' ⊆ l -> keeps l pds m1 m2 -> keeps l' pds m2 m3 -> keeps l pds m1 m3.
Proof.
  intros Hl H1 H2 q Hq Hd. destruct (H1 q Hq Hd) as [Hd2 E2].
  destruct (H2 q) as [Hd3 E3]; [by intros ?%Hl|done|]. split; [done|].
  intros k Hk. by rewrite E3, E2.
Qed.

Lemma keeps_weaken l pds m m' : keeps [] pds m m' -> keeps l pds m m'.
Proof. intros H q _ Hd. apply H; [by apply not_elem_of_nil|done]. Qed.

(** Storing into a user page table or a directory keeps the data pages. *)
Lemma keeps_slot_write s l pds ex pd i j v :
  vm_ok s l pds ex -> has_pt (mem s) pds pd i -> 0 <= j < 1024 ->
  keeps [] pds (mem s) (wrw (mem s) (pte_addr (mem s) pd i j) v).
Proof.
  intros Hvm Hpt Hj q _ [Hq1 Hq2]. destruct (vm_pt_bound Hvm _ _ Hpt) as (_ & Hm & _). split.
  - split; [done|]. intros pd' i'. rewrite (has_pt_slot_write Hvm) by done. intros Hpt'.
    rewrite (PTE_ADDR_slot_write Hvm) by done. by apply Hq2.
  - intros k Hk. apply rdw_wrw_ne. unfold pte_addr. intros Ea.
    apply entry_inj in Ea as [Ea _]; [|done|zlia|done..]. by apply (Hq2 _ _ Hpt).
Qed.

(** What [pgdir_walk] with [create] does: it finds the page table or adds an empty
    one; no mapping changes. *)
Record walked (s s' : kstate) (l l' pds : list Z) (ex : Z -> Z) (pd i : Z) : Prop := {
  wk_vm : vm_ok s' l' pds ex;
  wk_pt : has_pt (mem s') pds pd i;
  wk_view : views_eq pds (mem s) (mem s');
  wk_frame : vm_frame s s';
  wk_sub : l' ⊆ l;
  wk_pages : forall q, q ∉ l -> zget (pages s') q = zget (pages s) q;
  wk_keeps : keeps l pds (mem s) (mem s');
}.

Lemma pgdir_walk_create s l pds ex pd va :
  vm_ok s l pds ex -> pd ∈ pds -> user_slot (PDX va) (PTX va) ->
  (l = [] /\ has (pde_at (mem s) pd (PDX va)) PTE_P = false /\
   pgdir_walk (pd + KERNBASE) va true s = Ret None s) \/
  exists s' l', pgdir_walk (pd + KERNBASE) va true s
                = Ret (Some (pte_addr (mem s') pd (PDX va) (PTX va) + KERNBASE)) s' /\
    walked s s' l l' pds ex pd (PDX va).
Proof.
  intros Hvm Hpd Hva. destruct (has (pde_at (mem s) pd (PDX va)) PTE_P) eqn:E.
  { right. exists s, l. split; [by eapply pgdir_walk_present|].
    split; try done; [by eapply has_pt_slot|apply vm_frame_refl]. }
  destruct l as [|p l]; [left; split_and!; [done..|by eapply pgdir_walk_create_full]|right].
  pose proof (vo_alloc _ _ _ _ Hvm) as Hal.
  destruct (vm_ok_alloc _ _ _ _ _ 1 Hvm) as (Hvm1 & Ht & Hd & Hni & Hg & Href).
  pose proof (vm_free_ref Hvm p (list_elem_of_here _ _)) as Hr0.
  destruct (vm_page_bound Hvm _ _ Hr0) as [Hpn Hp].
  destruct (pde_value p ltac:(lia)) as (Hv & Hvp & Hvaddr).
  set (v := Z.lor (Z.lor (Z.lor (page2pa p) PTE_P) PTE_U) PTE_W) in *.
  set (s1 := alloc_st 1 p l s) in *.
  set (s2 := with_pages (zset (pages s1) p (MkPageInfo None 1)) s1).
  set (s3 := with_mem (wrw (mem s1) (pd + 4 * PDX va) v) s2).
  assert (pages s3 = zset (pages s) p (MkPageInfo None 1)) as Hpg3.
  { change (pages s3) with (zset (pages s1) p (MkPageInfo None 1)). unfold s1.
    by rewrite alloc_st_pages, zset_zset_eq. }
  destruct Hva as [Hi Hj].
  destruct (vm_pd_bound Hvm pd Hpd) as [Hpd0 _]. pose proof (PDX_range va) as HPi.
  assert (vm_ok s3 l pds ex) as Hvm3.
  { eapply (vm_ok_newpt s l pds ex p pd (PDX va) v); done. }
  assert (pde_at (mem s3) pd (PDX va) = v) as Epde by apply rdw_wrw_eq.
  assert (has_pt (mem s3) pds pd (PDX va)) as Hpt3.
  { split; [done|]. split; [done|]. by rewrite Epde, Hvp. }
  exists s3, l. split; [|split; [done|done|..]].
  - unfold pgdir_walk. cbv zeta. exec_by (ld_pde _ _ _ _ _ va Hvm Hpd). rewrite E. cbn [negb].
    exec. exec_by (page_alloc_cons s 1 p l Hal). exec.
    exec_by (page_incref_ok s1 p _ Hg). simpl pp_link. simpl pp_ref. change (u16 (0 + 1)) with 1.
    replace (pd + KERNBASE + 4 * PDX va) with (pd + 4 * PDX va + KERNBASE) by lia.
    fold v s2. exec. rewrite (bind_Ret _ _ _ _ _ (st32_ok s2 (pd + 4 * PDX va) v ltac:(lia))).
    change (with_mem _ s2) with s3. cbv beta. exec.
    rewrite (bind_Ret _ _ _ _ _ (ld32_ok s3 (pd + 4 * PDX va) ltac:(lia))). cbv beta.
    destruct (vm_pt_bound Hvm3 _ _ Hpt3) as (A & B & C & D).
    exec_by (KADDR_ok s3 _ D C (vm_npages Hvm3)). unfold mret, M_ret, pte_addr, pde_at.
    do 2 f_equal. lia.
  - intros pd' i' j' Hpd' [Hi' Hj']. change (mem s3) with (wrw (fillw (mem s) (page_words (p * 4096)) 0) (pd + 4 * PDX va) v).
    unfold vlookup. rewrite (newpt_pde s l pds ex p pd (PDX va) v) by done.
    destruct (decide _) as [Eq|Ne].
    + injection Eq as -> ->. rewrite Hvp, E.
      by rewrite (newpt_pte_new s l pds ex p pd (PDX va) v) by done.
    + destruct (has (pde_at (mem s) pd' i') PTE_P) eqn:E'; [|done].
      rewrite (newpt_pte s l pds ex p pd (PDX va) v) by (try done; unfold has_pt; by rewrite E'). done.
  - unfold vm_frame, s3, s2, s1, alloc_st. by destruct s.
  - intros q. apply list_elem_of_further.
  - intros q Hq. rewrite Hpg3. apply zget_zset_ne. intros <-. apply Hq, list_elem_of_here.
  - intros q Hq [Hqpd Hqpt]. destruct (vm_free_apart _ _ _ _ p Hvm (list_elem_of_here _ _)) as (Hppd & _).
    destruct (vm_pd_bound Hvm pd Hpd) as [_ Hpdm]. split; cycle 1.
    { intros k Hk. apply (newpt_outside s p pd (PDX va) v).
      - intros Ea. apply entry_inj in Ea as [Ea _]; [|zlia|done|done|done]. apply Hqpd. by rewrite Ea.
      - intros k' Hk' Ea. apply entry_inj in Ea as [Ea _]; [|zlia|zlia|done|done].
        apply Hq. replace q with p by lia. apply list_elem_of_here. }
    split; [done|]. intros pd' i'.
    change (mem s3) with (wrw (fillw (mem s) (page_words (p * 4096)) 0) (pd + 4 * PDX va) v).
    rewrite (newpt_has_pt s l pds ex p pd (PDX va) v) by done. intros [Hpt|Eq].
    + rewrite (newpt_pt_addr s l pds ex p pd (PDX va) v) by done. by apply Hqpt.
    + injection Eq as -> ->. rewrite (newpt_addr s l pds ex p pd (PDX va) v) by done.
      intros Ep. apply Hq. replace q with p by lia. apply list_elem_of_here.
Qed.

(** ** [page_lookup] and [page_remove] *)

Lemma vlookup_present s l pds ex pd i j v :
  vm_ok s l pds ex -> pd ∈ pds -> user_slot i j -> vlookup (mem s) pd i j = Some v ->
  has_pt (mem s) pds pd i /\ pte_at (mem s) pd i j = v /\ has v PTE_P = true /\ is_u32 v /\
  maps (mem s) pds (pd, i, j) (PTE_ADDR v / 4096).
Proof.
  intros Hvm Hpd [Hi Hj]. unfold vlookup.
  destruct (has (pde_at (mem s) pd i) PTE_P) eqn:E; [|done].
  destruct (has (pte_at (mem s) pd i j) PTE_P) eqn:E'; [|done]. intros [= <-].
  assert (has_pt (mem s) pds pd i) as Hpt by (unfold has_pt; by rewrite E).
  assert (is_u32 (pte_at (mem s) pd i j)) as Hu by apply (vo_word _ _ _ _ Hvm).
  split_and!; try done. unfold maps. rewrite E'. split; [done|]. split; [done|]. split; [done|].
  destruct (PTE_ADDR_range _ Hu) as [_ Hm]. zlia.
Qed.

Lemma pte_kva_range s l pds ex pd i j :
  vm_ok s l pds ex -> has_pt (mem s) pds pd i -> 0 <= j < 1024 -> 0 <= pte_addr (mem s) pd i j.
Proof. intros Hvm Hpt Hj. destruct (vm_pt_bound Hvm _ _ Hpt). unfold pte_addr. lia. Qed.

Lemma maps_bound s l pds ex x t : vm_ok s l pds ex -> maps (mem s) pds x t -> 0 <= t < npages s.
Proof.
  intros Hvm Hx. destruct (vo_tgt _ _ _ _ Hvm _ _ Hx) as [r Hr].
  destruct (vm_page_bound Hvm _ _ Hr). lia.
Qed.

Lemma page_lookup_ok s l pds ex pd va :
  vm_ok s l pds ex -> pd ∈ pds -> user_slot (PDX va) (PTX va) ->
  page_lookup (pd + KERNBASE) va s =
  Ret ((fun v => (PTE_ADDR v / 4096, pte_addr (mem s) pd (PDX va) (PTX va) + KERNBASE))
         <$> vlookup (mem s) pd (PDX va) (PTX va)) s.
Proof.
  intros Hvm Hpd Hva. unfold page_lookup. unfold vlookup.
  destruct (has (pde_at (mem s) pd (PDX va)) PTE_P) eqn:E;
    [|by exec_by (pgdir_walk_absent s l pds ex pd va Hvm Hpd E)].
  exec_by (pgdir_walk_present s l pds ex pd va Hvm Hpd Hva false E).
  pose proof (has_pt_slot s pds pd va Hpd Hva E) as Hpt.
  pose proof (pte_kva_range _ _ _ _ _ _ _ Hvm Hpt (proj2 Hva)) as Hk.
  exec_by (ld32_ok s _ Hk). change (rdw (mem s) _) with (pte_at (mem s) pd (PDX va) (PTX va)).
  set (v := pte_at (mem s) pd (PDX va) (PTX va)).
  destruct (vo_pte _ _ _ _ Hvm _ _ _ Hpt (proj2 Hva)) as [E0|E1]; fold v in E0 || fold v in E1.
  - rewrite E0. done.
  - destruct (Z.eqb_spec v 0) as [E0|_]; [by rewrite E0 in E1|].
    simpl. rewrite (Is_true_true_1 _ E1).
    assert (maps (mem s) pds (pd, PDX va, PTX va) (PTE_ADDR v / 4096)) as Hm.
    { eapply vlookup_present; try done. unfold vlookup. rewrite E. fold v.
      by rewrite (Is_true_true_1 _ E1). }
    assert (is_u32 v) as Hu by apply (vo_word _ _ _ _ Hvm).
    destruct (PTE_ADDR_range v Hu) as [Hu' _].
    assert (PGNUM (PTE_ADDR v) < npages s) as Hn.
    { rewrite PGNUM_div by done. by apply (maps_bound _ _ _ _ _ _ Hvm Hm). }
    by exec_by (pa2page_ok s _ Hu' Hn).
Qed.

Lemma tlb_invalidate_ok s pgdir va :
  cpu_ok s -> exists iv, tlb_invalidate pgdir va s = Ret tt (with_invlpgs iv s) /\
    (iv = invlpgs s \/ iv = va :: invlpgs s) /\
    ((zget (cpu_env s) (this_cpu s) = Some None \/
      exists e env, zget (cpu_env s) (this_cpu s) = Some (Some e) /\
        zget (envs s) e = Some env /\ env_pgdir env = pgdir) -> iv = va :: invlpgs s).
Proof.
  intros (c & Hc & He). unfold tlb_invalidate, curenv. exec. rewrite Hc. simpl deref. exec.
  destruct c as [e|].
  - destruct (He e eq_refl) as [env Henv]. unfold get_env. exec. rewrite Henv. simpl deref. exec.
    destruct (Z.eqb_spec (env_pgdir env) pgdir) as [E|E].
    + exists (va :: invlpgs s). auto.
    + exists (invlpgs s). split_and!; [by destruct s|by left|].
      intros [?|(? & ? & ? & ? & ?)]; simplify_eq.
  - exists (va :: invlpgs s). auto.
Qed.

(** The state after unmapping user page [(i, j)] of [pd]. *)
Record unmapped (s s' : kstate) (pds : list Z) (pd i j : Z) : Prop := {
  um_frame : vm_frame s s';
  um_keeps : keeps [] pds (mem s) (mem s');
  um_pde : forall pd' i', pd' ∈ pds -> 0 <= i' < NUPDE -> pde_at (mem s') pd' i' = pde_at (mem s) pd' i';
  um_view : forall pd' i' j', pd' ∈ pds -> user_slot i' j' -> vlookup (mem s') pd' i' j'
    = if decide ((pd', i', j') = (pd, i, j)) then None else vlookup (mem s) pd' i' j';
  um_ref : forall q, page_ref s' q
    = if decide ((fun v => PTE_ADDR v / 4096) <$> vlookup (mem s) pd i j = Some q)
      then Z.pred <$> page_ref s q else page_ref s q;
}.

Lemma pages_decref s t pi : npages (decref_st t pi s) = npages s /\ mem (decref_st t pi s) = mem s /\
  vm_frame s (decref_st t pi s).
Proof. unfold decref_st. case_match; by destruct s. Qed.

Lemma page_remove_ok s l pds ex pd va :
  vm_ok s l pds ex -> pd ∈ pds -> user_slot (PDX va) (PTX va) -> cpu_ok s ->
  exists s' l', page_remove (pd + KERNBASE) va s = Ret tt s' /\ vm_ok s' l' pds ex /\
    unmapped s s' pds pd (PDX va) (PTX va).
Proof.
  intros Hvm Hpd Hva Hcpu. unfold page_remove.
  exec_by (page_lookup_ok s l pds ex pd va Hvm Hpd Hva).
  destruct (vlookup (mem s) pd (PDX va) (PTX va)) as [v|] eqn:El; cbn [fmap option_fmap option_map].
  2: { exists s, l. split_and!; try done. split; try done; [apply vm_frame_refl|..].
       - intros. case_decide; by simplify_eq.
       - intros q. rewrite El. by rewrite decide_False. }
  destruct (vlookup_present _ _ _ _ _ _ _ _ Hvm Hpd Hva El) as (Hpt & Ev & Hp & Hu & Hx).
  set (t := PTE_ADDR v / 4096) in *.
  destruct (vm_maps_ref1 Hvm _ _ Hx) as (r & Hr & H1).
  pose proof (vm_not_free Hvm _ _ Hr ltac:(lia)) as Hni.
  pose proof (vo_ref16 _ _ _ _ Hvm _ _ Hr) as H16.
  destruct (page_ref_inv _ _ _ Hr) as [li Hg].
  exec_by (page_decref_ok s l t _ (vo_alloc _ _ _ _ Hvm) Hni Hg H16).
  set (s1 := decref_st t (MkPageInfo li r) s).
  destruct (pages_decref s t (MkPageInfo li r)) as (Hn1 & Hm1 & Hf1). fold s1 in Hn1, Hm1, Hf1.
  pose proof (pte_kva_range _ _ _ _ _ _ _ Hvm Hpt (proj2 Hva)) as Hk.
  exec_by (st32_ok s1 _ 0 Hk). rewrite Hm1.
  set (s2 := with_mem (wrw (mem s) (pte_addr (mem s) pd (PDX va) (PTX va)) 0) s1).
  assert (vm_frame s s2) as Hf2 by (eapply vm_frame_trans; [exact Hf1|]; by destruct s1).
  destruct (tlb_invalidate_ok s2 (pd + KERNBASE) va) as (iv & Hiv & _ & _).
  { by eapply cpu_ok_frame. }
  exists (with_invlpgs iv s2), (decref_list t (MkPageInfo li r) l). split_and!; [done|..].
  - by eapply vm_ok_unmap.
  - split.
    + eapply vm_frame_trans; [exact Hf2|]. by destruct s2.
    + exact (keeps_slot_write s l pds ex pd _ _ 0 Hvm Hpt (proj2 Hva)).
    + intros pd' i' Hpd' Hi'. unfold NUPDE in Hi'. simpl. apply (pde_slot_write Hvm _ _ _ _ Hpt (proj2 Hva)); [done|lia].
    + intros pd' i' j' Hpd' [Hi' Hj']. simpl. unfold vlookup. unfold NUPDE in Hi'.
      rewrite (pde_slot_write Hvm _ _ _ _ Hpt (proj2 Hva)) by (done || lia).
      destruct (has (pde_at (mem s) pd' i') PTE_P) eqn:E.
      * rewrite (pte_slot_write Hvm _ _ _ _ Hpt (proj2 Hva)) by (try done; unfold has_pt, NUPDE; by rewrite E).
        by case_decide.
      * by case_decide.
    + intros q. simpl. rewrite El. simpl.
      assert (page_ref (with_invlpgs iv s2) q = page_ref s1 q) as -> by done.
      unfold s1. rewrite decref_st_ref; [|done|done|done]. simpl.
      repeat case_decide; simplify_eq; try done. by rewrite Hr.
Qed.

(** ** [page_insert] *)

Lemma vm_ok_ex_ext s l pds ex ex' :
  (forall t, ex' t = ex t) -> vm_ok s l pds ex -> vm_ok s l pds ex'.
Proof.
  intros E [H1 H2 H3 H4 H5 H6 H7 H8 H9 H10 H11]. split; try done.
  - intros t. by rewrite E.
  - intros t. rewrite E. apply H11.
Qed.

Lemma upd_ex_undo ex t u : upd_ex (upd_ex ex t 1) t (-1) u = ex u.
Proof. unfold upd_ex. repeat case_decide; lia. Qed.

(** [pde | perm]. *)
Lemma pde_or_perm v perm : is_u32 v -> 0 <= perm < 4096 -> has v PTE_P = true ->
  let w := u32 (Z.lor v perm) in is_u32 w /\ has w PTE_P = true /\ PTE_ADDR w = PTE_ADDR v.
Proof.
  intros Hv Hperm Hp w.
  assert (Z.lor v perm = v / 4096 * 4096 + Z.lor (v `mod` 4096) perm) as E.
  { change 4096 with (2 ^ 12). rewrite <-lor_disjoint_add by (try done; apply lor_range; zlia).
    rewrite Z.lor_assoc. f_equal. rewrite lor_disjoint_add by zlia. zlia. }
  pose proof (flags_range (v `mod` 4096) perm ltac:(zlia) Hperm) as Hf.
  assert (is_u32 (Z.lor v perm)) as Hu by (unfold is_u32 in *; rewrite E; zlia).
  unfold w. rewrite u32_id by done. split_and!; [done| |].
  - unfold has in *. rewrite Z.land_lor_distr_l.
    destruct (Z.eqb_spec (Z.lor (Z.land v PTE_P) (Z.land perm PTE_P)) 0) as [E0|]; [|done].
    apply Z.lor_eq_0_iff in E0 as [E0 _]. by rewrite E0 in Hp.
  - rewrite !PTE_ADDR_sub by done. rewrite E. zlia.
Qed.

Lemma keeps_pde_write s l pds ex pd i v :
  vm_ok s l pds ex -> has_pt (mem s) pds pd i -> PTE_ADDR v = PTE_ADDR (pde_at (mem s) pd i) ->
  keeps [] pds (mem s) (wrw (mem s) (pd + 4 * i) v).
Proof.
  intros Hvm Hpt Hva q _ [Hq1 Hq2]. pose proof Hpt as (Hpd & Hi & _). unfold NUPDE in Hi.
  destruct (vm_pd_bound Hvm pd Hpd) as [_ Hm]. split.
  - split; [done|]. intros pd' i' (A & B & C). destruct (vm_pd_bound Hvm pd' A) as [_ Hm'].
    destruct (decide ((pd', i') = (pd, i))) as [E|E].
    + injection E as -> ->. unfold pde_at. rewrite rdw_wrw_eq, Hva. by apply Hq2.
    + assert (pde_at (wrw (mem s) (pd + 4 * i) v) pd' i' = pde_at (mem s) pd' i') as E'.
      { apply rdw_wrw_ne. intros Ea. apply E. unfold NUPDE in B.
        apply entry_inj in Ea as [-> ->]; done || lia. }
      rewrite E' in *. by apply Hq2.
  - intros k Hk. apply rdw_wrw_ne. intros Ea. apply entry_inj in Ea as [Ea _]; [|done|zlia|lia|done].
    apply Hq1. by rewrite <-Ea.
Qed.

(** The two stores that end [page_insert]: the PTE, then the permissions of the
    directory entry. *)
Definition install_st (s : kstate) (pd i j pp perm : Z) : kstate :=
  let m := wrw (mem s) (pte_addr (mem s) pd i j) (u32 (Z.lor (Z.lor (page2pa pp) perm) PTE_P)) in
  with_mem (wrw m (pd + 4 * i) (u32 (Z.lor (pde_at (mem s) pd i) perm))) s.

Lemma install_ok s l pds ex pd i j pp perm r :
  vm_ok s l pds (upd_ex ex pp 1) -> has_pt (mem s) pds pd i -> 0 <= j < 1024 ->
  vlookup (mem s) pd i j = None -> page_ref s pp = Some r -> 0 <= ex pp ->
  is_data (mem s) pds pp -> 0 <= perm < 4096 ->
  let s' := install_st s pd i j pp perm in
  vm_ok s' l pds ex /\ keeps [] pds (mem s) (mem s') /\
  (forall pd' i' j', pd' ∈ pds -> user_slot i' j' -> vlookup (mem s') pd' i' j'
    = if decide ((pd', i', j') = (pd, i, j)) then Some (pp * 4096 + Z.lor perm PTE_P)
      else vlookup (mem s) pd' i' j').
Proof.
  intros Hvm Hpt Hj Hno Hr Hex Hd Hperm s'. pose proof Hpt as (Hpd & Hi & Hpp). unfold NUPDE in Hi.
  destruct (vm_page_bound Hvm _ _ Hr) as [_ Hb].
  destruct (pte_value pp perm ltac:(apply page_ref_range in Hr; lia) Hperm) as (Hv & Hvp & Hva & Ev).
  set (v := u32 (Z.lor (Z.lor (page2pa pp) perm) PTE_P)) in *.
  set (s1 := with_mem (wrw (mem s) (pte_addr (mem s) pd i j) v) s).
  assert (pte_at (mem s) pd i j = 0) as H0.
  { destruct (vo_pte _ _ _ _ Hvm _ _ _ Hpt Hj) as [?|Hp]; [done|]. unfold vlookup in Hno.
    by rewrite (Is_true_true_1 _ Hpp), (Is_true_true_1 _ Hp) in Hno. }
  assert (vm_ok s1 l pds ex) as Hvm1.
  { eapply vm_ok_ex_ext; [|eapply (vm_ok_map s l pds _ pd i j pp r v); try done].
    - intros t. symmetry. apply upd_ex_undo.
    - unfold upd_ex. rewrite decide_True by done. lia.
    - by rewrite Hvp. }
  assert (pde_at (mem s1) pd i = pde_at (mem s) pd i) as Epde.
  { apply (pde_slot_write Hvm _ _ _ _ Hpt Hj); [done|lia]. }
  assert (has_pt (mem s1) pds pd i) as Hpt1 by (unfold has_pt, NUPDE; by rewrite Epde).
  destruct (pde_or_perm (pde_at (mem s1) pd i) perm) as (Hw & Hwp & Hwa);
    [apply (vo_word _ _ _ _ Hvm1)|done|by rewrite Epde; apply Is_true_true_1|].
  destruct (vm_ok_pde_flags s1 l pds ex pd i (u32 (Z.lor (pde_at (mem s1) pd i) perm)) s')
    as (Hvm' & _ & Hpte); try done; [by rewrite Hwp|by unfold s', install_st; rewrite Epde|].
  split; [done|]. split.
  { eapply keeps_trans; [done|by apply (keeps_slot_write s l pds _ pd i j v Hvm)|].
    replace (mem s') with (wrw (mem s1) (pd + 4 * i) (u32 (Z.lor (pde_at (mem s1) pd i) perm)))
      by (unfold s', install_st; by rewrite Epde).
    by eapply (keeps_pde_write s1). }
  intros pd' i' j' Hpd' [Hi' Hj'].
  assert (vlookup (mem s') pd' i' j' = vlookup (mem s1) pd' i' j') as ->.
  { unfold vlookup. destruct (has (pde_at (mem s1) pd' i') PTE_P) eqn:E.
    - destruct (Hpte pd' i' j') as [Hp' ->]; [unfold has_pt; by rewrite E|done|].
      by rewrite (Is_true_true_1 _ (proj2 (proj2 Hp'))).
    - assert (pde_at (mem s') pd' i' = pde_at (mem s1) pd' i') as ->; [|by rewrite E].
      unfold pde_at, s', install_st. simpl. apply rdw_wrw_ne. intros Ea.
      destruct (vm_pd_bound Hvm pd' Hpd') as [_ Hm']. destruct (vm_pd_bound Hvm pd Hpd) as [_ Hm].
      unfold NUPDE in Hi'. apply entry_inj in Ea as [-> ->]; [|done|done|lia|lia].
      rewrite Epde in E. by rewrite E in Hpp. }
  change (mem s1) with (wrw (mem s) (pte_addr (mem s) pd i j) v). unfold vlookup.
  rewrite (pde_slot_write Hvm _ _ _ _ Hpt Hj) by first [done|unfold NUPDE in Hi'; lia].
  destruct (has (pde_at (mem s) pd' i') PTE_P) eqn:E.
  - rewrite (pte_slot_write Hvm _ _ _ _ Hpt Hj) by (try done; unfold has_pt; by rewrite E).
    case_decide; [|done]. by rewrite Hvp, Ev.
  - case_decide; [|done]. simplify_eq. by rewrite E in Hpp.
Qed.

(** The middle of [page_insert]: an existing mapping is removed. *)
Lemma clear_slot_ok s l pds ex pd va :
  vm_ok s l pds ex -> has_pt (mem s) pds pd (PDX va) -> cpu_ok s ->
  exists s' l', when (has (pte_at (mem s) pd (PDX va) (PTX va)) PTE_P) (page_remove (pd + KERNBASE) va) s
    = Ret tt s' /\ vm_ok s' l' pds ex /\ unmapped s s' pds pd (PDX va) (PTX va).
Proof.
  intros Hvm Hpt Hcpu. pose proof Hpt as (Hpd & Hi & Hp). pose proof (PTX_range va) as Hj.
  destruct (has (pte_at (mem s) pd (PDX va) (PTX va)) PTE_P) eqn:E.
  - by apply (page_remove_ok s l).
  - assert (vlookup (mem s) pd (PDX va) (PTX va) = None) as El
      by (unfold vlookup; by rewrite E, (Is_true_true_1 _ Hp)).
    exists s, l. split_and!; try done. split; try done; [apply vm_frame_refl|..].
    + intros. case_decide; by simplify_eq.
    + intros q. rewrite El. by rewrite decide_False.
Qed.

(** The address spaces after inserting [pp] with [perm] at user page [(i, j)] of
    [pd], and the reference counts of the pages that were not free. *)
Record inserted (s s' : kstate) (l pds : list Z) (pd i j pp perm : Z) : Prop := {
  is_frame : vm_frame s s';
  is_keeps : keeps l pds (mem s) (mem s');
  is_view : forall pd' i' j', pd' ∈ pds -> user_slot i' j' -> vlookup (mem s') pd' i' j'
    = if decide ((pd', i', j') = (pd, i, j)) then Some (pp * 4096 + Z.lor perm PTE_P)
      else vlookup (mem s) pd' i' j';
  is_ref : forall q, q ∉ l -> page_ref s' q
    = (fun r => r + (if decide (q = pp) then 1 else 0)
                - (if decide ((fun v => PTE_ADDR v / 4096) <$> vlookup (mem s) pd i j = Some q)
                   then 1 else 0)) <$> page_ref s q;
}.

Lemma page_insert_walked s s1 l l1 pds ex pd va pp perm li r :
  walked s s1 l l1 pds ex pd (PDX va) -> pd ∈ pds -> user_slot (PDX va) (PTX va) -> cpu_ok s ->
  pgdir_walk (pd + KERNBASE) va true s
    = Ret (Some (pte_addr (mem s1) pd (PDX va) (PTX va) + KERNBASE)) s1 ->
  zget (pages s) pp = Some (MkPageInfo li r) -> 0 <= r < 65535 -> pp ∉ l ->
  is_data (mem s) pds pp -> 0 <= perm < 4096 ->
  exists s' l', page_insert (pd + KERNBASE) pp va perm s = Ret 0 s' /\ vm_ok s' l' pds ex /\
    inserted s s' l pds pd (PDX va) (PTX va) pp perm.
Proof.
  intros [Hvm1 Hpt1 Hview1 Hf1 Hsub Hpg1 Hkeep1] Hpd Hva Hcpu Hwalk Hg Hr Hni Hd Hperm.
  rewrite <-Hpg1 in Hg by done. apply Hkeep1 in Hd as [Hd _]; [|done].
  assert (pp ∉ l1) as Hni1 by (intros ?%Hsub; done).
  assert (page_ref s1 pp = Some r) as Hr1 by (unfold page_ref; by rewrite Hg).
  pose proof (page_incref_ok s1 pp _ Hg) as Hinc. simpl pp_link in Hinc. simpl pp_ref in Hinc.
  rewrite u16_id in Hinc by (unfold is_u16; lia).
  set (s2 := with_pages (zset (pages s1) pp (MkPageInfo li (r + 1))) s1) in *.
  assert (vm_ok s2 l1 pds (upd_ex ex pp 1)) as Hvm2.
  { eapply (vm_ok_incref s1 l1 pds ex pp r li); try done. lia. }
  assert (cpu_ok s2) as Hcpu2 by exact (cpu_ok_frame _ _ Hf1 Hcpu).
  destruct (clear_slot_ok s2 l1 pds _ pd va Hvm2 Hpt1 Hcpu2) as (s3 & l3 & Hcl & Hvm3 & [Hf3 Hkeep3 Hpde3 Hview3 Href3]).
  pose proof (pte_kva_range _ _ _ _ _ _ _ Hvm1 Hpt1 (proj2 Hva)) as Hk.
  pose proof Hva as [Hi Hj]. pose proof (PDX_range va) as Hi2.
  assert (pde_at (mem s3) pd (PDX va) = pde_at (mem s1) pd (PDX va)) as Epde by by apply Hpde3.
  assert (page_ref s2 pp = Some (r + 1)) as Hr2.
  { erewrite (page_ref_zset s1 s2 pp) by (done || by eapply page_ref_range). by rewrite decide_True. }
  assert (exists r3, page_ref s3 pp = Some r3) as [r3 Hr3].
  { rewrite Href3, Hr2. case_decide; eauto. }
  destruct (install_ok s3 l3 pds ex pd (PDX va) (PTX va) pp perm r3) as (Hvm' & Hkeep' & Hview'); try done.
  { unfold has_pt. rewrite Epde. exact Hpt1. }
  { rewrite Hview3 by done. by rewrite decide_True. }
  { apply (vo_ex _ _ _ _ Hvm1). }
  { apply Hkeep3; [|done]. by apply not_elem_of_nil. }
  exists (install_st s3 pd (PDX va) (PTX va) pp perm), l3. split_and!; [|done|split].
  - unfold page_insert. exec_by Hwalk. exec_by Hinc. exec_by (ld32_ok s2 _ Hk).
    exec_by Hcl. assert (pte_addr (mem s1) pd (PDX va) (PTX va) = pte_addr (mem s3) pd (PDX va) (PTX va))
      as Ea by (unfold pte_addr; by rewrite Epde). rewrite Ea in *.
    exec_by (st32_ok s3 _ (u32 (Z.lor (Z.lor (page2pa pp) perm) PTE_P)) Hk).
    set (s4 := with_mem _ s3).
    assert (has_pt (mem s3) pds pd (PDX va)) as Hpt3 by (unfold has_pt; rewrite Epde; exact Hpt1).
    assert (pde_at (mem s4) pd (PDX va) = pde_at (mem s3) pd (PDX va)) as E4
      by exact (pde_slot_write Hvm3 _ _ _ _ Hpt3 Hj _ _ Hpd Hi2).
    destruct (vm_pd_bound Hvm1 pd Hpd) as [Hpdb _].
    replace (pd + KERNBASE + 4 * PDX va) with (pd + 4 * PDX va + KERNBASE) by lia.
    rewrite (bind_Ret _ _ _ _ _ (ld32_ok s4 (pd + 4 * PDX va) ltac:(lia))). cbv beta.
    change (rdw (mem s4) (pd + 4 * PDX va)) with (pde_at (mem s4) pd (PDX va)). rewrite E4.
    rewrite (bind_Ret _ _ _ _ _ (st32_ok s4 (pd + 4 * PDX va) _ ltac:(lia))). done.
  - eapply vm_frame_trans; [exact Hf1|]. eapply vm_frame_trans; [|eapply vm_frame_trans; [exact Hf3|]];
      unfold vm_frame, install_st; [by destruct s1|by destruct s3].
  - eapply keeps_trans; [|exact Hkeep1|]; [apply list_subseteq_nil|].
    eapply keeps_trans; [done|exact Hkeep3|exact Hkeep'].
  - intros pd' i' j' Hpd' Hs'. rewrite Hview' by done. case_decide; [done|].
    rewrite Hview3 by done. rewrite decide_False by done. by apply Hview1.
  - intros q Hq. change (page_ref (install_st _ _ _ _ _ _) q) with (page_ref s3 q). rewrite Href3.
    change (mem s2) with (mem s1). rewrite (Hview1 pd) by done.
    erewrite (page_ref_zset s1 s2 pp) by (done || by eapply page_ref_range).
    assert (page_ref s q = page_ref s1 q) as -> by (unfold page_ref; by rewrite Hpg1).
    destruct (decide (q = pp)) as [->|]; rewrite ?Hr1; simpl; case_decide; simpl;
      destruct (page_ref s1 q) || idtac; simpl; f_equal; lia.
Qed.

(** ** [check_va2pa] and [user_mem_check] *)

Lemma check_va2pa_ok s l pds ex pd va :
  vm_ok s l pds ex -> pd ∈ pds -> user_slot (PDX va) (PTX va) ->
  check_va2pa (pd + KERNBASE) va s
  = Ret (from_option PTE_ADDR 4294967295 (vlookup (mem s) pd (PDX va) (PTX va))) s.
Proof.
  intros Hvm Hpd Hva. unfold check_va2pa, vlookup. exec_by (ld_pde s l pds ex pd va Hvm Hpd).
  destruct (has (pde_at (mem s) pd (PDX va)) PTE_P) eqn:E; [|done]. cbn [negb].
  pose proof (has_pt_slot s pds pd va Hpd Hva E) as Hpt.
  destruct (vm_pt_bound Hvm _ _ Hpt) as (A & B & C & D).
  pose proof (pte_kva_range _ _ _ _ _ _ _ Hvm Hpt (proj2 Hva)) as Hk.
  exec_by (KADDR_ok s _ D C (vm_npages Hvm)).
  replace (PTE_ADDR (pde_at (mem s) pd (PDX va)) + KERNBASE + 4 * PTX va)
    with (pte_addr (mem s) pd (PDX va) (PTX va) + KERNBASE) by (unfold pte_addr; lia).
  exec_by (ld32_ok s _ Hk). change (rdw (mem s) _) with (pte_at (mem s) pd (PDX va) (PTX va)).
  by destruct (has (pte_at (mem s) pd (PDX va) (PTX va)) PTE_P).
Qed.

(** [user_mem_check] also walks the kernel's part of an address space, where it
    needs the directory entries to point into physical memory. *)
Record walkable (s : kstate) (pd : Z) : Prop := {
  wa_pd : 0 <= pd /\ pd `mod` 4096 = 0;
  wa_npages : npages s <= 65536;
  wa_word : forall a, is_u32 (rdw (mem s) a);
  wa_pt : forall i, 0 <= i < 1024 -> has (pde_at (mem s) pd i) PTE_P ->
    PGNUM (PTE_ADDR (pde_at (mem s) pd i)) < npages s
}.

Lemma vm_ok_walkable s l pds ex pd :
  vm_ok s l pds ex -> pd ∈ pds ->
  (forall i, NUPDE <= i < 1024 -> has (pde_at (mem s) pd i) PTE_P ->
     PGNUM (PTE_ADDR (pde_at (mem s) pd i)) < npages s) -> walkable s pd.
Proof.
  intros Hvm Hpd Hk. destruct (vm_pd_bound Hvm pd Hpd). split; [lia|apply (vm_npages Hvm)|apply (vo_word _ _ _ _ Hvm)|].
  intros i Hi Hp. destruct (decide (i < NUPDE)) as [Hlt|]; [|apply Hk; [lia|done]].
  apply (vm_pt_bound Hvm pd i). unfold has_pt. split_and!; try done; lia.
Qed.

Lemma pgdir_walk_lookup s pd va : walkable s pd -> is_u32 va ->
  pgdir_walk (pd + KERNBASE) va false s =
  Ret (if has (pde_at (mem s) pd (PDX va)) PTE_P
       then Some (pte_addr (mem s) pd (PDX va) (PTX va) + KERNBASE) else None) s.
Proof.
  intros [[H0 Hm] Hn Hw Hpt] Hva. unfold pgdir_walk. cbv zeta. pose proof (PDX_range va) as Hi.
  replace (pd + KERNBASE + 4 * PDX va) with (pd + 4 * PDX va + KERNBASE) by lia.
  rewrite (bind_Ret _ _ _ _ _ (ld32_ok s (pd + 4 * PDX va) ltac:(lia))). cbv beta.
  change (rdw (mem s) _) with (pde_at (mem s) pd (PDX va)).
  destruct (has (pde_at (mem s) pd (PDX va)) PTE_P) eqn:E; [|done]. cbn [negb]. exec.
  rewrite (bind_Ret _ _ _ _ _ (ld32_ok s (pd + 4 * PDX va) ltac:(lia))). cbv beta.
  destruct (PTE_ADDR_range _ (Hw (pd + 4 * PDX va))) as [Hu _].
  rewrite (bind_Ret _ _ _ _ _ (KADDR_ok s _ Hu (Hpt _ Hi (Is_true_true_2 _ E)) Hn)).
  unfold mret, M_ret, pte_addr, pde_at. do 2 f_equal. lia.
Qed.

(** The check of one page: below ULIM, mapped, with the permissions asked for. *)
Definition page_allowed (m : gmap Z Z) (pd perm a : Z) : bool :=
  (a <? ULIM) &&
  match vlookup m pd (PDX a) (PTX a) with
  | Some v => Z.land v perm =? perm
  | None => false
  end.

(** The pages [user_mem_check] visits for a range that does not wrap. *)
Definition range_pages (va len : Z) : list Z :=
  (fun k => ROUNDDOWN va PGSIZE + k * PGSIZE)
    <$> seqZ 0 ((ROUNDUP (va + len) PGSIZE - ROUNDDOWN va PGSIZE) / PGSIZE).

Definition mem_check_spec (m : gmap Z Z) (pd va len perm : Z) : option Z :=
  head (filter (fun a => page_allowed m pd perm a = false) (range_pages va len)).

Lemma user_mem_check_loop s pd va perm ps :
  walkable s pd -> (forall a, a ∈ ps -> is_u32 a) ->
  for_until ps (fun i =>
    pte ← pgdir_walk (pd + KERNBASE) i false;
    bad ← (if ULIM <=? i then mret true
           else match pte with
                | None => mret true
                | Some p =>
                    v ← ld32 p;
                    mret (negb (has v PTE_P) || negb (Z.land v perm =? perm))
                end);
    if bad : bool then
      modify (with_user_mem_check_addr (if i <? va then va else i)) ;;
      mret (Some (- E_FAULT))
    else mret None) s
  = match head (filter (fun a => page_allowed (mem s) pd perm a = false) ps) with
    | None => Ret None s
    | Some a => Ret (Some (- E_FAULT)) (with_user_mem_check_addr (if a <? va then va else a) s)
    end.
Proof.
  intros Hw. induction ps as [|a ps IH]; intros Hps; [done|].
  cbn [for_until]. exec. rewrite (bind_Ret _ _ _ _ _ (pgdir_walk_lookup s pd a Hw (Hps a (list_elem_of_here _ _)))).
  cbv beta. rewrite list.filter_cons.
  assert (forall k : bool -> M kstate (option Z), ((if ULIM <=? a then mret true
    else match (if has (pde_at (mem s) pd (PDX a)) PTE_P
       then Some (pte_addr (mem s) pd (PDX a) (PTX a) + KERNBASE) else None) with
         | None => mret true
         | Some p => v ← ld32 p; mret (negb (has v PTE_P) || negb (Z.land v perm =? perm))
         end) ≫= k) s = k (negb (page_allowed (mem s) pd perm a)) s) as Hbad.
  { intros k. unfold page_allowed, vlookup.
    destruct (Z.leb_spec ULIM a), (Z.ltb_spec a ULIM); try lia; [done|].
    destruct (has (pde_at (mem s) pd (PDX a)) PTE_P) eqn:E; [|done]. exec.
    assert (0 <= pte_addr (mem s) pd (PDX a) (PTX a)) as Hk.
    { unfold pte_addr. destruct (PTE_ADDR_range _ (wa_word _ _ Hw (pd + 4 * PDX a))) as [[? _] _].
      pose proof (PTX_range a). unfold pde_at. lia. }
    exec_by (ld32_ok s _ Hk). exec. fold (pte_at (mem s) pd (PDX a) (PTX a)).
    by destruct (has (pte_at (mem s) pd (PDX a) (PTX a)) PTE_P). }
  rewrite exec_bind, Hbad. destruct (page_allowed (mem s) pd perm a); cbn [negb].
  - exec. rewrite decide_False by done. apply IH. intros b Hb. by apply Hps, list_elem_of_further.
  - by exec.
Qed.

(** ** The properties *)

Lemma page_insert_ok s l pds ex pd va pp perm li r :
  vm_ok s l pds ex -> pd ∈ pds -> user_va va -> cpu_ok s ->
  zget (pages s) pp = Some (MkPageInfo li r) -> 0 <= r < 65535 -> pp ∉ l ->
  is_data (mem s) pds pp -> 0 <= perm < 4096 ->
  (page_insert (pd + KERNBASE) pp va perm s = Ret (- E_NO_MEM) s /\ l = [] /\
   has (pde_at (mem s) pd (PDX va)) PTE_P = false) \/
  exists s' l', page_insert (pd + KERNBASE) pp va perm s = Ret 0 s' /\ vm_ok s' l' pds ex /\
    inserted s s' l pds pd (PDX va) (PTX va) pp perm /\
    check_va2pa (pd + KERNBASE) va s' = Ret (page2pa pp) s'.
Proof.
  intros Hvm Hpd Hva Hcpu Hg Hr Hni Hd Hperm. apply user_va_slot in Hva.
  destruct (pgdir_walk_create s l pds ex pd va Hvm Hpd Hva) as [(-> & E & Hw)|(s1 & l1 & Hw & Hwk)].
  { left. unfold page_insert. by exec_by Hw. }
  right. destruct (page_insert_walked s s1 l l1 pds ex pd va pp perm li r)
    as (s' & l' & Hins & Hvm' & Hi); try done.
  exists s', l'. split_and!; try done. rewrite (check_va2pa_ok s' l' pds ex) by done.
  rewrite (is_view _ _ _ _ _ _ _ _ _ Hi) by done. rewrite decide_True by done. simpl.
  assert (0 <= pp < 65536) as Hpp.
  { apply zget_Some_range in Hg. rewrite (vm_len Hvm) in Hg. pose proof (vm_npages Hvm). lia. }
  destruct (pte_value pp perm Hpp Hperm) as (_ & _ & Ea & Ev). rewrite <-Ev, Ea.
  by rewrite page2pa_mul.
Qed.

(** C3: [page_insert] on an address space of a state that satisfies the
    invariant either fails with [-E_NO_MEM] and changes nothing, which happens only
    when a page table is missing and no page is free, or returns 0; then the page
    is mapped at [va] with the permissions asked for, [check_va2pa] finds it, no
    other page of any address space changed its mapping, the reference counts
    follow the mappings exactly, and the invariant holds again. *)
Theorem page_insert_correct s l pds ex pd va pp perm li r :
  vm_ok s l pds ex -> pd ∈ pds -> user_va va -> cpu_ok s ->
  zget (pages s) pp = Some (MkPageInfo li r) -> 0 <= r < 65535 -> pp ∉ l ->
  is_data (mem s) pds pp -> 0 <= perm < 4096 ->
  (page_insert (pd + KERNBASE) pp va perm s = Ret (- E_NO_MEM) s /\ l = [] /\
   has (pde_at (mem s) pd (PDX va)) PTE_P = false) \/
  exists s' l', page_insert (pd + KERNBASE) pp va perm s = Ret 0 s' /\ vm_ok s' l' pds ex /\
    inserted s s' l pds pd (PDX va) (PTX va) pp perm /\
    check_va2pa (pd + KERNBASE) va s' = Ret (page2pa pp) s'.
Proof. apply page_insert_ok. Qed.

(** C4: [page_remove] always returns; the page is no longer mapped at [va], every
    other mapping of every address space is unchanged, the count of the page that
    was mapped drops by one, and in the new state no mapped page is on the free
    list, so removing the last mapping and nothing else frees a page. *)
Theorem page_remove_correct s l pds ex pd va :
  vm_ok s l pds ex -> pd ∈ pds -> user_va va -> cpu_ok s ->
  exists s' l', page_remove (pd + KERNBASE) va s = Ret tt s' /\ vm_ok s' l' pds ex /\
    unmapped s s' pds pd (PDX va) (PTX va) /\
    (forall pd' i j v, pd' ∈ pds -> user_slot i j -> vlookup (mem s') pd' i j = Some v ->
       PTE_ADDR v / 4096 ∉ l').
Proof.
  intros Hvm Hpd Hva Hcpu. apply user_va_slot in Hva.
  destruct (page_remove_ok s l pds ex pd va Hvm Hpd Hva Hcpu) as (s' & l' & Hrm & Hvm' & Hum).
  exists s', l'. split_and!; try done. intros pd' i j v Hpd' Hs Hl.
  destruct (vlookup_present _ _ _ _ _ _ _ _ Hvm' Hpd' Hs Hl) as (_ & _ & _ & _ & Hm).
  destruct (vm_maps_ref1 Hvm' _ _ Hm) as (r & Hr & H1). eapply (vm_not_free Hvm'); [done|lia].
Qed.


(** When [va + len] wraps around 2^32, [user_mem_check] looks at no page and
    reports success, whatever is mapped and also for kernel addresses. *)
Theorem user_mem_check_accepts_wrapping_range s e env va len perm :
  zget (envs s) e = Some env -> is_u32 va -> is_u32 len -> 4294967296 <= va + len ->
  ROUNDUP (va + len - 4294967296) PGSIZE <= ROUNDDOWN va PGSIZE ->
  user_mem_check e va len perm s = Ret 0 s.
Proof.
  intros He Hva Hlen Hov Hle. unfold user_mem_check, get_env. exec. rewrite He. simpl deref. exec.
  assert (u32 (va + len) = va + len - 4294967296) as -> by (unfold u32, is_u32 in *; zlia).
  change PGSIZE with 4096 in *.
  rewrite seqZ_nil by zlia. done.
Qed.

(** ** Instances *)

(** One address space: directory in page 1, its first page table in page 2, which
    maps page 3 at 0x5000; pages 4, 5 and 6 are free. *)
Definition ex_vm : kstate :=
  with_mem {[ 4096 := 8199; 8212 := 12295 ]}
    (with_envs [with_env_pgdir (4096 + KERNBASE) zero_env]
      (with_page_free_list (Some 4) (with_npages 7 (with_pages
        [MkPageInfo None 1; MkPageInfo None 1; MkPageInfo None 1; MkPageInfo None 1;
         MkPageInfo (Some 5) 0; MkPageInfo (Some 6) 0; MkPageInfo None 0] ex_boot)))).

Lemma ex_vm_alloc : alloc_ok ex_vm [4; 5; 6].
Proof.
  split; [done|done| |by apply (bool_decide_unpack _)|..].
  - simpl. eauto 10.
  - intros p Hp. repeat (apply elem_of_cons in Hp as [->|Hp]; [eexists; done|]).
    by apply elem_of_nil in Hp.
  - intros p pi Hg Hp. pose proof (zget_Some_range _ _ _ Hg) as Hr.
    change (zlen (pages ex_vm)) with 7 in Hr.
    assert (p = 0 \/ p = 1 \/ p = 2 \/ p = 3) as Hp'.
    { destruct (decide (p < 4)); [lia|]. exfalso. apply Hp.
      assert (p = 4 \/ p = 5 \/ p = 6) as Hp4 by lia. destruct_or! Hp4; subst; set_solver. }
    by destruct_or! Hp'; subst; vm_compute in Hg; simplify_eq.
Qed.

Lemma ex_vm_word a : rdw (mem ex_vm) a = if decide (a = 4096) then 8199
  else if decide (a = 8212) then 12295 else 0.
Proof.
  unfold rdw. change (mem ex_vm) with (<[4096 := 8199]> ({[8212 := 12295]} : gmap Z Z)).
  repeat case_decide; subst; [done..|]. rewrite lookup_insert_ne, lookup_singleton_ne by done. done.
Qed.

Lemma ex_vm_has_pt pd i : has_pt (mem ex_vm) [4096] pd i <-> pd = 4096 /\ i = 0.
Proof.
  unfold has_pt, NUPDE. split; [|intros [-> ->]; split; [apply list_elem_of_here|done]].
  intros (->%list_elem_of_singleton & Hi & Hp). split; [done|]. unfold pde_at in Hp.
  rewrite ex_vm_word in Hp. repeat case_decide; try lia. done.
Qed.

Lemma ex_vm_maps x t : maps (mem ex_vm) [4096] x t <-> x = (4096, 0, 5) /\ t = 3.
Proof.
  destruct x as [[pd i] j]. unfold maps. rewrite ex_vm_has_pt. split.
  - intros ([-> ->] & Hj & Hp & Ha).
    assert (pte_addr (mem ex_vm) 4096 0 j = 8192 + 4 * j) as E by done.
    unfold pte_at in *. rewrite E, ex_vm_word in Hp, Ha.
    repeat case_decide; try lia; [|done]. change (PTE_ADDR 12295) with 12288 in Ha.
    split; [f_equal; lia|lia].
  - intros [E ->]. injection E as -> -> ->. done.
Qed.

Lemma ex_vm_ok : vm_ok ex_vm [4; 5; 6] [4096] (fun _ => 0).
Proof.
  split.
  - apply ex_vm_alloc.
  - intros p r Hr. unfold is_u16. pose proof (page_ref_range _ _ _ Hr) as Hp.
    change (zlen (pages ex_vm)) with 7 in Hp.
    assert (p = 0 \/ p = 1 \/ p = 2 \/ p = 3 \/ p = 4 \/ p = 5 \/ p = 6) as Hp' by lia.
    destruct_or! Hp'; subst; vm_compute in Hr; simplify_eq; lia.
  - intros a. rewrite ex_vm_word. unfold is_u32. repeat case_decide; lia.
  - intros pd ->%list_elem_of_singleton. done.
  - intros pd i [-> ->]%ex_vm_has_pt. split; [done|].
    change (PTE_ADDR _) with 8192. set_solver.
  - intros pd i pd' i' [-> ->]%ex_vm_has_pt [-> ->]%ex_vm_has_pt _. done.
  - intros pd i j [-> ->]%ex_vm_has_pt Hj. unfold pte_at.
    change (pte_addr (mem ex_vm) 4096 0 j) with (8192 + 4 * j). rewrite ex_vm_word.
    repeat case_decide; try lia; auto.
  - intros x t [-> ->]%ex_vm_maps. split; [set_solver|].
    intros pd i [-> ->]%ex_vm_has_pt. done.
  - intros x t [-> ->]%ex_vm_maps. done.
  - done.
  - intros t r xs Hr Hnd Hxs. destruct xs as [|x xs].
    { unfold zlen. simpl. apply page_ref_inv in Hr as [li Hg].
      pose proof (zget_Some_range _ _ _ Hg) as Hp. change (zlen (pages ex_vm)) with 7 in Hp.
      assert (t = 0 \/ t = 1 \/ t = 2 \/ t = 3 \/ t = 4 \/ t = 5 \/ t = 6) as Hp' by lia.
      destruct_or! Hp'; subst; vm_compute in Hg; simplify_eq; lia. }
    destruct (proj1 (ex_vm_maps x t) (Hxs x (list_elem_of_here _ _))) as [-> ->].
    vm_compute in Hr. simplify_eq. destruct xs as [|y xs]; [done|].
    destruct (proj1 (ex_vm_maps y 3) (Hxs y ltac:(set_solver))) as [-> _].
    apply list.NoDup_cons in Hnd as [[] _]. set_solver.
Qed.

Lemma ex_vm_cpu : cpu_ok ex_vm.
Proof. exists None. by split. Qed.

Lemma ex_vm_data : is_data (mem ex_vm) [4096] 3.
Proof. split; [set_solver|]. intros pd i [-> ->]%ex_vm_has_pt. done. Qed.

Lemma page_insert_correct_witness :
  (page_insert (4096 + KERNBASE) 3 8388608 6 ex_vm = Ret (- E_NO_MEM) ex_vm /\ [4; 5; 6] = [] /\
   has (pde_at (mem ex_vm) 4096 (PDX 8388608)) PTE_P = false) \/
  exists s' l', page_insert (4096 + KERNBASE) 3 8388608 6 ex_vm = Ret 0 s' /\
    vm_ok s' l' [4096] (fun _ => 0) /\
    inserted ex_vm s' [4; 5; 6] [4096] 4096 (PDX 8388608) (PTX 8388608) 3 6 /\
    check_va2pa (4096 + KERNBASE) 8388608 s' = Ret (page2pa 3) s'.
Proof.
  refine (page_insert_correct ex_vm [4; 5; 6] [4096] (fun _ => 0) 4096 8388608 3 6 None 1
    ex_vm_ok _ _ ex_vm_cpu _ _ _ ex_vm_data _); [apply list_elem_of_here|unfold user_va; by_vm|by_vm|lia| |lia].
  intros H. by repeat (apply elem_of_cons in H as [H|H]; [done|]); apply elem_of_nil in H.
Defined.

Lemma page_remove_correct_witness :
  exists s' l', page_remove (4096 + KERNBASE) 20480 ex_vm = Ret tt s' /\
    vm_ok s' l' [4096] (fun _ => 0) /\
    unmapped ex_vm s' [4096] 4096 (PDX 20480) (PTX 20480) /\
    (forall pd' i j v, pd' ∈ [4096] -> user_slot i j -> vlookup (mem s') pd' i j = Some v ->
       PTE_ADDR v / 4096 ∉ l').
Proof.
  refine (page_remove_correct ex_vm [4; 5; 6] [4096] (fun _ => 0) 4096 20480 ex_vm_ok _ _ ex_vm_cpu);
    [apply list_elem_of_here|unfold user_va; by_vm].
Defined.

Lemma ex_vm_walkable : walkable ex_vm 4096.
Proof.
  apply (vm_ok_walkable _ _ _ _ _ ex_vm_ok); [apply list_elem_of_here|].
  intros i Hi Hp. exfalso. unfold pde_at in Hp. rewrite ex_vm_word in Hp. unfold NUPDE in Hi.
  repeat case_decide; try lia. done.
Qed.


Lemma user_mem_check_accepts_wrapping_range_witness :
  user_mem_check 0 4027580416 267386880 PTE_U ex_vm = Ret 0 ex_vm.
Proof.
  refine (user_mem_check_accepts_wrapping_range ex_vm 0 _ 4027580416 267386880 PTE_U eq_refl _ _ _ _);
    unfold is_u32; by_vm.
Defined.
