(* ===== verification/VmLife.v ===== *)
(** * Address spaces coming and going

    How the invariant [vm_ok] of all address spaces changes when a page directory
    is added ([env_setup_vm] of [oslab6/kern/env.c]), when an emptied page table is
    freed and when a directory is freed ([env_free]). *)
From S2P Require Import Prelude.
From S2P Require Import Mmu.
From S2P Require Import KState.
From S2P Require Import Pmap.
From S2P Require Import PageTable.
From S2P Require Import AddrSpace.

(** ** A new directory *)
Section NewPd.
Context (s : kstate) (l pds : list Z) (ex : Z -> Z) (p : Z) (m' : gmap Z Z).
Context (Hvm : vm_ok s (p :: l) pds ex).
Context (Hout : forall a, (forall k, 0 <= k < 1024 -> a <> p * 4096 + 4 * k) -> rdw m' a = rdw (mem s) a).
Context (Hzero : forall i, 0 <= i < NUPDE -> has (rdw m' (p * 4096 + 4 * i)) PTE_P = false).

Lemma newpd_apart : p * 4096 ∉ pds /\
  (forall pd i, has_pt (mem s) pds pd i -> PTE_ADDR (pde_at (mem s) pd i) <> p * 4096) /\
  (forall x, ~ maps (mem s) pds x p).
Proof. apply (vm_free_apart _ _ _ _ p Hvm), list_elem_of_here. Qed.

Lemma newpd_tables : tables_eq pds (mem s) m'.
Proof.
  destruct newpd_apart as (Hp & Hpt & _). intros pd i Hpd Hi. unfold NUPDE in Hi.
  destruct (vm_pd_bound Hvm pd Hpd) as [_ Hm].
  assert (pde_at m' pd i = pde_at (mem s) pd i) as E.
  { apply Hout. intros k Hk Ea. apply entry_inj in Ea as [-> _]; [done|done|zlia|lia|done]. }
  split; [done|]. intros HP j Hj. unfold pte_at, pte_addr. rewrite E.
  assert (has_pt (mem s) pds pd i) as Hhp by (unfold has_pt, NUPDE; auto).
  destruct (vm_pt_bound Hvm _ _ Hhp) as (_ & Hm' & _).
  apply Hout. intros k Hk Ea. apply entry_inj in Ea as [Ea _]; [|done|zlia|done|done].
  by apply (Hpt _ _ Hhp).
Qed.

Lemma newpd_has_pt pd i : has_pt m' (p * 4096 :: pds) pd i <-> has_pt (mem s) pds pd i.
Proof.
  destruct newpd_apart as (Hp & _). split.
  - intros ([->|Hpd]%elem_of_cons & Hi & HP).
    + unfold pde_at in HP. by rewrite Hzero in HP.
    + apply (tables_eq_has_pt _ _ m'); [apply newpd_tables|]. by unfold has_pt.
  - intros H. rewrite <-(tables_eq_has_pt _ _ m') in H by apply newpd_tables.
    destruct H as (Hpd & H). split; [by apply list_elem_of_further|done].
Qed.

Lemma newpd_maps x t : maps m' (p * 4096 :: pds) x t <-> maps (mem s) pds x t.
Proof.
  destruct x as [[pd i] j]. rewrite <-(tables_eq_maps pds (mem s) m') by apply newpd_tables.
  unfold maps. rewrite newpd_has_pt, (tables_eq_has_pt pds (mem s) m') by apply newpd_tables. done.
Qed.

Lemma newpd_pde pd i : has_pt (mem s) pds pd i -> pde_at m' pd i = pde_at (mem s) pd i.
Proof. intros (A & B & _). by apply newpd_tables. Qed.

Lemma vm_ok_newpd s' :
  npages s' = npages s -> pages s' = zset (pages s) p (MkPageInfo None 1) ->
  page_free_list s' = head l -> mem s' = m' -> (forall a, is_u32 (rdw m' a)) ->
  vm_ok s' l (p * 4096 :: pds) ex.
Proof.
  intros Hn Hpg Hfl Hmem Hw. destruct newpd_apart as (Hppd & Hppt & Hpm).
  pose proof (vm_free_ref Hvm p (list_elem_of_here _ _)) as Hrp.
  assert (ref_upd s s' p 1) as Hupd.
  { intros q. eapply page_ref_zset in Hpg as ->; [done|by eapply page_ref_range]. }
  assert (forall q r, q <> p -> page_ref s q = Some r -> page_ref s' q = Some r) as Hkeep.
  { intros q r Hq Hr. rewrite Hupd. by rewrite decide_False. }
  split; rewrite ?Hmem.
  - eapply alloc_ok_pop; [apply (vo_alloc _ _ _ _ Hvm)|done..|eauto].
  - intros q r. rewrite Hupd. case_decide; [intros; by simplify_eq|]. apply (vo_ref16 _ _ _ _ Hvm).
  - done.
  - intros pd [->|Hpd]%elem_of_cons.
    + rewrite Z.mod_mul, Z.div_mul, Hupd by done. by rewrite decide_True.
    + destruct (vo_pd _ _ _ _ Hvm _ Hpd) as [Hm Hr]. split; [done|].
      apply Hkeep; [|done]. intros E. apply Hppd. by replace (p * 4096) with pd by zlia.
  - intros pd i. rewrite newpd_has_pt. intros Hpt. rewrite newpd_pde by done.
    destruct (vo_pt _ _ _ _ Hvm _ _ Hpt) as [Hr Hni]. split.
    + apply Hkeep; [|done]. intros Ep. apply (Hppt _ _ Hpt).
      destruct (vm_pt_bound Hvm _ _ Hpt) as (_ & Hm & _). zlia.
    + apply not_elem_of_cons. split; [by apply Hppt|done].
  - intros pd1 i1 pd2 i2. rewrite !newpd_has_pt. intros H1 H2. rewrite !newpd_pde by done.
    by apply (vo_inj _ _ _ _ Hvm).
  - intros pd i j. rewrite newpd_has_pt. intros Hpt Hj. pose proof Hpt as (A & B & C).
    destruct (newpd_tables pd i A B) as [_ E]. rewrite E by done. by apply (vo_pte _ _ _ _ Hvm).
  - intros x t. rewrite newpd_maps. intros Hx. destruct (vo_data _ _ _ _ Hvm _ _ Hx) as [A B]. split.
    + apply not_elem_of_cons. split; [|done]. intros E. apply (Hpm x). by replace p with t by lia.
    + intros pd i. rewrite newpd_has_pt. intros Hpt. rewrite newpd_pde by done. by apply B.
  - intros x t. rewrite newpd_maps. intros Hx. rewrite Hupd. case_decide; [done|].
    by eapply (vo_tgt _ _ _ _ Hvm).
  - apply (vo_ex _ _ _ _ Hvm).
  - intros t r xs Hr Hnd Hxs.
    assert (forall x, x ∈ xs -> maps (mem s) pds x t) as Hxs'.
    { intros x Hx. rewrite <-newpd_maps. by apply Hxs. }
    rewrite Hupd in Hr. case_decide as E; [|by apply (vo_count _ _ _ _ Hvm t)].
    rewrite E in *. injection Hr as <-.
    pose proof (vo_count _ _ _ _ Hvm p 0 xs Hrp Hnd Hxs'). lia.
Qed.

(** Other address spaces look the same and the new one is empty. *)
Lemma newpd_views : views_eq pds (mem s) m' /\
  forall i j, user_slot i j -> vlookup m' (p * 4096) i j = None.
Proof.
  split; [apply tables_eq_views, newpd_tables|]. intros i j [Hi Hj]. unfold vlookup, pde_at.
  by rewrite Hzero.
Qed.
End NewPd.

(** ** An emptied page table *)
Section FreePt.
Context (s : kstate) (l pds : list Z) (ex : Z -> Z) (pd i : Z).
Context (Hvm : vm_ok s l pds ex) (Hpt : has_pt (mem s) pds pd i).
Context (Hempty : forall j, 0 <= j < 1024 -> has (pte_at (mem s) pd i j) PTE_P = false).
Let p := PTE_ADDR (pde_at (mem s) pd i) / 4096.
Let m' := wrw (mem s) (pd + 4 * i) 0.

Lemma freept_pde pd' i' : pd' ∈ pds -> 0 <= i' < NUPDE ->
  pde_at m' pd' i' = if decide ((pd', i') = (pd, i)) then 0 else pde_at (mem s) pd' i'.
Proof.
  intros Hpd' Hi'. pose proof Hpt as (Hpd & Hi & _). unfold NUPDE in *.
  destruct (vm_pd_bound Hvm pd' Hpd') as [_ Hm']. destruct (vm_pd_bound Hvm pd Hpd) as [_ Hm].
  unfold pde_at, m'. case_decide as E; [injection E as -> ->; apply rdw_wrw_eq|].
  apply rdw_wrw_ne. intros Ea. apply E. apply entry_inj in Ea as [-> ->]; done || lia.
Qed.

Lemma freept_has_pt pd' i' :
  has_pt m' pds pd' i' <-> has_pt (mem s) pds pd' i' /\ (pd', i') <> (pd, i).
Proof.
  unfold has_pt. split.
  - intros (A & B & C). rewrite freept_pde in C by done. by case_decide.
  - intros ((A & B & C) & E). split; [done|]. split; [done|]. rewrite freept_pde by done.
    by rewrite decide_False.
Qed.

Lemma freept_pde_ne pd' i' : has_pt (mem s) pds pd' i' -> (pd', i') <> (pd, i) ->
  pde_at m' pd' i' = pde_at (mem s) pd' i'.
Proof. intros (A & B & _) E. rewrite freept_pde by done. by rewrite decide_False. Qed.

Lemma freept_pte pd' i' j : has_pt (mem s) pds pd' i' -> (pd', i') <> (pd, i) -> 0 <= j < 1024 ->
  pte_at m' pd' i' j = pte_at (mem s) pd' i' j.
Proof.
  intros Hpt' E Hj. unfold pte_at, pte_addr. rewrite freept_pde_ne by done. apply rdw_wrw_ne.
  pose proof Hpt as (Hpd & Hi & _). unfold NUPDE in Hi.
  destruct (vm_pd_bound Hvm pd Hpd) as [_ Hm]. destruct (vm_pt_bound Hvm _ _ Hpt') as (_ & Hm' & _).
  intros Ea. apply entry_inj in Ea as [Ea _]; [|done|done|lia|done].
  destruct (vo_pt _ _ _ _ Hvm _ _ Hpt') as [_ Hn]. apply Hn. by rewrite <-Ea.
Qed.

Lemma freept_maps x t : maps m' pds x t <-> maps (mem s) pds x t.
Proof.
  destruct x as [[pd' i'] j]. unfold maps. rewrite freept_has_pt. split.
  - intros ([A E] & Hj & B & C). rewrite freept_pte in B, C by done. done.
  - intros (A & Hj & B & C). destruct (decide ((pd', i') = (pd, i))) as [E|E].
    + injection E as -> ->. by rewrite Hempty in B.
    + rewrite freept_pte by done. done.
Qed.

Lemma freept_views : views_eq pds (mem s) m'.
Proof.
  intros pd' i' j Hpd' [Hi' Hj]. unfold vlookup.
  destruct (decide ((pd', i') = (pd, i))) as [E|E].
  - rewrite freept_pde by done. rewrite decide_True by done. injection E as -> ->.
    rewrite Hempty by done. by destruct (has (pde_at (mem s) pd i) PTE_P).
  - rewrite freept_pde by done. rewrite decide_False by done.
    destruct (has (pde_at (mem s) pd' i') PTE_P) eqn:Ep; [|done].
    rewrite freept_pte by (try done; unfold has_pt; by rewrite Ep). done.
Qed.

Lemma freept_page : page_ref s p = Some 1 /\ p * 4096 = PTE_ADDR (pde_at (mem s) pd i) /\ p ∉ l.
Proof.
  destruct (vo_pt _ _ _ _ Hvm _ _ Hpt) as [Hr _]. destruct (vm_pt_bound Hvm _ _ Hpt) as (_ & Hm & _).
  split_and!; [done|unfold p; zlia|]. eapply (vm_not_free Hvm); done.
Qed.

Lemma vm_ok_freept s' :
  ex p = 0 -> npages s' = npages s ->
  pages s' = zset (pages s) p (MkPageInfo (page_free_list s) 0) ->
  page_free_list s' = Some p -> mem s' = m' -> vm_ok s' (p :: l) pds ex.
Proof.
  intros Hex Hn Hpg Hfl Hmem. destruct freept_page as (Hrp & Hpa & Hni).
  destruct (vm_page_bound Hvm _ _ Hrp) as [Hpb _].
  assert (ref_upd s s' p 0) as Hupd.
  { intros q. eapply page_ref_zset in Hpg as ->; [done|by eapply page_ref_range]. }
  assert (forall q r, q <> p -> page_ref s q = Some r -> page_ref s' q = Some r) as Hkeep.
  { intros q r Hq Hr. rewrite Hupd. by rewrite decide_False. }
  split; rewrite ?Hmem.
  - eapply alloc_ok_push; [apply (vo_alloc _ _ _ _ Hvm)|done..].
  - intros q r. rewrite Hupd. case_decide; [intros; by simplify_eq|]. apply (vo_ref16 _ _ _ _ Hvm).
  - intros a. unfold m'. destruct (decide (pd + 4 * i = a)) as [<-|]; [by rewrite rdw_wrw_eq|].
    rewrite rdw_wrw_ne by done. apply (vo_word _ _ _ _ Hvm).
  - intros pd' Hpd'. destruct (vo_pd _ _ _ _ Hvm _ Hpd') as [Hm Hr]. split; [done|].
    apply Hkeep; [|done]. intros E. destruct (vo_pt _ _ _ _ Hvm _ _ Hpt) as [_ Hnp]. apply Hnp.
    rewrite <-Hpa. by replace (p * 4096) with pd' by zlia.
  - intros pd' i'. rewrite freept_has_pt. intros [Hpt' E]. rewrite freept_pde_ne by done.
    destruct (vo_pt _ _ _ _ Hvm _ _ Hpt') as [Hr Hni']. split; [|done].
    apply Hkeep; [|done]. intros Ep. apply E. destruct (vm_pt_bound Hvm _ _ Hpt') as (_ & Hm & _).
    destruct (vo_inj _ _ _ _ Hvm _ _ _ _ Hpt' Hpt) as [-> ->]; [|done]. rewrite <-Hpa. zlia.
  - intros pd1 i1 pd2 i2. rewrite !freept_has_pt. intros [H1 E1] [H2 E2].
    rewrite !freept_pde_ne by done. by apply (vo_inj _ _ _ _ Hvm).
  - intros pd' i' j. rewrite freept_has_pt. intros [H1 E1] Hj. rewrite freept_pte by done.
    by apply (vo_pte _ _ _ _ Hvm).
  - intros x t. rewrite freept_maps. intros Hx. destruct (vo_data _ _ _ _ Hvm _ _ Hx) as [A B].
    split; [done|]. intros pd' i'. rewrite freept_has_pt. intros [H1 E1].
    rewrite freept_pde_ne by done. by apply B.
  - intros x t. rewrite freept_maps. intros Hx. rewrite Hupd. case_decide; [done|].
    by eapply (vo_tgt _ _ _ _ Hvm).
  - apply (vo_ex _ _ _ _ Hvm).
  - intros t r xs Hr Hnd Hxs.
    assert (forall x, x ∈ xs -> maps (mem s) pds x t) as Hxs'.
    { intros x Hx. rewrite <-freept_maps. by apply Hxs. }
    rewrite Hupd in Hr. case_decide as E; [|by apply (vo_count _ _ _ _ Hvm t)].
    injection Hr as <-. rewrite E in *. destruct xs as [|x xs]; [unfold zlen; simpl; lia|].
    exfalso. destruct (vo_data _ _ _ _ Hvm _ _ (Hxs' x (list_elem_of_here _ _))) as [_ B].
    by apply (B _ _ Hpt).
Qed.
End FreePt.

(** ** An emptied directory *)
Lemma vm_ok_freepd s l pds pds' ex pd s' :
  vm_ok s l pds ex -> pd ∈ pds -> (forall x, x ∈ pds' <-> x ∈ pds /\ x <> pd) ->
  (forall i, 0 <= i < NUPDE -> has (pde_at (mem s) pd i) PTE_P = false) ->
  ex (pd / 4096) = 0 -> npages s' = npages s ->
  pages s' = zset (pages s) (pd / 4096) (MkPageInfo (page_free_list s) 0) ->
  page_free_list s' = Some (pd / 4096) -> mem s' = mem s -> vm_ok s' (pd / 4096 :: l) pds' ex.
Proof.
  intros Hvm Hpd Hpds Hempty Hex Hn Hpg Hfl Hmem. destruct (vo_pd _ _ _ _ Hvm _ Hpd) as [Hpm Hrp].
  destruct (vm_page_bound Hvm _ _ Hrp) as [Hpb _].
  assert (ref_upd s s' (pd / 4096) 0) as Hupd.
  { intros q. eapply page_ref_zset in Hpg as ->; [done|by eapply page_ref_range]. }
  assert (forall q r, q <> pd / 4096 -> page_ref s q = Some r -> page_ref s' q = Some r) as Hkeep.
  { intros q r Hq Hr. rewrite Hupd. by rewrite decide_False. }
  assert (forall pd' i, has_pt (mem s) pds' pd' i <-> has_pt (mem s) pds pd' i) as Hhp.
  { intros pd' i. unfold has_pt. rewrite Hpds. split; [naive_solver|]. intros (A & B & C).
    split; [|done]. split; [done|]. intros ->. by rewrite Hempty in C. }
  assert (forall x t, maps (mem s) pds' x t <-> maps (mem s) pds x t) as Hmaps.
  { intros [[pd' i] j] t. unfold maps. by rewrite Hhp. }
  split; rewrite ?Hmem.
  - eapply alloc_ok_push; [apply (vo_alloc _ _ _ _ Hvm)| |done..]. by eapply (vm_not_free Hvm).
  - intros q r. rewrite Hupd. case_decide; [intros; by simplify_eq|]. apply (vo_ref16 _ _ _ _ Hvm).
  - apply (vo_word _ _ _ _ Hvm).
  - intros pd' [Hpd' E]%Hpds. destruct (vo_pd _ _ _ _ Hvm _ Hpd') as [Hm Hr]. split; [done|].
    apply Hkeep; [|done]. zlia.
  - intros pd' i. rewrite Hhp. intros Hpt. destruct (vo_pt _ _ _ _ Hvm _ _ Hpt) as [Hr Hni]. split.
    + apply Hkeep; [|done]. intros E. apply Hni. destruct (vm_pt_bound Hvm _ _ Hpt) as (_ & Hm & _).
      by replace (PTE_ADDR (pde_at (mem s) pd' i)) with pd by zlia.
    + rewrite Hpds. naive_solver.
  - intros pd1 i1 pd2 i2. rewrite !Hhp. apply (vo_inj _ _ _ _ Hvm).
  - intros pd' i j. rewrite Hhp. apply (vo_pte _ _ _ _ Hvm).
  - intros x t. rewrite Hmaps. intros Hx. destruct (vo_data _ _ _ _ Hvm _ _ Hx) as [A B]. split.
    + rewrite Hpds. naive_solver.
    + intros pd' i. rewrite Hhp. apply B.
  - intros x t. rewrite Hmaps. intros Hx. rewrite Hupd. case_decide; [done|].
    by eapply (vo_tgt _ _ _ _ Hvm).
  - apply (vo_ex _ _ _ _ Hvm).
  - intros t r xs Hr Hnd Hxs.
    assert (forall x, x ∈ xs -> maps (mem s) pds x t) as Hxs'.
    { intros x Hx. rewrite <-Hmaps. by apply Hxs. }
    rewrite Hupd in Hr. case_decide as E; [|by apply (vo_count _ _ _ _ Hvm t)].
    injection Hr as <-. rewrite E in *. destruct xs as [|x xs]; [unfold zlen; simpl; lia|].
    exfalso. destruct (vo_data _ _ _ _ Hvm _ _ (Hxs' x (list_elem_of_here _ _))) as [A _].
    apply A. by replace (pd / 4096 * 4096) with pd by zlia.
Qed.

(** ** Emptying an address space *)

(** The user pages in [D] were unmapped, one directory after the other; [D] is
    given as a test on directory, entry and slot. *)
Record unmaps (D : Z -> Z -> Z -> bool) (s s' : kstate) (pds : list Z) : Prop := {
  us_frame : vm_frame s s';
  us_keeps : keeps [] pds (mem s) (mem s');
  us_view : forall pd i j, pd ∈ pds -> user_slot i j ->
    vlookup (mem s') pd i j = if D pd i j then None else vlookup (mem s) pd i j;
  us_pde : forall pd i, pd ∈ pds -> 0 <= i < NUPDE -> (forall j, D pd i j = false) ->
    pde_at (mem s') pd i = pde_at (mem s) pd i;
}.

Lemma unmaps_refl s pds : unmaps (fun _ _ _ => false) s s pds.
Proof. split; try done. apply vm_frame_refl. Qed.

Lemma unmaps_trans D1 D2 D s1 s2 s3 pds :
  (forall pd i j, D pd i j = D1 pd i j || D2 pd i j) ->
  unmaps D1 s1 s2 pds -> unmaps D2 s2 s3 pds -> unmaps D s1 s3 pds.
Proof.
  intros HD [F1 K1 V1 P1] [F2 K2 V2 P2]. split.
  - by eapply vm_frame_trans.
  - by eapply keeps_trans.
  - intros pd i j Hpd Hs. rewrite V2, V1, HD by done. by destruct (D1 pd i j), (D2 pd i j).
  - intros pd i Hpd Hi Hj. rewrite P2, P1; try done; intros j; specialize (Hj j);
      rewrite HD in Hj; by apply orb_false_iff in Hj as [? ?].
Qed.

Lemma unmapped_unmaps s s' pds pd i j :
  unmapped s s' pds pd i j -> 
  unmaps (fun pd' i' j' => bool_decide ((pd', i', j') = (pd, i, j))) s s' pds.
Proof.
  intros [F K P V _]. split; try done.
  - intros pd' i' j' Hpd Hs. rewrite V by done. rewrite bool_decide_decide. by case_decide.
  - intros. by apply P.
Qed.

Lemma PGADDR_slot i j : 0 <= i < 1024 -> 0 <= j < 1024 ->
  PDX (PGADDR i j 0) = i /\ PTX (PGADDR i j 0) = j.
Proof.
  intros Hi Hj. rewrite PGADDR_add by lia.
  rewrite PDX_div, PTX_div by (unfold is_u32; lia). split; zlia.
Qed.

(** [unmaps] with the invariant, in continuation form. *)
Definition unmaps_ok (D : Z -> Z -> Z -> bool) (s s' : kstate) (pds : list Z) (ex : Z -> Z) : Prop :=
  unmaps D s s' pds /\ exists l', vm_ok s' l' pds ex.
