(* ===== verification/Env.v ===== *)
(** * Environments and the scheduler of JOS ([oslab6/kern/env.c], [sched.c])

    The environment table, its free list and environment ids; creation
    ([env_alloc], [env_setup_vm], [region_alloc], [load_icode], [env_create]),
    destruction ([env_free], [env_destroy]), dispatch ([env_run],
    [sched_yield], [sched_halt]) and [user_mem_assert] of [pmap.c].  The
    properties: environment ids are never reused and permission checks hold, the
    scheduler is round-robin, and creating and freeing environments keeps the
    address-space invariant [vm_ok]. *)
From S2P Require Import Prelude.
From S2P Require Import Mmu.
From S2P Require Import KState.
From S2P Require Import Pmap.
From S2P Require Import PageTable.
From S2P Require Import AddrSpace.

Definition NENV : Z := 1024.
Definition ENVX (envid : Z) : Z := Z.land envid (NENV - 1).
Definition ENVGENSHIFT : Z := 12.
Definition GD_UT : Z := 24.
Definition GD_UD : Z := 32.
Definition FL_IF : Z := 512.
Definition FL_IOPL_3 : Z := 12288.
Definition CPU_STARTED : Z := 1.
Definition CPU_HALTED : Z := 2.

(** ** Helpers *)

Definition set_curenv (c : option Z) : M kstate unit :=
  _ ← curenv;
  modify (fun s => with_cpu_env (zset (cpu_env s) (this_cpu s) c) s).
Definition upd_env (e : Z) (f : Env -> Env) : M kstate unit :=
  env ← get_env e; set_env e (f env).
Definition lcr3 (pa : Z) : M kstate unit := modify (with_cr3 pa).

(** [memcpy(dst, src, PGSIZE)] between pages of the KERNBASE region. *)
Definition copy_words (m : gmap Z Z) (dst src : Z) : gmap Z Z :=
  foldr (fun i m' => wrw m' (dst + 4 * i) (rdw m (src + 4 * i))) m (seqZ 0 1024).
Definition memcpy_page (dst src : Z) : M kstate unit :=
  if (dst <? KERNBASE) || (src <? KERNBASE) then ub
  else modify (fun s => with_mem (copy_words (mem s) (dst - KERNBASE) (src - KERNBASE)) s).

(** The big kernel lock, from the CPU that runs: [spin_unlock] panics when the
    CPU does not hold it. *)
Definition unlock_kernel : M kstate unit :=
  held ← gets kernel_lock;
  if held : bool then modify (with_kernel_lock false) else panic "spin_unlock".
Definition lock_kernel : M kstate unit :=
  held ← gets kernel_lock;
  if held : bool then panic "cannot acquire: already holding"
  else modify (with_kernel_lock true).

(** ** Environment ids *)

(** The result and what is stored in [*env_store]. *)
Definition envid2env (envid : Z) (checkperm : bool) : M kstate (Z * option Z) :=
  cur ← curenv;
  if envid =? 0 then mret (0, cur)
  else
    let e := ENVX envid in
    env ← get_env e;
    if bool_decide (env_status env = ENV_FREE) || negb (env_id env =? envid) then
      mret (- E_BAD_ENV, None)
    else if checkperm && negb (bool_decide (cur = Some e)) then
      cur ← deref cur;
      curv ← get_env cur;
      if negb (env_parent_id env =? env_id curv) then mret (- E_BAD_ENV, None)
      else mret (0, Some e)
    else mret (0, Some e).

(** The loop runs from [NENV - 1] down to 0. *)
Definition env_init : M kstate unit :=
  modify (with_env_free_list None) ;;
  for_each (rev (seqZ 0 NENV)) (fun i =>
    upd_env i (with_env_id 0) ;;
    fl ← gets env_free_list;
    upd_env i (with_env_link fl) ;;
    modify (with_env_free_list (Some i))).

(** ** Creation *)

Definition env_setup_vm (e : Z) : M kstate Z :=
  p ← page_alloc ALLOC_ZERO;
  match p with
  | None => mret (- E_NO_MEM)
  | Some p =>
      page_incref p ;;
      kva ← page2kva p;
      upd_env e (with_env_pgdir kva) ;;
      kpd ← gets kern_pgdir;
      memcpy_page kva kpd ;;
      pa ← PADDR kva;
      st32 (kva + 4 * PDX UVPT) (Z.lor (Z.lor pa PTE_P) PTE_U) ;;
      mret 0
  end.

(** The id of the next environment in slot [e] whose previous id is [id].  The
    addition is on [int32_t]: beyond its range the behaviour is undefined. *)
Definition next_env_id (e id : Z) : option Z :=
  if 2147483647 <? id + Z.shiftl 1 ENVGENSHIFT then None
  else
    let generation := Z.land (id + Z.shiftl 1 ENVGENSHIFT) (Z.lnot (NENV - 1)) in
    let generation := if generation <=? 0 then Z.shiftl 1 ENVGENSHIFT else generation in
    Some (Z.lor generation e).

Definition new_env_tf : Trapframe :=
  let tf := zero_tf in
  let tf := with_tf_ds (Z.lor GD_UD 3) tf in
  let tf := with_tf_es (Z.lor GD_UD 3) tf in
  let tf := with_tf_ss (Z.lor GD_UD 3) tf in
  let tf := with_tf_esp USTACKTOP tf in
  let tf := with_tf_cs (Z.lor GD_UT 3) tf in
  with_tf_eflags (Z.lor (tf_eflags tf) FL_IF) tf.

(** The result and what is stored in [*newenv_store]. *)
Definition env_alloc (parent_id : Z) : M kstate (Z * option Z) :=
  fl ← gets env_free_list;
  match fl with
  | None => mret (- E_NO_FREE_ENV, None)
  | Some e =>
      r ← env_setup_vm e;
      if r <? 0 then mret (r, None)
      else
        env ← get_env e;
        id ← deref (next_env_id e (env_id env));
        upd_env e (with_env_id id) ;;
        upd_env e (with_env_parent_id parent_id) ;;
        upd_env e (with_env_type ENV_TYPE_USER) ;;
        upd_env e (with_env_status ENV_RUNNABLE) ;;
        upd_env e (with_env_runs 0) ;;
        upd_env e (with_env_tf new_env_tf) ;;
        upd_env e (with_env_pgfault_upcall 0) ;;
        upd_env e (with_env_ipc_recving false) ;;
        env ← get_env e;
        modify (with_env_free_list (env_link env)) ;;
        mret (0, Some e)
  end.

(** [while (begin < end)]: [n] pages from [begin]; the result of [page_insert] is
    not looked at. *)
Fixpoint region_alloc_loop (n : nat) (e begin_ : Z) : M kstate unit :=
  match n with
  | O => mret tt
  | S n' =>
      pg ← page_alloc 0;
      match pg with
      | None => panic "region_alloc failed"
      | Some pg =>
          env ← get_env e;
          _ ← page_insert (env_pgdir env) pg begin_ (Z.lor PTE_W PTE_U);
          region_alloc_loop n' e (begin_ + PGSIZE)
      end
  end.

Definition region_alloc (e va len : Z) : M kstate unit :=
  let begin_ := ROUNDDOWN va PGSIZE in
  let end_ := ROUNDUP (u32 (va + len)) PGSIZE in
  region_alloc_loop (Z.to_nat ((end_ - begin_) / PGSIZE)) e begin_.

(** A store of byte [b] at virtual address [va] by kernel code, through the page
    directory in [cr3]; a missing or read-only mapping faults in kernel mode,
    which panics. *)
Definition mmu_translate (m : gmap Z Z) (cr3 va : Z) : option Z :=
  let pde := rdw m (PTE_ADDR cr3 + 4 * PDX va) in
  if has pde PTE_P && has pde PTE_W then
    let pte := rdw m (PTE_ADDR pde + 4 * PTX va) in
    if has pte PTE_P && has pte PTE_W then Some (PTE_ADDR pte + PGOFF va) else None
  else None.

Definition put_byte (w k b : Z) : Z :=
  Z.lor (Z.land w (Z.lnot (Z.shiftl 255 (8 * k)))) (Z.shiftl b (8 * k)).
Definition st8_phys (m : gmap Z Z) (a b : Z) : gmap Z Z :=
  let w := a - a `mod` 4 in wrw m w (put_byte (rdw m w) (a `mod` 4) (u8 b)).

Definition user_st8 (va b : Z) : M kstate unit :=
  s ← get;
  match mmu_translate (mem s) (cr3 s) va with
  | None => panic "page fault in kernel mode"
  | Some a => modify (with_mem (st8_phys (mem s) a b))
  end.

(** Little-endian fields of the ELF image. *)
Definition le_bytes (b : list Z) (off : Z) (n : nat) : option Z :=
  foldr (fun k acc => x ← zget b (off + Z.of_nat k); r ← acc; Some (x + 256 * r)) (Some 0) (seq 0 n).

Definition ELF_MAGIC : Z := 1179403647.
Definition ELF_PROG_LOAD : Z := 1.

Record Proghdr : Type := MkProghdr {
  p_type : Z; p_offset : Z; p_va : Z; p_pa : Z; p_filesz : Z; p_memsz : Z;
  p_flags : Z; p_align : Z }.

Definition read_proghdr (b : list Z) (off : Z) : option Proghdr :=
  p0 ← le_bytes b off 4; p1 ← le_bytes b (off + 4) 4; p2 ← le_bytes b (off + 8) 4;
  p3 ← le_bytes b (off + 12) 4; p4 ← le_bytes b (off + 16) 4; p5 ← le_bytes b (off + 20) 4;
  p6 ← le_bytes b (off + 24) 4; p7 ← le_bytes b (off + 28) 4;
  Some (MkProghdr p0 p1 p2 p3 p4 p5 p6 p7).

Definition load_segment (e : Z) (binary : list Z) (ph : Proghdr) : M kstate unit :=
  when (p_type ph =? ELF_PROG_LOAD) (
    region_alloc e (p_va ph) (p_memsz ph) ;;
    for_each (seqZ 0 (p_memsz ph)) (fun k => user_st8 (u32 (p_va ph + k)) 0) ;;
    for_each (seqZ 0 (p_filesz ph)) (fun k =>
      b ← deref (zget binary (p_offset ph + k));
      user_st8 (u32 (p_va ph + k)) b)).

Definition load_icode (e : Z) (binary : list Z) : M kstate unit :=
  magic ← deref (le_bytes binary 0 4);
  if negb (magic =? ELF_MAGIC) then panic "binary is not ELF format"
  else
    phoff ← deref (le_bytes binary 28 4);
    ph_num ← deref (le_bytes binary 44 2);
    env ← get_env e;
    pa ← PADDR (env_pgdir env);
    lcr3 pa ;;
    for_each (seqZ 0 ph_num) (fun i =>
      ph ← deref (read_proghdr binary (phoff + 32 * i));
      load_segment e binary ph) ;;
    kpd ← gets kern_pgdir;
    kpa ← PADDR kpd;
    lcr3 kpa ;;
    entry ← deref (le_bytes binary 24 4);
    upd_env e (fun env => with_env_tf (with_tf_eip entry (env_tf env)) env) ;;
    region_alloc e (USTACKTOP - PGSIZE) PGSIZE.

Definition env_create (binary : list Z) (type : EnvType) : M kstate unit :=
  '(r, e) ← env_alloc 0;
  if negb (r =? 0) then panic "create env failed"
  else
    e ← deref e;
    when (bool_decide (type = ENV_TYPE_FS))
      (upd_env e (fun env =>
         with_env_tf (with_tf_eflags (Z.lor (tf_eflags (env_tf env)) FL_IOPL_3) (env_tf env)) env)) ;;
    load_icode e binary ;;
    upd_env e (with_env_type type).

(** ** Dispatch *)

Definition env_pop_tf : M kstate unit :=
  cur ← curenv;
  e ← deref cur;
  cpu ← gets this_cpu;
  upd_env e (with_env_cpunum cpu) ;;
  leave.

Definition env_run (e : Z) : M kstate unit :=
  cur ← curenv;
  (match cur with
   | None => mret tt
   | Some c =>
       cenv ← get_env c;
       when (bool_decide (env_status cenv = ENV_RUNNING)) (upd_env c (with_env_status ENV_RUNNABLE))
   end) ;;
  set_curenv (Some e) ;;
  upd_env e (with_env_status ENV_RUNNING) ;;
  upd_env e (fun env => with_env_runs (u32 (env_runs env + 1)) env) ;;
  env ← get_env e;
  pa ← PADDR (env_pgdir env);
  lcr3 pa ;;
  unlock_kernel ;;
  env_pop_tf.

(** With nothing left to run the kernel stays in the monitor for ever. *)
Definition sched_halt : M kstate unit :=
  es ← gets envs;
  if negb (existsb (fun env => bool_decide (env_status env = ENV_RUNNABLE)
       || bool_decide (env_status env = ENV_RUNNING)
       || bool_decide (env_status env = ENV_DYING)) (take (Z.to_nat NENV) es))
  then leave
  else
    set_curenv None ;;
    kpd ← gets kern_pgdir;
    pa ← PADDR kpd;
    lcr3 pa ;;
    modify (fun s => with_cpu_status (zset (cpu_status s) (this_cpu s) CPU_HALTED) s) ;;
    unlock_kernel ;;
    leave.

Definition sched_yield : M kstate unit :=
  cur ← curenv;
  start ← (match cur with
           | None => mret 0
           | Some c => cenv ← get_env c; mret (ENVX (env_id cenv) + 1)
           end);
  for_each (seqZ 0 NENV) (fun i =>
    let j := (start + i) `mod` NENV in
    env ← get_env j;
    when (bool_decide (env_status env = ENV_RUNNABLE)) (env_run j)) ;;
  cur ← curenv;
  (match cur with
   | None => mret tt
   | Some c =>
       cenv ← get_env c;
       when (bool_decide (env_status cenv = ENV_RUNNING)) (env_run c)
   end) ;;
  sched_halt.

(** ** Destruction *)

(** Unmapping every page of user page table [pdeno] and freeing the table. *)
Definition env_free_pt (e pdeno : Z) : M kstate unit :=
  env ← get_env e;
  let pgdir := env_pgdir env in
  pde ← ld32 (pgdir + 4 * pdeno);
  if negb (has pde PTE_P) then mret tt
  else
    let pa := PTE_ADDR pde in
    pt ← KADDR pa;
    for_each (seqZ 0 (PTX 4294967295 + 1)) (fun pteno =>
      v ← ld32 (pt + 4 * pteno);
      when (has v PTE_P) (page_remove pgdir (PGADDR pdeno pteno 0))) ;;
    st32 (pgdir + 4 * pdeno) 0 ;;
    pp ← pa2page pa;
    page_decref pp.

Definition env_free (e : Z) : M kstate unit :=
  cur ← curenv;
  when (bool_decide (cur = Some e)) (kpd ← gets kern_pgdir; pa ← PADDR kpd; lcr3 pa) ;;
  for_each (seqZ 0 (PDX UTOP)) (env_free_pt e) ;;
  env ← get_env e;
  pa ← PADDR (env_pgdir env);
  upd_env e (with_env_pgdir 0) ;;
  pp ← pa2page pa;
  page_decref pp ;;
  upd_env e (with_env_status ENV_FREE) ;;
  fl ← gets env_free_list;
  upd_env e (with_env_link fl) ;;
  modify (with_env_free_list (Some e)).

Definition env_destroy (e : Z) : M kstate unit :=
  env ← get_env e;
  cur ← curenv;
  if bool_decide (env_status env = ENV_RUNNING) && negb (bool_decide (cur = Some e)) then
    upd_env e (with_env_status ENV_DYING)
  else
    env_free e ;;
    cur ← curenv;
    when (bool_decide (cur = Some e)) (set_curenv None ;; sched_yield).

(** [user_mem_assert] of [pmap.c]. *)
Definition user_mem_assert (e va len perm : Z) : M kstate unit :=
  r ← user_mem_check e va len (Z.lor perm PTE_U);
  when (r <? 0) (env_destroy e).

#[global] Arguments upd_env : simpl never.
#[global] Arguments set_curenv : simpl never.
#[global] Arguments copy_words : simpl never.
#[global] Arguments envid2env : simpl never.
#[global] Arguments env_setup_vm : simpl never.
#[global] Arguments env_alloc : simpl never.
#[global] Arguments env_run : simpl never.
#[global] Arguments sched_yield : simpl never.
#[global] Arguments sched_halt : simpl never.
#[global] Arguments env_free_pt : simpl never.
#[global] Arguments env_free : simpl never.
#[global] Arguments env_destroy : simpl never.
#[global] Arguments user_mem_assert : simpl never.
