(* ===== verification/EnvFree.v ===== *)
(** * [env_free] reclaims an address space ([oslab6/kern/env.c])

    The loops of [env_free]: every user page is unmapped, every user page table and
    the directory are freed, and the other address spaces keep their mappings. *)
From S2P Require Import Prelude.
From S2P Require Import Mmu.
From S2P Require Import KState.
From S2P Require Import Pmap.
From S2P Require Import PageTable.
From S2P Require Import AddrSpace.
From S2P Require Import VmLife.
From S2P Require Import Env.

Lemma get_env_ok s e env : zget (envs s) e = Some env -> get_env e s = Ret env s.
Proof. intros H. unfold get_env. exec. by rewrite H. Qed.

Lemma upd_env_ok s e env f : zget (envs s) e = Some env ->
  upd_env e f s = Ret tt (with_envs (zset (envs s) e (f env)) s).
Proof.
  intros H. unfold upd_env, set_env. exec_by (get_env_ok s e env H).
  by exec_by (get_env_ok s e env H).
Qed.

Section FreePt.
Context (pds : list Z) (ex : Z -> Z) (pd : Z) (Hpd : pd ∈ pds).

(** The inner loop: the slots of page table [i] below [n] are gone. *)
Definition slots_of (i : Z) (js : list Z) (pd' i' j' : Z) : bool :=
  bool_decide (pd' = pd /\ i' = i /\ j' ∈ js).

Lemma slots_of_snoc i js j pd' i' j' : slots_of i (js ++ [j]) pd' i' j'
  = slots_of i js pd' i' j' || bool_decide ((pd', i', j') = (pd, i, j)).
Proof using Type.
  clear. unfold slots_of. apply eq_true_iff_eq. rewrite orb_true_iff, !bool_decide_eq_true.
  rewrite elem_of_app, list_elem_of_singleton. naive_solver.
Qed.

Lemma free_slots_ok s l i :
  vm_ok s l pds ex -> cpu_ok s -> has_pt (mem s) pds pd i ->
  wp (for_each (seqZ 0 (PTX 4294967295 + 1)) (fun pteno =>
        v ← ld32 (PTE_ADDR (pde_at (mem s) pd i) + KERNBASE + 4 * pteno);
        when (has v PTE_P) (page_remove (pd + KERNBASE) (PGADDR i pteno 0))))
    (fun _ s' => (unmaps_ok (slots_of i (seqZ 0 1024)) s s' pds ex) /\ pde_at (mem s') pd i = pde_at (mem s) pd i) s.
Proof.
  intros Hvm Hcpu Hpt. change (PTX 4294967295 + 1) with 1024. pose proof Hpt as (_ & Hi & HP).
  apply (wp_for_each _ _ (fun pre s' => unmaps_ok (slots_of i pre) s s' pds ex /\
    pde_at (mem s') pd i = pde_at (mem s) pd i)).
  - split; [|done]. split; [|eauto]. eapply unmaps_trans; [|apply unmaps_refl..].
    intros. unfold slots_of. apply bool_decide_eq_false. rewrite elem_of_nil. naive_solver.
  - intros pre j rest s1 Hseq [[Hu [l1 Hvm1]] Epde].
    assert (0 <= j < 1024) as Hj.
    { assert (j ∈ seqZ 0 1024) as H%elem_of_seqZ by (rewrite Hseq; set_solver). lia. }
    assert (has_pt (mem s1) pds pd i) as Hpt1 by (unfold has_pt; by rewrite Epde).
    pose proof (pte_kva_range _ _ _ _ _ _ _ Hvm1 Hpt1 Hj) as Hk.
    unfold wp. replace (PTE_ADDR (pde_at (mem s) pd i) + KERNBASE + 4 * j)
      with (pte_addr (mem s1) pd i j + KERNBASE) by (unfold pte_addr; rewrite Epde; lia).
    exec_by (ld32_ok s1 _ Hk). fold (pte_at (mem s1) pd i j).
    unfold NUPDE in Hi. destruct (PGADDR_slot i j) as [E1 E2]; [lia|done|].
    destruct (clear_slot_ok s1 l1 pds ex pd (PGADDR i j 0)) as (s2 & l2 & Hcl & Hvm2 & Hum);
      [done|by rewrite E1|eapply cpu_ok_frame; [apply Hu|done]|].
    rewrite E1, E2 in Hcl, Hum. rewrite Hcl. split.
    + split; [|by eauto]. eapply unmaps_trans; [|exact Hu|by apply unmapped_unmaps].
      intros. apply slots_of_snoc.
    + rewrite (um_pde _ _ _ _ _ _ Hum) by (done || unfold NUPDE; lia). done.
Qed.

(** Freeing one page table. *)
Definition table_of (tbs : list Z) (pd' i' j' : Z) : bool := bool_decide (pd' = pd /\ i' ∈ tbs).

Lemma table_of_snoc tbs i pd' i' j' : table_of (tbs ++ [i]) pd' i' j'
  = table_of tbs pd' i' j' || bool_decide (pd' = pd /\ i' = i).
Proof using Type.
  clear. unfold table_of. apply eq_true_iff_eq. rewrite orb_true_iff, !bool_decide_eq_true.
  rewrite elem_of_app, list_elem_of_singleton. naive_solver.
Qed.

Lemma env_free_pt_ok s l e env i :
  vm_ok s l pds ex -> cpu_ok s -> zget (envs s) e = Some env -> env_pgdir env = pd + KERNBASE ->
  0 <= i < NUPDE -> (has_pt (mem s) pds pd i -> ex (PTE_ADDR (pde_at (mem s) pd i) / 4096) = 0) ->
  wp (env_free_pt e i) (fun _ s' =>
    unmaps_ok (fun pd' i' j' => bool_decide (pd' = pd /\ i' = i)) s s' pds ex /\
    has (pde_at (mem s') pd i) PTE_P = false) s.
Proof.
  intros Hvm Hcpu He Hpgd Hi Hex. unfold env_free_pt. pose proof Hi as Hi'. unfold NUPDE in Hi'.
  eapply wp_call; [by apply get_env_ok|]. rewrite Hpgd.
  destruct (vm_pd_bound Hvm pd Hpd) as [Hpdb Hpdm].
  replace (pd + KERNBASE + 4 * i) with (pd + 4 * i + KERNBASE) by lia.
  eapply wp_call; [apply ld32_ok; lia|]. fold (pde_at (mem s) pd i).
  destruct (has (pde_at (mem s) pd i) PTE_P) eqn:E; cbn [negb].
  2: { apply wp_ret. split; [|done]. split; [|eauto]. split; try done; [apply vm_frame_refl|].
       intros pd' i' j' Hpd' Hs. case_bool_decide as D; [|done]. destruct D as [-> ->].
       unfold vlookup. by rewrite E. }
  assert (has_pt (mem s) pds pd i) as Hpt by (unfold has_pt; by rewrite E).
  destruct (vm_pt_bound Hvm _ _ Hpt) as (A & B & C & D).
  eapply wp_call; [apply KADDR_ok; [done..|apply (vm_npages Hvm)]|].
  apply wp_bind. eapply wp_mono; [by apply (free_slots_ok s l i)|].
  intros [] s1 [[Hu [l1 Hvm1]] Epde].
  eapply wp_call; [apply st32_ok; lia|].
  set (s2 := with_mem (wrw (mem s1) (pd + 4 * i) 0) s1).
  pose proof (vm_frame_npages _ _ (us_frame _ _ _ _ Hu)) as En.
  eapply wp_call; [apply pa2page_ok; [done|change (npages s2) with (npages s1); lia]|].
  set (p := PTE_ADDR (pde_at (mem s) pd i) / 4096).
  assert (has_pt (mem s1) pds pd i) as Hpt1 by (unfold has_pt; by rewrite Epde, E).
  assert (forall j, 0 <= j < 1024 -> has (pte_at (mem s1) pd i j) PTE_P = false) as Hempty.
  { intros j Hj. pose proof (us_view _ _ _ _ Hu pd i j Hpd (conj Hi Hj)) as Hv.
    unfold slots_of in Hv. rewrite bool_decide_true in Hv by (split_and!; [done..|apply elem_of_seqZ; lia]).
    unfold vlookup in Hv. rewrite Epde, E in Hv. by destruct (has (pte_at (mem s1) pd i j) PTE_P). }
  destruct (freept_page s1 l1 pds ex pd i Hvm1 Hpt1) as (Hr & Hpa & Hni). rewrite Epde in Hr, Hpa, Hni.
  fold p in Hr, Hpa, Hni. destruct (page_ref_inv _ _ _ Hr) as [li Hg].
  assert (alloc_ok s2 l1) as Hal2 by (eapply alloc_ok_same; [apply (vo_alloc _ _ _ _ Hvm1)|done..]).
  unfold wp. rewrite (page_decref_ok s2 l1 p _ Hal2 Hni Hg) by (unfold is_u16; simpl; lia).
  unfold decref_st. simpl (_ =? 1). cbv iota. split; [split|].
  - eapply (unmaps_trans (slots_of i (seqZ 0 1024)) (fun pd' i' _ => bool_decide (pd' = pd /\ i' = i))).
    + intros. unfold slots_of. apply eq_true_iff_eq. rewrite orb_true_iff, !bool_decide_eq_true. naive_solver.
    + exact Hu.
    + split.
      * unfold vm_frame, free_st, s2. by destruct s1.
      * intros q _ Hq. destruct Hq as [Hq1 Hq2]. split; [split; [done|]|].
        -- intros pd' i'. change (mem (free_st p s2)) with (wrw (mem s1) (pd + 4 * i) 0).
           rewrite (freept_has_pt s1 l1 pds ex pd i Hvm1 Hpt1) by done. intros [H1 H2].
           rewrite (freept_pde_ne s1 l1 pds ex pd i Hvm1 Hpt1) by done. by apply Hq2.
        -- intros k Hk. simpl. apply rdw_wrw_ne. intros Ea.
           apply entry_inj in Ea as [Ea _]; [|done|zlia|lia|done]. apply Hq1. by rewrite <-Ea.
      * intros pd' i' j' Hpd' Hs. change (mem (free_st p s2)) with (wrw (mem s1) (pd + 4 * i) 0).
        case_bool_decide as Eq.
        -- destruct Eq as [-> ->]. unfold vlookup, pde_at. by rewrite rdw_wrw_eq.
        -- by apply (freept_views s1 l1 pds ex pd i).
      * intros pd' i' Hpd' Hi2 HD. change (mem (free_st p s2)) with (wrw (mem s1) (pd + 4 * i) 0).
        rewrite (freept_pde s1 l1 pds ex pd i Hvm1 Hpt1) by done. rewrite decide_False; [done|].
        intros Eq. injection Eq as -> ->. specialize (HD 0). by rewrite bool_decide_true in HD.
  - exists (p :: l1). pose proof (vm_ok_freept s1 l1 pds ex pd i Hvm1 Hpt1 Hempty (free_st p s2)) as Hf.
    rewrite Epde in Hf. fold p in Hf. apply Hf; try done. by apply Hex.
  - change (mem (free_st p s2)) with (wrw (mem s1) (pd + 4 * i) 0). unfold pde_at.
    by rewrite rdw_wrw_eq.
Qed.
End FreePt.
