(* ===== verification/EnvInv.v ===== *)
(** * The invariant of the kernel's environments ([oslab6/kern/env.c])

    [kern_ok s l pds efl]: [l] are the free pages, [pds] the directories of the
    live environments and [efl] the free environments.  Creating and freeing
    environments keep it, as do the page-table operations. *)
From S2P Require Import Prelude.
From S2P Require Import Mmu.
From S2P Require Import KState.
From S2P Require Import Pmap.
From S2P Require Import PageTable.
From S2P Require Import AddrSpace.
From S2P Require Import VmLife.
From S2P Require Import Env.
From S2P Require Import EnvFree.

(** The free environments, linked through [env_link]. *)
Fixpoint echain (es : list Env) (h : option Z) (l : list Z) : Prop :=
  match l with
  | [] => h = None
  | e :: l' => h = Some e /\ exists env, zget es e = Some env /\ echain es (env_link env) l'
  end.

Definition live (env : Env) : Prop := env_status env <> ENV_FREE.
#[export] Instance live_dec env : Decision (live env).
Proof. unfold live. apply _. Defined.

Record envs_ok (es : list Env) (fl : option Z) (efl pds : list Z) : Prop := {
  eo_len : zlen es = NENV;
  eo_chain : echain es fl efl;
  eo_nodup : NoDup efl;
  eo_free : forall e env, zget es e = Some env -> (e ∈ efl <-> ~ live env);
  eo_id : forall e env, zget es e = Some env -> 0 <= env_id env < 2147483648 /\
    (env_id env = 0 \/ ENVX (env_id env) = e) /\ (live env -> env_id env <> 0);
  eo_pgdir : forall e env, zget es e = Some env -> live env ->
    exists pd, env_pgdir env = pd + KERNBASE /\ pd ∈ pds;
  eo_own : forall e env e' env', zget es e = Some env -> zget es e' = Some env' ->
    live env -> live env' -> env_pgdir env = env_pgdir env' -> e = e';
  eo_pds : forall pd, pd ∈ pds -> exists e env, zget es e = Some env /\ live env /\
    env_pgdir env = pd + KERNBASE
}.

Definition kpage (s : kstate) : Z := (kern_pgdir s - KERNBASE) / 4096.
Definition kex (s : kstate) (t : Z) : Z := if decide (t = kpage s) then 1 else 0.

Record kern_ok (s : kstate) (l pds efl : list Z) : Prop := {
  ko_vm : vm_ok s l pds (kex s);
  ko_kp : kern_pgdir s = kpage s * 4096 + KERNBASE /\ 0 <= kpage s < npages s;
  ko_kdata : is_data (mem s) pds (kpage s);
  ko_kzero : forall i, 0 <= i < NUPDE -> has (rdw (mem s) (kpage s * 4096 + 4 * i)) PTE_P = false;
  ko_cpu : cpu_ok s;
  ko_env : envs_ok (envs s) (env_free_list s) efl pds
}.

(** The kernel's directory is never free. *)
Lemma ko_kp_used s l pds efl : kern_ok s l pds efl -> kpage s ∉ l.
Proof.
  intros [Hvm [_ Hkp] _ _ _ _] Hin. pose proof (vm_free_ref Hvm _ Hin) as Hr.
  pose proof (vo_count _ _ _ _ Hvm _ _ [] Hr NoDup_nil_2 ltac:(by intros x ?%elem_of_nil)) as Hc.
  change (zlen []) with 0 in Hc. unfold kex in Hc. rewrite decide_True in Hc by done. lia.
Qed.

(** A page table is not the kernel's directory. *)
Lemma kex_pt s l pds efl pd i : kern_ok s l pds efl -> has_pt (mem s) pds pd i ->
  kex s (PTE_ADDR (pde_at (mem s) pd i) / 4096) = 0.
Proof.
  intros Hk Hpt. unfold kex. rewrite decide_False; [done|]. intros E.
  destruct (ko_kdata _ _ _ _ Hk) as [_ Hd]. apply (Hd _ _ Hpt).
  destruct (vm_pt_bound (ko_vm _ _ _ _ Hk) _ _ Hpt) as (_ & Hm & _). zlia.
Qed.

(** Page-table operations keep the invariant. *)
Lemma kern_ok_vm s s' l l' pds efl :
  kern_ok s l pds efl -> vm_frame s s' -> vm_ok s' l' pds (kex s) ->
  keeps l pds (mem s) (mem s') -> kern_ok s' l' pds efl.
Proof.
  intros Hk Hf Hvm Hkeep. pose proof (ko_kp_used _ _ _ _ Hk) as Hni.
  destruct Hk as [_ Hkp Hkd Hkz Hcpu Henv].
  destruct (Hkeep _ Hni Hkd) as [Hkd' Heq].
  assert (kern_pgdir s' = kern_pgdir s) as Ek by by rewrite Hf.
  assert (kpage s' = kpage s) as Ekp by (unfold kpage; by rewrite Ek).
  assert (envs s' = envs s /\ env_free_list s' = env_free_list s /\ npages s' = npages s) as (E1 & E2 & E3)
    by by rewrite Hf.
  split; rewrite ?Ekp, ?Ek, ?E1, ?E2, ?E3; try done.
  - eapply vm_ok_ex_ext; [|exact Hvm]. intros t. unfold kex. by rewrite Ekp.
  - intros i Hi. unfold NUPDE in Hi. rewrite Heq by lia. apply Hkz. unfold NUPDE. lia.
  - by eapply cpu_ok_frame.
Qed.

(** ** [env_free] *)

(** The VM part of [env_free]: after the loop over the page tables. *)
Lemma env_free_loop_ok s l pds efl e env pd :
  kern_ok s l pds efl -> zget (envs s) e = Some env -> env_pgdir env = pd + KERNBASE -> pd ∈ pds ->
  wp (for_each (seqZ 0 (PDX UTOP)) (env_free_pt e)) (fun _ s' =>
    unmaps_ok (fun pd' _ _ => bool_decide (pd' = pd)) s s' pds (kex s) /\
    forall i, 0 <= i < NUPDE -> has (pde_at (mem s') pd i) PTE_P = false) s.
Proof.
  intros Hk He Hpgd Hpd. change (PDX UTOP) with NUPDE.
  eapply wp_mono; [apply (wp_for_each _ _ (fun pre s' =>
    unmaps_ok (table_of pd pre) s s' pds (kex s) /\
    forall i, i ∈ pre -> has (pde_at (mem s') pd i) PTE_P = false))|].
  - split; [|by intros i ?%elem_of_nil]. split; [|eauto using ko_vm].
    eapply unmaps_trans; [|apply unmaps_refl..]. intros. unfold table_of.
    apply bool_decide_eq_false. rewrite elem_of_nil. naive_solver.
  - intros pre i rest s1 Hseq [[Hu [l1 Hvm1]] Hdone].
    assert (i ∈ seqZ 0 NUPDE) as Hi%elem_of_seqZ by (rewrite Hseq; set_solver).
    assert (i ∉ pre) as Hni.
    { pose proof (NoDup_seqZ 0 NUPDE) as Hnd. rewrite Hseq in Hnd.
      apply list.NoDup_app in Hnd as (_ & Hd & _). intros Hin. apply (Hd i Hin). set_solver. }
    assert (kern_ok s1 l1 pds efl) as Hk1.
    { eapply kern_ok_vm; [done|apply Hu|done|]. apply keeps_weaken, Hu. }
    pose proof (vm_frame_envs _ _ (us_frame _ _ _ _ Hu)) as Eenvs.
    eapply wp_mono; [apply (env_free_pt_ok pds (kex s) pd Hpd s1 l1 e env i); try done|].
    + apply (ko_cpu _ _ _ _ Hk1).
    + by rewrite Eenvs.
    + intros Hpt. rewrite <-(kex_pt _ _ _ _ _ _ Hk1 Hpt). unfold kex, kpage.
      by rewrite (us_frame _ _ _ _ Hu).
    + intros [] s2 [[Hu2 [l2 Hvm2]] Hno]. split; [split; [|eauto]|].
      * eapply unmaps_trans; [|exact Hu|exact Hu2]. intros. apply table_of_snoc.
      * intros i' [Hin| ->%list_elem_of_singleton]%elem_of_app; [|done].
        rewrite (us_pde _ _ _ _ Hu2 pd i'); [by apply Hdone|done| |].
        -- assert (i' ∈ seqZ 0 NUPDE) as H%elem_of_seqZ by (rewrite Hseq; set_solver). lia.
        -- intros _. apply bool_decide_eq_false. intros [_ ->]. done.
  - intros [] s' [[Hu Hvm'] Hdone]. split; [split; [|done]|intros i Hi; apply Hdone, elem_of_seqZ; lia].
    destruct Hu as [F K V P]. split; try done.
    + intros pd' i j Hpd' Hs. rewrite V by done. unfold table_of.
      assert (i ∈ seqZ 0 NUPDE) by (apply elem_of_seqZ; destruct Hs; lia).
      repeat case_bool_decide; naive_solver.
    + intros pd' i Hpd' Hi HD. apply P; try done. intros j. specialize (HD j). unfold table_of.
      apply bool_decide_eq_false in HD. apply bool_decide_eq_false. naive_solver.
Qed.

Lemma echain_zset es h l e env : e ∉ l -> echain es h l -> echain (zset es e env) h l.
Proof.
  revert h. induction l as [|x l IH]; intros h Hni; [done|]. intros (-> & xe & Hx & Hl).
  apply not_elem_of_cons in Hni as [Hne Hni]. split; [done|]. exists xe.
  rewrite zget_zset_ne by done. eauto.
Qed.

(** Releasing environment [e] and its directory. *)
Lemma envs_ok_free es fl efl pds pds' e env pd env' :
  envs_ok es fl efl pds -> zget es e = Some env -> live env -> env_pgdir env = pd + KERNBASE ->
  (forall x, x ∈ pds' <-> x ∈ pds /\ x <> pd) ->
  env_status env' = ENV_FREE -> env_link env' = fl -> env_id env' = env_id env ->
  envs_ok (zset es e env') (Some e) (e :: efl) pds'.
Proof.
  intros [Hlen Hch Hnd Hfree Hid Hpg Hown Hpds] He Hlive Hpgd Hpds' Hst Hli Hid'.
  pose proof (zget_Some_range _ _ _ He) as Hr.
  assert (e ∉ efl) as Hni by (intros ?%(Hfree _ _ He); done).
  assert (~ live env') as Hdead by (unfold live; tauto).
  assert (forall x xe, zget (zset es e env') x = Some xe ->
    (x = e /\ xe = env') \/ (x <> e /\ zget es x = Some xe)) as Hcase.
  { intros x xe Hx. rewrite zget_zset in Hx. case_decide as D; [left; naive_solver|right].
    split; [|done]. intros ->. by apply D. }
  split.
  - by rewrite zlen_zset.
  - split; [done|]. exists env'. rewrite zget_zset_eq by done. split; [done|]. rewrite Hli.
    by apply echain_zset.
  - by apply list.NoDup_cons.
  - intros x xe [[-> ->]|[Hne Hx]]%Hcase; rewrite elem_of_cons; [tauto|].
    rewrite (Hfree _ _ Hx). tauto.
  - intros x xe [[-> ->]|[Hne Hx]]%Hcase; [|by apply Hid]. rewrite Hid'.
    destruct (Hid _ _ He) as (A & B & _). tauto.
  - intros x xe [[-> ->]|[Hne Hx]]%Hcase Hl; [done|]. destruct (Hpg _ _ Hx Hl) as (q & Hq & Hqin).
    exists q. split; [done|]. apply Hpds'. split; [done|]. intros ->. apply Hne.
    eapply Hown; [done..|]. by rewrite Hq, Hpgd.
  - intros x xe y ye [[-> ->]|[_ Hx]]%Hcase [[-> ->]|[_ Hy]]%Hcase Hl1 Hl2; try done. by eapply Hown.
  - intros q [Hq Hne]%Hpds'. destruct (Hpds _ Hq) as (x & xe & Hx & Hl & Hxq). exists x, xe.
    split_and!; try done. rewrite zget_zset_ne; [done|]. intros <-. simplify_eq. lia.
Qed.

Lemma set_cr3_kern_ok s l pds efl v : kern_ok s l pds efl -> kern_ok (with_cr3 v s) l pds efl.
Proof.
  intros [Hvm Hkp Hkd Hkz Hcpu Henv]. split; try done.
  eapply vm_ok_tables; [exact Hvm|done|apply (alloc_ok_same s); [apply (vo_alloc _ _ _ _ Hvm)|done..]|
    apply (vo_word _ _ _ _ Hvm)|done].
Qed.

(** Memory, pages and free list of [env_free e] after the loop. *)
Lemma env_free_tail_ok s l pds efl e env pd :
  kern_ok s l pds efl -> zget (envs s) e = Some env -> live env -> env_pgdir env = pd + KERNBASE ->
  pd ∈ pds -> (forall i, 0 <= i < NUPDE -> has (pde_at (mem s) pd i) PTE_P = false) ->
  let pds' := filter (.≠ pd) pds in
  wp (env ← get_env e;
      pa ← PADDR (env_pgdir env);
      upd_env e (with_env_pgdir 0) ;;
      pp ← pa2page pa;
      page_decref pp ;;
      upd_env e (with_env_status ENV_FREE) ;;
      fl ← gets env_free_list;
      upd_env e (with_env_link fl) ;;
      modify (with_env_free_list (Some e)))
    (fun _ s' => kern_ok s' (pd / 4096 :: l) pds' (e :: efl) /\ mem s' = mem s /\
       cpu_env s' = cpu_env s /\ this_cpu s' = this_cpu s /\
       envs s' = zset (envs s) e (with_env_link (env_free_list s)
         (with_env_status ENV_FREE (with_env_pgdir 0 env)))) s.
Proof.
  intros Hk He Hlive Hpgd Hpd Hempty pds'. destruct Hk as [Hvm Hkp Hkd Hkz Hcpu Henv].
  destruct (vm_pd_bound Hvm pd Hpd) as [Hpdb Hpdm]. destruct (vo_pd _ _ _ _ Hvm _ Hpd) as [_ Hr].
  destruct (page_ref_inv _ _ _ Hr) as [li Hg]. pose proof (vm_not_free Hvm _ _ Hr ltac:(lia)) as Hni.
  destruct (vm_page_bound Hvm _ _ Hr) as [Hpb _]. pose proof (zget_Some_range _ _ _ He) as Her.
  assert (forall x, x ∈ pds' <-> x ∈ pds /\ x <> pd) as Hpds'.
  { intros x. unfold pds'. rewrite list_elem_of_filter. tauto. }
  eapply wp_call; [by apply get_env_ok|]. rewrite Hpgd.
  eapply wp_call. { unfold PADDR. destruct (Z.ltb_spec (pd + KERNBASE) KERNBASE); [lia|reflexivity]. }
  eapply wp_call; [by apply upd_env_ok|].
  replace (pd + KERNBASE - KERNBASE) with pd by lia.
  set (s1 := with_envs _ s).
  eapply wp_call; [apply pa2page_ok; [unfold is_u32; lia|rewrite PGNUM_div by (unfold is_u32; lia); simpl; lia]|].
  assert (alloc_ok s1 l) as Hal by (eapply alloc_ok_same; [apply (vo_alloc _ _ _ _ Hvm)|done..]).
  eapply wp_call; [by apply (page_decref_ok s1 l (pd / 4096) (MkPageInfo li 1))|].
  unfold decref_st. simpl (_ =? 1). cbv iota.
  eapply wp_call; [apply upd_env_ok; by apply zget_zset_eq|]. cbn [envs free_st with_envs with_page_free_list with_pages s1].
  eapply wp_gets, wp_call; [apply upd_env_ok; simpl; apply zget_zset_eq; by rewrite !zlen_zset|].
  unfold wp, modify. simpl. rewrite !zset_zset_eq. split_and!; try done.
  split; simpl.
  - eapply (vm_ok_freepd s l pds pds' _ pd); try done. unfold kex. rewrite decide_False; [done|].
    intros E. destruct Hkd as [Hnot _]. apply Hnot.
    replace (kpage s) with (pd / 4096) by exact E. by replace (pd / 4096 * 4096) with pd by zlia.
  - done.
  - destruct Hkd as [A B]. split; [rewrite Hpds'; naive_solver|]. intros pd' i (P1 & P2 & P3).
    apply B. apply Hpds' in P1 as [P1 _]. by unfold has_pt.
  - done.
  - destruct Hcpu as (c & Hc & Hce). exists c. split; [done|]. intros x ->. simpl.
    apply zget_is_Some. rewrite zlen_zset. by apply zget_is_Some, Hce.
  - by eapply (envs_ok_free _ _ _ pds pds' e env pd).
Qed.

Lemma curenv_ok s : cpu_ok s -> exists c, curenv s = Ret c s /\ zget (cpu_env s) (this_cpu s) = Some c.
Proof. intros (c & Hc & _). exists c. unfold curenv. exec. by rewrite Hc. Qed.


(** ** Environment ids *)

Lemma ENVX_mod id : ENVX id = id `mod` 1024.
Proof. unfold ENVX, NENV. change (1024 - 1) with (2 ^ 10 - 1). by rewrite land_pow2_mod. Qed.

Lemma land_lnot_low x : Z.land x (Z.lnot (NENV - 1)) = x / 1024 * 1024.
Proof.
  rewrite <-Z.ldiff_land. change (NENV - 1) with (Z.ones 10).
  rewrite Z.ldiff_ones_r, Z.shiftl_mul_pow2, Z.shiftr_div_pow2 by done. done.
Qed.

(** The id of the next environment in slot [e] is positive, names that slot,
    and is larger than every id the slot had before: ids are not reused, so a
    stale id never matches the slot again. *)
Lemma next_env_id_fresh e id id' :
  0 <= e < NENV -> 0 <= id -> next_env_id e id = Some id' ->
  0 < id' < 2147483648 /\ ENVX id' = e /\ id < id'.
Proof.
  unfold next_env_id, NENV. intros He Hid. change (Z.shiftl 1 ENVGENSHIFT) with 4096.
  destruct (Z.ltb_spec 2147483647 (id + 4096)); [done|].
  change 1023 with (NENV - 1). rewrite land_lnot_low.
  destruct (Z.leb_spec ((id + 4096) / 1024 * 1024) 0); [zlia|]. intros [= <-].
  change 1024 with (2 ^ 10). rewrite lor_disjoint_add by (change (2 ^ 10) with 1024; lia).
  rewrite !ENVX_mod. change (2 ^ 10) with 1024. split_and!; zlia.
Qed.

(** ** [env_setup_vm] and [env_alloc] *)

Lemma rdw_copy_words m d sr a :
  rdw (copy_words m d sr) a =
  match list_find (fun i => d + 4 * i = a) (seqZ 0 1024) with
  | Some (_, i) => rdw m (sr + 4 * i)
  | None => rdw m a
  end.
Proof.
  unfold copy_words. generalize (seqZ 0 1024) as ks. induction ks as [|k ks IH]; [done|]. simpl.
  case_decide as E; [subst a; apply rdw_wrw_eq|]. rewrite rdw_wrw_ne by done. rewrite IH.
  by destruct (list_find _ ks) as [[? ?]|].
Qed.

Lemma rdw_copy_in m d sr i : 0 <= i < 1024 -> rdw (copy_words m d sr) (d + 4 * i) = rdw m (sr + 4 * i).
Proof.
  intros Hi. rewrite rdw_copy_words. destruct (list_find _ _) as [[k j]|] eqn:E.
  - apply list_find_Some in E as (_ & E & _). by replace j with i by lia.
  - apply list_find_None in E. rewrite list.Forall_forall in E. exfalso.
    apply (E i); [apply elem_of_seqZ; lia|done].
Qed.

Lemma rdw_copy_out m d sr a : (forall k, 0 <= k < 1024 -> a <> d + 4 * k) ->
  rdw (copy_words m d sr) a = rdw m a.
Proof.
  intros Hout. rewrite rdw_copy_words. destruct (list_find _ _) as [[k j]|] eqn:E; [|done].
  apply list_find_Some in E as (Hk & E & _). exfalso.
  assert (j ∈ seqZ 0 1024) as Hj%elem_of_seqZ by (by eapply list_elem_of_lookup_2).
  apply (Hout j); [lia|done].
Qed.

(** The memory [env_setup_vm] builds for a directory in page [p]. *)
Definition setup_mem (s : kstate) (p : Z) : gmap Z Z :=
  wrw (copy_words (fillw (mem s) (page_words (p * 4096)) 0) (p * 4096) (kpage s * 4096))
    (p * 4096 + 4 * PDX UVPT) (Z.lor (Z.lor (p * 4096) PTE_P) PTE_U).

#[local] Opaque copy_words fillw page_words.

Section SetupVm.
Context (s : kstate) (p : Z) (l pds efl : list Z) (Hk : kern_ok s (p :: l) pds efl).

Lemma setup_p : 0 <= p < 65536 /\ p <> kpage s /\ page_ref s p = Some 0 /\ 0 <= p < npages s.
Proof.
  pose proof (ko_vm _ _ _ _ Hk) as Hvm.
  pose proof (vm_free_ref Hvm p (list_elem_of_here _ _)) as Hr.
  destruct (vm_page_bound Hvm _ _ Hr). split_and!; try done; try lia.
  intros ->. by apply (ko_kp_used _ _ _ _ Hk), list_elem_of_here.
Qed.

Lemma setup_out a : (forall k, 0 <= k < 1024 -> a <> p * 4096 + 4 * k) ->
  rdw (setup_mem s p) a = rdw (mem s) a.
Proof.
  intros H. unfold setup_mem. rewrite rdw_wrw_ne.
  - rewrite rdw_copy_out by done. apply rdw_fillw_out. intros (k & Hk' & E)%elem_of_page_words.
    by apply (H k).
  - intros E. by apply (H (PDX UVPT)).
Qed.

Lemma setup_in i : 0 <= i < 1024 -> i <> PDX UVPT ->
  rdw (setup_mem s p) (p * 4096 + 4 * i) = rdw (mem s) (kpage s * 4096 + 4 * i).
Proof.
  intros Hi Hne. unfold setup_mem. rewrite rdw_wrw_ne by lia. rewrite rdw_copy_in by done.
  apply rdw_fillw_out. intros (k & Hk' & E)%elem_of_page_words.
  apply entry_inj in E as [E _]; [|zlia|zlia|done|done]. destruct setup_p as (_ & Hp & _). lia.
Qed.

Lemma setup_zero i : 0 <= i < NUPDE -> has (rdw (setup_mem s p) (p * 4096 + 4 * i)) PTE_P = false.
Proof.
  intros Hi. pose proof Hi as Hi'. unfold NUPDE in Hi'. change (PDX UVPT) with 957 in *.
  rewrite setup_in; [by apply (ko_kzero _ _ _ _ Hk)|lia|change (PDX UVPT) with 957; lia].
Qed.

Lemma setup_word a : is_u32 (rdw (setup_mem s p) a).
Proof.
  pose proof (vo_word _ _ _ _ (ko_vm _ _ _ _ Hk)) as Hw. destruct setup_p as (Hp & _ & _).
  unfold setup_mem. destruct (decide (p * 4096 + 4 * PDX UVPT = a)) as [<-|].
  - rewrite rdw_wrw_eq, <-Z.lor_assoc. rewrite lor_flags by (done || by_vm).
    change (Z.lor PTE_P PTE_U) with 5. unfold is_u32. lia.
  - rewrite rdw_wrw_ne by done. rewrite rdw_copy_words.
    assert (forall b, is_u32 (rdw (fillw (mem s) (page_words (p * 4096)) 0) b)) as Hf.
    { intros b. destruct (decide (b ∈ page_words (p * 4096))); [by rewrite rdw_fillw_in|].
      by rewrite rdw_fillw_out. }
    by destruct (list_find _ _) as [[? ?]|].
Qed.

(** The state after [env_setup_vm e]. *)
Definition setup_st (e : Z) (env : Env) : kstate :=
  with_mem (setup_mem s p) (with_envs (zset (envs s) e (with_env_pgdir (p * 4096 + KERNBASE) env))
    (with_page_free_list (head l) (with_pages (zset (pages s) p (MkPageInfo None 1)) s))).

Lemma env_setup_vm_ok e env :
  zget (envs s) e = Some env -> env_setup_vm e s = Ret 0 (setup_st e env).
Proof.
  intros He. destruct setup_p as (Hp & Hne & Hr & Hpn). pose proof (ko_vm _ _ _ _ Hk) as Hvm.
  pose proof (vm_npages Hvm) as Hn. unfold env_setup_vm.
  exec_by (page_alloc_cons s 1 p l (vo_alloc _ _ _ _ Hvm)).
  destruct (vm_ok_alloc _ _ _ _ _ 1 Hvm) as (_ & _ & _ & _ & Hg & _).
  exec_by (page_incref_ok _ p _ Hg). simpl pp_link. simpl pp_ref. change (u16 (0 + 1)) with 1.
  set (s1 := with_pages _ _).
  assert (pages s1 = zset (pages s) p (MkPageInfo None 1)) as Epg.
  { change (pages s1) with (zset (pages (alloc_st 1 p l s)) p (MkPageInfo None 1)).
    by rewrite alloc_st_pages, zset_zset_eq. }
  exec_by (page2kva_ok s1 p Hpn Hn). exec_by (upd_env_ok s1 e env (with_env_pgdir (p * 4096 + KERNBASE)) He).
  exec. change (kern_pgdir (with_envs _ s1)) with (kern_pgdir s).
  destruct (ko_kp _ _ _ _ Hk) as [Ekp Hkp]. rewrite Ekp. unfold memcpy_page.
  destruct (Z.ltb_spec (p * 4096 + KERNBASE) KERNBASE); [lia|].
  destruct (Z.ltb_spec (kpage s * 4096 + KERNBASE) KERNBASE); [lia|]. simpl orb. cbv iota. exec.
  unfold PADDR. destruct (Z.ltb_spec (p * 4096 + KERNBASE) KERNBASE); [lia|]. exec.
  replace (p * 4096 + KERNBASE - KERNBASE) with (p * 4096) by lia.
  replace (kpage s * 4096 + KERNBASE - KERNBASE) with (kpage s * 4096) by lia.
  replace (p * 4096 + KERNBASE + 4 * PDX UVPT) with (p * 4096 + 4 * PDX UVPT + KERNBASE) by lia.
  pose proof (PDX_range UVPT). rewrite (bind_Ret _ _ _ _ _ (st32_ok _ (p * 4096 + 4 * PDX UVPT) _ ltac:(lia))).
  unfold mret, M_ret, setup_st, setup_mem. rewrite <-Epg. subst s1. reflexivity.
Qed.
End SetupVm.

(** Taking environment [e] off the free list for a new directory [pd]. *)
Lemma envs_ok_alloc es fl efl pds e env env' pd :
  envs_ok es fl (e :: efl) pds -> zget es e = Some env -> pd ∉ pds ->
  live env' -> env_pgdir env' = pd + KERNBASE -> 0 < env_id env' < 2147483648 ->
  ENVX (env_id env') = e ->
  envs_ok (zset es e env') (env_link env) efl (pd :: pds).
Proof.
  intros [Hlen Hch Hnd Hfree Hid Hpg Hown Hpds] He Hfresh Hlive Hpgd Hid' Hx'.
  pose proof (zget_Some_range _ _ _ He) as Hr. apply list.NoDup_cons in Hnd as [Hni Hnd].
  destruct Hch as (-> & env0 & He0 & Hch). rewrite He in He0. injection He0 as <-.
  assert (forall x xe, zget (zset es e env') x = Some xe ->
    (x = e /\ xe = env') \/ (x <> e /\ zget es x = Some xe)) as Hcase.
  { intros x xe Hx. rewrite zget_zset in Hx. case_decide as D; [left; naive_solver|right].
    split; [|done]. intros ->. by apply D. }
  assert (forall x xe, zget es x = Some xe -> live xe -> env_pgdir xe <> pd + KERNBASE) as Hne.
  { intros x xe Hx Hl E. destruct (Hpg _ _ Hx Hl) as (q & Hq & Hin). apply Hfresh.
    by replace pd with q by lia. }
  split.
  - by rewrite zlen_zset.
  - by apply echain_zset.
  - done.
  - intros x xe [[-> ->]|[Hxe Hx]]%Hcase; [tauto|]. rewrite <-(Hfree _ _ Hx), elem_of_cons. tauto.
  - intros x xe [[-> ->]|[Hxe Hx]]%Hcase; [|by apply Hid]. split_and!; [lia..|by right|lia].
  - intros x xe [[-> ->]|[Hxe Hx]]%Hcase Hl.
    + exists pd. split; [done|]. apply list_elem_of_here.
    + destruct (Hpg _ _ Hx Hl) as (q & Hq & Hin). exists q. split; [done|]. by apply list_elem_of_further.
  - intros x xe y ye [[-> ->]|[_ Hx]]%Hcase [[-> ->]|[_ Hy]]%Hcase Hl1 Hl2 E; try done.
    + exfalso. apply (Hne _ _ Hy Hl2). congruence.
    + exfalso. apply (Hne _ _ Hx Hl1). congruence.
    + by eapply Hown.
  - intros q [->|Hq]%elem_of_cons.
    + exists e, env'. by rewrite zget_zset_eq.
    + destruct (Hpds _ Hq) as (x & xe & Hx & Hl & Hxq). exists x, xe. split_and!; try done.
      rewrite zget_zset_ne; [done|]. intros <-. rewrite He in Hx. injection Hx as <-.
      apply (Hfree _ _ He); [apply list_elem_of_here|done].
Qed.

(** What [env_alloc] stores in the slot. *)
Definition new_env (id parent_id pgdir : Z) (env : Env) : Env :=
  with_env_ipc_recving false (with_env_pgfault_upcall 0 (with_env_tf new_env_tf (with_env_runs 0
    (with_env_status ENV_RUNNABLE (with_env_type ENV_TYPE_USER (with_env_parent_id parent_id
      (with_env_id id (with_env_pgdir pgdir env)))))))).

Lemma exec_upd_env {B} s e f env (k : unit -> M kstate B) :
  zget (envs s) e = Some env ->
  (upd_env e f ≫= k) s = k tt (with_envs (zset (envs s) e (f env)) s).
Proof. intros H. by rewrite (bind_Ret _ _ _ _ _ (upd_env_ok s e env f H)). Qed.

Lemma env_alloc_run s p l pds e efl env id parent_id :
  kern_ok s (p :: l) pds (e :: efl) -> zget (envs s) e = Some env ->
  next_env_id e (env_id env) = Some id ->
  env_alloc parent_id s = Ret (0, Some e)
    (with_env_free_list (env_link env) (with_envs
      (zset (envs s) e (new_env id parent_id (p * 4096 + KERNBASE) env)) (setup_st s p l e env))).
Proof.
  intros Hk He Hid. pose proof (zget_Some_range _ _ _ He) as Hr.
  destruct (eo_chain _ _ _ _ (ko_env _ _ _ _ Hk)) as (Hfl & _).
  unfold env_alloc. exec. rewrite Hfl. exec_by (env_setup_vm_ok s p l pds (e :: efl) Hk e env He).
  cbn [Z.ltb Z.compare].
  set (s1 := setup_st s p l e env).
  assert (zget (envs s1) e = Some (with_env_pgdir (p * 4096 + KERNBASE) env)) as He1
    by by apply zget_zset_eq.
  pose proof (zget_Some_range _ _ _ He1) as Hr1.
  exec_by (get_env_ok s1 e _ He1). change (env_id (with_env_pgdir _ env)) with (env_id env). rewrite Hid.
  simpl deref. exec. erewrite (exec_upd_env s1) by exact He1. cbv beta.
  do 7 (erewrite exec_upd_env; [cbv beta|cbn [envs with_envs]; apply zget_zset_eq; rewrite ?zlen_zset; exact Hr1]).
  erewrite bind_Ret; [cbv beta|apply get_env_ok; cbn [envs with_envs]; apply zget_zset_eq; rewrite ?zlen_zset; exact Hr1].
  exec. unfold mret, M_ret. cbn [envs with_envs]. rewrite !zset_zset_eq.
  unfold s1, setup_st. cbn [envs with_envs with_mem]. rewrite !zset_zset_eq. reflexivity.
Qed.

Lemma env_alloc_kern_ok s p l pds e efl env env' :
  kern_ok s (p :: l) pds (e :: efl) -> zget (envs s) e = Some env -> live env' ->
  env_pgdir env' = p * 4096 + KERNBASE -> 0 < env_id env' < 2147483648 -> ENVX (env_id env') = e ->
  kern_ok (with_env_free_list (env_link env) (with_envs (zset (envs s) e env') (setup_st s p l e env)))
    l (p * 4096 :: pds) efl.
Proof.
  intros Hk He Hlive Hpgd Hid Hidx. pose proof (ko_vm _ _ _ _ Hk) as Hvm.
  destruct (setup_p s p l pds (e :: efl) Hk) as (Hp & Hpk & Hpr & Hpn).
  destruct (vm_free_apart _ _ _ _ p Hvm (list_elem_of_here _ _)) as (Hfresh & Hpt & _).
  pose proof (setup_zero s p l pds (e :: efl) Hk) as Hz.
  split.
  - eapply (vm_ok_newpd s l pds _ p (setup_mem s p)); try done; [apply setup_out|].
    by apply (setup_word s p l pds (e :: efl)).
  - apply (ko_kp _ _ _ _ Hk).
  - destruct (ko_kdata _ _ _ _ Hk) as [A B]. split.
    + apply not_elem_of_cons. split; [|done]. change (kpage s * 4096 <> p * 4096). lia.
    + intros pd i. cbn [mem with_env_free_list with_envs setup_st with_mem].
      rewrite (newpd_has_pt s l pds (kex s) p) by (done || apply setup_out).
      intros Hpt'. rewrite (newpd_pde s l pds (kex s) p) by (done || apply setup_out). by apply B.
  - intros i Hi. cbn [mem with_env_free_list with_envs setup_st with_mem].
    match goal with |- context [kpage ?x] => change (kpage x) with (kpage s) end.
    rewrite setup_out; [by apply (ko_kzero _ _ _ _ Hk)|].
    intros k Hk' E. unfold NUPDE in Hi. apply entry_inj in E as [E _]; [lia|zlia|zlia|lia|done].
  - destruct (ko_cpu _ _ _ _ Hk) as (c & Hc & Hce). exists c. split; [done|]. intros x ->. simpl.
    apply zget_is_Some. rewrite zlen_zset. by apply zget_is_Some, Hce.
  - eapply (envs_ok_alloc _ (env_free_list s)); [apply (ko_env _ _ _ _ Hk)|done..].
Qed.

Lemma stale_id_rejected s id env chk :
  cpu_ok s -> id <> 0 -> zget (envs s) (ENVX id) = Some env -> env_id env <> id ->
  envid2env id chk s = Ret (- E_BAD_ENV, None) s.
Proof.
  intros Hcpu Hne He Hid. destruct (curenv_ok s Hcpu) as (c & Hc & _). unfold envid2env.
  exec_by Hc. destruct (Z.eqb_spec id 0); [done|]. exec_by (get_env_ok s _ _ He).
  destruct (Z.eqb_spec (env_id env) id); [done|]. by rewrite orb_true_r.
Qed.

(** [env_alloc] fails with [-E_NO_FREE_ENV] exactly when no environment is
    free and with [-E_NO_MEM] exactly when no page is free, changing nothing;
    otherwise the first free slot becomes a runnable child of [parent_id] with a
    new id, clean registers and an empty user address space of its own, the old id
    of the slot is rejected by [envid2env], no other environment or mapping changes
    and the kernel invariant holds. *)
Theorem env_alloc_correct s l pds efl parent_id :
  kern_ok s l pds efl ->
  (forall e env, zget (envs s) e = Some env -> env_id env + 4096 <= 2147483647) ->
  match efl, l with
  | [], _ => env_alloc parent_id s = Ret (- E_NO_FREE_ENV, None) s
  | e :: _, [] => env_alloc parent_id s = Ret (- E_NO_MEM, None) s
  | e :: efl', p :: l' => exists env env' s',
      zget (envs s) e = Some env /\ env_alloc parent_id s = Ret (0, Some e) s' /\
      kern_ok s' l' (p * 4096 :: pds) efl' /\ envs s' = zset (envs s) e env' /\
      env_id env < env_id env' /\ ENVX (env_id env') = e /\ env_parent_id env' = parent_id /\
      env_status env' = ENV_RUNNABLE /\ env_tf env' = new_env_tf /\
      env_pgdir env' = p * 4096 + KERNBASE /\
      views_eq pds (mem s) (mem s') /\
      (forall i j, user_slot i j -> vlookup (mem s') (p * 4096) i j = None) /\
      (forall chk, env_id env <> 0 -> envid2env (env_id env) chk s' = Ret (- E_BAD_ENV, None) s')
  end.
Proof.
  intros Hk Hov. pose proof (ko_env _ _ _ _ Hk) as Henv. destruct efl as [|e efl].
  { unfold env_alloc. exec. by rewrite (eo_chain _ _ _ _ Henv). }
  destruct (eo_chain _ _ _ _ Henv) as (Hfl & env & He & _).
  destruct l as [|p l].
  { unfold env_alloc. exec. rewrite Hfl. unfold env_setup_vm. exec.
    by exec_by (page_alloc_nil s 1 (vo_alloc _ _ _ _ (ko_vm _ _ _ _ Hk))). }
  pose proof (zget_Some_range _ _ _ He) as Hr. rewrite (eo_len _ _ _ _ Henv) in Hr.
  destruct (eo_id _ _ _ _ Henv _ _ He) as (Hid & Hidx & _).
  specialize (Hov _ _ He).
  assert (exists id, next_env_id e (env_id env) = Some id) as [id Hnext].
  { unfold next_env_id. change (Z.shiftl 1 ENVGENSHIFT) with 4096.
    destruct (Z.ltb_spec 2147483647 (env_id env + 4096)); [lia|eauto]. }
  destruct (next_env_id_fresh e (env_id env) id Hr ltac:(lia) Hnext) as (Hidb & Hide & Hlt).
  destruct (newpd_views s l pds _ p (setup_mem s p) (ko_vm _ _ _ _ Hk) (setup_out s p) (setup_zero s p l pds (e :: efl) Hk))
    as [Hv1 Hv2].
  exists env, (new_env id parent_id (p * 4096 + KERNBASE) env).
  set (s' := with_env_free_list (env_link env) (with_envs (zset (envs s) e
    (new_env id parent_id (p * 4096 + KERNBASE) env)) (setup_st s p l e env))).
  assert (kern_ok s' l (p * 4096 :: pds) efl) as Hk' by by apply env_alloc_kern_ok.
  exists s'. split_and!; try done.
  - by apply (env_alloc_run s p l pds e efl env id).
  - intros chk Hne. destruct Hidx as [?|Hidx]; [done|].
    eapply stale_id_rejected; [apply (ko_cpu _ _ _ _ Hk')|done| |].
    + rewrite Hidx. apply zget_zset_eq. by rewrite (eo_len _ _ _ _ Henv).
    + simpl. lia.
Qed.

(** ** Instances *)

(** The address space of [ex_vm], owned by environment 0, which is running; the
    other environments are free.  Page 0 is the kernel's directory. *)
Definition ex_envs : list Env :=
  with_env_pgdir (4096 + KERNBASE) (with_env_id 4096 (with_env_status ENV_RUNNING zero_env)) ::
  ((fun i => with_env_link (if i =? 1023 then None else Some (i + 1)) zero_env) <$> seqZ 1 1023).

Definition ex_kern : kstate :=
  with_kern_pgdir KERNBASE (with_envs ex_envs (with_env_free_list (Some 1)
    (with_cpu_env [Some 0] ex_vm))).

Lemma ex_envs_get e env : zget ex_envs e = Some env ->
  (e = 0 /\ env = with_env_pgdir (4096 + KERNBASE) (with_env_id 4096 (with_env_status ENV_RUNNING zero_env))) \/
  (1 <= e < 1024 /\ env = with_env_link (if e =? 1023 then None else Some (e + 1)) zero_env).
Proof.
  unfold zget, ex_envs. case_match; [|done]. rewrite lookup_cons.
  destruct (Z.to_nat e) as [|n] eqn:En.
  - intros [= <-]. left. split; [lia|done].
  - rewrite list_lookup_fmap.
    intros (i & Hi & ->)%fmap_Some. apply lookup_seqZ in Hi as [-> Hn]. right.
    replace (1 + Z.of_nat n) with e by lia. split; [lia|done].
Qed.

Lemma ex_envs_free e : 1 <= e < 1024 ->
  zget ex_envs e = Some (with_env_link (if e =? 1023 then None else Some (e + 1)) zero_env).
Proof.
  intros He. destruct (zget_in_range ex_envs e) as [env Henv].
  { change (zlen ex_envs) with 1024. lia. }
  rewrite Henv. destruct (ex_envs_get _ _ Henv) as [[? _]|[_ ->]]; [lia|done].
Qed.

Lemma ex_echain n a : 1 <= a -> a + Z.of_nat n = 1024 ->
  echain ex_envs (if a =? 1024 then None else Some a) (seqZ a (Z.of_nat n)).
Proof.
  revert a. induction n as [|n IH]; intros a Ha Hn.
  - replace a with 1024 by lia. done.
  - rewrite seqZ_cons by lia. destruct (Z.eqb_spec a 1024); [lia|]. split; [done|].
    eexists. split; [apply ex_envs_free; lia|]. cbn [env_link with_env_link].
    specialize (IH (a + 1) ltac:(lia) ltac:(lia)).
    replace (Z.pred (Z.of_nat (S n))) with (Z.of_nat n) by lia.
    destruct (Z.eqb_spec a 1023), (Z.eqb_spec (a + 1) 1024); try lia; exact IH.
Qed.

Lemma ex_envs_ok : envs_ok ex_envs (Some 1) (seqZ 1 1023) [4096].
Proof.
  split.
  - by_vm.
  - exact (ex_echain 1023 1 ltac:(lia) ltac:(lia)).
  - apply NoDup_seqZ.
  - intros e env [[-> ->]|[He ->]]%ex_envs_get; rewrite elem_of_seqZ; unfold live; simpl; [|lia || tauto].
    + split; [lia|]. intros H. by destruct H.
  - intros e env [[-> ->]|[He ->]]%ex_envs_get; unfold live; simpl; split_and!; auto with lia.
  - intros e env [[-> ->]|[He ->]]%ex_envs_get Hl; [|by destruct Hl]. exists 4096. split; [done|].
    apply list_elem_of_here.
  - intros e env e' env' [[-> ->]|[He ->]]%ex_envs_get [[-> ->]|[He' ->]]%ex_envs_get Hl Hl' _;
      [done|by destruct Hl'|by destruct Hl..].
  - intros pd ->%list_elem_of_singleton. eexists 0, _. by split.
Qed.

Lemma ex_kern_ok : kern_ok ex_kern [4; 5; 6] [4096] (seqZ 1 1023).
Proof.
  split.
  - destruct ex_vm_ok as [H1 H2 H3 H4 H5 H6 H7 H8 H9 H10 H11]. split; try done.
    + apply (alloc_ok_same ex_vm); done.
    + intros t. unfold kex. case_decide; lia.
    + intros t r xs Hr Hnd Hxs. pose proof (H11 t r xs Hr Hnd Hxs) as Hc. unfold kex.
      case_decide as E; [|done]. change (kpage ex_kern) with 0 in E. subst t.
      destruct xs as [|x xs]; [vm_compute in Hr; injection Hr as <-; by_vm|].
      apply (ex_vm_maps x 0) in Hxs as [_ ?]; [done|apply list_elem_of_here].
  - by_vm.
  - split; [by intros ?%list_elem_of_singleton|]. intros pd i [-> ->]%ex_vm_has_pt. done.
  - intros i Hi. change (mem ex_kern) with (mem ex_vm). rewrite ex_vm_word.
    change (kpage ex_kern) with 0. unfold NUPDE in Hi. repeat case_decide; try lia. done.
  - exists (Some 0). split; [done|]. intros e [= <-]. eexists. done.
  - apply ex_envs_ok.
Qed.


Lemma env_alloc_correct_witness :
  exists env env' s',
    zget (envs ex_kern) 1 = Some env /\ env_alloc 4096 ex_kern = Ret (0, Some 1) s' /\
    kern_ok s' [5; 6] [16384; 4096] (seqZ 2 1022) /\ envs s' = zset (envs ex_kern) 1 env' /\
    env_id env < env_id env' /\ ENVX (env_id env') = 1 /\ env_parent_id env' = 4096 /\
    env_status env' = ENV_RUNNABLE /\ env_tf env' = new_env_tf /\
    env_pgdir env' = 4 * 4096 + KERNBASE /\
    views_eq [4096] (mem ex_kern) (mem s') /\
    (forall i j, user_slot i j -> vlookup (mem s') 16384 i j = None) /\
    (forall chk, env_id env <> 0 -> envid2env (env_id env) chk s' = Ret (- E_BAD_ENV, None) s').
Proof.
  refine (env_alloc_correct ex_kern [4; 5; 6] [4096] (1 :: seqZ 2 1022) 4096 ex_kern_ok _).
  intros e env [[-> ->]|[He ->]]%ex_envs_get; simpl; lia.
Defined.
