(* ===== verification/Sched.v ===== *)
(** * Access to environments and round-robin scheduling
    ([envid2env] and [env_run] of [oslab6/kern/env.c], [oslab6/kern/sched.c]) *)
From S2P Require Import Prelude.
From S2P Require Import Mmu.
From S2P Require Import KState.
From S2P Require Import Pmap.
From S2P Require Import PageTable.
From S2P Require Import AddrSpace.
From S2P Require Import VmLife.
From S2P Require Import Env.
From S2P Require Import EnvFree.
From S2P Require Import EnvInv.

(** ** [envid2env] *)

(** Environment [e] is the one [id] names, and the current environment [c] may
    manipulate it when [chk] is set. *)
Definition accessible (s : kstate) (c id : Z) (chk : bool) (e : Z) : Prop :=
  exists env cenv, zget (envs s) e = Some env /\ zget (envs s) c = Some cenv /\
    ((id = 0 /\ e = c) \/
     (id <> 0 /\ e = ENVX id /\ live env /\ env_id env = id /\
      (chk = false \/ e = c \/ env_parent_id env = env_id cenv))).

Lemma envid2env_cases s l pds efl c id chk :
  kern_ok s l pds efl -> zget (cpu_env s) (this_cpu s) = Some (Some c) ->
  (exists e, envid2env id chk s = Ret (0, Some e) s /\ accessible s c id chk e) \/
  (envid2env id chk s = Ret (- E_BAD_ENV, None) s /\ forall e, ~ accessible s c id chk e).
Proof.
  intros Hk Hc. destruct (ko_cpu _ _ _ _ Hk) as (c' & Hc' & Hce). rewrite Hc in Hc'. injection Hc' as <-.
  destruct (Hce c eq_refl) as [cenv Hcenv]. unfold envid2env, curenv, accessible. exec. rewrite Hc.
  simpl deref. exec. destruct (Z.eqb_spec id 0) as [->|Hid].
  { left. exists c. split; [done|]. exists cenv, cenv. auto. }
  assert (0 <= ENVX id < NENV) as Hx by (rewrite ENVX_mod; unfold NENV; zlia).
  rewrite <-(eo_len _ _ _ _ (ko_env _ _ _ _ Hk)) in Hx. destruct (zget_in_range _ _ Hx) as [env Henv].
  exec_by (get_env_ok s _ _ Henv).
  destruct (bool_decide (env_status env = ENV_FREE) || negb (env_id env =? id)) eqn:E.
  { right. split; [done|]. intros e (env' & ? & He & _ & [[? _]|(_ & -> & Hl & Hi & _)]); [done|].
    rewrite Henv in He. injection He as <-. apply orb_true_iff in E as [E|E].
    - apply bool_decide_eq_true in E. done.
    - lia. }
  apply orb_false_iff in E as [E1 E2]. apply bool_decide_eq_false in E1.
  assert (env_id env = id) as Ei by lia.
  destruct chk; cbn [andb]; cycle 1.
  { left. exists (ENVX id). split; [done|]. exists env, cenv. do 2 (split; [done|]). right. unfold live. tauto. }
  case_bool_decide as Ec; cbn [negb].
  { left. exists (ENVX id). split; [done|]. injection Ec as Ec. symmetry in Ec. exists env, cenv. do 2 (split; [done|]). right. unfold live. tauto. }
  simpl deref. exec. exec_by (get_env_ok s _ _ Hcenv).
  destruct (Z.eqb_spec (env_parent_id env) (env_id cenv)) as [Ep|Ep]; cbn [negb].
  - left. exists (ENVX id). split; [done|]. exists env, cenv. do 2 (split; [done|]). right. unfold live. tauto.
  - right. split; [done|]. intros e (env' & cenv' & He & Hc' & [[? _]|(_ & -> & _ & _ & Hor)]); [done|].
    rewrite Henv in He. injection He as <-. rewrite Hcenv in Hc'. injection Hc' as <-. naive_solver.
Qed.

(** C7: [envid2env] leaves the state alone; it answers 0 with an environment
    that [id] names, that is live, and that is, when the permission is checked,
    the current environment or one of its children; and it answers [-E_BAD_ENV]
    only when there is no such environment. *)
Theorem envid2env_correct s l pds efl c id chk :
  kern_ok s l pds efl -> zget (cpu_env s) (this_cpu s) = Some (Some c) ->
  (exists e, envid2env id chk s = Ret (0, Some e) s /\ accessible s c id chk e) \/
  (envid2env id chk s = Ret (- E_BAD_ENV, None) s /\ forall e, ~ accessible s c id chk e).
Proof. apply envid2env_cases. Qed.

(** ** [env_run] *)

(** The table when [c] stops running. *)
Definition yield_env (c : option Z) (es : list Env) : list Env :=
  match c with
  | Some c => match zget es c with
              | Some env => if bool_decide (env_status env = ENV_RUNNING)
                            then zset es c (with_env_status ENV_RUNNABLE env) else es
              | None => es
              end
  | None => es
  end.

Definition run_env (cpu : Z) (env : Env) : Env :=
  with_env_cpunum cpu (with_env_runs (u32 (env_runs env + 1)) (with_env_status ENV_RUNNING env)).

(** The state in which [env_run e] enters user mode. *)
Definition run_st (s : kstate) (c : option Z) (e pd : Z) : kstate :=
  let es := yield_env c (envs s) in
  with_kernel_lock false (with_cr3 pd
    (with_envs (match zget es e with Some env => zset es e (run_env (this_cpu s) env) | None => es end)
      (with_cpu_env (zset (cpu_env s) (this_cpu s) (Some e)) s))).

Lemma yield_env_get c es e env : zget es e = Some env ->
  exists env', zget (yield_env c es) e = Some env' /\ env_pgdir env' = env_pgdir env /\
    zlen (yield_env c es) = zlen es.
Proof.
  intros He. unfold yield_env. destruct c as [c|]; [|eauto]. destruct (zget es c) as [cenv|] eqn:Hc; [|eauto].
  case_bool_decide; [|eauto]. rewrite zlen_zset. destruct (decide (c = e)) as [->|].
  - rewrite zget_zset_eq by (by eapply zget_Some_range). rewrite Hc in He. injection He as ->. eauto.
  - rewrite zget_zset_ne by done. eauto.
Qed.

Lemma env_run_ok s c e env pd :
  zget (cpu_env s) (this_cpu s) = Some c -> (forall x, c = Some x -> is_Some (zget (envs s) x)) ->
  zget (envs s) e = Some env -> env_pgdir env = pd + KERNBASE -> 0 <= pd -> kernel_lock s = true ->
  env_run e s = Leave (run_st s c e pd).
Proof.
  intros Hc Hce He Hpgd Hpd Hlk. destruct (yield_env_get c _ _ _ He) as (env1 & He1 & Hp1 & Hlen).
  unfold env_run, curenv. exec. rewrite Hc. simpl deref. exec.
  assert ((match c with
   | None => mret tt
   | Some c => cenv ← get_env c;
       when (bool_decide (env_status cenv = ENV_RUNNING)) (upd_env c (with_env_status ENV_RUNNABLE))
   end) s = Ret tt (with_envs (yield_env c (envs s)) s)) as Hy.
  { destruct c as [c|]; [|by destruct s]. destruct (Hce c eq_refl) as [cenv Hcenv].
    exec_by (get_env_ok s _ _ Hcenv). unfold yield_env. rewrite Hcenv.
    case_bool_decide; [by apply upd_env_ok|by destruct s]. }
  exec_by Hy. set (s1 := with_envs _ s). unfold set_curenv, curenv. exec.
  change (zget (cpu_env s1) (this_cpu s1)) with (zget (cpu_env s) (this_cpu s)). rewrite Hc.
  simpl deref. exec. set (s2 := with_cpu_env _ s1).
  pose proof (zget_Some_range _ _ _ He1) as Hr1.
  rewrite (exec_upd_env s2 e _ env1) by exact He1. cbn [envs s2 with_cpu_env s1 with_envs].
  erewrite exec_upd_env by (cbn [envs with_envs]; apply zget_zset_eq; exact Hr1).
  cbn [envs with_envs]. rewrite zset_zset_eq.
  erewrite bind_Ret; [cbv beta|apply get_env_ok; cbn [envs with_envs]; by apply zget_zset_eq].
  cbn [env_pgdir with_env_runs with_env_status]. rewrite Hp1, Hpgd. unfold PADDR.
  destruct (Z.ltb_spec (pd + KERNBASE) KERNBASE); [lia|]. exec. unfold lcr3. exec.
  replace (pd + KERNBASE - KERNBASE) with pd by lia. unfold unlock_kernel. exec.
  cbn [kernel_lock with_cr3 with_envs s2 with_cpu_env s1]. rewrite Hlk. exec.
  unfold env_pop_tf, curenv. exec.
  cbn [cpu_env this_cpu with_kernel_lock with_cr3 with_envs s2 with_cpu_env s1].
  rewrite zget_zset_eq by (by eapply zget_Some_range). simpl deref. exec. simpl deref. exec.
  erewrite exec_upd_env by (cbn [envs with_envs with_kernel_lock with_cr3 s2 with_cpu_env s1]; by apply zget_zset_eq).
  cbn [envs with_envs with_kernel_lock with_cr3 s2 with_cpu_env s1]. rewrite zset_zset_eq.
  unfold leave, run_st. rewrite He1. reflexivity.
Qed.

(** ** [sched_yield] *)

Definition has_status (es : list Env) (st : EnvStatus) (j : Z) : bool :=
  match zget es j with Some env => bool_decide (env_status env = st) | None => false end.
Definition pgdir_pa (es : list Env) (j : Z) : Z :=
  match zget es j with Some env => env_pgdir env - KERNBASE | None => 0 end.

(** Where the search starts. *)
Definition sched_start (es : list Env) (c : option Z) : Z :=
  match c with
  | Some c => match zget es c with Some env => ENVX (env_id env) + 1 | None => 0 end
  | None => 0
  end.

(** The distance from the start to the first runnable environment. *)
Definition sched_pick (es : list Env) (start : Z) : option Z :=
  List.find (fun i => has_status es ENV_RUNNABLE ((start + i) `mod` NENV)) (seqZ 0 NENV).

Lemma find_app {A} (f : A -> bool) xs ys :
  List.find f (xs ++ ys) = match List.find f xs with Some x => Some x | None => List.find f ys end.
Proof. induction xs as [|x xs IH]; [done|]. simpl. by destruct (f x). Qed.

Lemma find_seqZ_first f n i : List.find f (seqZ 0 n) = Some i ->
  0 <= i < n /\ f i = true /\ forall k, 0 <= k < i -> f k = false.
Proof.
  intros H. pose proof (List.find_some _ _ H) as [Hin Hf].
  rewrite <-list_elem_of_In, elem_of_seqZ in Hin. split; [lia|]. split; [done|]. intros k Hk.
  destruct (f k) eqn:E; [|done]. exfalso.
  assert (seqZ 0 n = seqZ 0 k ++ k :: seqZ (k + 1) (n - k - 1)) as Hs.
  { replace n with (k + (n - k)) at 1 by lia. rewrite seqZ_app by lia.
    by rewrite Z.add_0_l, (seqZ_cons k (n - k)) by lia. }
  destruct (List.find f (seqZ 0 k)) as [k'|] eqn:Ek.
  - rewrite Hs, find_app, Ek in H. injection H as ->.
    apply List.find_some in Ek as [Hin' _]. rewrite <-list_elem_of_In, elem_of_seqZ in Hin'. lia.
  - rewrite Hs, find_app, Ek in H. simpl in H. rewrite E in H. injection H as ->. lia.
Qed.

Section Yield.
Context (s : kstate) (l pds efl : list Z) (c : option Z).
Context (Hk : kern_ok s l pds efl) (Hc : zget (cpu_env s) (this_cpu s) = Some c).
Context (Hlk : kernel_lock s = true).

Lemma yield_cur x : c = Some x -> is_Some (zget (envs s) x).
Proof. destruct (ko_cpu _ _ _ _ Hk) as (c' & Hc' & H). rewrite Hc in Hc'. injection Hc' as <-. apply H. Qed.

Lemma run_live j env : zget (envs s) j = Some env -> live env ->
  env_run j s = Leave (run_st s c j (pgdir_pa (envs s) j)).
Proof.
  intros Hj Hl. destruct (eo_pgdir _ _ _ _ (ko_env _ _ _ _ Hk) _ _ Hj Hl) as (pd & Hp & Hpd).
  destruct (vm_pd_bound (ko_vm _ _ _ _ Hk) pd Hpd) as [Hb _].
  apply (env_run_ok s c j env); try done; [apply yield_cur|..]; unfold pgdir_pa; rewrite Hj; lia.
Qed.

Lemma sched_loop start ks :
  for_each ks (fun i =>
    let j := (start + i) `mod` NENV in
    env ← get_env j;
    when (bool_decide (env_status env = ENV_RUNNABLE)) (env_run j)) s
  = match List.find (fun i => has_status (envs s) ENV_RUNNABLE ((start + i) `mod` NENV)) ks with
    | Some i => let j := (start + i) `mod` NENV in Leave (run_st s c j (pgdir_pa (envs s) j))
    | None => Ret tt s
    end.
Proof.
  induction ks as [|i ks IH]; [done|]. cbn [for_each List.find]. exec.
  set (j := (start + i) `mod` NENV).
  assert (0 <= j < zlen (envs s)) as Hr.
  { rewrite (eo_len _ _ _ _ (ko_env _ _ _ _ Hk)). unfold j, NENV. zlia. }
  destruct (zget_in_range _ _ Hr) as [env Hj]. exec_by (get_env_ok s j env Hj).
  unfold has_status at 1. rewrite Hj. case_bool_decide as E; cbn [when].
  - apply bind_Leave, (run_live j env Hj). unfold live. by rewrite E.
  - exec. apply IH.
Qed.
End Yield.

(** C8: [sched_yield] is round-robin: it runs the first runnable environment in
    circular order after the current one; with none it keeps running the current
    environment if that is still running; it never picks an environment that is
    running on another CPU.  It does not return, and gives up the kernel lock. *)
Theorem sched_yield_round_robin s l pds efl c :
  kern_ok s l pds efl -> zget (cpu_env s) (this_cpu s) = Some c -> kernel_lock s = true ->
  let es := envs s in
  let start := sched_start es c in
  match sched_pick es start with
  | Some i =>
      let j := (start + i) `mod` NENV in
      sched_yield s = Leave (run_st s c j (pgdir_pa es j)) /\
      has_status es ENV_RUNNABLE j = true /\
      forall k, 0 <= k < i -> has_status es ENV_RUNNABLE ((start + k) `mod` NENV) = false
  | None =>
      match c with
      | Some e => if has_status es ENV_RUNNING e then sched_yield s = Leave (run_st s c e (pgdir_pa es e))
                  else sched_yield s = sched_halt s
      | None => sched_yield s = sched_halt s
      end
  end.
Proof.
  intros Hk Hc Hlk es start. unfold sched_yield, curenv. exec. rewrite Hc. simpl deref. exec.
  assert (match c with
          | None => mret 0
          | Some c => cenv ← get_env c; mret (ENVX (env_id cenv) + 1)
          end s = Ret start s) as Hstart.
  { unfold start, sched_start, es. destruct c as [c|]; [|done].
    destruct (yield_cur s l pds efl _ Hk Hc c eq_refl) as [cenv Hcenv].
    exec_by (get_env_ok s _ _ Hcenv). by rewrite Hcenv. }
  exec_by Hstart. pose proof (sched_loop s l pds efl c Hk Hc Hlk start (seqZ 0 NENV)) as Hloop.
  unfold sched_pick, es. destruct (List.find _ (seqZ 0 NENV)) as [i|] eqn:Ef.
  - apply find_seqZ_first in Ef as (Hi & Hr & Hfirst). split; [|done].
    exact (bind_Leave _ _ _ _ Hloop).
  - exec_by Hloop. exec. rewrite Hc. simpl deref. exec. destruct c as [e|]; [|by exec].
    destruct (yield_cur s l pds efl _ Hk Hc e eq_refl) as [env He]. exec.
    exec_by (get_env_ok s _ _ He). unfold has_status. rewrite He. case_bool_decide as E; cbn [when].
    + apply bind_Leave, (run_live s l pds efl _ Hk Hc Hlk e env He). unfold live. by rewrite E.
    + by exec.
Qed.

(** ** Instances *)

Lemma envid2env_correct_witness :
  (exists e, envid2env 4096 true ex_kern = Ret (0, Some e) ex_kern /\ accessible ex_kern 0 4096 true e) \/
  (envid2env 4096 true ex_kern = Ret (- E_BAD_ENV, None) ex_kern /\
   forall e, ~ accessible ex_kern 0 4096 true e).
Proof. exact (envid2env_correct ex_kern _ _ _ 0 4096 true ex_kern_ok eq_refl). Defined.

(** Environment 0 running and environment 1 runnable: environment 1 is next. *)
Definition ex_two : kstate :=
  match env_alloc 4096 ex_kern with Ret _ s' => s' | _ => ex_kern end.

Lemma ex_two_ok : kern_ok ex_two [5; 6] [16384; 4096] (seqZ 2 1022).
Proof.
  pose proof ex_kern_ok as Hk. change (seqZ 1 1023) with (1 :: seqZ 2 1022) in Hk.
  assert (zget (envs ex_kern) 1 = Some (with_env_link (Some 2) zero_env)) as He by (vm_compute; reflexivity).
  pose proof (env_alloc_run ex_kern 4 [5; 6] [4096] 1 (seqZ 2 1022) _ 4097 4096 Hk He eq_refl) as Hrun.
  unfold ex_two. rewrite Hrun. apply env_alloc_kern_ok; [exact Hk|exact He|..]; by_vm || done.
Qed.

Lemma sched_yield_round_robin_witness :
  sched_yield ex_two = Leave (run_st ex_two (Some 0) 1 (pgdir_pa (envs ex_two) 1)) /\
  has_status (envs ex_two) ENV_RUNNABLE 1 = true /\
  forall k, 0 <= k < 0 -> has_status (envs ex_two) ENV_RUNNABLE ((1 + k) `mod` NENV) = false.
Proof.
  pose proof (sched_yield_round_robin ex_two _ _ _ (Some 0) ex_two_ok) as H.
  assert (sched_start (envs ex_two) (Some 0) = 1) as Es by (vm_compute; reflexivity).
  assert (sched_pick (envs ex_two) 1 = Some 0) as Ep by (vm_compute; reflexivity).
  cbv zeta in H. rewrite Es, Ep in H. apply H; vm_compute; reflexivity.
Defined.
