(* ===== verification/Syscall.v ===== *)
(** * System calls and traps of JOS ([oslab6/kern/syscall.c], [trap.c])

    Every system call, the dispatcher, the trap handler and the page-fault upcall,
    composed from the operations of [Pmap], [PageTable] and [Env].  Console output
    has no effect on the kernel state and is left out; the character [cons_getc]
    returns and the monitor's interaction are inputs of the model. *)
From S2P Require Import Prelude.
From S2P Require Import Mmu.
From S2P Require Import KState.
From S2P Require Import Pmap.
From S2P Require Import PageTable.
From S2P Require Import AddrSpace.
From S2P Require Import VmLife.
From S2P Require Import Env.

(** [curenv->f] when [curenv] is dereferenced without a check. *)
Definition cur_env : M kstate Z := c ← curenv; deref c.

(** [e] after [envid2env] returned 0: null is not excluded by the code. *)
Definition sys_cputs (s len : Z) : M kstate unit :=
  c ← cur_env;
  user_mem_assert c s len 0.

Definition sys_getenvid : M kstate Z :=
  c ← cur_env; env ← get_env c; mret (env_id env).

Definition sys_env_destroy (envid : Z) : M kstate Z :=
  '(r, e) ← envid2env envid true;
  if r <? 0 then mret r
  else
    e ← deref e;
    env_destroy e ;;
    mret 0.

Definition sys_yield : M kstate unit := sched_yield.

Definition sys_exofork : M kstate Z :=
  c ← cur_env;
  cenv ← get_env c;
  '(ret, e) ← env_alloc (env_id cenv);
  if ret <? 0 then mret ret
  else
    e ← deref e;
    cenv ← get_env c;
    upd_env e (with_env_tf (env_tf cenv)) ;;
    upd_env e (with_env_status ENV_NOT_RUNNABLE) ;;
    upd_env e (fun env => with_env_tf (with_tf_regs (with_reg_eax 0 (tf_regs (env_tf env))) (env_tf env)) env) ;;
    env ← get_env e;
    mret (env_id env).

(** The numbers of [enum] in [inc/env.h]. *)
Definition status_of (status : Z) : option EnvStatus :=
  if status =? 2 then Some ENV_RUNNABLE
  else if status =? 4 then Some ENV_NOT_RUNNABLE
  else None.

Definition sys_env_set_status (envid status : Z) : M kstate Z :=
  match status_of status with
  | None => mret (- E_INVAL)
  | Some st =>
      '(ret, e) ← envid2env envid true;
      if ret <? 0 then mret ret
      else
        e ← deref e;
        upd_env e (with_env_status st) ;;
        mret 0
  end.

Definition sys_env_set_trapframe (envid tf : Z) : M kstate Z :=
  panic "sys_env_set_trapframe not implemented".

Definition sys_env_set_pgfault_upcall (envid func : Z) : M kstate Z :=
  '(ret, e) ← envid2env envid true;
  if ret <? 0 then mret ret
  else
    e ← deref e;
    upd_env e (with_env_pgfault_upcall func) ;;
    mret 0.

Definition PTE_UP : Z := Z.lor PTE_U PTE_P.

Definition sys_page_alloc (envid va perm : Z) : M kstate Z :=
  '(ret, e) ← envid2env envid true;
  if negb (ret =? 0) then mret ret
  else if (UTOP <=? va) || negb (ROUNDDOWN va PGSIZE =? va) then mret (- E_INVAL)
  else if negb (Z.land perm PTE_UP =? PTE_UP) then mret (- E_INVAL)
  else
    pg ← page_alloc 1;
    match pg with
    | None => mret (- E_NO_MEM)
    | Some pg =>
        e ← deref e;
        env ← get_env e;
        ret ← page_insert (env_pgdir env) pg va perm;
        if negb (ret =? 0) then page_free pg ;; mret ret
        else mret 0
    end.

Definition sys_page_map (srcenvid srcva dstenvid dstva perm : Z) : M kstate Z :=
  '(ret, se) ← envid2env srcenvid true;
  if negb (ret =? 0) then mret ret
  else
    '(ret, de) ← envid2env dstenvid true;
    if negb (ret =? 0) then mret ret
    else if (UTOP <=? srcva) || (UTOP <=? dstva) || negb (ROUNDDOWN srcva PGSIZE =? srcva)
            || negb (ROUNDDOWN dstva PGSIZE =? dstva) then mret (- E_INVAL)
    else
      se ← deref se;
      senv ← get_env se;
      pg ← page_lookup (env_pgdir senv) srcva;
      match pg with
      | None => mret (- E_INVAL)
      | Some (pg, pte) =>
          if negb (Z.land perm PTE_UP =? PTE_UP) then mret (- E_INVAL)
          else
            v ← ld32 pte;
            if negb (has v PTE_W) && has perm PTE_W then mret (- E_INVAL)
            else
              de ← deref de;
              denv ← get_env de;
              page_insert (env_pgdir denv) pg dstva perm
      end.

Definition sys_page_unmap (envid va : Z) : M kstate Z :=
  '(ret, e) ← envid2env envid true;
  if negb (ret =? 0) then mret ret
  else if (UTOP <=? va) || negb (ROUNDDOWN va PGSIZE =? va) then mret (- E_INVAL)
  else
    e ← deref e;
    env ← get_env e;
    page_remove (env_pgdir env) va ;;
    mret 0.

(** The stores that deliver a message. *)
Definition ipc_deliver (rcv from value : Z) : M kstate unit :=
  upd_env rcv (with_env_ipc_recving false) ;;
  upd_env rcv (with_env_ipc_from from) ;;
  upd_env rcv (with_env_ipc_value value) ;;
  upd_env rcv (with_env_status ENV_RUNNABLE) ;;
  upd_env rcv (fun env => with_env_tf (with_tf_regs (with_reg_eax 0 (tf_regs (env_tf env))) (env_tf env)) env).

(** The page transfer of [sys_ipc_try_send] for [srcva < UTOP]: [Some r] is an
    early [return r].  [page_lookup] leaves [pte] unset when the page has no page
    table, and [*pte] is read before [pg] is tested. *)
Definition ipc_send_page (c rcv srcva perm : Z) : M kstate (option Z) :=
  cenv ← get_env c;
  look ← page_lookup (env_pgdir cenv) srcva;
  if negb (srcva =? ROUNDDOWN srcva PGSIZE) then mret (Some (- E_INVAL))
  else match look with
  | None => ub
  | Some (pg, pte) =>
      v ← ld32 pte;
      if negb (Z.land (Z.land v perm) 7 =? Z.land perm 7) then mret (Some (- E_INVAL))
      else if has perm PTE_W && negb (has v PTE_W) then mret (Some (- E_INVAL))
      else
        renv ← get_env rcv;
        if env_ipc_dstva renv <? UTOP then
          ret ← page_insert (env_pgdir renv) pg (env_ipc_dstva renv) perm;
          if negb (ret =? 0) then mret (Some ret)
          else upd_env rcv (with_env_ipc_perm perm) ;; mret None
        else mret None
  end.

Definition sys_ipc_try_send (envid value srcva perm : Z) : M kstate Z :=
  '(ret, rcv) ← envid2env envid false;
  if negb (ret =? 0) then mret ret
  else
    rcv ← deref rcv;
    renv ← get_env rcv;
    if negb (env_ipc_recving renv) then mret (- E_IPC_NOT_RECV)
    else
      c ← cur_env;
      early ← (if srcva <? UTOP then ipc_send_page c rcv srcva perm else mret None);
      match early with
      | Some r => mret r
      | None =>
          cenv ← get_env c;
          ipc_deliver rcv (env_id cenv) value ;;
          mret 0
      end.

Definition sys_ipc_recv (dstva : Z) : M kstate Z :=
  if (dstva <? UTOP) && negb (dstva =? ROUNDDOWN dstva PGSIZE) then mret (- E_INVAL)
  else
    c ← cur_env;
    upd_env c (with_env_ipc_recving true) ;;
    upd_env c (with_env_status ENV_NOT_RUNNABLE) ;;
    upd_env c (with_env_ipc_dstva dstva) ;;
    sys_yield ;;
    mret 0.

Section Dispatch.
(** What the console has for [cons_getc]. *)
Variable cons_getc : Z.

Definition sys_cgetc : M kstate Z := mret cons_getc.

(** [inc/syscall.h]. *)
Definition SYS_cputs : Z := 0.
Definition SYS_cgetc : Z := 1.
Definition SYS_getenvid : Z := 2.
Definition SYS_env_destroy : Z := 3.
Definition SYS_page_alloc : Z := 4.
Definition SYS_page_map : Z := 5.
Definition SYS_page_unmap : Z := 6.
Definition SYS_exofork : Z := 7.
Definition SYS_env_set_status : Z := 8.
Definition SYS_env_set_trapframe : Z := 9.
Definition SYS_env_set_pgfault_upcall : Z := 10.
Definition SYS_yield : Z := 11.
Definition SYS_ipc_try_send : Z := 12.
Definition SYS_ipc_recv : Z := 13.

(** The arguments are registers, [uint32_t]; [envid_t] and [int] parameters are
    signed. *)
Definition syscall (syscallno a1 a2 a3 a4 a5 : Z) : M kstate Z :=
  if syscallno =? SYS_cputs then sys_cputs a1 a2 ;; mret 0
  else if syscallno =? SYS_cgetc then sys_cgetc
  else if syscallno =? SYS_getenvid then sys_getenvid
  else if syscallno =? SYS_env_destroy then sys_env_destroy (s32 a1)
  else if syscallno =? SYS_yield then sys_yield ;; mret 0
  else if syscallno =? SYS_exofork then sys_exofork
  else if syscallno =? SYS_env_set_status then sys_env_set_status (s32 a1) (s32 a2)
  else if syscallno =? SYS_page_alloc then sys_page_alloc (s32 a1) a2 (s32 a3)
  else if syscallno =? SYS_page_map then sys_page_map (s32 a1) a2 (s32 a3) a4 (s32 a5)
  else if syscallno =? SYS_page_unmap then sys_page_unmap (s32 a1) a2
  else if syscallno =? SYS_env_set_pgfault_upcall then sys_env_set_pgfault_upcall (s32 a1) a2
  else if syscallno =? SYS_ipc_try_send then sys_ipc_try_send (s32 a1) a2 a3 a4
  else if syscallno =? SYS_ipc_recv then sys_ipc_recv a1
  else mret (- E_INVAL).

(** ** Traps *)

Definition T_BRKPT : Z := 3.
Definition T_PGFLT : Z := 14.
Definition T_SYSCALL : Z := 48.
Definition IRQ_OFFSET : Z := 32.
Definition IRQ_TIMER : Z := 0.
Definition IRQ_SPURIOUS : Z := 7.
Definition GD_KT : Z := 8.

(** A 32-bit store by kernel code through the page directory in force. *)
Definition user_st32 (va v : Z) : M kstate unit :=
  for_each [0; 1; 2; 3] (fun k => user_st8 (u32 (va + k)) (Z.shiftr v (8 * k))).

(** [*utr = ...]: the words of [struct UTrapframe] in memory order. *)
Definition utrapframe_words (fault_va : Z) (tf : Trapframe) : list Z :=
  let r := tf_regs tf in
  [fault_va; tf_err tf; reg_edi r; reg_esi r; reg_ebp r; reg_oesp r; reg_ebx r; reg_edx r;
   reg_ecx r; reg_eax r; tf_eip tf; tf_eflags tf; tf_esp tf].

Fixpoint store_words (va : Z) (ws : list Z) : M kstate unit :=
  match ws with
  | [] => mret tt
  | w :: ws' => user_st32 va w ;; store_words (u32 (va + 4)) ws'
  end.

(** [fault_va] is [rcr2()]; [tf] is the frame of the current environment. *)
Definition page_fault_handler (fault_va : Z) (tf : Trapframe) : M kstate unit :=
  if Z.land (tf_cs tf) 3 =? 0 then panic "page_fault_handler():page fault in kernel mode!"
  else
    c ← cur_env;
    env ← get_env c;
    when (negb (env_pgfault_upcall env =? 0)) (
      let stacktop :=
        if (UXSTACKTOP - PGSIZE <? tf_esp tf) && (tf_esp tf <? UXSTACKTOP) then tf_esp tf
        else UXSTACKTOP in
      let size := 52 + 4 in
      user_mem_assert c (u32 (stacktop - size)) size (Z.lor PTE_U PTE_W) ;;
      let utr := u32 (stacktop - size) in
      store_words utr (utrapframe_words fault_va tf) ;;
      upd_env c (fun env => with_env_tf (with_tf_eip (env_pgfault_upcall env) (env_tf env)) env) ;;
      upd_env c (fun env => with_env_tf (with_tf_esp utr (env_tf env)) env) ;;
      env_run c) ;;
    env_destroy c.

(** [c] is the environment whose [env_tf] is [tf]; [None] when the trap came from
    kernel mode and the frame is on the kernel stack. *)
Definition trap_dispatch (fault_va : Z) (c : option Z) (tf : Trapframe) : M kstate unit :=
  if tf_trapno tf =? T_PGFLT then page_fault_handler fault_va tf
  else if tf_trapno tf =? T_BRKPT then mret tt
  else if tf_trapno tf =? T_SYSCALL then
    let r := tf_regs tf in
    ret ← syscall (reg_eax r) (reg_edx r) (reg_ecx r) (reg_ebx r) (reg_edi r) (reg_esi r);
    match c with
    | Some e => upd_env e (fun env =>
        with_env_tf (with_tf_regs (with_reg_eax (u32 ret) (tf_regs (env_tf env))) (env_tf env)) env)
    | None => mret tt
    end
  else if tf_trapno tf =? IRQ_OFFSET + IRQ_SPURIOUS then mret tt
  else if tf_trapno tf =? IRQ_OFFSET + IRQ_TIMER then sched_yield
  else if tf_cs tf =? GD_KT then panic "unhandled trap in kernel"
  else c ← cur_env; env_destroy c.

Definition trap (fault_va : Z) (tf : Trapframe) : M kstate unit :=
  st ← (s ← get; deref (zget (cpu_status s) (this_cpu s)));
  modify (fun s => with_cpu_status (zset (cpu_status s) (this_cpu s) CPU_STARTED) s) ;;
  when (st =? CPU_HALTED) lock_kernel ;;
  cur ←
    (if Z.land (tf_cs tf) 3 =? 3 then
       cur ← curenv;
       c ← (match cur with None => panic "assertion failed: curenv" | Some c => mret c end);
       lock_kernel ;;
       env ← get_env c;
       when (bool_decide (env_status env = ENV_DYING))
         (env_free c ;; set_curenv None ;; sched_yield) ;;
       upd_env c (with_env_tf tf) ;;
       mret (Some c)
     else mret None);
  trap_dispatch fault_va cur tf ;;
  cur ← curenv;
  match cur with
  | None => sched_yield
  | Some c =>
      env ← get_env c;
      if bool_decide (env_status env = ENV_RUNNING) then env_run c else sched_yield
  end.
End Dispatch.
