(* ===== verification/SyscallSpec.v ===== *)
(** * The system calls keep environments isolated
    ([oslab6/kern/syscall.c], [trap.c])

    The memory system calls keep the kernel invariant and change only mappings of
    environments the caller may manipulate; message passing; the trap handler never
    returns to the interrupted kernel code. *)
From S2P Require Import Prelude.
From S2P Require Import Mmu.
From S2P Require Import KState.
From S2P Require Import Pmap.
From S2P Require Import PageTable.
From S2P Require Import AddrSpace.
From S2P Require Import VmLife.
From S2P Require Import Env.
From S2P Require Import EnvFree.
From S2P Require Import EnvInv.
From S2P Require Import Sched.
From S2P Require Import Syscall.

(** ** Code that does not return *)

Definition noret {A} (m : M kstate A) : Prop := forall s a s', m s <> Ret a s'.

Lemma noret_bind {A B} (m : M kstate A) (k : A -> M kstate B) :
  (forall a, noret (k a)) -> noret (m ≫= k).
Proof. intros H s b s' (a & s1 & _ & Hk)%bind_inv. by apply H in Hk. Qed.

Lemma noret_leave {A} : noret (leave : M kstate A).
Proof. done. Qed.

Lemma env_run_noret e : noret (env_run e).
Proof.
  unfold env_run, env_pop_tf. repeat (apply noret_bind; intros ?). apply noret_leave.
Qed.

Lemma sched_halt_noret : noret sched_halt.
Proof.
  unfold sched_halt. apply noret_bind. intros es. case_match; [apply noret_leave|].
  repeat (apply noret_bind; intros ?). apply noret_leave.
Qed.

Lemma sched_yield_noret : noret sched_yield.
Proof. unfold sched_yield. do 5 (apply noret_bind; intros ?). apply sched_halt_noret. Qed.

(** The trap handler never returns to its caller: it ends by running an
    environment or halting the CPU, whatever the trap was. *)
Theorem trap_does_not_return getc fault_va tf s : forall a s', trap getc fault_va tf s <> Ret a s'.
Proof.
  revert s. change (noret (trap getc fault_va tf)). unfold trap.
  do 6 (apply noret_bind; intros ?). case_match; [|apply sched_yield_noret].
  apply noret_bind. intros env. case_match; [apply env_run_noret|apply sched_yield_noret].
Qed.

(** ** Pages allocated but not yet mapped *)

(** Giving back a page that was just allocated. *)
Lemma vm_ok_free s l pds ex p :
  vm_ok s l pds ex -> zget (pages s) p = Some (MkPageInfo None 0) -> p ∉ l ->
  vm_ok (free_st p s) (p :: l) pds ex.
Proof.
  intros Hvm Hg Hni. pose proof (zget_Some_range _ _ _ Hg) as Hr.
  eapply vm_ok_tables; [done|done| |apply (vo_word _ _ _ _ Hvm)|].
  - apply free_st_ok; [apply (vo_alloc _ _ _ _ Hvm)|done|by rewrite <-(vm_len Hvm)].
  - intros q. erewrite page_ref_zset by done. case_decide; [|done]. subst. unfold page_ref.
    by rewrite Hg.
Qed.

Lemma alloc_keeps s l pds ex p flags :
  vm_ok s (p :: l) pds ex -> keeps (p :: l) pds (mem s) (mem (alloc_st flags p l s)).
Proof.
  intros Hvm q Hq Hd. destruct (vm_ok_alloc _ _ _ _ _ flags Hvm) as (_ & Ht & _). split.
  - destruct Hd as [A B]. split; [done|]. intros pd i. rewrite tables_eq_has_pt by done. intros Hpt.
    pose proof Hpt as (P1 & P2 & _). destruct (Ht pd i P1 P2) as [-> _]. by apply B.
  - intros k Hk. unfold alloc_st. case_match; [|done]. cbn [mem with_mem]. apply rdw_fillw_out.
    intros (k' & Hk' & E)%elem_of_page_words. apply Hq.
    apply entry_inj in E as [E _]; [|zlia|zlia|done|done]. replace q with p by lia. apply list_elem_of_here.
Qed.

Lemma alloc_frame s flags p l : vm_frame s (alloc_st flags p l s).
Proof. unfold vm_frame, alloc_st. case_match; by destruct s. Qed.

Lemma kern_ok_alloc s l pds efl p flags :
  kern_ok s (p :: l) pds efl -> kern_ok (alloc_st flags p l s) l pds efl.
Proof.
  intros Hk. pose proof (ko_vm _ _ _ _ Hk) as Hvm. eapply kern_ok_vm; [done|apply alloc_frame| |].
  - by apply vm_ok_alloc.
  - by apply (alloc_keeps s l pds (kex s)).
Qed.

(** ** The memory system calls *)

(** The caller [c] is a live environment. *)
Definition caller (s : kstate) (c : Z) : Prop :=
  zget (cpu_env s) (this_cpu s) = Some (Some c) /\
  exists cenv, zget (envs s) c = Some cenv /\ live cenv.

(** The address space of an environment the caller may manipulate. *)
Definition may_change (s : kstate) (c id pd : Z) : Prop :=
  exists e env, accessible s c id true e /\ zget (envs s) e = Some env /\ env_pgdir env = pd + KERNBASE.

Lemma accessible_pd s l pds efl c id chk e :
  kern_ok s l pds efl -> caller s c -> accessible s c id chk e ->
  exists env pd, zget (envs s) e = Some env /\ env_pgdir env = pd + KERNBASE /\ pd ∈ pds /\ live env.
Proof.
  intros Hk [_ (cenv & Hc & Hl)] (env & cenv' & He & Hc' & Hor).
  rewrite Hc in Hc'. injection Hc' as <-.
  assert (live env) as Hle.
  { destruct Hor as [[_ ->]|(_ & _ & H & _)]; [|done]. rewrite Hc in He. by injection He as <-. }
  destruct (eo_pgdir _ _ _ _ (ko_env _ _ _ _ Hk) _ _ He Hle) as (pd & Hp & Hpd). eauto 10.
Qed.

(** The results of a call that may change mappings: an error leaves every mapping
    alone; success changes at most one page of one address space. *)
Record mem_call (s s' : kstate) (l' pds efl : list Z) (c id va : Z) (ret : Z) (target : option Z -> Prop)
  : Prop := {
  mc_ok : kern_ok s' l' pds efl;
  mc_fail : ret <> 0 -> views_eq pds (mem s) (mem s');
  mc_ret : ret = 0 -> exists pd, may_change s c id pd /\ pd ∈ pds /\
    target (vlookup (mem s') pd (PDX va) (PTX va)) /\
    forall pd' i j, pd' ∈ pds -> user_slot i j -> (pd', i, j) <> (pd, PDX va, PTX va) ->
      vlookup (mem s') pd' i j = vlookup (mem s) pd' i j;
  mc_envs : envs s' = envs s
}.

(** A call that fails before it changes anything. *)
Lemma mem_call_fail s l pds efl c id va ret target :
  kern_ok s l pds efl -> ret <> 0 -> mem_call s s l pds efl c id va ret target.
Proof. intros. split; done. Qed.

Lemma sys_page_alloc_ok s l pds efl c id va perm :
  kern_ok s l pds efl -> caller s c -> 0 <= va -> 0 <= perm < 4096 ->
  exists ret s' l', sys_page_alloc id va perm s = Ret ret s' /\
    mem_call s s' l' pds efl c id va ret (fun o => exists p, p ∈ l /\ o = Some (p * 4096 + Z.lor perm PTE_P)).
Proof.
  intros Hk Hcall Hva Hperm. pose proof Hcall as [Hc _]. unfold sys_page_alloc.
  destruct (envid2env_cases s l pds efl c id true Hk Hc) as [(e & He & Hacc)|[He _]]; exec_by He; cbv iota.
  2: { eexists _, s, l. split; [done|]. by apply mem_call_fail. }
  cbn [negb Z.eqb]. destruct ((UTOP <=? va) || negb (ROUNDDOWN va PGSIZE =? va)) eqn:E1.
  { eexists _, s, l. split; [done|]. by apply mem_call_fail. }
  destruct (negb (Z.land perm PTE_UP =? PTE_UP)).
  { eexists _, s, l. split; [done|]. by apply mem_call_fail. }
  apply orb_false_iff in E1 as [E1 _]. pose proof (ko_vm _ _ _ _ Hk) as Hvm.
  pose proof (vo_alloc _ _ _ _ Hvm) as Hal. destruct l as [|p l].
  { exec_by (page_alloc_nil s 1 Hal). eexists _, s, []. split; [done|]. by apply mem_call_fail. }
  exec_by (page_alloc_cons s 1 p l Hal). simpl deref. exec.
  destruct (accessible_pd _ _ _ _ _ _ _ _ Hk Hcall Hacc) as (env & pd & Henv & Hpgd & Hpd & Hlive).
  set (s1 := alloc_st 1 p l s). assert (zget (envs s1) e = Some env) as Henv1 by done.
  exec_by (get_env_ok s1 e env Henv1). rewrite Hpgd.
  destruct (vm_ok_alloc _ _ _ _ _ 1 Hvm) as (Hvm1 & Ht & Hd & Hni & Hg & _). fold s1 in Hvm1, Ht, Hd, Hg.
  pose proof (kern_ok_alloc s l pds efl p 1 Hk) as Hk1. fold s1 in Hk1.
  assert (user_va va) as Huva by (unfold user_va; lia).
  destruct (page_insert_ok s1 l pds _ pd va p perm None 0 Hvm1 Hpd Huva (ko_cpu _ _ _ _ Hk1) Hg)
    as [(Hins & -> & _)|(s' & l' & Hins & Hvm' & Hi & _)]; try done.
  - exec_by Hins. change (negb (- E_NO_MEM =? 0)) with true. cbv iota.
    exec_by (page_free_ok s1 p [] (vo_alloc _ _ _ _ Hvm1) Hni (ex_intro _ None Hg)).
    eexists _, (free_st p s1), [p]. split; [done|]. split; try done.
    + eapply kern_ok_vm; [exact Hk1|by destruct s1|by apply vm_ok_free|apply keeps_refl].
    + intros _. by apply tables_eq_views.
  - exec_by Hins. cbn [negb Z.eqb]. eexists _, s', l'. split; [done|].
    pose proof (is_frame _ _ _ _ _ _ _ _ _ Hi) as Hf. split; try done.
    + eapply kern_ok_vm; [exact Hk1|done|done|apply Hi].
    + intros _. exists pd. pose proof (is_view _ _ _ _ _ _ _ _ _ Hi) as Hv. split_and!.
      * by exists e, env.
      * done.
      * exists p. split; [apply list_elem_of_here|]. rewrite Hv by (done || by apply user_va_slot).
        by rewrite decide_True.
      * intros pd' i j Hpd' Hs Hne. rewrite Hv by done. rewrite decide_False by done.
        by apply (tables_eq_views _ _ _ Ht).
    + by rewrite (vm_frame_envs _ _ Hf).
Qed.

(** Mapping a page the caller can see: the target slot gets that frame, writable
    only if the source is. *)
Definition mapped_from (src : option Z) (perm : Z) (o : option Z) : Prop :=
  exists v, src = Some v /\ (has perm PTE_W -> has v PTE_W) /\
    o = Some (PTE_ADDR v + Z.lor perm PTE_P).

(** No page has all its references taken. *)
Definition refs_left (s : kstate) : Prop := forall q r, page_ref s q = Some r -> r < 65535.

Lemma insert_mapped_ok s l pds efl pd2 dstva perm v x pd :
  kern_ok s l pds efl -> pd ∈ pds -> pd2 ∈ pds -> refs_left s -> 0 <= perm < 4096 -> user_va dstva ->
  user_slot (PDX x) (PTX x) -> vlookup (mem s) pd (PDX x) (PTX x) = Some v ->
  (page_insert (pd2 + KERNBASE) (PTE_ADDR v / 4096) dstva perm s = Ret (- E_NO_MEM) s) \/
  exists s' l', page_insert (pd2 + KERNBASE) (PTE_ADDR v / 4096) dstva perm s = Ret 0 s' /\
    kern_ok s' l' pds efl /\ envs s' = envs s /\ cpu_env s' = cpu_env s /\ this_cpu s' = this_cpu s /\
    forall pd' i j, pd' ∈ pds -> user_slot i j -> vlookup (mem s') pd' i j
      = if decide ((pd', i, j) = (pd2, PDX dstva, PTX dstva)) then Some (PTE_ADDR v + Z.lor perm PTE_P)
        else vlookup (mem s) pd' i j.
Proof.
  intros Hk Hpd Hpd2 Hrefs Hperm Hdst Hslot Hl. pose proof (ko_vm _ _ _ _ Hk) as Hvm.
  destruct (vlookup_present _ _ _ _ _ _ _ _ Hvm Hpd Hslot Hl) as (_ & _ & _ & Hu & Hm).
  destruct (vm_maps_ref1 Hvm _ _ Hm) as (r & Hr & H1). pose proof (Hrefs _ _ Hr) as Hr2.
  destruct (page_ref_inv _ _ _ Hr) as [li Hg].
  pose proof (vm_not_free Hvm _ _ Hr ltac:(lia)) as Hni.
  pose proof (vo_data _ _ _ _ Hvm _ _ Hm) as Hd.
  destruct (PTE_ADDR_range v Hu) as [_ Hmod].
  destruct (page_insert_ok s l pds _ pd2 dstva (PTE_ADDR v / 4096) perm li r Hvm Hpd2 Hdst
    (ko_cpu _ _ _ _ Hk) Hg ltac:(lia) Hni Hd Hperm) as [(Hins & _)|(s' & l' & Hins & Hvm' & Hi & _)];
    [by left|right].
  exists s', l'. pose proof (is_frame _ _ _ _ _ _ _ _ _ Hi) as Hf. split_and!; try done.
  - eapply kern_ok_vm; [exact Hk|done|done|apply Hi].
  - by rewrite Hf.
  - by rewrite Hf.
  - by rewrite Hf.
  - intros pd' i j Hpd' Hs. rewrite (is_view _ _ _ _ _ _ _ _ _ Hi) by done.
    by replace (PTE_ADDR v / 4096 * 4096) with (PTE_ADDR v) by zlia.
Qed.

Lemma pte_ld s l pds ex pd x v :
  vm_ok s l pds ex -> pd ∈ pds -> user_slot (PDX x) (PTX x) ->
  vlookup (mem s) pd (PDX x) (PTX x) = Some v ->
  ld32 (pte_addr (mem s) pd (PDX x) (PTX x) + KERNBASE) s = Ret v s.
Proof.
  intros Hvm Hpd Hs Hl. destruct (vlookup_present _ _ _ _ _ _ _ _ Hvm Hpd Hs Hl) as (Hpt & Ev & _).
  rewrite ld32_ok by (by eapply pte_kva_range; [done|done|apply Hs]). by rewrite <-Ev.
Qed.

Lemma sys_page_map_ok s l pds efl c sid sva did dva perm :
  kern_ok s l pds efl -> caller s c -> refs_left s -> 0 <= sva -> 0 <= dva -> 0 <= perm < 4096 ->
  exists ret s' l', sys_page_map sid sva did dva perm s = Ret ret s' /\
    mem_call s s' l' pds efl c did dva ret (fun o => exists spd, may_change s c sid spd /\
      mapped_from (vlookup (mem s) spd (PDX sva) (PTX sva)) perm o).
Proof.
  intros Hk Hcall Hrefs Hsva Hdva Hperm. pose proof Hcall as [Hc _]. unfold sys_page_map.
  assert (forall ret, ret <> 0 -> exists ret' s' l', (mret ret : M kstate Z) s = Ret ret' s' /\
    mem_call s s' l' pds efl c did dva ret' (fun o => exists spd, may_change s c sid spd /\
      mapped_from (vlookup (mem s) spd (PDX sva) (PTX sva)) perm o)) as Hfail.
  { intros ret Hret. eexists ret, s, l. split; [done|]. by apply mem_call_fail. }
  destruct (envid2env_cases s l pds efl c sid true Hk Hc) as [(se & He & Hsacc)|[He _]]; exec_by He;
    cbv iota; [|by apply Hfail]. cbn [negb Z.eqb].
  destruct (envid2env_cases s l pds efl c did true Hk Hc) as [(de & Hde & Hdacc)|[Hde _]]; exec_by Hde;
    cbv iota; [|by apply Hfail]. cbn [negb Z.eqb].
  destruct (_ || _) eqn:E1; [by apply Hfail|].
  apply orb_false_iff in E1 as [[[E1 E2]%orb_false_iff _]%orb_false_iff _].
  assert (user_va sva) as Hus%user_va_slot by (unfold user_va; lia).
  assert (user_va dva) as Hud by (unfold user_va; lia). simpl deref. exec.
  destruct (accessible_pd _ _ _ _ _ _ _ _ Hk Hcall Hsacc) as (senv & spd & Hsenv & Hspgd & Hspd & _).
  destruct (accessible_pd _ _ _ _ _ _ _ _ Hk Hcall Hdacc) as (denv & dpd & Hdenv & Hdpgd & Hdpd & _).
  exec_by (get_env_ok s se senv Hsenv). rewrite Hspgd. pose proof (ko_vm _ _ _ _ Hk) as Hvm.
  exec_by (page_lookup_ok s l pds _ spd sva Hvm Hspd Hus).
  destruct (vlookup (mem s) spd (PDX sva) (PTX sva)) as [v|] eqn:El;
    cbn [fmap option_fmap option_map]; [|by apply Hfail].
  destruct (negb (Z.land perm PTE_UP =? PTE_UP)); [by apply Hfail|].
  exec_by (pte_ld s l pds _ spd sva v Hvm Hspd Hus El).
  destruct (negb (has v PTE_W) && has perm PTE_W) eqn:EW; [by apply Hfail|]. exec.
  exec_by (get_env_ok s de denv Hdenv). rewrite Hdpgd.
  destruct (insert_mapped_ok s l pds efl dpd dva perm v sva spd) as [Hins|(s' & l' & Hins & Hk' & Een & _ & _ & Hv)];
    try done; rewrite Hins.
  { eexists _, s, l. split; [done|]. by apply mem_call_fail. }
  eexists _, s', l'. split; [done|]. split; try done. intros _. exists dpd. split_and!.
  - by exists de, denv.
  - done.
  - exists spd. split; [by exists se, senv|]. exists v. split_and!; [done| |].
    + destruct (has v PTE_W), (has perm PTE_W); done.
    + rewrite Hv by (done || by apply user_va_slot). by rewrite decide_True.
  - intros pd' i j Hpd' Hs Hne. rewrite Hv by done. by rewrite decide_False.
Qed.

Lemma sys_page_unmap_ok s l pds efl c id va :
  kern_ok s l pds efl -> caller s c -> 0 <= va ->
  exists ret s' l', sys_page_unmap id va s = Ret ret s' /\
    mem_call s s' l' pds efl c id va ret (fun o => o = None).
Proof.
  intros Hk Hcall Hva. pose proof Hcall as [Hc _]. unfold sys_page_unmap.
  destruct (envid2env_cases s l pds efl c id true Hk Hc) as [(e & He & Hacc)|[He _]]; exec_by He; cbv iota.
  2: { eexists _, s, l. split; [done|]. by apply mem_call_fail. }
  cbn [negb Z.eqb]. destruct ((UTOP <=? va) || negb (ROUNDDOWN va PGSIZE =? va)) eqn:E1.
  { eexists _, s, l. split; [done|]. by apply mem_call_fail. }
  apply orb_false_iff in E1 as [E1 _]. pose proof (ko_vm _ _ _ _ Hk) as Hvm.
  assert (user_va va) as Huva%user_va_slot by (unfold user_va; lia). simpl deref. exec.
  destruct (accessible_pd _ _ _ _ _ _ _ _ Hk Hcall Hacc) as (env & pd & Henv & Hpgd & Hpd & _).
  exec_by (get_env_ok s e env Henv). rewrite Hpgd.
  destruct (page_remove_ok s l pds _ pd va Hvm Hpd Huva (ko_cpu _ _ _ _ Hk)) as (s' & l' & Hrm & Hvm' & Hum).
  exec_by Hrm. eexists _, s', l'. split; [done|].
  pose proof (um_frame _ _ _ _ _ _ Hum) as Hf. split; try done.
  - eapply kern_ok_vm; [exact Hk|done|done|apply keeps_weaken, Hum].
  - intros _. exists pd. pose proof (um_view _ _ _ _ _ _ Hum) as Hv. split_and!.
    + by exists e, env.
    + done.
    + rewrite Hv by done. by rewrite decide_True.
    + intros pd' i j Hpd' Hs Hne. rewrite Hv by done. by rewrite decide_False.
  - by rewrite (vm_frame_envs _ _ Hf).
Qed.

(** ** Message passing *)

Lemma echain_upd es h l e env env' : zget es e = Some env -> env_link env' = env_link env ->
  echain es h l -> echain (zset es e env') h l.
Proof.
  intros He Hli. revert h. induction l as [|x l IH]; intros h; [done|]. intros (-> & xe & Hx & Hl).
  split; [done|]. destruct (decide (e = x)) as [->|Hne].
  - exists env'. rewrite zget_zset_eq by (by eapply zget_Some_range). split; [done|].
    rewrite Hli. rewrite He in Hx. injection Hx as ->. by apply IH.
  - exists xe. rewrite zget_zset_ne by done. eauto.
Qed.

(** Changes to an environment's registers, IPC fields and status. *)
Lemma envs_ok_upd es fl efl pds e env env' :
  envs_ok es fl efl pds -> zget es e = Some env -> env_link env' = env_link env ->
  env_id env' = env_id env -> env_pgdir env' = env_pgdir env -> (live env' <-> live env) ->
  envs_ok (zset es e env') fl efl pds.
Proof.
  intros [Hlen Hch Hnd Hfree Hid Hpg Hown Hpds] He Hli Hi Hp Hl.
  pose proof (zget_Some_range _ _ _ He) as Hr.
  assert (forall x xe, zget (zset es e env') x = Some xe -> exists xe0, zget es x = Some xe0 /\
    env_id xe = env_id xe0 /\ env_pgdir xe = env_pgdir xe0 /\ (live xe <-> live xe0)) as Hcase.
  { intros x xe Hx. rewrite zget_zset in Hx. case_decide as D; [|eauto 10].
    destruct D as [<- _]. injection Hx as <-. eauto 10. }
  split; try done.
  - by rewrite zlen_zset.
  - by eapply echain_upd.
  - intros x xe (xe0 & Hx & _ & _ & Hlx)%Hcase. rewrite Hlx. by eapply Hfree.
  - intros x xe (xe0 & Hx & Hix & _ & Hlx)%Hcase. rewrite Hlx, Hix. by eapply Hid.
  - intros x xe (xe0 & Hx & _ & Hpx & Hlx)%Hcase. rewrite Hlx, Hpx. by eapply Hpg.
  - intros x xe y ye (xe0 & Hx & _ & Hpx & Hlx)%Hcase (ye0 & Hy & _ & Hpy & Hly)%Hcase.
    rewrite Hlx, Hly, Hpx, Hpy. by eapply Hown.
  - intros pd Hpd. destruct (Hpds pd Hpd) as (x & xe & Hx & Hlx & Hpx).
    destruct (decide (e = x)) as [->|Hne].
    + exists x, env'. rewrite zget_zset_eq by done. rewrite He in Hx. injection Hx as ->.
      split; [done|]. rewrite Hl, Hp. done.
    + exists x, xe. by rewrite zget_zset_ne.
Qed.

Lemma kern_ok_upd s l pds efl e env env' :
  kern_ok s l pds efl -> zget (envs s) e = Some env -> env_link env' = env_link env ->
  env_id env' = env_id env -> env_pgdir env' = env_pgdir env -> (live env' <-> live env) ->
  kern_ok (with_envs (zset (envs s) e env') s) l pds efl.
Proof.
  intros [Hvm Hkp Hkd Hkz Hcpu Henv] He Hli Hi Hp Hl. split; try done.
  - eapply vm_ok_tables; [exact Hvm|done|apply (alloc_ok_same s); [apply (vo_alloc _ _ _ _ Hvm)|done..]|
      apply (vo_word _ _ _ _ Hvm)|done].
  - destruct Hcpu as (c & Hc & Hce). exists c. split; [done|]. intros x ->. simpl.
    apply zget_is_Some. rewrite zlen_zset. by apply zget_is_Some, Hce.
  - by eapply envs_ok_upd.
Qed.

(** The receiver after the message. *)
Definition delivered (from value : Z) (env : Env) : Env :=
  let env := with_env_status ENV_RUNNABLE (with_env_ipc_value value
    (with_env_ipc_from from (with_env_ipc_recving false env))) in
  with_env_tf (with_tf_regs (with_reg_eax 0 (tf_regs (env_tf env))) (env_tf env)) env.

Lemma ipc_deliver_ok s rcv renv from value : zget (envs s) rcv = Some renv ->
  ipc_deliver rcv from value s = Ret tt (with_envs (zset (envs s) rcv (delivered from value renv)) s).
Proof.
  intros Hr. pose proof (zget_Some_range _ _ _ Hr) as Hb. unfold ipc_deliver.
  rewrite (exec_upd_env s rcv _ renv _ Hr).
  do 3 (erewrite exec_upd_env; [|cbn [envs with_envs]; apply zget_zset_eq; rewrite ?zlen_zset; exact Hb]).
  erewrite upd_env_ok; [|cbn [envs with_envs]; apply zget_zset_eq; rewrite ?zlen_zset; exact Hb].
  cbn [envs with_envs]. rewrite !zset_zset_eq. reflexivity.
Qed.

(** A message without a page ([srcva >= UTOP]): an unknown receiver gives
    [-E_BAD_ENV], one that is not receiving [-E_IPC_NOT_RECV], both without any
    effect; otherwise the call returns 0 and the receiver alone changes: it has
    the value and the sender's id, is no longer receiving, runnable, and will see
    0 from its own system call. *)
Theorem sys_ipc_try_send_value s l pds efl c cenv id value srcva perm :
  kern_ok s l pds efl -> zget (cpu_env s) (this_cpu s) = Some (Some c) ->
  zget (envs s) c = Some cenv -> live cenv -> UTOP <= srcva ->
  (sys_ipc_try_send id value srcva perm s = Ret (- E_BAD_ENV) s /\ forall e, ~ accessible s c id false e) \/
  exists rcv renv, accessible s c id false rcv /\ zget (envs s) rcv = Some renv /\
    if env_ipc_recving renv then
      let s' := with_envs (zset (envs s) rcv (delivered (env_id cenv) value renv)) s in
      sys_ipc_try_send id value srcva perm s = Ret 0 s' /\ kern_ok s' l pds efl
    else sys_ipc_try_send id value srcva perm s = Ret (- E_IPC_NOT_RECV) s.
Proof.
  intros Hk Hc Hcenv Hlive Hsrc. unfold sys_ipc_try_send.
  destruct (envid2env_cases s l pds efl c id false Hk Hc) as [(rcv & Hr & Hacc)|[Hr Hno]]; exec_by Hr; cbv iota.
  2: { by left. }
  right. cbn [negb Z.eqb]. simpl deref. exec.
  destruct (accessible_pd s l pds efl c id false rcv Hk) as (renv & pd & Hrenv & Hpgd & Hpd & Hrl);
    [by split; [|exists cenv]|done|].
  exists rcv, renv. split; [done|]. split; [done|]. exec_by (get_env_ok s rcv renv Hrenv).
  destruct (env_ipc_recving renv); cbn [negb]; [|done].
  unfold cur_env, curenv. exec. rewrite Hc. simpl deref. exec. simpl deref. exec.
  destruct (Z.ltb_spec srcva UTOP); [lia|]. exec. exec_by (get_env_ok s c cenv Hcenv).
  exec_by (ipc_deliver_ok s rcv renv (env_id cenv) value Hrenv). split; [done|].
  apply (kern_ok_upd s l pds efl rcv renv); try done.
Qed.

(** When the page to send has no page table, [sys_ipc_try_send] reads a
    pointer [page_lookup] never set: the kernel's behaviour is undefined, although
    the caller is an ordinary environment. *)
Theorem sys_ipc_try_send_unmapped_undefined s l pds efl c cenv rcv renv id value srcva perm :
  kern_ok s l pds efl -> zget (cpu_env s) (this_cpu s) = Some (Some c) ->
  zget (envs s) c = Some cenv -> live cenv -> user_va srcva -> srcva `mod` 4096 = 0 ->
  vlookup (mem s) ((env_pgdir cenv) - KERNBASE) (PDX srcva) (PTX srcva) = None ->
  accessible s c id false rcv -> zget (envs s) rcv = Some renv -> env_ipc_recving renv = true ->
  sys_ipc_try_send id value srcva perm s = UB.
Proof.
  intros Hk Hc Hcenv Hlive Hsrc Hal Hno Hacc Hrenv Hrecv. unfold sys_ipc_try_send.
  destruct (envid2env_cases s l pds efl c id false Hk Hc) as [(e & He & Hacc')|[_ Hnone]];
    [|by destruct (Hnone rcv)].
  assert (e = rcv) as ->.
  { destruct Hacc as (? & ? & _ & _ & [[? ->]|(? & -> & _)]), Hacc' as (? & ? & _ & _ & [[? ->]|(? & -> & _)]); done. }
  exec_by He. cbv iota. cbn [negb Z.eqb]. simpl deref. exec. exec_by (get_env_ok s rcv renv Hrenv).
  rewrite Hrecv. cbn [negb]. unfold cur_env, curenv. exec. rewrite Hc. simpl deref. exec. simpl deref. exec.
  pose proof Hsrc as [Hs0 Hs1]. destruct (Z.ltb_spec srcva UTOP); [|lia]. unfold ipc_send_page. exec.
  exec_by (get_env_ok s c cenv Hcenv).
  destruct (eo_pgdir _ _ _ _ (ko_env _ _ _ _ Hk) _ _ Hcenv Hlive) as (pd & Hpgd & Hpd).
  rewrite Hpgd in *. replace (pd + KERNBASE - KERNBASE) with pd in Hno by lia.
  rewrite exec_bind. exec_by (page_lookup_ok s l pds _ pd srcva (ko_vm _ _ _ _ Hk) Hpd (user_va_slot _ Hsrc)).
  rewrite Hno. cbn [fmap option_fmap option_map]. exec. rewrite ROUNDDOWN_spec by (by apply user_va_u32).
  rewrite Hal, Z.sub_0_r, Z.eqb_refl. done.
Qed.

(** ** The properties of the memory calls *)

(** [sys_page_alloc] and [sys_page_unmap] always return, whatever their
    arguments, and keep the kernel invariant; when they fail no mapping of any
    environment changes; when they succeed the only change is at [va] in the
    address space of the caller or of a child of the caller: a page that was free
    is there with the permissions asked for, or nothing. *)
Theorem sys_page_alloc_unmap_isolated s l pds efl c id va perm :
  kern_ok s l pds efl -> caller s c -> 0 <= va -> 0 <= perm < 4096 ->
  (exists ret s' l', sys_page_alloc id va perm s = Ret ret s' /\
    mem_call s s' l' pds efl c id va ret
      (fun o => exists p, p ∈ l /\ o = Some (p * 4096 + Z.lor perm PTE_P))) /\
  (exists ret s' l', sys_page_unmap id va s = Ret ret s' /\
    mem_call s s' l' pds efl c id va ret (fun o => o = None)).
Proof. intros. split; [by apply sys_page_alloc_ok|by eapply sys_page_unmap_ok]. Qed.


(** [sys_page_alloc] checks only that PTE_U and PTE_P are among the
    permission bits: with bits above the low twelve set it succeeds and maps a
    different frame from the one it allocated, here one that is still free. *)
Theorem sys_page_alloc_ignores_high_perm_bits :
  wp (sys_page_alloc 0 24576 8199) (fun ret s' => ret = 0 /\
    vlookup (mem s') 4096 (PDX 24576) (PTX 24576) = Some (6 * 4096 + 7) /\
    page_free_list s' = Some 5 /\ zget (pages s') 5 = Some (MkPageInfo (Some 6) 0)) ex_kern.
Proof. vm_compute. auto. Qed.

(** ** Instances *)

Lemma ex_kern_caller : caller ex_kern 0.
Proof. split; [done|]. eexists. by split. Qed.

Lemma ex_kern_refs : refs_left ex_kern.
Proof.
  intros q r Hr. pose proof (page_ref_range _ _ _ Hr) as Hp. change (zlen (pages ex_kern)) with 7 in Hp.
  assert (q = 0 \/ q = 1 \/ q = 2 \/ q = 3 \/ q = 4 \/ q = 5 \/ q = 6) as Hq by lia.
  destruct_or! Hq; subst; vm_compute in Hr; injection Hr as <-; lia.
Qed.

Lemma sys_page_alloc_unmap_isolated_witness :
  (exists ret s' l', sys_page_alloc 0 24576 7 ex_kern = Ret ret s' /\
    mem_call ex_kern s' l' [4096] (seqZ 1 1023) 0 0 24576 ret
      (fun o => exists p, p ∈ [4; 5; 6] /\ o = Some (p * 4096 + Z.lor 7 PTE_P))) /\
  (exists ret s' l', sys_page_unmap 0 24576 ex_kern = Ret ret s' /\
    mem_call ex_kern s' l' [4096] (seqZ 1 1023) 0 0 24576 ret (fun o => o = None)).
Proof.
  exact (sys_page_alloc_unmap_isolated ex_kern _ _ _ 0 0 24576 7 ex_kern_ok ex_kern_caller
    ltac:(lia) ltac:(lia)).
Defined.


(** Environment 0 receiving, sending to itself. *)
Definition ex_recv : kstate :=
  match upd_env 0 (with_env_ipc_recving true) ex_kern with Ret _ s => s | _ => ex_kern end.
Definition ex_recv_env : Env :=
  with_env_ipc_recving true
    (with_env_pgdir (4096 + KERNBASE) (with_env_id 4096 (with_env_status ENV_RUNNING zero_env))).

Lemma ex_recv_get : zget (envs ex_recv) 0 = Some ex_recv_env.
Proof. done. Qed.

Lemma ex_recv_ok : kern_ok ex_recv [4; 5; 6] [4096] (seqZ 1 1023).
Proof.
  unfold ex_recv. erewrite upd_env_ok by done.
  by eapply (kern_ok_upd ex_kern _ _ _ 0); [apply ex_kern_ok|..].
Qed.

Lemma sys_ipc_try_send_value_witness :
  (sys_ipc_try_send 0 42 UTOP 0 ex_recv = Ret (- E_BAD_ENV) ex_recv /\
   forall e, ~ accessible ex_recv 0 0 false e) \/
  exists rcv renv, accessible ex_recv 0 0 false rcv /\ zget (envs ex_recv) rcv = Some renv /\
    if env_ipc_recving renv then
      let s' := with_envs (zset (envs ex_recv) rcv (delivered 4096 42 renv)) ex_recv in
      sys_ipc_try_send 0 42 UTOP 0 ex_recv = Ret 0 s' /\ kern_ok s' [4; 5; 6] [4096] (seqZ 1 1023)
    else sys_ipc_try_send 0 42 UTOP 0 ex_recv = Ret (- E_IPC_NOT_RECV) ex_recv.
Proof.
  exact (sys_ipc_try_send_value ex_recv _ _ _ 0 ex_recv_env 0 42 UTOP 0 ex_recv_ok eq_refl
    ex_recv_get ltac:(done) ltac:(done)).
Defined.

Lemma sys_ipc_try_send_unmapped_undefined_witness :
  sys_ipc_try_send 0 42 24576 7 ex_recv = UB.
Proof.
  refine (sys_ipc_try_send_unmapped_undefined ex_recv _ _ _ 0 ex_recv_env 0 ex_recv_env 0 42 24576 7
    ex_recv_ok eq_refl ex_recv_get _ _ _ _ _ ex_recv_get _); try done.
  exists ex_recv_env, ex_recv_env. auto using ex_recv_get.
Defined.
