(* ===== verification/XBio.v ===== *)
(** * The buffer cache of xv6 ([xv6/bio.c], [ide.c], [sleeplock.c])

    [binit], [bget], [bread], [bwrite] and [brelse] on an array of buffers
    threaded in most-recently-used order by [prev]/[next] pointers, and the
    driver's [iderw].  A block's contents are 128 32-bit words.  Pointers to
    buffers are indices of [bcache.buf], [NBUF] standing for [bcache.head].  Every
    disk write is recorded in [trace], so that crashes can be modelled.  The
    functions run to completion here: waiting for a sleep lock is [Leave]. *)
From S2P Require Import Prelude.

Definition NBUF : Z := 30.
Definition FSSIZE : Z := 1000.
Definition HEAD : Z := NBUF.
Definition B_VALID : Z := 2.
Definition B_DIRTY : Z := 4.
Definition LOGSIZE : Z := 30.
Definition MAXOPBLOCKS : Z := 10.

(** [struct buf] without its links; [b_locked]: its sleep lock is held. *)
Record buf : Type := MkBuf {
  b_flags : Z;
  b_dev : Z;
  b_blockno : Z;
  b_locked : bool;
  b_refcnt : Z;
  b_data : list Z;
}.

(** The file-system state: [bcache], the disks, and the log of [log.c]. *)
Record fsys : Type := MkFsys {
  bufs : list buf;
  bnext : list Z;
  bprev : list Z;
  disk : gmap (Z * Z) (list Z);
  trace : list (Z * Z * list Z);
  havedisk1 : bool;
  log_start : Z;
  log_size : Z;
  log_outstanding : Z;
  log_committing : bool;
  log_dev : Z;
  lh_n : Z;
  lh_block : list Z;
}.

Definition with_bufs v x := MkFsys v (bnext x) (bprev x) (disk x) (trace x) (havedisk1 x) (log_start x)
  (log_size x) (log_outstanding x) (log_committing x) (log_dev x) (lh_n x) (lh_block x).
Definition with_links nx pv x := MkFsys (bufs x) nx pv (disk x) (trace x) (havedisk1 x) (log_start x)
  (log_size x) (log_outstanding x) (log_committing x) (log_dev x) (lh_n x) (lh_block x).
Definition with_disk d t x := MkFsys (bufs x) (bnext x) (bprev x) d t (havedisk1 x) (log_start x)
  (log_size x) (log_outstanding x) (log_committing x) (log_dev x) (lh_n x) (lh_block x).
Definition with_log_pos st sz dv x := MkFsys (bufs x) (bnext x) (bprev x) (disk x) (trace x) (havedisk1 x)
  st sz (log_outstanding x) (log_committing x) dv (lh_n x) (lh_block x).
Definition with_log_ops out com x := MkFsys (bufs x) (bnext x) (bprev x) (disk x) (trace x) (havedisk1 x)
  (log_start x) (log_size x) out com (log_dev x) (lh_n x) (lh_block x).
Definition with_lh n bl x := MkFsys (bufs x) (bnext x) (bprev x) (disk x) (trace x) (havedisk1 x)
  (log_start x) (log_size x) (log_outstanding x) (log_committing x) (log_dev x) n bl.

Definition get_buf (b : Z) : M fsys buf := s ← get; deref (zget (bufs s) b).
Definition set_buf (b : Z) (v : buf) : M fsys unit :=
  _ ← get_buf b; modify (fun s => with_bufs (zset (bufs s) b v) s).
Definition get_next (b : Z) : M fsys Z := s ← get; deref (zget (bnext s) b).
Definition get_prev (b : Z) : M fsys Z := s ← get; deref (zget (bprev s) b).
Definition set_next (b v : Z) : M fsys unit :=
  _ ← get_next b; modify (fun s => with_links (zset (bnext s) b v) (bprev s) s).
Definition set_prev (b v : Z) : M fsys unit :=
  _ ← get_prev b; modify (fun s => with_links (bnext s) (zset (bprev s) b v) s).

(** Blocks never written read as zeros. *)
Definition zero_block : list Z := replicate 128 0.
Definition disk_read (d : gmap (Z * Z) (list Z)) (k : Z * Z) : list Z := default zero_block (d !! k).

(** ** Sleep locks, from the thread that runs *)
Definition acquiresleep (b : Z) : M fsys unit :=
  v ← get_buf b;
  if b_locked v then leave
  else set_buf b (MkBuf (b_flags v) (b_dev v) (b_blockno v) true (b_refcnt v) (b_data v)).
Definition releasesleep (b : Z) : M fsys unit :=
  v ← get_buf b;
  set_buf b (MkBuf (b_flags v) (b_dev v) (b_blockno v) false (b_refcnt v) (b_data v)).
Definition holdingsleep (b : Z) : M fsys bool := v ← get_buf b; mret (b_locked v).

(** ** The driver: one request at a time, to its completion *)
Definition iderw (b : Z) : M fsys unit :=
  h ← holdingsleep b;
  if negb h then panic "iderw: buf not locked"
  else
    v ← get_buf b;
    if Z.land (b_flags v) (Z.lor B_VALID B_DIRTY) =? B_VALID then panic "iderw: nothing to do"
    else
      h1 ← gets havedisk1;
      if negb (b_dev v =? 0) && negb h1 then panic "iderw: ide disk 1 not present"
      else if FSSIZE <=? b_blockno v then panic "incorrect blockno"
      else
        let k := (Z.land (b_dev v) 1, b_blockno v) in
        let fl := Z.land (Z.lor (b_flags v) B_VALID) (Z.lnot B_DIRTY) in
        s ← get;
        if has (b_flags v) B_DIRTY then
          modify (with_disk (<[k := b_data v]> (disk s)) (trace s ++ [(k, b_data v)])) ;;
          set_buf b (MkBuf fl (b_dev v) (b_blockno v) (b_locked v) (b_refcnt v) (b_data v))
        else set_buf b (MkBuf fl (b_dev v) (b_blockno v) (b_locked v) (b_refcnt v) (disk_read (disk s) k)).

(** ** [bio.c] *)
Definition binit : M fsys unit :=
  set_prev HEAD HEAD ;;
  set_next HEAD HEAD ;;
  for_each (seqZ 0 NBUF) (fun b =>
    nx ← get_next HEAD;
    set_next b nx ;;
    set_prev b HEAD ;;
    v ← get_buf b;
    set_buf b (MkBuf (b_flags v) (b_dev v) (b_blockno v) false (b_refcnt v) (b_data v)) ;;
    nx ← get_next HEAD;
    set_prev nx b ;;
    set_next HEAD b).

(** [for(b = first; b != &bcache.head; b = step b)]: the first buffer satisfying
    [test].  The list has [NBUF] buffers, so [fuel] of [NBUF + 1] never runs out. *)
Fixpoint scan (fuel : nat) (step : Z -> M fsys Z) (test : buf -> bool) (b : Z) : M fsys (option Z) :=
  match fuel with
  | O => leave
  | S n =>
      if b =? HEAD then mret None
      else
        v ← get_buf b;
        if test v then mret (Some b)
        else b' ← step b; scan n step test b'
  end.

Definition scan_fuel : nat := Z.to_nat (NBUF + 1).

Definition bget (dev blockno : Z) : M fsys Z :=
  first ← get_next HEAD;
  hit ← scan scan_fuel get_next (fun v => (b_dev v =? dev) && (b_blockno v =? blockno)) first;
  match hit with
  | Some b =>
      v ← get_buf b;
      set_buf b (MkBuf (b_flags v) (b_dev v) (b_blockno v) (b_locked v) (u32 (b_refcnt v + 1)) (b_data v)) ;;
      acquiresleep b ;;
      mret b
  | None =>
      last ← get_prev HEAD;
      free ← scan scan_fuel get_prev
        (fun v => (b_refcnt v =? 0) && (Z.land (b_flags v) B_DIRTY =? 0)) last;
      match free with
      | Some b =>
          v ← get_buf b;
          set_buf b (MkBuf 0 dev blockno (b_locked v) 1 (b_data v)) ;;
          acquiresleep b ;;
          mret b
      | None => panic "bget: no buffers"
      end
  end.

Definition bread (dev blockno : Z) : M fsys Z :=
  b ← bget dev blockno;
  v ← get_buf b;
  when (Z.land (b_flags v) B_VALID =? 0) (iderw b) ;;
  mret b.

Definition bwrite (b : Z) : M fsys unit :=
  h ← holdingsleep b;
  if negb h then panic "bwrite"
  else
    v ← get_buf b;
    set_buf b (MkBuf (Z.lor (b_flags v) B_DIRTY) (b_dev v) (b_blockno v) (b_locked v) (b_refcnt v) (b_data v)) ;;
    iderw b.

Definition brelse (b : Z) : M fsys unit :=
  h ← holdingsleep b;
  if negb h then panic "brelse"
  else
    releasesleep b ;;
    v ← get_buf b;
    let r := u32 (b_refcnt v - 1) in
    set_buf b (MkBuf (b_flags v) (b_dev v) (b_blockno v) (b_locked v) r (b_data v)) ;;
    when (r =? 0) (
      nx ← get_next b; pv ← get_prev b;
      set_prev nx pv ;;
      nx ← get_next b; pv ← get_prev b;
      set_next pv nx ;;
      hn ← get_next HEAD;
      set_next b hn ;;
      set_prev b HEAD ;;
      hn ← get_next HEAD;
      set_prev hn b ;;
      set_next HEAD b).

(** [b->data[...] = ...]: a store into a buffer. *)
Definition set_data (b : Z) (d : list Z) : M fsys unit :=
  v ← get_buf b;
  set_buf b (MkBuf (b_flags v) (b_dev v) (b_blockno v) (b_locked v) (b_refcnt v) d).

#[global] Arguments bget : simpl never.
#[global] Arguments bread : simpl never.
#[global] Arguments bwrite : simpl never.
#[global] Arguments brelse : simpl never.
#[global] Arguments iderw : simpl never.
#[global] Arguments get_buf : simpl never.
#[global] Arguments set_buf : simpl never.

(** ** The circular list *)

(** The buffers from [x] (excluded) to [y] (excluded) are [l], in both
    directions. *)
Fixpoint links (nx pv : list Z) (x : Z) (l : list Z) (y : Z) : Prop :=
  match l with
  | [] => zget nx x = Some y /\ zget pv y = Some x
  | a :: l' => zget nx x = Some a /\ zget pv a = Some x /\ links nx pv a l' y
  end.

Lemma links_app nx pv x l1 a l2 y :
  links nx pv x (l1 ++ a :: l2) y <-> links nx pv x l1 a /\ links nx pv a l2 y.
Proof.
  revert x. induction l1 as [|b l1 IH]; intros x; simpl; [tauto|]. rewrite IH. tauto.
Qed.

Lemma links_first nx pv x l y : links nx pv x l y -> zget nx x = Some (hd y l).
Proof. destruct l; simpl; tauto. Qed.
Lemma links_last nx pv x l y : links nx pv x l y -> zget pv y = Some (default x (last l)).
Proof.
  revert x. induction l as [|a l IH]; intros x; simpl; [tauto|]. intros (_ & _ & H). apply IH in H.
  rewrite last_cons. by destruct (last l).
Qed.

(** Pointers of other buffers do not matter. *)
Lemma links_frame nx pv nx' pv' x l y :
  (forall b, b ∈ x :: l -> zget nx' b = zget nx b) -> (forall b, b ∈ l ++ [y] -> zget pv' b = zget pv b) ->
  links nx pv x l y -> links nx' pv' x l y.
Proof.
  revert x. induction l as [|a l IH]; intros x Hn Hp; simpl.
  - intros [H1 H2]. rewrite Hn, Hp by set_solver. done.
  - intros (H1 & H2 & H3). rewrite Hn, Hp by set_solver. split; [done|]. split; [done|].
    apply IH; [intros; apply Hn; set_solver|intros; apply Hp; set_solver|done].
Qed.

(** The list [l] of all buffers, most recently used first. *)
Definition mru (s : fsys) (l : list Z) : Prop :=
  links (bnext s) (bprev s) HEAD l HEAD /\ l ≡ₚ seqZ 0 NBUF /\ zlen (bnext s) = NBUF + 1 /\
  zlen (bprev s) = NBUF + 1 /\ zlen (bufs s) = NBUF.

Lemma mru_NoDup s l : mru s l -> NoDup (HEAD :: l).
Proof.
  intros (_ & Hp & _). apply NoDup_cons. split; [|rewrite Hp; apply NoDup_seqZ].
  rewrite Hp, elem_of_seqZ. unfold HEAD. lia.
Qed.

Lemma mru_elem s l b : mru s l -> b ∈ l <-> 0 <= b < NBUF.
Proof. intros (_ & Hp & _). rewrite Hp, elem_of_seqZ. lia. Qed.

(** ** Searching the list *)

Lemma scan_next_ok s test : forall l x fuel,
  links (bnext s) (bprev s) x l HEAD -> x <> HEAD -> HEAD ∉ l -> (length l + 1 < fuel)%nat ->
  Forall (fun b => is_Some (zget (bufs s) b)) (x :: l) ->
  scan fuel get_next test x s
  = Ret (List.find (fun b => match zget (bufs s) b with Some v => test v | None => false end) (x :: l)) s.
Proof.
  induction l as [|a l IH]; intros x fuel Hl Hx Hni Hf Hb; destruct fuel as [|fuel]; try lia;
    simpl in Hf; apply list.Forall_cons in Hb as [[v Hv] Hb]; cbn [scan List.find];
    (destruct (Z.eqb_spec x HEAD); [done|]); unfold get_buf; exec; rewrite Hv; simpl deref; exec;
    (destruct (test v); [done|]); unfold get_next; exec.
  - destruct Hl as [Hn _]. rewrite Hn. simpl deref. exec. destruct fuel; [lia|]. done.
  - destruct Hl as (Hn & _ & Hl). rewrite Hn. simpl deref. exec.
    apply not_elem_of_cons in Hni as [Ha Hni]. apply IH; try done. lia.
Qed.

Lemma scan_prev_ok s test : forall l x fuel,
  links (bnext s) (bprev s) HEAD l x -> x <> HEAD -> HEAD ∉ l -> (length l + 1 < fuel)%nat ->
  Forall (fun b => is_Some (zget (bufs s) b)) (x :: l) ->
  scan fuel get_prev test x s
  = Ret (List.find (fun b => match zget (bufs s) b with Some v => test v | None => false end) (x :: rev l)) s.
Proof.
  induction l as [|a l IH] using rev_ind; intros x fuel Hl Hx Hni Hf Hb; destruct fuel as [|fuel]; try lia;
    apply list.Forall_cons in Hb as [[v Hv] Hb]; cbn [scan List.find];
    (destruct (Z.eqb_spec x HEAD); [done|]); unfold get_buf; exec; rewrite Hv; simpl deref; exec;
    (destruct (test v); [done|]); unfold get_prev; exec.
  - destruct Hl as [_ Hn]. rewrite Hn. simpl deref. exec. destruct fuel; [simpl in Hf; lia|]. done.
  - apply links_app in Hl as [Hl [_ Hn]]. rewrite Hn. simpl deref. exec.
    apply not_elem_of_app in Hni as [Hni Ha%not_elem_of_cons]. destruct Ha as [Ha _].
    rewrite rev_app_distr. simpl app. apply list.Forall_app in Hb as [Hb1 Hb2].
    rewrite length_app in Hf. simpl in Hf. apply IH; try done; [lia|].
    apply list.Forall_cons. split; [by apply list.Forall_cons in Hb2 as [? _]|done].
Qed.

(** ** The cache as a view of the disk *)

(** The file system's device. *)
Definition ROOTDEV : Z := 1.
Definition is_block (n : Z) (v : buf) : Prop := b_dev v = ROOTDEV /\ b_blockno v = n.
#[export] Instance is_block_dec n v : Decision (is_block n v).
Proof. unfold is_block. apply _. Defined.
Definition dirty_b (v : buf) : bool := has (b_flags v) B_DIRTY.
Definition held_b (v : buf) : bool := negb (b_refcnt v =? 0).
Definition on_disk (s : fsys) (n : Z) : list Z := disk_read (disk s) (1, n).

(** The contents of block [n]: in the cache if it is there, else on disk. *)
Definition logical (s : fsys) (n : Z) : list Z :=
  match List.find (fun v => bool_decide (is_block n v) && negb (b_flags v =? 0)) (bufs s) with
  | Some v => b_data v
  | None => on_disk s n
  end.

(** The invariant of a cache used by one thread. *)
Record bio_ok (s : fsys) : Prop := {
  bo_mru : exists l, mru s l;
  bo_dev : forall i v, zget (bufs s) i = Some v ->
    b_dev v = ROOTDEV \/ (b_dev v = 0 /\ b_flags v = 0 /\ b_refcnt v = 0);
  bo_uniq : forall i j v w n, zget (bufs s) i = Some v -> zget (bufs s) j = Some w ->
    is_block n v -> is_block n w -> i = j;
  bo_ref : forall i v, zget (bufs s) i = Some v ->
    (b_refcnt v = 0 /\ b_locked v = false) \/ (b_refcnt v = 1 /\ b_locked v = true);
  bo_flags : forall i v, zget (bufs s) i = Some v -> b_flags v = 0 \/ b_flags v = 2 \/ b_flags v = 6;
  bo_clean : forall i v, zget (bufs s) i = Some v -> b_locked v = false -> b_flags v = 2 ->
    b_data v = on_disk s (b_blockno v);
  bo_disk1 : havedisk1 s = true
}.

(** Buffer [b] holds block [n] for the running thread. *)
Definition holds (s : fsys) (b n : Z) (d : list Z) (dirty : bool) : Prop :=
  exists v, zget (bufs s) b = Some v /\ is_block n v /\ b_locked v = true /\ b_data v = d /\
    b_flags v = (if dirty then 6 else 2).

(** Block [n] is in the cache, modified and not yet on disk. *)
Definition pinned (s : fsys) (n : Z) : bool :=
  existsb (fun v => bool_decide (is_block n v) && (b_flags v =? 6)) (bufs s).

Definition ndirty (s : fsys) : Z := zlen (filter (fun v => dirty_b v = true) (bufs s)).
Definition nheld (s : fsys) : Z := zlen (filter (fun v => held_b v = true) (bufs s)).

(** [logical] and [pinned] through the buffer of the block, or through the disk. *)
Lemma block_hit s i v n : bio_ok s -> zget (bufs s) i = Some v -> is_block n v ->
  logical s n = (if b_flags v =? 0 then on_disk s n else b_data v) /\
  pinned s n = (b_flags v =? 6).
Proof.
  intros Hok Hi Hn. assert (forall w, w ∈ bufs s -> is_block n w -> w = v) as Huniq.
  { intros w [j Hj]%elem_zget Hw. assert (i = j) as <- by by eapply bo_uniq. by simplify_eq. }
  split.
  - unfold logical. destruct (List.find _ (bufs s)) as [w|] eqn:E.
    + apply List.find_some in E as [Hin [Hk%bool_decide_eq_true Hf]%andb_true_iff].
      apply list_elem_of_In in Hin. rewrite (Huniq w) in * by done. by destruct (b_flags v =? 0).
    + pose proof (List.find_none _ _ E v) as Hf. rewrite <-list_elem_of_In in Hf.
      specialize (Hf (zget_elem _ _ _ Hi)). cbv beta in Hf. rewrite bool_decide_true in Hf by done.
      by destruct (b_flags v =? 0).
  - unfold pinned. apply eq_true_iff_eq. rewrite existsb_exists. split.
    + intros (w & Hin & [Hk%bool_decide_eq_true Hf]%andb_true_iff). apply list_elem_of_In in Hin.
      by rewrite (Huniq w) in Hf by done.
    + intros Hf. exists v. rewrite <-list_elem_of_In. split; [by eapply zget_elem|].
      rewrite bool_decide_true by done. done.
Qed.

Lemma block_miss s n : (forall i v, zget (bufs s) i = Some v -> ~ is_block n v) ->
  logical s n = on_disk s n /\ pinned s n = false.
Proof.
  intros H. assert (forall w, w ∈ bufs s -> ~ is_block n w) as H' by (intros w [j Hj]%elem_zget; eauto).
  split.
  - unfold logical. destruct (List.find _ (bufs s)) as [w|] eqn:E; [|done].
    apply List.find_some in E as [Hin [Hk%bool_decide_eq_true _]%andb_true_iff].
    apply list_elem_of_In in Hin. by destruct (H' _ Hin).
  - unfold pinned. apply not_true_iff_false. rewrite existsb_exists.
    intros (w & Hin & [Hk%bool_decide_eq_true _]%andb_true_iff). apply list_elem_of_In in Hin.
    by destruct (H' _ Hin).
Qed.

Lemma block_cases s n :
  (exists i v, zget (bufs s) i = Some v /\ is_block n v) \/
  (forall i v, zget (bufs s) i = Some v -> ~ is_block n v).
Proof.
  destruct (List.find (fun v => bool_decide (is_block n v)) (bufs s)) as [w|] eqn:E.
  - left. apply List.find_some in E as [Hin Hw%bool_decide_eq_true].
    apply list_elem_of_In, elem_zget in Hin as [j Hj]. eauto.
  - right. intros i v Hi Hv. pose proof (List.find_none _ _ E v) as Hn. rewrite <-list_elem_of_In in Hn.
    specialize (Hn (zget_elem _ _ _ Hi)). cbv beta in Hn. by rewrite bool_decide_true in Hn.
Qed.

(** Counting after an update of one element. *)
Lemma count_zset (p : buf -> bool) l i v v' : zget l i = Some v ->
  zlen (filter (fun x => p x = true) (zset l i v'))
  = zlen (filter (fun x => p x = true) l) - (if p v then 1 else 0) + (if p v' then 1 else 0).
Proof.
  unfold zget, zset, zlen. case_match; [|done]. intros Hl.
  rewrite <-(take_drop_middle l _ _ Hl) at 2. rewrite insert_take_drop by (by eapply lookup_lt_Some).
  rewrite !list.filter_app, !list.filter_cons, !length_app. repeat case_decide; simpl;
    destruct (p v), (p v'); try done; lia.
Qed.

Section Search.
Context (s : fsys) (l : list Z) (Hm : mru s l).

Lemma mru_bufs : Forall (fun b => is_Some (zget (bufs s) b)) l.
Proof.
  apply list.Forall_forall. intros b Hb%(mru_elem s l b Hm). apply zget_is_Some.
  destruct Hm as (_ & _ & _ & _ & ->). lia.
Qed.

Lemma mru_length : length l = 30%nat.
Proof. destruct Hm as (_ & Hp & _). by rewrite Hp. Qed.

Definition sat (test : buf -> bool) (b : Z) : bool :=
  match zget (bufs s) b with Some v => test v | None => false end.

Lemma search_fwd test :
  get_next HEAD s = Ret (hd HEAD l) s /\
  scan scan_fuel get_next test (hd HEAD l) s = Ret (List.find (sat test) l) s.
Proof.
  pose proof Hm as (Hl & Hp & _). pose proof (mru_NoDup _ _ Hm) as [Hni _]%NoDup_cons.
  pose proof mru_length as Hlen. pose proof mru_bufs as Hb. destruct l as [|x l']; [done|]. simpl hd.
  destruct Hl as (Hn & _ & Hl). split; [unfold get_next; exec; by rewrite Hn|].
  apply not_elem_of_cons in Hni as [Hx Hni]. apply scan_next_ok; try done.
  unfold scan_fuel, NBUF. simpl in Hlen. lia.
Qed.

Lemma search_bwd test :
  get_prev HEAD s = Ret (default HEAD (last l)) s /\
  scan scan_fuel get_prev test (default HEAD (last l)) s = Ret (List.find (sat test) (rev l)) s.
Proof.
  pose proof Hm as (Hl & Hp & _). pose proof (mru_NoDup _ _ Hm) as [Hni _]%NoDup_cons.
  pose proof mru_length as Hlen. pose proof mru_bufs as Hb.
  destruct l as [|x l' _] using rev_ind; [done|]. rewrite last_snoc. simpl default.
  rewrite rev_app_distr. simpl app. apply links_app in Hl as [Hl [_ Hn]].
  apply not_elem_of_app in Hni as [Hni [Hx _]%not_elem_of_cons].
  split; [unfold get_prev; exec; by rewrite Hn|].
  apply scan_prev_ok; try done.
  - rewrite length_app in Hlen. unfold scan_fuel, NBUF. simpl in Hlen. lia.
  - apply list.Forall_app in Hb as [Hb1 [Hb2 _]%list.Forall_cons]. by apply list.Forall_cons.
Qed.

Lemma find_sat test ks : (forall b, b ∈ ks <-> 0 <= b < NBUF) ->
  match List.find (sat test) ks with
  | Some b => 0 <= b < NBUF /\ exists v, zget (bufs s) b = Some v /\ test v = true
  | None => forall i v, zget (bufs s) i = Some v -> test v = false
  end.
Proof.
  intros Hks. destruct (List.find (sat test) ks) as [b|] eqn:E.
  - apply List.find_some in E as [Hin Hs]. apply list_elem_of_In, Hks in Hin. split; [done|].
    unfold sat in Hs. destruct (zget (bufs s) b) as [v|]; [|done]. eauto.
  - intros i v Hi. assert (0 <= i < NBUF) as Hr.
    { apply zget_Some_range in Hi. destruct Hm as (_ & _ & _ & _ & Hz). lia. }
    pose proof (List.find_none _ _ E i) as Hn. rewrite <-list_elem_of_In in Hn.
    specialize (Hn (proj2 (Hks i) Hr)). unfold sat in Hn. by rewrite Hi in Hn.
Qed.

Lemma l_elems b : b ∈ l <-> 0 <= b < NBUF.
Proof. by apply (mru_elem s). Qed.
Lemma rl_elems b : b ∈ rev l <-> 0 <= b < NBUF.
Proof. rewrite <-l_elems, !list_elem_of_In. symmetry. apply in_rev. Qed.
End Search.

Lemma get_buf_ok s b v : zget (bufs s) b = Some v -> get_buf b s = Ret v s.
Proof. intros H. unfold get_buf. exec. by rewrite H. Qed.
Lemma set_buf_ok s b v v' : zget (bufs s) b = Some v ->
  set_buf b v' s = Ret tt (with_bufs (zset (bufs s) b v') s).
Proof. intros H. unfold set_buf. by exec_by (get_buf_ok s b v H). Qed.

Definition matches (dev bn : Z) (v : buf) : bool := (b_dev v =? dev) && (b_blockno v =? bn).
Definition is_free (v : buf) : bool := (b_refcnt v =? 0) && (Z.land (b_flags v) B_DIRTY =? 0).

(** [bget], exactly. *)
Lemma bget_ok s l dev bn :
  mru s l ->
  match List.find (sat s (matches dev bn)) l with
  | Some b => exists v, zget (bufs s) b = Some v /\ matches dev bn v = true /\
      (b_locked v = false -> bget dev bn s = Ret b (with_bufs (zset (bufs s) b
         (MkBuf (b_flags v) (b_dev v) (b_blockno v) true (u32 (b_refcnt v + 1)) (b_data v))) s))
  | None => (forall i v, zget (bufs s) i = Some v -> matches dev bn v = false) /\
      match List.find (sat s is_free) (rev l) with
      | Some b => exists v, zget (bufs s) b = Some v /\ is_free v = true /\
          (b_locked v = false -> bget dev bn s = Ret b (with_bufs (zset (bufs s) b
             (MkBuf 0 dev bn true 1 (b_data v))) s))
      | None => (forall i v, zget (bufs s) i = Some v -> is_free v = false) /\
          bget dev bn s = Panic "bget: no buffers" s
      end
  end.
Proof.
  intros Hm. destruct (search_fwd s l Hm (matches dev bn)) as [Hf1 Hf2].
  destruct (search_bwd s l Hm is_free) as [Hb1 Hb2].
  pose proof (find_sat s l Hm (matches dev bn) l (l_elems s l Hm)) as Hs1.
  pose proof (find_sat s l Hm is_free (rev l) (rl_elems s l Hm)) as Hs2.
  unfold bget. exec_by Hf1. exec_by Hf2. fold (matches dev bn).
  destruct (List.find (sat s (matches dev bn)) l) as [b|].
  - destruct Hs1 as (Hr & v & Hv & Ht). exists v. split; [done|]. split; [done|]. intros Hlk.
    exec_by (get_buf_ok s b v Hv). exec_by (set_buf_ok s b v
      (MkBuf (b_flags v) (b_dev v) (b_blockno v) (b_locked v) (u32 (b_refcnt v + 1)) (b_data v)) Hv).
    pose proof (zget_Some_range _ _ _ Hv) as Hr'. unfold acquiresleep. exec.
    set (s1 := with_bufs _ s).
    assert (zget (bufs s1) b = Some (MkBuf (b_flags v) (b_dev v) (b_blockno v) (b_locked v) (u32 (b_refcnt v + 1)) (b_data v)))
      as Hv1 by by apply zget_zset_eq.
    exec_by (get_buf_ok s1 b _ Hv1). cbn [b_locked]. rewrite Hlk.
    erewrite (bind_Ret _ _ s1) by (by eapply set_buf_ok). cbn [bufs with_bufs s1].
    by rewrite zset_zset_eq.
  - split; [done|]. exec_by Hb1. exec_by Hb2. fold is_free.
    destruct (List.find (sat s is_free) (rev l)) as [b|]; [|done].
    destruct Hs2 as (Hr & v & Hv & Ht). exists v. split; [done|]. split; [done|]. intros Hlk.
    exec_by (get_buf_ok s b v Hv). exec_by (set_buf_ok s b v (MkBuf 0 dev bn (b_locked v) 1 (b_data v)) Hv).
    pose proof (zget_Some_range _ _ _ Hv) as Hr'. unfold acquiresleep. exec.
    set (s1 := with_bufs _ s).
    assert (zget (bufs s1) b = Some (MkBuf 0 dev bn (b_locked v) 1 (b_data v))) as Hv1 by by apply zget_zset_eq.
    exec_by (get_buf_ok s1 b _ Hv1). cbn [b_locked]. rewrite Hlk.
    erewrite (bind_Ret _ _ s1) by (by eapply set_buf_ok). cbn [bufs with_bufs s1].
    by rewrite zset_zset_eq.
Qed.

(** ** Changing one buffer *)

(** Replacing buffer [b] by [w]: which views change.  [disk'] is the disk
    afterwards. *)
Section Change.
Context (s : fsys) (b : Z) (v w : buf) (n : Z) (s' : fsys).
Context (Hok : bio_ok s) (Hv : zget (bufs s) b = Some v) (Hw : is_block n w).
Context (Hbufs : bufs s' = zset (bufs s) b w) (Hnx : bnext s' = bnext s) (Hpv : bprev s' = bprev s).
Context (Hd1 : havedisk1 s' = true).
(** No other buffer has block [n]. *)
Context (Hun : forall i u, i <> b -> zget (bufs s) i = Some u -> ~ is_block n u).
(** Other blocks keep their place on disk. *)
Context (Hdisk : forall m, m <> n -> on_disk s' m = on_disk s m).
(** A block that leaves the cache is on disk. *)
Context (Hevict : forall m, is_block m v -> m <> n -> b_flags v <> 0 -> b_data v = on_disk s m /\ b_flags v = 2).
Context (Href : (b_refcnt w = 0 /\ b_locked w = false) \/ (b_refcnt w = 1 /\ b_locked w = true)).
Context (Hfl : b_flags w = 2 \/ b_flags w = 6).
Context (Hcl : b_locked w = false -> b_flags w = 2 -> b_data w = on_disk s' n).

Lemma change_get i : zget (bufs s') i = if decide (i = b) then Some w else zget (bufs s) i.
Proof.
  rewrite Hbufs. case_decide as E; [subst; apply zget_zset_eq; by eapply zget_Some_range|].
  by apply zget_zset_ne.
Qed.

Lemma change_ok : bio_ok s'.
Proof.
  split.
  - destruct (bo_mru s Hok) as [l (H1 & H2 & H3 & H4 & H5)]. exists l. unfold mru.
    by rewrite Hnx, Hpv, Hbufs, zlen_zset.
  - intros i u. rewrite change_get. case_decide; [intros; simplify_eq; left; apply Hw|by apply (bo_dev s Hok)].
  - intros i j u x m. rewrite !change_get. do 2 case_decide; intros; simplify_eq; try done.
    + exfalso. destruct Hw as [_ <-]. apply (Hun j x); try done. destruct H3 as [_ <-]. done.
    + exfalso. destruct Hw as [_ <-]. apply (Hun i u); try done. destruct H4 as [_ <-]. done.
    + by eapply (bo_uniq s Hok).
  - intros i u. rewrite change_get. case_decide; [intros; by simplify_eq|by apply (bo_ref s Hok)].
  - intros i u. rewrite change_get. case_decide; [intros; simplify_eq; by right|by apply (bo_flags s Hok)].
  - intros i u. rewrite change_get. case_decide as E.
    + intros; simplify_eq. destruct Hw as [_ ->]. by apply Hcl.
    + intros Hi Hl Hf. rewrite Hdisk; [by apply (bo_clean s Hok i)|]. intros En.
      apply (Hun i u); try done. split; [|done].
      destruct (bo_dev s Hok _ _ Hi) as [?|(_ & ? & _)]; [done|lia].
  - done.
Qed.

Lemma change_this : logical s' n = b_data w /\ pinned s' n = (b_flags w =? 6).
Proof.
  destruct (block_hit s' b w n change_ok) as [H1 H2]; [rewrite change_get; by rewrite decide_True|done|].
  rewrite H1. split; [|done]. destruct (Z.eqb_spec (b_flags w) 0); [lia|done].
Qed.

Lemma change_other m : m <> n -> logical s' m = logical s m /\ pinned s' m = pinned s m.
Proof.
  intros Hm. destruct (block_cases s m) as [(i & u & Hi & Hu)|Hno].
  - destruct (block_hit s i u m Hok Hi Hu) as [-> ->]. destruct (decide (i = b)) as [->|Hib].
    + rewrite Hv in Hi. injection Hi as <-. destruct (block_miss s' m) as [-> ->].
      { intros j x. rewrite change_get. case_decide as E.
        - intros [= <-] [_ E']. destruct Hw as [_ E'']. lia.
        - intros Hj Hx. apply E. by eapply (bo_uniq s Hok). }
      rewrite Hdisk by done. destruct (Z.eqb_spec (b_flags v) 0) as [E|E].
      * by rewrite E.
      * destruct (Hevict m Hu Hm E) as [-> ->]. done.
    + assert (zget (bufs s') i = Some u) as Hi' by (rewrite change_get; by rewrite decide_False).
      destruct (block_hit s' i u m change_ok Hi' Hu) as [-> ->]. by rewrite Hdisk.
  - destruct (block_miss s m Hno) as [-> ->]. destruct (block_miss s' m) as [-> ->]; [|by rewrite Hdisk].
    intros j x. rewrite change_get. case_decide as E; [|apply Hno].
    intros [= <-] [_ E']. destruct Hw as [_ E'']. lia.
Qed.

Lemma change_counts :
  ndirty s' = ndirty s - (if dirty_b v then 1 else 0) + (if dirty_b w then 1 else 0) /\
  nheld s' = nheld s - (if held_b v then 1 else 0) + (if held_b w then 1 else 0).
Proof. unfold ndirty, nheld. rewrite Hbufs. split; by apply count_zset. Qed.

Lemma change_holds b' m d x : b' <> b -> holds s' b' m d x <-> holds s b' m d x.
Proof. intros Hne. unfold holds. rewrite change_get. by rewrite decide_False. Qed.
End Change.

(** ** [bread], [bwrite] and [brelse] on the view *)

(** Only the cache, the disk and its trace changed. *)
Definition fs_frame (s s' : fsys) : Prop :=
  s' = with_disk (disk s') (trace s') (with_links (bnext s') (bprev s') (with_bufs (bufs s') s)).
Lemma fs_frame_refl s : fs_frame s s.
Proof. by destruct s. Qed.
Lemma fs_frame_trans s1 s2 s3 : fs_frame s1 s2 -> fs_frame s2 s3 -> fs_frame s1 s3.
Proof.
  unfold fs_frame. destruct s1, s2, s3. cbn. intros H1 H2. injection H1. injection H2.
  intros. subst. reflexivity.
Qed.

Lemma count_or (p q : buf -> bool) (l : list buf) :
  (forall v, v ∈ l -> p v || q v = true) ->
  zlen l <= zlen (filter (fun v => p v = true) l) + zlen (filter (fun v => q v = true) l).
Proof.
  unfold zlen. induction l as [|v l IH]; intros H; simpl; [lia|].
  rewrite !list.filter_cons. specialize (IH (fun w Hw => H w (list_elem_of_further _ _ _ Hw))).
  specialize (H v (list_elem_of_here _ _)). repeat case_decide; simpl;
    destruct (p v), (q v); try done; lia.
Qed.

Lemma free_exists s : bio_ok s -> ndirty s + nheld s < NBUF ->
  ~ (forall i v, zget (bufs s) i = Some v -> is_free v = false).
Proof.
  intros Hok Hc Hno. destruct (bo_mru s Hok) as [l (_ & _ & _ & _ & Hlen)].
  pose proof (count_or dirty_b held_b (bufs s)) as Hcnt. fold (ndirty s) (nheld s) in Hcnt.
  assert (forall v, v ∈ bufs s -> dirty_b v || held_b v = true) as H; [|specialize (Hcnt H); lia].
  intros v [i Hi]%elem_zget. specialize (Hno i v Hi). unfold is_free in Hno.
  unfold dirty_b, held_b, has. destruct (b_refcnt v =? 0), (Z.land (b_flags v) B_DIRTY =? 0); done.
Qed.

Lemma iderw_read s b v : zget (bufs s) b = Some v -> b_locked v = true -> b_flags v = 0 ->
  b_dev v = ROOTDEV -> b_blockno v < FSSIZE -> havedisk1 s = true ->
  iderw b s = Ret tt (with_bufs (zset (bufs s) b
    (MkBuf 2 ROOTDEV (b_blockno v) true (b_refcnt v) (on_disk s (b_blockno v)))) s).
Proof.
  intros Hv Hl Hf Hd Hn H1. unfold iderw, holdingsleep. exec. exec_by (get_buf_ok s b v Hv). rewrite Hl.
  exec. cbn [negb]. exec_by (get_buf_ok s b v Hv).
  rewrite Hf. change (_ =? B_VALID) with false. cbv iota. exec. rewrite H1, andb_false_r.
  destruct (Z.leb_spec FSSIZE (b_blockno v)); [lia|]. exec. rewrite Hd.
  change (has _ B_DIRTY) with false. cbv iota. rewrite (set_buf_ok s b v) by done. by rewrite Hl.
Qed.

Lemma iderw_write s b v : zget (bufs s) b = Some v -> b_locked v = true -> b_flags v = 6 ->
  b_dev v = ROOTDEV -> b_blockno v < FSSIZE -> havedisk1 s = true ->
  iderw b s = Ret tt (with_bufs (zset (bufs s) b
      (MkBuf 2 ROOTDEV (b_blockno v) true (b_refcnt v) (b_data v)))
    (with_disk (<[(1, b_blockno v) := b_data v]> (disk s)) (trace s ++ [(1, b_blockno v, b_data v)]) s)).
Proof.
  intros Hv Hl Hf Hd Hn H1. unfold iderw, holdingsleep. exec. exec_by (get_buf_ok s b v Hv). rewrite Hl.
  exec. cbn [negb]. exec_by (get_buf_ok s b v Hv).
  rewrite Hf. change (_ =? B_VALID) with false. cbv iota. exec. rewrite H1, andb_false_r.
  destruct (Z.leb_spec FSSIZE (b_blockno v)); [lia|]. exec. rewrite Hd.
  change (has _ B_DIRTY) with true. cbv iota. exec. erewrite set_buf_ok by exact Hv. by rewrite Hl.
Qed.

Lemma bread_exec s dev n b v s1 :
  bget dev n s = Ret b s1 -> zget (bufs s1) b = Some v -> b_locked v = true ->
  b_flags v = 0 \/ b_flags v = 2 \/ b_flags v = 6 -> b_dev v = ROOTDEV -> b_blockno v < FSSIZE ->
  havedisk1 s1 = true ->
  bread dev n s = Ret b (with_bufs (zset (bufs s1) b
    (if b_flags v =? 0 then MkBuf 2 ROOTDEV (b_blockno v) true (b_refcnt v) (on_disk s1 (b_blockno v)) else v)) s1).
Proof.
  intros Hg Hv Hl Hf Hd Hn H1. unfold bread. exec_by Hg. exec_by (get_buf_ok s1 b v Hv).
  destruct Hf as [Hf|[Hf|Hf]]; rewrite Hf; cbn.
  - by exec_by (iderw_read s1 b v Hv Hl Hf Hd Hn H1).
  - unfold when. exec. rewrite zset_id by done. by destruct s1.
  - unfold when. exec. rewrite zset_id by done. by destruct s1.
Qed.

(** Block [n] is not held. *)
Definition unheld (s : fsys) (n : Z) : Prop :=
  forall i v, zget (bufs s) i = Some v -> is_block n v -> b_locked v = false.

(** The effect of [bread]. *)
Record bread_post (s s' : fsys) (b n : Z) : Prop := {
  bp_ok : bio_ok s';
  bp_holds : holds s' b n (logical s n) (pinned s n);
  bp_view : forall m, logical s' m = logical s m /\ pinned s' m = pinned s m;
  bp_disk : disk s' = disk s /\ trace s' = trace s /\ fs_frame s s';
  bp_counts : ndirty s' = ndirty s /\ nheld s' = nheld s + 1;
  bp_others : forall b' m d x, holds s b' m d x -> holds s' b' m d x;
  bp_unheld : forall m, m <> n -> unheld s m -> unheld s' m
}.

Lemma bread_post_intro s b v w n :
  bio_ok s -> zget (bufs s) b = Some v -> b_locked v = false ->
  w = MkBuf (b_flags w) ROOTDEV n true 1 (b_data w) ->
  (is_block n v \/ (forall i u, zget (bufs s) i = Some u -> ~ is_block n u) /\ b_flags v <> 6) ->
  b_data w = logical s n -> b_flags w = (if pinned s n then 6 else 2) ->
  bread_post s (with_bufs (zset (bufs s) b w) s) b n.
Proof.
  intros Hok Hv Hl Hw Hcase Hd Hf. set (s' := with_bufs _ s).
  assert (is_block n w) as Hwn by (by rewrite Hw).
  assert (b_refcnt v = 0) as Hr by (destruct (bo_ref s Hok _ _ Hv) as [[? _]|[_ ?]]; [done|congruence]).
  assert (forall i u, i <> b -> zget (bufs s) i = Some u -> ~ is_block n u) as Hun.
  { intros i u Hi Hu Hn. destruct Hcase as [Hvn|[Hno _]]; [|by apply (Hno i u)].
    apply Hi. by eapply (bo_uniq s Hok). }
  assert (forall m, is_block m v -> m <> n -> b_flags v <> 0 -> b_data v = on_disk s m /\ b_flags v = 2) as Hev.
  { intros m Hm Hmn Hf0. destruct Hcase as [[_ ?]|[_ Hf6]]; [destruct Hm as [_ ?]; lia|].
    assert (b_flags v = 2) as E by (destruct (bo_flags s Hok _ _ Hv) as [?|[?|?]]; lia).
    split; [|done]. rewrite (bo_clean s Hok _ _ Hv Hl E). destruct Hm as [_ <-]. done. }
  assert ((b_refcnt w = 0 /\ b_locked w = false) \/ (b_refcnt w = 1 /\ b_locked w = true)) as Href
    by (rewrite Hw; by right).
  assert (b_flags w = 2 \/ b_flags w = 6) as Hfl by (rewrite Hf; destruct (pinned s n); tauto).
  assert (b_locked w = false -> b_flags w = 2 -> b_data w = on_disk s' n) as Hcl by (rewrite Hw; done).
  assert (bio_ok s') as Hok' by by eapply (change_ok s b v w n s'); try done; apply (bo_disk1 s Hok).
  pose proof (zget_Some_range _ _ _ Hv) as Hrange.
  split; try done.
  - exists w. rewrite Hf. split_and!; try done; [by apply zget_zset_eq|by rewrite Hw].
  - intros m. destruct (decide (m = n)) as [->|Hm].
    + destruct (change_this s b v w n s') as [-> ->]; try done; [apply (bo_disk1 s Hok)|].
      split; [done|]. rewrite Hf. by destruct (pinned s n).
    + apply (change_other s b v w n s'); try done. apply (bo_disk1 s Hok).
  - destruct (change_counts s b v w s') as [-> ->]; try done. unfold held_b.
    assert (b_refcnt w = 1) as Hrw by by rewrite Hw. rewrite Hr, Hrw. simpl.
    split; [|lia]. assert (dirty_b v = dirty_b w) as ->; [|destruct (dirty_b w); lia].
    unfold dirty_b. rewrite Hf. destruct Hcase as [Hvn|[Hno Hf6]].
    + destruct (block_hit s b v n Hok Hv Hvn) as [_ ->].
      destruct (bo_flags s Hok _ _ Hv) as [->|[->| ->]]; done.
    + destruct (block_miss s n Hno) as [_ ->]. by destruct (bo_flags s Hok _ _ Hv) as [->|[->|?]].
  - intros b' m d x Hh. destruct (decide (b' = b)) as [->|Hne].
    + destruct Hh as (u & Hu & _ & Hlu & _). congruence.
    + by eapply (change_holds s).
  - intros m Hm Hun' i u. simpl. rewrite zget_zset. case_decide as E.
    + destruct E as [<- _]. intros [= <-] [_ En]. destruct Hwn as [_ En']. lia.
    + apply Hun'.
Qed.

Lemma bread_ok s n :
  bio_ok s -> 0 <= n < FSSIZE -> unheld s n -> pinned s n = true \/ ndirty s + nheld s < NBUF ->
  exists b s', bread ROOTDEV n s = Ret b s' /\ bread_post s s' b n.
Proof.
  intros Hok Hn Hunheld Hroom. destruct (bo_mru s Hok) as [l Hm].
  pose proof (bget_ok s l ROOTDEV n Hm) as Hg. pose proof (bo_disk1 s Hok) as H1.
  assert (forall v, matches ROOTDEV n v = true <-> is_block n v) as Hmt.
  { intros v. unfold matches, is_block. rewrite andb_true_iff, !Z.eqb_eq. done. }
  destruct (List.find (sat s (matches ROOTDEV n)) l) as [b|].
  - destruct Hg as (v & Hv & Hvn%Hmt & Hrun). pose proof (Hunheld b v Hv Hvn) as Hl.
    specialize (Hrun Hl). destruct (bo_ref s Hok _ _ Hv) as [[Hr _]|[_ ?]]; [|congruence].
    rewrite Hr in Hrun. change (u32 (0 + 1)) with 1 in Hrun. pose proof Hvn as [Hvd Hvb].
    rewrite Hvd, Hvb in Hrun. pose proof (bo_flags s Hok _ _ Hv) as Hf.
    pose proof (bread_exec s ROOTDEV n b _ _ Hrun
      (zget_zset_eq _ _ _ (zget_Some_range _ _ _ Hv)) eq_refl Hf eq_refl ltac:(simpl; lia) H1) as He.
    cbn [b_flags b_blockno b_refcnt bufs with_bufs] in He. rewrite zset_zset_eq in He.
    eexists b, _. split; [exact He|]. destruct (block_hit s b v n Hok Hv Hvn) as [HL HP].
    change (with_bufs ?x (with_bufs ?y s)) with (with_bufs x s).
    destruct Hf as [Hf|[Hf|Hf]]; rewrite Hf in *; cbn [Z.eqb] in *; cbv iota in *;
      (eapply (bread_post_intro s b v); [done|done|done| |by left| |]);
      rewrite ?HL, ?HP; try done; by rewrite Hf.
  - destruct Hg as [Hno Hfree]. assert (forall i u, zget (bufs s) i = Some u -> ~ is_block n u) as Hno'.
    { intros i u Hu Hx%Hmt. by rewrite (Hno i u Hu) in Hx. }
    destruct (block_miss s n Hno') as [HL HP].
    destruct (List.find (sat s is_free) (rev l)) as [b|].
    2: { exfalso. destruct Hroom as [Hp|Hroom]; [congruence|]. by apply (free_exists s Hok Hroom), Hfree. }
    destruct Hfree as (v & Hv & Hvf & Hrun). unfold is_free in Hvf. apply andb_true_iff in Hvf as [Hr Hd].
    destruct (bo_ref s Hok _ _ Hv) as [[_ Hl]|[? _]]; [|lia]. specialize (Hrun Hl).
    pose proof (bread_exec s ROOTDEV n b _ _ Hrun
      (zget_zset_eq _ _ _ (zget_Some_range _ _ _ Hv)) eq_refl (or_introl eq_refl) eq_refl ltac:(simpl; lia) H1) as He.
    cbn [b_flags b_blockno b_refcnt bufs with_bufs Z.eqb] in He. rewrite zset_zset_eq in He.
    eexists b, _. split; [exact He|]. change (with_bufs ?x (with_bufs ?y s)) with (with_bufs x s).
    eapply (bread_post_intro s b v); [done|done|done|done| | |]; rewrite ?HL, ?HP; try done.
    right. split; [done|]. intros E. by rewrite E in Hd.
Qed.

(** Writing a held buffer to disk. *)
Record write_post (s s' : fsys) (b n : Z) (d : list Z) (x : bool) : Prop := {
  wp_ok : bio_ok s';
  wp_holds : holds s' b n d false;
  wp_this : logical s' n = d /\ pinned s' n = false;
  wp_view : forall m, m <> n -> logical s' m = logical s m /\ pinned s' m = pinned s m;
  wp_disk : disk s' = <[(1, n) := d]> (disk s) /\ trace s' = trace s ++ [(1, n, d)] /\ fs_frame s s';
  wp_counts : ndirty s' = ndirty s - (if x then 1 else 0) /\ nheld s' = nheld s;
  wp_others : forall b' m d' x', b' <> b -> holds s b' m d' x' -> holds s' b' m d' x';
  wp_unheld : forall m, m <> n -> unheld s m -> unheld s' m
}.

Lemma set_bwrite_ok s b n d0 x d :
  bio_ok s -> holds s b n d0 x -> n < FSSIZE ->
  exists s', (set_data b d ;; bwrite b) s = Ret tt s' /\ write_post s s' b n d x.
Proof.
  intros Hok (v & Hv & Hn & Hl & Hd0 & Hf) Hnb. pose proof (zget_Some_range _ _ _ Hv) as Hr.
  destruct (bo_ref s Hok _ _ Hv) as [[_ ?]|[Href _]]; [congruence|]. pose proof Hn as [Hdev Hbn].
  pose proof (bo_disk1 s Hok) as H1.
  set (v1 := MkBuf (b_flags v) (b_dev v) (b_blockno v) (b_locked v) (b_refcnt v) d).
  set (s1 := with_bufs (zset (bufs s) b v1) s).
  assert (zget (bufs s1) b = Some v1) as Hv1 by by apply zget_zset_eq.
  set (v2 := MkBuf 6 (b_dev v) (b_blockno v) (b_locked v) (b_refcnt v) d).
  set (s2 := with_bufs (zset (bufs s) b v2) s).
  assert (zget (bufs s2) b = Some v2) as Hv2 by by apply zget_zset_eq.
  pose (w := MkBuf 2 ROOTDEV n true 1 d).
  pose (s' := with_bufs (zset (bufs s) b w) (with_disk (<[(1, n) := d]> (disk s)) (trace s ++ [(1, n, d)]) s)).
  assert (forall m, m <> n -> on_disk s' m = on_disk s m) as Hdk.
  { intros m Hm. unfold on_disk, disk_read. simpl. rewrite lookup_insert_ne; [done|]. congruence. }
  assert (is_block n w) as Hw by done.
  assert (forall i u, i <> b -> zget (bufs s) i = Some u -> ~ is_block n u) as Hun.
  { intros i u Hi Hu Hx. apply Hi. by eapply (bo_uniq s Hok). }
  assert (forall m, is_block m v -> m <> n -> b_flags v <> 0 -> b_data v = on_disk s m /\ b_flags v = 2) as Hev.
  { intros m [_ Hm] Hmn. lia. }
  assert ((b_refcnt w = 0 /\ b_locked w = false) \/ (b_refcnt w = 1 /\ b_locked w = true)) as Href' by by right.
  assert (b_flags w = 2 \/ b_flags w = 6) as Hfl by by left.
  assert (b_locked w = false -> b_flags w = 2 -> b_data w = on_disk s' n) as Hcl by done.
  exists s'. split; [|split].
  - unfold set_data. exec. exec_by (get_buf_ok s b v Hv). exec_by (set_buf_ok s b v v1 Hv). fold s1.
    unfold bwrite, holdingsleep. exec. exec_by (get_buf_ok s1 b v1 Hv1). exec. cbn [b_locked v1]. rewrite Hl.
    cbn [negb]. exec_by (get_buf_ok s1 b v1 Hv1).
    assert (Z.lor (b_flags v1) B_DIRTY = 6) as Hlor by (cbn [b_flags v1]; rewrite Hf; by destruct x).
    rewrite Hlor. exec_by (set_buf_ok s1 b v1 v2 Hv1).
    cbn [bufs with_bufs s1]. rewrite zset_zset_eq. change (with_bufs _ s1) with s2.
    rewrite (iderw_write s2 b v2 Hv2 Hl eq_refl Hdev) by (cbn [b_blockno v2]; rewrite ?Hbn; done).
    cbn [bufs with_bufs s2 b_blockno b_refcnt b_data v2 disk trace]. rewrite zset_zset_eq, Hbn, Href. done.
  - by eapply (change_ok s b v w n s').
  - exists w. split_and!; try done. by apply zget_zset_eq.
  - destruct (change_this s b v w n s') as [-> ->]; done.
  - intros m Hm. by apply (change_other s b v w n s').
  - done.
  - destruct (change_counts s b v w s') as [-> ->]; try done.
    assert (dirty_b v = x /\ held_b v = true) as [-> ->]
      by (unfold dirty_b, held_b; rewrite Hf, Href; by destruct x).
    change (dirty_b w) with false. change (held_b w) with true. split; lia.
  - intros b' m d' x' Hne Hh. by eapply (change_holds s).
  - intros m Hm Hun' i u. simpl. rewrite zget_zset. case_decide as E; [|apply Hun'].
    destruct E as [<- _]. intros [= <-] [_ En]. simpl in En. lia.
Qed.

(** ** Releasing: the buffer moves to the front of the list *)

Lemma links_remove nx pv b l2 y : forall l1 x,
  links nx pv x l1 b -> links nx pv b l2 y -> NoDup (x :: l1 ++ b :: l2) -> y ∉ l1 ++ b :: l2 ->
  (forall z, z ∈ x :: l1 ++ y :: l2 -> 0 <= z < zlen nx /\ 0 <= z < zlen pv) ->
  links (zset nx (default x (last l1)) (hd y l2)) (zset pv (hd y l2) (default x (last l1))) x (l1 ++ l2) y.
Proof.
  induction l1 as [|a l1 IH]; intros x H1 H2 Hnd Hy Hr.
  - simpl in *. apply NoDup_cons in Hnd as [Hx Hnd]. apply NoDup_cons in Hnd as [Hb Hnd].
    assert (0 <= x < zlen nx) as Hrx by (apply Hr; set_solver).
    destruct l2 as [|c l2]; simpl in *.
    + split; apply zget_zset_eq; [done|apply Hr; set_solver].
    + split; [by apply zget_zset_eq|]. split; [apply zget_zset_eq, Hr; set_solver|].
      destruct H2 as (_ & _ & H2). apply NoDup_cons in Hnd as [Hc Hnd].
      eapply links_frame; [| |exact H2].
      * intros z Hz. apply zget_zset_ne. set_solver.
      * intros z Hz. apply zget_zset_ne. set_solver.
  - destruct H1 as (Hn & Hp & H1). rewrite last_cons. simpl app in *.
    apply NoDup_cons in Hnd as [Hx Hnd]. pose proof Hnd as [Ha _]%NoDup_cons.
    assert (default x (match last l1 with Some y0 => Some y0 | None => Some a end) = default a (last l1)) as ->
      by by destruct (last l1).
    assert (default a (last l1) ∈ a :: l1) as HP.
    { destruct (last l1) as [z|] eqn:E; [|apply list_elem_of_here].
      apply last_Some_elem_of in E. by apply list_elem_of_further. }
    assert (hd y l2 ∈ y :: l2) as HN by (destruct l2; set_solver).
    split; [rewrite zget_zset_ne; [done|set_solver]|].
    split; [rewrite zget_zset_ne; [done|set_solver]|].
    apply IH; try done; [set_solver|]. intros z Hz. apply Hr. set_solver.
Qed.

Lemma links_insert nx pv b l x y :
  links nx pv x l y -> NoDup (x :: l) -> y ∉ l -> b ∉ x :: y :: l ->
  (forall z, z ∈ b :: x :: y :: l -> 0 <= z < zlen nx /\ 0 <= z < zlen pv) ->
  links (zset (zset nx b (hd y l)) x b) (zset (zset pv b x) (hd y l) b) x (b :: l) y.
Proof.
  intros H Hnd Hy Hb Hr. apply NoDup_cons in Hnd as [Hx Hnd].
  assert (forall z, z ∈ b :: x :: y :: l -> 0 <= z < zlen (zset nx b (hd y l))) as Hr1
    by (intros z Hz; rewrite zlen_zset; by apply Hr).
  assert (forall z, z ∈ b :: x :: y :: l -> 0 <= z < zlen (zset pv b x)) as Hr2
    by (intros z Hz; rewrite zlen_zset; by apply Hr).
  assert (hd y l ∈ y :: l) as HN by (destruct l; set_solver).
  simpl. split; [apply zget_zset_eq, Hr1; set_solver|].
  split; [rewrite zget_zset_ne by set_solver; apply zget_zset_eq, Hr; set_solver|].
  destruct l as [|c l]; simpl in *.
  - split; [rewrite zget_zset_ne by set_solver; apply zget_zset_eq, Hr; set_solver|].
    apply zget_zset_eq, Hr2. set_solver.
  - destruct H as (_ & _ & H). apply NoDup_cons in Hnd as [Hc Hnd].
    split; [rewrite zget_zset_ne by set_solver; apply zget_zset_eq, Hr; set_solver|].
    split; [apply zget_zset_eq, Hr2; set_solver|]. eapply links_frame; [| |exact H].
    + intros z Hz. rewrite !zget_zset_ne; [done|set_solver..].
    + intros z Hz. rewrite !zget_zset_ne; [done|set_solver..].
Qed.

Lemma get_next_ok s b x : zget (bnext s) b = Some x -> get_next b s = Ret x s.
Proof. intros H. unfold get_next. exec. by rewrite H. Qed.
Lemma get_prev_ok s b x : zget (bprev s) b = Some x -> get_prev b s = Ret x s.
Proof. intros H. unfold get_prev. exec. by rewrite H. Qed.
Lemma set_next_ok s b v : 0 <= b < zlen (bnext s) ->
  set_next b v s = Ret tt (with_links (zset (bnext s) b v) (bprev s) s).
Proof. intros [x Hx]%zget_in_range. unfold set_next. by exec_by (get_next_ok s b x Hx). Qed.
Lemma set_prev_ok s b v : 0 <= b < zlen (bprev s) ->
  set_prev b v s = Ret tt (with_links (bnext s) (zset (bprev s) b v) s).
Proof. intros [x Hx]%zget_in_range. unfold set_prev. by exec_by (get_prev_ok s b x Hx). Qed.

(** The pointer stores of [brelse]. *)
Definition move_front (b : Z) : M fsys unit :=
  nx ← get_next b; pv ← get_prev b;
  set_prev nx pv ;;
  nx ← get_next b; pv ← get_prev b;
  set_next pv nx ;;
  hn ← get_next HEAD;
  set_next b hn ;;
  set_prev b HEAD ;;
  hn ← get_next HEAD;
  set_prev hn b ;;
  set_next HEAD b.

Lemma move_front_ok s l1 b l2 :
  mru s (l1 ++ b :: l2) ->
  exists nx pv, move_front b s = Ret tt (with_links nx pv s) /\
    mru (with_links nx pv s) (b :: l1 ++ l2).
Proof.
  intros Hm. pose proof (mru_NoDup _ _ Hm) as Hnd. destruct Hm as (Hl & Hp & Hn & Hpv & Hlen).
  apply links_app in Hl as [H1 H2].
  set (P := default HEAD (last l1)). set (N := hd HEAD l2).
  assert (zget (bnext s) b = Some N) as EN by by apply links_first in H2.
  assert (zget (bprev s) b = Some P) as EP by by apply links_last in H1.
  assert (forall z, z ∈ HEAD :: l1 ++ b :: l2 -> 0 <= z < 31) as Hr.
  { intros z [->|Hz]%elem_of_cons; [unfold HEAD, NBUF; lia|]. rewrite Hp, elem_of_seqZ in Hz.
    unfold NBUF in Hz. lia. }
  unfold NBUF in Hn, Hpv.
  assert (b <> HEAD /\ b ∉ l1 /\ b ∉ l2) as (HbH & Hb1 & Hb2).
  { apply NoDup_cons in Hnd as [Hh Hnd]. apply NoDup_app in Hnd as (_ & Hd & Hnd).
    apply NoDup_cons in Hnd as [Hb _]. split_and!; [|intros Hx; apply (Hd b Hx)|done];
      [intros ->; apply Hh|]; set_solver. }
  assert (HEAD ∉ l1 ++ b :: l2) as HniH by by apply NoDup_cons in Hnd as [? _].
  assert (N ∈ HEAD :: l1 ++ b :: l2 /\ N <> b) as [HN HNb].
  { unfold N. destruct l2 as [|c l2]; simpl; [split; [set_solver|done]|]. split; [set_solver|].
    intros ->. set_solver. }
  assert (P ∈ HEAD :: l1 ++ b :: l2 /\ P <> b) as [HP HPb].
  { unfold P. destruct (last l1) as [z|] eqn:E; simpl; [|split; [set_solver|done]].
    apply last_Some_elem_of in E. split; [set_solver|]. intros ->. done. }
  set (nx1 := zset (bnext s) P N). set (pv1 := zset (bprev s) N P).
  assert (links nx1 pv1 HEAD (l1 ++ l2) HEAD) as Hrem.
  { apply (links_remove _ _ b); try done. intros z Hz. rewrite Hn, Hpv.
    assert (0 <= z < 31) by (apply Hr; set_solver). lia. }
  set (F := hd HEAD (l1 ++ l2)).
  assert (zget nx1 HEAD = Some F) as EF by by apply links_first in Hrem.
  assert (F ∈ HEAD :: l1 ++ b :: l2) as HF.
  { unfold F. destruct l1 as [|c l1]; simpl; [destruct l2; set_solver|set_solver]. }
  exists (zset (zset nx1 b F) HEAD b), (zset (zset pv1 b HEAD) F b). split.
  - pose proof (Hr _ HN). pose proof (Hr _ HP). pose proof (Hr _ HF).
    assert (0 <= b < 31) by (apply Hr; set_solver). assert (0 <= HEAD < 31) by (unfold HEAD, NBUF; lia).
    unfold move_front. exec_by (get_next_ok s b N EN). exec_by (get_prev_ok s b P EP).
    exec_by (set_prev_ok s N P ltac:(lia)). fold pv1.
    set (s1 := with_links (bnext s) pv1 s).
    assert (zget (bprev s1) b = Some P) as EP1 by (simpl; unfold pv1; by rewrite zget_zset_ne).
    exec_by (get_next_ok s1 b N EN). exec_by (get_prev_ok s1 b P EP1).
    exec_by (set_next_ok s1 P N ltac:(simpl; lia)). change (with_links _ _ s1) with (with_links nx1 pv1 s).
    set (s2 := with_links nx1 pv1 s). exec_by (get_next_ok s2 HEAD F EF).
    assert (zlen nx1 = 31 /\ zlen pv1 = 31) as [L1 L2] by (unfold nx1, pv1; rewrite !zlen_zset; lia).
    exec_by (set_next_ok s2 b F ltac:(simpl; lia)).
    set (s3 := with_links _ _ s2). exec_by (set_prev_ok s3 b HEAD ltac:(simpl; lia)).
    set (s4 := with_links _ _ s3).
    assert (zget (bnext s4) HEAD = Some F) as EF4 by (simpl; by rewrite zget_zset_ne).
    exec_by (get_next_ok s4 HEAD F EF4). exec_by (set_prev_ok s4 F b ltac:(simpl; rewrite ?zlen_zset; lia)).
    set (s5 := with_links _ _ s4). rewrite (set_next_ok s5 HEAD b) by (simpl; rewrite ?zlen_zset; lia).
    reflexivity.
  - assert (b :: l1 ++ l2 ≡ₚ l1 ++ b :: l2) as Hperm by apply Permutation_middle.
    unfold mru. simpl. unfold nx1, pv1. rewrite !zlen_zset.
    split; [|split; [|done]].
    + fold nx1 pv1. apply links_insert; try done.
      * apply NoDup_cons. split; [set_solver|]. apply NoDup_cons in Hnd as [_ Hnd].
        rewrite <-Hperm in Hnd. by apply NoDup_cons in Hnd as [_ ?].
      * set_solver.
      * set_solver.
      * intros z Hz. unfold nx1, pv1. rewrite !zlen_zset, Hn, Hpv.
        assert (0 <= z < 31) by (apply Hr; set_solver). lia.
    + by rewrite Hperm.
Qed.

Lemma links_unique nx pv y : forall l l' x, y ∉ l -> y ∉ l' ->
  links nx pv x l y -> links nx pv x l' y -> l = l'.
Proof.
  induction l as [|a l IH]; intros [|c l'] x Hy Hy'; simpl; [done|..].
  - intros [H1 _] (H2 & _). rewrite H1 in H2. injection H2 as <-. set_solver.
  - intros (H1 & _) [H2 _]. rewrite H1 in H2. injection H2 as <-. set_solver.
  - intros (H1 & _ & H3) (H2 & _ & H4). rewrite H1 in H2. injection H2 as <-. f_equal.
    apply (IH l' a); [set_solver..|done|done].
Qed.
Lemma mru_unique s l l' : mru s l -> mru s l' -> l = l'.
Proof.
  intros H H'. pose proof (mru_NoDup _ _ H) as [? _]%NoDup_cons. pose proof (mru_NoDup _ _ H') as [? _]%NoDup_cons.
  destruct H as [H _], H' as [H' _]. by eapply links_unique.
Qed.

(** The effect of [brelse] on a buffer whose contents are pinned or on disk. *)
Record rel_post (s s' : fsys) (b n : Z) : Prop := {
  rp_ok : bio_ok s';
  rp_view : forall m, logical s' m = logical s m /\ pinned s' m = pinned s m;
  rp_disk : disk s' = disk s /\ trace s' = trace s /\ fs_frame s s';
  rp_counts : ndirty s' = ndirty s /\ nheld s' = nheld s - 1;
  rp_others : forall b' m d x, b' <> b -> holds s b' m d x -> holds s' b' m d x;
  rp_unheld : forall m, m = n \/ unheld s m -> unheld s' m;
  rp_mru : forall l, mru s l -> exists l1 l2, l = l1 ++ b :: l2 /\ mru s' (b :: l1 ++ l2)
}.

Lemma bio_ok_links s nx pv l : bio_ok s -> mru (with_links nx pv s) l -> bio_ok (with_links nx pv s).
Proof. intros [] Hm. split; try done. by exists l. Qed.

Lemma brelse_exec s b v l1 l2 :
  zget (bufs s) b = Some v -> b_locked v = true -> b_refcnt v = 1 -> mru s (l1 ++ b :: l2) ->
  exists nx pv,
    let s' := with_links nx pv (with_bufs (zset (bufs s) b
      (MkBuf (b_flags v) (b_dev v) (b_blockno v) false 0 (b_data v))) s) in
    brelse b s = Ret tt s' /\ mru s' (b :: l1 ++ l2).
Proof.
  intros Hv Hl Hr Hm. pose proof (zget_Some_range _ _ _ Hv) as Hrange.
  set (v1 := MkBuf (b_flags v) (b_dev v) (b_blockno v) false (b_refcnt v) (b_data v)).
  set (v2 := MkBuf (b_flags v) (b_dev v) (b_blockno v) false 0 (b_data v)).
  set (s1 := with_bufs (zset (bufs s) b v1) s). set (s2 := with_bufs (zset (bufs s) b v2) s).
  assert (zget (bufs s1) b = Some v1) as Hv1 by by apply zget_zset_eq.
  assert (mru s2 (l1 ++ b :: l2)) as Hm2 by (destruct Hm as (?&?&?&?&?); unfold mru; simpl; by rewrite zlen_zset).
  destruct (move_front_ok s2 l1 b l2 Hm2) as (nx & pv & Hrun & Hm').
  exists nx, pv. split; [|done]. unfold brelse, holdingsleep, releasesleep. exec.
  exec_by (get_buf_ok s b v Hv). rewrite Hl. exec. cbn [negb]. exec. exec_by (get_buf_ok s b v Hv).
  exec_by (set_buf_ok s b v v1 Hv). fold s1. exec_by (get_buf_ok s1 b v1 Hv1).
  cbn [b_refcnt v1]. rewrite Hr. change (u32 (1 - 1)) with 0. cbn [Z.eqb].
  exec_by (set_buf_ok s1 b v1 v2 Hv1). cbn [bufs with_bufs s1]. rewrite zset_zset_eq.
  change (with_bufs _ s1) with s2. exact Hrun.
Qed.

Lemma brelse_ok s b n d x :
  bio_ok s -> holds s b n d x -> x = true \/ d = on_disk s n ->
  exists s', brelse b s = Ret tt s' /\ rel_post s s' b n.
Proof.
  intros Hok (v & Hv & Hn & Hl & Hd & Hf) Hx. destruct (bo_mru s Hok) as [l Hm].
  destruct (bo_ref s Hok _ _ Hv) as [[_ ?]|[Hr _]]; [congruence|].
  assert (exists l1 l2, l = l1 ++ b :: l2) as (l1 & l2 & ->).
  { apply list_elem_of_split, (mru_elem s l b Hm). apply zget_Some_range in Hv.
    destruct Hm as (_ & _ & _ & _ & <-). done. }
  destruct (brelse_exec s b v l1 l2 Hv Hl Hr Hm) as (nx & pv & Hrun & Hm'). cbv zeta in *.
  pose proof Hn as [Hdev Hbn].
  set (w := MkBuf (b_flags v) (b_dev v) (b_blockno v) false 0 (b_data v)) in *.
  set (s1 := with_bufs (zset (bufs s) b w) s) in *. set (s' := with_links nx pv s1) in *.
  assert (forall i u, i <> b -> zget (bufs s) i = Some u -> ~ is_block n u) as Hun.
  { intros i u Hi Hu Hy. apply Hi. by eapply (bo_uniq s Hok). }
  assert (is_block n w) as Hw by done.
  assert (forall m, is_block m v -> m <> n -> b_flags v <> 0 -> b_data v = on_disk s m /\ b_flags v = 2) as Hev.
  { intros m [_ Hm0] Hmn. lia. }
  assert ((b_refcnt w = 0 /\ b_locked w = false) \/ (b_refcnt w = 1 /\ b_locked w = true)) as Href' by by left.
  assert (b_flags w = 2 \/ b_flags w = 6) as Hfl by (cbn [b_flags w]; rewrite Hf; destruct x; auto).
  assert (b_locked w = false -> b_flags w = 2 -> b_data w = on_disk s1 n) as Hcl.
  { intros _. cbn [b_flags w b_data]. rewrite Hf. destruct Hx as [->| ->]; [done|]. intros _. by rewrite Hd. }
  assert (bio_ok s1) as Hok1 by (eapply (change_ok s b v w n s1); try done; apply (bo_disk1 s Hok)).
  pose proof (bo_disk1 s Hok) as H1. destruct (block_hit s b v n Hok Hv Hn) as [HL HP].
  exists s'. split; [exact Hrun|]. split.
  - by eapply bio_ok_links.
  - intros m. change (logical s' m) with (logical s1 m). change (pinned s' m) with (pinned s1 m).
    destruct (decide (m = n)) as [->|Hmn].
    + destruct (change_this s b v w n s1) as [-> ->]; try done. rewrite HL, HP. cbn [b_flags b_data w].
      rewrite Hf. by destruct x.
    + by apply (change_other s b v w n s1).
  - done.
  - change (ndirty s') with (ndirty s1). change (nheld s') with (nheld s1).
    destruct (change_counts s b v w s1) as [-> ->]; try done. change (dirty_b w) with (dirty_b v).
    change (held_b w) with false. unfold held_b at 1. rewrite Hr. split; [destruct (dirty_b v)|]; simpl; lia.
  - intros b' m d' x' Hne Hh. change (holds s1 b' m d' x'). by eapply (change_holds s).
  - intros m Hun' i u. simpl. rewrite zget_zset. case_decide as E; [by destruct E as [<- _]; intros [= <-] _|].
    intros Hi Hu. destruct Hun' as [->|Hun']; [|by eapply Hun'].
    exfalso. apply (Hun i u); try done. intros ->. apply E. split; [done|by eapply zget_Some_range].
  - intros l Hml. assert (l = l1 ++ b :: l2) as ->; [|eauto].
    eapply mru_unique; [exact Hml|exact Hm].
Qed.

(** ** The cache implements the disk *)

(** What a client of the cache does with a block. *)
Inductive blk_op : Type :=
| RdBlk (n : Z)
| WrBlk (n : Z) (d : list Z).

Definition blk_no (o : blk_op) : Z := match o with RdBlk n => n | WrBlk n _ => n end.

Definition run_op (o : blk_op) : M fsys (list Z) :=
  match o with
  | RdBlk n => b ← bread ROOTDEV n; v ← get_buf b; brelse b ;; mret (b_data v)
  | WrBlk n d => b ← bread ROOTDEV n; set_data b d ;; bwrite b ;; brelse b ;; mret d
  end.

Fixpoint run_ops (l : list blk_op) : M fsys (list (list Z)) :=
  match l with
  | [] => mret []
  | o :: l' => x ← run_op o; xs ← run_ops l'; mret (x :: xs)
  end.

(** The specification: a disk without a cache. *)
Fixpoint spec_ops (d : gmap (Z * Z) (list Z)) (l : list blk_op)
  : list (list Z) * gmap (Z * Z) (list Z) :=
  match l with
  | [] => ([], d)
  | RdBlk n :: l' => let r := spec_ops d l' in (disk_read d (1, n) :: fst r, snd r)
  | WrBlk n x :: l' => let r := spec_ops (<[(1, n) := x]> d) l' in (x :: fst r, snd r)
  end.

(** No buffer is held or modified between the operations. *)
Record idle (s : fsys) : Prop := {
  id_ok : bio_ok s;
  id_none : ndirty s = 0 /\ nheld s = 0;
  id_unheld : forall m, unheld s m;
  id_view : forall m, logical s m = on_disk s m /\ pinned s m = false
}.

Lemma holds_get s b n d x : holds s b n d x -> exists v, get_buf b s = Ret v s /\ b_data v = d /\
  b_blockno v = n /\ b_flags v = (if x then 6 else 2) /\ zget (bufs s) b = Some v.
Proof. intros (v & Hv & [_ Hb] & _ & Hd & Hf). exists v. split_and!; try done. by apply get_buf_ok. Qed.

Lemma run_op_ok s o : idle s -> 0 <= blk_no o < FSSIZE ->
  exists r s', run_op o s = Ret r s' /\ idle s' /\
    r = match o with RdBlk n => on_disk s n | WrBlk _ d => d end /\
    disk s' = match o with RdBlk _ => disk s | WrBlk n d => <[(1, n) := d]> (disk s) end.
Proof.
  intros [Hok [Hd Hh] Hun Hv] Hn.
  destruct (bread_ok s (blk_no o) Hok Hn (Hun _)) as (b & s1 & Hrun & Hp);
    [right; unfold NBUF; lia|]. destruct (Hv (blk_no o)) as [HL HP].
  destruct Hp as [Hok1 Hh1 Hv1 (Hd1 & _ & _) [Hc1 Hc1'] _ Hu1]. rewrite HL, HP in Hh1.
  destruct o as [n|n d]; cbn [blk_no run_op] in *.
  - destruct (holds_get _ _ _ _ _ Hh1) as (v & Hg & Hvd & _).
    destruct (brelse_ok s1 b n _ _ Hok1 Hh1) as (s2 & Hrun2 & Hp2); [right; unfold on_disk; by rewrite Hd1|].
    destruct Hp2 as [Hok2 Hv2 (Hd2 & _ & _) [Hc2 Hc2'] _ Hu2 _].
    exists (on_disk s n), s2. assert (disk s2 = disk s) as E by congruence. split_and!; [|split|done|done].
    + exec_by Hrun. exec_by Hg. exec_by Hrun2. by rewrite Hvd.
    + done.
    + lia.
    + intros m. apply Hu2. destruct (decide (m = n)); [by left|right]. by apply Hu1.
    + intros m. destruct (Hv2 m) as [-> ->], (Hv1 m) as [-> ->], (Hv m) as [-> ->].
      unfold on_disk. by rewrite E.
  - destruct (set_bwrite_ok s1 b n _ _ d Hok1 Hh1) as (s2 & Hrun2 & Hp2); [lia|].
    destruct Hp2 as [Hok2 Hh2 [Ht2 Ht2'] Hv2 (Hd2 & _ & _) [Hc2 Hc2'] _ Hu2].
    assert (d = on_disk s2 n) as Hdn by (unfold on_disk, disk_read; by rewrite Hd2, lookup_insert_eq).
    destruct (brelse_ok s2 b n _ _ Hok2 Hh2 (or_intror Hdn)) as (s3 & Hrun3 & Hp3).
    destruct Hp3 as [Hok3 Hv3 (Hd3 & _ & _) [Hc3 Hc3'] _ Hu3 _].
    exists d, s3. split_and!; [|split|done|congruence].
    + exec_by Hrun. unfold mbind, M_bind in Hrun2 |- *. destruct (set_data b d s1); try done.
      rewrite Hrun2. by rewrite Hrun3.
    + done.
    + lia.
    + intros m. apply Hu3. destruct (decide (m = n)); [by left|right]. by apply Hu2, Hu1.
    + intros m. destruct (Hv3 m) as [-> ->]. unfold on_disk, disk_read. rewrite Hd3.
      destruct (decide (m = n)) as [->|Hm].
      * rewrite Ht2, Ht2'. split; [|done]. exact Hdn.
      * destruct (Hv2 m Hm) as [-> ->], (Hv1 m) as [-> ->], (Hv m) as [-> ->]. split; [|done].
        rewrite Hd2, lookup_insert_ne by congruence. by rewrite Hd1.
Qed.

Lemma run_ops_ok l : forall s, idle s -> Forall (fun o => 0 <= blk_no o < FSSIZE) l ->
  exists s', run_ops l s = Ret (fst (spec_ops (disk s) l)) s' /\ idle s' /\ disk s' = snd (spec_ops (disk s) l).
Proof.
  induction l as [|o l IH]; intros s Hs Hl; [by exists s|]. apply list.Forall_cons in Hl as [Ho Hl].
  destruct (run_op_ok s o Hs Ho) as (r & s1 & Hrun & Hs1 & Hr & Hd).
  destruct (IH s1 Hs1 Hl) as (s2 & Hrun2 & Hs2 & Hd2). exists s2. cbn [run_ops].
  split; [|split; [done|]]; destruct o; cbn [spec_ops fst snd]; rewrite Hd in *; try done;
    exec_by Hrun; exec_by Hrun2; by rewrite Hr.
Qed.

(** The state at boot: a zeroed [bcache]. *)
Definition zero_buf : buf := MkBuf 0 0 0 false 0 zero_block.
Definition boot_fsys (d : gmap (Z * Z) (list Z)) : fsys :=
  MkFsys (replicate 30 zero_buf) (replicate 31 0) (replicate 31 0) d [] true 0 0 0 false 0 0 (replicate 30 0).

Definition after_binit (d : gmap (Z * Z) (list Z)) : fsys :=
  with_links (30 :: seqZ 0 30) (seqZ 1 30 ++ [0]) (boot_fsys d).

Lemma binit_run d : binit (boot_fsys d) = Ret tt (after_binit d).
Proof. vm_compute. reflexivity. Qed.

Lemma boot_bufs i v : zget (replicate 30 zero_buf) i = Some v -> v = zero_buf.
Proof. by intros [H _]%zget_elem%elem_of_replicate. Qed.

Lemma zero_buf_is_block i v n : zget (replicate 30 zero_buf) i = Some v -> ~ is_block n v.
Proof. intros ->%boot_bufs [H _]. done. Qed.

Lemma after_binit_mru d : mru (after_binit d) (rev (seqZ 0 30)).
Proof.
  unfold mru. split; [vm_compute; tauto|]. split; [by rewrite <-Permutation_rev|]. vm_compute. tauto.
Qed.

Lemma after_binit_idle d : idle (after_binit d).
Proof.
  split.
  - split; cbn [after_binit with_links bufs boot_fsys].
    + exists (rev (seqZ 0 30)). apply after_binit_mru.
    + intros i v ->%boot_bufs. by right.
    + intros i j v w n Hi Hj Hv _. by destruct (zero_buf_is_block i v n Hi Hv).
    + intros i v ->%boot_bufs. by left.
    + intros i v ->%boot_bufs. by left.
    + intros i v ->%boot_bufs. done.
    + done.
  - split; vm_compute; reflexivity.
  - intros m i v Hi Hv. by destruct (zero_buf_is_block i v m Hi Hv).
  - intros m. apply block_miss. intros i v Hi. by apply (zero_buf_is_block i).
Qed.

(** C11. The buffer cache is transparent: from boot ([binit] on a zeroed
    [bcache]), any sequence of block reads and writes through [bread]/[bwrite]/[brelse]
    returns, without panicking, blocking or undefined behaviour, what the disk
    alone would have returned, and leaves the disk as the writes would have left
    it, whatever the cache evicts on the way. *)
Theorem buffer_cache_refines_disk d l :
  Forall (fun o => 0 <= blk_no o < FSSIZE) l ->
  exists s', (binit ;; run_ops l) (boot_fsys d) = Ret (fst (spec_ops d l)) s' /\ disk s' = snd (spec_ops d l).
Proof.
  intros Hl. destruct (run_ops_ok l (after_binit d) (after_binit_idle d) Hl) as (s' & Hrun & _ & Hd).
  exists s'. exec_by (binit_run d). split; [exact Hrun|exact Hd].
Qed.
Lemma buffer_cache_refines_disk_witness :
  exists s', (binit ;; run_ops (WrBlk 7 [1] :: map RdBlk (seqZ 0 40))) (boot_fsys ∅)
             = Ret ([1] :: replicate 7 zero_block ++ [1] :: replicate 32 zero_block) s' /\
    disk s' = <[(1, 7) := [1]]> ∅.
Proof.
  assert (spec_ops ∅ (WrBlk 7 [1] :: map RdBlk (seqZ 0 40))
    = ([1] :: replicate 7 zero_block ++ [1] :: replicate 32 zero_block, <[(1, 7) := [1]]> ∅)) as E
    by (vm_compute; reflexivity).
  pose proof (buffer_cache_refines_disk ∅ (WrBlk 7 [1] :: map RdBlk (seqZ 0 40))) as H.
  rewrite E in H. apply H.
  apply list.Forall_forall. intros o [->|Ho]%elem_of_cons; [vm_compute; split; congruence|].
  apply list_elem_of_fmap in Ho as (x & -> & Hx%elem_of_seqZ). unfold FSSIZE. simpl. lia.
Defined.

(** [bget] finds a cached block wherever it is in the list; otherwise it
    recycles the least recently used buffer that is neither referenced nor dirty -
    the last one of the list, in most-recently-used order - and touches no other
    buffer, nor the list, nor the disk; it panics only when every buffer is
    referenced or dirty.  (A found or recycled buffer is returned locked; a found one
    whose lock is taken is waited for.) *)
Theorem bget_recycles_least_recently_used s l dev bn :
  mru s l ->
  match List.find (sat s (matches dev bn)) l with
  | Some b => exists v, zget (bufs s) b = Some v /\ matches dev bn v = true /\
      (b_locked v = false -> bget dev bn s = Ret b (with_bufs (zset (bufs s) b
         (MkBuf (b_flags v) (b_dev v) (b_blockno v) true (u32 (b_refcnt v + 1)) (b_data v))) s))
  | None =>
      match List.find (sat s is_free) (rev l) with
      | Some b => exists v, zget (bufs s) b = Some v /\
          b_refcnt v = 0 /\ has (b_flags v) B_DIRTY = false /\
          (b_locked v = false -> bget dev bn s = Ret b (with_bufs (zset (bufs s) b
             (MkBuf 0 dev bn true 1 (b_data v))) s))
      | None => (forall i v, zget (bufs s) i = Some v -> b_refcnt v <> 0 \/ has (b_flags v) B_DIRTY = true) /\
          bget dev bn s = Panic "bget: no buffers" s
      end
  end.
Proof.
  intros Hm. pose proof (bget_ok s l dev bn Hm) as H.
  assert (forall v, is_free v = (b_refcnt v =? 0) && negb (has (b_flags v) B_DIRTY)) as Hf
    by (intros v; unfold is_free, has; by rewrite negb_involutive).
  destruct (List.find (sat s (matches dev bn)) l); [done|]. destruct H as [_ H].
  destruct (List.find (sat s is_free) (rev l)).
  - destruct H as (v & Hv & Hfr & Hrun). rewrite Hf in Hfr. apply andb_true_iff in Hfr as [H1 H2].
    exists v. split_and!; [done|lia|by destruct (has _ _)|done].
  - destruct H as [Hno Hrun]. split; [|done]. intros i v Hi. specialize (Hno i v Hi). rewrite Hf in Hno.
    destruct (b_refcnt v =? 0) eqn:E; [right|left; lia]. by destruct (has _ _).
Qed.
Lemma bget_recycles_least_recently_used_witness :
  bget 1 5 (after_binit ∅)
  = Ret 0 (with_bufs (zset (bufs (after_binit ∅)) 0 (MkBuf 0 1 5 true 1 zero_block)) (after_binit ∅)).
Proof.
  assert (mru (after_binit ∅) (rev (seqZ 0 30))) as Hm.
  { apply after_binit_mru. }
  destruct (bget_recycles_least_recently_used (after_binit ∅) (rev (seqZ 0 30)) 1 5 Hm) as (v & Hv & _ & _ & H).
  apply boot_bufs in Hv as ->. by apply H.
Defined.
