(* ===== verification/XLog.v ===== *)
(** * The write-ahead log of xv6 ([xv6/log.c], [readsb] of [fs.c])

    Transactions of file-system calls on top of the buffer cache of [XBio].  The
    log occupies the blocks [log_start .. log_start + log_size - 1] of the root
    device: a header block (the number of logged blocks, then their numbers), then
    the copies.  The crash theorems quantify over every prefix of the sequence of
    disk writes ([trace]) that a run makes, so a crash between any two writes is
    covered; a single block write is atomic. *)
From S2P Require Import Prelude XBio.

(** ** [log.c] *)

Definition get_word (b i : Z) : M fsys Z := v ← get_buf b; deref (zget (b_data v) i).
Definition set_word (b i x : Z) : M fsys unit :=
  v ← get_buf b;
  _ ← deref (zget (b_data v) i);
  set_data b (zset (b_data v) i x).
Definition get_lh (i : Z) : M fsys Z := s ← get; deref (zget (lh_block s) i).
Definition set_lh (i x : Z) : M fsys unit :=
  _ ← get_lh i; modify (fun s => with_lh (lh_n s) (zset (lh_block s) i x) s).
Definition set_lh_n (n : Z) : M fsys unit := modify (fun s => with_lh n (lh_block s) s).

(** The bodies of the loops of [install_trans] and [write_log] end with the copy of a
    held buffer to another: [memmove], [bwrite] and two [brelse]. *)
Definition copy_held (bs bd : Z) : M fsys unit :=
  v ← get_buf bs;
  set_data bd (b_data v) ;;
  bwrite bd ;;
  brelse bs ;;
  brelse bd.

Definition install_block (tail : Z) : M fsys unit :=
  s ← get;
  lbuf ← bread (u32 (log_dev s)) (u32 (log_start s + tail + 1));
  x ← get_lh tail;
  dbuf ← bread (u32 (log_dev s)) (u32 x);
  copy_held lbuf dbuf.

Definition install_trans : M fsys unit :=
  n ← gets lh_n;
  for_each (seqZ 0 n) install_block.

Definition read_head : M fsys unit :=
  s ← get;
  buf ← bread (u32 (log_dev s)) (u32 (log_start s));
  n ← get_word buf 0;
  set_lh_n (s32 n) ;;
  for_each (seqZ 0 (s32 n)) (fun i => x ← get_word buf (1 + i); set_lh i (s32 x)) ;;
  brelse buf.

Definition write_head : M fsys unit :=
  s ← get;
  buf ← bread (u32 (log_dev s)) (u32 (log_start s));
  set_word buf 0 (u32 (lh_n s)) ;;
  for_each (seqZ 0 (lh_n s)) (fun i => x ← get_lh i; set_word buf (1 + i) (u32 x)) ;;
  bwrite buf ;;
  brelse buf.

Definition recover_from_log : M fsys unit :=
  read_head ;;
  install_trans ;;
  set_lh_n 0 ;;
  write_head.

(** [readsb]: the words of [struct superblock]. *)
Definition readsb (dev : Z) : M fsys (list Z) :=
  bp ← bread (u32 dev) 1;
  v ← get_buf bp;
  brelse bp ;;
  mret (take 7 (b_data v)).

Definition initlog (dev : Z) : M fsys unit :=
  sb ← readsb dev;
  nlog ← deref (zget sb 3);
  logstart ← deref (zget sb 4);
  modify (with_log_pos (s32 logstart) (s32 nlog) dev) ;;
  recover_from_log.

(** [sleep] gives up the processor: [Leave]. *)
Definition begin_op : M fsys unit :=
  s ← get;
  if log_committing s then leave
  else if LOGSIZE <? lh_n s + (log_outstanding s + 1) * MAXOPBLOCKS then leave
  else modify (with_log_ops (log_outstanding s + 1) false).

Definition log_block (tail : Z) : M fsys unit :=
  s ← get;
  to ← bread (u32 (log_dev s)) (u32 (log_start s + tail + 1));
  x ← get_lh tail;
  from ← bread (u32 (log_dev s)) (u32 x);
  copy_held from to.

Definition write_log : M fsys unit :=
  n ← gets lh_n;
  for_each (seqZ 0 n) log_block.

Definition commit : M fsys unit :=
  n ← gets lh_n;
  when (0 <? n) (
    write_log ;;
    write_head ;;
    install_trans ;;
    set_lh_n 0 ;;
    write_head).

Definition end_op : M fsys unit :=
  modify (fun s => with_log_ops (log_outstanding s - 1) (log_committing s) s) ;;
  s ← get;
  if log_committing s then panic "log.committing"
  else if log_outstanding s =? 0 then
    modify (with_log_ops 0 true) ;;
    commit ;;
    modify (fun s => with_log_ops (log_outstanding s) false s)
  else mret tt.

(** The slot of block [x] in the first [n] entries: its own, or the next free. *)
Definition log_slot (n : Z) (bl : list Z) (x : Z) : Z :=
  match list_find (fun y => y = x) (take (Z.to_nat n) bl) with
  | Some (i, _) => Z.of_nat i
  | None => n
  end.

Definition log_write (b : Z) : M fsys unit :=
  s ← get;
  if (LOGSIZE <=? lh_n s) || (log_size s - 1 <=? lh_n s) then panic "too big a transaction"
  else if log_outstanding s <? 1 then panic "log_write outside of trans"
  else
    v ← get_buf b;
    let i := log_slot (lh_n s) (lh_block s) (s32 (b_blockno v)) in
    set_lh i (s32 (b_blockno v)) ;;
    when (i =? lh_n s) (set_lh_n (lh_n s + 1)) ;;
    set_buf b (MkBuf (Z.lor (b_flags v) B_DIRTY) (b_dev v) (b_blockno v) (b_locked v) (b_refcnt v) (b_data v)).

#[global] Arguments get_word : simpl never.
#[global] Arguments set_word : simpl never.
#[global] Arguments set_data : simpl never.
#[global] Arguments get_lh : simpl never.
#[global] Arguments set_lh : simpl never.
#[global] Arguments write_head : simpl never.
#[global] Arguments read_head : simpl never.
#[global] Arguments install_trans : simpl never.
#[global] Arguments write_log : simpl never.

(** ** Disk writes and crashes *)

(** The disk after a sequence of writes. *)
Definition apply_writes (ws : list (Z * Z * list Z)) (d : gmap (Z * Z) (list Z)) : gmap (Z * Z) (list Z) :=
  foldl (fun d w => <[fst w := snd w]> d) d ws.

Lemma apply_writes_app ws1 ws2 d : apply_writes (ws1 ++ ws2) d = apply_writes ws2 (apply_writes ws1 d).
Proof. apply foldl_app. Qed.

Lemma apply_writes_out ws d k : k ∉ map fst ws -> apply_writes ws d !! k = d !! k.
Proof.
  revert d. induction ws as [|w ws IH]; intros d Hk; [done|]. simpl in *.
  apply not_elem_of_cons in Hk as [H1 H2]. rewrite IH by done. by apply lookup_insert_ne.
Qed.

Lemma apply_writes_in ws d d' k : k ∈ map fst ws -> apply_writes ws d !! k = apply_writes ws d' !! k.
Proof.
  revert d d'. induction ws as [|w ws IH] using rev_ind; intros d d' Hk; [by apply elem_of_nil in Hk|].
  rewrite !apply_writes_app. simpl. destruct (decide (fst w = k)) as [<-|Hne]; [by rewrite !lookup_insert_eq|].
  rewrite !lookup_insert_ne by done. apply IH. rewrite map_app, elem_of_app in Hk. set_solver.
Qed.

Lemma apply_writes_agree ws d k x :
  (forall w, w ∈ ws -> fst w = k -> snd w = x) -> k ∈ map fst ws -> apply_writes ws d !! k = Some x.
Proof.
  induction ws as [|w ws IH] using rev_ind; intros H Hk; [by apply elem_of_nil in Hk|].
  rewrite apply_writes_app. simpl. destruct (decide (fst w = k)) as [E|Hne].
  - rewrite E, lookup_insert_eq. f_equal. apply H; [set_solver|done].
  - rewrite lookup_insert_ne by done. apply IH; [intros; apply H; set_solver|].
    rewrite map_app, elem_of_app in Hk. set_solver.
Qed.

(** Repeating a sequence of writes after an interrupted run of part of it. *)
Lemma apply_writes_redo ws ws' d : map fst ws' ⊆ map fst ws ->
  apply_writes ws (apply_writes ws' d) = apply_writes ws d.
Proof.
  intros Hsub. apply map_eq. intros k. destruct (decide (k ∈ map fst ws)) as [Hin|Hout].
  - by apply apply_writes_in.
  - rewrite !apply_writes_out; [done|done| |done]. intros H. by apply Hout, Hsub.
Qed.

(** ** Copying blocks through the cache *)

(** No buffer is held. *)
Definition quiet (s : fsys) : Prop := bio_ok s /\ nheld s = 0 /\ forall m, unheld s m.

Lemma quiet_clean s m : quiet s -> pinned s m = false -> logical s m = on_disk s m.
Proof.
  intros (Hok & _ & Hun) Hp. destruct (block_cases s m) as [(i & v & Hi & Hv)|Hno]; [|by apply block_miss].
  destruct (block_hit s i v m Hok Hi Hv) as [-> HP]. rewrite HP in Hp.
  destruct (bo_flags s Hok _ _ Hi) as [E|[E|E]]; rewrite E in *; try done.
  simpl. rewrite (bo_clean s Hok _ _ Hi (Hun _ _ _ Hi Hv) E). by destruct Hv as [_ ->].
Qed.

Lemma holds_view s b n d x : bio_ok s -> holds s b n d x -> logical s n = d /\ pinned s n = x.
Proof.
  intros Hok (v & Hv & Hn & _ & Hd & Hf). destruct (block_hit s b v n Hok Hv Hn) as [-> ->].
  rewrite Hf, Hd. by destruct x.
Qed.

(** Block [n] was written with [d]; everything else looks as before. *)
Record wrote (s s' : fsys) (n : Z) (d : list Z) : Prop := {
  wr_quiet : quiet s';
  wr_this : logical s' n = d /\ pinned s' n = false;
  wr_view : forall m, m <> n -> logical s' m = logical s m /\ pinned s' m = pinned s m;
  wr_disk : disk s' = <[(1, n) := d]> (disk s) /\ trace s' = trace s ++ [(1, n, d)] /\ fs_frame s s';
  wr_dirty : ndirty s' = ndirty s - (if pinned s n then 1 else 0)
}.

(** Two blocks read one after the other. *)
Record reads2 (s s1 s2 : fsys) (ba bb a b : Z) : Prop := {
  r2_ok : bio_ok s2;
  r2_frame1 : fs_frame s s1;
  r2_a : holds s2 ba a (logical s a) (pinned s a);
  r2_b : holds s2 bb b (logical s b) (pinned s b);
  r2_view : forall m, logical s2 m = logical s m /\ pinned s2 m = pinned s m;
  r2_disk : disk s2 = disk s /\ trace s2 = trace s /\ fs_frame s s2;
  r2_counts : ndirty s2 = ndirty s /\ nheld s2 = 2;
  r2_unheld : forall m, m <> a -> m <> b -> unheld s2 m;
  r2_clean : forall m, pinned s m = true \/ logical s m = on_disk s2 m
}.

Lemma reads2_ok s a b :
  quiet s -> a <> b -> 0 <= a < FSSIZE -> 0 <= b < FSSIZE ->
  pinned s a = true \/ ndirty s < NBUF -> pinned s b = true \/ ndirty s + 1 < NBUF ->
  exists ba bb s1 s2, bread ROOTDEV a s = Ret ba s1 /\ bread ROOTDEV b s1 = Ret bb s2 /\
    reads2 s s1 s2 ba bb a b.
Proof.
  intros Hq Hab Ha Hb Hra Hrb. pose proof Hq as (Hok & Hh & Hun).
  destruct (bread_ok s a Hok Ha (Hun a)) as (ba & s1 & Hrun1 & [Hok1 Hh1 Hv1 (Hd1 & Ht1 & Hfr1) [Hc1 Hc1'] _ Hu1]);
    [rewrite Hh; destruct Hra; [by left|right; lia]|].
  destruct (Hv1 b) as [HLb HPb].
  destruct (bread_ok s1 b Hok1 Hb) as (bb & s2 & Hrun2 & [Hok2 Hh2 Hv2 (Hd2 & Ht2 & Hfr2) [Hc2 Hc2'] Ho2 Hu2]);
    [by apply Hu1|rewrite HPb, Hc1, Hc1', Hh; destruct Hrb; [by left|right; lia]|].
  exists ba, bb, s1, s2. split_and!; [done|done|]. rewrite HLb, HPb in Hh2.
  split; try done.
  - by apply Ho2.
  - intros m. destruct (Hv2 m) as [-> ->]. apply Hv1.
  - split_and!; [congruence|congruence|by eapply fs_frame_trans].
  - lia.
  - intros m Hma Hmb. by apply Hu2, Hu1.
  - intros m. destruct (pinned s m) eqn:E; [by left|right]. rewrite (quiet_clean s m Hq E).
    unfold on_disk. by rewrite Hd2, Hd1.
Qed.

Lemma copy_held_ok s bs bd src dst ds xs dd xd :
  bio_ok s -> holds s bs src ds xs -> holds s bd dst dd xd -> src <> dst -> dst < FSSIZE ->
  xs = true \/ ds = on_disk s src -> nheld s = 2 -> (forall m, m <> src -> m <> dst -> unheld s m) ->
  exists s', copy_held bs bd s = Ret tt s' /\ wrote s s' dst ds.
Proof.
  intros Hok Hs Hd Hne Hdst Hcl Hnh Hun.
  assert (bs <> bd) as Hb.
  { intros ->. destruct Hs as (v & Hv & [_ H1] & _), Hd as (w & Hw & [_ H2] & _).
    rewrite Hv in Hw. injection Hw as <-. lia. }
  destruct (holds_view _ _ _ _ _ Hok Hd) as [_ HPd]. destruct (holds_view _ _ _ _ _ Hok Hs) as [HLs HPs].
  destruct (holds_get _ _ _ _ _ Hs) as (v & Hg & Hvd & _).
  destruct (set_bwrite_ok s bd dst dd xd ds Hok Hd Hdst) as
    (s1 & Hrun1 & [Hok1 Hh1 [Ht1 Hp1] Hv1 (Hd1 & Htr1 & Hfr1) [Hc1 Hc1'] Ho1 Hu1]).
  pose proof (Ho1 bs src ds xs Hb Hs) as Hs1.
  assert (xs = true \/ ds = on_disk s1 src) as Hcl1.
  { destruct Hcl as [->| ->]; [by left|right]. unfold on_disk, disk_read. rewrite Hd1, lookup_insert_ne by congruence. done. }
  destruct (brelse_ok s1 bs src ds xs Hok1 Hs1 Hcl1) as
    (s2 & Hrun2 & [Hok2 Hv2 (Hd2 & Htr2 & Hfr2) [Hc2 Hc2'] Ho2 Hu2 _]).
  pose proof (Ho2 bd dst ds false ltac:(done) Hh1) as Hh2.
  assert (ds = on_disk s2 dst) as Hcl2 by (unfold on_disk, disk_read; by rewrite Hd2, Hd1, lookup_insert_eq).
  destruct (brelse_ok s2 bd dst ds false Hok2 Hh2 (or_intror Hcl2)) as
    (s3 & Hrun3 & [Hok3 Hv3 (Hd3 & Htr3 & Hfr3) [Hc3 Hc3'] Ho3 Hu3 _]).
  exists s3. split.
  - unfold copy_held. exec_by Hg. rewrite Hvd. unfold mbind, M_bind in Hrun1 |- *.
    destruct (set_data bd ds s); try done. by rewrite Hrun1, Hrun2.
  - split.
    + split; [done|]. split; [lia|]. intros m. destruct (decide (m = dst)) as [->|Hm]; [apply Hu3; by left|].
      apply Hu3. right. apply Hu2. destruct (decide (m = src)) as [->|Hm']; [by left|right].
      by apply Hu1, Hun.
    + destruct (Hv3 dst) as [-> ->], (Hv2 dst) as [-> ->]. by rewrite Ht1.
    + intros m Hm. destruct (Hv3 m) as [-> ->], (Hv2 m) as [-> ->]. by apply Hv1.
    + split_and!; [congruence|congruence|]. eapply fs_frame_trans; [exact Hfr1|]. by eapply fs_frame_trans.
    + rewrite HPd. destruct xd; lia.
Qed.

(** Nothing was written: only the cache may have changed. *)
Record untouched (s s' : fsys) : Prop := {
  ut_quiet : quiet s';
  ut_view : forall m, logical s' m = logical s m /\ pinned s' m = pinned s m;
  ut_disk : disk s' = disk s /\ trace s' = trace s /\ fs_frame s s';
  ut_dirty : ndirty s' = ndirty s
}.

Lemma bio_ok_lh s n bl : bio_ok s -> bio_ok (with_lh n bl s).
Proof. intros []. by split. Qed.
Lemma quiet_lh s n bl : quiet s -> quiet (with_lh n bl s).
Proof. intros (H & ? & ?). split; [by apply bio_ok_lh|done]. Qed.

(** Reading one block, and releasing it after the log fields have changed. *)
Lemma read_block_ok s n :
  quiet s -> 0 <= n < FSSIZE -> pinned s n = true \/ ndirty s < NBUF ->
  exists b s1 v, bread ROOTDEV n s = Ret b s1 /\ zget (bufs s1) b = Some v /\ b_data v = logical s n /\
    fs_frame s s1 /\
    forall k bl, exists s', brelse b (with_lh k bl s1) = Ret tt s' /\ untouched (with_lh k bl s) s'.
Proof.
  intros Hq Hn Hroom. pose proof Hq as (Hok & Hh & Hun).
  destruct (bread_ok s n Hok Hn (Hun n)) as (b & s1 & Hrun1 & [Hok1 Hh1 Hv1 (Hd1 & Ht1 & Hfr1) [Hc1 Hc1'] _ Hu1]);
    [rewrite Hh; destruct Hroom; [by left|right; lia]|].
  destruct (holds_get _ _ _ _ _ Hh1) as (v & _ & Hvd & _ & _ & Hv).
  exists b, s1, v. split_and!; try done. intros k bl.
  assert (pinned s n = true \/ logical s n = on_disk (with_lh k bl s1) n) as Hcl.
  { destruct (pinned s n) eqn:E; [by left|right]. rewrite (quiet_clean s n Hq E).
    change (on_disk s n = on_disk s1 n). unfold on_disk. by rewrite Hd1. }
  destruct (brelse_ok (with_lh k bl s1) b n _ _ (bio_ok_lh _ _ _ Hok1) Hh1 Hcl) as
    (s2 & Hrun2 & [Hok2 Hv2 (Hd2 & Htr2 & Hfr2) [Hc2 Hc2'] _ Hu2 _]).
  change (nheld (with_lh k bl s1)) with (nheld s1) in *. change (ndirty (with_lh k bl s1)) with (ndirty s1) in *.
  exists s2. split; [done|]. split.
  - split; [done|]. split; [lia|]. intros m. apply Hu2. destruct (decide (m = n)); [by left|right].
    by apply Hu1.
  - intros m. destruct (Hv2 m) as [-> ->]. apply (Hv1 m).
  - split_and!; [by rewrite Hd2|by rewrite Htr2|]. eapply fs_frame_trans; [|exact Hfr2].
    unfold fs_frame in *. rewrite Hfr1 at 1. by destruct s, s1.
  - change (ndirty (with_lh k bl s)) with (ndirty s). lia.
Qed.

(** Reading one block and writing it back with other contents. *)
Lemma write_block_ok s n :
  quiet s -> 0 <= n < FSSIZE -> pinned s n = true \/ ndirty s < NBUF ->
  exists b s1 v, bread ROOTDEV n s = Ret b s1 /\ zget (bufs s1) b = Some v /\ b_data v = logical s n /\
    fs_frame s s1 /\
    forall d, exists s2 s', (set_data b d ;; bwrite b) s1 = Ret tt s2 /\ brelse b s2 = Ret tt s' /\
      wrote s s' n d.
Proof.
  intros Hq Hn Hroom. pose proof Hq as (Hok & Hh & Hun).
  destruct (bread_ok s n Hok Hn (Hun n)) as (b & s1 & Hrun1 & [Hok1 Hh1 Hv1 (Hd1 & Ht1 & Hfr1) [Hc1 Hc1'] _ Hu1]);
    [rewrite Hh; destruct Hroom; [by left|right; lia]|].
  destruct (holds_get _ _ _ _ _ Hh1) as (v & _ & Hvd & _ & _ & Hv).
  exists b, s1, v. split_and!; try done. intros d.
  destruct (set_bwrite_ok s1 b n _ _ d Hok1 Hh1 (proj2 Hn)) as
    (s2 & Hrun2 & [Hok2 Hh2 [Ht2 Hp2] Hv2 (Hd2 & Htr2 & Hfr2) [Hc2 Hc2'] _ Hu2]).
  assert (d = on_disk s2 n) as Hcl by (unfold on_disk, disk_read; by rewrite Hd2, lookup_insert_eq).
  destruct (brelse_ok s2 b n d false Hok2 Hh2 (or_intror Hcl)) as
    (s3 & Hrun3 & [Hok3 Hv3 (Hd3 & Htr3 & Hfr3) [Hc3 Hc3'] _ Hu3 _]).
  exists s2, s3. split_and!; [done|done|]. split.
  - split; [done|]. split; [lia|]. intros m. apply Hu3. destruct (decide (m = n)); [by left|right].
    by apply Hu2, Hu1.
  - destruct (Hv3 n) as [-> ->]. by rewrite Ht2.
  - intros m Hm. destruct (Hv3 m) as [-> ->], (Hv2 m Hm) as [-> ->]. apply Hv1.
  - split_and!; [congruence|congruence|]. eapply fs_frame_trans; [exact Hfr1|]. by eapply fs_frame_trans.
  - lia.
Qed.

(** ** The header block *)

(** The header block of the log after [write_head]: [n], then the block numbers;
    the rest of the block is kept. *)
Definition put_head (n : Z) (bl d : list Z) : list Z :=
  foldl (fun d i => zset d (1 + i) (u32 (default 0 (zget bl i)))) (zset d 0 (u32 n)) (seqZ 0 n).

Definition put_data (b : Z) (v : buf) (d : list Z) (s : fsys) : fsys :=
  with_bufs (zset (bufs s) b (MkBuf (b_flags v) (b_dev v) (b_blockno v) (b_locked v) (b_refcnt v) d)) s.

Lemma set_data_exec s b v d : zget (bufs s) b = Some v -> set_data b d s = Ret tt (put_data b v d s).
Proof. intros Hv. unfold set_data. exec_by (get_buf_ok s b v Hv). by rewrite (set_buf_ok s b v). Qed.

Lemma set_word_exec s b v d i x :
  zget (bufs s) b = Some v -> 0 <= i < zlen d ->
  set_word b i x (put_data b v d s) = Ret tt (put_data b v (zset d i x) s).
Proof.
  intros Hv [y Hy]%zget_in_range.
  assert (zget (bufs (put_data b v d s)) b
    = Some (MkBuf (b_flags v) (b_dev v) (b_blockno v) (b_locked v) (b_refcnt v) d)) as Hv1
    by by eapply zget_zset_eq, zget_Some_range.
  unfold set_word. exec_by (get_buf_ok _ b _ Hv1). cbn [b_data]. rewrite Hy. cbn [deref]. exec.
  rewrite (set_data_exec _ b _ _ Hv1). unfold put_data. cbn. by rewrite zset_zset_eq.
Qed.

Lemma set_words_exec s b v l : forall d,
  zget (bufs s) b = Some v -> Forall (fun i => 0 <= i < zlen (lh_block s) /\ 1 + i < zlen d) l ->
  for_each l (fun i => x ← get_lh i; set_word b (1 + i) (u32 x)) (put_data b v d s)
  = Ret tt (put_data b v (foldl (fun d i => zset d (1 + i) (u32 (default 0 (zget (lh_block s) i)))) d l) s).
Proof.
  induction l as [|i l IH]; intros d Hv Hl; [done|]. apply list.Forall_cons in Hl as [[Hi Hi'] Hl].
  cbn [for_each foldl]. pose proof (zget_in_range _ _ Hi) as [x Hx].
  assert (get_lh i (put_data b v d s) = Ret x (put_data b v d s)) as Hg
    by (unfold get_lh; exec; cbn [lh_block put_data with_bufs]; by rewrite Hx).
  exec. exec_by Hg. exec_by (set_word_exec s b v d (1 + i) (u32 x) Hv ltac:(lia)). rewrite Hx. cbn [default].
  apply IH; [done|]. eapply list.Forall_impl; [exact Hl|]. cbn. intros j. by rewrite zlen_zset.
Qed.

Lemma zlen_put_words bl (l : list Z) : forall d,
  zlen (foldl (fun d i => zset d (1 + i) (u32 (default 0 (zget bl i)))) d l) = zlen d.
Proof. induction l as [|i l IH]; intros d; [done|]. cbn. by rewrite IH, zlen_zset. Qed.
Lemma zlen_put_head n bl d : zlen (put_head n bl d) = zlen d.
Proof. unfold put_head. by rewrite zlen_put_words, zlen_zset. Qed.

(** The log's place, with room to handle it. *)
Definition log_at (s : fsys) (st : Z) : Prop :=
  log_dev s = ROOTDEV /\ log_start s = st /\ 0 <= st < FSSIZE.

Lemma log_at_frame s s' st : fs_frame s s' -> log_at s st -> log_at s' st.
Proof. unfold fs_frame, log_at. by intros ->. Qed.

Lemma frame_lh s s' : fs_frame s s' -> lh_n s' = lh_n s /\ lh_block s' = lh_block s.
Proof. unfold fs_frame. by intros ->. Qed.

Lemma u32_block x : 0 <= x < FSSIZE -> u32 x = x.
Proof. unfold FSSIZE. intros. apply u32_id. unfold is_u32. lia. Qed.

Lemma write_head_ok s st :
  quiet s -> log_at s st -> zlen (logical s st) = 128 -> 0 <= lh_n s <= zlen (lh_block s) -> lh_n s < 127 ->
  pinned s st = true \/ ndirty s < NBUF ->
  exists s', write_head s = Ret tt s' /\ wrote s s' st (put_head (lh_n s) (lh_block s) (logical s st)).
Proof.
  intros Hq (Hdev & <- & Hst) Hlen Hn Hn' Hroom.
  destruct (write_block_ok s (log_start s) Hq Hst Hroom) as (b & s1 & v & Hrun & Hv & Hvd & Hfr & Hw).
  destruct (Hw (put_head (lh_n s) (lh_block s) (logical s (log_start s)))) as (s2 & s' & Hrun2 & Hrun3 & Hpost).
  exists s'. split; [|done]. unfold write_head. exec. rewrite Hdev, (u32_block (log_start s)) by done.
  change (u32 ROOTDEV) with ROOTDEV. exec_by Hrun. exec. destruct (frame_lh _ _ Hfr) as [En Eb].
  assert (s1 = put_data b v (logical s (log_start s)) s1) as E1.
  { rewrite <-Hvd. unfold put_data. destruct v. cbn. rewrite zset_id by done. by destruct s1. }
  rewrite E1 at 1.
  exec_by (set_word_exec s1 b v (logical s (log_start s)) 0 (u32 (lh_n s)) Hv ltac:(lia)). exec.
  erewrite bind_Ret; [|apply set_words_exec; [done|]].
  - rewrite Eb. fold (put_head (lh_n s) (lh_block s) (logical s (log_start s))).
    unfold mbind, M_bind in Hrun2 |- *. rewrite (set_data_exec _ _ _ _ Hv) in Hrun2. by rewrite Hrun2.
  - apply list.Forall_forall. intros i Hi%elem_of_seqZ. rewrite Eb, zlen_zset. lia.
Qed.

(** ** The loops over the logged blocks *)

(** The blocks that a transaction may write: not those of the log, nor the
    superblock or the boot block. *)
Definition home (st x : Z) : Prop := 2 <= x < FSSIZE /\ (x < st \/ st + LOGSIZE <= x).

(** The writes of [install_trans] and of [write_log] from entry [i] on. *)
Fixpoint home_writes (data : Z -> list Z) (i : Z) (bl : list Z) : list (Z * Z * list Z) :=
  match bl with
  | [] => []
  | m :: bl' => (1, m, data i) :: home_writes data (i + 1) bl'
  end.
Fixpoint log_writes (st : Z) (data : Z -> list Z) (i : Z) (bl : list Z) : list (Z * Z * list Z) :=
  match bl with
  | [] => []
  | m :: bl' => (1, st + i + 1, data m) :: log_writes st data (i + 1) bl'
  end.

(** The in-memory header lists [bl] from entry [i] on. *)
Definition lh_from (s : fsys) (i : Z) (bl : list Z) : Prop :=
  forall j x, zget bl j = Some x -> zget (lh_block s) (i + j) = Some x.

Lemma lh_from_cons s i a bl : lh_from s i (a :: bl) -> zget (lh_block s) i = Some a /\ lh_from s (i + 1) bl.
Proof.
  intros H. split.
  - specialize (H 0 a). by rewrite Z.add_0_r in H; apply H.
  - intros j x Hx. replace (i + 1 + j) with (i + (j + 1)) by lia. apply H. rewrite zget_cons.
    pose proof (zget_Some_range _ _ _ Hx). rewrite decide_False by lia. by rewrite Z.add_simpl_r.
Qed.

Lemma home_writes_keys data bl x : forall i, (1, x) ∈ map fst (home_writes data i bl) <-> x ∈ bl.
Proof.
  induction bl as [|y bl IH]; intros i; simpl; [by rewrite !elem_of_nil|].
  rewrite !elem_of_cons, IH. naive_solver.
Qed.
Lemma log_writes_keys st data bl x : forall i,
  (1, x) ∈ map fst (log_writes st data i bl) <-> st + i + 1 <= x < st + i + 1 + zlen bl.
Proof.
  induction bl as [|y bl IH]; intros i; simpl; [rewrite elem_of_nil; unfold zlen; simpl; lia|].
  rewrite !elem_of_cons, IH, zlen_cons. pose proof (zlen_nonneg bl). split.
  - intros [E|E]; [injection E|]; lia.
  - intros E. destruct (decide (x = st + i + 1)) as [->|]; [by left|right; lia].
Qed.
Lemma home_writes_ext d1 d2 bl : forall i,
  (forall j, i <= j < i + zlen bl -> d1 j = d2 j) -> home_writes d1 i bl = home_writes d2 i bl.
Proof.
  induction bl as [|y bl IH]; intros i H; [done|]. rewrite zlen_cons in H. pose proof (zlen_nonneg bl). simpl.
  f_equal; [by rewrite H by lia|]. apply IH. intros. apply H. lia.
Qed.
Lemma log_writes_ext st d1 d2 bl : forall i,
  (forall m, m ∈ bl -> d1 m = d2 m) -> log_writes st d1 i bl = log_writes st d2 i bl.
Proof.
  induction bl as [|y bl IH]; intros i H; [done|]. simpl.
  f_equal; [rewrite H by set_solver; done|]. apply IH. intros. apply H. set_solver.
Qed.

Section Loops.
Context (st : Z).
Context (Hst : 0 <= st) (Hfs : st + LOGSIZE <= FSSIZE).

(** What a loop over the logged blocks [bl] promises: which writes it made. *)
Record looped (s s' : fsys) (ws : list (Z * Z * list Z)) : Prop := {
  lo_quiet : quiet s';
  lo_disk : disk s' = apply_writes ws (disk s) /\ trace s' = trace s ++ ws /\ fs_frame s s';
  lo_out : forall m, (1, m) ∉ map fst ws -> logical s' m = logical s m /\ pinned s' m = pinned s m;
  lo_dirty : ndirty s' <= ndirty s
}.

Lemma looped_nil s : quiet s -> looped s s [].
Proof.
  intros H. split; [done| |done|done]. split; [done|]. split; [by rewrite app_nil_r|apply fs_frame_refl].
Qed.

Lemma looped_step s s1 s2 n d ws : wrote s s1 n d -> looped s1 s2 ws -> looped s s2 ((1, n, d) :: ws).
Proof.
  intros [Hq1 _ Hv1 (Hd1 & Ht1 & Hf1) Hn1] [Hq2 (Hd2 & Ht2 & Hf2) Ho2 Hn2]. split; [done| | |].
  - split_and!; [by rewrite Hd2, Hd1|by rewrite Ht2, Ht1, <-app_assoc|by eapply fs_frame_trans].
  - intros m. simpl. intros [H1 H2]%not_elem_of_cons. destruct (Ho2 m H2) as [-> ->]. apply Hv1. congruence.
  - destruct (pinned s n); lia.
Qed.

Lemma install_block_ok s i x :
  quiet s -> log_at s st -> zget (lh_block s) i = Some x -> home st x -> 0 <= i < LOGSIZE - 1 ->
  ndirty s < NBUF -> pinned s x = true \/ ndirty s = 0 ->
  exists s', install_block i s = Ret tt s' /\ wrote s s' x (logical s (st + i + 1)).
Proof.
  intros Hq (Hdev & Hls & _) Hx [Hhx Hox] Hi Hnd Hp.
  destruct (reads2_ok s (st + i + 1) x Hq) as (ba & bb & s1 & s2 & Hr1 & Hr2 & [Hok Hfr Ha Hb Hv Hd Hc Hu Hcl]);
    [unfold LOGSIZE in *; lia..|by right|destruct Hp; [by left|right; unfold NBUF; lia]|].
  destruct (copy_held_ok s2 ba bb _ _ _ _ _ _ Hok Ha Hb) as (s3 & Hr3 & [Hq3 Ht3 Hv3 (Hd3 & Htr3 & Hf3) Hn3]);
    [unfold LOGSIZE in *; lia..|apply Hcl|apply Hc|done|].
  destruct (frame_lh _ _ Hfr) as [_ Eb].
  assert (get_lh i s1 = Ret x s1) as Hg by (unfold get_lh; exec; by rewrite Eb, Hx).
  destruct Hd as (Hd & Htr & Hf2). destruct Hc as [Hc _].
  exists s3. split.
  - unfold install_block. exec. rewrite Hdev, Hls. change (u32 ROOTDEV) with ROOTDEV.
    rewrite (u32_block (st + i + 1)) by (unfold LOGSIZE in *; lia). exec_by Hr1. exec_by Hg.
    rewrite (u32_block x) by lia. exec_by Hr2. done.
  - split; [done|done| | |].
    + intros m Hm. destruct (Hv3 m Hm) as [-> ->]. apply Hv.
    + rewrite Hd3, Htr3, Hd, Htr. split_and!; [done|done|by eapply fs_frame_trans].
    + destruct (Hv x) as [_ E]. rewrite E in Hn3. lia.
Qed.

Lemma install_loop : forall bl i s,
  quiet s -> log_at s st -> lh_from s i bl -> NoDup bl -> Forall (home st) bl -> 0 <= i ->
  i + zlen bl < LOGSIZE -> ndirty s < NBUF -> (forall m, m ∈ bl -> pinned s m = true) \/ ndirty s = 0 ->
  exists s', for_each (seqZ i (zlen bl)) install_block s = Ret tt s' /\
    looped s s' (home_writes (fun j => logical s (st + j + 1)) i bl) /\
    (forall j m, zget bl j = Some m -> logical s' m = logical s (st + (i + j) + 1) /\ pinned s' m = false).
Proof.
  induction bl as [|x bl IH]; intros i s Hq Hat Hlh Hnd Hhome Hi Hlen Hroom Hp.
  - exists s. split; [done|]. split; [by apply looped_nil|]. intros j m H. pose proof (zget_Some_range _ _ _ H) as Hr.
    unfold zlen in Hr. simpl in Hr. lia.
  - apply lh_from_cons in Hlh as [Hx Hlh]. apply NoDup_cons in Hnd as [Hni Hnd].
    pose proof Hhome as [Hhx Hhome']%list.Forall_cons. rewrite zlen_cons in *. pose proof (zlen_nonneg bl).
    destruct (install_block_ok s i x) as (s1 & Hr1 & Hw); [done|done|done|done|lia|done|
      destruct Hp as [Hp|Hp]; [left; apply Hp; set_solver|by right]|].
    pose proof Hw as [Hq1 [Ht1 Ht1'] Hv1 (Hd1 & Htr1 & Hf1) Hn1]. destruct (frame_lh _ _ Hf1) as [_ Eb].
    destruct (IH (i + 1) s1) as (s2 & Hr2 & Hlo & Hin); [done|by eapply log_at_frame| |done|done|lia|lia| | |].
    { unfold lh_from. by rewrite Eb. }
    { destruct (pinned s x); lia. }
    { destruct Hp as [Hp|Hp]; [left|right].
      - intros m Hm. destruct (Hv1 m) as [_ ->]; [set_solver|]. apply Hp. set_solver.
      - rewrite Hn1. destruct Hq1 as (_ & _ & _). pose proof (zlen_nonneg (filter (fun v => dirty_b v = true) (bufs s1))).
        fold (ndirty s1) in *. destruct (pinned s x); lia. }
    assert (forall j, 0 <= j -> j < LOGSIZE - 1 -> logical s1 (st + j + 1) = logical s (st + j + 1)) as Hsl.
    { intros j Hj1 Hj2. destruct (Hv1 (st + j + 1)) as [-> _]; [destruct Hhx; lia|done]. }
    assert (home_writes (fun j => logical s1 (st + j + 1)) (i + 1) bl
            = home_writes (fun j => logical s (st + j + 1)) (i + 1) bl) as Ehw.
    { apply home_writes_ext. intros j Hj. apply Hsl; lia. }
    exists s2. split; [|split].
    + rewrite seqZ_step by done. cbn [for_each]. exec_by Hr1. done.
    + cbn [home_writes]. eapply looped_step; [done|]. by rewrite <-Ehw.
    + intros j m. rewrite zget_cons. case_decide as E.
      * intros [= <-]. subst j. rewrite Z.add_0_r. destruct (lo_out _ _ _ Hlo x) as [-> ->]; [|done].
        by rewrite home_writes_keys.
      * intros Hm. pose proof (zget_Some_range _ _ _ Hm). destruct (Hin _ _ Hm) as [-> ->]. split; [|done].
        rewrite Hsl by lia. f_equal. lia.
Qed.
Lemma log_block_ok s i x :
  quiet s -> log_at s st -> zget (lh_block s) i = Some x -> home st x -> 0 <= i < LOGSIZE - 1 ->
  ndirty s < NBUF -> pinned s x = true ->
  exists s', log_block i s = Ret tt s' /\ wrote s s' (st + i + 1) (logical s x).
Proof.
  intros Hq (Hdev & Hls & _) Hx [Hhx Hox] Hi Hnd Hp.
  destruct (reads2_ok s (st + i + 1) x Hq) as (ba & bb & s1 & s2 & Hr1 & Hr2 & [Hok Hfr Ha Hb Hv Hd Hc Hu Hcl]);
    [unfold LOGSIZE in *; lia..|by right|by left|].
  destruct (copy_held_ok s2 bb ba _ _ _ _ _ _ Hok Hb Ha) as (s3 & Hr3 & [Hq3 Ht3 Hv3 (Hd3 & Htr3 & Hf3) Hn3]);
    [unfold LOGSIZE in *; lia..|by left|apply Hc|intros; by apply Hu|].
  destruct (frame_lh _ _ Hfr) as [_ Eb].
  assert (get_lh i s1 = Ret x s1) as Hg by (unfold get_lh; exec; by rewrite Eb, Hx).
  destruct Hd as (Hd & Htr & Hf2). destruct Hc as [Hc _].
  exists s3. split.
  - unfold log_block. exec. rewrite Hdev, Hls. change (u32 ROOTDEV) with ROOTDEV.
    rewrite (u32_block (st + i + 1)) by (unfold LOGSIZE in *; lia). exec_by Hr1. exec_by Hg.
    rewrite (u32_block x) by lia. exec_by Hr2. done.
  - split; [done|done| | |].
    + intros m Hm. destruct (Hv3 m Hm) as [-> ->]. apply Hv.
    + rewrite Hd3, Htr3, Hd, Htr. split_and!; [done|done|by eapply fs_frame_trans].
    + destruct (Hv (st + i + 1)) as [_ E]. rewrite E in Hn3. lia.
Qed.

Lemma log_loop : forall bl i s,
  quiet s -> log_at s st -> lh_from s i bl -> Forall (home st) bl -> 0 <= i ->
  i + zlen bl < LOGSIZE -> ndirty s < NBUF -> (forall m, m ∈ bl -> pinned s m = true) ->
  exists s', for_each (seqZ i (zlen bl)) log_block s = Ret tt s' /\
    looped s s' (log_writes st (logical s) i bl) /\
    (forall j m, zget bl j = Some m ->
       logical s' (st + (i + j) + 1) = logical s m /\ pinned s' (st + (i + j) + 1) = false).
Proof.
  induction bl as [|x bl IH]; intros i s Hq Hat Hlh Hhome Hi Hlen Hroom Hp.
  - exists s. split; [done|]. split; [by apply looped_nil|]. intros j m H. pose proof (zget_Some_range _ _ _ H) as Hr.
    unfold zlen in Hr. simpl in Hr. lia.
  - apply lh_from_cons in Hlh as [Hx Hlh].
    pose proof Hhome as [Hhx Hhome']%list.Forall_cons. rewrite zlen_cons in *. pose proof (zlen_nonneg bl).
    destruct (log_block_ok s i x) as (s1 & Hr1 & Hw); [done|done|done|done|lia|done|apply Hp; set_solver|].
    pose proof Hw as [Hq1 [Ht1 Ht1'] Hv1 (Hd1 & Htr1 & Hf1) Hn1]. destruct (frame_lh _ _ Hf1) as [_ Eb].
    assert (forall m, home st m -> logical s1 m = logical s m /\ pinned s1 m = pinned s m) as Hsl.
    { intros m [_ Hm]. apply Hv1. unfold LOGSIZE in *. lia. }
    assert (forall m, m ∈ bl -> home st m) as Hhm by (by apply list.Forall_forall).
    destruct (IH (i + 1) s1) as (s2 & Hr2 & Hlo & Hin); [done|by eapply log_at_frame| |done|lia|lia| | |].
    { unfold lh_from. by rewrite Eb. }
    { destruct (pinned s (st + i + 1)); lia. }
    { intros m Hm. destruct (Hsl m (Hhm m Hm)) as [_ ->]. apply Hp. set_solver. }
    assert (log_writes st (logical s1) (i + 1) bl = log_writes st (logical s) (i + 1) bl) as Ehw.
    { apply log_writes_ext. intros m Hm. by apply Hsl, Hhm. }
    exists s2. split; [|split].
    + rewrite seqZ_step by done. cbn [for_each]. exec_by Hr1. done.
    + cbn [log_writes]. eapply looped_step; [done|]. by rewrite <-Ehw.
    + intros j m. rewrite zget_cons. case_decide as E.
      * intros [= <-]. subst j. rewrite Z.add_0_r.
        destruct (lo_out _ _ _ Hlo (st + i + 1)) as [-> ->]; [|done].
        rewrite log_writes_keys. lia.
      * intros Hm. pose proof (zget_Some_range _ _ _ Hm). destruct (Hin _ _ Hm) as [E1 E2].
        replace (st + (i + j) + 1) with (st + (i + 1 + (j - 1)) + 1) by lia. rewrite E1, E2. split; [|done].
        apply Hsl, Hhm. by eapply zget_elem.
Qed.
End Loops.

(** ** Header contents *)

(** Header block [h] lists [bl]. *)
Definition head_is (h bl : list Z) : Prop :=
  zlen h = 128 /\ zget h 0 = Some (zlen bl) /\ forall j x, zget bl j = Some x -> zget h (1 + j) = Some x.

(** The in-memory header lists [bl]. *)
Definition lh_is (s : fsys) (bl : list Z) : Prop :=
  lh_n s = zlen bl /\ zlen (lh_block s) = LOGSIZE /\ zlen bl < LOGSIZE /\ lh_from s 0 bl.

Lemma put_words_get bl (l : list Z) : forall d j, (forall i, i ∈ l -> 0 <= i /\ 1 + i < zlen d) ->
  zget (foldl (fun d i => zset d (1 + i) (u32 (default 0 (zget bl i)))) d l) j
  = if decide (j - 1 ∈ l) then Some (u32 (default 0 (zget bl (j - 1)))) else zget d j.
Proof.
  induction l as [|i l IH] using rev_ind; intros d j Hl; [done|]. rewrite foldl_app. cbn [foldl].
  rewrite zget_zset, zlen_put_words. assert (0 <= i /\ 1 + i < zlen d) as [H1 H2] by (apply Hl; set_solver).
  case_decide as E.
  - destruct E as [<- _]. replace (1 + i - 1) with i by lia. rewrite decide_True by set_solver. done.
  - rewrite IH by (intros; apply Hl; set_solver). apply decide_ext. rewrite elem_of_app, list_elem_of_singleton.
    split; [tauto|]. intros [?|Ej]; [done|]. destruct E. lia.
Qed.

Lemma put_head_is bl lb d : zlen d = 128 -> zlen bl < LOGSIZE -> Forall (fun x => 0 <= x < FSSIZE) bl ->
  (forall j x, zget bl j = Some x -> zget lb j = Some x) -> head_is (put_head (zlen bl) lb d) bl.
Proof.
  intros Hd Hbl Hr Hlb. pose proof (zlen_nonneg bl). unfold LOGSIZE in *.
  assert (forall i, i ∈ seqZ 0 (zlen bl) -> 0 <= i /\ 1 + i < zlen (zset d 0 (u32 (zlen bl)))) as Hs.
  { intros i Hi%elem_of_seqZ. rewrite zlen_zset. lia. }
  unfold head_is, put_head. split_and!.
  - by rewrite zlen_put_words, zlen_zset.
  - rewrite put_words_get by done. rewrite decide_False by (rewrite elem_of_seqZ; lia).
    rewrite zget_zset_eq by lia. f_equal. apply u32_id. unfold is_u32. lia.
  - intros j x Hx. pose proof (zget_Some_range _ _ _ Hx). rewrite put_words_get by done.
    replace (1 + j - 1) with j by lia. rewrite decide_True by (apply elem_of_seqZ; lia).
    rewrite (Hlb _ _ Hx). simpl. f_equal. apply u32_block. by apply (proj1 (list.Forall_forall _ _) Hr), (zget_elem _ j).
Qed.

Lemma head_is_empty h : zlen h = 128 -> zget h 0 = Some 0 -> head_is h [].
Proof.
  intros H1 H2. split_and!; [done|done|]. intros j x Hx%zget_elem. by apply elem_of_nil in Hx.
Qed.

(** A header lists one list only. *)
Lemma head_is_inj h bl bl' : head_is h bl -> head_is h bl' -> bl = bl'.
Proof.
  intros (_ & H1 & H2) (_ & H1' & H2'). rewrite H1 in H1'. injection H1' as E. apply zget_ext; [done|].
  intros i Hi. pose proof (zget_in_range _ _ Hi) as [x Hx]. rewrite E in Hi. pose proof (zget_in_range _ _ Hi) as [y Hy].
  rewrite Hx, Hy. specialize (H2 _ _ Hx). specialize (H2' _ _ Hy). congruence.
Qed.

Lemma s32_block x : 0 <= x < FSSIZE -> s32 x = x.
Proof. unfold FSSIZE. intros. apply s32_id. lia. Qed.

Lemma read_words s1 b v k : zget (bufs s1) b = Some v -> forall bl i lb,
  0 <= i -> i + zlen bl <= zlen lb -> Forall (fun x => 0 <= x < FSSIZE) bl ->
  (forall j x, zget bl j = Some x -> zget (b_data v) (1 + (i + j)) = Some x) ->
  exists lb', for_each (seqZ i (zlen bl)) (fun i => x ← get_word b (1 + i); set_lh i (s32 x)) (with_lh k lb s1)
              = Ret tt (with_lh k lb' s1) /\ zlen lb' = zlen lb /\
    (forall j, j < i -> zget lb' j = zget lb j) /\
    (forall j x, zget bl j = Some x -> zget lb' (i + j) = Some x).
Proof.
  intros Hv. induction bl as [|a bl IH]; intros i lb Hi Hlen Hr Hw.
  - exists lb. split; [done|]. split; [done|]. split; [done|]. intros j x Hx%zget_elem. by apply elem_of_nil in Hx.
  - rewrite zlen_cons in *. pose proof (zlen_nonneg bl). apply list.Forall_cons in Hr as [Ha Hr].
    assert (zget (b_data v) (1 + i) = Some a) as Hwa by (rewrite <-(Z.add_0_r i) at 1; by apply Hw).
    destruct (IH (i + 1) (zset lb i a)) as (lb' & Hrun & Hl' & Hlo & Hin); [lia|rewrite zlen_zset; lia|done| |].
    { intros j x Hx. replace (1 + (i + 1 + j)) with (1 + (i + (j + 1))) by lia. apply Hw. rewrite zget_cons.
      pose proof (zget_Some_range _ _ _ Hx). rewrite decide_False by lia. by rewrite Z.add_simpl_r. }
    exists lb'. rewrite zlen_zset in Hl'. split; [|split; [done|split]].
    + rewrite seqZ_step by done. cbn [for_each].
      assert (get_word b (1 + i) (with_lh k lb s1) = Ret a (with_lh k lb s1)) as Hg.
      { unfold get_word. assert (get_buf b (with_lh k lb s1) = Ret v (with_lh k lb s1)) as Hg by by apply get_buf_ok.
        exec_by Hg. by rewrite Hwa. }
      exec. exec_by Hg. unfold set_lh, get_lh. exec. cbn [lh_block with_lh].
      pose proof (zget_in_range lb i ltac:(lia)) as [y Hy]. rewrite Hy. cbn [deref]. exec.
      rewrite s32_block by done. exact Hrun.
    + intros j Hj. rewrite Hlo by lia. apply zget_zset_ne. lia.
    + intros j x. rewrite zget_cons. case_decide as E.
      * intros [= <-]. subst j. rewrite Z.add_0_r, Hlo by lia. apply zget_zset_eq. lia.
      * intros Hx. replace (i + j) with (i + 1 + (j - 1)) by lia. by apply Hin.
Qed.

(** The cache, seen through its views, did not change. *)
Record same_view (s s' : fsys) : Prop := {
  sv_quiet : quiet s';
  sv_view : forall m, logical s' m = logical s m /\ pinned s' m = pinned s m;
  sv_disk : disk s' = disk s /\ trace s' = trace s;
  sv_dirty : ndirty s' = ndirty s;
  sv_frame : fs_frame (with_lh (lh_n s') (lh_block s') s) s'
}.

Lemma log_at_lh s s' st n bl : fs_frame (with_lh n bl s) s' -> log_at s st -> log_at s' st.
Proof. unfold fs_frame, log_at. by intros ->. Qed.

Lemma read_head_ok s st bl :
  quiet s -> log_at s st -> zlen (lh_block s) = LOGSIZE -> head_is (logical s st) bl -> zlen bl < LOGSIZE ->
  Forall (fun x => 0 <= x < FSSIZE) bl -> pinned s st = true \/ ndirty s < NBUF ->
  exists s', read_head s = Ret tt s' /\ same_view s s' /\ lh_is s' bl.
Proof.
  intros Hq (Hdev & <- & Hst) Hlb (Hl & H0 & Hw) Hbl Hr Hroom.
  destruct (read_block_ok s (log_start s) Hq Hst Hroom) as (b & s1 & v & Hrun & Hv & Hvd & Hfr & Hrel).
  rewrite <-Hvd in Hl, H0, Hw. destruct (frame_lh _ _ Hfr) as [En Eb].
  destruct (read_words s1 b v (zlen bl) Hv bl 0 (lh_block s1)) as (lb & Hrunl & Hlb' & _ & Hin);
    [lia|rewrite Eb, Hlb; lia|done|done|].
  destruct (Hrel (zlen bl) lb) as (s' & Hrun' & [Hq' Hv' (Hd' & Ht' & Hf') Hn']).
  destruct (frame_lh _ _ Hf') as [En' Eb'].
  exists s'. split; [|split].
  - unfold read_head. exec. rewrite Hdev, (u32_block (log_start s)) by done. change (u32 ROOTDEV) with ROOTDEV.
    exec_by Hrun. assert (get_word b 0 s1 = Ret (zlen bl) s1) as Hg.
    { unfold get_word. exec_by (get_buf_ok s1 b v Hv). by rewrite H0. }
    exec_by Hg. unfold set_lh_n. exec. rewrite s32_block by (unfold LOGSIZE, FSSIZE in *; pose proof (zlen_nonneg bl); lia).
    exec_by Hrunl. exact Hrun'.
  - split; [done|done|done|done|]. by rewrite En', Eb'.
  - unfold lh_is, lh_from. rewrite En', Eb'. cbn [lh_n lh_block with_lh]. rewrite Hlb', Eb. done.
Qed.

Lemma write_head_is s st bl :
  quiet s -> log_at s st -> zlen (logical s st) = 128 -> lh_is s bl -> Forall (fun x => 0 <= x < FSSIZE) bl ->
  ndirty s < NBUF ->
  exists s' h, write_head s = Ret tt s' /\ wrote s s' st h /\ head_is h bl.
Proof.
  intros Hq Hat Hl (Hn & Hlb & Hbl & Hfrom) Hr Hroom. pose proof (zlen_nonneg bl). unfold LOGSIZE in *.
  destruct (write_head_ok s st Hq Hat Hl) as (s' & Hrun & Hw); [lia|lia|by right|].
  eexists s', _. split; [exact Hrun|]. split; [exact Hw|]. rewrite Hn. apply put_head_is; try done.
Qed.

(** No pinned block, no dirty buffer. *)
Lemma unpinned_ndirty s : bio_ok s -> (forall m, pinned s m = false) -> ndirty s = 0.
Proof.
  intros Hok Hp. unfold ndirty. assert (forall v, v ∈ bufs s -> dirty_b v = false) as H.
  { intros v [i Hi]%elem_zget. destruct (bo_flags s Hok _ _ Hi) as [E|[E|E]]; unfold dirty_b; rewrite E; try done.
    exfalso. destruct (bo_dev s Hok _ _ Hi) as [Hd|(_ & Hf & _)]; [|lia].
    destruct (block_hit s i v (b_blockno v) Hok Hi (conj Hd eq_refl)) as [_ HP]. rewrite Hp, E in HP. done. }
  clear -H. induction (bufs s) as [|v l IH]; [done|]. rewrite list.filter_cons.
  rewrite decide_False by (rewrite H; [done|set_solver]). apply IH. set_solver.
Qed.

(** ** [commit] and [recover_from_log] *)

(** Only the cache, the disk, its trace and the in-memory header changed. *)
Definition lframe (s s' : fsys) : Prop := fs_frame (with_lh (lh_n s') (lh_block s') s) s'.
Lemma lframe_fs s s' : fs_frame s s' -> lframe s s'.
Proof. unfold lframe, fs_frame. intros H. rewrite H at 1. rewrite H. by destruct s. Qed.
Lemma lframe_lh s n bl : lframe s (with_lh n bl s).
Proof. by destruct s. Qed.
Lemma lframe_trans s1 s2 s3 : lframe s1 s2 -> lframe s2 s3 -> lframe s1 s3.
Proof.
  unfold lframe, fs_frame. destruct s1, s2, s3. cbn. intros H1 H2. injection H1. injection H2.
  intros. subst. reflexivity.
Qed.

Definition blocks_ok (st : Z) (bl : list Z) : Prop :=
  NoDup bl /\ Forall (home st) bl /\ zlen bl < LOGSIZE.

Definition log_place (st : Z) : Prop := 2 <= st /\ st + LOGSIZE <= FSSIZE.

Lemma home_range st bl : Forall (home st) bl -> Forall (fun x => 0 <= x < FSSIZE) bl.
Proof. intros H. eapply list.Forall_impl; [exact H|]. intros x [? _]. lia. Qed.
Lemma home_not_log st bl m : Forall (home st) bl -> m ∈ bl -> m < st \/ st + LOGSIZE <= m.
Proof. intros H Hm. by apply (proj1 (list.Forall_forall _ _) H) in Hm as [_ ?]. Qed.

(** [install_trans(); log.lh.n = 0; write_head();], the end of both functions. *)
Definition finish : M fsys unit := install_trans ;; set_lh_n 0 ;; write_head.

Lemma finish_ok s st bl :
  log_place st -> quiet s -> log_at s st -> lh_is s bl -> blocks_ok st bl -> zlen (logical s st) = 128 ->
  ndirty s < NBUF -> (forall m, m ∈ bl -> pinned s m = true) \/ ndirty s = 0 ->
  (forall m, pinned s m = true -> m ∈ bl) ->
  exists s' h, finish s = Ret tt s' /\ head_is h [] /\
    let ws := home_writes (fun j => logical s (st + j + 1)) 0 bl ++ [(1, st, h)] in
    disk s' = apply_writes ws (disk s) /\ trace s' = trace s ++ ws /\
    quiet s' /\ lframe s s' /\ lh_is s' [] /\ (forall m, pinned s' m = false) /\
    (forall j m, zget bl j = Some m -> logical s' m = logical s (st + j + 1)) /\
    (forall m, m ∉ bl -> m <> st -> logical s' m = logical s m) /\ logical s' st = h.
Proof.
  intros [Hst Hfs] Hq Hat Hlh (Hnd & Hhome & Hlen) Hh Hroom Hp Hp'. pose proof Hlh as (Hn & Hlb & _ & Hfrom).
  destruct (install_loop st ltac:(lia) Hfs bl 0 s) as (s1 & Hr1 & [Hq1 (Hd1 & Ht1 & Hf1) Ho1 Hn1] & Hin);
    try done.
  destruct (frame_lh _ _ Hf1) as [En Eb].
  assert (st ∉ bl) as Hstb.
  { intros Hm. pose proof (home_not_log _ _ _ Hhome Hm). unfold LOGSIZE in *. lia. }
  assert (forall m, m ∉ bl -> logical s1 m = logical s m /\ pinned s1 m = pinned s m) as Hout.
  { intros m Hm. apply Ho1. by rewrite home_writes_keys. }
  set (s2 := with_lh 0 (lh_block s1) s1).
  assert (log_at s2 st) as Hat2.
  { apply (log_at_frame _ _ _ Hf1) in Hat. done. }
  destruct (write_head_is s2 st []) as (s3 & h & Hr3 & [Hq3 [Ht3 Hp3] Hv3 (Hd3 & Htr3 & Hf3) Hn3] & Hh3).
  { by apply quiet_lh. }
  { done. }
  { change (zlen (logical s1 st) = 128). by destruct (Hout st Hstb) as [-> _]. }
  { split; [done|]. cbn [lh_block with_lh s2]. rewrite Eb. split; [done|]. split; [done|].
    intros j x Hx%zget_elem. by apply elem_of_nil in Hx. }
  { done. }
  { change (ndirty s2) with (ndirty s1). lia. }
  assert (forall m, pinned s1 m = false) as Hnp.
  { intros m. destruct (decide (m ∈ bl)) as [[j Hj]%elem_zget|Hm]; [by apply (Hin j)|].
    destruct (Hout m Hm) as [_ ->]. destruct (pinned s m) eqn:E; [|done]. by destruct Hm; apply Hp'. }
  exists s3, h. split; [|split; [done|]].
  { unfold finish, install_trans. exec. rewrite Hn. exec_by Hr1. unfold set_lh_n. exec. exact Hr3. }
  cbv zeta. destruct (frame_lh _ _ Hf3) as [En3 Eb3]. split_and!.
  - rewrite apply_writes_app. cbn [apply_writes foldl fst snd]. rewrite Hd3. cbn [disk with_lh s2]. by rewrite Hd1.
  - rewrite Htr3. cbn [trace with_lh s2]. by rewrite Ht1, <-app_assoc.
  - done.
  - eapply lframe_trans; [by apply lframe_fs|]. eapply lframe_trans; [apply lframe_lh|by apply lframe_fs].
  - unfold lh_is, lh_from. rewrite En3, Eb3. cbn [lh_n lh_block with_lh s2]. rewrite Eb.
    split_and!; [done|done|done|]. intros j x Hx%zget_elem. by apply elem_of_nil in Hx.
  - intros m. destruct (decide (m = st)) as [->|Hm]; [done|]. destruct (Hv3 m Hm) as [_ ->]. apply Hnp.
  - intros j m Hm. pose proof (zget_elem _ _ _ Hm) as Hmb.
    destruct (Hv3 m) as [-> _]; [by intros ->|]. by destruct (Hin j m Hm) as [E _].
  - intros m Hm Hms. destruct (Hv3 m Hms) as [-> _]. by apply Hout.
  - exact Ht3.
Qed.

(** The superblock of a disk whose log is at [st]. *)
Definition sb_ok (b : list Z) (st : Z) : Prop := zget b 3 = Some LOGSIZE /\ zget b 4 = Some st.

(** The state of the log inside a transaction that has logged [bl] so far. *)
Record log_open (s : fsys) (st : Z) (bl : list Z) : Prop := {
  op_quiet : quiet s;
  op_place : log_place st /\ log_at s st /\ log_size s = LOGSIZE;
  op_lh : lh_is s bl /\ blocks_ok st bl;
  op_pinned : forall m, pinned s m = true <-> m ∈ bl;
  op_dirty : ndirty s <= zlen bl;
  op_head : head_is (on_disk s st) [] /\ sb_ok (on_disk s 1) st
}.

(** The writes of a commit. *)
Definition commit_writes (st : Z) (data : Z -> list Z) (bl : list Z) (h h' : list Z) : list (Z * Z * list Z) :=
  log_writes st data 0 bl ++ (1, st, h) :: home_writes (fun j => data (default 0 (zget bl j))) 0 bl ++ [(1, st, h')].

Lemma clean_disk s m : quiet s -> pinned s m = false -> on_disk s m = logical s m.
Proof. intros. by rewrite quiet_clean. Qed.

Lemma lframe_log s s' st : lframe s s' -> log_at s st ->
  log_at s' st /\ log_size s' = log_size s /\ log_outstanding s' = log_outstanding s /\
  log_committing s' = log_committing s.
Proof. unfold lframe, fs_frame, log_at. intros ->. done. Qed.

Lemma home_neq st m : log_place st -> home st m -> m <> st /\ m <> 1.
Proof. intros [? _] [? ?]. unfold LOGSIZE in *. lia. Qed.

Lemma commit_ok s st bl : log_open s st bl -> bl <> [] ->
  exists s' h h', commit s = Ret tt s' /\ head_is h bl /\ head_is h' [] /\
    trace s' = trace s ++ commit_writes st (logical s) bl h h' /\
    disk s' = apply_writes (commit_writes st (logical s) bl h h') (disk s) /\
    log_open s' st [] /\ lframe s s' /\
    (forall m, m < st \/ st + LOGSIZE <= m -> logical s' m = logical s m).
Proof.
  intros [Hq (Hpl & Hat & Hsz) [Hlh Hbl] Hpin Hnd [Hhd Hsb]] Hne. pose proof Hpl as [Hst Hfs].
  pose proof Hlh as (Hn & Hlb & Hlen & Hfrom). pose proof Hbl as (Hndp & Hhome & _).
  assert (0 < zlen bl) as Hpos by (destruct bl; [done|]; rewrite zlen_cons; pose proof (zlen_nonneg bl); lia).
  assert (ndirty s < NBUF) as Hroom by (unfold NBUF, LOGSIZE in *; lia).
  destruct (log_loop st ltac:(lia) Hfs bl 0 s) as (s1 & Hr1 & [Hq1 (Hd1 & Ht1 & Hf1) Ho1 Hn1] & Hin);
    try done; [intros; by apply Hpin|]. destruct (frame_lh _ _ Hf1) as [En1 Eb1].
  assert (forall m, m <= st \/ st + LOGSIZE <= m -> logical s1 m = logical s m /\ pinned s1 m = pinned s m) as Hv1.
  { intros m Hm. apply Ho1. rewrite log_writes_keys. lia. }
  assert (pinned s st = false) as Hps.
  { apply not_true_iff_false. rewrite Hpin. intros Hm. pose proof (home_not_log _ _ _ Hhome Hm). unfold LOGSIZE in *. lia. }
  destruct (write_head_is s1 st bl) as (s2 & h & Hr2 & [Hq2 [Ht2 Hp2] Hv2 (Hd2 & Htr2 & Hf2) Hn2] & Hh2);
    [done|by eapply log_at_frame| |unfold lh_is, lh_from; by rewrite En1, Eb1|by eapply home_range|lia|].
  { destruct (Hv1 st) as [-> _]; [lia|]. rewrite (quiet_clean s st Hq Hps). by destruct Hhd. }
  destruct (frame_lh _ _ Hf2) as [En2 Eb2].
  assert (forall m, home st m -> logical s2 m = logical s m /\ pinned s2 m = pinned s m) as Hv12.
  { intros m Hm. pose proof (home_neq st m Hpl Hm) as [Hm1 _]. destruct Hm as [_ Hm].
    destruct (Hv2 m Hm1) as [-> ->]. apply Hv1. lia. }
  assert (forall j m, zget bl j = Some m -> logical s2 (st + j + 1) = logical s m) as Hlog.
  { intros j m Hm. destruct (Hv2 (st + j + 1)) as [-> _]; [apply zget_Some_range in Hm; lia|].
    destruct (Hin j m Hm) as [E _]. by rewrite Z.add_0_l in E. }
  assert (log_at s2 st) as Hat2 by (eapply log_at_frame; [exact Hf2|]; by eapply log_at_frame).
  destruct (finish_ok s2 st bl) as (s3 & h' & Hr3 & Hh' & Hd3 & Ht3 & Hq3 & Hf3 & Hlh3 & Hp3 & Hin3 & Hout3 & Hst3);
    try done.
  { unfold lh_is, lh_from. by rewrite En2, Eb2, En1, Eb1. }
  { rewrite Ht2. by destruct Hh2. }
  { destruct (pinned s1 st); lia. }
  { left. intros m Hm. destruct (Hv12 m) as [_ ->]; [by apply (proj1 (list.Forall_forall _ _) Hhome)|by apply Hpin]. }
  { intros m. destruct (decide (m = st)) as [->|Hm]; [by rewrite Hp2|]. destruct (Hv2 m Hm) as [_ ->].
    destruct (decide (st < m <= st + zlen bl)) as [Hl|Hl].
    - destruct (zget_in_range bl (m - st - 1) ltac:(lia)) as [x Hx]. destruct (Hin _ _ Hx) as [_ E].
      replace (st + (0 + (m - st - 1)) + 1) with m in E by lia. rewrite E. done.
    - destruct (Ho1 m) as [_ ->]; [rewrite log_writes_keys; lia|]. apply Hpin. }
  assert (home_writes (fun j => logical s2 (st + j + 1)) 0 bl
          = home_writes (fun j => logical s (default 0 (zget bl j))) 0 bl) as Ew.
  { apply home_writes_ext. intros j Hj. destruct (zget_in_range bl j ltac:(lia)) as [m Hm]. rewrite Hm.
    by apply Hlog. }
  rewrite Ew in *. fold (logical s) in *.
  assert (lframe s s3) as Hfr.
  { eapply lframe_trans; [by apply lframe_fs|]. eapply lframe_trans; [by apply lframe_fs|done]. }
  destruct (lframe_log _ _ _ Hfr Hat) as (Hat3 & Hsz3 & _).
  assert (forall m, m < st \/ st + LOGSIZE <= m -> logical s3 m = logical s m) as Hview.
  { intros m Hm. unfold LOGSIZE in Hm. destruct (decide (m ∈ bl)) as [[j Hj]%elem_zget|Hmb].
    - rewrite (Hin3 j m Hj). by apply Hlog.
    - rewrite (Hout3 m Hmb) by lia. destruct (Hv2 m) as [-> _]; [lia|]. apply Hv1. unfold LOGSIZE. lia. }
  exists s3, h, h'. split_and!; try done.
  - unfold commit. exec. rewrite Hn. destruct (Z.ltb_spec 0 (zlen bl)); [|lia]. cbn [when].
    unfold write_log. exec. rewrite Hn. exec_by Hr1. exec_by Hr2. exact Hr3.
  - rewrite Ht3, Htr2, Ht1. unfold commit_writes. rewrite <-!app_assoc. done.
  - rewrite Hd3, Hd2, Hd1. unfold commit_writes. by rewrite (apply_writes_app (log_writes _ _ _ _)).
  - split; [done|split; [done|split; [done|congruence]]| | | |].
    + split; [done|]. split; [constructor|]. split; [constructor|done].
    + intros m. rewrite Hp3. split; [done|]. by intros ?%elem_of_nil.
    + rewrite (unpinned_ndirty s3); [done|apply Hq3|done].
    + rewrite !clean_disk by done. rewrite Hst3, Hview by lia. split; [done|].
      rewrite <-clean_disk; [done|done|]. apply not_true_iff_false. rewrite Hpin. intros Hm.
      apply (proj1 (list.Forall_forall _ _) Hhome) in Hm as [? _]. lia.
Qed.

(** ** Booting on a disk *)

Definition boot : M fsys unit := binit ;; initlog ROOTDEV.

(** A disk whose log, at [st], holds a committed transaction on [bl] ([[]]: none). *)
Definition disk_log (d : gmap (Z * Z) (list Z)) (st : Z) (bl : list Z) : Prop :=
  log_place st /\ sb_ok (disk_read d (1, 1)) st /\ head_is (disk_read d (1, st)) bl /\ blocks_ok st bl.

Definition recovery_writes (d : gmap (Z * Z) (list Z)) (st : Z) (bl h : list Z) : list (Z * Z * list Z) :=
  home_writes (fun j => disk_read d (1, st + j + 1)) 0 bl ++ [(1, st, h)].

Lemma untouched_lframe s s' : untouched s s' -> lframe s s'.
Proof. intros [_ _ (_ & _ & ?) _]. by apply lframe_fs. Qed.

Lemma idle_quiet s : idle s -> quiet s.
Proof. intros [? [_ ?] ? _]. done. Qed.

Lemma readsb_ok s : quiet s -> ndirty s < NBUF -> exists s', readsb ROOTDEV s = Ret (take 7 (logical s 1)) s' /\ untouched s s'.
Proof.
  intros Hq Hroom. destruct (read_block_ok s 1 Hq) as (b & s1 & v & Hrun & Hv & Hvd & Hfr & Hrel);
    [unfold FSSIZE; lia|by right|].
  destruct (frame_lh _ _ Hfr) as [En Eb].
  destruct (Hrel (lh_n s1) (lh_block s1)) as (s' & Hrun' & Hu). exists s'. rewrite En, Eb in Hu.
  assert (with_lh (lh_n s) (lh_block s) s = s) as E by by destruct s. rewrite E in Hu.
  assert (with_lh (lh_n s1) (lh_block s1) s1 = s1) as E1 by by destruct s1. rewrite E1 in Hrun'.
  split; [|done]. unfold readsb. change (u32 ROOTDEV) with ROOTDEV. exec_by Hrun.
  exec_by (get_buf_ok s1 b v Hv). exec_by Hrun'. by rewrite Hvd.
Qed.

Lemma boot_ok d st bl : disk_log d st bl ->
  exists s' h, boot (boot_fsys d) = Ret tt s' /\ head_is h [] /\
    trace s' = recovery_writes d st bl h /\ disk s' = apply_writes (recovery_writes d st bl h) d /\
    log_open s' st [] /\ log_outstanding s' = 0 /\ log_committing s' = false.
Proof.
  intros (Hpl & [Hsb3 Hsb4] & Hhd & Hbl). pose proof Hpl as [Hst Hfs]. unfold LOGSIZE in Hfs.
  pose proof Hbl as (Hnd & Hhome & Hlen).
  pose proof (after_binit_idle d) as Hid. pose proof (idle_quiet _ Hid) as Hq.
  set (s0 := after_binit d) in *. destruct Hid as [_ [Hn0 _] _ Hv0].
  assert (forall m, logical s0 m = disk_read d (1, m) /\ pinned s0 m = false) as Hd0 by (intros m; apply Hv0).
  destruct (readsb_ok s0 Hq) as (s1 & Hr1 & Hu1); [rewrite Hn0; done|].
  pose proof (untouched_lframe _ _ Hu1) as Hf1. destruct Hu1 as [Hq1 Hv1 (Hdk1 & Ht1 & Hfr1) Hn1].
  set (s2 := with_log_pos st LOGSIZE ROOTDEV s1).
  assert (quiet s2) as Hq2 by (destruct Hq1 as ([] & ? & ?); by split).
  assert (forall m, logical s2 m = disk_read d (1, m) /\ pinned s2 m = false) as Hd2.
  { intros m. change (logical s1 m = disk_read d (1, m) /\ pinned s1 m = false). destruct (Hv1 m) as [-> ->]. apply Hd0. }
  assert (log_at s2 st) as Hat2 by (unfold log_at, FSSIZE in *; cbn; lia).
  destruct (frame_lh _ _ Hfr1) as [_ Eb1].
  destruct (read_head_ok s2 st bl Hq2 Hat2) as (s3 & Hr3 & [Hq3 Hv3 [Hdk3 Ht3] Hn3 Hf3] & Hlh3).
  { cbn [lh_block with_log_pos s2]. by rewrite Eb1. }
  { by destruct (Hd2 st) as [-> _]. }
  { done. }
  { by eapply home_range. }
  { right. change (ndirty s1 < NBUF). by rewrite Hn1, Hn0. }
  assert (forall m, logical s3 m = disk_read d (1, m) /\ pinned s3 m = false) as Hd3.
  { intros m. destruct (Hv3 m) as [-> ->]. apply Hd2. }
  assert (ndirty s3 = 0) as Hnd3 by (apply unpinned_ndirty; [apply Hq3|intros m; apply Hd3]).
  destruct (finish_ok s3 st bl) as (s4 & h & Hr4 & Hh & Hdk4 & Ht4 & Hq4 & Hf4 & Hlh4 & Hp4 & Hin4 & Hout4 & Hst4);
    [done|done|by eapply log_at_lh|done|done|by destruct (Hd3 st) as [-> _]; destruct Hhd|by rewrite Hnd3|by right|
     intros m; by destruct (Hd3 m) as [_ ->]|].
  assert (home_writes (fun j => logical s3 (st + j + 1)) 0 bl = home_writes (fun j => disk_read d (1, st + j + 1)) 0 bl)
    as Ew by (apply home_writes_ext; intros j _; apply Hd3).
  rewrite Ew in *. fold (recovery_writes d st bl h) in *.
  pose proof (lframe_trans _ _ _ Hf3 Hf4) as Hf.
  destruct (lframe_log _ _ _ Hf Hat2) as (Hat4 & Hsz4 & Hout & Hcom).
  assert (log_outstanding s1 = 0 /\ log_committing s1 = false) as [Ho1 Hc1] by (unfold fs_frame in Hfr1; by rewrite Hfr1).
  assert (sb_ok (on_disk s4 1) st) as Hsb'.
  { rewrite clean_disk by done. rewrite Hout4; [destruct (Hd3 1) as [-> _]; done| |lia]. intros Hm.
    apply (proj1 (list.Forall_forall _ _) Hhome) in Hm as [? _]. lia. }
  exists s4, h. split; [|split; [done|split; [|split; [|split]]]].
  - unfold boot. exec_by (binit_run d). fold s0. unfold initlog. exec_by Hr1.
    destruct (Hd0 1) as [-> _]. rewrite !zget_take by lia. rewrite Hsb3, Hsb4. cbn [deref]. exec.
    rewrite s32_block by (unfold FSSIZE in *; lia). change (s32 LOGSIZE) with LOGSIZE. fold s2. unfold recover_from_log.
    exec_by Hr3. exact Hr4.
  - rewrite Ht4, Ht3. change (trace s2) with (trace s1). rewrite Ht1. done.
  - rewrite Hdk4, Hdk3. change (disk s2) with (disk s1). rewrite Hdk1. done.
  - split; [done|split; [done|split; [done|by rewrite Hsz4]]| | | |].
    + split; [done|]. split; [constructor|]. split; [constructor|done].
    + intros m. rewrite Hp4. split; [done|]. by intros ?%elem_of_nil.
    + rewrite (unpinned_ndirty s4); [done|apply Hq4|done].
    + split; [|done]. rewrite clean_disk by done. by rewrite Hst4.
  - split; [by rewrite Hout|by rewrite Hcom].
Qed.

(** ** Crashes *)

(** Block [m] is not in the log. *)
Definition outside (st m : Z) : Prop := m < st \/ st + LOGSIZE <= m.

(** What a recovery of disk [d], whose log lists [bl], makes of block [m]. *)
Definition rec_read (d : gmap (Z * Z) (list Z)) (st : Z) (bl : list Z) (m : Z) : list Z :=
  disk_read (apply_writes (home_writes (fun j => disk_read d (1, st + j + 1)) 0 bl) d) (1, m).

(** The disks that a power-up on [d] can leave, when the machine crashes again and
    again during recovery. *)
Inductive after_crashes : gmap (Z * Z) (list Z) -> gmap (Z * Z) (list Z) -> Prop :=
| ac_none d : after_crashes d d
| ac_boot d s k d' : boot (boot_fsys d) = Ret tt s ->
    after_crashes (apply_writes (take k (trace s)) d) d' -> after_crashes d d'.

Lemma disk_read_out ws d k : k ∉ map fst ws -> disk_read (apply_writes ws d) k = disk_read d k.
Proof. intros H. unfold disk_read. by rewrite apply_writes_out. Qed.

Lemma home_writes_elem data bl w : forall i, w ∈ home_writes data i bl ->
  exists j m, zget bl j = Some m /\ w = (1, m, data (i + j)).
Proof.
  induction bl as [|y bl IH]; intros i Hw; simpl in Hw; [by apply elem_of_nil in Hw|].
  apply elem_of_cons in Hw as [->|Hw].
  - exists 0, y. by rewrite Z.add_0_r.
  - destruct (IH _ Hw) as (j & m & Hj & ->). pose proof (zget_Some_range _ _ _ Hj). exists (j + 1), m.
    rewrite zget_cons, decide_False by lia. rewrite Z.add_simpl_r. split; [done|]. do 2 f_equal. lia.
Qed.

Lemma home_writes_read data bl d j m : NoDup bl -> zget bl j = Some m ->
  disk_read (apply_writes (home_writes data 0 bl) d) (1, m) = data j.
Proof.
  intros Hnd Hj. unfold disk_read. rewrite (apply_writes_agree _ _ _ (data j)); [done| |].
  - intros w Hw E. apply home_writes_elem in Hw as (j' & m' & Hj' & ->). simpl in *. injection E as ->.
    rewrite Z.add_0_l. f_equal. pose proof (zget_Some_range _ _ _ Hj). pose proof (zget_Some_range _ _ _ Hj').
    unfold zget in *. repeat case_match; try done. pose proof (NoDup_lookup _ _ _ _ Hnd Hj Hj'). lia.
  - apply home_writes_keys. by eapply zget_elem.
Qed.

Lemma take_keys {A} (ws : list (Z * Z * A)) k w : w ∈ map fst (take k ws) -> w ∈ map fst ws.
Proof.
  rewrite !list_elem_of_fmap. intros (x & -> & Hx). exists x. split; [done|]. by eapply subseteq_take.
Qed.

Lemma disk_log_ext d d' st bl :
  disk_read d' (1, 1) = disk_read d (1, 1) -> disk_read d' (1, st) = disk_read d (1, st) ->
  disk_log d st bl -> disk_log d' st bl.
Proof. unfold disk_log. by intros -> ->. Qed.

Lemma rec_read_nil d st m : rec_read d st [] m = disk_read d (1, m).
Proof. done. Qed.

(** An interrupted installation can be started again. *)
Lemma reinstall d st bl data k :
  log_place st -> blocks_ok st bl -> (forall j m, zget bl j = Some m -> data j = disk_read d (1, st + j + 1)) ->
  let d' := apply_writes (take k (home_writes data 0 bl)) d in
  (forall m, ~ outside st m \/ m < 2 -> disk_read d' (1, m) = disk_read d (1, m)) /\
  (forall m, rec_read d' st bl m = disk_read (apply_writes (home_writes data 0 bl) d) (1, m)).
Proof.
  intros Hpl (Hnd & Hh & Hlen) Hdata d'.
  assert (forall m, ~ outside st m \/ m < 2 -> disk_read d' (1, m) = disk_read d (1, m)) as H1.
  { intros m Hm. unfold d'. apply disk_read_out. intros Hin%take_keys%home_writes_keys.
    apply (proj1 (list.Forall_forall _ _) Hh) in Hin as [? ?]. unfold outside in *. lia. }
  split; [done|]. intros m. unfold rec_read.
  assert (home_writes (fun j => disk_read d' (1, st + j + 1)) 0 bl = home_writes data 0 bl) as ->.
  { apply home_writes_ext. intros j Hj. destruct (zget_in_range bl j ltac:(lia)) as [x Hx].
    rewrite (Hdata j x Hx). apply H1. left. unfold outside, LOGSIZE in *. lia. }
  unfold d'. rewrite apply_writes_redo; [done|]. intros w Hw. by eapply take_keys.
Qed.

Lemma boot_prefix d st bl s k :
  disk_log d st bl -> boot (boot_fsys d) = Ret tt s ->
  exists bl', disk_log (apply_writes (take k (trace s)) d) st bl' /\
    forall m, outside st m -> rec_read (apply_writes (take k (trace s)) d) st bl' m = rec_read d st bl m.
Proof.
  intros Hd Hrun. destruct (boot_ok d st bl Hd) as (s' & h & Hrun' & Hh & Ht & _). rewrite Hrun in Hrun'.
  injection Hrun' as <-. rewrite Ht. unfold recovery_writes.
  set (hw := home_writes _ 0 bl). pose proof Hd as (Hpl & Hsb & Hhd & Hbl).
  destruct (decide (k <= length hw)%nat) as [Hk|Hk].
  - rewrite take_app_le by done. destruct (reinstall d st bl (fun j => disk_read d (1, st + j + 1)) k Hpl Hbl) as [H1 H2];
      [done|]. fold hw in H1, H2. exists bl. split; [|intros m _; apply H2].
    eapply disk_log_ext; [apply H1; right; lia|apply H1; left; unfold outside, LOGSIZE; lia|done].
  - rewrite take_ge by (rewrite length_app; simpl; lia). exists [].
    assert (forall m, m <> st -> disk_read (apply_writes (hw ++ [(1, st, h)]) d) (1, m) = rec_read d st bl m) as Hm.
    { intros m Hm. rewrite apply_writes_app. apply disk_read_out. cbn. rewrite list_elem_of_singleton. congruence. }
    assert (st <> 1 /\ 1 ∉ bl) as [Hst1 Hn1].
    { destruct Hpl. split; [lia|]. intros Hin. destruct Hbl as (_ & Hhm & _).
      apply (proj1 (list.Forall_forall _ _) Hhm) in Hin as [? _]. lia. }
    split.
    + split; [done|]. split; [|split].
      * rewrite Hm by done. unfold rec_read. fold hw. by rewrite disk_read_out by (unfold hw; by rewrite home_writes_keys).
      * unfold disk_read. rewrite apply_writes_app. cbn [apply_writes foldl fst snd]. by rewrite lookup_insert_eq.
      * split; [constructor|]. split; [constructor|done].
    + intros m Ho. rewrite rec_read_nil. apply Hm. unfold outside, LOGSIZE in *. lia.
Qed.

Lemma after_crashes_ok d d' : after_crashes d d' -> forall st bl, disk_log d st bl ->
  exists bl', disk_log d' st bl' /\ forall m, outside st m -> rec_read d' st bl' m = rec_read d st bl m.
Proof.
  induction 1 as [d|d s k d' Hrun _ IH]; intros st bl Hd; [by exists bl|].
  destruct (boot_prefix d st bl s k Hd Hrun) as (bl1 & Hd1 & H1).
  destruct (IH st bl1 Hd1) as (bl2 & Hd2 & H2). exists bl2. split; [done|]. intros m Hm.
  by rewrite H2, H1.
Qed.

(** Recovery of [d] ends, with these contents outside the log. *)
Definition recovers (d : gmap (Z * Z) (list Z)) (st : Z) (f : Z -> list Z) : Prop :=
  exists s, boot (boot_fsys d) = Ret tt s /\ log_open s st [] /\ forall m, outside st m -> on_disk s m = f m.

Lemma disk_log_recovers d st bl : disk_log d st bl -> recovers d st (rec_read d st bl).
Proof.
  intros Hd. destruct (boot_ok d st bl Hd) as (s & h & Hrun & Hh & _ & Hdk & Hop & _).
  exists s. split; [done|]. split; [done|]. intros m Hm. unfold on_disk, rec_read. rewrite Hdk.
  unfold recovery_writes. rewrite apply_writes_app. apply disk_read_out. simpl.
  rewrite list_elem_of_singleton. intros [= ->]. unfold outside, LOGSIZE in *. lia.
Qed.

Lemma recovers_after_crashes d d' st bl f :
  disk_log d st bl -> (forall m, outside st m -> rec_read d st bl m = f m) ->
  after_crashes d d' -> recovers d' st f.
Proof.
  intros Hd Hf Hc. destruct (after_crashes_ok d d' Hc st bl Hd) as (bl' & Hd' & Heq).
  destruct (disk_log_recovers _ _ _ Hd') as (s & Hrun & Hop & Hm). exists s. split; [done|]. split; [done|].
  intros m Ho. by rewrite Hm, Heq, Hf.
Qed.

Lemma log_writes_elem st data bl w : forall i, w ∈ log_writes st data i bl ->
  exists j m, zget bl j = Some m /\ w = (1, st + (i + j) + 1, data m).
Proof.
  induction bl as [|y bl IH]; intros i Hw; simpl in Hw; [by apply elem_of_nil in Hw|].
  apply elem_of_cons in Hw as [->|Hw]; [exists 0, y; by rewrite Z.add_0_r|].
  destruct (IH _ Hw) as (j & m & Hj & ->). pose proof (zget_Some_range _ _ _ Hj). exists (j + 1), m.
  rewrite zget_cons, decide_False by lia. rewrite Z.add_simpl_r. split; [done|]. do 3 f_equal. lia.
Qed.

Lemma log_writes_read st data bl d j m : zget bl j = Some m ->
  disk_read (apply_writes (log_writes st data 0 bl) d) (1, st + j + 1) = data m.
Proof.
  intros Hj. pose proof (zget_Some_range _ _ _ Hj). unfold disk_read.
  rewrite (apply_writes_agree _ _ _ (data m)); [done| |apply log_writes_keys; lia].
  intros w (j' & m' & Hj' & ->)%log_writes_elem E. simpl in *. assert (j' = j) as -> by (injection E; lia).
  congruence.
Qed.

Lemma log_open_outside s st bl m : log_open s st bl -> m ∉ bl -> on_disk s m = logical s m.
Proof.
  intros [Hq _ _ Hpin _ _] Hm. apply clean_disk; [done|]. apply not_true_iff_false. by rewrite Hpin.
Qed.

Lemma log_open_superblock s st bl : log_open s st bl -> outside st 1 /\ 1 ∉ bl.
Proof.
  intros [_ ([? _] & _) [_ (_ & Hhm & _)] _ _ _]. unfold outside. split; [lia|]. intros Hin.
  apply (proj1 (list.Forall_forall _ _) Hhm) in Hin as [? _]. lia.
Qed.

(** The disk when the transaction has just been committed: the copies and the
    header are written. *)
Definition committed_disk (s : fsys) (st : Z) (bl h : list Z) : gmap (Z * Z) (list Z) :=
  <[(1, st) := h]> (apply_writes (log_writes st (logical s) 0 bl) (disk s)).

Lemma committed_disk_facts s st bl h : log_open s st bl ->
  let d := committed_disk s st bl h in
  (forall m, outside st m -> disk_read d (1, m) = on_disk s m) /\ disk_read d (1, st) = h /\
  (forall j m, zget bl j = Some m -> disk_read d (1, st + j + 1) = logical s m).
Proof.
  intros [_ _ [_ (_ & _ & Hl)] _ _ _]. unfold committed_disk. split_and!.
  - intros m Hm. unfold outside, LOGSIZE in *. unfold disk_read at 1.
    rewrite lookup_insert_ne by (intros [= ?]; lia).
    apply disk_read_out. rewrite log_writes_keys. lia.
  - unfold disk_read. by rewrite lookup_insert_eq.
  - intros j m Hj. pose proof (zget_Some_range _ _ _ Hj). unfold disk_read at 1.
    rewrite lookup_insert_ne by (intros [= ?]; lia). by apply log_writes_read.
Qed.

(** A crash before the header is written. *)
Lemma crash_logging s st bl ws : log_open s st bl ->
  (forall w, w ∈ ws -> w ∈ log_writes st (logical s) 0 bl) ->
  disk_log (apply_writes ws (disk s)) st [] /\
  forall m, outside st m -> rec_read (apply_writes ws (disk s)) st [] m = on_disk s m.
Proof.
  intros Hop Hws. pose proof (log_open_superblock _ _ _ Hop) as [Ho1 _].
  destruct Hop as [_ (Hpl & _) [_ (_ & _ & Hl)] _ _ [Hhd Hsb]].
  assert (forall m, outside st m \/ m = st -> disk_read (apply_writes ws (disk s)) (1, m) = on_disk s m) as Hlw.
  { intros m Hm. apply disk_read_out. intros (w & E & Hw%Hws)%list_elem_of_fmap.
    apply log_writes_elem in Hw as (j & x & Hj & ->). pose proof (zget_Some_range _ _ _ Hj). simpl in E.
    injection E as ->. unfold outside, LOGSIZE in *. lia. }
  split; [|intros m Hm; rewrite rec_read_nil; apply Hlw; by left].
  split; [done|]. split; [|split].
  - rewrite Hlw; [done|by left].
  - rewrite Hlw; [done|by right].
  - split; [constructor|]. split; [constructor|done].
Qed.

(** A crash after it. *)
Lemma crash_installing s st bl h h' k : log_open s st bl -> head_is h bl -> head_is h' [] ->
  let d := apply_writes (take k (home_writes (fun j => logical s (default 0 (zget bl j))) 0 bl ++ [(1, st, h')]))
             (committed_disk s st bl h) in
  exists bl', disk_log d st bl' /\ forall m, outside st m -> rec_read d st bl' m = logical s m.
Proof.
  intros Hop Hh Hh'. cbv zeta. destruct (committed_disk_facts s st bl h Hop) as (Hd1 & Hd1h & Hd1d).
  pose proof (log_open_superblock _ _ _ Hop) as [Ho1 Hn1].
  pose proof (log_open_outside _ _ _ 1 Hop Hn1) as Hsb1.
  pose proof (fun m => log_open_outside _ _ _ m Hop) as Hclean.
  destruct Hop as [_ (Hpl & _) [_ Hbl] _ _ [_ Hsb]].
  set (d1 := committed_disk s st bl h) in *.
  set (data := fun j => logical s (default 0 (zget bl j))). set (hw := home_writes data 0 bl).
  assert (forall j m, zget bl j = Some m -> data j = disk_read d1 (1, st + j + 1)) as Hdata.
  { intros j m Hj. unfold data. rewrite Hj. symmetry. by apply Hd1d. }
  assert (forall m, outside st m -> disk_read (apply_writes hw d1) (1, m) = logical s m) as Hnew.
  { intros m Hm. destruct (decide (m ∈ bl)) as [[j Hj]%elem_zget|Hmb].
    - unfold hw. rewrite (home_writes_read data bl d1 j m) by (done || apply Hbl). unfold data. by rewrite Hj.
    - rewrite disk_read_out by (unfold hw; by rewrite home_writes_keys). rewrite Hd1 by done. by apply Hclean. }
  destruct (decide (k <= length hw)%nat) as [Hk|Hk].
  - rewrite take_app_le by done. exists bl. destruct (reinstall d1 st bl data k Hpl Hbl Hdata) as [H1 H2].
    fold hw in H1, H2. split; [|intros m Hm; rewrite H2; by apply Hnew].
    split; [done|]. split; [|split; [|done]].
    + rewrite H1 by (right; lia). by rewrite Hd1.
    + rewrite H1 by (left; unfold outside, LOGSIZE; lia). by rewrite Hd1h.
  - rewrite take_ge by (rewrite length_app; simpl; lia). exists []. rewrite apply_writes_app.
    assert (forall m, outside st m -> disk_read (apply_writes [(1, st, h')] (apply_writes hw d1)) (1, m) = logical s m) as Hm.
    { intros m Hm. rewrite disk_read_out; [by apply Hnew|]. cbn. rewrite list_elem_of_singleton.
      intros [= ->]. unfold outside, LOGSIZE in *. lia. }
    split; [|intros m Ho; by apply Hm]. split; [done|]. split; [|split].
    + rewrite Hm by done. by rewrite <-Hsb1.
    + unfold disk_read. cbn [apply_writes foldl fst snd]. by rewrite lookup_insert_eq.
    + split; [constructor|]. split; [constructor|done].
Qed.

(** A crash during a commit: all of it or nothing, and which only depends on whether
    the header has been written. *)
Lemma commit_prefix s st bl h h' k :
  log_open s st bl -> head_is h bl -> head_is h' [] ->
  let d' := apply_writes (take k (commit_writes st (logical s) bl h h')) (disk s) in
  exists bl', disk_log d' st bl' /\
    forall m, outside st m ->
      rec_read d' st bl' m = if decide (k <= length bl)%nat then on_disk s m else logical s m.
Proof.
  intros Hop Hh Hh'. cbv zeta. unfold commit_writes. set (lw := log_writes st (logical s) 0 bl).
  assert (length lw = length bl) as Elw.
  { unfold lw. generalize 0. clear. induction bl as [|x bl IH]; intros i; simpl; [done|]. by rewrite IH. }
  case_decide as Hk.
  - rewrite take_app_le by lia. exists []. apply (crash_logging s st bl); [done|]. intros w Hw.
    by eapply subseteq_take.
  - rewrite take_app_ge by lia. destruct (k - length lw)%nat as [|k1] eqn:Ek; [lia|]. cbn [take].
    rewrite apply_writes_app. by apply crash_installing.
Qed.

(** ** [log_write] and transactions *)

(** What a file-system call does with a block it changes. *)
Definition write_blk (n : Z) (d : list Z) : M fsys unit :=
  b ← bread ROOTDEV n;
  set_data b d ;;
  log_write b ;;
  brelse b.

Definition transaction (ws : list (Z * list Z)) : M fsys unit :=
  begin_op ;;
  for_each ws (fun w => write_blk (fst w) (snd w)) ;;
  end_op.

(** The blocks logged after [n] is. *)
Definition add_blk (bl : list Z) (n : Z) : list Z := if decide (n ∈ bl) then bl else bl ++ [n].

Lemma lh_take s bl : lh_is s bl -> take (Z.to_nat (lh_n s)) (lh_block s) = bl.
Proof.
  intros (Hn & Hlb & Hlen & Hfrom). pose proof (zlen_nonneg bl).
  assert (zlen (take (Z.to_nat (lh_n s)) (lh_block s)) = zlen bl) as E.
  { unfold zlen in *. rewrite length_take, Hn. lia. }
  apply zget_ext; [done|]. intros i Hi. rewrite E in Hi. rewrite zget_take by lia.
  destruct (zget_in_range bl i Hi) as [x Hx]. specialize (Hfrom i x Hx). rewrite Hx. done.
Qed.

(** The header part of [log_write]. *)
Definition log_absorb (x : Z) (s : fsys) : fsys :=
  let i := log_slot (lh_n s) (lh_block s) x in
  with_lh (if i =? lh_n s then lh_n s + 1 else lh_n s) (zset (lh_block s) i x) s.

Lemma log_absorb_ok s bl x : lh_is s bl -> zlen bl < LOGSIZE - 1 ->
  lh_is (log_absorb x s) (add_blk bl x) /\ 0 <= log_slot (lh_n s) (lh_block s) x < LOGSIZE.
Proof.
  intros Hlh Hl. pose proof (lh_take s bl Hlh) as Ht. pose proof Hlh as (Hn & Hlb & Hlen & Hfrom).
  pose proof (zlen_nonneg bl). unfold log_absorb, log_slot, add_blk. rewrite Ht.
  destruct (list_find (fun y => y = x) bl) as [[i y]|] eqn:E.
  - apply list_find_Some in E as (Hi & -> & _). rewrite decide_True by (by eapply list_elem_of_lookup_2).
    assert (zget bl (Z.of_nat i) = Some x) as Hx by (unfold zget; destruct (Z.leb_spec 0 (Z.of_nat i)); [by rewrite Nat2Z.id|lia]).
    pose proof (zget_Some_range _ _ _ Hx). destruct (Z.eqb_spec (Z.of_nat i) (lh_n s)); [lia|].
    split; [|unfold LOGSIZE in *; lia]. rewrite zset_id by (by apply (Hfrom (Z.of_nat i))). by destruct s.
  - apply list_find_None in E. assert (x ∉ bl) as Hni.
    { intros Hin. by apply (proj1 (list.Forall_forall _ _) E x Hin). }
    rewrite decide_False by done. rewrite Z.eqb_refl. split; [|lia].
    unfold lh_is, lh_from. cbn [lh_n lh_block with_lh]. rewrite zlen_snoc, zlen_zset.
    split_and!; [lia|done|lia|]. intros j y. rewrite zget_snoc, Z.add_0_l. case_decide as Ej.
    + intros [= <-]. subst j. rewrite Hn. apply zget_zset_eq. unfold LOGSIZE in *. lia.
    + intros Hy. pose proof (zget_Some_range _ _ _ Hy). rewrite zget_zset_ne by lia. by apply Hfrom.
Qed.

Lemma log_write_exec s b v bl :
  zget (bufs s) b = Some v -> 0 <= b_blockno v < FSSIZE -> lh_is s bl -> zlen bl < LOGSIZE - 1 ->
  log_size s = LOGSIZE -> 1 <= log_outstanding s ->
  log_write b s = Ret tt (with_bufs (zset (bufs s) b
    (MkBuf (Z.lor (b_flags v) B_DIRTY) (b_dev v) (b_blockno v) (b_locked v) (b_refcnt v) (b_data v)))
    (log_absorb (b_blockno v) s)).
Proof.
  intros Hv Hb Hlh Hl Hsz Ho. pose proof (log_absorb_ok s bl (b_blockno v) Hlh Hl) as [_ Hslot].
  pose proof Hlh as (Hn & Hlb & _). unfold log_write. exec. rewrite Hsz, Hn.
  unfold LOGSIZE in *. destruct (Z.leb_spec 30 (zlen bl)), (Z.leb_spec (30 - 1) (zlen bl)); try lia. cbn [orb].
  destruct (Z.ltb_spec (log_outstanding s) 1); [lia|]. exec. exec_by (get_buf_ok s b v Hv).
  rewrite s32_block by done. rewrite <-Hn. set (i := log_slot _ _ _) in *.
  destruct (zget_in_range (lh_block s) i ltac:(lia)) as [y Hy].
  unfold set_lh, get_lh. exec. rewrite Hy. cbn [deref]. exec.
  unfold log_absorb. fold i. cbn [lh_n with_lh]. unfold when. destruct (i =? lh_n s); unfold set_lh_n; exec;
    by erewrite set_buf_ok by exact Hv.
Qed.

(** A held buffer given new contents and marked dirty. *)
Lemma mark_dirty s s' b n d0 x d :
  bio_ok s -> holds s b n d0 x ->
  bufs s' = zset (bufs s) b (MkBuf 6 ROOTDEV n true 1 d) -> bnext s' = bnext s -> bprev s' = bprev s ->
  disk s' = disk s -> havedisk1 s' = true ->
  bio_ok s' /\ holds s' b n d true /\ logical s' n = d /\ pinned s' n = true /\
  (forall m, m <> n -> logical s' m = logical s m /\ pinned s' m = pinned s m) /\
  ndirty s' = ndirty s + (if x then 0 else 1) /\ nheld s' = nheld s /\
  (forall m, m <> n -> unheld s m -> unheld s' m).
Proof.
  intros Hok (v & Hv & Hvn & Hvl & Hvd & Hvf) Hb Hnx Hpv Hd Hd1.
  destruct (bo_ref s Hok _ _ Hv) as [[_ ?]|[Hvr _]]; [congruence|].
  set (w := MkBuf 6 ROOTDEV n true 1 d) in *. assert (is_block n w) as Hw by done.
  assert (forall i u, i <> b -> zget (bufs s) i = Some u -> ~ is_block n u) as Hun.
  { intros i u Hi Hu Hy. apply Hi. by eapply (bo_uniq s Hok). }
  assert (forall m, is_block m v -> m <> n -> b_flags v <> 0 -> b_data v = on_disk s m /\ b_flags v = 2) as Hev.
  { intros m [_ Hm] Hmn. destruct Hvn as [_ ?]. lia. }
  assert (forall m, m <> n -> on_disk s' m = on_disk s m) as Hdk by (intros; unfold on_disk; by rewrite Hd).
  assert ((b_refcnt w = 0 /\ b_locked w = false) \/ (b_refcnt w = 1 /\ b_locked w = true)) as Href by by right.
  assert (b_flags w = 2 \/ b_flags w = 6) as Hfl by by right.
  assert (b_locked w = false -> b_flags w = 2 -> b_data w = on_disk s' n) as Hcl by done.
  destruct (change_this s b v w n s') as [HL HP]; try done.
  destruct (change_counts s b v w s') as [Hc Hc']; try done.
  assert (dirty_b v = x /\ held_b v = true) as [E1 E2]
    by (unfold dirty_b, held_b; rewrite Hvf, Hvr; by destruct x).
  rewrite E1 in Hc. rewrite E2 in Hc'. change (dirty_b w) with true in Hc. change (held_b w) with true in Hc'.
  split; [by eapply (change_ok s b v w n s')|]. split.
  { exists w. rewrite Hb. split_and!; try done. by eapply zget_zset_eq, zget_Some_range. }
  split; [done|]. split; [done|]. split; [intros m Hm; by apply (change_other s b v w n s')|].
  cbv iota in Hc, Hc'. split; [rewrite Hc; destruct x; lia|]. split; [lia|]. intros m Hm Hum i u. rewrite Hb, zget_zset.
  case_decide as E; [|apply Hum]. destruct E as [<- _]. intros [= <-] [_ Em]. simpl in Em. lia.
Qed.

(** The new header entry preserves what a transaction in progress relies on. *)
Lemma log_open_add s s' st bl n :
  log_open s st bl -> home st n -> zlen bl < LOGSIZE - 1 -> quiet s' -> lframe s s' -> disk s' = disk s ->
  lh_is s' (add_blk bl n) -> pinned s' n = true -> (forall m, m <> n -> pinned s' m = pinned s m) ->
  ndirty s' = ndirty s + (if pinned s n then 0 else 1) -> log_open s' st (add_blk bl n).
Proof.
  intros [_ (Hpl & Hat & Hsz) [_ (Hb1 & Hb2 & Hb3)] Hpin Hnd Hhd] Hhn Hlen Hq Hfr Hd Hlh Hpn Hpm Hnd'.
  destruct (lframe_log _ _ _ Hfr Hat) as (Hat' & Hsz' & _).
  split; [done|split; [done|split; [done|congruence]]|split; [done|]| | |unfold on_disk in *; by rewrite Hd].
  - unfold add_blk. case_decide as E; [done|]. split_and!.
    + apply NoDup_app. split; [done|]. split; [|apply NoDup_singleton]. intros x Hx ->%list_elem_of_singleton. done.
    + apply list.Forall_app. split; [done|]. by constructor.
    + rewrite zlen_snoc. lia.
  - intros m. unfold add_blk. destruct (decide (m = n)) as [->|Hm].
    + rewrite Hpn. case_decide; [tauto|]. rewrite elem_of_app, list_elem_of_singleton. tauto.
    + rewrite (Hpm m Hm), Hpin. case_decide; [done|]. rewrite elem_of_app, list_elem_of_singleton. tauto.
  - unfold add_blk. rewrite Hnd'. destruct (pinned s n) eqn:E.
    + rewrite decide_True by by apply Hpin. lia.
    + rewrite decide_False by (rewrite <-Hpin; congruence). rewrite zlen_snoc. lia.
Qed.

Lemma write_blk_ok s st bl n d :
  log_open s st bl -> home st n -> zlen bl < LOGSIZE - 1 -> 1 <= log_outstanding s ->
  exists s', write_blk n d s = Ret tt s' /\ log_open s' st (add_blk bl n) /\ lframe s s' /\
    disk s' = disk s /\ trace s' = trace s /\
    logical s' n = d /\ (forall m, m <> n -> logical s' m = logical s m).
Proof.
  intros Hop Hhn Hlen Hout. pose proof Hop as [(Hok & Hnh & Hun) (_ & _ & Hsz) [Hlh _] _ Hnd _].
  assert (0 <= n < FSSIZE) as Hn by (destruct Hhn; lia).
  assert (pinned s n = true \/ ndirty s + nheld s < NBUF) as Hroom by (right; unfold NBUF, LOGSIZE in *; lia).
  destruct (bread_ok s n Hok Hn (Hun n) Hroom) as
    (b & s1 & Hr1 & [Hok1 Hh1 Hv1 (Hd1 & Ht1 & Hfr1) [Hc1 Hc1'] _ Hu1]).
  destruct (frame_lh _ _ Hfr1) as [En Eb]. pose proof Hh1 as (v & Hv & [Hvdev Hvbn] & Hvl & _ & Hvf).
  destruct (bo_ref s1 Hok1 _ _ Hv) as [[_ ?]|[Hvr _]]; [congruence|].
  set (v1 := MkBuf (b_flags v) (b_dev v) (b_blockno v) (b_locked v) (b_refcnt v) d).
  set (s2 := put_data b v d s1). assert (zget (bufs s2) b = Some v1) as Hv2 by (eapply zget_zset_eq, zget_Some_range, Hv).
  assert (lh_is s2 bl) as Hlh2 by (unfold lh_is, lh_from; cbn; by rewrite En, Eb).
  assert (log_size s2 = LOGSIZE /\ 1 <= log_outstanding s2) as [Hsz2 Hout2]
    by (unfold fs_frame in Hfr1; cbn; by rewrite Hfr1).
  assert (0 <= b_blockno v1 < FSSIZE) as Hvr1 by (change (b_blockno v1) with (b_blockno v); lia).
  pose proof (log_write_exec s2 b v1 bl Hv2 Hvr1 Hlh2 Hlen Hsz2 Hout2) as Hr2. set (s3 := with_bufs _ _) in Hr2.
  assert (bufs s3 = zset (bufs s1) b (MkBuf 6 ROOTDEV n true 1 d)) as Hb3.
  { cbn. rewrite zset_zset_eq. do 2 f_equal; [rewrite Hvf; by destruct (pinned s n)|done..]. }
  destruct (mark_dirty s1 s3 b n _ _ d Hok1 Hh1 Hb3 eq_refl eq_refl eq_refl (bo_disk1 _ Hok1)) as
    (Hok3 & Hh3 & HL3 & HP3 & Hv3 & Hc3 & Hc3' & Hu3).
  destruct (brelse_ok s3 b n d true Hok3 Hh3 (or_introl eq_refl)) as
    (s4 & Hr4 & [Hok4 Hv4 (Hd4 & Ht4 & Hf4) [Hc4 Hc4'] _ Hu4 _]).
  destruct (frame_lh _ _ Hf4) as [En4 Eb4].
  assert (forall m, m <> n -> logical s4 m = logical s m /\ pinned s4 m = pinned s m) as Hv4'.
  { intros m Hm. destruct (Hv4 m) as [-> ->], (Hv3 m Hm) as [-> ->]. apply Hv1. }
  assert (lframe s s4) as Hfr.
  { eapply lframe_trans; [by apply lframe_fs|]. eapply lframe_trans; [|by apply lframe_fs].
    unfold lframe, fs_frame. clear. by destruct s1. }
  assert (disk s4 = disk s) as Ed by (rewrite Hd4; exact Hd1).
  exists s4. split_and!; [| |done|done|rewrite Ht4; exact Ht1| |intros m Hm; by apply Hv4'].
  - unfold write_blk. exec_by Hr1. exec_by (set_data_exec s1 b v d Hv). fold s2. exec_by Hr2. exact Hr4.
  - apply (log_open_add s); try done; [| | |intros m Hm; by apply Hv4'|lia].
    + split; [done|]. split; [lia|]. intros m. apply Hu4.
      destruct (decide (m = n)) as [->|Hm]; [by left|right]. by apply Hu3, Hu1.
    + unfold lh_is, lh_from. rewrite En4, Eb4. rewrite <-Hvbn. by apply (log_absorb_ok s2).
    + by destruct (Hv4 n) as [_ ->].
  - by destruct (Hv4 n) as [-> _].
Qed.

(** Between transactions. *)
Definition log_idle (s : fsys) (st : Z) : Prop :=
  log_open s st [] /\ log_outstanding s = 0 /\ log_committing s = false.

(** The contents of the disk after the writes of a transaction. *)
Fixpoint txn_view (ws : list (Z * list Z)) (f : Z -> list Z) (m : Z) : list Z :=
  match ws with
  | [] => f m
  | (n, d) :: ws' => txn_view ws' (fun x => if x =? n then d else f x) m
  end.

Lemma txn_view_ext ws : forall f g, (forall m, f m = g m) -> forall m, txn_view ws f m = txn_view ws g m.
Proof.
  induction ws as [|[n d] ws IH]; intros f g H m; simpl; [done|]. apply IH. intros x. by rewrite H.
Qed.

Lemma zlen_add_blk bl n : zlen (add_blk bl n) <= zlen bl + 1.
Proof. unfold add_blk. case_decide; [lia|]. rewrite zlen_snoc. lia. Qed.

Lemma write_blks_ok st ws : forall s bl,
  log_open s st bl -> Forall (fun w => home st (fst w)) ws -> zlen bl + zlen ws < LOGSIZE -> 1 <= log_outstanding s ->
  exists s' bl', for_each ws (fun w => write_blk (fst w) (snd w)) s = Ret tt s' /\ log_open s' st bl' /\
    lframe s s' /\ disk s' = disk s /\ trace s' = trace s /\
    (forall m, logical s' m = txn_view ws (logical s) m) /\ (ws = [] -> bl' = bl) /\ (ws <> [] -> bl' <> []).
Proof.
  induction ws as [|[n d] ws IH]; intros s bl Hop Hws Hlen Hout.
  - exists s, bl. split_and!; try done. by destruct s.
  - apply list.Forall_cons in Hws as [Hn Hws]. rewrite zlen_cons in Hlen. pose proof (zlen_nonneg ws).
    destruct (write_blk_ok s st bl n d Hop Hn) as (s1 & Hr1 & Hop1 & Hf1 & Hd1 & Ht1 & HL1 & HL1'); [lia|done|].
    pose proof (zlen_add_blk bl n). pose proof Hop as [_ (_ & Hat & _) _ _ _ _].
    destruct (lframe_log _ _ _ Hf1 Hat) as (_ & _ & Ho1 & _).
    destruct (IH s1 (add_blk bl n) Hop1 Hws) as (s2 & bl' & Hr2 & Hop2 & Hf2 & Hd2 & Ht2 & HL2 & He & Hne); [lia|lia|].
    exists s2, bl'. split_and!; [| done|by eapply lframe_trans|congruence|congruence| |done|].
    + cbn [for_each fst snd]. exec_by Hr1. exact Hr2.
    + intros m. rewrite HL2. cbn [txn_view]. apply txn_view_ext. intros x.
      destruct (Z.eqb_spec x n) as [->|Hx]; [done|by apply HL1'].
    + intros _. destruct ws as [|w ws]; [|by apply Hne]. rewrite He by done. unfold add_blk. case_decide as E.
      * intros ->. by apply elem_of_nil in E.
      * by destruct bl.
Qed.

Lemma log_open_ops s st bl out com : log_open s st bl -> log_open (with_log_ops out com s) st bl.
Proof. intros [(Hok & Hq) ? ? ? ? ?]. split; try done. split; [by destruct Hok|done]. Qed.

(** A crash while [commit] runs leaves a disk from which recovery makes all of the
    transaction, or nothing; nothing more can happen while recovery itself is
    interrupted. *)
Lemma commit_crash s st bl s' ws :
  log_open s st bl -> bl <> [] -> commit s = Ret tt s' -> trace s' = trace s ++ ws ->
  forall k, (forall d, after_crashes (apply_writes (take k ws) (disk s)) d -> recovers d st (on_disk s)) \/
            (forall d, after_crashes (apply_writes (take k ws) (disk s)) d -> recovers d st (logical s)).
Proof.
  intros Hop Hne Hrun Ht k. destruct (commit_ok s st bl Hop Hne) as (s1 & h & h' & Hrun1 & Hh & Hh' & Ht1 & _).
  rewrite Hrun in Hrun1. injection Hrun1 as <-. rewrite Ht1 in Ht. apply app_inv_head in Ht as <-.
  destruct (commit_prefix s st bl h h' k Hop Hh Hh') as (bl' & Hd & Hm). cbv zeta in *.
  case_decide; [left|right]; intros d Hc; by eapply recovers_after_crashes.
Qed.

Lemma idle_disk s st bl : log_open s st [] -> disk_log (disk s) st [] /\ (forall m, logical s m = on_disk s m) /\
  (bl = [] -> forall m, rec_read (disk s) st bl m = on_disk s m).
Proof.
  intros Hop. split_and!; [|intros m; symmetry; eapply log_open_outside; [done|by apply not_elem_of_nil]|by intros ->].
  destruct Hop as [_ (Hpl & _) _ _ _ [Hh Hsb]]. split; [done|]. split; [done|]. split; [done|].
  split; [constructor|]. split; [constructor|done].
Qed.

Lemma transaction_ok s st ws :
  log_idle s st -> Forall (fun w => home st (fst w)) ws -> zlen ws <= MAXOPBLOCKS ->
  exists s' tr, transaction ws s = Ret tt s' /\ log_idle s' st /\ trace s' = trace s ++ tr /\
    (forall m, outside st m -> on_disk s' m = txn_view ws (on_disk s) m) /\
    forall k, (forall d, after_crashes (apply_writes (take k tr) (disk s)) d -> recovers d st (on_disk s)) \/
              (forall d, after_crashes (apply_writes (take k tr) (disk s)) d -> recovers d st (txn_view ws (on_disk s))).
Proof.
  intros (Hop & Hout & Hcom) Hws Hlen. pose proof Hop as [_ (_ & Hat & _) [(Hn & _) _] _ _ _].
  destruct (idle_disk s st [] Hop) as (Hdl & HLd & Hrr).
  set (s1 := with_log_ops 1 false s). assert (begin_op s = Ret tt s1) as Hr1.
  { unfold begin_op. exec. rewrite Hcom, Hn, Hout. change (LOGSIZE <? _) with false. done. }
  destruct (write_blks_ok st ws s1 [] (log_open_ops _ _ _ _ _ Hop) Hws) as
    (s2 & bl & Hr2 & Hop2 & Hf2 & Hd2 & Ht2 & HL2 & He & Hne); [unfold MAXOPBLOCKS, LOGSIZE, zlen in *; simpl in *; lia|done|].
  destruct (lframe_log _ _ _ Hf2 (Hat : log_at s1 st)) as (Hat2 & _ & Ho2 & Hc2).
  assert (forall m, logical s2 m = txn_view ws (on_disk s) m) as HL2'.
  { intros m. rewrite HL2. apply txn_view_ext. intros x. apply HLd. }
  set (s3 := with_log_ops 0 true s2). assert (log_open s3 st bl) as Hop3 by by apply log_open_ops.
  assert (forall c s4, commit s3 = Ret c s4 -> transaction ws s = Ret tt (with_log_ops (log_outstanding s4) false s4)) as Hrun.
  { intros c s4 Hc. unfold transaction. exec_by Hr1. exec_by Hr2. unfold end_op. exec.
    cbn [log_committing log_outstanding with_log_ops]. rewrite Hc2, Ho2. cbn [log_committing log_outstanding with_log_ops s1].
    change (1 - 1 =? 0) with true. cbv iota. exec.
    change (with_log_ops 0 true (with_log_ops _ _ s2)) with s3. by exec_by Hc. }
  destruct (decide (ws = [])) as [->|Hwne].
  - rewrite He in * by done. assert (commit s3 = Ret tt s3) as Hc.
    { pose proof Hop3 as [_ _ [(Hn3 & _) _] _ _ _]. unfold commit. exec. by rewrite Hn3. }
    specialize (Hrun _ _ Hc). cbn [log_outstanding with_log_ops s3] in Hrun.
    exists (with_log_ops 0 false s3), []. split_and!; [done| |cbn; by rewrite app_nil_r, Ht2| |].
    + split; [by apply log_open_ops|done].
    + intros m _. cbn [txn_view]. unfold on_disk. cbn. by rewrite Hd2.
    + intros k. left. intros d Hc'. rewrite take_nil in Hc'. cbn in Hc'. eapply recovers_after_crashes; [exact Hdl| |exact Hc'].
      intros m _. by apply Hrr.
  - specialize (Hne Hwne). destruct (commit_ok s3 st bl Hop3 Hne) as (s4 & h & h' & Hc & _ & _ & Ht4 & _ & Hop4 & Hf4 & HL4).
    specialize (Hrun _ _ Hc). destruct (lframe_log _ _ _ Hf4 (Hat2 : log_at s3 st)) as (_ & _ & Ho4 & _).
    exists (with_log_ops (log_outstanding s4) false s4), (commit_writes st (logical s3) bl h h').
    split_and!; [done|split; [by apply log_open_ops|by rewrite Ho4]|cbn; rewrite Ht4; cbn; by rewrite Ht2| |].
    + intros m Hm. change (on_disk s4 m = txn_view ws (on_disk s) m). destruct (idle_disk s4 st [] Hop4) as (_ & <- & _).
      rewrite HL4 by done. apply HL2'.
    + intros k. destruct (commit_crash s3 st bl s4 _ Hop3 Hne Hc Ht4 k) as [H|H]; [left|right]; intros d Hd;
        (assert (disk s3 = disk s) as Ed by exact Hd2); rewrite <-Ed in Hd; destruct (H d Hd) as (r & Hr & Hrop & Hrm);
        exists r; (split; [done|]); (split; [done|]); intros m Hm; rewrite Hrm by done; [by unfold on_disk; rewrite Ed|apply HL2'].
Qed.

(** ** The properties *)

(** A disk with a superblock, an empty log at block 2 and zeroed blocks. *)
Definition ex_sb : list Z := [FSSIZE; 941; 200; LOGSIZE; 2; 32; 58] ++ replicate 121 0.
Definition ex_disk : gmap (Z * Z) (list Z) := {[ (1, 1) := ex_sb ]}.
(** The same, with a committed transaction on block 100. *)
Definition ex_head : list Z := [1; 100] ++ replicate 126 0.
Definition ex_new : list Z := replicate 128 7.
Definition ex_disk_committed : gmap (Z * Z) (list Z) := <[(1, 3) := ex_new]> (<[(1, 2) := ex_head]> ex_disk).

Lemma ex_home x : 32 <= x < FSSIZE -> home 2 x.
Proof. unfold home, LOGSIZE. lia. Qed.

Lemma ex_disk_log : disk_log ex_disk 2 [].
Proof.
  split; [split; by_vm|]. split; [split; by_vm|]. split; [apply head_is_empty; by_vm|].
  split; [constructor|]. split; [constructor|by_vm].
Qed.
Lemma ex_disk_committed_log : disk_log ex_disk_committed 2 [100].
Proof.
  split; [split; by_vm|]. split; [split; by_vm|]. split.
  - split; [by_vm|]. split; [by_vm|]. intros j x. rewrite zget_cons. case_decide as E; [|by intros ?%zget_elem%elem_of_nil].
    intros [= <-]. subst. by_vm.
  - split; [apply NoDup_singleton|]. split; [|by_vm]. constructor; [apply ex_home|constructor]; by_vm.
Qed.
Lemma ex_boot : exists s, boot (boot_fsys ex_disk) = Ret tt s /\ log_idle s 2.
Proof.
  destruct (boot_ok ex_disk 2 [] ex_disk_log) as (s & h & Hr & _ & _ & _ & Hop & Ho & Hc).
  exists s. split; [exact Hr|]. split; [exact Hop|]. split; [exact Ho|exact Hc].
Qed.

(** C10. A file-system transaction ([begin_op], then for each block it changes
    [bread], the change, [log_write] and [brelse], then [end_op], which commits) is
    atomic and durable.  It returns with the log idle again and its writes on disk.  If the machine
    stops after any [k] of the disk writes it makes, and recovery at boot is itself
    interrupted any number of times at any point, the recovery that completes leaves either
    the old disk or all the writes - the same choice whatever happens during recovery. *)
Theorem transaction_atomic_durable s st ws :
  log_idle s st -> Forall (fun w => home st (fst w)) ws -> zlen ws <= MAXOPBLOCKS ->
  exists s' tr, transaction ws s = Ret tt s' /\ log_idle s' st /\ trace s' = trace s ++ tr /\
    (forall m, outside st m -> on_disk s' m = txn_view ws (on_disk s) m) /\
    forall k, (forall d, after_crashes (apply_writes (take k tr) (disk s)) d -> recovers d st (on_disk s)) \/
              (forall d, after_crashes (apply_writes (take k tr) (disk s)) d -> recovers d st (txn_view ws (on_disk s))).
Proof. apply transaction_ok. Qed.
Lemma transaction_atomic_durable_witness :
  exists s s' tr, boot (boot_fsys ex_disk) = Ret tt s /\ transaction [(100, ex_new); (101, ex_new)] s = Ret tt s' /\
    trace s' = trace s ++ tr /\
    forall k, (forall d, after_crashes (apply_writes (take k tr) (disk s)) d -> recovers d 2 (on_disk s)) \/
              (forall d, after_crashes (apply_writes (take k tr) (disk s)) d ->
                 recovers d 2 (txn_view [(100, ex_new); (101, ex_new)] (on_disk s))).
Proof.
  destruct ex_boot as (s & Hb & Hi).
  destruct (transaction_atomic_durable s 2 [(100, ex_new); (101, ex_new)] Hi) as (s' & tr & H1 & _ & H2 & _ & H3).
  - constructor; [|constructor; [|constructor]]; apply ex_home; by_vm.
  - by_vm.
  - exists s, s', tr. split; [exact Hb|]. split; [exact H1|]. split; [exact H2|exact H3].
Defined.

(** Recovery: on a disk whose log lists the committed blocks [bl], booting ([binit],
    [initlog]) installs every logged copy at its home location, clears the header and
    leaves the log idle; and it is idempotent: interrupted any number of times after
    any of its disk writes, the recovery that completes gives the same disk. *)
Theorem recovery_installs_committed_blocks d d' st bl :
  disk_log d st bl -> after_crashes d d' ->
  exists s, boot (boot_fsys d') = Ret tt s /\ log_idle s st /\
    (forall j m, zget bl j = Some m -> on_disk s m = disk_read d (1, st + j + 1)) /\
    (forall m, outside st m -> m ∉ bl -> on_disk s m = disk_read d (1, m)).
Proof.
  intros Hd Hc. destruct (after_crashes_ok d d' Hc st bl Hd) as (bl' & Hd' & Heq).
  destruct (boot_ok d' st bl' Hd') as (s & h & Hr & _ & _ & _ & Hop & Ho & Hco).
  destruct (disk_log_recovers d' st bl' Hd') as (s1 & Hr1 & _ & Hm). rewrite Hr in Hr1. injection Hr1 as <-.
  destruct Hd as (_ & _ & _ & Hnd & Hhm & _).
  exists s. split; [exact Hr|]. split; [split; [exact Hop|split; [exact Ho|exact Hco]]|]. split.
  - intros j m Hj. rewrite Hm by (apply (proj1 (list.Forall_forall _ _) Hhm), (zget_elem _ _ _ Hj)).
    rewrite Heq by (apply (proj1 (list.Forall_forall _ _) Hhm), (zget_elem _ _ _ Hj)).
    unfold rec_read.
    by apply (home_writes_read (fun j => disk_read d (1, st + j + 1))).
  - intros m Ho' Hni. rewrite Hm, Heq by done. unfold rec_read. apply disk_read_out. by rewrite home_writes_keys.
Qed.
Lemma recovery_installs_committed_blocks_witness :
  exists s, boot (boot_fsys ex_disk_committed) = Ret tt s /\ on_disk s 100 = ex_new.
Proof.
  destruct (recovery_installs_committed_blocks ex_disk_committed ex_disk_committed 2 [100]
    ex_disk_committed_log (ac_none _)) as (s & Hr & _ & Hin & _).
  exists s. split; [exact Hr|]. rewrite (Hin 0 100 eq_refl). vm_compute. reflexivity.
Defined.

(** The reservation of [begin_op] and the guard of [log_write] disagree by one block:
    with a log of [LOGSIZE] blocks, one of which is the header, three calls that are admitted together and log
    [MAXOPBLOCKS] distinct blocks each make [log_write] panic. *)
Theorem log_write_panics_within_reservation :
  exists s, (boot ;; begin_op ;; begin_op ;; begin_op ;;
             for_each (seqZ 100 (3 * MAXOPBLOCKS)) (fun n => write_blk n zero_block)) (boot_fsys ex_disk)
            = Panic "too big a transaction" s /\ log_outstanding s = 3 /\ lh_n s = 3 * MAXOPBLOCKS - 1.
Proof.
  set (m := boot ;; _). assert (match m (boot_fsys ex_disk) with
    | Panic msg s => msg = "too big a transaction"%string /\ log_outstanding s = 3 /\ lh_n s = 3 * MAXOPBLOCKS - 1
    | _ => False end) as H by (vm_compute; auto).
  destruct (m (boot_fsys ex_disk)) as [| msg s | |]; try done. destruct H as (-> & H1 & H2). by exists s.
Qed.
