(* ===== verification/XLogSpace.v ===== *)
(** * Log space: concurrent file-system calls never overrun the log

    [begin_op], [log_write] and [end_op] of [xv6/log.c], executed by any number of
    calls interleaved in any order, as a step relation.  The invariant is the
    reservation that [begin_op] makes for the calls in progress. *)
From S2P Require Import Prelude XBio XLog.

(** ** What leaves the log's counters alone *)

Definition counters (s : fsys) : Z * Z * bool * Z :=
  (lh_n s, log_outstanding s, log_committing s, log_size s).
Definition keeps {A} (m : M fsys A) : Prop := forall s a s', m s = Ret a s' -> counters s' = counters s.

Lemma keeps_ret {A} (a : A) : keeps (mret a).
Proof. intros s b s' [= _ <-]. done. Qed.
Lemma keeps_bind {A B} (m : M fsys A) (k : A -> M fsys B) : keeps m -> (forall a, keeps (k a)) -> keeps (m ≫= k).
Proof. intros Hm Hk s b s' (a & s1 & H1 & H2)%bind_inv. by rewrite (Hk a _ _ _ H2), (Hm _ _ _ H1). Qed.
Lemma keeps_get : keeps get.
Proof. intros s a s' [= _ <-]. done. Qed.
Lemma keeps_gets {A} (f : fsys -> A) : keeps (gets f).
Proof. intros s a s' [= _ <-]. done. Qed.
Lemma keeps_modify f : (forall s, counters (f s) = counters s) -> keeps (modify f).
Proof. intros Hf s a s' [= _ <-]. apply Hf. Qed.
Lemma keeps_deref {A} (o : option A) : keeps (deref o).
Proof. destruct o; [apply keeps_ret|done]. Qed.
Lemma keeps_panic {A} msg : keeps (A := A) (panic msg).
Proof. done. Qed.
Lemma keeps_leave {A} : keeps (A := A) leave.
Proof. done. Qed.
Lemma keeps_when b m : keeps m -> keeps (when b m).
Proof. destruct b; [done|intros; apply keeps_ret]. Qed.
Lemma keeps_for_each {A} (l : list A) body : (forall x, keeps (body x)) -> keeps (for_each l body).
Proof. intros Hb. induction l as [|x l IH]; [apply keeps_ret|]. by apply keeps_bind. Qed.

Create HintDb keeps.
#[export] Hint Resolve keeps_ret keeps_get keeps_gets keeps_deref keeps_panic keeps_leave keeps_when : keeps.
#[export] Hint Extern 1 (keeps (_ ≫= _)) => apply keeps_bind; [|intros ?] : keeps.
#[export] Hint Extern 1 (keeps (modify _)) => apply keeps_modify; intros []; reflexivity : keeps.
#[export] Hint Extern 1 (keeps (for_each _ _)) => apply keeps_for_each; intros ? : keeps.
#[export] Hint Extern 2 (keeps (match ?x with _ => _ end)) => destruct x : keeps.

Lemma keeps_get_buf b : keeps (get_buf b).
Proof. unfold get_buf. auto with keeps. Qed.
#[export] Hint Resolve keeps_get_buf : keeps.
Lemma keeps_set_buf b v : keeps (set_buf b v).
Proof. unfold set_buf. auto with keeps. Qed.
#[export] Hint Resolve keeps_set_buf : keeps.
Lemma keeps_links b v : keeps (get_next b) /\ keeps (get_prev b) /\ keeps (set_next b v) /\ keeps (set_prev b v).
Proof. unfold set_next, set_prev, get_next, get_prev. repeat split; auto with keeps. Qed.
Lemma keeps_get_next b : keeps (get_next b).
Proof. apply (keeps_links b 0). Qed.
Lemma keeps_get_prev b : keeps (get_prev b).
Proof. apply (keeps_links b 0). Qed.
Lemma keeps_set_next b v : keeps (set_next b v).
Proof. apply (keeps_links b v). Qed.
Lemma keeps_set_prev b v : keeps (set_prev b v).
Proof. apply (keeps_links b v). Qed.
#[export] Hint Resolve keeps_get_next keeps_get_prev keeps_set_next keeps_set_prev : keeps.

Lemma keeps_iderw b : keeps (iderw b).
Proof. unfold iderw, holdingsleep. auto 20 with keeps. Qed.
#[export] Hint Resolve keeps_iderw : keeps.
Lemma keeps_acquiresleep b : keeps (acquiresleep b).
Proof. unfold acquiresleep. auto 20 with keeps. Qed.
#[export] Hint Resolve keeps_acquiresleep : keeps.
Lemma keeps_scan fuel step test b : (forall x, keeps (step x)) -> keeps (scan fuel step test b).
Proof. intros Hs. revert b. induction fuel; intros b; simpl; auto 20 with keeps. Qed.
Lemma keeps_bread dev n : keeps (bread dev n).
Proof.
  unfold bread, bget. apply keeps_bind; [|auto 20 with keeps].
  apply keeps_bind; [auto with keeps|intros first]. apply keeps_bind; [apply keeps_scan; auto with keeps|].
  intros [b|]; [auto 20 with keeps|]. apply keeps_bind; [auto with keeps|intros last].
  apply keeps_bind; [apply keeps_scan; auto with keeps|]. intros [b|]; auto 20 with keeps.
Qed.
Lemma keeps_bwrite b : keeps (bwrite b).
Proof. unfold bwrite, holdingsleep. auto 20 with keeps. Qed.
Lemma keeps_brelse b : keeps (brelse b).
Proof. unfold brelse, holdingsleep, releasesleep. auto 40 with keeps. Qed.
Lemma keeps_set_data b d : keeps (set_data b d).
Proof. unfold set_data. auto with keeps. Qed.
#[export] Hint Resolve keeps_bread keeps_bwrite keeps_brelse keeps_set_data : keeps.
Lemma keeps_set_word b i x : keeps (set_word b i x).
Proof. unfold set_word. auto 20 with keeps. Qed.
Lemma keeps_get_lh i : keeps (get_lh i).
Proof. unfold get_lh. auto with keeps. Qed.
Lemma keeps_copy bs bd : keeps (copy_held bs bd).
Proof. unfold copy_held. auto 20 with keeps. Qed.
#[export] Hint Resolve keeps_set_word keeps_get_lh keeps_copy : keeps.
Lemma keeps_write_head : keeps write_head.
Proof. unfold write_head. auto 20 with keeps. Qed.
Lemma keeps_loops : keeps write_log /\ keeps install_trans.
Proof. unfold write_log, install_trans, log_block, install_block. split; auto 20 with keeps. Qed.

Lemma commit_counters s s' : 0 <= lh_n s -> commit s = Ret tt s' ->
  counters s' = (0, log_outstanding s, log_committing s, log_size s).
Proof.
  intros Hn. unfold commit. rewrite exec_gets. destruct (Z.ltb_spec 0 (lh_n s)); cbn [when].
  - intros ([] & s1 & H1 & ([] & s2 & H2 & ([] & s3 & H3 & ([] & s4 & H4 & H5)%bind_inv)%bind_inv)%bind_inv)%bind_inv.
    apply (proj1 keeps_loops) in H1. apply keeps_write_head in H2, H5. apply (proj2 keeps_loops) in H3.
    injection H4 as <-. rewrite H5. unfold counters in *. cbn. by injection H1; injection H2; injection H3; intros; congruence.
  - intros [= <-]. unfold counters. by replace (lh_n s) with 0 by lia.
Qed.

(** ** The calls in progress

    The second component of a configuration lists, for each call between its
    [begin_op] and its [end_op], how often it has called [log_write]. *)
Inductive op_step : fsys * list Z -> fsys * list Z -> Prop :=
| os_begin s ops s' : begin_op s = Ret tt s' -> op_step (s, ops) (s', 0 :: ops)
| os_write s ops1 w ops2 b s' : w < MAXOPBLOCKS -> log_write b s = Ret tt s' ->
    op_step (s, ops1 ++ w :: ops2) (s', ops1 ++ (w + 1) :: ops2)
| os_end s ops1 w ops2 s' : end_op s = Ret tt s' -> op_step (s, ops1 ++ w :: ops2) (s', ops1 ++ ops2)
(** The buffer cache and the disk, at any time. *)
| os_other s ops s' : counters s' = counters s -> op_step (s, ops) (s', ops).

(** Blocks reserved for the calls in progress and not yet used. *)
Fixpoint reserved (ops : list Z) : Z :=
  match ops with [] => 0 | w :: ops' => MAXOPBLOCKS - w + reserved ops' end.

Lemma reserved_app l1 l2 : reserved (l1 ++ l2) = reserved l1 + reserved l2.
Proof. induction l1 as [|w l1 IH]; [done|]. cbn. lia. Qed.
Lemma reserved_nonneg ops : Forall (fun w => 0 <= w <= MAXOPBLOCKS) ops -> 0 <= reserved ops.
Proof. induction 1 as [|w ops H _ IH]; cbn; [lia|]. lia. Qed.
(** The log never holds more than what was reserved. *)
Record space_ok (c : fsys * list Z) : Prop := {
  sp_n : 0 <= lh_n c.1;
  sp_ops : log_outstanding c.1 = zlen c.2 /\ log_committing c.1 = false /\ log_size c.1 = LOGSIZE;
  sp_each : Forall (fun w => 0 <= w <= MAXOPBLOCKS) c.2;
  sp_room : lh_n c.1 + reserved c.2 <= LOGSIZE
}.

Lemma log_write_counters b s s' : log_write b s = Ret tt s' -> 0 <= lh_n s ->
  log_outstanding s' = log_outstanding s /\ log_committing s' = log_committing s /\ log_size s' = log_size s /\
  lh_n s <= lh_n s' <= lh_n s + 1.
Proof.
  unfold log_write. rewrite exec_get. intros Hr Hn.
  destruct (_ || _); [done|]. destruct (_ <? 1); [done|].
  apply bind_inv in Hr as (v & s1 & H1 & Hr). apply keeps_get_buf in H1.
  apply bind_inv in Hr as ([] & s2 & H2 & Hr). unfold set_lh in H2.
  apply bind_inv in H2 as (y & s2' & H2' & H2). apply keeps_get_lh in H2'. injection H2 as <-.
  apply bind_inv in Hr as ([] & s3 & H3 & H4). apply keeps_set_buf in H4. rewrite H1 in H2'.
  unfold counters in *. injection H2' as E1 E2 E3 E4. injection H4 as F1 F2 F3 F4.
  destruct (_ =? _); cbn in H3; injection H3 as <-; cbn in *; rewrite F1, F2, F3, F4; repeat split; try congruence; lia.
Qed.

Lemma end_op_counters s s' : end_op s = Ret tt s' -> 0 <= lh_n s -> log_committing s = false ->
  log_outstanding s' = log_outstanding s - 1 /\ log_committing s' = false /\ log_size s' = log_size s /\
  lh_n s' = if log_outstanding s =? 1 then 0 else lh_n s.
Proof.
  unfold end_op. rewrite exec_modify, exec_get. cbn [log_committing log_outstanding with_log_ops].
  intros Hr Hn Hc. rewrite Hc in Hr. destruct (Z.eqb_spec (log_outstanding s - 1) 0) as [E|E].
  - rewrite exec_modify in Hr. apply bind_inv in Hr as ([] & s1 & H1 & H2).
    apply commit_counters in H1; [|done]. unfold counters in H1. cbn in H1. injection H1 as F1 F2 F3 F4.
    injection H2 as <-. cbn. destruct (Z.eqb_spec (log_outstanding s) 1); [|lia].
    rewrite F2. repeat split; [lia|done..].
  - injection Hr as <-. cbn. destruct (Z.eqb_spec (log_outstanding s) 1); [lia|]. done.
Qed.

Lemma space_step c c' : space_ok c -> op_step c c' -> space_ok c'.
Proof.
  intros [Hn (Ho & Hc & Hs) He Hr] Hstep. destruct Hstep as [s ops s' H|s ops1 w ops2 b s' Hw H|s ops1 w ops2 s' H|s ops s' H]; cbn in *.
  - unfold begin_op in H. rewrite exec_get, Hc in H. destruct (Z.ltb_spec LOGSIZE (lh_n s + (log_outstanding s + 1) * MAXOPBLOCKS)); [done|].
    injection H as <-. split; cbn; [done|rewrite zlen_cons; split; [lia|done]|constructor; [unfold MAXOPBLOCKS; lia|done]|].
    assert (reserved ops <= zlen ops * MAXOPBLOCKS) as Hb.
    { clear -He. induction He as [|w ops H _ IH]; [done|]. rewrite zlen_cons. cbn. lia. }
    rewrite Ho in *. lia.
  - destruct (log_write_counters b s s' H Hn) as (E1 & E2 & E3 & E4).
    apply list.Forall_app in He as [He1 [He2 He3]%list.Forall_cons].
    rewrite reserved_app in Hr. cbn in Hr. rewrite zlen_app, zlen_cons in *. split; cbn.
    + lia.
    + rewrite zlen_app, zlen_cons, E1, E2, E3. done.
    + apply list.Forall_app. split; [done|]. constructor; [lia|done].
    + rewrite reserved_app. cbn.  lia.
  - destruct (end_op_counters s s' H Hn Hc) as (E1 & E2 & E3 & E4).
    apply list.Forall_app in He as [He1 [He2 He3]%list.Forall_cons].
    rewrite reserved_app in Hr. cbn in Hr.  rewrite zlen_app, zlen_cons in Ho.
    pose proof (zlen_nonneg ops1). pose proof (zlen_nonneg ops2). split; cbn.
    + rewrite E4. case_match; lia.
    + rewrite zlen_app, E1, E2, E3. split; [lia|done].
    + by apply list.Forall_app.
    + rewrite E4, reserved_app. destruct (Z.eqb_spec (log_outstanding s) 1) as [E|E]; [|lia].
      assert (ops1 = [] /\ ops2 = []) as [-> ->]; [|done].
      split; apply length_zero_iff_nil; unfold zlen in *; lia.
  - unfold counters in H. injection H as E1 E2 E3 E4. split; cbn; by rewrite ?E1, ?E2, ?E3, ?E4.
Qed.

(** Computations that do not panic. *)
Definition calm {A} (m : M fsys A) : Prop := forall s msg s', m s <> Panic msg s'.
Lemma calm_bind {A B} (m : M fsys A) (k : A -> M fsys B) : calm m -> (forall a, calm (k a)) -> calm (m ≫= k).
Proof.
  intros Hm Hk s msg s'. unfold mbind, M_bind. destruct (m s) eqn:E; try done; [by apply Hk|].
  intros _. by eapply Hm.
Qed.
Lemma calm_get_buf b : calm (get_buf b).
Proof. intros s msg s'. unfold get_buf. rewrite exec_get. by destruct (zget _ _). Qed.
Lemma calm_set_buf b v : calm (set_buf b v).
Proof. apply calm_bind; [apply calm_get_buf|done]. Qed.
Lemma calm_set_lh i x : calm (set_lh i x).
Proof.
  apply calm_bind; [|done]. intros s msg s'. unfold get_lh. rewrite exec_get. by destruct (zget _ _).
Qed.

(** The part of [log_write] after its two checks. *)
Lemma calm_log_entry b s : calm (v ← get_buf b;
    let i := log_slot (lh_n s) (lh_block s) (s32 (b_blockno v)) in
    set_lh i (s32 (b_blockno v)) ;;
    when (i =? lh_n s) (set_lh_n (lh_n s + 1)) ;;
    set_buf b (MkBuf (Z.lor (b_flags v) B_DIRTY) (b_dev v) (b_blockno v) (b_locked v) (b_refcnt v) (b_data v))).
Proof.
  apply calm_bind; [apply calm_get_buf|intros v]. apply calm_bind; [apply calm_set_lh|intros _].
  apply calm_bind; [by destruct (_ =? _)|intros _]. apply calm_set_buf.
Qed.

(** C12. Whatever calls are in progress and however their [log_write]s are interleaved,
    as long as none of them logs more than [MAXOPBLOCKS] blocks the reservation made by [begin_op] is never
    overrun: the number of logged blocks stays within [LOGSIZE], and a call that has
    logged fewer than [MAXOPBLOCKS - 1] blocks can log another without
    panicking. *)
Theorem log_space_never_exhausted s0 st c w b msg s' :
  log_idle s0 st -> rtc op_step (s0, []) c -> w ∈ c.2 -> w < MAXOPBLOCKS - 1 ->
  0 <= lh_n c.1 <= LOGSIZE /\ log_write b c.1 <> Panic msg s'.
Proof.
  intros (Hop & Ho & Hc) Hreach Hw Hlt.
  assert (space_ok c) as [Hn (Ho' & Hc' & Hs') He Hr].
  { destruct Hop as [_ (_ & _ & Hs) [(Hn & _) _] _ _ _].
    assert (space_ok (s0, [])) as H0 by (split; cbn; rewrite ?Hn; done).
    clear -Hreach H0. induction Hreach; [done|]. by eauto using space_step. }
  pose proof (reserved_nonneg _ He). split; [lia|].
  assert (lh_n c.1 < LOGSIZE - 1 /\ 1 <= zlen c.2) as [Hlt' Hpos].
  { apply list_elem_of_split in Hw as (l1 & l2 & E). rewrite E in *.
    apply list.Forall_app in He as [He1 [_ He2]%list.Forall_cons]. rewrite reserved_app in Hr. cbn in Hr.
    pose proof (reserved_nonneg _ He1). pose proof (reserved_nonneg _ He2).
    rewrite zlen_app, zlen_cons. pose proof (zlen_nonneg l1). pose proof (zlen_nonneg l2). lia. }
  unfold log_write. rewrite exec_get, Hs'.
  destruct (Z.leb_spec LOGSIZE (lh_n c.1)); [lia|]. destruct (Z.leb_spec (LOGSIZE - 1) (lh_n c.1)); [lia|]. cbn [orb].
  destruct (Z.ltb_spec (log_outstanding c.1) 1); [lia|].
  apply calm_log_entry.
Qed.
Lemma log_space_never_exhausted_witness :
  exists s, boot (boot_fsys ex_disk) = Ret tt s /\
    log_write 0 (with_log_ops 1 false s) <> Panic "too big a transaction" (with_log_ops 1 false s).
Proof.
  destruct ex_boot as (s & Hb & Hi). exists s. split; [exact Hb|].
  assert (op_step (s, []) (with_log_ops 1 false s, [0])) as Hs.
  { apply os_begin. destruct Hi as ([_ _ [(Hn & _) _] _ _ _] & Ho & Hc). unfold begin_op. rewrite exec_get, Hc, Hn, Ho.
    reflexivity. }
  apply (log_space_never_exhausted s 2 (with_log_ops 1 false s, [0]) 0 0 _ _ Hi (rtc_once _ _ Hs)).
  - apply list_elem_of_here.
  - reflexivity.
Defined.
