(* ===== verification/XProc.v ===== *)
(** * Processes and scheduling in xv6 ([xv6/proc.c], with the priorities and times
    of the lab)

    The process table and its operations on one processor.  Other components of the kernel
    (page allocator, page tables, files) appear through the class [KernOps]; the
    process table and its invariants do not depend on their implementation ([XMem] has
    the one of [kalloc.c] and [vm.c]).  A function that gives up the
    processor ends in [Leave] with [cur] cleared, as [scheduler] does when [swtch]
    comes back to it; the rest of the function runs when the process is chosen
    again, see [resume].  Pointers to processes are indices of [ptable.proc]. *)
From S2P Require Import Prelude.

Definition NPROC : Z := 64.
Definition NOFILE : Z := 16.
Definition XPGSIZE : Z := 4096.

Inductive procstate : Type := UNUSED | EMBRYO | SLEEPING | RUNNABLE | RUNNING | ZOMBIE.
#[export] Instance procstate_eq_dec : EqDecision procstate.
Proof. solve_decision. Defined.
Definition state_eqb (a b : procstate) : bool := bool_decide (a = b).

(** What a process can sleep on: a process (in [wait]), [&ticks], or another address. *)
Inductive chan : Type := ChProc (i : Z) | ChTicks | ChAddr (a : Z).
#[export] Instance chan_eq_dec : EqDecision chan.
Proof. solve_decision. Defined.

(** [struct trapframe]: the registers this component names; [tf_rest], the others. *)
Record xtf : Type := MkXtf {
  tf_eax : Z; tf_cs : Z; tf_ds : Z; tf_es : Z; tf_ss : Z; tf_eflags : Z; tf_esp : Z; tf_eip : Z;
  tf_rest : list Z
}.

(** [struct proc]; null pointers to processes and null channels are [None]. *)
Record proc : Type := MkProc {
  p_sz : Z;
  p_pgdir : Z;
  p_kstack : Z;
  p_state : procstate;
  p_pid : Z;
  p_parent : option Z;
  p_tf : xtf;
  p_chan : option chan;
  p_killed : Z;
  p_ofile : list Z;
  p_cwd : Z;
  p_name : string;
  p_ctime : Z;
  p_rutime : Z;
  p_retime : Z;
  p_sltime : Z;
  p_priority : Z;
}.

Definition with_sz v (p : proc) : proc :=
  MkProc v (p_pgdir p) (p_kstack p) (p_state p) (p_pid p) (p_parent p) (p_tf p) (p_chan p) (p_killed p)
    (p_ofile p) (p_cwd p) (p_name p) (p_ctime p) (p_rutime p) (p_retime p) (p_sltime p) (p_priority p).
Definition with_pgdir v (p : proc) : proc :=
  MkProc (p_sz p) v (p_kstack p) (p_state p) (p_pid p) (p_parent p) (p_tf p) (p_chan p) (p_killed p)
    (p_ofile p) (p_cwd p) (p_name p) (p_ctime p) (p_rutime p) (p_retime p) (p_sltime p) (p_priority p).
Definition with_kstack v (p : proc) : proc :=
  MkProc (p_sz p) (p_pgdir p) v (p_state p) (p_pid p) (p_parent p) (p_tf p) (p_chan p) (p_killed p)
    (p_ofile p) (p_cwd p) (p_name p) (p_ctime p) (p_rutime p) (p_retime p) (p_sltime p) (p_priority p).
Definition with_state v (p : proc) : proc :=
  MkProc (p_sz p) (p_pgdir p) (p_kstack p) v (p_pid p) (p_parent p) (p_tf p) (p_chan p) (p_killed p)
    (p_ofile p) (p_cwd p) (p_name p) (p_ctime p) (p_rutime p) (p_retime p) (p_sltime p) (p_priority p).
Definition with_pid v (p : proc) : proc :=
  MkProc (p_sz p) (p_pgdir p) (p_kstack p) (p_state p) v (p_parent p) (p_tf p) (p_chan p) (p_killed p)
    (p_ofile p) (p_cwd p) (p_name p) (p_ctime p) (p_rutime p) (p_retime p) (p_sltime p) (p_priority p).
Definition with_parent v (p : proc) : proc :=
  MkProc (p_sz p) (p_pgdir p) (p_kstack p) (p_state p) (p_pid p) v (p_tf p) (p_chan p) (p_killed p)
    (p_ofile p) (p_cwd p) (p_name p) (p_ctime p) (p_rutime p) (p_retime p) (p_sltime p) (p_priority p).
Definition with_tf v (p : proc) : proc :=
  MkProc (p_sz p) (p_pgdir p) (p_kstack p) (p_state p) (p_pid p) (p_parent p) v (p_chan p) (p_killed p)
    (p_ofile p) (p_cwd p) (p_name p) (p_ctime p) (p_rutime p) (p_retime p) (p_sltime p) (p_priority p).
Definition with_chan v (p : proc) : proc :=
  MkProc (p_sz p) (p_pgdir p) (p_kstack p) (p_state p) (p_pid p) (p_parent p) (p_tf p) v (p_killed p)
    (p_ofile p) (p_cwd p) (p_name p) (p_ctime p) (p_rutime p) (p_retime p) (p_sltime p) (p_priority p).
Definition with_killed v (p : proc) : proc :=
  MkProc (p_sz p) (p_pgdir p) (p_kstack p) (p_state p) (p_pid p) (p_parent p) (p_tf p) (p_chan p) v
    (p_ofile p) (p_cwd p) (p_name p) (p_ctime p) (p_rutime p) (p_retime p) (p_sltime p) (p_priority p).
Definition with_ofile v (p : proc) : proc :=
  MkProc (p_sz p) (p_pgdir p) (p_kstack p) (p_state p) (p_pid p) (p_parent p) (p_tf p) (p_chan p) (p_killed p)
    v (p_cwd p) (p_name p) (p_ctime p) (p_rutime p) (p_retime p) (p_sltime p) (p_priority p).
Definition with_cwd v (p : proc) : proc :=
  MkProc (p_sz p) (p_pgdir p) (p_kstack p) (p_state p) (p_pid p) (p_parent p) (p_tf p) (p_chan p) (p_killed p)
    (p_ofile p) v (p_name p) (p_ctime p) (p_rutime p) (p_retime p) (p_sltime p) (p_priority p).
Definition with_name v (p : proc) : proc :=
  MkProc (p_sz p) (p_pgdir p) (p_kstack p) (p_state p) (p_pid p) (p_parent p) (p_tf p) (p_chan p) (p_killed p)
    (p_ofile p) (p_cwd p) v (p_ctime p) (p_rutime p) (p_retime p) (p_sltime p) (p_priority p).
Definition with_ctime v (p : proc) : proc :=
  MkProc (p_sz p) (p_pgdir p) (p_kstack p) (p_state p) (p_pid p) (p_parent p) (p_tf p) (p_chan p) (p_killed p)
    (p_ofile p) (p_cwd p) (p_name p) v (p_rutime p) (p_retime p) (p_sltime p) (p_priority p).
Definition with_rutime v (p : proc) : proc :=
  MkProc (p_sz p) (p_pgdir p) (p_kstack p) (p_state p) (p_pid p) (p_parent p) (p_tf p) (p_chan p) (p_killed p)
    (p_ofile p) (p_cwd p) (p_name p) (p_ctime p) v (p_retime p) (p_sltime p) (p_priority p).
Definition with_retime v (p : proc) : proc :=
  MkProc (p_sz p) (p_pgdir p) (p_kstack p) (p_state p) (p_pid p) (p_parent p) (p_tf p) (p_chan p) (p_killed p)
    (p_ofile p) (p_cwd p) (p_name p) (p_ctime p) (p_rutime p) v (p_sltime p) (p_priority p).
Definition with_sltime v (p : proc) : proc :=
  MkProc (p_sz p) (p_pgdir p) (p_kstack p) (p_state p) (p_pid p) (p_parent p) (p_tf p) (p_chan p) (p_killed p)
    (p_ofile p) (p_cwd p) (p_name p) (p_ctime p) (p_rutime p) (p_retime p) v (p_priority p).
Definition with_priority v (p : proc) : proc :=
  MkProc (p_sz p) (p_pgdir p) (p_kstack p) (p_state p) (p_pid p) (p_parent p) (p_tf p) (p_chan p) (p_killed p)
    (p_ofile p) (p_cwd p) (p_name p) (p_ctime p) (p_rutime p) (p_retime p) (p_sltime p) v.

(** The operations of other components that [proc.c] calls, on their state [E]; a failing
    allocation is [None]. *)
Class KernOps (E : Type) := {
  kalloc : E -> option Z * E;
  kfree : Z -> E -> E;
  setupkvm : E -> option Z * E;
  inituvm : Z -> E -> E;
  copyuvm : Z -> Z -> E -> option Z * E;
  allocuvm : Z -> Z -> Z -> E -> option Z * E;
  deallocuvm : Z -> Z -> Z -> E -> option Z * E;
  freevm : Z -> E -> E;
  filedup : Z -> E -> Z * E;
  fileclose : Z -> E -> E;
  idup : Z -> E -> Z * E;
  iput : Z -> E -> E;
  namei : string -> E -> Z * E
}.

Section Proc.
Context {E : Type} `{KernOps E}.

(** The state of the kernel: [out] is what was printed. *)
Record xkern : Type := MkKern {
  procs : list proc;
  cur : option Z;
  initproc : option Z;
  nextpid : Z;
  ticks : Z;
  out : list Z;
  ext : E;
}.
Definition with_procs v (s : xkern) : xkern := MkKern v (cur s) (initproc s) (nextpid s) (ticks s) (out s) (ext s).
Definition with_cur v (s : xkern) : xkern := MkKern (procs s) v (initproc s) (nextpid s) (ticks s) (out s) (ext s).
Definition with_initproc v (s : xkern) : xkern := MkKern (procs s) (cur s) v (nextpid s) (ticks s) (out s) (ext s).
Definition with_nextpid v (s : xkern) : xkern := MkKern (procs s) (cur s) (initproc s) v (ticks s) (out s) (ext s).
Definition with_ticks v (s : xkern) : xkern := MkKern (procs s) (cur s) (initproc s) (nextpid s) v (out s) (ext s).
Definition with_out v (s : xkern) : xkern := MkKern (procs s) (cur s) (initproc s) (nextpid s) (ticks s) v (ext s).
Definition with_ext v (s : xkern) : xkern := MkKern (procs s) (cur s) (initproc s) (nextpid s) (ticks s) (out s) v.

Definition get_proc (i : Z) : M xkern proc := s ← get; deref (zget (procs s) i).
Definition upd_proc (i : Z) (f : proc -> proc) : M xkern unit :=
  p ← get_proc i; modify (fun s => with_procs (zset (procs s) i (f p)) s).
Definition myproc : M xkern Z := s ← get; deref (cur s).

(** A call of another component. *)
Definition ext_do (f : E -> E) : M xkern unit := modify (fun s => with_ext (f (ext s)) s).
Definition ext_get {A} (f : E -> A * E) : M xkern A :=
  s ← get; let r := f (ext s) in modify (with_ext (snd r)) ;; mret (fst r).
Definition ext_try (f : E -> option Z * E) : M xkern (option Z) := ext_get f.

(** [x++] on an [int]: overflow is undefined. *)
Definition sincr (x : Z) : option Z := if x <? 2147483647 then Some (x + 1) else None.

Definition zero_context_tf : xtf := MkXtf 0 0 0 0 0 0 0 0 [].

(** ** Allocation *)
Definition allocproc : M xkern (option Z) :=
  found ← for_until (seqZ 0 NPROC) (fun i =>
    p ← get_proc i; if state_eqb (p_state p) UNUSED then mret (Some i) else mret None);
  match found with
  | None => mret None
  | Some i =>
      s ← get;
      n ← deref (sincr (nextpid s));
      upd_proc i (fun p => with_pid (nextpid s) (with_state EMBRYO p)) ;;
      modify (with_nextpid n) ;;
      k ← ext_try kalloc;
      match k with
      | None => upd_proc i (fun p => with_state UNUSED (with_kstack 0 p)) ;; mret None
      | Some ks =>
          upd_proc i (with_kstack ks) ;;
          t ← gets ticks;
          upd_proc i (fun p => with_priority 0 (with_sltime 0 (with_retime 0 (with_rutime 0 (with_ctime (s32 t) p))))) ;;
          mret (Some i)
      end
  end.

Definition SEG_UCODE : Z := 3.
Definition SEG_UDATA : Z := 4.
Definition DPL_USER : Z := 3.
Definition FL_IF : Z := 512.

Definition userinit : M xkern unit :=
  r ← allocproc;
  modify (with_initproc r) ;;
  i ← deref r;
  pd ← ext_try setupkvm;
  match pd with
  | None => panic "userinit: out of memory?"
  | Some pd =>
      upd_proc i (with_pgdir pd) ;;
      ext_do (inituvm pd) ;;
      upd_proc i (with_sz XPGSIZE) ;;
      let ds := Z.lor (Z.shiftl SEG_UDATA 3) DPL_USER in
      upd_proc i (with_tf (MkXtf 0 (Z.lor (Z.shiftl SEG_UCODE 3) DPL_USER) ds ds ds FL_IF XPGSIZE 0 [])) ;;
      upd_proc i (with_name "initcode") ;;
      c ← ext_get (namei "/");
      upd_proc i (with_cwd c) ;;
      upd_proc i (with_state RUNNABLE)
  end.

Definition growproc (n : Z) : M xkern Z :=
  c ← myproc;
  p ← get_proc c;
  let done := fun sz => upd_proc c (with_sz sz) ;; mret 0 in
  if 0 <? n then
    r ← ext_try (allocuvm (p_pgdir p) (p_sz p) (u32 (p_sz p + n)));
    match r with Some sz => done sz | None => mret (-1) end
  else if n <? 0 then
    r ← ext_try (deallocuvm (p_pgdir p) (p_sz p) (u32 (p_sz p + n)));
    match r with Some sz => done sz | None => mret (-1) end
  else done (p_sz p).

Definition fork : M xkern Z :=
  c ← myproc;
  r ← allocproc;
  match r with
  | None => mret (-1)
  | Some np =>
      cp ← get_proc c;
      pd ← ext_try (copyuvm (p_pgdir cp) (p_sz cp));
      match pd with
      | None =>
          p ← get_proc np;
          ext_do (kfree (p_kstack p)) ;;
          upd_proc np (fun p => with_state UNUSED (with_kstack 0 p)) ;;
          mret (-1)
      | Some pd =>
          upd_proc np (fun p => with_tf (MkXtf 0 (tf_cs (p_tf cp)) (tf_ds (p_tf cp)) (tf_es (p_tf cp)) (tf_ss (p_tf cp))
                                     (tf_eflags (p_tf cp)) (tf_esp (p_tf cp)) (tf_eip (p_tf cp)) (tf_rest (p_tf cp)))
                       (with_parent (Some c) (with_priority (p_priority cp) (with_sz (p_sz cp) (with_pgdir pd p))))) ;;
          for_each (seqZ 0 NOFILE) (fun fd =>
            f ← deref (zget (p_ofile cp) fd);
            when (negb (f =? 0)) (
              f' ← ext_get (filedup f);
              upd_proc np (fun p => with_ofile (zset (p_ofile p) fd f') p))) ;;
          cw ← ext_get (idup (p_cwd cp));
          upd_proc np (with_cwd cw) ;;
          upd_proc np (with_name (p_name cp)) ;;
          p ← get_proc np;
          upd_proc np (with_state RUNNABLE) ;;
          mret (p_pid p)
      end
  end.

(** ** Sleeping and waking *)

(** [sched]: back to the scheduler, which clears [c->proc]. *)
Definition sched {A} : M xkern A :=
  c ← myproc;
  p ← get_proc c;
  if state_eqb (p_state p) RUNNING then panic "sched running"
  else modify (with_cur None) ;; leave.

Definition yield : M xkern unit :=
  c ← myproc;
  upd_proc c (with_state RUNNABLE) ;;
  sched.

(** [lk] is not null; locks are not modelled. *)
Definition sleep {A} (ch : chan) : M xkern A :=
  s ← get;
  match cur s with
  | None => panic "sleep"
  | Some c => upd_proc c (fun p => with_state SLEEPING (with_chan (Some ch) p)) ;; sched
  end.

Definition wakeup1 (ch : chan) : M xkern unit :=
  for_each (seqZ 0 NPROC) (fun i =>
    p ← get_proc i;
    when (state_eqb (p_state p) SLEEPING && bool_decide (p_chan p = Some ch)) (upd_proc i (with_state RUNNABLE))).

Definition wakeup (ch : chan) : M xkern unit := wakeup1 ch.

Definition kill (pid : Z) : M xkern Z :=
  r ← for_until (seqZ 0 NPROC) (fun i =>
    p ← get_proc i;
    if p_pid p =? pid then
      upd_proc i (with_killed 1) ;;
      when (state_eqb (p_state p) SLEEPING) (upd_proc i (with_state RUNNABLE)) ;;
      mret (Some 0)
    else mret None);
  mret (default (-1) r).

(** ** Exiting and waiting *)
Definition exit : M xkern unit :=
  c ← myproc;
  s ← get;
  if bool_decide (initproc s = Some c) then panic "init exiting"
  else
    for_each (seqZ 0 NOFILE) (fun fd =>
      p ← get_proc c;
      f ← deref (zget (p_ofile p) fd);
      when (negb (f =? 0)) (
        ext_do (fileclose f) ;;
        upd_proc c (fun p => with_ofile (zset (p_ofile p) fd 0) p))) ;;
    p ← get_proc c;
    ext_do (iput (p_cwd p)) ;;
    upd_proc c (with_cwd 0) ;;
    p ← get_proc c;
    match p_parent p with Some pa => wakeup1 (ChProc pa) | None => mret tt end ;;
    for_each (seqZ 0 NPROC) (fun i =>
      p ← get_proc i;
      when (bool_decide (p_parent p = Some c)) (
        ip ← gets initproc;
        upd_proc i (with_parent ip) ;;
        when (state_eqb (p_state p) ZOMBIE)
          match ip with Some ip => wakeup1 (ChProc ip) | None => mret tt end)) ;;
    upd_proc c (with_state ZOMBIE) ;;
    sched.

(** The slot of a reaped child; [waitsch] keeps the priority. *)
Definition reap (i : Z) (prio : bool) : M xkern Z :=
  p ← get_proc i;
  ext_do (kfree (p_kstack p)) ;;
  ext_do (freevm (p_pgdir p)) ;;
  upd_proc i (fun p =>
    let q := with_state UNUSED (with_sltime 0 (with_retime 0 (with_rutime 0 (with_ctime 0 (with_killed 0
      (with_name "" (with_parent None (with_pid 0 (with_kstack 0 p))))))))) in
    if prio then with_priority 0 q else q) ;;
  mret (p_pid p).

(** One scan of the table by [wait]: [inl i], a zombie child; [inr b], whether there
    is any child. *)
Fixpoint wait_scan (l : list Z) (c : Z) (havekids : bool) : M xkern (Z + bool) :=
  match l with
  | [] => mret (inr havekids)
  | i :: l' =>
      p ← get_proc i;
      if bool_decide (p_parent p = Some c) then
        if state_eqb (p_state p) ZOMBIE then mret (inl i) else wait_scan l' c true
      else wait_scan l' c havekids
  end.

(** [wait]: after being woken up the process goes around its loop, so it calls
    [wait] again. *)
Definition wait : M xkern Z :=
  c ← myproc;
  r ← wait_scan (seqZ 0 NPROC) c false;
  match r with
  | inl i => reap i true
  | inr havekids =>
      p ← get_proc c;
      if negb havekids || negb (p_killed p =? 0) then mret (-1)
      else sleep (ChProc c)
  end.

(** [waitsch], with the values it stores through its arguments: [rutime], [retime],
    [sltime], [pr]. *)
Definition waitsch : M xkern (Z * option (Z * Z * Z * Z)) :=
  c ← myproc;
  r ← wait_scan (seqZ 0 NPROC) c false;
  match r with
  | inl i =>
      me ← get_proc c;
      modify (fun s => with_out (out s ++ [p_priority me]) s) ;;
      pid ← reap i false;
      mret (pid, Some (p_rutime me, p_retime me, p_sltime me, p_priority me))
  | inr havekids =>
      p ← get_proc c;
      if negb havekids || negb (p_killed p =? 0) then mret (-1, None)
      else sleep (ChProc c)
  end.

(** ** The scheduler *)

(** The choice of [scheduler]'s loop over the table. *)
Fixpoint choose (l : list Z) (ch : option (Z * proc)) : M xkern (option (Z * proc)) :=
  match l with
  | [] => mret ch
  | i :: l' =>
      p ← get_proc i;
      if negb (state_eqb (p_state p) RUNNABLE) then choose l' ch
      else
        match ch with
        | None => choose l' (Some (i, p))
        | Some (_, q) =>
            if (p_priority q <? p_priority p) ||
               ((p_priority p =? p_priority q) && (p_ctime p <? p_ctime q))
            then choose l' (Some (i, p)) else choose l' ch
        end
  end.

(** When a process gets the processor back it is at the end of [sleep], which clears
    its channel, or of [yield] or [forkret]. *)
Definition resume (i : Z) : M xkern unit := upd_proc i (with_chan None).

(** One turn of the loop of [scheduler], up to the process that runs next. *)
Definition scheduler : M xkern (option Z) :=
  modify (with_cur None) ;;
  ch ← choose (seqZ 0 NPROC) None;
  match ch with
  | Some (i, _) =>
      modify (with_cur (Some i)) ;;
      upd_proc i (with_state RUNNING) ;;
      resume i ;;
      mret (Some i)
  | None => mret None
  end.

(** ** Times and priorities *)
Definition updatestatistics : M xkern unit :=
  for_each (seqZ 0 NPROC) (fun i =>
    p ← get_proc i;
    match p_state p with
    | RUNNING => v ← deref (sincr (p_rutime p)); upd_proc i (with_rutime v)
    | RUNNABLE => v ← deref (sincr (p_retime p)); upd_proc i (with_retime v)
    | SLEEPING => v ← deref (sincr (p_sltime p)); upd_proc i (with_sltime v)
    | _ => mret tt
    end).

Definition setpriority (pid pr : Z) : M xkern Z :=
  r ← for_until (seqZ 0 NPROC) (fun i =>
    p ← get_proc i;
    if p_pid p =? pid then upd_proc i (with_priority pr) ;; mret (Some 0) else mret None);
  mret (default (-1) r).

(** The timer interrupt of [trap], on processor 0. *)
Definition timer_tick : M xkern unit :=
  modify (fun s => with_ticks (u32 (ticks s + 1)) s) ;;
  wakeup ChTicks ;;
  updatestatistics.

(** ** [sysproc.c] *)
Definition sys_getpid : M xkern Z := c ← myproc; p ← get_proc c; mret (p_pid p).
Definition sys_getfpid : M xkern Z :=
  c ← myproc; p ← get_proc c; pa ← deref (p_parent p); q ← get_proc pa; mret (p_pid q).
Definition sys_sbrk (n : Z) : M xkern Z :=
  c ← myproc; p ← get_proc c;
  r ← growproc n;
  mret (if r <? 0 then -1 else p_sz p).
(** [sys_sleep]: the loop's test, from the tick count [ticks0] at its start. *)
Definition sys_sleep (ticks0 n : Z) : M xkern Z :=
  t ← gets ticks;
  if u32 (t - ticks0) <? u32 n then
    c ← myproc; p ← get_proc c;
    if negb (p_killed p =? 0) then mret (-1) else sleep ChTicks
  else mret 0.
Definition sys_uptime : M xkern Z := t ← gets ticks; mret (s32 t).

(** ** [trap.c]

    The system-call dispatcher and the interrupt handlers of the devices are arguments. *)
Section Trap.
Context (syscall ideintr kbdintr uartintr : M xkern unit).

Definition T_SYSCALL : Z := 64.
Definition T_IRQ0 : Z := 32.

Definition killed_now : M xkern bool := c ← myproc; p ← get_proc c; mret (negb (p_killed p =? 0)).

(** Also [myproc() && ...]: [false] when no process runs. *)
Definition killed_user (cs : Z) : M xkern bool :=
  s ← get;
  match cur s with
  | None => mret false
  | Some c => p ← get_proc c; mret (negb (p_killed p =? 0) && (Z.land cs 3 =? DPL_USER))
  end.

(** [trap], for trap [trapno] taken with code segment [cs]. *)
Definition trap (trapno cs : Z) (tf : xtf) : M xkern unit :=
  if trapno =? T_SYSCALL then
    k ← killed_now;
    if (k : bool) then exit
    else
      c ← myproc;
      upd_proc c (with_tf tf) ;;
      syscall ;;
      k ← killed_now;
      when k exit
  else
    (if trapno =? T_IRQ0 + 0 then timer_tick
     else if trapno =? T_IRQ0 + 14 then ideintr
     else if trapno =? T_IRQ0 + 15 then mret tt
     else if trapno =? T_IRQ0 + 1 then kbdintr
     else if trapno =? T_IRQ0 + 4 then uartintr
     else if (trapno =? T_IRQ0 + 7) || (trapno =? T_IRQ0 + 31) then mret tt
     else
       me ← gets cur;
       match me with
       | None => panic "trap"
       | Some c =>
           if Z.land cs 3 =? 0 then panic "trap"
           else upd_proc c (with_killed 1)
       end) ;;
    k ← killed_user cs;
    when k exit.
End Trap.
End Proc.
Arguments xkern : clear implicits.
