(* ===== verification/XProcSpec.v ===== *)
(** * Properties of the process table of [XProc] *)
From S2P Require Import Prelude XProc.

(** ** The table under pointwise updates *)

Definition timap (f : Z -> proc -> proc) (l : list proc) : list proc :=
  imap (fun n p => f (Z.of_nat n) p) l.

#[global] Arguments timap : simpl never.

Lemma timap_get f l i : zget (timap f l) i = f i <$> zget l i.
Proof.
  unfold zget, timap. destruct (Z.leb_spec 0 i); [|done]. rewrite list_lookup_imap.
  by rewrite Z2Nat.id by done.
Qed.
Lemma timap_len f l : zlen (timap f l) = zlen l.
Proof. unfold zlen, timap. by rewrite length_imap. Qed.
Lemma timap_ext f g l : (forall i p, zget l i = Some p -> f i p = g i p) -> timap f l = timap g l.
Proof.
  intros H. apply zget_ext; [by rewrite !timap_len|]. intros i _. rewrite !timap_get.
  destruct (zget l i) eqn:E; [|done]. simpl. f_equal. by apply H.
Qed.
Lemma timap_id l : timap (fun _ p => p) l = l.
Proof. apply zget_ext; [by rewrite timap_len|]. intros i _. rewrite timap_get. by destruct (zget l i). Qed.
Lemma timap_comp f g l : timap g (timap f l) = timap (fun i p => g i (f i p)) l.
Proof.
  apply zget_ext; [by rewrite !timap_len|]. intros i _. rewrite !timap_get. by destruct (zget l i).
Qed.

(** Only slot [i]. *)
Definition at_slot (i : Z) (f : proc -> proc) (j : Z) (p : proc) : proc := if j =? i then f p else p.

Lemma zset_timap l i p f : zget l i = Some p -> zset l i (f p) = timap (at_slot i f) l.
Proof.
  intros Hp. apply zget_ext; [by rewrite zlen_zset, timap_len|]. intros j _. rewrite zget_zset, timap_get.
  unfold at_slot. destruct (Z.eqb_spec j i) as [->|Hne]; case_decide as Hd; try (destruct Hd; congruence).
  - by rewrite Hp.
  - destruct Hd. split; [done|]. by eapply zget_Some_range.
  - by destruct (zget l j).
Qed.

Section Spec.
Context {E : Type} `{KernOps E}.
Implicit Types (s : xkern E) (p q : proc).

Definition tab (f : Z -> proc -> proc) (s : xkern E) : xkern E := with_procs (timap f (procs s)) s.

Lemma tab_tab f g s : tab g (tab f s) = tab (fun i p => g i (f i p)) s.
Proof. unfold tab, with_procs. cbn. by rewrite timap_comp. Qed.
Lemma tab_id s : tab (fun _ p => p) s = s.
Proof. unfold tab. rewrite timap_id. by destruct s. Qed.

Lemma get_proc_ok s i p : zget (procs s) i = Some p -> get_proc i s = Ret p s.
Proof. intros Hp. unfold get_proc. exec. by rewrite Hp. Qed.
Lemma upd_proc_ok s i p f : zget (procs s) i = Some p -> upd_proc i f s = Ret tt (tab (at_slot i f) s).
Proof. intros Hp. unfold upd_proc. exec_by (get_proc_ok s i p Hp). unfold modify, tab. by rewrite (zset_timap _ _ p). Qed.

(** A loop over the table whose body only changes the slot it looks at. *)
Lemma table_map (P : proc -> Prop) (body : Z -> M (xkern E) unit) (g : proc -> proc) s :
  (forall s i p, zget (procs s) i = Some p -> P p -> body i s = Ret tt (tab (at_slot i (fun _ => g p)) s)) ->
  zlen (procs s) = NPROC -> (forall i p, zget (procs s) i = Some p -> P p) -> for_each (seqZ 0 NPROC) body s = Ret tt (tab (fun _ => g) s).
Proof.
  intros Hb Hlen HP. enough (forall n k, 0 <= k -> k + Z.of_nat n = NPROC ->
    for_each (seqZ k (Z.of_nat n)) body (tab (fun i p => if i <? k then g p else p) s) = Ret tt (tab (fun _ => g) s)) as G.
  { specialize (G 64%nat 0 ltac:(lia) eq_refl). etrans; [|exact G]. f_equal.
    unfold tab. rewrite (timap_ext (fun i p => if i <? 0 then g p else p) (fun _ p => p)), timap_id; [by destruct s|].
    intros i p Hi%zget_Some_range. destruct (Z.ltb_spec i 0); [lia|done]. }
  induction n as [|n IH]; intros k Hk Hn.
  - cbn. f_equal. unfold tab. f_equal. apply timap_ext. intros i p Hi%zget_Some_range.
    destruct (Z.ltb_spec i k); [done|lia].
  - rewrite seqZ_cons by lia. cbn [for_each]. destruct (zget_in_range (procs s) k ltac:(lia)) as [p Hp].
    assert (zget (procs (tab (fun i p => if i <? k then g p else p) s)) k = Some p) as Hp'.
    { cbn. rewrite timap_get, Hp. cbn. by rewrite Z.ltb_irrefl. }
    exec_by (Hb _ _ _ Hp' (HP _ _ Hp)). rewrite tab_tab. replace (Z.pred (Z.of_nat (S n))) with (Z.of_nat n) by lia.
    rewrite <-(IH (Z.succ k)) by lia. f_equal. unfold tab. f_equal. apply timap_ext. intros i q Hi. unfold at_slot.
    destruct (decide (i = k)) as [->|Hne].
    + rewrite Z.eqb_refl. destruct (Z.ltb_spec k (Z.succ k)); [congruence|lia].
    + destruct (Z.eqb_spec i k); [done|]. by destruct (Z.ltb_spec i k), (Z.ltb_spec i (Z.succ k)); try lia.
Qed.

(** ** What the operations do to the table *)

Definition wake (ch : chan) (p : proc) : proc :=
  if state_eqb (p_state p) SLEEPING && bool_decide (p_chan p = Some ch) then with_state RUNNABLE p else p.

Lemma at_slot_id i j p : at_slot i (fun q => q) j p = p.
Proof. unfold at_slot. by destruct (j =? i). Qed.

Lemma tab_same i p s : zget (procs s) i = Some p -> tab (at_slot i (fun _ => p)) s = s.
Proof.
  intros Hp. unfold tab. rewrite (timap_ext _ (fun _ q => q)), timap_id; [by destruct s|].
  intros j q Hq. unfold at_slot. destruct (Z.eqb_spec j i) as [->|]; [congruence|done].
Qed.
Lemma tab_slot_const i p f s : zget (procs s) i = Some p ->
  tab (at_slot i f) s = tab (at_slot i (fun _ => f p)) s.
Proof.
  intros Hp. unfold tab. f_equal. apply timap_ext. intros j q Hq. unfold at_slot.
  destruct (Z.eqb_spec j i) as [->|]; [congruence|done].
Qed.

Lemma wakeup1_ok ch s : zlen (procs s) = NPROC -> wakeup1 ch s = Ret tt (tab (fun _ => wake ch) s).
Proof.
  intros Hlen. apply (table_map (fun _ => True)); [|done..]. intros s1 i p Hp _. exec_by (get_proc_ok s1 i p Hp). unfold wake.
  destruct (_ && _); cbn [when].
  - rewrite (upd_proc_ok s1 i p) by done. by rewrite (tab_slot_const i p).
  - by rewrite tab_same.
Qed.

(** One tick of accounting. *)
Definition account (p : proc) : proc :=
  match p_state p with
  | RUNNING => with_rutime (p_rutime p + 1) p
  | RUNNABLE => with_retime (p_retime p + 1) p
  | SLEEPING => with_sltime (p_sltime p + 1) p
  | _ => p
  end.
Definition no_overflow (p : proc) : Prop :=
  p_rutime p < 2147483647 /\ p_retime p < 2147483647 /\ p_sltime p < 2147483647.

Lemma sincr_ok x : x < 2147483647 -> sincr x = Some (x + 1).
Proof. intros. unfold sincr. destruct (Z.ltb_spec x 2147483647); [done|lia]. Qed.

Lemma updatestatistics_ok s :
  zlen (procs s) = NPROC -> (forall i p, zget (procs s) i = Some p -> no_overflow p) ->
  updatestatistics s = Ret tt (tab (fun _ => account) s).
Proof.
  intros Hlen Hno. apply (table_map no_overflow); [|done..].
  intros s1 i p Hp (H1 & H2 & H3). exec_by (get_proc_ok s1 i p Hp). unfold account.
  destruct (p_state p); rewrite ?sincr_ok by done; cbn [deref]; exec;
    first [by rewrite tab_same|rewrite (upd_proc_ok s1 i p) by done; by rewrite (tab_slot_const i p)].
Qed.

(** ** The invariant of the process table *)

Definition alive (st : procstate) : Prop := st = SLEEPING \/ st = RUNNABLE \/ st = RUNNING.

Record pt_ok (s : xkern E) : Prop := {
  pk_len : zlen (procs s) = NPROC;
  pk_init : exists ip p, initproc s = Some ip /\ zget (procs s) ip = Some p /\ alive (p_state p);
  (** One processor: the process that runs is [cur]. *)
  pk_run : forall i p, zget (procs s) i = Some p -> p_state p = RUNNING <-> cur s = Some i;
  pk_cur : forall c, cur s = Some c -> 0 <= c < NPROC;
  pk_settled : forall i p, zget (procs s) i = Some p -> p_state p <> EMBRYO;
  (** Every process but the first has a live parent. *)
  pk_parent : forall i p, zget (procs s) i = Some p ->
    (p_state p = UNUSED -> p_parent p = None) /\
    (p_state p <> UNUSED -> initproc s <> Some i ->
       exists j q, p_parent p = Some j /\ zget (procs s) j = Some q /\ alive (p_state q));
  pk_pid : forall i p, zget (procs s) i = Some p -> p_state p <> UNUSED -> 0 < p_pid p < nextpid s;
  pk_uniq : forall i j p q, zget (procs s) i = Some p -> zget (procs s) j = Some q ->
    p_state p <> UNUSED -> p_state q <> UNUSED -> p_pid p = p_pid q -> i = j;
  pk_chan : forall i p, zget (procs s) i = Some p ->
    (p_state p = SLEEPING -> p_chan p <> None) /\
    (p_state p <> SLEEPING -> p_state p <> RUNNABLE -> p_chan p = None);
  (** Every tick since its creation was spent running, ready or asleep. *)
  pk_time : forall i p, zget (procs s) i = Some p -> alive (p_state p) ->
    u32 (p_ctime p + p_rutime p + p_retime p + p_sltime p) = ticks s;
  pk_ticks : is_u32 (ticks s) /\ 0 < nextpid s;
  pk_ofile : forall i p, zget (procs s) i = Some p -> zlen (p_ofile p) = NOFILE
}.

(** What [pt_ok] depends on. *)
Lemma pt_ok_same s s' : procs s' = procs s -> cur s' = cur s -> initproc s' = initproc s ->
  nextpid s' = nextpid s -> ticks s' = ticks s -> pt_ok s -> pt_ok s'.
Proof. intros E1 E2 E3 E4 E5 []. split; by rewrite ?E1, ?E2, ?E3, ?E4, ?E5. Qed.

(** A change of a process that keeps its identity, its family and its times. *)
Record keeps_proc (p p' : proc) : Prop := {
  kp_id : p_pid p' = p_pid p /\ p_parent p' = p_parent p /\ zlen (p_ofile p') = zlen (p_ofile p);
  kp_times : p_ctime p' = p_ctime p /\ p_rutime p' = p_rutime p /\ p_retime p' = p_retime p /\ p_sltime p' = p_sltime p;
  kp_state : p_state p' = p_state p \/ (alive (p_state p) /\ alive (p_state p'))
}.
Lemma keeps_proc_refl p : keeps_proc p p.
Proof. split; auto. Qed.

Lemma keeps_alive p p' : keeps_proc p p' -> (alive (p_state p') <-> alive (p_state p)) /\
  (p_state p' = UNUSED <-> p_state p = UNUSED) /\ (p_state p' = EMBRYO <-> p_state p = EMBRYO).
Proof. intros [_ _ [->|[H1 H2]]]; [done|]. unfold alive in *. destruct H1 as [->|[->| ->]], H2 as [->|[->| ->]]; naive_solver. Qed.

Lemma tab_get f s i p' : zget (procs (tab f s)) i = Some p' -> exists p, zget (procs s) i = Some p /\ p' = f i p.
Proof. cbn. rewrite timap_get. destruct (zget (procs s) i); [|done]. intros [= <-]. eauto. Qed.

Lemma pt_ok_evolve s f c' :
  pt_ok s -> (forall i p, zget (procs s) i = Some p -> keeps_proc p (f i p)) ->
  (forall i p, zget (procs s) i = Some p -> (p_state (f i p) = RUNNING <-> c' = Some i) /\
     (p_state (f i p) = SLEEPING -> p_chan (f i p) <> None) /\
     (p_state (f i p) <> SLEEPING -> p_state (f i p) <> RUNNABLE -> p_chan (f i p) = None)) ->
  (forall c, c' = Some c -> 0 <= c < NPROC) ->
  pt_ok (with_cur c' (tab f s)).
Proof.
  intros [Hlen (ip & ipp & Hip & Hipp & Hipa) Hrun Hcur Hset Hpar Hpid Huniq Hch Htime Htick Hof] Hk Hc Hr.
  assert (forall i p', zget (procs (with_cur c' (tab f s))) i = Some p' ->
    exists p, zget (procs s) i = Some p /\ p' = f i p /\ keeps_proc p p') as Hg.
  { intros i p' Hp'. destruct (tab_get f s i p' Hp') as (p & Hp & ->). eauto. }
  split; cbn [initproc cur nextpid ticks with_cur tab with_procs].
  - cbn. by rewrite timap_len.
  - exists ip, (f ip ipp). split; [done|]. cbn. rewrite timap_get, Hipp. split; [done|]. by apply (keeps_alive _ _ (Hk _ _ Hipp)).
  - intros i p' Hp'. destruct (Hg i p' Hp') as (p & Hp & -> & _). by apply Hc.
  - done.
  - intros i p' Hp'. destruct (Hg i p' Hp') as (p & Hp & -> & Hkp). rewrite (proj2 (proj2 (keeps_alive _ _ Hkp))). by eapply Hset.
  - intros i p' Hp'. destruct (Hg i p' Hp') as (p & Hp & -> & Hkp). destruct (Hpar i p Hp) as [H1 H2].
    destruct (keeps_alive _ _ Hkp) as (Ha & Hu & _). destruct Hkp as [(_ & Epar & _) _ _]. rewrite Hu, Epar.
    split; [done|]. intros Hnu Hni. destruct (H2 Hnu Hni) as (j & q & E1 & E2 & E3). exists j, (f j q).
    split; [done|]. cbn. rewrite timap_get, E2. split; [done|]. by apply (keeps_alive _ _ (Hk _ _ E2)).
  - intros i p' Hp'. destruct (Hg i p' Hp') as (p & Hp & -> & Hkp). rewrite (proj1 (proj2 (keeps_alive _ _ Hkp))).
    destruct Hkp as [(-> & _) _ _]. by apply (Hpid i).
  - intros i j p' q' Hp' Hq'. destruct (Hg i p' Hp') as (p & Hp & -> & Hkp). destruct (Hg j q' Hq') as (q & Hq & -> & Hkq).
    rewrite (proj1 (proj2 (keeps_alive _ _ Hkp))), (proj1 (proj2 (keeps_alive _ _ Hkq))).
    destruct Hkp as [(-> & _) _ _], Hkq as [(-> & _) _ _]. by apply Huniq.
  - intros i p' Hp'. destruct (Hg i p' Hp') as (p & Hp & -> & _). by apply Hc.
  - intros i p' Hp'. destruct (Hg i p' Hp') as (p & Hp & -> & Hkp). rewrite (proj1 (keeps_alive _ _ Hkp)).
    destruct Hkp as [_ (-> & -> & -> & ->) _]. by apply (Htime i).
  - done.
  - intros i p' Hp'. destruct (Hg i p' Hp') as (p & Hp & -> & [(_ & _ & ->) _ _]). by apply (Hof i).
Qed.

(** ** The scheduler's choice *)

(** The order of [scheduler]: priority, then creation time, then place in the table. *)
Definition beats (i : Z) (p : proc) (j : Z) (q : proc) : Prop :=
  p_priority q < p_priority p \/
  (p_priority q = p_priority p /\ (p_ctime p < p_ctime q \/ (p_ctime p = p_ctime q /\ i <= j))).

Definition best_among (s : xkern E) (P : Z -> Prop) (ch : option (Z * proc)) : Prop :=
  match ch with
  | None => forall j q, P j -> zget (procs s) j = Some q -> p_state q <> RUNNABLE
  | Some (i, p) => P i /\ zget (procs s) i = Some p /\ p_state p = RUNNABLE /\
      forall j q, P j -> zget (procs s) j = Some q -> p_state q = RUNNABLE -> beats i p j q
  end.

Lemma choose_ok s : forall n k ch,
  zlen (procs s) = NPROC -> 0 <= k -> k + Z.of_nat n = NPROC -> best_among s (fun j => j < k) ch ->
  exists ch', choose (seqZ k (Z.of_nat n)) ch s = Ret ch' s /\ best_among s (fun j => j < NPROC) ch'.
Proof.
  induction n as [|n IH]; intros k ch Hlen Hk Hn Hb.
  - exists ch. split; [done|]. by replace NPROC with k by lia.
  - rewrite seqZ_cons by lia. replace (Z.pred (Z.of_nat (S n))) with (Z.of_nat n) by lia.
    destruct (zget_in_range (procs s) k ltac:(lia)) as [p Hp]. cbn [choose].
    enough (exists ch1, best_among s (fun j => j < Z.succ k) ch1 /\
      (choose (k :: seqZ (Z.succ k) (Z.of_nat n)) ch s = choose (seqZ (Z.succ k) (Z.of_nat n)) ch1 s)) as (ch1 & Hb1 & Hr).
    { cbn [choose] in Hr. rewrite Hr. apply (IH (Z.succ k) ch1); [done|lia|lia|done]. }
    assert (forall j, j < Z.succ k -> j = k \/ j < k) as Hcase by lia.
    cbn [choose]. setoid_rewrite (bind_Ret _ _ _ _ _ (get_proc_ok s k p Hp)). cbv beta.
    destruct (state_eqb (p_state p) RUNNABLE) eqn:Est; unfold state_eqb in Est; cbn [negb].
    + apply bool_decide_eq_true in Est. destruct ch as [[i q]|].
      * destruct Hb as (Hi & Hq & Hqs & Hmax).
        destruct (Z.ltb_spec (p_priority q) (p_priority p)) as [H1|H1]; cbn [orb];
          [|destruct (Z.eqb_spec (p_priority p) (p_priority q)) as [H2|H2]; cbn [andb];
            [destruct (Z.ltb_spec (p_ctime p) (p_ctime q)) as [H3|H3]|]].
        1,2: exists (Some (k, p)); split; [|done]; split; [lia|]; split; [done|]; split; [done|];
             intros j r Hj Hr Hrs; destruct (Hcase j Hj) as [->|Hj'];
             [assert (r = p) as -> by congruence; unfold beats; lia|specialize (Hmax j r Hj' Hr Hrs); unfold beats in *; lia].
        all: exists (Some (i, q)); split; [|done]; split; [lia|]; split; [done|]; split; [done|];
             intros j r Hj Hr Hrs; destruct (Hcase j Hj) as [->|Hj'];
             [assert (r = p) as -> by congruence; unfold beats; lia|by apply Hmax].
      * exists (Some (k, p)). split; [|done]. split; [lia|]. split; [done|]. split; [done|].
        intros j r Hj Hr Hrs. destruct (Hcase j Hj) as [->|Hj'].
        -- assert (r = p) as -> by congruence. unfold beats. lia.
        -- by destruct (Hb j r Hj' Hr).
    + apply bool_decide_eq_false in Est. exists ch. split; [|done]. destruct ch as [[i q]|].
      * destruct Hb as (Hi & Hq & Hqs & Hmax). split; [lia|]. split; [done|]. split; [done|].
        intros j r Hj Hr Hrs. destruct (Hcase j Hj) as [->|Hj']; [congruence|by apply Hmax].
      * intros j r Hj Hr. destruct (Hcase j Hj) as [->|Hj']; [congruence|by apply (Hb j)].
Qed.

(** What [scheduler] does to the process it chooses. *)
Definition start (p : proc) : proc := with_chan None (with_state RUNNING p).

Lemma scheduler_ok s : zlen (procs s) = NPROC ->
  exists ch, best_among s (fun j => j < NPROC) ch /\
    scheduler s = match ch with
      | Some (i, _) => Ret (Some i) (with_cur (Some i) (tab (at_slot i start) s))
      | None => Ret None (with_cur None s) end.
Proof.
  intros Hlen. destruct (choose_ok (with_cur None s) 64 0 None Hlen) as (ch & Hr & Hb); [lia|done|intros j q Hj Hq%zget_Some_range; lia|].
  exists ch. split; [exact Hb|]. unfold scheduler. exec. change NPROC with (Z.of_nat 64). exec_by Hr.
  destruct ch as [[i p]|]; [|done]. destruct Hb as (_ & Hp & _). exec. cbn [procs with_cur] in Hp.
  set (s1 := with_cur (Some i) _). assert (zget (procs s1) i = Some p) as Hp1 by done.
  exec_by (upd_proc_ok s1 i p (with_state RUNNING) Hp1). unfold resume.
  assert (zget (procs (tab (at_slot i (with_state RUNNING)) s1)) i = Some (with_state RUNNING p)) as Hp2.
  { cbn. rewrite timap_get, Hp. cbn. unfold at_slot. by rewrite Z.eqb_refl. }
  exec_by (upd_proc_ok _ i _ (with_chan None) Hp2). rewrite tab_tab. unfold mret, M_ret. f_equal.
  unfold tab, s1, with_procs, with_cur. cbn. f_equal. apply timap_ext. intros j q _. unfold at_slot.
  by destruct (j =? i).
Qed.

(** ** Searches *)

Lemma until_find {B} (test : proc -> bool) (act : Z -> proc -> M (xkern E) (option B)) s :
  zlen (procs s) = NPROC ->
  let run := for_until (seqZ 0 NPROC) (fun i => p ← get_proc i; if test p then act i p else mret None) in
  (exists i p, zget (procs s) i = Some p /\ test p = true /\
     (forall j q, j < i -> zget (procs s) j = Some q -> test q = false) /\
     forall b s', act i p s = Ret (Some b) s' -> run s = Ret (Some b) s') \/
  ((forall i p, zget (procs s) i = Some p -> test p = false) /\ run s = Ret None s).
Proof.
  intros Hlen. cbv zeta. enough (forall n k, 0 <= k -> k + Z.of_nat n = NPROC ->
    (forall j q, j < k -> zget (procs s) j = Some q -> test q = false) ->
    let run := for_until (seqZ k (Z.of_nat n)) (fun i => p ← get_proc i; if test p then act i p else mret None) in
    (exists i p, zget (procs s) i = Some p /\ test p = true /\
       (forall j q, j < i -> zget (procs s) j = Some q -> test q = false) /\
       forall b s', act i p s = Ret (Some b) s' -> run s = Ret (Some b) s') \/
    ((forall i p, zget (procs s) i = Some p -> test p = false) /\ run s = Ret None s)) as G.
  { apply (G 64%nat 0); [done|done|]. intros j q Hj Hq%zget_Some_range. lia. }
  induction n as [|n IH]; intros k Hk Hn Hpre.
  - right. split; [|done]. intros i p Hp. apply (Hpre i); [apply zget_Some_range in Hp; lia|done].
  - cbv zeta. rewrite seqZ_cons by lia. replace (Z.pred (Z.of_nat (S n))) with (Z.of_nat n) by lia.
    destruct (zget_in_range (procs s) k ltac:(lia)) as [p Hp]. cbn [for_until].
    destruct (test p) eqn:Et.
    + left. exists k, p. split_and!; try done. intros b s' Ha. rewrite exec_bind.
      exec_by (get_proc_ok s k p Hp). rewrite Et. by exec_by Ha.
    + destruct (IH (Z.succ k)) as [(i & q & Hq & Htq & Hf & Hr)|[Hno Hr]]; [lia|lia| | |].
      { intros j q Hj Hq. destruct (decide (j = k)) as [->|]; [congruence|]. apply (Hpre j); [lia|done]. }
      * left. exists i, q. split_and!; try done. intros b s' Ha. rewrite exec_bind.
        exec_by (get_proc_ok s k p Hp). rewrite Et. exec. by apply Hr.
      * right. split; [done|]. rewrite exec_bind. exec_by (get_proc_ok s k p Hp). rewrite Et. by exec.
Qed.

(** [i] is the first slot whose process satisfies [test]. *)
Definition first_slot (s : xkern E) (test : proc -> Prop) (i : Z) (p : proc) : Prop :=
  zget (procs s) i = Some p /\ test p /\ forall j q, j < i -> zget (procs s) j = Some q -> ~ test q.

Definition kill_proc (p : proc) : proc :=
  let q := with_killed 1 p in if state_eqb (p_state p) SLEEPING then with_state RUNNABLE q else q.

Lemma tab_slot2 i f g s : tab (at_slot i g) (tab (at_slot i f) s) = tab (at_slot i (fun p => g (f p))) s.
Proof. rewrite tab_tab. unfold tab. f_equal. apply timap_ext. intros j p _. unfold at_slot. by destruct (j =? i). Qed.
Lemma tab_slot_get i f s p : zget (procs s) i = Some p -> zget (procs (tab (at_slot i f) s)) i = Some (f p).
Proof. intros Hp. cbn. rewrite timap_get, Hp. unfold at_slot. by rewrite Z.eqb_refl. Qed.
Lemma tab_slot_ext i f g s p : zget (procs s) i = Some p -> f p = g p -> tab (at_slot i f) s = tab (at_slot i g) s.
Proof. intros Hp Hfg. rewrite (tab_slot_const i p f), (tab_slot_const i p g) by done. by rewrite Hfg. Qed.

Lemma kill_ok s pid : zlen (procs s) = NPROC ->
  (exists i p, first_slot s (fun p => p_pid p = pid) i p /\ kill pid s = Ret 0 (tab (at_slot i kill_proc) s)) \/
  ((forall i p, zget (procs s) i = Some p -> p_pid p <> pid) /\ kill pid s = Ret (-1) s).
Proof.
  intros Hlen. destruct (until_find (fun p => p_pid p =? pid) (fun i p =>
      upd_proc i (with_killed 1) ;;
      when (state_eqb (p_state p) SLEEPING) (upd_proc i (with_state RUNNABLE)) ;;
      mret (Some 0)) s Hlen) as [(i & p & Hp & Ht & Hf & Hr)|[Hno Hr]].
  - left. exists i, p. split.
    + split; [done|]. split; [lia|]. intros j q Hj Hq Hpq. specialize (Hf j q Hj Hq). lia.
    + unfold kill. rewrite (bind_Ret _ _ s (Some 0) (tab (at_slot i kill_proc) s)); [done|]. apply Hr. exec_by (upd_proc_ok s i p (with_killed 1) Hp).
      rewrite (tab_slot_ext i kill_proc (fun p' => if state_eqb (p_state p) SLEEPING then with_state RUNNABLE (with_killed 1 p') else with_killed 1 p') s p Hp) by done.
      destruct (state_eqb (p_state p) SLEEPING); cbn [when].
      * exec_by (upd_proc_ok _ i _ (with_state RUNNABLE) (tab_slot_get i (with_killed 1) s p Hp)). by rewrite tab_slot2.
      * done.
  - right. split; [intros i p Hp Hpid; specialize (Hno i p Hp); cbn in Hno; lia|]. unfold kill. by exec_by Hr.
Qed.

Lemma setpriority_ok s pid pr : zlen (procs s) = NPROC ->
  (exists i p, first_slot s (fun p => p_pid p = pid) i p /\
     setpriority pid pr s = Ret 0 (tab (at_slot i (with_priority pr)) s)) \/
  ((forall i p, zget (procs s) i = Some p -> p_pid p <> pid) /\ setpriority pid pr s = Ret (-1) s).
Proof.
  intros Hlen. destruct (until_find (fun p => p_pid p =? pid) (fun i p =>
      upd_proc i (with_priority pr) ;; mret (Some 0)) s Hlen) as [(i & p & Hp & Ht & Hf & Hr)|[Hno Hr]].
  - left. exists i, p. split.
    + split; [done|]. split; [lia|]. intros j q Hj Hq Hpq. specialize (Hf j q Hj Hq). lia.
    + unfold setpriority.
      rewrite (bind_Ret _ _ s (Some 0) (tab (at_slot i (with_priority pr)) s)); [done|]. apply Hr. by exec_by (upd_proc_ok s i p (with_priority pr) Hp).
  - right. split; [intros i p Hp Hpid; specialize (Hno i p Hp); cbn in Hno; lia|]. unfold setpriority. by exec_by Hr.
Qed.

Lemma yield_ok s c p : cur s = Some c -> zget (procs s) c = Some p ->
  yield s = Leave (with_cur None (tab (at_slot c (with_state RUNNABLE)) s)).
Proof.
  intros Hc Hp. unfold yield, myproc. exec. rewrite Hc. cbn [deref]. exec.
  exec_by (upd_proc_ok s c p (with_state RUNNABLE) Hp). unfold sched, myproc. exec. cbn [cur tab with_procs].
  rewrite Hc. cbn [deref]. exec. exec_by (get_proc_ok _ c _ (tab_slot_get c (with_state RUNNABLE) s p Hp)). done.
Qed.

Definition asleep (ch : chan) (p : proc) : proc := with_state SLEEPING (with_chan (Some ch) p).
Lemma sleep_ok {A} s c p ch : cur s = Some c -> zget (procs s) c = Some p ->
  sleep (A := A) ch s = Leave (with_cur None (tab (at_slot c (asleep ch)) s)).
Proof.
  intros Hc Hp. unfold sleep. exec. rewrite Hc. exec_by (upd_proc_ok s c p (asleep ch) Hp).
  unfold sched, myproc. exec. cbn [cur tab with_procs].
  rewrite Hc. cbn [deref]. exec. exec_by (get_proc_ok _ c _ (tab_slot_get c (asleep ch) s p Hp)). done.
Qed.

(** ** [wait] *)

Definition is_kid (c : Z) (p : proc) : Prop := p_parent p = Some c.
Definition zombie_kid (c : Z) (p : proc) : Prop := p_parent p = Some c /\ p_state p = ZOMBIE.

Lemma wait_scan_ok s c : zlen (procs s) = NPROC ->
  (exists i p, first_slot s (zombie_kid c) i p /\ wait_scan (seqZ 0 NPROC) c false s = Ret (inl i) s) \/
  ((forall i p, zget (procs s) i = Some p -> ~ zombie_kid c p) /\
   exists b, wait_scan (seqZ 0 NPROC) c false s = Ret (inr b) s /\
     (b = true <-> exists i p, zget (procs s) i = Some p /\ is_kid c p)).
Proof.
  intros Hlen. enough (forall n k h, 0 <= k -> k + Z.of_nat n = NPROC ->
    (forall j q, j < k -> zget (procs s) j = Some q -> ~ zombie_kid c q) ->
    (h = true <-> exists j q, j < k /\ zget (procs s) j = Some q /\ is_kid c q) ->
    (exists i p, first_slot s (zombie_kid c) i p /\ wait_scan (seqZ k (Z.of_nat n)) c h s = Ret (inl i) s) \/
    ((forall i p, zget (procs s) i = Some p -> ~ zombie_kid c p) /\
     exists b, wait_scan (seqZ k (Z.of_nat n)) c h s = Ret (inr b) s /\
       (b = true <-> exists i p, zget (procs s) i = Some p /\ is_kid c p))) as G.
  { apply (G 64%nat 0); [done|done| |].
    - intros j q Hj Hq%zget_Some_range. lia.
    - split; [done|]. intros (j & q & Hj & Hq%zget_Some_range & _). lia. }
  induction n as [|n IH]; intros k h Hk Hn Hpre Hh.
  - right. split; [intros i p Hp; apply (Hpre i p); [apply zget_Some_range in Hp; lia|done]|]. exists h. split; [done|].
    rewrite Hh. split; [naive_solver|]. intros (i & p & Hp & Hkid). exists i, p. split; [apply zget_Some_range in Hp; lia|done].
  - rewrite seqZ_cons by lia. replace (Z.pred (Z.of_nat (S n))) with (Z.of_nat n) by lia.
    destruct (zget_in_range (procs s) k ltac:(lia)) as [p Hp]. cbn [wait_scan].
    setoid_rewrite (bind_Ret _ _ _ _ _ (get_proc_ok s k p Hp)). cbv beta.
    assert (forall j q, j < Z.succ k -> zget (procs s) j = Some q -> (j < k) \/ (j = k /\ q = p)) as Hcase.
    { intros j q Hj Hq. destruct (decide (j = k)) as [->|]; [right; split; congruence|left; lia]. }
    case_bool_decide as Hkid; [|apply IH; [lia|lia| |]].
    + unfold state_eqb. case_bool_decide as Hz.
      * left. exists k, p. split; [|done]. split; [done|]. split; [done|]. exact Hpre.
      * apply IH; [lia|lia| |].
        -- intros j q Hj Hq. destruct (Hcase j q Hj Hq) as [Hj'|[-> ->]]; [by apply (Hpre j)|]. by intros [_ ?].
        -- split; [|done]. intros _. exists k, p. split; [lia|done].
    + intros j q Hj Hq. destruct (Hcase j q Hj Hq) as [Hj'|[-> ->]]; [by apply (Hpre j)|]. by intros [? _].
    + rewrite Hh. split; intros (j & q & Hj & Hq & Hkd).
      * exists j, q. split; [lia|done].
      * destruct (Hcase j q Hj Hq) as [Hj'|[-> ->]]; [by exists j, q|done].
Qed.

(** What is left of a reaped child. *)
Definition reaped (prio : bool) (p : proc) : proc :=
  let q := with_state UNUSED (with_sltime 0 (with_retime 0 (with_rutime 0 (with_ctime 0 (with_killed 0
      (with_name "" (with_parent None (with_pid 0 (with_kstack 0 p))))))))) in
  if prio then with_priority 0 q else q.

Lemma reap_ok s i p prio : zget (procs s) i = Some p ->
  reap i prio s = Ret (p_pid p) (tab (at_slot i (reaped prio))
    (with_ext (freevm (p_pgdir p) (kfree (p_kstack p) (ext s))) s)).
Proof.
  intros Hp. unfold reap, ext_do. exec_by (get_proc_ok s i p Hp). exec.
  set (s1 := with_ext _ (with_ext _ s)). assert (zget (procs s1) i = Some p) as Hp1 by done.
  exec_by (upd_proc_ok s1 i p (reaped prio) Hp1). done.
Qed.
End Spec.
