(* ===== verification/XProcInv.v ===== *)
(** * The process table stays consistent *)
From S2P Require Import Prelude XProc XProcSpec.

Section Inv.
Context {E : Type} `{KernOps E}.
Implicit Types (s : xkern E) (p q : proc).

(** A call of the file system. *)
Definition file_step (e e' : E) : Prop :=
  (exists f, e' = snd (filedup f e)) \/ (exists f, e' = fileclose f e) \/ (exists f, e' = snd (idup f e)) \/
  (exists f, e' = iput f e) \/ exists n, e' = snd (namei n e).
Lemma ext_get_ok {A} (f : E -> A * E) s : ext_get f s = Ret (fst (f (ext s))) (with_ext (snd (f (ext s))) s).
Proof. done. Qed.

(** ** [allocproc] and [fork] *)

Definition fresh (ks pid t : Z) (p : proc) : proc :=
  with_priority 0 (with_sltime 0 (with_retime 0 (with_rutime 0 (with_ctime (s32 t)
    (with_kstack ks (with_pid pid (with_state EMBRYO p))))))).
Definition unfresh (pid : Z) (p : proc) : proc := with_state UNUSED (with_kstack 0 (with_pid pid (with_state EMBRYO p))).

Definition is_unused (p : proc) : Prop := p_state p = UNUSED.

Lemma allocproc_ok s : zlen (procs s) = NPROC -> nextpid s < 2147483647 ->
  (allocproc s = Ret None s /\ forall i p, zget (procs s) i = Some p -> p_state p <> UNUSED) \/
  (exists i p, first_slot s is_unused i p /\
     allocproc s = match kalloc (ext s) with
       | (None, e) => Ret None (tab (at_slot i (unfresh (nextpid s))) (with_ext e (with_nextpid (nextpid s + 1) s)))
       | (Some ks, e) => Ret (Some i) (tab (at_slot i (fresh ks (nextpid s) (ticks s)))
                                         (with_ext e (with_nextpid (nextpid s + 1) s)))
       end).
Proof.
  intros Hlen Hpid. destruct (until_find (fun p => state_eqb (p_state p) UNUSED) (fun i _ => mret (Some i)) s Hlen)
    as [(i & p & Hp & Ht & Hf & Hr)|[Hno Hr]].
  - right. exists i, p. split.
    + split; [done|]. split; [by apply bool_decide_eq_true in Ht|]. intros j q Hj Hq Hpq. specialize (Hf j q Hj Hq).
      by apply bool_decide_eq_false in Hf.
    + unfold allocproc. erewrite bind_Ret by (by apply Hr). cbv beta iota. exec. rewrite sincr_ok by done. cbn [deref]. exec.
      exec_by (upd_proc_ok s i p (fun p => with_pid (nextpid s) (with_state EMBRYO p)) Hp). exec.
      set (s1 := with_nextpid (nextpid s + 1) _). set (f1 := fun p => with_pid (nextpid s) (with_state EMBRYO p)).
      assert (zget (procs s1) i = Some (f1 p)) as Hp1 by exact (tab_slot_get i f1 s p Hp).
      unfold ext_try, ext_get. exec. change (ext s1) with (ext s). destruct (kalloc (ext s)) as [[ks|] e]; cbn [fst snd]; exec.
      * exec_by (upd_proc_ok (with_ext e s1) i _ (with_kstack ks) Hp1). exec. cbn [ticks tab with_procs].
        exec_by (upd_proc_ok _ i _ (fun p => with_priority 0 (with_sltime 0 (with_retime 0 (with_rutime 0
          (with_ctime (s32 (ticks s1)) p))))) (tab_slot_get i (with_kstack ks) (with_ext e s1) _ Hp1)).
        rewrite tab_slot2. change (with_ext e s1) with (tab (at_slot i f1) (with_ext e (with_nextpid (nextpid s + 1) s))).
        by rewrite tab_slot2.
      * exec_by (upd_proc_ok (with_ext e s1) i _ (fun p => with_state UNUSED (with_kstack 0 p)) Hp1).
        change (with_ext e s1) with (tab (at_slot i f1) (with_ext e (with_nextpid (nextpid s + 1) s))). by rewrite tab_slot2.
  - left. split.
    + unfold allocproc. by exec_by Hr.
    + intros i p Hp Hu. specialize (Hno i p Hp). by apply bool_decide_eq_false in Hno.
Qed.

(** The loop of [fork] over the open files. *)
Lemma dup_loop np (of0 : list Z) (l : list Z) : forall s p,
  zget (procs s) np = Some p -> zlen (p_ofile p) = NOFILE -> Forall (fun fd => 0 <= fd < zlen of0) l ->
  exists e of', zlen of' = NOFILE /\ rtc file_step (ext s) e /\
    for_each l (fun fd =>
            f ← deref (zget of0 fd);
            when (negb (f =? 0)) (
              f' ← ext_get (filedup f);
              upd_proc np (fun p => with_ofile (zset (p_ofile p) fd f') p))) s
    = Ret tt (with_ext e (tab (at_slot np (with_ofile of')) s)).
Proof.
  induction l as [|fd l IH]; intros s p Hp Hlen Hl.
  - exists (ext s), (p_ofile p). split; [done|]. split; [done|]. cbn. rewrite (tab_slot_ext np _ (fun p => p) s p Hp) by by destruct p.
    unfold tab. rewrite (timap_ext _ (fun _ p => p)), timap_id; [by destruct s|]. intros i q _. apply at_slot_id.
  - apply list.Forall_cons in Hl as [Hfd Hl]. cbn [for_each]. destruct (zget_in_range of0 fd Hfd) as [f Hf].
    rewrite Hf. cbn [deref]. exec. destruct (f =? 0); cbn [negb when]; exec.
    + by apply (IH s p).
    + set (s1 := with_ext (snd (filedup f (ext s))) s).
      assert (ext_get (filedup f) s = Ret (fst (filedup f (ext s))) s1) as Hg by done. exec_by Hg. assert (zget (procs s1) np = Some p) as Hp1 by done.
      set (g := fun p => with_ofile (zset (p_ofile p) fd (fst (filedup f (ext s)))) p).
      exec_by (upd_proc_ok s1 np p g Hp1).
      destruct (IH (tab (at_slot np g) s1) (g p)) as (e & of' & Hof' & Hfs & Hr);
        [by apply tab_slot_get|cbn; by rewrite zlen_zset|done|].
      exists e, of'. split; [done|]. split; [|rewrite Hr, tab_slot2; done]. eapply rtc_l; [|exact Hfs]. left. by exists f.
Qed.

(** What [fork] sets in the child, and what it leaves. *)
Record child_of (s : xkern E) (c : Z) (cp q q' : proc) : Prop := {
  co_state : p_state q' = RUNNABLE /\ p_pid q' = nextpid s /\ p_parent q' = Some c;
  co_copy : p_sz q' = p_sz cp /\ p_name q' = p_name cp /\ p_priority q' = p_priority cp /\
    tf_eax (p_tf q') = 0 /\ tf_eip (p_tf q') = tf_eip (p_tf cp) /\ tf_esp (p_tf q') = tf_esp (p_tf cp);
  co_times : p_ctime q' = s32 (ticks s) /\ p_rutime q' = 0 /\ p_retime q' = 0 /\ p_sltime q' = 0;
  co_stale : p_killed q' = p_killed q /\ p_chan q' = p_chan q;
  co_files : zlen (p_ofile q') = NOFILE
}.

(** A failed [fork] may leave a new process identifier in an unused slot. *)
Definition pid_only (pid : Z) (p p' : proc) : Prop :=
  p' = p \/ (exists ks, p' = with_state UNUSED (with_kstack 0 (with_pid pid (with_state EMBRYO p))) \/
    exists t, p' = with_state UNUSED (with_kstack 0 (fresh ks pid t p))).

(** What [fork] does to the memory of the kernel, when it fails and when it does not. *)
Definition fork_failed (s : xkern E) (cp : proc) (e : E) : Prop :=
  kalloc (ext s) = (None, e) \/
  exists ks e1 e2, kalloc (ext s) = (Some ks, e1) /\ copyuvm (p_pgdir cp) (p_sz cp) e1 = (None, e2) /\ e = kfree ks e2.
Definition fork_memory (s : xkern E) (cp q' : proc) (e : E) : Prop :=
  exists e1 e2, kalloc (ext s) = (Some (p_kstack q'), e1) /\ copyuvm (p_pgdir cp) (p_sz cp) e1 = (Some (p_pgdir q'), e2) /\ rtc file_step e2 e.

Lemma fork_ok s c cp :
  zlen (procs s) = NPROC -> nextpid s < 2147483647 -> cur s = Some c -> zget (procs s) c = Some cp ->
  p_state cp <> UNUSED -> zlen (p_ofile cp) = NOFILE -> (forall i p, zget (procs s) i = Some p -> zlen (p_ofile p) = NOFILE) ->
  (exists s', fork s = Ret (-1) s' /\ exists i f n e, (s' = s \/
      (s' = with_ext e (with_nextpid n (tab (at_slot i f) s)) /\ fork_failed s cp e)) /\ (nextpid s <= n) /\
      forall p, zget (procs s) i = Some p -> p_state p = UNUSED /\ pid_only (nextpid s) p (f p)) \/
  (exists i p q' e, first_slot s is_unused i p /\ child_of s c cp p q' /\ fork_memory s cp q' e /\
     fork s = Ret (nextpid s) (with_ext e (with_nextpid (nextpid s + 1) (tab (at_slot i (fun _ => q')) s)))).
Proof.
  intros Hlen Hpid Hc Hcp Hcs Hof Hofs. unfold fork, myproc. exec. rewrite Hc. cbn [deref]. exec.
  destruct (allocproc_ok s Hlen Hpid) as [[Hr _]|(i & p & Hi & Hr)].
  { left. exists s. exec_by Hr. split; [done|]. exists (-1), (fun p => p), (nextpid s), (ext s). split; [by left|]. split; [lia|].
    intros p Hp%zget_Some_range. lia. }
  pose proof Hi as (Hp & Hu & _). assert (c <> i) as Hci by (intros ->; congruence).
  destruct (kalloc (ext s)) as [[ks|] e] eqn:Ek.
  2: { left. eexists. exec_by Hr. split; [done|]. exists i, (unfresh (nextpid s)), (nextpid s + 1), e.
       split; [right; split; [done|by left]|]. split; [lia|]. intros p' Hp'. assert (p' = p) as -> by congruence. split; [done|].
       right. exists 0. by left. }
  exec_by Hr. set (f1 := fresh ks (nextpid s) (ticks s)). set (s1 := tab (at_slot i f1) _).
  assert (zget (procs s1) c = Some cp) as Hcp1.
  { cbn. rewrite timap_get, Hcp. cbn. unfold at_slot. by rewrite (proj2 (Z.eqb_neq c i)). }
  assert (zget (procs s1) i = Some (f1 p)) as Hp1 by (by apply (tab_slot_get i f1 (with_ext e (with_nextpid (nextpid s + 1) s)))).
  exec_by (get_proc_ok s1 c cp Hcp1). exec_by (ext_get_ok (copyuvm (p_pgdir cp) (p_sz cp)) s1). destruct (copyuvm _ _ (ext s1)) as [[pd|] e2] eqn:Ec; cbn [fst snd]; exec.
  2: { left. eexists. exec_by (get_proc_ok (with_ext e2 s1) i _ Hp1). unfold ext_do. exec.
       exec_by (upd_proc_ok (with_ext (kfree (p_kstack (f1 p)) e2) s1) i _ (fun p => with_state UNUSED (with_kstack 0 p)) Hp1).
       split; [done|]. exists i, (fun p => with_state UNUSED (with_kstack 0 (f1 p))), (nextpid s + 1), (kfree (p_kstack (f1 p)) e2).
       split.
       - right. split; [|right; by exists ks, e, e2]. change (with_ext ?x s1) with (tab (at_slot i f1) (with_ext x (with_nextpid (nextpid s + 1) s))).
         by rewrite tab_slot2.
       - split; [lia|]. intros p' Hp'. assert (p' = p) as -> by congruence. split; [done|]. right. exists ks. right. by exists (ticks s). }
  right.
  set (f2 := fun p => with_tf _ (with_parent _ (with_priority _ (with_sz _ (with_pgdir _ p))))).
  set (s2 := with_ext e2 s1). exec_by (upd_proc_ok s2 i _ f2 Hp1). exec.
  set (s3 := tab (at_slot i f2) s2). assert (zget (procs s3) i = Some (f2 (f1 p))) as Hp3 by by apply tab_slot_get.
  destruct (dup_loop i (p_ofile cp) (seqZ 0 NOFILE) s3 _ Hp3) as (e3 & of' & Hof' & Hfs & Hrl).
  { cbn. by apply (Hofs i). }
  { apply list.Forall_forall. intros fd Hfd%elem_of_seqZ. lia. }
  exec_by Hrl. set (s4 := with_ext e3 _). unfold ext_get. exec. set (s5 := with_ext _ s4).
  assert (zget (procs s5) i = Some (with_ofile of' (f2 (f1 p)))) as Hp5 by by apply (tab_slot_get i (with_ofile of') s3).
  set (cw := fst _). exec_by (upd_proc_ok s5 i _ (with_cwd cw) Hp5).
  pose proof (tab_slot_get i (with_cwd cw) s5 _ Hp5) as Hp6.
  exec_by (upd_proc_ok _ i _ (with_name (p_name cp)) Hp6). rewrite tab_slot2.
  pose proof (tab_slot_get i (fun p => with_name (p_name cp) (with_cwd cw p)) s5 _ Hp5) as Hp7.
  exec_by (get_proc_ok _ i _ Hp7). exec_by (upd_proc_ok _ i _ (with_state RUNNABLE) Hp7). rewrite tab_slot2.
  set (g := fun p => with_state RUNNABLE (with_name (p_name cp) (with_cwd cw p))).
  exists i, p, (g (with_ofile of' (f2 (f1 p)))), (ext s5). split; [done|]. split; [by split|]. split.
  - exists e, e2. split; [done|]. split; [done|]. eapply rtc_r; [exact Hfs|]. right. right. left. by exists (p_cwd cp).
  - change (tab (at_slot i g) s5) with (tab (at_slot i g) (tab (at_slot i (with_ofile of')) (tab (at_slot i f2)
      (tab (at_slot i f1) (with_ext (ext s5) (with_nextpid (nextpid s + 1) s)))))).
    rewrite !tab_slot2. unfold mret, M_ret. f_equal. rewrite (tab_slot_const i p) by done. done.
Qed.

(** ** [exit] *)

Lemma close_loop c (l : list Z) : forall s p,
  zget (procs s) c = Some p -> zlen (p_ofile p) = NOFILE -> Forall (fun fd => 0 <= fd < NOFILE) l ->
  exists e of', zlen of' = NOFILE /\ rtc file_step (ext s) e /\
    for_each l (fun fd =>
      p ← get_proc c;
      f ← deref (zget (p_ofile p) fd);
      when (negb (f =? 0)) (
        ext_do (fileclose f) ;;
        upd_proc c (fun p => with_ofile (zset (p_ofile p) fd 0) p))) s
    = Ret tt (with_ext e (tab (at_slot c (with_ofile of')) s)).
Proof.
  induction l as [|fd l IH]; intros s p Hp Hlen Hl.
  - exists (ext s), (p_ofile p). split; [done|]. split; [done|]. cbn. rewrite (tab_slot_ext c _ (fun p => p) s p Hp) by by destruct p.
    unfold tab. rewrite (timap_ext _ (fun _ p => p)), timap_id; [by destruct s|]. intros i q _. apply at_slot_id.
  - apply list.Forall_cons in Hl as [Hfd Hl]. cbn [for_each]. destruct (zget_in_range (p_ofile p) fd) as [f Hf]; [lia|].
    exec. exec_by (get_proc_ok s c p Hp). rewrite Hf. cbn [deref]. exec. destruct (f =? 0); cbn [negb when]; exec.
    + by apply (IH s p).
    + set (s1 := with_ext (fileclose f (ext s)) s).
      assert (ext_do (fileclose f) s = Ret tt s1) as Hg by done. exec_by Hg.
      assert (zget (procs s1) c = Some p) as Hp1 by done. set (g := fun p => with_ofile (zset (p_ofile p) fd 0) p).
      exec_by (upd_proc_ok s1 c p g Hp1).
      destruct (IH (tab (at_slot c g) s1) (g p)) as (e & of' & Hof' & Hfs & Hr);
        [by apply tab_slot_get|cbn; by rewrite zlen_zset|done|].
      exists e, of'. split; [done|]. split; [|rewrite Hr, tab_slot2; done]. eapply rtc_l; [|exact Hfs]. right. left. by exists f.
Qed.

Definition reparent (c ip : Z) (p : proc) : proc :=
  if bool_decide (p_parent p = Some c) then with_parent (Some ip) p else p.

(** The table while [exit] hands its children to [init]: [z], a zombie has been seen. *)
Definition handing (c ip k : Z) (z : bool) (i : Z) (p : proc) : proc :=
  let q := if i <? k then reparent c ip p else p in if z then wake (ChProc ip) q else q.

Lemma wake_fields ch p : p_parent (wake ch p) = p_parent p /\ (p_state (wake ch p) = ZOMBIE <-> p_state p = ZOMBIE).
Proof.
  unfold wake, state_eqb. destruct (bool_decide (p_state p = SLEEPING)) eqn:Eb; cbn [andb]; [|done].
  apply bool_decide_eq_true in Eb. case_bool_decide; [|done]. cbn. by rewrite Eb.
Qed.
Lemma wake_wake ch p : wake ch (wake ch p) = wake ch p.
Proof.
  unfold wake at 1. destruct (state_eqb (p_state (wake ch p)) SLEEPING && bool_decide (p_chan (wake ch p) = Some ch)) eqn:Eb; [|done].
  apply andb_true_iff in Eb as [E1%bool_decide_eq_true E2%bool_decide_eq_true]. unfold wake in E1, E2.
  destruct (state_eqb (p_state p) SLEEPING && bool_decide (p_chan p = Some ch)) eqn:Ec; [done|].
  rewrite E1 in Ec. unfold state_eqb in Ec. by rewrite !bool_decide_true in Ec by done.
Qed.
Lemma wake_with_parent ch v p : wake ch (with_parent v p) = with_parent v (wake ch p).
Proof. unfold wake. cbn. by destruct (_ && _). Qed.

Definition hand_body (c : Z) (i : Z) : M (xkern E) unit :=
  p ← get_proc i;
  when (bool_decide (p_parent p = Some c)) (
    ip ← gets initproc;
    upd_proc i (with_parent ip) ;;
    when (state_eqb (p_state p) ZOMBIE)
      match ip with Some ip => wakeup1 (ChProc ip) | None => mret tt end).

Lemma handing_get c ip k z s p : zget (procs s) k = Some p ->
  zget (procs (tab (handing c ip k z) s)) k = Some (if z then wake (ChProc ip) p else p).
Proof. intros Hp. cbn. rewrite timap_get, Hp. cbn. unfold handing. by rewrite Z.ltb_irrefl. Qed.

Lemma handing_next c ip k z s p : zget (procs s) k = Some p ->
  tab (at_slot k (reparent c ip)) (tab (handing c ip k z) s) = tab (handing c ip (Z.succ k) z) s.
Proof.
  intros Hp. rewrite tab_tab. unfold tab. f_equal. apply timap_ext. intros i q Hq. unfold at_slot, handing.
  destruct (decide (i = k)) as [->|Hne].
  - rewrite Z.eqb_refl, Z.ltb_irrefl. destruct (Z.ltb_spec k (Z.succ k)); [|lia]. destruct z; [|done].
    unfold reparent. rewrite (proj1 (wake_fields _ _)). case_bool_decide; [|done]. by rewrite wake_with_parent.
  - destruct (Z.eqb_spec i k); [done|]. destruct (Z.ltb_spec i k), (Z.ltb_spec i (Z.succ k)); try lia; done.
Qed.

Lemma hand_step c ip s k z : initproc s = Some ip -> zlen (procs s) = NPROC -> 0 <= k < NPROC ->
  exists z', hand_body c k (tab (handing c ip k z) s) = Ret tt (tab (handing c ip (Z.succ k) z') s).
Proof.
  intros Hip Hlen Hk. destruct (zget_in_range (procs s) k ltac:(lia)) as [p Hp].
  pose proof (handing_get c ip k z s p Hp) as Hp1. set (p1 := if z then wake (ChProc ip) p else p) in *.
  assert (p_parent p1 = p_parent p) as Epar by (unfold p1; destruct z; [apply wake_fields|done]).
  unfold hand_body. exec_by (get_proc_ok _ k p1 Hp1). rewrite Epar. case_bool_decide as Hpar; cbn [when].
  - exec. cbn [initproc tab with_procs]. rewrite Hip.
    exec_by (upd_proc_ok _ k p1 (with_parent (Some ip)) Hp1).
    rewrite (tab_slot_ext k (with_parent (Some ip)) (reparent c ip) _ p1 Hp1) by
      (unfold reparent; by rewrite Epar, bool_decide_true).
    rewrite (handing_next c ip k z s p Hp). destruct (state_eqb (p_state p1) ZOMBIE); cbn [when]; [|by exists z].
    exists true. rewrite wakeup1_ok by (cbn; by rewrite timap_len). rewrite tab_tab. f_equal. unfold tab. f_equal.
    apply timap_ext. intros i q _. unfold handing. destruct z; [by rewrite wake_wake|done].
  - exists z. unfold mret, M_ret. f_equal. unfold tab. f_equal. apply timap_ext. intros i q Hq. unfold handing.
    destruct (decide (i = k)) as [->|Hne].
    + assert (q = p) as -> by congruence. unfold reparent. rewrite bool_decide_false by done. by destruct (k <? Z.succ k), (k <? k).
    + destruct (Z.ltb_spec i k), (Z.ltb_spec i (Z.succ k)); try lia; done.
Qed.

Lemma hand_loop c ip s : initproc s = Some ip -> zlen (procs s) = NPROC -> forall n k z, 0 <= k -> k + Z.of_nat n = NPROC ->
  exists z', for_each (seqZ k (Z.of_nat n)) (hand_body c) (tab (handing c ip k z) s) = Ret tt (tab (handing c ip NPROC z') s).
Proof.
  intros Hip Hlen. induction n as [|n IH]; intros k z Hk Hn.
  - exists z. replace k with NPROC by lia. done.
  - rewrite seqZ_cons by lia. replace (Z.pred (Z.of_nat (S n))) with (Z.of_nat n) by lia.
    destruct (hand_step c ip s k z Hip Hlen ltac:(lia)) as (z1 & Hr). cbn [for_each]. rewrite (bind_Ret _ _ _ _ _ Hr).
    apply IH; lia.
Qed.

(** The memory of a process. *)
Definition same_mem (p p' : proc) : Prop := p_kstack p' = p_kstack p /\ p_pgdir p' = p_pgdir p /\ p_sz p' = p_sz p.
Lemma wake_mem ch p : same_mem p (wake ch p).
Proof. unfold wake. by destruct (_ && _). Qed.

(** Slot [i] before and after the exit of [c], child of [pa]. *)
Record exit_slot (c ip : Z) (pa : option Z) (i : Z) (p p' : proc) : Prop := {
  es_same : p_pid p' = p_pid p /\ p_chan p' = p_chan p /\ zlen (p_ofile p') = NOFILE /\
    p_ctime p' = p_ctime p /\ p_rutime p' = p_rutime p /\ p_retime p' = p_retime p /\ p_sltime p' = p_sltime p;
  es_mem : same_mem p p';
  es_parent : p_parent p' = (if decide (p_parent p = Some c) then Some ip else p_parent p);
  es_self : i = c -> p_state p' = ZOMBIE;
  es_other : i <> c -> p_state p' = p_state p \/ (p_state p = SLEEPING /\ p_state p' = RUNNABLE);
  es_wake : i <> c -> p_state p = SLEEPING -> (exists j, pa = Some j /\ p_chan p = Some (ChProc j)) ->
    p_state p' = RUNNABLE
}.

Lemma wake_same ch p : p_pid (wake ch p) = p_pid p /\ p_chan (wake ch p) = p_chan p /\ p_ofile (wake ch p) = p_ofile p /\
  p_ctime (wake ch p) = p_ctime p /\ p_rutime (wake ch p) = p_rutime p /\ p_retime (wake ch p) = p_retime p /\
  p_sltime (wake ch p) = p_sltime p /\ p_parent (wake ch p) = p_parent p /\
  (p_state (wake ch p) = p_state p \/ (p_state p = SLEEPING /\ p_state (wake ch p) = RUNNABLE)) /\
  (p_state p = SLEEPING -> p_chan p = Some ch -> p_state (wake ch p) = RUNNABLE).
Proof.
  unfold wake, state_eqb. destruct (bool_decide (p_state p = SLEEPING)) eqn:E1; cbn [andb].
  - apply bool_decide_eq_true in E1. case_bool_decide; cbn; rewrite ?E1; naive_solver.
  - apply bool_decide_eq_false in E1. split_and!; try done. by left.
Qed.

Definition wake_opt (pa : option Z) (p : proc) : proc :=
  match pa with Some pa => wake (ChProc pa) p | None => p end.

(** The composition of the steps of [exit] on slot [i]. *)
Definition exit_steps (c ip : Z) (pa : option Z) (of' : list Z) (z : bool) (i : Z) (q : proc) : proc :=
  at_slot c (with_state ZOMBIE) i (handing c ip NPROC z i (wake_opt pa
    (at_slot c (with_cwd 0) i (at_slot c (with_ofile of') i q)))).

Lemma exit_slot_ok c ip pa of' z i q :
  zlen of' = NOFILE -> zlen (p_ofile q) = NOFILE -> i < NPROC ->
  exit_slot c ip pa i q (exit_steps c ip pa of' z i q).
Proof.
  intros Hof' Hof Hi. unfold exit_steps.
  set (q1 := at_slot c (with_cwd 0) i (at_slot c (with_ofile of') i q)).
  assert (p_pid q1 = p_pid q /\ p_chan q1 = p_chan q /\ zlen (p_ofile q1) = NOFILE /\ p_ctime q1 = p_ctime q /\
    p_rutime q1 = p_rutime q /\ p_retime q1 = p_retime q /\ p_sltime q1 = p_sltime q /\ p_parent q1 = p_parent q /\
    p_state q1 = p_state q) as (A1 & A2 & A3 & A4 & A5 & A6 & A7 & A8 & A9).
  { unfold q1, at_slot. destruct (i =? c); cbn; split_and!; done. }
  set (q2 := wake_opt pa q1).
  assert (p_pid q2 = p_pid q /\ p_chan q2 = p_chan q /\ zlen (p_ofile q2) = NOFILE /\ p_ctime q2 = p_ctime q /\
    p_rutime q2 = p_rutime q /\ p_retime q2 = p_retime q /\ p_sltime q2 = p_sltime q /\ p_parent q2 = p_parent q /\
    (p_state q2 = p_state q \/ (p_state q = SLEEPING /\ p_state q2 = RUNNABLE)) /\
    (p_state q = SLEEPING -> (exists j, pa = Some j /\ p_chan q = Some (ChProc j)) -> p_state q2 = RUNNABLE))
    as (B1 & B2 & B3 & B4 & B5 & B6 & B7 & B8 & B9 & B10).
  { unfold q2, wake_opt. destruct pa as [pa|]; [|split_and!; try congruence; [left; congruence|intros _ (j & [=] & _)]].
    destruct (wake_same (ChProc pa) q1) as (-> & -> & -> & -> & -> & -> & -> & -> & C1 & C2). rewrite A9 in C1, C2.
    rewrite A2 in C2. split_and!; try congruence. intros Hs (j & [= ->] & Hj). by apply C2. }
  unfold handing. assert (i <? NPROC = true) as -> by lia.
  set (q3 := reparent c ip q2).
  assert (p_parent q3 = (if decide (p_parent q = Some c) then Some ip else p_parent q) /\ p_state q3 = p_state q2 /\
    p_pid q3 = p_pid q2 /\ p_chan q3 = p_chan q2 /\ p_ofile q3 = p_ofile q2 /\ p_ctime q3 = p_ctime q2 /\
    p_rutime q3 = p_rutime q2 /\ p_retime q3 = p_retime q2 /\ p_sltime q3 = p_sltime q2) as (D1 & D2 & D3 & D4 & D5 & D6 & D7 & D8 & D9).
  { unfold q3, reparent. rewrite B8. case_bool_decide; case_decide; cbn; rewrite ?B8; done. }
  set (q4 := if z then wake (ChProc ip) q3 else q3).
  assert (p_parent q4 = p_parent q3 /\ p_pid q4 = p_pid q3 /\ p_chan q4 = p_chan q3 /\ p_ofile q4 = p_ofile q3 /\
    p_ctime q4 = p_ctime q3 /\ p_rutime q4 = p_rutime q3 /\ p_retime q4 = p_retime q3 /\ p_sltime q4 = p_sltime q3 /\
    (p_state q4 = p_state q3 \/ (p_state q3 = SLEEPING /\ p_state q4 = RUNNABLE)))
    as (F1 & F2 & F3 & F4 & F5 & F6 & F7 & F8 & F9).
  { unfold q4. destruct z; [|split_and!; try done; by left].
    by destruct (wake_same (ChProc ip) q3) as (-> & -> & -> & -> & -> & -> & -> & -> & ? & _). }
  assert (same_mem q q4) as Hmem.
  { unfold q4, q3, q2, q1, wake_opt, reparent, at_slot, same_mem, wake. destruct z, pa; repeat (case_match; cbn); done. }
  clearbody q1 q2 q3 q4. unfold at_slot. destruct (Z.eqb_spec i c) as [->|Hic]; split; cbn; try done; try congruence.
  + split_and!; congruence.
  + split_and!; congruence.
  + intros _. rewrite <-D2 in B9. destruct B9 as [B9|[B9 B9']], F9 as [F9|[F9 F9']]; try (left; congruence);
      right; split; congruence.
  + intros _ Hs Hj. specialize (B10 Hs Hj). destruct F9 as [F9|[F9 F9']]; congruence.
Qed.

Lemma exit_ok s c ip p :
  zlen (procs s) = NPROC -> cur s = Some c -> initproc s = Some ip -> c <> ip -> zget (procs s) c = Some p ->
  p_state p = RUNNING -> (forall i q, zget (procs s) i = Some q -> zlen (p_ofile q) = NOFILE) ->
  exists e G, exit s = Leave (with_cur None (with_ext e (tab G s))) /\ rtc file_step (ext s) e /\
    forall i q, zget (procs s) i = Some q -> exit_slot c ip (p_parent p) i q (G i q).
Proof.
  intros Hlen Hc Hip Hne Hp Hrun Hof. unfold exit, myproc. exec. rewrite Hc. cbn [deref]. exec.
  rewrite bool_decide_false by congruence.
  destruct (close_loop c (seqZ 0 NOFILE) s p Hp (Hof c p Hp)) as (e & of' & Hof' & Hfs & Hr1).
  { apply list.Forall_forall. intros fd Hfd%elem_of_seqZ. lia. }
  exec_by Hr1. set (s1 := with_ext e _). pose proof (tab_slot_get c (with_ofile of') s p Hp : zget (procs s1) c = _) as Hp1.
  exec_by (get_proc_ok s1 c _ Hp1). unfold ext_do. exec. set (s2 := with_ext _ s1).
  exec_by (upd_proc_ok s2 c _ (with_cwd 0) Hp1). pose proof (tab_slot_get c (with_cwd 0) s2 _ Hp1) as Hp2.
  set (s3 := tab (at_slot c (with_cwd 0)) s2) in *. exec_by (get_proc_ok s3 c _ Hp2).
  assert (zlen (procs s3) = NPROC) as Hlen3 by (cbn; by rewrite !timap_len).
  assert (match p_parent p with Some pa => wakeup1 (ChProc pa) | None => mret tt end s3
          = Ret tt (tab (fun _ => wake_opt (p_parent p)) s3)) as Hw.
  { destruct (p_parent p); [by apply wakeup1_ok|]. cbn. by rewrite tab_id. }
  change (p_parent (with_cwd 0 (with_ofile of' p))) with (p_parent p). exec_by Hw.
  set (s4 := tab _ s3). assert (zlen (procs s4) = NPROC) as Hlen4 by (cbn; by rewrite !timap_len).
  destruct (hand_loop c ip s4 Hip Hlen4 64 0 false) as (z & Hr2); [lia|done|].
  assert (tab (handing c ip 0 false) s4 = s4) as E0.
  { unfold tab. rewrite (timap_ext _ (fun _ q => q)), timap_id; [by destruct s4|]. intros i q Hi%zget_Some_range.
    unfold handing. destruct (Z.ltb_spec i 0); [lia|done]. }
  rewrite E0 in Hr2. change (Z.of_nat 64) with NPROC in Hr2. unfold hand_body in Hr2. exec_by Hr2.
  set (s5 := tab _ s4). assert (exists q, zget (procs s5) c = Some q) as [q5 Hq5].
  { apply zget_in_range. cbn. rewrite !timap_len. apply zget_Some_range in Hp. lia. }
  exec_by (upd_proc_ok s5 c q5 (with_state ZOMBIE) Hq5). unfold sched, myproc. exec. cbn [cur tab with_procs with_ext].
  change (cur s5) with (cur s). rewrite Hc. cbn [deref]. exec.
  exec_by (get_proc_ok _ c _ (tab_slot_get c (with_state ZOMBIE) s5 q5 Hq5)). cbn [p_state with_state].
  change (state_eqb ZOMBIE RUNNING) with false. cbv iota. exec.
  exists (ext s2), (exit_steps c ip (p_parent p) of' z). split; [|split].
  - unfold s5, s4, s3. assert (forall e2 s', ext s' = e2 -> procs s' = procs (tab (at_slot c (with_ofile of')) s) -> cur s' = cur s ->
      initproc s' = initproc s -> nextpid s' = nextpid s -> ticks s' = ticks s -> out s' = out s ->
      with_cur None (tab (at_slot c (with_state ZOMBIE)) (tab (handing c ip NPROC z)
        (tab (fun _ => wake_opt (p_parent p)) (tab (at_slot c (with_cwd 0)) s'))))
      = with_cur None (with_ext e2 (tab (exit_steps c ip (p_parent p) of' z) s))) as G.
    { intros e2 [] <- Hpr. cbn in Hpr |- *. intros -> -> -> -> ->. unfold tab, with_cur, with_ext, with_procs. cbn.
      rewrite Hpr. cbn. by rewrite !timap_comp. }
    by rewrite <-(G (ext s2) s2).
  - eapply rtc_r; [exact Hfs|]. right. right. right. left. by exists (p_cwd p).
  - intros i q Hq. apply exit_slot_ok; [done|by apply (Hof i)|apply zget_Some_range in Hq; lia].
Qed.
End Inv.
