(* ===== verification/XProcThm.v ===== *)
(** * The process table: reachable states, and what the calls guarantee

    [kstep] interleaves, one at a time, the calls a process can make, the scheduler, timer
    ticks and changes of the rest of the kernel.  A call that sleeps is left at its
    [sched]; when the process runs again it is at the point where it can make any call,
    which includes going round the loop it slept in. *)
From S2P Require Import Prelude XProc XProcSpec XProcInv.

Section Thm.
Context {E : Type} `{KernOps E}.
Implicit Types (s : xkern E) (p q : proc).

(** [m] comes to an end in [s']: it returned or gave up the processor. *)
Definition ends {A} (m : M (xkern E) A) s s' : Prop := (exists a, m s = Ret a s') \/ m s = Leave s'.

Lemma ends_ret {A} (m : M (xkern E) A) s s' a s1 : m s = Ret a s1 -> ends m s s' -> s' = s1.
Proof. intros Hr [[b Hb]|Hb]; congruence. Qed.
Lemma ends_leave {A} (m : M (xkern E) A) s s' s1 : m s = Leave s1 -> ends m s s' -> s' = s1.
Proof. intros Hr [[b Hb]|Hb]; congruence. Qed.

Inductive pcall (s s' : xkern E) : Prop :=
| ks_scheduler : cur s = None -> ends scheduler s s' -> pcall s s'
| ks_fork : nextpid s < 2147483647 -> ends fork s s' -> pcall s s'
| ks_exit : initproc s <> cur s -> ends exit s s' -> pcall s s'
| ks_wait : ends wait s s' -> pcall s s'
| ks_waitsch : ends waitsch s s' -> pcall s s'
| ks_yield : ends yield s s' -> pcall s s'
| ks_sleep ch : ends (A := unit) (sleep ch) s s' -> pcall s s'
| ks_kill pid : ends (kill pid) s s' -> pcall s s'
| ks_setpriority pid pr : ends (setpriority pid pr) s s' -> pcall s s'
| ks_wakeup ch : ends (wakeup ch) s s' -> pcall s s'
(** The counters of ticks have not reached [INT_MAX]. *)
| ks_tick : (forall i p, zget (procs s) i = Some p -> no_overflow p) -> ends timer_tick s s' -> pcall s s'.
(** Or the rest of the kernel changes. *)
Inductive kstep (s s' : xkern E) : Prop :=
| k_call : pcall s s' -> kstep s s'
| k_env e : s' = with_ext e s -> kstep s s'.

(** ** Preservation *)

Lemma pt_ok_evolve_cur s f :
  pt_ok s -> (forall i p, zget (procs s) i = Some p -> keeps_proc p (f i p)) ->
  (forall i p, zget (procs s) i = Some p -> (p_state (f i p) = RUNNING <-> p_state p = RUNNING) /\
     (p_state (f i p) = SLEEPING -> p_state p = SLEEPING) /\ p_chan (f i p) = p_chan p /\
     (p_state (f i p) <> SLEEPING -> p_state (f i p) <> RUNNABLE -> p_state p <> SLEEPING /\ p_state p <> RUNNABLE)) ->
  pt_ok (tab f s).
Proof.
  intros Hok Hk Hc. apply (pt_ok_same (with_cur (cur s) (tab f s))); try done. apply pt_ok_evolve; try done.
  - intros i p Hp. destruct (Hc i p Hp) as (-> & H2 & -> & H4). split; [by apply pk_run|].
    destruct (pk_chan s Hok i p Hp) as [H5 H6]. split; [auto|]. intros H7 H8. destruct (H4 H7 H8). auto.
  - by apply pk_cur.
Qed.

Lemma pt_ok_wake s ch : pt_ok s -> pt_ok (tab (fun _ => wake ch) s).
Proof.
  intros Hok. apply pt_ok_evolve_cur; [done|..]; intros i p Hp;
    destruct (wake_same ch p) as (E1 & E2 & E3 & E4 & E5 & E6 & E7 & E8 & E9 & _).
  - split; [by rewrite E1, E8, E3|done|]. destruct E9 as [?|[? ?]]; [by left|right]. split; [by left|right; by left].
  - destruct E9 as [->|[-> ->]]; rewrite E2; naive_solver.
Qed.

Lemma pt_ok_kill s i : pt_ok s -> pt_ok (tab (at_slot i kill_proc) s).
Proof.
  intros Hok. apply pt_ok_evolve_cur; [done|..]; intros j p Hp; unfold at_slot.
  - destruct (j =? i); [|apply keeps_proc_refl]. unfold kill_proc, state_eqb. case_bool_decide as Hs; split; try done.
    + right. split; [by left|right; by left].
    + by left.
  - destruct (j =? i); [|naive_solver]. unfold kill_proc, state_eqb. case_bool_decide as Hs; cbn; [rewrite Hs|]; naive_solver.
Qed.

Lemma pt_ok_priority s i pr : pt_ok s -> pt_ok (tab (at_slot i (with_priority pr)) s).
Proof.
  intros Hok. apply pt_ok_evolve_cur; [done|..]; intros j p Hp; unfold at_slot.
  - destruct (j =? i); [|apply keeps_proc_refl]. split; try done. by left.
  - destruct (j =? i); naive_solver.
Qed.

(** The current process changes state and gives up the processor. *)
Lemma pt_ok_off s c f :
  pt_ok s -> cur s = Some c ->
  (forall p, keeps_proc p (f p) \/ p_state p <> RUNNING) ->
  (forall p, p_state p = RUNNING -> p_state (f p) = RUNNABLE \/ (p_state (f p) = SLEEPING /\ p_chan (f p) <> None)) ->
  pt_ok (with_cur None (tab (at_slot c f) s)).
Proof.
  intros Hok Hc Hk Hf. apply pt_ok_evolve; try done.
  - intros j p Hp. unfold at_slot. destruct (Z.eqb_spec j c) as [->|]; [|apply keeps_proc_refl].
    destruct (Hk p) as [?|Hn]; [done|]. destruct Hn. by apply (pk_run s Hok c p Hp).
  - intros j p Hp. unfold at_slot. destruct (Z.eqb_spec j c) as [->|Hne].
    + assert (p_state p = RUNNING) as Hr by by apply (pk_run s Hok c p Hp).
      destruct (Hf p Hr) as [->|[-> ?]]; split; try done; by split.
    + pose proof (pk_run s Hok j p Hp) as Hr. rewrite Hc in Hr. destruct (pk_chan s Hok j p Hp). split; [|done].
      rewrite Hr. split; [intros [= ->]|]; done.
Qed.

Lemma pt_ok_start s i p : pt_ok s -> cur s = None -> zget (procs s) i = Some p -> p_state p = RUNNABLE ->
  pt_ok (with_cur (Some i) (tab (at_slot i start) s)).
Proof.
  intros Hok Hc Hp Hs. apply pt_ok_evolve; try done.
  - intros j q Hq. unfold at_slot. destruct (Z.eqb_spec j i) as [->|]; [|apply keeps_proc_refl].
    assert (q = p) as -> by congruence. split; try done. right. split; [right; by left|right; by right].
  - intros j q Hq. unfold at_slot. destruct (Z.eqb_spec j i) as [->|Hne]; [by cbn|].
    destruct (pk_chan s Hok j q Hq). split; [|done]. rewrite (pk_run s Hok j q Hq), Hc. split; [done|]. by intros [= ->].
  - intros c [= <-]. apply zget_Some_range in Hp. by rewrite (pk_len s Hok) in Hp.
Qed.

(** A slot that holds no live process is given another content. *)
Lemma pt_ok_slot s i p p' n e :
  pt_ok s -> zget (procs s) i = Some p -> ~ alive (p_state p) -> nextpid s <= n -> zlen (p_ofile p') = NOFILE ->
  p_chan p' = None ->
  (p_state p' = UNUSED /\ p_parent p' = None) \/
  (p_state p' = RUNNABLE /\ (exists c, p_parent p' = Some c /\ cur s = Some c) /\ p_pid p' = nextpid s /\ nextpid s < n /\
   u32 (p_ctime p' + p_rutime p' + p_retime p' + p_sltime p') = ticks s) ->
  pt_ok (with_ext e (with_nextpid n (tab (at_slot i (fun _ => p')) s))).
Proof.
  intros Hok Hp Hdead Hn Hof Hch Hcase. pose proof Hok as [Hlen (ip & ipp & Hip & Hipp & Hipa) Hrun Hcur Hset Hpar Hpid Huniq Hchan Htime [Htick Hpos] Hofs].
  set (s' := with_ext e (with_nextpid n (tab (at_slot i (fun _ => p')) s))).
  assert (forall j q, zget (procs s') j = Some q -> (j = i /\ q = p') \/ (j <> i /\ zget (procs s) j = Some q)) as Hg.
  { intros j q Hq. destruct (tab_get (at_slot i (fun _ => p')) s j q Hq) as (q0 & Hq0 & ->). unfold at_slot.
    destruct (Z.eqb_spec j i) as [->|]; [left; done|right; done]. }
  assert (forall j q, zget (procs s) j = Some q -> alive (p_state q) -> j <> i /\ zget (procs s') j = Some q) as Hg'.
  { intros j q Hq Ha. assert (j <> i) as Hne by (intros ->; congruence). split; [done|]. cbn. rewrite timap_get, Hq. cbn.
    unfold at_slot. by rewrite (proj2 (Z.eqb_neq j i)). }
  assert (p_state p' = UNUSED \/ p_state p' = RUNNABLE) as Hst by (destruct Hcase as [[? _]|[? _]]; auto).
  assert (forall c, cur s = Some c -> exists q, zget (procs s) c = Some q /\ alive (p_state q)) as Hcura.
  { intros c Hc. destruct (zget_in_range (procs s) c) as [q Hq]; [rewrite Hlen; by apply Hcur|].
    exists q. split; [done|]. right. right. by apply (Hrun c q Hq). }
  split; cbn [initproc cur nextpid ticks with_ext with_nextpid tab with_procs s'].
  - cbn. by rewrite timap_len.
  - exists ip, ipp. split; [done|]. split; [by apply Hg'|done].
  - intros j q [[-> ->]|[Hj Hq]]%Hg; [|by apply Hrun]. split; [destruct Hst as [-> | ->]; done|].
    intros Hc. destruct (Hcura i Hc) as (q & Hq & Ha). by destruct (Hg' i q Hq Ha).
  - done.
  - intros j q [[-> ->]|[Hj Hq]]%Hg; [destruct Hst as [-> | ->]; done|by apply (Hset j)].
  - intros j q [[-> ->]|[Hj Hq]]%Hg.
    + destruct Hcase as [[Hs Hpa]|(Hs & (c & Hpa & Hc) & _)]; rewrite Hs; [done|]. split; [done|]. intros _ _.
      destruct (Hcura c Hc) as (q & Hq & Ha). exists c, q. split; [done|]. split; [by apply Hg'|done].
    + destruct (Hpar j q Hq) as [H1 H2]. split; [done|]. intros Hu Hni. destruct (H2 Hu Hni) as (k & r & E1 & E2 & E3).
      exists k, r. split; [done|]. split; [by apply Hg'|done].
  - intros j q [[-> ->]|[Hj Hq]]%Hg Hu; [destruct Hcase as [[? _]|(_ & _ & -> & ? & _)]; [done|lia]|].
    pose proof (Hpid j q Hq Hu). lia.
  - intros j k q r [[-> ->]|[Hj Hq]]%Hg [[-> ->]|[Hk Hr]]%Hg Hu1 Hu2 Epid; try done.
    + pose proof (Hpid k r Hr Hu2). destruct Hcase as [[? _]|(_ & _ & E0 & _)]; [done|lia].
    + pose proof (Hpid j q Hq Hu1). destruct Hcase as [[? _]|(_ & _ & E0 & _)]; [done|lia].
    + by eapply Huniq.
  - intros j q [[-> ->]|[Hj Hq]]%Hg; [|by apply (Hchan j)]. split; [destruct Hst as [-> | ->]; done|done].
  - intros j q [[-> ->]|[Hj Hq]]%Hg Ha; [|by apply (Htime j)].
    destruct Hcase as [[Hs _]|(_ & _ & _ & _ & Ht)]; [|done]. rewrite Hs in Ha. destruct Ha as [?|[?|?]]; done.
  - split; [done|lia].
  - intros j q [[-> ->]|[Hj Hq]]%Hg; [done|by apply (Hofs j)].
Qed.

(** [exit]. *)
Lemma pt_ok_exit s c ip p e G :
  pt_ok s -> cur s = Some c -> initproc s = Some ip -> c <> ip -> zget (procs s) c = Some p ->
  (forall i q, zget (procs s) i = Some q -> exit_slot c ip (p_parent p) i q (G i q)) ->
  pt_ok (with_cur None (with_ext e (tab G s))).
Proof.
  intros Hok Hc Hip Hne Hp HG. pose proof Hok as [Hlen (ip' & ipp & Hip' & Hipp & Hipa) Hrun Hcur Hset Hpar Hpid Huniq Hchan Htime Htick Hofs].
  rewrite Hip in Hip'. injection Hip' as <-.
  assert (p_state p = RUNNING) as Hpr by by apply (Hrun c p Hp).
  set (s' := with_cur None (with_ext e (tab G s))).
  assert (forall i q', zget (procs s') i = Some q' -> exists q, zget (procs s) i = Some q /\ exit_slot c ip (p_parent p) i q q') as Hg.
  { intros i q' Hq'. destruct (tab_get G s i q' Hq') as (q & Hq & ->). exists q. split; [done|by apply HG]. }
  assert (forall i q, zget (procs s) i = Some q -> i <> c -> alive (p_state q) ->
    exists q', zget (procs s') i = Some q' /\ alive (p_state q')) as Hg'.
  { intros i q Hq Hi Ha. exists (G i q). split; [cbn; by rewrite timap_get, Hq|].
    destruct (es_other _ _ _ _ _ _ (HG i q Hq) Hi) as [-> |[_ ->]]; [done|]. right. by left. }
  assert (forall i q q', zget (procs s) i = Some q -> exit_slot c ip (p_parent p) i q q' ->
    (p_state q' = UNUSED <-> p_state q = UNUSED) /\ (p_state q' = EMBRYO <-> p_state q = EMBRYO) /\
    (alive (p_state q') -> alive (p_state q)) /\ (p_state q' = SLEEPING -> p_state q = SLEEPING) /\
    p_state q' <> RUNNING /\ (p_state q' <> SLEEPING -> p_state q' <> RUNNABLE -> p_chan q = None)) as Hst.
  { intros i q q' Hq He. destruct (Hchan i q Hq) as [_ Hch]. unfold alive. destruct (decide (i = c)) as [->|Hi].
    - rewrite (es_self _ _ _ _ _ _ He eq_refl). assert (q = p) as -> by congruence. rewrite Hpr in *. naive_solver.
    - assert (p_state q <> RUNNING) as Hnr by (rewrite (Hrun i q Hq), Hc; congruence).
      destruct (es_other _ _ _ _ _ _ He Hi) as [-> |[-> ->]]; naive_solver. }
  split; cbn [initproc cur nextpid ticks with_ext with_cur tab with_procs s'].
  - cbn. by rewrite timap_len.
  - destruct (Hg' ip ipp Hipp ltac:(done) Hipa) as (q' & Hq' & Ha). by exists ip, q'.
  - intros i q' (q & Hq & He)%Hg. destruct (Hst i q q' Hq He) as (_ & _ & _ & _ & Hnr & _). done.
  - done.
  - intros i q' (q & Hq & He)%Hg. destruct (Hst i q q' Hq He) as (_ & -> & _). by apply (Hset i).
  - intros i q' (q & Hq & He)%Hg. destruct (Hst i q q' Hq He) as (-> & _). rewrite (es_parent _ _ _ _ _ _ He).
    destruct (Hpar i q Hq) as [H1 H2]. split; [intros Hu; rewrite (H1 Hu); by case_decide|]. intros Hu Hni.
    case_decide as Hd.
    + destruct (Hg' ip ipp Hipp ltac:(done) Hipa) as (q2 & Hq2 & Ha). by exists ip, q2.
    + destruct (H2 Hu Hni) as (j & r & E1 & E2 & E3). destruct (Hg' j r E2 ltac:(congruence) E3) as (r' & Hr' & Ha). by exists j, r'.
  - intros i q' (q & Hq & He)%Hg. destruct (Hst i q q' Hq He) as (-> & _). destruct (es_same _ _ _ _ _ _ He) as (-> & _).
    by apply (Hpid i).
  - intros i j q' r' (q & Hq & He)%Hg (r & Hr & Hf)%Hg. destruct (Hst i q q' Hq He) as (-> & _). destruct (Hst j r r' Hr Hf) as (-> & _).
    destruct (es_same _ _ _ _ _ _ He) as (-> & _), (es_same _ _ _ _ _ _ Hf) as (-> & _). by apply Huniq.
  - intros i q' (q & Hq & He)%Hg. destruct (Hst i q q' Hq He) as (_ & _ & _ & Hs & _ & Hn).
    destruct (es_same _ _ _ _ _ _ He) as (_ & -> & _). split; [|done]. intros Hs'. by apply (Hchan i q Hq), Hs.
  - intros i q' (q & Hq & He)%Hg Ha. destruct (Hst i q q' Hq He) as (_ & _ & Ha' & _).
    destruct (es_same _ _ _ _ _ _ He) as (_ & _ & _ & -> & -> & -> & ->). by apply (Htime i), Ha'.
  - done.
  - intros i q' (q & Hq & He)%Hg. apply (es_same _ _ _ _ _ _ He).
Qed.

(** A tick of the clock. *)
Lemma timer_tick_ok s :
  zlen (procs s) = NPROC -> (forall i p, zget (procs s) i = Some p -> no_overflow p) ->
  timer_tick s = Ret tt (with_ticks (u32 (ticks s + 1)) (tab (fun _ p => account (wake ChTicks p)) s)).
Proof.
  intros Hlen Hno. unfold timer_tick, wakeup. exec. set (s1 := with_ticks _ s).
  exec_by (wakeup1_ok ChTicks s1 Hlen). rewrite updatestatistics_ok.
  - rewrite tab_tab. done.
  - cbn. by rewrite timap_len.
  - intros i p' Hp'. destruct (tab_get _ s1 i p' Hp') as (p & Hp & ->). pose proof (Hno i p Hp) as Hn.
    destruct (wake_same ChTicks p) as (_ & _ & _ & _ & E1 & E2 & E3 & _). unfold no_overflow. by rewrite E1, E2, E3.
Qed.

Lemma account_fields p : p_pid (account p) = p_pid p /\ p_parent (account p) = p_parent p /\ p_chan (account p) = p_chan p /\
  p_state (account p) = p_state p /\ p_ofile (account p) = p_ofile p /\ p_ctime (account p) = p_ctime p /\
  (alive (p_state p) -> p_rutime (account p) + p_retime (account p) + p_sltime (account p)
                        = p_rutime p + p_retime p + p_sltime p + 1).
Proof.
  unfold account, alive. destruct (p_state p) eqn:Es; cbn; split_and!; try done; intros; try lia; naive_solver.
Qed.

Lemma u32_succ x y : u32 x = y -> u32 (x + 1) = u32 (y + 1).
Proof. intros <-. unfold u32. by rewrite Zplus_mod_idemp_l. Qed.

Lemma pt_ok_account s : pt_ok s -> pt_ok (with_ticks (u32 (ticks s + 1)) (tab (fun _ => account) s)).
Proof.
  intros [Hlen (ip & ipp & Hip & Hipp & Hipa) Hrun Hcur Hset Hpar Hpid Huniq Hchan Htime Htick Hofs].
  set (s' := with_ticks _ _).
  assert (forall i p', zget (procs s') i = Some p' -> exists p, zget (procs s) i = Some p /\ p' = account p) as Hg.
  { intros i p' Hp'. by destruct (tab_get (fun _ => account) s i p' Hp') as (p & Hp & ->); exists p. }
  assert (forall i p, zget (procs s) i = Some p -> zget (procs s') i = Some (account p)) as Hg'.
  { intros i p Hp. cbn. by rewrite timap_get, Hp. }
  split; cbn [initproc cur nextpid ticks with_ticks tab with_procs s'].
  - cbn. by rewrite timap_len.
  - exists ip, (account ipp). split; [done|]. split; [by apply Hg'|]. by rewrite (proj1 (proj2 (proj2 (proj2 (account_fields ipp))))).
  - intros i p' (p & Hp & ->)%Hg. rewrite (proj1 (proj2 (proj2 (proj2 (account_fields p))))). by apply Hrun.
  - done.
  - intros i p' (p & Hp & ->)%Hg. rewrite (proj1 (proj2 (proj2 (proj2 (account_fields p))))). by apply (Hset i).
  - intros i p' (p & Hp & ->)%Hg. destruct (account_fields p) as (_ & -> & _ & -> & _). destruct (Hpar i p Hp) as [H1 H2].
    split; [done|]. intros Hu Hni. destruct (H2 Hu Hni) as (j & q & E1 & E2 & E3). exists j, (account q). split; [done|].
    split; [by apply Hg'|]. by rewrite (proj1 (proj2 (proj2 (proj2 (account_fields q))))).
  - intros i p' (p & Hp & ->)%Hg. destruct (account_fields p) as (-> & _ & _ & -> & _). by apply (Hpid i).
  - intros i j p' q' (p & Hp & ->)%Hg (q & Hq & ->)%Hg. destruct (account_fields p) as (-> & _ & _ & -> & _).
    destruct (account_fields q) as (-> & _ & _ & -> & _). by apply Huniq.
  - intros i p' (p & Hp & ->)%Hg. destruct (account_fields p) as (_ & _ & -> & -> & _). by apply (Hchan i).
  - intros i p' (p & Hp & ->)%Hg Ha. destruct (account_fields p) as (_ & _ & _ & Es & _ & -> & Hsum). rewrite Es in Ha.
    specialize (Hsum Ha). rewrite <-(u32_succ _ _ (Htime i p Hp Ha)). f_equal. lia.
  - destruct Htick. split; [apply u32_range|done].
  - intros i p' (p & Hp & ->)%Hg. destruct (account_fields p) as (_ & _ & _ & _ & -> & _). by apply (Hofs i).
Qed.

Lemma pt_ok_reap s i p prio c : pt_ok s -> first_slot s (zombie_kid c) i p ->
  exists s', reap i prio s = Ret (p_pid p) s' /\ pt_ok s'.
Proof.
  intros Hok (Hp & (_ & Hz) & _). rewrite (reap_ok s i p prio Hp). eexists. split; [done|].
  set (e := freevm _ _). rewrite (tab_slot_const i p) by done.
  apply (pt_ok_same (with_ext e (with_nextpid (nextpid s) (tab (at_slot i (fun _ => reaped prio p)) s)))); try done.
  apply (pt_ok_slot s i p); try done; [rewrite Hz; unfold alive; naive_solver| | |].
  - destruct prio; by apply (pk_ofile s Hok i p).
  - destruct (pk_chan s Hok i p Hp) as [_ Hch]. rewrite Hz in Hch. destruct prio; by apply Hch.
  - left. by destruct prio.
Qed.

Lemma pt_cur s c : pt_ok s -> cur s = Some c -> exists p, zget (procs s) c = Some p /\ p_state p = RUNNING.
Proof.
  intros Hok Hc. destruct (zget_in_range (procs s) c) as [p Hp]; [rewrite (pk_len s Hok); by apply (pk_cur s Hok)|].
  exists p. split; [done|]. by apply (pk_run s Hok c p Hp).
Qed.

Lemma pt_ok_sleep s c ch : pt_ok s -> cur s = Some c -> pt_ok (with_cur None (tab (at_slot c (asleep ch)) s)).
Proof.
  intros Hok Hc. apply pt_ok_off; [done|done| |intros p _; by right].
  intros p. destruct (decide (p_state p = RUNNING)) as [Hr|]; [left|by right]. split; try done. right. rewrite Hr.
  split; [right; by right|by left].
Qed.

(** [wait] and [waitsch], up to what they report. *)
Lemma wait_ends s c : pt_ok s -> cur s = Some c ->
  (exists i p, first_slot s (zombie_kid c) i p /\ wait s = reap i true s /\
     exists me, zget (procs s) c = Some me /\
       waitsch s = (pid ← reap i false; mret (pid, Some (p_rutime me, p_retime me, p_sltime me, p_priority me)))
                     (with_out (out s ++ [p_priority me]) s)) \/
  ((forall i p, zget (procs s) i = Some p -> ~ zombie_kid c p) /\
   exists me b, zget (procs s) c = Some me /\ (b = true <-> exists i p, zget (procs s) i = Some p /\ is_kid c p) /\
     if negb b || negb (p_killed me =? 0) then wait s = Ret (-1) s /\ waitsch s = Ret (-1, None) s
     else wait s = Leave (with_cur None (tab (at_slot c (asleep (ChProc c))) s)) /\
          waitsch s = Leave (with_cur None (tab (at_slot c (asleep (ChProc c))) s))).
Proof.
  intros Hok Hc. destruct (pt_cur s c Hok Hc) as (me & Hme & _).
  assert (myproc s = Ret c s) as Hm by (unfold myproc; exec; by rewrite Hc).
  destruct (wait_scan_ok s c (pk_len s Hok)) as [(i & p & Hi & Hr)|(Hno & b & Hr & Hb)].
  - left. exists i, p. split; [done|]. split.
    + unfold wait. exec_by Hm. by exec_by Hr.
    + exists me. split; [done|]. unfold waitsch. exec_by Hm. exec_by Hr. exec_by (get_proc_ok s c me Hme). by exec.
  - right. split; [done|]. exists me, b. split; [done|]. split; [done|].
    unfold wait, waitsch. exec_by Hm. exec_by Hr. exec_by (get_proc_ok s c me Hme). exec_by Hm. exec_by Hr.
    exec_by (get_proc_ok s c me Hme). destruct (negb b || negb (p_killed me =? 0)); [done|].
    by rewrite !(sleep_ok s c me).
Qed.

Lemma pt_ok_fork s s' : pt_ok s -> nextpid s < 2147483647 -> ends fork s s' -> pt_ok s'.
Proof.
  intros Hok Hpid He. destruct (cur s) as [c|] eqn:Hc; cycle 1.
  { exfalso. revert He. unfold fork, myproc. intros He. unfold ends in He. rewrite exec_bind, exec_get, Hc in He.
    destruct He as [[a Ha]|Ha]; done. }
  destruct (pt_cur s c Hok Hc) as (cp & Hcp & Hrun).
  destruct (fork_ok s c cp) as [(s1 & Hr & i & f & n & e & Hs1 & Hn & Hf)|(i & p & q' & e & Hi & Hch & _ & Hr)];
    try done; [by apply (pk_len s)|by rewrite Hrun|by apply (pk_ofile s Hok c)|by apply (pk_ofile s Hok)|..].
  - rewrite (ends_ret _ _ _ _ _ Hr He). destruct Hs1 as [->|[-> _]]; [done|].
    destruct (zget (procs s) i) as [p|] eqn:Hp.
    + destruct (Hf p eq_refl) as [Hu Hpo].
      rewrite (tab_slot_const i p) by done. destruct (pk_chan s Hok i p Hp) as [_ Hchn]. rewrite Hu in Hchn.
      destruct (pk_parent s Hok i p Hp) as [Hpa _]. pose proof (pk_ofile s Hok i p Hp) as Hof.
      apply (pt_ok_slot s i p); try done; [rewrite Hu; unfold alive; naive_solver| | |left].
      * destruct Hpo as [->|(ks & [->|(t & ->)])]; done.
      * destruct Hpo as [->|(ks & [->|(t & ->)])]; by apply Hchn.
      * destruct Hpo as [->|(ks & [->|(t & ->)])]; (split; [done|by apply Hpa]).
    + apply (pt_ok_same (with_nextpid n s)); try done.
      * cbn. rewrite (timap_ext _ (fun _ q => q)), timap_id; [done|]. intros j q Hq. unfold at_slot.
        destruct (Z.eqb_spec j i) as [->|]; [congruence|done].
      * destruct Hok as [? ? ? ? ? ? Hpids ? ? ? [? ?] ?]. split; try done; cbn; [|split; [done|lia]].
        intros j q Hq Hu. pose proof (Hpids j q Hq Hu). lia.
  - rewrite (ends_ret _ _ _ _ _ Hr He). destruct Hi as (Hp & Hu & _). destruct Hch as [(C1 & C2 & C3) _ (C4 & C5 & C6 & C7) (_ & C8) C9].
    apply (pt_ok_slot s i p); try done; [unfold is_unused in Hu; rewrite Hu; unfold alive; naive_solver|lia| |right].
    + rewrite C8. destruct (pk_chan s Hok i p Hp) as [_ Hchn]. unfold is_unused in Hu. rewrite Hu in Hchn. by apply Hchn.
    + split; [done|]. split; [by exists c|]. split; [done|]. split; [lia|]. rewrite C4, C5, C6, C7, !Z.add_0_r.
      destruct (pk_ticks s Hok) as [Ht _]. unfold s32, u32, is_u32 in *. case_match; zlia.
Qed.

Lemma kstep_ok s s' : pt_ok s -> kstep s s' -> pt_ok s'.
Proof.
  intros Hok Hstep.
  assert (forall A (k : Z -> M (xkern E) A), ends (myproc ≫= k) s s' -> exists c, cur s = Some c) as Hcur.
  { intros A k He. unfold ends, myproc in He. rewrite exec_bind, exec_get in He. destruct (cur s) as [c|]; [by exists c|].
    destruct He as [[a Ha]|Ha]; done. }
  destruct Hstep as [[Hn He|Hn He|Hn He|He|He|He|ch He|pid He|pid pr He|ch He|Hn He]|e ->].
  - destruct (scheduler_ok s (pk_len s Hok)) as (ch & Hb & Hr). destruct ch as [[i p]|].
    + rewrite (ends_ret _ _ _ _ _ Hr He). destruct Hb as (_ & Hp & Hs & _). by eapply pt_ok_start.
    + rewrite (ends_ret _ _ _ _ _ Hr He). by apply (pt_ok_same s).
  - by eapply pt_ok_fork.
  - destruct (Hcur _ _ He) as [c Hc]. destruct (pt_cur s c Hok Hc) as (p & Hp & Hrun).
    destruct (pk_init s Hok) as (ip & ipp & Hip & _).
    destruct (exit_ok s c ip p) as (e & G & Hr & _ & HG); try done; [by apply pk_len|congruence|by apply (pk_ofile s)|].
    rewrite (ends_leave _ _ _ _ Hr He). eapply pt_ok_exit; [done..|congruence|done|done].
  - destruct (Hcur _ _ He) as [c Hc]. destruct (wait_ends s c Hok Hc) as [(i & p & Hi & Hr & _)|(_ & me & b & _ & _ & Hr)].
    + destruct (pt_ok_reap s i p true c Hok Hi) as (s1 & Hr1 & Hok1). rewrite Hr1 in Hr. by rewrite (ends_ret _ _ _ _ _ Hr He).
    + destruct (_ || _); destruct Hr as [Hr _]; [by rewrite (ends_ret _ _ _ _ _ Hr He)|].
      rewrite (ends_leave _ _ _ _ Hr He). by apply pt_ok_sleep.
  - destruct (Hcur _ _ He) as [c Hc]. destruct (wait_ends s c Hok Hc) as [(i & p & Hi & _ & me & _ & Hr)|(_ & me & b & _ & _ & Hr)].
    + assert (pt_ok (with_out (out s ++ [p_priority me]) s)) as Hok1 by by apply (pt_ok_same s).
      destruct (pt_ok_reap _ i p false c Hok1 Hi) as (s1 & Hr1 & Hok2). unfold mbind, M_bind in Hr. rewrite Hr1 in Hr.
      by rewrite (ends_ret _ _ _ _ _ Hr He).
    + destruct (_ || _); destruct Hr as [_ Hr]; [by rewrite (ends_ret _ _ _ _ _ Hr He)|].
      rewrite (ends_leave _ _ _ _ Hr He). by apply pt_ok_sleep.
  - destruct (Hcur _ _ He) as [c Hc]. destruct (pt_cur s c Hok Hc) as (p & Hp & Hrun).
    rewrite (ends_leave _ _ _ _ (yield_ok s c p Hc Hp) He). apply pt_ok_off; [done|done| |intros q _; by left].
    intros q. destruct (decide (p_state q = RUNNING)) as [Hq|]; [left|by right]. split; try done. right. rewrite Hq.
    split; [right; by right|right; by left].
  - destruct (cur s) as [c|] eqn:Hc.
    + destruct (pt_cur s c Hok Hc) as (p & Hp & Hrun). rewrite (ends_leave _ _ _ _ (sleep_ok s c p ch Hc Hp) He).
      by apply pt_ok_sleep.
    + unfold sleep in He. destruct He as [[a Ha]|Ha]; rewrite exec_get, Hc in Ha; done.
  - destruct (kill_ok s pid (pk_len s Hok)) as [(i & p & _ & Hr)|[_ Hr]]; rewrite (ends_ret _ _ _ _ _ Hr He); [|done].
    by apply pt_ok_kill.
  - destruct (setpriority_ok s pid pr (pk_len s Hok)) as [(i & p & _ & Hr)|[_ Hr]]; rewrite (ends_ret _ _ _ _ _ Hr He); [|done].
    by apply pt_ok_priority.
  - rewrite (ends_ret _ _ _ _ _ (wakeup1_ok ch s (pk_len s Hok)) He). by apply pt_ok_wake.
  - rewrite (ends_ret _ _ _ _ _ (timer_tick_ok s (pk_len s Hok) Hn) He).
    change (tab (fun _ p => account (wake ChTicks p)) s) with (tab (fun i p => (fun _ => account) i ((fun _ => wake ChTicks) i p)) s).
    rewrite <-tab_tab. change (ticks s) with (ticks (tab (fun _ => wake ChTicks) s)) at 1.
    apply pt_ok_account. by apply pt_ok_wake.
  - by apply (pt_ok_same s).
Qed.

(** ** Boot *)

Definition zero_proc : proc := MkProc 0 0 0 UNUSED 0 None zero_context_tf None 0 (replicate 16 0) 0 "" 0 0 0 0 0.
Definition boot_kern (e : E) : xkern E := MkKern (replicate 64 zero_proc) None None 1 0 [] e.

Lemma boot_slot e i p : zget (procs (boot_kern e)) i = Some p -> p = zero_proc.
Proof. by intros [Hp _]%zget_elem%elem_of_replicate. Qed.

Lemma xkern_eq s s' : procs s = procs s' -> cur s = cur s' -> initproc s = initproc s' -> nextpid s = nextpid s' ->
  ticks s = ticks s' -> out s = out s' -> ext s = ext s' -> s = s'.
Proof. destruct s, s'. cbn. by intros -> -> -> -> -> -> ->. Qed.

(** What [userinit] does to the memory of the kernel; there must be enough. *)
Definition init_memory (e : E) (p : proc) (e' : E) : Prop :=
  exists e1 e2, kalloc e = (Some (p_kstack p), e1) /\ setupkvm e1 = (Some (p_pgdir p), e2) /\
    e' = snd (namei "/" (inituvm (p_pgdir p) e2)) /\ p_sz p = XPGSIZE.
Definition init_fails (e : E) : Prop :=
  (exists e1, kalloc e = (None, e1)) \/ exists ks e1 e2, kalloc e = (Some ks, e1) /\ setupkvm e1 = (None, e2).

Lemma userinit_table s0 :
  (forall i p, zget (procs s0) i = Some p -> p = zero_proc) -> zlen (procs s0) = NPROC -> nextpid s0 = 1 -> ticks s0 = 0 ->
  ((forall s, userinit s0 <> Ret tt s) /\ init_fails (ext s0)) \/
  exists e' p, userinit s0 = Ret tt (with_ext e' (with_initproc (Some 0) (with_nextpid 2 (tab (at_slot 0 (fun _ => p)) s0)))) /\
    init_memory (ext s0) p e' /\ p_state p = RUNNABLE /\ p_pid p = 1 /\ p_chan p = None /\ zlen (p_ofile p) = NOFILE /\
    p_ctime p = 0 /\ p_rutime p = 0 /\ p_retime p = 0 /\ p_sltime p = 0.
Proof.
  intros Hz Hlen Hnp Htk. assert (zget (procs s0) 0 = Some zero_proc) as Hp0.
  { destruct (zget_in_range (procs s0) 0) as [p Hp]; [rewrite Hlen; done|]. by rewrite (Hz 0 p Hp) in Hp. }
  unfold userinit.
  destruct (allocproc_ok s0 Hlen ltac:(lia)) as [[_ Hno]|(i & p & (Hp & _ & Hf) & Hr)].
  { by destruct (Hno 0 zero_proc Hp0). }
  assert (i = 0) as ->.
  { destruct (Z.le_gt_cases i 0) as [|Hi]; [apply zget_Some_range in Hp; lia|]. by destruct (Hf 0 zero_proc Hi Hp0). }
  assert (p = zero_proc) as -> by congruence. destruct (kalloc (ext s0)) as [[ks|] e1] eqn:Ek.
  2: { left. split; [|left; by exists e1]. unfold mbind, M_bind. rewrite Hr. cbn. done. }
  exec_by Hr. exec. cbn [deref]. exec. set (f1 := fresh ks _ _). set (s1 := with_initproc (Some 0) _).
  assert (zget (procs s1) 0 = Some (f1 zero_proc)) as Hp1 by (apply (tab_slot_get 0 f1 (with_ext e1 (with_nextpid (nextpid s0 + 1) s0))), Hp0). exec_by (ext_get_ok setupkvm s1).
  destruct (setupkvm (ext s1)) as [[pd|] e2] eqn:Es; cbn [fst snd]; exec; [|left; split; [done|right; by exists ks, e1, e2]].
  set (s2 := with_ext e2 s1). exec_by (upd_proc_ok s2 0 _ (with_pgdir pd) Hp1). unfold ext_do, ext_get. exec.
  set (s3 := with_ext _ _). pose proof (tab_slot_get 0 (with_pgdir pd) s2 _ Hp1 : zget (procs s3) 0 = _) as Hp3.
  exec_by (upd_proc_ok s3 0 _ (with_sz XPGSIZE) Hp3). pose proof (tab_slot_get 0 (with_sz XPGSIZE) s3 _ Hp3) as Hp4.
  set (tf := MkXtf _ _ _ _ _ _ _ _ _). exec_by (upd_proc_ok _ 0 _ (with_tf tf) Hp4). rewrite tab_slot2.
  pose proof (tab_slot_get 0 (fun p => with_tf tf (with_sz XPGSIZE p)) s3 _ Hp3) as Hp5.
  exec_by (upd_proc_ok _ 0 _ (with_name "initcode") Hp5). rewrite tab_slot2. exec. set (s4 := with_ext _ _).
  pose proof (tab_slot_get 0 (fun p => with_name "initcode" (with_tf tf (with_sz XPGSIZE p))) s3 _ Hp3 : zget (procs s4) 0 = _) as Hp6.
  set (cw := fst _). exec_by (upd_proc_ok s4 0 _ (with_cwd cw) Hp6).
  pose proof (tab_slot_get 0 (with_cwd cw) s4 _ Hp6) as Hp7. rewrite (upd_proc_ok _ 0 _ (with_state RUNNABLE) Hp7), tab_slot2.
  right. exists (ext s4), (with_state RUNNABLE (with_cwd cw (with_name "initcode" (with_tf tf (with_sz XPGSIZE (with_pgdir pd (f1 zero_proc))))))).
  split; [|split; [by exists e1, e2|cbn; rewrite Hnp, Htk; by split_and!]].
  unfold mret, M_ret. f_equal. apply xkern_eq; try reflexivity; [|cbn; lia]. cbn [procs tab with_procs with_ext with_initproc with_nextpid s4 s3 s2 s1].
  rewrite !timap_comp. apply timap_ext. intros i p ->%Hz. unfold at_slot. destruct (i =? 0); reflexivity.
Qed.

Lemma userinit_ok e s : userinit (boot_kern e) = Ret tt s -> pt_ok s.
Proof.
  intros Hrun. destruct (userinit_table (boot_kern e)) as [[Hno _]|(e' & p & Hrun' & _ & Hs & Hpid & Hch & Hof & Ht1 & Ht2 & Ht3 & Ht4)];
    [by apply boot_slot|done..|by destruct (Hno s)|]. rewrite Hrun' in Hrun. injection Hrun as <-. clear Hrun'.
  set (s := with_ext _ _). assert (zget (procs s) 0 = Some p) as Hp0 by done.
  assert (forall i q, zget (procs s) i = Some q -> (i = 0 /\ q = p) \/ (i <> 0 /\ q = zero_proc)) as Hg.
  { intros i q Hq. destruct (tab_get (at_slot 0 (fun _ => p)) (boot_kern e) i q Hq) as (q0 & ->%boot_slot & ->).
    unfold at_slot. destruct (Z.eqb_spec i 0); auto. }
  split; cbn [initproc cur nextpid ticks s with_ext with_initproc with_nextpid tab with_procs boot_kern].
  - done.
  - exists 0, p. split; [done|]. split; [done|]. rewrite Hs. right. by left.
  - intros i q [[-> ->]|[Hi ->]]%Hg; [rewrite Hs|]; split; done.
  - done.
  - intros i q [[-> ->]|[Hi ->]]%Hg; [by rewrite Hs|done].
  - intros i q [[-> ->]|[Hi ->]]%Hg; [rewrite Hs|]; split; done.
  - intros i q [[-> ->]|[Hi ->]]%Hg; [by rewrite Hpid|done].
  - intros i j q r [[-> ->]|[Hi ->]]%Hg [[-> ->]|[Hj ->]]%Hg; done.
  - intros i q [[-> ->]|[Hi ->]]%Hg; [by rewrite Hs, Hch|done].
  - intros i q [[-> ->]|[Hi ->]]%Hg Ha; [by rewrite Ht1, Ht2, Ht3, Ht4|]. destruct Ha as [?|[?|?]]; done.
  - split; [unfold is_u32; lia|lia].
  - intros i q [[-> ->]|[Hi ->]]%Hg; [done|by cbn].
Qed.

(** ** The properties *)


(** C15. [scheduler] runs a ready process of the highest priority, among these one of
    the earliest creation time, among these the first of the table; it becomes the only running
    process and nothing else changes.  It runs none only when none is ready. *)
Theorem scheduler_runs_best s :
  pt_ok s -> cur s = None ->
  (exists i p, zget (procs s) i = Some p /\ p_state p = RUNNABLE /\
     (forall j q, zget (procs s) j = Some q -> p_state q = RUNNABLE -> beats i p j q) /\
     scheduler s = Ret (Some i) (with_cur (Some i) (tab (at_slot i start) s))) \/
  ((forall j q, zget (procs s) j = Some q -> p_state q <> RUNNABLE) /\ scheduler s = Ret None s).
Proof.
  intros Hok Hc. pose proof (pk_len s Hok) as Hlen. destruct (scheduler_ok s Hlen) as (ch & Hb & Hr).
  assert (forall j q, zget (procs s) j = Some q -> j < NPROC) as Hj by (intros j q Hq%zget_Some_range; lia).
  destruct ch as [[i p]|]; [left|right].
  - destruct Hb as (_ & Hp & Hs & Hmax). exists i, p. split_and!; try done. intros j q Hq. apply Hmax; [by eapply Hj|done].
  - split; [intros j q Hq; by apply (Hb j q (Hj j q Hq))|]. rewrite Hr. by destruct s; cbn in Hc; subst.
Qed.

(** [yield] does not let others run: a process that comes first in the
    scheduler's order among the ready ones is chosen again at once, however often it
    yields; processes of lower priority, or of the same priority but created later, wait
    for as long as it is ready. *)
Theorem yield_reschedules_the_best s c p :
  pt_ok s -> cur s = Some c -> zget (procs s) c = Some p ->
  (forall j q, zget (procs s) j = Some q -> p_state q = RUNNABLE -> beats c p j q) ->
  exists s1 s2, yield s = Leave s1 /\ scheduler s1 = Ret (Some c) s2 /\ cur s2 = Some c /\
    zget (procs s2) c = Some p /\ forall j, j <> c -> zget (procs s2) j = zget (procs s) j.
Proof.
  intros Hok Hc Hp Hmax. pose proof (pk_len s Hok) as Hlen. eexists. rewrite (yield_ok s c p Hc Hp).
  set (s1 := with_cur None _). destruct (scheduler_ok s1) as (ch & Hb & Hr); [cbn; by rewrite timap_len|].
  pose proof (tab_slot_get c (with_state RUNNABLE) s p Hp : zget (procs s1) c = _) as Hp1.
  assert (c < NPROC) as Hcr by (apply zget_Some_range in Hp; lia).
  assert (ch = Some (c, with_state RUNNABLE p)) as ->.
  { destruct ch as [[i q]|]; [|by destruct (Hb c _ Hcr Hp1)]. destruct Hb as (_ & Hq & Hs & Hbest).
    pose proof (Hbest c _ Hcr Hp1 eq_refl) as Hq1. destruct (decide (i = c)) as [->|Hne]; [congruence|].
    exfalso. destruct (tab_get (at_slot c (with_state RUNNABLE)) s i q Hq) as (q0 & Hq0 & ->).
    unfold at_slot in *. rewrite (proj2 (Z.eqb_neq i c)) in * by done. pose proof (Hmax i q0 Hq0 Hs) as Hq2.
    unfold beats in *. cbn in *. lia. }
  eexists. split; [done|]. split; [exact Hr|]. split; [done|].
  assert (p_state p = RUNNING) as Hrun by by apply (pk_run s Hok c p Hp).
  pose proof (proj2 (pk_chan s Hok c p Hp)) as Hch. rewrite Hrun in Hch.
  split.
  - cbn. rewrite !timap_get, Hp. cbn. unfold at_slot. rewrite Z.eqb_refl. unfold start. cbn.
    rewrite <-(Hch ltac:(done) ltac:(done)), <-Hrun. by destruct p.
  - intros j Hj. cbn. rewrite !timap_get. unfold at_slot. rewrite (proj2 (Z.eqb_neq j c)) by done.
    by destruct (zget (procs s) j).
Qed.

(** C14. No exit goes unnoticed: when a process whose parent sleeps in [wait] exits, the parent
    becomes ready (the wakeup is not lost) and the processor is given up; and when the parent runs again, [wait] does not sleep
    but returns the identifier of a child that has exited and frees its slot. *)
Theorem exit_wakes_parent_and_wait_reaps s c p pa q :
  pt_ok s -> cur s = Some c -> initproc s <> Some c -> zget (procs s) c = Some p ->
  p_parent p = Some pa -> pa <> c -> zget (procs s) pa = Some q ->
  p_state q = SLEEPING -> p_chan q = Some (ChProc pa) ->
  exists s1 q1, exit s = Leave s1 /\ cur s1 = None /\ zget (procs s1) pa = Some q1 /\ p_state q1 = RUNNABLE /\
    exists i r s3, let s2 := with_cur (Some pa) (tab (at_slot pa start) s1) in
      first_slot s2 (zombie_kid pa) i r /\ wait s2 = Ret (p_pid r) s3 /\ 0 < p_pid r /\
      zget (procs s3) i = Some (reaped true r).
Proof.
  intros Hok Hc Hni Hp Hpa Hne Hq Hqs Hqc. destruct (pk_init s Hok) as (ip & ipp & Hip & _).
  assert (p_state p = RUNNING) as Hrun by by apply (pk_run s Hok c p Hp).
  destruct (exit_ok s c ip p) as (e & G & Hr & _ & HG); try done; [by apply pk_len|congruence|by apply (pk_ofile s Hok)|].
  set (s1 := with_cur None (with_ext e (tab G s))) in *.
  assert (pt_ok s1) as Hok1 by (eapply pt_ok_exit; [done..|congruence|done|done]).
  assert (zget (procs s1) pa = Some (G pa q)) as Hq1 by (cbn; by rewrite timap_get, Hq).
  assert (zget (procs s1) c = Some (G c p)) as Hp1 by (cbn; by rewrite timap_get, Hp).
  assert (p_state (G pa q) = RUNNABLE) as Hq1s.
  { apply (es_wake _ _ _ _ _ _ (HG pa q Hq) Hne Hqs). exists pa. by rewrite Hpa, Hqc. }
  exists s1, (G pa q). split; [done|]. split; [done|]. split; [done|]. split; [done|].
  set (s2 := with_cur (Some pa) (tab (at_slot pa start) s1)).
  assert (pt_ok s2) as Hok2 by (by eapply pt_ok_start).
  assert (zget (procs s2) c = Some (G c p)) as Hp2.
  { cbn. rewrite timap_get. cbn in Hp1. rewrite Hp1. cbn. unfold at_slot. by rewrite (proj2 (Z.eqb_neq c pa)). }
  assert (zombie_kid pa (G c p)) as Hz.
  { split; [|by apply (es_self _ _ _ _ _ _ (HG c p Hp))]. rewrite (es_parent _ _ _ _ _ _ (HG c p Hp)), Hpa.
    rewrite decide_False; [done|congruence]. }
  destruct (wait_ends s2 pa Hok2 eq_refl) as [(i & r & Hi & Hw & _)|[Hno _]]; [|by destruct (Hno c _ Hp2)].
  pose proof Hi as (Hri & [_ Hrz] & _). rewrite (reap_ok s2 i r true Hri) in Hw. exists i, r. eexists.
  split; [done|]. split; [exact Hw|]. split; [apply (pk_pid s2 Hok2 i r Hri); by rewrite Hrz|].
  by apply (tab_slot_get i (reaped true) (with_ext _ s2)).
Qed.

(** Whether [c] has a child. *)
Definition has_kid (s : xkern E) (c : Z) : bool := existsb (fun p => bool_decide (p_parent p = Some c)) (procs s).

Lemma has_kid_spec s c : has_kid s c = true <-> exists i p, zget (procs s) i = Some p /\ is_kid c p.
Proof.
  unfold has_kid. rewrite existsb_exists. split.
  - intros (p & Hin%list_elem_of_In%elem_zget & Hk%bool_decide_eq_true). destruct Hin as [i Hi]. by exists i, p.
  - intros (i & p & Hp%zget_elem & Hk). exists p. rewrite <-list_elem_of_In. split; [done|]. by apply bool_decide_eq_true.
Qed.

(** [wait], on every branch: it returns the identifier of the first zombie child and
    frees its slot, and only its slot; without a zombie child it sleeps on the caller's own address if the caller
    has a child and was not killed, and returns -1 otherwise. *)
Theorem wait_correct s c me :
  pt_ok s -> cur s = Some c -> zget (procs s) c = Some me ->
  (exists i p s', first_slot s (zombie_kid c) i p /\ wait s = Ret (p_pid p) s' /\ pt_ok s' /\
     zget (procs s') i = Some (reaped true p) /\ forall j, j <> i -> zget (procs s') j = zget (procs s) j) \/
  ((forall i p, zget (procs s) i = Some p -> ~ zombie_kid c p) /\
   wait s = if (p_killed me =? 0) && has_kid s c
            then Leave (with_cur None (tab (at_slot c (asleep (ChProc c))) s))
            else Ret (-1) s).
Proof.
  intros Hok Hc Hme. destruct (wait_ends s c Hok Hc) as [(i & p & Hi & Hw & _)|(Hno & me' & b & Hme' & Hb & Hw)].
  - left. destruct (pt_ok_reap s i p true c Hok Hi) as (s' & Hr & Hok'). rewrite Hr in Hw. exists i, p, s'.
    split; [done|]. split; [done|]. split; [done|]. destruct Hi as (Hp & _). rewrite (reap_ok s i p true Hp) in Hr.
    injection Hr as <-. split; [by apply (tab_slot_get i (reaped true) (with_ext _ s))|]. intros j Hj. cbn. rewrite timap_get.
    unfold at_slot. rewrite (proj2 (Z.eqb_neq j i)) by done. by destruct (zget (procs s) j).
  - right. split; [done|]. assert (me' = me) as -> by congruence. rewrite <-has_kid_spec in Hb.
    assert (b = has_kid s c) as -> by (by apply eq_true_iff_eq).
    destruct (has_kid s c), (p_killed me =? 0); cbn in Hw; by destruct Hw.
Qed.

(** [waitsch] does not report the times and the priority of the child it reaps, but
    those of the caller: with a zombie child, the values it stores are the caller's [rutime], [retime],
    [sltime] and [priority], whatever the child's are. *)
Theorem waitsch_reports_the_caller s c me i p :
  pt_ok s -> cur s = Some c -> zget (procs s) c = Some me -> first_slot s (zombie_kid c) i p ->
  exists s', waitsch s = Ret (p_pid p, Some (p_rutime me, p_retime me, p_sltime me, p_priority me)) s' /\
    out s' = out s ++ [p_priority me].
Proof.
  intros Hok Hc Hme Hi. destruct (wait_ends s c Hok Hc) as [(j & q & Hj & _ & me' & Hme' & Hw)|[Hno _]].
  - assert (me' = me) as -> by congruence. assert (j = i) as ->.
    { destruct (Z.lt_trichotomy j i) as [Hlt|[->|Hlt]]; [|done|]; exfalso.
      - by apply (proj2 (proj2 Hi) j q Hlt); apply Hj.
      - by apply (proj2 (proj2 Hj) i p Hlt); apply Hi. }
    destruct Hi as (Hp & _). set (s1 := with_out _ s) in Hw. unfold mbind, M_bind in Hw. rewrite (reap_ok s1 i p false Hp) in Hw.
    eexists. split; [exact Hw|done].
  - destruct Hi as (Hp & Hz & _). by destruct (Hno i p Hp).
Qed.

(** [kill(0)] is accepted whenever a slot is free, since free slots have identifier 0; and nothing resets
    [killed] when the slot is used again, so the next child that [fork] creates there is born
    killed: it will exit at its first trap. *)
Theorem kill_zero_kills_the_next_child s c i p :
  pt_ok s -> cur s = Some c -> nextpid s < 2147483647 -> first_slot s is_unused i p -> p_pid p = 0 ->
  exists s1, kill 0 s = Ret 0 s1 /\
    forall s2, fork s1 = Ret (nextpid s) s2 ->
      exists q, zget (procs s2) i = Some q /\ p_state q = RUNNABLE /\ p_pid q = nextpid s /\ p_killed q = 1.
Proof.
  intros Hok Hc Hn Hi Hp0. pose proof Hi as (Hp & Hu & Hf). destruct (kill_ok s 0 (pk_len s Hok)) as [(j & q & Hj & Hr)|[Hno _]].
  2: { by destruct (Hno i p Hp). }
  assert (j = i) as ->.
  { destruct Hj as (Hq & Hq0 & Hfj). destruct (Z.lt_trichotomy j i) as [Hlt|[->|Hlt]]; [|done|]; exfalso.
    - pose proof (Hf j q Hlt Hq) as Hqu. pose proof (pk_pid s Hok j q Hq Hqu). lia.
    - by apply (Hfj i p Hlt Hp). }
  assert (q = p) as -> by (destruct Hj as (Hq & _); congruence).
  set (s1 := tab (at_slot i kill_proc) s). exists s1. split; [done|]. intros s2 Hfork.
  assert (pt_ok s1) as Hok1 by by apply pt_ok_kill. destruct (pt_cur s1 c Hok1 Hc) as (cp & Hcp & Hrun).
  assert (zget (procs s1) i = Some (kill_proc p)) as Hp1 by by apply tab_slot_get.
  assert (p_state (kill_proc p) = UNUSED /\ p_killed (kill_proc p) = 1) as [Hk1 Hk2].
  { unfold kill_proc, state_eqb, is_unused in *. by rewrite Hu. }
  destruct (fork_ok s1 c cp (pk_len s1 Hok1) Hn Hc Hcp ltac:(by rewrite Hrun) (pk_ofile s1 Hok1 c cp Hcp) (pk_ofile s1 Hok1))
    as [(s3 & Hr3 & _)|(k & r & q' & e & Hk & Hch & _ & Hr3)].
  { rewrite Hr3 in Hfork. pose proof (pk_ticks s Hok) as [_ ?]. injection Hfork. lia. }
  rewrite Hr3 in Hfork. injection Hfork as <-. assert (k = i) as ->.
  { destruct Hk as (Hrk & Hru & Hfk). destruct (Z.lt_trichotomy k i) as [Hlt|[->|Hlt]]; [|done|]; exfalso.
    - destruct (tab_get (at_slot i kill_proc) s k r Hrk) as (r0 & Hr0 & ->). unfold at_slot in Hru.
      rewrite (proj2 (Z.eqb_neq k i)) in Hru by lia. by apply (Hf k r0 Hlt Hr0).
    - by apply (Hfk i _ Hlt Hp1). }
  assert (r = kill_proc p) as -> by (destruct Hk as (Hrk & _); congruence).
  destruct Hch as [(C1 & C2 & _) _ _ [C3 _] _]. exists q'. split; [by apply (tab_slot_get i (fun _ => q') s1 _ Hp1)|].
  rewrite C1, C2, C3. done.
Qed.
End Thm.

(** ** Witnesses

    The rest of the kernel is a counter of free pages; page tables and files do nothing. *)
#[export] Instance page_counter : KernOps Z := {
  kalloc e := if 0 <? e then (Some (4096 * e), e - 1) else (None, e);
  kfree _ e := e + 1;
  setupkvm e := if 0 <? e then (Some (4096 * e), e - 1) else (None, e);
  inituvm _ e := e;
  copyuvm _ _ e := if 0 <? e then (Some (4096 * e), e - 1) else (None, e);
  allocuvm _ _ n e := (Some n, e);
  deallocuvm _ _ n e := (Some n, e);
  freevm _ e := e + 1;
  filedup f e := (f, e);
  fileclose _ e := e;
  idup f e := (f, e);
  iput _ e := e;
  namei _ e := (1, e)
}.

(** The state after running a computation. *)
Definition after {A} (m : M (xkern Z) A) (s : xkern Z) : xkern Z :=
  match m s with Ret _ s' | Leave s' => s' | _ => s end.

(** The first process has been started ([ex_run]); it has forked one child
    ([ex_forked]); it sleeps in [wait] and the child runs ([ex_child]). *)
Definition ex_boot : xkern Z := Eval vm_compute in after userinit (boot_kern 10).
Definition ex_run : xkern Z := Eval vm_compute in after scheduler ex_boot.
Definition ex_forked : xkern Z := Eval vm_compute in after fork ex_run.
Definition ex_child : xkern Z := Eval vm_compute in after scheduler (after wait ex_forked).
(** The child has exited and the first process runs again. *)
Definition ex_back : xkern Z := Eval vm_compute in after scheduler (after exit ex_child).

Lemma ex_userinit : userinit (boot_kern 10) = Ret tt ex_boot.
Proof. vm_compute. reflexivity. Qed.
Lemma ex_boot_ok : pt_ok ex_boot.
Proof. apply (userinit_ok 10), ex_userinit. Qed.
Lemma ex_run_ok : pt_ok ex_run.
Proof. apply (kstep_ok ex_boot _ ex_boot_ok). apply k_call, ks_scheduler; [reflexivity|left; exists (Some 0); vm_compute; reflexivity]. Qed.
Lemma ex_forked_ok : pt_ok ex_forked.
Proof. apply (kstep_ok ex_run _ ex_run_ok). apply k_call, ks_fork; [reflexivity|left; exists 2; vm_compute; reflexivity]. Qed.
Lemma ex_child_ok : pt_ok ex_child.
Proof.
  apply (kstep_ok (after wait ex_forked)).
  - apply (kstep_ok ex_forked _ ex_forked_ok). apply k_call, ks_wait. right. vm_compute. reflexivity.
  - apply k_call, ks_scheduler; [reflexivity|left; exists (Some 1); vm_compute; reflexivity].
Qed.
Lemma ex_back_ok : pt_ok ex_back.
Proof.
  apply (kstep_ok (after exit ex_child)).
  - apply (kstep_ok ex_child _ ex_child_ok). apply k_call, ks_exit; [discriminate|right; vm_compute; reflexivity].
  - apply k_call, ks_scheduler; [reflexivity|left; exists (Some 0); vm_compute; reflexivity].
Qed.


Lemma scheduler_runs_best_witness : exists i, scheduler ex_boot = Ret (Some i) ex_run.
Proof.
  destruct (scheduler_runs_best ex_boot ex_boot_ok eq_refl) as [(i & p & _ & _ & _ & Hr)|[Hno _]].
  - exists 0. vm_compute. reflexivity.
  - exfalso. exact (Hno 0 _ eq_refl eq_refl).
Defined.

(** Closed facts about the slots of a concrete table. *)
Lemma slots_forall (P : Z -> proc -> Prop) (l : list proc) :
  Forall (fun ip => P (fst ip) (snd ip)) (zip (seqZ 0 (zlen l)) l) -> forall i p, zget l i = Some p -> P i p.
Proof.
  intros HF i p Hp. pose proof (zget_Some_range _ _ _ Hp) as Hr. unfold zget in Hp. destruct (Z.leb_spec 0 i); [|done].
  apply (proj1 (list.Forall_forall _ _) HF (i, p)), list_elem_of_lookup. exists (Z.to_nat i). rewrite lookup_zip_with.
  rewrite lookup_seqZ_lt by lia. cbn. rewrite Hp. cbn. do 2 f_equal. lia.
Qed.

Lemma yield_reschedules_the_best_witness :
  exists s1 s2, yield ex_forked = Leave s1 /\ scheduler s1 = Ret (Some 0) s2.
Proof.
  destruct (yield_reschedules_the_best ex_forked 0 _ ex_forked_ok eq_refl eq_refl) as (s1 & s2 & H1 & H2 & _).
  - apply (slots_forall (fun j q => p_state q = RUNNABLE -> beats 0 _ j q)). unfold beats.
    vm_compute zip. repeat (constructor; [first [discriminate|intros _; right; split; [reflexivity|right; split; [reflexivity|discriminate]]]|]).
    constructor.
  - exists s1, s2. split; [exact H1|exact H2].
Defined.

Lemma exit_wakes_parent_and_wait_reaps_witness : exists s1 q1, exit ex_child = Leave s1 /\ zget (procs s1) 0 = Some q1 /\
  p_state q1 = RUNNABLE.
Proof.
  destruct (exit_wakes_parent_and_wait_reaps ex_child 1 _ 0 _ ex_child_ok eq_refl ltac:(discriminate) eq_refl eq_refl
    ltac:(discriminate) eq_refl eq_refl eq_refl) as (s1 & q1 & H1 & _ & H2 & H3 & _).
  exists s1, q1. split; [exact H1|]. split; [exact H2|exact H3].
Defined.

Lemma wait_correct_witness : exists s', wait ex_back = Ret 2 s'.
Proof.
  destruct (wait_correct ex_back 0 _ ex_back_ok eq_refl eq_refl) as [(i & p & s' & _ & Hr & _)|[Hno _]].
  - exists s'. rewrite Hr. f_equal. assert (match wait ex_back with Ret a _ => a | _ => 0 end = 2) as E by (vm_compute; reflexivity).
    rewrite Hr in E. exact E.
  - exfalso. exact (Hno 1 _ eq_refl (conj eq_refl eq_refl)).
Defined.

Lemma ex_zombie : exists p, first_slot ex_back (zombie_kid 0) 1 p.
Proof.
  eexists. split; [reflexivity|]. split; [split; reflexivity|]. intros j q Hj Hq. pose proof (zget_Some_range _ _ _ Hq).
  assert (j = 0) as -> by lia. injection Hq as <-. intros [? _]. done.
Qed.

Lemma waitsch_reports_the_caller_witness : exists pid pr s', waitsch ex_back = Ret (pid, Some (0, 0, 0, pr)) s' /\ pr = 0.
Proof.
  destruct ex_zombie as [p Hp].
  destruct (waitsch_reports_the_caller ex_back 0 _ 1 p ex_back_ok eq_refl eq_refl Hp) as (s' & Hr & _).
  exists (p_pid p), 0, s'. split; [exact Hr|reflexivity].
Defined.

Lemma kill_zero_kills_the_next_child_witness : exists s1, kill 0 ex_run = Ret 0 s1.
Proof.
  assert (exists p, first_slot ex_run is_unused 1 p /\ p_pid p = 0) as (p & Hp & H0).
  { eexists. split; [|shelve]. split; [reflexivity|]. split; [reflexivity|]. intros j q Hj Hq.
    pose proof (zget_Some_range _ _ _ Hq). assert (j = 0) as -> by lia. injection Hq as <-. done. Unshelve. reflexivity. }
  destruct (kill_zero_kills_the_next_child ex_run 0 1 p ex_run_ok eq_refl eq_refl Hp H0) as (s1 & H1 & _).
  exists s1. exact H1.
Defined.
