(* ===== verification/JString.v ===== *)
(** * Strings and memory blocks of JOS

    [oslab6/lib/string.c]: the routines the kernel, the file server and the
    user library share.  They work on a byte memory [bmem]; an address that is
    not allocated has no entry, and touching it is [UB].

    Loops over NUL-terminated strings have no bound in the code.  [while_] runs
    them with the number of allocated bytes as fuel: every iteration of these
    loops touches a new address, so a loop that outlives the fuel would have
    left the allocated memory before ([cstr_fuel]).  Running out of fuel is
    [Panic "fuel"], which the theorems exclude: each states that the routine
    returns.

    [rep stosb], [rep stosl], [rep movsb] and [rep movsl] are the
    processor's: one element at a time, upwards after [cld] and downwards after
    [std], each element read whole before it is written. *)
From S2P Require Import Prelude.

Abbreviation bmem := (gmap Z Z) (only parsing).

Definition rd (a : Z) : M bmem Z := m ← get; deref (m !! a).
Definition wr (a v : Z) : M bmem unit :=
  m ← get; _ ← deref (m !! a); modify (fun m => <[a := v]> m).

(** Signed arithmetic of width 32: leaving the range is undefined. *)
Definition int32 {S} (x : Z) : M S Z :=
  if (-2147483648 <=? x) && (x <? 2147483648) then mret x else ub.

Definition while_ {X A} (body : X -> M bmem (X + A)) (x : X) : M bmem A :=
  fun m => loop (S (size m)) body x m.

(** ** Strings *)

Definition strlen (s : Z) : M bmem Z :=
  while_ (fun '(s, n) =>
    c ← rd s;
    if c =? 0 then mret (inr n) else n ← int32 (n + 1); mret (inl (s + 1, n)))
    (s, 0).

Definition strnlen (s size : Z) : M bmem Z :=
  while_ (fun '(s, size, n) =>
    if negb (0 <? size) then mret (inr n) else
    c ← rd s;
    if c =? 0 then mret (inr n)
    else n ← int32 (n + 1); mret (inl (s + 1, size - 1, n)))
    (s, size, 0).

Definition strcpy (dst src : Z) : M bmem Z :=
  while_ (fun '(dst, src) =>
    c ← rd src; wr dst c;;
    if c =? 0 then mret (inr tt) else mret (inl (dst + 1, src + 1)))
    (dst, src);;
  mret dst.

Definition strcat (dst src : Z) : M bmem Z :=
  len ← strlen dst; strcpy (dst + len) src;; mret dst.

Fixpoint strncpy_loop (n : nat) (dst src : Z) : M bmem unit :=
  match n with
  | O => mret tt
  | S n => c ← rd src; wr dst c;; strncpy_loop n (dst + 1) (if c =? 0 then src else src + 1)
  end.
Definition strncpy (dst src size : Z) : M bmem Z :=
  strncpy_loop (Z.to_nat size) dst src;; mret dst.

(** [while (--size > 0 && *src != '\0') *dst++ = *src++;], then the NUL; the
    result is the final [dst]. *)
Definition strlcpy (dst src size : Z) : M bmem Z :=
  let dst_in := dst in
  if 0 <? size then
    dst ← while_ (fun '(dst, src, size) =>
      let size := size - 1 in
      if negb (0 <? size) then mret (inr dst) else
      c ← rd src;
      if c =? 0 then mret (inr dst)
      else wr dst c;; mret (inl (dst + 1, src + 1, size)))
      (dst, src, size);
    wr dst 0;; mret (dst - dst_in)
  else mret 0.

Definition strcmp (p q : Z) : M bmem Z :=
  while_ (fun '(p, q) =>
    a ← rd p;
    if a =? 0 then b ← rd q; mret (inr (a - b)) else
    b ← rd q;
    if a =? b then mret (inl (p + 1, q + 1)) else mret (inr (a - b)))
    (p, q).

Definition strncmp (p q n : Z) : M bmem Z :=
  while_ (fun '(p, q, n) =>
    if negb (0 <? n) then mret (inr 0) else
    a ← rd p; b ← rd q;
    if negb (a =? 0) && (a =? b) then mret (inl (p + 1, q + 1, n - 1))
    else mret (inr (a - b)))
    (p, q, n).

(** [c] is the value of the [char] argument as a byte. *)
Definition strchr (s c : Z) : M bmem Z :=
  while_ (fun s =>
    x ← rd s;
    if x =? 0 then mret (inr 0) else if x =? c then mret (inr s) else mret (inl (s + 1))) s.

Definition strfind (s c : Z) : M bmem Z :=
  while_ (fun s =>
    x ← rd s;
    if (x =? 0) || (x =? c) then mret (inr s) else mret (inl (s + 1))) s.

(** ** Blocks *)

(** [rep stosb]: [n] bytes from [d] upwards. *)
Fixpoint rep_stosb (n : nat) (d al : Z) : M bmem unit :=
  match n with O => mret tt | S n => wr d al;; rep_stosb n (d + 1) al end.

(** A 32-bit store, little endian. *)
Definition wr32 (a w : Z) : M bmem unit :=
  wr a (u8 w);; wr (a + 1) (u8 (Z.shiftr w 8));;
  wr (a + 2) (u8 (Z.shiftr w 16));; wr (a + 3) (u8 (Z.shiftr w 24)).

Fixpoint rep_stosl (n : nat) (d eax : Z) : M bmem unit :=
  match n with O => mret tt | S n => wr32 d eax;; rep_stosl n (d + 4) eax end.

Definition memset (v c n : Z) : M bmem Z :=
  if n =? 0 then mret v else
  (if (v `mod` 4 =? 0) && (n `mod` 4 =? 0) then
     let c := Z.land c 255 in
     let c := u32 (Z.lor (Z.lor (Z.lor (Z.shiftl c 24) (Z.shiftl c 16)) (Z.shiftl c 8)) c) in
     rep_stosl (Z.to_nat (n / 4)) v c
   else rep_stosb (Z.to_nat n) v (u8 c));;
  mret v.

(** [rep movsb] in the direction [dir] (1 or -1). *)
Fixpoint rep_movsb (dir : Z) (n : nat) (d s : Z) : M bmem unit :=
  match n with
  | O => mret tt
  | S n => c ← rd s; wr d c;; rep_movsb dir n (d + dir) (s + dir)
  end.

(** [rep movsl]: four bytes are read, then written. *)
Fixpoint rep_movsl (dir : Z) (n : nat) (d s : Z) : M bmem unit :=
  match n with
  | O => mret tt
  | S n =>
      b0 ← rd s; b1 ← rd (s + 1); b2 ← rd (s + 2); b3 ← rd (s + 3);
      wr d b0;; wr (d + 1) b1;; wr (d + 2) b2;; wr (d + 3) b3;;
      rep_movsl dir n (d + 4 * dir) (s + 4 * dir)
  end.

Definition memmove (dst src n : Z) : M bmem Z :=
  let s := src in
  let d := dst in
  (if (s <? d) && (d <? u32 (s + n)) then
     let s := s + n in
     let d := d + n in
     if (s `mod` 4 =? 0) && (d `mod` 4 =? 0) && (n `mod` 4 =? 0)
     then rep_movsl (-1) (Z.to_nat (n / 4)) (d - 4) (s - 4)
     else rep_movsb (-1) (Z.to_nat n) (d - 1) (s - 1)
   else
     if (s `mod` 4 =? 0) && (d `mod` 4 =? 0) && (n `mod` 4 =? 0)
     then rep_movsl 1 (Z.to_nat (n / 4)) d s
     else rep_movsb 1 (Z.to_nat n) d s);;
  mret dst.

(** The same routines without assembly (the [#else] branch). *)
Fixpoint memset_loop (m : nat) (p c : Z) : M bmem unit :=
  match m with O => mret tt | S m => wr p (u8 c);; memset_loop m (p + 1) c end.
Definition memset_c (v c n : Z) : M bmem Z :=
  let m := s32 n in memset_loop (Z.to_nat m) v c;; mret v.

Fixpoint copy_up (n : nat) (d s : Z) : M bmem unit :=
  match n with O => mret tt | S n => c ← rd s; wr d c;; copy_up n (d + 1) (s + 1) end.
Fixpoint copy_down (n : nat) (d s : Z) : M bmem unit :=
  match n with
  | O => mret tt
  | S n => let d := d - 1 in let s := s - 1 in c ← rd s; wr d c;; copy_down n d s
  end.
Definition memmove_c (dst src n : Z) : M bmem Z :=
  let s := src in
  let d := dst in
  (if (s <? d) && (d <? u32 (s + n))
   then copy_down (Z.to_nat n) (d + n) (s + n)
   else copy_up (Z.to_nat n) d s);;
  mret dst.

Definition memcpy (dst src n : Z) : M bmem Z := memmove dst src n.

Fixpoint memcmp_loop (n : nat) (s1 s2 : Z) : M bmem Z :=
  match n with
  | O => mret 0
  | S n => a ← rd s1; b ← rd s2;
           if negb (a =? b) then mret (a - b) else memcmp_loop n (s1 + 1) (s2 + 1)
  end.
Definition memcmp (v1 v2 n : Z) : M bmem Z := memcmp_loop (Z.to_nat n) v1 v2.

Fixpoint memfind_loop (n : nat) (s c : Z) : M bmem Z :=
  match n with
  | O => mret s
  | S n => x ← rd s; if x =? u8 c then mret s else memfind_loop n (s + 1) c
  end.
(** [for (; s < ends; s++)] with [ends = s + n]: at most [ends - s] turns. *)
Definition memfind (s c n : Z) : M bmem Z :=
  let ends := u32 (s + n) in memfind_loop (Z.to_nat (ends - s)) s c.

(** ** Numbers *)

(** The value of a digit, [None] for a character that is none. *)
Definition digit (c : Z) : option Z :=
  if (48 <=? c) && (c <=? 57) then Some (c - 48)
  else if (97 <=? c) && (c <=? 122) then Some (c - 97 + 10)
  else if (65 <=? c) && (c <=? 90) then Some (c - 65 + 10)
  else None.

Definition skip_blank (s : Z) : M bmem Z :=
  while_ (fun s => c ← rd s;
    if (c =? 32) || (c =? 9) then mret (inl (s + 1)) else mret (inr s)) s.

Definition strtol_digits (s val base : Z) : M bmem (Z * Z) :=
  while_ (fun '(s, val) =>
    c ← rd s;
    match digit c with
    | None => mret (inr (s, val))
    | Some dig =>
        if base <=? dig then mret (inr (s, val))
        else v ← int32 (val * base); v ← int32 (v + dig); mret (inl (s + 1, v))
    end) (s, val).

(** Returns the value and what [*endptr] is set to. *)
Definition strtol (s base : Z) : M bmem (Z * Z) :=
  s ← skip_blank s;
  c ← rd s;
  let '(s, neg) := if c =? 43 then (s + 1, false)
                   else if c =? 45 then (s + 1, true) else (s, false) in
  c0 ← rd s;
  (* [(base == 0 || base == 16) && (s[0] == '0' && s[1] == 'x')] reads [s[1]]
     only after ['0'] *)
  c1 ← (if ((base =? 0) || (base =? 16)) && (c0 =? 48) then rd (s + 1) else mret 0);
  let '(s, base) :=
    if ((base =? 0) || (base =? 16)) && ((c0 =? 48) && (c1 =? 120)) then (s + 2, 16)
    else if (base =? 0) && (c0 =? 48) then (s + 1, 8)
    else if base =? 0 then (s, 10) else (s, base) in
  r ← strtol_digits s 0 base;
  let '(e, val) := r : Z * Z in
  mret (if neg : bool then - val else val, e).
