(* ===== verification/JStringSpec.v ===== *)
(** * What the string and block routines compute

    Arrays and C strings in a byte memory, writing a list of bytes, and one
    functional lemma per routine of [JString]: it returns (so its loop ends),
    with the value and the memory of a reference function on lists. *)
From S2P Require Import Prelude JString.

(** The bytes [l] are at [a]. *)
Fixpoint arr (m : bmem) (a : Z) (l : list Z) : Prop :=
  match l with [] => True | x :: l => m !! a = Some x /\ arr m (a + 1) l end.
(** Write [l] at [a]. *)
Fixpoint store (m : bmem) (a : Z) (l : list Z) : bmem :=
  match l with [] => m | x :: l => store (<[a := x]> m) (a + 1) l end.
(** [n] allocated bytes from [a]. *)
Definition valid (m : bmem) (a n : Z) : Prop := forall i, a <= i < a + n -> is_Some (m !! i).
(** The NUL-terminated string [l] is at [a]. *)
Definition cstr (m : bmem) (a : Z) (l : list Z) : Prop :=
  arr m a (l ++ [0]) /\ Forall (fun c => c <> 0) l.

Section Arrays.
Implicit Types (m : bmem) (l : list Z) (a b n : Z).

Lemma arr_app m a l1 l2 : arr m a (l1 ++ l2) <-> arr m a l1 /\ arr m (a + zlen l1) l2.
Proof.
  revert a. induction l1 as [|x l1 IH]; intros a; simpl.
  - unfold zlen. simpl. rewrite Z.add_0_r. tauto.
  - rewrite IH, zlen_cons. replace (a + 1 + zlen l1) with (a + (zlen l1 + 1)) by lia. tauto.
Qed.
Lemma arr_get m a l : arr m a l <-> (forall i, a <= i < a + zlen l -> m !! i = zget l (i - a)).
Proof.
  revert a. induction l as [|x l IH]; intros a; simpl.
  - unfold zlen. simpl. split; [intros; lia|done].
  - rewrite IH, zlen_cons. split.
    + intros [H1 H2] i Hi. rewrite zget_cons. case_decide.
      * by replace i with a by lia.
      * rewrite (H2 i) by lia. f_equal. lia.
    + intros H. split.
      * rewrite (H a), zget_cons by (pose proof (zlen_nonneg l); lia). case_decide; [done|lia].
      * intros i Hi. rewrite (H i), zget_cons by lia. case_decide; [lia|]. f_equal. lia.
Qed.
Lemma store_get m a l i :
  store m a l !! i = if decide (a <= i < a + zlen l) then zget l (i - a) else m !! i.
Proof.
  revert m a. induction l as [|x l IH]; intros m a; simpl.
  - unfold zlen. simpl. case_decide; [lia|done].
  - rewrite IH, zget_cons, zlen_cons. pose proof (zlen_nonneg l).
    repeat case_decide; try lia.
    + f_equal. lia.
    + replace i with a by lia. by rewrite lookup_insert_eq.
    + by rewrite lookup_insert_ne by lia.
Qed.
Lemma store_app m a l1 l2 : store m a (l1 ++ l2) = store (store m a l1) (a + zlen l1) l2.
Proof.
  revert m a. induction l1 as [|x l1 IH]; intros m a; simpl.
  - unfold zlen. simpl. by rewrite Z.add_0_r.
  - rewrite IH, zlen_cons. f_equal. lia.
Qed.
Lemma store_insert_comm m a l b x :
  ~ a <= b < a + zlen l -> store (<[b := x]> m) a l = <[b := x]> (store m a l).
Proof.
  intros Hb. apply map_eq. intros i. rewrite store_get. destruct (decide (i = b)) as [->|].
  - rewrite !lookup_insert_eq. by case_decide.
  - by rewrite !lookup_insert_ne, store_get by done.
Qed.
Lemma arr_store m a l : arr (store m a l) a l.
Proof. apply arr_get. intros i Hi. rewrite store_get. by rewrite decide_True. Qed.
Lemma arr_insert_out m a l b x : ~ a <= b < a + zlen l -> arr m a l -> arr (<[b := x]> m) a l.
Proof.
  rewrite !arr_get. intros Hb H i Hi. rewrite lookup_insert_ne by lia. by apply H.
Qed.
Lemma arr_store_out m a l b l' :
  (b + zlen l' <= a \/ a + zlen l <= b) -> arr m a l -> arr (store m b l') a l.
Proof.
  rewrite !arr_get. intros Hb H i Hi. rewrite store_get. case_decide; [lia|]. by apply H.
Qed.
Lemma arr_fun m a l l' : zlen l = zlen l' -> arr m a l -> arr m a l' -> l = l'.
Proof.
  intros Hl H1 H2. apply zget_ext; [done|]. intros i Hi.
  apply arr_get with (i := a + i) in H1; [|lia]. apply arr_get with (i := a + i) in H2; [|lia].
  rewrite Z.add_simpl_l in H1, H2. congruence.
Qed.

Lemma valid_cons m a n : 0 <= n -> valid m a (n + 1) <-> is_Some (m !! a) /\ valid m (a + 1) n.
Proof.
  intros. split.
  - intros H1. split; [apply H1; lia|]. intros i Hi. apply H1. lia.
  - intros [H1 H2] i Hi. destruct (decide (i = a)) as [->|]; [done|apply H2; lia].
Qed.
Lemma valid_insert m a n b x : valid m a n -> valid (<[b := x]> m) a n.
Proof.
  intros H i Hi. destruct (decide (i = b)) as [->|].
  - rewrite lookup_insert_eq. eauto.
  - rewrite lookup_insert_ne by done. by apply H.
Qed.
Lemma valid_store m a n b l : valid m a n -> valid (store m b l) a n.
Proof.
  revert m b. induction l as [|x l IH]; intros m b H; simpl; [done|].
  apply IH. by apply valid_insert.
Qed.
Lemma valid_sub m a n b k : valid m a n -> a <= b -> b + k <= a + n -> valid m b k.
Proof. intros H ?? i Hi. apply H. lia. Qed.
Lemma arr_valid m a l : arr m a l -> valid m a (zlen l).
Proof.
  rewrite arr_get. intros H i Hi. rewrite H by done. apply zget_is_Some. lia.
Qed.

(** The fuel: allocated bytes are at least as many as the bytes of an array. *)
Lemma valid_size m a n : 0 <= n -> valid m a n -> n <= Z.of_nat (size m).
Proof.
  intros Hn H.
  assert (size (list_to_set (seqZ a n) : gset Z) <= size (dom m))%nat as Hs.
  { apply subseteq_size. intros i Hi. apply elem_of_list_to_set, elem_of_seqZ in Hi.
    apply elem_of_dom, H. lia. }
  rewrite size_dom, size_list_to_set, length_seqZ in Hs by apply NoDup_seqZ. lia.
Qed.
Lemma arr_fuel m a l : arr m a l -> (length l <= size m)%nat.
Proof.
  intros H. apply arr_valid in H. apply valid_size in H; [|apply zlen_nonneg].
  unfold zlen in H. lia.
Qed.
Lemma cstr_fuel m a l : cstr m a l -> (length l < size m)%nat.
Proof. intros [H _]. apply arr_fuel in H. rewrite length_app in H. simpl in H. lia. Qed.
End Arrays.

(** ** Executing *)

Section Steps.
Implicit Types (m : bmem).
Lemma rd_ok m a x : m !! a = Some x -> rd a m = Ret x m.
Proof. intros H. unfold rd. exec. by rewrite H. Qed.
Lemma wr_ok m a v : is_Some (m !! a) -> wr a v m = Ret tt (<[a := v]> m).
Proof. intros [x H]. unfold wr. exec. by rewrite H. Qed.
Lemma int32_ok {S} x (s : S) : -2147483648 <= x < 2147483648 -> int32 x s = Ret x s.
Proof. intros. unfold int32. by destruct (Z.leb_spec (-2147483648) x), (Z.ltb_spec x 2147483648); try lia. Qed.

Lemma while_intro {X A} (body : X -> M bmem (X + A)) x m r :
  (forall f, (size m < f)%nat -> loop f body x m = r) -> while_ body x m = r.
Proof. intros H. apply H. lia. Qed.
Lemma bind_while {X A B} (body : X -> M bmem (X + A)) x (k : A -> M bmem B) m a m' r :
  (forall f, (size m < f)%nat -> loop f body x m = Ret a m') -> k a m' = r ->
  (while_ body x ≫= k) m = r.
Proof. intros H <-. by rewrite (bind_Ret _ _ _ _ _ (while_intro body x m _ H)). Qed.
End Steps.

(** Read or write a known cell at the head of the program. *)
Ltac rd_by H := exec_by (rd_ok _ _ _ H); exec.
Ltac fuel f := destruct f as [|f]; [simpl in *; lia|]; cbn [loop]; cbv beta iota; exec.

Section Strings.
Implicit Types (m : bmem) (l : list Z) (a n : Z).

Lemma cstr_nil m a : cstr m a [] <-> m !! a = Some 0.
Proof. unfold cstr. simpl. split; [tauto|]. intros. split_and!; [done|done|constructor]. Qed.
Lemma cstr_cons m a x l :
  cstr m a (x :: l) <-> m !! a = Some x /\ x <> 0 /\ cstr m (a + 1) l.
Proof. unfold cstr. simpl. rewrite Forall_cons. tauto. Qed.
Lemma cstr_insert_out m a l b x : ~ a <= b <= a + zlen l -> cstr m a l -> cstr (<[b := x]> m) a l.
Proof.
  intros Hb [H1 H2]. split; [|done]. apply arr_insert_out; [|done]. rewrite zlen_snoc. lia.
Qed.

Lemma strlen_ok m a l :
  cstr m a l -> zlen l < 2147483648 -> strlen a m = Ret (zlen l) m.
Proof.
  intros Hc Hl. pose proof (cstr_fuel _ _ _ Hc) as Hf. unfold strlen, strnlen. apply while_intro. intros f Hlt.
  assert (length l < f)%nat as Hf' by lia. clear Hf Hlt.
  match goal with |- loop _ ?b _ _ = _ =>
    enough (G : forall n, 0 <= n -> n + zlen l < 2147483648 ->
      loop f b (a, n) m = Ret (n + zlen l) m) by (rewrite G; [by rewrite Z.add_0_l|lia|lia]) end.
  clear Hl. revert a f Hc Hf'. induction l as [|x l IH]; intros a f Hc Hf n Hn Hb; fuel f.
  - apply cstr_nil in Hc. rd_by Hc. unfold zlen. simpl. by rewrite Z.add_0_r.
  - apply cstr_cons in Hc as (Hx & Hx0 & Hc). rewrite zlen_cons in *. rd_by Hx.
    destruct (Z.eqb_spec x 0); [done|]. pose proof (zlen_nonneg l). exec.
    exec_by (int32_ok (n + 1) m ltac:(lia)). exec.
    rewrite IH; [f_equal; lia|done|simpl in *; lia|lia|lia].
Qed.

Lemma strnlen_ok m a l n :
  cstr m a l -> zlen l < 2147483648 -> strnlen a n m = Ret (Z.max 0 (Z.min n (zlen l))) m.
Proof.
  intros Hc Hl. pose proof (cstr_fuel _ _ _ Hc) as Hf. unfold strlen, strnlen. apply while_intro. intros f Hlt.
  assert (length l < f)%nat as Hf' by lia. clear Hf Hlt.
  match goal with |- loop _ ?b _ _ = _ =>
    enough (G : forall k, 0 <= k -> k + zlen l < 2147483648 ->
     loop f b (a, n, k) m = Ret (k + Z.max 0 (Z.min n (zlen l))) m)
     by (rewrite G; [by rewrite Z.add_0_l|lia|lia]) end.
  clear Hl. revert a n f Hc Hf'. induction l as [|x l IH]; intros a n f Hc Hf k Hn Hb; fuel f.
  - apply cstr_nil in Hc. change (zlen (@nil Z)) with 0 in *.
    destruct (Z.ltb_spec 0 n); cbn [negb]; exec; [rd_by Hc; rewrite Z.eqb_refl; exec|]; unfold mret, M_ret; cbn; f_equal; lia.
  - apply cstr_cons in Hc as (Hx & Hx0 & Hc). rewrite zlen_cons in *. pose proof (zlen_nonneg l).
    destruct (Z.ltb_spec 0 n); cbn [negb]; exec.
    + rd_by Hx. destruct (Z.eqb_spec x 0); [done|]. exec.
      exec_by (int32_ok (k + 1) m ltac:(lia)). exec.
      rewrite IH; [f_equal; lia|done|simpl in *; lia|lia|lia].
    + unfold mret, M_ret. f_equal. lia.
Qed.

Definition disjoint_blocks a n b k : Prop := a + n <= b \/ b + k <= a.

Lemma strcpy_ok m d s l :
  cstr m s l -> valid m d (zlen l + 1) -> disjoint_blocks d (zlen l + 1) s (zlen l + 1) ->
  strcpy d s m = Ret d (store m d (l ++ [0])).
Proof.
  unfold disjoint_blocks. intros Hc Hv Hd. unfold strcpy.
  match goal with |- (while_ ?b _ ≫= _) _ = _ =>
    enough (G : forall f m d s, cstr m s l -> (length l < f)%nat -> valid m d (zlen l + 1) ->
      (d + (zlen l + 1) <= s \/ s + (zlen l + 1) <= d) ->
      loop f b (d, s) m = Ret tt (store m d (l ++ [0]))) end.
  { pose proof (cstr_fuel _ _ _ Hc).
    eapply bind_while; [intros f Hf; apply G; [done|lia|done|done]|done]. }
  clear. induction l as [|x l IH]; intros f m d s Hc Hf Hv Hd; fuel f.
  - apply cstr_nil in Hc. rd_by Hc. exec_by (wr_ok m d 0 ltac:(apply Hv; unfold zlen; simpl; lia)).
    done.
  - apply cstr_cons in Hc as (Hx & Hx0 & Hc). rewrite zlen_cons in *. pose proof (zlen_nonneg l).
    rd_by Hx. exec_by (wr_ok m d x ltac:(apply Hv; lia)). destruct (Z.eqb_spec x 0); [done|]. exec.
    rewrite IH; [done| | |apply valid_insert, (valid_sub _ _ _ _ _ Hv); lia|lia].
    + apply cstr_insert_out; [lia|done].
    + simpl in *. lia.
Qed.

Lemma strcat_ok m d s l1 l2 :
  cstr m d l1 -> cstr m s l2 -> zlen l1 < 2147483648 ->
  valid m d (zlen l1 + zlen l2 + 1) ->
  disjoint_blocks (d + zlen l1) (zlen l2 + 1) s (zlen l2 + 1) ->
  strcat d s m = Ret d (store m (d + zlen l1) (l2 ++ [0])).
Proof.
  intros H1 H2 Hl Hv Hd. unfold strcat. exec_by (strlen_ok m d l1 H1 Hl).
  pose proof (zlen_nonneg l1). pose proof (zlen_nonneg l2).
  exec_by (strcpy_ok m (d + zlen l1) s l2 H2 ltac:(apply (valid_sub _ _ _ _ _ Hv); lia) Hd). done.
Qed.

(** [strncpy] pads with NULs and may leave the copy unterminated. *)
Fixpoint pad (n : nat) (l : list Z) : list Z :=
  match n with
  | O => []
  | S n => match l with [] => 0 :: pad n [] | x :: l => x :: pad n l end
  end.
Lemma strncpy_ok m d s l n :
  0 <= n -> cstr m s l -> valid m d n -> disjoint_blocks d n s (zlen l + 1) ->
  strncpy d s n m = Ret d (store m d (pad (Z.to_nat n) l)).
Proof.
  unfold disjoint_blocks. intros Hn Hc Hv Hd. unfold strncpy.
  enough (G : forall k m d s l, cstr m s l -> valid m d (Z.of_nat k) ->
      (d + Z.of_nat k <= s \/ s + (zlen l + 1) <= d) ->
      strncpy_loop k d s m = Ret tt (store m d (pad k l))).
  { exec_by (G (Z.to_nat n) m d s l Hc ltac:(by rewrite Z2Nat.id) ltac:(lia)). done. }
  clear. induction k as [|k IH]; intros m d s l Hc Hv Hd; [done|]. cbn [strncpy_loop pad].
  assert (is_Some (m !! d)) as Hd1 by (apply Hv; lia).
  destruct l as [|x l].
  - apply cstr_nil in Hc as Hc'. rd_by Hc'. exec_by (wr_ok m d 0 Hd1). cbn.
    apply IH; [|apply valid_insert, (valid_sub _ _ _ _ _ Hv); lia|change (zlen (@nil Z)) with 0 in *; lia].
    apply cstr_insert_out; [|done]. change (zlen (@nil Z)) with 0 in *. lia.
  - apply cstr_cons in Hc as (Hx & Hx0 & Hc). rewrite zlen_cons in *. pose proof (zlen_nonneg l).
    rd_by Hx. exec_by (wr_ok m d x Hd1). destruct (Z.eqb_spec x 0); [done|]. cbn [store].
    apply IH; [|apply valid_insert, (valid_sub _ _ _ _ _ Hv); lia|lia].
    apply cstr_insert_out; [lia|done].
Qed.

Lemma strlcpy_ok m d s l n :
  0 < n -> cstr m s l -> valid m d n -> disjoint_blocks d n s (zlen l + 1) ->
  strlcpy d s n m
  = Ret (Z.min (zlen l) (n - 1)) (store m d (take (Z.to_nat (n - 1)) l ++ [0])).
Proof.
  unfold disjoint_blocks. intros Hn Hc Hv Hd. unfold strlcpy.
  destruct (Z.ltb_spec 0 n); [|lia].
  match goal with |- (while_ ?b _ ≫= _) _ = _ =>
    enough (G : forall f m d s n, 0 < n -> cstr m s l -> (length l < f)%nat -> valid m d n ->
      (d + n <= s \/ s + (zlen l + 1) <= d) ->
      loop f b (d, s, n) m = Ret (d + Z.min (zlen l) (n - 1)) (store m d (take (Z.to_nat (n - 1)) l))) end.
  { pose proof (cstr_fuel _ _ _ Hc). pose proof (zlen_nonneg l).
    eapply bind_while; [intros f Hf; apply G; [done|done|lia|done|done]|].
    exec_by (wr_ok (store m d (take (Z.to_nat (n - 1)) l)) (d + Z.min (zlen l) (n - 1)) 0
      ltac:(apply (valid_store m d n); [done|lia])).
    rewrite store_app. cbn [store].
    assert (zlen (take (Z.to_nat (n - 1)) l) = Z.min (zlen l) (n - 1)) as ->
      by (unfold zlen; rewrite length_take; lia).
    unfold mret, M_ret. f_equal. lia. }
  clear. induction l as [|x l IH]; intros f m d s n Hn Hc Hf Hv Hd; fuel f.
  - change (zlen (@nil Z)) with 0 in *. rewrite take_nil. cbn [store].
    replace (d + Z.min 0 (n - 1)) with d by lia. apply cstr_nil in Hc.
    destruct (Z.ltb_spec 0 (n - 1)); cbn [negb]; exec; [|done].
    rd_by Hc. done.
  - apply cstr_cons in Hc as (Hx & Hx0 & Hc). rewrite zlen_cons in *. pose proof (zlen_nonneg l).
    destruct (Z.ltb_spec 0 (n - 1)); cbn [negb]; exec.
    + rd_by Hx. destruct (Z.eqb_spec x 0); [done|]. exec.
      exec_by (wr_ok m d x ltac:(apply Hv; lia)). exec.
      rewrite IH; [|lia|apply cstr_insert_out; [lia|done]|simpl in *; lia
                  |apply valid_insert, (valid_sub _ _ _ _ _ Hv); lia|lia].
      replace (Z.to_nat (n - 1)) with (S (Z.to_nat (n - 1 - 1))) by lia. cbn. f_equal. lia.
    + replace (Z.to_nat (n - 1)) with 0%nat by lia. cbn. unfold mret, M_ret. f_equal. lia.
Qed.

(** Comparison: the difference of the first bytes that differ, the end of a
    string counting as 0. *)
Fixpoint cmp (l1 l2 : list Z) : Z :=
  match l1, l2 with
  | [], [] => 0
  | [], y :: _ => 0 - y
  | x :: _, [] => x - 0
  | x :: l1, y :: l2 => if x =? y then cmp l1 l2 else x - y
  end.

Lemma strcmp_ok m p q l1 l2 : cstr m p l1 -> cstr m q l2 -> strcmp p q m = Ret (cmp l1 l2) m.
Proof.
  intros H1 H2. pose proof (cstr_fuel _ _ _ H1). apply while_intro. intros f Hlt.
  assert (length l1 < f)%nat as Hf by lia. clear H Hlt. revert p q f l2 H1 H2 Hf.
  induction l1 as [|x l1 IH]; intros p q f l2 H1 H2 Hf; fuel f.
  - apply cstr_nil in H1. rd_by H1. rewrite Z.eqb_refl. exec. destruct l2 as [|y l2].
    + apply cstr_nil in H2. rd_by H2. done.
    + apply cstr_cons in H2 as (H2 & _). rd_by H2. done.
  - apply cstr_cons in H1 as (Hx & Hx0 & H1). rd_by Hx. destruct (Z.eqb_spec x 0); [done|]. exec.
    destruct l2 as [|y l2].
    + apply cstr_nil in H2. rd_by H2. destruct (Z.eqb_spec x 0); [done|]. done.
    + apply cstr_cons in H2 as (Hy & Hy0 & H2). rd_by Hy. cbn [cmp].
      destruct (Z.eqb_spec x y); exec; [|done]. apply IH; [done|done|simpl in *; lia].
Qed.

Lemma strncmp_ok m p q n l1 l2 : cstr m p l1 -> cstr m q l2 -> 0 <= n ->
  strncmp p q n m = Ret (cmp (take (Z.to_nat n) l1) (take (Z.to_nat n) l2)) m.
Proof.
  intros H1 H2 Hn. pose proof (cstr_fuel _ _ _ H1). apply while_intro. intros f Hlt.
  assert (length l1 < f)%nat as Hf by lia. clear H Hlt. revert p q n f l2 H1 H2 Hn Hf.
  induction l1 as [|x l1 IH]; intros p q n f l2 H1 H2 Hn Hf; fuel f;
    (destruct (Z.ltb_spec 0 n); cbn [negb]; exec;
     [|replace (Z.to_nat n) with 0%nat by lia; by destruct l2]);
    replace (Z.to_nat n) with (S (Z.to_nat (n - 1))) by lia.
  - apply cstr_nil in H1. rd_by H1. cbn [Z.eqb negb andb]. destruct l2 as [|y l2].
    + apply cstr_nil in H2. rd_by H2. done.
    + apply cstr_cons in H2 as (H2 & _). rd_by H2. done.
  - apply cstr_cons in H1 as (Hx & Hx0 & H1). rd_by Hx.
    destruct l2 as [|y l2]; cbn [firstn cmp].
    + apply cstr_nil in H2. rd_by H2. destruct (Z.eqb_spec x 0); [done|]. done.
    + apply cstr_cons in H2 as (Hy & Hy0 & H2). rd_by Hy.
      destruct (Z.eqb_spec x 0); [done|]. cbn [negb andb].
      destruct (Z.eqb_spec x y); exec; [|done]. apply IH; [done|done|lia|simpl in *; lia].
Qed.

(** The comparison is that of the strings: 0 exactly on equal ones, and
    otherwise its sign is the lexicographic order. *)
Lemma cmp_refl l : cmp l l = 0.
Proof. induction l as [|x l IH]; [done|]. cbn. by rewrite Z.eqb_refl. Qed.
Lemma cmp_eq l1 l2 :
  Forall (fun c => c <> 0) l1 -> Forall (fun c => c <> 0) l2 -> cmp l1 l2 = 0 -> l1 = l2.
Proof.
  revert l2. induction l1 as [|x l1 IH]; intros [|y l2] H1 H2; cbn; try done.
  - apply Forall_cons in H2 as [? _]. lia.
  - apply Forall_cons in H1 as [? _]. lia.
  - apply Forall_cons in H1 as [? ?]. apply Forall_cons in H2 as [? ?].
    destruct (Z.eqb_spec x y) as [->|]; [|lia]. intros. f_equal. by apply IH.
Qed.
Lemma cmp_opp l1 l2 : cmp l2 l1 = - cmp l1 l2.
Proof.
  revert l2. induction l1 as [|x l1 IH]; intros [|y l2]; cbn; try lia.
  rewrite Z.eqb_sym. case_match; [apply IH|lia].
Qed.

(** The index of the first [c]. *)
Fixpoint index (c : Z) (l : list Z) : option Z :=
  match l with
  | [] => None
  | x :: l => if x =? c then Some 0 else i ← index c l; Some (i + 1)
  end.
Lemma strchr_ok m s l c : cstr m s l -> c <> 0 ->
  strchr s c m = Ret (match index c l with Some i => s + i | None => 0 end) m.
Proof.
  intros Hc Hc0. pose proof (cstr_fuel _ _ _ Hc). apply while_intro. intros f Hlt.
  assert (length l < f)%nat as Hf by lia. clear H Hlt. revert s f Hc Hf.
  induction l as [|x l IH]; intros s f Hc Hf; fuel f.
  - apply cstr_nil in Hc. rd_by Hc. done.
  - apply cstr_cons in Hc as (Hx & Hx0 & Hc). rd_by Hx. cbn [index].
    destruct (Z.eqb_spec x 0); [done|]. destruct (Z.eqb_spec x c); exec.
    + by rewrite Z.add_0_r.
    + rewrite IH; [|done|simpl in *; lia]. destruct (index c l); cbn; [|done]. f_equal. lia.
Qed.
Lemma strfind_ok m s l c : cstr m s l -> c <> 0 ->
  strfind s c m = Ret (s + match index c l with Some i => i | None => zlen l end) m.
Proof.
  intros Hc Hc0. pose proof (cstr_fuel _ _ _ Hc). apply while_intro. intros f Hlt.
  assert (length l < f)%nat as Hf by lia. clear H Hlt. revert s f Hc Hf.
  induction l as [|x l IH]; intros s f Hc Hf; fuel f.
  - apply cstr_nil in Hc. rd_by Hc. change (zlen (@nil Z)) with 0. by rewrite Z.add_0_r.
  - apply cstr_cons in Hc as (Hx & Hx0 & Hc). rd_by Hx. cbn [index]. rewrite zlen_cons.
    destruct (Z.eqb_spec x 0); [done|]. destruct (Z.eqb_spec x c); cbn [orb]; exec.
    + by rewrite Z.add_0_r.
    + rewrite IH; [|done|simpl in *; lia]. destruct (index c l); cbn; f_equal; lia.
Qed.
End Strings.

(** ** Blocks *)
Section Blocks.
Implicit Types (m : bmem) (l : list Z) (a d s n : Z).

Lemma rep_stosb_ok m d al k :
  valid m d (Z.of_nat k) -> rep_stosb k d al m = Ret tt (store m d (replicate k al)).
Proof.
  revert m d. induction k as [|k IH]; intros m d Hv; [done|]. cbn.
  exec_by (wr_ok m d al ltac:(apply Hv; lia)).
  apply IH, valid_insert, (valid_sub _ _ _ _ _ Hv); lia.
Qed.
Lemma memset_loop_ok m d c k :
  valid m d (Z.of_nat k) -> memset_loop k d c m = Ret tt (store m d (replicate k (u8 c))).
Proof.
  revert m d. induction k as [|k IH]; intros m d Hv; [done|]. cbn [memset_loop replicate store].
  exec_by (wr_ok m d (u8 c) ltac:(apply Hv; lia)).
  apply IH, valid_insert, (valid_sub _ _ _ _ _ Hv); lia.
Qed.

(** The word [memset] stores has the byte [c] four times. *)
Definition splat (c : Z) : Z :=
  u32 (Z.lor (Z.lor (Z.lor (Z.shiftl c 24) (Z.shiftl c 16)) (Z.shiftl c 8)) c).
Lemma splat_bytes c : 0 <= c < 256 ->
  u8 (splat c) = c /\ u8 (Z.shiftr (splat c) 8) = c /\
  u8 (Z.shiftr (splat c) 16) = c /\ u8 (Z.shiftr (splat c) 24) = c.
Proof.
  intros H.
  assert (forallb (fun c => (u8 (splat c) =? c) && (u8 (Z.shiftr (splat c) 8) =? c) &&
    (u8 (Z.shiftr (splat c) 16) =? c) && (u8 (Z.shiftr (splat c) 24) =? c)) (seqZ 0 256) = true)
    as G by (vm_compute; reflexivity).
  rewrite forallb_forall in G. specialize (G c).
  rewrite <-list_elem_of_In, elem_of_seqZ in G. specialize (G ltac:(lia)). lia.
Qed.

Lemma wr4_bind {A} m d b0 b1 b2 b3 (k : M bmem A) :
  valid m d 4 ->
  (wr d b0;; wr (d + 1) b1;; wr (d + 2) b2;; wr (d + 3) b3;; k) m = k (store m d [b0; b1; b2; b3]).
Proof.
  intros Hv. exec_by (wr_ok m d b0 ltac:(apply Hv; lia)).
  assert (forall m' i, valid m' d 4 -> 0 <= i < 4 -> is_Some (m' !! (d + i))) as G
    by (intros m' i H ?; apply H; lia).
  pose proof (valid_insert _ _ _ d b0 Hv) as Hv1. exec_by (wr_ok _ (d + 1) b1 (G _ 1 Hv1 ltac:(lia))).
  pose proof (valid_insert _ _ _ (d + 1) b1 Hv1) as Hv2. exec_by (wr_ok _ (d + 2) b2 (G _ 2 Hv2 ltac:(lia))).
  pose proof (valid_insert _ _ _ (d + 2) b2 Hv2) as Hv3. exec_by (wr_ok _ (d + 3) b3 (G _ 3 Hv3 ltac:(lia))).
  cbn [store]. by replace (d + 1 + 1 + 1) with (d + 3) by lia; replace (d + 1 + 1) with (d + 2) by lia.
Qed.
Lemma wr32_splat m d c : 0 <= c < 256 -> valid m d 4 ->
  wr32 d (splat c) m = Ret tt (store m d [c; c; c; c]).
Proof.
  intros Hc Hv. unfold wr32. destruct (splat_bytes c Hc) as (-> & -> & -> & ->).
  pose proof (wr4_bind m d c c c c (mret tt) Hv) as G. revert G.
  unfold mbind, M_bind, mret, M_ret. destruct (wr d c m); [|done..].
  destruct (wr (d + 1) c s); [|done..]. destruct (wr (d + 2) c s0); [|done..].
  by destruct (wr (d + 3) c s1) as [[]| | |].
Qed.

Lemma rep_stosl_ok m d c k : 0 <= c < 256 ->
  valid m d (4 * Z.of_nat k) -> rep_stosl k d (splat c) m = Ret tt (store m d (replicate (4 * k) c)).
Proof.
  intros Hc. revert m d. induction k as [|k IH]; intros m d Hv; [done|]. cbn [rep_stosl].
  exec_by (wr32_splat m d c Hc ltac:(apply (valid_sub _ _ _ _ _ Hv); lia)).
  replace (4 * S k)%nat with (4 + 4 * k)%nat by lia. rewrite replicate_add, store_app.
  change (zlen (replicate 4 c)) with 4. apply IH, valid_store, (valid_sub _ _ _ _ _ Hv); lia.
Qed.

(** Both versions of [memset]. *)
Lemma memset_ok m v c n :
  0 <= n -> valid m v n ->
  memset v c n m = Ret v (store m v (replicate (Z.to_nat n) (u8 c))).
Proof.
  intros Hn Hv. unfold memset. destruct (Z.eqb_spec n 0) as [->|]; [done|].
  assert (0 <= u8 c < 256) as Hc by (unfold u8; zlia).
  destruct (Z.eqb_spec (v `mod` 4) 0); cbn [andb];
    [destruct (Z.eqb_spec (n `mod` 4) 0); cbn [andb]|].
  - change 255 with (2 ^ 8 - 1). rewrite land_pow2_mod by done. change (c `mod` 2 ^ 8) with (u8 c).
    exec_by (rep_stosl_ok m v (u8 c) (Z.to_nat (n / 4)) Hc ltac:(apply (valid_sub _ _ _ _ _ Hv); zlia)).
    replace (4 * Z.to_nat (n / 4))%nat with (Z.to_nat n) by zlia. done.
  - exec_by (rep_stosb_ok m v (u8 c) (Z.to_nat n) ltac:(by rewrite Z2Nat.id)). done.
  - exec_by (rep_stosb_ok m v (u8 c) (Z.to_nat n) ltac:(by rewrite Z2Nat.id)). done.
Qed.
Lemma memset_c_ok m v c n :
  0 <= n < 2147483648 -> valid m v n ->
  memset_c v c n m = Ret v (store m v (replicate (Z.to_nat n) (u8 c))).
Proof.
  intros Hn Hv. unfold memset_c. rewrite s32_id by lia.
  exec_by (memset_loop_ok m v c (Z.to_nat n) ltac:(by rewrite Z2Nat.id by lia)). done.
Qed.

(** Copying upwards is right unless the destination starts inside the source,
    copying downwards when it does. *)
Lemma rep_movsb_up m d s l :
  arr m s l -> valid m d (zlen l) -> ~ s < d < s + zlen l ->
  rep_movsb 1 (length l) d s m = Ret tt (store m d l).
Proof.
  revert m d s. induction l as [|x l IH]; intros m d s Ha Hv Hd; [done|].
  destruct Ha as [Hx Ha]. rewrite zlen_cons in *. pose proof (zlen_nonneg l). cbn.
  rd_by Hx. exec_by (wr_ok m d x ltac:(apply Hv; lia)). apply IH; [|apply valid_insert, (valid_sub _ _ _ _ _ Hv); lia|lia].
  apply arr_insert_out; [lia|done].
Qed.
Lemma rep_movsb_down m d s l :
  arr m s l -> valid m d (zlen l) -> s < d ->
  rep_movsb (-1) (length l) (d + zlen l - 1) (s + zlen l - 1) m = Ret tt (store m d l).
Proof.
  revert m. induction l as [|x l IH] using rev_ind; intros m Ha Hv Hd; [done|].
  apply arr_app in Ha as [Ha [Hx _]]. rewrite zlen_snoc in *. pose proof (zlen_nonneg l).
  rewrite length_app, Nat.add_comm. cbn [length Nat.add rep_movsb].
  replace (s + (zlen l + 1) - 1) with (s + zlen l) by lia.
  replace (d + (zlen l + 1) - 1) with (d + zlen l) by lia.
  rd_by Hx. exec_by (wr_ok m (d + zlen l) x ltac:(apply Hv; lia)).
  replace (d + zlen l + -1) with (d + zlen l - 1) by lia.
  replace (s + zlen l + -1) with (s + zlen l - 1) by lia.
  rewrite IH; [|apply arr_insert_out; [lia|done]|apply valid_insert, (valid_sub _ _ _ _ _ Hv); lia|done].
  rewrite store_app. cbn [store]. by rewrite store_insert_comm by lia.
Qed.

Lemma rd4_ok {A} m s b0 b1 b2 b3 (k : Z -> Z -> Z -> Z -> M bmem A) :
  arr m s [b0; b1; b2; b3] ->
  (b0 ← rd s; b1 ← rd (s + 1); b2 ← rd (s + 2); b3 ← rd (s + 3); k b0 b1 b2 b3) m = k b0 b1 b2 b3 m.
Proof.
  intros (H0 & H1 & H2 & H3 & _). rd_by H0. rd_by H1.
  replace (s + 1 + 1) with (s + 2) in * by lia. rd_by H2.
  replace (s + 2 + 1) with (s + 3) in * by lia. by rd_by H3.
Qed.

Lemma rep_movsl_up m d s k l :
  length l = (4 * k)%nat -> arr m s l -> valid m d (zlen l) ->
  ~ s < d < s + zlen l -> s `mod` 4 = d `mod` 4 ->
  rep_movsl 1 k d s m = Ret tt (store m d l).
Proof.
  revert m d s l. induction k as [|k IH]; intros m d s l Hl Ha Hv Hd Hal.
  { by destruct l. }
  do 4 (destruct l as [|? l]; [cbn in Hl; lia|]).
  match type of Ha with arr _ _ (?b0 :: ?b1 :: ?b2 :: ?b3 :: l) =>
    change (b0 :: b1 :: b2 :: b3 :: l) with ([b0; b1; b2; b3] ++ l) in * end.
  assert (length l = 4 * k)%nat as Hl' by (rewrite length_app in Hl; cbn in Hl; lia). clear Hl.
  rewrite zlen_app in *. change (zlen [z; z0; z1; z2]) with 4 in *. pose proof (zlen_nonneg l).
  apply arr_app in Ha as [Ha4 Ha]. cbn [rep_movsl]. rewrite (rd4_ok _ _ _ _ _ _ _ Ha4).
  rewrite wr4_bind by (apply (valid_sub _ _ _ _ _ Hv); lia).
  rewrite store_app. change (zlen [z; z0; z1; z2]) with 4. change (4 * 1) with 4. apply IH.
  - done.
  - apply arr_store_out; [|done]. change (zlen [z; z0; z1; z2]) with 4. zlia.
  - apply valid_store, (valid_sub _ _ _ _ _ Hv); lia.
  - lia.
  - zlia.
Qed.
Lemma rep_movsl_down m d s k l :
  length l = (4 * k)%nat -> arr m s l -> valid m d (zlen l) -> s < d ->
  rep_movsl (-1) k (d + zlen l - 4) (s + zlen l - 4) m = Ret tt (store m d l).
Proof.
  revert m l. induction k as [|k IH]; intros m l Hl Ha Hv Hd.
  { by destruct l. }
  assert (exists l1 z z0 z1 z2, length l1 = (4 * k)%nat /\ l = l1 ++ [z; z0; z1; z2])
    as (l1 & z & z0 & z1 & z2 & Hl1 & ->).
  { exists (take (4 * k) l). pose proof (take_drop (4 * k) l) as E.
    assert (length (drop (4 * k) l) = 4)%nat as H4 by (rewrite length_drop; lia).
    destruct (drop (4 * k) l) as [|z [|z0 [|z1 [|z2 [|? ?]]]]]; try discriminate H4.
    exists z, z0, z1, z2. rewrite length_take. split; [lia|by rewrite E]. }
  rewrite zlen_app in *. change (zlen [z; z0; z1; z2]) with 4 in *. pose proof (zlen_nonneg l1).
  apply arr_app in Ha as [Ha Ha4]. cbn [rep_movsl].
  replace (s + (zlen l1 + 4) - 4) with (s + zlen l1) by lia.
  replace (d + (zlen l1 + 4) - 4) with (d + zlen l1) by lia.
  rewrite (rd4_ok _ _ _ _ _ _ _ Ha4).
  rewrite wr4_bind by (apply (valid_sub _ _ _ _ _ Hv); lia).
  replace (d + zlen l1 + 4 * -1) with (d + zlen l1 - 4) by lia.
  replace (s + zlen l1 + 4 * -1) with (s + zlen l1 - 4) by lia.
  rewrite (IH _ l1); [|done| | |done].
  - rewrite store_app. f_equal. cbn [store]. rewrite !store_insert_comm by lia. done.
  - apply arr_store_out; [|done]. lia.
  - apply valid_store, (valid_sub _ _ _ _ _ Hv); lia.
Qed.

Lemma copy_up_movsb (n : nat) d s : copy_up n d s = rep_movsb 1 n d s.
Proof. revert d s. induction n as [|n IH]; intros d s; [done|]. cbn. by rewrite IH. Qed.
Lemma copy_down_movsb (n : nat) d s : copy_down n d s = rep_movsb (-1) n (d - 1) (s - 1).
Proof.
  revert d s. induction n as [|n IH]; intros d s; [done|]. cbn. rewrite IH.
  by replace (d - 1 + -1) with (d - 1 - 1) by lia; replace (s - 1 + -1) with (s - 1 - 1) by lia.
Qed.

Lemma memmove_ok m d s l :
  arr m s l -> valid m d (zlen l) -> 0 <= s -> s + zlen l < 4294967296 ->
  memmove d s (zlen l) m = Ret d (store m d l).
Proof.
  intros Ha Hv Hs Hb. unfold memmove. pose proof (zlen_nonneg l).
  rewrite u32_id by (unfold is_u32; lia).
  assert (Z.to_nat (zlen l) = length l) as El by (unfold zlen; lia).
  assert (zlen l `mod` 4 = 0 -> length l = (4 * Z.to_nat (zlen l / 4))%nat) as Ek
    by (rewrite <-El; intros; zlia).
  destruct (Z.ltb_spec s d), (Z.ltb_spec d (s + zlen l)); cbn [andb];
    destruct (_ && _) eqn:Eal.
  all: try (rewrite !andb_true_iff, !Z.eqb_eq in Eal; destruct Eal as [[E1 E2] E3]).
  all: match goal with |- (?p ≫= _) _ = _ =>
    enough (p m = Ret tt (store m d l)) as Em by (by rewrite (bind_Ret _ _ _ _ _ Em)) end.
  all: first [apply rep_movsl_down; [by apply Ek|done|done|lia]
    | apply rep_movsl_up; [by apply Ek|done|done|lia|zlia]
    | rewrite El; apply rep_movsb_down; [done|done|lia]
    | rewrite El; apply rep_movsb_up; [done|done|lia] ].
Qed.

Lemma memmove_c_ok m d s l :
  arr m s l -> valid m d (zlen l) -> 0 <= s -> s + zlen l < 4294967296 ->
  memmove_c d s (zlen l) m = Ret d (store m d l).
Proof.
  intros Ha Hv Hs Hb. unfold memmove_c. pose proof (zlen_nonneg l).
  rewrite u32_id by (unfold is_u32; lia). rewrite copy_up_movsb, copy_down_movsb.
  assert (Z.to_nat (zlen l) = length l) as El by (unfold zlen; lia). rewrite El.
  destruct (Z.ltb_spec s d), (Z.ltb_spec d (s + zlen l)); cbn [andb].
  1: by exec_by (rep_movsb_down m d s l Ha Hv ltac:(lia)).
  all: by exec_by (rep_movsb_up m d s l Ha Hv ltac:(lia)).
Qed.

Lemma memcmp_ok m p q l1 l2 : arr m p l1 -> arr m q l2 -> zlen l1 = zlen l2 ->
  memcmp p q (zlen l1) m = Ret (cmp l1 l2) m.
Proof.
  unfold memcmp, zlen. rewrite Nat2Z.id. intros Ha Hb Hl. apply Nat2Z.inj in Hl.
  revert p q l2 Ha Hb Hl. induction l1 as [|x l1 IH]; intros p q [|y l2] Ha Hb Hl; try done.
  destruct Ha as [Hx Ha], Hb as [Hy Hb]. cbn. rd_by Hx. rd_by Hy.
  destruct (Z.eqb_spec x y); cbn; [|done]. apply IH; [done|done|cbn in Hl; lia].
Qed.

Lemma memfind_ok m s c l : arr m s l -> 0 <= s -> s + zlen l < 4294967296 ->
  memfind s c (zlen l) m
  = Ret (s + match index (u8 c) l with Some i => i | None => zlen l end) m.
Proof.
  intros Ha Hs Hb. unfold memfind. pose proof (zlen_nonneg l).
  rewrite u32_id by (unfold is_u32; lia). rewrite Z.add_simpl_l.
  assert (Z.to_nat (zlen l) = length l) as -> by (unfold zlen; lia). clear Hs Hb H.
  revert s Ha. induction l as [|x l IH]; intros s Ha; cbn [length memfind_loop index].
  - change (zlen (@nil Z)) with 0. by rewrite Z.add_0_r.
  - destruct Ha as [Hx Ha]. rd_by Hx. rewrite zlen_cons.
    destruct (Z.eqb_spec x (u8 c)); cbn; [by rewrite Z.add_0_r|].
    rewrite IH by done. destruct (index (u8 c) l); cbn; f_equal; lia.
Qed.
End Blocks.

(** ** Numbers *)
Section Numbers.
Implicit Types (m : bmem) (s base acc : Z).

(** The number a list of digit characters denotes, after [acc]. *)
Definition num base acc (cs : list Z) : Z :=
  foldl (fun v c => v * base + default 0 (digit c)) acc cs.
Definition is_digit base c : Prop := exists v, digit c = Some v /\ 0 <= v < base.
(** Not a digit in this base: where [strtol] stops. *)
Definition stops base c : Prop := match digit c with Some v => base <= v | None => True end.

Lemma num_mono base acc cs : 1 <= base -> 0 <= acc -> Forall (is_digit base) cs -> acc <= num base acc cs.
Proof.
  intros Hb Ha Hf. revert acc Ha. induction Hf as [|c cs (v & Hv & ?) Hf IH]; intros acc Ha; [done|].
  cbn. rewrite Hv. cbn. transitivity (acc * base + v); [nia|]. apply IH. nia.
Qed.
Lemma num_app base acc cs1 cs2 : num base acc (cs1 ++ cs2) = num base (num base acc cs1) cs2.
Proof. unfold num. by rewrite foldl_app. Qed.

Lemma strtol_digits_ok m s base acc cs t :
  arr m s (cs ++ [t]) -> Forall (is_digit base) cs -> stops base t -> 1 <= base -> 0 <= acc ->
  num base acc cs < 2147483648 ->
  strtol_digits s acc base m = Ret (s + zlen cs, num base acc cs) m.
Proof.
  intros Ha Hf Ht Hb Hacc Hn. pose proof (arr_fuel _ _ _ Ha) as Hfu. unfold strtol_digits.
  apply while_intro. intros f Hlt. rewrite length_app in Hfu. cbn in Hfu.
  assert (length cs < f)%nat as Hf' by lia. clear Hfu Hlt. revert s acc f Ha Hacc Hn Hf'.
  induction Hf as [|c cs (v & Hv & Hr) Hf IH]; intros s acc f Ha Hacc Hn Hf'; fuel f.
  - destruct Ha as [Hx _]. rd_by Hx. change (zlen (@nil Z)) with 0. rewrite Z.add_0_r.
    unfold stops in Ht. destruct (digit t) as [v|]; [|done].
    destruct (Z.leb_spec base v); [done|lia].
  - destruct Ha as [Hx Ha]. rd_by Hx. rewrite Hv. destruct (Z.leb_spec base v); [lia|].
    assert (num base acc (c :: cs) = num base (acc * base + v) cs) as En
      by (unfold num; cbn; by rewrite Hv). rewrite En in *.
    pose proof (num_mono base (acc * base + v) cs Hb ltac:(nia) Hf). exec.
    exec_by (int32_ok (acc * base) m ltac:(nia)). exec. exec_by (int32_ok (acc * base + v) m ltac:(nia)). exec.
    rewrite IH; [|done|nia|done|cbn in *; lia]. rewrite zlen_cons.
    by replace (s + 1 + zlen cs) with (s + (zlen cs + 1)) by lia.
Qed.
End Numbers.
