(* ===== verification/JPrintf.v ===== *)
(** * Formatted output of JOS

    [oslab6/lib/printfmt.c] and its three clients: [snprintf] in the same file,
    the kernel's [cprintf] ([oslab6/kern/printf.c]) and the user library's
    [cprintf] ([oslab6/lib/printf.c]).

    [vprintfmt] is parametric in the character sink [putch] over a state [P], as
    the code is in [putch]/[putdat].  The format is the list [F] of its bytes,
    NUL included, and [fmt] an index into it; a string argument is the list of
    its bytes, NUL included.  A variadic argument carries its type; reading one
    at another type is undefined.  Loops over the format run with its length as
    fuel, and [%e], which calls [printfmt], with a nesting depth; [Panic "fuel"]
    stands for running out of either and is excluded by [vprintfmt_total]. *)
From S2P Require Import Prelude Mmu JString JStringSpec.

(** The bytes of a literal, NUL included. *)
Definition bytes (s : string) : list Z :=
  map (fun c => Z.of_nat (Ascii.nat_of_ascii c)) (String.list_ascii_of_string s).
Definition lit (s : string) : list Z := bytes s ++ [0].

Definition s64 (x : Z) : Z :=
  let y := u64 x in if y <? 9223372036854775808 then y else y - 18446744073709551616.
Definition s8 (x : Z) : Z := let y := u8 x in if y <? 128 then y else y - 256.

(** [static const char * const error_string[MAXERROR]] *)
Definition error_string : list (option (list Z)) :=
  None :: map (fun s => Some (lit s))
    ["unspecified error"; "bad environment"; "invalid parameter"; "out of memory";
     "out of environments"; "segmentation fault"; "env is not recving";
     "unexpected end of file"; "no free space on disk"; "too many files are open";
     "file or block not found"; "invalid path"; "file already exists";
     "file is not a valid executable"; "operation not supported"]%string.

Inductive varg :=
| AInt (x : Z)                  (* int, unsigned int, char *)
| ALong (x : Z)
| ALongLong (x : Z)
| APtr (x : Z)                  (* void * *)
| AStr (p : option (list Z)).   (* char *; [None] is NULL *)

Record pst (P : Type) := mk_pst { pout : P; pap : list varg }.
Arguments mk_pst {P} _ _.
Arguments pout {P} _.
Arguments pap {P} _.

(** The locals a %-escape sets. *)
Record esc_st := mk_esc
  { padc : Z; width : Z; precision : Z; lflag : Z; altflag : bool }.
Definition esc0 : esc_st := mk_esc 32 (-1) (-1) 0 false.

Definition process_precision (e : esc_st) : esc_st :=
  if width e <? 0 then mk_esc (padc e) (precision e) (-1) (lflag e) (altflag e) else e.

(** ["0123456789abcdef"[d]] *)
Definition hexdigits : list Z := lit "0123456789abcdef".

Section Printfmt.
Context {P : Type}.
Variable putch : Z -> M P unit.
Notation MP := (M (pst P)).

Definition emit (c : Z) : MP unit := fun s =>
  match putch c (pout s) with
  | Ret _ o => Ret tt (mk_pst o (pap s))
  | Panic msg o => Panic msg (mk_pst o (pap s))
  | Leave o => Leave (mk_pst o (pap s))
  | UB => UB
  end.

(** [va_arg]: the next argument. *)
Definition va_next : MP varg := fun s =>
  match pap s with [] => UB | a :: l => Ret a (mk_pst (pout s) l) end.
Definition va_int : MP Z := a ← va_next; match a with AInt x => mret (s32 x) | _ => ub end.
Definition va_ptr : MP Z := a ← va_next; match a with APtr x => mret (u32 x) | _ => ub end.
Definition va_str : MP (option (list Z)) :=
  a ← va_next; match a with AStr p => mret p | _ => ub end.

(** [for (; w > 0; w--) putch(c)]: [n] is the positive part of [w]. *)
Fixpoint put_pad (n : nat) (c : Z) : MP unit :=
  match n with O => mret tt | S n => emit c;; put_pad n c end.

Fixpoint printnum_rec (fuel : nat) (num base width padc : Z) : MP unit :=
  match fuel with
  | O => panic "fuel"
  | S f =>
      (if base <=? num then printnum_rec f (num / base) base (width - 1) padc
       else put_pad (Z.to_nat (width - 1)) padc);;
      c ← deref (zget hexdigits (num `mod` base)); emit c
  end.
Definition printnum (num base width padc : Z) : MP unit :=
  printnum_rec (S (Z.to_nat (Z.log2 num))) num base width padc.

Definition getuint (lflag : Z) : MP Z :=
  a ← va_next;
  if 2 <=? lflag then match a with ALongLong x => mret (u64 x) | _ => ub end
  else if negb (lflag =? 0) then match a with ALong x => mret (u32 x) | _ => ub end
  else match a with AInt x => mret (u32 x) | _ => ub end.
Definition getint (lflag : Z) : MP Z :=
  a ← va_next;
  if 2 <=? lflag then match a with ALongLong x => mret (s64 x) | _ => ub end
  else if negb (lflag =? 0) then match a with ALong x => mret (s32 x) | _ => ub end
  else match a with AInt x => mret (s32 x) | _ => ub end.

(** The copying loop of [%s]: [p] is what is left of the string. *)
Fixpoint put_str (p : list Z) (alt : bool) (precision width : Z) : MP Z :=
  match p with
  | [] => ub
  | c :: p =>
      let ch := s8 c in
      if ch =? 0 then mret width else
      if (precision <? 0) || (0 <=? precision - 1) then
        emit (if alt && ((ch <? 32) || (126 <? ch)) then 63 else ch);;
        width ← int32 (width - 1);
        put_str p alt (if precision <? 0 then precision else precision - 1) width
      else mret width
  end.

Definition conv_s (e : esc_st) : MP unit :=
  a ← va_str;
  let p := default (lit "(null)") a in
  width ← (if (0 <? width e) && negb (padc e =? 45) then
             match strnlen 0 (u32 (precision e)) (store ∅ 0 p) with
             | Ret n _ => let w := width e - n in
                          put_pad (Z.to_nat w) (padc e);; mret (Z.min w 0)
             | _ => ub
             end
           else mret (width e));
  width ← put_str p (altflag e) (precision e) width;
  put_pad (Z.to_nat width) 32.

Definition conv_d (e : esc_st) : MP unit :=
  n ← getint (lflag e);
  let num := u64 n in
  if s64 num <? 0 then
    emit 45;;
    num ← (if s64 num =? -9223372036854775808 then ub else mret (u64 (- s64 num)));
    printnum num 10 (width e) (padc e)
  else printnum num 10 (width e) (padc e).

Definition conv_u (base : Z) (e : esc_st) : MP unit :=
  num ← getuint (lflag e); printnum num base (width e) (padc e).

Definition conv_p (e : esc_st) : MP unit :=
  emit 48;; emit 120;; num ← va_ptr; printnum num 16 (width e) (padc e).

(** [%e]; [printfmt] is the variadic function of the same name. *)
Definition conv_e (printfmt : list Z -> list varg -> MP unit) : MP unit :=
  err ← va_int;
  err ← (if err <? 0 then int32 (- err) else mret err);
  if MAXERROR <=? err then printfmt (lit "error %d") [AInt err]
  else p ← deref (zget error_string err);
       match p with
       | None => printfmt (lit "error %d") [AInt err]
       | Some p => printfmt (lit "%s") [AStr (Some p)]
       end.

Section Format.
Variable F : list Z.
Variable printfmt : list Z -> list varg -> MP unit.

Definition fetch (i : Z) : MP Z := deref (zget F i).

(** [while ((ch = *fmt++) != '%') ...]: where the escape starts, or [None] at
    the end of the format. *)
Definition plain (i : Z) : MP (option Z) :=
  loop (S (length F)) (fun i =>
    ch ← fetch i;
    if ch =? 37 then mret (inr (Some (i + 1)))
    else if ch =? 0 then mret (inr None)
    else emit ch;; mret (inl (i + 1))) i.

(** [for (precision = 0; ; ++fmt) ...]: the number and the index behind it. *)
Definition get_width (i ch : Z) : MP (Z * Z) :=
  loop (S (length F)) (fun '(i, ch, precision) =>
    p ← int32 (precision * 10); p ← int32 (p + ch); p ← int32 (p - 48);
    ch ← fetch i;
    if (ch <? 48) || (57 <? ch) then mret (inr (p, i)) else mret (inl (i + 1, ch, p)))
    (i, ch, 0).

(** [for (fmt--; fmt[-1] != '%'; fmt--);] *)
Definition rewind (i : Z) : MP Z :=
  loop (S (length F)) (fun i =>
    c ← fetch (i - 1); if c =? 37 then mret (inr i) else mret (inl (i - 1))) (i - 1).

(** One turn of [reswitch]: another flag ([inl]) or the conversion is done. *)
Definition reswitch (x : esc_st * Z) : MP (esc_st * Z + Z) :=
  let '(e, i) := x in
  ch ← fetch i;
  let i := i + 1 in
  if ch =? 45 then mret (inl (mk_esc 45 (width e) (precision e) (lflag e) (altflag e), i))
  else if ch =? 48 then mret (inl (mk_esc 48 (width e) (precision e) (lflag e) (altflag e), i))
  else if (49 <=? ch) && (ch <=? 57) then
    r ← get_width i ch;
    let '(p, i) := r : Z * Z in
    mret (inl (process_precision (mk_esc (padc e) (width e) p (lflag e) (altflag e)), i))
  else if ch =? 42 then
    p ← va_int;
    mret (inl (process_precision (mk_esc (padc e) (width e) p (lflag e) (altflag e)), i))
  else if ch =? 46 then
    mret (inl (mk_esc (padc e) (if width e <? 0 then 0 else width e) (precision e)
                      (lflag e) (altflag e), i))
  else if ch =? 35 then mret (inl (mk_esc (padc e) (width e) (precision e) (lflag e) true, i))
  else if ch =? 108 then
    mret (inl (mk_esc (padc e) (width e) (precision e) (lflag e + 1) (altflag e), i))
  else if ch =? 99 then c ← va_int; emit c;; mret (inr i)
  else if ch =? 101 then conv_e printfmt;; mret (inr i)
  else if ch =? 115 then conv_s e;; mret (inr i)
  else if ch =? 100 then conv_d e;; mret (inr i)
  else if ch =? 117 then conv_u 10 e;; mret (inr i)
  else if ch =? 111 then conv_u 8 e;; mret (inr i)
  else if ch =? 112 then conv_p e;; mret (inr i)
  else if ch =? 120 then conv_u 16 e;; mret (inr i)
  else if ch =? 37 then emit ch;; mret (inr i)
  else emit 37;; i ← rewind i; mret (inr i).

Definition escape (i : Z) : MP Z := loop (S (length F)) reswitch (esc0, i).

(** One turn of [while (1)]. *)
Definition format_step (i : Z) : MP (Z + unit) :=
  r ← plain i;
  match r with
  | None => mret (inr tt)
  | Some i => i ← escape i; mret (inl i)
  end.
Definition format : MP unit := loop (S (length F)) format_step 0.
End Format.

(** [vprintfmt] with at most [depth] nested calls of [printfmt]; the callee has
    an argument list of its own. *)
Fixpoint vprintfmt_at (depth : nat) (F : list Z) : MP unit :=
  format F (fun F' args =>
    match depth with
    | O => panic "fuel"
    | S d => fun s =>
        match vprintfmt_at d F' (mk_pst (pout s) args) with
        | Ret _ s' => Ret tt (mk_pst (pout s') (pap s))
        | Panic msg s' => Panic msg (mk_pst (pout s') (pap s))
        | Leave s' => Leave (mk_pst (pout s') (pap s))
        | UB => UB
        end
    end).

(** [vprintfmt(putch, putdat, fmt, ap)]: [%e] nests one call. *)
Definition vprintfmt (F : list Z) (args : list varg) : M P unit := fun o =>
  match vprintfmt_at 1 F (mk_pst o args) with
  | Ret _ s => Ret tt (pout s)
  | Panic msg s => Panic msg (pout s)
  | Leave s => Leave (pout s)
  | UB => UB
  end.
End Printfmt.

(** ** [snprintf] *)

Record sprintbuf := mk_sbuf { smem : bmem; buf : Z; ebuf : Z; cnt : Z }.

Definition sprintputch (ch : Z) : M sprintbuf unit := fun b =>
  let c := s32 (cnt b + 1) in
  if buf b <? ebuf b then
    match wr (buf b) (u8 ch) (smem b) with
    | Ret _ m => Ret tt (mk_sbuf m (buf b + 1) (ebuf b) c)
    | _ => UB
    end
  else Ret tt (mk_sbuf (smem b) (buf b) (ebuf b) c).

Definition vsnprintf (dst n : Z) (F : list Z) (ap : list varg) : M bmem Z := fun m =>
  if (dst =? 0) || (n <? 1) then Ret (- E_INVAL) m else
  match vprintfmt sprintputch F ap (mk_sbuf m dst (dst + n - 1) 0) with
  | Ret _ b => (wr (buf b) 0;; mret (cnt b)) (smem b)
  | Panic msg b => Panic msg (smem b)
  | Leave b => Leave (smem b)
  | UB => UB
  end.

(** ** The kernel's [cprintf] *)

(** What reached the console ([cputchar] is the driver's), the cell [cnt] of
    [vcprintf] and how far [putch]'s own pointer to it has moved. *)
Record kcons := mk_kcons { kout : list Z; kcnt : Z }.

(** [*cnt++] increments the local pointer and discards the value it read. *)
Definition kern_putch (ch : Z) : M kcons unit :=
  modify (fun k => mk_kcons (kout k ++ [ch]) (kcnt k)).
Definition kern_vcprintf (F : list Z) (ap : list varg) : M (list Z) Z := fun o =>
  match vprintfmt kern_putch F ap (mk_kcons o 0) with
  | Ret _ k => Ret (kcnt k) (kout k)
  | Panic msg k => Panic msg (kout k)
  | Leave k => Leave (kout k)
  | UB => UB
  end.

(** ** The user library's [cprintf] *)

(** [struct printbuf], and the system calls made so far: each is the bytes
    handed to [sys_cputs]. *)
Record printbuf := mk_pbuf { idx : Z; pcnt : Z; pbuf : list Z; calls : list (list Z) }.

Definition user_putch (ch : Z) : M printbuf unit := fun b =>
  match zget (pbuf b) (idx b) with
  | None => UB
  | Some _ =>
      let bs := zset (pbuf b) (idx b) (u8 ch) in
      let i := idx b + 1 in
      let c := s32 (pcnt b + 1) in
      if i =? 256 - 1
      then Ret tt (mk_pbuf 0 c bs (calls b ++ [take (Z.to_nat i) bs]))
      else Ret tt (mk_pbuf i c bs (calls b))
  end.
Definition user_vcprintf (junk : list Z) (F : list Z) (ap : list varg) : M (list (list Z)) Z := fun t =>
  match vprintfmt user_putch F ap (mk_pbuf 0 0 junk t) with
  | Ret _ b => Ret (pcnt b) (calls b ++ [take (Z.to_nat (idx b)) (pbuf b)])
  | Panic msg b => Panic msg (calls b)
  | Leave b => Leave (calls b)
  | UB => UB
  end.
