(* ===== verification/JPrintfSpec.v ===== *)
(** * What formatted output prints

    - [msim]: two sinks that stay related character by character give related
      runs of [vprintfmt], whatever the format and the arguments; so every sink
      of the code is the sink [log] that collects the output, seen through a
      function ([sprint_rel], [user_rel]).
    - [ok]: no run of [vprintfmt] exhausts the fuel of the model's loops.
    - [digits]: the digits [printnum] prints, which [strtol] reads back. *)
From S2P Require Import Prelude Mmu JString JStringSpec JPrintf.

(** ** Related sinks *)
Section Sim.
Context {P1 P2 : Type} (R : P1 -> P2 -> Prop).

Definition orel {A} (o1 : outcome (pst P1) A) (o2 : outcome (pst P2) A) : Prop :=
  match o1, o2 with
  | Ret a s, Ret b t => a = b /\ pap s = pap t /\ R (pout s) (pout t)
  | Panic x s, Panic y t => x = y /\ pap s = pap t /\ R (pout s) (pout t)
  | Leave s, Leave t => pap s = pap t /\ R (pout s) (pout t)
  | UB, UB => True
  | _, _ => False
  end.
Definition msim {A} (m1 : M (pst P1) A) (m2 : M (pst P2) A) : Prop :=
  forall s t, pap s = pap t -> R (pout s) (pout t) -> orel (m1 s) (m2 t).

Lemma msim_ret {A} (a : A) : msim (mret a) (mret a).
Proof. intros s t ??. by cbn. Qed.
Lemma msim_ub {A} : msim (A := A) ub ub.
Proof. intros s t ??. by cbn. Qed.
Lemma msim_panic {A} msg : msim (A := A) (panic msg) (panic msg).
Proof. intros s t ??. by cbn. Qed.
Lemma msim_deref {A} (o : option A) : msim (deref o) (deref o).
Proof. destruct o; [apply msim_ret|apply msim_ub]. Qed.
Lemma msim_int32 x : msim (int32 x) (int32 x).
Proof. unfold int32. case_match; [apply msim_ret|apply msim_ub]. Qed.
Lemma msim_bind {A B} m1 m2 (k1 : A -> M (pst P1) B) (k2 : A -> M (pst P2) B) :
  msim m1 m2 -> (forall a, msim (k1 a) (k2 a)) -> msim (m1 ≫= k1) (m2 ≫= k2).
Proof.
  intros Hm Hk s t Hp Hr. specialize (Hm s t Hp Hr). unfold mbind, M_bind.
  destruct (m1 s), (m2 t); try done. destruct Hm as (-> & ? & ?). by apply Hk.
Qed.
Lemma msim_loop {X A} f (b1 : X -> M (pst P1) (X + A)) b2 x :
  (forall x, msim (b1 x) (b2 x)) -> msim (loop f b1 x) (loop f b2 x).
Proof.
  intros Hb. revert x. induction f as [|f IH]; intros x; [apply msim_panic|].
  apply msim_bind; [apply Hb|]. intros [x'|a]; [apply IH|apply msim_ret].
Qed.
Lemma msim_va_next : msim va_next va_next.
Proof. intros s t Hp Hr. unfold va_next. rewrite Hp. by destruct (pap t). Qed.

Create HintDb sim.
Hint Resolve msim_ret msim_ub msim_panic msim_deref msim_int32 msim_va_next : sim.
Ltac sim_step :=
  first [ solve [eauto with sim nocore] | apply msim_bind; [|intros ?] | apply msim_loop; intros ?
        | progress cbv beta zeta | case_match ].
Ltac sim := repeat sim_step.

Variables (putch1 : Z -> M P1 unit) (putch2 : Z -> M P2 unit).
Hypothesis Hputch : forall c s t, R s t ->
  match putch1 c s, putch2 c t with
  | Ret _ s', Ret _ t' => R s' t'
  | Panic x s', Panic y t' => x = y /\ R s' t'
  | Leave s', Leave t' => R s' t'
  | UB, UB => True
  | _, _ => False
  end.

Lemma msim_emit c : msim (emit putch1 c) (emit putch2 c).
Proof.
  intros s t Hp Hr. unfold emit. specialize (Hputch c _ _ Hr).
  destruct (putch1 c (pout s)) as [[]| | |], (putch2 c (pout t)) as [[]| | |]; cbn in *; tauto.
Qed.
Hint Resolve msim_emit : sim.
Lemma msim_put_pad n c : msim (put_pad putch1 n c) (put_pad putch2 n c).
Proof. induction n as [|n IH]; cbn; sim. Qed.
Hint Resolve msim_put_pad : sim.
Lemma msim_printnum n base w c : msim (printnum putch1 n base w c) (printnum putch2 n base w c).
Proof.
  unfold printnum. generalize (S (Z.to_nat (Z.log2 n))). intros f. revert n w.
  induction f as [|f IH]; intros n w; cbn [printnum_rec]; sim.
Qed.
Hint Resolve msim_printnum : sim.
Lemma msim_put_str p alt prec w : msim (put_str putch1 p alt prec w) (put_str putch2 p alt prec w).
Proof. revert prec w. induction p as [|c p IH]; intros prec w; cbn [put_str]; sim. Qed.
Hint Resolve msim_put_str : sim.
Lemma msim_va_int : msim va_int va_int.
Proof. unfold va_int. sim. Qed.
Lemma msim_getint l : msim (getint l) (getint l).
Proof. unfold getint. sim. Qed.
Lemma msim_getuint l : msim (getuint l) (getuint l).
Proof. unfold getuint. sim. Qed.
Hint Resolve msim_va_int msim_getint msim_getuint : sim.
Lemma msim_conv_s e : msim (conv_s putch1 e) (conv_s putch2 e).
Proof. unfold conv_s, va_str. sim. Qed.
Lemma msim_conv_d e : msim (conv_d putch1 e) (conv_d putch2 e).
Proof. unfold conv_d. sim. Qed.
Lemma msim_conv_u b e : msim (conv_u putch1 b e) (conv_u putch2 b e).
Proof. unfold conv_u. sim. Qed.
Lemma msim_conv_p e : msim (conv_p putch1 e) (conv_p putch2 e).
Proof. unfold conv_p, va_ptr. sim. Qed.
Hint Resolve msim_conv_s msim_conv_d msim_conv_u msim_conv_p : sim.

Section Format.
Variables (F : list Z) (pf1 : list Z -> list varg -> M (pst P1) unit) (pf2 : list Z -> list varg -> M (pst P2) unit).
Hypothesis Hpf : forall G args, msim (pf1 G args) (pf2 G args).
Lemma msim_conv_e : msim (conv_e pf1) (conv_e pf2).
Proof. unfold conv_e. sim. Qed.
Hint Resolve msim_conv_e : sim.
Lemma msim_format : msim (format putch1 F pf1) (format putch2 F pf2).
Proof.
  unfold format. apply msim_loop. intros i. unfold format_step. apply msim_bind.
  - unfold plain, fetch. sim.
  - intros [j|]; [|sim]. unfold escape. apply msim_bind; [|sim]. apply msim_loop.
    intros [e k]. unfold reswitch, fetch, get_width, rewind, fetch. sim.
Qed.
End Format.

Lemma msim_vprintfmt_at d F : msim (vprintfmt_at putch1 d F) (vprintfmt_at putch2 d F).
Proof.
  revert F. induction d as [|d IH]; intros F; cbn [vprintfmt_at]; apply msim_format; intros G args.
  - apply msim_panic.
  - intros s t Hp Hr. specialize (IH G (mk_pst (pout s) args) (mk_pst (pout t) args) eq_refl Hr).
    destruct (vprintfmt_at putch1 d G _) as [[]| | |], (vprintfmt_at putch2 d G _) as [[]| | |];
      cbn in *; naive_solver.
Qed.

(** A run of [vprintfmt] on one sink is the run on the other. *)
Lemma vprintfmt_sim F args o t : R o t ->
  match vprintfmt putch1 F args o, vprintfmt putch2 F args t with
  | Ret _ s', Ret _ t' => R s' t'
  | Panic x s', Panic y t' => x = y /\ R s' t'
  | Leave s', Leave t' => R s' t'
  | UB, UB => True
  | _, _ => False
  end.
Proof.
  intros Hr. unfold vprintfmt.
  pose proof (msim_vprintfmt_at 1 F (mk_pst o args) (mk_pst t args) eq_refl Hr) as H.
  destruct (vprintfmt_at putch1 1 F _) as [[]| | |], (vprintfmt_at putch2 1 F _) as [[]| | |];
    cbn in *; naive_solver.
Qed.
End Sim.

(** ** Termination *)
Section Ok.
Context {P : Type}.
Variable putch : Z -> M P unit.

(** [m] neither panics nor leaves, and what it returns satisfies [Q]. *)
Definition ok {A} (m : M (pst P) A) (Q : A -> Prop) : Prop :=
  forall s, match m s with Ret a _ => Q a | UB => True | _ => False end.

Lemma ok_ret {A} (a : A) (Q : A -> Prop) : Q a -> ok (mret a) Q.
Proof. intros H s. done. Qed.
Lemma ok_ub {A} (Q : A -> Prop) : ok ub Q.
Proof. intros s. done. Qed.
Lemma ok_mono {A} (m : M (pst P) A) (Q Q' : A -> Prop) : ok m Q -> (forall a, Q a -> Q' a) -> ok m Q'.
Proof. intros H HQ s. specialize (H s). destruct (m s); auto. Qed.
Lemma ok_bind {A B} (m : M (pst P) A) (k : A -> M (pst P) B) (Q : A -> Prop) (Q' : B -> Prop) :
  ok m Q -> (forall a, Q a -> ok (k a) Q') -> ok (m ≫= k) Q'.
Proof.
  intros Hm Hk s. specialize (Hm s). unfold mbind, M_bind. destruct (m s); try done. by apply Hk.
Qed.
Lemma ok_then {A B} (m : M (pst P) A) (k : A -> M (pst P) B) (Q : B -> Prop) :
  ok m (fun _ => True) -> (forall a, ok (k a) Q) -> ok (m ≫= k) Q.
Proof. intros Hm Hk. eapply ok_bind; [done|]. intros a _. apply Hk. Qed.
Lemma ok_deref {A} (o : option A) : ok (deref o) (fun a => o = Some a).
Proof. destruct o; intros s; done. Qed.
Lemma ok_deref' {A} (o : option A) : ok (deref o) (fun _ => True).
Proof. destruct o; intros s; done. Qed.
Lemma ok_int32 x : ok (int32 x) (fun _ => True).
Proof. unfold int32. case_match; intros s; done. Qed.
(** A loop ends when its body decreases a measure under an invariant. *)
Lemma ok_loop {X A} (I : X -> Prop) (mu : X -> nat) (Q : A -> Prop) (body : X -> M (pst P) (X + A)) :
  (forall x, I x -> ok (body x) (fun r =>
     match r with inl x' => I x' /\ (mu x' < mu x)%nat | inr a => Q a end)) ->
  forall f x, I x -> (mu x < f)%nat -> ok (loop f body x) Q.
Proof.
  intros Hb. induction f as [|f IH]; intros x Hx Hf; [lia|]. cbn [loop].
  eapply ok_bind; [by apply Hb|]. intros [x'|a]; [|apply ok_ret].
  intros [Hx' Hm]. apply IH; [done|lia].
Qed.
Lemma ok_va_next : ok va_next (fun _ => True).
Proof. intros s. unfold va_next. by destruct (pap s). Qed.

Create HintDb ok.
Hint Resolve ok_ub ok_deref' ok_int32 ok_va_next : ok.
Ltac ok_step :=
  first [ solve [eauto with ok nocore] | apply ok_ret; exact I | apply ok_then; [|intros ?]
        | progress cbv beta zeta | case_match ].
Ltac oks := repeat ok_step.

Hypothesis Hputch : forall c s, match putch c s with Ret _ _ | UB => True | _ => False end.
Lemma ok_emit c : ok (emit putch c) (fun _ => True).
Proof. intros s. unfold emit. specialize (Hputch c (pout s)). by destruct (putch c (pout s)). Qed.
Hint Resolve ok_emit : ok.
Lemma ok_put_pad n c : ok (put_pad putch n c) (fun _ => True).
Proof. induction n as [|n IH]; cbn; oks. Qed.
Hint Resolve ok_put_pad : ok.
Lemma ok_printnum n base w c : 2 <= base -> ok (printnum putch n base w c) (fun _ => True).
Proof.
  intros Hb. unfold printnum.
  enough (G : forall f n w, Z.log2 n < Z.of_nat f -> ok (printnum_rec putch f n base w c) (fun _ => True)).
  { apply G. lia. }
  clear n w. induction f as [|f IH]; intros n w Hn; [pose proof (Z.log2_nonneg n); lia|].
  cbn [printnum_rec]. apply ok_then; [|intros; oks]. case_match; [|oks].
  destruct (Z.leb_spec base n); [|done]. apply IH.
  assert (0 < n / base) by (apply Z.div_str_pos; lia).
  pose proof (Z.log2_le_mono (2 * (n / base)) n ltac:(transitivity (base * (n / base)); [nia|apply Z.mul_div_le; lia])) as G.
  rewrite Z.log2_double in G by done. lia.
Qed.
Lemma ok_printnum' n base w c : (2 <=? base) = true -> ok (printnum putch n base w c) (fun _ => True).
Proof. intros. apply ok_printnum. lia. Qed.
Hint Extern 1 (ok (printnum _ _ _ _ _) _) => apply ok_printnum'; first [reflexivity | assumption] : ok.
Lemma ok_put_str p alt prec w : ok (put_str putch p alt prec w) (fun _ => True).
Proof. revert prec w. induction p as [|c p IH]; intros prec w; cbn [put_str]; oks. Qed.
Hint Resolve ok_put_str : ok.
Lemma ok_va_int : ok va_int (fun _ => True).
Proof. unfold va_int. oks. Qed.
Lemma ok_getint l : ok (getint l) (fun _ => True).
Proof. unfold getint. oks. Qed.
Lemma ok_getuint l : ok (getuint l) (fun _ => True).
Proof. unfold getuint. oks. Qed.
Hint Resolve ok_va_int ok_getint ok_getuint : ok.
Lemma ok_conv_s e : ok (conv_s putch e) (fun _ => True).
Proof. unfold conv_s, va_str. oks. Qed.
Lemma ok_conv_d e : ok (conv_d putch e) (fun _ => True).
Proof. unfold conv_d. oks. Qed.
Lemma ok_conv_u b e : (2 <=? b) = true -> ok (conv_u putch b e) (fun _ => True).
Proof. intros. unfold conv_u. oks. Qed.
Lemma ok_conv_p e : ok (conv_p putch e) (fun _ => True).
Proof. unfold conv_p, va_ptr. oks. Qed.
Hint Resolve ok_conv_s ok_conv_d ok_conv_u ok_conv_p : ok.

Section Format.
Variables (F : list Z) (pf : list Z -> list varg -> M (pst P) unit).
(** Either [printfmt] ends, or every escape is just [%d] or [%s]. *)
Definition simple_escapes : Prop :=
  forall i, zget F (i - 1) = Some 37 -> zget F i = Some 100 \/ zget F i = Some 115.
Definition printfmt_ok : Prop :=
  forall args, ok (pf (lit "error %d") args) (fun _ => True) /\ ok (pf (lit "%s") args) (fun _ => True).
Hypothesis Hpf : printfmt_ok \/ simple_escapes.

Lemma ok_fetch i : ok (fetch F i) (fun c => zget F i = Some c /\ 0 <= i < zlen F).
Proof. eapply ok_mono; [apply ok_deref|]. intros c H. split; [done|exact (zget_Some_range _ _ _ H)]. Qed.
(** Loops that go forward in the format. *)
Definition ahead (i : Z) : nat := Z.to_nat (zlen F - i).
Lemma ahead_lt i : 0 <= i < zlen F -> (ahead (i + 1) < ahead i)%nat.
Proof. unfold ahead. lia. Qed.
Lemma ahead_fuel i : 0 <= i -> (ahead i < S (length F))%nat.
Proof. unfold ahead, zlen. lia. Qed.
Hint Resolve ahead_lt ahead_fuel : ok.

Lemma ok_plain i : 0 <= i ->
  ok (plain putch F i) (fun r => match r with
    | None => True | Some j => i < j /\ zget F (j - 1) = Some 37 end).
Proof.
  intros Hi. unfold plain. apply ok_loop with (I := fun j => i <= j) (mu := ahead); [|lia|by apply ahead_fuel].
  intros j Hj. eapply ok_bind; [apply ok_fetch|]. intros c [Hc Hr].
  destruct (Z.eqb_spec c 37) as [->|]; [apply ok_ret; rewrite Z.add_simpl_r; split; [lia|done]|].
  case_match; [by apply ok_ret|]. apply ok_then; [apply ok_emit|]. intros _. apply ok_ret.
  split; [lia|by apply ahead_lt].
Qed.
Lemma ok_get_width i ch : 0 <= i -> ok (get_width F i ch) (fun r => i <= r.2).
Proof.
  intros Hi. unfold get_width.
  apply ok_loop with (I := fun '(j, _, _) => i <= j) (mu := fun x => ahead x.1.1);
    [|done|by apply ahead_fuel].
  intros [[j c] p] Hj. do 3 (apply ok_then; [apply ok_int32|intros ?]).
  eapply ok_bind; [apply ok_fetch|]. intros c' [_ Hr]. case_match; apply ok_ret; [done|].
  split; [lia|by apply ahead_lt].
Qed.
(** [rewind] stops at the start of the escape at the latest. *)
Lemma ok_rewind i0 i : 0 < i0 < i -> i <= zlen F -> zget F (i0 - 1) = Some 37 ->
  ok (rewind F i) (fun j => i0 <= j).
Proof.
  intros Hi Hl Hp. unfold rewind.
  apply ok_loop with (I := fun j => i0 <= j) (mu := Z.to_nat); [|lia|unfold zlen in *; lia].
  intros j Hj. eapply ok_bind; [apply ok_fetch|]. intros c [Hc Hr].
  destruct (Z.eqb_spec c 37); apply ok_ret; [done|].
  destruct (decide (j = i0)) as [->|]; [congruence|lia].
Qed.

Lemma ok_reswitch i0 e i : 0 < i0 <= i -> zget F (i0 - 1) = Some 37 ->
  (i = i0 \/ printfmt_ok) ->
  ok (reswitch putch F pf (e, i)) (fun r => match r with
    | inl (_, j) => (i0 <= j /\ printfmt_ok) /\ (ahead j < ahead i)%nat
    | inr j => i0 <= j end).
Proof.
  intros Hi Hp Hor. unfold reswitch. eapply ok_bind; [apply ok_fetch|]. intros c [Hc Hr]. cbv zeta.
  assert (printfmt_ok \/ c = 100 \/ c = 115) as HA.
  { destruct Hor as [->|]; [|by left]. destruct Hpf as [|Hs]; [by left|]. right.
    destruct (Hs i0 Hp); [left|right]; congruence. }
  destruct HA as [HA|[-> | ->]]; [|cbn; apply ok_then; [oks|]; intros; apply ok_ret; lia..].
  pose proof (ahead_lt i Hr) as Ha.
  repeat (case_match; [try solve [apply ok_ret; cbn; auto with lia
    | apply ok_then; [oks|]; intros; first [apply ok_ret; lia | apply ok_ret; cbn; auto with lia
        | apply ok_then; [oks|]; intros; apply ok_ret; lia]]|]).
  - eapply ok_bind; [apply ok_get_width; lia|]. intros [p j] Hj. cbn in Hj. apply ok_ret.
    split_and!; [lia|done|]. unfold ahead in *. lia.
  - do 2 (apply ok_then; [oks|]; intros ?). apply ok_ret. lia.
  - apply ok_then; [|intros; apply ok_ret; lia]. unfold conv_e. oks; apply HA.
  - apply ok_then; [oks|]. intros _.
    eapply ok_bind; [apply (ok_rewind i0); [lia|lia|done]|]. intros j Hj. by apply ok_ret.
Qed.
Lemma ok_escape i : 0 < i -> zget F (i - 1) = Some 37 ->
  ok (escape putch F pf i) (fun j => i <= j).
Proof.
  intros Hi Hp. unfold escape.
  apply ok_loop with (mu := fun x => ahead x.2)
    (I := fun x => i <= x.2 /\ (x.2 = i \/ printfmt_ok));
    [|cbn; auto with lia|apply ahead_fuel; cbn; lia].
  intros [e j] [Hj Hor]. cbn in Hj, Hor. eapply ok_mono; [apply (ok_reswitch i); [lia|done|done]|].
  intros [[e' j']|j']; cbn; [|done]. tauto.
Qed.
Lemma ok_format : ok (format putch F pf) (fun _ => True).
Proof.
  unfold format. apply ok_loop with (I := fun i => 0 <= i) (mu := ahead); [|done|by apply ahead_fuel].
  intros i Hi. unfold format_step. eapply ok_bind; [by apply ok_plain|].
  intros [j|]; [|intros _; by apply ok_ret]. intros [Hj Hp].
  eapply ok_bind; [apply (ok_escape j); [lia|done]|]. intros k Hk. cbn in Hk. apply ok_ret.
  pose proof (zget_Some_range _ _ _ Hp). split; [lia|]. unfold ahead. lia.
Qed.
End Format.

Lemma simple_error : simple_escapes (lit "error %d") /\ simple_escapes (lit "%s").
Proof.
  assert (forall F, forallb (fun i => negb (bool_decide (zget F (i - 1) = Some 37)) ||
      bool_decide (zget F i = Some 100) || bool_decide (zget F i = Some 115))
      (seqZ 0 (zlen F + 1)) = true -> simple_escapes F) as G.
  { intros F H i Hi. rewrite forallb_forall in H. specialize (H i).
    rewrite <-list_elem_of_In, elem_of_seqZ in H.
    pose proof (zget_Some_range _ _ _ Hi). specialize (H ltac:(lia)).
    rewrite !orb_true_iff, !bool_decide_eq_true, negb_true_iff, bool_decide_eq_false in H. tauto. }
  split; apply G; vm_compute; reflexivity.
Qed.

Lemma ok_inner G : simple_escapes G -> ok (vprintfmt_at putch 0 G) (fun _ => True).
Proof. intros. cbn [vprintfmt_at]. apply ok_format. by right. Qed.

Lemma vprintfmt_at_ok F : ok (vprintfmt_at putch 1 F) (fun _ => True).
Proof.
  cbn [vprintfmt_at]. apply ok_format. left. intros args.
  split; intros s; [pose proof (ok_inner _ (proj1 simple_error) (mk_pst (pout s) args)) as H
                   |pose proof (ok_inner _ (proj2 simple_error) (mk_pst (pout s) args)) as H];
    cbn [vprintfmt_at] in H; by destruct (format putch _ _ _) as [[]| | |].
Qed.
End Ok.

(** ** The digits of a number *)

(** The sink that collects the output. *)
Definition log (c : Z) : M (list Z) unit := modify (fun o => o ++ [c]).

Definition hexdigit (d : Z) : Z := default 0 (zget hexdigits d).
Fixpoint digits_rec (f : nat) (n base : Z) : list Z :=
  match f with
  | O => []
  | S f => (if base <=? n then digits_rec f (n / base) base else []) ++ [hexdigit (n `mod` base)]
  end.
Definition digits (n base : Z) : list Z := digits_rec (S (Z.to_nat (Z.log2 n))) n base.

Lemma hexdigit_ok d : 0 <= d < 16 ->
  zget hexdigits d = Some (hexdigit d) /\ digit (hexdigit d) = Some d.
Proof.
  intros H.
  assert (forallb (fun d => bool_decide (zget hexdigits d = Some (hexdigit d)) &&
      bool_decide (digit (hexdigit d) = Some d)) (seqZ 0 16) = true) as G by (vm_compute; reflexivity).
  rewrite forallb_forall in G. specialize (G d). rewrite <-list_elem_of_In, elem_of_seqZ in G.
  specialize (G ltac:(lia)). by rewrite andb_true_iff, !bool_decide_eq_true in G.
Qed.

Lemma log2_div n base : 2 <= base -> base <= n -> Z.log2 (n / base) < Z.log2 n.
Proof.
  intros Hb Hn. assert (0 < n / base) by (apply Z.div_str_pos; lia).
  pose proof (Z.log2_le_mono (2 * (n / base)) n
    ltac:(transitivity (base * (n / base)); [nia|apply Z.mul_div_le; lia])) as G.
  rewrite Z.log2_double in G by done. lia.
Qed.

(** Induction on the digits, with the fuel of the model. *)
Lemma digits_rec_ind (base : Z) (Q : nat -> Z -> Prop) : 2 <= base ->
  (forall f n, 0 <= n < base -> Q (S f) n) ->
  (forall f n, base <= n -> Q f (n / base) -> Q (S f) n) ->
  forall f n, 0 <= n -> Z.log2 n < Z.of_nat f -> Q f n.
Proof.
  intros Hb H0 H1. induction f as [|f IH]; intros n Hn Hf; [pose proof (Z.log2_nonneg n); lia|].
  destruct (decide (base <= n)); [|apply H0; lia]. apply H1; [done|]. apply IH; [zify; apply Z.div_pos; lia|].
  pose proof (log2_div n base). lia.
Qed.

Lemma digits_rec_ok base f n : 2 <= base <= 16 -> 0 <= n -> Z.log2 n < Z.of_nat f ->
  Forall (is_digit base) (digits_rec f n base) /\ num base 0 (digits_rec f n base) = n
  /\ digits_rec f n base <> [].
Proof.
  intros Hb. revert f n. apply (digits_rec_ind base); [lia| |].
  - intros f n Hn. cbn. destruct (Z.leb_spec base n); [lia|]. cbn. rewrite Z.mod_small by done.
    destruct (hexdigit_ok n ltac:(lia)) as [_ Hd]. rewrite Hd. split_and!; [|cbn; lia|done].
    constructor; [|done]. exists n. split; [done|lia].
  - intros f n Hn (IH1 & IH2 & _). cbn [digits_rec]. destruct (Z.leb_spec base n); [|lia].
    assert (0 <= n `mod` base < base) as Hm by (apply Z.mod_pos_bound; lia).
    destruct (hexdigit_ok (n `mod` base) ltac:(lia)) as [_ Hd]. split_and!.
    + apply Forall_app. split; [done|]. constructor; [|done]. exists (n `mod` base). split; [done|lia].
    + rewrite num_app, IH2. cbn. rewrite Hd. cbn. pose proof (Z.div_mod n base ltac:(lia)). lia.
    + by destruct (digits_rec f (n `div` base) base).
Qed.
Lemma digits_ok base n : 2 <= base <= 16 -> 0 <= n ->
  Forall (is_digit base) (digits n base) /\ num base 0 (digits n base) = n /\ digits n base <> [].
Proof. intros. apply digits_rec_ok; lia. Qed.

Lemma emit_log c o l : emit log c (mk_pst o l) = Ret tt (mk_pst (o ++ [c]) l).
Proof. done. Qed.
Lemma va_next_ok {P} a (o : P) l : va_next (mk_pst o (a :: l)) = Ret a (mk_pst o l).
Proof. done. Qed.
Lemma put_pad_log k c o l :
  put_pad log k c (mk_pst o l) = Ret tt (mk_pst (o ++ replicate k c) l).
Proof.
  revert o. induction k as [|k IH]; intros o; cbn; [by rewrite app_nil_r|].
  unfold mbind, M_bind, emit. cbn. rewrite IH. by rewrite <-app_assoc.
Qed.

Lemma printnum_log n base w c o l : 2 <= base <= 16 -> 0 <= n ->
  printnum log n base w c (mk_pst o l)
  = Ret tt (mk_pst (o ++ replicate (Z.to_nat (w - zlen (digits n base))) c ++ digits n base) l).
Proof.
  intros Hb Hn. unfold printnum, digits. assert (Z.log2 n < Z.of_nat (S (Z.to_nat (Z.log2 n)))) as Hl by lia.
  revert Hl. generalize (S (Z.to_nat (Z.log2 n))). intros f Hl.
  revert w. revert f n Hn Hl. apply (digits_rec_ind base (fun f n => forall w, printnum_rec log f n base w c (mk_pst o l)
    = Ret tt (mk_pst (o ++ replicate (Z.to_nat (w - zlen (digits_rec f n base))) c ++ digits_rec f n base) l)));
    [lia| |].
  - intros f n Hn w. cbn [printnum_rec digits_rec]. destruct (Z.leb_spec base n); [lia|].
    exec_by (put_pad_log (Z.to_nat (w - 1)) c o l). rewrite Z.mod_small by done.
    destruct (hexdigit_ok n ltac:(lia)) as [-> _]. cbn [deref]. exec. by rewrite emit_log, <-app_assoc.
  - intros f n Hn IH w. cbn [printnum_rec digits_rec]. destruct (Z.leb_spec base n); [|lia].
    assert (0 <= n `mod` base < base) as Hm by (apply Z.mod_pos_bound; lia).
    exec_by (IH (w - 1)). destruct (hexdigit_ok (n `mod` base) ltac:(lia)) as [-> _]. cbn [deref]. exec.
    rewrite emit_log, zlen_snoc, <-!app_assoc.
    by replace (w - 1 - zlen (digits_rec f (n / base) base)) with (w - (zlen (digits_rec f (n / base) base) + 1)) by lia.
Qed.

(** The decimal numeral of a signed number. *)
Definition dec (x : Z) : list Z := (if x <? 0 then [45] else []) ++ digits (Z.abs x) 10.

Lemma conv_d_log x o l : -2147483648 <= x < 2147483648 ->
  conv_d log esc0 (mk_pst o (AInt x :: l)) = Ret tt (mk_pst (o ++ dec x) l).
Proof.
  intros Hx. unfold conv_d, getint. exec. exec_by (va_next_ok (AInt x) o l).
  cbn [esc0 lflag Z.leb Z.compare Z.eqb negb padc width]. exec. rewrite s32_id by done.
  assert (s64 (u64 x) = x) as E by (unfold s64, u64; case_match; zlia). rewrite E. unfold dec.
  pose proof (zlen_nonneg (digits (Z.abs x) 10)).
  destruct (Z.ltb_spec x 0).
  - exec_by (emit_log 45 o l). destruct (Z.eqb_spec x (-9223372036854775808)); [lia|]. exec.
    replace (u64 (- x)) with (Z.abs x) by (unfold u64; zlia). rewrite printnum_log by lia.
    replace (Z.to_nat (-1 - zlen (digits (Z.abs x) 10))) with 0%nat by lia. by rewrite <-app_assoc.
  - replace (u64 x) with (Z.abs x) by (unfold u64; zlia). rewrite printnum_log by lia.
    by replace (Z.to_nat (-1 - zlen (digits (Z.abs x) 10))) with 0%nat by lia.
Qed.
Lemma conv_u_log base x o l : 2 <= base <= 16 -> is_u32 x ->
  conv_u log base esc0 (mk_pst o (AInt x :: l)) = Ret tt (mk_pst (o ++ digits x base) l).
Proof.
  intros Hb Hx. unfold conv_u, getuint. exec. exec_by (va_next_ok (AInt x) o l).
  cbn [esc0 lflag Z.leb Z.compare Z.eqb negb padc width]. exec. rewrite u32_id by done.
  unfold is_u32 in Hx. rewrite printnum_log by lia. pose proof (zlen_nonneg (digits x base)).
  by replace (Z.to_nat (-1 - zlen (digits x base))) with 0%nat by lia.
Qed.

(** [strtol] reads a numeral back. *)
Lemma is_digit_char base c : base <= 16 -> is_digit base c ->
  c <> 0 /\ c <> 32 /\ c <> 9 /\ c <> 43 /\ c <> 45 /\ c <> 120 /\ 48 <= c <= 102.
Proof.
  intros Hb (v & Hd & Hv). unfold digit in Hd. repeat case_match; simplify_eq; lia.
Qed.

Lemma strtol_sign m s base cs (neg : bool) : base = 8 \/ base = 10 \/ base = 16 ->
  cs <> [] -> Forall (is_digit base) cs -> num base 0 cs < 2147483648 ->
  arr m s ((if neg then [45] else []) ++ cs ++ [0]) ->
  strtol s base m
  = Ret (if neg then - num base 0 cs else num base 0 cs,
         s + zlen (if neg then [45] else []) + zlen cs) m.
Proof.
  intros Hb Hne Hf Hn Ha.
  destruct cs as [|c cs]; [done|]. clear Hne.
  pose proof (proj1 (Forall_cons_1 _ _ _ Hf)) as Hc. apply is_digit_char in Hc; [|lia].
  apply arr_app in Ha as [Hs Ha]. set (p := s + zlen (if neg then [45] else [])) in *.
  assert (exists c1, m !! (p + 1) = Some c1 /\ c1 <> 120) as (c1 & Hc1 & Hx).
  { destruct Ha as [_ Ha]. destruct cs as [|c1 cs]; [exists 0; by destruct Ha|].
    destruct Ha as [H1 _]. exists c1. split; [done|].
    apply Forall_cons_1 in Hf as [_ Hf]. apply Forall_cons_1 in Hf as [H2 _].
    apply is_digit_char in H2; lia. }
  assert (Hp : m !! p = Some c) by apply Ha.
  assert (exists x, m !! s = Some x /\ x <> 32 /\ x <> 9 /\
    (if x =? 43 then (s + 1, false) else if x =? 45 then (s + 1, true) else (s, false)) = (p, neg)) as (x & Hsx & Hx1 & Hx2 & Esg).
  { destruct neg; [exists 45; destruct Hs as [Hs _]; done|]. unfold p in *. change (zlen (@nil Z)) with 0 in *.
    rewrite Z.add_0_r in *. exists c. destruct (Z.eqb_spec c 43), (Z.eqb_spec c 45); try lia.
    split_and!; [done|lia|lia|done]. }
  assert (skip_blank s m = Ret s m) as Hsk.
  { unfold skip_blank, while_. cbn [loop]. exec. rd_by Hsx.
    destruct (Z.eqb_spec x 32), (Z.eqb_spec x 9); try lia. done. }
  unfold strtol. exec_by Hsk. rd_by Hsx. rewrite Esg. rd_by Hp.
  destruct (Z.eqb_spec base 0); [lia|]. cbn [orb andb].
  assert (forall A (k : Z -> M bmem A),
    ((if (base =? 16) && (c =? 48) then rd (p + 1) else mret 0) ≫= k) m
    = k (if (base =? 16) && (c =? 48) then c1 else 0) m) as Eif
    by (intros; destruct (_ && _); [by rd_by Hc1|by exec]).
  rewrite Eif. replace ((base =? 16) && ((c =? 48) && ((if (base =? 16) && (c =? 48) then c1 else 0) =? 120))) with false
    by (destruct (base =? 16), (c =? 48); cbn; try done; symmetry; lia).
  exec_by (strtol_digits_ok m p base 0 (c :: cs) 0 Ha Hf ltac:(done) ltac:(lia) ltac:(lia) Hn).
  done.
Qed.
