(* ===== verification/JPrintThm.v ===== *)
(** * Theorems on strings, blocks and formatted output

    [memmove] against its C version, comparison, [strtol] against [snprintf],
    the three sinks of [vprintfmt] and its termination. *)
From S2P Require Import Prelude Mmu JString JStringSpec JPrintf JPrintfSpec.

(** A small memory for the examples: [n] bytes of 0 from [a]. *)
Definition zeros (a : Z) (n : nat) : bmem := store ∅ a (replicate n 0).
Lemma zeros_valid a n : valid (zeros a n) a (Z.of_nat n).
Proof.
  intros i Hi. unfold zeros. rewrite store_get, decide_True
    by (unfold zlen; rewrite length_replicate; lia).
  apply zget_is_Some. unfold zlen. rewrite length_replicate. lia.
Qed.

(** C16. Copying a block is right however source and destination overlap: the
    version in assembly, which moves words or bytes, upwards or downwards,
    computes what the C version computes; afterwards the destination holds the
    bytes the source held before, and no byte outside it has changed. *)
Theorem memmove_copies_overlapping (m : gmap Z Z) (d s : Z) (l : list Z)
    (Hs : arr m s l) (Hd : valid m d (zlen l)) (Hlo : 0 <= s) (Hhi : s + zlen l < 4294967296) :
  memmove d s (zlen l) m = memmove_c d s (zlen l) m /\
  exists m', memmove d s (zlen l) m = Ret d m' /\ arr m' d l /\
    forall a, ~ d <= a < d + zlen l -> m' !! a = m !! a.
Proof.
  rewrite memmove_ok, memmove_c_ok by done. split; [done|]. eexists. split; [done|].
  split; [apply arr_store|]. intros a Ha. rewrite store_get. by rewrite decide_False.
Qed.
Lemma memmove_copies_overlapping_witness :
  exists m', memmove 104 100 12 (store ∅ 100 (seqZ 1 16)) = Ret 104 m' /\ arr m' 104 (seqZ 1 12).
Proof.
  destruct (memmove_copies_overlapping (store ∅ 100 (seqZ 1 16)) 104 100 (seqZ 1 12))
    as [_ (m' & H1 & H2 & _)].
  - vm_compute. tauto.
  - apply (valid_sub _ 100 16); [|lia|vm_compute; discriminate].
    apply (arr_valid _ _ (seqZ 1 16)). apply arr_store.
  - lia.
  - vm_compute. reflexivity.
  - exists m'. split; [exact H1|exact H2].
Defined.

(** [strcmp] returns on any two strings, leaves the memory alone, is 0
    exactly on equal strings, and changes sign when its arguments are swapped. *)
Theorem strcmp_decides_equality (m : gmap Z Z) (p q : Z) (l1 l2 : list Z)
    (Hp : cstr m p l1) (Hq : cstr m q l2) :
  exists r, strcmp p q m = Ret r m /\ strcmp q p m = Ret (- r) m /\ (r = 0 <-> l1 = l2).
Proof.
  exists (cmp l1 l2). rewrite (strcmp_ok m p q l1 l2), (strcmp_ok m q p l2 l1), (cmp_opp l1 l2) by done.
  split_and!; [done|done|]. split; [apply cmp_eq; [apply Hp|apply Hq]|intros ->; apply cmp_refl].
Qed.
Lemma strcmp_decides_equality_witness :
  exists r, strcmp 10 20 (store (store ∅ 10 (lit "init")) 20 (lit "initcode")) = Ret r
              (store (store ∅ 10 (lit "init")) 20 (lit "initcode")) /\ r <> 0.
Proof.
  destruct (strcmp_decides_equality (store (store ∅ 10 (lit "init")) 20 (lit "initcode")) 10 20
    (bytes "init") (bytes "initcode")) as (r & H1 & _ & H2).
  - split; [vm_compute; tauto|repeat constructor; discriminate].
  - split; [vm_compute; tauto|repeat constructor; discriminate].
  - exists r. split; [exact H1|]. intros H. apply H2 in H. discriminate H.
Defined.

(** ** [snprintf] *)

(** The buffer after the characters [o]. *)
Definition sprint_rel (m : gmap Z Z) (dst n : Z) (o : list Z) (b : sprintbuf) : Prop :=
  b = mk_sbuf (store m dst (take (Z.to_nat (n - 1)) (map u8 o)))
        (dst + Z.min (zlen o) (n - 1)) (dst + n - 1) (s32 (zlen o)).

Lemma sprint_rel_step m dst n c o b : 1 <= n -> valid m dst n -> sprint_rel m dst n o b ->
  exists b', sprintputch c b = Ret tt b' /\ sprint_rel m dst n (o ++ [c]) b'.
Proof.
  intros Hn Hv ->. unfold sprintputch, sprint_rel. cbn. rewrite zlen_snoc, map_app. cbn [map].
  assert (s32 (s32 (zlen o) + 1) = s32 (zlen o + 1)) as ->
    by (unfold s32; repeat case_match; zlia).
  assert (length (map u8 o) = length o) as El by apply length_map.
  destruct (Z.ltb_spec (dst + Z.min (zlen o) (n - 1)) (dst + n - 1)) as [H|H].
  - rewrite wr_ok by (apply (valid_store m dst n); [done|unfold zlen; lia]).
    eexists. split; [done|]. f_equal; [|lia].
    rewrite !take_ge by (rewrite ?length_app, ?El; unfold zlen in *; cbn; lia).
    rewrite store_app. cbn. do 2 f_equal. unfold zlen in *. rewrite El. lia.
  - eexists. split; [done|]. f_equal; [|lia].
    rewrite take_app_le by (rewrite El; unfold zlen in *; lia). done.
Qed.

Lemma vsnprintf_ok m dst n F args : dst <> 0 -> 1 <= n -> valid m dst n ->
  match vprintfmt log F args [] with
  | Ret _ o => vsnprintf dst n F args m
      = Ret (s32 (zlen o)) (store m dst (take (Z.to_nat (n - 1)) (map u8 o) ++ [0]))
  | UB => vsnprintf dst n F args m = UB
  | _ => False
  end.
Proof.
  intros Hd Hn Hv. unfold vsnprintf.
  destruct (Z.eqb_spec dst 0); [done|]. destruct (Z.ltb_spec n 1); [lia|]. cbn [orb].
  pose proof (vprintfmt_sim (sprint_rel m dst n) log sprintputch) as HS.
  specialize (HS ltac:(intros c o b HR; destruct (sprint_rel_step m dst n c o b Hn Hv HR) as (b' & -> & HR'); exact HR')
    F args [] (mk_sbuf m dst (dst + n - 1) 0)).
  assert (sprint_rel m dst n [] (mk_sbuf m dst (dst + n - 1) 0)) as H0.
  { unfold sprint_rel. cbn. rewrite take_nil. cbn. change (zlen (@nil Z)) with 0. f_equal. lia. }
  specialize (HS H0). rename HS into Hrun. pose proof (vprintfmt_at_ok log ltac:(done) F (mk_pst [] args)) as Hok.
  unfold vprintfmt in *. destruct (vprintfmt_at log 1 F _) as [[] [o l]| | |]; [|done..|].
  - cbn [pout]. destruct (vprintfmt_at sprintputch 1 F _) as [[] [b l']| | |]; try done.
    cbn [pout] in *. unfold sprint_rel in Hrun. subst b. cbn [buf cnt smem].
    assert (zlen (take (Z.to_nat (n - 1)) (map u8 o)) = Z.min (zlen o) (n - 1)) as El
      by (unfold zlen; rewrite length_take, length_map; lia).
    pose proof (zlen_nonneg o).
    exec_by (wr_ok (store m dst (take (Z.to_nat (n - 1)) (map u8 o))) (dst + Z.min (zlen o) (n - 1)) 0
      ltac:(apply (valid_store m dst n); [done|lia])).
    rewrite store_app, El. done.
  - by destruct (vprintfmt_at sprintputch 1 F _) as [[] [b l']| | |].
Qed.

(** C18. [snprintf] never writes outside its buffer.  Whatever the format and the
    arguments, it is undefined exactly when formatting them is; otherwise it
    returns the number of characters the format produces, and the buffer holds
    the first [n - 1] of them followed by a NUL, every other byte of the memory
    being unchanged. *)
Theorem vsnprintf_truncates_and_terminates (m : gmap Z Z) (dst n : Z) (F : list Z) (args : list varg)
    (Hdst : dst <> 0) (Hn : 1 <= n) (Hv : valid m dst n) :
  match vprintfmt log F args [] with
  | Ret _ o => exists m', vsnprintf dst n F args m = Ret (s32 (zlen o)) m'
      /\ arr m' dst (take (Z.to_nat (n - 1)) (map u8 o) ++ [0])
      /\ forall a, ~ dst <= a < dst + n -> m' !! a = m !! a
  | UB => vsnprintf dst n F args m = UB
  | _ => False
  end.
Proof.
  pose proof (vsnprintf_ok m dst n F args Hdst Hn Hv) as H.
  destruct (vprintfmt log F args []) as [[] o| | |]; [|done..].
  eexists. split; [exact H|]. split; [apply arr_store|]. intros a Ha. rewrite store_get, decide_False; [done|].
  rewrite zlen_snoc. unfold zlen. rewrite length_take. lia.
Qed.
Lemma vsnprintf_truncates_and_terminates_witness :
  exists m', vsnprintf 100 8 (lit "%s=%5d") [AStr (Some (lit "env")); AInt 42] (zeros 100 8) = Ret 9 m'
    /\ arr m' 100 (bytes "env=   " ++ [0]).
Proof.
  pose proof (vsnprintf_truncates_and_terminates (zeros 100 8) 100 8 (lit "%s=%5d")
    [AStr (Some (lit "env")); AInt 42] ltac:(discriminate) ltac:(lia) (zeros_valid 100 8)) as H.
  assert (vprintfmt log (lit "%s=%5d") [AStr (Some (lit "env")); AInt 42] []
    = Ret tt (bytes "env=   42")) as E by (vm_compute; reflexivity).
  rewrite E in H. destruct H as (m' & H1 & H2 & _). exists m'. split; [exact H1|exact H2].
Defined.

(** ** Numbers printed and read back *)

Lemma fetch_ok {P} F i c (s : pst P) : zget F i = Some c -> fetch F i s = Ret c s.
Proof. unfold fetch. by intros ->. Qed.
(** A format that is one conversion. *)
Lemma plain_percent {P} putch F i (s : pst P) :
  zget F i = Some 37 -> plain putch F i s = Ret (Some (i + 1)) s.
Proof. intros H. unfold plain. cbn [loop]. exec. by exec_by (fetch_ok F i 37 s H). Qed.
Lemma plain_end {P} putch F i (s : pst P) : zget F i = Some 0 -> plain putch F i s = Ret None s.
Proof. intros H. unfold plain. cbn [loop]. exec. by exec_by (fetch_ok F i 0 s H). Qed.

Lemma one_conv (c : Z) (x : varg) (o : list Z) (k : esc_st -> M (pst (list Z)) unit) :
  (c = 100 /\ k = conv_d log) \/ (c = 120 /\ k = conv_u log 16) \/ (c = 111 /\ k = conv_u log 8) ->
  k esc0 (mk_pst (@nil Z) [x]) = Ret tt (mk_pst o []) ->
  vprintfmt log [37; c; 0] [x] [] = Ret tt o.
Proof.
  intros Hc Hk. unfold vprintfmt. cbn [vprintfmt_at]. unfold format.
  match goal with |- context [format_step log _ ?p] => set (pf := p) end.
  assert (escape log [37; c; 0] pf 1 (mk_pst (@nil Z) [x]) = Ret 2 (mk_pst o [])) as He.
  { unfold escape. cbn [loop]. exec. unfold reswitch. exec.
    exec_by (fetch_ok [37; c; 0] 1 c (mk_pst (@nil Z) [x]) eq_refl).
    destruct Hc as [[-> ->] | [[-> ->] | [-> ->]]]; cbn [Z.eqb Pos.eqb Z.leb Z.compare Pos.compare Pos.compare_cont andb];
      exec; exec_by Hk; exec; reflexivity. }
  cbn [length loop]. unfold format_step. exec.
  exec_by (plain_percent log [37; c; 0] 0 (mk_pst (@nil Z) [x]) eq_refl). exec.
  change (0 + 1) with 1. exec_by He. exec.
  exec_by (plain_end log [37; c; 0] 2 (mk_pst o []) eq_refl). done.
Qed.

Lemma map_u8 l : Forall (fun c => 0 <= c < 256) l -> map u8 l = l.
Proof. induction 1 as [|c l Hc _ IH]; [done|]. cbn. rewrite IH. f_equal. by apply Z.mod_small. Qed.

(** What [snprintf] leaves of a numeral, [strtol] reads. *)
Lemma numeral_roundtrip m dst n base F args (neg : bool) cs :
  base = 8 \/ base = 10 \/ base = 16 -> cs <> [] -> Forall (is_digit base) cs ->
  num base 0 cs < 2147483648 -> dst <> 0 -> valid m dst n ->
  zlen ((if neg then [45] else []) ++ cs) < n < 2147483648 ->
  vprintfmt log F args [] = Ret tt ((if neg then [45] else []) ++ cs) ->
  exists m', vsnprintf dst n F args m = Ret (zlen ((if neg then [45] else []) ++ cs)) m' /\
    strtol dst base m' = Ret (if neg then - num base 0 cs else num base 0 cs,
                              dst + zlen ((if neg then [45] else []) ++ cs)) m'.
Proof.
  intros Hb Hne Hf Hm Hdst Hv Hn Hrun. set (o := (if neg then [45] else []) ++ cs) in *.
  pose proof (zlen_nonneg o). pose proof (vsnprintf_ok m dst n F args Hdst ltac:(lia) Hv) as H1.
  rewrite Hrun in H1. rewrite s32_id in H1 by lia. rewrite map_u8 in H1.
  2: { apply Forall_app. split; [destruct neg; repeat constructor; lia|].
       eapply Forall_impl; [exact Hf|]. intros c Hc. apply is_digit_char in Hc; lia. }
  rewrite take_ge in H1 by (unfold zlen in *; lia).
  eexists. split; [exact H1|].
  rewrite (strtol_sign _ dst base cs neg Hb Hne Hf Hm); [|rewrite app_assoc; apply arr_store].
  unfold o. rewrite zlen_app. by rewrite Z.add_assoc.
Qed.

(** C17. Numbers survive printing and parsing.  [snprintf] with [%d] into a large
    enough buffer leaves there the decimal numeral of any [int] above [INT_MIN],
    and [strtol] in base 10 reads that number back and stops at its end; so do
    [%x] with base 16 and [%o] with base 8 for non-negative numbers. *)
Theorem snprintf_strtol_roundtrip (m : gmap Z Z) (dst n x : Z)
    (Hdst : dst <> 0) (Hx : -2147483648 < x < 2147483648)
    (Hn : zlen (dec x) < n < 2147483648) (Hv : valid m dst n) :
  (exists m', vsnprintf dst n (lit "%d") [AInt x] m = Ret (zlen (dec x)) m' /\
     strtol dst 10 m' = Ret (x, dst + zlen (dec x)) m') /\
  (forall (c base : Z), (c = 120 /\ base = 16) \/ (c = 111 /\ base = 8) -> 0 <= x ->
     zlen (digits x base) < n ->
     exists m', vsnprintf dst n [37; c; 0] [AInt x] m = Ret (zlen (digits x base)) m' /\
       strtol dst base m' = Ret (x, dst + zlen (digits x base)) m').
Proof.
  split.
  - destruct (digits_ok 10 (Z.abs x)) as (Hf & Hnum & Hne); [lia|lia|].
    destruct (numeral_roundtrip m dst n 10 (lit "%d") [AInt x] (x <? 0) (digits (Z.abs x) 10))
      as (m' & H1 & H2); try done; [by right; left|lia| |].
    + apply (one_conv 100 (AInt x) (dec x) (conv_d log)); [by left|]. apply conv_d_log. lia.
    + exists m'. split; [exact H1|]. rewrite H2, Hnum. unfold dec.
      replace (if x <? 0 then - Z.abs x else Z.abs x) with x; [done|]. destruct (Z.ltb_spec x 0); lia.
  - intros c base Hc Hpos Hlen.
    destruct (digits_ok base x) as (Hf & Hnum & Hne); [lia|lia|].
    destruct (numeral_roundtrip m dst n base [37; c; 0] [AInt x] false (digits x base))
      as (m' & H1 & H2); try done; [lia|lia|split; [exact Hlen|lia]| |].
    + apply (one_conv c (AInt x) (digits x base) (conv_u log base)).
      * destruct Hc as [[-> ->] | [-> ->]]; tauto.
      * apply conv_u_log; [lia|unfold is_u32; lia].
    + exists m'. split; [exact H1|]. by rewrite H2, Hnum.
Qed.
Lemma snprintf_strtol_roundtrip_witness :
  exists m', vsnprintf 100 12 (lit "%d") [AInt (-2024)] (zeros 100 12) = Ret 5 m' /\
    strtol 100 10 m' = Ret (-2024, 105) m'.
Proof.
  destruct (snprintf_strtol_roundtrip (zeros 100 12) 100 12 (-2024) ltac:(discriminate) ltac:(lia)
    ltac:(split; vm_compute; reflexivity) (zeros_valid 100 12)) as [(m' & H1 & H2) _].
  exists m'. split; [exact H1|exact H2].
Defined.

(** C19. [vprintfmt] terminates on every format string and argument list, nested
    calls for [%e] included: with any sink that returns, its run returns or
    reaches an operation C leaves undefined; the loops over the format never
    outlive the fuel the model gives them. *)
Theorem vprintfmt_total {P : Type} (putch : Z -> M P unit)
    (Hputch : forall c o, match putch c o with Ret _ _ | UB => True | _ => False end)
    (F : list Z) (args : list varg) (o : P) :
  match vprintfmt putch F args o with Ret _ _ | UB => True | _ => False end.
Proof.
  unfold vprintfmt. pose proof (vprintfmt_at_ok putch Hputch F (mk_pst o args)) as H.
  by destruct (vprintfmt_at putch 1 F _) as [[]| | |].
Qed.
Lemma vprintfmt_total_witness :
  vprintfmt log (lit "%5q%-3d %e 100%%") [AInt 7; AInt (-4)] []
    = Ret tt (bytes "%5q--7 out of memory 100%") /\
  match vprintfmt log (lit "%5q%-3d %e 100%%") [AInt 7; AInt (-4)] [] with
  | Ret _ _ | UB => True | _ => False end.
Proof.
  split; [vm_compute; reflexivity|].
  apply (vprintfmt_total log (fun c o => I)).
Defined.

(** ** The two [cprintf]s *)

(** The kernel's [vcprintf] sends to the console exactly what the format
    produces, but the count it returns is always 0: its [putch] increments the
    pointer to the count and not the count. *)
Theorem kern_vcprintf_returns_zero (F : list Z) (args : list varg) (o : list Z) :
  match vprintfmt log F args [] with
  | Ret _ out => kern_vcprintf F args o = Ret 0 (o ++ out)
  | UB => kern_vcprintf F args o = UB
  | _ => False
  end.
Proof.
  unfold kern_vcprintf.
  pose proof (vprintfmt_sim (fun out k => k = mk_kcons (o ++ out) 0) log kern_putch) as HS.
  specialize (HS ltac:(intros c s t ->; cbn; by rewrite app_assoc) F args [] (mk_kcons o 0)
    ltac:(cbn; by rewrite app_nil_r)).
  pose proof (vprintfmt_at_ok log ltac:(done) F (mk_pst [] args)) as Hok.
  unfold vprintfmt in *.
  destruct (vprintfmt_at log 1 F _) as [[] [out l]| | |]; [|done..|];
    destruct (vprintfmt_at kern_putch 1 F _) as [[] [k l']| | |]; try done.
  cbn [pout] in *. by rewrite HS.
Qed.

(** The state of [struct printbuf] after the characters [o]: full lines of 255
    bytes have been handed over, the rest waits in the buffer. *)
Definition user_rel (t : list (list Z)) (o : list Z) (b : printbuf) : Prop :=
  exists ks, calls b = t ++ ks /\ Forall (fun k => zlen k = 255) ks /\
    mjoin ks ++ take (Z.to_nat (idx b)) (pbuf b) = map u8 o /\
    0 <= idx b < 255 /\ zlen (pbuf b) = 256 /\ pcnt b = s32 (zlen o).

Lemma user_rel_step t c o b : user_rel t o b ->
  exists b', user_putch c b = Ret tt b' /\ user_rel t (o ++ [c]) b'.
Proof.
  intros (ks & H1 & H2 & H3 & H4 & H5 & H6). unfold user_putch.
  destruct (zget_in_range (pbuf b) (idx b) ltac:(lia)) as [x ->].
  assert (take (Z.to_nat (idx b + 1)) (zset (pbuf b) (idx b) (u8 c))
          = take (Z.to_nat (idx b)) (pbuf b) ++ [u8 c]) as Ht.
  { unfold zset, zlen in *. destruct (Z.leb_spec 0 (idx b)); [|lia].
    replace (Z.to_nat (idx b + 1)) with (S (Z.to_nat (idx b))) by lia.
    rewrite (take_S_r _ _ (u8 c)) by (apply list_lookup_insert_eq; lia).
    by rewrite take_insert_ge by lia. }
  assert (s32 (pcnt b + 1) = s32 (zlen (o ++ [c]))) as Hc
    by (rewrite H6, zlen_snoc; unfold s32; repeat case_match; zlia).
  destruct (Z.eqb_spec (idx b + 1) (256 - 1)) as [E|E]; eexists; (split; [reflexivity|]).
  - exists (ks ++ [take (Z.to_nat (idx b + 1)) (zset (pbuf b) (idx b) (u8 c))]). cbn [calls idx pbuf pcnt].
    rewrite zlen_zset, map_app, <-H3, H1, join_app, Ht. cbn.
    split_and!; [by rewrite app_assoc| |by rewrite !app_nil_r, app_assoc|lia..|done].
    apply Forall_app. split; [done|]. constructor; [|done].
    rewrite zlen_snoc. unfold zlen in *. rewrite length_take. lia.
  - exists ks. cbn [calls idx pbuf pcnt]. rewrite zlen_zset, Ht, map_app, <-H3, app_assoc.
    split_and!; [done|done|done|lia..|done].
Qed.

(** The user library's [vcprintf] prints everything in batches: the byte
    strings it hands to [sys_cputs] add up to exactly the characters the format
    produces, every call but the last carries 255 bytes and the last carries
    fewer, the 256-byte buffer is never overrun, and the count returned is the
    number of characters. *)
Theorem user_vcprintf_batches (junk : list Z) (F : list Z) (args : list varg) (t : list (list Z))
    (Hjunk : zlen junk = 256) :
  match vprintfmt log F args [] with
  | Ret _ out => exists ks rest,
      user_vcprintf junk F args t = Ret (s32 (zlen out)) (t ++ ks ++ [rest]) /\
      mjoin (ks ++ [rest]) = map u8 out /\ Forall (fun k => zlen k = 255) ks /\ zlen rest < 255
  | UB => user_vcprintf junk F args t = UB
  | _ => False
  end.
Proof.
  unfold user_vcprintf.
  pose proof (vprintfmt_sim (user_rel t) log user_putch) as HS.
  specialize (HS ltac:(intros c o b HR; destruct (user_rel_step t c o b HR) as (b' & -> & HR'); exact HR')
    F args [] (mk_pbuf 0 0 junk t)).
  assert (user_rel t [] (mk_pbuf 0 0 junk t)) as H0.
  { exists []. cbn [calls idx pbuf pcnt]. rewrite app_nil_r. split_and!; [done|done|done|lia|lia|done|done]. }
  specialize (HS H0). pose proof (vprintfmt_at_ok log ltac:(done) F (mk_pst [] args)) as Hok.
  unfold vprintfmt in *.
  destruct (vprintfmt_at log 1 F _) as [[] [out l]| | |]; [|done..|];
    destruct (vprintfmt_at user_putch 1 F _) as [[] [b l']| | |]; try done.
  destruct HS as (ks & H1 & H2 & H3 & H4 & H5 & H6). cbn [pout] in *.
  exists ks, (take (Z.to_nat (idx b)) (pbuf b)). rewrite H1, H6, <-app_assoc. split_and!; [done| |done|].
  - rewrite join_app. cbn. by rewrite app_nil_r.
  - unfold zlen in *. rewrite length_take. lia.
Qed.
Lemma user_vcprintf_batches_witness :
  exists ks rest, user_vcprintf (replicate 256 0) (lit "%300d") [AInt 9] [] = Ret 300 (ks ++ [rest]) /\
    Forall (fun k => zlen k = 255) ks /\ mjoin (ks ++ [rest]) = replicate 299 32 ++ [57].
Proof.
  pose proof (user_vcprintf_batches (replicate 256 0) (lit "%300d") [AInt 9] [] eq_refl) as H.
  assert (vprintfmt log (lit "%300d") [AInt 9] [] = Ret tt (replicate 299 32 ++ [57])) as E
    by (vm_compute; reflexivity).
  rewrite E in H. destruct H as (ks & rest & H1 & H2 & H3 & _). exists ks, rest.
  split; [exact H1|]. split; [exact H3|exact H2].
Defined.

(** The comment on the [-] flag says it pads on the right; [printnum] pads on
    the left, with the character [-] itself. *)
Lemma minus_flag_pads_left :
  vprintfmt log (lit "%-5d") [AInt 42] [] = Ret tt (bytes "---42").
Proof. vm_compute. reflexivity. Qed.
