(* ===== verification/XLock.v ===== *)
(** * Locks of xv6

    [xv6/spinlock.c] and [xv6/sleeplock.c].

    Spin locks are modelled at the grain at which processors interleave: each
    CPU runs [acquire] or [release] one shared-memory access at a time, and any
    CPU may move next.  A CPU's [pc] says how far it is inside an operation;
    [Out] is the code that calls them (interrupt handlers included, which can
    run on a CPU only while its interrupts are enabled).  [xchg] is atomic; a
    CPU is its index, which is what [mycpu] computes from the local APIC. *)
From S2P Require Import Prelude.

(** [struct cpu]: the interrupt flag of [eflags], and the nesting. *)
Record cpu := mk_cpu { ifl : bool; ncli : Z; intena : bool }.

Definition pushcli (c : cpu) : cpu :=
  let eflags := ifl c in
  mk_cpu false (ncli c + 1) (if ncli c =? 0 then eflags else intena c).

(** [None]: a panic. *)
Definition popcli (c : cpu) : option cpu :=
  if ifl c then None else
  let n := ncli c - 1 in
  if n <? 0 then None else
  Some (mk_cpu ((n =? 0) && intena c) n (intena c)).

(** [struct spinlock], without its debugging name and call stack. *)
Record spinlock := mk_lock { locked : bool; lcpu : option Z }.
Definition initlock : spinlock := mk_lock false None.

(** How far a CPU is in [acquire(lk)] or [release(lk)]. *)
Inductive pc :=
| Out
| Acq_locked (l : Z)   (* both [pushcli]s done; [holding] reads [lk->locked] *)
| Acq_cpu (l : Z)      (* [lk->locked] was set; [holding] reads [lk->cpu] *)
| Acq_spin (l : Z)     (* at [while(xchg(&lk->locked, 1) != 0)] *)
| Acq_own (l : Z)      (* the exchange returned 0; at [lk->cpu = mycpu()] *)
| Rel_locked (l : Z)   (* in [release]: [holding] reads [lk->locked] *)
| Rel_cpu (l : Z)      (* [holding] reads [lk->cpu] *)
| Rel_clear (l : Z)    (* at [lk->cpu = 0] *)
| Rel_unlock (l : Z)   (* at the store of 0 to [lk->locked] *)
| Rel_pop (l : Z)      (* at [popcli()] *)
| Panic_acquire (l : Z) | Panic_release (l : Z) | Panic_popcli.

(** The machine; [held c] are the locks [acquire] gave to CPU [c] and [release]
    has not yet let go. *)
Record mach := mk_mach
  { mcpu : Z -> cpu; mlock : Z -> spinlock; mpc : Z -> pc; held : Z -> list Z }.

Definition upd {A} (f : Z -> A) (k : Z) (v : A) : Z -> A :=
  fun x => if decide (x = k) then v else f x.

(** CPU [c] goes on to [p] with its own state [x]. *)
Definition at_pc (m : mach) (c : Z) (x : cpu) (p : pc) : mach :=
  mk_mach (upd (mcpu m) c x) (mlock m) (upd (mpc m) c p) (held m).
Definition set_lock (m : mach) (l : Z) (x : spinlock) : mach :=
  mk_mach (mcpu m) (upd (mlock m) l x) (mpc m) (held m).
Definition set_held (m : mach) (c : Z) (h : list Z) : mach :=
  mk_mach (mcpu m) (mlock m) (mpc m) (upd (held m) c h).

(** After a [popcli]. *)
Definition popped (m : mach) (c : Z) (p : pc) : mach :=
  match popcli (mcpu m c) with
  | Some x => at_pc m c x p
  | None => at_pc m c (mcpu m c) Panic_popcli
  end.

(** One access of CPU [c]; [Out] waits for a call. *)
Definition cpu_step (m : mach) (c : Z) : mach :=
  match mpc m c with
  | Acq_locked l =>
      if locked (mlock m l) then at_pc m c (mcpu m c) (Acq_cpu l)
      else popped m c (Acq_spin l)
  | Acq_cpu l =>
      if decide (lcpu (mlock m l) = Some c) then popped m c (Panic_acquire l)
      else popped m c (Acq_spin l)
  | Acq_spin l =>
      let m' := set_lock m l (mk_lock true (lcpu (mlock m l))) in
      if locked (mlock m l) then m' else at_pc m' c (mcpu m c) (Acq_own l)
  | Acq_own l =>
      at_pc (set_held (set_lock m l (mk_lock (locked (mlock m l)) (Some c))) c (l :: held m c))
            c (mcpu m c) Out
  | Rel_locked l =>
      if locked (mlock m l) then at_pc m c (mcpu m c) (Rel_cpu l)
      else popped m c (Panic_release l)
  | Rel_cpu l =>
      if decide (lcpu (mlock m l) = Some c) then popped m c (Rel_clear l)
      else popped m c (Panic_release l)
  | Rel_clear l =>
      at_pc (set_lock m l (mk_lock (locked (mlock m l)) None)) c (mcpu m c) (Rel_unlock l)
  | Rel_unlock l =>
      at_pc (set_held (set_lock m l (mk_lock false (lcpu (mlock m l)))) c
               (filter (fun k => k <> l) (held m c))) c (mcpu m c) (Rel_pop l)
  | Rel_pop l => popped m c Out
  | Out | Panic_acquire _ | Panic_release _ | Panic_popcli => m
  end.

Inductive mstep (m : mach) : mach -> Prop :=
| ms_acquire c l : mpc m c = Out ->   (* the caller enters [acquire(l)] *)
    mstep m (at_pc m c (pushcli (pushcli (mcpu m c))) (Acq_locked l))
| ms_release c l : mpc m c = Out ->   (* the caller enters [release(l)] *)
    mstep m (at_pc m c (pushcli (mcpu m c)) (Rel_locked l))
| ms_step c : mstep m (cpu_step m c)
| ms_irq c b : mpc m c = Out -> ncli (mcpu m c) = 0 ->  (* [cli] and [sti] outside *)
    mstep m (at_pc m c (mk_cpu b 0 (intena (mcpu m c))) Out).

Definition mach0 (irq : Z -> bool) : mach :=
  mk_mach (fun c => mk_cpu (irq c) 0 false) (fun _ => initlock) (fun _ => Out) (fun _ => []).

(** CPU [c] owns the lock: from the successful exchange to the store of 0. *)
Definition owns (m : mach) (c l : Z) : Prop := mpc m c = Acq_own l \/ l ∈ held m c.

(** The [pushcli]s an operation has pending beyond the held locks. *)
Definition pending (p : pc) : Z :=
  match p with
  | Acq_locked _ | Acq_cpu _ => 2
  | Acq_spin _ | Acq_own _ | Rel_locked _ | Rel_cpu _ | Rel_pop _ | Panic_acquire _ => 1
  | _ => 0
  end.

(** What a CPU knows at each point. *)
Definition pc_ok (m : mach) (c : Z) : Prop :=
  match mpc m c with
  | Acq_spin l | Acq_own l => l ∉ held m c
  | Rel_clear l | Rel_unlock l | Panic_acquire l => l ∈ held m c
  | Rel_pop l | Panic_release l => l ∉ held m c
  | Panic_popcli => False
  | _ => True
  end.

Record mach_ok (m : mach) : Prop := {
  mo_locked : forall l, locked (mlock m l) = true <-> exists c, owns m c l;
  mo_excl : forall c c' l, owns m c l -> owns m c' l -> c = c';
  mo_cpu : forall c l, lcpu (mlock m l) = Some c <-> l ∈ held m c /\ mpc m c <> Rel_unlock l;
  mo_nodup : forall c, NoDup (held m c);
  mo_ncli : forall c, ncli (mcpu m c) = zlen (held m c) + pending (mpc m c);
  mo_if : forall c, 0 < ncli (mcpu m c) -> ifl (mcpu m c) = false;
  mo_pc : forall c, pc_ok m c;
}.

Lemma upd_eq {A} (f : Z -> A) k v : upd f k v k = v.
Proof. unfold upd. by rewrite decide_True. Qed.
Lemma upd_ne {A} (f : Z -> A) k v x : x <> k -> upd f k v x = f x.
Proof. unfold upd. intros. by rewrite decide_False. Qed.

Section Steps.
Implicit Types (m : mach) (c l : Z).

Lemma pushcli_ok x : ncli (pushcli x) = ncli x + 1 /\ ifl (pushcli x) = false.
Proof. done. Qed.
Lemma popcli_ok x : ifl x = false -> 0 < ncli x ->
  exists x', popcli x = Some x' /\ ncli x' = ncli x - 1 /\ (0 < ncli x' -> ifl x' = false).
Proof.
  intros Hi Hn. unfold popcli. rewrite Hi. destruct (Z.ltb_spec (ncli x - 1) 0); [lia|].
  eexists. split; [done|]. cbn. split; [done|]. intros. destruct (Z.eqb_spec (ncli x - 1) 0); [lia|done].
Qed.
(** Matched calls leave the interrupt flag as it was. *)
Lemma push_pop x : 0 <= ncli x -> (0 < ncli x -> ifl x = false) ->
  exists x', popcli (pushcli x) = Some x' /\ ifl x' = ifl x /\ ncli x' = ncli x.
Proof.
  intros Hn Hi. unfold popcli, pushcli. cbn. destruct (Z.ltb_spec (ncli x + 1 - 1) 0); [lia|].
  eexists. split; [done|]. cbn. split; [|lia].
  destruct (Z.eqb_spec (ncli x) 0) as [->|]; cbn; [done|]. rewrite (Hi ltac:(lia)).
  destruct (Z.eqb_spec (ncli x + 1 - 1) 0); [lia|done].
Qed.

Lemma at_pc_get m c x p c' :
  mpc (at_pc m c x p) c' = (if decide (c' = c) then p else mpc m c') /\
  mcpu (at_pc m c x p) c' = (if decide (c' = c) then x else mcpu m c').
Proof. done. Qed.

(** A step of CPU [c] that touches neither locks nor what it holds. *)
Lemma at_pc_ok m c x p : mach_ok m ->
  (forall l, p = Acq_own l <-> mpc m c = Acq_own l) ->
  (forall l, p = Rel_unlock l <-> mpc m c = Rel_unlock l) ->
  ncli x = zlen (held m c) + pending p -> (0 < ncli x -> ifl x = false) ->
  pc_ok (at_pc m c x p) c -> mach_ok (at_pc m c x p).
Proof.
  intros [A1 A2 A3 A4 A5 A6 A7] Hown Hun Hn Hif Hpc.
  assert (forall c' l, owns (at_pc m c x p) c' l <-> owns m c' l) as Ho.
  { intros c' l. unfold owns, at_pc, upd. cbn. case_decide; [subst; by rewrite Hown|done]. }
  split.
  - intros l. cbn. rewrite A1. split; intros [c' H]; exists c'; by apply Ho.
  - intros c1 c2 l ?%Ho ?%Ho. eauto.
  - intros c' l. cbn. rewrite A3. unfold upd. case_decide; [subst|done].
    split; intros [? H]; (split; [done|]); intros E; apply H; by apply Hun.
  - done.
  - intros c'. cbn. unfold upd. case_decide; [by subst|done].
  - intros c'. cbn. unfold upd. case_decide; [by subst|apply A6].
  - intros c'. destruct (decide (c' = c)) as [->|Hc]; [done|].
    specialize (A7 c'). revert A7. unfold pc_ok. cbn. by rewrite upd_ne by done.
Qed.

(** The same for a step that ends in [popcli]. *)
Lemma popped_ok m c p : mach_ok m ->
  (forall l, p = Acq_own l <-> mpc m c = Acq_own l) ->
  (forall l, p = Rel_unlock l <-> mpc m c = Rel_unlock l) ->
  pending (mpc m c) = pending p + 1 ->
  (forall x, pc_ok (at_pc m c x p) c) -> mach_ok (popped m c p).
Proof.
  intros Hm Hown Hun Hp Hpc. pose proof (mo_ncli _ Hm c) as Hn. pose proof (zlen_nonneg (held m c)).
  assert (0 <= pending p) by (destruct p; cbn; lia).
  destruct (popcli_ok (mcpu m c)) as (x' & E & Hx & Hi); [apply (mo_if _ Hm); lia|lia|].
  unfold popped. rewrite E. apply at_pc_ok; [done..|lia|done|apply Hpc].
Qed.

(** The four accesses that write the lock. *)
Lemma spin_fail_ok m c l : mach_ok m -> locked (mlock m l) = true ->
  mach_ok (set_lock m l (mk_lock true (lcpu (mlock m l)))).
Proof.
  intros [A1 A2 A3 A4 A5 A6 A7] Hl.
  split; [|exact A2| |exact A4|exact A5|exact A6|exact A7].
  - intros k. cbn. unfold upd. case_decide; [subst|exact (A1 k)]. cbn.
    split; [intros _; exact (proj1 (A1 l) Hl)|done].
  - intros c' k. cbn. unfold upd. case_decide; [subst|]; cbn; apply A3.
Qed.

Lemma spin_ok m c l : mach_ok m -> mpc m c = Acq_spin l -> locked (mlock m l) = false ->
  mach_ok (at_pc (set_lock m l (mk_lock true (lcpu (mlock m l)))) c (mcpu m c) (Acq_own l)).
Proof.
  intros [A1 A2 A3 A4 A5 A6 A7] Hp Hl.
  set (m' := at_pc _ _ _ _).
  assert (forall c', ~ owns m c' l) as Hfree.
  { intros c' Ho. assert (locked (mlock m l) = true) by (apply A1; eauto). congruence. }
  assert (forall c' k, owns m' c' k <-> (c' = c /\ k = l) \/ owns m c' k) as Ho.
  { intros c' k. unfold owns, m', at_pc, upd. cbn. case_decide; [subst|naive_solver].
    rewrite Hp. split; [intros [[= ->]|?]; auto|intros [[_ ->]|[?|?]]; auto; done]. }
  split.
  - intros k. cbn. unfold upd. case_decide as Ek; [subst k|]; cbn.
    + split; [|done]. intros _. exists c. apply Ho. by left.
    + rewrite A1. split; intros [c' H]; exists c'; [apply Ho; by right|].
      apply Ho in H as [[_ ?]|?]; [congruence|done].
  - intros c1 c2 k [[-> ->]|H1]%Ho [[-> H2']|H2]%Ho; [done| | |eauto]; subst; by edestruct Hfree.
  - intros c' k. cbn. unfold upd at 1. transitivity (lcpu (mlock m k) = Some c'); [by case_decide; subst|].
    rewrite A3. unfold upd. case_decide; [subst|done]. rewrite Hp.
    split; intros [? _]; split; done || discriminate.
  - done.
  - intros c'. cbn. unfold upd. case_decide; [subst|apply A5]. by rewrite A5, Hp.
  - intros c'. cbn. unfold upd. case_decide; [subst|]; apply A6.
  - intros c'. specialize (A7 c'). revert A7. unfold pc_ok. cbn. unfold upd. case_decide; [subst|done].
    by rewrite Hp.
Qed.

Lemma own_ok m c l : mach_ok m -> mpc m c = Acq_own l ->
  mach_ok (at_pc (set_held (set_lock m l (mk_lock (locked (mlock m l)) (Some c))) c (l :: held m c))
            c (mcpu m c) Out).
Proof.
  intros [A1 A2 A3 A4 A5 A6 A7] Hp. set (m' := at_pc _ _ _ _).
  pose proof (A7 c) as Hnot. unfold pc_ok in Hnot. rewrite Hp in Hnot.
  assert (forall c' k, owns m' c' k <-> owns m c' k) as Ho.
  { intros c' k. unfold owns, m', at_pc, set_held, set_lock, upd. cbn. case_decide; [subst|done].
    rewrite Hp, elem_of_cons. split; [intros [?|[->|?]]; auto; done|intros [[= ->]|?]; auto]. }
  assert (forall c', l ∈ held m c' -> False) as Hl.
  { intros c' H. assert (c' = c) as -> by (apply (A2 c' c l); [by right|by left]). done. }
  split.
  - intros k. cbn. transitivity (locked (mlock m k) = true); [unfold upd; by case_decide; subst|].
    rewrite A1. split; intros [c' H]; exists c'; by apply Ho.
  - intros c1 c2 k ?%Ho ?%Ho. eauto.
  - intros c' k. cbn. unfold upd. destruct (decide (k = l)) as [->|Hk]; cbn.
    + case_decide; [subst|].
      * split; [|done]. intros _. split; [left|done].
      * split; [congruence|]. intros [Hin _]. by destruct (Hl c').
    + rewrite A3. case_decide; [subst|done]. rewrite Hp, elem_of_cons. naive_solver.
  - intros c'. cbn. unfold upd. case_decide; [|done]. apply NoDup_cons. auto.
  - intros c'. cbn. unfold upd. case_decide; [subst|apply A5].
    rewrite A5, Hp, zlen_cons. cbn. lia.
  - intros c'. cbn. unfold upd. case_decide; [subst|]; apply A6.
  - intros c'. specialize (A7 c'). revert A7. unfold pc_ok. cbn. unfold upd. by case_decide.
Qed.

Lemma clear_ok m c l : mach_ok m -> mpc m c = Rel_clear l ->
  mach_ok (at_pc (set_lock m l (mk_lock (locked (mlock m l)) None)) c (mcpu m c) (Rel_unlock l)).
Proof.
  intros [A1 A2 A3 A4 A5 A6 A7] Hp. set (m' := at_pc _ _ _ _).
  pose proof (A7 c) as Hin. unfold pc_ok in Hin. rewrite Hp in Hin.
  assert (forall c' k, owns m' c' k <-> owns m c' k) as Ho.
  { intros c' k. unfold owns, m', at_pc, set_lock, upd. cbn. case_decide; [subst|done].
    rewrite Hp. naive_solver. }
  split.
  - intros k. cbn. transitivity (locked (mlock m k) = true); [unfold upd; by case_decide; subst|].
    rewrite A1. split; intros [c' H]; exists c'; by apply Ho.
  - intros c1 c2 k ?%Ho ?%Ho. eauto.
  - intros c' k. cbn. unfold upd. destruct (decide (k = l)) as [->|Hk]; cbn.
    + split; [done|]. intros [Hc' Hn]. case_decide; [done|].
      assert (c' = c) by (apply (A2 c' c l); by right). done.
    + rewrite A3. case_decide; [subst|done]. rewrite Hp. split; intros [? _]; split; done || congruence.
  - done.
  - intros c'. cbn. unfold upd. case_decide; [subst|apply A5]. by rewrite A5, Hp.
  - intros c'. cbn. unfold upd. case_decide; [subst|]; apply A6.
  - intros c'. specialize (A7 c'). revert A7. unfold pc_ok. cbn. unfold upd. case_decide; [by subst|done].
Qed.

Lemma zlen_filter_ne (l : Z) (h : list Z) : NoDup h -> l ∈ h -> zlen (filter (fun k => k <> l) h) = zlen h - 1.
Proof.
  induction 1 as [|x h Hx Hd IH]; [by intros ?%elem_of_nil|]. rewrite list.filter_cons.
  intros [->|Hin]%elem_of_cons.
  - rewrite decide_False by tauto. rewrite zlen_cons.
    enough (filter (fun k => k <> x) h = h) as -> by lia. clear -Hx.
    induction h as [|y h IH]; [done|]. apply not_elem_of_cons in Hx as [? ?].
    rewrite list.filter_cons, decide_True by done. by rewrite IH.
  - case_decide; [|subst; done]. rewrite !zlen_cons, IH by done. lia.
Qed.

Lemma unlock_ok m c l : mach_ok m -> mpc m c = Rel_unlock l ->
  mach_ok (at_pc (set_held (set_lock m l (mk_lock false (lcpu (mlock m l)))) c
                    (filter (fun k => k <> l) (held m c))) c (mcpu m c) (Rel_pop l)).
Proof.
  intros [A1 A2 A3 A4 A5 A6 A7] Hp. set (m' := at_pc _ _ _ _).
  pose proof (A7 c) as Hin. unfold pc_ok in Hin. rewrite Hp in Hin.
  assert (forall c', owns m c' l -> c' = c) as Hu by (intros c' H; apply (A2 c' c l); [done|by right]).
  assert (forall c' k, owns m' c' k <-> owns m c' k /\ k <> l) as Ho.
  { intros c' k. unfold owns, m', at_pc, set_held, set_lock, upd. cbn. case_decide as Ec.
    - subst. rewrite Hp, list_elem_of_filter. split; [intros [?|[? ?]]; [done|tauto]|intros [[?|?] ?]; [done|tauto]].
    - split; [|tauto]. intros H. split; [done|]. intros ->. apply Ec, Hu, H. }
  split.
  - intros k. cbn. unfold upd. case_decide as Ek; [subst|]; cbn.
    + split; [done|]. intros [c' [_ ?]%Ho]. done.
    + rewrite A1. split; intros [c' H]; exists c'; [by apply Ho|by apply Ho in H as [? _]].
  - intros c1 c2 k [? _]%Ho [? _]%Ho. eauto.
  - intros c' k. cbn. transitivity (lcpu (mlock m k) = Some c'); [unfold upd; by case_decide; subst|].
    rewrite A3. unfold upd. case_decide; [subst|done]. rewrite Hp, list_elem_of_filter.
    split; intros [H1 H2]; split; try done; [split; [congruence|done]|tauto|].
    destruct H1 as [? _]. congruence.
  - intros c'. cbn. unfold upd. case_decide; [|done]. by apply list.NoDup_filter.
  - intros c'. cbn. unfold upd. case_decide; [subst|apply A5].
    rewrite A5, Hp, zlen_filter_ne by done. cbn. lia.
  - intros c'. cbn. unfold upd. case_decide; [subst|]; apply A6.
  - intros c'. specialize (A7 c'). revert A7. unfold pc_ok. cbn. unfold upd. case_decide; [subst|done].
    intros _. rewrite list_elem_of_filter. tauto.
Qed.
End Steps.

Lemma cpu_step_ok m c : mach_ok m -> mach_ok (cpu_step m c).
Proof.
  intros Hm. unfold cpu_step. pose proof (mo_ncli _ Hm c) as Hn. pose proof (mo_if _ Hm c) as Hif.
  pose proof (mo_pc _ Hm c) as Hpc. unfold pc_ok in Hpc. pose proof (zlen_nonneg (held m c)).
  destruct (mpc m c) as [|l|l|l|l|l|l|l|l|l|l|l|] eqn:Hp; try exact Hm.
  - destruct (locked (mlock m l)) eqn:Hl.
    + apply at_pc_ok; rewrite ?Hp; try done. unfold pc_ok. cbn. by rewrite upd_eq.
    + apply popped_ok; rewrite ?Hp; try done. intros x. unfold pc_ok. cbn. rewrite upd_eq. intros Hh.
      assert (locked (mlock m l) = true) by (apply (mo_locked _ Hm); exists c; by right). congruence.
  - destruct (decide _) as [Hc|Hc]; apply popped_ok; rewrite ?Hp; try done; intros x; unfold pc_ok; cbn;
      rewrite upd_eq.
    + by apply (mo_cpu _ Hm) in Hc as [? _].
    + intros Hh. apply Hc, (mo_cpu _ Hm). by rewrite Hp.
  - destruct (locked (mlock m l)) eqn:Hl; [by apply spin_fail_ok|by apply spin_ok].
  - by apply own_ok.
  - destruct (locked (mlock m l)) eqn:Hl.
    + apply at_pc_ok; rewrite ?Hp; try done. unfold pc_ok. cbn. by rewrite upd_eq.
    + apply popped_ok; rewrite ?Hp; try done. intros x. unfold pc_ok. cbn. rewrite upd_eq. intros Hh.
      assert (locked (mlock m l) = true) by (apply (mo_locked _ Hm); exists c; by right). congruence.
  - destruct (decide _) as [Hc|Hc]; apply popped_ok; rewrite ?Hp; try done; intros x; unfold pc_ok; cbn;
      rewrite upd_eq.
    + by apply (mo_cpu _ Hm) in Hc as [? _].
    + intros Hh. apply Hc, (mo_cpu _ Hm). by rewrite Hp.
  - by apply clear_ok.
  - by apply unlock_ok.
  - apply popped_ok; rewrite ?Hp; try done. intros x. unfold pc_ok. cbn. by rewrite upd_eq.
Qed.

Lemma mstep_ok m m' : mstep m m' -> mach_ok m -> mach_ok m'.
Proof.
  intros Hs Hm. destruct Hs as [c l Hp|c l Hp|c|c b Hp Hn].
  - pose proof (mo_ncli _ Hm c) as Hn. rewrite Hp in Hn. cbn in Hn.
    apply at_pc_ok; rewrite ?Hp; try done; [cbn; lia|]. unfold pc_ok. cbn. by rewrite upd_eq.
  - pose proof (mo_ncli _ Hm c) as Hn. rewrite Hp in Hn. cbn in Hn.
    apply at_pc_ok; rewrite ?Hp; try done; [cbn; lia|]. unfold pc_ok. cbn. by rewrite upd_eq.
  - by apply cpu_step_ok.
  - pose proof (mo_ncli _ Hm c) as Hn'. rewrite Hp in Hn'. cbn in Hn'.
    apply at_pc_ok; rewrite ?Hp; try done; [cbn; lia|]. unfold pc_ok. cbn. by rewrite upd_eq.
Qed.

Lemma mach0_ok irq : mach_ok (mach0 irq).
Proof.
  split; cbn.
  - intros l. split; [done|]. intros [c [?|H]]; [done|by apply elem_of_nil in H].
  - intros c c' l [?|H]; [done|by apply elem_of_nil in H].
  - intros c l. split; [done|]. intros [H _]. by apply elem_of_nil in H.
  - intros c. constructor.
  - done.
  - intros c ?. lia.
  - intros c. done.
Qed.
Lemma msteps_ok irq m : rtc mstep (mach0 irq) m -> mach_ok m.
Proof.
  intros H. enough (G : forall a b, rtc mstep a b -> mach_ok a -> mach_ok b) by (eapply G; [exact H|apply mach0_ok]).
  induction 1; eauto using mstep_ok.
Qed.


(** CPU 0 takes lock 5 while CPU 1 spins on it. *)
Definition contended : mach :=
  let m0 := mach0 (fun _ => true) in
  let m1 := at_pc m0 0 (pushcli (pushcli (mcpu m0 0))) (Acq_locked 5) in
  let m2 := at_pc m1 1 (pushcli (pushcli (mcpu m1 1))) (Acq_locked 5) in
  let m3 := cpu_step m2 1 in   (* CPU 1 saw the lock free ... *)
  let m4 := cpu_step (cpu_step (cpu_step m3 0) 0) 0 in   (* ... but CPU 0 takes it *)
  cpu_step m4 1.

(** ** Sleep locks

    The spin lock [lk->lk] makes each segment of these calls atomic; [sleep]
    gives it up, and the call resumes at the loop test. *)

(** How a segment of a call that may sleep ends. *)
Inductive seg (K R : Type) :=
| Done (r : R)      (* the call returns *)
| Asleep (k : K).   (* it sleeps and will resume with [k] *)
Arguments Done {K R} r.
Arguments Asleep {K R} k.

Record sleeplock := mk_slock { slocked : bool; spid : Z }.
Definition initsleeplock : sleeplock := mk_slock false 0.

(** The lock and the processes asleep on it. *)
Record slst := mk_slst { sl : sleeplock; sleepers : list Z }.

Definition acquiresleep (pid : Z) : M slst (seg unit unit) :=
  s ← get;
  if slocked (sl s) then
    modify (fun s => mk_slst (sl s) (pid :: sleepers s));; mret (Asleep tt)
  else modify (fun s => mk_slst (mk_slock true pid) (sleepers s));; mret (Done tt).

Definition releasesleep : M slst unit :=
  modify (fun s => mk_slst (mk_slock false 0) (sleepers s));;
  modify (fun s => mk_slst (sl s) []).                 (* wakeup(lk) *)

Definition holdingsleep (pid : Z) : M slst bool :=
  s ← get; mret (slocked (sl s) && (spid (sl s) =? pid)).

(** The users: who has acquired the lock and not released it. *)
Record slsys := mk_slsys { slx : slst; owner : list Z }.
Inductive slstep (x : slsys) : slsys -> Prop :=
| sl_acquire pid r s' : pid ∉ sleepers (slx x) -> pid ∉ owner x ->
    acquiresleep pid (slx x) = Ret r s' ->
    slstep x (mk_slsys s' (match r with Done _ => pid :: owner x | Asleep _ => owner x end))
| sl_release pid s' : pid ∈ owner x -> releasesleep (slx x) = Ret tt s' ->
    slstep x (mk_slsys s' (filter (fun p => p <> pid) (owner x))).

(** One owner at most; [holdingsleep] recognises it; nobody sleeps on a free lock. *)
Definition sl_ok (x : slsys) : Prop :=
  owner x = (if slocked (sl (slx x)) then [spid (sl (slx x))] else []) /\
  (sleepers (slx x) <> [] -> slocked (sl (slx x)) = true).
Lemma slstep_ok x y : slstep x y -> sl_ok x -> sl_ok y.
Proof.
  intros Hs [H1 H2]. destruct Hs as [pid r s' Hp Ho Hrun|pid s' Ho Hrun].
  - unfold acquiresleep in Hrun. revert Hrun. exec. destruct (slocked (sl (slx x))) eqn:E.
    + intros [= <- <-]. split; cbn; rewrite E; [exact H1|done].
    + intros [= <- <-]. split; cbn; [by rewrite H1|done].
  - injection Hrun as <-. split; cbn; [|by intros []].
    destruct (slocked (sl (slx x))); rewrite H1 in Ho |- *; [|by apply elem_of_nil in Ho].
    apply list_elem_of_singleton in Ho as ->. rewrite list.filter_cons. by rewrite decide_False by tauto.
Qed.
Lemma slsteps_ok y : rtc slstep (mk_slsys (mk_slst initsleeplock []) []) y -> sl_ok y.
Proof.
  enough (G : forall a b, rtc slstep a b -> sl_ok a -> sl_ok b) by (intros H; by eapply G).
  induction 1; eauto using slstep_ok.
Qed.
Lemma holdingsleep_ok x pid : sl_ok x ->
  holdingsleep pid (slx x) = Ret (bool_decide (pid ∈ owner x)) (slx x).
Proof.
  intros [H1 _]. unfold holdingsleep. exec. rewrite H1. unfold mret, M_ret. f_equal.
  destruct (slocked (sl (slx x))); cbn; [|done].
  destruct (Z.eqb_spec (spid (sl (slx x))) pid) as [->|Hne]; symmetry; [apply bool_decide_eq_true|apply bool_decide_eq_false].
  - left.
  - rewrite list_elem_of_singleton. congruence.
Qed.
