(* ===== verification/XKalloc.v ===== *)
(** * The page allocator of xv6

    [xv6/kalloc.c]: a free list threaded through the free pages themselves, the
    first word of a free page being the address of the next.  Memory is a map of
    32-bit words; [kend] is the linker's symbol [end].  The lock [kmem.lock] is
    a flag here (its mutual exclusion is [XLock]'s): [acquire] panics when it is
    already held, as it does in the CPU that holds it. *)
From S2P Require Import Prelude.

Definition PGSIZE : Z := 4096.
Definition KERNBASE : Z := 2147483648.    (* 0x80000000 *)
Definition PHYSTOP : Z := 234881024.      (* 0xE000000 *)
Definition V2P (a : Z) : Z := u32 (a - KERNBASE).
Definition PGROUNDUP (sz : Z) : Z := Z.land (u32 (sz + PGSIZE - 1)) 4294963200.

Record kmem := mk_kmem { kmw : gmap Z Z; freelist : Z; use_lock : bool; klocked : bool }.
Definition set_free (s : kmem) (m : gmap Z Z) (f : Z) : kmem := mk_kmem m f (use_lock s) (klocked s).

Definition acquire_kmem : M kmem unit :=
  s ← get;
  when (use_lock s)
    (if klocked s then panic "acquire"
     else modify (fun s => mk_kmem (kmw s) (freelist s) (use_lock s) true)).
Definition release_kmem : M kmem unit :=
  s ← get;
  when (use_lock s)
    (if klocked s then modify (fun s => mk_kmem (kmw s) (freelist s) (use_lock s) false)
     else panic "release").

(** The words of the page at [v]. *)
Definition page_words (v : Z) : list Z := map (fun i => v + 4 * i) (seqZ 0 1024).

Section Kalloc.
Variable kend : Z.

Definition kfree (v : Z) : M kmem unit :=
  if negb (v `mod` PGSIZE =? 0) || (v <? kend) || (PHYSTOP <=? V2P v) then panic "kfree" else
  modify (fun s => set_free s (fillw (kmw s) (page_words v) 16843009) (freelist s));;  (* memset(v, 1, PGSIZE) *)
  acquire_kmem;;
  modify (fun s => set_free s (wrw (kmw s) v (freelist s)) v);;
  release_kmem.

Definition kalloc : M kmem Z :=
  acquire_kmem;;
  r ← gets freelist;
  when (negb (r =? 0)) (modify (fun s => set_free s (kmw s) (rdw (kmw s) r)));;
  release_kmem;;
  mret r.

(** [for(; p + PGSIZE <= vend; p += PGSIZE) kfree(p)] *)
Fixpoint freerange_loop (n : nat) (p vend : Z) : M kmem unit :=
  match n with
  | O => mret tt
  | S n => if p + PGSIZE <=? vend then kfree p;; freerange_loop n (p + PGSIZE) vend else mret tt
  end.
Definition freerange (vstart vend : Z) : M kmem unit :=
  let p := PGROUNDUP (u32 vstart) in
  freerange_loop (Z.to_nat ((vend - p) / PGSIZE + 1)) p vend.

Definition kinit1 (vstart vend : Z) : M kmem unit :=
  modify (fun s => mk_kmem (kmw s) (freelist s) false false);; freerange vstart vend.
Definition kinit2 (vstart vend : Z) : M kmem unit :=
  freerange vstart vend;; modify (fun s => mk_kmem (kmw s) (freelist s) true (klocked s)).

(** ** The free list *)

(** A page the allocator manages. *)
Definition kpage (v : Z) : Prop :=
  v `mod` PGSIZE = 0 /\ kend <= v /\ V2P v < PHYSTOP /\ 0 < v.

(** [l] is the chain of free pages from [p]. *)
Fixpoint chain (m : gmap Z Z) (p : Z) (l : list Z) : Prop :=
  match l with [] => p = 0 | x :: l => p = x /\ chain m (rdw m x) l end.
Record kmem_ok (s : kmem) (l : list Z) : Prop := {
  km_chain : chain (kmw s) (freelist s) l;
  km_pages : Forall kpage l;
  km_nodup : NoDup l;
  km_lock : klocked s = false;
}.

Lemma chain_frame m m' p l : (forall x, x ∈ l -> rdw m' x = rdw m x) -> chain m p l -> chain m' p l.
Proof.
  revert p. induction l as [|x l IH]; intros p Hf; [done|]. cbn. intros [-> H]. split; [done|].
  rewrite Hf by left. apply IH; [|done]. intros y Hy. apply Hf. by right.
Qed.
Lemma elem_page_words v a : a ∈ page_words v <-> exists i, a = v + 4 * i /\ 0 <= i < 1024.
Proof.
  unfold page_words. rewrite list_elem_of_fmap. setoid_rewrite elem_of_seqZ.
  split; intros (i & -> & H); exists i; split; try done; lia.
Qed.
(** Pages are aligned, so that the words of one are no words of another. *)
Lemma page_words_disj v w a : v `mod` PGSIZE = 0 -> w `mod` PGSIZE = 0 -> v <> w ->
  a ∈ page_words v -> a ∉ page_words w.
Proof.
  intros Hv Hw Hne (i & -> & Hi)%elem_page_words (j & E & Hj)%elem_page_words.
  unfold PGSIZE in *. zlia.
Qed.
Lemma page_words_head v : v ∈ page_words v.
Proof. apply elem_page_words. exists 0. lia. Qed.

(** ** Every operation *)
Definition same_but (v : Z) (s s' : kmem) : Prop :=
  use_lock s' = use_lock s /\ forall a, a ∉ page_words v -> rdw (kmw s') a = rdw (kmw s) a.

Lemma kfree_ok s l v : kmem_ok s l -> kpage v -> v ∉ l ->
  exists s', kfree v s = Ret tt s' /\ kmem_ok s' (v :: l) /\ same_but v s s'.
Proof.
  intros [Hc Hp Hd Hk] (Hal & Hend & Htop & Hpos) Hv. unfold kfree.
  assert (negb (v `mod` PGSIZE =? 0) || (v <? kend) || (PHYSTOP <=? V2P v) = false) as -> by lia.
  assert (forall w, w ∈ l -> w ∉ page_words v) as Hout.
  { intros w Hw. assert (kpage w) as (Haw & _) by (by eapply Forall_forall).
    intros Hin. destruct (decide (v = w)) as [->|Hne]; [done|].
    by destruct (page_words_disj v w w Hal Haw Hne Hin (page_words_head w)). }
  set (m := wrw (fillw (kmw s) (page_words v) 16843009) v (freelist s)).
  exists (mk_kmem m v (use_lock s) false). split; [|split].
  - exec. unfold acquire_kmem, release_kmem. exec. cbn. rewrite Hk.
    destruct (use_lock s) eqn:Eu; cbn; exec; cbn; rewrite ?Hk, ?Eu; cbn; exec; unfold set_free; cbn;
      by rewrite ?Hk, ?Eu.
  - split; cbn; [|by constructor|by constructor|done]. split; [done|]. unfold m. rewrite rdw_wrw_eq.
    eapply chain_frame; [|exact Hc]. intros x Hx. rewrite rdw_wrw_ne by (intros ->; done).
    apply rdw_fillw_out. by apply Hout.
  - split; [done|]. intros a Ha. cbn. unfold m.
    rewrite rdw_wrw_ne by (intros ->; apply Ha, page_words_head). by apply rdw_fillw_out.
Qed.

(** What [kalloc] gives and leaves. *)
Lemma kalloc_ok s l : kmem_ok s l ->
  exists s', kalloc s = Ret (default 0 (head l)) s' /\ kmem_ok s' (tail l) /\
    use_lock s' = use_lock s /\ kmw s' = kmw s.
Proof.
  intros [Hc Hp Hd Hk].
  exists (mk_kmem (kmw s) (match l with [] => freelist s | _ => rdw (kmw s) (freelist s) end) (use_lock s) false).
  split; [|split; [|done]].
  - unfold kalloc, acquire_kmem, release_kmem. exec.
    assert (freelist s = default 0 (head l)) as Ef by (destruct l; cbn in *; tauto).
    assert ((freelist s =? 0) = bool_decide (l = [])) as E0.
    { rewrite Ef. destruct l as [|x l]; cbn; [done|]. apply Forall_cons in Hp as [(_ & _ & _ & ?) _]. lia. }
    destruct (use_lock s) eqn:Eu; cbn; rewrite ?Hk; cbn; exec; cbn; rewrite E0; destruct l; cbn; exec; cbn;
      rewrite ?Eu, ?Hk; cbn; exec; unfold set_free, mret, M_ret; cbn in *; rewrite ?Hk, ?Eu; subst; try done;
      by destruct s; cbn in *; subst.
  - destruct l as [|x l]; split; cbn; try done.
    + destruct Hc as [-> Hc]. done.
    + by apply Forall_cons in Hp as [_ ?].
    + by apply NoDup_cons in Hd as [_ ?].
Qed.

(** The whole pages of a range. *)
Definition range_pages (p : Z) (n : nat) : list Z := (fun i => p + PGSIZE * i) <$> seqZ 0 (Z.of_nat n).
Lemma range_pages_S p n : range_pages p (S n) = p :: range_pages (p + PGSIZE) n.
Proof.
  unfold range_pages. replace (Z.of_nat (S n)) with (Z.of_nat n + 1) by lia.
  rewrite seqZ_step by lia. cbn. f_equal; [lia|].
  change (0 + 1) with (1 + 0). rewrite <-(fmap_add_seqZ 1 0 (Z.of_nat n)).
  rewrite <-list_fmap_compose. apply list_fmap_ext. intros i x _. cbn. unfold PGSIZE. lia.
Qed.
Lemma elem_range_pages p n x : x ∈ range_pages p n -> p <= x /\ x < p + PGSIZE * Z.of_nat n.
Proof.
  unfold range_pages. rewrite list_elem_of_fmap. setoid_rewrite elem_of_seqZ.
  unfold PGSIZE. intros (i & -> & H). lia.
Qed.

Lemma freerange_loop_ok n k p vend s l :
  kmem_ok s l -> Forall kpage (range_pages p k) -> (forall x, x ∈ range_pages p k -> x ∉ l) ->
  vend - PGSIZE < p + PGSIZE * Z.of_nat k <= vend -> (k < n)%nat ->
  exists s', freerange_loop n p vend s = Ret tt s' /\
    kmem_ok s' (reverse (range_pages p k) ++ l) /\ use_lock s' = use_lock s.
Proof.
  revert n p s l. induction k as [|k IH]; intros n p s l Hs Hp Hd Hr Hn;
    (destruct n as [|n]; [lia|]); cbn [freerange_loop].
  - destruct (Z.leb_spec (p + PGSIZE) vend); [lia|]. exists s. done.
  - rewrite range_pages_S in *. apply Forall_cons in Hp as [Hp1 Hp].
    destruct (Z.leb_spec (p + PGSIZE) vend); [|unfold PGSIZE in *; lia].
    destruct (kfree_ok s l p Hs Hp1 (Hd p ltac:(left))) as (s1 & E1 & Hs1 & Hu1 & _). exec_by E1.
    destruct (IH n (p + PGSIZE) s1 (p :: l) Hs1 Hp) as (s2 & E2 & Hs2 & Hu2).
    + intros x Hx. rewrite not_elem_of_cons. split; [|apply Hd; by right].
      apply elem_range_pages in Hx. unfold PGSIZE in *. lia.
    + unfold PGSIZE in *. lia.
    + lia.
    + exists s2. split; [exact E2|]. split; [|congruence].
      rewrite reverse_cons, <-app_assoc. done.
Qed.

(** ** The allocator as a set of pages *)

(** A client's calls: [used] are the pages it has been given. *)
Inductive kstep : kmem * list Z -> kmem * list Z -> Prop :=
| ks_alloc s used v s' : kalloc s = Ret v s' ->
    kstep (s, used) (s', if v =? 0 then used else v :: used)
| ks_free s used v s' : v ∈ used -> kfree v s = Ret tt s' ->
    kstep (s, used) (s', filter (fun x => x <> v) used)
| ks_write s used v a x : v ∈ used -> a ∈ page_words v ->   (* the client writes its page *)
    kstep (s, used) (mk_kmem (wrw (kmw s) a x) (freelist s) (use_lock s) (klocked s), used).

Record kinv (pages : list Z) (x : kmem * list Z) (l : list Z) : Prop := {
  ki_ok : kmem_ok x.1 l;
  ki_used : Forall kpage x.2;
  ki_nodup : NoDup (x.2 ++ l);
  ki_perm : x.2 ++ l ≡ₚ pages;
}.

Lemma filter_remove (v : Z) (l : list Z) : NoDup l -> v ∈ l -> l ≡ₚ v :: filter (fun x => x <> v) l.
Proof.
  induction 1 as [|x l Hx Hd IH]; [by intros ?%elem_of_nil|]. intros [->|Hin]%elem_of_cons.
  - rewrite list.filter_cons, decide_False by tauto. f_equiv.
    clear -Hx. induction l as [|y l IH]; [done|]. apply not_elem_of_cons in Hx as [? ?].
    rewrite list.filter_cons, decide_True by done. f_equiv. by apply IH.
  - rewrite list.filter_cons, decide_True by (intros ->; done). rewrite (IH Hin) at 1. apply Permutation_swap.
Qed.

Lemma kstep_inv pages x y l : kstep x y -> kinv pages x l -> exists l', kinv pages y l'.
Proof.
  intros Hs [Hok Hu Hd Hp]. destruct Hs as [s used v s' E|s used v s' Hv E|s used v a w Hv Ha]; cbn in *.
  - destruct (kalloc_ok s l Hok) as (s1 & E1 & Hok1 & _). rewrite E1 in E. injection E as <- <-.
    exists (tail l). destruct l as [|z l]; cbn.
    + split; cbn; done.
    + pose proof (km_pages _ _ Hok) as [Hz _]%Forall_cons.
      assert ((z =? 0) = false) as -> by (destruct Hz as (_ & _ & _ & ?); lia).
      split; cbn; [done|by constructor|by rewrite Permutation_middle|by rewrite <-Hp, Permutation_middle].
  - assert (v ∉ l) as Hvl by (intros H; apply NoDup_app in Hd as (_ & H2 & _); by apply (H2 v)).
    assert (kpage v) as Hkv by (by eapply Forall_forall).
    destruct (kfree_ok s l v Hok Hkv Hvl) as (s1 & E1 & Hok1 & _). rewrite E1 in E. injection E as <-.
    assert (used ≡ₚ v :: filter (fun x => x <> v) used) as Hperm
      by (apply filter_remove; [by apply NoDup_app in Hd as (? & _)|done]).
    exists (v :: l). split; cbn; [done|rewrite Forall_forall in Hu |- *; by intros z [_ ?%Hu]%list_elem_of_filter| |].
    + rewrite <-Permutation_middle. by rewrite app_comm_cons, <-Hperm.
    + rewrite <-Permutation_middle. by rewrite app_comm_cons, <-Hperm.
  - exists l. split; cbn; [|done..]. destruct Hok as [Hc Hpg Hnd Hk]. split; cbn; [|done..].
    eapply chain_frame; [|exact Hc]. intros z Hz. apply rdw_wrw_ne. intros ->.
    pose proof (proj1 (proj1 (Forall_forall _ _) Hu v Hv)) as Hav.
    pose proof (proj1 (proj1 (Forall_forall _ _) Hpg z Hz)) as Haz.
    assert (v <> z) as Hne by (intros ->; apply NoDup_app in Hd as (_ & H2 & _); by apply (H2 z)).
    by destruct (page_words_disj v z z Hav Haz Hne Ha (page_words_head z)).
Qed.
Lemma ksteps_inv pages x y l : rtc kstep x y -> kinv pages x l -> exists l', kinv pages y l'.
Proof.
  intros H. revert l. induction H as [x|x y z Hxy _ IH]; intros l Hl; [eauto|].
  destruct (kstep_inv pages x y l Hxy Hl) as (l' & Hl'). eauto.
Qed.
End Kalloc.

(** The free list after [kinit1]: the whole pages of the range. *)
Definition first_page (vstart : Z) : Z := PGROUNDUP (u32 vstart).
Definition range_size (vstart vend : Z) : nat := Z.to_nat ((vend - first_page vstart) / PGSIZE).

Lemma kinit1_ok kend s vstart vend : freelist s = 0 -> first_page vstart <= vend ->
  Forall (kpage kend) (range_pages (first_page vstart) (range_size vstart vend)) ->
  exists s', kinit1 kend vstart vend s = Ret tt s' /\
    kmem_ok kend s' (reverse (range_pages (first_page vstart) (range_size vstart vend))) /\ use_lock s' = false.
Proof.
  intros Hf Hv Hp. unfold kinit1, freerange. exec.
  set (s0 := mk_kmem (kmw s) (freelist s) false false).
  assert (kmem_ok kend s0 []) as H0 by (split; [done|constructor|constructor|done]).
  destruct (freerange_loop_ok kend (Z.to_nat ((vend - first_page vstart) / PGSIZE + 1)) (range_size vstart vend)
    (first_page vstart) vend s0 [] H0 Hp) as (s' & E & Hok & Hu).
  - intros x _. by intros ?%elem_of_nil.
  - unfold range_size, PGSIZE. zlia.
  - unfold range_size, PGSIZE. zlia.
  - exists s'. rewrite app_nil_r in Hok. done.
Qed.

(** The allocator hands out each page once.  After [kinit1] on a range of
    memory and under any sequence of [kalloc] and [kfree] calls, with the clients
    writing what they like into the pages they hold, the pages in use and the
    pages on the free list are exactly the whole pages of the range, none twice;
    so [kalloc] returns a page nobody holds, or 0 when every page is in use. *)
Theorem kalloc_hands_out_each_page_once (kend : Z) (s : kmem) (vstart vend : Z) (s1 s2 : kmem) (used : list Z)
    (Hfree : freelist s = 0) (Hrange : first_page vstart <= vend)
    (Hpages : Forall (kpage kend) (range_pages (first_page vstart) (range_size vstart vend)))
    (Hinit : kinit1 kend vstart vend s = Ret tt s1)
    (Hcalls : rtc (kstep kend) (s1, []) (s2, used)) :
  exists free, NoDup (used ++ free) /\
    used ++ free ≡ₚ range_pages (first_page vstart) (range_size vstart vend) /\
    exists s3, kalloc s2 = Ret (default 0 (head free)) s3.
Proof.
  destruct (kinit1_ok kend s vstart vend Hfree Hrange Hpages) as (s' & E & Hok & _).
  rewrite E in Hinit. injection Hinit as ->.
  destruct (ksteps_inv kend (range_pages (first_page vstart) (range_size vstart vend)) (s1, []) (s2, used)
    (reverse (range_pages (first_page vstart) (range_size vstart vend))) Hcalls) as (l & [Hk _ Hd Hp]).
  - split; cbn; [done|constructor|apply Hok|]. by rewrite reverse_Permutation.
  - exists l. split; [done|]. split; [done|].
    destruct (kalloc_ok kend s2 l Hk) as (s3 & E3 & _). eauto.
Qed.

(** Three pages; two allocations and a release. *)
Definition state_of {A} (o : outcome kmem A) : kmem :=
  match o with Ret _ s => s | _ => mk_kmem ∅ 0 false false end.
Definition ex_end : Z := 2148532224.
Definition ex0 : kmem := mk_kmem ∅ 0 true false.
Definition ex1 : kmem := state_of (kinit1 ex_end 2148532225 2148544512 ex0).
Definition ex2 : kmem := state_of (kalloc ex1).
Definition ex3 : kmem := state_of (kalloc ex2).
Definition ex4 : kmem := state_of (kfree ex_end 2148540416 ex3).
Lemma ex_init : kinit1 ex_end 2148532225 2148544512 ex0 = Ret tt ex1.
Proof. vm_cast_no_check (eq_refl (kinit1 ex_end 2148532225 2148544512 ex0)). Qed.
Lemma ex_alloc1 : kalloc ex1 = Ret 2148540416 ex2.
Proof. vm_cast_no_check (eq_refl (kalloc ex1)). Qed.
Lemma ex_alloc2 : kalloc ex2 = Ret 2148536320 ex3.
Proof. vm_cast_no_check (eq_refl (kalloc ex2)). Qed.
Lemma ex_free : kfree ex_end 2148540416 ex3 = Ret tt ex4.
Proof. vm_cast_no_check (eq_refl (kfree ex_end 2148540416 ex3)). Qed.
Lemma ex_steps : rtc (kstep ex_end) (ex1, []) (ex4, [2148536320]).
Proof.
  pose proof (ks_alloc ex_end ex1 [] _ ex2 ex_alloc1) as S1.
  pose proof (ks_alloc ex_end ex2 [2148540416] _ ex3 ex_alloc2) as S2.
  pose proof (ks_free ex_end ex3 [2148536320; 2148540416] 2148540416 ex4 ltac:(right; left) ex_free) as S3.
  generalize dependent ex4. generalize dependent ex3. generalize dependent ex2. generalize ex1.
  intros s1 s2 S1 s3 S2 s4 S3.
  eapply rtc_l; [exact S1|]. eapply rtc_l; [exact S2|]. apply rtc_once. exact S3.
Qed.
Lemma kalloc_hands_out_each_page_once_witness :
  exists free s5, NoDup ([2148536320] ++ free) /\ kalloc ex4 = Ret (default 0 (head free)) s5.
Proof.
  destruct (kalloc_hands_out_each_page_once ex_end ex0 2148532225 2148544512 ex1 ex4 [2148536320]
    eq_refl ltac:(by_vm)) as (free & Hd & _ & s5 & E5).
  - repeat constructor; vm_compute; first [reflexivity | discriminate].
  - exact ex_init.
  - exact ex_steps.
  - exists free, s5. split; [exact Hd|exact E5].
Defined.
