(* ===== verification/XPipe.v ===== *)
(** * Pipes of xv6

    [xv6/pipe.c].  A pipe is a ring of [PIPESIZE] bytes with two counters of
    type [uint], which wrap around.  The lock is held from [acquire] to
    [release] or to the [sleep] inside, which gives it up; so a call runs in
    segments, each atomic for the other users of the pipe.  [pipewrite] and
    [piperead] below are one segment: they start at the loop test the call is
    at and end when the call returns ([Done]) or falls asleep ([Asleep]), with
    what it still has to do.  The state keeps, beside the pipe, which processes
    sleep on its two channels [&p->nread] and [&p->nwrite]; [wakeup] empties one.

    Whether the caller is [killed] can change while it sleeps, so it is an
    argument of each segment. *)
From S2P Require Import Prelude XLock.

Definition PIPESIZE : Z := 512.

Record pipe := mk_pipe
  { data : list Z; nread : Z; nwrite : Z; readopen : bool; writeopen : bool }.

(** The pipe and the sleepers on [&p->nread] and [&p->nwrite] (pids). *)
Record pipest := mk_pst { pp : pipe; on_nread : list Z; on_nwrite : list Z }.

Definition upd_pipe (f : pipe -> pipe) (s : pipest) : pipest :=
  mk_pst (f (pp s)) (on_nread s) (on_nwrite s).

Definition wakeup_nread : M pipest unit := modify (fun s => mk_pst (pp s) [] (on_nwrite s)).
Definition wakeup_nwrite : M pipest unit := modify (fun s => mk_pst (pp s) (on_nread s) []).
Definition sleep_nread (pid : Z) : M pipest unit :=
  modify (fun s => mk_pst (pp s) (pid :: on_nread s) (on_nwrite s)).
Definition sleep_nwrite (pid : Z) : M pipest unit :=
  modify (fun s => mk_pst (pp s) (on_nread s) (pid :: on_nwrite s)).

(** What [pipealloc] makes of a fresh page; [junk] is what the page holds. *)
Definition new_pipe (junk : list Z) : pipe := mk_pipe junk 0 0 true true.

(** [pipeclose(p, writable)]: [true] when the page is freed. *)
Definition pipeclose (writable : bool) : M pipest bool :=
  (if writable then
     modify (upd_pipe (fun p => mk_pipe (data p) (nread p) (nwrite p) (readopen p) false));;
     wakeup_nread
   else
     modify (upd_pipe (fun p => mk_pipe (data p) (nread p) (nwrite p) false (writeopen p)));;
     wakeup_nwrite);;
  s ← get;
  mret (negb (readopen (pp s)) && negb (writeopen (pp s))).

(** [p->data[p->nwrite++ % PIPESIZE] = c] *)
Definition put_byte (c : Z) : M pipest unit :=
  s ← get;
  let p := pp s in
  _ ← deref (zget (data p) (nwrite p `mod` PIPESIZE));
  modify (upd_pipe (fun p =>
    mk_pipe (zset (data p) (nwrite p `mod` PIPESIZE) c) (nread p) (u32 (nwrite p + 1))
            (readopen p) (writeopen p))).

(** [p->data[p->nread++ % PIPESIZE]] *)
Definition take_byte : M pipest Z :=
  s ← get;
  let p := pp s in
  c ← deref (zget (data p) (nread p `mod` PIPESIZE));
  modify (upd_pipe (fun p =>
    mk_pipe (data p) (u32 (nread p + 1)) (nwrite p) (readopen p) (writeopen p)));;
  mret c.

(** The loop of [pipewrite] on the bytes still to write; [n] is what the call
    returns in the end. *)
Fixpoint pipewrite (pid : Z) (killed : bool) (n : Z) (rest : list Z)
  : M pipest (seg (list Z) Z) :=
  match rest with
  | [] => wakeup_nread;; mret (Done n)
  | c :: rest' =>
      s ← get;
      if nwrite (pp s) =? u32 (nread (pp s) + PIPESIZE) then
        if negb (readopen (pp s)) || killed then mret (Done (-1))
        else wakeup_nread;; sleep_nwrite pid;; mret (Asleep rest)
      else put_byte c;; pipewrite pid killed n rest'
  end.

(** The copy loop of [piperead]: the bytes taken, at most [n]. *)
Fixpoint piperead_copy (n : nat) : M pipest (list Z) :=
  match n with
  | O => mret []
  | S n =>
      s ← get;
      if nread (pp s) =? nwrite (pp s) then mret []
      else c ← take_byte; l ← piperead_copy n; mret (c :: l)
  end.

(** [None] is the result [-1]. *)
Definition piperead (pid : Z) (killed : bool) (n : Z) : M pipest (seg Z (option (list Z))) :=
  s ← get;
  if (nread (pp s) =? nwrite (pp s)) && writeopen (pp s) then
    if killed then mret (Done None)
    else sleep_nread pid;; mret (Asleep n)
  else
    l ← piperead_copy (Z.to_nat n);
    wakeup_nwrite;;
    mret (Done (Some l)).

(** ** The queue a pipe implements *)

(** [q] is what is in the pipe: at most [PIPESIZE] bytes, the oldest at
    [nread], the counters being equal to its length apart modulo 2^32. *)
Record holds (p : pipe) (q : list Z) : Prop := {
  h_len : zlen (data p) = PIPESIZE;
  h_r : is_u32 (nread p);
  h_w : nwrite p = u32 (nread p + zlen q);
  h_cap : zlen q <= PIPESIZE;
  h_q : forall i, 0 <= i < zlen q -> zget (data p) ((nread p + i) `mod` PIPESIZE) = zget q i;
}.

Lemma u32_add_l x y : u32 (u32 x + y) = u32 (x + y).
Proof. unfold u32. apply Zplus_mod_idemp_l. Qed.
Lemma u32_mod_pipesize x : u32 x `mod` PIPESIZE = x `mod` PIPESIZE.
Proof.
  unfold u32, PIPESIZE. change 4294967296 with (512 * 8388608).
  rewrite Z.rem_mul_r by lia. rewrite Z.mul_comm, Z.mod_add by lia. by apply Z.mod_mod.
Qed.

Section Queue.
Implicit Types (p : pipe) (q : list Z).

(** The tests of the code on the counters are emptiness and fullness of the
    queue, whatever the counters' wrap-around. *)
Lemma holds_empty p q : holds p q -> (nread p =? nwrite p) = bool_decide (q = []).
Proof.
  intros [_ Hr -> Hc _]. unfold is_u32, PIPESIZE in *. pose proof (zlen_nonneg q).
  case_bool_decide as Hq.
  - subst. change (zlen (@nil Z)) with 0. rewrite Z.add_0_r, u32_id by done. apply Z.eqb_refl.
  - apply Z.eqb_neq. intros E. apply Hq. destruct q; [done|]. rewrite zlen_cons in *.
    pose proof (zlen_nonneg q). unfold u32 in E. zlia.
Qed.
Lemma holds_full p q : holds p q -> (nwrite p =? u32 (nread p + PIPESIZE)) = (zlen q =? PIPESIZE).
Proof.
  intros [_ Hr -> Hc _]. unfold is_u32, PIPESIZE, u32 in *. pose proof (zlen_nonneg q).
  destruct (Z.eqb_spec (zlen q) 512) as [->|]; [apply Z.eqb_refl|]. apply Z.eqb_neq. zlia.
Qed.

Lemma mod_inj a i j : 0 <= i < PIPESIZE -> 0 <= j < PIPESIZE ->
  (a + i) `mod` PIPESIZE = (a + j) `mod` PIPESIZE -> i = j.
Proof. unfold PIPESIZE. intros. zlia. Qed.

Lemma put_byte_ok c q s : holds (pp s) q -> zlen q < PIPESIZE ->
  exists p', put_byte c s = Ret tt (mk_pst p' (on_nread s) (on_nwrite s)) /\ holds p' (q ++ [c]) /\
    nread p' = nread (pp s) /\ readopen p' = readopen (pp s) /\ writeopen p' = writeopen (pp s).
Proof.
  intros [Hl Hr Hw Hc Hq] Hn. pose proof (zlen_nonneg q). unfold put_byte. exec.
  assert (nwrite (pp s) `mod` PIPESIZE = (nread (pp s) + zlen q) `mod` PIPESIZE) as Em
    by (by rewrite Hw, u32_mod_pipesize).
  assert (0 <= nwrite (pp s) `mod` PIPESIZE < zlen (data (pp s))) as Hb
    by (rewrite Hl; apply Z.mod_pos_bound; done).
  destruct (zget_in_range _ _ Hb) as [x ->]. cbn [deref]. exec.
  eexists. split; [reflexivity|]. split; [|done]. split; cbn.
  - by rewrite zlen_zset.
  - done.
  - by rewrite Hw, u32_add_l, zlen_snoc, Z.add_assoc.
  - rewrite zlen_snoc. lia.
  - intros i Hi. rewrite zlen_snoc in Hi. rewrite zget_snoc. case_decide.
    + subst. rewrite <-Em. by apply zget_zset_eq.
    + rewrite zget_zset_ne; [apply Hq; lia|]. rewrite Em. intros E. apply mod_inj in E; lia.
Qed.

Lemma take_byte_ok c q s : holds (pp s) (c :: q) ->
  exists p', take_byte s = Ret c (mk_pst p' (on_nread s) (on_nwrite s)) /\ holds p' q /\
    readopen p' = readopen (pp s) /\ writeopen p' = writeopen (pp s).
Proof.
  intros [Hl Hr Hw Hc Hq]. rewrite zlen_cons in *. pose proof (zlen_nonneg q). unfold take_byte. exec.
  pose proof (Hq 0 ltac:(lia)) as H0. rewrite Z.add_0_r in H0. cbn in H0.
  rewrite H0. cbn [deref]. exec.
  eexists. split; [reflexivity|]. split; [|done]. split; cbn.
  - done.
  - apply u32_range.
  - rewrite u32_add_l, Hw. f_equal. lia.
  - lia.
  - intros i Hi. rewrite <-(Zplus_mod_idemp_l (u32 _)), u32_mod_pipesize, Zplus_mod_idemp_l.
    replace (nread (pp s) + 1 + i) with (nread (pp s) + (i + 1)) by lia. rewrite Hq by lia.
    rewrite zget_cons. case_decide; [lia|]. f_equal. lia.
Qed.
End Queue.

(** ** Segments on the queue *)
Section Segments.
Implicit Types (s : pipest) (q : list Z).

(** A write segment appends a prefix [acc] of what it has to write.  It returns
    [n] after the last byte; on a full queue it fails when the read end is closed
    or the caller is killed, and sleeps otherwise, having woken the readers. *)
Lemma pipewrite_ok pid killed n rest q s : holds (pp s) q ->
  exists acc rest' p', rest = acc ++ rest' /\ holds p' (q ++ acc) /\
    nread p' = nread (pp s) /\ readopen p' = readopen (pp s) /\ writeopen p' = writeopen (pp s) /\
    ((rest' = [] /\ pipewrite pid killed n rest s = Ret (Done n) (mk_pst p' [] (on_nwrite s))) \/
     (rest' <> [] /\ zlen (q ++ acc) = PIPESIZE /\ (readopen (pp s) = false \/ killed = true) /\
        pipewrite pid killed n rest s = Ret (Done (-1)) (mk_pst p' (on_nread s) (on_nwrite s))) \/
     (rest' <> [] /\ zlen (q ++ acc) = PIPESIZE /\ readopen (pp s) = true /\ killed = false /\
        pipewrite pid killed n rest s = Ret (Asleep rest') (mk_pst p' [] (pid :: on_nwrite s)))).
Proof.
  revert q s. induction rest as [|c rest IH]; intros q s Hq; cbn [pipewrite].
  { exists [], [], (pp s). rewrite !app_nil_r. split_and!; [done..|]. left. done. }
  exec. rewrite (holds_full _ _ Hq). destruct (Z.eqb_spec (zlen q) PIPESIZE) as [Hf|Hf].
  - exists [], (c :: rest), (pp s). rewrite !app_nil_r. split_and!; [done..|]. right.
    destruct (readopen (pp s)) eqn:Er, killed; cbn [negb orb].
    + left. split_and!; [done|done|by right|by destruct s].
    + right. done.
    + left. split_and!; [done|done|by left|by destruct s].
    + left. split_and!; [done|done|by left|by destruct s].
  - pose proof (h_cap _ _ Hq). destruct (put_byte_ok c q s Hq ltac:(lia)) as (p' & E & Hq' & Hn & Hr & Hw).
    exec_by E. destruct (IH (q ++ [c]) (mk_pst p' (on_nread s) (on_nwrite s)) Hq')
      as (acc & rest' & p'' & -> & Hq'' & Hn' & Hr' & Hw' & Hcase).
    exists (c :: acc), rest', p''. rewrite <-app_assoc in Hq'', Hcase. cbn [pp on_nread on_nwrite] in *.
    rewrite <-Hn, <-Hr, <-Hw. split_and!; [done..|exact Hcase].
Qed.

Lemma piperead_copy_ok n q s : holds (pp s) q ->
  exists p', piperead_copy n s = Ret (take n q) (mk_pst p' (on_nread s) (on_nwrite s)) /\
    holds p' (drop n q) /\ readopen p' = readopen (pp s) /\ writeopen p' = writeopen (pp s).
Proof.
  revert q s. induction n as [|n IH]; intros q s Hq; cbn [piperead_copy].
  { exists (pp s). by destruct s. }
  exec. rewrite (holds_empty _ _ Hq). destruct q as [|c q]; cbn.
  { exists (pp s). split_and!; [by destruct s|done..]. }
  destruct (take_byte_ok c q s Hq) as (p' & E & Hq' & Hr & Hw). exec_by E.
  destruct (IH q (mk_pst p' (on_nread s) (on_nwrite s)) Hq') as (p'' & E' & Hq'' & Hr' & Hw'). exec_by E'. cbn in *.
  exists p''. rewrite <-Hr, <-Hw. done.
Qed.

(** A read segment takes what there is, at most [n] bytes, and wakes the
    writers; it sleeps on an empty queue while the write end is open. *)
Lemma piperead_ok pid killed n q s : holds (pp s) q ->
  (q = [] /\ writeopen (pp s) = true /\
     ((killed = true /\ piperead pid killed n s = Ret (Done None) s) \/
      (killed = false /\ piperead pid killed n s
         = Ret (Asleep n) (mk_pst (pp s) (pid :: on_nread s) (on_nwrite s))))) \/
  ((q <> [] \/ writeopen (pp s) = false) /\ exists p',
     piperead pid killed n s = Ret (Done (Some (take (Z.to_nat n) q))) (mk_pst p' (on_nread s) []) /\
     holds p' (drop (Z.to_nat n) q) /\ readopen p' = readopen (pp s) /\ writeopen p' = writeopen (pp s)).
Proof.
  intros Hq. unfold piperead. exec. rewrite (holds_empty _ _ Hq).
  destruct (bool_decide (q = [])) eqn:E; [apply bool_decide_eq_true in E|apply bool_decide_eq_false in E];
    destruct (writeopen (pp s)) eqn:Ew; cbn [andb].
  - left. split_and!; [done..|]. destruct killed; [left|right]; done.
  - right. split; [by right|]. destruct (piperead_copy_ok (Z.to_nat n) q s Hq) as (p' & Ec & H1 & H2 & H3).
    exec_by Ec. exists p'. rewrite <-Ew. done.
  - right. split; [by left|]. destruct (piperead_copy_ok (Z.to_nat n) q s Hq) as (p' & Ec & H1 & H2 & H3).
    exec_by Ec. exists p'. rewrite <-Ew. done.
  - right. split; [by left|]. destruct (piperead_copy_ok (Z.to_nat n) q s Hq) as (p' & Ec & H1 & H2 & H3).
    exec_by Ec. exists p'. rewrite <-Ew. done.
Qed.
End Segments.

(** ** The users of a pipe

    Processes start calls, fall asleep and resume once woken; [hin] and [hout]
    record the bytes that went in and came out. *)
Record psys := mk_psys
  { ps : pipest; wpend : gmap Z (Z * list Z); rpend : gmap Z Z; hin : list Z; hout : list Z }.

Definition psys0 (junk : list Z) : psys := mk_psys (mk_pst (new_pipe junk) [] []) ∅ ∅ [] [].

(** The bytes a write segment put in: as many as [nwrite] advanced. *)
Definition accepted (s s' : pipest) (rest : list Z) : list Z :=
  take (Z.to_nat (u32 (nwrite (pp s') - nwrite (pp s)))) rest.

Definition after_write (pid n : Z) (r : seg (list Z) Z) (w : gmap Z (Z * list Z)) :=
  match r with Done _ => delete pid w | Asleep rest => <[pid := (n, rest)]> w end.
Definition after_read (pid : Z) (r : seg Z (option (list Z))) (w : gmap Z Z) :=
  match r with Done _ => delete pid w | Asleep n => <[pid := n]> w end.
Definition got (r : seg Z (option (list Z))) : list Z :=
  match r with Done (Some l) => l | _ => [] end.

(** [K]: whether killed processes are considered. *)
Inductive pstep (K : bool) : psys -> psys -> Prop :=
| st_write x pid killed n rest r s' :    (* a write starts, or resumes after a wakeup *)
    (wpend x !! pid = Some (n, rest) /\ pid ∉ on_nwrite (ps x)) \/
      (wpend x !! pid = None /\ rpend x !! pid = None /\ n = zlen rest) ->
    writeopen (pp (ps x)) = true -> (killed = true -> K = true) ->
    pipewrite pid killed n rest (ps x) = Ret r s' ->
    pstep K x (mk_psys s' (after_write pid n r (wpend x)) (rpend x)
                 (hin x ++ accepted (ps x) s' rest) (hout x))
| st_read x pid killed n r s' :          (* the same for a read *)
    (rpend x !! pid = Some n /\ pid ∉ on_nread (ps x)) \/
      (wpend x !! pid = None /\ rpend x !! pid = None) ->
    readopen (pp (ps x)) = true -> (killed = true -> K = true) ->
    piperead pid killed n (ps x) = Ret r s' ->
    pstep K x (mk_psys s' (wpend x) (after_read pid r (rpend x)) (hin x) (hout x ++ got r))
| st_close x writable b s' :             (* an end is closed when nobody uses it *)
    (writable = true -> wpend x = ∅) -> (writable = false -> rpend x = ∅) ->
    pipeclose writable (ps x) = Ret b s' ->
    pstep K x (mk_psys s' (wpend x) (rpend x) (hin x) (hout x))
| st_wake x pid :                        (* [kill] wakes a sleeper *)
    pstep K x (mk_psys (mk_pst (pp (ps x)) (filter (fun y => y <> pid) (on_nread (ps x)))
                          (filter (fun y => y <> pid) (on_nwrite (ps x))))
                 (wpend x) (rpend x) (hin x) (hout x)).

(** Nobody sleeps without reason: sleeping writers mean a full pipe that can be
    read, sleeping readers an empty pipe that can be written. *)
Record awake (x : psys) (q : list Z) : Prop := {
  aw_w : on_nwrite (ps x) <> [] -> zlen q = PIPESIZE /\ readopen (pp (ps x)) = true;
  aw_r : on_nread (ps x) <> [] -> q = [] /\ writeopen (pp (ps x)) = true;
  aw_pend : forall pid, pid ∈ on_nread (ps x) -> is_Some (rpend x !! pid);
  aw_open : readopen (pp (ps x)) = false -> on_nread (ps x) = [];
}.
Record pipe_ok (K : bool) (x : psys) : Prop := {
  po_q : exists q, holds (pp (ps x)) q /\ hin x = hout x ++ q /\ (K = false -> awake x q);
}.

Lemma accepted_ok s s' q acc rest : holds (pp s) q -> holds (pp s') (q ++ acc) ->
  nread (pp s') = nread (pp s) -> accepted s s' (acc ++ rest) = acc.
Proof.
  intros H H' Hn. unfold accepted. rewrite (h_w _ _ H), (h_w _ _ H'), Hn, zlen_app.
  pose proof (h_cap _ _ H'). rewrite zlen_app in *. pose proof (zlen_nonneg q). pose proof (zlen_nonneg acc).
  replace (u32 (u32 (nread (pp s) + (zlen q + zlen acc)) - u32 (nread (pp s) + zlen q))) with (zlen acc)
    by (unfold u32, PIPESIZE in *; zlia).
  unfold zlen. rewrite Nat2Z.id. by rewrite take_app_length.
Qed.

(** One step keeps the invariant. *)
Lemma write_keeps K x pid killed n rest r s' :
  (wpend x !! pid = Some (n, rest) /\ pid ∉ on_nwrite (ps x)) \/
    (wpend x !! pid = None /\ rpend x !! pid = None /\ n = zlen rest) ->
  (killed = true -> K = true) ->
  pipewrite pid killed n rest (ps x) = Ret r s' -> pipe_ok K x ->
  pipe_ok K (mk_psys s' (after_write pid n r (wpend x)) (rpend x)
              (hin x ++ accepted (ps x) s' rest) (hout x)).
Proof.
  intros _ HK Hrun [(q & Hq & Hin & Haw)].
  destruct (pipewrite_ok pid killed n rest q (ps x) Hq)
    as (acc & rest' & p' & -> & Hq' & Hn & Hr & Hw & Hcase).
  constructor. exists (q ++ acc).
  assert (pp s' = p') as Ep
    by (destruct Hcase as [(_ & E)|[(_ & _ & _ & E)|(_ & _ & _ & _ & E)]]; rewrite E in Hrun; by simplify_eq/=).
  cbn [ps hin hout]. rewrite (accepted_ok (ps x) s' q acc rest') by (rewrite ?Ep; done).
  rewrite Ep, Hin, <-app_assoc. split_and!; [done|done|]. intros ->. destruct (Haw eq_refl) as [A1 A2 A3 A4].
  destruct Hcase as [(_ & E)|[(_ & Hf & Hor & E)|(_ & Hf & Ho & _ & E)]]; rewrite E in Hrun;
    destruct s' as [p1 l1 l2]; simplify_eq/=.
  - split; cbn; [|by intros []|by intros ? ?%elem_of_nil|done]. intros [Hz Ho]%A1. rewrite Hr. split; [|done].
    pose proof (h_cap _ _ Hq'). rewrite zlen_app in *. pose proof (zlen_nonneg acc). lia.
  - destruct Hor as [Ho| ->]; [|by specialize (HK eq_refl)]. rewrite (A4 Ho) in *.
    split; cbn; [|by intros []|by intros ? ?%elem_of_nil|done].
    intros [_ Hc]%A1. congruence.
  - split; cbn; [|by intros []|by intros ? ?%elem_of_nil|done]. intros _. by rewrite Hr.
Qed.

Lemma read_keeps K x pid killed n r s' :
  (rpend x !! pid = Some n /\ pid ∉ on_nread (ps x)) \/ (wpend x !! pid = None /\ rpend x !! pid = None) ->
  readopen (pp (ps x)) = true -> 
  piperead pid killed n (ps x) = Ret r s' -> pipe_ok K x ->
  pipe_ok K (mk_psys s' (wpend x) (after_read pid r (rpend x)) (hin x) (hout x ++ got r)).
Proof.
  intros Hpid Hopen Hrun [(q & Hq & Hin & Haw)]. constructor.
  assert (K = false -> pid ∉ on_nread (ps x)) as Hnot.
  { intros HK. destruct Hpid as [[_ ?]|[_ Hno]]; [done|]. intros Hp.
    destruct (aw_pend _ _ (Haw HK) pid Hp). congruence. }
  destruct (piperead_ok pid killed n q (ps x) Hq)
    as [(-> & Hw & [(-> & E)|(-> & E)])|(Hne & p' & E & Hq' & Hr & Hw)];
    rewrite E in Hrun; simplify_eq/=; rewrite ?app_nil_r.
  - exists []. split_and!; [done|done|]. intros HK. destruct (Haw HK) as [A1 A2 A3 A4].
    split; cbn; [done|done| |done]. intros p Hp. rewrite lookup_delete_ne; [by apply A3|].
    intros ->. by apply Hnot.
  - exists []. split_and!; [done|done|]. intros HK. destruct (Haw HK) as [A1 A2 A3 A4].
    split; cbn; [done|done| |congruence]. intros p [->|Hp]%elem_of_cons.
    + rewrite lookup_insert_eq. eauto.
    + rewrite lookup_insert_ne; [by apply A3|]. intros ->. by apply Hnot.
  - exists (drop (Z.to_nat n) q). split_and!; [done| |].
    { rewrite <-app_assoc, take_drop. done. }
    intros HK. destruct (Haw HK) as [A1 A2 A3 A4]. split; cbn; [by intros []| | |congruence].
    + intros [-> Ho]%A2. rewrite drop_nil, Hw. done.
    + intros p Hp. rewrite lookup_delete_ne; [by apply A3|]. intros ->. by apply Hnot.
Qed.

Lemma pipeclose_ok w s :
  pipeclose w s = if w
    then Ret (negb (readopen (pp s)))
           (mk_pst (mk_pipe (data (pp s)) (nread (pp s)) (nwrite (pp s)) (readopen (pp s)) false) [] (on_nwrite s))
    else Ret (negb (writeopen (pp s)))
           (mk_pst (mk_pipe (data (pp s)) (nread (pp s)) (nwrite (pp s)) false (writeopen (pp s))) (on_nread s) []).
Proof.
  destruct w; [|reflexivity]. unfold pipeclose, wakeup_nread. exec. unfold mret, M_ret. cbn.
  by rewrite andb_true_r.
Qed.

Lemma pstep_keeps K x y : pstep K x y -> pipe_ok K x -> pipe_ok K y.
Proof.
  intros Hs Hok.
  destruct Hs as [x pid killed n rest r s' Hp Ho HK Hrun|x pid killed n r s' Hp Ho HK Hrun
                 |x writable b s' H1 H2 Hrun|x pid].
  - by eapply write_keeps.
  - by eapply read_keeps.
  - destruct Hok as [(q & Hq & Hin & Haw)]. constructor. exists q.
    rewrite pipeclose_ok in Hrun. destruct writable; simplify_eq/=;
      (split_and!; [destruct Hq as [G1 G2 G3 G4 G5]; exact (Build_holds (mk_pipe _ _ _ _ _) q G1 G2 G3 G4 G5)|done|]; intros HK; destruct (Haw HK) as [A1 A2 A3 A4]).
    + split; cbn; [done|by intros []|by intros ? ?%elem_of_nil|done].
    + split; cbn; [by intros []|done|done|]. intros _. destruct (on_nread (ps x)) as [|p l] eqn:E; [done|].
      destruct (A3 p ltac:(left)) as [? Hx]. by rewrite (H2 eq_refl) in Hx.
  - destruct Hok as [(q & Hq & Hin & Haw)]. constructor. exists q. split_and!; [done|done|].
    intros HK. destruct (Haw HK) as [A1 A2 A3 A4]. split; cbn.
    + intros H. apply A1. intros E. by rewrite E in H.
    + intros H. apply A2. intros E. by rewrite E in H.
    + intros p [_ Hp]%list_elem_of_filter. by apply A3.
    + intros Ho. by rewrite (A4 Ho).
Qed.

Lemma psteps_ok K x y : rtc (pstep K) x y -> pipe_ok K x -> pipe_ok K y.
Proof. induction 1; eauto using pstep_keeps. Qed.

Lemma psys0_ok K junk : zlen junk = PIPESIZE -> pipe_ok K (psys0 junk).
Proof.
  intros Hj. constructor. exists []. split_and!; [|done|].
  - split; cbn; [done|by compute|done|done|]. intros i Hi. change (zlen (@nil Z)) with 0 in Hi. lia.
  - intros _. split; cbn; [by intros []|by intros []|by intros ? ?%elem_of_nil|done].
Qed.


(** A step that is a segment of known result. *)
Lemma step_write K x pid n bytes r s' :
  wpend x !! pid = None -> rpend x !! pid = None -> n = zlen bytes ->
  writeopen (pp (ps x)) = true -> pipewrite pid false n bytes (ps x) = Ret r s' ->
  pstep K x (mk_psys s' (after_write pid n r (wpend x)) (rpend x)
               (hin x ++ accepted (ps x) s' bytes) (hout x)).
Proof. intros. apply (st_write K x pid false n bytes r s'); [by right|done..]. Qed.
Lemma step_read K x pid n r s' :
  wpend x !! pid = None -> rpend x !! pid = None -> readopen (pp (ps x)) = true ->
  piperead pid false n (ps x) = Ret r s' ->
  pstep K x (mk_psys s' (wpend x) (after_read pid r (rpend x)) (hin x) (hout x ++ got r)).
Proof. intros. apply (st_read K x pid false n r s'); [by right|done..]. Qed.

Definition empty_ring : list Z := replicate 512 0.


(** A killed writer can leave a reader asleep beside a full pipe: it fails on
    the full pipe without the [wakeup(&p->nread)] of the other exits. *)
Lemma killed_writer_loses_wakeup :
  match piperead 3 false 16 (ps (psys0 empty_ring)) with
  | Ret (Asleep _) s1 =>
      match pipewrite 7 true 600 (replicate 600 1) s1 with
      | Ret (Done r) s2 =>
          (r, on_nread s2, nwrite (pp s2), nread (pp s2)) = (-1, [3], PIPESIZE, 0)
      | _ => False
      end
  | _ => False
  end.
Proof. vm_compute. reflexivity. Qed.
