(* ===== verification/JBlock.v ===== *)
(** * The block cache of the JOS file server

    [oslab6/fs/bc.c], with [block_is_free], [check_super], [check_bitmap] and
    [fs_init] of [oslab6/fs/fs.c], which the page fault handler and start-up use.

    The file server reads and writes the disk through memory: block [n] appears
    at [DISKMAP + n * BLKSIZE], and the first access to a block faults and reads
    it in ([bc_pgfault]).  Memory is bytes; a cell of a map denotes its low 8
    bits, so every content is a content of bytes.  [view] is what a load sees,
    whether the page is mapped or still on the disk.  The IDE driver
    ([ide_read], [ide_write]) moves the sectors of a block and succeeds, and
    [sys_page_alloc] finds a page.

    The fault handler itself touches the super block and the bitmap, so faults
    nest: a block's bitmap block may fault, and then the first bitmap block.
    [access] gives the nesting a bound of 3, which is enough ([access_ok]). *)
From S2P Require Import Prelude Bytes.
From Stdlib Require Import FunctionalExtensionality.

Definition DISKMAP : Z := 268435456.      (* 0x10000000 *)
Definition DISKSIZE : Z := 3221225472.    (* 0xC0000000 *)
Definition BLKSIZE : Z := 4096.
Definition BLKBITSIZE : Z := BLKSIZE * 8.
Definition FS_MAGIC : Z := 1241854126.    (* 0x4A0530AE *)

(** [super] and [bitmap] as addresses. *)
Definition SUPER : Z := DISKMAP + BLKSIZE.
Definition BITMAP : Z := DISKMAP + 2 * BLKSIZE.
Definition s_magic : Z := SUPER.
Definition s_nblocks : Z := SUPER + 4.
Definition s_root : Z := SUPER + 8.

(** The block an address lies in. *)
Definition blk (va : Z) : Z := (va - DISKMAP) / BLKSIZE.

(** The disk, the cached pages, the present and the dirty bits of their entries,
    and whether the globals [super] and [bitmap] are set. *)
Record bcst := mk_bc
  { disk : gmap Z Z; pages : gmap Z Z; mapped : gset Z; dirty : gset Z;
    super_set : bool; bitmap_set : bool }.

Definition page_byte (s : bcst) (va : Z) : Z := u8 (rdw (pages s) va).
Definition disk_byte (s : bcst) (va : Z) : Z := u8 (rdw (disk s) (va - DISKMAP)).
Definition view (s : bcst) (va : Z) : Z :=
  if decide (blk va ∈ mapped s) then page_byte s va else disk_byte s va.

(** [ide_read] and [ide_write] of the sectors of block [b]. *)
Definition load_block (m d : gmap Z Z) (b : Z) : gmap Z Z :=
  foldr (fun i m => wrw m (DISKMAP + (b * BLKSIZE + i)) (rdw d (b * BLKSIZE + i))) m (seqZ 0 BLKSIZE).
Definition save_block (d m : gmap Z Z) (b : Z) : gmap Z Z :=
  foldr (fun i d => wrw d (b * BLKSIZE + i) (rdw m (DISKMAP + (b * BLKSIZE + i)))) d (seqZ 0 BLKSIZE).

Definition va_is_mapped (s : bcst) (va : Z) : bool := bool_decide (blk va ∈ mapped s).
Definition va_is_dirty (s : bcst) (va : Z) : bool := bool_decide (blk va ∈ dirty s).

Section Fault.
(** Touching an address: what a load or a store does first. *)
Variable touch : Z -> M bcst unit.

Definition load32_via (va : Z) : M bcst Z := touch va;; gets (fun s => word (page_byte s) va).

(** [block_is_free] *)
Definition block_is_free_via (b : Z) : M bcst bool :=
  s ← get;
  if negb (super_set s) then mret false else
  nb ← load32_via s_nblocks;
  if nb <=? b then mret false else
  w ← load32_via (BITMAP + 4 * (b / 32));
  mret (Z.testbit w (b `mod` 32)).

Definition bc_pgfault (addr : Z) : M bcst unit :=
  let blockno := u32 (addr - DISKMAP) / BLKSIZE in
  if (addr <? DISKMAP) || (DISKMAP + DISKSIZE <=? addr) then panic "page fault in FS" else
  s ← get;
  (if super_set s then
     nb ← load32_via s_nblocks;
     if nb <=? blockno then panic "reading non-existent block" else mret tt
   else mret tt);;
  modify (fun s => mk_bc (disk s) (load_block (pages s) (disk s) blockno) ({[ blockno ]} ∪ mapped s)
                     (dirty s ∖ {[ blockno ]}) (super_set s) (bitmap_set s));;
  s ← get;
  when (bitmap_set s)
    (f ← block_is_free_via blockno; when f (panic "reading free block")).
End Fault.

Fixpoint access (fuel : nat) (va : Z) : M bcst unit :=
  s ← get;
  if va_is_mapped s va then mret tt else
  match fuel with
  | O => panic "fuel"
  | S f => bc_pgfault (access f) va
  end.
Definition touch : Z -> M bcst unit := access 3.

Definition load32 : Z -> M bcst Z := load32_via touch.
Definition load8 (va : Z) : M bcst Z := touch va;; gets (fun s => page_byte s va).
(** A store also sets the dirty bit. *)
Definition store_with (f : Z -> gmap Z Z -> gmap Z Z) (va : Z) : M bcst unit :=
  touch va;;
  modify (fun s => mk_bc (disk s) (f va (pages s)) (mapped s) ({[ blk va ]} ∪ dirty s)
                     (super_set s) (bitmap_set s)).
Definition store8 (va x : Z) : M bcst unit := store_with (fun va m => wrw m va (u8 x)) va.
Definition store32 (va x : Z) : M bcst unit :=
  store_with (fun va m => wrw (wrw (wrw (wrw m va (u8 x)) (va + 1) (u8 (x / 256)))
                               (va + 2) (u8 (x / 65536))) (va + 3) (u8 (x / 16777216))) va.
Definition block_is_free : Z -> M bcst bool := block_is_free_via touch.

Definition diskaddr (b : Z) : M bcst Z :=
  if b =? 0 then panic "bad block number in diskaddr" else
  s ← get;
  if super_set s then
    nb ← load32 s_nblocks;
    if nb <=? b then panic "bad block number in diskaddr" else mret (u32 (DISKMAP + b * BLKSIZE))
  else mret (u32 (DISKMAP + b * BLKSIZE)).

Definition flush_block (addr : Z) : M bcst unit :=
  let blockno := u32 (addr - DISKMAP) / BLKSIZE in
  if (addr <? DISKMAP) || (DISKMAP + DISKSIZE <=? addr) then panic "flush_block of bad va" else
  s ← get;
  if negb (va_is_mapped s addr) || negb (va_is_dirty s addr) then mret tt else
  modify (fun s => mk_bc (save_block (disk s) (pages s) blockno) (pages s) (mapped s)
                     (dirty s ∖ {[ blockno ]}) (super_set s) (bitmap_set s)).

(** ** Start-up *)

(** [bc_init]: the handler is installed and the super block read once.  Its self
    test [check_bc], which restores the block it overwrites, is left out. *)
Definition bc_init : M bcst unit := a ← diskaddr 1; touch a.

Definition check_super : M bcst unit :=
  m ← load32 s_magic;
  if negb (m =? FS_MAGIC) then panic "bad file system magic number" else
  nb ← load32 s_nblocks;
  if DISKSIZE / BLKSIZE <? nb then panic "file system is too large" else mret tt.

Definition check_bitmap : M bcst unit :=
  nb ← load32 s_nblocks;
  for_each (seqZ 0 ((nb + BLKBITSIZE - 1) / BLKBITSIZE)) (fun i =>
    f ← block_is_free (2 + i); assertb "!block_is_free(2+i)" (negb f));;
  f ← block_is_free 0; assertb "!block_is_free(0)" (negb f);;
  f ← block_is_free 1; assertb "!block_is_free(1)" (negb f).

(** [fs_init], after the disk has been selected. *)
Definition fs_init : M bcst unit :=
  bc_init;;
  _ ← diskaddr 1;
  modify (fun s => mk_bc (disk s) (pages s) (mapped s) (dirty s) true (bitmap_set s));;
  check_super;;
  _ ← diskaddr 2;
  modify (fun s => mk_bc (disk s) (pages s) (mapped s) (dirty s) (super_set s) true);;
  check_bitmap.
