(* ===== verification/JBlockSpec.v ===== *)
(** * The block cache is transparent

    On a disk with a sound super block and bitmap ([meta_ok]) every access to a
    block in use returns what the block holds, and no fault panics; caching and
    faulting change nothing a load can see.  [BlockMem] is the promise of the
    cache to the file system proper ([JFs]): flat memory with an explicit
    flush; [bc_mem] discharges it. *)
From S2P Require Import Prelude Bytes JBlock.
From Stdlib Require Import FunctionalExtensionality.

(** ** What a sound disk looks like *)

Definition nblocks (v : Z -> Z) : Z := word v s_nblocks.
Definition nbitmap (v : Z -> Z) : Z := (nblocks v + BLKBITSIZE - 1) / BLKBITSIZE.
(** The bitmap says block [b] is free. *)
Definition is_free (v : Z -> Z) (b : Z) : bool :=
  (b <? nblocks v) && Z.testbit (word v (BITMAP + 4 * (b / 32))) (b `mod` 32).
(** The disk fits, and the reserved blocks -- 0, 1 and the bitmap -- are in use. *)
Record meta_ok (v : Z -> Z) : Prop := {
  mt_size : 3 <= nblocks v <= DISKSIZE / BLKSIZE;
  mt_res : forall b, 0 <= b < 2 + nbitmap v -> is_free v b = false;
}.
(** Address [va] is in block [b], and [b] can be accessed. *)
Definition in_use (v : Z -> Z) (b : Z) : Prop := 0 <= b < nblocks v /\ is_free v b = false.
Definition byte_of (b : Z) (va : Z) : Prop := DISKMAP + b * BLKSIZE <= va < DISKMAP + (b + 1) * BLKSIZE.
Definition word_of (b : Z) (va : Z) : Prop := DISKMAP + b * BLKSIZE <= va /\ va + 3 < DISKMAP + (b + 1) * BLKSIZE.

Ltac blia := unfold byte_of, word_of, blk, s_magic, s_nblocks, s_root, SUPER, BITMAP, BLKBITSIZE, DISKMAP, DISKSIZE, BLKSIZE in *; zlia.

Lemma blk_byte b va : byte_of b va -> blk va = b.
Proof. blia. Qed.
Lemma word_byte b va i : word_of b va -> 0 <= i <= 3 -> byte_of b (va + i).
Proof. blia. Qed.
Lemma word_byte0 b va : word_of b va -> byte_of b va.
Proof. blia. Qed.

(** ** Bytes and words *)

Lemma view_range s va : 0 <= view s va < 256.
Proof. unfold view. case_decide; apply u8_range. Qed.

(** ** Moving blocks *)
Lemma rdw_foldr_wrw (l : list Z) (g h : Z -> Z) (m : gmap Z Z) a :
  (forall i j, i ∈ l -> j ∈ l -> g i = g j -> i = j) -> NoDup l ->
  (forall i, i ∈ l -> g i = a -> rdw (foldr (fun i m => wrw m (g i) (h i)) m l) a = h i) /\
  ((forall i, i ∈ l -> g i <> a) -> rdw (foldr (fun i m => wrw m (g i) (h i)) m l) a = rdw m a).
Proof.
  intros Hinj Hd. induction Hd as [|x l Hx Hd IH]; cbn [foldr].
  - split; [by intros i ?%elem_of_nil|done].
  - destruct IH as [IH1 IH2]; [intros i j ??; apply Hinj; by right|]. split.
    + intros i Hi Hg. destruct (decide (i = x)) as [->|Hne].
      * rewrite Hg. apply rdw_wrw_eq.
      * apply elem_of_cons in Hi as [?|Hi]; [done|]. rewrite rdw_wrw_ne; [by apply IH1|].
        intros E. apply Hne, Hinj; [by right|left|congruence].
    + intros H. rewrite rdw_wrw_ne by (apply H; left). apply IH2. intros i Hi. apply H. by right.
Qed.

Lemma load_block_get m d b a :
  rdw (load_block m d b) a = if decide (byte_of b a) then rdw d (a - DISKMAP) else rdw m a.
Proof.
  unfold load_block.
  destruct (rdw_foldr_wrw (seqZ 0 BLKSIZE) (fun i => DISKMAP + (b * BLKSIZE + i)) (fun i => rdw d (b * BLKSIZE + i)) m a)
    as [H1 H2]; [intros; lia|apply NoDup_seqZ|].
  case_decide as Hb.
  - rewrite (H1 (a - DISKMAP - b * BLKSIZE)); [f_equal; lia|apply elem_of_seqZ; blia|lia].
  - apply H2. intros i Hi%elem_of_seqZ E. apply Hb. blia.
Qed.
Lemma save_block_get d m b a :
  rdw (save_block d m b) (a - DISKMAP) = if decide (byte_of b a) then rdw m a else rdw d (a - DISKMAP).
Proof.
  unfold save_block.
  destruct (rdw_foldr_wrw (seqZ 0 BLKSIZE) (fun i => b * BLKSIZE + i) (fun i => rdw m (DISKMAP + (b * BLKSIZE + i))) d (a - DISKMAP))
    as [H1 H2]; [intros; lia|apply NoDup_seqZ|].
  case_decide as Hb.
  - rewrite (H1 (a - DISKMAP - b * BLKSIZE)); [f_equal; lia|apply elem_of_seqZ; blia|lia].
  - apply H2. intros i Hi%elem_of_seqZ E. apply Hb. blia.
Qed.

(** ** Faults are invisible *)

(** [s'] shows the same memory, with possibly more of it cached. *)
Record quiet (s s' : bcst) : Prop := {
  q_view : view s' = view s;
  q_disk : disk s' = disk s;
  q_dirty : dirty s' = dirty s;
  q_mapped : mapped s ⊆ mapped s';
  q_super : super_set s' = super_set s;
  q_bitmap : bitmap_set s' = bitmap_set s;
}.
(** A page that is not dirty is what the disk holds. *)
Record coherent (s : bcst) : Prop := {
  co_dirty : dirty s ⊆ mapped s;
  co_clean : forall va, blk va ∉ dirty s -> view s va = disk_byte s va;
}.
Record good (s : bcst) : Prop := {
  gd_coh : coherent s;
  gd_meta : meta_ok (view s);
  gd_one : 1 ∈ mapped s;
  gd_super : super_set s = true;
  gd_bitmap : bitmap_set s = true;
}.

Lemma quiet_refl s : quiet s s.
Proof. by split. Qed.
Lemma quiet_trans s1 s2 s3 : quiet s1 s2 -> quiet s2 s3 -> quiet s1 s3.
Proof. intros [] []. split; try congruence. by transitivity (mapped s2). Qed.
Lemma quiet_good s s' : quiet s s' -> coherent s' -> good s -> good s'.
Proof.
  intros [Hv Hd Hdi Hm Hs Hb] Hc [_ Hme H1 H2 H3].
  split; [done|by rewrite Hv|by apply Hm|congruence|congruence].
Qed.

(** The page of block [b] is read in. *)
Definition loaded (s : bcst) (b : Z) : bcst :=
  mk_bc (disk s) (load_block (pages s) (disk s) b) ({[ b ]} ∪ mapped s) (dirty s ∖ {[ b ]})
        (super_set s) (bitmap_set s).
Lemma loaded_ok s b : coherent s -> b ∉ mapped s ->
  quiet s (loaded s b) /\ coherent (loaded s b) /\ b ∈ mapped (loaded s b).
Proof.
  intros [Hdm Hcl] Hb.
  assert (dirty s ∖ {[ b ]} = dirty s) as Ed by set_solver.
  assert (view (loaded s b) = view s) as Ev.
  { apply functional_extensionality. intros va. unfold view, page_byte, disk_byte, loaded. cbn.
    rewrite load_block_get. destruct (decide (blk va = b)) as [<-|Hne].
    - rewrite (decide_True (P := blk va ∈ _)) by set_solver. rewrite decide_True by blia.
      by rewrite decide_False by done.
    - rewrite (decide_False (P := byte_of b va)) by (intros H; by apply Hne, blk_byte).
      destruct (decide (blk va ∈ mapped s)); [rewrite decide_True by set_solver; done|].
      rewrite decide_False by set_solver. done. }
  split_and!.
  - split; cbn; [done|done|done|set_solver|done|done].
  - split; cbn; [set_solver|]. intros va. rewrite Ed, Ev. apply Hcl.
  - cbn. set_solver.
Qed.

Lemma access_mapped f va s : blk va ∈ mapped s -> access f va s = Ret tt s.
Proof. intros H. destruct f; cbn; exec; unfold va_is_mapped; by rewrite bool_decide_true. Qed.
Lemma view_page s va : blk va ∈ mapped s -> page_byte s va = view s va.
Proof. intros H. unfold view. by rewrite decide_True. Qed.
Lemma word_page s b va : word_of b va -> b ∈ mapped s -> word (page_byte s) va = word (view s) va.
Proof.
  intros Hw Hb. assert (forall i, 0 <= i <= 3 -> page_byte s (va + i) = view s (va + i)) as G.
  { intros i Hi. apply view_page. rewrite (blk_byte b); [done|by apply word_byte]. }
  pose proof (G 0 ltac:(lia)) as G0. rewrite Z.add_0_r in G0. unfold word. by rewrite G0, !G by lia.
Qed.
Lemma load32_mapped f b va s : word_of b va -> b ∈ mapped s ->
  load32_via (access f) va s = Ret (word (view s) va) s.
Proof.
  intros Hw Hb. unfold load32_via.
  exec_by (access_mapped f va s ltac:(by rewrite (blk_byte b) by (by apply word_byte0))).
  unfold gets. by rewrite (word_page s b).
Qed.
Lemma super_word : word_of 1 s_nblocks /\ word_of 1 s_magic.
Proof. split; blia. Qed.
Lemma load_nblocks f s : 1 ∈ mapped s -> load32_via (access f) s_nblocks s = Ret (nblocks (view s)) s.
Proof. intros H. by rewrite (load32_mapped f 1) by (apply super_word || done). Qed.

(** The word of the bitmap that has block [b]'s bit. *)
Definition bit_word (b : Z) : Z := BITMAP + 4 * (b / 32).
Lemma bit_word_of b : word_of (2 + b / BLKBITSIZE) (bit_word b).
Proof. unfold bit_word. blia. Qed.

(** [block_is_free] when the bitmap block is at hand. *)
Lemma block_is_free_mapped f s b : super_set s = true -> 1 ∈ mapped s -> 2 + b / BLKBITSIZE ∈ mapped s ->
  block_is_free_via (access f) b s = Ret (is_free (view s) b) s.
Proof.
  intros Hs H1 H2. unfold block_is_free_via. exec. rewrite Hs. cbn [negb].
  exec_by (load_nblocks f s H1). unfold is_free.
  destruct (Z.leb_spec (nblocks (view s)) b), (Z.ltb_spec b (nblocks (view s))); try lia; [done|].
  exec_by (load32_mapped f _ (bit_word b) s (bit_word_of b) H2). done.
Qed.

Section Access.
Implicit Types (s : bcst) (b va : Z).

Definition access_to (f : nat) (va : Z) (s : bcst) : Prop :=
  exists s', access f va s = Ret tt s' /\ quiet s s' /\ good s' /\ blk va ∈ mapped s'.

Lemma in_use_range v va : meta_ok v -> in_use v (blk va) -> DISKMAP <= va < DISKMAP + DISKSIZE.
Proof. intros [[H1 H2] _] [H3 _]. blia. Qed.

Lemma block_is_free_step f s s2 b : good s -> 0 <= b < nblocks (view s) ->
  access f (bit_word b) s = Ret tt s2 -> quiet s s2 -> blk (bit_word b) ∈ mapped s2 ->
  block_is_free_via (access f) b s = Ret (is_free (view s) b) s2.
Proof.
  intros Hg Hb E2 Hq Hm. unfold block_is_free_via. exec. rewrite (gd_super _ Hg). cbn [negb]. exec.
  exec_by (load_nblocks f s (gd_one _ Hg)). unfold is_free.
  destruct (Z.leb_spec (nblocks (view s)) b), (Z.ltb_spec b (nblocks (view s))); try lia. cbn [andb].
  unfold load32_via. fold (bit_word b). exec. exec_by E2. exec.
  rewrite (word_page s2 _ _ (bit_word_of b)), (q_view _ _ Hq); [done|].
  by rewrite <-(blk_byte _ _ (word_byte0 _ _ (bit_word_of b))).
Qed.

(** A fault works if the fault on the block's bitmap block does. *)
Lemma access_step f va s : good s -> in_use (view s) (blk va) ->
  (forall s1, good s1 -> view s1 = view s -> blk va ∈ mapped s1 -> access_to f (bit_word (blk va)) s1) ->
  access_to (S f) va s.
Proof.
  intros Hg [Hr Hf] Hrec. destruct (decide (blk va ∈ mapped s)) as [Hm|Hm].
  { exists s. split; [by apply access_mapped|]. auto using quiet_refl. }
  pose proof (in_use_range _ _ (gd_meta _ Hg) (conj Hr Hf)) as Hva.
  destruct (loaded_ok s (blk va) (gd_coh _ Hg) Hm) as (Hq & Hc & Hin).
  pose proof (quiet_good _ _ Hq Hc Hg) as Hg1.
  destruct (Hrec _ Hg1 (q_view _ _ Hq) Hin) as (s2 & E2 & Hq2 & Hg2 & Hin2).
  assert (blk (bit_word (blk va)) = 2 + blk va / BLKBITSIZE) as Eb
    by (apply blk_byte, word_byte0, bit_word_of).
  exists s2. split; [|split; [by eapply quiet_trans|split; [done|by apply (q_mapped _ _ Hq2)]]].
  cbn [access]. exec. unfold va_is_mapped. rewrite bool_decide_false by done. unfold bc_pgfault.
  assert (u32 (va - DISKMAP) / BLKSIZE = blk va) as -> by (unfold u32, blk; blia).
  destruct (Z.ltb_spec va DISKMAP); [lia|]. destruct (Z.leb_spec (DISKMAP + DISKSIZE) va); [lia|]. cbn [orb].
  exec. rewrite (gd_super _ Hg). exec. exec_by (load_nblocks f s (gd_one _ Hg)). exec.
  destruct (Z.leb_spec (nblocks (view s)) (blk va)); [lia|]. exec.
  fold (loaded s (blk va)). rewrite (gd_bitmap _ Hg1). cbn [when].
  rewrite <-(q_view _ _ Hq) in Hr, Hf.
  exec_by (block_is_free_step f _ s2 _ Hg1 Hr E2 Hq2 Hin2). by rewrite Hf.
Qed.

(** The bitmap blocks are in use, and theirs is the first of them. *)
Lemma bitmap_in_use v b : meta_ok v -> 0 <= b < nblocks v -> in_use v (2 + b / BLKBITSIZE).
Proof.
  intros [[H1 H2] H3] Hb. split; [blia|]. apply H3. unfold nbitmap. blia.
Qed.
Lemma access_ok va s : good s -> in_use (view s) (blk va) -> access_to 3 va s.
Proof.
  intros Hg Hu.
  assert (forall b, blk (bit_word b) = 2 + b / BLKBITSIZE) as Eb
    by (intros; apply blk_byte, word_byte0, bit_word_of).
  apply access_step; [done|done|]. intros s1 Hg1 Ev1 _.
  pose proof (gd_meta _ Hg) as Hmeta. pose proof (bitmap_in_use _ (blk va) Hmeta (proj1 Hu)) as Hu1.
  apply access_step; [done|by rewrite Eb, Ev1|]. intros s2 Hg2 Ev2 _. rewrite Eb.
  pose proof (bitmap_in_use _ _ Hmeta (proj1 Hu1)) as Hu2.
  assert ((2 + blk va / BLKBITSIZE) / BLKBITSIZE = 0) as E0
    by (destruct Hu as [? _]; pose proof (mt_size _ Hmeta); blia).
  rewrite E0 in Hu2. 
  apply access_step; [done|by rewrite Eb, E0, Ev2, Ev1|]. intros s3 Hg3 Ev3 Hin. rewrite Eb, E0 in *.
  change ((2 + 0) / BLKBITSIZE) with 0. exists s3.
  split; [|split; [apply quiet_refl|split; [done|]]].
  - apply access_mapped. by rewrite Eb.
  - by rewrite Eb.
Qed.
End Access.

(** ** The operations *)
Section Ops.
Implicit Types (s : bcst) (b va x : Z).

Lemma touch_ok va s : good s -> in_use (view s) (blk va) ->
  exists s', touch va s = Ret tt s' /\ quiet s s' /\ good s' /\ blk va ∈ mapped s'.
Proof. apply access_ok. Qed.
Lemma load8_ok va s : good s -> in_use (view s) (blk va) ->
  exists s', load8 va s = Ret (view s va) s' /\ quiet s s' /\ good s'.
Proof.
  intros Hg Hu. destruct (touch_ok va s Hg Hu) as (s' & E & Hq & Hg' & Hm). exists s'.
  unfold load8. exec_by E. unfold gets. rewrite (view_page s' va Hm), (q_view _ _ Hq). done.
Qed.
Lemma load32_ok va s : good s -> in_use (view s) (blk va) -> word_of (blk va) va ->
  exists s', load32 va s = Ret (word (view s) va) s' /\ quiet s s' /\ good s'.
Proof.
  intros Hg Hu Hw. destruct (touch_ok va s Hg Hu) as (s' & E & Hq & Hg' & Hm). exists s'.
  unfold load32, load32_via. exec_by E. unfold gets. rewrite (word_page s' _ _ Hw Hm), (q_view _ _ Hq). done.
Qed.
Lemma block_is_free_ok b s : good s -> 0 <= b ->
  exists s', block_is_free b s = Ret (is_free (view s) b) s' /\ quiet s s' /\ good s'.
Proof.
  intros Hg Hb. destruct (decide (b < nblocks (view s))) as [Hn|Hn].
  - pose proof (blk_byte _ _ (word_byte0 _ _ (bit_word_of b))) as Eb.
    destruct (touch_ok (bit_word b) s Hg) as (s2 & E & Hq & Hg' & Hm).
    { rewrite Eb. apply bitmap_in_use; [apply Hg|lia]. }
    exists s2. split; [|done]. by apply (block_is_free_step 3 s s2 b Hg).
  - exists s. split; [|split; [apply quiet_refl|done]]. unfold block_is_free, block_is_free_via, is_free. exec.
    rewrite (gd_super _ Hg). cbn [negb]. exec_by (load_nblocks 3 s (gd_one _ Hg)).
    destruct (Z.leb_spec (nblocks (view s)) b), (Z.ltb_spec b (nblocks (view s))); try lia. done.
Qed.
Lemma diskaddr_ok b s : good s -> 0 < b < nblocks (view s) ->
  diskaddr b s = Ret (DISKMAP + b * BLKSIZE) s.
Proof.
  intros Hg Hb. unfold diskaddr. destruct (Z.eqb_spec b 0); [lia|]. exec. rewrite (gd_super _ Hg).
  exec_by (load_nblocks 3 s (gd_one _ Hg)). destruct (Z.leb_spec (nblocks (view s)) b); [lia|].
  rewrite u32_id; [done|]. pose proof (mt_size _ (gd_meta _ Hg)). unfold is_u32. blia.
Qed.

(** A store that changes the bytes of one block in place. *)
Lemma store_with_ok f va s v' :
  good s -> in_use (view s) (blk va) ->
  (forall m i, ~ byte_of (blk va) i -> rdw (f va m) i = rdw m i /\ v' i = view s i) ->
  (forall s1, view s1 = view s -> blk va ∈ mapped s1 ->
     forall i, byte_of (blk va) i -> u8 (rdw (f va (pages s1)) i) = v' i) ->
  meta_ok v' ->
  exists s', store_with f va s = Ret tt s' /\ view s' = v' /\ disk s' = disk s /\ good s'.
Proof.
  intros Hg Hu Hout Hin Hmeta. destruct (touch_ok va s Hg Hu) as (s1 & E & Hq & Hg1 & Hm).
  unfold store_with. exec_by E. eexists. split; [reflexivity|].
  assert (view (mk_bc (disk s1) (f va (pages s1)) (mapped s1) ({[ blk va ]} ∪ dirty s1) (super_set s1) (bitmap_set s1)) = v') as Ev.
  { apply functional_extensionality. intros i. unfold view, page_byte, disk_byte. cbn.
    destruct (decide (byte_of (blk va) i)) as [Hi|Hi].
    - rewrite (blk_byte _ _ Hi), decide_True by done. by apply Hin; [apply (q_view _ _ Hq)| |].
    - destruct (Hout (pages s1) i Hi) as [H1 H2]. rewrite H1, H2, <-(q_view _ _ Hq). done. }
  split; [exact Ev|]. split; [by apply Hq|]. destruct Hg1 as [[Hd Hc] Hme H1 Hs Hb].
  split; cbn; [|by rewrite Ev|done|done|done]. split; cbn; [set_solver|].
  intros i Hi. rewrite Ev. assert (~ byte_of (blk va) i) as Hni.
  { intros H. apply Hi. rewrite (blk_byte _ _ H). set_solver. }
  destruct (Hout (pages s1) i Hni) as [_ ->]. rewrite <-(q_view _ _ Hq). apply Hc. set_solver.
Qed.

Lemma store8_ok va x s : good s -> in_use (view s) (blk va) -> meta_ok (upd8 (view s) va x) ->
  exists s', store8 va x s = Ret tt s' /\ view s' = upd8 (view s) va x /\ disk s' = disk s /\ good s'.
Proof.
  intros Hg Hu Hm. apply store_with_ok; [done|done| | |done].
  - intros m i Hi. assert (i <> va) by (intros ->; apply Hi; blia).
    by rewrite rdw_wrw_ne, upd8_out by done.
  - intros s1 Ev Hin i Hi. unfold upd8. case_decide; [subst; rewrite rdw_wrw_eq; unfold u8; zlia|].
    rewrite rdw_wrw_ne, <-Ev by done. rewrite <-view_page; [done|]. by rewrite (blk_byte _ _ Hi).
Qed.
Lemma store32_ok va x s : good s -> in_use (view s) (blk va) -> word_of (blk va) va ->
  meta_ok (upd32 (view s) va x) ->
  exists s', store32 va x s = Ret tt s' /\ view s' = upd32 (view s) va x /\ disk s' = disk s /\ good s'.
Proof.
  intros Hg Hu Hw Hm. apply store_with_ok; [done|done| | |done].
  - intros m i Hi. assert (forall k, 0 <= k <= 3 -> i <> va + k) as Hne
      by (intros k Hk ->; by apply Hi, word_byte).
    pose proof (Hne 0 ltac:(lia)) as Hne0. rewrite Z.add_0_r in Hne0.
    rewrite !rdw_wrw_ne by (done || (apply not_eq_sym, Hne; lia)). split; [done|].
    apply upd32_out. intros Hk. apply (Hne (i - va)); lia.
  - intros s1 Ev Hin i Hi. unfold upd32, upd8.
    repeat (case_decide; [subst; rewrite rdw_wrw_eq; unfold u8; zlia|rewrite rdw_wrw_ne by done]).
    rewrite <-Ev, <-view_page; [done|]. by rewrite (blk_byte _ _ Hi).
Qed.

(** After a flush the disk holds what the memory shows. *)
Lemma flush_block_ok va s : good s -> DISKMAP <= va < DISKMAP + DISKSIZE ->
  exists s', flush_block va s = Ret tt s' /\ view s' = view s /\ good s' /\
    forall i, disk_byte s' i = if decide (byte_of (blk va) i) then view s i else disk_byte s i.
Proof.
  intros Hg Hva. unfold flush_block.
  destruct (Z.ltb_spec va DISKMAP); [lia|]. destruct (Z.leb_spec (DISKMAP + DISKSIZE) va); [lia|]. cbn [orb].
  exec. unfold va_is_mapped, va_is_dirty.
  assert (u32 (va - DISKMAP) / BLKSIZE = blk va) as -> by (unfold u32, blk; blia).
  destruct Hg as [[Hd Hc] Hme H1 Hs Hb].
  destruct (decide (blk va ∈ dirty s)) as [Hdi|Hdi].
  - assert (blk va ∈ mapped s) as Hm by (by apply Hd).
    rewrite !bool_decide_true by done. cbn [negb orb]. eexists. split; [reflexivity|].
    match goal with |- view ?t = _ /\ _ => set (s' := t) end.
    assert (forall i, disk_byte s' i = if decide (byte_of (blk va) i) then view s i else disk_byte s i) as Ed.
    { intros i. unfold disk_byte, s'. cbn. rewrite save_block_get. case_decide as Hi; [|done].
      rewrite <-view_page; [done|]. by rewrite (blk_byte _ _ Hi). }
    assert (view s' = view s) as Ev.
    { apply functional_extensionality. intros i. unfold view at 1. cbn. case_decide as Hi.
      - by rewrite <-view_page.
      - fold (disk_byte s' i). rewrite Ed. rewrite decide_False; [unfold view; by rewrite decide_False|].
        intros Hb'. apply Hi. by rewrite (blk_byte _ _ Hb'). }
    split; [exact Ev|]. split; [|exact Ed].
    split; [|by rewrite Ev|done|done|done]. split; [cbn; set_solver|].
    intros i Hi. rewrite Ev, Ed. case_decide as Hb'; [done|]. apply Hc. cbn in Hi. intros Hx. apply Hi.
    apply elem_of_difference. split; [done|]. intros E%elem_of_singleton. apply Hb'. blia.
  - rewrite (bool_decide_false (blk va ∈ dirty s)) by done. cbn [negb]. rewrite orb_true_r.
    exists s. split; [done|]. split; [done|]. split; [done|]. intros i. case_decide as Hi; [|done].
    symmetry. apply Hc. by rewrite (blk_byte _ _ Hi).
Qed.
End Ops.

(** ** The promise to the file system *)

Class BlockOps (S : Type) := {
  b_load8 : Z -> M S Z; b_load32 : Z -> M S Z;
  b_store8 : Z -> Z -> M S unit; b_store32 : Z -> Z -> M S unit;
  b_flush : Z -> M S unit; b_diskaddr : Z -> M S Z; b_is_free : Z -> M S bool;
  b_view : S -> Z -> Z;      (* what loads see *)
  b_disk : S -> Z -> Z;      (* what the disk holds *)
  b_ok : S -> Prop;
}.

(** The memory, the disk and the soundness of [s] carry over to [s']. *)
Definition calm {S : Type} `{BlockOps S} (s s' : S) : Prop :=
  b_view s' = b_view s /\ b_disk s' = b_disk s /\ b_ok s'.

(** Flat memory over the blocks in use, written to the disk block by block. *)
Class BlockMem (S : Type) `{BlockOps S} : Prop := {
  bm_range : forall s va, 0 <= b_view s va < 256;
  bm_meta : forall s, b_ok s -> meta_ok (b_view s);
  bm_load8 : forall s va, b_ok s -> in_use (b_view s) (blk va) ->
    exists s', b_load8 va s = Ret (b_view s va) s' /\ calm s s';
  bm_load32 : forall s va, b_ok s -> in_use (b_view s) (blk va) -> word_of (blk va) va ->
    exists s', b_load32 va s = Ret (word (b_view s) va) s' /\ calm s s';
  bm_store8 : forall s va x, b_ok s -> in_use (b_view s) (blk va) -> meta_ok (upd8 (b_view s) va x) ->
    exists s', b_store8 va x s = Ret tt s' /\ b_view s' = upd8 (b_view s) va x /\
      b_disk s' = b_disk s /\ b_ok s';
  bm_store32 : forall s va x, b_ok s -> in_use (b_view s) (blk va) -> word_of (blk va) va ->
    meta_ok (upd32 (b_view s) va x) ->
    exists s', b_store32 va x s = Ret tt s' /\ b_view s' = upd32 (b_view s) va x /\
      b_disk s' = b_disk s /\ b_ok s';
  bm_flush : forall s va, b_ok s -> DISKMAP <= va < DISKMAP + DISKSIZE ->
    exists s', b_flush va s = Ret tt s' /\ b_view s' = b_view s /\ b_ok s' /\
      forall i, b_disk s' i = if decide (byte_of (blk va) i) then b_view s i else b_disk s i;
  bm_diskaddr : forall s b, b_ok s -> 0 < b < nblocks (b_view s) ->
    b_diskaddr b s = Ret (DISKMAP + b * BLKSIZE) s;
  bm_is_free : forall s b, b_ok s -> 0 <= b ->
    exists s', b_is_free b s = Ret (is_free (b_view s) b) s' /\ calm s s';
}.

#[export] Instance bc_ops : BlockOps bcst := {|
  b_load8 := load8; b_load32 := load32; b_store8 := store8; b_store32 := store32;
  b_flush := flush_block; b_diskaddr := diskaddr; b_is_free := block_is_free;
  b_view := view; b_disk := disk_byte; b_ok := good |}.

Lemma quiet_calm s s' : quiet s s' -> good s' -> calm s s'.
Proof.
  intros [Hv Hd _ _ _ _] Hg. split; [exact Hv|]. split; [|exact Hg].
  apply functional_extensionality. intros va. cbn. unfold disk_byte. by rewrite Hd.
Qed.
Lemma disk_byte_eq s s' : disk s' = disk s -> disk_byte s' = disk_byte s.
Proof. intros E. apply functional_extensionality. intros va. unfold disk_byte. by rewrite E. Qed.

#[export] Instance bc_mem : BlockMem bcst.
Proof.
  split; cbn.
  - apply view_range.
  - by intros s [].
  - intros s va Hg Hu. destruct (load8_ok va s Hg Hu) as (s' & E & Hq & Hg'). eauto using quiet_calm.
  - intros s va Hg Hu Hw. destruct (load32_ok va s Hg Hu Hw) as (s' & E & Hq & Hg'). eauto using quiet_calm.
  - intros s va x Hg Hu Hm. destruct (store8_ok va x s Hg Hu Hm) as (s' & E & Hv & Hd & Hg').
    eauto 6 using disk_byte_eq.
  - intros s va x Hg Hu Hw Hm. destruct (store32_ok va x s Hg Hu Hw Hm) as (s' & E & Hv & Hd & Hg').
    eauto 6 using disk_byte_eq.
  - intros s va Hg Hva. destruct (flush_block_ok va s Hg Hva) as (s' & E & Hv & Hg' & Hd). eauto.
  - intros s b Hg Hb. by apply diskaddr_ok.
  - intros s b Hg Hb. destruct (block_is_free_ok b s Hg Hb) as (s' & E & Hq & Hg'). eauto using quiet_calm.
Qed.

(** ** Start-up *)

(** A machine that has just booted: nothing cached. *)
Definition boot_bc (d : gmap Z Z) : bcst := mk_bc d ∅ ∅ ∅ false false.

Lemma for_each_quiet {A} (l : list A) (body : A -> M bcst unit) s :
  good s -> (forall x s1, x ∈ l -> good s1 -> view s1 = view s ->
    exists s2, body x s1 = Ret tt s2 /\ quiet s1 s2 /\ good s2) ->
  exists s', for_each l body s = Ret tt s' /\ quiet s s' /\ good s'.
Proof.
  revert s. induction l as [|x l IH]; intros s Hg Hb; cbn [for_each].
  { exists s. split; [done|]. split; [apply quiet_refl|done]. }
  destruct (Hb x s ltac:(left) Hg eq_refl) as (s1 & E1 & Hq1 & Hg1). exec_by E1.
  destruct (IH s1 Hg1) as (s2 & E2 & Hq2 & Hg2).
  - intros y s' Hy Hg' Hv. apply Hb; [by right|done|]. rewrite Hv. apply Hq1.
  - exists s2. split; [done|]. split; [by eapply quiet_trans|done].
Qed.

Lemma check_free_ok b msg s : good s -> 0 <= b < 2 + nbitmap (view s) ->
  exists s', (f ← block_is_free b; assertb msg (negb f)) s = Ret tt s' /\ quiet s s' /\ good s'.
Proof.
  intros Hg Hb. destruct (block_is_free_ok b s Hg ltac:(lia)) as (s' & E & Hq & Hg'). exists s'.
  exec_by E. rewrite (mt_res _ (gd_meta _ Hg) b Hb). done.
Qed.
Lemma check_bitmap_ok s : good s -> exists s', check_bitmap s = Ret tt s' /\ quiet s s' /\ good s'.
Proof.
  intros Hg. unfold check_bitmap. exec_by (load_nblocks 3 s (gd_one _ Hg)).
  pose proof (mt_size _ (gd_meta _ Hg)) as Hs.
  assert (1 <= nbitmap (view s)) as Hnb by (unfold nbitmap; blia).
  destruct (for_each_quiet (seqZ 0 ((nblocks (view s) + BLKBITSIZE - 1) / BLKBITSIZE))
    (fun i => f ← block_is_free (2 + i); assertb "!block_is_free(2+i)" (negb f)) s Hg) as (s1 & E1 & Hq1 & Hg1).
  { intros i s1 Hi%elem_of_seqZ Hg1 Hv. apply check_free_ok; [done|]. rewrite Hv. unfold nbitmap. lia. }
  exec_by E1.
  destruct (check_free_ok 0 "!block_is_free(0)" s1 Hg1) as (s2 & E2 & Hq2 & Hg2); [rewrite (q_view _ _ Hq1); lia|].
  rewrite <-exec_bind, (bind_Ret _ _ _ _ _ E2).
  destruct (check_free_ok 1 "!block_is_free(1)" s2 Hg2) as (s3 & E3 & Hq3 & Hg3);
    [rewrite (q_view _ _ Hq2), (q_view _ _ Hq1); lia|].
  exists s3. split; [exact E3|]. split; [|done]. eapply quiet_trans; [exact Hq1|]. by eapply quiet_trans.
Qed.

Definition with_flags (s : bcst) (a b : bool) : bcst := mk_bc (disk s) (pages s) (mapped s) (dirty s) a b.
Lemma with_flags_view s a b : view (with_flags s a b) = view s.
Proof. done. Qed.
Lemma with_flags_coherent s a b : coherent s -> coherent (with_flags s a b).
Proof. intros [H1 H2]. split; [exact H1|exact H2]. Qed.

(** Start-up reads the super block in. *)
Lemma bc_init_ok s : super_set s = false -> bitmap_set s = false -> 1 ∉ mapped s -> bc_init s = Ret tt (loaded s 1).
Proof.
  intros Hs Hb Hm. unfold bc_init. assert (diskaddr 1 s = Ret SUPER s) as E by (unfold diskaddr; cbn [Z.eqb]; exec; by rewrite Hs).
  exec_by E. unfold touch. cbn [access]. exec. unfold va_is_mapped. change (blk SUPER) with 1.
  rewrite bool_decide_false by done. unfold bc_pgfault. change (u32 (SUPER - DISKMAP) / BLKSIZE) with 1. cbn [orb].
  change ((SUPER <? DISKMAP) || (DISKMAP + DISKSIZE <=? SUPER)) with false. cbv iota. exec. rewrite Hs. exec.
  fold (loaded s 1). change (bitmap_set (loaded s 1)) with (bitmap_set s). by rewrite Hb.
Qed.
Lemma boot_coherent d : coherent (boot_bc d).
Proof. split; [done|]. intros va _. unfold view. cbn. by rewrite decide_False by apply not_elem_of_empty. Qed.

Lemma fs_init_ok d : meta_ok (view (boot_bc d)) -> word (view (boot_bc d)) s_magic = FS_MAGIC ->
  exists s, fs_init (boot_bc d) = Ret tt s /\ good s /\ view s = view (boot_bc d) /\ disk s = d.
Proof.
  intros Hm Hmag. set (s0 := boot_bc d) in *.
  destruct (loaded_ok s0 1 (boot_coherent d)) as (Hq & Hc & Hin); [apply not_elem_of_empty|].
  pose proof (bc_init_ok s0 eq_refl eq_refl (not_elem_of_empty 1)) as E1. set (s1 := loaded s0 1) in *.
  clearbody s1. unfold fs_init. exec_by E1.
  assert (diskaddr 1 s1 = Ret SUPER s1) as E2
    by (unfold diskaddr; cbn [Z.eqb]; exec; rewrite (q_super _ _ Hq); reflexivity).
  exec_by E2. exec.
  set (s2 := mk_bc _ _ _ _ true _).
  assert (view s2 = view s0) as Hv2 by (rewrite <-(q_view _ _ Hq); reflexivity).
  assert (1 ∈ mapped s2) as Hin2 by exact Hin.
  assert (check_super s2 = Ret tt s2) as E3.
  { unfold check_super, load32.
    exec_by (load32_mapped 3 1 s_magic s2 (proj2 super_word) Hin2). rewrite Hv2, Hmag.
    rewrite Z.eqb_refl. cbn [negb]. exec_by (load_nblocks 3 s2 Hin2). rewrite Hv2.
    destruct (Z.ltb_spec (DISKSIZE / BLKSIZE) (nblocks (view s0))); [|done].
    pose proof (mt_size _ Hm). lia. }
  exec_by E3.
  assert (diskaddr 2 s2 = Ret BITMAP s2) as E4.
  { unfold diskaddr. cbn [Z.eqb]. exec. cbn [super_set s2]. unfold load32.
    exec_by (load_nblocks 3 s2 Hin2). rewrite Hv2.
    destruct (Z.leb_spec (nblocks (view s0)) 2); [pose proof (mt_size _ Hm); lia|]. done. }
  exec_by E4. exec. set (s3 := mk_bc _ _ _ _ _ true).
  assert (view s3 = view s0) as Hv3 by (rewrite <-Hv2; reflexivity).
  assert (good s3) as Hg3 by (split; [exact (with_flags_coherent _ _ _ Hc)|by rewrite Hv3|exact Hin|done|done]).
  destruct (check_bitmap_ok s3 Hg3) as (s4 & E5 & Hq4 & Hg4).
  exists s4. split; [exact E5|]. split; [done|]. split; [by rewrite (q_view _ _ Hq4)|].
  rewrite (q_disk _ _ Hq4). exact (q_disk _ _ Hq).
Qed.
