(* ===== verification/JFs.v ===== *)
(** * Files and directories of the JOS file server

    [oslab6/fs/fs.c] from the block allocator up, with [struct File] and
    [struct Super] of [inc/fs.h].  A [struct File *] is the address of the
    structure in the memory of the block cache, and every access goes through
    [BlockOps]; this file does not depend on how the cache works.  The memory
    of the callers -- paths, names, the buffers of [file_read] and
    [file_write] -- is outside the disk map: strings are lists of bytes without
    their NUL, buffers lists of bytes.

    A function that returns a negative error code and otherwise hands out a
    result is a computation of [Z + A] ([inl] the error); [x ←? m; k] is
    [if ((r = m) < 0) return r].  Messages to the console are left out. *)
From S2P Require Import Prelude Bytes Mmu JBlock JBlockSpec.

Definition NDIRECT : Z := 10.
Definition NINDIRECT : Z := BLKSIZE / 4.
Definition MAXNAMELEN : Z := 128.
Definition FTYPE_DIR : Z := 1.
Definition FILESZ : Z := 256.                    (* sizeof(struct File) *)
Definition BLKFILES : Z := BLKSIZE / FILESZ.

(** Addresses of the fields of the [struct File] at [f]. *)
Definition f_name (f : Z) : Z := f.
Definition f_size (f : Z) : Z := f + 128.
Definition f_type (f : Z) : Z := f + 132.
Definition f_direct (f : Z) : Z := f + 136.
Definition f_indirect (f : Z) : Z := f + 176.

Definition try_ {S A B} (m : M S (Z + A)) (k : A -> M S (Z + B)) : M S (Z + B) :=
  r ← m; match r with inl e => mret (inl e) | inr x => k x end.
Notation "x ←? m ; k" := (try_ m (fun x => k))
  (at level 20, m at level 100, k at level 200, only parsing) : os_scope.

(** [MIN] of two values compared as unsigned. *)
Definition min_u32 (a b : Z) : Z := Z.min (u32 a) (u32 b).

(** [skip_slash], and the inner loop of [walk_path] that finds the end of a
    path element, on the rest of a string. *)
Fixpoint skip_slash (p : list Z) : list Z :=
  match p with c :: p' => if c =? 47 then skip_slash p' else p | [] => [] end.
Fixpoint path_elem (p : list Z) : list Z * list Z :=
  match p with
  | c :: p' => if c =? 47 then ([], p) else let '(e, r) := path_elem p' in (c :: e, r)
  | [] => ([], [])
  end.

Section Fs.
Context {S : Type} `{BlockOps S}.

(** ** Blocks of bytes *)

Definition memset0 (a n : Z) : M S unit := for_each (seqZ a n) (fun p => b_store8 p 0).
Fixpoint load_bytes (a : Z) (n : nat) : M S (list Z) :=
  match n with
  | O => mret []
  | Datatypes.S n => c ← b_load8 a; l ← load_bytes (a + 1) n; mret (c :: l)
  end.
Fixpoint store_bytes (a : Z) (l : list Z) : M S unit :=
  match l with [] => mret tt | c :: l => b_store8 a c;; store_bytes (a + 1) l end.
(** [strcmp] of a string on the disk with one of the caller. *)
Fixpoint strcmp_disk (p : Z) (q : list Z) : M S Z :=
  c ← b_load8 p;
  match q with
  | x :: q' => if negb (c =? 0) && (c =? x) then strcmp_disk (p + 1) q' else mret (c - x)
  | [] => mret c
  end.

(** ** The free block bitmap *)

Definition free_block (b : Z) : M S unit :=
  if b =? 0 then panic "attempt to free zero block" else
  w ← b_load32 (BITMAP + 4 * (b / 32));
  b_store32 (BITMAP + 4 * (b / 32)) (Z.lor w (2 ^ (b `mod` 32))).

Definition alloc_block : M S (Z + Z) :=
  nb ← b_load32 s_nblocks;
  let nblock_bitmap := u32 (nb + BLKBITSIZE - 1) / BLKBITSIZE in
  r ← for_until (seqZ (2 + nblock_bitmap) (nb - (2 + nblock_bitmap))) (fun i =>
    f ← b_is_free i;
    if (f : bool) then
      w ← b_load32 (BITMAP + 4 * (i / 32));
      b_store32 (BITMAP + 4 * (i / 32)) (Z.ldiff w (2 ^ (i `mod` 32)));;
      b_flush (BITMAP + 4 * (i / 32));;
      mret (Some i)
    else mret None);
  mret (match r with Some i => inr i | None => inl (- E_NO_DISK) end).

(** ** The blocks of a file *)

(** What [file_block_walk] and [file_get_block] do with an empty slot at [p]:
    a new block, cleared on the disk too. *)
Definition fill_slot (p : Z) : M S (Z + unit) :=
  r ←? alloc_block;
  b_store32 p r;;
  a ← b_diskaddr r; memset0 a BLKSIZE;;
  a ← b_diskaddr r; b_flush a;;
  mret (inr tt).

Definition file_block_walk (f filebno : Z) (alloc : bool) : M S (Z + Z) :=
  if NDIRECT + NINDIRECT <=? filebno then mret (inl (- E_INVAL)) else
  if filebno <? NDIRECT then mret (inr (f_direct f + 4 * filebno)) else
  ind ← b_load32 (f_indirect f);
  _ ←? (if ind =? 0 then
          if negb alloc then mret (inl (- E_NOT_FOUND)) else fill_slot (f_indirect f)
        else mret (inr tt));
  ind ← b_load32 (f_indirect f);
  a ← b_diskaddr ind;
  mret (inr (a + 4 * (filebno - NDIRECT))).

Definition file_get_block (f filebno : Z) : M S (Z + Z) :=
  p ←? file_block_walk f filebno true;
  b ← b_load32 p;
  _ ←? (if b =? 0 then fill_slot p else mret (inr tt));
  b ← b_load32 p;
  a ← b_diskaddr b;
  mret (inr a).

Definition file_free_block (f filebno : Z) : M S (Z + unit) :=
  p ←? file_block_walk f filebno false;
  b ← b_load32 p;
  (if negb (b =? 0) then free_block b;; b_store32 p 0 else mret tt);;
  mret (inr tt).

(** [f->f_size], an [off_t]. *)
Definition load_size (f : Z) : M S Z := w ← b_load32 (f_size f); mret (s32 w).

Definition file_truncate_blocks (f newsize : Z) : M S unit :=
  sz ← load_size f;
  let old_nblocks := u32 (Z.quot (sz + BLKSIZE - 1) BLKSIZE) in
  let new_nblocks := u32 (Z.quot (newsize + BLKSIZE - 1) BLKSIZE) in
  for_each (seqZ new_nblocks (old_nblocks - new_nblocks)) (fun bno =>
    _ ← file_free_block f bno; mret tt);;
  ind ← b_load32 (f_indirect f);
  when ((new_nblocks <=? NDIRECT) && negb (ind =? 0))
    (ind ← b_load32 (f_indirect f); free_block ind;; b_store32 (f_indirect f) 0).

Definition file_set_size (f newsize : Z) : M S (Z + unit) :=
  sz ← load_size f;
  when (newsize <? sz) (file_truncate_blocks f newsize);;
  b_store32 (f_size f) (u32 newsize);;
  b_flush f;;
  mret (inr tt).

Definition file_flush (f : Z) : M S unit :=
  sz ← load_size f;
  for_each (seqZ 0 (Z.quot (sz + BLKSIZE - 1) BLKSIZE)) (fun i =>
    r ← file_block_walk f i false;
    match r with
    | inl _ => mret tt
    | inr p =>
        b ← b_load32 p;
        if b =? 0 then mret tt else a ← b_diskaddr b; b_flush a
    end);;
  b_flush f;;
  ind ← b_load32 (f_indirect f);
  when (negb (ind =? 0)) (ind ← b_load32 (f_indirect f); a ← b_diskaddr ind; b_flush a).

Definition fs_sync : M S unit :=
  nb ← b_load32 s_nblocks;
  for_each (seqZ 1 (nb - 1)) (fun i => a ← b_diskaddr i; b_flush a).

(** ** Reading and writing *)

(** The number of bytes read and the bytes.  Every round of the loop moves
    [pos] by at least one byte, so [count + 1] rounds are enough. *)
Definition file_read (f count offset : Z) : M S (Z + Z * list Z) :=
  sz ← load_size f;
  if sz <=? offset then mret (inr (0, [])) else
  let count := min_u32 count (sz - offset) in
  loop (Datatypes.S (Z.to_nat count)) (fun '(pos, buf) =>
    if u32 pos <? u32 (offset + count) then
      r ← file_get_block f (u32 (Z.quot pos BLKSIZE));
      match r with
      | inl e => mret (inr (inl e))
      | inr blk =>
          let bn := s32 (min_u32 (BLKSIZE - Z.rem pos BLKSIZE) (offset + count - pos)) in
          l ← load_bytes (blk + Z.rem pos BLKSIZE) (Z.to_nat bn);
          mret (inl (s32 (pos + bn), buf ++ l))
      end
    else mret (inr (inr (count, buf)))) (offset, []).

Definition file_write (f : Z) (buf : list Z) (count offset : Z) : M S (Z + Z) :=
  sz ← load_size f;
  _ ←? (if u32 sz <? u32 (offset + count) then file_set_size f (s32 (offset + count))
        else mret (inr tt));
  loop (Datatypes.S (Z.to_nat count)) (fun '(pos, buf) =>
    if u32 pos <? u32 (offset + count) then
      r ← file_get_block f (u32 (Z.quot pos BLKSIZE));
      match r with
      | inl e => mret (inr (inl e))
      | inr blk =>
          let bn := s32 (min_u32 (BLKSIZE - Z.rem pos BLKSIZE) (offset + count - pos)) in
          if zlen buf <? bn then ub else
          store_bytes (blk + Z.rem pos BLKSIZE) (take (Z.to_nat bn) buf);;
          mret (inl (s32 (pos + bn), drop (Z.to_nat bn) buf))
      end
    else mret (inr (inr count))) (offset, buf).

(** ** Directories *)

(** The loops of [dir_lookup] and [dir_alloc_file]: the first of the entries
    that passes [test]. *)
Definition dir_scan (dir nblock : Z) (test : Z -> M S bool) : M S (option (Z + Z)) :=
  for_until (seqZ 0 nblock) (fun i =>
    r ← file_get_block dir i;
    match r with
    | inl e => mret (Some (inl e))
    | inr blk =>
        for_until (seqZ 0 BLKFILES) (fun j =>
          t ← test (blk + FILESZ * j);
          mret (if (t : bool) then Some (inr (blk + FILESZ * j)) else None))
    end).

Definition dir_nblock (dir : Z) : M S Z :=
  sz ← load_size dir;
  assertb "(dir->f_size % BLKSIZE) == 0" (Z.rem sz BLKSIZE =? 0);;
  mret (u32 (Z.quot sz BLKSIZE)).

Definition dir_lookup (dir : Z) (name : list Z) : M S (Z + Z) :=
  nblock ← dir_nblock dir;
  r ← dir_scan dir nblock (fun f => c ← strcmp_disk (f_name f) name; mret (c =? 0));
  mret (default (inl (- E_NOT_FOUND)) r).

Definition dir_alloc_file (dir : Z) : M S (Z + Z) :=
  nblock ← dir_nblock dir;
  r ← dir_scan dir nblock (fun f => c ← b_load8 (f_name f); mret (c =? 0));
  match r with
  | Some r => mret r
  | None =>
      sz ← load_size dir;
      b_store32 (f_size dir) (u32 (sz + BLKSIZE));;
      blk ←? file_get_block dir nblock;
      mret (inr blk)
  end.

(** What [walk_path] returns and what it leaves in [*pdir], [*pf] and
    [lastelem]. *)
Record walked := Walked { w_ret : Z; w_dir : Z; w_file : Z; w_last : option (list Z) }.

(** Every round consumes at least a byte of the path. *)
Fixpoint walk_loop (fuel : nat) (path : list Z) (dir f : Z) : M S walked :=
  match path, fuel with
  | [], _ => mret (Walked 0 dir f None)
  | _, O => panic "fuel"
  | _, Datatypes.S fuel =>
      let dir := f in
      let '(name, path) := path_elem path in
      if MAXNAMELEN <=? zlen name then mret (Walked (- E_BAD_PATH) 0 0 None) else
      let path := skip_slash path in
      ty ← b_load32 (f_type dir);
      if negb (ty =? FTYPE_DIR) then mret (Walked (- E_NOT_FOUND) 0 0 None) else
      r ← dir_lookup dir name;
      match r with
      | inl e =>
          mret (if (e =? - E_NOT_FOUND) && bool_decide (path = [])
                then Walked e dir 0 (Some name) else Walked e 0 0 None)
      | inr f => walk_loop fuel path dir f
      end
  end.
Definition walk_path (path : list Z) : M S walked :=
  let path := skip_slash path in walk_loop (length path) path 0 s_root.

Definition file_open (path : list Z) : M S (Z + Z) :=
  w ← walk_path path;
  mret (if w_ret w <? 0 then inl (w_ret w) else inr (w_file w)).

Definition file_create (path : list Z) : M S (Z + Z) :=
  w ← walk_path path;
  if w_ret w =? 0 then mret (inl (- E_FILE_EXISTS)) else
  if negb (w_ret w =? - E_NOT_FOUND) || (w_dir w =? 0) then mret (inl (w_ret w)) else
  f ←? dir_alloc_file (w_dir w);
  name ← deref (w_last w);
  store_bytes (f_name f) (name ++ [0]);;
  file_flush (w_dir w);;
  mret (inr f).
End Fs.
