(* ===== verification/JFsSpec.v ===== *)
(** * The bitmap and the blocks of files

    The allocator of the file server against the bitmap it keeps
    ([alloc_block_ok], [free_block_ok]), the memory that can be written without
    touching the meta data ([plain]), and what a new block in an empty slot
    changes ([fill_slot_ok]).  Everything is proved from the interface
    [BlockMem]. *)
From S2P Require Import Prelude Bytes Mmu JBlock JBlockSpec JFs.

(** ** Meta data *)

(** The bytes that hold the size of the disk and the bitmap. *)
Definition meta_byte (v : Z -> Z) (a : Z) : Prop :=
  SUPER <= a < SUPER + 8 \/ BITMAP <= a < BITMAP + nbitmap v * BLKSIZE.
(** A byte in use that is not one of them. *)
Definition plain (v : Z -> Z) (a : Z) : Prop :=
  in_use v (blk a) /\ (2 + nbitmap v <= blk a \/ SUPER + 8 <= a < SUPER + BLKSIZE).
(** The blocks for files: those after the bitmap. *)
Definition data (v : Z -> Z) (b : Z) : Prop := 2 + nbitmap v <= b < nblocks v.
(** No block is free. *)
Definition full (v : Z -> Z) : Prop := forall b, 0 <= b -> is_free v b = false.

(** [v'] has the size of [v], and what is in use in [v] still is. *)
Record meta_le (v v' : Z -> Z) : Prop := {
  ml_nblocks : nblocks v' = nblocks v;
  ml_used : forall b, 0 <= b -> is_free v b = false -> is_free v' b = false;
}.

(** The same meta data. *)
Record meta_eq (v v' : Z -> Z) : Prop := {
  me_nblocks : nblocks v' = nblocks v;
  me_used : forall b, 0 <= b -> is_free v' b = is_free v b;
}.

Section Meta.
Implicit Types (v : Z -> Z) (a b c : Z).

Lemma meta_eq_refl v : meta_eq v v.
Proof. done. Qed.
Lemma meta_eq_trans v1 v2 v3 : meta_eq v1 v2 -> meta_eq v2 v3 -> meta_eq v1 v3.
Proof. intros [H1 H2] [H3 H4]. split; [congruence|]. intros. by rewrite H4, H2. Qed.
Lemma meta_eq_le v v' : meta_eq v v' -> meta_le v v'.
Proof. intros [H1 H2]. split; [done|]. intros. by rewrite H2. Qed.

Lemma meta_le_refl v : meta_le v v.
Proof. done. Qed.
Lemma meta_le_trans v1 v2 v3 : meta_le v1 v2 -> meta_le v2 v3 -> meta_le v1 v3.
Proof. intros [H1 H2] [H3 H4]. split; [congruence|auto]. Qed.
Lemma nbitmap_eq v v' : nblocks v' = nblocks v -> nbitmap v' = nbitmap v.
Proof. unfold nbitmap. by intros ->. Qed.
Lemma is_free_data v b : meta_ok v -> 0 <= b -> is_free v b = true -> data v b.
Proof.
  intros Hm Hb Hf. split.
  - destruct (decide (b < 2 + nbitmap v)) as [Hlt|]; [|lia].
    rewrite (mt_res _ Hm b) in Hf by lia. done.
  - unfold is_free in Hf. apply andb_true_iff in Hf as [H _]. lia.
Qed.
Lemma is_free_out v b : nblocks v <= b -> is_free v b = false.
Proof. intros. unfold is_free. by destruct (Z.ltb_spec b (nblocks v)); [lia|]. Qed.
Lemma meta_le_ok v v' : meta_le v v' -> meta_ok v -> meta_ok v'.
Proof.
  intros [H1 H2] [H3 H4]. split; [by rewrite H1|]. intros b Hb. rewrite (nbitmap_eq v v') in Hb by done.
  apply H2; [lia|]. by apply H4.
Qed.
Lemma in_use_le v v' b : meta_le v v' -> in_use v b -> in_use v' b.
Proof. intros [H1 H2] [H3 H4]. split; [lia|]. apply H2; [lia|done]. Qed.
Lemma plain_le v v' a : meta_le v v' -> plain v a -> plain v' a.
Proof.
  intros Hle [H1 H2]. split; [by eapply in_use_le|]. by rewrite (nbitmap_eq v v') by apply Hle.
Qed.
Lemma data_plain v b a : meta_ok v -> data v b -> is_free v b = false -> byte_of b a -> plain v a.
Proof.
  intros [Hs _] [H1 H2] Hf Ha. unfold plain. rewrite (blk_byte _ _ Ha).
  assert (0 <= nbitmap v) by (unfold nbitmap; blia). repeat split; [lia|done|done|by left].
Qed.
Lemma plain_not_meta v a : meta_ok v -> plain v a -> ~ meta_byte v a.
Proof.
  intros [Hs _] [_ Hp]. assert (1 <= nbitmap v) by (unfold nbitmap; blia).
  unfold meta_byte. intros [Ha|Ha]; destruct Hp as [Hp|Hp]; blia.
Qed.
Lemma bit_word_meta v b i : 0 <= b < nblocks v -> 0 <= i <= 3 -> meta_byte v (bit_word b + i).
Proof. intros. right. unfold bit_word, nbitmap. blia. Qed.
Lemma nbitmap_range v : meta_ok v -> 1 <= nbitmap v <= 24.
Proof. intros [H _]. unfold nbitmap. blia. Qed.

(** The meta data is a function of its bytes. *)
Lemma meta_frame v v' : meta_ok v -> (forall a, meta_byte v a -> v' a = v a) -> meta_eq v v'.
Proof.
  intros Hm H. assert (nblocks v' = nblocks v) as En.
  { unfold nblocks, word. rewrite !H; [done|left; blia..]. }
  split; [done|]. intros b Hb. unfold is_free. rewrite En.
  destruct (Z.ltb_spec b (nblocks v)) as [Hlt|]; [|done]. cbn [andb]. fold (bit_word b).
  assert (forall i, 0 <= i <= 3 -> v' (bit_word b + i) = v (bit_word b + i)) as G
    by (intros i Hi; by apply H, bit_word_meta).
  pose proof (G 0 ltac:(lia)) as G0. rewrite Z.add_0_r in G0. unfold word. by rewrite G0, !G by lia.
Qed.
(** One bit of the bitmap is changed. *)
Lemma set_bit v b w x : meta_ok v -> data v b -> is_u32 w ->
  (forall i, 0 <= i < 32 -> Z.testbit w i = if decide (i = b `mod` 32) then x else Z.testbit (word v (bit_word b)) i) ->
  nblocks (upd32 v (bit_word b) w) = nblocks v /\
  forall c, 0 <= c -> is_free (upd32 v (bit_word b) w) c = if decide (c = b) then x else is_free v c.
Proof.
  intros Hm [Hb1 Hb2] Hw Hbits. pose proof (nbitmap_range _ Hm).
  assert (nblocks (upd32 v (bit_word b) w) = nblocks v) as En.
  { apply word_upd32_ne. right. unfold bit_word. blia. }
  split; [done|]. intros c Hc. unfold is_free. rewrite En. fold (bit_word c).
  destruct (Z.ltb_spec c (nblocks v)) as [Hlt|Hge]; [|case_decide; [lia|done]]. cbn [andb].
  destruct (decide (c / 32 = b / 32)) as [E|E].
  - assert (bit_word c = bit_word b) as -> by (unfold bit_word; lia). rewrite word_upd32_eq by done.
    rewrite Hbits by zlia. repeat case_decide; try done; zlia.
  - rewrite word_upd32_ne by (unfold bit_word; lia). case_decide; [subst; done|done].
Qed.

Lemma ldiff_bit w b : is_u32 w -> is_u32 (Z.ldiff w (2 ^ (b `mod` 32))) /\
  forall i, 0 <= i < 32 -> Z.testbit (Z.ldiff w (2 ^ (b `mod` 32))) i = if decide (i = b `mod` 32) then false else Z.testbit w i.
Proof.
  intros Hw. split.
  - unfold is_u32 in *. rewrite <-(Z.mod_small w (2 ^ 32)) by (change (2 ^ 32) with 4294967296; lia).
    assert (Z.ldiff (w `mod` 2 ^ 32) (2 ^ (b `mod` 32)) = Z.ldiff (w `mod` 2 ^ 32) (2 ^ (b `mod` 32)) `mod` 2 ^ 32) as ->.
    { apply Z.bits_inj'. intros i Hi. destruct (decide (i < 32)).
      - by rewrite (Z.mod_pow2_bits_low _ 32) by lia.
      - by rewrite Z.ldiff_spec, !Z.mod_pow2_bits_high by lia. }
    apply Z.mod_pos_bound. lia.
  - intros i Hi. rewrite Z.ldiff_spec, Z.pow2_bits_eqb by zlia.
    destruct (Z.eqb_spec (b `mod` 32) i), (decide (i = b `mod` 32)); try lia; cbn; by rewrite ?andb_false_r, ?andb_true_r.
Qed.
Lemma lor_bit w b : is_u32 w -> is_u32 (Z.lor w (2 ^ (b `mod` 32))) /\
  forall i, 0 <= i < 32 -> Z.testbit (Z.lor w (2 ^ (b `mod` 32))) i = if decide (i = b `mod` 32) then true else Z.testbit w i.
Proof.
  intros Hw. split.
  - unfold is_u32 in *. split; [apply Z.lor_nonneg; split; [lia|apply Z.pow_nonneg; lia]|].
    change 4294967296 with (2 ^ 32) in *. apply Z.log2_lt_cancel.
    rewrite Z.log2_lor by (try apply Z.pow_nonneg; lia).
    rewrite Z.log2_pow2, (Z.log2_pow2 32) by zlia.
    apply Z.max_lub_lt; [|zlia].
    destruct (decide (w = 0)) as [->|]; [done|]. apply Z.log2_lt_pow2; lia.
  - intros i Hi. rewrite Z.lor_spec, Z.pow2_bits_eqb by zlia.
    destruct (Z.eqb_spec (b `mod` 32) i), (decide (i = b `mod` 32)); try lia; cbn; by rewrite ?orb_true_r, ?orb_false_r.
Qed.
End Meta.

(** ** The operations of the interface on plain memory *)

(** A word of four plain bytes. *)
Definition plain_word (v : Z -> Z) (a : Z) : Prop := word_of (blk a) a /\ forall i, 0 <= i <= 3 -> plain v (a + i).

Lemma plain_word_0 v a : plain_word v a -> plain v a.
Proof. intros [_ H]. specialize (H 0 ltac:(lia)). by rewrite Z.add_0_r in H. Qed.
Lemma plain_word_le v v' a : meta_le v v' -> plain_word v a -> plain_word v' a.
Proof. intros Hle [H1 H2]. split; [done|]. intros i Hi. eapply plain_le; [done|]. by apply H2. Qed.

Section Ops.
Context {S : Type} `{BlockMem S}.
Implicit Types (s : S) (a b x : Z).

Lemma calm_refl s : b_ok s -> calm s s.
Proof. done. Qed.
Lemma calm_trans s1 s2 s3 : calm s1 s2 -> calm s2 s3 -> calm s1 s3.
Proof. intros (E1&E2&_) (E3&E4&?). split; [congruence|]. split; [congruence|done]. Qed.

Lemma load_nblocks_ok s : b_ok s ->
  exists s', b_load32 s_nblocks s = Ret (nblocks (b_view s)) s' /\ calm s s'.
Proof.
  intros Hok. pose proof (bm_meta _ Hok) as Hm. apply bm_load32; [done| |by apply super_word].
  change (blk s_nblocks) with 1. split; [pose proof (mt_size _ Hm); lia|].
  apply (mt_res _ Hm). pose proof (nbitmap_range _ Hm). lia.
Qed.
Lemma store8_plain s a x : b_ok s -> plain (b_view s) a ->
  exists s', b_store8 a x s = Ret tt s' /\ b_view s' = upd8 (b_view s) a x /\ b_disk s' = b_disk s /\ b_ok s' /\
    meta_eq (b_view s) (b_view s').
Proof.
  intros Hok Hp. pose proof (bm_meta _ Hok) as Hm.
  assert (meta_eq (b_view s) (upd8 (b_view s) a x)) as Hle.
  { apply meta_frame; [done|]. intros i Hi. apply upd8_out. intros ->. by eapply plain_not_meta. }
  destruct (bm_store8 s a x Hok (proj1 Hp) (meta_le_ok _ _ (meta_eq_le _ _ Hle) Hm)) as (s' & E & Hv & Hd & Hok').
  exists s'. by rewrite Hv.
Qed.
Lemma store32_plain s a x : b_ok s -> plain_word (b_view s) a ->
  exists s', b_store32 a x s = Ret tt s' /\ b_view s' = upd32 (b_view s) a x /\ b_disk s' = b_disk s /\ b_ok s' /\
    meta_eq (b_view s) (b_view s').
Proof.
  intros Hok Hp. pose proof (bm_meta _ Hok) as Hm.
  assert (meta_eq (b_view s) (upd32 (b_view s) a x)) as Hle.
  { apply meta_frame; [done|]. intros i Hi. apply upd32_out. intros Hr.
    eapply plain_not_meta; [done| |exact Hi]. replace i with (a + (i - a)) by lia. apply Hp. lia. }
  destruct (bm_store32 s a x Hok (proj1 (plain_word_0 _ _ Hp)) (proj1 Hp) (meta_le_ok _ _ (meta_eq_le _ _ Hle) Hm)) as (s' & E & Hv & Hd & Hok').
  exists s'. by rewrite Hv.
Qed.
Lemma load32_plain s a : b_ok s -> plain_word (b_view s) a ->
  exists s', b_load32 a s = Ret (word (b_view s) a) s' /\ calm s s'.
Proof. intros Hok Hp. apply bm_load32; [done| |apply Hp]. apply (plain_word_0 _ _ Hp). Qed.
Lemma word_u32 s a : is_u32 (word (b_view s) a).
Proof. apply word_range, bm_range. Qed.

Lemma store_bytes_ok s a l : b_ok s -> (forall i, 0 <= i < zlen l -> plain (b_view s) (a + i)) ->
  exists s', store_bytes a l s = Ret tt s' /\ b_ok s' /\ meta_eq (b_view s) (b_view s') /\
    forall i, b_view s' i = match zget l (i - a) with Some x => u8 x | None => b_view s i end.
Proof.
  revert s a. induction l as [|x l IH]; intros s a Hok Hp; cbn [store_bytes].
  - exists s. split; [done|]. split; [done|]. split; [apply meta_eq_refl|].
    intros i. unfold zget. by destruct (0 <=? i - a); rewrite ?lookup_nil.
  - rewrite zlen_cons in Hp. pose proof (zlen_nonneg l).
    destruct (store8_plain s a x Hok) as (s1 & E1 & Hv1 & _ & Hok1 & Hle1).
    { specialize (Hp 0). rewrite Z.add_0_r in Hp. apply Hp. lia. }
    exec_by E1. destruct (IH s1 (a + 1) Hok1) as (s2 & E2 & Hok2 & Hle2 & Hv2).
    { intros i Hi. eapply plain_le; [exact (meta_eq_le _ _ Hle1)|]. replace (a + 1 + i) with (a + (i + 1)) by lia. apply Hp. lia. }
    exists s2. split; [done|]. split; [done|]. split; [by eapply meta_eq_trans|].
    intros i. rewrite Hv2, Hv1, zget_cons. replace (i - (a + 1)) with (i - a - 1) by lia. unfold upd8.
    destruct (decide (i - a = 0)) as [E|E]; [|case_match; [done|]; by rewrite decide_False by lia].
    rewrite E. cbn. rewrite decide_True by lia. done.
Qed.
Lemma memset0_ok s a n : b_ok s -> (forall i, a <= i < a + n -> plain (b_view s) i) ->
  exists s', memset0 a n s = Ret tt s' /\ b_ok s' /\ meta_eq (b_view s) (b_view s') /\
    forall i, b_view s' i = if decide (a <= i < a + n) then 0 else b_view s i.
Proof.
  unfold memset0. destruct (decide (0 <= n)) as [Hn|Hn].
  2: { intros Hok _. exists s. replace (seqZ a n) with (@nil Z).
       - split; [done|]. split; [done|]. split; [done|]. intros i. by rewrite decide_False by lia.
       - unfold seqZ. by replace (Z.to_nat n) with 0%nat by lia. }
  revert s a. destruct (Z_of_nat_complete n Hn) as [k ->]. clear Hn. induction k as [|k IH].
  - intros s a Hok _. exists s. split; [done|]. split; [done|]. split; [apply meta_eq_refl|]. intros i. by rewrite decide_False by lia.
  - intros s a Hok Hp. rewrite Nat2Z.inj_succ in *. unfold Z.succ in *. rewrite seqZ_step by lia. cbn [for_each].
    destruct (store8_plain s a 0 Hok ltac:(apply Hp; lia)) as (s1 & E1 & Hv1 & _ & Hok1 & Hle1).
    exec_by E1. destruct (IH s1 (a + 1) Hok1) as (s2 & E2 & Hok2 & Hle2 & Hv2).
    { intros i Hi. eapply plain_le; [exact (meta_eq_le _ _ Hle1)|]. apply Hp. lia. }
    exists s2. split; [done|]. split; [done|]. split; [by eapply meta_eq_trans|].
    intros i. rewrite Hv2, Hv1. unfold upd8. repeat case_decide; try done; lia.
Qed.
Lemma load_bytes_ok s a n : b_ok s -> (forall i, 0 <= i < Z.of_nat n -> plain (b_view s) (a + i)) ->
  exists s', load_bytes a n s = Ret (b_view s <$> seqZ a (Z.of_nat n)) s' /\ calm s s'.
Proof.
  revert s a. induction n as [|n IH]; intros s a Hok Hp; cbn [load_bytes].
  - exists s. split; [done|]. by apply calm_refl.
  - destruct (bm_load8 s a Hok) as (s1 & E1 & Hc1).
    { specialize (Hp 0). rewrite Z.add_0_r in Hp. apply Hp. lia. }
    exec_by E1. pose proof Hc1 as (Hv1 & _ & Hok1).
    destruct (IH s1 (a + 1) Hok1) as (s2 & E2 & Hc2).
    { intros i Hi. rewrite Hv1. replace (a + 1 + i) with (a + (i + 1)) by lia. apply Hp. lia. }
    exec_by E2. exists s2. split; [|by eapply calm_trans].
    rewrite Nat2Z.inj_succ. change (Z.succ (Z.of_nat n)) with (Z.of_nat n + 1). rewrite seqZ_step by lia.
    cbn. by rewrite Hv1.
Qed.
End Ops.

(** ** The allocator *)

(** Block [b], the first free one, is taken. *)
Record allocated (v v' : Z -> Z) (b : Z) : Prop := {
  al_data : data v b;
  al_free : is_free v b = true;
  al_first : forall c, 0 <= c < b -> is_free v c = false;
  al_nblocks : nblocks v' = nblocks v;
  al_used : forall c, 0 <= c -> is_free v' c = if decide (c = b) then false else is_free v c;
  al_rest : forall a, ~ bit_word b <= a <= bit_word b + 3 -> v' a = v a;
}.
Lemma allocated_le v v' b : allocated v v' b -> meta_le v v'.
Proof.
  intros [_ _ _ Hn Hu _]. split; [done|]. intros c Hc Hf. rewrite Hu by done. by case_decide.
Qed.

Section Alloc.
Context {S : Type} `{BlockMem S}.
Implicit Types (s : S) (a b c p : Z).

(** Load, change a bit and store: the body of [alloc_block] and [free_block]. *)
Lemma store_bit_ok s b w x : b_ok s -> data (b_view s) b -> is_u32 w ->
  (forall i, 0 <= i < 32 -> Z.testbit w i = if decide (i = b `mod` 32) then x else Z.testbit (word (b_view s) (bit_word b)) i) ->
  exists s', b_store32 (bit_word b) w s = Ret tt s' /\ b_ok s' /\ b_disk s' = b_disk s /\
    nblocks (b_view s') = nblocks (b_view s) /\
    (forall c, 0 <= c -> is_free (b_view s') c = if decide (c = b) then x else is_free (b_view s) c) /\
    forall a, ~ bit_word b <= a <= bit_word b + 3 -> b_view s' a = b_view s a.
Proof.
  intros Hok Hd Hw Hbits. pose proof (bm_meta _ Hok) as Hm. pose proof (nbitmap_range _ Hm) as Hr.
  destruct (set_bit _ _ _ _ Hm Hd Hw Hbits) as [Hn Hf].
  pose proof (blk_byte _ _ (word_byte0 _ _ (bit_word_of b))) as Eb.
  destruct (bm_store32 s (bit_word b) w Hok) as (s' & E & Hv & Hdk & Hok').
  - rewrite Eb. apply bitmap_in_use; [done|]. destruct Hd. lia.
  - rewrite Eb. apply bit_word_of.
  - split; [rewrite Hn; apply Hm|]. intros c Hc. rewrite (nbitmap_eq _ _ Hn) in Hc.
    rewrite Hf by lia. destruct Hd. case_decide; [lia|]. by apply (mt_res _ Hm).
  - exists s'. rewrite Hv. do 4 (split; [done|]). split; [done|]. intros a Ha. by apply upd32_out.
Qed.
Lemma load_bit_word s b : b_ok s -> data (b_view s) b ->
  exists s', b_load32 (bit_word b) s = Ret (word (b_view s) (bit_word b)) s' /\ calm s s'.
Proof.
  intros Hok Hd. pose proof (bm_meta _ Hok) as Hm. pose proof (nbitmap_range _ Hm) as Hr.
  pose proof (blk_byte _ _ (word_byte0 _ _ (bit_word_of b))) as Eb.
  apply bm_load32; [done|rewrite Eb; apply bitmap_in_use; [done|destruct Hd; lia]|rewrite Eb; apply bit_word_of].
Qed.

Definition alloc_body (i : Z) : M S (option Z) :=
  f ← b_is_free i;
  if (f : bool) then
    w ← b_load32 (BITMAP + 4 * (i / 32));
    b_store32 (BITMAP + 4 * (i / 32)) (Z.ldiff w (2 ^ (i `mod` 32)));;
    b_flush (BITMAP + 4 * (i / 32));;
    mret (Some i)
  else mret None.

Lemma alloc_body_ok s b : b_ok s -> data (b_view s) b ->
  exists r s', alloc_body b s = Ret r s' /\ b_ok s' /\
  if is_free (b_view s) b
  then r = Some b /\ ((forall c, 0 <= c < b -> is_free (b_view s) c = false) -> allocated (b_view s) (b_view s') b) /\
       forall i, b_disk s' i = if decide (byte_of (blk (bit_word b)) i) then b_view s' i else b_disk s i
  else r = None /\ calm s s'.
Proof.
  intros Hok Hd. unfold alloc_body. pose proof (nbitmap_range _ (bm_meta _ Hok)) as Hr.
  destruct (bm_is_free s b Hok ltac:(destruct Hd; lia)) as (s1 & E1 & Hc1). exec_by E1.
  pose proof Hc1 as (Hv1 & Hd1 & Hok1). destruct (is_free (b_view s) b) eqn:Hf.
  2: { exists None, s1. done. }
  fold (bit_word b). destruct (load_bit_word s1 b Hok1) as (s2 & E2 & Hv2 & Hd2 & Hok2); [by rewrite Hv1|].
  exec_by E2. rewrite Hv1 in *.
  destruct (ldiff_bit (word (b_view s) (bit_word b)) b (word_u32 s _)) as [Hw Hbits].
  destruct (store_bit_ok s2 b _ false Hok2 ltac:(by rewrite Hv2) Hw) as (s3 & E3 & Hok3 & Hd3 & Hn & Hu & Hrest);
    [by rewrite Hv2|]. exec_by E3.
  destruct (bm_flush s3 (bit_word b) Hok3) as (s4 & E4 & Hv4 & Hok4 & Hd4).
  { pose proof (mt_size _ (bm_meta _ Hok)). destruct Hd. unfold bit_word. blia. }
  exec_by E4. exists (Some b), s4. split; [done|]. split; [done|]. split; [done|].
  rewrite Hv2 in Hn, Hu, Hrest. split.
  - intros Hfirst. rewrite Hv4. by split.
  - intros i. by rewrite Hd4, Hv4, Hd3, Hd2, Hd1.
Qed.

Lemma alloc_scan_ok s l n : b_ok s -> 0 <= n ->
  (forall b, l <= b < l + n -> data (b_view s) b) -> (forall c, 0 <= c < l -> is_free (b_view s) c = false) ->
  exists r s', for_until (seqZ l n) alloc_body s = Ret r s' /\ b_ok s' /\
  match r with
  | Some b => allocated (b_view s) (b_view s') b /\
      forall i, b_disk s' i = if decide (byte_of (blk (bit_word b)) i) then b_view s' i else b_disk s i
  | None => calm s s' /\ forall c, 0 <= c < l + n -> is_free (b_view s) c = false
  end.
Proof.
  intros Hok Hn. destruct (Z_of_nat_complete n Hn) as [k ->]. clear Hn. revert s l Hok.
  induction k as [|k IH]; intros s l Hok Hd Hlow.
  { exists None, s. split; [done|]. split; [done|]. split; [by apply calm_refl|].
    intros c Hc. apply Hlow. lia. }
  rewrite Nat2Z.inj_succ in *. unfold Z.succ in *. rewrite seqZ_step by lia. cbn [for_until].
  destruct (alloc_body_ok s l Hok ltac:(apply Hd; lia)) as (r & s1 & E & Hok1 & Hr). exec_by E.
  destruct (is_free (b_view s) l) eqn:Hf.
  - destruct Hr as (-> & Ha & Hdk). exists (Some l), s1. auto.
  - destruct Hr as (-> & Hc). pose proof Hc as (Hv1 & Hd1 & _).
    destruct (IH s1 (l + 1) Hok1) as (r & s2 & E2 & Hok2 & Hr).
    { intros b Hb. rewrite Hv1. apply Hd. lia. }
    { intros c Hc'. rewrite Hv1. destruct (decide (c = l)) as [->|]; [done|apply Hlow; lia]. }
    exists r, s2. split; [done|]. split; [done|]. rewrite Hv1, Hd1 in Hr. destruct r; [done|].
    destruct Hr as [Hc2 Hr]. split; [by eapply calm_trans|]. intros c Hc'. apply Hr. lia.
Qed.

Lemma alloc_block_ok s : b_ok s ->
  exists r s', alloc_block s = Ret r s' /\ b_ok s' /\
  match r with
  | inr b => allocated (b_view s) (b_view s') b /\
      forall i, b_disk s' i = if decide (byte_of (blk (bit_word b)) i) then b_view s' i else b_disk s i
  | inl e => e = - E_NO_DISK /\ calm s s' /\ full (b_view s)
  end.
Proof.
  intros Hok. unfold alloc_block. destruct (load_nblocks_ok s Hok) as (s1 & E1 & Hc1). exec_by E1.
  pose proof (bm_meta _ Hok) as Hm. pose proof (nbitmap_range _ Hm) as Hr. pose proof (mt_size _ Hm) as Hs.
  assert (u32 (nblocks (b_view s) + BLKBITSIZE - 1) / BLKBITSIZE = nbitmap (b_view s)) as ->
    by (unfold nbitmap; rewrite u32_id; [done|unfold is_u32; blia]).
  fold alloc_body. pose proof Hc1 as (Hv1 & Hd1 & Hok1).
  destruct (decide (2 + nbitmap (b_view s) <= nblocks (b_view s))) as [Hle|Hgt].
  - destruct (alloc_scan_ok s1 (2 + nbitmap (b_view s)) (nblocks (b_view s) - (2 + nbitmap (b_view s))) Hok1)
      as (r & s2 & E2 & Hok2 & Hr2); [lia|intros b Hb; rewrite Hv1; unfold data; lia| |].
    { intros c Hc. rewrite Hv1. by apply (mt_res _ Hm). }
    rewrite (bind_Ret _ _ _ _ _ E2). rewrite Hv1, Hd1 in Hr2. destruct r as [b|].
    + exists (inr b), s2. done.
    + destruct Hr2 as [Hc2 Hf]. exists (inl (- E_NO_DISK)), s2. do 3 (split; [done|]).
      split; [by eapply calm_trans|]. intros b Hb.
      destruct (decide (b < nblocks (b_view s))); [apply Hf; lia|apply is_free_out; lia].
  - assert (seqZ (2 + nbitmap (b_view s)) (nblocks (b_view s) - (2 + nbitmap (b_view s))) = []) as ->
      by (unfold seqZ; by replace (Z.to_nat _) with 0%nat by lia).
    cbn [for_until]. exec. exists (inl (- E_NO_DISK)), s1. do 4 (split; [done|]). intros b Hb.
    destruct (decide (b < nblocks (b_view s))); [apply (mt_res _ Hm); lia|apply is_free_out; lia].
Qed.

Lemma free_block_ok s b : b_ok s -> data (b_view s) b ->
  exists s', free_block b s = Ret tt s' /\ b_ok s' /\ nblocks (b_view s') = nblocks (b_view s) /\
    (forall c, 0 <= c -> is_free (b_view s') c = if decide (c = b) then true else is_free (b_view s) c) /\
    forall a, ~ bit_word b <= a <= bit_word b + 3 -> b_view s' a = b_view s a.
Proof.
  intros Hok Hd. unfold free_block. pose proof (nbitmap_range _ (bm_meta _ Hok)) as Hr.
  destruct (Z.eqb_spec b 0); [destruct Hd; lia|]. fold (bit_word b).
  destruct (load_bit_word s b Hok Hd) as (s2 & E2 & Hv2 & Hd2 & Hok2). exec_by E2.
  destruct (lor_bit (word (b_view s) (bit_word b)) b (word_u32 s _)) as [Hw Hbits].
  destruct (store_bit_ok s2 b _ true Hok2 ltac:(by rewrite Hv2) Hw)
    as (s3 & E3 & Hok3 & _ & Hn & Hu & Hrest); [by rewrite Hv2|].
  rewrite Hv2 in *. by exists s3.
Qed.
End Alloc.

(** ** A new block in an empty slot *)

(** Block [b] was free; it is cleared and its number written at [p]. *)
Record filled (v v' : Z -> Z) (p b : Z) : Prop := {
  fl_free : is_free v b = true;
  fl_data : data v b;
  fl_nblocks : nblocks v' = nblocks v;
  fl_used : forall c, 0 <= c -> is_free v' c = if decide (c = b) then false else is_free v c;
  fl_slot : word v' p = b;
  fl_zero : forall a, byte_of b a -> v' a = 0;
  fl_rest : forall a, ~ byte_of b a -> ~ p <= a <= p + 3 -> ~ meta_byte v a -> v' a = v a;
}.
Lemma filled_le v v' p b : filled v v' p b -> meta_le v v'.
Proof. intros [_ _ Hn Hu _ _ _]. split; [done|]. intros c Hc Hf. rewrite Hu by done. by case_decide. Qed.

(** A free block is not where plain memory is. *)
Lemma plain_not_free v a b : is_free v b = true -> plain v a -> ~ byte_of b a.
Proof. intros Hf [[_ Hu] _] Hb. rewrite (blk_byte _ _ Hb) in Hu. congruence. Qed.

Section Fill.
Context {S : Type} `{BlockMem S}.
Implicit Types (s : S) (a b c p : Z).

Lemma clear_block_ok s b : b_ok s -> data (b_view s) b -> is_free (b_view s) b = false ->
  exists s', (a ← b_diskaddr b; memset0 a BLKSIZE;; a ← b_diskaddr b; b_flush a;; mret (inr tt)) s
      = Ret (inr tt : Z + unit) s' /\ b_ok s' /\ meta_eq (b_view s) (b_view s') /\
    forall a, b_view s' a = if decide (byte_of b a) then 0 else b_view s a.
Proof.
  intros Hok Hd Hf. pose proof (bm_meta _ Hok) as Hm. pose proof (nbitmap_range _ Hm) as Hr.
  assert (0 < b < nblocks (b_view s)) as Hb by (destruct Hd; lia).
  exec_by (bm_diskaddr s b Hok Hb).
  destruct (memset0_ok s (DISKMAP + b * BLKSIZE) BLKSIZE Hok) as (s1 & E1 & Hok1 & Hle1 & Hv1).
  { intros a Ha. apply (data_plain _ b); [done|done|done|]. unfold byte_of. blia. }
  exec_by E1. rewrite <-(me_nblocks _ _ Hle1) in Hb. exec_by (bm_diskaddr s1 b Hok1 Hb).
  destruct (bm_flush s1 (DISKMAP + b * BLKSIZE) Hok1) as (s2 & E2 & Hv2 & Hok2 & _).
  { pose proof (mt_size _ (bm_meta _ Hok1)). blia. }
  exec_by E2. exists s2. split; [done|]. split; [done|]. rewrite Hv2. split; [done|].
  intros a. rewrite Hv1. unfold byte_of. repeat case_decide; try done; blia.
Qed.

Lemma fill_slot_ok s p : b_ok s -> plain_word (b_view s) p ->
  exists r s', fill_slot p s = Ret r s' /\ b_ok s' /\
  match r with
  | inr _ => exists b, filled (b_view s) (b_view s') p b
  | inl e => e = - E_NO_DISK /\ b_view s' = b_view s /\ full (b_view s)
  end.
Proof.
  intros Hok Hp. unfold fill_slot, try_.
  destruct (alloc_block_ok s Hok) as (r & s1 & E1 & Hok1 & Hr). exec_by E1. destruct r as [e|b].
  { destruct Hr as (-> & (Hv & _) & Hf). exists (inl (- E_NO_DISK)), s1. done. }
  destruct Hr as [Ha _]. pose proof (bm_meta _ Hok) as Hm. pose proof (allocated_le _ _ _ Ha) as Hle1.
  assert (is_u32 b) as Hb by (pose proof (mt_size _ Hm); destruct (al_data _ _ _ Ha); pose proof (nbitmap_range _ Hm); unfold is_u32; blia).
  destruct (store32_plain s1 p b Hok1 ltac:(by eapply plain_word_le)) as (s2 & E2 & Hv2 & _ & Hok2 & Hle2).
  exec_by E2. destruct Ha as [Hd Hf _ Hn Hu Hrest]. pose proof (nbitmap_range _ Hm) as Hr.
  assert (nblocks (b_view s2) = nblocks (b_view s)) as Hn2 by (by rewrite (me_nblocks _ _ Hle2)).
  assert (data (b_view s2) b) as Hd2 by (unfold data; by rewrite (nbitmap_eq _ _ Hn2), Hn2).
  destruct (clear_block_ok s2 b Hok2 Hd2) as (s3 & E3 & Hok3 & Hle3 & Hv3).
  { destruct Hd. rewrite (me_used _ _ Hle2), Hu by lia. by rewrite decide_True. }
  exists (inr tt), s3. split; [exact E3|]. split; [done|]. exists b.
  assert (forall i, 0 <= i <= 3 -> ~ byte_of b (p + i)) as Hpb
    by (intros i Hi; apply (plain_not_free (b_view s)); [done|by apply Hp]).
  split; [done|done|by rewrite (me_nblocks _ _ Hle3)| | | |].
  - intros c Hc. by rewrite (me_used _ _ Hle3), (me_used _ _ Hle2), Hu.
  - rewrite (word_ext (b_view s2)); [by rewrite Hv2, word_upd32_eq|].
    intros i Hi. rewrite Hv3, decide_False; [done|by apply Hpb].
  - intros a Ha. by rewrite Hv3, decide_True.
  - intros a Ha Hpa Hma. rewrite Hv3, decide_False, Hv2, upd32_out by done. apply Hrest.
    intros Hw. apply Hma. replace a with (bit_word b + (a - bit_word b)) by lia.
    apply bit_word_meta; [destruct Hd; lia|lia].
Qed.
End Fill.
