(* ===== verification/JFile.v ===== *)
(** * The blocks of a file

    A file as the code lays it out: direct slots in its [struct File], further
    slots in the indirect block, 0 for a hole.  [file_ok] says that its blocks
    are in use, distinct and apart from the structure itself.
    [file_get_block] fills a hole with a cleared block and so changes no byte of
    the file and nothing that belongs to others. *)
From S2P Require Import Prelude Bytes Mmu JBlock JBlockSpec JFs JFsSpec.

Definition MAXBLOCKS : Z := NDIRECT + NINDIRECT.
Ltac flia := unfold MAXBLOCKS, NDIRECT, NINDIRECT, FILESZ, f_name, f_size, f_type, f_direct, f_indirect in *; blia.

Section File.
Variable v : Z -> Z.
Variable f : Z.

Definition fsize : Z := s32 (word v (f_size f)).
Definition findirect : Z := word v (f_indirect f).
(** The address of the slot of block [n], and the block in it. *)
Definition slot_of (n : Z) : Z :=
  if n <? NDIRECT then f_direct f + 4 * n else DISKMAP + findirect * BLKSIZE + 4 * (n - NDIRECT).
Definition fblock (n : Z) : Z :=
  if negb (n <? NDIRECT) && (findirect =? 0) then 0 else word v (slot_of n).
(** The byte at [pos]; holes read as zero. *)
Definition fbyte (pos : Z) : Z :=
  let b := fblock (pos / BLKSIZE) in
  if b =? 0 then 0 else v (DISKMAP + b * BLKSIZE + pos mod BLKSIZE).

Definition used (b : Z) : Prop := data v b /\ is_free v b = false.
(** The [struct File] lies inside one block. *)
Definition file_at : Prop :=
  f + FILESZ <= DISKMAP + (blk f + 1) * BLKSIZE /\ forall i, 0 <= i < FILESZ -> plain v (f + i).
Record file_ok : Prop := {
  fo_at : file_at;
  fo_ind : findirect <> 0 -> used findirect /\ findirect <> blk f;
  fo_data : forall n, 0 <= n < MAXBLOCKS -> fblock n <> 0 ->
    used (fblock n) /\ fblock n <> blk f /\ fblock n <> findirect;
  fo_inj : forall m n, 0 <= m < MAXBLOCKS -> 0 <= n < MAXBLOCKS -> fblock m <> 0 ->
    fblock m = fblock n -> m = n;
}.

(** The bytes that are the file's: its size and slots, its indirect block and
    its data. *)
Definition owned (a : Z) : Prop :=
  (f_size f <= a < f_indirect f + 4 /\ ~ f_type f <= a < f_type f + 4) \/ (findirect <> 0 /\ byte_of findirect a) \/
  exists n, 0 <= n < MAXBLOCKS /\ fblock n <> 0 /\ byte_of (fblock n) a.
Definition other (a : Z) : Prop := plain v a /\ ~ owned a.
End File.

(** From [v] to [v'] the file has only got blocks. *)
Record grown (f : Z) (v v' : Z -> Z) : Prop := {
  gr_ok : file_ok v' f;
  gr_meta : meta_le v v';
  gr_size : word v' (f_size f) = word v (f_size f);
  gr_ind : findirect v f <> 0 -> findirect v' f = findirect v f;
  gr_block : forall n, 0 <= n < MAXBLOCKS -> fblock v f n <> 0 -> fblock v' f n = fblock v f n;
  gr_other : forall a, other v f a -> v' a = v a /\ other v' f a;
}.
Definition same_bytes (f : Z) (v v' : Z -> Z) : Prop :=
  forall pos, 0 <= pos < MAXBLOCKS * BLKSIZE -> fbyte v' f pos = fbyte v f pos.

Lemma grown_refl f v : file_ok v f -> grown f v v.
Proof. by split. Qed.
Lemma grown_trans f v1 v2 v3 : grown f v1 v2 -> grown f v2 v3 -> grown f v1 v3.
Proof.
  intros [_ M1 S1 I1 B1 O1] [F M2 S2 I2 B2 O2]. split; [done|by eapply meta_le_trans|congruence| | |].
  - intros Hn. rewrite I2, I1; [done|done|by rewrite I1].
  - intros n Hr Hn. rewrite B2, B1; [done|done|done|done|by rewrite B1].
  - intros a [E1 Ha]%O1. destruct (O2 a Ha) as [E2 ?]. by rewrite E2.
Qed.
Lemma same_bytes_refl f v : same_bytes f v v.
Proof. done. Qed.
Lemma same_bytes_trans f v1 v2 v3 : same_bytes f v1 v2 -> same_bytes f v2 v3 -> same_bytes f v1 v3.
Proof. intros H1 H2 pos Hp. by rewrite H2, H1. Qed.

(** ** Where things are *)
Section Places.
Context (v : Z -> Z) (f : Z).
Hypothesis Hm : meta_ok v.
Hypothesis Hf : file_ok v f.

Lemma hdr_byte i : 0 <= i < FILESZ -> byte_of (blk f) (f + i).
Proof using Hf. destruct (fo_at _ _ Hf) as [H _]. flia. Qed.
Lemma hdr_word i : 0 <= i <= FILESZ - 4 -> plain_word v (f + i).
Proof using Hf.
  intros Hi. destruct (fo_at _ _ Hf) as [H1 H2]. split.
  - rewrite (blk_byte (blk f)) by (apply hdr_byte; flia). flia.
  - intros j Hj. rewrite <-Z.add_assoc. apply H2. flia.
Qed.
Lemma used_word b i : used v b -> 0 <= i <= BLKSIZE - 4 -> plain_word v (DISKMAP + b * BLKSIZE + i).
Proof using Hm.
  intros [Hd Hu] Hi. assert (forall j, 0 <= j <= 3 -> byte_of b (DISKMAP + b * BLKSIZE + i + j)) as Hb by (intros; blia).
  split.
  - rewrite (blk_byte b) by blia. blia.
  - intros j Hj. apply (data_plain v b); auto.
Qed.
Lemma used_plain b a : used v b -> byte_of b a -> plain v a.
Proof using Hm. intros [Hd Hu]. by apply data_plain. Qed.
Lemma used_hdr b : used v b -> b <> 0.
Proof using Hm. intros [[H _] _]. pose proof (nbitmap_range _ Hm). lia. Qed.

(** The name and the type are not touched by what is done to the blocks. *)
Lemma hdr_other i : 0 <= i < 128 \/ 132 <= i < 136 -> other v f (f + i).
Proof using Hf.
  intros Hi. pose proof (hdr_byte i ltac:(flia)) as Hb. split; [apply (fo_at _ _ Hf); flia|].
  intros [Ho|[[H1 H2]|(n & Hn & Hb0 & H2)]]; [flia| |].
  - destruct (fo_ind _ _ Hf H1) as [_ Hne]. apply Hne. blia.
  - destruct (fo_data _ _ Hf n Hn Hb0) as (_ & Hne & _). apply Hne. blia.
Qed.

(** A slot that exists. *)
Definition has_slot (n : Z) : Prop := 0 <= n < MAXBLOCKS /\ (n < NDIRECT \/ findirect v f <> 0).
Lemma slot_word n : has_slot n -> plain_word v (slot_of v f n).
Proof using Hf Hm.
  intros [Hn Hi]. unfold slot_of. destruct (Z.ltb_spec n NDIRECT) as [Hlt|Hge].
  - replace (f_direct f + 4 * n) with (f + (136 + 4 * n)) by flia. apply hdr_word. flia.
  - apply used_word; [|flia]. apply (fo_ind _ _ Hf). destruct Hi; [lia|done].
Qed.
Lemma fblock_slot n : has_slot n -> fblock v f n = word v (slot_of v f n).
Proof.
  intros [Hn Hi]. unfold fblock. destruct (Z.ltb_spec n NDIRECT), (Z.eqb_spec (findirect v f) 0); try done. lia.
Qed.
(** The bytes of a slot are owned, and lie in the structure or the indirect block. *)
Lemma slot_place n a : has_slot n -> slot_of v f n <= a <= slot_of v f n + 3 ->
  (n < NDIRECT /\ f_direct f + 4 * n <= a < f_direct f + 4 * n + 4) \/
  (NDIRECT <= n /\ findirect v f <> 0 /\ byte_of (findirect v f) a).
Proof.
  intros [Hn Hi] Ha. unfold slot_of in Ha. destruct (Z.ltb_spec n NDIRECT) as [Hlt|Hge].
  - left. lia.
  - right. destruct Hi; [lia|]. split; [done|]. split; [done|]. flia.
Qed.
Lemma slot_owned n a : has_slot n -> slot_of v f n <= a <= slot_of v f n + 3 -> owned v f a.
Proof. intros H1 H2. pose proof (proj1 H1). destruct (slot_place n a H1 H2) as [H4|(_&H4&H5)]; [left; flia|right; by left]. Qed.
Lemma slot_apart m n : has_slot m -> has_slot n -> m <> n ->
  slot_of v f m + 3 < slot_of v f n \/ slot_of v f n + 3 < slot_of v f m.
Proof using Hf.
  intros [Hm1 Hm2] [Hn1 Hn2] Hne. unfold slot_of.
  destruct (Z.ltb_spec m NDIRECT), (Z.ltb_spec n NDIRECT); try lia.
  - destruct (fo_ind _ _ Hf) as [_ Hi]; [lia|]. pose proof (hdr_byte (136 + 4 * m) ltac:(flia)). pose proof (hdr_byte (139 + 4 * m) ltac:(flia)). flia.
  - destruct (fo_ind _ _ Hf) as [_ Hi]; [lia|]. pose proof (hdr_byte (136 + 4 * n) ltac:(flia)). pose proof (hdr_byte (139 + 4 * n) ltac:(flia)). flia.
Qed.
(** A slot is not where the size and the indirect slot are, nor in the data. *)
Lemma slot_hdr n i a : has_slot n -> 0 <= i < FILESZ -> ~ (136 <= i < 176) -> a = f + i ->
  ~ slot_of v f n <= a <= slot_of v f n + 3.
Proof using Hf.
  intros Hs Hi Hni -> Ha. pose proof (proj1 Hs). destruct (slot_place n _ Hs Ha) as [H1|(H1 & H2 & H3)]; [flia|].
  destruct (fo_ind _ _ Hf H2) as [_ H4]. pose proof (hdr_byte i Hi). flia.
Qed.
Lemma slot_data n m a : has_slot n -> 0 <= m < MAXBLOCKS -> fblock v f m <> 0 -> byte_of (fblock v f m) a ->
  ~ slot_of v f n <= a <= slot_of v f n + 3.
Proof using Hf.
  intros Hs Hr Hb Hba Ha. pose proof (proj1 Hs). destruct (fo_data _ _ Hf m Hr Hb) as (_ & H1 & H2).
  destruct (slot_place n _ Hs Ha) as [H3|(_ & H4 & H5)].
  - pose proof (hdr_byte (a - f) ltac:(flia)). flia.
  - blia.
Qed.
End Places.

(** ** Filling a slot *)
Section Filled.
Context (v v' : Z -> Z) (f p b : Z).
Hypothesis Hm : meta_ok v.
Hypothesis Hf : file_ok v f.
Hypothesis Hfill : filled v v' p b.

Lemma filled_byte a : plain v a -> ~ p <= a <= p + 3 -> v' a = v a.
Proof using Hm Hfill.
  intros Ha Hp. apply (fl_rest _ _ _ _ Hfill); [|done|by apply plain_not_meta].
  apply (plain_not_free v); [apply Hfill|done].
Qed.
Lemma filled_word q : plain_word v q -> p + 3 < q \/ q + 3 < p -> word v' q = word v q.
Proof using Hm Hfill. intros [_ Hq] Hd. apply word_ext. intros i Hi. apply filled_byte; [by apply Hq|lia]. Qed.
Lemma filled_used c : used v c -> used v' c /\ c <> b.
Proof using Hm Hfill.
  intros [Hd Hu]. destruct Hfill as [H1 H2 H3 H4 _ _ _]. pose proof (nbitmap_range _ Hm).
  assert (c <> b) by congruence. split; [|done]. split.
  - unfold data. rewrite (nbitmap_eq _ _ H3), H3. done.
  - rewrite H4 by (destruct Hd; lia). by rewrite decide_False.
Qed.
Lemma filled_new : used v' b /\ b <> blk f.
Proof using Hm Hfill Hf.
  destruct Hfill as [H1 H2 H3 H4 _ _ _]. pose proof (nbitmap_range _ Hm). split; [split|].
  - unfold data. by rewrite (nbitmap_eq _ _ H3), H3.
  - rewrite H4 by (destruct H2; lia). by rewrite decide_True.
  - intros ->. destruct (fo_at _ _ Hf) as [_ Hp]. specialize (Hp 0 ltac:(flia)).
    rewrite Z.add_0_r in Hp. destruct Hp as [[_ Hp] _]. congruence.
Qed.
Lemma filled_at : file_at v' f.
Proof using Hm Hfill Hf.
  destruct (fo_at _ _ Hf) as [H1 H2]. split; [done|]. intros i Hi. eapply plain_le; [by eapply filled_le|]. auto.
Qed.
Lemma filled_hdr i : 0 <= i <= FILESZ - 4 -> p + 3 < f + i \/ f + i + 3 < p -> word v' (f + i) = word v (f + i).
Proof using Hm Hfill Hf. intros Hi Hd. apply filled_word; [by apply hdr_word|done]. Qed.

(** Nothing of another moves: the slot is the file's, the block was free. *)
Lemma filled_other a : (forall i, p <= i <= p + 3 -> owned v f i) ->
  (findirect v' f <> 0 -> findirect v' f = findirect v f \/ findirect v' f = b) ->
  (forall n, 0 <= n < MAXBLOCKS -> fblock v' f n <> 0 -> fblock v' f n = fblock v f n \/ fblock v' f n = b) ->
  other v f a -> v' a = v a /\ other v' f a.
Proof using Hm Hfill.
  intros Hown Hi Hb [Hp Ho]. assert (~ byte_of b a) as Hnb by (apply (plain_not_free v); [apply Hfill|done]).
  split; [apply filled_byte; [done|]; intros Hr; by apply Ho, Hown|].
  split; [eapply plain_le; [by eapply filled_le|done]|].
  intros [H1|[[H1 H2]|(n & Hr & Hn & Hby)]].
  - apply Ho. by left.
  - destruct (Hi H1) as [E|E]; rewrite E in *; [|done]. apply Ho. right. by left.
  - destruct (Hb n Hr Hn) as [E|E]; rewrite E in *; [|done]. apply Ho. right. right. eauto.
Qed.
End Filled.

Section FillCases.
Context (v v' : Z -> Z) (f b : Z).
Hypothesis Hm : meta_ok v.
Hypothesis Hf : file_ok v f.

(** A fresh indirect block is full of holes. *)
Lemma fill_indirect : filled v v' (f_indirect f) b -> findirect v f = 0 ->
  findirect v' f = b /\ forall n, 0 <= n < MAXBLOCKS -> fblock v' f n = fblock v f n.
Proof using Hm Hf.
  intros Hfill H0. assert (findirect v' f = b) as Ei by apply (fl_slot _ _ _ _ Hfill). split; [done|].
  intros n Hn. unfold fblock at 2. rewrite H0. destruct (Z.ltb_spec n NDIRECT) as [Hlt|Hge]; cbn [negb andb].
  - rewrite fblock_slot by (split; [done|by left]). unfold slot_of. destruct (Z.ltb_spec n NDIRECT); [|lia].
    replace (f_direct f + 4 * n) with (f + (136 + 4 * n)) by flia. eapply filled_hdr; [done|done|done|flia|flia].
  - cbn. destruct (filled_new v v' f _ b Hm Hf Hfill) as [Hu _].
    pose proof (used_hdr v' (meta_le_ok _ _ (filled_le _ _ _ _ Hfill) Hm) _ Hu).
    rewrite fblock_slot by (split; [done|right; by rewrite Ei]). unfold slot_of.
    destruct (Z.ltb_spec n NDIRECT); [lia|]. rewrite Ei. apply word_zero. intros i Hi.
    apply (fl_zero _ _ _ _ Hfill). flia.
Qed.
Lemma fill_data n : filled v v' (slot_of v f n) b -> has_slot v f n -> fblock v f n = 0 ->
  findirect v' f = findirect v f /\
  forall m, 0 <= m < MAXBLOCKS -> fblock v' f m = if decide (m = n) then b else fblock v f m.
Proof using Hm Hf.
  intros Hfill Hs H0.
  assert (findirect v' f = findirect v f) as Ei.
  { unfold findirect. replace (f_indirect f) with (f + 176) by flia. eapply filled_hdr; [done|done|done|flia|].
    pose proof (slot_hdr v f Hf n 176 _ Hs ltac:(flia) ltac:(lia) eq_refl).
    pose proof (slot_hdr v f Hf n 179 _ Hs ltac:(flia) ltac:(lia) eq_refl). lia. }
  split; [done|]. intros m Hr.
  assert (slot_of v' f m = slot_of v f m) as Es by (unfold slot_of; by rewrite Ei).
  unfold fblock. rewrite Ei, Es. case_decide as E.
  - subst m. destruct Hs as [Hn Hi]. rewrite (fl_slot _ _ _ _ Hfill).
    destruct (Z.ltb_spec n NDIRECT), (Z.eqb_spec (findirect v f) 0); cbn; try done. lia.
  - destruct (negb (m <? NDIRECT) && (findirect v f =? 0)) eqn:Hh; [done|].
    assert (has_slot v f m) as Hsm.
    { split; [done|]. destruct (Z.ltb_spec m NDIRECT), (Z.eqb_spec (findirect v f) 0); cbn in Hh; try done; auto. }
    eapply filled_word; [done|done|by apply slot_word|]. by destruct (slot_apart v f Hf m n Hsm Hs E); [right|left].
Qed.
End FillCases.

Section Grow.
Context (v v' : Z -> Z) (f b : Z).
Hypothesis Hm : meta_ok v.
Hypothesis Hf : file_ok v f.

(** A byte of the file where [fblock] is unchanged. *)
Lemma filled_fbyte p pos : filled v v' p b ->
  (forall a, ~ owned v f a \/ (exists n, 0 <= n < MAXBLOCKS /\ fblock v f n <> 0 /\ byte_of (fblock v f n) a) -> ~ p <= a <= p + 3) ->
  0 <= pos < MAXBLOCKS * BLKSIZE -> fblock v' f (pos / BLKSIZE) = fblock v f (pos / BLKSIZE) ->
  fbyte v' f pos = fbyte v f pos.
Proof using Hm Hf.
  intros Hfill Hp Hpos E. unfold fbyte. rewrite E. destruct (Z.eqb_spec (fblock v f (pos / BLKSIZE)) 0) as [|Hn]; [done|].
  assert (0 <= pos / BLKSIZE < MAXBLOCKS) as Hr by flia.
  destruct (fo_data _ _ Hf _ Hr Hn) as [Hu _].
  assert (byte_of (fblock v f (pos / BLKSIZE)) (DISKMAP + fblock v f (pos / BLKSIZE) * BLKSIZE + pos mod BLKSIZE)) as Hby by blia.
  eapply filled_byte; [done|done|by eapply used_plain|]. apply Hp. right. eauto.
Qed.

Lemma indirect_grown : filled v v' (f_indirect f) b -> findirect v f = 0 -> grown f v v' /\ same_bytes f v v'.
Proof using Hm Hf.
  intros Hfill H0. destruct (fill_indirect v v' f b Hm Hf Hfill H0) as [Ei Eb].
  destruct (filled_new v v' f _ b Hm Hf Hfill) as [Hub Hbf].
  split; [split|].
  - split.
    + by eapply filled_at.
    + by rewrite Ei.
    + intros n Hr Hn. rewrite Eb, Ei in * by done. destruct (fo_data _ _ Hf n Hr Hn) as (Hu & H1 & _).
      by destruct (filled_used v v' _ b Hm Hfill _ Hu).
    + intros i j Hi Hj. rewrite !Eb by done. by apply (fo_inj _ _ Hf).
  - by eapply filled_le.
  - replace (f_size f) with (f + 128) by flia. eapply filled_hdr; [done|done|done|flia|flia].
  - done.
  - auto.
  - intros a. eapply filled_other; [done|done| | |].
    + intros i Hi. left. flia.
    + by right.
    + intros n Hr _. left. by apply Eb.
  - intros pos Hpos. apply (filled_fbyte (f_indirect f)); [done| |done|apply Eb; flia].
    intros a [Ha|(n & Hr & Hn & Hby)] Hp; [apply Ha; left; flia|].
    destruct (fo_data _ _ Hf n Hr Hn) as (_ & H1 & _). pose proof (hdr_byte v f Hf (a - f) ltac:(flia)). flia.
Qed.

Lemma data_grown n : filled v v' (slot_of v f n) b -> has_slot v f n -> fblock v f n = 0 ->
  grown f v v' /\ same_bytes f v v'.
Proof using Hm Hf.
  intros Hfill Hs H0. destruct (fill_data v v' f b Hm Hf n Hfill Hs H0) as [Ei Eb].
  destruct (filled_new v v' f _ b Hm Hf Hfill) as [Hub Hbf].
  assert (findirect v f <> 0 -> findirect v f <> b) as Hib.
  { intros Hi. by destruct (filled_used v v' _ b Hm Hfill _ (proj1 (fo_ind _ _ Hf Hi))). }
  assert (forall m, 0 <= m < MAXBLOCKS -> fblock v f m <> 0 -> m <> n) as Hne by (intros m _ Hn ->; done).
  pose proof (used_hdr v' (meta_le_ok _ _ (filled_le _ _ _ _ Hfill) Hm) _ Hub) as Hb0.
  split; [split|].
  - split.
    + by eapply filled_at.
    + rewrite Ei. intros Hi. destruct (fo_ind _ _ Hf Hi) as [Hu H1].
      by destruct (filled_used v v' _ b Hm Hfill _ Hu).
    + intros m Hr. rewrite Eb, Ei by done. case_decide as E.
      * intros _. split; [done|]. split; [done|]. destruct (decide (findirect v f = 0)); [congruence|]. auto using not_eq_sym.
      * intros Hn. destruct (fo_data _ _ Hf m Hr Hn) as (Hu & H1 & H2).
        by destruct (filled_used v v' _ b Hm Hfill _ Hu).
    + assert (forall i, 0 <= i < MAXBLOCKS -> fblock v f i = b -> False) as Hnb.
      { intros i Hi E. assert (fblock v f i <> 0) as Hn by (by rewrite E).
        destruct (filled_used v v' _ b Hm Hfill _ (proj1 (fo_data _ _ Hf i Hi Hn))). done. }
      intros i j Hi Hj. rewrite !Eb by done. repeat case_decide; try congruence.
      * intros _ E. exfalso. by apply (Hnb j).
      * intros _ E. exfalso. by apply (Hnb i).
      * by apply (fo_inj _ _ Hf).
  - by eapply filled_le.
  - replace (f_size f) with (f + 128) by flia. eapply filled_hdr; [done|done|done|flia|].
    pose proof (slot_hdr v f Hf n 128 _ Hs ltac:(flia) ltac:(lia) eq_refl).
    pose proof (slot_hdr v f Hf n 131 _ Hs ltac:(flia) ltac:(lia) eq_refl). lia.
  - done.
  - intros m Hr Hn. rewrite Eb by done. by rewrite decide_False by auto.
  - intros a. eapply filled_other; [done|done| | |].
    + intros i Hi. by eapply slot_owned.
    + rewrite Ei. by left.
    + intros m Hr _. rewrite Eb by done. case_decide; auto.
  - intros pos Hpos. assert (0 <= pos / BLKSIZE < MAXBLOCKS) as Hr by flia.
    destruct (decide (pos / BLKSIZE = n)) as [E|E].
    + unfold fbyte. rewrite Eb, E, decide_True, H0 by done. cbn.
      destruct (Z.eqb_spec b 0); [done|]. apply (fl_zero _ _ _ _ Hfill). blia.
    + eapply filled_fbyte; [done| |done|rewrite Eb by done; by rewrite decide_False].
      intros a [Ha|(m & Hr' & Hn & Hby)] Hp; [by eapply Ha, slot_owned|]. by eapply slot_data.
Qed.
End Grow.

(** ** [file_block_walk] and [file_get_block] *)
Section Walk.
Context {S : Type} `{BlockMem S}.
Implicit Types (s : S) (f n : Z).

(** What the two leave behind, also when they fail. *)
Definition grows f s s' : Prop :=
  b_ok s' /\ grown f (b_view s) (b_view s') /\ same_bytes f (b_view s) (b_view s').
Lemma grows_refl f s : b_ok s -> file_ok (b_view s) f -> grows f s s.
Proof. intros. split; [done|]. split; [by apply grown_refl|done]. Qed.
Lemma grows_trans f s1 s2 s3 : grows f s1 s2 -> grows f s2 s3 -> grows f s1 s3.
Proof.
  intros (_&G1&B1) (Hok&G2&B2). split; [done|]. split; [by eapply grown_trans|by eapply same_bytes_trans].
Qed.
Lemma calm_grows f s s' : calm s s' -> file_ok (b_view s) f -> grows f s s'.
Proof. intros (E&_&Hok) Hf. split; [done|]. rewrite E. split; [by apply grown_refl|done]. Qed.

Lemma load_hdr f i s : b_ok s -> file_ok (b_view s) f -> 0 <= i <= FILESZ - 4 ->
  exists s', b_load32 (f + i) s = Ret (word (b_view s) (f + i)) s' /\ calm s s'.
Proof. intros Hok Hf Hi. apply load32_plain; [done|by apply hdr_word]. Qed.
Lemma load_indirect f s : b_ok s -> file_ok (b_view s) f ->
  exists s', b_load32 (f_indirect f) s = Ret (findirect (b_view s) f) s' /\ calm s s'.
Proof. intros Hok Hf. apply (load_hdr f 176); [done|done|flia]. Qed.
Lemma load_size_ok f s : b_ok s -> file_ok (b_view s) f ->
  exists s', load_size f s = Ret (fsize (b_view s) f) s' /\ calm s s'.
Proof.
  intros Hok Hf. destruct (load_hdr f 128 s Hok Hf ltac:(flia)) as (s' & E & Hc). exists s'.
  unfold load_size, f_size. by exec_by E.
Qed.

Lemma file_block_walk_ok f n alloc s : b_ok s -> file_ok (b_view s) f -> 0 <= n ->
  exists r s', file_block_walk f n alloc s = Ret r s' /\ grows f s s' /\
  match r with
  | inr p => n < MAXBLOCKS /\ has_slot (b_view s') f n /\ p = slot_of (b_view s') f n /\
      (alloc = false \/ has_slot (b_view s) f n -> b_view s' = b_view s)
  | inl e => (e = - E_INVAL /\ MAXBLOCKS <= n /\ calm s s') \/
      (n < MAXBLOCKS /\ b_view s' = b_view s /\ fblock (b_view s) f n = 0 /\
       if alloc then e = - E_NO_DISK /\ full (b_view s) else e = - E_NOT_FOUND)
  end.
Proof.
  intros Hok Hf Hn. unfold file_block_walk. fold MAXBLOCKS. destruct (Z.leb_spec MAXBLOCKS n) as [Hge|Hlt].
  { exists (inl (- E_INVAL)), s. split; [done|]. split; [by apply grows_refl|]. by left. }
  destruct (Z.ltb_spec n NDIRECT) as [Hd|Hd].
  { exists (inr (f_direct f + 4 * n)), s. split; [done|]. split; [by apply grows_refl|].
    repeat split; try lia. unfold slot_of. by destruct (Z.ltb_spec n NDIRECT); [|lia]. }
  destruct (load_indirect f s Hok Hf) as (s1 & E1 & Hc1). exec_by E1. pose proof Hc1 as (Hv1 & _ & Hok1).
  assert (forall s2, grows f s s2 -> findirect (b_view s2) f <> 0 ->
    exists s', (ind ← b_load32 (f_indirect f); a ← b_diskaddr ind; mret (inr (a + 4 * (n - NDIRECT)))) s2
      = Ret (inr (slot_of (b_view s') f n) : Z + Z) s' /\ grows f s s' /\ has_slot (b_view s') f n /\ b_view s' = b_view s2) as Hlast.
  { intros s2 Hg2 Hi. pose proof Hg2 as (Hok2 & [Hf2 _ _ _ _ _] & _).
    destruct (load_indirect f s2 Hok2 Hf2) as (s3 & E3 & Hc3). exec_by E3. pose proof Hc3 as (Hv3 & _ & Hok3).
    pose proof (nbitmap_range _ (bm_meta _ Hok2)). destruct (fo_ind _ _ Hf2 Hi) as [[[Hi1 Hi2] _] _].
    exec_by (bm_diskaddr s3 (findirect (b_view s2) f) Hok3 ltac:(rewrite Hv3; lia)).
    exists s3. rewrite Hv3. split; [|split; [|split; [split; [lia|by right]|done]]].
    - unfold slot_of. by destruct (Z.ltb_spec n NDIRECT); [lia|].
    - eapply grows_trans; [done|]. by apply calm_grows. }
  unfold try_. destruct (Z.eqb_spec (findirect (b_view s) f) 0) as [Hi|Hi].
  2: { exec. destruct (Hlast s1 ltac:(by apply calm_grows) ltac:(by rewrite Hv1)) as (s2 & E2 & Hg2 & Hs2 & Hv2).
       eexists _, s2. split; [exact E2|]. split; [done|]. split; [done|]. split; [done|]. split; [done|]. intros _. congruence. }
  assert (fblock (b_view s) f n = 0) as Hb0
    by (unfold fblock; by destruct (Z.ltb_spec n NDIRECT), (Z.eqb_spec (findirect (b_view s) f) 0); try lia).
  destruct alloc; cbn [negb].
  2: { exec. exists (inl (- E_NOT_FOUND)), s1. split; [done|]. split; [by apply calm_grows|]. by right. }
  pose proof (bm_meta _ Hok) as Hm.
  destruct (fill_slot_ok s1 (f_indirect f) Hok1) as (r & s2 & E2 & Hok2 & Hr2).
  { rewrite Hv1. apply (hdr_word _ _ Hf 176). flia. }
  exec_by E2. rewrite Hv1 in Hr2. destruct r as [e|[]].
  - destruct Hr2 as (-> & Hv2 & Hfull). exists (inl (- E_NO_DISK)), s2. split; [done|]. split; [|by right].
    split; [done|]. rewrite Hv2. split; [by apply grown_refl|done].
  - destruct Hr2 as [b Hb]. destruct (indirect_grown _ _ _ _ Hm Hf Hb Hi) as [Hg Hsb].
    destruct (fill_indirect _ _ _ _ Hm Hf Hb Hi) as [Ei _].
    destruct (Hlast s2) as (s3 & E3 & Hg3 & Hs3 & Hv3); [done| |].
    { rewrite Ei. pose proof (nbitmap_range _ Hm). destruct (fl_data _ _ _ _ Hb). lia. }
    eexists _, s3. split; [exact E3|]. split; [done|]. split; [done|]. split; [done|]. split; [done|].
    intros [?|[_ [?|?]]]; [done|lia|done].
Qed.

Lemma file_get_block_ok f n s : b_ok s -> file_ok (b_view s) f -> 0 <= n ->
  exists r s', file_get_block f n s = Ret r s' /\ grows f s s' /\
  (fblock (b_view s) f n <> 0 -> b_view s' = b_view s) /\
  match r with
  | inr a => n < MAXBLOCKS /\ fblock (b_view s') f n <> 0 /\ a = DISKMAP + fblock (b_view s') f n * BLKSIZE
  | inl e => (e = - E_INVAL /\ MAXBLOCKS <= n /\ calm s s') \/
      (e = - E_NO_DISK /\ n < MAXBLOCKS /\ fblock (b_view s) f n = 0 /\ full (b_view s'))
  end.
Proof.
  intros Hok Hf Hn. unfold file_get_block, try_.
  destruct (file_block_walk_ok f n true s Hok Hf Hn) as (r & s1 & E1 & Hg1 & Hr). exec_by E1.
  destruct r as [e|p].
  { exists (inl e), s1. split; [done|]. split; [done|]. destruct Hr as [(->&?&Hc)|(?&Hv&Hb&->&?)].
    - split; [intros _; apply Hc|]. by left.
    - split; [done|]. right. by rewrite Hv. }
  destruct Hr as (Hr & Hs & -> & Hsame). pose proof Hg1 as (Hok1 & Hgr1 & Hsb1). pose proof (gr_ok _ _ _ Hgr1) as Hf1.
  pose proof (bm_meta _ Hok1) as Hm1. pose proof (slot_word _ _ Hm1 Hf1 n Hs) as Hw.
  assert (forall s2, grows f s s2 -> has_slot (b_view s2) f n -> slot_of (b_view s2) f n = slot_of (b_view s1) f n ->
    fblock (b_view s2) f n <> 0 ->
    exists s', (b ← b_load32 (slot_of (b_view s1) f n); a ← b_diskaddr b; mret (inr a)) s2
      = Ret (inr (DISKMAP + fblock (b_view s') f n * BLKSIZE) : Z + Z) s' /\ grows f s s' /\ b_view s' = b_view s2) as Hlast.
  { intros s2 Hg2 Hs2 E Hb. pose proof Hg2 as (Hok2 & [Hf2 _ _ _ _ _] & _). rewrite <-E.
    pose proof (bm_meta _ Hok2) as Hm2. rewrite fblock_slot in Hb by done.
    destruct (load32_plain s2 _ Hok2 (slot_word _ _ Hm2 Hf2 n Hs2)) as (s3 & E3 & Hc3). exec_by E3.
    pose proof Hc3 as (Hv3 & _ & Hok3). rewrite <-fblock_slot in * by done.
    destruct (fo_data _ _ Hf2 n (proj1 Hs2) Hb) as ([[Hi1 Hi2] _] & _). pose proof (nbitmap_range _ Hm2).
    exec_by (bm_diskaddr s3 _ Hok3 ltac:(by rewrite Hv3; instantiate (1 := fblock (b_view s2) f n); lia)).
    exists s3. rewrite Hv3. split; [done|]. split; [|done]. eapply grows_trans; [done|]. by apply calm_grows. }
  destruct (load32_plain s1 _ Hok1 Hw) as (s2 & E2 & Hc2). exec_by E2. pose proof Hc2 as (Hv2 & _ & Hok2).
  rewrite <-fblock_slot by done. destruct (Z.eqb_spec (fblock (b_view s1) f n) 0) as [Hb|Hb].
  2: { exec. destruct (Hlast s2) as (s3 & E3 & Hg3 & Hv3); try (by rewrite Hv2).
       { eapply grows_trans; [done|]. by apply calm_grows. }
       eexists _, s3. split; [exact E3|]. split; [done|]. rewrite Hv3, Hv2. split; [|done].
       intros Hb0. apply Hsame. right. split; [apply Hs|]. unfold fblock in Hb0.
       destruct (Z.ltb_spec n NDIRECT), (Z.eqb_spec (findirect (b_view s) f) 0); cbn in Hb0; auto. }
  assert (fblock (b_view s) f n = 0) as Hb0.
  { destruct (decide (fblock (b_view s) f n = 0)) as [|Hne]; [done|]. 
    pose proof (gr_block _ _ _ Hgr1 n ltac:(lia) Hne). congruence. }
  destruct (fill_slot_ok s2 (slot_of (b_view s1) f n) Hok2 ltac:(by rewrite Hv2)) as (r & s3 & E3 & Hok3 & Hr3).
  exec_by E3. rewrite Hv2 in Hr3. destruct r as [e|[]].
  - destruct Hr3 as (-> & Hv3 & Hfull). exists (inl (- E_NO_DISK)), s3. split; [done|].
    assert (b_view s3 = b_view s1) as Hv31 by congruence.
    split; [|split; [done|right; by rewrite Hv31]].
    split; [done|]. by rewrite Hv31.
  - destruct Hr3 as [b Hb']. destruct (data_grown _ _ _ _ Hm1 Hf1 n Hb' Hs Hb) as [Hg3 Hsb3].
    destruct (fill_data _ _ _ _ Hm1 Hf1 n Hb' Hs Hb) as [Ei Eb].
    assert (fblock (b_view s3) f n = b) as Ebn by (rewrite Eb by apply Hs; by rewrite decide_True).
    destruct (Hlast s3) as (s4 & E4 & Hg4 & Hv4).
    + eapply grows_trans; [done|]. by split.
    + split; [apply Hs|]. rewrite Ei. apply Hs.
    + unfold slot_of. by rewrite Ei.
    + rewrite Ebn. pose proof (nbitmap_range _ Hm1). destruct (fl_data _ _ _ _ Hb'). lia.
    + eexists _, s4. split; [exact E4|]. split; [done|]. rewrite Hv4, Ebn. split; [done|].
      split; [done|]. split; [|done]. pose proof (nbitmap_range _ Hm1). destruct (fl_data _ _ _ _ Hb'). lia.
Qed.
End Walk.
