(* ===== verification/JFileIO.v ===== *)
(** * Reading and writing files

    [file_read] returns the bytes of the file and changes none; [file_write]
    writes the bytes it is given and keeps all the others, so that a read gives
    back what was written.  Both are loops over the blocks of the range. *)
From S2P Require Import Prelude Bytes Mmu JBlock JBlockSpec JFs JFsSpec JFile.

(** The largest file, and a file whose size the slots can hold. *)
Definition MAXFILESIZE : Z := MAXBLOCKS * BLKSIZE.
Definition sized (v : Z -> Z) (f : Z) : Prop := 0 <= fsize v f <= MAXFILESIZE.
Ltac slia := unfold MAXFILESIZE in *; flia.


(** The arithmetic of one round. *)
Lemma round_ids pos left : 0 <= pos < 2147483648 -> 0 < left < 2147483648 ->
  u32 (Z.quot pos BLKSIZE) = pos / BLKSIZE /\ Z.rem pos BLKSIZE = pos mod BLKSIZE /\
  s32 (min_u32 (BLKSIZE - Z.rem pos BLKSIZE) left) = Z.min (BLKSIZE - pos mod BLKSIZE) left.
Proof.
  intros Hp Hl. rewrite Z.quot_div_nonneg, Z.rem_mod_nonneg by (unfold BLKSIZE; lia).
  split; [apply u32_id; unfold is_u32; blia|]. split; [done|].
  unfold min_u32. rewrite !u32_id by (unfold is_u32; blia). apply s32_id. blia.
Qed.

(** ** A store that keeps the layout *)
Section Layout.
Context (v v' : Z -> Z) (f : Z).
Hypothesis Hm : meta_ok v.
Hypothesis Hf : file_ok v f.
Hypothesis Hme : meta_eq v v'.
Hypothesis Hslots : forall i, 136 <= i < 180 -> v' (f + i) = v (f + i).
Hypothesis Hind : findirect v f <> 0 -> forall a, byte_of (findirect v f) a -> v' a = v a.

Lemma layout_ind : findirect v' f = findirect v f.
Proof using Hslots.
  apply word_ext. intros i Hi. replace (f_indirect f + i) with (f + (176 + i)) by flia. apply Hslots. lia.
Qed.
Lemma layout_block n : 0 <= n < MAXBLOCKS -> fblock v' f n = fblock v f n.
Proof using Hslots Hind.
  intros Hn. unfold fblock, slot_of. rewrite layout_ind.
  destruct (Z.ltb_spec n NDIRECT); cbn [negb andb].
  - apply word_ext. intros i Hi. replace (f_direct f + 4 * n + i) with (f + (136 + 4 * n + i)) by flia.
    apply Hslots. flia.
  - destruct (Z.eqb_spec (findirect v f) 0) as [|Hi]; [done|]. apply word_ext. intros i Hi'.
    apply Hind; [done|]. flia.
Qed.
Lemma layout_used b : 0 <= b -> used v b -> used v' b.
Proof using Hme.
  intros Hb [Hd Hu]. destruct Hme as [E1 E2]. split; [unfold data; by rewrite (nbitmap_eq _ _ E1), E1|by rewrite E2].
Qed.
Lemma layout_ok : file_ok v' f.
Proof using Hm Hf Hme Hslots Hind.
  pose proof (nbitmap_range _ Hm). destruct Hf as [[H1 H2] H3 H4 H5]. split.
  - split; [done|]. intros i Hi. eapply plain_le; [by apply meta_eq_le|auto].
  - rewrite layout_ind. intros Hi. destruct (H3 Hi) as [Hu ?]. split; [|done].
    apply layout_used; [destruct Hu as [[? ?] ?]; lia|done].
  - intros n Hn. rewrite layout_block, layout_ind by done. intros Hb. destruct (H4 n Hn Hb) as (Hu & ? & ?).
    split; [|done]. apply layout_used; [destruct Hu as [[? ?] ?]; lia|done].
  - intros i j Hi Hj. rewrite !layout_block by done. by apply H5.
Qed.
Lemma layout_other a : other v f a -> other v' f a.
Proof using Hme Hslots Hind.
  intros [Hp Ho]. split; [eapply plain_le; [by apply meta_eq_le|done]|]. intros [H1|[[H1 H2]|(n & Hr & Hn & Hby)]]; apply Ho.
  - by left.
  - rewrite layout_ind in *. right. by left.
  - rewrite layout_block in * by done. right. right. eauto.
Qed.
End Layout.

(** Storing in the data of a file. *)
Section DataStore.
Context (v v' : Z -> Z) (f pos : Z) (l : list Z).
Hypothesis Hm : meta_ok v.
Hypothesis Hf : file_ok v f.
Hypothesis Hme : meta_eq v v'.
Hypothesis Hpos : 0 <= pos.
Hypothesis Hlen : pos mod BLKSIZE + zlen l <= BLKSIZE.
Hypothesis Hn : pos / BLKSIZE < MAXBLOCKS.
Hypothesis Hb : fblock v f (pos / BLKSIZE) <> 0.
Let addr := DISKMAP + fblock v f (pos / BLKSIZE) * BLKSIZE + pos mod BLKSIZE.
Hypothesis Hv : forall i, v' i = match zget l (i - addr) with Some x => u8 x | None => v i end.

Lemma dstore_out a : ~ byte_of (fblock v f (pos / BLKSIZE)) a -> v' a = v a.
Proof using Hv Hlen Hpos.
  intros Ha. rewrite Hv, zget_none; [done|]. intros Hr. apply Ha. unfold addr in Hr. blia.
Qed.
Lemma dstore_used : used v (fblock v f (pos / BLKSIZE)) /\ fblock v f (pos / BLKSIZE) <> blk f /\
  fblock v f (pos / BLKSIZE) <> findirect v f.
Proof using Hf Hpos Hn Hb. apply (fo_data _ _ Hf); [|done]. flia. Qed.
Lemma dstore_slots i : 0 <= i < FILESZ -> v' (f + i) = v (f + i).
Proof using Hf Hpos Hn Hb Hv Hlen.
  intros Hi. apply dstore_out. intros Hby. destruct dstore_used as (_ & Hbf & _). apply Hbf.
  pose proof (hdr_byte v f Hf i Hi). blia.
Qed.
Lemma dstore_ind : findirect v f <> 0 -> forall a, byte_of (findirect v f) a -> v' a = v a.
Proof using Hf Hpos Hn Hb Hv Hlen.
  intros _ a Ha. apply dstore_out. intros Hby. destruct dstore_used as (_ & _ & Hbi). apply Hbi. blia.
Qed.
Lemma dstore_block n : 0 <= n < MAXBLOCKS -> fblock v' f n = fblock v f n.
Proof using Hf Hpos Hn Hb Hv Hlen.
  apply layout_block; [|by apply dstore_ind]. intros i Hi. apply dstore_slots. flia.
Qed.
Lemma dstore_grown : grown f v v'.
Proof using Hm Hf Hme Hpos Hn Hb Hv Hlen.
  assert (forall i, 136 <= i < 180 -> v' (f + i) = v (f + i)) as Hs by (intros; apply dstore_slots; flia).
  split.
  - apply (layout_ok v); auto using dstore_ind.
  - by apply meta_eq_le.
  - apply word_ext. intros i Hi. replace (f_size f + i) with (f + (128 + i)) by flia. apply dstore_slots. flia.
  - intros _. by apply layout_ind.
  - intros n Hr _. by apply dstore_block.
  - intros a Ha. split.
    + apply dstore_out. intros Hby. destruct Ha as [_ Ho]. apply Ho. right. right. exists (pos / BLKSIZE).
      split; [flia|done].
    + by apply (layout_other v v' f Hme Hs dstore_ind).
Qed.
Lemma dstore_bytes q : 0 <= q < MAXFILESIZE ->
  fbyte v' f q = match zget l (q - pos) with Some x => u8 x | None => fbyte v f q end.
Proof using Hm Hf Hpos Hn Hb Hv Hlen.
  intros Hq. unfold fbyte. rewrite dstore_block by slia.
  destruct (decide (q / BLKSIZE = pos / BLKSIZE)) as [E|E].
  - rewrite E. destruct (Z.eqb_spec (fblock v f (pos / BLKSIZE)) 0); [done|]. rewrite Hv.
    match goal with |- match zget l ?x with _ => _ end = _ => replace x with (q - pos) by (unfold addr; blia) end.
    done.
  - rewrite zget_none by blia. destruct (Z.eqb_spec (fblock v f (q / BLKSIZE)) 0) as [|Hq0]; [done|].
    apply dstore_out. intros Hby. apply E. apply (fo_inj _ _ Hf); [slia|flia|done|]. blia.
Qed.
End DataStore.

(** ** [file_read] *)
Section IO.
Context {S : Type} `{BlockMem S}.
Implicit Types (s : S) (f n : Z).

Lemma grows_ok f s s' : grows f s s' -> b_ok s' /\ file_ok (b_view s') f.
Proof. intros (Hok & [Hf _ _ _ _ _] & _). done. Qed.
(** Holes in a range of positions. *)
Definition hole (v : Z -> Z) (f lo hi : Z) : Prop :=
  exists q, lo <= q < hi /\ fblock v f (q / BLKSIZE) = 0.

(** One round: the block of [pos] is at hand, or the disk is full. *)
Lemma round_block f pos s : b_ok s -> file_ok (b_view s) f -> 0 <= pos < MAXFILESIZE ->
  exists r s', file_get_block f (pos / BLKSIZE) s = Ret r s' /\ grows f s s' /\
  match r with
  | inr blk => fblock (b_view s') f (pos / BLKSIZE) <> 0 /\
      blk = DISKMAP + fblock (b_view s') f (pos / BLKSIZE) * BLKSIZE
  | inl e => e = - E_NO_DISK /\ fblock (b_view s) f (pos / BLKSIZE) = 0 /\ full (b_view s')
  end.
Proof.
  intros Hok Hf Hp. destruct (file_get_block_ok f (pos / BLKSIZE) s Hok Hf ltac:(slia)) as (r & s' & E & Hg & _ & Hr).
  exists r, s'. split; [done|]. split; [done|]. destruct r as [e|blk]; [|tauto].
  destruct Hr as [(_ & Hge & _)|(? & _ & ? & ?)]; [slia|done].
Qed.

(** Bytes of one block. *)
Lemma load_data f pos bn s : b_ok s -> file_ok (b_view s) f -> 0 <= pos -> pos / BLKSIZE < MAXBLOCKS ->
  fblock (b_view s) f (pos / BLKSIZE) <> 0 -> 0 <= bn <= BLKSIZE - pos mod BLKSIZE ->
  exists s', load_bytes (DISKMAP + fblock (b_view s) f (pos / BLKSIZE) * BLKSIZE + pos mod BLKSIZE) (Z.to_nat bn) s
    = Ret (fbyte (b_view s) f <$> seqZ pos bn) s' /\ calm s s'.
Proof.
  intros Hok Hf Hp Hr Hb Hbn. destruct (fo_data _ _ Hf (pos / BLKSIZE) ltac:(flia) Hb) as [Hu _].
  edestruct (load_bytes_ok s) as (s' & E & Hc); [done| |exists s'; split; [rewrite E|exact Hc]].
  - intros i Hi. eapply used_plain; [by apply bm_meta|exact Hu|]. blia.
  - f_equal. rewrite Z2Nat.id by lia. apply fmap_seqZ_ext. intros i Hi. unfold fbyte.
    assert ((pos + i) / BLKSIZE = pos / BLKSIZE) as -> by blia.
    destruct (Z.eqb_spec (fblock (b_view s) f (pos / BLKSIZE)) 0); [done|]. f_equal. blia.
Qed.

Lemma read_loop_ok f off count v0 fuel pos s : b_ok s -> file_ok (b_view s) f -> grown f v0 (b_view s) ->
  same_bytes f v0 (b_view s) -> 0 <= off <= pos -> pos <= off + count <= MAXFILESIZE ->
  (Z.to_nat (off + count - pos) < fuel)%nat ->
  exists r s', loop fuel (fun '(pos, buf) =>
    if u32 pos <? u32 (off + count) then
      r ← file_get_block f (u32 (Z.quot pos BLKSIZE));
      match r with
      | inl e => mret (inr (inl e))
      | inr blk =>
          let bn := s32 (min_u32 (BLKSIZE - Z.rem pos BLKSIZE) (off + count - pos)) in
          l ← load_bytes (blk + Z.rem pos BLKSIZE) (Z.to_nat bn);
          mret (inl (s32 (pos + bn), buf ++ l))
      end
    else mret (inr (inr (count, buf)))) (pos, fbyte v0 f <$> seqZ off (pos - off)) s = Ret r s' /\ grows f s s' /\
  match r with
  | inr (c, l) => c = count /\ l = fbyte v0 f <$> seqZ off count
  | inl e => e = - E_NO_DISK /\ hole (b_view s) f pos (off + count) /\ full (b_view s')
  end.
Proof.
  revert pos s. induction fuel as [|fuel IH]; intros pos s Hok Hf Hg0 Hs0 Hoff Hpos Hfuel; [lia|].
  cbn [loop]. assert ((u32 pos <? u32 (off + count)) = (pos <? off + count)) as -> by (rewrite !u32_id by (unfold is_u32; slia); done).
  destruct (Z.ltb_spec pos (off + count)) as [Hlt|Hge].
  2: { exec. assert (pos = off + count) as -> by lia. rewrite Z.add_simpl_l.
       eexists _, s. split; [done|]. split; [by apply grows_refl|]. done. }
  destruct (round_ids pos (off + count - pos)) as (-> & -> & ->); [slia|slia|].
  destruct (round_block f pos s Hok Hf ltac:(slia)) as (r & s1 & E1 & Hg1 & Hr). exec. exec_by E1.
  destruct r as [e|blk].
  { destruct Hr as (-> & Hb & Hfull). exec. eexists _, s1. split; [done|]. split; [done|].
    split; [done|]. split; [|done]. exists pos. split; [lia|done]. }
  destruct Hr as [Hb ->]. destruct (grows_ok _ _ _ Hg1) as [Hok1 Hf1].
  set (bn := Z.min (BLKSIZE - pos mod BLKSIZE) (off + count - pos)).
  assert (0 < bn <= BLKSIZE - pos mod BLKSIZE /\ bn <= off + count - pos) as [Hbn Hbn2] by (unfold bn; blia).
  destruct (load_data f pos bn s1 Hok1 Hf1 ltac:(lia) ltac:(slia) Hb ltac:(lia)) as (s2 & E2 & Hc2).
  exec. exec_by E2. exec. pose proof (calm_grows _ _ _ Hc2 Hf1) as Hg2.
  pose proof (grows_trans _ _ _ _ Hg1 Hg2) as Hg12. destruct (grows_ok _ _ _ Hg2) as [Hok2 Hf2].
  rewrite (s32_id (pos + bn)) by slia.
  replace ((fbyte v0 f <$> seqZ off (pos - off)) ++ (fbyte (b_view s1) f <$> seqZ pos bn))
    with (fbyte v0 f <$> seqZ off (pos + bn - off)).
  2: { replace (pos + bn - off) with ((pos - off) + bn) by lia. rewrite seqZ_app, fmap_app by lia. f_equal.
       replace (off + (pos - off)) with pos by lia. apply fmap_seqZ_ext. intros i Hi.
       destruct Hg1 as (_ & _ & Hs1). rewrite Hs1 by slia. symmetry. apply Hs0. slia. }
  destruct Hg12 as (_ & Hgr & Hsb).
  destruct (IH (pos + bn) s2 Hok2 Hf2) as (r & s3 & E3 & Hg3 & Hr3);
    [by eapply grown_trans|by eapply same_bytes_trans|lia|lia|lia|].
  exists r, s3. split; [exact E3|]. split; [eapply grows_trans; [by split|exact Hg3]|].
  destruct r as [e|[c l]]; [|done]. destruct Hr3 as (? & (q & Hq & Hq0) & ?). split; [done|]. split; [|done].
  exists q. split; [lia|]. destruct (decide (fblock (b_view s) f (q / BLKSIZE) = 0)) as [|Hne]; [done|].
  pose proof (gr_block _ _ _ Hgr (q / BLKSIZE) ltac:(slia) Hne). congruence.
Qed.

Lemma file_read_ok f count off s : b_ok s -> file_ok (b_view s) f -> sized (b_view s) f ->
  0 <= off < 2147483648 -> is_u32 count ->
  let n := Z.max 0 (Z.min count (fsize (b_view s) f - off)) in
  exists r s', file_read f count off s = Ret r s' /\ grows f s s' /\
  match r with
  | inr (c, l) => c = n /\ l = fbyte (b_view s) f <$> seqZ off n
  | inl e => e = - E_NO_DISK /\ hole (b_view s) f off (off + n) /\ full (b_view s')
  end.
Proof.
  intros Hok Hf Hsz Hoff Hcnt n. unfold file_read. unfold sized in Hsz. unfold is_u32 in Hcnt.
  destruct (load_size_ok f s Hok Hf) as (s1 & E1 & Hc1). exec_by E1. pose proof Hc1 as (Hv1 & _ & Hok1).
  destruct (Z.leb_spec (fsize (b_view s) f) off) as [Hle|Hgt].
  { assert (n = 0) as -> by (unfold n; lia). exec. eexists _, s1. split; [done|].
    split; [by apply calm_grows|]. done. }
  assert (min_u32 count (fsize (b_view s) f - off) = n) as ->
    by (unfold min_u32, n; rewrite !u32_id by (unfold is_u32; slia); lia).
  destruct (read_loop_ok f off n (b_view s) (Datatypes.S (Z.to_nat n)) off s1) as (r & s2 & E2 & Hg2 & Hr2);
    [done|by rewrite Hv1|rewrite Hv1; by apply grown_refl|by rewrite Hv1|lia|unfold n; slia|lia|].
  rewrite Z.sub_diag in E2. rewrite Hv1 in Hr2.
  exists r, s2. split; [exact E2|]. split; [|done]. eapply grows_trans; [by apply calm_grows|done].
Qed.
End IO.

(** ** [file_write] *)

(** The bytes [l] are in the file at [off], the others are as before. *)
Definition written (f off : Z) (l : list Z) (v v' : Z -> Z) : Prop :=
  forall q, 0 <= q < MAXFILESIZE ->
    fbyte v' f q = match zget l (q - off) with Some x => u8 x | None => fbyte v f q end.
Lemma written_nil f off v v' : same_bytes f v v' -> written f off [] v v'.
Proof. intros Hs q Hq. rewrite zget_none by (unfold zlen; cbn; lia). by apply Hs. Qed.
Lemma written_app f off l l' v v1 v2 : written f off l v v1 -> written f (off + zlen l) l' v1 v2 ->
  written f off (l ++ l') v v2.
Proof.
  intros H1 H2 q Hq. rewrite (H2 q Hq), zget_app. case_decide.
  - rewrite zget_none by lia. by apply H1.
  - replace (q - (off + zlen l)) with (q - off - zlen l) by lia.
    destruct (zget l' (q - off - zlen l)); [done|]. rewrite (H1 q Hq). by rewrite zget_none by lia.
Qed.

Section Write.
Context {S : Type} `{BlockMem S}.
Implicit Types (s : S) (f n : Z).

Lemma store_data f pos l s : b_ok s -> file_ok (b_view s) f -> 0 <= pos -> pos / BLKSIZE < MAXBLOCKS ->
  fblock (b_view s) f (pos / BLKSIZE) <> 0 -> pos mod BLKSIZE + zlen l <= BLKSIZE ->
  exists s', store_bytes (DISKMAP + fblock (b_view s) f (pos / BLKSIZE) * BLKSIZE + pos mod BLKSIZE) l s = Ret tt s' /\
    b_ok s' /\ grown f (b_view s) (b_view s') /\ written f pos l (b_view s) (b_view s').
Proof.
  intros Hok Hf Hp Hr Hb Hl. pose proof (bm_meta _ Hok) as Hm.
  destruct (fo_data _ _ Hf (pos / BLKSIZE) ltac:(flia) Hb) as [Hu _].
  edestruct (store_bytes_ok s) as (s' & E & Hok' & Hme & Hv); [done| |exists s'; split; [exact E|]].
  - intros i Hi. eapply used_plain; [done|exact Hu|]. blia.
  - split; [done|]. split; [by eapply (dstore_grown (b_view s) (b_view s') f pos l)|].
    intros q Hq. by apply (dstore_bytes (b_view s) (b_view s') f pos l).
Qed.

Lemma write_loop_ok f off v0 count fuel pos sofar buf s : b_ok s -> grown f v0 (b_view s) ->
  written f off sofar v0 (b_view s) -> (forall q, off <= q < pos -> fblock (b_view s) f (q / BLKSIZE) <> 0) ->
  0 <= off -> pos = off + zlen sofar -> count = zlen sofar + zlen buf -> off + count <= MAXFILESIZE ->
  (Z.to_nat (off + count - pos) < fuel)%nat ->
  exists r s', loop fuel (fun '(pos, buf) =>
    if u32 pos <? u32 (off + count) then
      r ← file_get_block f (u32 (Z.quot pos BLKSIZE));
      match r with
      | inl e => mret (inr (inl e))
      | inr blk =>
          let bn := s32 (min_u32 (BLKSIZE - Z.rem pos BLKSIZE) (off + count - pos)) in
          if zlen buf <? bn then ub else
          store_bytes (blk + Z.rem pos BLKSIZE) (take (Z.to_nat bn) buf);;
          mret (inl (s32 (pos + bn), drop (Z.to_nat bn) buf))
      end
    else mret (inr (inr count))) (pos, buf) s = Ret r s' /\ b_ok s' /\ grown f v0 (b_view s') /\
  match r with
  | inr c => c = count /\ written f off (sofar ++ buf) v0 (b_view s') /\ ~ hole (b_view s') f off (off + count)
  | inl e => e = - E_NO_DISK /\ full (b_view s') /\
      exists k, written f off (sofar ++ take k buf) v0 (b_view s')
  end.
Proof.
  revert pos sofar buf s. induction fuel as [|fuel IH]; intros pos sofar buf s Hok Hg0 Hw0 Hb0 Hoff -> Hcnt Hmax Hfuel; [lia|].
  pose proof (zlen_nonneg sofar). pose proof (zlen_nonneg buf).
  cbn [loop]. assert ((u32 (off + zlen sofar) <? u32 (off + count)) = (off + zlen sofar <? off + count)) as ->
    by (rewrite !u32_id by (unfold is_u32; slia); done).
  destruct (Z.ltb_spec (off + zlen sofar) (off + count)) as [Hlt|Hge].
  2: { exec. assert (buf = []) as -> by (destruct buf; [done|rewrite zlen_cons in *; pose proof (zlen_nonneg buf); lia]).
       rewrite app_nil_r. eexists _, s. split; [reflexivity|]. split; [done|]. split; [done|]. split; [done|].
       split; [done|]. intros (q & Hq & Hq0). apply (Hb0 q); [lia|done]. }
  set (pos := off + zlen sofar) in *. pose proof (gr_ok _ _ _ Hg0) as Hf.
  destruct (round_ids pos (off + count - pos)) as (-> & -> & ->); [slia|slia|].
  destruct (round_block f pos s Hok Hf ltac:(slia)) as (r & s1 & E1 & Hg1 & Hr). exec. exec_by E1.
  pose proof Hg1 as (Hok1 & Hgr1 & Hsb1). pose proof (gr_ok _ _ _ Hgr1) as Hf1.
  assert (written f off sofar v0 (b_view s1)) as Hw1.
  { rewrite <-(app_nil_r sofar). eapply written_app; [exact Hw0|]. by apply written_nil. }
  destruct r as [e|blk].
  { destruct Hr as (-> & Hb & Hfull). exec. eexists _, s1. split; [reflexivity|]. split; [done|].
    split; [by eapply grown_trans|]. split; [done|]. split; [done|]. exists 0%nat. by rewrite take_0, app_nil_r. }
  destruct Hr as [Hb ->].
  set (bn := Z.min (BLKSIZE - pos mod BLKSIZE) (off + count - pos)).
  assert (0 < bn <= BLKSIZE - pos mod BLKSIZE /\ bn <= zlen buf) as [Hbn Hbn2] by (unfold bn; blia).
  destruct (Z.ltb_spec (zlen buf) bn); [lia|].
  destruct (store_data f pos (take (Z.to_nat bn) buf) s1 Hok1 Hf1 ltac:(lia) ltac:(slia) Hb) as (s2 & E2 & Hok2 & Hg2 & Hw2).
  { rewrite zlen_take by lia. lia. }
  exec. exec_by E2. exec. rewrite (s32_id (pos + bn)) by slia.
  assert (grown f v0 (b_view s2)) as Hg02 by (eapply grown_trans; [exact Hg0|]; by eapply grown_trans).
  destruct (IH (pos + bn) (sofar ++ take (Z.to_nat bn) buf) (drop (Z.to_nat bn) buf) s2) as (r & s3 & E3 & Hok3 & Hg3 & Hr3);
    [done|done|by eapply written_app| |lia|rewrite zlen_app, zlen_take by lia; lia|
     rewrite zlen_app, zlen_take, zlen_drop by lia; lia|lia|lia|].
  { intros q Hq. destruct (decide (q < pos)) as [Hqp|Hqp].
    - assert (0 <= q / BLKSIZE < MAXBLOCKS) by slia. rewrite (gr_block _ _ _ Hg2), (gr_block _ _ _ Hgr1); auto with lia.
      + rewrite (gr_block _ _ _ Hgr1); [|done|]; apply Hb0; lia.
    - assert (q / BLKSIZE = pos / BLKSIZE) as -> by blia. rewrite (gr_block _ _ _ Hg2); [done|slia|done]. }
  exists r, s3. split; [exact E3|]. split; [done|]. split; [done|]. destruct r as [e|c].
  - destruct Hr3 as (? & ? & k & Hk). split; [done|]. split; [done|]. exists (Z.to_nat bn + k)%nat.
    rewrite <-app_assoc in Hk. by rewrite take_take_drop in Hk.
  - rewrite <-app_assoc, take_drop in Hr3. done.
Qed.
End Write.
