(* ===== verification/JFileTrunc.v ===== *)
(** * Truncating a file

    [file_free_block], [file_truncate_blocks] and [file_set_size]: shrinking a
    file gives exactly the blocks past the new end back to the bitmap, with the
    indirect block when it is not needed any more, and keeps every byte before
    the new end and everything of other files. *)
From S2P Require Import Prelude Bytes Mmu JBlock JBlockSpec JFs JFsSpec JFile JFileIO.

(** A block is given back and its slot cleared: the effect on memory. *)
Record cleared (v v' : Z -> Z) (p b : Z) : Prop := {
  cl_nblocks : nblocks v' = nblocks v;
  cl_used : forall c, 0 <= c -> is_free v' c = if decide (c = b) then true else is_free v c;
  cl_slot : word v' p = 0;
  cl_rest : forall a, ~ meta_byte v a -> ~ p <= a <= p + 3 -> v' a = v a;
}.

(** The blocks [d] of the file are gone. *)
Record trimmed (f : Z) (v v' : Z -> Z) (d : Z -> bool) : Prop := {
  tr_ok : file_ok v' f;
  tr_nblocks : nblocks v' = nblocks v;
  tr_size : word v' (f_size f) = word v (f_size f);
  tr_ind : findirect v' f = findirect v f;
  tr_block : forall n, 0 <= n < MAXBLOCKS -> fblock v' f n = if d n then 0 else fblock v f n;
  tr_free : forall c, 0 <= c -> is_free v' c = true <->
    is_free v c = true \/ exists n, 0 <= n < MAXBLOCKS /\ d n = true /\ fblock v f n <> 0 /\ fblock v f n = c;
  tr_rest : forall a, ~ meta_byte v a -> ~ f_direct f <= a < f_indirect f ->
    ~ (findirect v f <> 0 /\ byte_of (findirect v f) a) -> v' a = v a;
}.

Lemma meta_byte_eq v v' a : nblocks v' = nblocks v -> meta_byte v' a <-> meta_byte v a.
Proof. intros E. unfold meta_byte. by rewrite (nbitmap_eq _ _ E). Qed.

Lemma trimmed_ext f v v' d d' : (forall n, 0 <= n < MAXBLOCKS -> d n = d' n) -> trimmed f v v' d -> trimmed f v v' d'.
Proof.
  intros E [H1 H2 H3 H4 H5 H6 H7]. split; try done.
  - intros n Hn. rewrite <-E by done. by apply H5.
  - intros c Hc. rewrite H6 by done. split; (intros [?|(n & Hn & Hd & ?)]; [by left|right; exists n; split; [done|]]).
    + by rewrite <-E.
    + by rewrite E.
Qed.
(** Blocks that are holes may as well be gone. *)
Lemma trimmed_refl f v d : file_ok v f -> (forall n, 0 <= n < MAXBLOCKS -> d n = true -> fblock v f n = 0) -> trimmed f v v d.
Proof.
  intros Hf Hd. split; try done.
  - intros n Hn. destruct (d n) eqn:E; [by apply Hd|done].
  - intros c Hc. split; [by left|]. intros [?|(n & Hn & E & Hb & _)]; [done|]. by rewrite Hd in Hb.
Qed.
Lemma trimmed_trans f v1 v2 v3 d1 d2 : trimmed f v1 v2 d1 -> trimmed f v2 v3 d2 ->
  trimmed f v1 v3 (fun n => d1 n || d2 n).
Proof.
  intros [F1 N1 S1 I1 B1 U1 R1] [F2 N2 S2 I2 B2 U2 R2]. split; [done|congruence|congruence|congruence| | |].
  - intros n Hn. rewrite B2, B1 by done. by destruct (d1 n), (d2 n).
  - intros c Hc. rewrite U2, U1 by done. split.
    + intros [[?|(n & Hn & Hd & ?)]|(n & Hn & Hd & Hb & Hc')]; [by left| |].
      * right. exists n. by rewrite Hd.
      * rewrite B1 in Hb, Hc' by done. right. exists n. rewrite Hd, orb_true_r. by destruct (d1 n).
    + intros [?|(n & Hn & Hd & Hb & Hc')]; [by left; left|]. destruct (d1 n) eqn:E1.
      * left. right. exists n. done.
      * right. exists n. rewrite B1, E1 by done. done.
  - intros a Hma Ha Hi. rewrite R2, R1; [done|done|done|done|by rewrite meta_byte_eq|done|by rewrite I1].
Qed.

Section Cleared.
Context (v v' : Z -> Z) (f p b : Z).
Hypothesis Hm : meta_ok v.
Hypothesis Hf : file_ok v f.
Hypothesis Hc : cleared v v' p b.

Lemma cleared_used c : used v c -> c <> b -> used v' c.
Proof using Hm Hc.
  intros [Hd Hu] Hne. destruct Hc as [E1 E2 _ _]. pose proof (nbitmap_range _ Hm). split.
  - unfold data. by rewrite (nbitmap_eq _ _ E1), E1.
  - rewrite E2 by (destruct Hd; lia). by rewrite decide_False.
Qed.
Lemma cleared_at : b <> blk f -> file_at v' f.
Proof using Hf Hc.
  intros Hb. destruct (fo_at _ _ Hf) as [H1 H2]. split; [done|]. intros i Hi. destruct (H2 i Hi) as [[H3 H4] H5].
  assert (blk (f + i) = blk f) as Eb by (by apply blk_byte, (hdr_byte v)).
  destruct Hc as [E1 E2 _ _]. split; [split|]; [by rewrite E1| |by rewrite (nbitmap_eq _ _ E1)].
  rewrite E2 by lia. by rewrite decide_False by congruence.
Qed.
Lemma cleared_byte a : plain v a -> ~ p <= a <= p + 3 -> v' a = v a.
Proof using Hm Hc. intros Ha Hp. apply (cl_rest _ _ _ _ Hc); [by apply plain_not_meta|done]. Qed.
Lemma cleared_word q : plain_word v q -> p + 3 < q \/ q + 3 < p -> word v' q = word v q.
Proof using Hm Hc. intros [_ Hq] Hd. apply word_ext. intros i Hi. apply cleared_byte; [by apply Hq|lia]. Qed.
Lemma cleared_hdr i : 0 <= i <= FILESZ - 4 -> p + 3 < f + i \/ f + i + 3 < p -> word v' (f + i) = word v (f + i).
Proof using Hm Hc Hf. intros Hi Hd. apply cleared_word; [by apply hdr_word|done]. Qed.
Lemma cleared_free c : 0 <= c -> is_free v' c = true <-> is_free v c = true \/ c = b.
Proof using Hc. intros Hc'. rewrite (cl_used _ _ _ _ Hc) by done. case_decide; subst; tauto. Qed.
End Cleared.

Lemma clear_slot v v' f n : meta_ok v -> file_ok v f -> has_slot v f n -> fblock v f n <> 0 ->
  cleared v v' (slot_of v f n) (fblock v f n) -> trimmed f v v' (fun m => m =? n).
Proof.
  intros Hm Hf Hs Hb Hc. pose proof Hs as [Hr _]. destruct (fo_data _ _ Hf n Hr Hb) as (Hu & Hbf & Hbi).
  assert (findirect v' f = findirect v f) as Ei.
  { unfold findirect. replace (f_indirect f) with (f + 176) by flia. eapply cleared_hdr; [done|done|done|flia|].
    pose proof (slot_hdr v f Hf n 176 _ Hs ltac:(flia) ltac:(lia) eq_refl).
    pose proof (slot_hdr v f Hf n 179 _ Hs ltac:(flia) ltac:(lia) eq_refl). lia. }
  assert (forall m, slot_of v' f m = slot_of v f m) as Es by (intros; unfold slot_of; by rewrite Ei).
  assert (forall m, 0 <= m < MAXBLOCKS -> fblock v' f m = if m =? n then 0 else fblock v f m) as Eb.
  { intros m Hrm. unfold fblock at 1 2. rewrite Ei, Es. destruct (Z.eqb_spec m n) as [->|Hne].
    - rewrite (cl_slot _ _ _ _ Hc). by case_match.
    - destruct (negb (m <? NDIRECT) && (findirect v f =? 0)) eqn:Hh; [done|].
      assert (has_slot v f m) as Hsm.
      { split; [done|]. destruct (Z.ltb_spec m NDIRECT), (Z.eqb_spec (findirect v f) 0); cbn in Hh; try done; auto. }
      eapply cleared_word; [done|done|by apply slot_word|]. destruct (slot_apart v f Hf m n Hsm Hs Hne); auto. }
  split; [|apply Hc| |done|done| |].
  - split.
    + by eapply cleared_at.
    + rewrite Ei. intros Hi. destruct (fo_ind _ _ Hf Hi) as [Hui ?]. split; [|done]. eapply cleared_used; eauto.
    + intros m Hrm. rewrite Eb, Ei by done. destruct (Z.eqb_spec m n) as [|Hne]; [done|]. intros Hbm.
      destruct (fo_data _ _ Hf m Hrm Hbm) as (Hum & ? & ?). split; [|done]. eapply cleared_used; [done|done|done|].
      intros E. apply Hne. by apply (fo_inj _ _ Hf).
    + intros i j Hi Hj. rewrite !Eb by done. destruct (Z.eqb_spec i n), (Z.eqb_spec j n); try done.
      by apply (fo_inj _ _ Hf).
  - replace (f_size f) with (f + 128) by flia. eapply cleared_hdr; [done|done|done|flia|].
    pose proof (slot_hdr v f Hf n 128 _ Hs ltac:(flia) ltac:(lia) eq_refl).
    pose proof (slot_hdr v f Hf n 131 _ Hs ltac:(flia) ltac:(lia) eq_refl). lia.
  - intros c Hc0. rewrite (cleared_free _ _ _ _ Hc) by done. split; (intros [?|Hx]; [by left|right]).
    + exists n. rewrite Z.eqb_refl. auto.
    + destruct Hx as (m & _ & ->%Z.eqb_eq & _ & ->). done.
  - intros a Hma Ha Hi. apply (cl_rest _ _ _ _ Hc); [done|]. intros Hp.
    destruct (slot_place v f n a Hs Hp) as [H1|(_ & H1 & H2)]; [flia|by apply Hi].
Qed.

(** The indirect block and all its slots go. *)
Lemma clear_indirect v v' f : meta_ok v -> file_ok v f -> findirect v f <> 0 ->
  cleared v v' (f_indirect f) (findirect v f) ->
  file_ok v' f /\ word v' (f_size f) = word v (f_size f) /\ findirect v' f = 0 /\
  forall n, 0 <= n < MAXBLOCKS -> fblock v' f n = if n <? NDIRECT then fblock v f n else 0.
Proof.
  intros Hm Hf Hi Hc. destruct (fo_ind _ _ Hf Hi) as [Hu Hbf].
  assert (findirect v' f = 0) as Ei by apply (cl_slot _ _ _ _ Hc).
  assert (forall n, 0 <= n < MAXBLOCKS -> fblock v' f n = if n <? NDIRECT then fblock v f n else 0) as Eb.
  { intros n Hn. unfold fblock. rewrite Ei. destruct (Z.ltb_spec n NDIRECT); cbn [negb andb]; [|done].
    unfold slot_of. destruct (Z.ltb_spec n NDIRECT); [|lia].
    replace (f_direct f + 4 * n) with (f + (136 + 4 * n)) by flia. eapply cleared_hdr; [done|done|done|flia|flia]. }
  split; [|split; [|done]].
  - split; [by eapply cleared_at|by rewrite Ei| |].
    + intros n Hn. rewrite Eb, Ei by done. destruct (Z.ltb_spec n NDIRECT); [|done]. intros Hb.
      destruct (fo_data _ _ Hf n Hn Hb) as (Hun & ? & ?). split; [eapply cleared_used; eauto|done].
    + intros i j Hi' Hj. rewrite !Eb by done. destruct (Z.ltb_spec i NDIRECT), (Z.ltb_spec j NDIRECT); try done. by apply (fo_inj _ _ Hf).
  - replace (f_size f) with (f + 128) by flia. eapply cleared_hdr; [done|done|done|flia|flia].
Qed.

Section Truncate.
Context {S : Type} `{BlockMem S}.
Implicit Types (s : S) (f n p : Z).

(** Giving a block back and clearing the slot that named it. *)
Lemma free_clear_ok p b s : b_ok s -> data (b_view s) b ->
  plain_word (b_view s) p -> (forall i, 0 <= i <= 3 -> blk (p + i) <> b) ->
  exists s', (free_block b;; b_store32 p 0) s = Ret tt s' /\ b_ok s' /\ cleared (b_view s) (b_view s') p b.
Proof.
  intros Hok Hd Hp Hpb. destruct (free_block_ok s b Hok Hd) as (s1 & E1 & Hok1 & Hn1 & Hu1 & Hr1). exec_by E1.
  pose proof (bm_meta _ Hok) as Hm. pose proof (nbitmap_range _ Hm).
  destruct (store32_plain s1 p 0 Hok1) as (s2 & E2 & Hv2 & _ & Hok2 & Hme).
  { destruct Hp as [Hw Hp]. split; [done|]. intros i Hi. destruct (Hp i Hi) as [[G1 G2] G3].
    split; [split|]; [by rewrite Hn1| |by rewrite (nbitmap_eq _ _ Hn1)].
    rewrite Hu1 by lia. by rewrite decide_False by auto. }
  exists s2. split; [done|]. split; [done|]. split.
  - by rewrite (me_nblocks _ _ Hme).
  - intros c Hc. by rewrite (me_used _ _ Hme), Hu1.
  - rewrite Hv2. by apply word_upd32_eq.
  - intros a Ha Hpa. rewrite Hv2, upd32_out by done. apply Hr1. intros Hb. apply Ha.
    replace a with (bit_word b + (a - bit_word b)) by lia. apply bit_word_meta; [destruct Hd; lia|lia].
Qed.

Lemma file_free_block_ok f n s : b_ok s -> file_ok (b_view s) f -> 0 <= n < MAXBLOCKS ->
  exists r s', file_free_block f n s = Ret r s' /\ b_ok s' /\ trimmed f (b_view s) (b_view s') (fun m => m =? n).
Proof.
  intros Hok Hf Hn. unfold file_free_block, try_.
  assert (forall s', b_view s' = b_view s -> fblock (b_view s) f n = 0 ->
    trimmed f (b_view s) (b_view s') (fun m => m =? n)) as Hhole.
  { intros s' -> H0'. apply trimmed_refl; [done|]. by intros m _ ->%Z.eqb_eq. }
  destruct (file_block_walk_ok f n false s Hok Hf ltac:(lia)) as (r & s1 & E1 & (Hok1 & _) & Hr). exec_by E1.
  destruct r as [e|p].
  { exists (inl e), s1. split; [done|]. split; [done|]. destruct Hr as [(_ & ? & _)|(_ & Hv & Hb & _)]; [lia|by apply Hhole]. }
  destruct Hr as (_ & Hs & -> & Hv1). specialize (Hv1 (or_introl eq_refl)). rewrite Hv1 in Hs.
  pose proof (bm_meta _ Hok) as Hm. pose proof (slot_word _ _ Hm Hf n Hs) as Hw.
  rewrite Hv1. destruct (load32_plain s1 (slot_of (b_view s) f n) Hok1) as (s2 & E2 & Hv2 & _ & Hok2); [by rewrite Hv1|].
  exec_by E2. rewrite Hv1 in *. rewrite <-fblock_slot by done.
  destruct (Z.eqb_spec (fblock (b_view s) f n) 0) as [Hb|Hb]; cbn [negb].
  { exec. exists (inr tt), s2. split; [done|]. split; [done|]. by apply Hhole. }
  destruct (fo_data _ _ Hf n Hn Hb) as (Hu & Hbf & Hbi).
  destruct (free_clear_ok (slot_of (b_view s) f n) (fblock (b_view s) f n) s2) as (s3 & E3 & Hok3 & Hc);
    [done|rewrite Hv2; apply Hu|by rewrite Hv2| |].
  { intros i Hi. destruct (slot_place (b_view s) f n (slot_of (b_view s) f n + i) Hs) as [G|(_ & _ & G)]; [lia| |].
    - rewrite (blk_byte (blk f)); [done|]. replace (slot_of (b_view s) f n + i) with (f + (slot_of (b_view s) f n + i - f)) by lia.
      apply (hdr_byte _ _ Hf). flia.
    - rewrite (blk_byte _ _ G). auto. }
  rewrite (bind_Ret _ _ _ _ _ E3). exists (inr tt), s3. split; [done|]. split; [done|].
  rewrite Hv2 in Hc. by apply clear_slot.
Qed.

Lemma free_range_ok f lo k s : b_ok s -> file_ok (b_view s) f -> 0 <= lo -> lo + Z.of_nat k <= MAXBLOCKS ->
  exists s', for_each (seqZ lo (Z.of_nat k)) (fun bno => _ ← file_free_block f bno; mret tt) s = Ret tt s' /\
    b_ok s' /\ trimmed f (b_view s) (b_view s') (fun m => (lo <=? m) && (m <? lo + Z.of_nat k)).
Proof.
  revert lo s. induction k as [|k IH]; intros lo s Hok Hf Hlo Hk.
  { exists s. split; [done|]. split; [done|]. apply trimmed_refl; [done|].
    intros n _ E%andb_true_iff. destruct E as [G1%Z.leb_le G2%Z.ltb_lt]. lia. }
  rewrite Nat2Z.inj_succ in *. unfold Z.succ in *. rewrite seqZ_step by lia. cbn [for_each].
  destruct (file_free_block_ok f lo s Hok Hf ltac:(lia)) as (r & s1 & E1 & Hok1 & Ht1). exec. exec_by E1. exec.
  destruct (IH (lo + 1) s1 Hok1 (tr_ok _ _ _ _ Ht1)) as (s2 & E2 & Hok2 & Ht2); [lia|lia|].
  exists s2. split; [done|]. split; [done|]. eapply trimmed_ext; [|by eapply trimmed_trans].
  intros n _. cbn. destruct (Z.eqb_spec n lo), (Z.leb_spec (lo + 1) n), (Z.leb_spec lo n); try lia; cbn; try lia. 
Qed.

(** The blocks a size needs. *)
Definition blocks_of (size : Z) : Z := (size + BLKSIZE - 1) / BLKSIZE.
(** The file ends at [newsize]: what lay behind is free, with the indirect block
    when no slot of it is needed. *)
Record shrunk (f newsize : Z) (v v' : Z -> Z) : Prop := {
  sh_ok : file_ok v' f;
  sh_nblocks : nblocks v' = nblocks v;
  sh_block : forall n, 0 <= n < MAXBLOCKS ->
    (n < blocks_of newsize -> fblock v' f n = fblock v f n) /\
    (blocks_of newsize <= n < blocks_of (fsize v f) -> fblock v' f n = 0);
  sh_free : forall c, 0 <= c -> is_free v' c = true <->
    is_free v c = true \/
    (exists n, blocks_of newsize <= n < blocks_of (fsize v f) /\ fblock v f n <> 0 /\ fblock v f n = c) \/
    (blocks_of newsize <= NDIRECT /\ findirect v f <> 0 /\ c = findirect v f);
  sh_byte : forall q, 0 <= q < newsize -> fbyte v' f q = fbyte v f q;
  sh_other : forall a, other v f a -> v' a = v a;
}.

(** A byte that neither the slots nor the size hold. *)
Lemma kept_byte v v' f n a : file_ok v f -> meta_ok v -> 0 <= n < MAXBLOCKS -> fblock v f n <> 0 -> byte_of (fblock v f n) a ->
  (forall a, ~ meta_byte v a -> ~ f_size f <= a < f_indirect f + 4 ->
    ~ (findirect v f <> 0 /\ byte_of (findirect v f) a) -> v' a = v a) -> v' a = v a.
Proof.
  intros Hf Hm Hn Hb Ha Hr. destruct (fo_data _ _ Hf n Hn Hb) as (Hu & H1 & H2). apply Hr.
  - apply plain_not_meta; [done|]. by eapply used_plain.
  - intros Hx. pose proof (hdr_byte v f Hf (a - f) ltac:(flia)). flia.
  - intros [_ Hx]. blia.
Qed.

Lemma file_truncate_blocks_ok f newsize s : b_ok s -> file_ok (b_view s) f -> sized (b_view s) f ->
  0 <= newsize < fsize (b_view s) f ->
  exists s', file_truncate_blocks f newsize s = Ret tt s' /\ b_ok s' /\ shrunk f newsize (b_view s) (b_view s') /\
    word (b_view s') (f_size f) = word (b_view s) (f_size f).
Proof.
  intros Hok Hf Hsz Hnew. unfold sized in Hsz. unfold file_truncate_blocks.
  destruct (load_size_ok f s Hok Hf) as (s1 & E1 & Hv1 & _ & Hok1). exec_by E1. cbv zeta.
  assert (forall x, 0 <= x <= MAXFILESIZE -> u32 (Z.quot (x + BLKSIZE - 1) BLKSIZE) = blocks_of x /\
    0 <= blocks_of x <= MAXBLOCKS) as Hbl.
  { intros x Hx. rewrite Z.quot_div_nonneg by (unfold BLKSIZE; lia). unfold blocks_of.
    rewrite u32_id by (unfold is_u32; slia). slia. }
  destruct (Hbl (fsize (b_view s) f)) as [-> Ho]; [lia|]. destruct (Hbl newsize) as [-> Hnw]; [lia|].
  assert (blocks_of newsize <= blocks_of (fsize (b_view s) f)) as Hle by (unfold blocks_of; blia).
  destruct (free_range_ok f (blocks_of newsize) (Z.to_nat (blocks_of (fsize (b_view s) f) - blocks_of newsize)) s1 Hok1)
    as (s2 & E2 & Hok2 & Ht); [by rewrite Hv1|lia|lia|].
  rewrite Z2Nat.id in E2, Ht by lia. exec_by E2. rewrite Hv1 in Ht.
  destruct (load_indirect f s2 Hok2 (tr_ok _ _ _ _ Ht)) as (s3 & E3 & Hv3 & _ & Hok3). exec_by E3.
  rewrite (tr_ind _ _ _ _ Ht) in *. pose proof (bm_meta _ Hok) as Hm.
  assert (forall n, ((blocks_of newsize <=? n) && (n <? blocks_of newsize + (blocks_of (fsize (b_view s) f) - blocks_of newsize))) = true
    <-> blocks_of newsize <= n < blocks_of (fsize (b_view s) f)) as Hd by (intros n; rewrite andb_true_iff; lia).
  assert (forall a, ~ meta_byte (b_view s) a -> ~ f_direct f <= a < f_indirect f + 4 ->
    ~ (findirect (b_view s) f <> 0 /\ byte_of (findirect (b_view s) f) a) -> b_view s2 a = b_view s a) as Hrest.
  { intros a Ha1 Ha2. apply (tr_rest _ _ _ _ Ht); [done|flia]. }
  assert (forall v', (forall n, 0 <= n < MAXBLOCKS -> n < blocks_of newsize -> fblock v' f n = fblock (b_view s) f n) ->
    (forall a, ~ meta_byte (b_view s) a -> ~ f_direct f <= a < f_indirect f + 4 ->
      ~ (findirect (b_view s) f <> 0 /\ byte_of (findirect (b_view s) f) a) -> v' a = b_view s a) ->
    (forall q, 0 <= q < newsize -> fbyte v' f q = fbyte (b_view s) f q) /\ forall a, other (b_view s) f a -> v' a = b_view s a) as Hbytes.
  { intros v' Hb Hr. split.
    - intros q Hq. unfold fbyte. assert (0 <= q / BLKSIZE < MAXBLOCKS /\ q / BLKSIZE < blocks_of newsize) as [Hq1 Hq2]
        by (unfold blocks_of; slia). rewrite Hb by done.
      destruct (Z.eqb_spec (fblock (b_view s) f (q / BLKSIZE)) 0) as [|Hb0]; [done|].
      eapply kept_byte; [done|done|done|done| |]; [blia|]. intros a Ha1 Ha2. apply Hr; [done|flia].
    - intros a [Hp Ho']. apply Hr; [by apply plain_not_meta|intros Hx; apply Ho'; left; flia|].
      intros Hx. apply Ho'. by right; left. }
  destruct ((blocks_of newsize <=? NDIRECT) && negb (findirect (b_view s) f =? 0)) eqn:Hc; cbn [when].
  - apply andb_true_iff in Hc as [Hc1 Hc2]. assert (findirect (b_view s) f <> 0) as Hi by lia.
    destruct (load_indirect f s3 Hok3) as (s4 & E4 & Hv4 & _ & Hok4); [rewrite Hv3; apply Ht|]. exec_by E4.
    rewrite Hv3, (tr_ind _ _ _ _ Ht) in *. pose proof (tr_ok _ _ _ _ Ht) as Hf2.
    destruct (fo_ind _ _ Hf2) as [Hu2 Hb2]; [by rewrite (tr_ind _ _ _ _ Ht)|]. rewrite (tr_ind _ _ _ _ Ht) in Hu2, Hb2.
    destruct (free_clear_ok (f_indirect f) (findirect (b_view s) f) s4 Hok4) as (s5 & E5 & Hok5 & Hcl).
    { rewrite Hv4. apply Hu2. } { rewrite Hv4. apply (hdr_word _ _ Hf2 176). flia. }
    { intros i Hi'. rewrite (blk_byte (blk f)); [auto|]. replace (f_indirect f + i) with (f + (176 + i)) by flia.
      apply (hdr_byte _ _ Hf2). flia. }
    exists s5. split; [done|]. split; [done|]. rewrite Hv4 in Hcl.
    rewrite <-(tr_ind _ _ _ _ Ht) in Hcl, Hi. 
    destruct (clear_indirect _ _ f (bm_meta _ Hok2) Hf2 Hi Hcl) as (Hf5 & Hs5 & Hi5 & Hb5).
    rewrite (tr_ind _ _ _ _ Ht) in *.
    split; [|by rewrite Hs5, (tr_size _ _ _ _ Ht)].
    assert (forall n, 0 <= n < MAXBLOCKS -> n < blocks_of newsize -> fblock (b_view s5) f n = fblock (b_view s) f n) as Hkeep.
    { intros n Hn Hlt. rewrite Hb5, (tr_block _ _ _ _ Ht) by done. specialize (Hd n).
      destruct (Z.ltb_spec n NDIRECT); [|lia]. by destruct (_ && _); [lia|]. }
    destruct (Hbytes (b_view s5) Hkeep) as [Hby Hot].
    { intros a Ha1 Ha2 Ha3. rewrite (cl_rest _ _ _ _ Hcl); [by apply Hrest|by rewrite (meta_byte_eq _ _ _ (tr_nblocks _ _ _ _ Ht))|flia]. }
    split; [done|by rewrite (cl_nblocks _ _ _ _ Hcl), (tr_nblocks _ _ _ _ Ht)| | |done|done].
    + intros n Hn. split; [by apply Hkeep|]. intros Hn2. rewrite Hb5, (tr_block _ _ _ _ Ht) by done.
      apply Hd in Hn2. rewrite Hn2. by case_match.
    + intros c Hc0. rewrite (cleared_free _ _ _ _ Hcl), (tr_free _ _ _ _ Ht) by done. split.
      * intros [[?|(n & Hn & Hd' & ?)]| ->]; [by left|right; left; exists n; by rewrite <-Hd|]. right. right. split; [lia|done].
      * intros [?|[(n & Hn & ?)|(_ & _ & ->)]]; [by left; left|left; right|by right].
        exists n. rewrite Hd. split; [lia|done].
  - exists s3. split; [done|]. split; [done|]. rewrite Hv3. split; [|exact (tr_size _ _ _ _ Ht)].
    assert (forall n, 0 <= n < MAXBLOCKS -> n < blocks_of newsize -> fblock (b_view s2) f n = fblock (b_view s) f n) as Hkeep.
    { intros n Hn Hlt. rewrite (tr_block _ _ _ _ Ht) by done. specialize (Hd n). by destruct (_ && _); [lia|]. }
    destruct (Hbytes (b_view s2) Hkeep Hrest) as [Hby Hot].
    split; [exact (tr_ok _ _ _ _ Ht)|exact (tr_nblocks _ _ _ _ Ht)| | |done|done].
    + intros n Hn. split; [by apply Hkeep|]. intros Hn2. rewrite (tr_block _ _ _ _ Ht) by done. apply Hd in Hn2. by rewrite Hn2.
    + intros c Hc0. rewrite (tr_free _ _ _ _ Ht) by done. split.
      * intros [?|(n & Hn & Hd' & ?)]; [by left|]. right; left; exists n. by rewrite <-Hd.
      * intros [?|[(n & Hn & ?)|(? & ? & _)]]; [by left|right; exists n; rewrite Hd; split; [lia|done]|].
        apply andb_false_iff in Hc. destruct Hc as [?|?]; lia.
Qed.
End Truncate.

(** ** [file_set_size] *)

(** The size field changes, nothing else. *)
Record resized (f n : Z) (v v' : Z -> Z) : Prop := {
  rs_ok : file_ok v' f;
  rs_meta : meta_eq v v';
  rs_size : fsize v' f = n;
  rs_ind : findirect v' f = findirect v f;
  rs_block : forall m, 0 <= m < MAXBLOCKS -> fblock v' f m = fblock v f m;
  rs_byte : same_bytes f v v';
  rs_rest : forall a, ~ f_size f <= a <= f_size f + 3 -> v' a = v a;
  rs_other : forall a, other v f a -> other v' f a;
}.

Section SetSize.
Context {S : Type} `{BlockMem S}.
Implicit Types (s : S) (f n p : Z).

Lemma store_size_ok f n s : b_ok s -> file_ok (b_view s) f -> 0 <= n < 2147483648 ->
  exists s', b_store32 (f_size f) (u32 n) s = Ret tt s' /\ b_ok s' /\ resized f n (b_view s) (b_view s').
Proof.
  intros Hok Hf Hn. pose proof (bm_meta _ Hok) as Hm. rewrite u32_id by (unfold is_u32; lia).
  destruct (store32_plain s (f_size f) n Hok) as (s1 & E1 & Hv1 & _ & Hok1 & Hme).
  { apply (hdr_word _ _ Hf 128). flia. }
  exists s1. split; [done|]. split; [done|].
  assert (forall a, ~ f_size f <= a <= f_size f + 3 -> b_view s1 a = b_view s a) as Hrest.
  { intros a Ha. by rewrite Hv1, upd32_out. }
  assert (forall i, 136 <= i < 180 -> b_view s1 (f + i) = b_view s (f + i)) as Hsl by (intros i Hi; apply Hrest; flia).
  assert (findirect (b_view s) f <> 0 -> forall a, byte_of (findirect (b_view s) f) a -> b_view s1 a = b_view s a) as Hin.
  { intros Hi a Ha. apply Hrest. intros Hx. destruct (fo_ind _ _ Hf Hi) as [_ Hne].
    pose proof (hdr_byte _ _ Hf (a - f) ltac:(flia)). flia. }
  pose proof (layout_block _ _ _ Hsl Hin) as Hb.
  split; [by apply (layout_ok (b_view s))|done| |by apply layout_ind|done| |done|].
  - unfold fsize. rewrite Hv1, word_upd32_eq by (unfold is_u32; lia). apply s32_id. lia.
  - intros q Hq. unfold fbyte. rewrite Hb by slia.
    destruct (Z.eqb_spec (fblock (b_view s) f (q / BLKSIZE)) 0) as [|Hb0]; [done|].
    eapply kept_byte; [done|done| |exact Hb0|blia|]; [slia|]. intros a _ Ha _. apply Hrest. flia.
  - intros a. by apply layout_other.
Qed.

(** Growing only sets the size; shrinking gives the blocks back. *)
Lemma file_set_size_ok f n s : b_ok s -> file_ok (b_view s) f -> sized (b_view s) f -> 0 <= n < 2147483648 ->
  exists s', file_set_size f n s = Ret (inr tt) s' /\ b_ok s' /\ fsize (b_view s') f = n /\
  if n <? fsize (b_view s) f then shrunk f n (b_view s) (b_view s') else resized f n (b_view s) (b_view s').
Proof.
  intros Hok Hf Hsz Hn. unfold file_set_size.
  destruct (load_size_ok f s Hok Hf) as (s1 & E1 & Hv1 & _ & Hok1). exec_by E1.
  assert (forall s2, b_ok s2 -> file_ok (b_view s2) f -> exists s', (b_store32 (f_size f) (u32 n);; b_flush f;; mret (inr tt)) s2
    = Ret (inr tt : Z + unit) s' /\ b_ok s' /\ resized f n (b_view s2) (b_view s')) as Hlast.
  { intros s2 Hok2 Hf2. destruct (store_size_ok f n s2 Hok2 Hf2 Hn) as (s3 & E3 & Hok3 & Hr). exec_by E3.
    destruct (bm_flush s3 f Hok3) as (s4 & E4 & Hv4 & Hok4 & _).
    { destruct (fo_at _ _ Hf2) as [_ Hp]. specialize (Hp 0 ltac:(flia)). rewrite Z.add_0_r in Hp.
      by apply (in_use_range _ f (bm_meta _ Hok2)), Hp. }
    exec_by E4. exists s4. rewrite Hv4. done. }
  destruct (Z.ltb_spec n (fsize (b_view s) f)) as [Hlt|Hge]; cbn [when].
  - destruct (file_truncate_blocks_ok f n s1 Hok1) as (s2 & E2 & Hok2 & Hsh & _); [by rewrite Hv1..|rewrite Hv1; lia|].
    exec_by E2. rewrite Hv1 in Hsh. destruct (Hlast s2 Hok2 (sh_ok _ _ _ _ Hsh)) as (s3 & E3 & Hok3 & Hr).
    exists s3. split; [done|]. split; [done|]. split; [exact (rs_size _ _ _ _ Hr)|]. destruct Hsh as [H1' H2' H3' H4' H5' H6'].
    destruct Hr as [R1 R2 R3 R4 R5 R6 R7 R8]. split; [done|by rewrite (me_nblocks _ _ R2)| | | |].
    + intros m Hm. by rewrite R5 by done; apply H3'.
    + intros c Hc. by rewrite (me_used _ _ R2), H4'.
    + intros q Hq. unfold sized in Hsz. rewrite (R6 q) by slia. by apply H5'.
    + intros a Ha. rewrite R7; [by apply H6'|]. intros Hx. apply (proj2 Ha). left. flia.
  - exec. destruct (Hlast s1 Hok1) as (s3 & E3 & Hok3 & Hr); [by rewrite Hv1|]. rewrite Hv1 in Hr.
    exists s3. split; [done|]. split; [done|]. split; [exact (rs_size _ _ _ _ Hr)|done].
Qed.

(** ** [file_write] *)
Lemma file_write_ok f buf off s : b_ok s -> file_ok (b_view s) f -> sized (b_view s) f ->
  0 <= off -> off + zlen buf <= MAXFILESIZE ->
  exists r s', file_write f buf (zlen buf) off s = Ret r s' /\ b_ok s' /\ file_ok (b_view s') f /\
  fsize (b_view s') f = Z.max (fsize (b_view s) f) (off + zlen buf) /\
  (forall a, other (b_view s) f a -> b_view s' a = b_view s a) /\
  match r with
  | inr c => c = zlen buf /\ written f off buf (b_view s) (b_view s') /\ ~ hole (b_view s') f off (off + zlen buf)
  | inl e => e = - E_NO_DISK /\ full (b_view s') /\ exists k, written f off (take k buf) (b_view s) (b_view s')
  end.
Proof.
  intros Hok Hf Hsz Hoff Hmax. pose proof (zlen_nonneg buf). unfold sized in Hsz. unfold file_write, try_.
  destruct (load_size_ok f s Hok Hf) as (s1 & E1 & Hv1 & _ & Hok1). exec_by E1.
  assert (exists s2, (if u32 (fsize (b_view s) f) <? u32 (off + zlen buf) then file_set_size f (s32 (off + zlen buf))
        else mret (inr tt)) s1 = Ret (inr tt) s2 /\ b_ok s2 /\ file_ok (b_view s2) f /\
        fsize (b_view s2) f = Z.max (fsize (b_view s) f) (off + zlen buf) /\ same_bytes f (b_view s) (b_view s2) /\
        forall a, other (b_view s) f a -> b_view s2 a = b_view s a /\ other (b_view s2) f a) as (s2 & E2 & Hok2 & Hf2 & Hsz2 & Hsb2 & Hot2).
  { rewrite !u32_id by (unfold is_u32; slia). destruct (Z.ltb_spec (fsize (b_view s) f) (off + zlen buf)) as [Hlt|Hge].
    - rewrite s32_id by slia.
      destruct (file_set_size_ok f (off + zlen buf) s1 Hok1) as (s2 & E2 & Hok2 & Hs2 & Hr);
        [by rewrite Hv1|unfold sized; by rewrite Hv1|slia|].
      rewrite Hv1 in Hr. destruct (Z.ltb_spec (off + zlen buf) (fsize (b_view s) f)); [lia|].
      exists s2. split; [done|]. split; [done|]. split; [exact (rs_ok _ _ _ _ Hr)|].
      split; [rewrite Hs2; lia|]. split; [exact (rs_byte _ _ _ _ Hr)|].
      intros a Ha. split; [|by apply (rs_other _ _ _ _ Hr)]. apply (rs_rest _ _ _ _ Hr). intros Hx. apply (proj2 Ha). left. flia.
    - exists s1. rewrite Hv1. split; [done|]. split; [done|]. split; [done|]. split; [lia|]. done. }
  rewrite (bind_Ret _ _ _ _ _ E2).
  destruct (write_loop_ok f off (b_view s2) (zlen buf) (Datatypes.S (Z.to_nat (zlen buf))) off [] buf s2)
    as (r & s3 & E3 & Hok3 & Hg3 & Hr3); [done|by apply grown_refl|by apply written_nil|intros; lia|done| | |done| |].
  { unfold zlen. cbn. lia. } { unfold zlen at 2. cbn. lia. } { lia. }
  exists r, s3. split; [exact E3|]. split; [done|]. split; [exact (gr_ok _ _ _ Hg3)|]. split; [|split].
  - rewrite <-Hsz2. unfold fsize. by rewrite (gr_size _ _ _ Hg3).
  - intros a [Ha1 Ha2]%Hot2. rewrite (proj1 (gr_other _ _ _ Hg3 a Ha2)). done.
  - cbn in Hr3. assert (forall l, written f off l (b_view s2) (b_view s3) -> written f off l (b_view s) (b_view s3)) as Hw.
    { intros l Hw q Hq. rewrite (Hw q Hq). by rewrite (Hsb2 q Hq). }
    destruct r; [|by destruct Hr3 as (? & ? & ?); auto]. destruct Hr3 as (? & ? & k & ?). eauto.
Qed.
End SetSize.
