(* ===== verification/JDir.v ===== *)
(** * Directories and path names

    A directory is a file of [struct File]s.  [dir_entries] lists the addresses
    of its entries in the order the code looks at them; [dir_lookup] is [find]
    on that list, and [walk_path] the resolution of a path by [resolve].
    [file_create] makes a name that [file_open] then finds. *)
From S2P Require Import Prelude Bytes Mmu JBlock JBlockSpec JFs JFsSpec JFile JFileIO JFileTrunc.

(** ** Reference definitions *)

(** The string at [a] is [name]. *)
Fixpoint name_eqb (v : Z -> Z) (a : Z) (name : list Z) : bool :=
  match name with [] => v a =? 0 | x :: l => (v a =? x) && name_eqb v (a + 1) l end.
Definition dir_entries (v : Z -> Z) (d : Z) : list Z :=
  seqZ 0 (fsize v d / BLKSIZE) ≫= fun i =>
    (fun j => DISKMAP + fblock v d i * BLKSIZE + FILESZ * j) <$> seqZ 0 BLKFILES.
Definition lookup_name (v : Z -> Z) (d : Z) (name : list Z) : option Z :=
  List.find (fun a => name_eqb v a name) (dir_entries v d).

Fixpoint resolve_from (fuel : nat) (v : Z -> Z) (path : list Z) (dir f : Z) : walked :=
  match path, fuel with
  | [], _ => Walked 0 dir f None
  | _, O => Walked 0 dir f None
  | _, Datatypes.S fuel =>
      let name := (path_elem path).1 in
      let rest := skip_slash (path_elem path).2 in
      if MAXNAMELEN <=? zlen name then Walked (- E_BAD_PATH) 0 0 None else
      if negb (word v (f_type f) =? FTYPE_DIR) then Walked (- E_NOT_FOUND) 0 0 None else
      match lookup_name v f name with
      | Some g => resolve_from fuel v rest f g
      | None => if bool_decide (rest = []) then Walked (- E_NOT_FOUND) f 0 (Some name)
                else Walked (- E_NOT_FOUND) 0 0 None
      end
  end.
Definition resolve (v : Z -> Z) (path : list Z) : walked :=
  resolve_from (length (skip_slash path)) v (skip_slash path) 0 s_root.

(** A directory without holes; its size is a number of blocks. *)
Record dir_ok (v : Z -> Z) (d : Z) : Prop := {
  do_file : file_ok v d;
  do_size : sized v d;
  do_mult : fsize v d mod BLKSIZE = 0;
  do_blocks : forall n, 0 <= n < fsize v d / BLKSIZE -> fblock v d n <> 0;
}.
(** What can be reached from the root. *)
Inductive reach (v : Z -> Z) : Z -> Prop :=
| reach_root : reach v s_root
| reach_entry d f : reach v d -> word v (f_type d) = FTYPE_DIR -> f ∈ dir_entries v d -> reach v f.
Definition tree_ok (v : Z -> Z) : Prop :=
  file_at v s_root /\ forall d, reach v d -> word v (f_type d) = FTYPE_DIR -> dir_ok v d.
Definition cstring (l : list Z) : Prop := Forall (fun c => 0 < c < 256) l.

(** ** Lists *)
Fixpoint first_some {A B} (P : A -> option B) (l : list A) : option B :=
  match l with [] => None | x :: l => match P x with Some y => Some y | None => first_some P l end end.
Lemma first_some_bind {A B C} (P : B -> option C) (f : A -> list B) l :
  first_some (fun x => first_some P (f x)) l = first_some P (l ≫= f).
Proof.
  induction l as [|x l IH]; [done|]. cbn [first_some]. rewrite IH. cbn. generalize (f x). intros k.
  induction k as [|y k IHk]; [done|]. cbn. by destruct (P y).
Qed.
Lemma first_some_fmap {A B C} (P : B -> option C) (f : A -> B) l :
  first_some P (f <$> l) = first_some (fun x => P (f x)) l.
Proof. induction l as [|x l IH]; [done|]. cbn. by rewrite <-IH. Qed.
Lemma first_some_find {A B} (T : A -> bool) (g : A -> B) l :
  first_some (fun x => if T x then Some (g x) else None) l = g <$> List.find T l.
Proof. induction l as [|x l IH]; [done|]. cbn. by destruct (T x). Qed.
Lemma find_unique {A} (T : A -> bool) l a :
  a ∈ l -> T a = true -> (forall b, b ∈ l -> b = a \/ T b = false) -> List.find T l = Some a.
Proof.
  induction l as [|x l IH]; intros Ha HT Hu; [by apply elem_of_nil in Ha|]. cbn.
  destruct (T x) eqn:E.
  - destruct (Hu x) as [->|]; [left|done|congruence].
  - apply elem_of_cons in Ha as [->|Ha]; [congruence|]. apply IH; [done|done|]. intros b Hb. apply Hu. by right.
Qed.
Lemma find_some_in {A} (T : A -> bool) l a : List.find T l = Some a -> a ∈ l /\ T a = true.
Proof. intros [H1 H2]%List.find_some. split; [by apply list_elem_of_In|done]. Qed.
Lemma find_none_in {A} (T : A -> bool) l b : List.find T l = None -> b ∈ l -> T b = false.
Proof. intros H Hb. eapply List.find_none; [exact H|]. by apply list_elem_of_In. Qed.

(** ** Paths *)
Lemma path_elem_app p : (path_elem p).1 ++ (path_elem p).2 = p.
Proof.
  induction p as [|c p IH]; [done|]. cbn. destruct (c =? 47); [done|].
  destruct (path_elem p) as [e r]. cbn in *. by rewrite IH.
Qed.
Lemma skip_slash_len p : (length (skip_slash p) <= length p)%nat.
Proof. induction p as [|c p IH]; cbn; [done|]. destruct (c =? 47); cbn in *; lia. Qed.
Lemma skip_slash_cstring p : cstring p -> cstring (skip_slash p).
Proof. induction 1 as [|c p H Hp IH]; [by constructor|]. cbn. destruct (c =? 47); [done|by constructor]. Qed.
Lemma path_elem_cstring p : cstring p -> cstring (path_elem p).1 /\ cstring (path_elem p).2.
Proof. intros H. apply Forall_app. by rewrite path_elem_app. Qed.
Lemma skip_slash_head p c r : skip_slash p = c :: r -> c <> 47.
Proof. induction p as [|x p IH]; [done|]. cbn. destruct (Z.eqb_spec x 47); [done|]. by intros [= <- _]. Qed.
(** Each round consumes a byte: the path does not begin with a slash. *)
Lemma walk_step_len c p : c <> 47 -> (length (skip_slash (path_elem (c :: p)).2) <= length p)%nat.
Proof.
  intros Hc. cbn. destruct (Z.eqb_spec c 47); [done|]. destruct (path_elem p) as [e r] eqn:E. cbn.
  pose proof (path_elem_app p) as Hp. rewrite E in Hp. cbn in Hp. pose proof (skip_slash_len r).
  rewrite <-Hp, length_app. lia.
Qed.

(** ** Entries *)
Section Entries.
Context (v : Z -> Z) (d : Z).
Lemma dir_entries_elem a : a ∈ dir_entries v d <->
  exists n j, 0 <= n < fsize v d / BLKSIZE /\ 0 <= j < BLKFILES /\ a = DISKMAP + fblock v d n * BLKSIZE + FILESZ * j.
Proof.
  unfold dir_entries. rewrite list_elem_of_bind. split.
  - intros (n & (j & -> & Hj%elem_of_seqZ)%list_elem_of_fmap & Hn%elem_of_seqZ). exists n, j. lia.
  - intros (n & j & Hn & Hj & ->). exists n. rewrite list_elem_of_fmap. split; [|apply elem_of_seqZ; lia].
    exists j. split; [done|]. apply elem_of_seqZ. lia.
Qed.
Hypothesis Hm : meta_ok v.
Hypothesis Hd : dir_ok v d.
Lemma dir_nblocks_range : 0 <= fsize v d / BLKSIZE <= MAXBLOCKS.
Proof using Hd. pose proof (do_size _ _ Hd) as H. unfold sized in H. slia. Qed.
Lemma entry_block n : 0 <= n < fsize v d / BLKSIZE -> used v (fblock v d n) /\ fblock v d n <> blk d /\ fblock v d n <> findirect v d.
Proof using Hd.
  intros Hn. apply (fo_data _ _ (do_file _ _ Hd)); [|by apply (do_blocks _ _ Hd)]. pose proof dir_nblocks_range. lia.
Qed.
Lemma entry_plain a i : a ∈ dir_entries v d -> 0 <= i < FILESZ -> plain v (a + i).
Proof using Hd Hm.
  intros (n & j & Hn & Hj & ->)%dir_entries_elem Hi. eapply used_plain; [done|by apply entry_block|].
  unfold BLKFILES in Hj. flia.
Qed.
Lemma entry_at a : a ∈ dir_entries v d -> file_at v a.
Proof using Hd Hm.
  intros Ha. split; [|intros i Hi; by apply entry_plain].
  apply dir_entries_elem in Ha as (n & j & Hn & Hj & ->). unfold BLKFILES in Hj. flia.
Qed.
(** Different entries do not overlap. *)
Lemma entry_apart a b i : a ∈ dir_entries v d -> b ∈ dir_entries v d -> a <> b -> a <= i < a + FILESZ ->
  ~ b <= i < b + FILESZ.
Proof using Hd.
  intros (n & j & Hn & Hj & ->)%dir_entries_elem (m & k & Hm' & Hk & ->)%dir_entries_elem Hne Hi Hi'.
  pose proof dir_nblocks_range. unfold BLKFILES in *.
  assert (fblock v d n = fblock v d m) as E by flia.
  apply (fo_inj _ _ (do_file _ _ Hd)) in E; [|lia|lia|by apply (do_blocks _ _ Hd)]. subst. flia.
Qed.
End Entries.

Lemma hdr_plain_word v a i : file_at v a -> 0 <= i <= FILESZ - 4 -> plain_word v (a + i).
Proof.
  intros [H1 H2] Hi. split.
  - rewrite (blk_byte (blk a)) by flia. flia.
  - intros j Hj. rewrite <-Z.add_assoc. apply H2. flia.
Qed.

(** ** Searching *)
Section Scan.
Context {S : Type} `{BlockMem S}.
Implicit Types (s : S) (d a : Z) (name : list Z).

(** The memory is as before. *)
Definition seen (s s' : S) : Prop := b_view s' = b_view s /\ b_ok s'.
Lemma seen_refl s : b_ok s -> seen s s.
Proof. done. Qed.
Lemma seen_trans s1 s2 s3 : seen s1 s2 -> seen s2 s3 -> seen s1 s3.
Proof. intros [E1 _] [E2 ?]. split; [congruence|done]. Qed.
Lemma calm_seen s s' : calm s s' -> seen s s'.
Proof. by intros (?&_&?). Qed.

(** A loop whose body only looks. *)
Lemma for_until_seen {A B} (P : A -> option B) (body : A -> M S (option B)) l s : b_ok s ->
  (forall x s1, x ∈ l -> seen s s1 -> exists s2, body x s1 = Ret (P x) s2 /\ seen s s2) ->
  exists s', for_until l body s = Ret (first_some P l) s' /\ seen s s'.
Proof.
  intros Hok. enough (forall s1, seen s s1 ->
    (forall x s1, x ∈ l -> seen s s1 -> exists s2, body x s1 = Ret (P x) s2 /\ seen s s2) ->
    exists s', for_until l body s1 = Ret (first_some P l) s' /\ seen s s') as G
    by (intros Hb; apply G; [by apply seen_refl|done]).
  induction l as [|x l IH]; intros s1 Hc Hb; [by exists s1|]. cbn [for_until first_some].
  destruct (Hb x s1 ltac:(left) Hc) as (s2 & E2 & Hc2). exec_by E2. destruct (P x); [by exists s2|].
  apply IH; [done|]. intros y s3 Hy. apply Hb. by right.
Qed.

(** [strcmp] is 0 on equal strings. *)
Lemma strcmp_disk_ok a name s : b_ok s -> cstring name ->
  (forall i, 0 <= i <= zlen name -> plain (b_view s) (a + i)) ->
  exists r s', strcmp_disk a name s = Ret r s' /\ seen s s' /\ (r =? 0) = name_eqb (b_view s) a name.
Proof.
  revert a s. induction name as [|x name IH]; intros a s Hok Hn Hp; cbn [strcmp_disk name_eqb].
  - destruct (bm_load8 s a Hok) as (s1 & E1 & Hc1%calm_seen).
    { specialize (Hp 0). rewrite Z.add_0_r in Hp. apply Hp. unfold zlen. cbn. lia. }
    exec_by E1. by exists (b_view s a), s1.
  - rewrite zlen_cons in Hp. pose proof (zlen_nonneg name). apply Forall_cons in Hn as [Hx Hn].
    destruct (bm_load8 s a Hok) as (s1 & E1 & Hc1%calm_seen).
    { specialize (Hp 0). rewrite Z.add_0_r in Hp. apply Hp. lia. }
    exec_by E1. pose proof Hc1 as (Hv1 & Hok1).
    destruct (Z.eqb_spec (b_view s a) x) as [E|E].
    + destruct (Z.eqb_spec (b_view s a) 0); [lia|]. cbn [negb andb].
      destruct (IH (a + 1) s1 Hok1 Hn) as (r & s2 & E2 & Hc2 & Hr).
      { intros i Hi. rewrite Hv1. replace (a + 1 + i) with (a + (i + 1)) by lia. apply Hp. lia. }
      exists r, s2. split; [done|]. split; [by eapply seen_trans|]. by rewrite Hr, Hv1.
    + rewrite andb_false_r. exists (b_view s a - x), s1. split; [done|]. split; [done|].
      cbn. destruct (Z.eqb_spec (b_view s a - x) 0); [lia|done].
Qed.

(** The blocks of a directory are there. *)
Lemma dir_block_ok d i s : b_ok s -> dir_ok (b_view s) d -> 0 <= i < fsize (b_view s) d / BLKSIZE ->
  exists s', file_get_block d i s = Ret (inr (DISKMAP + fblock (b_view s) d i * BLKSIZE)) s' /\ seen s s'.
Proof.
  intros Hok Hd Hi. pose proof (do_blocks _ _ Hd i Hi) as Hb. pose proof (dir_nblocks_range _ _ Hd).
  destruct (file_get_block_ok d i s Hok (do_file _ _ Hd) ltac:(lia)) as (r & s' & E & (Hok' & _) & Hv & Hr).
  specialize (Hv Hb). exists s'. destruct r as [e|a].
  - destruct Hr as [(_ & ? & _)|(_ & _ & ? & _)]; [lia|done].
  - destruct Hr as (_ & _ & ->). rewrite E, Hv. by split.
Qed.

Lemma dir_scan_ok d (T : Z -> bool) (test : Z -> M S bool) s : b_ok s -> dir_ok (b_view s) d ->
  (forall a s1, a ∈ dir_entries (b_view s) d -> seen s s1 -> exists s2, test a s1 = Ret (T a) s2 /\ seen s s2) ->
  exists s', dir_scan d (fsize (b_view s) d / BLKSIZE) test s
    = Ret (inr <$> List.find T (dir_entries (b_view s) d)) s' /\ seen s s'.
Proof.
  intros Hok Hd Ht. unfold dir_scan, dir_entries.
  rewrite <-(first_some_find T), <-first_some_bind.
  apply for_until_seen; [done|]. intros i s1 Hi [Hv1 Hok1]. pose proof Hi as Hi'%elem_of_seqZ.
  destruct (dir_block_ok d i s1 Hok1) as (s2 & E2 & Hv2 & Hok2); [by rewrite Hv1|rewrite Hv1; lia|].
  exec_by E2. rewrite first_some_fmap. rewrite Hv1.
  destruct (for_until_seen (fun j => if T (DISKMAP + fblock (b_view s) d i * BLKSIZE + FILESZ * j)
      then Some (inr (DISKMAP + fblock (b_view s) d i * BLKSIZE + FILESZ * j) : Z + Z) else None)
    (fun j => t ← test (DISKMAP + fblock (b_view s) d i * BLKSIZE + FILESZ * j);
      mret (if (t : bool) then Some (inr (DISKMAP + fblock (b_view s) d i * BLKSIZE + FILESZ * j) : Z + Z) else None))
    (seqZ 0 BLKFILES) s2 Hok2) as (s3 & E3 & Hs3).
  - intros j s3 Hj%elem_of_seqZ [Hv3 Hok3]. destruct (Ht (DISKMAP + fblock (b_view s) d i * BLKSIZE + FILESZ * j) s3) as (s4 & E4 & Hv4 & Hok4).
    + apply dir_entries_elem. exists i, j. lia.
    + split; [congruence|done].
    + exec_by E4. exists s4. split; [done|]. split; [congruence|done].
  - exists s3. split; [exact E3|]. eapply seen_trans; [|exact Hs3]. split; [congruence|done].
Qed.

Lemma dir_nblock_ok d s : b_ok s -> dir_ok (b_view s) d ->
  exists s', dir_nblock d s = Ret (fsize (b_view s) d / BLKSIZE) s' /\ seen s s'.
Proof.
  intros Hok Hd. unfold dir_nblock. destruct (load_size_ok d s Hok (do_file _ _ Hd)) as (s1 & E1 & Hc1%calm_seen).
  exec_by E1. pose proof (do_size _ _ Hd) as Hs. unfold sized in Hs. pose proof (do_mult _ _ Hd) as Hmul.
  rewrite Z.rem_mod_nonneg, Z.quot_div_nonneg by (unfold BLKSIZE; lia). rewrite Hmul. cbn. exists s1.
  split; [|done]. exec. rewrite u32_id; [done|]. unfold is_u32. slia.
Qed.

(** [dir_lookup] finds the first entry of that name. *)
Lemma dir_lookup_ok d name s : b_ok s -> dir_ok (b_view s) d -> cstring name -> zlen name < MAXNAMELEN ->
  exists s', dir_lookup d name s
    = Ret (match lookup_name (b_view s) d name with Some a => inr a | None => inl (- E_NOT_FOUND) end) s' /\ seen s s'.
Proof.
  intros Hok Hd Hn Hl. unfold dir_lookup. destruct (dir_nblock_ok d s Hok Hd) as (s1 & E1 & Hs1). exec_by E1.
  destruct Hs1 as [Hv1 Hok1]. unfold lookup_name. rewrite <-Hv1.
  destruct (dir_scan_ok d (fun a => name_eqb (b_view s1) a name) (fun f => c ← strcmp_disk (f_name f) name; mret (c =? 0)) s1 Hok1)
    as (s2 & E2 & Hs2); [by rewrite Hv1| |].
  - intros a s2 Ha [Hv2 Hok2]. destruct (strcmp_disk_ok a name s2 Hok2 Hn) as (r & s3 & E3 & [Hv3 Hok3] & Hr).
    { intros i Hi. rewrite Hv2, Hv1 in *. unfold MAXNAMELEN in Hl. eapply entry_plain; [by apply bm_meta|exact Hd|done|flia]. }
    unfold f_name. exec_by E3. exists s3. rewrite <-Hv2, Hr. split; [done|]. split; [congruence|done].
  - exec_by E2. exists s2. split; [by destruct (List.find _ _)|]. by eapply seen_trans; [split; [exact Hv1|done]|].
Qed.
End Scan.

(** ** Resolving paths *)
Section Walk.
Context {S : Type} `{BlockMem S}.
Implicit Types (s : S) (d a f : Z) (name path : list Z).

Lemma reach_at v f : meta_ok v -> tree_ok v -> reach v f -> file_at v f.
Proof. intros Hm [Hr Ht] Hf. destruct Hf as [|d f Hd Hty Hin]; [done|]. apply (entry_at v d Hm); auto. Qed.

Lemma load_type f s : b_ok s -> file_at (b_view s) f ->
  exists s', b_load32 (f_type f) s = Ret (word (b_view s) (f_type f)) s' /\ seen s s'.
Proof.
  intros Hok Hf. destruct (load32_plain s (f_type f) Hok) as (s' & E & Hc%calm_seen); [|by exists s'].
  apply (hdr_plain_word _ _ 132 Hf). flia.
Qed.

Lemma walk_loop_ok fuel path dir f s : b_ok s -> tree_ok (b_view s) -> reach (b_view s) f -> cstring path ->
  (forall c p, path = c :: p -> c <> 47) -> (length path <= fuel)%nat ->
  exists s', walk_loop fuel path dir f s = Ret (resolve_from fuel (b_view s) path dir f) s' /\ seen s s'.
Proof.
  revert path dir f s. induction fuel as [|fuel IH]; intros path dir f s Hok Ht Hf Hp Hh Hlen;
    (destruct path as [|c path]; [by exists s|]); [cbn in Hlen; lia|].
  cbn [walk_loop resolve_from]. specialize (Hh c path eq_refl). pose proof (walk_step_len c path Hh) as Hstep.
  destruct (path_elem_cstring _ Hp) as [Hc1 Hc2]. cbn [length] in Hlen.
  destruct (path_elem (c :: path)) as [name rest]. cbn [fst snd] in *.
  destruct (Z.leb_spec MAXNAMELEN (zlen name)) as [|Hshort]; [by exists s|].
  destruct (load_type f s Hok) as (s1 & E1 & Hv1 & Hok1); [by apply reach_at; [apply bm_meta|..]|]. exec_by E1.
  destruct (Z.eqb_spec (word (b_view s) (f_type f)) FTYPE_DIR) as [Hty|Hty]; cbn [negb]; [|by exists s1].
  assert (dir_ok (b_view s) f) as Hd by (by apply Ht).
  destruct (dir_lookup_ok f name s1 Hok1) as (s2 & E2 & Hs2); [by rewrite Hv1|done|done|]. exec_by E2.
  rewrite Hv1 in *. assert (seen s s2) as Hs by (eapply seen_trans; [by split|done]).
  destruct (lookup_name (b_view s) f name) as [g|] eqn:Hg.
  - destruct Hs as [Hv2 Hok2]. rewrite <-Hv2. destruct (IH (skip_slash rest) f g s2 Hok2) as (s3 & E3 & Hs3).
    + by rewrite Hv2.
    + rewrite Hv2. eapply reach_entry; [exact Hf|done|]. by apply find_some_in in Hg as [? _].
    + by apply skip_slash_cstring.
    + intros c' p' E. by eapply skip_slash_head.
    + lia.
    + exists s3. rewrite Hv2 in *. split; [done|]. eapply seen_trans; [by split|done].
  - exists s2. rewrite Z.eqb_refl. cbn [andb]. split; [|done]. by case_bool_decide.
Qed.

Lemma walk_path_ok path s : b_ok s -> tree_ok (b_view s) -> cstring path ->
  exists s', walk_path path s = Ret (resolve (b_view s) path) s' /\ seen s s'.
Proof.
  intros Hok Ht Hp. apply walk_loop_ok; [done|done|constructor|by apply skip_slash_cstring| |done].
  intros c p E. by eapply skip_slash_head.
Qed.
Lemma file_open_ok path s : b_ok s -> tree_ok (b_view s) -> cstring path ->
  exists s', file_open path s = Ret (let w := resolve (b_view s) path in
    if w_ret w <? 0 then inl (w_ret w) else inr (w_file w)) s' /\ seen s s'.
Proof.
  intros Hok Ht Hp. unfold file_open. destruct (walk_path_ok path s Hok Ht Hp) as (s' & E & Hs). exec_by E. by exists s'.
Qed.
End Walk.
