(* ===== verification/JDirMake.v ===== *)
(** * Creating files

    [dir_alloc_file] finds a free entry or grows the directory by a cleared
    block; [file_create] names it, so that the path can be opened from then on
    and the other names of the directory resolve as before.  Paths of one
    element are considered here: they live in the root directory. *)
From S2P Require Import Prelude Bytes Mmu JBlock JBlockSpec JFs JFsSpec JFile JFileIO JFileTrunc JDir.

(** ** Entries by position *)
Section Position.
Context (v : Z -> Z) (d : Z).
Hypothesis Hd : dir_ok v d.

Definition entry_pos (n j : Z) : Z := n * BLKSIZE + FILESZ * j.
(** The entry at [pos]: its bytes are the directory's from there. *)
Lemma entry_position a : a ∈ dir_entries v d -> exists pos, 0 <= pos /\ pos mod FILESZ = 0 /\
  pos + FILESZ <= fsize v d /\ pos / BLKSIZE < fsize v d / BLKSIZE /\
  pos mod BLKSIZE + FILESZ <= BLKSIZE /\
  a = DISKMAP + fblock v d (pos / BLKSIZE) * BLKSIZE + pos mod BLKSIZE /\
  forall i, 0 <= i < FILESZ -> v (a + i) = fbyte v d (pos + i).
Proof using Hd.
  intros (n & j & Hn & Hj & ->)%dir_entries_elem. pose proof (dir_nblocks_range _ _ Hd). unfold BLKFILES in Hj.
  pose proof (do_mult _ _ Hd) as Hmul.
  assert (entry_pos n j / BLKSIZE = n) as En by (unfold entry_pos; flia).
  exists (entry_pos n j). rewrite En. split; [unfold entry_pos; flia|]. split; [unfold entry_pos; flia|].
  split; [unfold entry_pos; flia|]. split; [lia|]. split; [unfold entry_pos; flia|].
  split; [unfold entry_pos; flia|]. intros i Hi. unfold fbyte.
  assert ((entry_pos n j + i) / BLKSIZE = n) as -> by (unfold entry_pos; flia).
  destruct (Z.eqb_spec (fblock v d n) 0) as [E|_]; [by apply (do_blocks _ _ Hd) in E|].
  f_equal. unfold entry_pos. flia.
Qed.
Lemma entry_of_position pos : 0 <= pos -> pos mod FILESZ = 0 -> pos / BLKSIZE < fsize v d / BLKSIZE ->
  DISKMAP + fblock v d (pos / BLKSIZE) * BLKSIZE + pos mod BLKSIZE ∈ dir_entries v d.
Proof.
  intros Hp Hmod Hlt. apply dir_entries_elem. exists (pos / BLKSIZE), (pos mod BLKSIZE / FILESZ).
  unfold BLKFILES. flia.
Qed.
End Position.

Lemma name_eqb_ext v v' a name : (forall i, 0 <= i <= zlen name -> v' (a + i) = v (a + i)) ->
  name_eqb v' a name = name_eqb v a name.
Proof.
  revert a. induction name as [|x name IH]; intros a Hv; cbn.
  - specialize (Hv 0). rewrite Z.add_0_r in Hv. rewrite Hv; [done|unfold zlen; cbn; lia].
  - rewrite zlen_cons in Hv. pose proof (zlen_nonneg name). rewrite IH.
    + specialize (Hv 0). rewrite Z.add_0_r in Hv. by rewrite Hv by lia.
    + intros i Hi. replace (a + 1 + i) with (a + (i + 1)) by lia. apply Hv. lia.
Qed.
(** A string at [a] is only one string. *)
Lemma name_eqb_spec v a name : cstring name -> (forall i, 0 <= i <= zlen name -> Some (v (a + i)) = zget (name ++ [0]) i) ->
  forall name', cstring name' -> name_eqb v a name' = bool_decide (name = name').
Proof.
  revert a. induction name as [|x name IH]; intros a Hn Hv name' Hn'.
  - specialize (Hv 0). rewrite Z.add_0_r in Hv. unfold zlen in Hv. cbn in Hv. specialize (Hv ltac:(lia)).
    injection Hv as Hv. destruct name' as [|y name']; cbn; rewrite Hv; [done|].
    apply Forall_cons in Hn' as [? _]. destruct (Z.eqb_spec 0 y); [lia|done].
  - apply Forall_cons in Hn as [Hx Hn]. rewrite zlen_cons in Hv. pose proof (zlen_nonneg name).
    pose proof (Hv 0 ltac:(lia)) as H0. rewrite Z.add_0_r in H0. cbn in H0. injection H0 as H0.
    destruct name' as [|y name']; cbn; rewrite H0.
    + destruct (Z.eqb_spec x 0); [lia|done].
    + apply Forall_cons in Hn' as [Hy Hn']. destruct (Z.eqb_spec x y) as [->|Hne]; cbn.
      * rewrite (IH (a + 1) Hn) by (done || (intros i Hi; replace (a + 1 + i) with (a + (i + 1)) by lia;
          rewrite Hv by lia; cbn; rewrite zget_cons; case_decide; [lia|f_equal; lia])).
        destruct (decide (name = name')) as [->|]; [by rewrite !bool_decide_true|].
        rewrite !bool_decide_false; [done|congruence|done].
      * rewrite bool_decide_false; [done|congruence].
Qed.
Lemma find_ext {A} (T T' : A -> bool) l : (forall b, b ∈ l -> T b = T' b) -> List.find T l = List.find T' l.
Proof.
  induction l as [|x l IH]; intros Hl; [done|]. cbn. rewrite (Hl x) by left. rewrite IH; [done|].
  intros b Hb. apply Hl. by right.
Qed.
Lemma bind_ext_in {A B} (f g : A -> list B) l : (forall x, x ∈ l -> f x = g x) -> l ≫= f = l ≫= g.
Proof.
  induction l as [|x l IH]; intros Hl; [done|]. cbn. rewrite (Hl x) by left. f_equal. apply IH. intros y Hy. apply Hl. by right.
Qed.
Lemma find_list_app {A} (T : A -> bool) l l' :
  List.find T (l ++ l') = match List.find T l with Some a => Some a | None => List.find T l' end.
Proof. induction l as [|x l IH]; [done|]. cbn. by destruct (T x). Qed.
Lemma find_all_false {A} (T : A -> bool) l : (forall b, b ∈ l -> T b = false) -> List.find T l = None.
Proof.
  induction l as [|x l IH]; intros Hl; [done|]. cbn. rewrite (Hl x) by left. apply IH. intros b Hb. apply Hl. by right.
Qed.

(** ** [dir_alloc_file] *)

(** Entry [a] of [d] is free; the other entries are as before or all zero. *)
Record new_entry (v v' : Z -> Z) (d a : Z) : Prop := {
  ne_ok : dir_ok v' d;
  ne_in : a ∈ dir_entries v' d;
  ne_free : v' a = 0;
  ne_type : word v' (f_type d) = word v (f_type d);
  ne_old : exists l, dir_entries v' d = dir_entries v d ++ l /\
    (forall b i, b ∈ dir_entries v d -> 0 <= i < FILESZ -> v' (b + i) = v (b + i)) /\
    forall b i, b ∈ l -> 0 <= i < FILESZ -> v' (b + i) = 0;
  ne_other : forall x, other v d x -> v' x = v x /\ other v' d x;
}.

Lemma type_word v v' d : file_ok v d -> (forall x, other v d x -> v' x = v x) -> word v' (f_type d) = word v (f_type d).
Proof.
  intros Hf Ho. apply word_ext. intros i Hi. replace (f_type d + i) with (d + (132 + i)) by flia.
  apply Ho. apply hdr_other; [done|lia].
Qed.

Section Make.
Context {S : Type} `{BlockMem S}.
Implicit Types (s : S) (d a f : Z) (name path : list Z).

(** A directory gets a block more. *)
Lemma grow_dir v v1 v2 d n : dir_ok v d -> n = fsize v d / BLKSIZE -> fsize v d + BLKSIZE <= MAXFILESIZE ->
  fblock v d n = 0 -> resized d (fsize v d + BLKSIZE) v v1 -> grown d v1 v2 -> same_bytes d v1 v2 -> fblock v2 d n <> 0 ->
  new_entry v v2 d (DISKMAP + fblock v2 d n * BLKSIZE).
Proof.
  intros Hd -> Hmax Hhole Hr Hg Hsb Hnew. set (n := fsize v d / BLKSIZE) in *.
  pose proof (do_mult _ _ Hd) as Hmul. pose proof (do_size _ _ Hd) as Hsz. unfold sized in Hsz.
  assert (fsize v2 d = fsize v d + BLKSIZE) as Es
    by (rewrite <-(rs_size _ _ _ _ Hr); unfold fsize; by rewrite (gr_size _ _ _ Hg)).
  assert (fsize v2 d / BLKSIZE = n + 1) as En by (rewrite Es; unfold n; slia).
  assert (0 <= n < MAXBLOCKS) as Hn by (unfold n; slia).
  assert (forall m, 0 <= m < n -> fblock v2 d m = fblock v d m) as Eb.
  { intros m Hm. assert (0 <= m < MAXBLOCKS) as Hm' by lia. rewrite (gr_block _ _ _ Hg), (rs_block _ _ _ _ Hr); [done|done|done|].
    rewrite (rs_block _ _ _ _ Hr) by done. by apply (do_blocks _ _ Hd). }
  assert (forall q, 0 <= q < MAXFILESIZE -> fbyte v2 d q = fbyte v d q) as Eq
    by (intros q Hq; rewrite (Hsb q Hq); by apply (rs_byte _ _ _ _ Hr)).
  assert (dir_ok v2 d) as Hd2.
  { split; [exact (gr_ok _ _ _ Hg)|unfold sized; rewrite Es; slia|rewrite Es; slia|].
    rewrite En. intros m Hm. destruct (decide (m = n)) as [->|]; [done|]. rewrite Eb by lia. apply (do_blocks _ _ Hd). lia. }
  set (l := (fun j => DISKMAP + fblock v2 d n * BLKSIZE + FILESZ * j) <$> seqZ 0 BLKFILES).
  assert (dir_entries v2 d = dir_entries v d ++ l) as El.
  { unfold dir_entries. rewrite En, seqZ_app, bind_app by lia. f_equal.
    apply bind_ext_in. intros m Hm%elem_of_seqZ. by rewrite Eb by lia. }
  split; [done| | | | |].
  - apply dir_entries_elem. exists n, 0. rewrite En. unfold BLKFILES. flia.
  - pose proof (Eq (n * BLKSIZE) ltac:(slia)) as E0. unfold fbyte in E0.
    assert (n * BLKSIZE / BLKSIZE = n) as Edn by flia. rewrite Edn, Hhole in E0. cbn in E0.
    destruct (Z.eqb_spec (fblock v2 d n) 0); [done|]. rewrite <-E0. f_equal. flia.
  - apply type_word; [apply Hd|]. intros x Hx. rewrite (proj1 (gr_other _ _ _ Hg x (rs_other _ _ _ _ Hr x Hx))).
    apply (rs_rest _ _ _ _ Hr). intros Hy. apply (proj2 Hx). left. flia.
  - exists l. split; [done|]. split.
    + intros b i Hb Hi. assert (b ∈ dir_entries v2 d) as Hb2 by (rewrite El; apply elem_of_app; by left).
      destruct (entry_position _ _ Hd b Hb) as (pos & H1 & H2 & H3 & H4 & H5 & H6 & H7).
      rewrite (H7 i Hi). rewrite <-Eq by slia. unfold fbyte.
      assert ((pos + i) / BLKSIZE = pos / BLKSIZE) as -> by flia. fold n in H4. rewrite Eb by flia.
      destruct (Z.eqb_spec (fblock v d (pos / BLKSIZE)) 0) as [E0|_]; [by apply (do_blocks _ _ Hd) in E0; [|fold n; flia]|].
      f_equal. rewrite H6. flia.
    + intros b i (j & -> & Hj%elem_of_seqZ)%list_elem_of_fmap Hi. unfold BLKFILES in Hj.
      pose proof (Eq (n * BLKSIZE + FILESZ * j + i) ltac:(slia)) as E0. unfold fbyte in E0.
      assert ((n * BLKSIZE + FILESZ * j + i) / BLKSIZE = n) as Edn by flia. rewrite Edn, Hhole in E0. cbn in E0.
      destruct (Z.eqb_spec (fblock v2 d n) 0); [done|]. rewrite <-E0. f_equal. flia.
  - intros x Hx. destruct (gr_other _ _ _ Hg x (rs_other _ _ _ _ Hr x Hx)) as [E ?]. split; [|done]. rewrite E.
    apply (rs_rest _ _ _ _ Hr). intros Hy. apply (proj2 Hx). left. flia.
Qed.

Lemma seen_entry v d a : dir_ok v d -> a ∈ dir_entries v d -> v a = 0 -> new_entry v v d a.
Proof.
  intros Hd Ha H0'. split; try done. exists []. rewrite app_nil_r. split; [done|]. split; [done|].
  by intros b i Hb%elem_of_nil.
Qed.

Lemma dir_alloc_file_ok d s : b_ok s -> dir_ok (b_view s) d -> fsize (b_view s) d + BLKSIZE <= MAXFILESIZE ->
  fblock (b_view s) d (fsize (b_view s) d / BLKSIZE) = 0 ->
  exists r s', dir_alloc_file d s = Ret r s' /\ b_ok s' /\
  match r with
  | inr a => new_entry (b_view s) (b_view s') d a
  | inl e => e = - E_NO_DISK /\ full (b_view s') /\ fsize (b_view s') d = fsize (b_view s) d + BLKSIZE
  end.
Proof.
  intros Hok Hd Hmax Hhole. unfold dir_alloc_file.
  pose proof (do_size _ _ Hd) as Hsz. unfold sized in Hsz.
  destruct (dir_nblock_ok d s Hok Hd) as (s1 & E1 & Hv1 & Hok1). exec_by E1.
  destruct (dir_scan_ok d (fun a => b_view s a =? 0) (fun f => c ← b_load8 (f_name f); mret (c =? 0)) s1 Hok1)
    as (s2 & E2 & Hv2 & Hok2); [by rewrite Hv1| |].
  { intros a s2 Ha [Hv2 Hok2]. unfold f_name. destruct (bm_load8 s2 a Hok2) as (s3 & E3 & Hs3%calm_seen).
    - rewrite Hv2, Hv1 in *. pose proof (entry_plain _ _ (bm_meta _ Hok) Hd a 0 Ha ltac:(flia)) as Hp.
      rewrite Z.add_0_r in Hp. apply Hp.
    - exec_by E3. exists s3. rewrite Hv2, Hv1. split; [done|]. eapply seen_trans; [split; [exact Hv2|done]|done]. }
  rewrite Hv1 in E2. exec_by E2. rewrite Hv1 in Hv2.
  destruct (List.find _ _) as [a|] eqn:Hfind; cbn.
  { apply find_some_in in Hfind as [Ha Hz]. exists (inr a), s2. split; [done|]. split; [done|]. rewrite Hv2.
    apply seen_entry; [done|done|lia]. }
  assert (file_ok (b_view s2) d) as Hf2 by (rewrite Hv2; apply Hd).
  destruct (load_size_ok d s2 Hok2 Hf2) as (s3 & E3 & Hv3 & _ & Hok3). exec_by E3. rewrite Hv2 in *.
  destruct (store_size_ok d (fsize (b_view s) d + BLKSIZE) s3 Hok3) as (s4 & E4 & Hok4 & Hr); [by rewrite Hv3|slia|].
  exec_by E4. rewrite Hv3 in Hr. pose proof (rs_ok _ _ _ _ Hr) as Hf4.
  destruct (file_get_block_ok d (fsize (b_view s) d / BLKSIZE) s4 Hok4 Hf4) as (r & s5 & E5 & (Hok5 & Hg5 & Hsb5) & _ & Hr5); [slia|].
  unfold try_. exec_by E5. destruct r as [e|blk].
  - exists (inl e), s5. split; [done|]. split; [done|]. destruct Hr5 as [(_ & ? & _)|(-> & _ & _ & ?)]; [slia|].
    split; [done|]. split; [done|]. rewrite <-(rs_size _ _ _ _ Hr). unfold fsize. by rewrite (gr_size _ _ _ Hg5).
  - destruct Hr5 as (_ & Hnew & ->). eexists (inr _), s5. split; [done|]. split; [done|]. by eapply grow_dir.
Qed.

(** ** [file_flush] only writes to the disk *)
Lemma for_each_seen {A} (l : list A) (body : A -> M S unit) s : b_ok s ->
  (forall x s1, x ∈ l -> seen s s1 -> exists s2, body x s1 = Ret tt s2 /\ seen s1 s2) ->
  exists s', for_each l body s = Ret tt s' /\ seen s s'.
Proof.
  intros Hok Hb. enough (forall s1, seen s s1 -> exists s', for_each l body s1 = Ret tt s' /\ seen s s') as G
    by (apply G; by apply seen_refl).
  induction l as [|x l IH]; intros s1 Hs; [by exists s1|]. cbn [for_each].
  destruct (Hb x s1 ltac:(left) Hs) as (s2 & E2 & Hs2). exec_by E2.
  apply IH; [|by eapply seen_trans]. intros y s3 Hy. apply Hb. by right.
Qed.
Lemma flush_used b s : b_ok s -> used (b_view s) b ->
  exists s', (a ← b_diskaddr b; b_flush a) s = Ret tt s' /\ seen s s'.
Proof.
  intros Hok [[Hb1 Hb2] _]. pose proof (bm_meta _ Hok) as Hm. pose proof (nbitmap_range _ Hm). pose proof (mt_size _ Hm).
  exec_by (bm_diskaddr s b Hok ltac:(lia)).
  destruct (bm_flush s (DISKMAP + b * BLKSIZE) Hok) as (s' & E & Hv & Hok' & _); [blia|]. by exists s'.
Qed.
Lemma file_flush_ok f s : b_ok s -> file_ok (b_view s) f -> sized (b_view s) f ->
  exists s', file_flush f s = Ret tt s' /\ seen s s'.
Proof.
  intros Hok Hf Hsz. unfold sized in Hsz. unfold file_flush.
  destruct (load_size_ok f s Hok Hf) as (s1 & E1 & Hv1 & _ & Hok1). exec_by E1.
  rewrite Z.quot_div_nonneg by (unfold BLKSIZE; lia).
  destruct (for_each_seen (seqZ 0 ((fsize (b_view s) f + BLKSIZE - 1) / BLKSIZE)) (fun i =>
    r ← file_block_walk f i false;
    match r with
    | inl _ => mret tt
    | inr p => b ← b_load32 p; if b =? 0 then mret tt else a ← b_diskaddr b; b_flush a
    end) s1 Hok1) as (s2 & E2 & Hv2 & Hok2).
  { intros i s2 Hi%elem_of_seqZ [Hv2 Hok2]. assert (file_ok (b_view s2) f) as Hf2 by (by rewrite Hv2, Hv1).
    destruct (file_block_walk_ok f i false s2 Hok2 Hf2 ltac:(lia)) as (r & s3 & E3 & (Hok3 & _) & Hr). exec_by E3.
    destruct r as [e|p].
    - exists s3. split; [done|]. split; [|done]. by destruct Hr as [(_&_&?&_)|(_&?&_)].
    - destruct Hr as (Hlt & Hs & -> & Hv3). specialize (Hv3 (or_introl eq_refl)). rewrite Hv3 in *.
      destruct (load32_plain s3 (slot_of (b_view s2) f i) Hok3) as (s4 & E4 & Hv4 & _ & Hok4).
      { rewrite Hv3. apply slot_word; [by apply bm_meta|done|done]. }
      exec_by E4. rewrite Hv3 in *. rewrite <-fblock_slot by done.
      destruct (Z.eqb_spec (fblock (b_view s2) f i) 0) as [|Hb].
      + exists s4. split; [done|]. by split.
      + destruct (flush_used (fblock (b_view s2) f i) s4 Hok4) as (s5 & E5 & Hv5 & Hok5).
        { rewrite Hv4. apply (fo_data _ _ Hf2); [lia|done]. }
        exists s5. split; [done|]. split; [congruence|done]. }
  exec_by E2. rewrite Hv1 in Hv2.
  destruct (bm_flush s2 f Hok2) as (s3 & E3 & Hv3 & Hok3 & _).
  { destruct (fo_at _ _ Hf) as [_ Hp]. specialize (Hp 0 ltac:(flia)). rewrite Z.add_0_r in Hp.
    by apply (in_use_range _ f (bm_meta _ Hok)), Hp. }
  exec_by E3. rewrite Hv2 in Hv3.
  destruct (load_indirect f s3 Hok3) as (s4 & E4 & Hv4 & _ & Hok4); [by rewrite Hv3|]. exec_by E4. rewrite Hv3 in *.
  destruct (Z.eqb_spec (findirect (b_view s) f) 0) as [|Hi]; cbn [negb when]; [by exists s4|].
  destruct (load_indirect f s4 Hok4) as (s5 & E5 & Hv5 & _ & Hok5); [by rewrite Hv4|]. exec_by E5. rewrite Hv4 in *.
  destruct (flush_used (findirect (b_view s) f) s5 Hok5) as (s6 & E6 & Hv6 & Hok6).
  { rewrite Hv5. by apply (fo_ind _ _ Hf). }
  exists s6. split; [done|]. split; [congruence|done].
Qed.
End Make.

(** ** Naming the entry *)
Section Named.
Context (v v1 v2 : Z -> Z) (d a : Z) (name : list Z).
Hypothesis Hd : dir_ok v d.
Hypothesis Hm1 : meta_ok v1.
Hypothesis Hnew : new_entry v v1 d a.
Hypothesis Hme : meta_eq v1 v2.
Hypothesis Hname : cstring name.
Hypothesis Hlen : zlen name < MAXNAMELEN.
Hypothesis Hv : forall i, v2 i = match zget (name ++ [0]) (i - a) with Some x => u8 x | None => v1 i end.

Lemma named_grown : grown d v1 v2.
Proof using Hnew Hm1 Hme Hv Hlen.
  pose proof (ne_ok _ _ _ _ Hnew) as Hd1.
  destruct (entry_position _ _ Hd1 a (ne_in _ _ _ _ Hnew)) as (pos & H1 & H2 & H3 & H4 & H5 & H6 & _).
  pose proof (dir_nblocks_range _ _ Hd1). pose proof (zlen_nonneg name).
  apply (dstore_grown v1 v2 d pos (name ++ [0])); try done; [apply Hd1| |lia| |].
  - rewrite zlen_snoc. unfold MAXNAMELEN in Hlen. flia.
  - apply (do_blocks _ _ Hd1). flia.
  - by rewrite <-H6.
Qed.
Lemma named_size : fsize v2 d = fsize v1 d.
Proof using Hnew Hm1 Hme Hv Hlen. unfold fsize. by rewrite (gr_size _ _ _ named_grown). Qed.
Lemma named_block n : 0 <= n < fsize v1 d / BLKSIZE -> fblock v2 d n = fblock v1 d n.
Proof using Hnew Hm1 Hme Hv Hlen.
  intros Hn. pose proof (ne_ok _ _ _ _ Hnew) as Hd1. pose proof (dir_nblocks_range _ _ Hd1).
  apply (gr_block _ _ _ named_grown); [lia|]. by apply (do_blocks _ _ Hd1).
Qed.
Lemma named_dir : dir_ok v2 d.
Proof using Hnew Hm1 Hme Hv Hlen.
  pose proof (ne_ok _ _ _ _ Hnew) as Hd1. split.
  - exact (gr_ok _ _ _ named_grown).
  - unfold sized. rewrite named_size. exact (do_size _ _ Hd1).
  - rewrite named_size. exact (do_mult _ _ Hd1).
  - rewrite named_size. intros n Hn. rewrite named_block by done. by apply (do_blocks _ _ Hd1).
Qed.
Lemma named_entries : dir_entries v2 d = dir_entries v1 d.
Proof using Hnew Hm1 Hme Hv Hlen.
  unfold dir_entries. rewrite named_size. apply bind_ext_in. intros n Hn%elem_of_seqZ. by rewrite named_block by lia.
Qed.
Lemma named_byte b i : b ∈ dir_entries v1 d -> b <> a -> 0 <= i < FILESZ -> v2 (b + i) = v1 (b + i).
Proof using Hnew Hv Hlen.
  intros Hb Hne Hi. rewrite Hv, zget_none; [done|]. rewrite zlen_snoc. intros Hr.
  apply (entry_apart v1 d (ne_ok _ _ _ _ Hnew) b a (b + i) Hb (ne_in _ _ _ _ Hnew) Hne); unfold MAXNAMELEN in Hlen; flia.
Qed.
Lemma named_at name' : cstring name' -> name_eqb v2 a name' = bool_decide (name = name').
Proof using Hname Hv.
  apply name_eqb_spec; [done|]. intros i Hi. rewrite Hv. replace (a + i - a) with i by lia.
  destruct (zget_in_range (name ++ [0]) i) as [x Hx]; [rewrite zlen_snoc; lia|]. rewrite Hx. f_equal.
  apply zget_elem in Hx. apply elem_of_app in Hx as [Hx|Hx%list_elem_of_singleton].
  - assert (0 < x < 256) by (by apply (proj1 (Forall_forall _ name) Hname)). unfold u8. zlia.
  - by subst.
Qed.
(** Of the other names, every entry says what it said before. *)
Lemma named_other b name' : b ∈ dir_entries v2 d -> b <> a -> zlen name' < MAXNAMELEN ->
  name_eqb v2 b name' = name_eqb v1 b name'.
Proof using Hnew Hm1 Hme Hv Hlen.
  rewrite named_entries. intros Hb Hne Hl. apply name_eqb_ext. intros i Hi. apply named_byte; [done|done|].
  unfold MAXNAMELEN in Hl. flia.
Qed.
Lemma nonempty_zero v' b name' : v' b = 0 -> cstring name' -> name' <> [] -> name_eqb v' b name' = false.
Proof.
  intros Hb Hn Hne. destruct name' as [|y name']; [done|]. apply Forall_cons in Hn as [Hy _]. cbn. rewrite Hb.
  destruct (Z.eqb_spec 0 y); [lia|done].
Qed.
Lemma old_names b name' : b ∈ dir_entries v1 d -> cstring name' -> name' <> [] -> zlen name' < MAXNAMELEN ->
  (b ∈ dir_entries v d /\ name_eqb v1 b name' = name_eqb v b name') \/ name_eqb v1 b name' = false.
Proof using Hnew.
  intros Hb Hc Hne Hl. destruct (ne_old _ _ _ _ Hnew) as (l & El & Hold & Hz). rewrite El in Hb.
  apply elem_of_app in Hb as [Hb|Hb].
  - left. split; [done|]. apply name_eqb_ext. intros i Hi. apply Hold; [done|]. unfold MAXNAMELEN in Hl. flia.
  - right. apply nonempty_zero; [|done|done]. specialize (Hz b 0 Hb ltac:(flia)). by rewrite Z.add_0_r in Hz.
Qed.

Lemma named_lookup : name <> [] -> lookup_name v d name = None -> lookup_name v2 d name = Some a.
Proof using Hnew Hm1 Hme Hv Hlen Hname.
  intros Hne Hnone. apply find_unique.
  - rewrite named_entries. exact (ne_in _ _ _ _ Hnew).
  - rewrite named_at by done. by rewrite bool_decide_true.
  - intros b Hb. destruct (decide (b = a)) as [|Hba]; [by left|right].
    rewrite named_other by done. rewrite named_entries in Hb.
    destruct (old_names b name Hb Hname Hne Hlen) as [[Hin ->]|]; [|done].
    by apply (find_none_in _ _ _ Hnone).
Qed.
Lemma named_lookup_other name' : cstring name' -> name' <> [] -> zlen name' < MAXNAMELEN -> name' <> name ->
  lookup_name v2 d name' = lookup_name v d name'.
Proof using Hnew Hm1 Hme Hv Hlen Hname.
  intros Hc Hne Hl Hdiff. unfold lookup_name. rewrite named_entries.
  destruct (ne_old _ _ _ _ Hnew) as (l & El & Hold & Hz).
  assert (forall b, b ∈ dir_entries v1 d -> name_eqb v2 b name' = if decide (b = a) then false else name_eqb v1 b name') as HT.
  { intros b Hb. case_decide as E; [|by apply named_other; [rewrite named_entries|..]].
    subst. rewrite named_at by done. by rewrite bool_decide_false. }
  rewrite El, find_list_app. rewrite (find_ext _ (fun b => name_eqb v b name') (dir_entries v d)).
  - destruct (List.find _ _); [done|]. apply find_all_false. intros b Hb. rewrite HT by (rewrite El; apply elem_of_app; by right).
    case_decide; [done|]. apply nonempty_zero; [|done|done]. specialize (Hz b 0 Hb ltac:(flia)). by rewrite Z.add_0_r in Hz.
  - intros b Hb. rewrite HT by (rewrite El; apply elem_of_app; by left). case_decide as E.
    + symmetry. apply nonempty_zero; [|done|done]. pose proof (Hold b 0 Hb ltac:(flia)) as H0. rewrite Z.add_0_r in H0.
      rewrite <-H0, E. exact (ne_free _ _ _ _ Hnew).
    + apply name_eqb_ext. intros i Hi. apply Hold; [done|]. unfold MAXNAMELEN in Hl. flia.
Qed.
End Named.

(** ** [file_create] *)
Section Create.
Context {S : Type} `{BlockMem S}.
Implicit Types (s : S) (d a f : Z) (name path : list Z).

(** A path of one element: [name], with slashes before and after it. *)
Definition one_elem path name : Prop :=
  cstring path /\ skip_slash path <> [] /\ (path_elem (skip_slash path)).1 = name /\
  skip_slash (path_elem (skip_slash path)).2 = [] /\ zlen name < MAXNAMELEN.
Definition root_dir (v : Z -> Z) : Prop := dir_ok v s_root /\ word v (f_type s_root) = FTYPE_DIR.

Lemma one_elem_name path name : one_elem path name -> cstring name /\ name <> [].
Proof.
  intros (Hc & Hne & <- & _). split; [by apply path_elem_cstring, skip_slash_cstring|].
  destruct (skip_slash path) as [|c p] eqn:E; [done|]. apply skip_slash_head in E. cbn.
  destruct (Z.eqb_spec c 47); [done|]. by destruct (path_elem p).
Qed.
Lemma walk_one path name s : b_ok s -> root_dir (b_view s) -> one_elem path name ->
  exists s', walk_path path s = Ret (match lookup_name (b_view s) s_root name with
    | Some g => Walked 0 s_root g None | None => Walked (- E_NOT_FOUND) s_root 0 (Some name) end) s' /\ seen s s'.
Proof.
  intros Hok [Hd Hty] Hone. destruct (one_elem_name _ _ Hone) as [Hcn _].
  destruct Hone as (Hc & Hne & Hname & Hrest & Hl). unfold walk_path.
  destruct (skip_slash path) as [|c p]; [done|]. cbn [length walk_loop].
  destruct (path_elem (c :: p)) as [nm rest]. cbn [fst snd] in *. subst nm.
  destruct (Z.leb_spec MAXNAMELEN (zlen name)); [lia|]. rewrite Hrest.
  destruct (load_type s_root s Hok (fo_at _ _ (do_file _ _ Hd))) as (s1 & E1 & Hv1 & Hok1). exec_by E1.
  rewrite Hty. cbn [Z.eqb FTYPE_DIR Pos.eqb negb].
  destruct (dir_lookup_ok s_root name s1 Hok1) as (s2 & E2 & Hv2 & Hok2); [by rewrite Hv1|done|done|]. exec_by E2.
  rewrite Hv1 in *. exists s2. split; [|by split]. destruct (lookup_name (b_view s) s_root name); [|done].
  by destruct (length p).
Qed.

Lemma file_create_ok path name s : b_ok s -> root_dir (b_view s) -> one_elem path name ->
  fsize (b_view s) s_root + BLKSIZE <= MAXFILESIZE ->
  fblock (b_view s) s_root (fsize (b_view s) s_root / BLKSIZE) = 0 ->
  exists r s', file_create path s = Ret r s' /\ b_ok s' /\
  match lookup_name (b_view s) s_root name, r with
  | Some _, inl e => e = - E_FILE_EXISTS /\ b_view s' = b_view s
  | Some _, inr _ => False
  | None, inl e => e = - E_NO_DISK /\ full (b_view s')
  | None, inr a => root_dir (b_view s') /\ lookup_name (b_view s') s_root name = Some a /\
      forall name', cstring name' -> name' <> [] -> zlen name' < MAXNAMELEN -> name' <> name ->
        lookup_name (b_view s') s_root name' = lookup_name (b_view s) s_root name'
  end.
Proof.
  intros Hok Hroot Hone Hmax Hhole. destruct (one_elem_name _ _ Hone) as [Hcn Hne]. pose proof Hroot as [Hd Hty].
  assert (zlen name < MAXNAMELEN) as Hl by apply Hone. unfold file_create.
  destruct (walk_one path name s Hok Hroot Hone) as (s1 & E1 & Hv1 & Hok1). exec_by E1.
  destruct (lookup_name (b_view s) s_root name) as [g|] eqn:Hlook; cbn [w_ret w_dir w_last].
  { exists (inl (- E_FILE_EXISTS)), s1. done. }
  change (- E_NOT_FOUND =? 0) with false. change (- E_NOT_FOUND =? - E_NOT_FOUND) with true.
  change (s_root =? 0) with false. cbn [negb orb]. unfold try_.
  destruct (dir_alloc_file_ok s_root s1 Hok1) as (r & s2 & E2 & Hok2 & Hr); [by rewrite Hv1..|]. exec_by E2.
  rewrite Hv1 in Hr. destruct r as [e|a].
  { destruct Hr as (-> & Hfull & _). exists (inl (- E_NO_DISK)), s2. done. }
  cbn [deref]. exec. pose proof (bm_meta _ Hok2) as Hm2. pose proof (zlen_nonneg name).
  destruct (store_bytes_ok s2 a (name ++ [0]) Hok2) as (s3 & E3 & Hok3 & Hme & Hv3).
  { intros i Hi. rewrite zlen_snoc in Hi. unfold MAXNAMELEN in Hl.
    apply (entry_plain _ _ Hm2 (ne_ok _ _ _ _ Hr) a i (ne_in _ _ _ _ Hr)). flia. }
  unfold f_name. exec_by E3.
  pose proof (named_dir _ _ _ _ _ _ Hm2 Hr Hme Hl Hv3) as Hd3.
  destruct (file_flush_ok s_root s3 Hok3 (do_file _ _ Hd3) (do_size _ _ Hd3)) as (s4 & E4 & Hv4 & Hok4). exec_by E4.
  exists (inr a), s4. split; [done|]. split; [done|]. rewrite Hv4. split; [split; [done|]|split].
  - rewrite (type_word (b_view s2)), (ne_type _ _ _ _ Hr); [done|apply Hr|].
    intros x Hx. by apply (gr_other _ _ _ (named_grown _ _ _ _ _ _ Hm2 Hr Hme Hl Hv3)).
  - by eapply named_lookup.
  - intros name' Hc' Hn' Hl' Hdiff. eapply (named_lookup_other (b_view s) (b_view s2)); [exact Hm2|exact Hr|exact Hme|exact Hcn|exact Hl|exact Hv3|done..].
Qed.
End Create.
