(* ===== verification/JFsThm.v ===== *)
(** * What the file server promises

    The properties of the block cache, the allocator, files and directories, and
    for each a run of it on a small disk whose root directory holds one empty
    file. *)
From S2P Require Import Prelude Bytes Mmu JBlock JBlockSpec JFs JFsSpec JFile JFileIO JFileTrunc JDir JDirMake.

(** ** The cache as flat memory *)

Inductive bop := OLoad8 (va : Z) | OLoad32 (va : Z) | OStore8 (va x : Z) | OStore32 (va x : Z) | OFlush (va : Z).
Definition run_op (o : bop) : M bcst Z :=
  match o with
  | OLoad8 va => load8 va
  | OLoad32 va => load32 va
  | OStore8 va x => store8 va x;; mret 0
  | OStore32 va x => store32 va x;; mret 0
  | OFlush va => flush_block va;; mret 0
  end.
Fixpoint run_ops (l : list bop) : M bcst (list Z) :=
  match l with [] => mret [] | o :: l => r ← run_op o; rs ← run_ops l; mret (r :: rs) end.

(** The abstract file server memory: what loads see, and what the disk holds. *)
Record flat := Flat { fl_mem : Z -> Z; fl_disk : Z -> Z }.
Definition flat_op (o : bop) (m : flat) : Z * flat :=
  match o with
  | OLoad8 va => (fl_mem m va, m)
  | OLoad32 va => (word (fl_mem m) va, m)
  | OStore8 va x => (0, Flat (upd8 (fl_mem m) va x) (fl_disk m))
  | OStore32 va x => (0, Flat (upd32 (fl_mem m) va x) (fl_disk m))
  | OFlush va => (0, Flat (fl_mem m) (fun i => if decide (byte_of (blk va) i) then fl_mem m i else fl_disk m i))
  end.
Fixpoint flat_ops (l : list bop) (m : flat) : list Z * flat :=
  match l with
  | [] => ([], m)
  | o :: l => let '(r, m) := flat_op o m in let '(rs, m) := flat_ops l m in (r :: rs, m)
  end.
(** Accesses to blocks in use; stores outside the meta data. *)
Definition legal_op (v : Z -> Z) (o : bop) : Prop :=
  match o with
  | OLoad8 va => in_use v (blk va)
  | OLoad32 va => in_use v (blk va) /\ word_of (blk va) va
  | OStore8 va _ => plain v va
  | OStore32 va _ => plain_word v va
  | OFlush va => DISKMAP <= va < DISKMAP + DISKSIZE
  end.

Lemma legal_le v v' o : meta_le v v' -> legal_op v o -> legal_op v' o.
Proof.
  intros Hle. destruct o; cbn; [by apply in_use_le| |by apply plain_le|by apply plain_word_le|done].
  intros [? ?]. split; [by eapply in_use_le|done].
Qed.
(** A cache that shows [m]. *)
Definition shows (s : bcst) (m : flat) : Prop :=
  good s /\ view s = fl_mem m /\ forall i, disk_byte s i = fl_disk m i.

Lemma flat_op_ok o s m : shows s m -> legal_op (view s) o ->
  exists s', run_op o s = Ret (flat_op o m).1 s' /\ shows s' (flat_op o m).2 /\ meta_le (view s) (view s').
Proof.
  intros (Hg & Hv & Hd) Hl. assert (b_ok s) as Hok by exact Hg. destruct o as [va|va|va x|va x|va]; cbn in Hl |- *; rewrite <-Hv.
  - destruct (bm_load8 s va Hok Hl) as (s' & E & Hv' & Hd' & Hg'). cbn in *. exists s'. rewrite Hv'.
    split; [done|]. split; [split; [done|split; [congruence|by rewrite Hd']]|apply meta_le_refl].
  - destruct (bm_load32 s va Hok (proj1 Hl) (proj2 Hl)) as (s' & E & Hv' & Hd' & Hg'). cbn in *. exists s'. rewrite Hv'.
    split; [done|]. split; [split; [done|split; [congruence|by rewrite Hd']]|apply meta_le_refl].
  - destruct (store8_plain s va x Hok Hl) as (s' & E & Hv' & Hd' & Hg' & Hme). cbn in *. exists s'. exec_by E.
    split; [done|]. split; [split; [done|split; [done|by rewrite Hd']]|by apply meta_eq_le].
  - destruct (store32_plain s va x Hok Hl) as (s' & E & Hv' & Hd' & Hg' & Hme). cbn in *. exists s'. exec_by E.
    split; [done|]. split; [split; [done|split; [done|by rewrite Hd']]|by apply meta_eq_le].
  - destruct (bm_flush s va Hok Hl) as (s' & E & Hv' & Hg' & Hd'). cbn in *. exists s'. exec_by E. rewrite Hv'.
    split; [done|]. split; [|apply meta_le_refl]. split; [done|]. split; [exact Hv'|]. intros i. cbn.
    rewrite Hd'. by case_decide.
Qed.

Section Ops.
(** C22. The block cache behaves as flat memory over the disk: from start-up on a
    sound disk, any sequence of loads, stores and flushes returns what flat
    memory returns, faults and all, and never panics; and the disk holds what
    was flushed and nothing else, so that this is what the cache shows after
    the next boot. *)
Theorem block_cache_refines_memory (d : gmap Z Z) (l : list bop) :
  meta_ok (view (boot_bc d)) -> word (view (boot_bc d)) s_magic = FS_MAGIC ->
  Forall (legal_op (view (boot_bc d))) l ->
  let m := flat_ops l (Flat (view (boot_bc d)) (view (boot_bc d))) in
  exists s s', fs_init (boot_bc d) = Ret tt s /\ run_ops l s = Ret m.1 s' /\
    view s' = fl_mem m.2 /\ (forall i, view (boot_bc (disk s')) i = fl_disk m.2 i).
Proof.
  intros Hm Hmag Hl. destruct (fs_init_ok d Hm Hmag) as (s & E & Hg & Hv & Hd).
  assert (forall d i, view (boot_bc d) i = disk_byte (boot_bc d) i) as Hboot.
  { intros d' i. unfold view. cbn. by rewrite decide_False by apply not_elem_of_empty. }
  enough (forall m s, shows s m -> Forall (legal_op (view s)) l -> exists s', run_ops l s = Ret (flat_ops l m).1 s' /\ shows s' (flat_ops l m).2) as G.
  { destruct (G (Flat (view (boot_bc d)) (view (boot_bc d))) s) as (s' & E' & _ & Hv' & Hd').
    - split; [done|]. split; [done|]. intros i. cbn. rewrite Hboot. unfold disk_byte. by rewrite Hd.
    - by rewrite Hv.
    - exists s, s'. split; [done|]. split; [done|]. split; [done|]. intros i. rewrite Hboot. apply Hd'. }
  clear. induction l as [|o l IH]; intros m s Hs Hl; [by exists s|].
  apply Forall_cons in Hl as [Ho Hl]. destruct (flat_op_ok o s m Hs Ho) as (s1 & E1 & Hs1 & Hle).
  cbn [run_ops flat_ops]. exec_by E1. destruct (flat_op o m) as [r m1]. cbn in *.
  destruct (IH m1 s1 Hs1) as (s2 & E2 & Hs2).
  { eapply Forall_impl; [exact Hl|]. intros o'. by apply legal_le. }
  exec_by E2. destruct (flat_ops l m1) as [rs m2]. by exists s2.
Qed.
End Ops.

(** ** Other files *)

(** [g] shares nothing with [f]. *)
Definition apart (v : Z -> Z) (f g : Z) : Prop := file_ok v g /\ forall a, owned v g a -> other v f a.
Definition same_file (v v' : Z -> Z) (g : Z) : Prop :=
  fsize v' g = fsize v g /\ same_bytes g v v'.
Lemma apart_same v v' f g : apart v f g -> (forall a, other v f a -> v' a = v a) -> same_file v v' g.
Proof.
  intros [Hg Ho] Hv. assert (forall a, owned v g a -> v' a = v a) as Hown by auto. split.
  - unfold fsize. f_equal. apply word_ext. intros i Hi. apply Hown. left. flia.
  - assert (forall i, 136 <= i < 180 -> v' (g + i) = v (g + i)) as Hs by (intros i Hi; apply Hown; left; flia).
    intros q Hq. unfold fbyte. rewrite (layout_block v v' g Hs) by ((intros Hi a Ha; apply Hown; right; by left) || flia).
    destruct (Z.eqb_spec (fblock v g (q / BLKSIZE)) 0); [done|]. apply Hown. right. right.
    exists (q / BLKSIZE). split; [flia|]. split; [done|]. blia.
Qed.

(** ** The properties *)
Section Claims.
Context {S : Type} `{BlockMem S}.
Implicit Types (s : S) (f : Z).

(** [alloc_block] takes the first free block, marks it in use, touches no
    other bit and writes the bitmap block out at once; it fails exactly when no
    block is free; and [free_block] undoes it. *)
Theorem alloc_block_takes_first_free s : b_ok s ->
  exists r s', alloc_block s = Ret r s' /\ b_ok s' /\
  match r with
  | inl e => e = - E_NO_DISK /\ b_view s' = b_view s /\ b_disk s' = b_disk s /\ full (b_view s)
  | inr b => allocated (b_view s) (b_view s') b /\
      (forall i, b_disk s' i = if decide (byte_of (blk (bit_word b)) i) then b_view s' i else b_disk s i) /\
      exists s'', free_block b s' = Ret tt s'' /\ b_ok s'' /\
        forall c, 0 <= c -> is_free (b_view s'') c = is_free (b_view s) c
  end.
Proof.
  intros Hok. destruct (alloc_block_ok s Hok) as (r & s' & E & Hok' & Hr). exists r, s'. split; [done|]. split; [done|].
  destruct r as [e|b]; [by destruct Hr as (?&(?&?&?)&?)|]. destruct Hr as [Ha Hd]. split; [done|]. split; [done|].
  destruct (free_block_ok s' b Hok') as (s'' & E'' & Hok'' & _ & Hu & _).
  { unfold data. rewrite (nbitmap_eq _ _ (al_nblocks _ _ _ Ha)), (al_nblocks _ _ _ Ha). apply Ha. }
  exists s''. split; [done|]. split; [done|]. intros c Hc. rewrite Hu, (al_used _ _ _ Ha) by done.
  case_decide; [subst; symmetry; apply Ha|done].
Qed.

(** [file_get_block] returns the address of the block, allocating it -- and
    the indirect block -- if the file has a hole there: every byte of the file
    is as before, also when the disk is full; blocks it had stay where they
    are, and no other file changes.  Past the largest file it fails with
    [-E_INVAL] and touches nothing. *)
Theorem file_get_block_fills_holes f n s : b_ok s -> file_ok (b_view s) f -> 0 <= n ->
  exists r s', file_get_block f n s = Ret r s' /\ b_ok s' /\ file_ok (b_view s') f /\
  same_bytes f (b_view s) (b_view s') /\ fsize (b_view s') f = fsize (b_view s) f /\
  (forall m, 0 <= m < MAXBLOCKS -> fblock (b_view s) f m <> 0 -> fblock (b_view s') f m = fblock (b_view s) f m) /\
  (forall g, apart (b_view s) f g -> same_file (b_view s) (b_view s') g) /\
  match r with
  | inr a => n < MAXBLOCKS /\ fblock (b_view s') f n <> 0 /\ a = DISKMAP + fblock (b_view s') f n * BLKSIZE
  | inl e => (e = - E_INVAL /\ MAXBLOCKS <= n /\ b_view s' = b_view s) \/
      (e = - E_NO_DISK /\ n < MAXBLOCKS /\ fblock (b_view s) f n = 0 /\ full (b_view s'))
  end.
Proof.
  intros Hok Hf Hn. destruct (file_get_block_ok f n s Hok Hf Hn) as (r & s' & E & (Hok' & Hg & Hsb) & _ & Hr).
  exists r, s'. split; [done|]. split; [done|]. split; [exact (gr_ok _ _ _ Hg)|]. split; [done|].
  split; [unfold fsize; by rewrite (gr_size _ _ _ Hg)|]. split; [exact (gr_block _ _ _ Hg)|]. split.
  - intros g Ha. eapply apart_same; [exact Ha|]. intros a Ho. by apply (gr_other _ _ _ Hg).
  - destruct r; [|done]. destruct Hr as [(?&?&Hc)|?]; [left|by right]. split; [done|]. split; [done|]. apply Hc.
Qed.

Lemma write_then_read f buf off s : b_ok s -> file_ok (b_view s) f -> sized (b_view s) f ->
  Forall (fun x => 0 <= x < 256) buf -> 0 <= off -> off + zlen buf <= MAXFILESIZE ->
  exists r s', file_write f buf (zlen buf) off s = Ret r s' /\ b_ok s' /\ file_ok (b_view s') f /\
  fsize (b_view s') f = Z.max (fsize (b_view s) f) (off + zlen buf) /\
  (forall g, apart (b_view s) f g -> same_file (b_view s) (b_view s') g) /\
  match r with
  | inl e => e = - E_NO_DISK /\ full (b_view s') /\ exists k, written f off (take k buf) (b_view s) (b_view s')
  | inr c => c = zlen buf /\ written f off buf (b_view s) (b_view s') /\
      exists s'', file_read f (zlen buf) off s' = Ret (inr (zlen buf, buf)) s''
  end.
Proof.
  intros Hok Hf Hsz Hbuf Hoff Hmax. pose proof (zlen_nonneg buf).
  destruct (file_write_ok f buf off s Hok Hf Hsz Hoff Hmax) as (r & s' & E & Hok' & Hf' & Hs' & Ho & Hr).
  exists r, s'. split; [done|]. split; [done|]. split; [done|]. split; [done|].
  split; [intros g Ha; by eapply apart_same|]. destruct r as [e|c]; [done|].
  destruct Hr as (-> & Hw & Hnh). split; [done|]. split; [done|]. unfold sized in Hsz.
  destruct (file_read_ok f (zlen buf) off s' Hok' Hf') as (r & s'' & E'' & _ & Hr);
    [unfold sized; rewrite Hs'; slia|slia|unfold is_u32; slia|].
  assert (Z.max 0 (Z.min (zlen buf) (fsize (b_view s') f - off)) = zlen buf) as En by (rewrite Hs'; lia).
  rewrite En in Hr. exists s''. rewrite E''. f_equal. destruct r as [e|[c l]].
  - by destruct Hr as (_ & Hh & _).
  - destruct Hr as [-> ->]. f_equal. f_equal. apply zget_ext.
    + unfold zlen. rewrite length_fmap, length_seqZ. lia.
    + intros i Hi. unfold zlen in Hi at 1. rewrite length_fmap, length_seqZ in Hi.
      assert (zget (fbyte (b_view s') f <$> seqZ off (zlen buf)) i = Some (fbyte (b_view s') f (off + i))) as ->.
      { unfold zget. destruct (Z.leb_spec 0 i); [|lia]. rewrite list_lookup_fmap, lookup_seqZ_lt by lia. cbn. do 2 f_equal. lia. }
      rewrite (Hw (off + i)) by slia. replace (off + i - off) with i by lia.
      destruct (zget_in_range buf i) as [x Hx]; [lia|]. rewrite Hx. f_equal.
      apply zget_elem in Hx. assert (0 <= x < 256) by (by apply (proj1 (Forall_forall _ buf) Hbuf)). unfold u8. zlia.
Qed.
(** What [file_write] wrote is what [file_read] reads: the file grows if need
    be, the bytes around are kept, no other file changes, and the read back
    returns the buffer.  A write that meets a full disk fails with
    [-E_NO_DISK] and leaves a prefix written. *)
Theorem file_write_read_back f buf off s : b_ok s -> file_ok (b_view s) f -> sized (b_view s) f ->
  Forall (fun x => 0 <= x < 256) buf -> 0 <= off -> off + zlen buf <= MAXFILESIZE ->
  exists r s', file_write f buf (zlen buf) off s = Ret r s' /\ b_ok s' /\ file_ok (b_view s') f /\
  fsize (b_view s') f = Z.max (fsize (b_view s) f) (off + zlen buf) /\
  (forall g, apart (b_view s) f g -> same_file (b_view s) (b_view s') g) /\
  match r with
  | inl e => e = - E_NO_DISK /\ full (b_view s') /\ exists k, written f off (take k buf) (b_view s) (b_view s')
  | inr c => c = zlen buf /\ written f off buf (b_view s) (b_view s') /\
      exists s'', file_read f (zlen buf) off s' = Ret (inr (zlen buf, buf)) s''
  end.
Proof. apply write_then_read. Qed.

(** C23. [file_set_size] to a smaller size frees exactly the blocks past the new
    end, and the indirect block when no slot of it is left; every byte before
    the new end, and every other file, is as before.  To a larger size it
    changes the size only. *)
Theorem file_set_size_frees_the_tail f n s : b_ok s -> file_ok (b_view s) f -> sized (b_view s) f -> 0 <= n < 2147483648 ->
  exists s', file_set_size f n s = Ret (inr tt) s' /\ b_ok s' /\ file_ok (b_view s') f /\ fsize (b_view s') f = n /\
  (forall g, apart (b_view s) f g -> same_file (b_view s) (b_view s') g) /\
  (forall q, 0 <= q < Z.min n MAXFILESIZE -> fbyte (b_view s') f q = fbyte (b_view s) f q) /\
  if n <? fsize (b_view s) f then shrunk f n (b_view s) (b_view s')
  else forall c, 0 <= c -> is_free (b_view s') c = is_free (b_view s) c.
Proof.
  intros Hok Hf Hsz Hn. destruct (file_set_size_ok f n s Hok Hf Hsz Hn) as (s' & E & Hok' & Hs' & Hr).
  exists s'. split; [done|]. split; [done|]. destruct (Z.ltb_spec n (fsize (b_view s) f)).
  - split; [exact (sh_ok _ _ _ _ Hr)|]. split; [done|]. split; [|split; [|done]].
    + intros g Ha. eapply apart_same; [exact Ha|]. exact (sh_other _ _ _ _ Hr).
    + intros q Hq. apply (sh_byte _ _ _ _ Hr). lia.
  - split; [exact (rs_ok _ _ _ _ Hr)|]. split; [done|]. split; [|split].
    + intros g Ha. eapply apart_same; [exact Ha|]. intros a Ho. apply (rs_rest _ _ _ _ Hr). intros Hx.
      apply (proj2 Ho). left. flia.
    + intros q Hq. apply (rs_byte _ _ _ _ Hr). slia.
    + apply (rs_meta _ _ _ _ Hr).
Qed.

(** [file_create] of a name in the root directory: the path opens the new
    file from then on and every other name resolves as before; a name that
    exists is refused with [-E_FILE_EXISTS] and nothing changes; otherwise only
    a full disk makes it fail. *)
Theorem file_create_then_open path name s : b_ok s -> root_dir (b_view s) -> one_elem path name ->
  fsize (b_view s) s_root + BLKSIZE <= MAXFILESIZE ->
  fblock (b_view s) s_root (fsize (b_view s) s_root / BLKSIZE) = 0 ->
  exists r s', file_create path s = Ret r s' /\
  match lookup_name (b_view s) s_root name, r with
  | Some _, r => r = inl (- E_FILE_EXISTS) /\ b_view s' = b_view s
  | None, inl e => e = - E_NO_DISK /\ full (b_view s')
  | None, inr a => (exists s'', file_open path s' = Ret (inr a) s'') /\
      forall name', cstring name' -> name' <> [] -> zlen name' < MAXNAMELEN -> name' <> name ->
        lookup_name (b_view s') s_root name' = lookup_name (b_view s) s_root name'
  end.
Proof.
  intros Hok Hroot Hone Hmax Hhole.
  destruct (file_create_ok path name s Hok Hroot Hone Hmax Hhole) as (r & s' & E & Hok' & Hr).
  exists r, s'. split; [done|]. destruct (lookup_name (b_view s) s_root name).
  { destruct r; [|done]. by destruct Hr as [-> ?]. }
  destruct r as [e|a]; [done|]. destruct Hr as (Hroot' & Hl & Ho). split; [|done].
  destruct (walk_one path name s' Hok' Hroot' Hone) as (s'' & E'' & _). exists s''.
  unfold file_open. exec_by E''. by rewrite Hl.
Qed.

(** [file_open] resolves a path as [resolve] does, element by element through
    the first entry of each name, whatever the number of slashes; it ends,
    returns the error of the first element that fails, and changes nothing. *)
Theorem file_open_resolves path s : b_ok s -> tree_ok (b_view s) -> cstring path ->
  exists s', file_open path s = Ret (if w_ret (resolve (b_view s) path) <? 0 then inl (w_ret (resolve (b_view s) path))
                                     else inr (w_file (resolve (b_view s) path))) s' /\
    b_view s' = b_view s /\ b_ok s'.
Proof. intros Hok Ht Hp. destruct (file_open_ok path s Hok Ht Hp) as (s' & E & ? & ?). by exists s'. Qed.
End Claims.

(** ** A small disk

    Eight blocks: the super block, the bitmap, and in block 3 the root
    directory, whose first entry is an empty file named a. *)
Definition put32 (m : gmap Z Z) (a x : Z) : gmap Z Z :=
  wrw (wrw (wrw (wrw m a (u8 x)) (a + 1) (u8 (x / 256))) (a + 2) (u8 (x / 65536))) (a + 3) (u8 (x / 16777216)).
Definition disk0 : gmap Z Z :=
  let m := put32 ∅ 4096 FS_MAGIC in
  let m := put32 m 4100 8 in                     (* s_nblocks *)
  let m := put32 m (4104 + 128) 4096 in          (* s_root.f_size *)
  let m := put32 m (4104 + 132) FTYPE_DIR in
  let m := put32 m (4104 + 136) 3 in             (* its only block *)
  let m := put32 m 8192 240 in                   (* blocks 4 to 7 are free *)
  put32 m (3 * 4096) 97.
Definition v0 : Z -> Z := view (boot_bc disk0).
Definition file_a : Z := DISKMAP + 3 * BLKSIZE.
(** The cache after start-up, the super block loaded. *)
Definition s0 : bcst := with_flags (loaded (boot_bc disk0) 1) true true.

Lemma v0_nblocks : nblocks v0 = 8.
Proof. vm_compute. reflexivity. Qed.
Lemma v0_free b : 0 <= b -> is_free v0 b = (4 <=? b) && (b <? 8).
Proof.
  intros Hb. unfold is_free. rewrite v0_nblocks. destruct (Z.ltb_spec b 8); [|by rewrite andb_false_r].
  assert (b = 0 \/ b = 1 \/ b = 2 \/ b = 3 \/ b = 4 \/ b = 5 \/ b = 6 \/ b = 7) as Hc by lia.
  repeat (destruct Hc as [->|Hc]; [vm_compute; reflexivity|]). subst. vm_compute. reflexivity.
Qed.
Lemma v0_meta : meta_ok v0.
Proof.
  split; [rewrite v0_nblocks; blia|]. intros b Hb. unfold nbitmap in Hb. rewrite v0_nblocks in Hb.
  rewrite v0_free by lia. destruct (Z.leb_spec 4 b); [blia|done].
Qed.
Lemma s0_loaded : quiet (boot_bc disk0) (loaded (boot_bc disk0) 1) /\ coherent (loaded (boot_bc disk0) 1) /\
  1 ∈ mapped (loaded (boot_bc disk0) 1).
Proof. apply loaded_ok; [apply boot_coherent|apply not_elem_of_empty]. Qed.
Lemma s0_view : view s0 = v0.
Proof. unfold s0. rewrite with_flags_view. apply (q_view _ _ (proj1 s0_loaded)). Qed.
Lemma flags_good s : coherent s -> meta_ok (view s) -> 1 ∈ mapped s -> good (with_flags s true true).
Proof. intros Hc Hm H1. by split; [apply with_flags_coherent| | | |]. Qed.
Lemma s0_good : good s0.
Proof.
  destruct s0_loaded as (Hq & Hc & Hin). apply flags_good; [done| |done]. rewrite (q_view _ _ Hq). apply v0_meta.
Qed.
Lemma v0_used b : 3 <= b < 4 -> used v0 b.
Proof.
  intros Hb. split; [unfold data, nbitmap; rewrite v0_nblocks; blia|]. rewrite v0_free by lia.
  by destruct (Z.leb_spec 4 b); [lia|].
Qed.
Lemma v0_plain a : (SUPER + 8 <= a < SUPER + BLKSIZE) \/ byte_of 3 a -> plain v0 a.
Proof.
  intros [Ha|Ha]; [|by eapply (data_plain v0 3 a v0_meta); [apply v0_used|apply v0_used|]; [lia..|]].
  assert (blk a = 1) as Eb by blia. split; [|by right]. rewrite Eb. split; [rewrite v0_nblocks; lia|]. by rewrite v0_free.
Qed.

(** A file without an indirect block: ten slots to look at. *)
Lemma ten_slots v f (g : Z -> Z) : findirect v f = 0 -> forallb (fun n => fblock v f n =? g n) (seqZ 0 10) = true ->
  forall n, 0 <= n < MAXBLOCKS -> fblock v f n = if n <? 10 then g n else 0.
Proof.
  intros Hi Hs n Hn. destruct (Z.ltb_spec n 10) as [Hlt|Hge].
  - apply Z.eqb_eq. apply (proj1 (forallb_forall _ _) Hs). apply list_elem_of_In, elem_of_seqZ. lia.
  - unfold fblock. rewrite Hi. destruct (Z.ltb_spec n NDIRECT); [flia|done].
Qed.
Lemma file_a_blocks n : 0 <= n < MAXBLOCKS -> fblock v0 file_a n = 0.
Proof.
  intros Hn. rewrite (ten_slots v0 file_a (fun _ => 0)); [by case_match|vm_compute; reflexivity|vm_compute; reflexivity|done].
Qed.
Lemma root_blocks n : 0 <= n < MAXBLOCKS -> fblock v0 s_root n = if n =? 0 then 3 else 0.
Proof.
  intros Hn. rewrite (ten_slots v0 s_root (fun n => if n =? 0 then 3 else 0)); [|vm_compute; reflexivity|vm_compute; reflexivity|done].
  destruct (Z.ltb_spec n 10), (Z.eqb_spec n 0); try done. lia.
Qed.
Lemma file_a_ok : file_ok v0 file_a.
Proof.
  split.
  - split; [vm_compute; discriminate|]. intros i Hi. apply v0_plain. right. unfold file_a. flia.
  - intros Hi. exfalso. apply Hi. vm_compute. reflexivity.
  - intros n Hn. by rewrite file_a_blocks.
  - intros m n Hm _. by rewrite file_a_blocks.
Qed.
Lemma file_a_size : fsize v0 file_a = 0.
Proof. vm_compute. reflexivity. Qed.
Lemma root_size : fsize v0 s_root = 4096.
Proof. vm_compute. reflexivity. Qed.
Lemma root_ok : dir_ok v0 s_root.
Proof.
  split.
  - split.
    + split; [vm_compute; discriminate|]. intros i Hi. apply v0_plain. left. flia.
    + intros Hi. exfalso. apply Hi. vm_compute. reflexivity.
    + intros n Hn. rewrite root_blocks by done. destruct (Z.eqb_spec n 0); [|done]. intros _.
      split; [by apply v0_used|]. split; vm_compute; discriminate.
    + intros m n Hm Hn. rewrite !root_blocks by done. destruct (Z.eqb_spec m 0), (Z.eqb_spec n 0); try done. lia.
  - unfold sized. rewrite root_size. slia.
  - rewrite root_size. done.
  - rewrite root_size. intros n Hn. rewrite root_blocks by flia. destruct (Z.eqb_spec n 0); [done|flia].
Qed.
Lemma root_is_dir : root_dir v0.
Proof. split; [apply root_ok|vm_compute; reflexivity]. Qed.
(** Everything in the root directory is a plain file. *)
Lemma v0_entries f : f ∈ dir_entries v0 s_root -> word v0 (f_type f) <> FTYPE_DIR.
Proof.
  intros Hf E. assert (forallb (fun f => negb (word v0 (f_type f) =? FTYPE_DIR)) (dir_entries v0 s_root) = true) as Hall
    by (vm_compute; reflexivity).
  apply list_elem_of_In in Hf. apply (proj1 (forallb_forall _ _) Hall) in Hf. rewrite E, Z.eqb_refl in Hf. clear E Hall. discriminate Hf.
Qed.
Lemma v0_tree : tree_ok v0.
Proof.
  split; [apply root_ok|]. intros d Hd Hty.
  assert (d = s_root \/ d ∈ dir_entries v0 s_root) as [->|Hin]; [|by apply root_ok|by apply v0_entries in Hin].
  clear Hty. induction Hd as [|d f Hd IH Hty Hf]; [by left|]. right.
  destruct IH as [->|Hin]; [done|by apply v0_entries in Hin].
Qed.
Lemma s0_ok : b_ok s0.
Proof. exact s0_good. Qed.
Lemma s0_b_view : b_view s0 = v0.
Proof. exact s0_view. Qed.

(** ** The properties on the small disk *)

Lemma block_cache_refines_memory_witness : exists s s',
  let l := [OStore8 file_a 98; OLoad8 file_a; OFlush file_a; OStore8 (file_a + 1) 99; OLoad8 file_a; OLoad8 SUPER] in
  let m := flat_ops l (Flat v0 v0) in
  fs_init (boot_bc disk0) = Ret tt s /\ run_ops l s = Ret m.1 s' /\
  view s' = fl_mem m.2 /\ forall i, view (boot_bc (disk s')) i = fl_disk m.2 i.
Proof.
  apply (block_cache_refines_memory disk0).
  - apply v0_meta.
  - vm_compute. reflexivity.
  - assert (plain v0 file_a /\ plain v0 (file_a + 1)) as [H1 H2]
      by (split; apply v0_plain; right; unfold file_a; blia).
    assert (in_use v0 (blk SUPER)) as H3 by (change (blk SUPER) with 1; split; [rewrite v0_nblocks; lia|by rewrite v0_free]).
    apply Forall_cons; split; [exact H1|]. apply Forall_cons; split; [exact (proj1 H1)|].
    apply Forall_cons; split; [unfold legal_op, file_a; blia|]. apply Forall_cons; split; [exact H2|].
    apply Forall_cons; split; [exact (proj1 H1)|]. apply Forall_cons; split; [exact H3|]. apply Forall_nil_2.
Defined.

Lemma alloc_block_takes_first_free_witness : exists r s', alloc_block s0 = Ret r s' /\ b_ok s' /\
  match r with
  | inl e => e = - E_NO_DISK /\ b_view s' = b_view s0 /\ b_disk s' = b_disk s0 /\ full (b_view s0)
  | inr b => allocated (b_view s0) (b_view s') b /\
      (forall i, b_disk s' i = if decide (byte_of (blk (bit_word b)) i) then b_view s' i else b_disk s0 i) /\
      exists s'', free_block b s' = Ret tt s'' /\ b_ok s'' /\
        forall c, 0 <= c -> is_free (b_view s'') c = is_free (b_view s0) c
  end.
Proof. apply (alloc_block_takes_first_free s0 s0_ok). Defined.

Lemma file_get_block_fills_holes_witness : exists r s', file_get_block file_a 12 s0 = Ret r s' /\ same_bytes file_a v0 (b_view s').
Proof.
  destruct (file_get_block_fills_holes file_a 12 s0 s0_ok) as (r & s' & E & _ & _ & Hs & _).
  - rewrite s0_b_view. apply file_a_ok.
  - lia.
  - exists r, s'. split; [exact E|]. rewrite <-s0_b_view. exact Hs.
Defined.

Lemma file_write_read_back_witness : exists r s', file_write file_a [104; 105] 2 4095 s0 = Ret r s' /\
  fsize (b_view s') file_a = 4097 /\
  match r with
  | inl e => e = - E_NO_DISK
  | inr c => exists s'', file_read file_a 2 4095 s' = Ret (inr (2, [104; 105])) s''
  end.
Proof.
  destruct (file_write_read_back file_a [104; 105] 4095 s0 s0_ok) as (r & s' & E & _ & _ & Hs & _ & Hr).
  - rewrite s0_b_view. apply file_a_ok.
  - unfold sized. rewrite s0_b_view, file_a_size. slia.
  - repeat (apply Forall_cons; split; [lia|]); apply Forall_nil_2.
  - lia.
  - vm_compute. discriminate.
  - exists r, s'. split; [exact E|]. split; [rewrite Hs, s0_b_view, file_a_size; reflexivity|].
    destruct r as [e|c]; [apply Hr|apply Hr].
Defined.

Lemma file_set_size_frees_the_tail_witness : exists s', file_set_size s_root 0 s0 = Ret (inr tt) s' /\ shrunk s_root 0 v0 (b_view s').
Proof.
  destruct (file_set_size_frees_the_tail s_root 0 s0 s0_ok) as (s' & E & _ & _ & _ & _ & _ & Hr).
  - rewrite s0_b_view. apply root_ok.
  - rewrite s0_b_view. apply root_ok.
  - lia.
  - exists s'. split; [exact E|]. rewrite s0_b_view, root_size in Hr. exact Hr.
Defined.

Lemma file_create_then_open_witness : exists r s', file_create [47; 98] s0 = Ret r s' /\
  match r with
  | inl e => e = - E_NO_DISK /\ full (b_view s')
  | inr a => exists s'', file_open [47; 98] s' = Ret (inr a) s''
  end.
Proof.
  destruct (file_create_then_open [47; 98] [98] s0 s0_ok) as (r & s' & E & Hr).
  - rewrite s0_b_view. apply root_is_dir.
  - split; [repeat (apply Forall_cons; split; [lia|]); apply Forall_nil_2|]. repeat split; done.
  - rewrite s0_b_view, root_size. vm_compute. discriminate.
  - rewrite s0_b_view, root_size. vm_compute. reflexivity.
  - exists r, s'. split; [exact E|]. rewrite s0_b_view in Hr.
    assert (lookup_name v0 s_root [98] = None) as El by (vm_compute; reflexivity). rewrite El in Hr.
    destruct r as [e|a]; [exact Hr|exact (proj1 Hr)].
Defined.

Lemma file_open_resolves_witness : exists s', file_open [47; 47; 97] s0 = Ret (inr file_a) s' /\ b_view s' = v0.
Proof.
  destruct (file_open_resolves [47; 47; 97] s0 s0_ok) as (s' & E & Hv & _).
  - rewrite s0_b_view. apply v0_tree.
  - repeat (apply Forall_cons; split; [lia|]); apply Forall_nil_2.
  - exists s'. rewrite s0_b_view in *. split; [|exact Hv].
    assert (resolve v0 [47; 47; 97] = Walked 0 s_root file_a None) as Er by (vm_compute; reflexivity). rewrite Er in E. exact E.
Defined.
