(* ===== verification/XFs.v ===== *)
(** * The file system of xv6

    [xv6/fs.c] with [fs.h] and the inode of [file.h]: the block allocator, the
    inode cache, the content of inodes, directories and paths.

    The code runs inside a transaction, over the buffer cache and the log
    ([XBio], [XLog]).  Of these it sees blocks of bytes: [img] is what [bread]
    returns, with the changes of this transaction in it; a buffer is named by
    its block, [held] are the buffers that are locked, and [logged] the blocks
    given to [log_write], whose new contents the commit installs.  Only what is
    logged survives, so the theorems also say that nothing else was changed.
    There is one device, as the comment in the source says.

    The code is that of one process.  Waiting for a lock that the process
    itself holds is [Leave]: it would never come back.  [icache.lock] protects
    single loads and stores here and is left out. *)
From S2P Require Import Prelude Bytes.

Definition BSIZE : Z := 512.
Definition NDIRECT : Z := 12.
Definition NINDIRECT : Z := BSIZE / 4.
Definition MAXFILE : Z := NDIRECT + NINDIRECT.
Definition DINODE : Z := 64.                     (* sizeof(struct dinode) *)
Definition IPB : Z := BSIZE / DINODE.
Definition BPB : Z := BSIZE * 8.
Definition DIRSIZ : Z := 14.
Definition DIRENT : Z := 16.                     (* sizeof(struct dirent) *)
Definition NINODE : Z := 50.
Definition NDEV : Z := 10.
Definition ROOTDEV : Z := 1.
Definition ROOTINO : Z := 1.
Definition T_DIR : Z := 1.
Definition T_DEV : Z := 3.

Record superblock := mk_sb
  { sb_size : Z; sb_nblocks : Z; sb_ninodes : Z; sb_nlog : Z;
    sb_logstart : Z; sb_inodestart : Z; sb_bmapstart : Z }.
Definition IBLOCK (i : Z) (sb : superblock) : Z := u32 (i / IPB + sb_inodestart sb).
Definition BBLOCK (b : Z) (sb : superblock) : Z := u32 (b / BPB + sb_bmapstart sb).

(** [struct inode]; of the sleep lock, whether it is held. *)
Record inode := mk_inode
  { i_dev : Z; i_inum : Z; i_ref : Z; i_locked : bool; i_valid : bool;
    i_type : Z; i_major : Z; i_minor : Z; i_nlink : Z; i_size : Z; i_addrs : list Z }.
Definition with_ref (n : Z) (e : inode) : inode :=
  mk_inode (i_dev e) (i_inum e) n (i_locked e) (i_valid e) (i_type e) (i_major e) (i_minor e) (i_nlink e) (i_size e) (i_addrs e).
Definition with_lock (l : bool) (e : inode) : inode :=
  mk_inode (i_dev e) (i_inum e) (i_ref e) l (i_valid e) (i_type e) (i_major e) (i_minor e) (i_nlink e) (i_size e) (i_addrs e).
Definition with_valid (x : bool) (e : inode) : inode :=
  mk_inode (i_dev e) (i_inum e) (i_ref e) (i_locked e) x (i_type e) (i_major e) (i_minor e) (i_nlink e) (i_size e) (i_addrs e).
Definition with_type (t : Z) (e : inode) : inode :=
  mk_inode (i_dev e) (i_inum e) (i_ref e) (i_locked e) (i_valid e) t (i_major e) (i_minor e) (i_nlink e) (i_size e) (i_addrs e).
Definition with_size (n : Z) (e : inode) : inode :=
  mk_inode (i_dev e) (i_inum e) (i_ref e) (i_locked e) (i_valid e) (i_type e) (i_major e) (i_minor e) (i_nlink e) n (i_addrs e).
Definition with_addrs (l : list Z) (e : inode) : inode :=
  mk_inode (i_dev e) (i_inum e) (i_ref e) (i_locked e) (i_valid e) (i_type e) (i_major e) (i_minor e) (i_nlink e) (i_size e) l.

(** [cwd] is the inode of the current directory of the process. *)
Record fsst := mk_fs
  { img : gmap Z Z; logged : gset Z; held : gset Z; sb : superblock; icache : list inode; cwd : Z }.
Definition with_img (m : gmap Z Z) (s : fsst) : fsst := mk_fs m (logged s) (held s) (sb s) (icache s) (cwd s).
Definition with_icache (l : list inode) (s : fsst) : fsst := mk_fs (img s) (logged s) (held s) (sb s) l (cwd s).
Definition with_held (h : gset Z) (s : fsst) : fsst := mk_fs (img s) (logged s) h (sb s) (icache s) (cwd s).

(** Byte [i] of block [b] is at [b * BSIZE + i]. *)
Definition view (s : fsst) (a : Z) : Z := u8 (rdw (img s) a).
Definition half (v : Z -> Z) (a : Z) : Z := v a + 256 * v (a + 1).
Definition s16 (x : Z) : Z := let y := x `mod` 65536 in if y <? 32768 then y else y - 65536.

Definition ld8 (a : Z) : M fsst Z := gets (fun s => view s a).
Definition ld16 (a : Z) : M fsst Z := gets (fun s => half (view s) a).
Definition ld32 (a : Z) : M fsst Z := gets (fun s => word (view s) a).
Definition st8 (a x : Z) : M fsst unit := modify (fun s => with_img (wrw (img s) a (u8 x)) s).
Definition st16 (a x : Z) : M fsst unit := st8 a x;; st8 (a + 1) (x / 256).
Definition st32 (a x : Z) : M fsst unit :=
  st8 a x;; st8 (a + 1) (x / 256);; st8 (a + 2) (x / 65536);; st8 (a + 3) (x / 16777216).
Fixpoint store_list (a : Z) (l : list Z) : M fsst unit :=
  match l with [] => mret tt | x :: l => st8 a x;; store_list (a + 1) l end.
Definition load_list (a n : Z) : M fsst (list Z) := gets (fun s => view s <$> seqZ a n).

(** ** The layer below *)

Definition bread (b : Z) : M fsst unit :=
  s ← get; if decide (b ∈ held s) then leave else modify (with_held ({[ b ]} ∪ held s)).
Definition brelse (b : Z) : M fsst unit :=
  s ← get; if decide (b ∈ held s) then modify (with_held (held s ∖ {[ b ]})) else panic "brelse".
Definition log_write (b : Z) : M fsst unit :=
  modify (fun s => mk_fs (img s) ({[ b ]} ∪ logged s) (held s) (sb s) (icache s) (cwd s)).

Definition readsb : M fsst superblock :=
  bread 1;;
  l ← gets (fun s => (fun i => word (view s) (BSIZE + 4 * i)) <$> seqZ 0 7);
  brelse 1;;
  match l with
  | [a; b; c; d; e; f; g] => mret (mk_sb a b c d e f g)
  | _ => ub
  end.
Definition set_sb (x : superblock) : M fsst unit :=
  modify (fun s => mk_fs (img s) (logged s) (held s) x (icache s) (cwd s)).

(** ** Blocks *)

Definition bzero (bno : Z) : M fsst unit :=
  bread bno;;
  store_list (bno * BSIZE) (repeat 0 (Z.to_nat BSIZE));;
  log_write bno;;
  brelse bno.

(** The inner loop of [balloc], in the bitmap block that starts at block [b]. *)
Definition balloc_in (bp b : Z) (size : Z) : M fsst (option Z) :=
  for_until (seqZ 0 (Z.min BPB (size - b))) (fun bi =>
    let m := 2 ^ (bi `mod` 8) in
    c ← ld8 (bp * BSIZE + bi / 8);
    if Z.land c m =? 0 then
      st8 (bp * BSIZE + bi / 8) (Z.lor c m);;
      log_write bp;;
      brelse bp;;
      bzero (b + bi);;
      mret (Some (b + bi))
    else mret None).
Definition balloc : M fsst Z :=
  size ← gets (fun s => sb_size (sb s));
  r ← for_until ((fun k => k * BPB) <$> seqZ 0 ((size + BPB - 1) / BPB)) (fun b =>
    bp ← gets (fun s => BBLOCK b (sb s));
    bread bp;;
    r ← balloc_in bp b size;
    match r with
    | Some x => mret (Some x)
    | None => brelse bp;; mret None
    end);
  match r with Some x => mret x | None => panic "balloc: out of blocks" end.

Definition bfree (b : Z) : M fsst unit :=
  x ← readsb; set_sb x;;
  let bp := BBLOCK b x in
  bread bp;;
  let bi := b `mod` BPB in
  let m := 2 ^ (bi `mod` 8) in
  c ← ld8 (bp * BSIZE + bi / 8);
  if Z.land c m =? 0 then panic "freeing free block" else
  st8 (bp * BSIZE + bi / 8) (Z.ldiff c m);;
  log_write bp;;
  brelse bp.

(** ** The inode cache *)

Definition geti (ip : Z) : M fsst inode := s ← get; deref (zget (icache s) ip).
Definition seti (ip : Z) (f : inode -> inode) : M fsst unit :=
  e ← geti ip; modify (fun s => with_icache (zset (icache s) ip (f e)) s).
Definition acquiresleep (ip : Z) : M fsst unit :=
  e ← geti ip; if i_locked e then leave else seti ip (with_lock true).
Definition releasesleep (ip : Z) : M fsst unit := seti ip (with_lock false).

Definition iinit : M fsst unit :=
  for_each (seqZ 0 NINODE) (fun i => seti i (with_lock false));;
  x ← readsb; set_sb x.

(** [iget]'s search: the entry of the inode, or else the first free one. *)
Fixpoint iget_scan (l : list Z) (dev inum : Z) (empty : option Z) : M fsst (Z + option Z) :=
  match l with
  | [] => mret (inr empty)
  | ip :: l =>
      e ← geti ip;
      if (0 <? i_ref e) && (i_dev e =? dev) && (i_inum e =? inum) then mret (inl ip)
      else iget_scan l dev inum
             (match empty with None => if i_ref e =? 0 then Some ip else None | Some _ => empty end)
  end.
Definition iget (dev inum : Z) : M fsst Z :=
  r ← iget_scan (seqZ 0 NINODE) dev inum None;
  match r with
  | inl ip => seti ip (fun e => with_ref (i_ref e + 1) e);; mret ip
  | inr None => panic "iget: no inodes"
  | inr (Some ip) =>
      seti ip (fun e => mk_inode dev inum 1 (i_locked e) false (i_type e) (i_major e) (i_minor e) (i_nlink e) (i_size e) (i_addrs e));;
      mret ip
  end.
Definition idup (ip : Z) : M fsst Z := seti ip (fun e => with_ref (i_ref e + 1) e);; mret ip.

(** Where inode [inum] is on the disk. *)
Definition dinode_at (inum : Z) (x : superblock) : Z := IBLOCK inum x * BSIZE + inum `mod` IPB * DINODE.

Definition ialloc (dev type : Z) : M fsst Z :=
  n ← gets (fun s => sb_ninodes (sb s));
  r ← for_until (seqZ 1 (n - 1)) (fun inum =>
    x ← gets sb;
    let bp := IBLOCK inum x in
    let dip := dinode_at inum x in
    bread bp;;
    t ← ld16 dip;
    if t =? 0 then
      store_list dip (repeat 0 (Z.to_nat DINODE));;
      st16 dip type;;
      log_write bp;;
      brelse bp;;
      ip ← iget dev inum; mret (Some ip)
    else brelse bp;; mret None);
  match r with Some ip => mret ip | None => panic "ialloc: no inodes" end.

Definition iupdate (ip : Z) : M fsst unit :=
  e ← geti ip;
  x ← gets sb;
  let bp := IBLOCK (i_inum e) x in
  let dip := dinode_at (i_inum e) x in
  bread bp;;
  st16 dip (i_type e);;
  st16 (dip + 2) (i_major e);;
  st16 (dip + 4) (i_minor e);;
  st16 (dip + 6) (i_nlink e);;
  st32 (dip + 8) (i_size e);;
  for_each (seqZ 0 (NDIRECT + 1)) (fun k => a ← deref (zget (i_addrs e) k); st32 (dip + 12 + 4 * k) a);;
  log_write bp;;
  brelse bp.

Definition ilock (ip : option Z) : M fsst unit :=
  match ip with
  | None => panic "ilock"
  | Some ip =>
      e ← geti ip;
      if i_ref e <? 1 then panic "ilock" else
      acquiresleep ip;;
      e ← geti ip;
      if i_valid e then mret tt else
      x ← gets sb;
      let bp := IBLOCK (i_inum e) x in
      let dip := dinode_at (i_inum e) x in
      bread bp;;
      ty ← ld16 dip; ma ← ld16 (dip + 2); mi ← ld16 (dip + 4); nl ← ld16 (dip + 6);
      sz ← ld32 (dip + 8);
      l ← gets (fun s => (fun k => word (view s) (dip + 12 + 4 * k)) <$> seqZ 0 (NDIRECT + 1));
      seti ip (fun e => mk_inode (i_dev e) (i_inum e) (i_ref e) (i_locked e) (i_valid e)
                          (s16 ty) (s16 ma) (s16 mi) (s16 nl) sz l);;
      brelse bp;;
      seti ip (with_valid true);;
      e ← geti ip;
      if i_type e =? 0 then panic "ilock: no type" else mret tt
  end.

Definition iunlock (ip : option Z) : M fsst unit :=
  match ip with
  | None => panic "iunlock"
  | Some ip =>
      e ← geti ip;
      if negb (i_locked e) || (i_ref e <? 1) then panic "iunlock" else releasesleep ip
  end.

(** ** The content of an inode *)

Definition bmap (ip bn : Z) : M fsst Z :=
  e ← geti ip;
  if bn <? NDIRECT then
    addr ← deref (zget (i_addrs e) bn);
    if addr =? 0 then
      addr ← balloc;
      seti ip (fun e => with_addrs (zset (i_addrs e) bn addr) e);; mret addr
    else mret addr
  else
  let bn := bn - NDIRECT in
  if bn <? NINDIRECT then
    addr ← deref (zget (i_addrs e) NDIRECT);
    addr ← (if addr =? 0 then
              addr ← balloc;
              seti ip (fun e => with_addrs (zset (i_addrs e) NDIRECT addr) e);; mret addr
            else mret addr);
    let bp := addr in
    bread bp;;
    addr ← ld32 (bp * BSIZE + 4 * bn);
    addr ← (if addr =? 0 then
              addr ← balloc;
              st32 (bp * BSIZE + 4 * bn) addr;; log_write bp;; mret addr
            else mret addr);
    brelse bp;;
    mret addr
  else panic "bmap: out of range".

Definition itrunc (ip : Z) : M fsst unit :=
  for_each (seqZ 0 NDIRECT) (fun i =>
    e ← geti ip;
    a ← deref (zget (i_addrs e) i);
    when (negb (a =? 0)) (bfree a;; seti ip (fun e => with_addrs (zset (i_addrs e) i 0) e)));;
  e ← geti ip;
  a ← deref (zget (i_addrs e) NDIRECT);
  when (negb (a =? 0))
    (bread a;;
     for_each (seqZ 0 NINDIRECT) (fun j =>
       x ← ld32 (a * BSIZE + 4 * j);
       when (negb (x =? 0)) (bfree x));;
     brelse a;;
     bfree a;;
     seti ip (fun e => with_addrs (zset (i_addrs e) NDIRECT 0) e));;
  seti ip (with_size 0);;
  iupdate ip.

Definition iput (ip : Z) : M fsst unit :=
  acquiresleep ip;;
  e ← geti ip;
  when (i_valid e && (i_nlink e =? 0))
    (e ← geti ip;
     when (i_ref e =? 1)
       (itrunc ip;;
        seti ip (with_type 0);;
        iupdate ip;;
        seti ip (with_valid false)));;
  releasesleep ip;;
  seti ip (fun e => with_ref (i_ref e - 1) e).
Definition iunlockput (ip : Z) : M fsst unit := iunlock (Some ip);; iput ip.

Record stat := mk_stat { st_type : Z; st_dev : Z; st_ino : Z; st_nlink : Z; st_size : Z }.
Definition stati (ip : Z) : M fsst stat :=
  e ← geti ip; mret (mk_stat (i_type e) (i_dev e) (i_inum e) (i_nlink e) (i_size e)).

(** The device switch, filled in by the drivers: what [devsw[major].read] and
    [.write] do.  A read returns a count and the bytes it stored. *)
Class DevSw := {
  dev_read : Z -> option (Z -> Z -> M fsst (Z * list Z));
  dev_write : Z -> option (Z -> list Z -> Z -> M fsst Z);
}.

Section Content.
Context `{DevSw}.

(** The result of [readi] and the bytes at [dst].  Every round moves by at least
    a byte. *)
Definition readi (ip off n : Z) : M fsst (Z * list Z) :=
  e ← geti ip;
  if i_type e =? T_DEV then
    if (i_major e <? 0) || (NDEV <=? i_major e) then mret (-1, []) else
    match dev_read (i_major e) with Some f => f ip n | None => mret (-1, []) end
  else
  if (i_size e <? off) || (u32 (off + n) <? off) then mret (-1, []) else
  let n := if i_size e <? u32 (off + n) then i_size e - off else n in
  loop (S (Z.to_nat n)) (fun '(tot, off, dst) =>
    if tot <? n then
      b ← bmap ip (off / BSIZE);
      bread b;;
      let m := Z.min (n - tot) (BSIZE - off `mod` BSIZE) in
      l ← load_list (b * BSIZE + off `mod` BSIZE) m;
      brelse b;;
      mret (inl (tot + m, u32 (off + m), dst ++ l))
    else mret (inr (n, dst))) (0, off, []).

Definition writei (ip : Z) (src : list Z) (off n : Z) : M fsst Z :=
  e ← geti ip;
  if i_type e =? T_DEV then
    if (i_major e <? 0) || (NDEV <=? i_major e) then mret (-1) else
    match dev_write (i_major e) with Some f => f ip src n | None => mret (-1) end
  else
  if (i_size e <? off) || (u32 (off + n) <? off) then mret (-1) else
  if MAXFILE * BSIZE <? u32 (off + n) then mret (-1) else
  off ← loop (S (Z.to_nat n)) (fun '(tot, off, src) =>
    if tot <? n then
      b ← bmap ip (off / BSIZE);
      bread b;;
      let m := Z.min (n - tot) (BSIZE - off `mod` BSIZE) in
      if zlen src <? m then ub else
      store_list (b * BSIZE + off `mod` BSIZE) (take (Z.to_nat m) src);;
      log_write b;;
      brelse b;;
      mret (inl (tot + m, u32 (off + m), drop (Z.to_nat m) src))
    else mret (inr off)) (0, off, src);
  e ← geti ip;
  when ((0 <? n) && (i_size e <? off)) (seti ip (with_size off);; iupdate ip);;
  mret n.

(** ** Directories *)

(** [strncmp] and [strncpy] of arrays whose rest is NUL. *)
Fixpoint strncmp (n : nat) (p q : list Z) : Z :=
  match n with
  | O => 0
  | S n => if negb (hd 0 p =? 0) && (hd 0 p =? hd 0 q) then strncmp n (tl p) (tl q) else hd 0 p - hd 0 q
  end.
Fixpoint strncpy (n : nat) (t : list Z) : list Z :=
  match n with
  | O => []
  | S n => if hd 0 t =? 0 then repeat 0 (S n) else hd 0 t :: strncpy n (tl t)
  end.
Definition namecmp (s t : list Z) : Z := strncmp (Z.to_nat DIRSIZ) s t.

(** [struct dirent] as bytes. *)
Definition de_inum (l : list Z) : Z := hd 0 l + 256 * hd 0 (tl l).
Definition de_name (l : list Z) : list Z := tl (tl l).
Definition dirent (inum : Z) (name : list Z) : list Z :=
  u8 inum :: u8 (inum / 256) :: strncpy (Z.to_nat DIRSIZ) name.

(** The offsets [off = 0; off < size; off += sizeof(de)]. *)
Definition dir_offs (size : Z) : list Z := (fun k => DIRENT * k) <$> seqZ 0 ((size + DIRENT - 1) / DIRENT).

(** The inode found and the offset of its entry. *)
Definition dirlookup (dp : Z) (name : list Z) : M fsst (option (Z * Z)) :=
  e ← geti dp;
  if negb (i_type e =? T_DIR) then panic "dirlookup not DIR" else
  for_until (dir_offs (i_size e)) (fun off =>
    '(r, de) ← readi dp off DIRENT;
    if negb (r =? DIRENT) then panic "dirlookup read" else
    if de_inum de =? 0 then mret None else
    if namecmp name (de_name de) =? 0 then
      e ← geti dp;
      ip ← iget (i_dev e) (de_inum de); mret (Some (ip, off))
    else mret None).

Definition dirlink (dp : Z) (name : list Z) (inum : Z) : M fsst Z :=
  r ← dirlookup dp name;
  match r with
  | Some (ip, _) => iput ip;; mret (-1)
  | None =>
      e ← geti dp;
      r ← for_until (dir_offs (i_size e)) (fun off =>
        '(r, de) ← readi dp off DIRENT;
        if negb (r =? DIRENT) then panic "dirlink read" else
        mret (if de_inum de =? 0 then Some off else None));
      let off := match r with Some off => off | None => DIRENT * ((i_size e + DIRENT - 1) / DIRENT) end in
      r ← writei dp (dirent inum name) off DIRENT;
      if negb (r =? DIRENT) then panic "dirlink" else mret 0
  end.

(** ** Paths *)

Fixpoint skip_slashes (p : list Z) : list Z :=
  match p with c :: p' => if c =? 47 then skip_slashes p' else p | [] => [] end.
Fixpoint span_elem (p : list Z) : list Z * list Z :=
  match p with
  | c :: p' => if c =? 47 then ([], p) else let '(s, r) := span_elem p' in (c :: s, r)
  | [] => ([], [])
  end.
(** The rest of the path and the name, cut to [DIRSIZ] bytes. *)
Definition skipelem (path : list Z) : option (list Z * list Z) :=
  match skip_slashes path with
  | [] => None
  | p => let '(s, r) := span_elem p in Some (skip_slashes r, take (Z.to_nat DIRSIZ) s)
  end.

(** Every round consumes a byte of the path.  The result is the inode and the
    last name. *)
Fixpoint namex_loop (fuel : nat) (nameiparent : bool) (ip : Z) (path name : list Z) : M fsst (option (Z * list Z)) :=
  match skipelem path with
  | None => if nameiparent then iput ip;; mret None else mret (Some (ip, name))
  | Some (path, name) =>
      match fuel with
      | O => panic "fuel"
      | S fuel =>
          ilock (Some ip);;
          e ← geti ip;
          if negb (i_type e =? T_DIR) then iunlockput ip;; mret None else
          if nameiparent && bool_decide (path = []) then iunlock (Some ip);; mret (Some (ip, name)) else
          r ← dirlookup ip name;
          match r with
          | None => iunlockput ip;; mret None
          | Some (next, _) => iunlockput ip;; namex_loop fuel nameiparent next path name
          end
      end
  end.
Definition namex (path : list Z) (nameiparent : bool) : M fsst (option (Z * list Z)) :=
  ip ← (match path with
        | 47 :: _ => iget ROOTDEV ROOTINO
        | _ => c ← gets cwd; idup c
        end);
  namex_loop (length path) nameiparent ip path [].
Definition namei (path : list Z) : M fsst (option Z) := r ← namex path false; mret (fst <$> r).
Definition nameiparent (path : list Z) : M fsst (option (Z * list Z)) := namex path true.
End Content.
