(* ===== verification/XFsAlloc.v ===== *)
(** * The block allocator of xv6

    The layout of a disk as [mkfs] makes it, the bitmap as a set of blocks, and
    [balloc] and [bfree] against it: a new block is the first free one, cleared,
    and logged with its bitmap block. *)
From S2P Require Import Prelude Bytes XFs.
From Stdlib Require Import FunctionalExtensionality.

(** ** The layout *)

(** The first block for data: after the boot block, the super block, the log,
    the inodes and the bitmap. *)
Definition datastart (x : superblock) : Z := sb_bmapstart x + sb_size x / BPB + 1.
Record sb_ok (x : superblock) : Prop := {
  so_inodes : 2 <= sb_inodestart x;
  so_ninodes : 0 <= sb_ninodes x;
  so_bmap : sb_inodestart x + sb_ninodes x / IPB < sb_bmapstart x;
  so_data : datastart x <= sb_size x;
  so_size : sb_size x < 2147483648;
}.
(** The seven words of the super block. *)
Definition sb_words (x : superblock) : list Z :=
  [sb_size x; sb_nblocks x; sb_ninodes x; sb_nlog x; sb_logstart x; sb_inodestart x; sb_bmapstart x].
Definition sb_on_disk (v : Z -> Z) (x : superblock) : Prop :=
  forall i w, zget (sb_words x) i = Some w -> word v (BSIZE + 4 * i) = w.

Definition block_of (a : Z) : Z := a / BSIZE.
Definition in_block (b a : Z) : Prop := b * BSIZE <= a < (b + 1) * BSIZE.
Definition bitaddr (x : superblock) (b : Z) : Z := sb_bmapstart x * BSIZE + b / 8.
(** Block [b] is in use. *)
Definition bit (x : superblock) (v : Z -> Z) (b : Z) : bool := Z.testbit (v (bitaddr x b)) (b `mod` 8).
(** The bytes that hold the layout and the bitmap. *)
Definition meta_byte (x : superblock) (a : Z) : Prop :=
  BSIZE <= a < BSIZE + 28 \/ sb_bmapstart x * BSIZE <= a < datastart x * BSIZE.

Ltac dlia := unfold in_block, block_of, bitaddr, datastart, MAXFILE, NINDIRECT, NDIRECT, BPB, IPB, DINODE, DIRENT, BSIZE in *; change (512 / 64) with 8 in *; change (512 / 4) with 128 in *; zlia.

Record disk_ok (x : superblock) (v : Z -> Z) : Prop := {
  dk_sb : sb_ok x;
  dk_disk : sb_on_disk v x;
  dk_used : forall b, 0 <= b < datastart x -> bit x v b = true;
}.

Section Layout.
Implicit Types (x : superblock) (v : Z -> Z) (a b : Z).

Lemma block_in b a : in_block b a -> block_of a = b.
Proof. dlia. Qed.
Lemma BBLOCK_addr x b : sb_ok x -> 0 <= b < sb_size x ->
  BBLOCK b x * BSIZE + b `mod` BPB / 8 = bitaddr x b /\ BBLOCK b x = sb_bmapstart x + b / BPB /\
  block_of (bitaddr x b) = BBLOCK b x.
Proof.
  intros [H1 H2 H3 H4 H5] Hb. assert (BBLOCK b x = sb_bmapstart x + b / BPB) as E
    by (unfold BBLOCK; rewrite u32_id; [lia|unfold is_u32; dlia]).
  rewrite E. split; [dlia|]. split; [done|]. dlia.
Qed.
Lemma bitaddr_meta x b : sb_ok x -> 0 <= b < sb_size x -> meta_byte x (bitaddr x b).
Proof. intros [H1 H2 H3 H4 H5] Hb. right. dlia. Qed.
Lemma data_not_meta x b a : sb_ok x -> datastart x <= b -> in_block b a -> ~ meta_byte x a.
Proof. intros [H1 H2 H3 H4 H5] Hb Ha [Hm|Hm]; dlia. Qed.
Lemma sb_meta x i j : 0 <= i < 7 -> 0 <= j <= 3 -> meta_byte x (BSIZE + 4 * i + j).
Proof. left. lia. Qed.

(** The layout and the bitmap depend on their bytes only. *)
Lemma disk_frame x v v' : disk_ok x v -> (forall a, meta_byte x a -> v' a = v a) ->
  disk_ok x v' /\ forall b, 0 <= b < sb_size x -> bit x v' b = bit x v b.
Proof.
  intros [H1 H2 H3] Hf. assert (forall b, 0 <= b < sb_size x -> bit x v' b = bit x v b) as Hb.
  { intros b Hb. unfold bit. by rewrite Hf by (by apply bitaddr_meta). }
  split; [|done]. split; [done| |].
  - intros i w Hi. rewrite <-(H2 i w Hi). apply word_ext. intros j Hj. apply Hf.
    apply zget_Some_range in Hi. unfold sb_words, zlen in Hi. cbn in Hi. by apply sb_meta.
  - intros b Hr. destruct H1. rewrite Hb by lia. by apply H3.
Qed.
(** One byte of the bitmap is changed in one bit. *)
Lemma bit_upd x v b c y : sb_ok x -> 0 <= b < sb_size x -> 0 <= c ->
  (forall i, 0 <= i < 8 -> Z.testbit (u8 y) i = if decide (i = b `mod` 8) then c =? 1 else Z.testbit (v (bitaddr x b)) i) ->
  forall d, 0 <= d -> bit x (upd8 v (bitaddr x b) y) d = if decide (d = b) then c =? 1 else bit x v d.
Proof.
  intros Hx Hb Hc Hbits d Hd. unfold bit, upd8. destruct (decide (bitaddr x d = bitaddr x b)) as [E|E].
  - rewrite Hbits by zlia. assert (d / 8 = b / 8) by (unfold bitaddr in E; lia).
    repeat case_decide; try done; [zlia|subst; lia|by rewrite E].
  - by destruct (decide (d = b)) as [->|].
Qed.
End Layout.

Lemma testbit_lor8 c i j : 0 <= c < 256 -> 0 <= i < 8 -> 0 <= j < 8 ->
  Z.testbit (u8 (Z.lor c (2 ^ i))) j = if decide (j = i) then true else Z.testbit c j.
Proof.
  intros Hc Hi Hj. unfold u8. change 256 with (2 ^ 8). rewrite Z.mod_pow2_bits_low by lia.
  rewrite Z.lor_spec, Z.pow2_bits_eqb by lia.
  destruct (Z.eqb_spec i j), (decide (j = i)); try lia; by rewrite ?orb_true_r, ?orb_false_r.
Qed.
Lemma testbit_ldiff8 c i j : 0 <= c < 256 -> 0 <= i < 8 -> 0 <= j < 8 ->
  Z.testbit (u8 (Z.ldiff c (2 ^ i))) j = if decide (j = i) then false else Z.testbit c j.
Proof.
  intros Hc Hi Hj. unfold u8. change 256 with (2 ^ 8). rewrite Z.mod_pow2_bits_low by lia.
  rewrite Z.ldiff_spec, Z.pow2_bits_eqb by lia.
  destruct (Z.eqb_spec i j), (decide (j = i)); try lia; cbn; by rewrite ?andb_false_r, ?andb_true_r.
Qed.
Lemma land_pow2_eqb c i : 0 <= i -> (Z.land c (2 ^ i) =? 0) = negb (Z.testbit c i).
Proof.
  intros Hi. destruct (Z.testbit c i) eqn:E; cbn.
  - apply Z.eqb_neq. intros H. assert (Z.testbit (Z.land c (2 ^ i)) i = false) as Hf by (by rewrite H, Z.bits_0).
    rewrite Z.land_spec, E, Z.pow2_bits_true in Hf by lia. done.
  - apply Z.eqb_eq. apply Z.bits_inj'. intros j Hj. rewrite Z.land_spec, Z.pow2_bits_eqb, Z.bits_0 by lia.
    destruct (Z.eqb_spec i j) as [<-|]; [by rewrite E|apply andb_false_r].
Qed.

(** ** Executing *)

(** Memory changes only. *)
Lemma byte_range s a : 0 <= view s a < 256.
Proof. apply u8_range. Qed.
Lemma st8_run a y s : exists m, st8 a y s = Ret tt (with_img m s) /\ view (with_img m s) = upd8 (view s) a y.
Proof.
  eexists. split; [reflexivity|]. apply functional_extensionality. intros i. unfold view, upd8. cbn.
  case_decide; [subst; rewrite rdw_wrw_eq; unfold u8; zlia|by rewrite rdw_wrw_ne].
Qed.
Lemma st32_run a y s : exists m, st32 a y s = Ret tt (with_img m s) /\ view (with_img m s) = upd32 (view s) a y.
Proof.
  unfold st32. destruct (st8_run a y s) as (m1 & E1 & V1). exec_by E1.
  destruct (st8_run (a + 1) (y / 256) (with_img m1 s)) as (m2 & E2 & V2). exec_by E2.
  destruct (st8_run (a + 2) (y / 65536) (with_img m2 (with_img m1 s))) as (m3 & E3 & V3). exec_by E3.
  destruct (st8_run (a + 3) (y / 16777216) (with_img m3 (with_img m2 (with_img m1 s)))) as (m4 & E4 & V4).
  exists m4. rewrite E4. split; [done|]. change (with_img m4 s) with (with_img m4 (with_img m3 (with_img m2 (with_img m1 s)))).
  by rewrite V4, V3, V2, V1.
Qed.
Definition upd_list (v : Z -> Z) (a : Z) (l : list Z) : Z -> Z :=
  fun i => match zget l (i - a) with Some y => u8 y | None => v i end.
Lemma store_list_run a l s : exists m, store_list a l s = Ret tt (with_img m s) /\ view (with_img m s) = upd_list (view s) a l.
Proof.
  revert a s. induction l as [|y l IH]; intros a s; cbn [store_list].
  - exists (img s). split; [by destruct s|]. apply functional_extensionality. intros i. unfold upd_list.
    by rewrite zget_none by (unfold zlen; cbn; lia).
  - destruct (st8_run a y s) as (m1 & E1 & V1). exec_by E1.
    destruct (IH (a + 1) (with_img m1 s)) as (m2 & E2 & V2). exists m2. split; [exact E2|].
    change (with_img m2 s) with (with_img m2 (with_img m1 s)). rewrite V2, V1.
    apply functional_extensionality. intros i. unfold upd_list, upd8. rewrite zget_cons.
    replace (i - (a + 1)) with (i - a - 1) by lia. destruct (decide (i - a = 0)) as [E|E].
    + rewrite zget_none, decide_True by lia. done.
    + case_match; [done|]. by rewrite decide_False by lia.
Qed.

(** What a step on blocks may change: bytes of blocks that are logged. *)
Record frame (s s' : fsst) : Prop := {
  fr_sb : sb s' = sb s;
  fr_held : held s' = held s;
  fr_cwd : cwd s' = cwd s;
  fr_log : logged s ⊆ logged s';
  fr_view : forall a, block_of a ∉ logged s' -> view s' a = view s a;
}.
Lemma frame_refl s : frame s s.
Proof. by split. Qed.
Lemma frame_trans s1 s2 s3 : frame s1 s2 -> frame s2 s3 -> frame s1 s3.
Proof.
  intros [A1 A2 A3 A4 A5] [B1 B2 B3 B4 B5]. split; [congruence|congruence|congruence|by transitivity (logged s2)|].
  intros a Ha. rewrite B5, A5; [done|set_solver|done].
Qed.

(** [bread], a change of the block, [log_write], [brelse]. *)
Definition logging (b : Z) (m : gmap Z Z) (s : fsst) : fsst :=
  mk_fs m ({[ b ]} ∪ logged s) (held s) (sb s) (icache s) (cwd s).
Lemma bread_run b s : b ∉ held s -> bread b s = Ret tt (with_held ({[ b ]} ∪ held s) s).
Proof. intros Hb. unfold bread. exec. by rewrite decide_False. Qed.
Lemma brelse_run b s : b ∈ held s -> brelse b s = Ret tt (with_held (held s ∖ {[ b ]}) s).
Proof. intros Hb. unfold brelse. exec. by rewrite decide_True. Qed.
Lemma held_back b (h : gset Z) : b ∉ h -> ({[ b ]} ∪ h) ∖ {[ b ]} = h.
Proof. set_solver. Qed.
Lemma logging_frame b m s : (forall a, ~ in_block b a -> view (logging b m s) a = view s a) -> frame s (logging b m s).
Proof.
  intros Hf. split; cbn; [done|done|done|set_solver|]. intros a Ha. apply Hf. intros Hin. apply Ha.
  rewrite (block_in _ _ Hin). set_solver.
Qed.

Lemma edit_block b (prog : M fsst unit) m s : b ∉ held s ->
  prog (with_held ({[ b ]} ∪ held s) s) = Ret tt (with_img m (with_held ({[ b ]} ∪ held s) s)) ->
  (bread b;; prog;; log_write b;; brelse b) s = Ret tt (logging b m s).
Proof.
  intros Hb E. exec_by (bread_run b s Hb). exec_by E. unfold log_write. exec.
  rewrite brelse_run by (cbn; set_solver). unfold logging, with_held, with_img. cbn. by rewrite held_back.
Qed.
Lemma bzero_ok b s : b ∉ held s -> exists m, bzero b s = Ret tt (logging b m s) /\
  forall a, view (logging b m s) a = if decide (in_block b a) then 0 else view s a.
Proof.
  intros Hb. destruct (store_list_run (b * BSIZE) (repeat 0 (Z.to_nat BSIZE)) (with_held ({[ b ]} ∪ held s) s)) as (m & E & V).
  exists m. split; [exact (edit_block b _ m s Hb E)|]. intros a.
  change (view (logging b m s) a) with (view (with_img m (with_held ({[ b ]} ∪ held s) s)) a). rewrite V. unfold upd_list.
  destruct (decide (in_block b a)) as [Hi|Hi].
  - destruct (zget (repeat 0 (Z.to_nat BSIZE)) (a - b * BSIZE)) as [y|] eqn:E'.
    + apply zget_elem in E'. apply list_elem_of_In, repeat_spec in E'. by subst.
    + apply eq_None_not_Some in E'. destruct E'. apply zget_is_Some. unfold zlen. rewrite repeat_length. dlia.
  - rewrite zget_none; [done|]. unfold zlen. rewrite repeat_length. dlia.
Qed.

(** ** [balloc] *)

(** Block [y], the first free one, is taken and cleared. *)
Record taken (x : superblock) (v v' : Z -> Z) (y : Z) : Prop := {
  tk_range : datastart x <= y < sb_size x;
  tk_free : bit x v y = false;
  tk_first : forall c, 0 <= c < y -> bit x v c = true;
  tk_bits : forall c, 0 <= c < sb_size x -> bit x v' c = if decide (c = y) then true else bit x v c;
  tk_zero : forall a, in_block y a -> v' a = 0;
  tk_rest : forall a, a <> bitaddr x y -> ~ in_block y a -> v' a = v a;
}.
(** The buffers held are data in use. *)
Definition held_ok (s : fsst) : Prop :=
  forall b, b ∈ held s -> datastart (sb s) <= b < sb_size (sb s) /\ bit (sb s) (view s) b = true.
Definition fs_ok (s : fsst) : Prop := disk_ok (sb s) (view s) /\ held_ok s.

Lemma BBLOCK_free s b : fs_ok s -> 0 <= b < sb_size (sb s) -> BBLOCK b (sb s) ∉ held s.
Proof.
  intros [[Hx _ _] Hh] Hb Hin. apply Hh in Hin as [Hr _]. destruct (BBLOCK_addr _ b Hx Hb) as (_ & E & _).
  destruct Hx. rewrite E in Hr. dlia.
Qed.
Lemma bit_land s b : sb_ok (sb s) -> 0 <= b < sb_size (sb s) ->
  (Z.land (view s (bitaddr (sb s) b)) (2 ^ (b `mod` 8)) =? 0) = negb (bit (sb s) (view s) b).
Proof. intros Hx Hb. apply land_pow2_eqb. zlia. Qed.

(** The body of the inner loop, in the block [bp] of the bitmap. *)
Lemma balloc_take s bp y : fs_ok s -> datastart (sb s) <= y < sb_size (sb s) -> bp = BBLOCK y (sb s) ->
  bit (sb s) (view s) y = false -> (forall c, 0 <= c < y -> bit (sb s) (view s) c = true) ->
  exists s', (st8 (bitaddr (sb s) y) (Z.lor (view s (bitaddr (sb s) y)) (2 ^ (y `mod` 8)));;
              log_write bp;; brelse bp;; bzero y;; mret (Some y)) (with_held ({[ bp ]} ∪ held s) s) = Ret (Some y) s' /\
    taken (sb s) (view s) (view s') y /\ frame s s' /\ icache s' = icache s /\ logged s' = {[ y ]} ∪ ({[ BBLOCK y (sb s) ]} ∪ logged s).
Proof.
  intros Hfs Hy -> Hbit Hfirst. pose proof Hfs as [[Hx Hsb Hused] Hh].
  assert (0 <= y < sb_size (sb s)) as Hr by (destruct Hx; dlia).
  pose proof (BBLOCK_free s y Hfs Hr) as Hbp. destruct (BBLOCK_addr _ y Hx Hr) as (_ & _ & Eb).
  set (bp := BBLOCK y (sb s)) in *.
  destruct (st8_run (bitaddr (sb s) y) (Z.lor (view s (bitaddr (sb s) y)) (2 ^ (y `mod` 8))) (with_held ({[ bp ]} ∪ held s) s)) as (m & E & V).
  assert (y ∉ held s) as Hyh by (intros Hin; apply Hh in Hin as [_ ?]; congruence).
  destruct (bzero_ok y (logging bp m s) Hyh) as (m' & E' & V').
  exists (logging y m' (logging bp m s)). split.
  { exec_by E. unfold log_write at 1. exec. erewrite bind_Ret; [|apply brelse_run; cbn; set_solver]. cbv beta.
    unfold with_img, with_held at 1. cbn. rewrite held_back by done. fold (logging bp m s). by exec_by E'. }
  assert (view (logging bp m s) = upd8 (view s) (bitaddr (sb s) y) (Z.lor (view s (bitaddr (sb s) y)) (2 ^ (y `mod` 8)))) as V1 by exact V.
  assert (forall a, in_block y a -> ~ meta_byte (sb s) a) as Hnm by (intros a Ha; apply (data_not_meta _ y); [done|lia|done]).
  split; [|split; [|done]].
  - assert (forall c, 0 <= c < sb_size (sb s) -> bit (sb s) (view (logging bp m s)) c = if decide (c = y) then true else bit (sb s) (view s) c) as Hb1.
    { intros c Hc. rewrite V1. apply (bit_upd _ _ _ 1); [done|done|done| |lia]. intros i Hi. apply testbit_lor8; [apply byte_range|zlia|done]. }
    split; [done|done|done| | |].
    + intros c Hc. rewrite <-Hb1 by done. unfold bit. rewrite V', decide_False; [done|].
      intros Hin. by eapply Hnm, bitaddr_meta.
    + intros a Ha. by rewrite V', decide_True.
    + intros a Ha Hb. rewrite V', decide_False, V1 by done. by apply upd8_out.
  - eapply frame_trans.
    + apply logging_frame. intros a Ha. rewrite V1. apply upd8_out. intros ->. apply Ha. rewrite <-Eb. dlia.
    + apply logging_frame. intros a Ha. by rewrite V', decide_False.
Qed.

Lemma balloc_in_ok s b lo k : fs_ok s -> 0 <= lo -> b `mod` BPB = 0 -> 0 <= b -> lo + Z.of_nat k <= BPB ->
  b + lo + Z.of_nat k <= sb_size (sb s) -> (forall c, 0 <= c < b + lo -> bit (sb s) (view s) c = true) ->
  let s1 := with_held ({[ BBLOCK b (sb s) ]} ∪ held s) s in
  exists r s', for_until (seqZ lo (Z.of_nat k)) (fun bi =>
    let m := 2 ^ (bi `mod` 8) in
    c ← ld8 (BBLOCK b (sb s) * BSIZE + bi / 8);
    if Z.land c m =? 0 then
      st8 (BBLOCK b (sb s) * BSIZE + bi / 8) (Z.lor c m);; log_write (BBLOCK b (sb s));; brelse (BBLOCK b (sb s));;
      bzero (b + bi);; mret (Some (b + bi))
    else mret None) s1 = Ret r s' /\
  match r with
  | Some y => taken (sb s) (view s) (view s') y /\ frame s s' /\ icache s' = icache s /\ logged s' = {[ y ]} ∪ ({[ BBLOCK y (sb s) ]} ∪ logged s)
  | None => s' = s1 /\ forall c, 0 <= c < b + lo + Z.of_nat k -> bit (sb s) (view s) c = true
  end.
Proof.
  intros Hfs Hlo Hmod Hb. revert lo Hlo. induction k as [|k IH]; intros lo Hlo Hk Hsz Hused s1.
  { exists None, s1. split; [done|]. split; [done|]. intros c Hc. apply Hused. lia. }
  rewrite Nat2Z.inj_succ in *. unfold Z.succ in *. rewrite seqZ_step by lia. cbn [for_until]. cbv zeta.
  pose proof Hfs as [[Hx Hsb Hm] Hh]. assert (0 <= b + lo < sb_size (sb s)) as Hr by lia.
  destruct (BBLOCK_addr _ (b + lo) Hx Hr) as (Ea & Ebb & _).
  assert (BBLOCK (b + lo) (sb s) = BBLOCK b (sb s)) as Eblk.
  { rewrite Ebb. destruct (BBLOCK_addr _ b Hx ltac:(lia)) as (_ & -> & _). dlia. }
  assert (BBLOCK b (sb s) * BSIZE + lo / 8 = bitaddr (sb s) (b + lo)) as Eaddr by (rewrite <-Ea, Eblk; dlia).
  assert ((b + lo) `mod` 8 = lo `mod` 8) as Em by dlia.
  rewrite !Eaddr, <-Em. unfold ld8. exec. change (view s1) with (view s). rewrite bit_land by done.
  destruct (bit (sb s) (view s) (b + lo)) eqn:Hbit; cbn [negb].
  - exec. destruct (IH (lo + 1)) as (r & s' & E & Hr'); [lia|lia|lia| |].
    { intros c Hc. destruct (decide (c = b + lo)) as [->|]; [done|apply Hused; lia]. }
    exists r, s'. split; [exact E|]. destruct r; [done|]. destruct Hr' as [-> Hall]. split; [done|]. intros c Hc. apply Hall. lia.
  - destruct (balloc_take s (BBLOCK b (sb s)) (b + lo) Hfs) as (s' & E & Ht); [|by rewrite Eblk|done|done|].
    { destruct (decide (datastart (sb s) <= b + lo)); [lia|]. rewrite Hm in Hbit by lia. done. }
    exists (Some (b + lo)), s'. split; [|exact Ht]. rewrite (bind_Ret _ _ _ _ _ E). done.
Qed.

(** [balloc] takes the first free block, or panics when there is none. *)
Lemma balloc_scan_ok s k0 k : fs_ok s -> 0 <= k0 -> k0 + Z.of_nat k = (sb_size (sb s) + BPB - 1) / BPB ->
  (forall c, 0 <= c < Z.min (k0 * BPB) (sb_size (sb s)) -> bit (sb s) (view s) c = true) ->
  exists r s', for_until ((fun k => k * BPB) <$> seqZ k0 (Z.of_nat k)) (fun b =>
    bp ← gets (fun s => BBLOCK b (sb s));
    bread bp;;
    r ← balloc_in bp b (sb_size (sb s));
    match r with Some x => mret (Some x) | None => brelse bp;; mret None end) s = Ret r s' /\
  match r with
  | Some y => taken (sb s) (view s) (view s') y /\ frame s s' /\ icache s' = icache s /\ logged s' = {[ y ]} ∪ ({[ BBLOCK y (sb s) ]} ∪ logged s)
  | None => s' = s /\ forall c, 0 <= c < sb_size (sb s) -> bit (sb s) (view s) c = true
  end.
Proof.
  intros Hfs. revert k0. induction k as [|k IH]; intros k0 Hk0 Hk Hused.
  { exists None, s. split; [done|]. split; [done|]. intros c Hc. apply Hused. dlia. }
  rewrite Nat2Z.inj_succ in *. unfold Z.succ in *. rewrite seqZ_step by lia. rewrite fmap_cons. cbn [for_until].
  pose proof Hfs as [[Hx Hsb Hm] Hh]. assert (0 <= k0 * BPB < sb_size (sb s)) as Hr by dlia.
  exec. exec_by (bread_run _ s (BBLOCK_free s (k0 * BPB) Hfs Hr)). exec. unfold balloc_in.
  destruct (balloc_in_ok s (k0 * BPB) 0 (Z.to_nat (Z.min BPB (sb_size (sb s) - k0 * BPB))) Hfs) as (r & s1 & E & Hr1);
    [lia|dlia|lia|dlia|dlia| |].
  { intros c Hc. apply Hused. lia. }
  rewrite Z2Nat.id in E, Hr1 by dlia. exec_by E. destruct r as [y|].
  - exec. exists (Some y), s1. done.
  - destruct Hr1 as [-> Hall]. exec. erewrite bind_Ret; [|apply brelse_run; cbn; set_solver]. cbv beta. exec.
    unfold with_held. cbn. rewrite held_back by (by apply BBLOCK_free).
    replace (mk_fs (img s) (logged s) (held s) (sb s) (icache s) (cwd s)) with s by (by destruct s).
    destruct (IH (k0 + 1)) as (r & s' & E' & Hr'); [lia|lia| |by exists r, s'].
    intros c Hc. apply Hall. dlia.
Qed.

(** ** Running until the disk is full

    The code above [balloc] does not check for a full disk: [balloc] panics.
    [wpf m Q s]: from [s], [m] returns with [Q], or it panics because no block
    is free. *)
Definition full (x : superblock) (v : Z -> Z) : Prop := forall c, 0 <= c < sb_size x -> bit x v c = true.
Definition wpf {A} (m : M fsst A) (Q : A -> fsst -> Prop) (s : fsst) : Prop :=
  match m s with
  | Ret a s' => Q a s'
  | Panic msg s' => msg = "balloc: out of blocks"%string /\ full (sb s') (view s')
  | _ => False
  end.
Lemma wpf_ret {A} (m : M fsst A) Q s a s' : m s = Ret a s' -> Q a s' -> wpf m Q s.
Proof. unfold wpf. by intros ->. Qed.
Lemma wpf_bind {A B} (m : M fsst A) (k : A -> M fsst B) Q s : wpf m (fun a s' => wpf (k a) Q s') s -> wpf (m ≫= k) Q s.
Proof. unfold wpf, mbind, M_bind. by destruct (m s). Qed.
Lemma wpf_mono {A} (m : M fsst A) (P Q : A -> fsst -> Prop) s : wpf m P s -> (forall a s', P a s' -> Q a s') -> wpf m Q s.
Proof. unfold wpf. destruct (m s); naive_solver. Qed.
Lemma wpf_call {A B} (m : M fsst A) (k : A -> M fsst B) (P : A -> fsst -> Prop) Q s :
  wpf m P s -> (forall a s', P a s' -> wpf (k a) Q s') -> wpf (m ≫= k) Q s.
Proof. intros H1 H2. apply wpf_bind. by eapply wpf_mono. Qed.
Lemma wpf_step {A B} (m : M fsst A) (k : A -> M fsst B) Q s a s' : m s = Ret a s' -> wpf (k a) Q s' -> wpf (m ≫= k) Q s.
Proof. intros E H. apply wpf_bind. unfold wpf at 1. by rewrite E. Qed.
Lemma wpf_assoc {A B C} (m : M fsst A) (f : A -> M fsst B) (g : B -> M fsst C) Q s :
  wpf (m ≫= (fun a => f a ≫= g)) Q s -> wpf ((m ≫= f) ≫= g) Q s.
Proof. unfold wpf. by rewrite exec_bind. Qed.

(** [balloc] takes the first free block. *)
Lemma balloc_ok s : fs_ok s ->
  wpf balloc (fun y s' => taken (sb s) (view s) (view s') y /\ frame s s' /\ icache s' = icache s /\
    logged s' = {[ y ]} ∪ ({[ BBLOCK y (sb s) ]} ∪ logged s)) s.
Proof.
  intros Hfs. unfold wpf, balloc. exec. pose proof Hfs as [[Hx _ _] _].
  destruct (balloc_scan_ok s 0 (Z.to_nat ((sb_size (sb s) + BPB - 1) / BPB)) Hfs) as (r & s' & E & Hr);
    [lia|destruct Hx; dlia|intros; lia|].
  rewrite Z2Nat.id in E by (destruct Hx; dlia). exec_by E. destruct r as [y|]; [exact Hr|].
  destruct Hr as [-> Hall]. cbn. done.
Qed.

(** ** [bfree] *)
Record given_back (x : superblock) (v v' : Z -> Z) (b : Z) : Prop := {
  gb_bits : forall c, 0 <= c < sb_size x -> bit x v' c = if decide (c = b) then false else bit x v c;
  gb_rest : forall a, a <> bitaddr x b -> v' a = v a;
}.
Lemma readsb_same s : disk_ok (sb s) (view s) -> 1 ∉ held s -> readsb s = Ret (sb s) s.
Proof.
  intros [Hx Hd _] Hh. unfold readsb. exec_by (bread_run 1 s Hh). exec.
  change (view (with_held ({[1]} ∪ held s) s)) with (view s).
  assert ((fun i => word (view s) (BSIZE + 4 * i)) <$> seqZ 0 7 = sb_words (sb s)) as ->.
  { change (seqZ 0 7) with [0; 1; 2; 3; 4; 5; 6]. cbn [fmap list_fmap]. unfold sb_words.
    rewrite (Hd 0 _ eq_refl), (Hd 1 _ eq_refl), (Hd 2 _ eq_refl), (Hd 3 _ eq_refl), (Hd 4 _ eq_refl),
      (Hd 5 _ eq_refl), (Hd 6 _ eq_refl). done. }
  unfold sb_words. erewrite bind_Ret; [|apply brelse_run; cbn; set_solver]. cbv beta. unfold with_held. cbn.
  rewrite held_back by done. by destruct s as [? ? ? [] ? ?].
Qed.
Lemma bfree_ok s b : fs_ok s -> 0 <= b < sb_size (sb s) -> bit (sb s) (view s) b = true ->
  exists s', bfree b s = Ret tt s' /\ given_back (sb s) (view s) (view s') b /\ frame s s' /\ icache s' = icache s.
Proof.
  intros Hfs Hr Hbit. pose proof Hfs as [Hd Hh]. pose proof (dk_sb _ _ Hd) as Hx.
  assert (1 ∉ held s) as H1 by (intros Hin; apply Hh in Hin as [? _]; destruct Hx; dlia).
  unfold bfree. exec_by (readsb_same s Hd H1). unfold set_sb. exec.
  replace (mk_fs (img s) (logged s) (held s) (sb s) (icache s) (cwd s)) with s by (by destruct s).
  pose proof (BBLOCK_free s b Hfs Hr) as Hbp. destruct (BBLOCK_addr _ b Hx Hr) as (Ea & _ & Eb).
  exec_by (bread_run _ s Hbp). rewrite Ea. assert (b `mod` BPB `mod` 8 = b `mod` 8) as -> by dlia.
  unfold ld8. exec. change (view (with_held ({[BBLOCK b (sb s)]} ∪ held s) s)) with (view s).
  rewrite bit_land, Hbit by done. cbn [negb]. set (bp := BBLOCK b (sb s)) in *.
  destruct (st8_run (bitaddr (sb s) b) (Z.ldiff (view s (bitaddr (sb s) b)) (2 ^ (b `mod` 8))) (with_held ({[ bp ]} ∪ held s) s)) as (m & E & V).
  exec_by E. unfold log_write. exec. rewrite brelse_run by (cbn; set_solver).
  unfold with_img, with_held. cbn. rewrite held_back by done. fold (logging bp m s).
  assert (view (logging bp m s) = upd8 (view s) (bitaddr (sb s) b) (Z.ldiff (view s (bitaddr (sb s) b)) (2 ^ (b `mod` 8)))) as V1 by exact V.
  eexists. split; [reflexivity|]. split; [split|split; [|done]].
  - intros c Hc. rewrite V1. apply (bit_upd _ _ _ 0); [done|done|done| |lia]. intros i Hi.
    apply testbit_ldiff8; [apply byte_range|zlia|done].
  - intros a Ha. rewrite V1. by apply upd8_out.
  - apply logging_frame. intros a Ha. rewrite V1. apply upd8_out. intros ->. apply Ha. rewrite <-Eb. dlia.
Qed.
