(* ===== verification/XFile.v ===== *)
(** * The blocks of an inode of xv6

    An inode in memory names its blocks: twelve direct ones, and more in the
    indirect block; 0 for none.  [inode_ok] says that the blocks are data in
    use and distinct.  [bmap] finds a block of the inode and adds a cleared one
    where there is none, so it changes no byte of the file and nothing that
    belongs to others. *)
From S2P Require Import Prelude Bytes XFs XFsAlloc.

Definition addr (e : inode) (k : Z) : Z := default 0 (zget (i_addrs e) k).
Definition indirect (e : inode) : Z := addr e NDIRECT.
Definition iblock (v : Z -> Z) (e : inode) (n : Z) : Z :=
  if n <? NDIRECT then addr e n else
  if indirect e =? 0 then 0 else word v (indirect e * BSIZE + 4 * (n - NDIRECT)).
(** The byte at [pos] of the file. *)
Definition ibyte (v : Z -> Z) (e : inode) (pos : Z) : Z :=
  let b := iblock v e (pos / BSIZE) in
  if b =? 0 then 0 else v (b * BSIZE + pos `mod` BSIZE).
Definition inuse (x : superblock) (v : Z -> Z) (b : Z) : Prop :=
  datastart x <= b < sb_size x /\ bit x v b = true.
Record inode_ok (x : superblock) (v : Z -> Z) (e : inode) : Prop := {
  io_len : zlen (i_addrs e) = NDIRECT + 1;
  io_ind : indirect e <> 0 -> inuse x v (indirect e);
  io_data : forall n, 0 <= n < MAXFILE -> iblock v e n <> 0 -> inuse x v (iblock v e n) /\ iblock v e n <> indirect e;
  io_inj : forall m n, 0 <= m < MAXFILE -> 0 <= n < MAXFILE -> iblock v e m <> 0 -> iblock v e m = iblock v e n -> m = n;
}.
(** The blocks of the inode, and the blocks of others: those before the bitmap,
    and data that is not the inode's. *)
Definition iowned (v : Z -> Z) (e : inode) (b : Z) : Prop :=
  (indirect e <> 0 /\ b = indirect e) \/ exists n, 0 <= n < MAXFILE /\ iblock v e n <> 0 /\ b = iblock v e n.
Definition iother (x : superblock) (v : Z -> Z) (e : inode) (b : Z) : Prop :=
  (0 <= b < sb_bmapstart x \/ inuse x v b) /\ ~ iowned v e b.

(** The inode has only got blocks. *)
Record igrown (x : superblock) (e e' : inode) (v v' : Z -> Z) : Prop := {
  ig_disk : disk_ok x v';
  ig_ok : inode_ok x v' e';
  ig_bits : forall b, inuse x v b -> inuse x v' b;
  ig_same : e' = with_addrs (i_addrs e') e;
  ig_ind : indirect e <> 0 -> indirect e' = indirect e;
  ig_block : forall n, 0 <= n < MAXFILE -> iblock v e n <> 0 -> iblock v' e' n = iblock v e n;
  ig_other : forall b, iother x v e b -> iother x v' e' b /\ forall a, in_block b a -> v' a = v a;
}.
Definition isame (e e' : inode) (v v' : Z -> Z) : Prop :=
  forall pos, 0 <= pos < MAXFILE * BSIZE -> ibyte v' e' pos = ibyte v e pos.

Lemma with_addrs_same e : with_addrs (i_addrs e) e = e.
Proof. by destruct e. Qed.
Lemma igrown_refl x e v : disk_ok x v -> inode_ok x v e -> igrown x e e v v.
Proof. split; [done|done|done| |done|done|done]. by rewrite with_addrs_same. Qed.
Lemma igrown_trans x e1 e2 e3 v1 v2 v3 : igrown x e1 e2 v1 v2 -> igrown x e2 e3 v2 v3 -> igrown x e1 e3 v1 v3.
Proof.
  intros [_ _ M1 S1 I1 B1 O1] [D F M2 S2 I2 B2 O2]. split; [done|done|auto| | | |].
  - rewrite S2 at 1. by rewrite S1.
  - intros Hn. rewrite I2, I1; [done|done|by rewrite I1].
  - intros n Hr Hn. rewrite B2, B1; [done|done|done|done|by rewrite B1].
  - intros b [Hb1 E1]%O1. destruct (O2 b Hb1) as [Hb2 E2]. split; [done|]. intros a Ha. by rewrite E2, E1.
Qed.
Lemma isame_trans e1 e2 e3 v1 v2 v3 : isame e1 e2 v1 v2 -> isame e2 e3 v2 v3 -> isame e1 e3 v1 v3.
Proof. intros H1 H2 pos Hp. by rewrite H2, H1. Qed.

(** ** After an allocation *)
Section Taken.
Context (x : superblock) (v v' : Z -> Z) (y : Z).
Hypothesis Hd : disk_ok x v.
Hypothesis Ht : taken x v v' y.

Lemma taken_keep b a : 0 <= b < sb_bmapstart x \/ inuse x v b -> in_block b a -> v' a = v a.
Proof using Hd Ht.
  intros Hb Ha. pose proof (dk_sb _ _ Hd) as Hx. pose proof (tk_range _ _ _ _ Ht) as Hy.
  apply (tk_rest _ _ _ _ Ht).
  - intros ->. destruct Hx, Hb as [Hb|[Hb _]]; dlia.
  - intros Hin. assert (b = y) as -> by (apply block_in in Hin, Ha; congruence).
    destruct Hb as [Hb|[_ Hb]]; [destruct Hx; dlia|]. pose proof (tk_free _ _ _ _ Ht). congruence.
Qed.
Lemma taken_used b : inuse x v b -> inuse x v' b /\ b <> y.
Proof using Hd Ht.
  intros [Hr Hb]. assert (b <> y) as Hne by (intros ->; pose proof (tk_free _ _ _ _ Ht); congruence).
  split; [|done]. split; [done|]. pose proof (dk_sb _ _ Hd) as [? ? ? ? ?].
  rewrite (tk_bits _ _ _ _ Ht), decide_False by (done || dlia). done.
Qed.
Lemma taken_new : inuse x v' y /\ y <> 0.
Proof using Hd Ht.
  pose proof (tk_range _ _ _ _ Ht). pose proof (dk_sb _ _ Hd) as [? ? ? ? ?].
  split; [|dlia]. split; [done|]. rewrite (tk_bits _ _ _ _ Ht), decide_True by (done || dlia). done.
Qed.
Lemma taken_disk : disk_ok x v'.
Proof using Hd Ht.
  pose proof (tk_range _ _ _ _ Ht) as Hy. destruct Hd as [Hx Hs Hu]. split; [done| |].
  - intros i w Hi. rewrite <-(Hs i w Hi). apply word_ext. intros j Hj. apply zget_Some_range in Hi.
    unfold zlen, sb_words in Hi. cbn in Hi. apply (taken_keep 1); [left|]; destruct Hx; dlia.
  - intros b Hb. destruct Hx. rewrite (tk_bits _ _ _ _ Ht), decide_False by dlia. by apply Hu.
Qed.
End Taken.
(** Changes outside of the layout. *)
Lemma disk_data x v v' b : disk_ok x v -> datastart x <= b -> (forall a, ~ in_block b a -> v' a = v a) ->
  disk_ok x v' /\ forall c, inuse x v c -> inuse x v' c.
Proof.
  intros Hd Hb Hf. destruct (disk_frame x v v' Hd) as [Hd' Hbit].
  - intros a Ha. apply Hf. intros Hin. by eapply data_not_meta; [apply Hd|exact Hb|exact Hin|].
  - split; [done|]. intros c [Hc1 Hc2]. split; [done|]. pose proof (dk_sb _ _ Hd) as [? ? ? ? ?]. rewrite Hbit by dlia. done.
Qed.

(** ** A new block in one slot

    [y] was free and becomes block [n0] of the inode, or its indirect block. *)
Section Filled.
Context (x : superblock) (v v' : Z -> Z) (e : inode) (l : list Z) (y n0 : Z).
Let e' := with_addrs l e.
Hypothesis Hd : disk_ok x v.
Hypothesis He : inode_ok x v e.
Hypothesis Hd' : disk_ok x v'.
Hypothesis Hlen : zlen l = NDIRECT + 1.
Hypothesis Hy : bit x v y = false.
Hypothesis Hyr : datastart x <= y.
Hypothesis Hnew : inuse x v' y.
Hypothesis Hused : forall b, inuse x v b -> inuse x v' b.
Hypothesis Hkeep : forall b a, 0 <= b < sb_bmapstart x \/ inuse x v b -> ~ (indirect e <> 0 /\ b = indirect e) ->
  in_block b a -> v' a = v a.
Hypothesis Hzero : forall a, in_block y a -> v' a = 0.
Hypothesis Hn0 : iblock v e n0 = 0.
Hypothesis Hblock : forall n, 0 <= n < MAXFILE -> iblock v' e' n = if decide (n = n0) then y else iblock v e n.
Hypothesis Hind : indirect e' = indirect e \/ (indirect e = 0 /\ indirect e' = y /\ ~ 0 <= n0 < MAXFILE).

Lemma filled_y b : inuse x v b -> b <> y.
Proof using Hy. intros [_ Hb] ->. congruence. Qed.
Lemma filled_pos : y <> 0.
Proof using Hyr Hd. pose proof (dk_sb _ _ Hd) as [? ? ? ? ?]. dlia. Qed.
Lemma filled_inode : inode_ok x v' e'.
Proof using Hd He Hlen Hy Hyr Hnew Hused Hn0 Hblock Hind.
  pose proof filled_pos. split; [done| | |].
  - intros Hi. destruct Hind as [E|(_ & -> & _)]; [|done]. rewrite E in *. by apply Hused, (io_ind _ _ _ He).
  - intros n Hn. rewrite Hblock by done. case_decide as E.
    + intros _. split; [done|]. destruct Hind as [->|(_ & _ & Hno)]; [|by subst].
      destruct (decide (indirect e = 0)) as [->|Hi]; [done|]. intros Eq. by apply (filled_y _ (io_ind _ _ _ He Hi)).
    + intros Hb. destruct (io_data _ _ _ He n Hn Hb) as [Hu Hne]. split; [auto|].
      destruct Hind as [->|(_ & -> & _)]; [done|]. by apply filled_y.
  - intros m n Hm Hn. rewrite !Hblock by done. repeat case_decide; subst; try done.
    + intros _ E. exfalso. rewrite E in Hnew. destruct (io_data _ _ _ He n Hn) as [Hu _]; [congruence|]. by apply (filled_y _ Hu).
    + intros Hb E. exfalso. destruct (io_data _ _ _ He m Hm Hb) as [Hu _]. by apply (filled_y _ Hu).
    + by apply (io_inj _ _ _ He).
Qed.
Lemma filled_owned b : iowned v' e' b -> iowned v e b \/ b = y.
Proof using Hblock Hind.
  intros [[Hi ->]|(n & Hn & Hb & ->)].
  - destruct Hind as [E|(_ & -> & _)]; [|by right]. rewrite E in *. left. by left.
  - rewrite Hblock in * by done. case_decide; [by right|]. left. right. eauto.
Qed.
Lemma filled_grown : igrown x e e' v v'.
Proof using Hd He Hd' Hlen Hy Hyr Hnew Hused Hkeep Hn0 Hblock Hind.
  split; [done|by apply filled_inode|done|done| | |].
  - intros Hi. by destruct Hind as [|(? & _)].
  - intros n Hn Hb. rewrite Hblock by done. by case_decide; subst.
  - intros b [Hb Ho]. split.
    + split; [destruct Hb; [by left|right; auto]|]. intros [?| ->]%filled_owned; [done|].
      destruct Hb as [Hb|Hb]; [|by apply (filled_y _ Hb)]. pose proof (dk_sb _ _ Hd) as [? ? ? ? ?]. dlia.
    + intros a. apply Hkeep; [done|]. intros Hi. apply Ho. by left.
Qed.
Lemma filled_isame : isame e e' v v'.
Proof using He Hkeep Hzero Hn0 Hblock Hind.
  intros pos Hp. unfold ibyte. assert (0 <= pos / BSIZE < MAXFILE) as Hr by dlia. rewrite Hblock by done.
  case_decide as E.
  - rewrite E, Hn0. cbn. case_match; [done|]. apply Hzero. dlia.
  - destruct (Z.eqb_spec (iblock v e (pos / BSIZE)) 0) as [|Hb]; [done|].
    destruct (io_data _ _ _ He _ Hr Hb) as [Hu Hne]. apply (Hkeep (iblock v e (pos / BSIZE))); [by right| |dlia].
    intros [_ ?]. done.
Qed.
End Filled.

(** The three slots. *)
Section Slots.
Context (x : superblock) (v v' : Z -> Z) (e : inode) (y : Z).
Hypothesis Hd : disk_ok x v.
Hypothesis He : inode_ok x v e.
Hypothesis Ht : taken x v v' y.

Lemma word_taken b i : inuse x v b -> 0 <= i <= BSIZE - 4 -> word v' (b * BSIZE + i) = word v (b * BSIZE + i).
Proof using Hd Ht.
  intros Hb Hi. apply word_ext. intros j Hj. apply (taken_keep x v v' y Hd Ht b); [by right|dlia].
Qed.
Lemma iblock_taken n : 0 <= n < MAXFILE -> iblock v' e n = iblock v e n.
Proof using Hd He Ht.
  intros Hn. unfold iblock. case_match; [done|]. destruct (Z.eqb_spec (indirect e) 0) as [|Hi]; [done|].
  apply word_taken; [by apply (io_ind _ _ _ He)|dlia].
Qed.
Lemma addr_set k n : 0 <= k <= NDIRECT -> addr (with_addrs (zset (i_addrs e) k y) e) n = if decide (n = k) then y else addr e n.
Proof using He.
  intros Hk. unfold addr. cbn. pose proof (io_len _ _ _ He) as Hl. rewrite zget_zset. repeat case_decide; subst; try done; dlia.
Qed.

Lemma fill_direct n : 0 <= n < NDIRECT -> addr e n = 0 ->
  let e' := with_addrs (zset (i_addrs e) n y) e in
  igrown x e e' v v' /\ isame e e' v v' /\ iblock v' e' n = y.
Proof using Hd He Ht.
  intros Hn H0 e'. destruct (taken_new x v v' y Hd Ht) as [Hnew Hy0]. pose proof (taken_disk x v v' y Hd Ht) as Hd'.
  assert (indirect e' = indirect e) as Ei by (unfold indirect, e'; rewrite addr_set, decide_False by dlia; done).
  assert (iblock v e n = 0) as Hb0 by (unfold iblock; by destruct (Z.ltb_spec n NDIRECT); [|lia]).
  assert (forall m, 0 <= m < MAXFILE -> iblock v' e' m = if decide (m = n) then y else iblock v e m) as Hblock.
  { intros m Hm. rewrite <-iblock_taken by done. unfold iblock. rewrite Ei. unfold e'. rewrite addr_set by lia.
    destruct (Z.ltb_spec m NDIRECT); [done|]. by rewrite decide_False by lia. }
  split; [|split].
  - apply (filled_grown x v v' e (zset (i_addrs e) n y) y n); try done; [rewrite zlen_zset; apply He|apply Ht|apply Ht| | |by left].
    + intros b Hb. by apply (taken_used x v v' y Hd Ht).
    + intros b a Hb _. by apply (taken_keep x v v' y Hd Ht).
  - apply (filled_isame x v v' e (zset (i_addrs e) n y) y n); try done; [|apply Ht|by left].
    intros b a Hb _. by apply (taken_keep x v v' y Hd Ht).
  - rewrite Hblock, decide_True by dlia. done.
Qed.
Lemma fill_ind : indirect e = 0 ->
  let e' := with_addrs (zset (i_addrs e) NDIRECT y) e in
  igrown x e e' v v' /\ isame e e' v v' /\ indirect e' = y.
Proof using Hd He Ht.
  intros H0 e'. destruct (taken_new x v v' y Hd Ht) as [Hnew Hy0]. pose proof (taken_disk x v v' y Hd Ht) as Hd'.
  assert (indirect e' = y) as Ei by (unfold indirect, e'; rewrite addr_set, decide_True by dlia; done).
  assert (forall m, 0 <= m < MAXFILE -> iblock v' e' m = if decide (m = MAXFILE) then y else iblock v e m) as Hblock.
  { intros m Hm. rewrite decide_False by lia. unfold iblock. rewrite Ei, H0. unfold e'. rewrite addr_set by dlia.
    destruct (Z.ltb_spec m NDIRECT); [by rewrite decide_False by lia|]. cbn.
    destruct (Z.eqb_spec y 0); [done|]. apply word_zero. intros i Hi. apply (tk_zero _ _ _ _ Ht). dlia. }
  assert (iblock v e MAXFILE = 0) as Hb0 by (unfold iblock; by rewrite H0).
  assert (indirect e' = indirect e \/ (indirect e = 0 /\ indirect e' = y /\ ~ 0 <= MAXFILE < MAXFILE)) as Hind by (right; lia).
  split; [|split; [|done]].
  - apply (filled_grown x v v' e (zset (i_addrs e) NDIRECT y) y MAXFILE); try done; [rewrite zlen_zset; apply He|apply Ht|apply Ht| |].
    + intros b Hb. by apply (taken_used x v v' y Hd Ht).
    + intros b a Hb _. by apply (taken_keep x v v' y Hd Ht).
  - apply (filled_isame x v v' e (zset (i_addrs e) NDIRECT y) y MAXFILE); try done; [|apply Ht].
    intros b a Hb _. by apply (taken_keep x v v' y Hd Ht).
Qed.
Lemma fill_slot n : NDIRECT <= n < MAXFILE -> indirect e <> 0 -> iblock v e n = 0 ->
  let v2 := upd32 v' (indirect e * BSIZE + 4 * (n - NDIRECT)) y in
  igrown x e e v v2 /\ isame e e v v2 /\ iblock v2 e n = y.
Proof using Hd He Ht.
  intros Hn Hi Hb0 v2. destruct (taken_new x v v' y Hd Ht) as [Hnew Hy0]. pose proof (taken_disk x v v' y Hd Ht) as Hd'.
  pose proof (io_ind _ _ _ He Hi) as Hui. destruct (taken_used x v v' y Hd Ht _ Hui) as [Hui' Hiy].
  assert (forall a, ~ in_block (indirect e) a -> v2 a = v' a) as Hout by (intros a Ha; apply upd32_out; dlia).
  destruct (disk_data x v' v2 (indirect e) Hd' (proj1 (proj1 Hui)) Hout) as [Hd2 Hu2].
  assert (forall m, 0 <= m < MAXFILE -> iblock v2 e m = if decide (m = n) then y else iblock v e m) as Hblock.
  { intros m Hm. rewrite <-iblock_taken by done. unfold iblock, v2. destruct (Z.ltb_spec m NDIRECT); [by rewrite decide_False by lia|].
    destruct (Z.eqb_spec (indirect e) 0); [done|]. case_decide as E; [subst m; apply word_upd32_eq|apply word_upd32_ne; lia].
    pose proof (tk_range _ _ _ _ Ht). pose proof (dk_sb _ _ Hd) as [? ? ? ? ?]. unfold is_u32. dlia. }
  assert (forall b a, 0 <= b < sb_bmapstart x \/ inuse x v b -> ~ (indirect e <> 0 /\ b = indirect e) -> in_block b a -> v2 a = v a) as Hkeep.
  { intros b a Hb Hne Ha. rewrite Hout; [by apply (taken_keep x v v' y Hd Ht b)|]. intros Hin. apply Hne. split; [done|dlia]. }
  assert (inuse x v2 y) as Hnew2 by auto.
  split; [|split].
  - rewrite <-(with_addrs_same e) at 2.
    apply (filled_grown x v v2 e (i_addrs e) y n); rewrite ?with_addrs_same; try done; [apply He|apply Ht|apply Ht| |by left].
    intros b Hb. by apply Hu2, (taken_used x v v' y Hd Ht).
  - rewrite <-(with_addrs_same e) at 2.
    apply (filled_isame x v v2 e (i_addrs e) y n); rewrite ?with_addrs_same; try done; [|by left].
    intros a Ha. rewrite Hout; [by apply Ht|]. intros Hin. apply Hiy. dlia.
  - rewrite Hblock, decide_True by dlia. done.
Qed.
End Slots.

(** ** [bmap] *)
Lemma geti_run s ip e : zget (icache s) ip = Some e -> geti ip s = Ret e s.
Proof. intros E. unfold geti. exec. by rewrite E. Qed.
Lemma seti_run s ip e f : zget (icache s) ip = Some e -> seti ip f s = Ret tt (with_icache (zset (icache s) ip (f e)) s).
Proof. intros E. unfold seti. by exec_by (geti_run s ip e E). Qed.
Lemma addr_get x v e k : inode_ok x v e -> 0 <= k <= NDIRECT -> zget (i_addrs e) k = Some (addr e k).
Proof.
  intros He Hk. destruct (zget_in_range (i_addrs e) k) as [a Ea]; [rewrite (io_len _ _ _ He); lia|].
  unfold addr. by rewrite Ea.
Qed.

(** The state between two operations: nothing is locked but inodes. *)
Definition idle (s : fsst) : Prop := disk_ok (sb s) (view s) /\ held s = ∅.
Lemma idle_ok s : idle s -> fs_ok s.
Proof. intros [Hd Hh]. split; [done|]. intros b. rewrite Hh. intros Hb. by apply not_elem_of_empty in Hb. Qed.
(** What an operation that takes the inode [e0] on [v0] to [e] on [v] may log
    when it works on the blocks [lo] to [hi - 1]: these blocks, the indirect
    block, and the bitmap blocks of those that are new. *)
Definition footprint (x : superblock) (e0 e : inode) (v0 v : Z -> Z) (lo hi b : Z) : Prop :=
  (indirect e <> 0 /\ (b = indirect e \/ (indirect e0 = 0 /\ b = BBLOCK (indirect e) x))) \/
  exists n, lo <= n < hi /\ iblock v e n <> 0 /\ (b = iblock v e n \/ (iblock v0 e0 n = 0 /\ b = BBLOCK (iblock v e n) x)).
Lemma footprint_grown x e0 e e' v0 v v' lo hi b : igrown x e e' v v' -> 0 <= lo -> hi <= MAXFILE ->
  footprint x e0 e v0 v lo hi b -> footprint x e0 e' v0 v' lo hi b.
Proof.
  intros Hg Hlo Hhi [[Hi Hb]|(n & Hn & Hb & Hb')]; [left|right].
  - by rewrite (ig_ind _ _ _ _ _ Hg Hi).
  - exists n. rewrite (ig_block _ _ _ _ _ Hg) by (done || lia). done.
Qed.
Lemma footprint_before x e0 e e' v0 v v' lo hi b : igrown x e0 e v0 v -> 0 <= lo -> hi <= MAXFILE ->
  footprint x e e' v v' lo hi b -> footprint x e0 e' v0 v' lo hi b.
Proof.
  intros Hg Hlo Hhi [[Hi Hb]|(n & Hn & Hn0 & Hb)]; [left|right; exists n; split; [done|]]; (split; [done|]);
    destruct Hb as [->|[H0 ->]]; auto; right; (split; [|done]).
  - destruct (decide (indirect e0 = 0)) as [|Hne]; [done|]. by rewrite (ig_ind _ _ _ _ _ Hg Hne) in H0.
  - destruct (decide (iblock v0 e0 n = 0)) as [|Hne]; [done|]. rewrite (ig_block _ _ _ _ _ Hg) in H0 by (done || lia). done.
Qed.
Lemma taken_logs x y b (L : gset Z) : b ∈ {[ y ]} ∪ ({[ BBLOCK y x ]} ∪ L) -> b ∈ L \/ b = y \/ b = BBLOCK y x.
Proof. intros [->%elem_of_singleton|[->%elem_of_singleton|Hb]%elem_of_union]%elem_of_union; auto. Qed.
Record grows (ip lo hi : Z) (e e' : inode) (s s' : fsst) : Prop := {
  gw_frame : frame s s';
  gw_logs : forall b, b ∈ logged s' -> b ∈ logged s \/ footprint (sb s) e e' (view s) (view s') lo hi b;
  gw_cache : icache s' = zset (icache s) ip e';
  gw_grown : igrown (sb s) e e' (view s) (view s');
  gw_same : isame e e' (view s) (view s');
}.
Lemma grows_idle ip lo hi e e' s s' : grows ip lo hi e e' s s' -> idle s -> idle s'.
Proof.
  intros [Hf _ _ Hg _] [Hd Hh]. split; [rewrite (fr_sb _ _ Hf); apply Hg|]. by rewrite (fr_held _ _ Hf).
Qed.
Lemma igrows_refl ip lo hi e s : disk_ok (sb s) (view s) -> inode_ok (sb s) (view s) e -> zget (icache s) ip = Some e -> grows ip lo hi e e s s.
Proof. intros Hd He Hi. split; [apply frame_refl|auto|by rewrite zset_id|by apply igrown_refl|done]. Qed.
Lemma igrows_trans ip lo hi e1 e2 e3 s1 s2 s3 : 0 <= lo -> hi <= MAXFILE ->
  grows ip lo hi e1 e2 s1 s2 -> grows ip lo hi e2 e3 s2 s3 -> grows ip lo hi e1 e3 s1 s3.
Proof.
  intros Hlo Hhi [F1 L1 C1 G1 S1] [F2 L2 C2 G2 S2]. rewrite (fr_sb _ _ F1) in G2, L2. split.
  - by eapply frame_trans.
  - intros b [[?|Hb]%L1|Hb]%L2; [by left|right; by eapply footprint_grown|right; by eapply footprint_before].
  - rewrite C2, C1. by rewrite zset_zset_eq.
  - by eapply igrown_trans.
  - by eapply isame_trans.
Qed.

Section Bmap.
Context (ip lo hi : Z).
Hypothesis Hlo : 0 <= lo.
Hypothesis Hhi : hi <= MAXFILE.
Implicit Types (s : fsst) (e : inode).

Lemma alloc_direct n e s : lo <= n < hi -> idle s -> zget (icache s) ip = Some e -> inode_ok (sb s) (view s) e -> 0 <= n < NDIRECT -> addr e n = 0 ->
  wpf (a ← balloc; seti ip (fun e => with_addrs (zset (i_addrs e) n a) e);; mret a)
    (fun b s' => exists e', grows ip lo hi e e' s s' /\ iblock (view s') e' n = b /\ b <> 0) s.
Proof.
  intros Hnr Hs Hi He Hn H0. pose proof Hs as [Hd _]. eapply wpf_call; [by apply balloc_ok, idle_ok|].
  intros y s1 (Ht & Hf & Hc & Hlog). destruct (fill_direct _ _ _ _ _ Hd He Ht n Hn H0) as (Hg & Hsm & Hb).
  destruct (taken_new _ _ _ _ Hd Ht) as [_ Hy]. rewrite <-Hc in Hi.
  eapply wpf_step; [by apply seti_run|]. eapply wpf_ret; [reflexivity|]. eexists. split; [split|done]; try done.
  - destruct Hf; by split.
  - intros b Hb'. cbn in Hb'. rewrite Hlog in Hb'. apply taken_logs in Hb' as [?|Hb']; [by left|]. right. right. exists n.
    cbn [view img with_icache]. change (view (with_icache ?l s1)) with (view s1) in *. rewrite Hb. split; [done|]. split; [done|].
    destruct Hb' as [->| ->]; [by left|right]. split; [|done]. unfold iblock. by destruct (Z.ltb_spec n NDIRECT); [|lia].
  - cbn. by rewrite Hc.
Qed.
Lemma alloc_ind e s : idle s -> zget (icache s) ip = Some e -> inode_ok (sb s) (view s) e ->
  wpf (if indirect e =? 0 then
         a ← balloc; seti ip (fun e => with_addrs (zset (i_addrs e) NDIRECT a) e);; mret a
       else mret (indirect e))
    (fun b s' => exists e', grows ip lo hi e e' s s' /\ indirect e' = b /\ b <> 0 /\ (indirect e <> 0 -> e' = e /\ s' = s)) s.
Proof.
  intros Hs Hi He. pose proof Hs as [Hd _]. destruct (Z.eqb_spec (indirect e) 0) as [H0|H0].
  2: { eapply wpf_ret; [reflexivity|]. exists e. split; [by apply igrows_refl|]. done. }
  eapply wpf_call; [by apply balloc_ok, idle_ok|].
  intros y s1 (Ht & Hf & Hc & Hlog). destruct (fill_ind _ _ _ _ _ Hd He Ht H0) as (Hg & Hsm & Hb).
  destruct (taken_new _ _ _ _ Hd Ht) as [_ Hy]. rewrite <-Hc in Hi.
  eapply wpf_step; [by apply seti_run|]. eapply wpf_ret; [reflexivity|]. eexists. split; [split|done]; try done.
  - destruct Hf; by split.
  - intros b Hb'. cbn in Hb'. rewrite Hlog in Hb'. apply taken_logs in Hb' as [?|Hb']; [by left|]. right. left. rewrite Hb. split; [done|].
    destruct Hb' as [->| ->]; auto.
  - cbn. by rewrite Hc.
Qed.
Lemma alloc_slot n e s : idle s -> zget (icache s) ip = Some e -> inode_ok (sb s) (view s) e ->
  NDIRECT <= n < MAXFILE -> lo <= n < hi -> indirect e <> 0 ->
  wpf (bread (indirect e);;
       a ← ld32 (indirect e * BSIZE + 4 * (n - NDIRECT));
       a ← (if a =? 0 then
              a ← balloc; st32 (indirect e * BSIZE + 4 * (n - NDIRECT)) a;; log_write (indirect e);; mret a
            else mret a);
       brelse (indirect e);; mret a)
    (fun b s' => grows ip lo hi e e s s' /\ iblock (view s') e n = b /\ b <> 0 /\ (iblock (view s) e n <> 0 -> s' = s)) s.
Proof.
  intros Hs Hi He Hn Hnr H0. pose proof Hs as [Hd Hh]. pose proof (io_ind _ _ _ He H0) as Hu.
  assert (indirect e ∉ held s) as Hnh by (rewrite Hh; apply not_elem_of_empty).
  eapply wpf_step; [by apply bread_run|]. set (s1 := with_held ({[ indirect e ]} ∪ held s) s).
  eapply wpf_step; [reflexivity|]. change (view s1) with (view s).
  assert (word (view s) (indirect e * BSIZE + 4 * (n - NDIRECT)) = iblock (view s) e n) as ->.
  { unfold iblock. destruct (Z.ltb_spec n NDIRECT); [lia|]. by destruct (Z.eqb_spec (indirect e) 0). }
  assert (forall s2 : fsst, held s2 = held s1 -> brelse (indirect e) s2 = Ret tt (with_held (held s) s2)) as Hrel.
  { intros s2 E2. rewrite brelse_run by (rewrite E2; cbn; set_solver). rewrite E2. cbn. by rewrite held_back. }
  destruct (Z.eqb_spec (iblock (view s) e n) 0) as [Hb|Hb].
  2: { eapply wpf_step; [reflexivity|]. eapply wpf_ret; [exec_by (Hrel s1 eq_refl); reflexivity|].
       replace (with_held (held s) s1) with s by (by destruct s). split; [by apply igrows_refl|]. done. }
  apply wpf_assoc. eapply wpf_call; [apply balloc_ok; split; [exact Hd|]|].
  { intros b Hb'. cbn in Hb'. rewrite Hh in Hb'. assert (b = indirect e) as -> by set_solver. exact Hu. }
  intros y s2 (Ht & Hf & Hc & Hlog). change (sb s1) with (sb s) in *. change (view s1) with (view s) in *.
  destruct (fill_slot _ _ _ _ _ Hd He Ht n Hn H0 Hb) as (Hg & Hsm & Hbl). destruct (taken_new _ _ _ _ Hd Ht) as [_ Hy].
  destruct (st32_run (indirect e * BSIZE + 4 * (n - NDIRECT)) y s2) as (m & E & V).
  eapply wpf_ret.
  { exec. exec_by E. unfold log_write. exec. erewrite bind_Ret; [|apply Hrel; exact (fr_held _ _ Hf)]. reflexivity. }
  rewrite <-V in Hg, Hsm, Hbl. split; [split|split; [done|split; [done|]]].
  - destruct Hf as [F1 F2 F3 F4 F5]. split; cbn; [done|done|done|set_solver|].
    intros a Ha. transitivity (view s2 a); [|apply F5; intros Hin; apply Ha; set_solver].
    change (view (with_img m s2) a = view s2 a). rewrite V. apply upd32_out. intros Hr. apply Ha.
    assert (block_of a = indirect e) as -> by dlia. set_solver.
  - intros b Hb'. cbn in Hb'. rewrite Hlog in Hb'. apply elem_of_union in Hb' as [->%elem_of_singleton|Hb']; [right; left; split; [done|by left]|].
    apply taken_logs in Hb' as [?|Hb']; [by left|]. right. right. exists n.
    split; [done|]. split; [exact (eq_ind_r (fun z => z <> 0) Hy Hbl)|].
    destruct Hb' as [->| ->]; [left; symmetry; exact Hbl|right]. split; [done|]. f_equal. symmetry. exact Hbl.
  - cbn. rewrite Hc. by rewrite zset_id.
  - exact Hg.
  - exact Hsm.
  - intros Hne. by destruct Hne.
Qed.

Lemma bmap_ok bn e s : lo <= bn < hi -> idle s -> zget (icache s) ip = Some e -> inode_ok (sb s) (view s) e -> 0 <= bn < MAXFILE ->
  wpf (bmap ip bn) (fun b s' => exists e', grows ip lo hi e e' s s' /\ iblock (view s') e' bn = b /\ b <> 0 /\
    (iblock (view s) e bn <> 0 -> e' = e /\ s' = s)) s.
Proof.
  intros Hbr Hs Hi He Hbn. unfold bmap. eapply wpf_step; [by apply geti_run|].
  destruct (Z.ltb_spec bn NDIRECT) as [Hlt|Hge].
  - rewrite (addr_get _ _ _ bn He) by lia. eapply wpf_step; [reflexivity|].
    assert (iblock (view s) e bn = addr e bn) as Eb by (unfold iblock; by destruct (Z.ltb_spec bn NDIRECT); [|lia]).
    destruct (Z.eqb_spec (addr e bn) 0) as [H0|H0].
    + eapply wpf_mono; [apply (alloc_direct bn e); try done; lia|]. intros b s' (e' & Hg & Hb & Hb0). exists e'. rewrite Eb. done.
    + eapply wpf_ret; [reflexivity|]. exists e. destruct Hs. split; [by apply igrows_refl|]. done.
  - destruct (Z.ltb_spec (bn - NDIRECT) NINDIRECT); [|dlia].
    rewrite (addr_get _ _ _ NDIRECT He) by dlia. eapply wpf_step; [reflexivity|]. fold (indirect e).
    eapply wpf_call; [by apply alloc_ind|]. intros a s1 (e1 & Hg1 & <- & Hi1 & Hold). pose proof Hg1 as [Hf1 _ Hc1 Hgr1 _].
    pose proof (zget_Some_range _ _ _ Hi) as Hr.
    eapply wpf_mono; [apply (alloc_slot bn e1); [by eapply grows_idle|rewrite Hc1; by apply zget_zset_eq|
      rewrite (fr_sb _ _ Hf1); apply Hgr1|lia|done|done]|].
    intros b s2 (Hg2 & Hb & Hb0 & Hold2). exists e1. split; [by eapply igrows_trans|]. split; [done|]. split; [done|].
    intros Hne. destruct Hold as [-> ->]; [|auto]. intros E0. apply Hne. unfold iblock.
    destruct (Z.ltb_spec bn NDIRECT); [lia|]. by rewrite E0.
Qed.
End Bmap.
