(* ===== verification/XFileIO.v ===== *)
(** * Reading and writing inodes of xv6

    [readi] returns the bytes of the file and changes nothing; [writei] writes
    the bytes it is given, keeps the others, and writes the inode through to the
    disk when it has grown.  Files have no holes ([solid]), so a write inside
    the file finds its blocks: this is why the inode on the disk is current also
    when [writei] does not update it. *)
From S2P Require Import Prelude Bytes XFs XFsAlloc XFile.
From Stdlib Require Import FunctionalExtensionality.

(** ** The inode on the disk *)

Definition in_dinode (x : superblock) (inum a : Z) : Prop := dinode_at inum x <= a < dinode_at inum x + DINODE.
Record on_disk (x : superblock) (v : Z -> Z) (e : inode) : Prop := {
  od_type : s16 (half v (dinode_at (i_inum e) x)) = i_type e;
  od_major : s16 (half v (dinode_at (i_inum e) x + 2)) = i_major e;
  od_minor : s16 (half v (dinode_at (i_inum e) x + 4)) = i_minor e;
  od_nlink : s16 (half v (dinode_at (i_inum e) x + 6)) = i_nlink e;
  od_size : word v (dinode_at (i_inum e) x + 8) = i_size e;
  od_addrs : forall k, 0 <= k <= NDIRECT -> word v (dinode_at (i_inum e) x + 12 + 4 * k) = addr e k;
}.
Definition short (z : Z) : Prop := -32768 <= z < 32768.
(** The fields of an inode fit their types, and its number is one of the disk's. *)
Record typed (x : superblock) (e : inode) : Prop := {
  ty_inum : 0 <= i_inum e < sb_ninodes x;
  ty_type : short (i_type e);
  ty_major : short (i_major e);
  ty_minor : short (i_minor e);
  ty_nlink : short (i_nlink e);
}.

Lemma half_ext v v' a : v' a = v a -> v' (a + 1) = v (a + 1) -> half v' a = half v a.
Proof. unfold half. by intros -> ->. Qed.
Lemma on_disk_ext x v v' e : (forall a, in_dinode x (i_inum e) a -> v' a = v a) -> on_disk x v e -> on_disk x v' e.
Proof.
  intros Hv [H1 H2 H3 H4 H5 H6]. unfold in_dinode in Hv.
  assert (forall k, 0 <= k <= 60 -> word v' (dinode_at (i_inum e) x + k) = word v (dinode_at (i_inum e) x + k)) as Hw.
  { intros k Hk. apply word_ext. intros i Hi. apply Hv. dlia. }
  split; [rewrite <-H1|rewrite <-H2|rewrite <-H3|rewrite <-H4|rewrite <-H5; apply Hw; lia|].
  1-4: f_equal; apply half_ext; apply Hv; dlia.
  intros k Hk. rewrite <-H6, <-!Z.add_assoc by done. apply Hw. dlia.
Qed.
Lemma dinode_block x inum : sb_ok x -> 0 <= inum < sb_ninodes x ->
  IBLOCK inum x = sb_inodestart x + inum / IPB /\ 2 <= IBLOCK inum x < sb_bmapstart x.
Proof.
  intros [H1 H2 H3 H4 H5] Hi. assert (inum / IPB <= sb_ninodes x / IPB) by (apply Z.div_le_mono; dlia).
  assert (0 <= inum / IPB) by dlia. unfold IBLOCK. rewrite u32_id by (unfold is_u32; dlia). lia.
Qed.
Lemma dinode_in x inum a : in_dinode x inum a -> in_block (IBLOCK inum x) a.
Proof. unfold in_dinode, dinode_at. intros H. dlia. Qed.
Lemma dinode_apart x i j a : sb_ok x -> 0 <= i < sb_ninodes x -> 0 <= j < sb_ninodes x -> in_dinode x i a -> in_dinode x j a -> i = j.
Proof.
  intros Hx Hi Hj Ha Hb. unfold in_dinode, dinode_at in *. destruct (dinode_block x i Hx Hi) as [E1 _].
  destruct (dinode_block x j Hx Hj) as [E2 _]. rewrite E1 in Ha. rewrite E2 in Hb. dlia.
Qed.
Lemma low_not_meta x b a : sb_ok x -> 2 <= b < sb_bmapstart x -> in_block b a -> ~ meta_byte x a.
Proof. intros [H1 H2 H3 H4 H5] Hb Ha [Hm|Hm]; dlia. Qed.

(** ** [iupdate] *)
Definition upd16 (v : Z -> Z) (a y : Z) : Z -> Z := upd8 (upd8 v a y) (a + 1) (y / 256).
Lemma st16_run a y s : exists m, st16 a y s = Ret tt (with_img m s) /\ view (with_img m s) = upd16 (view s) a y.
Proof.
  unfold st16. destruct (st8_run a y s) as (m1 & E1 & V1). exec_by E1.
  destruct (st8_run (a + 1) (y / 256) (with_img m1 s)) as (m2 & E2 & V2). exists m2. rewrite E2. split; [done|].
  change (with_img m2 s) with (with_img m2 (with_img m1 s)). by rewrite V2, V1.
Qed.
Lemma half_upd16 v a y : short y -> s16 (half (upd16 v a y) a) = y.
Proof.
  unfold short, half, upd16. intros Hy. rewrite (upd8_out _ (a + 1)), !upd8_eq by lia. unfold s16, u8. case_match; zlia.
Qed.
Lemma upd16_out v a y i : i <> a -> i <> a + 1 -> upd16 v a y i = v i.
Proof. intros. unfold upd16. by rewrite !upd8_out. Qed.

(** Changes of [v] between [lo] and [hi] only. *)
Definition within (lo hi : Z) (v v' : Z -> Z) : Prop := forall a, ~ lo <= a < hi -> v' a = v a.
Lemma store_addrs (l : list Z) base s k n : 0 <= k -> k + Z.of_nat n <= zlen l -> (forall y, y ∈ l -> is_u32 y) ->
  exists m, for_each (seqZ k (Z.of_nat n)) (fun k => a ← deref (zget l k); st32 (base + 4 * k) a) s = Ret tt (with_img m s) /\
    within (base + 4 * k) (base + 4 * (k + Z.of_nat n)) (view s) (view (with_img m s)) /\
    forall j y, k <= j < k + Z.of_nat n -> zget l j = Some y -> word (view (with_img m s)) (base + 4 * j) = y.
Proof.
  intros Hk Hl Hu. revert k s Hk Hl. induction n as [|n IH]; intros k s Hk Hl.
  { exists (img s). split; [by destruct s|]. split; [done|]. lia. }
  rewrite Nat2Z.inj_succ in *. unfold Z.succ in *. rewrite seqZ_step by lia. cbn [for_each].
  destruct (zget_in_range l k ltac:(lia)) as [y Ey]. rewrite Ey. unfold deref. exec.
  destruct (st32_run (base + 4 * k) y s) as (m1 & E1 & V1). exec_by E1.
  destruct (IH (k + 1) (with_img m1 s)) as (m & E & Hw & Hv); [lia|lia|]. exists m. split; [exact E|].
  change (with_img m s) with (with_img m (with_img m1 s)). split.
  - intros a Ha. rewrite Hw by lia. rewrite V1. apply upd32_out. lia.
  - intros j z Hj Hz. destruct (decide (j = k)) as [->|]; [|apply Hv; [lia|done]].
    assert (z = y) as -> by congruence. rewrite (word_ext (view (with_img m1 s))), V1.
    + apply word_upd32_eq. by eapply Hu, zget_elem.
    + intros i Hi. apply Hw. lia.
Qed.

(** The stores of [iupdate], into the bytes of the inode at [dip]. *)
Definition dinode_store (e : inode) (dip : Z) : M fsst unit :=
  st16 dip (i_type e);; st16 (dip + 2) (i_major e);; st16 (dip + 4) (i_minor e);; st16 (dip + 6) (i_nlink e);;
  st32 (dip + 8) (i_size e);;
  for_each (seqZ 0 (NDIRECT + 1)) (fun k => a ← deref (zget (i_addrs e) k); st32 (dip + 12 + 4 * k) a).
Lemma dinode_store_ok x e s : typed x e -> is_u32 (i_size e) -> zlen (i_addrs e) = NDIRECT + 1 -> (forall y, y ∈ i_addrs e -> is_u32 y) ->
  let dip := dinode_at (i_inum e) x in
  exists m, dinode_store e dip s = Ret tt (with_img m s) /\ within dip (dip + DINODE) (view s) (view (with_img m s)) /\
    on_disk x (view (with_img m s)) e.
Proof.
  intros [_ T1 T2 T3 T4] Hsz Hl Hu dip. unfold dinode_store.
  destruct (st16_run dip (i_type e) s) as (m1 & E1 & V1). exec_by E1.
  destruct (st16_run (dip + 2) (i_major e) (with_img m1 s)) as (m2 & E2 & V2). exec_by E2.
  destruct (st16_run (dip + 4) (i_minor e) (with_img m2 s)) as (m3 & E3 & V3). exec_by E3.
  destruct (st16_run (dip + 6) (i_nlink e) (with_img m3 s)) as (m4 & E4 & V4). exec_by E4.
  destruct (st32_run (dip + 8) (i_size e) (with_img m4 s)) as (m5 & E5 & V5). exec_by E5.
  destruct (store_addrs (i_addrs e) (dip + 12) (with_img m5 s) 0 13) as (m & E & Hw & Hv); [lia|unfold NDIRECT in Hl; lia|done|].
  exists m. split; [exact E|]. change (with_img m s) with (with_img m (with_img m5 s)).
  change (with_img m5 (with_img m4 s)) with (with_img m5 s) in V5. change (with_img m4 (with_img m3 s)) with (with_img m4 s) in V4.
  change (with_img m3 (with_img m2 s)) with (with_img m3 s) in V3. change (with_img m2 (with_img m1 s)) with (with_img m2 s) in V2.
  rewrite V4, V3, V2, V1 in V5. clear E1 E2 E3 E4 E5 E V1 V2 V3 V4. unfold within in Hw. rewrite V5 in Hw.
  split; [intros a Ha; rewrite Hw, upd32_out, !upd16_out by dlia; done|].
  split; fold dip.
  - rewrite <-(half_upd16 (view s) dip (i_type e) T1). f_equal. apply half_ext; rewrite Hw, upd32_out by dlia; rewrite !(upd16_out _ (dip + _)) by lia; done.
  - rewrite <-(half_upd16 (view s) (dip + 2) (i_major e) T2). f_equal. apply half_ext; rewrite Hw, upd32_out by dlia; unfold upd16, upd8; repeat case_decide; try lia; done.
  - rewrite <-(half_upd16 (view s) (dip + 4) (i_minor e) T3). f_equal. apply half_ext; rewrite Hw, upd32_out by dlia; unfold upd16, upd8; repeat case_decide; try lia; done.
  - rewrite <-(half_upd16 (view s) (dip + 6) (i_nlink e) T4). f_equal. apply half_ext; rewrite Hw, upd32_out by dlia; unfold upd16, upd8; repeat case_decide; try lia; done.
  - erewrite word_ext; [by apply word_upd32_eq|]. intros i Hi. rewrite Hw by lia. reflexivity.
  - intros k Hk. destruct (zget_in_range (i_addrs e) k ltac:(lia)) as [y Ey]. unfold addr. rewrite Ey. cbn.
    rewrite (Hv k y) by (done || dlia). done.
Qed.
Lemma iupdate_ok ip e s : sb_ok (sb s) -> IBLOCK (i_inum e) (sb s) ∉ held s -> zget (icache s) ip = Some e -> typed (sb s) e ->
  is_u32 (i_size e) -> zlen (i_addrs e) = NDIRECT + 1 -> (forall y, y ∈ i_addrs e -> is_u32 y) ->
  let dip := dinode_at (i_inum e) (sb s) in
  exists m, iupdate ip s = Ret tt (logging (IBLOCK (i_inum e) (sb s)) m s) /\
    within dip (dip + DINODE) (view s) (view (logging (IBLOCK (i_inum e) (sb s)) m s)) /\
    on_disk (sb s) (view (logging (IBLOCK (i_inum e) (sb s)) m s)) e.
Proof.
  intros Hx Hh Hi Ht Hsz Hl Hu dip. set (bp := IBLOCK (i_inum e) (sb s)) in *.
  destruct (dinode_store_ok (sb s) e (with_held ({[ bp ]} ∪ held s) s) Ht Hsz Hl Hu) as (m & E & Hw & Ho).
  exists m. split; [|split; [exact Hw|exact Ho]]. rewrite <-(edit_block bp (dinode_store e dip) m s Hh E).
  unfold iupdate. exec_by (geti_run s ip e Hi). exec. unfold dinode_store. fold bp dip. by exec.
Qed.
Lemma addrs_u32 x v e : sb_ok x -> inode_ok x v e -> forall y, y ∈ i_addrs e -> is_u32 y.
Proof.
  intros Hx He y [k Hk]%elem_zget. pose proof (zget_Some_range _ _ _ Hk) as Hr. rewrite (io_len _ _ _ He) in Hr.
  assert (addr e k = y) as Ea by (unfold addr; by rewrite Hk). assert (y <> 0 -> inuse x v y) as Hu.
  { intros Hy. destruct (decide (k = NDIRECT)) as [->|Hn]; [rewrite <-Ea in *; by apply (io_ind _ _ _ He)|].
    assert (iblock v e k = y) as Eb by (unfold iblock; destruct (Z.ltb_spec k NDIRECT); [done|lia]).
    rewrite <-Eb in *. apply (io_data _ _ _ He); [dlia|done]. }
  destruct (decide (y = 0)) as [->|Hy]; [done|]. destruct (Hu Hy) as [Hr' _]. destruct Hx. unfold is_u32. dlia.
Qed.
Lemma iblock_ext v v' e : (indirect e <> 0 -> forall a, in_block (indirect e) a -> v' a = v a) ->
  forall n, 0 <= n < MAXFILE -> iblock v' e n = iblock v e n.
Proof.
  intros Hv n Hn. unfold iblock. destruct (Z.ltb_spec n NDIRECT); [done|].
  destruct (Z.eqb_spec (indirect e) 0) as [|Hi]; [done|]. apply word_ext. intros i Hi'. apply Hv; [done|]. dlia.
Qed.
(** A change that keeps the layout and the indirect block. *)
Section Layout.
Context (x : superblock) (v v' : Z -> Z) (e : inode).
Hypothesis Hbits : forall b, inuse x v b -> inuse x v' b.
Hypothesis Hind : indirect e <> 0 -> forall a, in_block (indirect e) a -> v' a = v a.
Lemma inode_ext : inode_ok x v e -> inode_ok x v' e.
Proof using Hbits Hind.
  intros [H1 H2 H3 H4]. split; [done|auto| |].
  - intros n Hn. rewrite (iblock_ext v v') by done. intros Hb. destruct (H3 n Hn Hb). auto.
  - intros m n Hm Hn. rewrite !(iblock_ext v v') by done. by apply H4.
Qed.
Lemma owned_ext b : iowned v' e b -> iowned v e b.
Proof using Hind.
  intros [?|(n & Hn & Hb & E)]; [by left|]. rewrite (iblock_ext v v') in * by done. right. eauto.
Qed.
Lemma other_ext b : iother x v e b -> iother x v' e b.
Proof using Hbits Hind. intros [[Hb|Hb] Ho]; (split; [auto|by intros ?%owned_ext]). Qed.
End Layout.

(** ** [readi] *)

(** No holes, and a size that the blocks can hold. *)
Definition solid (v : Z -> Z) (e : inode) : Prop :=
  0 <= i_size e <= MAXFILE * BSIZE /\ forall n, 0 <= n -> n * BSIZE < i_size e -> iblock v e n <> 0.

Lemma bmap_hit ip e n s : idle s -> zget (icache s) ip = Some e -> inode_ok (sb s) (view s) e -> 0 <= n < MAXFILE ->
  iblock (view s) e n <> 0 -> bmap ip n s = Ret (iblock (view s) e n) s.
Proof.
  intros [Hd Hh] Hi He Hn Hb. unfold bmap. exec_by (geti_run s ip e Hi). unfold iblock in *.
  destruct (Z.ltb_spec n NDIRECT) as [Hlt|Hge].
  - rewrite (addr_get _ _ _ n He) by lia. unfold deref. exec. by destruct (Z.eqb_spec (addr e n) 0).
  - destruct (Z.ltb_spec (n - NDIRECT) NINDIRECT); [|dlia]. rewrite (addr_get _ _ _ NDIRECT He) by dlia.
    unfold deref. exec. fold (indirect e). destruct (Z.eqb_spec (indirect e) 0) as [|Hi0]; [done|]. exec.
    assert (indirect e ∉ held s) as Hnh by (rewrite Hh; apply not_elem_of_empty).
    exec_by (bread_run (indirect e) s Hnh). unfold ld32. exec.
    change (view (with_held _ s)) with (view s). set (w := word (view s) (indirect e * BSIZE + 4 * (n - NDIRECT))) in *.
    destruct (Z.eqb_spec w 0); [done|]. exec. erewrite bind_Ret; [|apply brelse_run; cbn; set_solver]. cbn.
    unfold with_held. cbn. rewrite held_back by done. by destruct s.
Qed.
(** Reading within one block. *)
Lemma load_block b a k s : idle s ->
  let s1 := with_held ({[ b ]} ∪ held s) s in
  bread b s = Ret tt s1 /\ load_list a k s1 = Ret (view s <$> seqZ a k) s1 /\ brelse b s1 = Ret tt s.
Proof.
  intros [_ Hh] s1. assert (b ∉ held s) as Hnh by (rewrite Hh; apply not_elem_of_empty).
  split; [by apply bread_run|]. split; [done|]. rewrite brelse_run by (cbn; set_solver).
  unfold with_held. cbn. rewrite held_back by done. by destruct s.
Qed.
Lemma ibyte_run v e pos k : 0 <= pos -> 0 <= k <= BSIZE - pos `mod` BSIZE -> iblock v e (pos / BSIZE) <> 0 ->
  v <$> seqZ (iblock v e (pos / BSIZE) * BSIZE + pos `mod` BSIZE) k = ibyte v e <$> seqZ pos k.
Proof.
  intros Hp Hk Hb. apply fmap_seqZ_ext. intros i Hi. unfold ibyte.
  assert ((pos + i) / BSIZE = pos / BSIZE) as -> by dlia. destruct (Z.eqb_spec (iblock v e (pos / BSIZE)) 0); [done|]. f_equal. dlia.
Qed.

Section Read.
Context `{DevSw} (ip : Z).
Implicit Types (s : fsst) (e : inode).

Lemma read_loop e off n s fuel tot : idle s -> zget (icache s) ip = Some e -> inode_ok (sb s) (view s) e -> solid (view s) e ->
  0 <= off -> 0 <= tot <= n -> off + n <= i_size e -> (Z.to_nat (n - tot) < fuel)%nat ->
  loop fuel (fun '(tot, off, dst) =>
    if tot <? n then
      b ← bmap ip (off / BSIZE);
      bread b;;
      let m := Z.min (n - tot) (BSIZE - off `mod` BSIZE) in
      l ← load_list (b * BSIZE + off `mod` BSIZE) m;
      brelse b;;
      mret (inl (tot + m, u32 (off + m), dst ++ l))
    else mret (inr (n, dst))) (tot, off + tot, ibyte (view s) e <$> seqZ off tot) s
  = Ret (n, ibyte (view s) e <$> seqZ off n) s.
Proof.
  intros Hs Hi He [Hsz Hsolid] Hoff. revert tot. induction fuel as [|fuel IH]; intros tot Ht Hn Hfuel; [lia|].
  cbn [loop]. destruct (Z.ltb_spec tot n) as [Hlt|Hge].
  2: { exec. assert (tot = n) as -> by lia. done. }
  set (pos := off + tot). set (m := Z.min (n - tot) (BSIZE - pos `mod` BSIZE)).
  assert (0 < m <= BSIZE - pos `mod` BSIZE /\ m <= n - tot) as [Hm1 Hm2] by (unfold m; dlia).
  assert (iblock (view s) e (pos / BSIZE) <> 0) as Hb by (apply Hsolid; unfold pos; dlia).
  exec. exec_by (bmap_hit ip e (pos / BSIZE) s Hs Hi He ltac:(unfold pos; dlia) Hb).
  set (b := iblock (view s) e (pos / BSIZE)) in *. destruct (load_block b (b * BSIZE + pos `mod` BSIZE) m s Hs) as (E1 & E2 & E3).
  exec. exec_by E1. cbv zeta. fold m. exec. exec_by E2. exec. exec_by E3. exec. unfold b. rewrite ibyte_run by first [done | lia | unfold pos; lia].
  rewrite u32_id by (unfold is_u32, pos; dlia).
  rewrite <-(IH (tot + m)) by lia. f_equal. f_equal; [unfold pos; f_equal; lia|]. rewrite seqZ_app, fmap_app by lia. done.
Qed.

(** What [readi] returns: the bytes between [off] and the end of the file. *)
Definition read_bytes (v : Z -> Z) (e : inode) (off n : Z) : Z * list Z :=
  if (i_size e <? off) || (4294967296 <=? off + n) then (-1, [])
  else let k := Z.min n (i_size e - off) in (k, ibyte v e <$> seqZ off k).
Lemma readi_ok e off n s : idle s -> zget (icache s) ip = Some e -> inode_ok (sb s) (view s) e -> solid (view s) e ->
  i_type e <> T_DEV -> is_u32 off -> is_u32 n -> readi ip off n s = Ret (read_bytes (view s) e off n) s.
Proof.
  intros Hs Hi He Hso Hty Ho Hn. unfold readi. exec_by (geti_run s ip e Hi). destruct (Z.eqb_spec (i_type e) T_DEV); [done|].
  unfold read_bytes. destruct (Z.ltb_spec (i_size e) off) as [|Hoff]; [done|]. cbn [orb].
  assert ((u32 (off + n) <? off) = (4294967296 <=? off + n)) as ->.
  { unfold is_u32, u32 in *. destruct (Z.leb_spec 4294967296 (off + n)); [|rewrite Z.mod_small by lia; lia].
    rewrite <-(Z.mod_unique _ _ 1 (off + n - 4294967296)) by lia. lia. }
  destruct (Z.leb_spec 4294967296 (off + n)); [done|]. rewrite u32_id by (unfold is_u32 in *; lia).
  assert ((if i_size e <? off + n then i_size e - off else n) = Z.min n (i_size e - off)) as -> by (destruct (Z.ltb_spec (i_size e) (off + n)); lia).
  set (k := Z.min n (i_size e - off)). unfold is_u32 in *.
  pose proof (read_loop e off k s (S (Z.to_nat k)) 0 Hs Hi He Hso ltac:(lia) ltac:(lia) ltac:(lia) ltac:(lia)) as E.
  rewrite Z.add_0_r in E. exact E.
Qed.
End Read.

(** ** [writei] *)

(** The bytes [l] are in the file at [off], the others are as before. *)
Definition iwritten (off : Z) (l : list Z) (e e' : inode) (v v' : Z -> Z) : Prop :=
  forall q, 0 <= q < MAXFILE * BSIZE ->
    ibyte v' e' q = match zget l (q - off) with Some y => u8 y | None => ibyte v e q end.
Lemma iwritten_nil off e e' v v' : isame e e' v v' -> iwritten off [] e e' v v'.
Proof. intros Hs q Hq. rewrite zget_none by (unfold zlen; cbn; lia). by apply Hs. Qed.
Lemma iwritten_app off l l' e1 e2 e3 v1 v2 v3 : iwritten off l e1 e2 v1 v2 -> iwritten (off + zlen l) l' e2 e3 v2 v3 ->
  iwritten off (l ++ l') e1 e3 v1 v3.
Proof.
  intros H1 H2 q Hq. rewrite (H2 q Hq), zget_app. case_decide.
  - rewrite zget_none by lia. by apply H1.
  - replace (q - (off + zlen l)) with (q - off - zlen l) by lia.
    destruct (zget l' (q - off - zlen l)); [done|]. rewrite (H1 q Hq). by rewrite zget_none by lia.
Qed.

(** Storing [l] in one data block. *)
Section DataStore.
Context (x : superblock) (v : Z -> Z) (e : inode) (pos : Z) (l : list Z).
Let b := iblock v e (pos / BSIZE).
Let v' := upd_list v (b * BSIZE + pos `mod` BSIZE) l.
Hypothesis Hd : disk_ok x v.
Hypothesis He : inode_ok x v e.
Hypothesis Hpos : 0 <= pos < MAXFILE * BSIZE.
Hypothesis Hb : b <> 0.
Hypothesis Hlen : pos `mod` BSIZE + zlen l <= BSIZE.

Lemma put_out a : ~ in_block b a -> v' a = v a.
Proof using Hlen Hpos. intros Ha. unfold v', upd_list. rewrite zget_none; [done|]. dlia. Qed.
Lemma put_used : inuse x v b /\ b <> indirect e.
Proof using He Hpos Hb. apply (io_data _ _ _ He); [clear -Hpos; dlia|done]. Qed.
Lemma put_ind : indirect e <> 0 -> forall a, in_block (indirect e) a -> v' a = v a.
Proof using He Hpos Hb Hlen. intros _ a Ha. apply put_out. intros Hin. apply put_used. apply block_in in Ha, Hin. congruence. Qed.
Lemma put_grown : igrown x e e v v'.
Proof using Hd He Hpos Hb Hlen.
  destruct put_used as [Hu Hne]. destruct (disk_data x v v' b Hd (proj1 (proj1 Hu)) put_out) as [Hd' Hbits].
  split; [done|by apply (inode_ext x v v' e Hbits put_ind)|done|by rewrite with_addrs_same|done| |].
  - intros n Hn _. by apply iblock_ext, Hn; apply put_ind.
  - intros c Hc. split; [by apply (other_ext x v v' e Hbits put_ind)|]. intros a Ha. apply put_out. intros Hin.
    apply (proj2 Hc). right. exists (pos / BSIZE). split; [dlia|]. split; [done|]. apply block_in in Ha, Hin. unfold b in *. congruence.
Qed.
Lemma put_bytes : iwritten pos l e e v v'.
Proof using Hd He Hpos Hb Hlen.
  intros q Hq. unfold ibyte. rewrite (iblock_ext v v' e put_ind) by dlia.
  destruct (decide (q / BSIZE = pos / BSIZE)) as [E|E].
  - rewrite E. fold b. destruct (Z.eqb_spec b 0); [done|]. unfold v', upd_list.
    replace (b * BSIZE + q `mod` BSIZE - (b * BSIZE + pos `mod` BSIZE)) with (q - pos) by dlia. done.
  - rewrite zget_none by dlia. destruct (Z.eqb_spec (iblock v e (q / BSIZE)) 0) as [|Hq0]; [done|].
    apply put_out. intros Hin. apply E. apply (io_inj _ _ _ He); [dlia|dlia|done|]. fold b. dlia.
Qed.
End DataStore.

Lemma store_block b a l s : idle s -> exists m,
  let s1 := with_held ({[ b ]} ∪ held s) s in
  let s2 := with_img m s1 in
  let s3 := mk_fs (img s2) ({[ b ]} ∪ logged s2) (held s2) (sb s2) (icache s2) (cwd s2) in
  bread b s = Ret tt s1 /\ store_list a l s1 = Ret tt s2 /\ log_write b s2 = Ret tt s3 /\
  brelse b s3 = Ret tt (logging b m s) /\ view (logging b m s) = upd_list (view s) a l.
Proof.
  intros [_ Hh]. assert (b ∉ held s) as Hnh by (rewrite Hh; apply not_elem_of_empty).
  destruct (store_list_run a l (with_held ({[ b ]} ∪ held s) s)) as (m & E & V). exists m. cbn zeta.
  split; [by apply bread_run|]. split; [exact E|]. split; [done|]. split; [|exact V].
  rewrite brelse_run by (cbn; set_solver). unfold with_held, logging. cbn. by rewrite held_back.
Qed.

(** A part of a write: blocks were added, [l] is written. *)
Record writes (ip lo hi : Z) (off : Z) (l : list Z) (e e' : inode) (s s' : fsst) : Prop := {
  wr_frame : frame s s';
  wr_logs : forall b, b ∈ logged s' -> b ∈ logged s \/ footprint (sb s) e e' (view s) (view s') lo hi b;
  wr_cache : icache s' = zset (icache s) ip e';
  wr_grown : igrown (sb s) e e' (view s) (view s');
  wr_bytes : iwritten off l e e' (view s) (view s');
}.
Lemma writes_trans ip lo hi off l l' e1 e2 e3 s1 s2 s3 : 0 <= lo -> hi <= MAXFILE -> writes ip lo hi off l e1 e2 s1 s2 ->
  writes ip lo hi (off + zlen l) l' e2 e3 s2 s3 -> writes ip lo hi off (l ++ l') e1 e3 s1 s3.
Proof.
  intros Hlo Hhi [F1 L1 C1 G1 S1] [F2 L2 C2 G2 S2]. rewrite (fr_sb _ _ F1) in G2, L2.
  split; [by eapply frame_trans| |by rewrite C2, C1, zset_zset_eq|by eapply igrown_trans|by eapply iwritten_app].
  intros b [[?|Hb]%L1|Hb]%L2; [by left|right; by eapply footprint_grown|right; by eapply footprint_before].
Qed.
Lemma grows_writes ip lo hi off e e' s s' : grows ip lo hi e e' s s' -> writes ip lo hi off [] e e' s s'.
Proof. intros [? ? ? ? ?]. split; [done|done|done|done|by apply iwritten_nil]. Qed.
Lemma writes_idle ip lo hi off l e e' s s' : writes ip lo hi off l e e' s s' -> idle s -> idle s'.
Proof. intros [Hf _ _ Hg _] [Hd Hh]. split; [rewrite (fr_sb _ _ Hf); apply Hg|]. by rewrite (fr_held _ _ Hf). Qed.
Lemma put_writes ip lo hi e pos l s m : lo <= pos / BSIZE < hi -> idle s -> zget (icache s) ip = Some e -> inode_ok (sb s) (view s) e ->
  0 <= pos < MAXFILE * BSIZE -> iblock (view s) e (pos / BSIZE) <> 0 -> pos `mod` BSIZE + zlen l <= BSIZE ->
  view (logging (iblock (view s) e (pos / BSIZE)) m s) = upd_list (view s) (iblock (view s) e (pos / BSIZE) * BSIZE + pos `mod` BSIZE) l ->
  writes ip lo hi pos l e e s (logging (iblock (view s) e (pos / BSIZE)) m s).
Proof.
  intros Hr [Hd _] Hi He Hp Hb Hl V. split.
  - apply logging_frame. intros a Ha. rewrite V. by apply (put_out (view s) e pos l Hp Hl).
  - intros b [->%elem_of_singleton|?]%elem_of_union; [|by left]. right. right. exists (pos / BSIZE).
    assert (iblock (view (logging (iblock (view s) e (pos / BSIZE)) m s)) e (pos / BSIZE) = iblock (view s) e (pos / BSIZE)) as E.
    { rewrite V. apply (ig_block _ _ _ _ _ (put_grown (sb s) (view s) e pos l Hd He Hp Hb Hl)); [dlia|done]. }
    rewrite E. auto.
  - cbn. by rewrite zset_id.
  - rewrite V. by apply put_grown.
  - rewrite V. by eapply put_bytes.
Qed.

Section Write.
Context `{DevSw} (ip : Z).
Implicit Types (s : fsst) (e : inode).

(** After a part of the write, the blocks are there, and nothing was allocated
    when the range lies inside of the file. *)
Definition last_block off n : Z := (off + n + BSIZE - 1) / BSIZE.
Definition so_far e0 s0 off n (l : list Z) e s : Prop :=
  idle s /\ writes ip (off / BSIZE) (last_block off n) off l e0 e s0 s /\ (forall q, off <= q < off + zlen l -> iblock (view s) e (q / BSIZE) <> 0) /\
  (off + n <= i_size e0 -> e = e0).
Lemma write_round {A} (r : A) e0 s0 off n l l' e s : idle s0 -> 0 <= ip < zlen (icache s0) -> solid (view s0) e0 -> so_far e0 s0 off n l e s ->
  0 <= off -> off + zlen l < off + n <= MAXFILE * BSIZE -> 0 < zlen l' -> (off + zlen l) `mod` BSIZE + zlen l' <= BSIZE -> zlen l + zlen l' <= n ->
  wpf (b ← bmap ip ((off + zlen l) / BSIZE);
       bread b;; store_list (b * BSIZE + (off + zlen l) `mod` BSIZE) l';; log_write b;; brelse b;; mret r)
    (fun r' s' => r' = r /\ exists e', so_far e0 s0 off n (l ++ l') e' s') s.
Proof.
  intros Hs0 Hip Hso (Hs & Hw & Hb & Hin) Hoff Hn Hl' Hfit Hle. pose proof (zlen_nonneg l). set (pos := off + zlen l) in *.
  pose proof Hw as [Hf _ Hc Hg _]. pose proof (fr_sb _ _ Hf) as Esb.
  assert (zget (icache s) ip = Some e) as Hi by (rewrite Hc; by apply zget_zset_eq).
  assert (inode_ok (sb s) (view s) e) as He by (rewrite Esb; apply Hg).
  set (lo := off / BSIZE) in *. set (hi := last_block off n) in *. assert (0 <= lo /\ hi <= MAXFILE) as [Hlo Hhi] by (unfold lo, hi, last_block; dlia).
  assert (lo <= pos / BSIZE < hi) as Hbr by (unfold lo, hi, last_block, pos; dlia).
  eapply wpf_call; [apply (bmap_ok ip lo hi Hlo Hhi (pos / BSIZE) e); try done; dlia|]. intros b s1 (e1 & Hg1 & <- & Hb1 & Hold).
  pose proof (grows_idle _ _ _ _ _ _ _ Hg1 Hs) as Hs1. pose proof (grows_writes ip lo hi pos _ _ _ _ Hg1) as Hw1.
  pose proof Hg1 as [Hf1 _ Hc1 Hgr1 _]. assert (zlen (icache s) = zlen (icache s0)) as El by (rewrite Hc; apply zlen_zset).
  assert (zget (icache s1) ip = Some e1) as Hi1 by (rewrite Hc1; apply zget_zset_eq; lia).
  assert (inode_ok (sb s1) (view s1) e1) as He1 by (rewrite (fr_sb _ _ Hf1); apply Hgr1).
  destruct (store_block (iblock (view s1) e1 (pos / BSIZE)) (iblock (view s1) e1 (pos / BSIZE) * BSIZE + pos `mod` BSIZE) l' s1 Hs1)
    as (m & E1 & E2 & E3 & E4 & V).
  pose proof (put_writes ip lo hi e1 pos l' s1 m Hbr Hs1 Hi1 He1 ltac:(dlia) Hb1 Hfit V) as Hw2.
  set (s2 := logging (iblock (view s1) e1 (pos / BSIZE)) m s1) in *.
  eapply wpf_ret; [exec_by E1; exec_by E2; exec_by E3; exec_by E4; reflexivity|]. split; [done|]. exists e1. split; [by eapply writes_idle|].
  assert (writes ip lo hi pos l' e e1 s s2) as Hw12.
  { apply (writes_trans ip lo hi pos [] l' e e1 e1 s s1 s2); [done|done|done|]. unfold zlen. by rewrite Z.add_0_r. }
  split; [by eapply writes_trans|]. split.
  - intros q Hq. rewrite zlen_app in Hq. pose proof (wr_grown _ _ _ _ _ _ _ _ _ Hw2) as Hgr2.
    destruct (decide (q < pos)) as [Hqp|Hqp].
    + assert (iblock (view s) e (q / BSIZE) <> 0) as Hq0 by (apply Hb; lia). assert (0 <= q / BSIZE < MAXFILE) by dlia.
      pose proof (ig_block _ _ _ _ _ (wr_grown _ _ _ _ _ _ _ _ _ Hw12) (q / BSIZE) ltac:(done) Hq0) as ->. done.
    + assert (q / BSIZE = pos / BSIZE) as -> by dlia.
      rewrite (ig_block _ _ _ _ _ Hgr2); [done|dlia|done].
  - intros Hsz. rewrite <-(Hin Hsz). apply Hold. destruct Hso as [_ Hso].
    assert (iblock (view s0) e0 (pos / BSIZE) <> 0) as Hp0 by (apply Hso; dlia). rewrite (ig_block _ _ _ _ _ Hg); [done|dlia|done].
Qed.
Lemma write_loop e0 s0 off n : idle s0 -> 0 <= ip < zlen (icache s0) -> solid (view s0) e0 -> 0 <= off -> off + n <= MAXFILE * BSIZE ->
  forall fuel l rest e s, so_far e0 s0 off n l e s -> zlen l + zlen rest = n -> (length rest < fuel)%nat ->
  wpf (loop fuel (fun '(tot, off, src) =>
    if tot <? n then
      b ← bmap ip (off / BSIZE);
      bread b;;
      let m := Z.min (n - tot) (BSIZE - off `mod` BSIZE) in
      if zlen src <? m then ub else
      store_list (b * BSIZE + off `mod` BSIZE) (take (Z.to_nat m) src);;
      log_write b;;
      brelse b;;
      mret (inl (tot + m, u32 (off + m), drop (Z.to_nat m) src))
    else mret (inr off)) (zlen l, off + zlen l, rest))
    (fun r s' => r = off + n /\ exists e', so_far e0 s0 off n (l ++ rest) e' s') s.
Proof.
  intros Hs0 Hip Hso Hoff Hmax. induction fuel as [|fuel IH]; intros l rest e s Hsf Hn Hfuel; [lia|].
  cbn [loop]. pose proof (zlen_nonneg l). pose proof (zlen_nonneg rest). destruct (Z.ltb_spec (zlen l) n) as [Hlt|Hge].
  2: { assert (rest = []) as -> by (destruct rest; [done|]; rewrite zlen_cons in *; pose proof (zlen_nonneg rest); lia).
       eapply wpf_ret; [reflexivity|]. rewrite app_nil_r. split; [lia|]. eauto. }
  set (pos := off + zlen l). set (m := Z.min (n - zlen l) (BSIZE - pos `mod` BSIZE)).
  assert (0 < m <= zlen rest /\ pos `mod` BSIZE + m <= BSIZE) as [Hm1 Hm2] by (unfold m, pos; dlia).
  cbv zeta. fold m. destruct (Z.ltb_spec (zlen rest) m) as [|_]; [lia|].
  assert (zlen (take (Z.to_nat m) rest) = m) as Et by (apply zlen_take; lia). assert (zlen (drop (Z.to_nat m) rest) = zlen rest - m) as Ed by (apply zlen_drop; lia).
  eapply wpf_call; [apply (write_round _ e0 s0 off n l (take (Z.to_nat m) rest) e s); rewrite ?Et; try done; lia|].
  intros r s' (-> & e' & Hsf'). rewrite u32_id by (unfold is_u32, pos; dlia).
  specialize (IH (l ++ take (Z.to_nat m) rest) (drop (Z.to_nat m) rest) e' s' Hsf').
  rewrite zlen_app, Et, <-app_assoc, take_drop, Z.add_assoc in IH. apply IH; [lia|]. unfold zlen in *. lia.
Qed.

(** The whole write: the file has the bytes, it is as long as it must be, and
    the inode on the disk is the one in memory. *)
Record wrote (off : Z) (l : list Z) e e' s s' : Prop := {
  wo_frame : frame s s';
  wo_logs : forall b, b ∈ logged s' -> b ∈ logged s \/ b = IBLOCK (i_inum e) (sb s) \/
    footprint (sb s) e e' (view s) (view s') (off / BSIZE) (last_block off (zlen l)) b;
  wo_cache : icache s' = zset (icache s) ip e';
  wo_disk : disk_ok (sb s) (view s');
  wo_ok : inode_ok (sb s) (view s') e';
  wo_entry : e' = with_size (Z.max (i_size e) (off + zlen l)) (with_addrs (i_addrs e') e);
  wo_bytes : iwritten off l e e' (view s) (view s');
  wo_solid : solid (view s') e';
  wo_sync : on_disk (sb s) (view s') e';
  wo_used : forall b, inuse (sb s) (view s) b -> inuse (sb s) (view s') b;
  wo_other : forall b, iother (sb s) (view s) e b -> iother (sb s) (view s') e' b /\
    forall a, in_block b a -> ~ in_dinode (sb s) (i_inum e) a -> view s' a = view s a;
}.
Lemma so_far_solid e0 s0 off n l e s : solid (view s0) e0 -> so_far e0 s0 off n l e s -> 0 <= off <= i_size e0 ->
  off + zlen l <= MAXFILE * BSIZE ->
  forall k, 0 <= k -> k * BSIZE < Z.max (i_size e0) (off + zlen l) -> iblock (view s) e k <> 0.
Proof.
  intros [Hsz Hso] (_ & [_ _ _ Hg _] & Hb & _) Hoff Hmax k Hk Hlt. destruct (decide (k * BSIZE < i_size e0)) as [Hin|Hout].
  - rewrite (ig_block _ _ _ _ _ Hg); [by apply Hso|dlia|by apply Hso].
  - replace k with (k * BSIZE / BSIZE) by dlia. apply Hb. lia.
Qed.
(** The inode is current when nothing was allocated... *)
Lemma so_far_kept e s off l e' s' : idle s -> typed (sb s) e -> on_disk (sb s) (view s) e -> inode_ok (sb s) (view s) e ->
  so_far e s off (zlen l) l e' s' -> solid (view s) e -> 0 <= off -> off + zlen l <= i_size e -> wrote off l e e' s s'.
Proof.
  intros [Hd _] Ht Hdk He Hsf Hso Hoff Hin. pose proof Hso as [Hsz _]. pose proof Hsf as (Hs' & [Hf Hlg Hc Hg Hb] & _ & Hsame).
  destruct (Hsame Hin) as []. destruct (dinode_block (sb s) (i_inum e') (dk_sb _ _ Hd) (ty_inum _ _ Ht)) as [_ Hblk].
  split; [done| |done|apply Hg|apply Hg| |done| | |apply Hg|].
  - intros b [?|?]%Hlg; auto.
  - rewrite Z.max_l by lia. by destruct e'.
  - split; [done|]. intros k Hk Hlt. pose proof (zlen_nonneg l). eapply so_far_solid; [done|done|lia|lia|done|lia].
  - eapply on_disk_ext; [|done]. intros a Ha. apply (ig_other _ _ _ _ _ Hg (IBLOCK (i_inum e') (sb s))); [|by apply dinode_in].
    split; [left; lia|]. pose proof (dk_sb _ _ Hd) as [? ? ? ? ?]. intros [[Hi E]|(n & Hn & Hbn & E)].
    + destruct (io_ind _ _ _ He Hi) as [? _]. dlia.
    + destruct (io_data _ _ _ He n Hn Hbn) as [[? _] _]. dlia.
  - intros b Hb'. destruct (ig_other _ _ _ _ _ Hg b Hb'). auto.
Qed.
Lemma inode_low x v e b : sb_ok x -> inode_ok x v e -> iowned v e b -> datastart x <= b.
Proof.
  intros Hx He [[Hi ->]|(n & Hn & Hb & ->)]; [by apply (io_ind _ _ _ He)|]. by destruct (io_data _ _ _ He n Hn Hb) as [[[? _] _] _].
Qed.
(** ... and after [iupdate]. *)
Lemma so_far_updated e s off l e' s' : idle s -> 0 <= ip < zlen (icache s) -> typed (sb s) e -> so_far e s off (zlen l) l e' s' -> solid (view s) e ->
  0 <= off <= i_size e -> i_size e < off + zlen l <= MAXFILE * BSIZE ->
  exists s2 e2, (seti ip (with_size (off + zlen l));; iupdate ip) s' = Ret tt s2 /\ wrote off l e e2 s s2.
Proof.
  intros [Hd _] Hip Ht Hsf Hso Hoff Hgrow. pose proof Hsf as ([_ Hh'] & [Hf Hlg Hc Hg Hb] & _ & _). pose proof (fr_sb _ _ Hf) as Esb.
  assert (zget (icache s') ip = Some e') as Hi by (rewrite Hc; by apply zget_zset_eq).
  set (e2 := with_size (off + zlen l) e'). set (s1 := with_icache (zset (icache s') ip e2) s').
  assert (zlen (icache s') = zlen (icache s)) as El by (rewrite Hc; apply zlen_zset).
  assert (zget (icache s1) ip = Some e2) as Hi2 by (apply zget_zset_eq; lia).
  pose proof (ig_same _ _ _ _ _ Hg) as Ee. assert (i_inum e2 = i_inum e) as En by (unfold e2; rewrite Ee; done).
  assert (typed (sb s) e2) as Ht2 by (unfold e2; rewrite Ee; destruct Ht; by split).
  pose proof (ig_ok _ _ _ _ _ Hg) as He'. pose proof (dk_sb _ _ Hd) as Hx.
  destruct (iupdate_ok ip e2 s1) as (m & E & Hw & Ho); change (sb s1) with (sb s'); rewrite ?Esb; try done.
  { change (held s1) with (held s'). rewrite Hh'. apply not_elem_of_empty. }
  { unfold e2, is_u32. cbn. dlia. }
  { apply He'. }
  { exact (addrs_u32 (sb s) (view s') e' Hx He'). }
  change (sb s1) with (sb s') in *. rewrite Esb in *. rewrite En in *. set (bp := IBLOCK (i_inum e) (sb s)) in *. set (s2 := logging bp m s1) in *.
  exists s2, e2. split; [by exec_by (seti_run s' ip e' (with_size (off + zlen l)) Hi)|].
  destruct (dinode_block (sb s) (i_inum e) Hx (ty_inum _ _ Ht)) as [_ Hblk]. fold bp in Hblk.
  assert (forall a, ~ in_dinode (sb s) (i_inum e) a -> view s2 a = view s' a) as Hv by (intros a Ha; by apply Hw).
  assert (forall a, ~ in_block bp a -> view s2 a = view s' a) as Hvb by (intros a Ha; apply Hv; by intros ?%dinode_in).
  destruct (disk_frame (sb s) (view s') (view s2) (ig_disk _ _ _ _ _ Hg)) as [Hd2 Hbit].
  { intros a Ha. apply Hvb. intros Hin. by eapply low_not_meta. }
  assert (forall b, inuse (sb s) (view s') b -> inuse (sb s) (view s2) b) as Hu2.
  { intros b [Hb1 Hb2]. split; [done|]. rewrite Hbit; [done|destruct Hx; dlia]. }
  assert (indirect e' <> 0 -> forall a, in_block (indirect e') a -> view s2 a = view s' a) as Hind.
  { intros Hi0 a Ha. apply Hvb. intros Hin. destruct (io_ind _ _ _ He' Hi0) as [? _]. destruct Hx. dlia. }
  pose proof (iblock_ext (view s') (view s2) e' Hind) as Hblock. assert (forall v n, iblock v e2 n = iblock v e' n) as Eb2 by done.
  split; [| |by cbn; rewrite Hc, zset_zset_eq|done| | | | |exact Ho| |].
  - eapply frame_trans; [exact Hf|]. pose proof (logging_frame bp m s1 Hvb) as [? ? ? ? ?]. by split.
  - intros b [->%elem_of_singleton|[?|Hfp]%Hlg]%elem_of_union; [right; by left|by left|]. right. right.
    destruct Hfp as [?|(k & Hk & Hk0 & Hk1)]; [by left|right].
    exists k. rewrite Eb2, Hblock by (unfold last_block in Hk; dlia). done.
  - destruct (inode_ext (sb s) (view s') (view s2) e' Hu2 Hind He') as [? ? ? ?]. by split.
  - rewrite Z.max_r by lia. unfold e2. rewrite Ee at 1. done.
  - intros q Hq. rewrite <-(Hb q Hq). unfold ibyte. rewrite Eb2, Hblock by dlia. case_match; [done|]. apply Hvb. intros Hin.
    destruct (io_data _ _ _ He' (q / BSIZE) ltac:(dlia) ltac:(lia)) as [[? _] _]. destruct Hx. dlia.
  - split; [unfold e2; cbn; dlia|]. intros k Hk Hlt. change (i_size e2) with (off + zlen l) in Hlt. rewrite Eb2, Hblock by dlia.
    eapply so_far_solid; [done|done|done|lia|done|lia].
  - intros b Hb'. by apply Hu2, (ig_bits _ _ _ _ _ Hg).
  - intros b Hb'. destruct (ig_other _ _ _ _ _ Hg b Hb') as [Ho' Hva]. split; [exact (other_ext (sb s) (view s') (view s2) e' Hu2 Hind b Ho')|].
    intros a Ha Hna. rewrite Hv by done. by apply Hva.
Qed.

(** A file in the inode cache. *)
Record file_in e s : Prop := {
  fi_entry : zget (icache s) ip = Some e;
  fi_typed : typed (sb s) e;
  fi_ok : inode_ok (sb s) (view s) e;
  fi_solid : solid (view s) e;
  fi_sync : on_disk (sb s) (view s) e;
  fi_file : i_type e <> T_DEV;
}.
Lemma wrote_file off l e e' s s' : wrote off l e e' s s' -> idle s -> file_in e s -> idle s' /\ file_in e' s'.
Proof.
  intros [Hf _ Hc Hd Ho Ee _ Hso Hsy _ _] [_ Hh] [Hi Ht _ _ _ Hty]. pose proof (fr_sb _ _ Hf) as Esb. split.
  - split; [by rewrite Esb|]. by rewrite (fr_held _ _ Hf).
  - split; rewrite ?Esb; try done.
    + rewrite Hc. apply zget_zset_eq. by eapply zget_Some_range.
    + rewrite Ee. destruct Ht. by split.
    + by rewrite Ee.
Qed.
Lemma writei_ok e off l s : idle s -> file_in e s -> 0 <= off -> is_u32 (off + zlen l) ->
  wpf (writei ip l off (zlen l))
    (fun r s' => if (i_size e <? off) || (MAXFILE * BSIZE <? off + zlen l) then r = -1 /\ s' = s
                 else r = zlen l /\ exists e', wrote off l e e' s s') s.
Proof.
  intros Hs Hfile Hoff Hu. pose proof Hfile as [Hi Ht He Hso Hsy Hty]. pose proof (zlen_nonneg l) as Hl. unfold writei.
  eapply wpf_step; [by apply geti_run|]. destruct (Z.eqb_spec (i_type e) T_DEV); [done|].
  rewrite (u32_id (off + zlen l)) by done. destruct (Z.ltb_spec (off + zlen l) off) as [|_]; [lia|].
  destruct (Z.ltb_spec (i_size e) off) as [|Hle]; [by eapply wpf_ret; [reflexivity|]|]. cbn [orb].
  destruct (Z.ltb_spec (MAXFILE * BSIZE) (off + zlen l)) as [|Hmax]; [by eapply wpf_ret; [reflexivity|]|].
  pose proof (zget_Some_range _ _ _ Hi) as Hip. pose proof Hs as [Hd _].
  eapply wpf_call.
  { pose proof (write_loop e s off (zlen l) Hs Hip Hso Hoff ltac:(lia) (S (length l)) [] l e s) as Hloop.
    change (zlen (@nil Z)) with 0 in Hloop. rewrite Z.add_0_r in Hloop.
    replace (S (Z.to_nat (zlen l))) with (S (length l)) by (unfold zlen; lia). apply Hloop; [|done|lia].
    split; [done|]. split; [apply grows_writes; by apply igrows_refl|]. split; [|done]. unfold zlen. cbn. lia. }
  intros r s' (-> & e' & Hsf). cbn [app] in Hsf. pose proof Hsf as (_ & [Hf _ Hc Hg _] & _).
  assert (zget (icache s') ip = Some e') as Hi' by (rewrite Hc; by apply zget_zset_eq).
  eapply wpf_step; [by apply geti_run|]. rewrite (ig_same _ _ _ _ _ Hg). cbn [i_size with_addrs].
  destruct (Z.ltb_spec 0 (zlen l)) as [Hpos|Hz]; cbn [andb]; [destruct (Z.ltb_spec (i_size e) (off + zlen l)) as [Hgrow|Hin]|].
  - destruct (so_far_updated e s off l e' s') as (s2 & e2 & E & Hw); try done.
    eapply wpf_step; [exact E|]. eapply wpf_ret; [reflexivity|]. eauto.
  - eapply wpf_ret; [reflexivity|]. split; [done|]. exists e'. by apply so_far_kept.
  - eapply wpf_ret; [reflexivity|]. split; [done|]. exists e'. apply so_far_kept; try done. lia.
Qed.
End Write.
