(* ===== verification/XTrunc.v ===== *)
(** * Truncation of an inode of xv6

    [itrunc] gives back exactly the blocks of the inode, writes the empty inode
    to the disk and leaves everything else alone; [iput] of the last reference
    to an inode without links frees the inode as well. *)
From S2P Require Import Prelude Bytes XFs XFsAlloc XFile XFileIO.

Definition bmap_byte (x : superblock) (a : Z) : Prop := sb_bmapstart x * BSIZE <= a < datastart x * BSIZE.
(** The blocks of [F] are free. *)
Record freed (x : superblock) (F : gset Z) (v v' : Z -> Z) : Prop := {
  fd_bits : forall c, 0 <= c < sb_size x -> bit x v' c = if decide (c ∈ F) then false else bit x v c;
  fd_rest : forall a, ~ bmap_byte x a -> v' a = v a;
}.
Lemma freed_refl x v : freed x ∅ v v.
Proof. split; [|done]. intros c Hc. rewrite decide_False; [done|apply not_elem_of_empty]. Qed.
Lemma freed_trans x F G v1 v2 v3 : freed x F v1 v2 -> freed x G v2 v3 -> freed x (F ∪ G) v1 v3.
Proof.
  intros [B1 R1] [B2 R2]. split.
  - intros c Hc. rewrite B2, B1 by done. repeat case_decide; try done; set_solver.
  - intros a Ha. by rewrite R2, R1.
Qed.
Lemma freed_disk x F v v' : disk_ok x v -> (forall c, c ∈ F -> datastart x <= c) -> freed x F v v' -> disk_ok x v'.
Proof.
  intros [Hx Hs Hu] HF [B R]. split; [done| |].
  - intros i w Hi. rewrite <-(Hs i w Hi). apply word_ext. intros j Hj. apply R. apply zget_Some_range in Hi.
    unfold zlen, sb_words in Hi. cbn in Hi. unfold bmap_byte. destruct Hx. dlia.
  - intros b Hb. destruct Hx. rewrite B by dlia. case_decide as E; [apply HF in E; lia|]. by apply Hu.
Qed.
Lemma freed_used x F v v' b : sb_ok x -> freed x F v v' -> inuse x v b -> b ∉ F -> inuse x v' b.
Proof. intros [? ? ? ? ?] [B R] [Hr Hb] HF. split; [done|]. rewrite B by dlia. by rewrite decide_False. Qed.

(** Steps that free the blocks of [F], and nothing that is held. *)
Record frees (F : gset Z) (s s' : fsst) : Prop := {
  fs_freed : freed (sb s) F (view s) (view s');
  fs_frame : frame s s';
  fs_okay : fs_ok s';
}.
Lemma frees_refl s : fs_ok s -> frees ∅ s s.
Proof. intros. split; [apply freed_refl|apply frame_refl|done]. Qed.
Lemma frees_trans F G s1 s2 s3 : frees F s1 s2 -> frees G s2 s3 -> frees (F ∪ G) s1 s3.
Proof.
  intros [D1 F1 O1] [D2 F2 O2]. rewrite (fr_sb _ _ F1) in D2. split; [by eapply freed_trans|by eapply frame_trans|done].
Qed.
Lemma bfree_frees b s : fs_ok s -> inuse (sb s) (view s) b -> b ∉ held s ->
  exists s', bfree b s = Ret tt s' /\ frees {[ b ]} s s' /\ icache s' = icache s.
Proof.
  intros Hs [Hr Hb] Hh. pose proof Hs as [Hd Hho]. pose proof (dk_sb _ _ Hd) as Hx.
  assert (0 <= b < sb_size (sb s)) as Hb0 by (destruct Hx; dlia).
  destruct (bfree_ok s b Hs Hb0 Hb) as (s' & E & [G1 G2] & Hf & Hc). exists s'. split; [done|]. split; [|done].
  assert (freed (sb s) {[ b ]} (view s) (view s')) as Hfd.
  { split.
    - intros c Hc'. rewrite G1 by done. repeat case_decide; try done; set_solver.
    - intros a Ha. apply G2. intros ->. apply Ha. destruct Hx. unfold bmap_byte. dlia. }
  split; [done|done|]. split; rewrite ?(fr_sb _ _ Hf).
  - eapply freed_disk; [done| |done]. intros c ->%elem_of_singleton. lia.
  - intros c Hc'. rewrite (fr_sb _ _ Hf). rewrite (fr_held _ _ Hf) in Hc'. apply (freed_used _ _ _ _ c Hx Hfd); [by apply Hho|set_solver].
Qed.

(** ** The two loops of [itrunc] *)
Section Loops.
Context (ip : Z).
Definition nonzero (f : Z -> Z) (lo hi : Z) (F : gset Z) : Prop :=
  forall c, c ∈ F <-> exists k, lo <= k < hi /\ f k <> 0 /\ c = f k.
Lemma nonzero_nil f lo : nonzero f lo lo ∅.
Proof. intros c. split; [intros Hc; by apply not_elem_of_empty in Hc|intros (k & ? & _); lia]. Qed.
Lemma nonzero_step f lo hi F G : lo < hi -> nonzero f (lo + 1) hi G ->
  (if f lo =? 0 then F = ∅ else F = {[ f lo ]}) -> nonzero f lo hi (F ∪ G).
Proof.
  intros Hlt HG HF c. rewrite elem_of_union, (HG c). split.
  - intros [Hc|(k & ? & ? & ->)]; [|exists k; split; [lia|done]]. destruct (Z.eqb_spec (f lo) 0); subst F; [by apply not_elem_of_empty in Hc|].
    apply elem_of_singleton in Hc as ->. exists lo. split; [lia|done].
  - intros (k & Hk & Hn & ->). destruct (decide (k = lo)) as [->|]; [|right; exists k; split; [lia|done]].
    left. destruct (Z.eqb_spec (f lo) 0); [done|]. subst F. by apply elem_of_singleton.
Qed.

Lemma trunc_direct n : forall lo e s, idle s -> zget (icache s) ip = Some e -> zlen (i_addrs e) = NDIRECT + 1 ->
  0 <= lo -> lo + Z.of_nat n <= NDIRECT ->
  (forall k, lo <= k < lo + Z.of_nat n -> addr e k <> 0 -> inuse (sb s) (view s) (addr e k)) ->
  (forall j k, lo <= j < lo + Z.of_nat n -> lo <= k < lo + Z.of_nat n -> addr e j <> 0 -> addr e j = addr e k -> j = k) ->
  exists F l s', for_each (seqZ lo (Z.of_nat n)) (fun i =>
    e ← geti ip;
    a ← deref (zget (i_addrs e) i);
    when (negb (a =? 0)) (bfree a;; seti ip (fun e => with_addrs (zset (i_addrs e) i 0) e))) s = Ret tt s' /\
  frees F s s' /\ icache s' = zset (icache s) ip (with_addrs l e) /\ nonzero (addr e) lo (lo + Z.of_nat n) F /\
  zlen l = NDIRECT + 1 /\ forall k, zget l k = if decide (lo <= k < lo + Z.of_nat n) then Some 0 else zget (i_addrs e) k.
Proof.
  induction n as [|n IH]; intros lo e s Hs Hi Hl Hlo Hn Hu Hinj.
  { exists ∅, (i_addrs e), s. split; [done|]. split; [by apply frees_refl, idle_ok|].
    split; [by rewrite with_addrs_same, zset_id|]. rewrite Z.add_0_r. split; [apply nonzero_nil|]. split; [done|].
    intros k. by rewrite decide_False by lia. }
  rewrite Nat2Z.inj_succ in *. unfold Z.succ in *. rewrite seqZ_step by lia. cbn [for_each].
  pose proof (zget_Some_range _ _ _ Hi) as Hip. pose proof Hs as [Hd Hh]. pose proof (dk_sb _ _ Hd) as Hx.
  destruct (zget_in_range (i_addrs e) lo ltac:(lia)) as [a Ea].
  assert (addr e lo = a) as Eaddr by (unfold addr; by rewrite Ea). exec. exec_by (geti_run s ip e Hi). rewrite Ea. unfold deref. exec.
  (* one round *)
  assert (exists G s1 l1, (when (negb (a =? 0)) (bfree a;; seti ip (fun e => with_addrs (zset (i_addrs e) lo 0) e))) s = Ret tt s1 /\
    frees G s s1 /\ icache s1 = zset (icache s) ip (with_addrs l1 e) /\ (if a =? 0 then G = ∅ else G = {[ a ]}) /\
    zlen l1 = NDIRECT + 1 /\ forall k, zget l1 k = if decide (k = lo) then Some 0 else zget (i_addrs e) k) as (G & s1 & l1 & E1 & Hf1 & Hc1 & HG & Hl1 & Hz1).
  { destruct (Z.eqb_spec a 0) as [->|Ha]; cbn [negb when].
    - exists ∅, s, (i_addrs e). split; [done|]. split; [by apply frees_refl, idle_ok|]. split; [by rewrite with_addrs_same, zset_id|].
      split; [done|]. split; [done|]. intros k. by case_decide; subst.
    - destruct (bfree_frees a s) as (s1 & E1 & Hf1 & Hc1); [by apply idle_ok|rewrite <-Eaddr; apply Hu; [lia|by rewrite Eaddr]|
        rewrite Hh; apply not_elem_of_empty|].
      rewrite <-Hc1 in Hi. exec_by E1. rewrite (seti_run s1 ip e _ Hi). eexists {[ a ]}, _, (zset (i_addrs e) lo 0). split; [reflexivity|].
      split; [|split; [cbn; by rewrite Hc1|split; [done|split; [by rewrite zlen_zset|]]]].
      + destruct Hf1 as [D [? ? ? ? ?] O]. by split; [|split|].
      + intros k. rewrite zget_zset. repeat case_decide; subst; try done; lia. }
  exec_by E1. pose proof Hf1 as [D1 Fr1 O1]. pose proof (fr_sb _ _ Fr1) as Esb.
  assert (idle s1) as Hs1 by (split; [apply O1|by rewrite (fr_held _ _ Fr1)]).
  assert (zget (icache s1) ip = Some (with_addrs l1 e)) as Hi1 by (rewrite Hc1; by apply zget_zset_eq).
  assert (forall k, lo + 1 <= k -> addr (with_addrs l1 e) k = addr e k) as Ea1.
  { intros k Hk. unfold addr. cbn. by rewrite Hz1, decide_False by lia. }
  destruct (IH (lo + 1) (with_addrs l1 e) s1) as (F & l & s' & E & Hf & Hc & HF & Hl' & Hz); [done|done|done|lia|lia| | |].
  { intros k Hk. rewrite Ea1 by lia. intros Hk0. rewrite Esb. eapply freed_used; [done|done|apply Hu; [lia|done]|].
    intros Hin. destruct (Z.eqb_spec a 0); subst G; [by apply not_elem_of_empty in Hin|]. apply elem_of_singleton in Hin.
    assert (lo = k) by (apply Hinj; [lia|lia|congruence|congruence]). lia. }
  { intros j k Hj Hk. rewrite !Ea1 by lia. apply Hinj; lia. }
  exists (G ∪ F), l, s'. split; [exact E|]. split; [by eapply frees_trans|]. split; [rewrite Hc, Hc1; by rewrite zset_zset_eq|].
  split; [|split; [done|]].
  - apply nonzero_step; [lia| |by rewrite Eaddr]. replace (lo + (Z.of_nat n + 1)) with (lo + 1 + Z.of_nat n) by lia.
    intros c. rewrite (HF c). split; intros (k & Hk & Hn0 & ->); exists k; rewrite Ea1 in * by lia; done.
  - intros k. rewrite Hz. cbn. rewrite Hz1. repeat case_decide; try done; lia.
Qed.

Lemma trunc_indirect a : forall n lo s, fs_ok s -> held s = {[ a ]} ->
  let w := fun j => word (view s) (a * BSIZE + 4 * j) in
  inuse (sb s) (view s) a -> 0 <= lo -> lo + Z.of_nat n <= NINDIRECT ->
  (forall k, lo <= k < lo + Z.of_nat n -> w k <> 0 -> inuse (sb s) (view s) (w k) /\ w k <> a) ->
  (forall j k, lo <= j < lo + Z.of_nat n -> lo <= k < lo + Z.of_nat n -> w j <> 0 -> w j = w k -> j = k) ->
  exists F s', for_each (seqZ lo (Z.of_nat n)) (fun j =>
    x ← ld32 (a * BSIZE + 4 * j);
    when (negb (x =? 0)) (bfree x)) s = Ret tt s' /\
  frees F s s' /\ icache s' = icache s /\ nonzero w lo (lo + Z.of_nat n) F.
Proof.
  induction n as [|n IH]; intros lo s Hs Hh w Ha Hlo Hn Hu Hinj.
  { exists ∅, s. split; [done|]. split; [by apply frees_refl|]. split; [done|]. rewrite Z.add_0_r. apply nonzero_nil. }
  rewrite Nat2Z.inj_succ in *. unfold Z.succ in *. rewrite seqZ_step by lia. cbn [for_each]. unfold ld32. exec. fold (w lo).
  pose proof Hs as [Hd _]. pose proof (dk_sb _ _ Hd) as Hx.
  assert (exists G s1, when (negb (w lo =? 0)) (bfree (w lo)) s = Ret tt s1 /\ frees G s s1 /\ icache s1 = icache s /\
    (if w lo =? 0 then G = ∅ else G = {[ w lo ]})) as (G & s1 & E1 & Hf1 & Hc1 & HG).
  { destruct (Z.eqb_spec (w lo) 0) as [Hw|Hw]; cbn [negb when].
    - exists ∅, s. split; [done|]. split; [by apply frees_refl|]. done.
    - destruct (Hu lo ltac:(lia) Hw) as [Hul Hne].
      destruct (bfree_frees (w lo) s) as (s1 & E1 & Hf1 & Hc1); [done|done|rewrite Hh; by apply not_elem_of_singleton|].
      by exists {[ w lo ]}, s1. }
  exec_by E1. pose proof Hf1 as [D1 Fr1 O1]. pose proof (fr_sb _ _ Fr1) as Esb.
  assert (forall k, 0 <= k < NINDIRECT -> word (view s1) (a * BSIZE + 4 * k) = w k) as Ew.
  { intros k Hk. apply word_ext. intros i Hi. apply (fd_rest _ _ _ _ D1). unfold bmap_byte. destruct Ha as [Ha _], Hx. dlia. }
  assert (forall c, inuse (sb s) (view s) c -> c <> w lo -> inuse (sb s1) (view s1) c) as Hkeep.
  { intros c Hc Hne. rewrite Esb. eapply freed_used; [done|done|done|]. intros Hin.
    destruct (Z.eqb_spec (w lo) 0); subst G; [by apply not_elem_of_empty in Hin|]. by apply elem_of_singleton in Hin. }
  assert (w lo <> a) as Hwa.
  { destruct (decide (w lo = 0)) as [->|Hw]; [|by apply Hu; [lia|]]. destruct Ha as [Ha _], Hx. dlia. }
  destruct (IH (lo + 1) s1) as (F & s' & E & Hf & Hc & HF); [done|by rewrite (fr_held _ _ Fr1)|by apply Hkeep|lia|lia| | |].
  { intros k Hk. rewrite Ew by lia. intros Hk0. destruct (Hu k ltac:(lia) Hk0) as [H1 H2]. split; [|done]. apply Hkeep; [done|].
    intros Eq. assert (k = lo) by (apply Hinj; [lia|lia|done|done]). lia. }
  { intros j k Hj Hk. rewrite !Ew by lia. apply Hinj; lia. }
  exists (G ∪ F), s'. split; [exact E|]. split; [by eapply frees_trans|]. split; [congruence|].
  apply nonzero_step; [lia| |done]. replace (lo + (Z.of_nat n + 1)) with (lo + 1 + Z.of_nat n) by lia.
  intros c. rewrite (HF c). split; intros (k & Hk & Hn0 & ->); exists k; rewrite Ew in * by lia; done.
Qed.
End Loops.

(** ** [itrunc] *)

Definition emptied (e : inode) : inode := with_size 0 (with_addrs (repeat 0 13) e).
Record truncated (ip : Z) (e : inode) (s s' : fsst) : Prop := {
  tc_frame : frame s s';
  tc_cache : icache s' = zset (icache s) ip (emptied e);
  tc_idle : idle s';
  tc_freed : forall c, 0 <= c < sb_size (sb s) -> iowned (view s) e c -> bit (sb s) (view s') c = false;
  tc_kept : forall c, 0 <= c < sb_size (sb s) -> ~ iowned (view s) e c -> bit (sb s) (view s') c = bit (sb s) (view s) c;
  tc_sync : on_disk (sb s) (view s') (emptied e);
  tc_rest : forall a, ~ bmap_byte (sb s) a -> ~ in_dinode (sb s) (i_inum e) a -> view s' a = view s a;
}.
(** The part of [itrunc] that frees the indirect block and the blocks in it. *)
Lemma trunc_rest ip e s : idle s -> zget (icache s) ip = Some e -> zlen (i_addrs e) = NDIRECT + 1 ->
  let a := indirect e in let w := fun j => word (view s) (a * BSIZE + 4 * j) in
  (a <> 0 -> inuse (sb s) (view s) a) ->
  (a <> 0 -> forall k, 0 <= k < NINDIRECT -> w k <> 0 -> inuse (sb s) (view s) (w k) /\ w k <> a) ->
  (a <> 0 -> forall j k, 0 <= j < NINDIRECT -> 0 <= k < NINDIRECT -> w j <> 0 -> w j = w k -> j = k) ->
  exists F s', when (negb (a =? 0))
    (bread a;;
     for_each (seqZ 0 NINDIRECT) (fun j =>
       x ← ld32 (a * BSIZE + 4 * j);
       when (negb (x =? 0)) (bfree x));;
     brelse a;;
     bfree a;;
     seti ip (fun e => with_addrs (zset (i_addrs e) NDIRECT 0) e)) s = Ret tt s' /\
  frees F s s' /\ icache s' = zset (icache s) ip (with_addrs (zset (i_addrs e) NDIRECT 0) e) /\
  forall c, c ∈ F <-> a <> 0 /\ (c = a \/ exists k, 0 <= k < NINDIRECT /\ w k <> 0 /\ c = w k).
Proof.
  intros Hs Hi Hl a w Ha Hw Hinj. pose proof Hs as [Hd Hh]. destruct (Z.eqb_spec a 0) as [E0|E0]; cbn [negb when].
  { exists ∅, s. split; [done|]. split; [by apply frees_refl, idle_ok|]. split.
    - rewrite (zset_id (i_addrs e)), with_addrs_same, zset_id; [done|done|]. destruct (zget_in_range (i_addrs e) NDIRECT) as [y Ey]; [dlia|].
      unfold a, indirect, addr in E0. rewrite Ey in E0. cbn in E0. congruence.
    - intros c. split; [intros Hc; by apply not_elem_of_empty in Hc|]. by intros [? _]. }
  assert (a ∉ held s) as Hnh by (rewrite Hh; apply not_elem_of_empty). exec_by (bread_run a s Hnh).
  set (s1 := with_held ({[ a ]} ∪ held s) s). assert (held s1 = {[ a ]}) as Hh1 by (unfold s1; cbn; rewrite Hh; set_solver).
  assert (fs_ok s1) as Hs1.
  { split; [exact Hd|]. intros b Hb. rewrite Hh1 in Hb. apply elem_of_singleton in Hb as ->. exact (Ha E0). }
  destruct (trunc_indirect a 128 0 s1 Hs1 Hh1 (Ha E0)) as (F & s2 & E2 & [D2 Fr2 O2] & Hc2 & HF); [lia|done|exact (Hw E0)|exact (Hinj E0)|].
  change (seqZ 0 NINDIRECT) with (seqZ 0 (Z.of_nat 128)). exec_by E2.
  assert (a ∉ F) as HaF by (intros (k & Hk & Hk0 & Ek)%HF; by destruct (Hw E0 k Hk Hk0) as [_ []]).
  pose proof (fr_sb _ _ Fr2) as Esb2. change (sb s1) with (sb s) in *.
  assert (a ∈ held s2) as Hin by (rewrite (fr_held _ _ Fr2), Hh1; by apply elem_of_singleton).
  exec_by (brelse_run a s2 Hin). set (s3 := with_held (held s2 ∖ {[ a ]}) s2).
  assert (held s3 = ∅) as Hh3 by (unfold s3; cbn; rewrite (fr_held _ _ Fr2), Hh1; apply difference_diag_L).
  assert (fs_ok s3) as Hs3 by (apply idle_ok; split; [exact (proj1 O2)|done]).
  assert (frees F s s3) as Hf13.
  { split; [exact D2| |done]. destruct Fr2 as [? ? ? ? ?]. split; [done|by rewrite Hh3|done|done|done]. }
  destruct (bfree_frees a s3 Hs3) as (s4 & E4 & Hf4 & Hc4).
  { cbn. rewrite Esb2. eapply freed_used; [apply Hd|exact D2|exact (Ha E0)|done]. }
  { rewrite Hh3. apply not_elem_of_empty. }
  exec_by E4. assert (icache s4 = icache s) as Hc by (rewrite Hc4; exact Hc2). rewrite <-Hc in Hi. rewrite (seti_run s4 ip e _ Hi).
  eexists (F ∪ {[ a ]}), _. split; [reflexivity|]. split; [|split; [cbn; by rewrite Hc|]].
  - pose proof (frees_trans _ _ _ _ _ Hf13 Hf4) as [D [? ? ? ? ?] O]. by split; [|split|].
  - intros c. rewrite elem_of_union, (HF c), elem_of_singleton. split; [intros [?|?]; by auto|]. intros [_ [?|?]]; auto.
Qed.

Lemma zeros_list (l : list Z) : zlen l = 13 -> (forall k, 0 <= k < 13 -> zget l k = Some 0) -> l = repeat 0 13.
Proof.
  intros Hl Hz. apply zget_ext; [done|]. rewrite Hl. intros k Hk. rewrite Hz by done.
  destruct (zget_in_range (repeat 0 13) k) as [y Ey]; [by rewrite <-Hl in Hk; unfold zlen in *; cbn; lia|].
  pose proof (zget_elem _ _ _ Ey) as Hin. apply list_elem_of_In, repeat_spec in Hin. congruence.
Qed.
(** All blocks of the inode go. *)
Lemma itrunc_free ip e s : idle s -> zget (icache s) ip = Some e -> inode_ok (sb s) (view s) e ->
  exists F s', (for_each (seqZ 0 NDIRECT) (fun i =>
    e ← geti ip;
    a ← deref (zget (i_addrs e) i);
    when (negb (a =? 0)) (bfree a;; seti ip (fun e => with_addrs (zset (i_addrs e) i 0) e)));;
  e ← geti ip;
  a ← deref (zget (i_addrs e) NDIRECT);
  when (negb (a =? 0))
    (bread a;;
     for_each (seqZ 0 NINDIRECT) (fun j =>
       x ← ld32 (a * BSIZE + 4 * j);
       when (negb (x =? 0)) (bfree x));;
     brelse a;;
     bfree a;;
     seti ip (fun e => with_addrs (zset (i_addrs e) NDIRECT 0) e))) s = Ret tt s' /\
  frees F s s' /\ icache s' = zset (icache s) ip (with_addrs (repeat 0 13) e) /\ forall c, c ∈ F <-> iowned (view s) e c.
Proof.
  intros Hs Hi He. pose proof He as [Hl Hind Hdata Hinj]. pose proof Hs as [Hd _]. pose proof (dk_sb _ _ Hd) as Hx.
  pose proof (zget_Some_range _ _ _ Hi) as Hip.
  assert (forall k, 0 <= k < NDIRECT -> iblock (view s) e k = addr e k) as Edir.
  { intros k Hk. unfold iblock. by destruct (Z.ltb_spec k NDIRECT); [|lia]. }
  assert (indirect e <> 0 -> forall k, 0 <= k < NINDIRECT -> iblock (view s) e (NDIRECT + k) = word (view s) (indirect e * BSIZE + 4 * k)) as Eind.
  { intros Hi0 k Hk. unfold iblock. destruct (Z.ltb_spec (NDIRECT + k) NDIRECT); [lia|]. destruct (Z.eqb_spec (indirect e) 0); [done|].
    f_equal. lia. }
  destruct (trunc_direct ip 12 0 e s Hs Hi Hl) as (F1 & l1 & s1 & E1 & Hf1 & Hc1 & HF1 & Hl1 & Hz1); [lia|done| | |].
  { intros k Hk. rewrite <-Edir by done. intros Hk0. apply Hdata; [unfold NDIRECT in *; dlia|done]. }
  { intros j k Hj Hk. rewrite <-!Edir by done. apply Hinj; unfold NDIRECT in *; dlia. }
  set (e1 := with_addrs l1 e) in *. pose proof Hf1 as [D1 Fr1 O1]. pose proof (fr_sb _ _ Fr1) as Esb.
  assert (zget (icache s1) ip = Some e1) as Hi1 by (rewrite Hc1; by apply zget_zset_eq).
  assert (idle s1) as Hs1 by (split; [apply O1|rewrite (fr_held _ _ Fr1); apply Hs]).
  assert (indirect e1 = indirect e) as Ei1 by (unfold indirect, addr, e1; cbn [i_addrs with_addrs]; by rewrite Hz1, decide_False by dlia).
  assert (zget l1 NDIRECT = Some (indirect e1)) as Eg.
  { destruct (zget_in_range l1 NDIRECT ltac:(dlia)) as [y Ey]. unfold indirect, addr, e1. cbn [i_addrs with_addrs]. by rewrite Ey. }
  (* the indirect block is as before *)
  assert (forall b, inuse (sb s) (view s) b -> (forall k, 0 <= k < NDIRECT -> addr e k <> 0 -> b <> addr e k) -> inuse (sb s1) (view s1) b) as Hkeep.
  { intros b Hb Hne. rewrite Esb. eapply freed_used; [done|done|done|]. intros (k & Hk & Hk0 & ->)%HF1. by apply (Hne k). }
  assert (indirect e <> 0 -> forall k, 0 <= k < NINDIRECT -> word (view s1) (indirect e * BSIZE + 4 * k) = word (view s) (indirect e * BSIZE + 4 * k)) as Ew.
  { intros Hi0 k Hk. apply word_ext. intros i Hi'. apply (fd_rest _ _ _ _ D1). destruct (Hind Hi0) as [? _]. unfold bmap_byte. destruct Hx. dlia. }
  destruct (trunc_rest ip e1 s1 Hs1 Hi1 Hl1) as (F2 & s2 & E2 & Hf2 & Hc2 & HF2); rewrite ?Ei1.
  { intros Hi0. apply Hkeep; [by apply Hind|]. intros k Hk Hk0. rewrite <-Edir in * by done. intros Eq. symmetry in Eq. revert Eq. apply Hdata; [dlia|done]. }
  { intros Hi0 k Hk. rewrite Ew, <-Eind by done. intros Hk0. destruct (Hdata (NDIRECT + k) ltac:(dlia) Hk0) as [Hu Hne].
    split; [|done]. apply Hkeep; [done|]. intros j Hj Hj0. rewrite <-Edir by done. intros Eq.
    assert (NDIRECT + k = j) by (apply Hinj; [dlia|dlia|done|done]). lia. }
  { intros Hi0 j k Hj Hk. rewrite !Ew, <-!Eind by done. intros Hj0 Eq. enough (NDIRECT + j = NDIRECT + k) by lia. apply Hinj; [dlia|dlia|done|done]. }
  exists (F1 ∪ F2), s2. split; [|split; [by eapply frees_trans|split]].
  - exec_by E1. exec_by (geti_run s1 ip e1 Hi1). cbn [i_addrs e1 with_addrs]. rewrite Eg. unfold deref. exec. exact E2.
  - rewrite Hc2, Hc1, zset_zset_eq. f_equal. unfold e1. change (with_addrs (zset (i_addrs (with_addrs l1 e)) NDIRECT 0) (with_addrs l1 e)) with (with_addrs (zset l1 NDIRECT 0) e).
    f_equal. apply zeros_list; [by rewrite zlen_zset|]. intros k Hk. rewrite zget_zset, Hz1. repeat case_decide; try done; dlia.
  - intros c. rewrite elem_of_union, (HF1 c), (HF2 c), Ei1. split.
    + intros [(k & Hk & Hk0 & ->)|[Hi0 [->|(k & Hk & Hk0 & ->)]]].
      * right. exists k. rewrite Edir by done. split; [unfold NDIRECT in *; dlia|done].
      * by left.
      * right. exists (NDIRECT + k). rewrite Eind by done. rewrite Ew in * by done. split; [dlia|done].
    + intros [[Hi0 ->]|(n & Hn & Hn0 & ->)]; [by right; split; [|left]|]. destruct (decide (n < NDIRECT)) as [Hlt|Hge].
      * left. exists n. rewrite Edir in * by lia. split; [unfold NDIRECT in *; lia|done].
      * right. assert (indirect e <> 0) as Hi0.
        { intros E0. apply Hn0. unfold iblock. destruct (Z.ltb_spec n NDIRECT); [lia|]. by rewrite E0. }
        split; [done|]. right. exists (n - NDIRECT). rewrite Ew, <-Eind by (done || dlia). replace (NDIRECT + (n - NDIRECT)) with n by lia.
        split; [dlia|done].
Qed.
Lemma bind_chain {A B C D E} (m1 : M fsst A) (m2 : A -> M fsst B) (m3 : A -> B -> M fsst C) (m4 : A -> B -> C -> M fsst D)
    (k : D -> M fsst E) s d s' :
  (a ← m1; b ← m2 a; c ← m3 a b; m4 a b c) s = Ret d s' -> (a ← m1; b ← m2 a; c ← m3 a b; d ← m4 a b c; k d) s = k d s'.
Proof.
  unfold mbind, M_bind. destruct (m1 s) as [a s1| | |]; try done. destruct (m2 a s1) as [b s2| | |]; try done.
  destruct (m3 a b s2) as [c s3| | |]; try done. by intros ->.
Qed.
Lemma itrunc_ok ip e s : idle s -> zget (icache s) ip = Some e -> typed (sb s) e -> inode_ok (sb s) (view s) e ->
  exists s', itrunc ip s = Ret tt s' /\ truncated ip e s s'.
Proof.
  intros Hs Hi Ht He. destruct (itrunc_free ip e s Hs Hi He) as (F & s1 & E1 & [D1 Fr1 O1] & Hc1 & HF).
  pose proof Hs as [Hd Hh]. pose proof (dk_sb _ _ Hd) as Hx. pose proof (fr_sb _ _ Fr1) as Esb.
  pose proof (zget_Some_range _ _ _ Hi) as Hip.
  assert (zget (icache s1) ip = Some (with_addrs (repeat 0 13) e)) as Hi1 by (rewrite Hc1; by apply zget_zset_eq).
  set (s2 := with_icache (zset (icache s1) ip (emptied e)) s1).
  assert (icache s2 = zset (icache s) ip (emptied e)) as Hc2 by (cbn; by rewrite Hc1, zset_zset_eq).
  assert (zget (icache s2) ip = Some (emptied e)) as Hi2 by (rewrite Hc2; by apply zget_zset_eq).
  destruct (iupdate_ok ip (emptied e) s2) as (m & E & Hw & Ho); change (sb s2) with (sb s1); rewrite ?Esb; try done.
  { change (held s2) with (held s1). rewrite (fr_held _ _ Fr1), Hh. apply not_elem_of_empty. }
  { destruct Ht. by split. }
  { cbn. intros y Hy. repeat (apply elem_of_cons in Hy as [->|Hy]; [done|]). by apply elem_of_nil in Hy. }
  change (i_inum (emptied e)) with (i_inum e) in *. change (sb s2) with (sb s1) in *. rewrite Esb in *.
  set (bp := IBLOCK (i_inum e) (sb s)) in *. exists (logging bp m s2). split.
  { unfold itrunc. rewrite (bind_chain _ _ _ _ _ _ _ _ E1). by exec_by (seti_run s1 ip _ (with_size 0) Hi1). }
  destruct (dinode_block (sb s) (i_inum e) Hx (ty_inum _ _ Ht)) as [_ Hblk]. fold bp in Hblk.
  assert (forall a, ~ in_dinode (sb s) (i_inum e) a -> view (logging bp m s2) a = view s1 a) as Hv by (intros a Ha; by apply Hw).
  assert (forall a, ~ in_block bp a -> view (logging bp m s2) a = view s1 a) as Hvb by (intros a Ha; apply Hv; by intros ?%dinode_in).
  destruct (disk_frame (sb s) (view s1) (view (logging bp m s2))) as [Hd2 Hbit].
  { destruct O1 as [O1 _]. by rewrite Esb in O1. }
  { intros a Ha. apply Hvb. intros Hin. by eapply low_not_meta. }
  split; [|done| | | |done|].
  - eapply frame_trans; [exact Fr1|]. pose proof (logging_frame bp m s2 Hvb) as [? ? ? ? ?]. by split.
  - split; [cbn; by rewrite Esb|]. cbn. by rewrite (fr_held _ _ Fr1).
  - intros c Hc Hown. rewrite Hbit, (fd_bits _ _ _ _ D1), decide_True by (done || by apply HF). done.
  - intros c Hc Hown. rewrite Hbit, (fd_bits _ _ _ _ D1), decide_False by (done || by intros ?%HF). done.
  - intros a Ha Hna. rewrite Hv by done. by apply (fd_rest _ _ _ _ D1).
Qed.
