(* ===== verification/XInode.v ===== *)
(** * The inode cache of xv6

    The cache counts references to inodes.  [refs l dev inum] is the count of an
    inode; [iget] and [idup] add one, [iput] takes one away, and an inode has at
    most one entry.  [ilock] reads the inode from the disk; [iput] of the last
    reference to an inode without links frees it and its blocks; [ialloc] takes
    the first free inode. *)
From S2P Require Import Prelude Bytes XFs XFsAlloc XFile XFileIO XTrunc.

(** Sums over a table. *)
Definition total {A} (w : A -> Z) (l : list A) : Z := foldr (fun a n => w a + n) 0 l.
Section Total.
Context {A : Type}.
Implicit Types (w : A -> Z) (l : list A).
Lemma total_cons w a l : total w (a :: l) = w a + total w l.
Proof. done. Qed.
Lemma total_set w l i a b : zget l i = Some a -> total w (zset l i b) = total w l - w a + w b.
Proof.
  revert i. induction l as [|c l IH]; intros i Hi; [by apply zget_Some_range in Hi; unfold zlen in Hi; cbn in Hi; lia|].
  rewrite zget_cons in Hi. unfold zset. destruct (Z.leb_spec 0 i) as [Hp|Hn].
  2: { rewrite decide_False in Hi by lia. apply zget_Some_range in Hi. lia. }
  destruct (decide (i = 0)) as [->|Hi0].
  - simplify_eq. change (w b + total w l = w a + total w l - w a + w b). lia.
  - replace (Z.to_nat i) with (S (Z.to_nat (i - 1))) by lia. specialize (IH (i - 1) Hi). unfold zset in IH.
    destruct (Z.leb_spec 0 (i - 1)); [|lia]. change (w c + total w (<[Z.to_nat (i - 1) := b]> l) = w c + total w l - w a + w b). lia.
Qed.
Lemma total_nonneg w l : (forall a, a ∈ l -> 0 <= w a) -> 0 <= total w l.
Proof.
  induction l as [|c l IH]; intros Hl; [done|]. rewrite total_cons. pose proof (Hl c ltac:(left)).
  assert (0 <= total w l) by (apply IH; intros a Ha; apply Hl; by right). lia.
Qed.
Lemma total_ext w w' l : (forall a, a ∈ l -> w a = w' a) -> total w l = total w' l.
Proof. induction l as [|c l IH]; intros Hl; [done|]. rewrite !total_cons, (Hl c) by left. f_equal. apply IH. intros a Ha. apply Hl. by right. Qed.
Lemma total_ge w l i a : (forall a, a ∈ l -> 0 <= w a) -> zget l i = Some a -> w a <= total w l.
Proof.
  revert i. induction l as [|c l IH]; intros i Hl Hi; [by apply zget_Some_range in Hi; unfold zlen in Hi; cbn in Hi; lia|].
  rewrite zget_cons in Hi. rewrite total_cons. pose proof (Hl c ltac:(left)). assert (forall a, a ∈ l -> 0 <= w a) as Hl' by (intros b Hb; apply Hl; by right).
  case_decide; [simplify_eq; pose proof (total_nonneg w l Hl'); lia|]. pose proof (IH _ Hl' Hi). lia.
Qed.
End Total.

Definition names (e : inode) (dev inum : Z) : bool := (i_dev e =? dev) && (i_inum e =? inum).
Definition weight (dev inum : Z) (e : inode) : Z := if names e dev inum then i_ref e else 0.
Definition refs (l : list inode) (dev inum : Z) : Z := total (weight dev inum) l.
Record cache_ok (l : list inode) : Prop := {
  co_len : zlen l = NINODE;
  co_ref : forall i e, zget l i = Some e -> 0 <= i_ref e;
  co_uniq : forall i j e e', zget l i = Some e -> zget l j = Some e' -> 0 < i_ref e -> 0 < i_ref e' ->
    i_dev e = i_dev e' -> i_inum e = i_inum e' -> i = j;
}.

Section Refs.
Implicit Types (l : list inode) (e : inode).
Lemma refs_set l i e e' dev inum : zget l i = Some e ->
  refs (zset l i e') dev inum = refs l dev inum - weight dev inum e + weight dev inum e'.
Proof. apply total_set. Qed.
Lemma refs_pos l dev inum : (forall i e, zget l i = Some e -> 0 <= i_ref e) -> 0 <= refs l dev inum.
Proof.
  induction l as [|a l IH]; [done|]. intros Hl. change (0 <= weight dev inum a + refs l dev inum).
  assert (0 <= weight dev inum a) by (unfold weight; case_match; [by apply (Hl 0)|done]).
  assert (0 <= refs l dev inum); [|lia]. apply IH. intros i e Hi. apply (Hl (i + 1)). rewrite zget_cons.
  pose proof (zget_Some_range _ _ _ Hi). rewrite decide_False by lia. by replace (i + 1 - 1) with i by lia.
Qed.
(** An inode is referenced when it has an entry. *)
Lemma refs_entry l dev inum : (forall i e, zget l i = Some e -> 0 <= i_ref e) ->
  0 < refs l dev inum <-> exists i e, zget l i = Some e /\ 0 < i_ref e /\ names e dev inum = true.
Proof.
  induction l as [|a l IH]; intros Hl.
  { split; [done|]. intros (i & e & Hi & _). apply zget_Some_range in Hi. unfold zlen in Hi. cbn in Hi. lia. }
  assert (forall i e, zget l i = Some e -> 0 <= i_ref e) as Hl'.
  { intros i e Hi. apply (Hl (i + 1)). rewrite zget_cons. pose proof (zget_Some_range _ _ _ Hi).
    rewrite decide_False by lia. by replace (i + 1 - 1) with i by lia. }
  specialize (IH Hl'). pose proof (refs_pos l dev inum Hl') as Hp. pose proof (Hl 0 a eq_refl) as Ha.
  change (refs (a :: l) dev inum) with (weight dev inum a + refs l dev inum). split.
  - intros Hlt. destruct (decide (0 < refs l dev inum)) as [Hr|Hr].
    + destruct (proj1 IH Hr) as (i & e & Hi & ? & ?). exists (i + 1), e. pose proof (zget_Some_range _ _ _ Hi).
      rewrite zget_cons, decide_False by lia. by replace (i + 1 - 1) with i by lia.
    + exists 0, a. unfold weight in Hlt. destruct (names a dev inum); [|lia]. split; [done|]. split; [lia|done].
  - intros (i & e & Hi & Hr & Hn). rewrite zget_cons in Hi. destruct (decide (i = 0)) as [->|].
    + simplify_eq. unfold weight. rewrite Hn. lia.
    + assert (0 < refs l dev inum) by (apply IH; eauto). assert (0 <= weight dev inum a) by (unfold weight; case_match; lia). lia.
Qed.
(** With one entry per inode, the count is the entry's. *)
Lemma refs_one l i e : cache_ok l -> zget l i = Some e -> 0 < i_ref e -> refs l (i_dev e) (i_inum e) = i_ref e.
Proof.
  intros [Hlen Hr Hu] Hi Hpos. pose proof (zget_Some_range _ _ _ Hi) as Hrg.
  assert (names e (i_dev e) (i_inum e) = true) as Hn by (unfold names; by rewrite !Z.eqb_refl).
  pose proof (refs_set l i e (with_ref 0 e) (i_dev e) (i_inum e) Hi) as E. unfold weight in E.
  assert (names (with_ref 0 e) (i_dev e) (i_inum e) = true) as Hn' by done. rewrite Hn, Hn' in E. cbn in E.
  assert (~ 0 < refs (zset l i (with_ref 0 e)) (i_dev e) (i_inum e)) as Hz.
  { assert (forall j e', zget (zset l i (with_ref 0 e)) j = Some e' -> 0 <= i_ref e') as Hr'.
    { intros j e'. rewrite zget_zset. case_decide; [intros [= <-]; done|apply Hr]. }
    rewrite refs_entry by done. intros (j & e' & Hj & Hp & Hn2). rewrite zget_zset in Hj. case_decide as Hd.
    - by injection Hj as <-.
    - unfold names in Hn2. apply andb_true_iff in Hn2 as [?%Z.eqb_eq ?%Z.eqb_eq].
      apply Hd. split; [|done]. eapply Hu; [exact Hi|exact Hj|done|done|done|done]. }
  pose proof (refs_pos (zset l i (with_ref 0 e)) (i_dev e) (i_inum e)) as Hp. assert (0 <= refs (zset l i (with_ref 0 e)) (i_dev e) (i_inum e)); [|lia].
  apply Hp. intros j e'. rewrite zget_zset. case_decide; [intros [= <-]; done|apply Hr].
Qed.

(** Changing an entry without its name and number. *)
Lemma cache_set l i e e' : cache_ok l -> zget l i = Some e -> i_dev e' = i_dev e -> i_inum e' = i_inum e ->
  0 <= i_ref e' -> (0 < i_ref e' -> 0 < i_ref e) -> cache_ok (zset l i e').
Proof.
  intros [Hlen Hr Hu] Hi Hd Hn Hp Hle. split; [by rewrite zlen_zset| |].
  - intros j e2. rewrite zget_zset. case_decide; [intros [= <-]; done|apply Hr].
  - intros j k a b. rewrite !zget_zset. repeat case_decide; intros Ea Eb Ha Hb Ed En; simplify_eq; try lia; try (by eapply Hu).
    + destruct H as [<- _]. eapply (Hu i k e b); try done; try congruence. by apply Hle.
    + destruct H0 as [<- _]. eapply (Hu j i a e); try done; try congruence. by apply Hle.
Qed.
Lemma refs_add l i e n dev inum : zget l i = Some e ->
  refs (zset l i (with_ref n e)) dev inum = refs l dev inum + if names e dev inum then n - i_ref e else 0.
Proof.
  intros Hi. rewrite (refs_set l i e) by done. unfold weight.
  change (names (with_ref n e) dev inum) with (names e dev inum). destruct (names e dev inum); cbn; lia.
Qed.
End Refs.

(** ** [iget] *)

Definition hit (dev inum : Z) (e : inode) : bool := (0 <? i_ref e) && (i_dev e =? dev) && (i_inum e =? inum).
Lemma hit_spec dev inum e : hit dev inum e = true <-> 0 < i_ref e /\ i_dev e = dev /\ i_inum e = inum.
Proof. unfold hit. rewrite !andb_true_iff, Z.ltb_lt, !Z.eqb_eq. tauto. Qed.
Lemma iget_scan_ok dev inum s n : forall lo empty, 0 <= lo -> lo + Z.of_nat n = zlen (icache s) ->
  (forall i e, 0 <= i < lo -> zget (icache s) i = Some e -> hit dev inum e = false) ->
  (match empty with
   | Some j => 0 <= j < lo /\ exists e, zget (icache s) j = Some e /\ i_ref e = 0
   | None => forall i e, 0 <= i < lo -> zget (icache s) i = Some e -> i_ref e <> 0 end) ->
  exists r, iget_scan (seqZ lo (Z.of_nat n)) dev inum empty s = Ret r s /\
  match r with
  | inl ip => exists e, zget (icache s) ip = Some e /\ hit dev inum e = true
  | inr o => (forall i e, zget (icache s) i = Some e -> hit dev inum e = false) /\
      match o with
      | Some ip => exists e, zget (icache s) ip = Some e /\ i_ref e = 0
      | None => forall i e, zget (icache s) i = Some e -> i_ref e <> 0
      end
  end.
Proof.
  induction n as [|n IH]; intros lo empty Hlo Hn Hmiss Hempty.
  { exists (inr empty). split; [done|]. split.
    - intros i e Hi. apply (Hmiss i); [|done]. apply zget_Some_range in Hi. lia.
    - destruct empty as [j|]; [by destruct Hempty as [_ ?]|]. intros i e Hi. apply (Hempty i); [|done]. apply zget_Some_range in Hi. lia. }
  rewrite Nat2Z.inj_succ in *. unfold Z.succ in *. rewrite seqZ_step by lia. cbn [iget_scan].
  destruct (zget_in_range (icache s) lo ltac:(lia)) as [e He]. exec_by (geti_run s lo e He).
  change ((0 <? i_ref e) && (i_dev e =? dev) && (i_inum e =? inum)) with (hit dev inum e).
  destruct (hit dev inum e) eqn:Hhit; [exists (inl lo); split; [done|]; eauto|].
  apply IH; [lia|lia| |].
  - intros i e' Hi He'. destruct (decide (i = lo)) as [->|]; [congruence|]. apply (Hmiss i); [lia|done].
  - destruct empty as [j|]; [destruct Hempty as [? ?]; split; [lia|done]|]. destruct (Z.eqb_spec (i_ref e) 0) as [H0|H0].
    + split; [lia|]. eauto.
    + intros i e' Hi He'. destruct (decide (i = lo)) as [->|]; [congruence|]. apply (Hempty i); [lia|done].
Qed.

(** What [iget] leaves: one reference more, nothing else. *)
Record got (dev inum ip : Z) (s s' : fsst) : Prop := {
  gt_rest : s' = with_icache (icache s') s;
  gt_cache : cache_ok (icache s');
  gt_refs : forall d i, refs (icache s') d i = refs (icache s) d i + if (dev =? d) && (inum =? i) then 1 else 0;
  gt_entry : exists e, zget (icache s') ip = Some e /\ i_dev e = dev /\ i_inum e = inum /\ 0 < i_ref e /\
    (forall i, i <> ip -> zget (icache s') i = zget (icache s) i) /\
    ((exists e0, zget (icache s) ip = Some e0 /\ e = with_ref (i_ref e0 + 1) e0 /\ 0 < i_ref e0) \/
     (refs (icache s) dev inum = 0 /\ i_ref e = 1 /\ i_valid e = false /\
      exists e0, zget (icache s) ip = Some e0 /\ i_ref e0 = 0 /\ i_locked e = i_locked e0));
}.
Lemma iget_ok dev inum s : cache_ok (icache s) ->
  (exists ip s', iget dev inum s = Ret ip s' /\ got dev inum ip s s') \/
  (iget dev inum s = Panic "iget: no inodes" s /\ refs (icache s) dev inum = 0 /\
   forall i e, zget (icache s) i = Some e -> 0 < i_ref e).
Proof.
  intros Hc. pose proof Hc as [Hlen Hr Hu]. unfold iget.
  destruct (iget_scan_ok dev inum s 50 0 None) as (r & E & Hres); [lia|by rewrite Hlen|intros; lia|intros; lia|].
  change (seqZ 0 NINODE) with (seqZ 0 (Z.of_nat 50)). exec_by E. destruct r as [ip|o].
  - destruct Hres as (e & He & [Hp [<- <-]]%hit_spec). left. rewrite (bind_Ret _ _ _ _ _ (seti_run s ip e _ He)).
    eexists ip, _. split; [reflexivity|]. pose proof (zget_Some_range _ _ _ He) as Hrg. split; cbn [icache with_icache].
    + done.
    + apply (cache_set _ ip e); try done; cbn; lia.
    + intros d i. rewrite (refs_add _ _ e) by done. unfold names. case_match; lia.
    + eexists. split; [by apply zget_zset_eq|]. split; [done|]. split; [done|]. split; [cbn; lia|].
      split; [intros; by apply zget_zset_ne|]. left. eauto.
  - destruct Hres as [Hmiss Ho].
    assert (refs (icache s) dev inum = 0) as H0.
    { pose proof (refs_pos (icache s) dev inum Hr). destruct (decide (0 < refs (icache s) dev inum)) as [Hlt|]; [|lia].
      apply refs_entry in Hlt as (i & e & Hi & Hp & [?%Z.eqb_eq ?%Z.eqb_eq]%andb_true_iff); [|done].
      specialize (Hmiss i e Hi). assert (hit dev inum e = true) by (by apply hit_spec). congruence. }
    destruct o as [ip|].
    + destruct Ho as (e & He & Hz). left. rewrite (bind_Ret _ _ _ _ _ (seti_run s ip e _ He)).
      eexists ip, _. split; [reflexivity|]. pose proof (zget_Some_range _ _ _ He) as Hrg.
      set (e' := mk_inode dev inum 1 _ _ _ _ _ _ _ _). split; cbn [icache with_icache].
      * done.
      * split; [by rewrite zlen_zset| |].
        -- intros j e2. rewrite zget_zset. case_decide; [intros [= <-]; done|apply Hr].
        -- intros j k a b. rewrite !zget_zset. repeat case_decide; intros Ea Eb Ha Hb Ed En; simplify_eq; try lia; [| |by eapply Hu].
           ++ assert (hit dev inum b = true) by (apply hit_spec; cbn in *; split; [done|]; split; congruence). pose proof (Hmiss k b Eb). congruence.
           ++ assert (hit dev inum a = true) by (apply hit_spec; cbn in *; split; [done|]; split; congruence). pose proof (Hmiss j a Ea). congruence.
      * intros d i. rewrite (refs_set _ _ e) by done. unfold weight at 1. rewrite Hz. unfold weight, names. cbn.
        case_match; case_match; lia.
      * exists e'. split; [by apply zget_zset_eq|]. split; [done|]. split; [done|]. split; [done|].
        split; [intros; by apply zget_zset_ne|]. right. split; [done|]. split; [done|]. split; [done|]. eauto.
    + right. split; [done|]. split; [done|]. intros i e Hi. pose proof (Hr i e Hi). pose proof (Ho i e Hi). lia.
Qed.

(** ** [idup], [ilock] and [iunlock] *)

Definition put (ip : Z) (e : inode) (s : fsst) : fsst := with_icache (zset (icache s) ip e) s.
Lemma put_put ip e e' s : put ip e' (put ip e s) = put ip e' s.
Proof. unfold put, with_icache. cbn. by rewrite zset_zset_eq. Qed.
Lemma put_same ip e s : zget (icache s) ip = Some e -> put ip e s = s.
Proof. intros Hi. unfold put, with_icache. rewrite zset_id by done. by destruct s. Qed.
Lemma put_get ip e s : 0 <= ip < zlen (icache s) -> zget (icache (put ip e s)) ip = Some e.
Proof. intros. by apply zget_zset_eq. Qed.
Lemma seti_put s ip e f : zget (icache s) ip = Some e -> seti ip f s = Ret tt (put ip (f e) s).
Proof. apply seti_run. Qed.
(** A chain of changes of one entry. *)
Lemma seti_on s ip e f : 0 <= ip < zlen (icache s) -> seti ip f (put ip e s) = Ret tt (put ip (f e) s).
Proof. intros Hi. rewrite (seti_put _ ip e) by (by apply put_get). by rewrite put_put. Qed.
Lemma geti_on s ip e : 0 <= ip < zlen (icache s) -> geti ip (put ip e s) = Ret e (put ip e s).
Proof. intros Hi. apply geti_run. by apply put_get. Qed.

(** What [ilock] reads from the disk. *)
Definition loaded (x : superblock) (v : Z -> Z) (e : inode) : inode :=
  let dip := dinode_at (i_inum e) x in
  mk_inode (i_dev e) (i_inum e) (i_ref e) true true (s16 (half v dip)) (s16 (half v (dip + 2))) (s16 (half v (dip + 4)))
    (s16 (half v (dip + 6))) (word v (dip + 8)) ((fun k => word v (dip + 12 + 4 * k)) <$> seqZ 0 (NDIRECT + 1)).
Lemma s16_short y : short (s16 y).
Proof. unfold short, s16. case_match; zlia. Qed.
Lemma zget_fmap_seqZ {A} (f : Z -> A) n k : 0 <= k < n -> zget (f <$> seqZ 0 n) k = Some (f k).
Proof.
  intros Hk. unfold zget. destruct (Z.leb_spec 0 k); [|lia]. rewrite list_lookup_fmap, lookup_seqZ_lt by lia. cbn. f_equal. f_equal. lia.
Qed.
Lemma loaded_on_disk x v e : on_disk x v (loaded x v e).
Proof. split; try done. intros k Hk. unfold addr. cbn [loaded i_addrs]. rewrite zget_fmap_seqZ by lia. done. Qed.
Lemma loaded_typed x v e : 0 <= i_inum e < sb_ninodes x -> typed x (loaded x v e).
Proof. intros Hi. split; try apply s16_short. done. Qed.
(** An inode that is current is what is on the disk. *)
Lemma loaded_current x v e : on_disk x v e -> zlen (i_addrs e) = NDIRECT + 1 -> loaded x v e = with_lock true (with_valid true e).
Proof.
  intros [H1 H2 H3 H4 H5 H6] Hl. unfold loaded. rewrite H1, H2, H3, H4, H5. unfold with_lock, with_valid. cbn. f_equal.
  apply zget_ext; [by rewrite Hl; unfold zlen; rewrite length_fmap, length_seqZ|]. intros k Hk.
  assert (0 <= k < 13) as Hk' by (unfold zlen in Hk; rewrite length_fmap, length_seqZ in Hk; unfold NDIRECT in Hk; lia).
  rewrite zget_fmap_seqZ by (unfold NDIRECT; lia). rewrite H6 by (unfold NDIRECT; lia).
  destruct (zget_in_range (i_addrs e) k ltac:(unfold NDIRECT in Hl; lia)) as [y Ey]. unfold addr. by rewrite Ey.
Qed.

(** The freed inode: no blocks, no type. *)
Definition dead (e : inode) : inode := with_type 0 (emptied e).
Lemma dead_entry e : i_locked e = false -> i_ref e = 1 ->
  let e3 := with_lock false (with_valid false (with_type 0 (emptied (with_lock true e)))) in
  with_ref (i_ref e3 - 1) e3 = with_ref 0 (with_valid false (dead e)).
Proof. destruct e. cbn. by intros -> ->. Qed.

Section Entry.
Context (ip : Z) (e : inode) (s : fsst).
Hypothesis Hi : zget (icache s) ip = Some e.

Lemma entry_range : 0 <= ip < zlen (icache s).
Proof using Hi. by eapply zget_Some_range. Qed.
Lemma acquire_ok : i_locked e = false -> acquiresleep ip s = Ret tt (put ip (with_lock true e) s).
Proof using Hi. intros Hl. unfold acquiresleep. exec_by (geti_run s ip e Hi). rewrite Hl. by apply seti_put. Qed.
Lemma idup_ok : idup ip s = Ret ip (put ip (with_ref (i_ref e + 1) e) s).
Proof using Hi. unfold idup. by exec_by (seti_put s ip e (fun e => with_ref (i_ref e + 1) e) Hi). Qed.
Lemma iunlock_ok : i_locked e = true -> 0 < i_ref e -> iunlock (Some ip) s = Ret tt (put ip (with_lock false e) s).
Proof using Hi.
  intros Hl Hr. unfold iunlock. exec_by (geti_run s ip e Hi). rewrite Hl. cbn [negb orb]. destruct (Z.ltb_spec (i_ref e) 1); [lia|].
  by apply seti_put.
Qed.
Lemma ilock_valid : i_locked e = false -> 0 < i_ref e -> i_valid e = true -> ilock (Some ip) s = Ret tt (put ip (with_lock true e) s).
Proof using Hi.
  intros Hl Hr Hv. pose proof entry_range as Hip. unfold ilock. exec_by (geti_run s ip e Hi). destruct (Z.ltb_spec (i_ref e) 1); [lia|].
  exec_by (acquire_ok Hl). exec_by (geti_on s ip (with_lock true e) Hip). cbn. by rewrite Hv.
Qed.
Lemma ilock_load : i_locked e = false -> 0 < i_ref e -> i_valid e = false -> held s = ∅ ->
  ilock (Some ip) s = if i_type (loaded (sb s) (view s) e) =? 0 then Panic "ilock: no type" (put ip (loaded (sb s) (view s) e) s)
                      else Ret tt (put ip (loaded (sb s) (view s) e) s).
Proof using Hi.
  intros Hl Hr Hv Hh. pose proof entry_range as Hip. unfold ilock. exec_by (geti_run s ip e Hi). destruct (Z.ltb_spec (i_ref e) 1); [lia|].
  exec_by (acquire_ok Hl). exec_by (geti_on s ip (with_lock true e) Hip). cbn [i_valid with_lock]. rewrite Hv. exec.
  set (s1 := put ip (with_lock true e) s). change (sb s1) with (sb s). change (i_inum (with_lock true e)) with (i_inum e).
  set (bp := IBLOCK (i_inum e) (sb s)). assert (bp ∉ held s1) as Hnh by (cbn; rewrite Hh; apply not_elem_of_empty).
  exec_by (bread_run bp s1 Hnh). unfold ld16, ld32. exec. set (s2 := with_held ({[ bp ]} ∪ held s1) s1).
  change (view s2) with (view s). assert (zget (icache s2) ip = Some (with_lock true e)) as Hi2 by (by apply put_get).
  rewrite (bind_Ret _ _ _ _ _ (seti_put s2 ip _ _ Hi2)). cbv beta.
  match goal with |- context [put ip ?x s2] => set (e3 := x) end. set (s3 := put ip e3 s2).
  assert (brelse bp s3 = Ret tt (put ip e3 s)) as Er.
  { rewrite brelse_run by (cbn; set_solver). f_equal. unfold s3, s2, s1, put, with_held, with_icache. cbn.
    rewrite held_back by done. by rewrite zset_zset_eq. }
  exec_by Er. exec_by (seti_on s ip e3 (with_valid true) Hip). exec_by (geti_on s ip (with_valid true e3) Hip).
  change (with_valid true e3) with (loaded (sb s) (view s) e). by case_match.
Qed.

(** ** [iput] *)

Definition dying : bool := i_valid e && (i_nlink e =? 0) && (i_ref e =? 1).
Lemma iput_keep : i_locked e = false -> dying = false -> iput ip s = Ret tt (put ip (with_ref (i_ref e - 1) e) s).
Proof using Hi.
  intros Hl Hdy. pose proof entry_range as Hip. unfold iput. exec_by (acquire_ok Hl).
  exec_by (geti_on s ip (with_lock true e) Hip). unfold dying in Hdy. cbn [i_valid i_nlink with_lock].
  assert ((when (i_valid e && (i_nlink e =? 0)) (e ← geti ip; when (i_ref e =? 1)
    (itrunc ip;; seti ip (with_type 0);; iupdate ip;; seti ip (with_valid false)))) (put ip (with_lock true e) s)
    = Ret tt (put ip (with_lock true e) s)) as E.
  { destruct (i_valid e && (i_nlink e =? 0)); [|done]. cbn [when]. exec_by (geti_on s ip (with_lock true e) Hip).
    cbn [i_ref with_lock]. cbn in Hdy. by rewrite Hdy. }
  exec_by E. unfold releasesleep. exec_by (seti_on s ip (with_lock true e) (with_lock false) Hip).
  rewrite (seti_on s ip _ _ Hip). cbn. do 2 f_equal. destruct e. cbn in *. by subst.
Qed.
(** The inode and its blocks are free, in the cache and on the disk. *)
Record reclaimed (s' : fsst) : Prop := {
  rc_frame : frame s s';
  rc_cache : icache s' = zset (icache s) ip (with_ref 0 (with_valid false (dead e)));
  rc_idle : idle s';
  rc_freed : forall c, 0 <= c < sb_size (sb s) -> iowned (view s) e c -> bit (sb s) (view s') c = false;
  rc_kept : forall c, 0 <= c < sb_size (sb s) -> ~ iowned (view s) e c -> bit (sb s) (view s') c = bit (sb s) (view s) c;
  rc_sync : on_disk (sb s) (view s') (dead e);
  rc_rest : forall a, ~ bmap_byte (sb s) a -> ~ in_dinode (sb s) (i_inum e) a -> view s' a = view s a;
}.
Lemma iput_free : idle s -> i_locked e = false -> dying = true -> typed (sb s) e -> inode_ok (sb s) (view s) e ->
  exists s', iput ip s = Ret tt s' /\ reclaimed s'.
Proof using Hi.
  intros Hs Hl Hdy Ht He. pose proof entry_range as Hip. unfold iput. exec_by (acquire_ok Hl).
  exec_by (geti_on s ip (with_lock true e) Hip). unfold dying in Hdy. apply andb_true_iff in Hdy as [Hd1 Hr1].
  cbn [i_valid i_nlink with_lock]. rewrite Hd1. cbn [when]. exec. exec_by (geti_on s ip (with_lock true e) Hip).
  cbn [i_ref with_lock]. rewrite Hr1. cbn [when]. set (el := with_lock true e). set (s1 := put ip el s).
  pose proof Hs as [Hd Hh]. assert (zget (icache s1) ip = Some el) as Hi1 by (by apply put_get).
  destruct (itrunc_ok ip el s1) as (s2 & E2 & [Fr2 Hc2 [Hd2 Hh2] Hfr2 Hk2 Hsy2 Hre2]); [by split|done|destruct Ht; by split|destruct He; by split|].
  exec. exec_by E2. exec. change (sb s1) with (sb s) in *. pose proof (fr_sb _ _ Fr2) as Esb. change (sb s1) with (sb s) in Esb.
  assert (s2 = put ip (emptied el) s2) as Ep2.
  { unfold put. rewrite Hc2, zset_zset_eq, <-Hc2. by destruct s2. }
  assert (0 <= ip < zlen (icache s2)) as Hip2 by (rewrite Hc2, zlen_zset; cbn; by rewrite zlen_zset).
  exec_by (seti_put s2 ip (emptied el) (with_type 0) ltac:(rewrite Ep2; by apply put_get)). exec.
  set (e3 := with_type 0 (emptied el)). set (s3 := put ip e3 s2).
  destruct (iupdate_ok ip e3 s3) as (m & E & Hw & Ho); try done.
  { change (sb s3) with (sb s2). apply Hd2. }
  { change (held s3) with (held s2). rewrite Hh2. apply not_elem_of_empty. }
  { by apply put_get. }
  { change (sb s3) with (sb s2). rewrite Esb. destruct Ht. by split. }
  { cbn. intros y Hy. repeat (apply elem_of_cons in Hy as [->|Hy]; [done|]). by apply elem_of_nil in Hy. }
  change (sb s3) with (sb s2) in *. rewrite Esb in *. change (i_inum e3) with (i_inum e) in *.
  set (bp := IBLOCK (i_inum e) (sb s)) in *. exec_by E. exec. set (s4 := logging bp m s3) in *.
  assert (s4 = put ip e3 s4) as Ep4 by (unfold put, with_icache; cbn; by rewrite zset_zset_eq).
  assert (0 <= ip < zlen (icache s4)) as Hip4 by (cbn; by rewrite zlen_zset).
  rewrite Ep4. exec_by (seti_on s4 ip e3 (with_valid false) Hip4). unfold releasesleep.
  exec_by (seti_on s4 ip (with_valid false e3) (with_lock false) Hip4). rewrite (seti_on s4 ip _ _ Hip4).
  pose proof (dead_entry e Hl ltac:(by apply Z.eqb_eq)) as Ee.
  cbv zeta in Ee. fold el in Ee. fold e3 in Ee. cbv beta. rewrite Ee. eexists. split; [reflexivity|].
  pose proof (dk_sb _ _ Hd) as Hx. destruct (dinode_block (sb s) (i_inum e) Hx (ty_inum _ _ Ht)) as [_ Hblk]. fold bp in Hblk.
  assert (forall a, ~ in_dinode (sb s) (i_inum e) a -> view s4 a = view s2 a) as Hv by (intros a Ha; by apply Hw).
  assert (forall a, ~ in_block bp a -> view s4 a = view s2 a) as Hvb by (intros a Ha; apply Hv; by intros ?%dinode_in).
  destruct (disk_frame (sb s) (view s2) (view s4)) as [Hd4 Hbit]; [done| |].
  { intros a Ha. apply Hvb. intros Hin. by eapply low_not_meta. }
  split.
  - pose proof (frame_trans _ _ _ Fr2 (logging_frame bp m s2 Hvb)) as [? ? ? ? ?]. by split.
  - cbn. rewrite Hc2. cbn. by rewrite !zset_zset_eq.
  - split; [cbn; by rewrite Esb|done].
  - intros c Hc Hown. change (bit (sb s) (view s4) c = false). rewrite Hbit by done. by apply Hfr2.
  - intros c Hc Hown. change (bit (sb s) (view s4) c = bit (sb s) (view s) c). rewrite Hbit by done. by apply Hk2.
  - destruct Ho. by split.
  - intros a Ha Hna. change (view s4 a = view s a). rewrite Hv by done. by apply Hre2.
Qed.
End Entry.

(** ** [ialloc] *)

Lemma exec_bind_eq {A B} (m m' : M fsst A) (k : A -> M fsst B) s s' : m s = m' s' -> (m ≫= k) s = (m' ≫= k) s'.
Proof. unfold mbind, M_bind. by intros ->. Qed.
Lemma log_release b m1 m s : b ∉ held s -> exists s3,
  log_write b (with_img m (with_img m1 (with_held ({[ b ]} ∪ held s) s))) = Ret tt s3 /\ brelse b s3 = Ret tt (logging b m s).
Proof.
  intros Hb. eexists. split; [reflexivity|]. rewrite brelse_run by (cbn; set_solver).
  unfold with_held, logging. cbn. by rewrite held_back.
Qed.
Definition inode_free (s : fsst) (inum : Z) : Prop := half (view s) (dinode_at inum (sb s)) = 0.
(** A new inode: its type, and zeros. *)
Record fresh_inode (inum type : Z) (s s' : fsst) : Prop := {
  fn_frame : frame s s';
  fn_cache : icache s' = icache s;
  fn_type : s16 (half (view s') (dinode_at inum (sb s))) = type;
  fn_zero : forall i, 2 <= i < DINODE -> view s' (dinode_at inum (sb s) + i) = 0;
  fn_rest : forall a, ~ in_dinode (sb s) inum a -> view s' a = view s a;
}.
Lemma ialloc_take dev inum type s : idle s -> 0 <= inum < sb_ninodes (sb s) -> short type ->
  exists s', fresh_inode inum type s s' /\
  (store_list (dinode_at inum (sb s)) (repeat 0 (Z.to_nat DINODE));; st16 (dinode_at inum (sb s)) type;;
   log_write (IBLOCK inum (sb s));; brelse (IBLOCK inum (sb s));; ip ← iget dev inum; mret (Some ip))
    (with_held ({[ IBLOCK inum (sb s) ]} ∪ held s) s) = (ip ← iget dev inum; mret (Some ip)) s'.
Proof.
  intros [Hd Hh] Hin Hty. set (dip := dinode_at inum (sb s)). set (bp := IBLOCK inum (sb s)).
  assert (bp ∉ held s) as Hnh by (rewrite Hh; apply not_elem_of_empty). set (s1 := with_held ({[ bp ]} ∪ held s) s).
  destruct (store_list_run dip (repeat 0 (Z.to_nat DINODE)) s1) as (m1 & E1 & V1).
  destruct (st16_run dip type (with_img m1 s1)) as (m & E2 & V2). rewrite V1 in V2. change (view s1) with (view s) in V2.
  exists (logging bp m s). split.
  - assert (view (logging bp m s) = upd16 (upd_list (view s) dip (repeat 0 (Z.to_nat DINODE))) dip type) as V by exact V2.
    assert (forall a, ~ in_dinode (sb s) inum a -> view (logging bp m s) a = view s a) as Hout.
    { intros a Ha. unfold in_dinode in Ha. fold dip in Ha. rewrite V, upd16_out by dlia. unfold upd_list.
      rewrite zget_none; [done|]. unfold zlen. rewrite repeat_length. dlia. }
    split; [|done| | |done].
    + apply logging_frame. intros a Ha. apply Hout. intros Hi. by apply Ha, dinode_in.
    + rewrite V. by apply half_upd16.
    + intros i Hi. fold dip. rewrite V, upd16_out by lia. unfold upd_list. replace (dip + i - dip) with i by lia.
      destruct (zget (repeat 0 (Z.to_nat DINODE)) i) as [y|] eqn:E.
      * apply zget_elem, list_elem_of_In, repeat_spec in E. by subst.
      * apply eq_None_not_Some in E. destruct E. apply zget_is_Some. unfold zlen. rewrite repeat_length. dlia.
  - destruct (log_release bp m1 m s Hnh) as (s3 & E3 & E4). exec_by E1. exec_by E2. exec_by E3. exec_by E4. done.
Qed.
Lemma ialloc_scan dev type s : idle s -> short type -> forall n lo, 0 <= lo -> lo + Z.of_nat n = sb_ninodes (sb s) ->
  let prog := for_until (seqZ lo (Z.of_nat n)) (fun inum =>
    x ← gets sb;
    let bp := IBLOCK inum x in
    let dip := dinode_at inum x in
    bread bp;;
    t ← ld16 dip;
    if t =? 0 then
      store_list dip (repeat 0 (Z.to_nat DINODE));;
      st16 dip type;;
      log_write bp;;
      brelse bp;;
      ip ← iget dev inum; mret (Some ip)
    else brelse bp;; mret None) in
  (prog s = Ret None s /\ forall i, lo <= i < sb_ninodes (sb s) -> ~ inode_free s i) \/
  exists inum s', lo <= inum < sb_ninodes (sb s) /\ inode_free s inum /\ (forall i, lo <= i < inum -> ~ inode_free s i) /\
    fresh_inode inum type s s' /\ prog s = (ip ← iget dev inum; mret (Some ip)) s'.
Proof.
  intros Hs Hty. induction n as [|n IH]; intros lo Hlo Hn prog.
  { left. split; [done|]. lia. }
  unfold prog. clear prog. rewrite Nat2Z.inj_succ in *. unfold Z.succ in *. rewrite seqZ_step by lia. cbn [for_until]. exec.
  pose proof Hs as [Hd Hh]. set (bp := IBLOCK lo (sb s)). assert (bp ∉ held s) as Hnh by (rewrite Hh; apply not_elem_of_empty).
  exec_by (bread_run bp s Hnh). unfold ld16. exec. change (view (with_held _ s)) with (view s).
  destruct (Z.eqb_spec (half (view s) (dinode_at lo (sb s))) 0) as [H0|H0].
  - right. destruct (ialloc_take dev lo type s Hs ltac:(lia) Hty) as (s' & Hf & E). exists lo, s'.
    split; [lia|]. split; [done|]. split; [lia|]. split; [done|]. rewrite (exec_bind_eq _ _ _ _ _ E).
    unfold mbind, M_bind. by destruct (iget dev lo s').
  - destruct (load_block bp 0 0 s Hs) as (_ & _ & Er). exec. exec_by Er. exec.
    destruct (IH (lo + 1)) as [[E Hall]|(i & s' & Hi & Hf & Hfirst & Hfr & E)]; [lia|lia| |].
    + left. split; [exact E|]. intros i Hi. destruct (decide (i = lo)) as [->|]; [done|apply Hall; lia].
    + right. exists i, s'. split; [lia|]. split; [done|]. split; [|split; [done|exact E]].
      intros j Hj. destruct (decide (j = lo)) as [->|]; [done|apply Hfirst; lia].
Qed.
Lemma ialloc_ok dev type s : idle s -> short type -> 1 <= sb_ninodes (sb s) ->
  (ialloc dev type s = Panic "ialloc: no inodes" s /\ forall i, 1 <= i < sb_ninodes (sb s) -> ~ inode_free s i) \/
  exists inum s', 1 <= inum < sb_ninodes (sb s) /\ inode_free s inum /\ (forall i, 1 <= i < inum -> ~ inode_free s i) /\
    fresh_inode inum type s s' /\ ialloc dev type s = iget dev inum s'.
Proof.
  intros Hs Hty Hn. unfold ialloc. exec.
  destruct (ialloc_scan dev type s Hs Hty (Z.to_nat (sb_ninodes (sb s) - 1)) 1) as [[E Hall]|(i & s' & Hi & Hf & Hfirst & Hfr & E)]; [lia|lia| |].
  all: rewrite Z2Nat.id in E by lia.
  - left. exec_by E. done.
  - right. exists i, s'. do 4 (split; [done|]). rewrite (exec_bind_eq _ _ _ _ _ E). unfold mbind, M_bind. by destruct (iget dev i s').
Qed.
