(* ===== verification/XDir.v ===== *)
(** * Directories of xv6

    A directory is a file of entries of 16 bytes.  [dirlookup] finds the first
    entry with a name; [dirlink] writes a new entry into the first free slot, so
    that a lookup finds it and all other names are found as before. *)
From S2P Require Import Prelude Bytes XFs XFsAlloc XFile XFileIO XTrunc XInode.

(** ** Names *)

(** The string in the first [n] bytes. *)
Fixpoint cstr (n : nat) (l : list Z) : list Z :=
  match n with
  | O => []
  | S n => if hd 0 l =? 0 then [] else hd 0 l :: cstr n (tl l)
  end.
Lemma strncmp_spec n p q : strncmp n p q = 0 <-> cstr n p = cstr n q.
Proof.
  revert p q. induction n as [|n IH]; intros p q; [done|]. cbn [strncmp cstr].
  destruct (Z.eqb_spec (hd 0 p) 0) as [Hp|Hp], (Z.eqb_spec (hd 0 p) (hd 0 q)) as [E|E]; cbn [negb andb].
  - rewrite <-E, Hp. cbn. done.
  - destruct (Z.eqb_spec (hd 0 q) 0); [lia|]. split; [lia|done].
  - rewrite IH. destruct (Z.eqb_spec (hd 0 q) 0); [lia|]. rewrite <-E. split; [by intros ->|by intros [= ->]].
  - split; [lia|]. destruct (Z.eqb_spec (hd 0 q) 0); [done|]. intros [= ?]. done.
Qed.
Lemma cstr_zeros n l : hd 0 l = 0 -> cstr n l = [].
Proof. intros E. destruct n; cbn; [done|]. by rewrite E. Qed.
Lemma cstr_strncpy n l : cstr n (strncpy n l) = cstr n l.
Proof.
  revert l. induction n as [|n IH]; intros l; [done|]. cbn [strncpy cstr].
  destruct (Z.eqb_spec (hd 0 l) 0) as [E|E]; [done|]. cbn. destruct (Z.eqb_spec (hd 0 l) 0); [done|]. by rewrite IH.
Qed.
Lemma strncpy_len n l : length (strncpy n l) = n.
Proof.
  revert l. induction n as [|n IH]; intros l; [done|]. cbn [strncpy]. destruct (hd 0 l =? 0); cbn; [by rewrite repeat_length|by rewrite IH].
Qed.
Definition dname (l : list Z) : list Z := cstr (Z.to_nat DIRSIZ) l.
Lemma namecmp_spec s t : namecmp s t = 0 <-> dname s = dname t.
Proof. apply strncmp_spec. Qed.

(** ** Entries *)

Definition ents (e : inode) : Z := i_size e / DIRENT.
Definition dent (v : Z -> Z) (e : inode) (k : Z) : list Z := ibyte v e <$> seqZ (DIRENT * k) DIRENT.
Definition ent_is (v : Z -> Z) (e : inode) (name : list Z) (k : Z) : bool :=
  negb (de_inum (dent v e k) =? 0) && bool_decide (dname name = dname (de_name (dent v e k))).
(** The first index of a list that satisfies [p]. *)
Fixpoint first_of (p : Z -> bool) (l : list Z) : option Z :=
  match l with [] => None | k :: l => if p k then Some k else first_of p l end.
Definition dir_find (v : Z -> Z) (e : inode) (name : list Z) : option Z :=
  first_of (ent_is v e name) (seqZ 0 (ents e)).
Lemma first_of_spec p l k : first_of p l = Some k -> p k = true /\ k ∈ l.
Proof.
  induction l as [|a l IH]; [done|]. cbn. destruct (p a) eqn:E; [intros [= ->]; split; [done|set_solver]|].
  intros [? ?]%IH. split; [done|set_solver].
Qed.
Lemma first_of_none p l : first_of p l = None <-> forall k, k ∈ l -> p k = false.
Proof.
  induction l as [|a l IH]; cbn; [set_solver|]. destruct (p a) eqn:E.
  - split; [done|]. intros H. rewrite (H a) in E by set_solver. done.
  - rewrite IH. set_solver.
Qed.
Lemma first_of_ext p q l : (forall k, k ∈ l -> p k = q k) -> first_of p l = first_of q l.
Proof. induction l as [|a l IH]; [done|]. intros H. cbn. rewrite (H a), IH by set_solver. done. Qed.
Lemma first_of_app p l l' : first_of p (l ++ l') = match first_of p l with Some k => Some k | None => first_of p l' end.
Proof. induction l as [|a l IH]; [done|]. cbn. by destruct (p a). Qed.

Record dir_in `{DevSw} (dp : Z) (e : inode) (s : fsst) : Prop := {
  di_idle : idle s;
  di_file : file_in dp e s;
  di_type : i_type e = T_DIR;
  di_size : i_size e `mod` DIRENT = 0;
}.

Section Lookup.
Context `{DevSw} (dp : Z).
Implicit Types (s : fsst) (e : inode).

Lemma dir_offs_ents e : i_size e `mod` DIRENT = 0 -> 0 <= i_size e -> dir_offs (i_size e) = (fun k => DIRENT * k) <$> seqZ 0 (ents e).
Proof. intros Hm Hs. unfold dir_offs, ents. do 2 f_equal. dlia. Qed.
Lemma read_dent e s k : dir_in dp e s -> 0 <= k < ents e -> readi dp (DIRENT * k) DIRENT s = Ret (DIRENT, dent (view s) e k) s.
Proof.
  intros [Hs [Hi Ht Ho Hso Hsy Hty] Hd Hm] Hk. pose proof Hso as [Hsz _]. unfold ents in Hk.
  rewrite (readi_ok dp e) by (done || unfold is_u32; dlia). unfold read_bytes.
  destruct (Z.ltb_spec (i_size e) (DIRENT * k)) as [|_]; [dlia|]. destruct (Z.leb_spec 4294967296 (DIRENT * k + DIRENT)) as [|_]; [dlia|].
  cbn [orb]. rewrite Z.min_l by dlia. done.
Qed.
Lemma ent_test s e name k : (if de_inum (dent (view s) e k) =? 0 then false else namecmp name (de_name (dent (view s) e k)) =? 0)
  = ent_is (view s) e name k.
Proof.
  unfold ent_is. destruct (Z.eqb_spec (de_inum (dent (view s) e k)) 0); [done|]. cbn [negb andb].
  destruct (Z.eqb_spec (namecmp name (de_name (dent (view s) e k))) 0) as [E|E].
  - apply namecmp_spec in E. by rewrite bool_decide_true.
  - rewrite bool_decide_false; [done|]. intros E'. by apply E, namecmp_spec.
Qed.
Lemma dirlookup_scan e s name : dir_in dp e s -> forall l, (forall k, k ∈ l -> 0 <= k < ents e) ->
  for_until ((fun k => DIRENT * k) <$> l) (fun off =>
    '(r, de) ← readi dp off DIRENT;
    if negb (r =? DIRENT) then panic "dirlookup read" else
    if de_inum de =? 0 then mret None else
    if namecmp name (de_name de) =? 0 then
      e ← geti dp;
      ip ← iget (i_dev e) (de_inum de); mret (Some (ip, off))
    else mret None) s
  = match first_of (ent_is (view s) e name) l with
    | None => Ret None s
    | Some k => (ip ← iget (i_dev e) (de_inum (dent (view s) e k)); mret (Some (ip, DIRENT * k))) s
    end.
Proof.
  intros Hdir. induction l as [|k l IH]; intros Hl; [done|]. rewrite fmap_cons. cbn [for_until first_of].
  exec. exec_by (read_dent e s k Hdir ltac:(apply Hl; set_solver)). rewrite Z.eqb_refl. cbn [negb]. rewrite <-ent_test.
  destruct (de_inum (dent (view s) e k) =? 0); [exec; apply IH; set_solver|].
  destruct (namecmp name (de_name (dent (view s) e k)) =? 0); [|exec; apply IH; set_solver].
  pose proof (fi_entry _ _ _ (di_file _ _ _ Hdir)) as Hi. exec. exec_by (geti_run s dp e Hi). exec.
  unfold mbind, M_bind. by destruct (iget (i_dev e) (de_inum (dent (view s) e k)) s).
Qed.
Lemma dirlookup_ok e s name : dir_in dp e s ->
  dirlookup dp name s = match dir_find (view s) e name with
    | None => Ret None s
    | Some k => (ip ← iget (i_dev e) (de_inum (dent (view s) e k)); mret (Some (ip, DIRENT * k))) s
    end.
Proof.
  intros Hdir. pose proof Hdir as [Hs Hf Hd Hm]. pose proof (fi_entry _ _ _ Hf) as Hi. destruct (fi_solid _ _ _ Hf) as [Hsz _].
  unfold dirlookup. exec_by (geti_run s dp e Hi). rewrite Hd. cbn [negb Z.eqb]. change (T_DIR =? T_DIR) with true. cbn [negb].
  rewrite dir_offs_ents by (done || lia). rewrite (dirlookup_scan e s name Hdir); [done|]. intros k Hk%elem_of_seqZ. lia.
Qed.

(** The first slot that is free, or the end. *)
Definition free_slot (v : Z -> Z) e : Z :=
  default (ents e) (first_of (fun k => de_inum (dent v e k) =? 0) (seqZ 0 (ents e))).
Lemma free_scan e s : dir_in dp e s -> forall l, (forall k, k ∈ l -> 0 <= k < ents e) ->
  for_until ((fun k => DIRENT * k) <$> l) (fun off =>
    '(r, de) ← readi dp off DIRENT;
    if negb (r =? DIRENT) then panic "dirlink read" else
    mret (if de_inum de =? 0 then Some off else None)) s
  = Ret ((fun k => DIRENT * k) <$> first_of (fun k => de_inum (dent (view s) e k) =? 0) l) s.
Proof.
  intros Hdir. induction l as [|k l IH]; intros Hl; [done|]. rewrite fmap_cons. cbn [for_until first_of].
  exec. exec_by (read_dent e s k Hdir ltac:(apply Hl; set_solver)). rewrite Z.eqb_refl. cbn [negb]. exec.
  destruct (de_inum (dent (view s) e k) =? 0); [done|]. apply IH. set_solver.
Qed.
Lemma free_slot_range v e : 0 <= i_size e -> 0 <= free_slot v e <= ents e.
Proof.
  intros Hs. unfold free_slot. destruct (first_of _ _) as [k|] eqn:E; cbn; [|unfold ents; dlia].
  apply first_of_spec in E as [_ Hk%elem_of_seqZ]. lia.
Qed.
Lemma dirent_len inum name : zlen (dirent inum name) = DIRENT.
Proof. unfold zlen, dirent. cbn [length]. rewrite strncpy_len. done. Qed.
Lemma dirlink_ok e s name inum : dir_in dp e s -> dir_find (view s) e name = None ->
  DIRENT * free_slot (view s) e + DIRENT <= MAXFILE * BSIZE ->
  wpf (dirlink dp name inum) (fun r s' => r = 0 /\ exists e', wrote dp (DIRENT * free_slot (view s) e) (dirent inum name) e e' s s') s.
Proof.
  intros Hdir Hnone Hfit. pose proof Hdir as [Hs Hf Hd Hm]. pose proof (fi_entry _ _ _ Hf) as Hi. destruct (fi_solid _ _ _ Hf) as [Hsz _].
  unfold dirlink. eapply wpf_step; [rewrite (dirlookup_ok e s name Hdir), Hnone; reflexivity|].
  eapply wpf_step; [by apply geti_run|].
  eapply wpf_step.
  { rewrite dir_offs_ents by (done || lia). apply (free_scan e s Hdir). intros k Hk%elem_of_seqZ. lia. }
  assert (forall o, match (fun k => DIRENT * k) <$> o with Some off => off | None => DIRENT * ((i_size e + DIRENT - 1) / DIRENT) end
    = DIRENT * default (ents e) o) as Eo by (intros [k|]; cbn; [done|unfold ents; dlia]).
  rewrite Eo. fold (free_slot (view s) e). pose proof (free_slot_range (view s) e ltac:(lia)) as Hr.
  set (off := DIRENT * free_slot (view s) e) in *. pose proof (dirent_len inum name) as El.
  assert (off <= i_size e) as Hoff by (unfold off, ents in *; dlia).
  eapply wpf_call.
  { pose proof (writei_ok dp e off (dirent inum name) s Hs Hf) as Hw. rewrite El in Hw. apply Hw; [unfold off; dlia|unfold is_u32, off in *; dlia]. }
  intros r s' Hr'. destruct (Z.ltb_spec (i_size e) off) as [|_]; [lia|]. destruct (Z.ltb_spec (MAXFILE * BSIZE) (off + DIRENT)) as [|_]; [lia|].
  cbn [orb] in Hr'. destruct Hr' as (-> & e' & Hw). rewrite Z.eqb_refl. eapply wpf_ret; [reflexivity|]. eauto.
Qed.
End Lookup.

(** ** Finding what was linked *)
Section Linked.
Context `{DevSw} (dp : Z) (e e' : inode) (s s' : fsst) (name : list Z) (inum : Z).
Let k := free_slot (view s) e.
Hypothesis Hdir : dir_in dp e s.
Hypothesis Hw : wrote dp (DIRENT * k) (dirent inum name) e e' s s'.
Hypothesis Hinum : 0 < inum < 65536.
Hypothesis Hbytes : forall y, y ∈ name -> 0 <= y < 256.
Hypothesis Hnone : dir_find (view s) e name = None.
Hypothesis Hfit : DIRENT * k + DIRENT <= MAXFILE * BSIZE.

Lemma linked_k : 0 <= k <= ents e /\ ents e' = Z.max (ents e) (k + 1) /\ i_size e' `mod` DIRENT = 0.
Proof using Hdir Hw.
  pose proof Hdir as [_ Hf _ Hm]. destruct (fi_solid _ _ _ Hf) as [Hsz _].
  pose proof (free_slot_range (view s) e ltac:(lia)) as Hr. fold k in Hr.
  assert (i_size e' = Z.max (i_size e) (DIRENT * k + DIRENT)) as E.
  { rewrite (wo_entry _ _ _ _ _ _ _ Hw), dirent_len. done. }
  unfold ents in *. rewrite E. split; [done|]. dlia.
Qed.
Lemma strncpy_bytes n l : (forall y, y ∈ l -> 0 <= y < 256) -> forall y, y ∈ strncpy n l -> 0 <= y < 256.
Proof.
  revert l. induction n as [|n IH]; intros l Hl y; cbn [strncpy]; [intros Hy; by apply elem_of_nil in Hy|].
  destruct (hd 0 l =? 0).
  - intros Hy%list_elem_of_In%repeat_spec. lia.
  - destruct l as [|a l]; cbn [hd tl]; intros [->|Hy]%elem_of_cons; [lia| |apply Hl; set_solver|].
    + eapply (IH []); [set_solver|done].
    + eapply IH; [|done]. set_solver.
Qed.
Lemma linked_other j : 0 <= j -> DIRENT * j + DIRENT <= MAXFILE * BSIZE -> j <> k -> dent (view s') e' j = dent (view s) e j.
Proof using Hw Hfit.
  intros Hj Hm Hne. unfold dent. apply fmap_seqZ_ext. intros i Hi. rewrite (wo_bytes _ _ _ _ _ _ _ Hw) by dlia.
  rewrite zget_none; [done|]. rewrite dirent_len. dlia.
Qed.
Lemma linked_at : dent (view s') e' k = dirent inum name.
Proof using Hdir Hw Hbytes Hfit Hinum Hnone.
  destruct linked_k as [Hk _]. apply zget_ext; [rewrite dirent_len; unfold dent, zlen; by rewrite length_fmap, length_seqZ|].
  unfold dent, zlen. rewrite length_fmap, length_seqZ. intros i Hi.
  assert (0 <= i < DIRENT) as Hi' by dlia. replace (seqZ (DIRENT * k) DIRENT) with ((fun j => DIRENT * k + j) <$> seqZ 0 DIRENT).
  2: { symmetry. rewrite <-(list_fmap_id (seqZ (DIRENT * k) DIRENT)). apply fmap_seqZ_ext. intros; cbn; lia. }
  rewrite <-list_fmap_compose, zget_fmap_seqZ by done. unfold compose. rewrite (wo_bytes _ _ _ _ _ _ _ Hw) by dlia.
  replace (DIRENT * k + i - DIRENT * k) with i by lia.
  destruct (zget_in_range (dirent inum name) i) as [y Ey]; [by rewrite dirent_len|]. rewrite Ey. f_equal. apply zget_elem in Ey.
  unfold dirent in Ey. apply elem_of_cons in Ey as [->|[->|Hy]%elem_of_cons]; [unfold u8; zlia|unfold u8; zlia|].
  apply (strncpy_bytes _ _ Hbytes) in Hy. unfold u8. zlia.
Qed.
Lemma linked_inum : de_inum (dent (view s') e' k) = inum.
Proof using Hdir Hw Hbytes Hfit Hinum Hnone. rewrite linked_at. unfold de_inum, dirent. cbn [hd tl]. unfold u8. zlia. Qed.
Lemma linked_is name' : ent_is (view s') e' name' k = bool_decide (dname name' = dname name).
Proof using Hdir Hw Hbytes Hfit Hinum Hnone.
  unfold ent_is. rewrite linked_inum. destruct (Z.eqb_spec inum 0); [lia|]. rewrite linked_at. cbn [negb andb de_name dirent tl].
  apply bool_decide_ext. unfold dname at 2. by rewrite cstr_strncpy.
Qed.
Lemma linked_find name' : dir_find (view s') e' name' =
  if decide (dname name' = dname name) then Some k else dir_find (view s) e name'.
Proof using Hdir Hw Hbytes Hfit Hinum Hnone.
  destruct linked_k as (Hk & He & _). pose proof Hdir as [_ Hf _ Hm]. destruct (fi_solid _ _ _ Hf) as [Hsz _].
  assert (forall j nm, 0 <= j < ents e -> j <> k -> ent_is (view s') e' nm j = ent_is (view s) e nm j) as Hj.
  { intros j nm Hj Hne. unfold ent_is. rewrite linked_other; [done|lia|unfold ents in *; dlia|done]. }
  unfold dir_find. rewrite He. case_decide as E.
  - replace (Z.max (ents e) (k + 1)) with (k + (1 + (Z.max (ents e) (k + 1) - k - 1))) by lia. rewrite seqZ_app, first_of_app by lia.
    assert (first_of (ent_is (view s') e' name') (seqZ 0 k) = None) as ->.
    { apply first_of_none. intros j Hj'%elem_of_seqZ. rewrite Hj by lia.
      assert (ent_is (view s) e name' j = ent_is (view s) e name j) as -> by (unfold ent_is; by rewrite E).
      unfold dir_find in Hnone. rewrite first_of_none in Hnone. apply Hnone, elem_of_seqZ. lia. }
    rewrite (Z.add_comm 1), seqZ_step by lia. cbn [first_of]. rewrite Z.add_0_l, linked_is, bool_decide_true by done. done.
  - assert (ent_is (view s') e' name' k = false) as Hkf by (by rewrite linked_is, bool_decide_false).
    destruct (decide (k < ents e)) as [Hlt|Hge].
    + rewrite Z.max_l by lia. apply first_of_ext. intros j Hj'%elem_of_seqZ. destruct (decide (j = k)) as [->|]; [|apply Hj; lia].
      rewrite Hkf. unfold ent_is. unfold k, free_slot in *.
      destruct (first_of (fun k => de_inum (dent (view s) e k) =? 0) (seqZ 0 (ents e))) as [k0|] eqn:Ek; cbn [default from_option] in *; [|lia].
      apply first_of_spec in Ek as [Ek _]. cbv beta in Ek. unfold id. by rewrite Ek.
    + assert (k = ents e) as Ek by lia. rewrite Z.max_r by lia. rewrite seqZ_app, first_of_app, Z.add_0_l by lia.
      rewrite (first_of_ext _ (ent_is (view s) e name')) by (intros j Hj'%elem_of_seqZ; apply Hj; lia).
      rewrite <-Ek. destruct (first_of (ent_is (view s) e name') (seqZ 0 k)); [done|].
      change 1 with (0 + 1). rewrite seqZ_step by lia. cbn [first_of]. by rewrite Hkf.
Qed.
End Linked.
