(* ===== verification/XPath.v ===== *)
(** * Path names of xv6

    [namex] follows a path through the directories on the disk ([walk]).  It
    takes a reference to the inode it returns and gives back every other one it
    took on the way, and it changes nothing on the disk. *)
From S2P Require Import Prelude Bytes XFs XFsAlloc XFile XFileIO XTrunc XInode XDir.

(** ** The names of a path *)

Definition flush (cur : list Z) (l : list (list Z)) : list (list Z) :=
  match cur with [] => l | _ => take (Z.to_nat DIRSIZ) cur :: l end.
Fixpoint path_names (cur p : list Z) : list (list Z) :=
  match p with
  | [] => flush cur []
  | c :: p => if c =? 47 then flush cur (path_names [] p) else path_names (cur ++ [c]) p
  end.
Lemma path_slashes p : path_names [] (skip_slashes p) = path_names [] p.
Proof. induction p as [|c p IH]; [done|]. cbn. by destruct (c =? 47) eqn:E; cbn; rewrite ?E, ?IH. Qed.
Lemma path_span p cur : let '(s, r) := span_elem p in
  path_names cur p = flush (cur ++ s) (path_names [] r) /\ (length r <= length p)%nat.
Proof.
  revert cur. induction p as [|c p IH]; intros cur; cbn; [by rewrite app_nil_r|]. destruct (c =? 47) eqn:E.
  - cbn. rewrite E, app_nil_r. done.
  - specialize (IH (cur ++ [c])). destruct (span_elem p) as [s r]. destruct IH as [-> Hl].
    rewrite <-app_assoc. split; [done|lia].
Qed.
Lemma skip_slashes_len p : (length (skip_slashes p) <= length p)%nat.
Proof. induction p as [|c p IH]; [done|]. cbn. destruct (c =? 47); cbn; lia. Qed.
Lemma skip_slashes_hd p c q : skip_slashes p = c :: q -> (c =? 47) = false.
Proof. induction p as [|d p IH]; [done|]. cbn. destruct (d =? 47) eqn:E; [done|]. by intros [= -> ->]. Qed.
Lemma skipelem_spec path :
  match skipelem path with
  | None => path_names [] path = []
  | Some (rest, name) => path_names [] path = name :: path_names [] rest /\ (length rest < length path)%nat /\
      (rest = [] <-> path_names [] rest = [])
  end.
Proof.
  unfold skipelem. rewrite <-(path_slashes path). pose proof (skip_slashes_len path) as Hlen.
  destruct (skip_slashes path) as [|c q] eqn:Es; [done|]. pose proof (skip_slashes_hd _ _ _ Es) as Hc.
  pose proof (path_span (c :: q) []) as Hs. cbn [span_elem] in *. rewrite Hc in *. destruct (span_elem q) as [s r] eqn:Eq.
  destruct Hs as [Hs _]. pose proof (path_span q []) as Hq. rewrite Eq in Hq. destruct Hq as [_ Hq].
  rewrite Hs, (path_slashes r). cbn [app flush]. split; [done|]. pose proof (skip_slashes_len r). split; [cbn in Hlen; lia|].
  destruct (skip_slashes r) as [|d t] eqn:Er; [split; [|done]; intros _; rewrite <-path_slashes, Er; done|]. split; [done|].
  rewrite <-path_slashes, Er. pose proof (skip_slashes_hd _ _ _ Er) as Hd. cbn. rewrite Hd.
  pose proof (path_span t [d]) as Ht. destruct (span_elem t). destruct Ht as [-> _]. done.
Qed.

(** ** Directories on the disk *)

Definition dinode (x : superblock) (v : Z -> Z) (inum : Z) : inode :=
  loaded x v (mk_inode ROOTDEV inum 0 false false 0 0 0 0 0 []).
Definition allocated (x : superblock) (v : Z -> Z) (inum : Z) : Prop :=
  1 <= inum < sb_ninodes x /\ i_type (dinode x v inum) <> 0.
Record inode_good (x : superblock) (v : Z -> Z) (inum : Z) : Prop := {
  gd_ok : inode_ok x v (dinode x v inum);
  gd_solid : solid v (dinode x v inum);
  gd_link : i_nlink (dinode x v inum) <> 0;
  gd_size : i_type (dinode x v inum) = T_DIR -> i_size (dinode x v inum) `mod` DIRENT = 0;
  gd_ents : i_type (dinode x v inum) = T_DIR -> forall k, 0 <= k < ents (dinode x v inum) ->
    de_inum (dent v (dinode x v inum) k) <> 0 -> allocated x v (de_inum (dent v (dinode x v inum) k));
}.
(** The entries of the cache between two operations: unlocked, of inodes that
    are allocated, and current when they are valid. *)
Record entry_wf (x : superblock) (v : Z -> Z) (e : inode) : Prop := {
  ew_lock : i_locked e = false;
  ew_dev : 0 < i_ref e -> i_dev e = ROOTDEV;
  ew_inum : 0 < i_ref e -> allocated x v (i_inum e);
  ew_valid : 0 < i_ref e -> i_valid e = true -> on_disk x v e /\ zlen (i_addrs e) = NDIRECT + 1;
}.
Record quiet (s : fsst) : Prop := {
  qt_disk : disk_ok (sb s) (view s);
  qt_held : held s = ∅;
  qt_good : forall inum, allocated (sb s) (view s) inum -> inode_good (sb s) (view s) inum;
  qt_cache : cache_ok (icache s);
  qt_entry : forall i e, zget (icache s) i = Some e -> entry_wf (sb s) (view s) e;
}.

(** The inode that a list of names leads to, and the last name. *)
Fixpoint walk (x : superblock) (v : Z -> Z) (parent : bool) (inum : Z) (names : list (list Z)) (last : list Z) : option (Z * list Z) :=
  match names with
  | [] => if parent then None else Some (inum, last)
  | n :: rest =>
      if negb (i_type (dinode x v inum) =? T_DIR) then None else
      if parent && bool_decide (rest = []) then Some (inum, n) else
      match dir_find v (dinode x v inum) n with
      | None => None
      | Some k => walk x v parent (de_inum (dent v (dinode x v inum) k)) rest n
      end
  end.

(** What an inode is read as does not depend on the rest of its entry. *)
Lemma loaded_dinode x v e : i_dev e = ROOTDEV -> loaded x v e = with_ref (i_ref e) (dinode x v (i_inum e)).
Proof. intros E. unfold dinode, loaded, with_ref. cbn. by rewrite E. Qed.
Lemma ents_dinode x v e : i_dev e = ROOTDEV -> ents (loaded x v e) = ents (dinode x v (i_inum e)).
Proof. done. Qed.
Lemma find_dinode x v e name : dir_find v (loaded x v e) name = dir_find v (dinode x v (i_inum e)) name.
Proof. done. Qed.
Lemma dent_dinode x v e k : dent v (loaded x v e) k = dent v (dinode x v (i_inum e)) k.
Proof. done. Qed.
Lemma good_loaded x v e : inode_good x v (i_inum e) -> inode_ok x v (loaded x v e) /\ solid v (loaded x v e).
Proof. intros [[H1 H2 H3 H4] H5 _ _ _]. split; [by split|done]. Qed.

(** ** The operations on a quiet system *)
Section Quiet.
Implicit Types (s : fsst) (e : inode).

Lemma quiet_idle s : quiet s -> idle s.
Proof. intros [? ? _ _ _]. by split. Qed.
Lemma quiet_put s ip e e' : quiet s -> zget (icache s) ip = Some e -> i_dev e' = i_dev e -> i_inum e' = i_inum e ->
  0 <= i_ref e' -> (0 < i_ref e' -> 0 < i_ref e) -> entry_wf (sb s) (view s) e' -> quiet (put ip e' s).
Proof.
  intros [Q1 Q2 Q3 Q4 Q5] Hi Hd Hn Hr Hp Hw. split; [done|done|done|by eapply cache_set|]. intros i e2. cbn. rewrite zget_zset.
  case_decide; [by intros [= <-]|apply Q5].
Qed.
Lemma wf_ref x v e n : entry_wf x v e -> 0 < i_ref e -> entry_wf x v (with_ref n e).
Proof.
  intros [H1 H2 H3 H4] Hr. split; [done|by intros _; apply H2|by intros _; apply H3|]. intros _ Hv.
  destruct (H4 Hr Hv) as [[? ? ? ? ? ?] ?]. by split; [split|].
Qed.
Lemma refs_drop l ip e dev inum : zget l ip = Some e -> i_dev e = dev ->
  refs (zset l ip (with_ref (i_ref e - 1) e)) dev inum = refs l dev inum - if i_inum e =? inum then 1 else 0.
Proof.
  intros Hi Hd. rewrite (refs_add l ip e) by done. unfold names. rewrite Hd, Z.eqb_refl. cbn [andb]. case_match; lia.
Qed.

(** Counting references of the root device. *)
Definition one (a b : Z) : Z := if a =? b then 1 else 0.
Lemma iput_quiet s ip e : quiet s -> zget (icache s) ip = Some e -> 0 < i_ref e ->
  exists s', iput ip s = Ret tt s' /\ quiet s' /\ s' = put ip (with_ref (i_ref e - 1) e) s /\
    forall i, refs (icache s') ROOTDEV i = refs (icache s) ROOTDEV i - one (i_inum e) i.
Proof.
  intros Hq Hi Hr. pose proof (qt_entry _ Hq ip e Hi) as Hw. eexists. split; [|split; [|split; [reflexivity|]]].
  - apply iput_keep; [done|apply Hw|]. unfold dying. destruct (i_valid e) eqn:Hv; [|done]. cbn [andb].
    destruct (ew_valid _ _ _ Hw Hr Hv) as [Ho _]. pose proof (gd_link _ _ _ (qt_good _ Hq _ (ew_inum _ _ _ Hw Hr))) as Hl.
    destruct (Z.eqb_spec (i_nlink e) 0) as [E|]; [|done]. exfalso. apply Hl. rewrite <-E. apply (od_nlink _ _ _ Ho).
  - apply (quiet_put s ip e); try done; [cbn; lia|]. by apply wf_ref.
  - intros i. cbn [icache put with_icache]. by apply refs_drop, (ew_dev _ _ _ Hw).
Qed.
Lemma ilock_quiet s ip e : quiet s -> zget (icache s) ip = Some e -> 0 < i_ref e ->
  let el := loaded (sb s) (view s) e in
  ilock (Some ip) s = Ret tt (put ip el s) /\ quiet (put ip (with_lock false el) s).
Proof.
  intros Hq Hi Hr el. pose proof (qt_entry _ Hq ip e Hi) as Hw. pose proof (ew_inum _ _ _ Hw Hr) as [Hn Ht]. split.
  - destruct (i_valid e) eqn:Hv.
    + destruct (ew_valid _ _ _ Hw Hr Hv) as [Ho Hl]. rewrite (ilock_valid ip e s Hi (ew_lock _ _ _ Hw) Hr Hv). f_equal.
      f_equal. unfold el. rewrite loaded_current by done. unfold with_lock, with_valid. cbn. by rewrite Hv.
    + rewrite (ilock_load ip e s Hi (ew_lock _ _ _ Hw) Hr Hv (qt_held _ Hq)). fold el.
      destruct (Z.eqb_spec (i_type el) 0) as [E|]; [|done]. by destruct Ht.
  - apply (quiet_put s ip e); try done; [cbn; lia|]. split; [done|intros _; by apply (ew_dev _ _ _ Hw)|intros _; by apply (ew_inum _ _ _ Hw)|].
    intros _ _. pose proof (loaded_on_disk (sb s) (view s) e) as Ho. fold el in Ho. split; [destruct Ho; by split|].
    cbn. unfold zlen. by rewrite length_fmap, length_seqZ.
Qed.
(** [iget] while the process holds the lock of one inode. *)
Lemma iget_locked s s' ip el inum next : quiet (put ip (with_lock false el) s) -> zget (icache s) ip = Some el -> 0 < i_ref el ->
  allocated (sb s) (view s) inum -> got ROOTDEV inum next s s' ->
  exists el', zget (icache s') ip = Some el' /\ i_ref el <= i_ref el' /\ i_inum el' = i_inum el /\ i_locked el' = i_locked el /\
    quiet (put ip (with_lock false el') s') /\
    exists e', zget (icache s') next = Some e' /\ i_inum e' = inum /\ (next = ip -> 1 < i_ref e').
Proof.
  intros [Q1 Q2 Q3 Q4 Q5] Hi Hr Ha Hg. pose proof (zget_Some_range _ _ _ Hi) as Hip.
  destruct Hg as [Hrest Hc _ (e' & He' & Hd & Hn & Hp & Hother & Hcase)].
  assert (exists el', zget (icache s') ip = Some el' /\ (el' = el /\ next <> ip \/ el' = with_ref (i_ref el + 1) el /\ next = ip)) as (el' & Hi' & Hel).
  { destruct (decide (next = ip)) as [->|Hne]; [|exists el; split; [by rewrite Hother|by left]].
    destruct Hcase as [(e0 & He0 & -> & _)|(_ & _ & _ & e0 & He0 & Hz & _)].
    all: assert (e0 = el) as -> by congruence.
    2: lia.
    eexists. split; [exact He'|]. by right. }
  assert (i_dev el' = i_dev el /\ i_inum el' = i_inum el /\ i_locked el' = i_locked el /\ i_ref el <= i_ref el') as (E1 & E2 & E3 & E4).
  { destruct Hel as [[-> _]|[-> _]]; [done|]. cbn. split; [done|]. split; [done|]. split; [done|]. lia. }
  exists el'. split; [done|]. split; [done|]. split; [done|]. split; [done|].
  assert (entry_wf (sb s) (view s) (with_lock false el)) as Hwl by (apply (Q5 ip); by apply zget_zset_eq).
  assert (forall i e, i <> ip -> zget (icache s) i = Some e -> entry_wf (sb s) (view s) e) as Hold.
  { intros i e Hne He. apply (Q5 i). cbn. by rewrite zget_zset_ne by done. }
  split.
  - rewrite Hrest. split; [done|done|done| |].
    + cbn. apply (cache_set _ ip el'); try done. cbn. lia.
    + intros i e. cbn. rewrite zget_zset. case_decide as Hdec.
      * intros [= <-]. destruct Hel as [[-> _]|[-> _]]; [exact Hwl|]. exact (wf_ref _ _ (with_lock false el) (i_ref el + 1) Hwl Hr).
      * assert (i <> ip) as Hne by (intros ->; apply Hdec; split; [done|by eapply zget_Some_range]).
        intros He. destruct (decide (i = next)) as [->|Hnx]; [|rewrite Hother in He by done; by eapply Hold].
        assert (e = e') as -> by congruence. destruct Hcase as [(e0 & He0 & -> & Hp0)|(_ & Hr1 & Hv & e0 & He0 & Hz & Hlk)].
        -- apply wf_ref; [by eapply Hold|done].
        -- split; [rewrite Hlk; apply (ew_lock (sb s) (view s)); by eapply Hold|done|by rewrite Hn|by rewrite Hv].
  - exists e'. split; [done|]. split; [done|]. intros ->. assert (e' = el') as -> by congruence.
    destruct Hel as [[_ ?]|[-> _]]; [done|]. cbn. lia.
Qed.
Lemma iunlockput_quiet s ip el : quiet (put ip (with_lock false el) s) -> zget (icache s) ip = Some el -> i_locked el = true -> 0 < i_ref el ->
  exists s', iunlockput ip s = Ret tt s' /\ quiet s' /\ s' = put ip (with_ref (i_ref el - 1) (with_lock false el)) s /\
    forall i, refs (icache s') ROOTDEV i = refs (icache s) ROOTDEV i - one (i_inum el) i.
Proof.
  intros Hq Hi Hl Hr. unfold iunlockput. exec_by (iunlock_ok ip el s Hi Hl Hr). pose proof (zget_Some_range _ _ _ Hi) as Hip.
  destruct (iput_quiet _ ip (with_lock false el) Hq ltac:(by apply put_get) Hr) as (s' & E & Hq' & -> & Hrefs).
  eexists. split; [exact E|]. split; [done|]. split; [by rewrite put_put|]. intros i. rewrite Hrefs. cbn [icache put with_icache].
  rewrite (refs_set _ ip el) by done. unfold weight. change (names (with_lock false el) ROOTDEV i) with (names el ROOTDEV i).
  change (i_ref (with_lock false el)) with (i_ref el). change (i_inum (with_lock false el)) with (i_inum el). lia.
Qed.
End Quiet.

(** An entry that is referenced stays where it is: each entry of [s] with more
    references than the [w] of its inode, which may be given back. *)
Definition stays (w : Z -> Z) (s s' : fsst) : Prop := forall j e, zget (icache s) j = Some e -> w (i_inum e) < i_ref e ->
  exists e', zget (icache s') j = Some e' /\ i_inum e' = i_inum e /\ 0 < i_ref e'.
Section Stays.
Context (w : Z -> Z) (Hw : forall i, 0 <= w i).
Implicit Types (s : fsst) (e : inode).
Lemma stays_refl s : stays w s s.
Proof using Hw. intros j e Hj Hr. exists e. pose proof (Hw (i_inum e)). split; [done|]. split; [done|lia]. Qed.
Lemma stays_put s ip e e' : zget (icache s) ip = Some e -> i_inum e' = i_inum e -> (w (i_inum e) < i_ref e -> 0 < i_ref e') -> stays w s (put ip e' s).
Proof using Hw.
  intros Hi Hn Hr j ej Hj Hrj. cbn. rewrite zget_zset. case_decide as Hd; [destruct Hd as [<- _]|].
  - assert (ej = e) as -> by congruence. eauto.
  - exists ej. pose proof (Hw (i_inum ej)). split; [done|]. split; [done|lia].
Qed.
Lemma stays_got dev inum ip s s' : got dev inum ip s s' -> stays w s s'.
Proof using Hw.
  intros [_ _ _ (e & He & _ & Hn & Hp & Hother & Hcase)] j ej Hj Hrj. pose proof (Hw (i_inum ej)). destruct (decide (j = ip)) as [->|Hne].
  - exists e. split; [done|]. split; [|done]. destruct Hcase as [(e0 & He0 & -> & _)|(_ & _ & _ & e0 & He0 & Hz & _)];
      (assert (e0 = ej) as -> by congruence); [done|lia].
  - exists ej. split; [by rewrite Hother|]. split; [done|lia].
Qed.
(** The references may change hands on the way. *)
Lemma stays_trans (w' : Z -> Z) s1 s2 s3 : (forall i, 0 <= w' i) -> quiet s1 -> quiet s2 ->
  (forall i, refs (icache s2) ROOTDEV i = refs (icache s1) ROOTDEV i - w i + w' i) -> stays w s1 s2 -> stays w' s2 s3 -> stays w s1 s3.
Proof using Hw.
  intros Hw' Q1 Q2 Hrefs H1 H2 j e Hj Hr. destruct (H1 j e Hj Hr) as (e' & Hj' & Hn & Hp). pose proof (Hw (i_inum e)).
  pose proof (ew_dev _ _ _ (qt_entry _ Q1 j e Hj) ltac:(lia)) as D1. pose proof (ew_dev _ _ _ (qt_entry _ Q2 j e' Hj') Hp) as D2.
  pose proof (refs_one _ j e (qt_cache _ Q1) Hj ltac:(lia)) as E1. pose proof (refs_one _ j e' (qt_cache _ Q2) Hj' Hp) as E2.
  rewrite D1 in E1. rewrite D2, Hn, Hrefs in E2. destruct (H2 j e' Hj') as (e'' & Hj'' & Hn' & Hp'); [rewrite Hn; lia|].
  exists e''. split; [done|]. split; [congruence|done].
Qed.
End Stays.
Lemma one_nonneg a b : 0 <= one a b.
Proof. unfold one. case_match; lia. Qed.
Lemma stays_add (w : Z -> Z) s s' : (forall i, 0 <= w i) -> stays (fun _ => 0) s s' -> stays w s s'.
Proof. intros Hw Hs j e Hj Hr. apply Hs; [done|]. specialize (Hw (i_inum e)). lia. Qed.

(** ** [namex] *)
Section Namex.
Context `{DevSw} (parent : bool).
Implicit Types (s : fsst) (e : inode).

(** The walk [w] that started at [inum0] has returned [r]. *)
Definition arrived s s' (inum0 : Z) (w r : option (Z * list Z)) : Prop :=
  quiet s' /\ s' = with_icache (icache s') s /\ stays (one inum0) s s' /\
  match w with
  | None => r = None /\ forall i, refs (icache s') ROOTDEV i = refs (icache s) ROOTDEV i - one inum0 i
  | Some (inum, nm) => exists ip e, r = Some (ip, nm) /\ zget (icache s') ip = Some e /\ 0 < i_ref e /\ i_inum e = inum /\
      forall i, refs (icache s') ROOTDEV i = refs (icache s) ROOTDEV i - one inum0 i + one inum i
  end.
Definition no_entry (s : fsst) : Prop := forall i e, zget (icache s) i = Some e -> 0 < i_ref e.
Definition follows s (inum0 : Z) (w : option (Z * list Z)) (m : M fsst (option (Z * list Z))) : Prop :=
  (exists r s', m s = Ret r s' /\ arrived s s' inum0 w r) \/ (exists s', m s = Panic "iget: no inodes" s' /\ no_entry s').

Lemma locked_dir s ip e : quiet s -> zget (icache s) ip = Some e -> 0 < i_ref e ->
  i_type (dinode (sb s) (view s) (i_inum e)) = T_DIR -> dir_in ip (loaded (sb s) (view s) e) (put ip (loaded (sb s) (view s) e) s).
Proof.
  intros Hq Hi Hr Ht. pose proof (qt_entry _ Hq ip e Hi) as Hw. pose proof (ew_inum _ _ _ Hw Hr) as Ha.
  pose proof (qt_good _ Hq _ Ha) as Hg. destruct (good_loaded _ _ _ Hg) as [Ho Hs]. destruct Ha as [Hn _].
  pose proof (zget_Some_range _ _ _ Hi) as Hip. split; [destruct Hq; by split| |done|by apply (gd_size _ _ _ Hg)].
  split; [by apply put_get|apply loaded_typed; cbn; lia|done|done|apply loaded_on_disk|].
  change (i_type (dinode (sb s) (view s) (i_inum e)) <> T_DEV). by rewrite Ht.
Qed.
(** Giving up at an inode that is locked. *)
Lemma turn_back s ip e : quiet s -> zget (icache s) ip = Some e -> 0 < i_ref e ->
  exists s', (iunlockput ip;; mret (None : option (Z * list Z))) (put ip (loaded (sb s) (view s) e) s) = Ret None s' /\
    arrived s s' (i_inum e) None None.
Proof.
  intros Hq Hi Hr. destruct (ilock_quiet s ip e Hq Hi Hr) as [_ Hql]. set (el := loaded (sb s) (view s) e) in *.
  pose proof (zget_Some_range _ _ _ Hi) as Hip.
  destruct (iunlockput_quiet (put ip el s) ip el) as (s' & E & Hq' & Es & Hrefs); [by rewrite put_put|by apply put_get|done|done|].
  exists s'. split; [by exec_by E|]. split; [done|]. split; [by rewrite Es; unfold put, with_icache|].
  split; [rewrite Es, put_put; apply (stays_put _ (one_nonneg _) s ip e); [done|done|unfold one; rewrite Z.eqb_refl; cbn; lia]|]. split; [done|].
  intros i. rewrite Hrefs. cbn [icache put with_icache]. rewrite (refs_set _ ip e) by done. unfold weight.
  change (names el ROOTDEV i) with (names e ROOTDEV i). change (i_ref el) with (i_ref e). change (i_inum el) with (i_inum e). lia.
Qed.
(** One step into a directory: the reference moves from the directory to the
    inode of the entry. *)
Lemma step_into s ip e name k : quiet s -> zget (icache s) ip = Some e -> 0 < i_ref e ->
  let d := dinode (sb s) (view s) (i_inum e) in let inum := de_inum (dent (view s) d k) in
  i_type d = T_DIR -> dir_find (view s) d name = Some k ->
  let s1 := put ip (loaded (sb s) (view s) e) s in
  (dirlookup ip name s1 = Panic "iget: no inodes" s1 /\ no_entry s1) \/
  exists next off s2 s3 e3, dirlookup ip name s1 = Ret (Some (next, off)) s2 /\ iunlockput ip s2 = Ret tt s3 /\ quiet s3 /\
    s3 = with_icache (icache s3) s /\ stays (one (i_inum e)) s s3 /\ zget (icache s3) next = Some e3 /\ 0 < i_ref e3 /\ i_inum e3 = inum /\
    forall i, refs (icache s3) ROOTDEV i = refs (icache s) ROOTDEV i - one (i_inum e) i + one inum i.
Proof.
  intros Hq Hi Hr d inum Ht Hk s1. pose proof (zget_Some_range _ _ _ Hi) as Hip. destruct (ilock_quiet s ip e Hq Hi Hr) as [_ Hql].
  pose proof (locked_dir s ip e Hq Hi Hr Ht) as Hdir. set (el := loaded (sb s) (view s) e) in *.
  pose proof (qt_entry _ Hq ip e Hi) as Hw. pose proof (qt_good _ Hq _ (ew_inum _ _ _ Hw Hr)) as Hg.
  assert (i_dev el = ROOTDEV) as Hdev by (by apply (ew_dev _ _ _ Hw)).
  assert (allocated (sb s) (view s) inum) as Ha.
  { pose proof (first_of_spec _ _ _ Hk) as [Hent Hin%elem_of_seqZ]. apply (gd_ents _ _ _ Hg Ht); [unfold d in *; lia|].
    unfold ent_is in Hent. apply andb_true_iff in Hent as [Hn _]. fold d. by destruct (Z.eqb_spec (de_inum (dent (view s) d k)) 0). }
  assert (zget (icache s1) ip = Some el) as Hi1 by (by apply put_get).
  assert (cache_ok (icache s1)) as Hc1 by (apply (cache_set _ ip e); try done; [apply Hq|cbn; lia]).
  assert (dirlookup ip name s1 = (p ← iget ROOTDEV inum; mret (Some (p, DIRENT * k))) s1) as El.
  { rewrite (dirlookup_ok ip el s1 name Hdir). change (dir_find (view s1) el name) with (dir_find (view s) d name). rewrite Hk, Hdev. done. }
  destruct (iget_ok ROOTDEV inum s1 Hc1) as [(next & s2 & E & Hgot)|(E & _ & Hno)].
  2: { left. rewrite El. unfold mbind, M_bind. rewrite E. done. }
  right. destruct (iget_locked s1 s2 ip el inum next) as (el2 & Hi2 & Hle2 & En2 & El2 & Hq2 & e2 & He2 & Ein & Hsame);
    [by unfold s1; rewrite put_put|done|done|done|done|]. assert (0 < i_ref el2) as Hr2 by (cbn in Hle2; lia).
  destruct (iunlockput_quiet s2 ip el2 Hq2 Hi2) as (s3 & E3 & Hq3 & Es3 & Hrefs3); [by rewrite El2|done|].
  assert (exists e3, zget (icache s3) next = Some e3 /\ 0 < i_ref e3 /\ i_inum e3 = inum) as (e3 & H1 & H2 & H3).
  { rewrite Es3. cbn [icache put with_icache]. rewrite zget_zset. case_decide as Hd.
    - destruct Hd as [<- _]. assert (e2 = el2) as -> by congruence. eexists. split; [done|]. cbn. specialize (Hsame eq_refl). split; [lia|done].
    - exists e2. split; [done|]. destruct (gt_entry _ _ _ _ _ Hgot) as (e2' & He2' & _ & _ & Hp & _). assert (e2' = e2) as -> by congruence. done. }
  exists next, (DIRENT * k), s2, s3, e3. split; [rewrite El; by exec_by E|]. do 2 (split; [done|]).
  split; [rewrite Es3; rewrite (gt_rest _ _ _ _ _ Hgot); done|]. split; [|do 3 (split; [done|])].
  { intros j ej Hj Hrj. destruct (decide (j = ip)) as [->|Hne].
    - assert (ej = e) as -> by congruence. unfold one in Hrj. rewrite Z.eqb_refl in Hrj. rewrite Es3. eexists.
      split; [apply put_get; by eapply zget_Some_range|]. cbn in Hle2 |- *. split; [exact En2|lia].
    - destruct (stays_got (fun _ => 0) ltac:(done) _ _ _ _ _ Hgot j ej) as (e' & Hj' & ?);
        [unfold s1; cbn; by rewrite zget_zset_ne|pose proof (one_nonneg (i_inum e) (i_inum ej)); lia|].
      exists e'. rewrite Es3. cbn. by rewrite zget_zset_ne. }
  intros i. rewrite Hrefs3, (gt_refs _ _ _ _ _ Hgot), Z.eqb_refl, En2. cbn [andb]. unfold s1. cbn [icache put with_icache].
  rewrite (refs_set _ ip e) by done. unfold weight. change (names el ROOTDEV i) with (names e ROOTDEV i).
  change (i_ref el) with (i_ref e). change (i_inum el) with (i_inum e). unfold one. lia.
Qed.
Lemma namex_loop_ok fuel : forall s ip e path last, quiet s -> zget (icache s) ip = Some e -> 0 < i_ref e -> (length path <= fuel)%nat ->
  follows s (i_inum e) (walk (sb s) (view s) parent (i_inum e) (path_names [] path) last) (namex_loop fuel parent ip path last).
Proof.
  induction fuel as [|fuel IH]; intros s ip e path last Hq Hi Hr Hlen; pose proof (skipelem_spec path) as Hsk;
    cbn [namex_loop]; destruct (skipelem path) as [[rest name]|]; try (destruct Hsk as (_ & ? & _); lia).
  1,3: rewrite Hsk; cbn [walk]; left; destruct parent.
  1,3: destruct (iput_quiet s ip e Hq Hi Hr) as (s' & E & Hq' & -> & Hrefs); eexists None, _; split; [by exec_by E|]; split; [done|]; split; [done|]; (split; [apply (stays_put _ (one_nonneg _) s ip e); [done|done|unfold one; rewrite Z.eqb_refl; cbn; lia]|done]).
  1,2: exists (Some (ip, last)), s; split; [done|]; split; [done|]; split; [by destruct s|]; (split; [apply stays_refl, one_nonneg|]); exists ip, e;
    do 4 (split; [done|]); intros i; lia.
  destruct Hsk as (-> & Hlt & Hrest). cbn [walk]. destruct (ilock_quiet s ip e Hq Hi Hr) as [El Hql].
  pose proof (zget_Some_range _ _ _ Hi) as Hip. set (d := dinode (sb s) (view s) (i_inum e)). set (el := loaded (sb s) (view s) e) in *.
  set (s1 := put ip el s). assert (zget (icache s1) ip = Some el) as Hi1 by (by apply put_get). change (i_type d) with (i_type el).
  unfold follows. exec_by El. exec_by (geti_run s1 ip el Hi1).
  destruct (Z.eqb_spec (i_type el) T_DIR) as [Ht|Ht]; cbn [negb].
  2: { left. destruct (turn_back s ip e Hq Hi Hr) as (s' & E & Ha). eauto. }
  rewrite (bool_decide_ext _ _ Hrest). destruct (parent && bool_decide (path_names [] rest = [])).
  { left. rewrite (bind_Ret _ _ _ _ _ (iunlock_ok ip el s1 Hi1 eq_refl Hr)). unfold s1. rewrite put_put. eexists _, _. split; [reflexivity|].
    split; [done|]. split; [done|]. split; [by apply (stays_put _ (one_nonneg _) s ip e)|]. eexists ip, _. split; [done|]. split; [by apply put_get|]. do 2 (split; [done|]).
    intros i. cbn [icache put with_icache]. rewrite (refs_set _ ip e) by done. unfold weight.
    change (names (with_lock false el) ROOTDEV i) with (names e ROOTDEV i). change (i_ref (with_lock false el)) with (i_ref e). lia. }
  destruct (dir_find (view s) d name) as [k|] eqn:Hk.
  2: { left. rewrite (bind_Ret _ _ s1 None s1).
       - destruct (turn_back s ip e Hq Hi Hr) as (s' & E & Ha). eauto.
       - rewrite (dirlookup_ok ip el s1 name (locked_dir s ip e Hq Hi Hr Ht)).
         change (dir_find (view s1) el name) with (dir_find (view s) d name). by rewrite Hk. }
  destruct (step_into s ip e name k Hq Hi Hr Ht Hk) as [[E Hno]|(next & off & s2 & s3 & e3 & E2 & E3 & Hq3 & Es3 & Hst3 & H1 & H2 & H3 & Hrefs)].
  { fold el s1 in E. right. exists s1. split; [|done]. unfold mbind, M_bind. by rewrite E. }
  exec_by E2. exec_by E3. destruct (IH s3 next e3 rest name Hq3 H1 H2 ltac:(lia)) as [(r & s' & E & Hq' & Es' & Hst' & Har)|Hp].
  2: { right. exact Hp. }
  left. exists r, s'. split; [exact E|]. split; [done|]. split; [rewrite Es', Es3; done|].
  split; [apply (stays_trans (one (i_inum e)) (one_nonneg _) (one (i_inum e3)) s s3 s'); [apply one_nonneg|done|done|by rewrite H3|done|done]|].
  assert (sb s3 = sb s /\ view s3 = view s) as [Esb Ev] by (rewrite Es3; done). rewrite Esb, Ev, H3 in Har. fold d in Har.
  destruct (walk _ _ _ _ _ _) as [[inum nm]|].
  - destruct Har as (ip' & e' & ? & ? & ? & ? & Hrefs'). exists ip', e'. do 4 (split; [done|]). intros i. rewrite Hrefs', Hrefs. unfold d. lia.
  - destruct Har as [? Hrefs']. split; [done|]. intros i. rewrite Hrefs', Hrefs. unfold d. lia.
Qed.

Lemma unlocked_same e : i_locked e = false -> with_lock false e = e.
Proof. destruct e. cbn. by intros ->. Qed.
(** Where a path starts, with a reference of its own. *)
Definition start_of (path : list Z) (cwd : Z) : Z := match path with 47 :: _ => ROOTINO | _ => cwd end.
Definition referenced s s' (inum ip : Z) : Prop :=
  quiet s' /\ s' = with_icache (icache s') s /\ stays (fun _ => 0) s s' /\ (exists e, zget (icache s') ip = Some e /\ 0 < i_ref e /\ i_inum e = inum) /\
  forall i, refs (icache s') ROOTDEV i = refs (icache s) ROOTDEV i + one inum i.
Lemma start_root s ec : quiet s -> allocated (sb s) (view s) ROOTINO -> zget (icache s) (cwd s) = Some ec -> 0 < i_ref ec ->
  (exists ip s', iget ROOTDEV ROOTINO s = Ret ip s' /\ referenced s s' ROOTINO ip) \/
  (iget ROOTDEV ROOTINO s = Panic "iget: no inodes" s /\ no_entry s).
Proof.
  intros Hq Ha Hc Hr. pose proof (qt_entry _ Hq _ _ Hc) as Hw. pose proof (ew_lock _ _ _ Hw) as Hl.
  destruct (iget_ok ROOTDEV ROOTINO s (qt_cache _ Hq)) as [(ip & s' & E & Hg)|(E & _ & Hno)]; [left|by right].
  exists ip, s'. split; [done|]. destruct (iget_locked s s' (cwd s) ec ROOTINO ip) as (el & Hi & _ & _ & Hll & Hq' & e & He & Hn & _);
    [rewrite unlocked_same, put_same by done; done|done|done|done|done|].
  rewrite Hl in Hll. rewrite unlocked_same, put_same in Hq' by done. split; [done|]. split; [apply Hg|]. split; [by eapply stays_got|]. split.
  - exists e. split; [done|]. split; [|done]. destruct (gt_entry _ _ _ _ _ Hg) as (e' & He' & _ & _ & Hp & _). assert (e' = e) as -> by congruence. done.
  - intros i. rewrite (gt_refs _ _ _ _ _ Hg), Z.eqb_refl. done.
Qed.
Lemma start_cwd s ip e : quiet s -> zget (icache s) ip = Some e -> 0 < i_ref e ->
  exists s', idup ip s = Ret ip s' /\ referenced s s' (i_inum e) ip.
Proof.
  intros Hq Hi Hr. pose proof (qt_entry _ Hq _ _ Hi) as Hw. pose proof (zget_Some_range _ _ _ Hi) as Hip.
  eexists. split; [by apply idup_ok|]. split; [|split; [done|split; [|split]]].
  - apply (quiet_put s ip e); try done; [cbn; lia|]. by apply wf_ref.
  - apply (stays_put (fun _ => 0) (fun _ => Z.le_refl 0) s ip e); [done|done|cbn; lia].
  - eexists. split; [by apply put_get|]. cbn. split; [lia|done].
  - intros i. cbn [icache put with_icache]. rewrite (refs_add _ _ e) by done. unfold names, one.
    rewrite (ew_dev _ _ _ Hw Hr), Z.eqb_refl. cbn [andb]. case_match; lia.
Qed.
(** The result of a walk from a place of its own. *)
Definition resolved s s' (w r : option (Z * list Z)) : Prop :=
  quiet s' /\ s' = with_icache (icache s') s /\ stays (fun _ => 0) s s' /\
  match w with
  | None => r = None /\ forall i, refs (icache s') ROOTDEV i = refs (icache s) ROOTDEV i
  | Some (inum, nm) => exists ip e, r = Some (ip, nm) /\ zget (icache s') ip = Some e /\ 0 < i_ref e /\ i_inum e = inum /\
      forall i, refs (icache s') ROOTDEV i = refs (icache s) ROOTDEV i + one inum i
  end.
Lemma namex_ok path s ec : quiet s -> allocated (sb s) (view s) ROOTINO -> zget (icache s) (cwd s) = Some ec -> 0 < i_ref ec ->
  let w := walk (sb s) (view s) parent (start_of path (i_inum ec)) (path_names [] path) [] in
  (exists r s', namex path parent s = Ret r s' /\ resolved s s' w r) \/
  (exists s', namex path parent s = Panic "iget: no inodes" s' /\ no_entry s').
Proof.
  intros Hq Ha Hc Hr w. unfold namex.
  assert ((exists ip s1, (match path with 47 :: _ => iget ROOTDEV ROOTINO | _ => c ← gets cwd; idup c end) s = Ret ip s1 /\
      referenced s s1 (start_of path (i_inum ec)) ip) \/
    (exists s', (match path with 47 :: _ => iget ROOTDEV ROOTINO | _ => c ← gets cwd; idup c end) s = Panic "iget: no inodes" s' /\ no_entry s')) as Hstart.
  { destruct (start_cwd s (cwd s) ec Hq Hc Hr) as (s1 & E1 & H1).
    unfold start_of. repeat case_match; try (left; exists (cwd s), s1; exec; done).
    destruct (start_root s ec Hq Ha Hc Hr) as [?|[? ?]]; [by left|right; eauto]. }
  destruct Hstart as [(ip & s1 & E & Hq1 & Es1 & Hst1 & (e & He & Hre & Hn) & Hrefs)|(s' & E & Hno)].
  2: { right. exists s'. split; [|done]. unfold mbind, M_bind in *. by rewrite E. }
  rewrite (bind_Ret _ _ _ _ _ E). destruct (namex_loop_ok (length path) s1 ip e path [] Hq1 He Hre ltac:(lia)) as [(r & s' & E' & Hq' & Es' & Hst' & Har)|Hp].
  2: { by right. }
  left. exists r, s'. split; [exact E'|]. split; [done|]. split; [rewrite Es', Es1; done|].
  split; [apply (stays_trans (fun _ => 0) ltac:(done) (one (i_inum e)) s s1 s'); [apply one_nonneg|done|done|intros i; rewrite Hrefs, Hn; lia|done|done]|].
  assert (sb s1 = sb s /\ view s1 = view s) as [Esb Ev] by (rewrite Es1; done). rewrite Esb, Ev, Hn in Har. fold w in Har.
  destruct w as [[inum nm]|].
  - destruct Har as (ip' & e' & ? & ? & ? & ? & Hrefs'). exists ip', e'. do 4 (split; [done|]). intros i. rewrite Hrefs', Hrefs. lia.
  - destruct Har as [? Hrefs']. split; [done|]. intros i. rewrite Hrefs', Hrefs. lia.
Qed.
End Namex.
