(* ===== verification/XFsThm.v ===== *)
(** * The file system of xv6: the theorems

    What the layers of [xv6/fs.c] promise their callers, and a small disk on
    which the hypotheses hold. *)
From S2P Require Import Prelude Bytes XFs XFsAlloc XFile XFileIO XTrunc XInode XDir XPath.

(** ** Another file *)

Definition same_file (v v' : Z -> Z) (e : inode) : Prop :=
  forall q, 0 <= q < MAXFILE * BSIZE -> ibyte v' e q = ibyte v e q.
(** Two inodes that share no block. *)
Record apart (v : Z -> Z) (e e2 : inode) : Prop := {
  ap_inum : i_inum e <> i_inum e2;
  ap_blocks : forall b, iowned v e b -> ~ iowned v e2 b;
}.
Lemma wrote_apart ip ip2 off l e e' e2 s s' : idle s -> file_in ip e s -> file_in ip2 e2 s -> ip <> ip2 -> apart (view s) e e2 ->
  wrote ip off l e e' s s' -> file_in ip2 e2 s' /\ same_file (view s) (view s') e2 /\ apart (view s') e' e2.
Proof.
  intros Hs Hf [Hi2 Ht2 Ho2 Hso2 Hsy2 Hty2] Hne [Hin Hap] Hw. pose proof Hs as [Hd _]. pose proof (dk_sb _ _ Hd) as Hx.
  pose proof (fr_sb _ _ (wo_frame _ _ _ _ _ _ _ Hw)) as Esb. pose proof (wo_entry _ _ _ _ _ _ _ Hw) as Ee.
  assert (forall b, iowned (view s) e2 b -> datastart (sb s) <= b /\ inuse (sb s) (view s) b) as Hown.
  { intros b Hb. split; [by eapply inode_low|]. destruct Hb as [[H1 ->]|(n & Hn & H1 & ->)]; [by apply (io_ind _ _ _ Ho2)|by apply (io_data _ _ _ Ho2)]. }
  assert (forall b a, iowned (view s) e2 b -> in_block b a -> view s' a = view s a) as Hkeep.
  { intros b a Hb Ha. destruct (Hown b Hb) as [Hlow Hu]. eapply (wo_other _ _ _ _ _ _ _ Hw b); [|done|].
    - split; [by right|]. intros Hb'. by eapply Hap.
    - intros Hdn%dinode_in. destruct (dinode_block (sb s) (i_inum e) Hx (ty_inum _ _ (fi_typed _ _ _ Hf))) as [_ Hr]. destruct Hx. dlia. }
  assert (indirect e2 <> 0 -> forall a, in_block (indirect e2) a -> view s' a = view s a) as Hind by (intros Hi a; apply Hkeep; by left).
  pose proof (iblock_ext (view s) (view s') e2 Hind) as Hblk. pose proof (wo_used _ _ _ _ _ _ _ Hw) as Hused.
  split; [|split].
  - split; rewrite ?Esb; try done.
    + rewrite (wo_cache _ _ _ _ _ _ _ Hw). by rewrite zget_zset_ne.
    + by apply (inode_ext (sb s) (view s) (view s') e2 Hused Hind).
    + destruct Hso2 as [? Hall]. split; [done|]. intros n Hn Hlt. rewrite Hblk by dlia. by apply Hall.
    + eapply on_disk_ext; [|done]. intros a Ha. destruct (dinode_block (sb s) (i_inum e2) Hx (ty_inum _ _ Ht2)) as [_ Hr].
      eapply (wo_other _ _ _ _ _ _ _ Hw (IBLOCK (i_inum e2) (sb s))); [|by apply dinode_in|].
      * split; [left; lia|]. intros Hb%(inode_low (sb s)); [destruct Hx; dlia|done|apply Hf].
      * intros Ha'. apply Hin. by eapply dinode_apart; [|apply (fi_typed _ _ _ Hf)|apply Ht2|exact Ha'|exact Ha].
  - intros q Hq. unfold ibyte. rewrite Hblk by dlia. case_match; [done|]. apply (Hkeep (iblock (view s) e2 (q / BSIZE))); [|dlia].
    right. exists (q / BSIZE). split; [dlia|]. lia.
  - split; [by rewrite Ee|]. intros b Hb Hb2. apply (owned_ext (view s) (view s') e2 Hind) in Hb2. destruct (Hown b Hb2) as [_ Hu].
    destruct (wo_other _ _ _ _ _ _ _ Hw b) as [[_ Hno] _]; [|by apply Hno]. split; [by right|]. intros Hb'. by eapply Hap.
Qed.

Section Theorems.
Context `{DevSw}.

(** [writei] on a file: an offset past the end or a range past the largest
    file gives -1 and changes nothing; otherwise all bytes are written, or
    [balloc] panics on a full disk.  After the write [readi] gives the bytes
    back, every other byte of the file is as before, the size is what it must
    be, and the inode on the disk is the one in memory again; other files are
    unchanged, on the disk and in the cache, and only logged blocks were
    changed. *)
Theorem writei_reads_back ip ip2 e e2 off l s : idle s -> file_in ip e s -> file_in ip2 e2 s -> ip <> ip2 -> apart (view s) e e2 ->
  0 <= off -> is_u32 (off + zlen l) ->
  wpf (writei ip l off (zlen l)) (fun r s' =>
    if (i_size e <? off) || (MAXFILE * BSIZE <? off + zlen l) then r = -1 /\ s' = s
    else r = zlen l /\ exists e', idle s' /\ file_in ip e' s' /\ i_size e' = Z.max (i_size e) (off + zlen l) /\
      readi ip off (zlen l) s' = Ret (zlen l, u8 <$> l) s' /\
      (forall q, 0 <= q < MAXFILE * BSIZE -> ~ off <= q < off + zlen l -> ibyte (view s') e' q = ibyte (view s) e q) /\
      file_in ip2 e2 s' /\ same_file (view s) (view s') e2 /\ apart (view s') e' e2 /\
      logged s ⊆ logged s' /\ forall a, block_of a ∉ logged s' -> view s' a = view s a) s.
Proof.
  intros Hs Hf Hf2 Hne Hap Hoff Hu. eapply wpf_mono; [by apply writei_ok|]. intros r s'.
  destruct (Z.ltb_spec (i_size e) off) as [|Hle]; [done|]. destruct (Z.ltb_spec (MAXFILE * BSIZE) (off + zlen l)) as [|Hmax]; [done|].
  cbn [orb]. intros (-> & e' & Hw). split; [done|]. exists e'. destruct (wrote_file _ _ _ _ _ _ _ Hw Hs Hf) as [Hs' Hf'].
  assert (i_size e' = Z.max (i_size e) (off + zlen l)) as Esz by (rewrite (wo_entry _ _ _ _ _ _ _ Hw); done).
  do 3 (split; [done|]). pose proof (zlen_nonneg l) as Hl. split; [|split].
  - rewrite (readi_ok ip e') by (try apply Hf'; unfold is_u32 in *; try done; dlia). f_equal. unfold read_bytes. rewrite Esz.
    unfold is_u32 in Hu. destruct (Z.ltb_spec (Z.max (i_size e) (off + zlen l)) off) as [|_]; [lia|].
    destruct (Z.leb_spec 4294967296 (off + zlen l)) as [|_]; [lia|]. cbn [orb]. rewrite Z.min_l by lia. f_equal.
    apply zget_ext; [unfold zlen; rewrite !length_fmap, length_seqZ; unfold zlen; lia|].
    unfold zlen at 1. rewrite length_fmap, length_seqZ. intros i Hi.
    rewrite (fmap_seqZ_ext (ibyte (view s') e') (fun j => ibyte (view s') e' (off + j)) off 0) by done.
    rewrite zget_fmap_seqZ by lia. rewrite (wo_bytes _ _ _ _ _ _ _ Hw) by lia. replace (off + i - off) with i by lia.
    destruct (zget_in_range l i ltac:(lia)) as [y Ey]. rewrite Ey. unfold zget in *. case_match; [|done]. by rewrite list_lookup_fmap, Ey.
  - intros q Hq Hout. rewrite (wo_bytes _ _ _ _ _ _ _ Hw) by done. by rewrite zget_none by lia.
  - destruct (wrote_apart ip ip2 off l e e' e2 s s') as (? & ? & ?); try done. do 3 (split; [done|]). split; [apply Hw|].
    apply (fr_view _ _ (wo_frame _ _ _ _ _ _ _ Hw)).
Qed.

(** C24. [iput] of an entry that is not locked gives back one reference and no
    other.  If it was the last reference to an inode without links, the inode is
    freed: exactly its blocks are given back, its inode on the disk is empty and
    has no type, and nothing else on the disk is changed; otherwise nothing is
    done but the count. *)
Theorem iput_drops_or_reclaims ip e s : idle s -> cache_ok (icache s) -> zget (icache s) ip = Some e -> 0 < i_ref e ->
  i_locked e = false -> typed (sb s) e -> inode_ok (sb s) (view s) e ->
  exists s', iput ip s = Ret tt s' /\ cache_ok (icache s') /\
    (forall d i, refs (icache s') d i = refs (icache s) d i - if names e d i then 1 else 0) /\
    if dying e then reclaimed ip e s s' else s' = put ip (with_ref (i_ref e - 1) e) s.
Proof.
  intros Hs Hc Hi Hr Hl Ht Ho. destruct (dying e) eqn:Hdy.
  - destruct (iput_free ip e s Hi Hs Hl Hdy Ht Ho) as (s' & E & Hrc). exists s'. split; [done|].
    assert (i_ref e = 1) as Hr1 by (unfold dying in Hdy; apply andb_true_iff in Hdy as [_ ?%Z.eqb_eq]; done).
    rewrite (rc_cache _ _ _ _ Hrc). split; [|split; [|done]].
    + apply (cache_set _ ip e); done.
    + intros d i. rewrite (refs_set _ _ e) by done. unfold weight.
      change (names (with_ref 0 (with_valid false (dead e))) d i) with (names e d i). destruct (names e d i); cbn; lia.
  - eexists. split; [by apply iput_keep|]. cbn [icache put with_icache]. split; [|split; [|done]].
    + apply (cache_set _ ip e); try done. cbn. lia.
    + intros d i. rewrite (refs_add _ _ e) by done. destruct (names e d i); lia.
Qed.

(** [iget] gives one more reference to the inode, to no other, and returns
    its entry; an inode has at most one entry, before and after.  It panics
    exactly when the inode has no entry and all entries are referenced. *)
Theorem iget_one_entry_per_inode dev inum s : cache_ok (icache s) ->
  match iget dev inum s with
  | Ret ip s' => s' = with_icache (icache s') s /\ cache_ok (icache s') /\
      (forall d i, refs (icache s') d i = refs (icache s) d i + if (dev =? d) && (inum =? i) then 1 else 0) /\
      exists e, zget (icache s') ip = Some e /\ i_dev e = dev /\ i_inum e = inum /\ i_ref e = refs (icache s') dev inum /\
        (refs (icache s) dev inum = 0 -> i_valid e = false)
  | Panic msg s' => msg = "iget: no inodes"%string /\ s' = s /\ refs (icache s) dev inum = 0 /\ no_entry s
  | _ => False
  end.
Proof.
  intros Hc. destruct (iget_ok dev inum s Hc) as [(ip & s' & -> & [H1 H2 H3 (e & He & Hd & Hn & Hp & _ & Hcase)])|(-> & H0 & Hno)]; [|done].
  do 3 (split; [done|]). exists e. do 3 (split; [done|]). split; [symmetry; rewrite <-Hd, <-Hn; by eapply refs_one|].
  intros H0. destruct Hcase as [(e0 & He0 & -> & Hp0)|(_ & _ & ? & _)]; [|done].
  pose proof (refs_one (icache s) ip e0 Hc He0 Hp0) as Er. cbn in Hd, Hn. rewrite Hd, Hn in Er. lia.
Qed.

(** C25. Linking a new name into a directory, with room for one more entry: the
    lookup of the name (in its first 14 bytes) then finds the inode at the slot
    that was free, and every other name is found as before. *)
Theorem dirlink_then_dirlookup dp e s name inum : dir_in dp e s -> dir_find (view s) e name = None ->
  DIRENT * free_slot (view s) e + DIRENT <= MAXFILE * BSIZE -> 0 < inum < 65536 -> (forall y, y ∈ name -> 0 <= y < 256) ->
  wpf (dirlink dp name inum) (fun r s' => r = 0 /\ exists e', dir_in dp e' s' /\ i_dev e' = i_dev e /\
    forall name', dirlookup dp name' s' =
      if decide (dname name' = dname name)
      then (ip ← iget (i_dev e) inum; mret (Some (ip, DIRENT * free_slot (view s) e))) s'
      else match dir_find (view s) e name' with
           | None => Ret None s'
           | Some k => (ip ← iget (i_dev e) (de_inum (dent (view s) e k)); mret (Some (ip, DIRENT * k))) s'
           end) s.
Proof.
  intros Hdir Hnone Hfit Hin Hby. eapply wpf_mono; [by apply dirlink_ok|]. intros r s' (-> & e' & Hw). split; [done|]. exists e'.
  pose proof Hdir as [Hs Hf Hd Hm]. destruct (wrote_file _ _ _ _ _ _ _ Hw Hs Hf) as [Hs' Hf'].
  pose proof (wo_entry _ _ _ _ _ _ _ Hw) as Ee. assert (i_dev e' = i_dev e) as Edev by (by rewrite Ee).
  destruct (linked_k dp e e' s s' name inum Hdir Hw) as (Hk & Hents & Hmod).
  assert (dir_in dp e' s') as Hdir' by (split; [done|done|by rewrite Ee|done]). do 2 (split; [done|]). intros name'.
  rewrite (dirlookup_ok dp e' s' name' Hdir'), Edev, (linked_find dp e e' s s' name inum) by done.
  case_decide; [by rewrite (linked_inum dp e e' s s' name inum)|].
  destruct (dir_find (view s) e name') as [k|] eqn:Ek; [|done]. pose proof (first_of_spec _ _ _ Ek) as [Hent Hr%elem_of_seqZ].
  destruct (fi_solid _ _ _ Hf) as [Hsz _].
  rewrite (linked_other dp e e' s s' name inum); try done; [lia|unfold ents in *; dlia|]. intros ->.
  unfold ent_is, free_slot in Hent. unfold free_slot in Hr.
  destruct (first_of (fun k => de_inum (dent (view s) e k) =? 0) (seqZ 0 (ents e))) as [k0|] eqn:E0; cbn in Hr, Hent; [|lia].
  apply first_of_spec in E0 as [E0 _]. cbv beta in E0. unfold id in Hent. by rewrite E0 in Hent.
Qed.

(** C26. [namex] follows the path through the directories on the disk: it returns
    the inode that the reference walk finds (for [nameiparent] the parent, with
    the last name), with one new reference to it and no change of any other
    count, or nothing when the walk fails, with all counts as before.  It
    terminates, keeps the system quiet and writes nothing; it panics only when
    all entries of the cache are referenced. *)
Theorem namex_resolves path parent s ec : quiet s -> allocated (sb s) (view s) ROOTINO ->
  zget (icache s) (cwd s) = Some ec -> 0 < i_ref ec ->
  match namex path parent s with
  | Ret r s' => quiet s' /\ s' = with_icache (icache s') s /\
      match walk (sb s) (view s) parent (start_of path (i_inum ec)) (path_names [] path) [] with
      | None => r = None /\ forall i, refs (icache s') ROOTDEV i = refs (icache s) ROOTDEV i
      | Some (inum, nm) => exists ip e, r = Some (ip, nm) /\ zget (icache s') ip = Some e /\ i_inum e = inum /\
          i_ref e = refs (icache s') ROOTDEV inum /\
          forall i, refs (icache s') ROOTDEV i = refs (icache s) ROOTDEV i + one inum i
      end
  | Panic msg s' => msg = "iget: no inodes"%string /\ no_entry s'
  | _ => False
  end.
Proof.
  intros Hq Ha Hc Hr. destruct (namex_ok parent path s ec Hq Ha Hc Hr) as [(r & s' & -> & Hq' & Es & _ & Hw)|(s' & -> & Hno)]; [|done].
  do 2 (split; [done|]). destruct (walk _ _ _ _ _ _) as [[inum nm]|]; [|done]. destruct Hw as (ip & e & -> & Hi & Hp & Hn & Hrefs).
  exists ip, e. do 3 (split; [done|]). split; [|done]. symmetry. rewrite <-Hn.
  rewrite <-(ew_dev _ _ _ (qt_entry _ Hq' ip e Hi) Hp). eapply refs_one; [apply Hq'|done|done].
Qed.

(** [dirlink] of a name that leads to the directory itself, such as ".",
    never returns: the directory is locked by the caller, and the inode that the
    lookup found is put while that lock is held. *)
Theorem dirlink_of_own_entry_deadlocks dp e s name k inum : dir_in dp e s -> cache_ok (icache s) -> i_locked e = true -> 0 < i_ref e ->
  dir_find (view s) e name = Some k -> de_inum (dent (view s) e k) = i_inum e ->
  exists s', dirlink dp name inum s = Leave s'.
Proof.
  intros Hdir Hc Hl Hr Hk Hn. pose proof (fi_entry _ _ _ (di_file _ _ _ Hdir)) as Hi. unfold dirlink.
  destruct (iget_ok (i_dev e) (i_inum e) s Hc) as [(ip & s1 & E & Hg)|(_ & H0 & _)].
  2: { rewrite (refs_one _ dp e) in H0 by done. lia. }
  assert (dirlookup dp name s = Ret (Some (ip, DIRENT * k)) s1) as El.
  { rewrite (dirlookup_ok dp e s name Hdir), Hk, Hn. by exec_by E. }
  exec_by El. destruct (gt_entry _ _ _ _ _ Hg) as (e1 & He1 & Ed & En & _ & _ & [(e0 & Hi0 & -> & Hp0)|(H0 & _)]).
  2: { rewrite (refs_one _ dp e) in H0 by done. lia. }
  assert (ip = dp) as -> by (by eapply (co_uniq _ Hc ip dp e0 e)). assert (e0 = e) as -> by congruence.
  exists s1. unfold iput, acquiresleep. exec. exec_by (geti_run s1 dp _ He1). cbn [i_locked with_ref]. by rewrite Hl.
Qed.
End Theorems.

(** ** A small disk

    20 blocks, 8 inodes: the root directory with the entries "." and "f", and the
    file "f" of four bytes. *)
Module Small.
Definition x0 : superblock := mk_sb 20 14 8 0 2 2 4.
Definition bytes_of (w : Z) : list Z := [w `mod` 256; w / 256 `mod` 256; w / 65536 `mod` 256; w / 16777216 `mod` 256].
Definition put_bytes (a : Z) (l : list Z) (m : gmap Z Z) : gmap Z Z :=
  fst (foldl (fun '(m, a) y => (<[a := y]> m, a + 1)) (m, a) l).
(** type, major, minor, nlink, size, the first block *)
Definition dino (t nl sz b : Z) : list Z := [t; 0; 0; 0; 0; 0; nl; 0] ++ bytes_of sz ++ bytes_of b.
Definition ent (inum : Z) (name : list Z) : list Z := [inum; 0] ++ name.
Definition img0 : gmap Z Z :=
  put_bytes 512 (concat (bytes_of <$> [20; 14; 8; 0; 2; 2; 4]))
  (put_bytes (2 * 512 + 64) (dino 1 1 32 5)
  (put_bytes (2 * 512 + 128) (dino 2 1 4 6)
  (put_bytes (4 * 512) [127]
  (put_bytes (5 * 512) (ent 1 [46])
  (put_bytes (5 * 512 + 16) (ent 2 [102])
  (put_bytes (6 * 512) [97; 98; 99; 100] ∅)))))).
Definition root (locked : bool) : inode := mk_inode 1 1 1 locked true 1 0 0 1 32 (5 :: repeat 0 12).
Definition filef : inode := mk_inode 1 2 1 false true 2 0 0 1 4 (6 :: repeat 0 12).
Definition blank : inode := mk_inode 0 0 0 false false 0 0 0 0 0 (repeat 0 13).
Definition s0 (locked : bool) : fsst := mk_fs img0 ∅ ∅ x0 (root locked :: filef :: repeat blank 48) 0.
#[local] Instance no_devices : DevSw := {| dev_read := fun _ => None; dev_write := fun _ => None |}.

Lemma all_seqZ (p : Z -> bool) lo n : forallb p (seqZ lo n) = true -> forall k, lo <= k < lo + n -> p k = true.
Proof. intros Hp k Hk. rewrite forallb_forall in Hp. apply Hp, list_elem_of_In, elem_of_seqZ. lia. Qed.
Lemma disk0 b : disk_ok x0 (view (s0 b)).
Proof.
  split.
  - split; by_vm.
  - intros i w Hi. pose proof (zget_Some_range _ _ _ Hi) as Hr. change (zlen (sb_words x0)) with 7 in Hr.
    pose proof (all_seqZ (fun i => bool_decide (zget (sb_words x0) i = Some (word (view (s0 b)) (BSIZE + 4 * i)))) 0 7 ltac:(by destruct b; vm_compute) i ltac:(lia)) as E.
    apply bool_decide_eq_true in E. congruence.
  - apply (all_seqZ _ 0 5). by destruct b; vm_compute.
Qed.
Lemma idle0 b : idle (s0 b).
Proof. split; [apply disk0|done]. Qed.
(** A file of one block. *)
Lemma one_block x v e b : i_addrs e = b :: repeat 0 12 -> inuse x v b -> 0 < b -> 0 <= i_size e <= BSIZE -> inode_ok x v e /\ solid v e.
Proof.
  intros Ha Hu Hb Hs. assert (indirect e = 0) as Hi by (unfold indirect, addr; by rewrite Ha).
  assert (forall n, 0 <= n < MAXFILE -> iblock v e n = if decide (n = 0) then b else 0) as Hn.
  { intros n Hn. unfold iblock. rewrite Hi. destruct (Z.ltb_spec n NDIRECT) as [Hlt|]; [|by rewrite decide_False by dlia].
    unfold addr. rewrite Ha, zget_cons. case_decide; [done|]. destruct (zget (repeat 0 12) (n - 1)) as [y|] eqn:E; [|done].
    apply zget_elem, list_elem_of_In, repeat_spec in E. by subst. }
  split; [split|split].
  - rewrite Ha. done.
  - done.
  - intros n Hr. rewrite Hn by done. case_decide; [|done]. intros _. split; [done|lia].
  - intros m n Hm Hr. rewrite !Hn by done. repeat case_decide; lia.
  - dlia.
  - intros n Hn0 Hlt. assert (n = 0) as -> by dlia. rewrite Hn by dlia. rewrite decide_True by done. lia.
Qed.
Lemma on_disk_of x v e : i_type e = s16 (half v (dinode_at (i_inum e) x)) -> i_major e = s16 (half v (dinode_at (i_inum e) x + 2)) ->
  i_minor e = s16 (half v (dinode_at (i_inum e) x + 4)) -> i_nlink e = s16 (half v (dinode_at (i_inum e) x + 6)) ->
  i_size e = word v (dinode_at (i_inum e) x + 8) ->
  forallb (fun k => word v (dinode_at (i_inum e) x + 12 + 4 * k) =? addr e k) (seqZ 0 13) = true -> on_disk x v e.
Proof.
  intros H1 H2 H3 H4 H5 H6. split; try done. intros k Hk. apply Z.eqb_eq. apply (all_seqZ _ 0 13 H6). unfold NDIRECT in Hk. lia.
Qed.
Lemma root0 b : dir_in 0 (root b) (s0 b).
Proof.
  destruct (one_block x0 (view (s0 b)) (root b) 5) as [Ho Hso]; [done|split; [by_vm|by destruct b; vm_compute]|done|by_vm|].
  split; [apply idle0| |done|done]. split; [done|split; unfold short; by_vm|done|done| |done]. apply on_disk_of; by destruct b; vm_compute.
Qed.
Lemma filef0 b : file_in 1 filef (s0 b).
Proof.
  destruct (one_block x0 (view (s0 b)) filef 6) as [Ho Hso]; [done|split; [by_vm|by destruct b; vm_compute]|done|by_vm|].
  split; [done|split; unfold short; by_vm|done|done| |done]. apply on_disk_of; by destruct b; vm_compute.
Qed.
Lemma zget_blank n i e : zget (repeat blank n) i = Some e -> e = blank.
Proof. intros Hi. by apply zget_elem, list_elem_of_In, repeat_spec in Hi. Qed.
Lemma entries0 l f i e : zget (root l :: f :: repeat blank 48) i = Some e -> (i = 0 /\ e = root l) \/ (i = 1 /\ e = f) \/ e = blank.
Proof.
  rewrite !zget_cons. repeat case_decide; [intros [= <-]; by left|intros [= <-]; right; left; split; [lia|done]|].
  intros Hb. right. right. by eapply zget_blank.
Qed.
Lemma cache0 l f : i_inum f = 2 -> i_ref f = 1 -> cache_ok (root l :: f :: repeat blank 48).
Proof.
  intros Hn Hr. split; [done| |].
  - intros i e [[_ ->]|[[_ ->]| ->]]%entries0; cbn; lia.
  - intros i j e e' [[-> ->]|[[-> ->]| ->]]%entries0 [[-> ->]|[[-> ->]| ->]]%entries0; cbn; lia.
Qed.
Lemma one_owned v e b : i_addrs e = b :: repeat 0 12 -> forall c, iowned v e c -> c = b.
Proof.
  intros Ha c. assert (indirect e = 0) as Hi by (unfold indirect, addr; by rewrite Ha). intros [[? _]|(n & Hn & Hb & ->)]; [done|].
  unfold iblock in *. rewrite Hi in *. cbn in Hb. destruct (Z.ltb_spec n NDIRECT); [|done]. unfold addr in *. rewrite Ha, zget_cons in *.
  case_decide; [done|]. destruct (zget (repeat 0 12) (n - 1)) as [y|] eqn:E; [|done]. by apply zget_elem, list_elem_of_In, repeat_spec in E as ->.
Qed.
Lemma apart0 b : apart (view (s0 b)) filef (root b).
Proof. split; [done|]. intros c Hc Hc'. apply (one_owned _ _ 6) in Hc; [|done]. apply (one_owned _ _ 5) in Hc'; [|done]. lia. Qed.
Lemma good0 : forall inum, allocated x0 (view (s0 false)) inum -> inode_good x0 (view (s0 false)) inum.
Proof.
  intros inum [Hr Ht]. change (sb_ninodes x0) with 8 in Hr.
  assert (inum = 1 \/ inum = 2) as [-> | ->].
  { pose proof (all_seqZ (fun i => (i <=? 2) || (i_type (dinode x0 (view (s0 false)) i) =? 0)) 1 7 ltac:(by vm_compute) inum ltac:(lia)) as E.
    apply orb_true_iff in E as [?|?%Z.eqb_eq]; [lia|done]. }
  all: clear Hr Ht.
  - destruct (one_block x0 (view (s0 false)) (dinode x0 (view (s0 false)) 1) 5) as [Ho Hs];
      [by vm_compute|split; [by_vm|by vm_compute]|done|split; by_vm|].
    split; [exact Ho|exact Hs|by vm_compute|by vm_compute|]. intros _ k Hk _.
    assert (ents (dinode x0 (view (s0 false)) 1) = 2) as E2 by (by vm_compute). rewrite E2 in Hk.
    assert (k = 0 \/ k = 1) as [-> | ->] by lia.
    all: split; [by_vm|by vm_compute].
  - destruct (one_block x0 (view (s0 false)) (dinode x0 (view (s0 false)) 2) 6) as [Ho Hs];
      [by vm_compute|split; [by_vm|by vm_compute]|done|split; by_vm|].
    split; [exact Ho|exact Hs|by vm_compute|by vm_compute|]. intros Ht. exfalso. revert Ht. by vm_compute.
Qed.
Lemma quiet0 : quiet (s0 false).
Proof.
  split; [apply disk0|done|apply good0|by apply cache0|]. intros i e [[_ ->]|[[_ ->]| ->]]%entries0; [| |by split].
  - split; [done|done| |]; intros _; [split; [by_vm|by vm_compute]|]. intros _. split; [apply root0|done].
  - split; [done|done| |]; intros _; [split; [by_vm|by vm_compute]|]. intros _. split; [apply filef0|done].
Qed.
(** The file without links, as after [unlink] of an open file. *)
Definition unlinked : inode := mk_inode 1 2 1 false true 2 0 0 0 4 (6 :: repeat 0 12).
Definition s1 : fsst := mk_fs img0 ∅ ∅ x0 (root false :: unlinked :: repeat blank 48) 0.
End Small.

Import Small.
#[local] Existing Instance no_devices.
Definition outcome_is {A} (r : outcome fsst A) (p : A -> fsst -> bool) : bool := match r with Ret a s => p a s | _ => false end.

Lemma writei_reads_back_witness :
  wpf (writei 1 [1; 2; 3] 2 3) (fun r s' => r = 3 /\ readi 1 2 3 s' = Ret (3, [1; 2; 3]) s') (s0 false) /\
  outcome_is (writei 1 [1; 2; 3] 2 3 (s0 false)) (fun r _ => r =? 3) = true.
Proof.
  split; [|by vm_compute]. eapply wpf_mono.
  - apply (writei_reads_back 1 0 filef (root false) 2 [1; 2; 3] (s0 false)); [apply idle0|apply filef0|apply root0|done|apply apart0|done|unfold is_u32; by_vm].
  - intros r s' (-> & e' & _ & _ & _ & E & _). split; [done|exact E].
Defined.
Lemma iput_drops_or_reclaims_witness : exists s', iput 1 s1 = Ret tt s' /\ reclaimed 1 unlinked s1 s'.
Proof.
  destruct (iput_drops_or_reclaims 1 unlinked s1) as (s' & E & _ & _ & Hr).
  - exact (idle0 false).
  - by apply cache0.
  - reflexivity.
  - by_vm.
  - reflexivity.
  - split; unfold short; by_vm.
  - apply (one_block x0 (view (s0 false)) unlinked 6); [done|split; [by_vm|by vm_compute]|done|by_vm].
  - exists s'. split; [exact E|exact Hr].
Defined.
Lemma iget_one_entry_per_inode_witness : match iget 1 2 (s0 false) with Ret ip s' => cache_ok (icache s') | _ => False end.
Proof. pose proof (iget_one_entry_per_inode 1 2 (s0 false) (cache0 false filef eq_refl eq_refl)) as Hg. destruct (iget 1 2 (s0 false)) eqn:E; [apply Hg|by vm_compute in E..]. Defined.
Lemma dirlink_then_dirlookup_witness :
  wpf (dirlink 0 [103] 3) (fun r s' => r = 0 /\ dirlookup 0 [103] s' = (ip ← iget 1 3; mret (Some (ip, 32))) s') (s0 false) /\
  outcome_is (dirlink 0 [103] 3 (s0 false)) (fun r _ => r =? 0) = true.
Proof.
  split; [|by vm_compute]. eapply wpf_mono.
  - apply (dirlink_then_dirlookup 0 (root false) (s0 false) [103] 3); [apply root0|by vm_compute|by_vm|lia|intros y Hy%list_elem_of_singleton; lia].
  - intros r s' (-> & e' & _ & _ & Hl). split; [done|]. specialize (Hl [103]). rewrite decide_True in Hl by done. exact Hl.
Defined.
Lemma namex_resolves_witness :
  match namex [47; 102] false (s0 false) with Ret r s' => quiet s' /\ r = Some (1, [102]) | _ => False end.
Proof.
  pose proof (namex_resolves [47; 102] false (s0 false) (root false) quiet0 ltac:(split; [by_vm|by vm_compute]) eq_refl ltac:(by_vm)) as Hn.
  assert (outcome_is (namex [47; 102] false (s0 false)) (fun r _ => bool_decide (r = Some (1, [102]))) = true) as E by (by vm_compute).
  destruct (namex [47; 102] false (s0 false)) as [r s'|msg s'|s'|]; try discriminate E.
  destruct Hn as [Hq _]. unfold outcome_is in E. apply bool_decide_eq_true in E. split; [exact Hq|exact E].
Defined.
Lemma dirlink_of_own_entry_deadlocks_witness : exists s', dirlink 0 [46] 3 (s0 true) = Leave s'.
Proof.
  apply (dirlink_of_own_entry_deadlocks 0 (root true) (s0 true) [46] 0 3);
    [apply root0|by apply cache0|reflexivity|by_vm|by vm_compute|by vm_compute].
Defined.
