(* ===== verification/XFd.v ===== *)
(** * Open files and the system calls on files of xv6

    [file.c], [sysfile.c] but [sys_exec], [pipealloc] of [pipe.c], and the
    fetching of arguments of [syscall.c], for one process.  The process has its
    memory below [sz], the stack pointer of the trap, its descriptors [ofile] and
    the current directory of [XFs]; the table of open files is shared.

    The code of the layers below is that of [XFs], in the state [fs]; pipes are
    an interface ([PipeOps]).  [begin_op] only waits for room in the log
    ([XLogSpace]); [end_op] commits ([XLog]): the blocks logged by this
    transaction are on the disk, and the next one starts with none. *)
From S2P Require Import Prelude Bytes XFs.

Definition NFILE : Z := 100.
Definition NOFILE : Z := 16.
Definition MAXOPBLOCKS : Z := 10.
Definition O_RDONLY : Z := 0.
Definition O_WRONLY : Z := 1.
Definition O_RDWR : Z := 2.
Definition O_CREATE : Z := 512.
Definition T_FILE : Z := 2.

Inductive ftype := FD_NONE | FD_PIPE | FD_INODE.
#[export] Instance ftype_dec : EqDecision ftype.
Proof. solve_decision. Defined.
Record file := mk_file
  { f_type : ftype; f_ref : Z; f_readable : bool; f_writable : bool; f_pipe : Z; f_ip : Z; f_off : Z }.
Definition set_fref (n : Z) (f : file) : file := mk_file (f_type f) n (f_readable f) (f_writable f) (f_pipe f) (f_ip f) (f_off f).
Definition set_off (n : Z) (f : file) : file := mk_file (f_type f) (f_ref f) (f_readable f) (f_writable f) (f_pipe f) (f_ip f) n.
Definition set_ftype (t : ftype) (f : file) : file := mk_file t (f_ref f) (f_readable f) (f_writable f) (f_pipe f) (f_ip f) (f_off f).

(** Pipes as their users see them: [pipealloc]'s page and its initialisation,
    [pipeclose], [piperead] with the bytes it stores, [pipewrite]. *)
Class PipeOps (P : Type) := {
  pipe_new : M P (option Z);
  pipeclose : Z -> bool -> M P unit;
  piperead : Z -> Z -> M P (Z * list Z);
  pipewrite : Z -> list Z -> Z -> M P Z;
}.

Section Process.
Context {P : Type} `{PipeOps P} `{DevSw}.

Record pst := mk_pst
  { fs : fsst; ftable : list file; ofile : list (option Z); umem : gmap Z Z; sz : Z; esp : Z; pipes : P }.
Definition with_fs (f : fsst) (s : pst) : pst := mk_pst f (ftable s) (ofile s) (umem s) (sz s) (esp s) (pipes s).
Definition with_ftable (l : list file) (s : pst) : pst := mk_pst (fs s) l (ofile s) (umem s) (sz s) (esp s) (pipes s).
Definition with_ofile (l : list (option Z)) (s : pst) : pst := mk_pst (fs s) (ftable s) l (umem s) (sz s) (esp s) (pipes s).
Definition with_umem (m : gmap Z Z) (s : pst) : pst := mk_pst (fs s) (ftable s) (ofile s) m (sz s) (esp s) (pipes s).
Definition with_pipes (p : P) (s : pst) : pst := mk_pst (fs s) (ftable s) (ofile s) (umem s) (sz s) (esp s) p.

Definition on_fs {A} (m : M fsst A) : M pst A := fun s =>
  match m (fs s) with
  | Ret a f => Ret a (with_fs f s)
  | Panic msg f => Panic msg (with_fs f s)
  | Leave f => Leave (with_fs f s)
  | UB => UB
  end.
Definition on_pipes {A} (m : M P A) : M pst A := fun s =>
  match m (pipes s) with
  | Ret a p => Ret a (with_pipes p s)
  | Panic msg p => Panic msg (with_pipes p s)
  | Leave p => Leave (with_pipes p s)
  | UB => UB
  end.
Definition begin_op : M pst unit := mret tt.
Definition end_op : M pst unit :=
  on_fs (modify (fun s => mk_fs (img s) ∅ (held s) (sb s) (icache s) (cwd s))).

(** ** Arguments of system calls *)

Definition ubyte (s : pst) (a : Z) : Z := u8 (rdw (umem s) a).
Definition ubytes (a n : Z) : M pst (list Z) := gets (fun s => ubyte s <$> seqZ a n).
Fixpoint ustore (a : Z) (l : list Z) : M pst unit :=
  match l with [] => mret tt | x :: l => modify (fun s => with_umem (wrw (umem s) a (u8 x)) s);; ustore (a + 1) l end.

Definition fetchint (addr : Z) : M pst (option Z) :=
  s ← get;
  if (sz s <=? addr) || (sz s <? u32 (addr + 4)) then mret None
  else mret (Some (s32 (word (ubyte s) addr))).
(** The bytes up to the first NUL. *)
Fixpoint cut_nul (l : list Z) : option (list Z) :=
  match l with [] => None | c :: l => if c =? 0 then Some [] else (fun r => c :: r) <$> cut_nul l end.
Definition fetchstr (addr : Z) : M pst (option (list Z)) :=
  s ← get;
  if sz s <=? addr then mret None else mret (cut_nul (ubyte s <$> seqZ addr (sz s - addr))).
Definition argint (n : Z) : M pst (option Z) := p ← gets esp; fetchint (u32 (p + 4 + 4 * n)).
Definition argptr (n size : Z) : M pst (option Z) :=
  i ← argint n;
  match i with
  | None => mret None
  | Some i =>
      z ← gets sz;
      if (size <? 0) || (z <=? u32 i) || (z <? u32 (u32 i + size)) then mret None else mret (Some (u32 i))
  end.
Definition argstr (n : Z) : M pst (option (list Z)) :=
  a ← argint n;
  match a with None => mret None | Some a => fetchstr (u32 a) end.

(** Argument checks: the first that fails makes the call return -1. *)
Definition orelse {A} (m : M pst (option A)) (k : A -> M pst Z) : M pst Z :=
  r ← m; match r with Some a => k a | None => mret (-1) end.

(** ** The table of open files *)

Definition getf (f : Z) : M pst file := s ← get; deref (zget (ftable s) f).
Definition setf (f : Z) (u : file -> file) : M pst unit :=
  e ← getf f; modify (fun s => with_ftable (zset (ftable s) f (u e)) s).

Definition filealloc : M pst (option Z) :=
  for_until (seqZ 0 NFILE) (fun f =>
    e ← getf f;
    if f_ref e =? 0 then setf f (set_fref 1);; mret (Some f) else mret None).
Definition filedup (f : Z) : M pst Z :=
  e ← getf f;
  if f_ref e <? 1 then panic "filedup" else
  setf f (set_fref (f_ref e + 1));; mret f.
Definition fileclose (f : Z) : M pst unit :=
  e ← getf f;
  if f_ref e <? 1 then panic "fileclose" else
  setf f (set_fref (f_ref e - 1));;
  if 0 <? f_ref e - 1 then mret tt else
  ff ← getf f;
  setf f (fun e => set_ftype FD_NONE (set_fref 0 e));;
  match f_type ff with
  | FD_PIPE => on_pipes (pipeclose (f_pipe ff) (f_writable ff))
  | FD_INODE => begin_op;; on_fs (iput (f_ip ff));; end_op
  | FD_NONE => mret tt
  end.
Definition filestat (f : Z) : M pst (Z + stat) :=
  e ← getf f;
  match f_type e with
  | FD_INODE =>
      on_fs (ilock (Some (f_ip e)));;
      st ← on_fs (stati (f_ip e));
      on_fs (iunlock (Some (f_ip e)));;
      mret (inr st)
  | _ => mret (inl (-1))
  end.

Definition fileread (f addr n : Z) : M pst Z :=
  e ← getf f;
  if negb (f_readable e) then mret (-1) else
  match f_type e with
  | FD_PIPE => '(r, l) ← on_pipes (piperead (f_pipe e) n); ustore addr l;; mret r
  | FD_INODE =>
      on_fs (ilock (Some (f_ip e)));;
      e ← getf f;
      '(r, l) ← on_fs (readi (f_ip e) (f_off e) (u32 n));
      ustore addr l;;
      when (0 <? r) (setf f (fun e => set_off (u32 (f_off e + r)) e));;
      on_fs (iunlock (Some (f_ip e)));;
      mret r
  | FD_NONE => panic "fileread"
  end.

Definition max_write : Z := (MAXOPBLOCKS - 1 - 1 - 2) / 2 * 512.
(** One transaction of [filewrite], and with its [begin_op] and [end_op]. *)
Definition write_tx (f addr i n1 : Z) : M pst Z :=
  e ← getf f;
  on_fs (ilock (Some (f_ip e)));;
  src ← ubytes (addr + i) n1;
  r ← on_fs (writei (f_ip e) src (f_off e) n1);
  when (0 <? r) (setf f (fun e => set_off (u32 (f_off e + r)) e));;
  on_fs (iunlock (Some (f_ip e)));;
  mret r.
Definition write_chunk (f addr i n1 : Z) : M pst Z := begin_op;; r ← write_tx f addr i n1; end_op;; mret r.
(** Every round writes a byte or more. *)
Definition filewrite (f addr n : Z) : M pst Z :=
  e ← getf f;
  if negb (f_writable e) then mret (-1) else
  match f_type e with
  | FD_PIPE => l ← ubytes addr n; on_pipes (pipewrite (f_pipe e) l n)
  | FD_INODE =>
      i ← loop (S (Z.to_nat n)) (fun i =>
        if i <? n then
          let n1 := if max_write <? n - i then max_write else n - i in
          r ← write_chunk f addr i n1;
          if r <? 0 then mret (inr i) else
          if negb (r =? n1) then panic "short filewrite" else mret (inl (i + r))
        else mret (inr i)) 0;
      mret (if i =? n then n else -1)
  | FD_NONE => panic "filewrite"
  end.

(** ** Descriptors *)

Definition argfd (n : Z) : M pst (option (Z * Z)) :=
  fd ← argint n;
  match fd with
  | None => mret None
  | Some fd =>
      if (fd <? 0) || (NOFILE <=? fd) then mret None else
      s ← get;
      f ← deref (zget (ofile s) fd);
      mret ((fun f => (fd, f)) <$> f)
  end.
Definition set_fd (fd : Z) (o : option Z) : M pst unit := modify (fun s => with_ofile (zset (ofile s) fd o) s).
Definition fdalloc (f : Z) : M pst (option Z) :=
  for_until (seqZ 0 NOFILE) (fun fd =>
    s ← get;
    o ← deref (zget (ofile s) fd);
    match o with
    | None => set_fd fd (Some f);; mret (Some fd)
    | Some _ => mret None
    end).

Definition sys_dup : M pst Z :=
  orelse (argfd 0) (fun '(_, f) =>
  orelse (fdalloc f) (fun fd =>
  filedup f;; mret fd)).
Definition sys_read : M pst Z :=
  orelse (argfd 0) (fun '(_, f) => orelse (argint 2) (fun n => orelse (argptr 1 n) (fun p => fileread f p n))).
Definition sys_write : M pst Z :=
  orelse (argfd 0) (fun '(_, f) => orelse (argint 2) (fun n => orelse (argptr 1 n) (fun p => filewrite f p n))).
Definition sys_close : M pst Z :=
  orelse (argfd 0) (fun '(fd, f) => set_fd fd None;; fileclose f;; mret 0).

(** [struct stat] in memory: 20 bytes. *)
Definition le16 (x : Z) : list Z := [u8 x; u8 (x / 256)].
Definition le32 (x : Z) : list Z := [u8 x; u8 (x / 256); u8 (x / 65536); u8 (x / 16777216)].
(** The fields are stored where the compiler puts them; the padding after the
    two shorts is not written. *)
Definition ustore_stat (p : Z) (st : stat) : M pst unit :=
  ustore (p + 4) (le32 (st_dev st));;
  ustore (p + 8) (le32 (st_ino st));;
  ustore p (le16 (st_type st));;
  ustore (p + 12) (le16 (st_nlink st));;
  ustore (p + 16) (le32 (st_size st)).
Definition sys_fstat : M pst Z :=
  orelse (argfd 0) (fun '(_, f) => orelse (argptr 1 20) (fun p =>
  r ← filestat f;
  match r with
  | inl e => mret e
  | inr st => ustore_stat p st;; mret 0
  end)).

(** ** Links *)

Definition with_nlink (n : Z) (e : inode) : inode :=
  mk_inode (i_dev e) (i_inum e) (i_ref e) (i_locked e) (i_valid e) (i_type e) (i_major e) (i_minor e) n (i_size e) (i_addrs e).
Definition with_device (ma mi : Z) (e : inode) : inode :=
  mk_inode (i_dev e) (i_inum e) (i_ref e) (i_locked e) (i_valid e) (i_type e) ma mi (i_nlink e) (i_size e) (i_addrs e).
Definition add_nlink (d : Z) (e : inode) : inode := with_nlink (s16 (i_nlink e + d)) e.

(** Between [begin_op] and [end_op]. *)
Definition op (m : M fsst Z) : M pst Z := begin_op;; r ← on_fs m; end_op;; mret r.

Definition link (old new : list Z) : M fsst Z :=
  r ← namei old;
  match r with
  | None => mret (-1)
  | Some ip =>
      ilock (Some ip);;
      e ← geti ip;
      if i_type e =? T_DIR then iunlockput ip;; mret (-1) else
      seti ip (add_nlink 1);;
      iupdate ip;;
      iunlock (Some ip);;
      let bad : M fsst Z := ilock (Some ip);; seti ip (add_nlink (-1));; iupdate ip;; iunlockput ip;; mret (-1) in
      r ← nameiparent new;
      match r with
      | None => bad
      | Some (dp, name) =>
          ilock (Some dp);;
          d ← geti dp;
          e ← geti ip;
          r ← (if negb (i_dev d =? i_dev e) then mret (-1) else dirlink dp name (i_inum e));
          if r <? 0 then iunlockput dp;; bad else
          iunlockput dp;;
          iput ip;;
          mret 0
      end
  end.
Definition sys_link : M pst Z := orelse (argstr 0) (fun old => orelse (argstr 1) (fun new => op (link old new))).

Definition isdirempty (dp : Z) : M fsst bool :=
  e ← geti dp;
  r ← for_until ((fun k => DIRENT * k) <$> seqZ 2 ((i_size e + DIRENT - 1) / DIRENT - 2)) (fun off =>
    '(r, de) ← readi dp off DIRENT;
    if negb (r =? DIRENT) then panic "isdirempty: readi" else
    mret (if de_inum de =? 0 then None else Some tt));
  mret (match r with None => true | Some _ => false end).

Definition unlink (path : list Z) : M fsst Z :=
  r ← nameiparent path;
  match r with
  | None => mret (-1)
  | Some (dp, name) =>
      ilock (Some dp);;
      let bad : M fsst Z := iunlockput dp;; mret (-1) in
      if (namecmp name [46] =? 0) || (namecmp name [46; 46] =? 0) then bad else
      r ← dirlookup dp name;
      match r with
      | None => bad
      | Some (ip, off) =>
          ilock (Some ip);;
          e ← geti ip;
          if i_nlink e <? 1 then panic "unlink: nlink < 1" else
          b ← (if i_type e =? T_DIR then isdirempty ip else mret true);
          if negb b then iunlockput ip;; bad else
          r ← writei dp (repeat 0 (Z.to_nat DIRENT)) off DIRENT;
          if negb (r =? DIRENT) then panic "unlink: writei" else
          e ← geti ip;
          when (i_type e =? T_DIR) (seti dp (add_nlink (-1));; iupdate dp);;
          iunlockput dp;;
          seti ip (add_nlink (-1));;
          iupdate ip;;
          iunlockput ip;;
          mret 0
      end
  end.
Definition sys_unlink : M pst Z := orelse (argstr 0) (fun path => op (unlink path)).

(** The new inode, locked. *)
Definition create (path : list Z) (type major minor : Z) : M fsst (option Z) :=
  r ← nameiparent path;
  match r with
  | None => mret None
  | Some (dp, name) =>
      ilock (Some dp);;
      r ← dirlookup dp name;
      match r with
      | Some (ip, _) =>
          iunlockput dp;;
          ilock (Some ip);;
          e ← geti ip;
          if (type =? T_FILE) && (i_type e =? T_FILE) then mret (Some ip) else
          iunlockput ip;; mret None
      | None =>
          d ← geti dp;
          ip ← ialloc (i_dev d) type;
          ilock (Some ip);;
          seti ip (with_device major minor);;
          seti ip (with_nlink 1);;
          iupdate ip;;
          when (type =? T_DIR)
            (seti dp (add_nlink 1);;
             iupdate dp;;
             e ← geti ip;
             r ← dirlink ip [46] (i_inum e);
             if r <? 0 then panic "create dots" else
             d ← geti dp;
             r ← dirlink ip [46; 46] (i_inum d);
             if r <? 0 then panic "create dots" else mret tt);;
          e ← geti ip;
          r ← dirlink dp name (i_inum e);
          if r <? 0 then panic "create: dirlink" else
          iunlockput dp;;
          mret (Some ip)
      end
  end.

(** ** Opening *)

(** The inode to open, locked. *)
Definition open_inode (path : list Z) (omode : Z) : M fsst (option Z) :=
  if negb (Z.land omode O_CREATE =? 0) then create path T_FILE 0 0 else
  r ← namei path;
  match r with
  | None => mret None
  | Some ip =>
      ilock (Some ip);;
      e ← geti ip;
      if (i_type e =? T_DIR) && negb (omode =? O_RDONLY) then iunlockput ip;; mret None else mret (Some ip)
  end.
(** A file and a descriptor for the inode. *)
Definition open_file (omode ip : Z) : M pst Z :=
  f ← filealloc;
  fd ← (match f with None => mret None | Some f => fdalloc f end);
  match f, fd with
  | Some f, Some fd =>
      on_fs (iunlock (Some ip));;
      end_op;;
      setf f (fun e => mk_file FD_INODE (f_ref e) (Z.land omode O_WRONLY =? 0)
        (negb (Z.land omode O_WRONLY =? 0) || negb (Z.land omode O_RDWR =? 0)) (f_pipe e) ip 0);;
      mret fd
  | _, _ =>
      match f with Some f => fileclose f | None => mret tt end;;
      on_fs (iunlockput ip);;
      end_op;;
      mret (-1)
  end.
Definition sys_open : M pst Z :=
  orelse (argstr 0) (fun path => orelse (argint 1) (fun omode =>
  begin_op;;
  r ← on_fs (open_inode path omode);
  match r with
  | None => end_op;; mret (-1)
  | Some ip => open_file omode ip
  end)).

(** [mkdir] and [mknod] take their arguments inside the transaction. *)
Definition sys_mkdir : M pst Z :=
  begin_op;;
  r ← argstr 0;
  match r with
  | None => end_op;; mret (-1)
  | Some path =>
      ip ← on_fs (create path T_DIR 0 0);
      match ip with
      | None => end_op;; mret (-1)
      | Some ip => on_fs (iunlockput ip);; end_op;; mret 0
      end
  end.
Definition sys_mknod : M pst Z :=
  begin_op;;
  r ← argstr 0;
  match r with
  | None => end_op;; mret (-1)
  | Some path =>
  ma ← argint 1;
  match ma with
  | None => end_op;; mret (-1)
  | Some ma =>
  mi ← argint 2;
  match mi with
  | None => end_op;; mret (-1)
  | Some mi =>
      ip ← on_fs (create path T_DEV (s16 ma) (s16 mi));
      match ip with
      | None => end_op;; mret (-1)
      | Some ip => on_fs (iunlockput ip);; end_op;; mret 0
      end
  end end end.
Definition sys_chdir : M pst Z :=
  begin_op;;
  r ← argstr 0;
  match r with
  | None => end_op;; mret (-1)
  | Some path =>
      ip ← on_fs (namei path);
      match ip with
      | None => end_op;; mret (-1)
      | Some ip =>
          on_fs (ilock (Some ip));;
          e ← on_fs (geti ip);
          if negb (i_type e =? T_DIR) then on_fs (iunlockput ip);; end_op;; mret (-1) else
          on_fs (iunlock (Some ip));;
          c ← gets (fun s => cwd (fs s));
          on_fs (iput c);;
          end_op;;
          on_fs (modify (fun s => mk_fs (img s) (logged s) (held s) (sb s) (icache s) ip));;
          mret 0
      end
  end.

(** ** Pipes *)

Definition close_opt (f : option Z) : M pst unit := match f with Some f => fileclose f | None => mret tt end.
Definition pipealloc : M pst (option (Z * Z)) :=
  f0 ← filealloc;
  f1 ← (match f0 with None => mret None | Some _ => filealloc end);
  p ← (match f1 with None => mret None | Some _ => on_pipes pipe_new end);
  match f0, f1, p with
  | Some f0, Some f1, Some p =>
      setf f0 (fun e => mk_file FD_PIPE (f_ref e) true false p (f_ip e) (f_off e));;
      setf f1 (fun e => mk_file FD_PIPE (f_ref e) false true p (f_ip e) (f_off e));;
      mret (Some (f0, f1))
  | _, _, _ => close_opt f0;; close_opt f1;; mret None
  end.
Definition sys_pipe : M pst Z :=
  orelse (argptr 0 8) (fun a =>
  orelse pipealloc (fun '(rf, wf) =>
  fd0 ← fdalloc rf;
  fd1 ← (match fd0 with None => mret None | Some _ => fdalloc wf end);
  match fd0, fd1 with
  | Some fd0, Some fd1 => ustore a (le32 fd0);; ustore (a + 4) (le32 fd1);; mret 0
  | _, _ =>
      match fd0 with Some fd0 => set_fd fd0 None | None => mret tt end;;
      fileclose rf;;
      fileclose wf;;
      mret (-1)
  end)).
End Process.
