(* ===== verification/XFdSpec.v ===== *)
(** * Reading and writing open files of xv6

    [filewrite] writes in transactions of at most [max_write] bytes, and a read
    through another open file of the inode sees what was written; each
    transaction fits into the log space that [begin_op] reserves. *)
From S2P Require Import Prelude Bytes XFs XFsAlloc XFile XFileIO XTrunc XInode XDir XPath XFd.
From Stdlib Require Import FunctionalExtensionality.

(** ** Executing *)
Section Run.
Context {P : Type} `{PipeOps P} `{DevSw}.
Implicit Types (s : pst (P := P)).

Lemma on_fs_run {A} (m : M fsst A) s a f : m (fs s) = Ret a f -> on_fs m s = Ret a (with_fs f s).
Proof. unfold on_fs. by intros ->. Qed.
Lemma getf_run s f e : zget (ftable s) f = Some e -> getf f s = Ret e s.
Proof. intros E. unfold getf. exec. by rewrite E. Qed.
Lemma setf_run s f e u : zget (ftable s) f = Some e -> setf f u s = Ret tt (with_ftable (zset (ftable s) f (u e)) s).
Proof. intros E. unfold setf. by exec_by (getf_run s f e E). Qed.
Lemma ubyte_range s a : 0 <= ubyte s a < 256.
Proof. apply u8_range. Qed.
Lemma ustore_run a l s : exists m, ustore a l s = Ret tt (with_umem m s) /\
  forall i, ubyte (with_umem m s) i = match zget l (i - a) with Some y => u8 y | None => ubyte s i end.
Proof.
  revert a s. induction l as [|y l IH]; intros a s; cbn [ustore].
  - exists (umem s). split; [by destruct s|]. intros i. by rewrite zget_none by (unfold zlen; cbn; lia).
  - exec. destruct (IH (a + 1) (with_umem (wrw (umem s) a (u8 y)) s)) as (m & E & Hm). exists m. split; [exact E|].
    intros i. change (with_umem m s) with (with_umem m (with_umem (wrw (umem s) a (u8 y)) s)). rewrite Hm, zget_cons.
    replace (i - (a + 1)) with (i - a - 1) by lia. case_decide as Ei.
    + assert (i = a) as -> by lia. rewrite zget_none by lia. unfold ubyte. cbn. rewrite rdw_wrw_eq. unfold u8. zlia.
    + case_match; [done|]. unfold ubyte. cbn. by rewrite rdw_wrw_ne by lia.
Qed.

(** Returns with [Q], or panics because the disk is full. *)
Definition wpp {A} (m : M (pst (P := P)) A) (Q : A -> pst -> Prop) s : Prop :=
  match m s with
  | Ret a s' => Q a s'
  | Panic msg s' => msg = "balloc: out of blocks"%string /\ full (sb (fs s')) (view (fs s'))
  | _ => False
  end.
Lemma wpp_ret {A} (m : M pst A) Q s a s' : m s = Ret a s' -> Q a s' -> wpp m Q s.
Proof. unfold wpp. by intros ->. Qed.
Lemma wpp_step {A B} (m : M pst A) (k : A -> M pst B) Q s a s' : m s = Ret a s' -> wpp (k a) Q s' -> wpp (m ≫= k) Q s.
Proof. unfold wpp, mbind, M_bind. by intros ->. Qed.
Lemma wpp_call {A B} (m : M pst A) (k : A -> M pst B) (R : A -> pst -> Prop) Q s :
  wpp m R s -> (forall a s', R a s' -> wpp (k a) Q s') -> wpp (m ≫= k) Q s.
Proof. unfold wpp, mbind, M_bind. destruct (m s); naive_solver. Qed.
Lemma wpp_mono {A} (m : M pst A) (R Q : A -> pst -> Prop) s : wpp m R s -> (forall a s', R a s' -> Q a s') -> wpp m Q s.
Proof. unfold wpp. destruct (m s); naive_solver. Qed.
Lemma wpp_fs {A} (m : M fsst A) Q s : wpf m (fun a f => Q a (with_fs f s)) (fs s) -> wpp (on_fs m) Q s.
Proof. unfold wpp, wpf, on_fs. by destruct (m (fs s)). Qed.
Lemma wpp_loop {X A} fuel (body : X -> M pst (X + A)) x (Q : A -> pst -> Prop) s :
  wpp (body x) (fun r s' => match r with inl x' => wpp (loop fuel body x') Q s' | inr a => Q a s' end) s -> wpp (loop (S fuel) body x) Q s.
Proof. unfold wpp. cbn [loop]. unfold mbind, M_bind. destruct (body x s) as [[x'|a] s'| | |]; try done. Qed.
Lemma wpp_fs_call {A B} (m : M fsst A) (k : A -> M pst B) (R : A -> fsst -> Prop) Q s :
  wpf m R (fs s) -> (forall a f, R a f -> wpp (k a) Q (with_fs f s)) -> wpp (on_fs m ≫= k) Q s.
Proof. unfold wpp, wpf, on_fs, mbind, M_bind. destruct (m (fs s)); naive_solver. Qed.
End Run.

(** ** Locked for the time of one operation *)
Lemma file_in_lock ip e b s : file_in ip e s -> file_in ip (with_lock b e) (put ip (with_lock b e) s).
Proof.
  intros [Hi [? ? ? ? ?] [? ? ? ?] Hs [? ? ? ? ? ?] Ht]. split; [apply put_get; by eapply zget_Some_range|by split|by split|done|by split|done].
Qed.
Lemma put_idle ip e s : idle s -> idle (put ip e s).
Proof. by intros [? ?]. Qed.
(** An open inode: referenced, read from the disk, and not locked. *)
Record opened (ip : Z) (e : inode) (s : fsst) : Prop := {
  op_idle : idle s;
  op_file : file_in ip e s;
  op_ref : 0 < i_ref e;
  op_valid : i_valid e = true;
  op_lock : i_locked e = false;
}.
(** The transaction is over. *)
Definition committed (s : fsst) : fsst := mk_fs (img s) ∅ (held s) (sb s) (icache s) (cwd s).

(** What a transaction that writes [n] bytes at [off] has logged. *)
Definition tx_logs (x : superblock) (e e' : inode) (v v' : Z -> Z) (off n : Z) (L : gset Z) : Prop :=
  forall b, b ∈ L -> b = IBLOCK (i_inum e) x \/ footprint x e e' v v' (off / BSIZE) (last_block off n) b.
Lemma list_to_set_size (l : list Z) (L : gset Z) : (forall b, b ∈ L -> b ∈ l) -> (size L <= length l)%nat.
Proof.
  intros HL. transitivity (size (list_to_set (remove_dups l) : gset Z)).
  - apply subseteq_size. intros b Hb. apply elem_of_list_to_set, elem_of_remove_dups. auto.
  - rewrite size_list_to_set by apply NoDup_remove_dups. clear HL. induction l as [|y l IH]; [done|]. cbn. case_decide; cbn; lia.
Qed.
(** The first block is new only when the write starts at its beginning. *)
Lemma tx_logs_bound x e e' v v' off n L : tx_logs x e e' v v' off n L -> solid v e -> 0 <= off <= i_size e -> 0 < n <= max_write ->
  Z.of_nat (size L) <= MAXOPBLOCKS.
Proof.
  intros HL [_ Hso] Hoff Hn. change max_write with 1536 in Hn. set (lo := off / BSIZE) in *. set (hi := last_block off n) in *.
  set (lo' := (off + BSIZE - 1) / BSIZE).
  assert (size L <= length (IBLOCK (i_inum e) x :: indirect e' :: BBLOCK (indirect e') x ::
    (iblock v' e' <$> seqZ lo (hi - lo)) ++ ((fun k => BBLOCK (iblock v' e' k) x) <$> seqZ lo' (hi - lo'))))%nat as Hs.
  { apply list_to_set_size. intros b Hb. rewrite !elem_of_cons, elem_of_app, !list_elem_of_fmap.
    destruct (HL b Hb) as [->|[[_ [->|[_ ->]]]|(k & Hk & _ & [->|[H0 ->]])]]; [by left|right; by left|right; right; by left|..]; do 3 right.
    - left. exists k. split; [done|]. apply elem_of_seqZ. lia.
    - right. exists k. split; [done|]. apply elem_of_seqZ. destruct (decide (k < lo')) as [Hlt|]; [|lia].
      exfalso. apply (Hso k); [unfold lo in *; dlia|unfold lo, lo' in *; dlia|done]. }
  cbn [length] in Hs. rewrite length_app, !length_fmap, !length_seqZ in Hs. change MAXOPBLOCKS with 10. unfold lo, hi, lo', last_block in Hs. dlia.
Qed.

Section Locked.
Context `{DevSw} (ip : Z).
Implicit Types (s : fsst) (e : inode).

(** A write between [ilock] and [iunlock]: what it leaves when it returns [r]. *)
Definition written_to e off l s (r : Z) s' : Prop :=
  if (i_size e <? off) || (MAXFILE * BSIZE <? off + zlen l) then r = -1 /\ s' = s
  else r = zlen l /\ exists e', opened ip e' (committed s') /\ i_ref e' = i_ref e /\ i_inum e' = i_inum e /\
    i_type e' = i_type e /\ i_size e' = Z.max (i_size e) (off + zlen l) /\
    iwritten off l e e' (view s) (view s') /\ (logged s = ∅ -> tx_logs (sb s) e e' (view s) (view s') off (zlen l) (logged s')) /\
    sb s' = sb s /\ cwd s' = cwd s /\ forall i, i <> ip -> zget (icache s') i = zget (icache s) i.
Lemma locked_writei e off l s : opened ip e s -> 0 <= off -> is_u32 (off + zlen l) ->
  ilock (Some ip) s = Ret tt (put ip (with_lock true e) s) /\
  wpf (writei ip l off (zlen l)) (fun r s2 => exists s', iunlock (Some ip) s2 = Ret tt s' /\ written_to e off l s r s')
    (put ip (with_lock true e) s).
Proof.
  intros [Hs Hf Hr Hv Hl] Hoff Hu. pose proof (fi_entry _ _ _ Hf) as Hi. pose proof (zget_Some_range _ _ _ Hi) as Hip.
  split; [by apply (ilock_valid ip e)|]. set (el := with_lock true e). set (s1 := put ip el s).
  pose proof (file_in_lock ip e true s Hf) as Hf1. fold el s1 in Hf1. pose proof (put_idle ip el s Hs) as Hs1. fold s1 in Hs1.
  eapply wpf_mono; [by apply (writei_ok ip el)|]. cbv beta. change (i_size el) with (i_size e). unfold written_to.
  intros r s2 H2. destruct ((i_size e <? off) || (MAXFILE * BSIZE <? off + zlen l)).
  - destruct H2 as [-> ->]. eexists. split; [exact (iunlock_ok ip el s1 (fi_entry _ _ _ Hf1) eq_refl Hr)|].
    split; [done|]. unfold s1, el. rewrite put_put. change (with_lock false (with_lock true e)) with (with_lock false e).
    rewrite unlocked_same by done. by apply put_same.
  - destruct H2 as (-> & e2 & Hw). destruct (wrote_file _ _ _ _ _ _ _ Hw Hs1 Hf1) as [Hs2 Hf2].
    pose proof (wo_entry _ _ _ _ _ _ _ Hw) as Ee. assert (i_locked e2 = true) as Hl2 by (by rewrite Ee).
    assert (i_ref e2 = i_ref e) as Er2 by (by rewrite Ee).
    eexists. split; [exact (iunlock_ok ip e2 s2 (fi_entry _ _ _ Hf2) Hl2 ltac:(lia))|].
    split; [done|]. exists (with_lock false e2). split; [|split; [done|split; [by rewrite Ee|split; [by rewrite Ee|split; [by rewrite Ee|]]]]].
    + pose proof (file_in_lock ip e2 false s2 Hf2) as [? ? ? ? ? ?]. split; [destruct Hs2; by split|by split|cbn; lia|by cbn; rewrite Ee|done].
    + split; [exact (wo_bytes _ _ _ _ _ _ _ Hw)|].
      split; [intros E0 b Hb; destruct (wo_logs _ _ _ _ _ _ _ Hw b Hb) as [Hl0|Hl0]; [cbn in Hl0; rewrite E0 in Hl0; by apply not_elem_of_empty in Hl0|exact Hl0]|].
      split; [exact (fr_sb _ _ (wo_frame _ _ _ _ _ _ _ Hw))|].
      split; [exact (fr_cwd _ _ (wo_frame _ _ _ _ _ _ _ Hw))|].
      intros i Hne. cbn. rewrite zget_zset_ne by done. rewrite (wo_cache _ _ _ _ _ _ _ Hw). cbn. by rewrite !zget_zset_ne.
Qed.
(** A read between [ilock] and [iunlock] leaves no trace. *)
Lemma locked_readi e off n s : opened ip e s -> is_u32 off -> is_u32 n ->
  ilock (Some ip) s = Ret tt (put ip (with_lock true e) s) /\
  readi ip off n (put ip (with_lock true e) s) = Ret (read_bytes (view s) e off n) (put ip (with_lock true e) s) /\
  iunlock (Some ip) (put ip (with_lock true e) s) = Ret tt s.
Proof.
  intros [Hs Hf Hr Hv Hl] Ho Hn. pose proof (fi_entry _ _ _ Hf) as Hi. pose proof (file_in_lock ip e true s Hf) as Hf1.
  split; [by apply ilock_valid|]. split.
  - rewrite (readi_ok ip (with_lock true e)); [done|by apply put_idle|apply Hf1..|done|done].
  - rewrite (iunlock_ok ip (with_lock true e)); [|apply Hf1|done|done]. rewrite put_put.
    change (with_lock false (with_lock true e)) with (with_lock false e). rewrite unlocked_same by done. by rewrite put_same.
Qed.
End Locked.

(** ** [filewrite] *)
Section Filewrite.
Context {P : Type} `{PipeOps P} `{DevSw} (f ip : Z).
Implicit Types (s : pst (P := P)) (e : inode) (fe : file).

(** The file [f] of the table is an open inode. *)
Record file_of fe e s : Prop := {
  fo_entry : zget (ftable s) f = Some fe;
  fo_type : f_type fe = FD_INODE;
  fo_ip : f_ip fe = ip;
  fo_open : opened ip e (fs s);
}.
(** Only the file system and the offset of [f] have changed. *)
Definition moved (s s' : pst (P := P)) fe (off : Z) : Prop :=
  s' = mk_pst (fs s') (zset (ftable s) f (set_off off fe)) (ofile s) (umem s) (sz s) (esp s) (pipes s).
Lemma set_off_same fe : set_off (f_off fe) fe = fe.
Proof. by destruct fe. Qed.

Lemma write_tx_ok s fe e addr i n1 : file_of fe e s -> logged (fs s) = ∅ -> 0 < n1 -> 0 <= f_off fe -> f_off fe <= i_size e -> is_u32 (f_off fe + n1) ->
  let l := ubyte s <$> seqZ (addr + i) n1 in
  wpp (write_tx f addr i n1) (fun r s' =>
    if MAXFILE * BSIZE <? f_off fe + n1 then r = -1 /\ s' = s
    else r = n1 /\ moved s s' fe (f_off fe + n1) /\ exists e', file_of (set_off (f_off fe + n1) fe) e' (with_fs (committed (fs s')) s') /\ i_ref e' = i_ref e /\
      i_size e' = Z.max (i_size e) (f_off fe + n1) /\ iwritten (f_off fe) l e e' (view (fs s)) (view (fs s')) /\
      tx_logs (sb (fs s)) e e' (view (fs s)) (view (fs s')) (f_off fe) n1 (logged (fs s')) /\
      forall j, j <> ip -> zget (icache (fs s')) j = zget (icache (fs s)) j) s.
Proof.
  intros [Hf Hty Eip Hop] Hlog Hn1 Hoff Hsz Hu l. assert (zlen l = n1) as El by (unfold l, zlen; rewrite length_fmap, length_seqZ; lia).
  unfold write_tx. eapply wpp_step; [by apply getf_run|]. rewrite Eip.
  rewrite <-El in Hu. destruct (locked_writei ip e (f_off fe) l (fs s) Hop Hoff Hu) as [El1 Hw]. rewrite El in Hw.
  eapply wpp_step; [by apply on_fs_run|]. set (s1 := with_fs (put ip (with_lock true e) (fs s)) s).
  eapply wpp_step; [reflexivity|]. change (ubyte s1 <$> seqZ (addr + i) n1) with l.
  eapply wpp_fs_call; [exact Hw|]. cbv beta. intros r f2 (f3 & Eun & Hwt). unfold written_to in Hwt. rewrite El in Hwt.
  assert ((i_size e <? f_off fe) = false) as Elt by lia. rewrite Elt in Hwt. cbn [orb] in Hwt.
  destruct (MAXFILE * BSIZE <? f_off fe + n1).
  - destruct Hwt as [-> ->]. eapply wpp_step; [reflexivity|]. eapply wpp_step; [by apply on_fs_run|].
    eapply wpp_ret; [reflexivity|]. split; [done|]. by destruct s.
  - destruct Hwt as (-> & e' & Hop' & Hr & _ & _ & Hs & Hb & Htx & Esb & Ecwd & Hoth). destruct (Z.ltb_spec 0 n1); [|lia].
    set (s2 := with_fs f2 s1). assert (zget (ftable s2) f = Some fe) as Hf2 by done.
    eapply wpp_step; [exact (setf_run s2 f fe _ Hf2)|]. cbv beta. rewrite u32_id by (by rewrite El in Hu).
    eapply wpp_step; [by apply on_fs_run|]. eapply wpp_ret; [reflexivity|].
    split; [done|]. split; [done|]. exists e'. split; [split|]; [|done|done|done|].
    + cbn. apply zget_zset_eq. by eapply zget_Some_range.
    + do 3 (split; [done|]). split; [|done]. exact (Htx Hlog).
Qed.
Lemma write_chunk_ok s fe e addr i n1 : file_of fe e s -> logged (fs s) = ∅ -> 0 < n1 -> 0 <= f_off fe -> f_off fe <= i_size e -> is_u32 (f_off fe + n1) ->
  let l := ubyte s <$> seqZ (addr + i) n1 in
  wpp (write_chunk f addr i n1) (fun r s' => logged (fs s') = ∅ /\
    if MAXFILE * BSIZE <? f_off fe + n1 then r = -1 /\ s' = with_fs (committed (fs s)) s
    else r = n1 /\ moved s s' fe (f_off fe + n1) /\ exists e', file_of (set_off (f_off fe + n1) fe) e' s' /\ i_ref e' = i_ref e /\
      i_size e' = Z.max (i_size e) (f_off fe + n1) /\ iwritten (f_off fe) l e e' (view (fs s)) (view (fs s')) /\
      forall j, j <> ip -> zget (icache (fs s')) j = zget (icache (fs s)) j) s.
Proof.
  intros Hfo Hlog Hn1 Hoff Hsz Hu l. unfold write_chunk, begin_op. eapply wpp_step; [reflexivity|].
  eapply wpp_call; [by apply write_tx_ok|]. cbv beta zeta. fold l. intros r s' Hw. eapply wpp_step; [reflexivity|].
  eapply wpp_ret; [reflexivity|]. split; [done|]. destruct (MAXFILE * BSIZE <? f_off fe + n1).
  - destruct Hw as [-> ->]. done.
  - destruct Hw as (-> & Hm & e' & Hf' & Hr & Hs & Hb & _ & Ho). split; [done|]. split; [unfold moved in *; by rewrite Hm|]. exists e'. done.
Qed.

Lemma opened_committed e (g : fsst) : opened ip e g -> opened ip e (committed g).
Proof. intros [[? ?] [? ? ? ? ? ?] ? ? ?]. by split; [split|split| | |]. Qed.

(** The first [i] bytes are written. *)
Record progress fe (e0 : inode) (s0 : pst (P := P)) (addr i : Z) (e : inode) s : Prop := {
  pg_moved : moved s0 s fe (f_off fe + i);
  pg_file : file_of (set_off (f_off fe + i) fe) e s;
  pg_ref : i_ref e = i_ref e0;
  pg_size : i_size e = Z.max (i_size e0) (f_off fe + i);
  pg_bytes : iwritten (f_off fe) (ubyte s0 <$> seqZ addr i) e0 e (view (fs s0)) (view (fs s));
  pg_logged : logged (fs s) = ∅;
  pg_other : forall j, j <> ip -> zget (icache (fs s)) j = zget (icache (fs s0)) j;
}.
Lemma progress_start fe e s addr : file_of fe e s -> logged (fs s) = ∅ -> f_off fe <= i_size e -> progress fe e s addr 0 e s.
Proof.
  intros Hfo Hlog Hsz. pose proof Hfo as [Hf _ _ _]. split; rewrite ?Z.add_0_r, ?set_off_same; try done.
  - unfold moved. rewrite set_off_same, zset_id by done. by destruct s.
  - lia.
  - change (seqZ addr 0) with (@nil Z). by apply iwritten_nil.
Qed.
Lemma progress_chunk fe e0 s0 addr i e s n1 s' : 0 <= i -> 0 < n1 -> progress fe e0 s0 addr i e s -> logged (fs s') = ∅ ->
  moved s s' (set_off (f_off fe + i) fe) (f_off fe + i + n1) ->
  (exists e', file_of (set_off (f_off fe + i + n1) fe) e' s' /\ i_ref e' = i_ref e /\ i_size e' = Z.max (i_size e) (f_off fe + i + n1) /\
    iwritten (f_off fe + i) (ubyte s <$> seqZ (addr + i) n1) e e' (view (fs s)) (view (fs s')) /\
    forall j, j <> ip -> zget (icache (fs s')) j = zget (icache (fs s)) j) ->
  exists e', progress fe e0 s0 addr (i + n1) e' s'.
Proof.
  intros Hi Hn1 [Hm Hf Hr Hs Hb _ Ho] Hlog Hm' (e' & Hf' & Hr' & Hs' & Hb' & Ho'). exists e'. unfold moved in *.
  assert (ubyte s = ubyte s0) as Eu by (rewrite Hm; done).
  split; rewrite ?Z.add_assoc; try done; try congruence; try lia.
  - unfold moved. rewrite Hm' at 1. rewrite Hm. cbn. by rewrite zset_zset_eq.
  - rewrite seqZ_app, fmap_app by lia. eapply iwritten_app; [exact Hb|]. rewrite Eu in Hb'.
    replace (zlen (ubyte s0 <$> seqZ addr i)) with i; [done|]. unfold zlen. rewrite length_fmap, length_seqZ. lia.
  - intros j Hj. by rewrite Ho', Ho.
Qed.
Lemma filewrite_loop fe e0 s0 addr n : file_of fe e0 s0 -> 0 <= f_off fe -> f_off fe <= i_size e0 -> f_off fe + n < 4294967296 ->
  forall fuel i e s, 0 <= i <= n -> (Z.to_nat (n - i) < fuel)%nat -> progress fe e0 s0 addr i e s ->
  wpp (loop fuel (fun i =>
        if i <? n then
          let n1 := if max_write <? n - i then max_write else n - i in
          r ← write_chunk f addr i n1;
          if r <? 0 then mret (inr i) else
          if negb (r =? n1) then panic "short filewrite" else mret (inl (i + r))
        else mret (inr i)) i)
    (fun i' s' => 0 <= i' <= n /\ (i' < n -> MAXFILE * BSIZE < f_off fe + n) /\ exists e', progress fe e0 s0 addr i' e' s') s.
Proof.
  intros Hfo0 Hoff Hsz Hmax. induction fuel as [|fuel IH]; intros i e s Hi Hfuel Hp; [lia|]. apply wpp_loop.
  destruct (Z.ltb_spec i n) as [Hlt|Hge].
  2: { eapply wpp_ret; [reflexivity|]. split; [lia|]. split; [lia|]. eauto. }
  cbv zeta. set (n1 := if max_write <? n - i then max_write else n - i).
  assert (0 < n1 <= n - i) as Hn1 by (unfold n1; change max_write with 1536; case_match; lia).
  pose proof Hp as [Hm Hf Hr Hs Hb Hlog Ho]. set (fe1 := set_off (f_off fe + i) fe) in *.
  eapply wpp_call; [apply (write_chunk_ok s fe1 e addr i n1 Hf Hlog); cbn; unfold is_u32; lia|]. cbv beta.
  change (f_off fe1) with (f_off fe + i). intros r s' [Hlog' Hw]. revert Hw. destruct (Z.ltb_spec (MAXFILE * BSIZE) (f_off fe + i + n1)) as [Hbig|Hfit].
  - intros [-> ->]. eapply wpp_ret; [reflexivity|]. split; [lia|]. split; [lia|]. exists e. destruct Hf as [H1 H2 H3 H4].
    split; try done; [by unfold moved in *; unfold with_fs; cbn; f_equal; rewrite Hm|]. split; [done|done|done|]. by apply opened_committed.
  - intros (-> & Hm' & He'). destruct (Z.ltb_spec n1 0); [lia|]. rewrite Z.eqb_refl. eapply wpp_ret; [reflexivity|].
    destruct (progress_chunk fe e0 s0 addr i e s n1 s') as (e' & Hp'); [lia|lia|done|done|done|done|]. apply (IH _ e'); [lia|lia|done].
Qed.
Lemma filewrite_ok fe e s addr n : file_of fe e s -> logged (fs s) = ∅ -> f_writable fe = true -> 0 <= n -> 0 <= f_off fe -> f_off fe <= i_size e -> f_off fe + n < 4294967296 ->
  wpp (filewrite f addr n) (fun r s' => exists i e', 0 <= i <= n /\ (i < n -> MAXFILE * BSIZE < f_off fe + n) /\
    r = (if i =? n then n else -1) /\ progress fe e s addr i e' s') s.
Proof.
  intros Hfo Hlog Hwr Hn Hoff Hsz Hmax. pose proof Hfo as [Hf Hty _ _]. unfold filewrite. eapply wpp_step; [by apply getf_run|].
  rewrite Hwr, Hty. cbn [negb]. eapply wpp_call.
  - apply (filewrite_loop fe e s addr n Hfo Hoff Hsz Hmax (S (Z.to_nat n)) 0 e s); [lia|lia|by apply progress_start].
  - intros i s' (Hi & Hbig & e' & Hp). eapply wpp_ret; [reflexivity|]. exists i, e'. done.
Qed.

Lemma ibyte_u8 (g : fsst) e q : u8 (ibyte (view g) e q) = ibyte (view g) e q.
Proof. unfold ibyte, view, u8. case_match; [done|]. zlia. Qed.
Lemma fileread_ok s fe e addr n : file_of fe e s -> f_readable fe = true -> 0 <= f_off fe <= i_size e -> 0 <= n -> f_off fe + n < 4294967296 ->
  let r := Z.min n (i_size e - f_off fe) in
  exists m, fileread f addr n s = Ret r (mk_pst (fs s) (zset (ftable s) f (set_off (f_off fe + r) fe)) (ofile s) m (sz s) (esp s) (pipes s)) /\
    forall a, u8 (rdw m a) = if decide (addr <= a < addr + r) then ibyte (view (fs s)) e (f_off fe + (a - addr)) else ubyte s a.
Proof.
  intros [Hf Hty Eip Hop] Hrd Hoff Hn Hu r. unfold fileread. exec_by (getf_run s f fe Hf). rewrite Hrd, Hty, Eip. cbn [negb].
  destruct (locked_readi ip e (f_off fe) n (fs s) Hop) as (E1 & E2 & E3); [unfold is_u32; lia..|].
  exec_by (on_fs_run _ s _ _ E1). set (s1 := with_fs (put ip (with_lock true e) (fs s)) s).
  assert (getf f s1 = Ret fe s1) as Eg by (by apply getf_run). exec_by Eg. rewrite Eip, (u32_id n) by (unfold is_u32; lia).
  assert (read_bytes (view (fs s)) e (f_off fe) n = (r, ibyte (view (fs s)) e <$> seqZ (f_off fe) r)) as Er.
  { unfold read_bytes. destruct (Z.ltb_spec (i_size e) (f_off fe)); [lia|]. by destruct (Z.leb_spec 4294967296 (f_off fe + n)); [lia|]. }
  rewrite Er in E2. exec_by (on_fs_run _ s1 _ _ E2). set (s2 := with_fs (put ip (with_lock true e) (fs s)) s1).
  destruct (ustore_run addr (ibyte (view (fs s)) e <$> seqZ (f_off fe) r) s2) as (m & Eu & Hm). exec_by Eu. exists m.
  set (s3 := with_umem m s2). assert (0 <= r) as Hr by (unfold r; lia).
  assert (when (0 <? r) (setf f (fun x => set_off (u32 (f_off x + r)) x)) s3 =
    Ret tt (with_ftable (zset (ftable s3) f (set_off (f_off fe + r) fe)) s3)) as Ew.
  { unfold when. destruct (Z.ltb_spec 0 r) as [_|Hr0].
    - rewrite (setf_run s3 f fe) by done. cbv beta. by rewrite u32_id by (unfold is_u32, r; lia).
    - assert (r = 0) as -> by lia. by rewrite Z.add_0_r, set_off_same, zset_id by done. }
  exec_by Ew. assert (forall s4 : pst (P := P), fs s4 = put ip (with_lock true e) (fs s) -> on_fs (iunlock (Some ip)) s4 = Ret tt (with_fs (fs s) s4)) as Eun
    by (intros s4 E4; apply on_fs_run; by rewrite E4).
  exec_by (Eun (with_ftable (zset (ftable s3) f (set_off (f_off fe + r) fe)) s3) eq_refl). split; [done|].
  intros a. specialize (Hm a). change (ubyte (with_umem m s2) a) with (u8 (rdw m a)) in Hm. rewrite Hm.
  rewrite (fmap_seqZ_ext _ (fun j => ibyte (view (fs s)) e (f_off fe + j)) (f_off fe) 0) by done. case_decide.
  - rewrite zget_fmap_seqZ by lia. by apply ibyte_u8.
  - rewrite zget_none; [done|]. unfold zlen. rewrite length_fmap, length_seqZ. lia.
Qed.
End Filewrite.
