(* ===== verification/XFdRefs.v ===== *)
(** * Reference counts of open files of xv6

    An open file counts the descriptors that name it, and an inode the open files
    that hold it.  [balanced] says that both counts are exact, up to the
    references of others: the descriptors of other processes, and the inodes that
    are current directories or in use by other calls. *)
From S2P Require Import Prelude Bytes XFs XFsAlloc XFile XFileIO XTrunc XInode XDir XPath XFd XFdSpec.

Definition fd_is (f : Z) (o : option Z) : Z := if decide (o = Some f) then 1 else 0.
Definition fds (l : list (option Z)) (f : Z) : Z := total (fd_is f) l.
Definition inum_at (l : list inode) (ip : Z) : Z := match zget l ip with Some e => i_inum e | None => 0 end.
Definition live (fe : file) : bool := (0 <? f_ref fe) && bool_decide (f_type fe = FD_INODE).
Definition holds (l : list inode) (inum : Z) (fe : file) : Z := if live fe then one (inum_at l (f_ip fe)) inum else 0.
Definition opens (l : list inode) (ft : list file) (inum : Z) : Z := total (holds l inum) ft.

(** The first free descriptor and the first free file. *)
Definition free_fd (l : list (option Z)) : option Z := first_of (fun fd => bool_decide (zget l fd = Some None)) (seqZ 0 NOFILE).
Definition unused (ft : list file) (f : Z) : bool := match zget ft f with Some fe => f_ref fe =? 0 | None => false end.
Definition free_file (ft : list file) : option Z := first_of (unused ft) (seqZ 0 NFILE).

Lemma fd_is_nonneg f o : 0 <= fd_is f o.
Proof. unfold fd_is. case_decide; lia. Qed.
Lemma fds_nonneg l f : 0 <= fds l f.
Proof. apply total_nonneg. intros a _. apply fd_is_nonneg. Qed.
Lemma fds_pos l fd f : zget l fd = Some (Some f) -> 1 <= fds l f.
Proof.
  intros Hfd. transitivity (fd_is f (Some f)); [unfold fd_is; rewrite decide_True by done; done|].
  eapply total_ge; [intros a _; apply fd_is_nonneg|done].
Qed.
Lemma holds_nonneg l inum fe : 0 <= holds l inum fe.
Proof. unfold holds. case_match; [apply one_nonneg|done]. Qed.
Lemma opens_nonneg l ft inum : 0 <= opens l ft inum.
Proof. apply total_nonneg. intros a _. apply holds_nonneg. Qed.
Lemma for_until_first {S A} (p : Z -> bool) (g : Z -> A) (h : Z -> S) (body : Z -> M S (option A)) (l : list Z) s :
  (forall x, x ∈ l -> body x s = if p x then Ret (Some (g x)) (h x) else Ret None s) ->
  for_until l body s = match first_of p l with Some x => Ret (Some (g x)) (h x) | None => Ret None s end.
Proof.
  induction l as [|x l IH]; intros Hb; [done|]. cbn [for_until first_of]. pose proof (Hb x ltac:(left)) as Hx.
  unfold mbind, M_bind. rewrite Hx. destruct (p x); [done|]. apply IH. intros y Hy. apply Hb. by right.
Qed.

Section Run.
Context {P : Type} `{PipeOps P} `{DevSw}.
Implicit Types (s : pst (P := P)).

Lemma fdalloc_run f s : zlen (ofile s) = NOFILE ->
  fdalloc f s = match free_fd (ofile s) with Some fd => Ret (Some fd) (with_ofile (zset (ofile s) fd (Some f)) s) | None => Ret None s end.
Proof.
  intros Hl. apply (for_until_first (fun fd => bool_decide (zget (ofile s) fd = Some None)) id (fun fd => with_ofile (zset (ofile s) fd (Some f)) s)).
  intros fd Hfd%elem_of_seqZ. destruct (zget_in_range (ofile s) fd ltac:(lia)) as [o Ho]. exec. rewrite Ho. exec.
  by destruct o; [rewrite bool_decide_eq_false_2|rewrite bool_decide_eq_true_2].
Qed.
Lemma filealloc_run s : zlen (ftable s) = NFILE ->
  filealloc s = match free_file (ftable s) with
                | Some f => match zget (ftable s) f with
                            | Some fe => Ret (Some f) (with_ftable (zset (ftable s) f (set_fref 1 fe)) s)
                            | None => Ret None s
                            end
                | None => Ret None s
                end.
Proof.
  intros Hl. unfold filealloc. rewrite (for_until_first (unused (ftable s)) id (fun f =>
    match zget (ftable s) f with Some fe => with_ftable (zset (ftable s) f (set_fref 1 fe)) s | None => s end)).
  - unfold free_file. destruct (first_of _ _) as [f|] eqn:E; [|done]. apply first_of_spec in E as [Hu _]. unfold unused in Hu. by destruct (zget (ftable s) f).
  - intros f Hf%elem_of_seqZ. destruct (zget_in_range (ftable s) f ltac:(lia)) as [fe Hfe]. exec_by (getf_run s f fe Hfe). unfold unused. rewrite Hfe.
    destruct (f_ref fe =? 0); [|done]. by exec_by (setf_run s f fe (set_fref 1) Hfe).
Qed.
Lemma end_op_run s : end_op s = Ret tt (with_fs (committed (fs s)) s).
Proof. done. Qed.
Lemma fetchint_run a s : exists r, fetchint a s = Ret r s.
Proof. unfold fetchint. exec. case_match; exec; eauto. Qed.
Lemma argint_run n s : exists r, argint n s = Ret r s.
Proof. unfold argint. exec. apply fetchint_run. Qed.
Lemma argfd_run n s : zlen (ofile s) = NOFILE ->
  argfd n s = Ret None s \/ exists fd f, argfd n s = Ret (Some (fd, f)) s /\ zget (ofile s) fd = Some (Some f).
Proof.
  intros Hl. destruct (argint_run n s) as [r E]. unfold argfd. exec_by E. destruct r as [fd|]; [|by left].
  destruct ((fd <? 0) || (NOFILE <=? fd)) eqn:Er; [by left|]. apply orb_false_iff in Er as [H1 H2].
  destruct (zget_in_range (ofile s) fd ltac:(lia)) as [o Ho]. exec. rewrite Ho. exec. destruct o as [f|]; [right|by left]. exists fd, f. done.
Qed.
End Run.

(** ** The invariant *)
Section Balanced.
Context {P : Type} (other iother : Z -> Z).
Implicit Types (s : pst (P := P)).

Record balanced s : Prop := {
  bl_quiet : quiet (fs s);
  bl_ofile : zlen (ofile s) = NOFILE;
  bl_ftable : zlen (ftable s) = NFILE;
  bl_fd : forall fd f, zget (ofile s) fd = Some (Some f) -> 0 <= f < NFILE;
  bl_ref : forall f fe, zget (ftable s) f = Some fe -> f_ref fe = other f + fds (ofile s) f;
  bl_free : forall f fe, zget (ftable s) f = Some fe -> f_ref fe = 0 -> f_type fe = FD_NONE;
  bl_ip : forall f fe, zget (ftable s) f = Some fe -> live fe = true -> exists e, zget (icache (fs s)) (f_ip fe) = Some e /\ 0 < i_ref e;
  bl_inode : forall i, refs (icache (fs s)) ROOTDEV i = iother i + opens (icache (fs s)) (ftable s) i;
}.
End Balanced.

Section Keep.
Context {P : Type} (other iother : Z -> Z).
Implicit Types (s : pst (P := P)).

Lemma zget_elem_of {A} (l : list A) a : a ∈ l -> exists i, zget l i = Some a.
Proof.
  intros [i Hi]%list_elem_of_lookup. exists (Z.of_nat i). unfold zget. destruct (Z.leb_spec 0 (Z.of_nat i)); [|lia]. by rewrite Nat2Z.id.
Qed.
(** The open files hold the same inodes in a cache where their entries stay. *)
Lemma opens_stays s f' inum : balanced other iother s -> stays (fun _ => 0) (fs s) f' -> opens (icache f') (ftable s) inum = opens (icache (fs s)) (ftable s) inum.
Proof.
  intros Hb Hst. apply total_ext. intros fe (f & Hf)%zget_elem_of. unfold holds. destruct (live fe) eqn:Hl; [|done].
  destruct (bl_ip _ _ _ Hb f fe Hf Hl) as (e & He & Hr). destruct (Hst _ _ He Hr) as (e' & He' & Hn & _). unfold inum_at. by rewrite He, He', Hn.
Qed.
Lemma balanced_fs iother' s f' : balanced other iother s -> quiet f' -> stays (fun _ => 0) (fs s) f' ->
  (forall i, refs (icache f') ROOTDEV i = refs (icache (fs s)) ROOTDEV i - iother i + iother' i) -> balanced other iother' (with_fs f' s).
Proof.
  intros Hb Hq Hst Hrefs. pose proof Hb as [Q L1 L2 Hfd Href Hfree Hip Hin]. split; try done.
  - intros f fe Hf Hl. destruct (Hip f fe Hf Hl) as (e & He & Hr). destruct (Hst _ _ He Hr) as (e' & He' & _ & Hp). eauto.
  - intros i. cbn [fs ftable with_fs]. rewrite Hrefs, Hin, (opens_stays s f' i) by done. lia.
Qed.
Lemma quiet_committed (f : fsst) : quiet f -> quiet (committed f).
Proof. intros [? ? ? ? ?]. by split. Qed.
Lemma balanced_end s : balanced other iother s -> balanced other iother (with_fs (committed (fs s)) s).
Proof.
  intros Hb. apply (balanced_fs iother s (committed (fs s)) Hb); [apply quiet_committed, Hb|exact (stays_refl (fun _ => 0) (fun _ => Z.le_refl 0) (fs s))|]. intros i. change (icache (committed (fs s))) with (icache (fs s)). lia.
Qed.
(** Another descriptor for an open file, or one less. *)
Lemma balanced_fd s fd o o' f fe n : balanced other iother s -> zget (ofile s) fd = Some o -> zget (ftable s) f = Some fe ->
  (o' = None \/ exists g, o' = Some g /\ 0 <= g < NFILE) ->
  (forall g, fd_is g o' - fd_is g o = if decide (g = f) then n - f_ref fe else 0) -> 0 < n -> 0 < f_ref fe ->
  balanced other iother (mk_pst (fs s) (zset (ftable s) f (set_fref n fe)) (zset (ofile s) fd o') (umem s) (sz s) (esp s) (pipes s)).
Proof.
  intros [Q L1 L2 Hfd Href Hfree Hip Hin] Ho Hf Ho' Hn Hpos Hfpos.
  assert (live (set_fref n fe) = live fe) as El by (unfold live; cbn; by destruct (Z.ltb_spec 0 n), (Z.ltb_spec 0 (f_ref fe)); try lia).
  split; cbn [fs ftable ofile]; rewrite ?zlen_zset; try done.
  - intros fd' g. rewrite zget_zset. case_decide; [|apply Hfd]. intros [= ->]. destruct Ho' as [?|(? & [= ->] & ?)]; done.
  - intros g ge. unfold fds. rewrite (total_set _ _ _ _ _ Ho). specialize (Hn g). pose proof (zget_Some_range _ _ _ Hf) as Hr.
    destruct (decide (g = f)) as [->|Hne].
    + rewrite zget_zset_eq by done. intros [= <-]. cbn. pose proof (Href f fe Hf) as E. unfold fds in E. lia.
    + rewrite zget_zset_ne by done. intros Hg. pose proof (Href g ge Hg) as E. unfold fds in E. lia.
  - intros g ge. rewrite zget_zset. case_decide; [|apply Hfree]. intros [= <-]. cbn. lia.
  - intros g ge. rewrite zget_zset. case_decide; [|apply Hip]. intros [= <-]. rewrite El. exact (Hip f fe Hf).
  - intros i. rewrite Hin. unfold opens. rewrite (total_set _ _ _ _ _ Hf). unfold holds. rewrite El. cbn. lia.
Qed.
End Keep.

Section OpenClose.
Context {P : Type} (other iother : Z -> Z).
Context (Hother : forall f, 0 <= other f) (Hiother : forall i, 0 <= iother i).
Implicit Types (s : pst (P := P)).

Lemma fd_is_change f o o' fd (l : list (option Z)) : zget l fd = Some o -> fds (zset l fd o') f = fds l f - fd_is f o + fd_is f o'.
Proof using. apply total_set. Qed.
Lemma fd_none f : fd_is f None = 0.
Proof using. done. Qed.
Lemma fd_some f g : fd_is f (Some g) = if decide (f = g) then 1 else 0.
Proof using. unfold fd_is. repeat case_decide; congruence. Qed.

(** The last descriptor of a file is closed, and its inode given back. *)
Section Last.
Context s (fd f : Z) (fe : file) (f' : fsst).
Hypothesis Hb : balanced other iother s.
Hypothesis Ho : zget (ofile s) fd = Some (Some f).
Hypothesis Hf : zget (ftable s) f = Some fe.
Hypothesis H1 : f_ref fe = 1.
Hypothesis Hst : stays (fun i => holds (icache (fs s)) i fe) (fs s) f'.
Let ft' := zset (ftable s) f (set_ftype FD_NONE (set_fref 0 fe)).

Lemma last_other g ge : zget (ftable s) g = Some ge -> g <> f -> live ge = true ->
  exists e e', zget (icache (fs s)) (f_ip ge) = Some e /\ zget (icache f') (f_ip ge) = Some e' /\ i_inum e' = i_inum e /\ 0 < i_ref e'.
Proof using Hb Hf Hst Hiother.
  intros Hg Hne Hl. destruct (bl_ip _ _ _ Hb g ge Hg Hl) as (e & He & Hr). exists e.
  pose proof (bl_quiet _ _ _ Hb) as Hq. pose proof (refs_one _ _ e (qt_cache _ Hq) He Hr) as E.
  rewrite (ew_dev _ _ _ (qt_entry _ Hq _ e He) Hr), (bl_inode _ _ _ Hb) in E.
  assert (holds (icache (fs s)) (i_inum e) ge <= total (holds (icache (fs s)) (i_inum e)) ft') as Hge.
  { eapply (total_ge _ ft' g); [intros a _; apply holds_nonneg|]. unfold ft'. by rewrite zget_zset_ne. }
  unfold ft' in Hge. rewrite (total_set _ _ _ _ _ Hf) in Hge. fold (opens (icache (fs s)) (ftable s) (i_inum e)) in Hge.
  assert (holds (icache (fs s)) (i_inum e) ge = 1) as E1 by (unfold holds, inum_at, one; rewrite Hl, He, Z.eqb_refl; done).
  assert (holds (icache (fs s)) (i_inum e) (set_ftype FD_NONE (set_fref 0 fe)) = 0) as E0 by done.
  pose proof (Hiother (i_inum e)). destruct (Hst _ _ He) as (e' & ? & ? & ?); [lia|]. eauto.
Qed.
Lemma balanced_last : quiet f' -> (forall i, refs (icache f') ROOTDEV i = refs (icache (fs s)) ROOTDEV i - holds (icache (fs s)) i fe) ->
  balanced other iother (mk_pst f' ft' (zset (ofile s) fd None) (umem s) (sz s) (esp s) (pipes s)).
Proof using Hb Ho Hf H1 Hst Hiother.
  intros Hq Hrefs. pose proof Hb as [Q L1 L2 Hfd Href Hfree Hip Hin]. pose proof (zget_Some_range _ _ _ Hf) as Hr.
  assert (forall g ge, zget ft' g = Some ge -> (g = f /\ ge = set_ftype FD_NONE (set_fref 0 fe)) \/ (g <> f /\ zget (ftable s) g = Some ge)) as Hcase.
  { intros g ge. unfold ft'. destruct (decide (g = f)) as [->|Hne]; [rewrite zget_zset_eq by done; intros [= <-]; by left|].
    rewrite zget_zset_ne by done. by right. }
  split; cbn [fs ftable ofile]; try done.
  - by rewrite zlen_zset.
  - unfold ft'. by rewrite zlen_zset.
  - intros fd' g. rewrite zget_zset. case_decide; [done|apply Hfd].
  - intros g ge [[-> ->]|[Hne Hg]]%Hcase; rewrite (fd_is_change _ (Some f)) by done; rewrite fd_none, fd_some.
    + rewrite decide_True by done. pose proof (Href f fe Hf). cbn. lia.
    + rewrite decide_False by done. pose proof (Href g ge Hg). lia.
  - intros g ge [[-> ->]|[Hne Hg]]%Hcase; [done|by apply (Hfree g)].
  - intros g ge [[-> ->]|[Hne Hg]]%Hcase Hl; [done|]. destruct (last_other g ge Hg Hne Hl) as (e & e' & _ & ? & _ & ?). eauto.
  - intros i. rewrite Hrefs, Hin. transitivity (iother i + total (holds (icache (fs s)) i) ft').
    { unfold ft'. rewrite (total_set _ _ _ _ _ Hf). change (holds (icache (fs s)) i (set_ftype FD_NONE (set_fref 0 fe))) with 0. unfold opens. lia. }
    f_equal. apply total_ext. intros ge (g & Hg)%zget_elem_of. unfold holds. destruct (live ge) eqn:Hl; [|done].
    apply Hcase in Hg as [[-> ->]|[Hne Hg]]; [done|]. destruct (last_other g ge Hg Hne Hl) as (e & e' & He & He' & Hn & _).
    unfold inum_at. by rewrite He, He', Hn.
Qed.
End Last.

(** A reference of the process becomes one of a new open file. *)
Lemma balanced_open s inum fd f fe ip e rd wr : balanced other (fun i => iother i + one inum i) s ->
  zget (ofile s) fd = Some None -> zget (ftable s) f = Some fe -> f_ref fe = 0 ->
  zget (icache (fs s)) ip = Some e -> 0 < i_ref e -> i_inum e = inum ->
  balanced other iother (mk_pst (fs s) (zset (ftable s) f (mk_file FD_INODE 1 rd wr (f_pipe fe) ip 0)) (zset (ofile s) fd (Some f)) (umem s) (sz s) (esp s) (pipes s)).
Proof using.
  intros [Q L1 L2 Hfd Href Hfree Hip Hin] Ho Hf H0 He Hr Hn. set (fe' := mk_file _ _ _ _ _ _ _). pose proof (zget_Some_range _ _ _ Hf) as Hrf.
  assert (forall g ge, zget (zset (ftable s) f fe') g = Some ge -> (g = f /\ ge = fe') \/ (g <> f /\ zget (ftable s) g = Some ge)) as Hcase.
  { intros g ge. destruct (decide (g = f)) as [->|Hne]; [rewrite zget_zset_eq by done; intros [= <-]; by left|].
    rewrite zget_zset_ne by done. by right. }
  split; cbn [fs ftable ofile]; try done.
  - by rewrite zlen_zset.
  - by rewrite zlen_zset.
  - intros fd' g. rewrite zget_zset. case_decide; [|apply Hfd]. intros [= <-]. by rewrite <-L2.
  - intros g ge [[-> ->]|[Hne Hg]]%Hcase; rewrite (fd_is_change _ None) by done; rewrite fd_none, fd_some.
    + rewrite decide_True by done. pose proof (Href f fe Hf). cbn. lia.
    + rewrite decide_False by done. pose proof (Href g ge Hg). lia.
  - intros g ge [[-> ->]|[Hne Hg]]%Hcase; [done|by apply (Hfree g)].
  - intros g ge [[-> ->]|[Hne Hg]]%Hcase Hl; [by exists e|by apply (Hip g)].
  - intros i. rewrite Hin. unfold opens. rewrite (total_set _ _ _ _ _ Hf).
    assert (holds (icache (fs s)) i fe = 0) as -> by (unfold holds, live; by rewrite H0).
    assert (holds (icache (fs s)) i fe' = one inum i) as -> by (unfold holds, inum_at; cbn; by rewrite He, Hn). lia.
Qed.
End OpenClose.

(** ** Closing and opening *)
Section Calls.
Context {P : Type} `{PipeOps P} `{DevSw} (other iother : Z -> Z).
Context (Hother : forall f, 0 <= other f) (Hiother : forall i, 0 <= iother i).
Implicit Types (s : pst (P := P)).

Lemma fileclose_more f fe s : zget (ftable s) f = Some fe -> 1 < f_ref fe ->
  fileclose f s = Ret tt (with_ftable (zset (ftable s) f (set_fref (f_ref fe - 1) fe)) s).
Proof using.
  intros Hf Hr. unfold fileclose. exec_by (getf_run s f fe Hf). destruct (Z.ltb_spec (f_ref fe) 1); [lia|].
  exec_by (setf_run s f fe (set_fref (f_ref fe - 1)) Hf). by destruct (Z.ltb_spec 0 (f_ref fe - 1)); [|lia].
Qed.
Lemma fileclose_last f fe s : zget (ftable s) f = Some fe -> f_ref fe = 1 ->
  fileclose f s = match f_type fe with
    | FD_PIPE => on_pipes (pipeclose (f_pipe fe) (f_writable fe))
    | FD_INODE => begin_op;; on_fs (iput (f_ip fe));; end_op
    | FD_NONE => mret tt
    end (with_ftable (zset (ftable s) f (set_ftype FD_NONE (set_fref 0 fe))) s).
Proof using.
  intros Hf Hr. unfold fileclose. exec_by (getf_run s f fe Hf). rewrite Hr. change (1 <? 1) with false. change (1 - 1) with 0. cbv iota.
  exec_by (setf_run s f fe (set_fref 0) Hf). change (0 <? 0) with false. cbv iota.
  assert (zget (ftable (with_ftable (zset (ftable s) f (set_fref 0 fe)) s)) f = Some (set_fref 0 fe)) as Hf1
    by (apply zget_zset_eq; by eapply zget_Some_range).
  exec_by (getf_run _ f _ Hf1). exec_by (setf_run _ f _ (fun e => set_ftype FD_NONE (set_fref 0 e)) Hf1).
  cbn [ftable with_ftable]. by rewrite zset_zset_eq.
Qed.

(** The descriptor of an open file and the file. *)
Lemma fd_file s fd f : balanced other iother s -> zget (ofile s) fd = Some (Some f) ->
  exists fe, zget (ftable s) f = Some fe /\ 1 <= f_ref fe.
Proof using Hother.
  intros Hb Ho. pose proof (bl_fd _ _ _ Hb fd f Ho) as Hr. rewrite <-(bl_ftable _ _ _ Hb) in Hr.
  destruct (zget_in_range (ftable s) f Hr) as [fe Hf]. exists fe. split; [done|].
  rewrite (bl_ref _ _ _ Hb f fe Hf). pose proof (fds_pos _ _ _ Ho). pose proof (Hother f). lia.
Qed.
Lemma close_ok s fd f : balanced other iother s -> zget (ofile s) fd = Some (Some f) ->
  match (set_fd fd None;; fileclose f;; mret 0) s with
  | Ret r s' => r = 0 /\ balanced other iother s' /\ ofile s' = zset (ofile s) fd None
  | _ => exists fe, zget (ftable s) f = Some fe /\ f_type fe = FD_PIPE /\ f_ref fe = 1
  end.
Proof using Hother Hiother.
  intros Hb Ho. destruct (fd_file s fd f Hb Ho) as (fe & Hf & Hr). unfold set_fd. exec. set (s1 := with_ofile (zset (ofile s) fd None) s).
  assert (zget (ftable s1) f = Some fe) as Hf1 by done. destruct (decide (1 < f_ref fe)) as [Hlt|Hge].
  { exec_by (fileclose_more f fe s1 Hf1 Hlt). split; [done|]. split; [|done].
    apply (balanced_fd other iother s fd (Some f) None f fe); try done; [by left| |lia|lia].
    intros g. rewrite fd_none, fd_some. repeat case_decide; lia. }
  assert (f_ref fe = 1) as H1 by lia. unfold mbind at 1, M_bind at 1. rewrite (fileclose_last f fe s1 Hf1 H1).
  set (s2 := with_ftable (zset (ftable s1) f (set_ftype FD_NONE (set_fref 0 fe))) s1).
  assert (live fe = bool_decide (f_type fe = FD_INODE)) as El by (unfold live; by rewrite H1).
  destruct (f_type fe) eqn:Hty.
  - split; [done|]. split; [|done]. apply (balanced_last other iother Hiother s fd f fe (fs s)); try done; [|apply Hb|].
    + apply stays_refl. intros i. apply holds_nonneg.
    + intros i. assert (holds (icache (fs s)) i fe = 0) as -> by (unfold holds; by rewrite El). lia.
  - unfold on_pipes. destruct (pipeclose _ _ _); [|by exists fe..]. split; [done|]. split; [|done].
    pose proof (balanced_last other iother Hiother s fd f fe (fs s) Hb Ho Hf H1) as Hbl. destruct Hbl; try done.
    + apply stays_refl. intros i. apply holds_nonneg.
    + apply Hb.
    + intros i. assert (holds (icache (fs s)) i fe = 0) as -> by (unfold holds; by rewrite El). lia.
  - assert (live fe = true) as Hl by (by rewrite El). destruct (bl_ip _ _ _ Hb f fe Hf Hl) as (e & He & Hre).
    destruct (iput_quiet (fs s) (f_ip fe) e (bl_quiet _ _ _ Hb) He Hre) as (f' & E & Hq & Ef & Hrefs). unfold begin_op. exec.
    assert (on_fs (iput (f_ip fe)) s2 = Ret tt (with_fs f' s2)) as E2 by (by apply on_fs_run). exec_by E2. unfold end_op. exec.
    split; [done|]. split; [|done].
    assert (forall i, holds (icache (fs s)) i fe = one (i_inum e) i) as Hh by (intros i; unfold holds, inum_at; by rewrite Hl, He).
    apply (balanced_end other iother (with_fs f' s2)).
    apply (balanced_last other iother Hiother s fd f fe f'); try done.
    + rewrite Ef. apply (stays_put _ (fun i => holds_nonneg _ i fe) (fs s) (f_ip fe) e); [done|done|]. rewrite Hh. unfold one. rewrite Z.eqb_refl. cbn. lia.
    + intros i. by rewrite Hrefs, Hh.
Qed.
End Calls.

(** ** [sys_dup] and [sys_open] *)
Section Open.
Context {P : Type} `{PipeOps P} `{DevSw} (other iother : Z -> Z).
Context (Hother : forall f, 0 <= other f) (Hiother : forall i, 0 <= iother i).
Implicit Types (s : pst (P := P)) (g : fsst).

Lemma free_fd_some l fd : free_fd l = Some fd -> zget l fd = Some None.
Proof using. intros [E _]%first_of_spec. by apply bool_decide_eq_true in E. Qed.
Lemma free_file_some ft f : free_file ft = Some f -> exists fe, zget ft f = Some fe /\ f_ref fe = 0.
Proof using. intros [E _]%first_of_spec. unfold unused in E. destruct (zget ft f) as [fe|]; [|done]. exists fe. split; [done|lia]. Qed.

Lemma dup_ok s f fd0 : balanced other iother s -> zget (ofile s) fd0 = Some (Some f) ->
  match free_fd (ofile s) with
  | None => orelse (fdalloc f) (fun fd => filedup f;; mret fd) s = Ret (-1) s
  | Some fd => exists s', orelse (fdalloc f) (fun fd => filedup f;; mret fd) s = Ret fd s' /\ balanced other iother s' /\
      ofile s' = zset (ofile s) fd (Some f) /\ fs s' = fs s
  end.
Proof using Hother.
  intros Hb Ho. destruct (fd_file other iother Hother s fd0 f Hb Ho) as (fe & Hf & Hr). pose proof (fdalloc_run f s (bl_ofile _ _ _ Hb)) as E. unfold orelse.
  destruct (free_fd (ofile s)) as [fd|] eqn:Hfree; [|by exec_by E]. apply free_fd_some in Hfree.
  exec_by E. set (s1 := with_ofile (zset (ofile s) fd (Some f)) s). assert (zget (ftable s1) f = Some fe) as Hf1 by done.
  unfold filedup. exec. exec_by (getf_run s1 f fe Hf1). destruct (Z.ltb_spec (f_ref fe) 1); [lia|]. exec.
  exec_by (setf_run s1 f fe (set_fref (f_ref fe + 1)) Hf1). eexists. split; [reflexivity|]. split; [|done].
  apply (balanced_fd other iother s fd None (Some f) f fe); try done; [right; exists f; split; [done|by eapply bl_fd]| |lia|lia].
  intros g. rewrite fd_none, fd_some. repeat case_decide; lia.
Qed.

(** Nothing has changed but free entries of the cache. *)
Definition left_alone g g' : Prop := quiet g' /\ g' = with_icache (icache g') g /\ stays (fun _ => 0) g g' /\
  forall i, refs (icache g') ROOTDEV i = refs (icache g) ROOTDEV i.
(** The inode of the walk, with a reference of its own. *)
Definition found g g1 inum ip e : Prop := quiet g1 /\ g1 = with_icache (icache g1) g /\ stays (fun _ => 0) g g1 /\
  zget (icache g1) ip = Some e /\ 0 < i_ref e /\ i_inum e = inum /\ forall i, refs (icache g1) ROOTDEV i = refs (icache g) ROOTDEV i + one inum i.
Definition target g path inum0 : option Z := fst <$> walk (sb g) (view g) false (start_of path inum0) (path_names [] path) [].
(** A directory can only be opened for reading. *)
Definition refused g inum omode : bool := (i_type (dinode (sb g) (view g) inum) =? T_DIR) && negb (omode =? O_RDONLY).

Lemma give_back g g1 inum ip e : quiet g -> found g g1 inum ip e ->
  exists g', iunlockput ip (put ip (loaded (sb g1) (view g1) e) g1) = Ret tt g' /\ left_alone g g'.
Proof using.
  intros Hq0 (Hq & Eg & Hst & Hi & Hr & Hn & Hrefs). destruct (turn_back g1 ip e Hq Hi Hr) as (g' & E & Hq' & Eg' & Hst' & _ & Hrefs').
  unfold mbind, M_bind in E. destruct (iunlockput ip _) as [[] g2| | |]; try done. injection E as ->. exists g'. split; [done|].
  split; [done|]. split; [by rewrite Eg', Eg|]. rewrite Hn in *. split; [|intros i; rewrite Hrefs', Hrefs; lia].
  apply (stays_trans (fun _ => 0) (fun _ => Z.le_refl 0) (one inum) g g1 g'); try done; [apply one_nonneg|]. intros i. rewrite Hrefs. lia.
Qed.
Lemma open_inode_ok path omode g ec : quiet g -> allocated (sb g) (view g) ROOTINO -> zget (icache g) (cwd g) = Some ec -> 0 < i_ref ec ->
  Z.land omode O_CREATE = 0 ->
  (exists g', open_inode path omode g = Panic "iget: no inodes" g' /\ no_entry g') \/
  match target g path (i_inum ec) with
  | Some inum =>
      if refused g inum omode then exists g', open_inode path omode g = Ret None g' /\ left_alone g g'
      else exists ip e g1, open_inode path omode g = Ret (Some ip) (put ip (loaded (sb g1) (view g1) e) g1) /\ found g g1 inum ip e
  | None => exists g', open_inode path omode g = Ret None g' /\ left_alone g g'
  end.
Proof using.
  intros Hq Ha Hc Hr Hm. unfold open_inode, target. rewrite Hm. cbn [Z.eqb negb].
  destruct (namex_ok false path g ec Hq Ha Hc Hr) as [(r & g1 & E & Hq1 & Eg & Hst & Hw)|(g' & E & Hno)]; cycle 1.
  { left. exists g'. split; [|done]. unfold namei, mbind, M_bind. by rewrite E. }
  right. assert (namei path g = Ret (fst <$> r) g1) as En by (unfold namei; by exec_by E). exec_by En. destruct (walk _ _ _ _ _ _) as [[inum nm]|]; cbn [fmap option_fmap option_map fst].
  2: { destruct Hw as [-> Hrefs]. exists g1. split; [done|]. done. }
  destruct Hw as (ip & e & -> & Hi & Hre & Hn & Hrefs). assert (found g g1 inum ip e) as Hfd by done. cbn [fmap option_fmap option_map fst]. exec.
  destruct (ilock_quiet g1 ip e Hq1 Hi Hre) as [El _]. exec_by El. set (el := loaded (sb g1) (view g1) e) in *.
  assert (zget (icache (put ip el g1)) ip = Some el) as Hi1 by (apply put_get; by eapply zget_Some_range). exec_by (geti_run _ ip el Hi1).
  assert ((i_type el =? T_DIR) && negb (omode =? O_RDONLY) = refused g inum omode) as ->.
  { assert (sb g1 = sb g /\ view g1 = view g) as [Esb Ev] by (by rewrite Eg). unfold refused, el. by rewrite Esb, Ev, <-Hn. }
  destruct (refused g inum omode); [|exists ip, e, g1; done].
  destruct (give_back g g1 inum ip e Hq Hfd) as (g' & Eg' & Hl). exists g'. split; [by exec_by Eg'|done].
Qed.
(** There is a free file and a free descriptor. *)
Definition room s : option (Z * Z) := match free_file (ftable s), free_fd (ofile s) with Some f, Some fd => Some (f, fd) | _, _ => None end.

Lemma abandon s g' ip f1 : balanced other iother s -> left_alone (fs s) g' -> iunlockput ip f1 = Ret tt g' ->
  (on_fs (iunlockput ip);; end_op;; mret (-1)) (with_fs f1 s) = Ret (-1) (with_fs (committed g') s) /\ balanced other iother (with_fs (committed g') s).
Proof using.
  intros Hb (Hq & _ & Hst & Hrefs) E. split; [unfold end_op; by exec_by (on_fs_run _ (with_fs f1 s) _ _ E)|].
  apply (balanced_end other iother (with_fs g' s)), (balanced_fs other iother iother s g'); try done. intros i. rewrite Hrefs. lia.
Qed.
Lemma open_file_ok s omode inum ip e g1 : balanced other iother s -> found (fs s) g1 inum ip e ->
  exists s', open_file omode ip (with_fs (put ip (loaded (sb g1) (view g1) e) g1) s) =
      Ret (match room s with Some (_, fd) => fd | None => -1 end) s' /\ balanced other iother s' /\
    match room s with
    | Some (f, fd) => ofile s' = zset (ofile s) fd (Some f) /\ inum_at (icache (fs s')) ip = inum /\ exists p,
        ftable s' = zset (ftable s) f (mk_file FD_INODE 1 (Z.land omode O_WRONLY =? 0)
          (negb (Z.land omode O_WRONLY =? 0) || negb (Z.land omode O_RDWR =? 0)) p ip 0)
    | None => ofile s' = ofile s /\ ftable s' = ftable s
    end.
Proof using.
  intros Hb Hfd. destruct (give_back (fs s) g1 inum ip e (bl_quiet _ _ _ Hb) Hfd) as (g' & Eg & Hla).
  pose proof Hfd as (Hq1 & Eg1 & Hst & Hi & Hr & Hn & Hrefs). destruct (ilock_quiet g1 ip e Hq1 Hi Hr) as [_ Hql].
  set (el := loaded (sb g1) (view g1) e) in *. set (s1 := with_fs (put ip el g1) s). destruct (abandon s g' ip (put ip el g1) Hb Hla Eg) as [Eab Hbab].
  fold s1 in Eab. unfold open_file, room. pose proof (filealloc_run s1 (bl_ftable _ _ _ Hb)) as Ef. change (ftable s1) with (ftable s) in Ef.
  destruct (free_file (ftable s)) as [f|] eqn:Hff; [|exec_by Ef; exec; eauto]. apply free_file_some in Hff as (fe & Hf & Hf0). rewrite Hf in Ef.
  exec_by Ef. set (s2 := with_ftable (zset (ftable s) f (set_fref 1 fe)) s1). pose proof (zget_Some_range _ _ _ Hf) as Hfr.
  assert (zget (ftable s2) f = Some (set_fref 1 fe)) as Hf2 by (by apply zget_zset_eq).
  pose proof (fdalloc_run f s2 (bl_ofile _ _ _ Hb)) as Ed. change (ofile s2) with (ofile s) in Ed.
  destruct (free_fd (ofile s)) as [fd|] eqn:Hfdd.
  - apply free_fd_some in Hfdd. exec_by Ed. set (s3 := with_ofile (zset (ofile s) fd (Some f)) s2).
    assert (iunlock (Some ip) (fs s3) = Ret tt (put ip (with_lock false el) g1)) as Eu.
    { change (fs s3) with (put ip el g1). rewrite (iunlock_ok ip el); [by rewrite put_put|apply put_get; by eapply zget_Some_range|done|done]. }
    exec_by (on_fs_run _ s3 _ _ Eu). exec_by (end_op_run (with_fs (put ip (with_lock false el) g1) s3)).
    erewrite bind_Ret; [|exact (setf_run (with_fs (committed (put ip (with_lock false el) g1)) s3) f (set_fref 1 fe) _ Hf2)]. eexists. split; [reflexivity|].
    set (g2 := committed (put ip (with_lock false el) g1)).
    assert (balanced other (fun i => iother i + one inum i) (with_fs g2 s)) as Hb2.
    { apply (balanced_fs other iother _ s g2 Hb); [by apply quiet_committed| |].
      - apply (stays_trans (fun _ => 0) (fun _ => Z.le_refl 0) (one inum) (fs s) g1 g2); [apply one_nonneg|apply Hb|done|intros i; rewrite Hrefs; lia|done|].
        exact (stays_put (one inum) (one_nonneg inum) g1 ip e (with_lock false el) Hi eq_refl (fun _ => Hr)).
      - intros i. unfold g2. change (icache (committed ?x)) with (icache x). cbn [icache put with_icache].
        rewrite (refs_set _ ip e) by done. change (weight ROOTDEV i (with_lock false el)) with (weight ROOTDEV i e). rewrite Hrefs. lia. }
    assert (zget (icache g2) ip = Some (with_lock false el)) as Hi2 by (apply zget_zset_eq; by eapply zget_Some_range).
    cbn [fs ofile ftable with_ftable with_ofile with_fs s3 s2 s1]. rewrite zset_zset_eq. split; [|split; [done|split]].
    + exact (balanced_open other iother (with_fs g2 s) inum fd f fe ip (with_lock false el) _ _ Hb2 Hfdd Hf Hf0 Hi2 Hr Hn).
    + change (inum_at (icache g2) ip = inum). unfold inum_at. by rewrite Hi2.
    + eexists. reflexivity.
  - exec_by Ed. pose proof (fileclose_last f (set_fref 1 fe) s2 Hf2 eq_refl) as Ec.
    assert (f_type (set_fref 1 fe) = FD_NONE) as Hty by (exact (bl_free _ _ _ Hb f fe Hf Hf0)). rewrite Hty in Ec. exec_by Ec.
    assert (with_ftable (zset (ftable s2) f (set_ftype FD_NONE (set_fref 0 (set_fref 1 fe)))) s2 = s1) as ->.
    { cbn [ftable with_ftable s2]. rewrite zset_zset_eq. change (f_type fe = FD_NONE) in Hty.
      assert (set_ftype FD_NONE (set_fref 0 (set_fref 1 fe)) = fe) as -> by (destruct fe; cbn in *; by subst). by rewrite zset_id. }
    exec. eauto.
Qed.
End Open.
