(* ===== verification/XFdThm.v ===== *)
(** * The properties of open files of xv6

    What two processes that share files through the table of open files and the
    descriptors can rely on, with instances on a small system. *)
From S2P Require Import Prelude Bytes XFs XFsAlloc XFile XFileIO XTrunc XInode XDir XPath XFsThm XFd XFdSpec XFdRefs.

Section Theorems.
Context {P : Type} `{PipeOps P} `{DevSw}.
Implicit Types (s : pst (P := P)).

(** C27. A write through an open file of an inode and a read of the same length
    through another open file of the inode that has the same offset: the bytes
    read are the bytes written, and both offsets have moved behind them.  The
    write panics on a full disk; it returns [n] when all bytes are written, and
    -1 only when the range goes past the largest file, with the first [i] bytes
    written. *)
Theorem filewrite_then_fileread f g ip fe ge e s addr addr' n : f <> g ->
  file_of f ip fe e s -> file_of g ip ge e s -> f_writable fe = true -> f_readable ge = true -> f_off ge = f_off fe ->
  logged (fs s) = ∅ -> 0 <= n -> 0 <= f_off fe -> f_off fe <= i_size e -> f_off fe + n < 4294967296 ->
  wpp (filewrite f addr n) (fun r s' => exists i, 0 <= i <= n /\ (i < n -> MAXFILE * BSIZE < f_off fe + n) /\
    r = (if i =? n then n else -1) /\ ofile s' = ofile s /\ umem s' = umem s /\
    ftable s' = zset (ftable s) f (set_off (f_off fe + i) fe) /\
    exists s'', fileread g addr' i s' = Ret i s'' /\ ftable s'' = zset (ftable s') g (set_off (f_off ge + i) ge) /\
      forall a, ubyte s'' a = if decide (addr' <= a < addr' + i) then ubyte s (addr + (a - addr')) else ubyte s a) s.
Proof.
  intros Hne Hfo [Hg Hgt Hgip _] Hwr Hrd Hoffs Hlog Hn Hoff Hsz Hu. eapply wpp_mono; [by apply (filewrite_ok f ip fe e)|]. cbv beta.
  intros r s' (i & e' & Hi & Hbig & -> & [Hm Hf' _ Hs Hb _ _]). exists i. do 3 (split; [done|]).
  pose proof Hm as Em. unfold moved in Em. split; [by rewrite Em|]. split; [by rewrite Em|]. split; [by rewrite Em|].
  assert (file_of g ip ge e' s') as Hg'.
  { split; [|done|done|apply Hf']. rewrite Em. cbn. by rewrite zget_zset_ne by done. }
  destruct (fileread_ok g ip s' ge e' addr' i Hg' Hrd) as (m & E & Hmem); [lia..|].
  rewrite Hoffs, Hs, Z.min_l in E, Hmem by lia. eexists. split; [exact E|]. cbn [ftable]. split; [by rewrite Hoffs|].
  intros a. unfold ubyte at 1. cbn [umem]. rewrite Hmem. case_decide as Ha; [|unfold ubyte; by rewrite Em].
  rewrite Hb by (pose proof (proj1 (fi_solid _ _ _ (op_file _ _ _ (fo_open _ _ _ _ _ Hf')))); lia).
  rewrite (fmap_seqZ_ext _ (fun j => ubyte s (addr + j)) addr 0) by done.
  replace (f_off fe + (a - addr') - f_off fe) with (a - addr') by lia. rewrite zget_fmap_seqZ by lia. unfold ubyte, u8. zlia.
Qed.

(** C28. A transaction of [filewrite], which writes at most [max_write] bytes,
    logs at most [MAXOPBLOCKS] blocks, the room [begin_op] has waited for: the
    inode, the indirect block, the data blocks, and the bitmap blocks of those
    that are new, even when each is in another bitmap block. *)
Theorem write_tx_fits_the_log f ip fe e s addr i n1 : file_of f ip fe e s -> logged (fs s) = ∅ -> 0 < n1 <= max_write ->
  0 <= f_off fe -> f_off fe <= i_size e ->
  wpp (write_tx f addr i n1) (fun r s' => Z.of_nat (size (logged (fs s'))) <= MAXOPBLOCKS) s.
Proof.
  intros Hfo Hlog Hn Hoff Hsz. pose proof (op_file _ _ _ (fo_open _ _ _ _ _ Hfo)) as Hf. pose proof (fi_solid _ _ _ Hf) as Hso.
  pose proof (proj1 Hso). change max_write with 1536 in Hn.
  eapply wpp_mono; [apply (write_tx_ok f ip s fe e addr i n1 Hfo Hlog); try lia; unfold is_u32; dlia|]. cbv beta zeta.
  intros r s'. case_match.
  - intros [_ ->]. rewrite Hlog. by_vm.
  - intros (_ & _ & e' & _ & _ & _ & _ & Htx & _). eapply tx_logs_bound; [exact Htx|done|lia|]. change max_write with 1536. lia.
Qed.

Section Counts.
Context (other iother : Z -> Z).
Hypothesis Hother : forall f, 0 <= other f.
Hypothesis Hiother : forall i, 0 <= iother i.

(** [dup]: a bad descriptor, or no free one, gives -1 and changes nothing;
    otherwise the lowest free descriptor names the same open file.  All
    reference counts stay exact. *)
Theorem sys_dup_keeps_counts s : balanced other iother s ->
  exists r s', sys_dup s = Ret r s' /\ balanced other iother s' /\
    match argfd 0 s, free_fd (ofile s) with
    | Ret (Some (_, f)) _, Some fd => r = fd /\ ofile s' = zset (ofile s) fd (Some f) /\ fs s' = fs s
    | _, _ => r = -1 /\ s' = s
    end.
Proof.
  intros Hb. unfold sys_dup, orelse at 1. destruct (argfd_run 0 s (bl_ofile _ _ _ Hb)) as [E|(fd0 & f & E & Ho)]; rewrite E; exec_by E; [by exists (-1), s|].
  pose proof (dup_ok other iother Hother s f fd0 Hb Ho) as Hd. destruct (free_fd (ofile s)) as [fd|]; [|by exists (-1), s]. destruct Hd as (s' & E' & Hb' & Ho' & Hfs). by exists fd, s'.
Qed.

(** C30. [close] of an open descriptor frees it and drops one reference to its
    file; the last one gives the inode back.  A bad descriptor gives -1 and
    changes nothing.  All reference counts stay exact.  Only the last close of a
    pipe depends on the code of pipes. *)
Theorem sys_close_keeps_counts s : balanced other iother s ->
  match sys_close s with
  | Ret r s' => balanced other iother s' /\
      match argfd 0 s with
      | Ret (Some (fd, _)) _ => r = 0 /\ ofile s' = zset (ofile s) fd None
      | _ => r = -1 /\ s' = s
      end
  | _ => exists fd f fe, argfd 0 s = Ret (Some (fd, f)) s /\ zget (ftable s) f = Some fe /\ f_type fe = FD_PIPE /\ f_ref fe = 1
  end.
Proof.
  intros Hb. unfold sys_close, orelse. destruct (argfd_run 0 s (bl_ofile _ _ _ Hb)) as [E|(fd & f & E & Ho)]; rewrite E; exec_by E; [done|].
  pose proof (close_ok other iother Hother Hiother s fd f Hb Ho) as Hc.
  destruct ((set_fd fd None;; fileclose f;; mret 0) s); [by destruct Hc as (-> & ? & ?)|..]; destruct Hc as (fe & ? & ? & ?); by exists fd, f, fe.
Qed.

(** C29. [open] without [O_CREATE]: when the path leads to an inode that may be
    opened in this mode, and a file and a descriptor are free, the lowest of
    each are taken and name the inode, at offset 0 and with the rights of the
    mode; in every other case it returns -1 with all descriptors and files as
    before.  The reference counts of files and inodes stay exact on every path;
    it panics only when all entries of the cache are referenced. *)
Theorem sys_open_keeps_counts s path omode ec : balanced other iother s ->
  argstr 0 s = Ret (Some path) s -> argint 1 s = Ret (Some omode) s -> Z.land omode O_CREATE = 0 ->
  allocated (sb (fs s)) (view (fs s)) ROOTINO -> zget (icache (fs s)) (cwd (fs s)) = Some ec -> 0 < i_ref ec ->
  match sys_open s with
  | Ret r s' => balanced other iother s' /\
      match target (fs s) path (i_inum ec), room s with
      | Some inum, Some (f, fd) =>
          if refused (fs s) inum omode then r = -1 /\ ofile s' = ofile s /\ ftable s' = ftable s
          else r = fd /\ ofile s' = zset (ofile s) fd (Some f) /\ exists ip p, inum_at (icache (fs s')) ip = inum /\
            ftable s' = zset (ftable s) f (mk_file FD_INODE 1 (Z.land omode O_WRONLY =? 0)
              (negb (Z.land omode O_WRONLY =? 0) || negb (Z.land omode O_RDWR =? 0)) p ip 0)
      | _, _ => r = -1 /\ ofile s' = ofile s /\ ftable s' = ftable s
      end
  | Panic msg s' => msg = "iget: no inodes"%string /\ no_entry (fs s')
  | _ => False
  end.
Proof.
  intros Hb Ep Em Hc Ha Hec Hr. unfold sys_open, orelse, begin_op. exec_by Ep. exec_by Em. exec.
  assert (forall g', left_alone (fs s) g' -> balanced other iother (with_fs (committed g') s)) as Hleft.
  { intros g' (Hq & _ & Hst & Hrefs). apply (balanced_end other iother (with_fs g' s)), (balanced_fs other iother iother s g'); try done. intros i. rewrite Hrefs. lia. }
  destruct (open_inode_ok path omode (fs s) ec (bl_quiet _ _ _ Hb) Ha Hec Hr Hc) as [(g' & E & Hno)|Ht].
  { unfold mbind, M_bind, on_fs. by rewrite E. }
  destruct (target (fs s) path (i_inum ec)) as [inum|].
  2: { destruct Ht as (g' & E & Hl). exec_by (on_fs_run _ s _ _ E). exec_by (end_op_run (with_fs g' s)). split; [by apply Hleft|done]. }
  destruct (refused (fs s) inum omode).
  { destruct Ht as (g' & E & Hl). exec_by (on_fs_run _ s _ _ E). exec_by (end_op_run (with_fs g' s)). split; [by apply Hleft|].
    by destruct (room s) as [[? ?]|]. }
  destruct Ht as (ip & e & g1 & E & Hfd). exec_by (on_fs_run _ s _ _ E).
  destruct (open_file_ok other iother s omode inum ip e g1 Hb Hfd) as (s' & -> & Hb' & Hroom). split; [done|].
  destruct (room s) as [[f fd]|]; [|done]. destruct Hroom as (? & ? & p & ?). eauto 7.
Qed.
End Counts.
End Theorems.

(** ** A small system

    One process on the small disk of [XFsThm], with its current directory at the
    root.  In [p0] two files are open on "f", one for writing and one for
    reading; in [p1] descriptor 0 is open on "f", and the path "/f" is in memory
    as the argument of a call. *)
Module Proc.
Import Small.
#[export] Existing Instance no_devices.
#[export] Instance no_pipes : PipeOps unit :=
  {| pipe_new := mret None; pipeclose := fun _ _ => mret tt; piperead := fun _ _ => mret (0, []); pipewrite := fun _ _ _ => mret 0 |}.
Definition closed : file := mk_file FD_NONE 0 false false 0 0 0.
Definition on_f (rd wr : bool) : file := mk_file FD_INODE 1 rd wr 0 1 0.
Definition mem : gmap Z Z := put_bytes 64 [47; 102; 0; 1; 2; 3] (put_bytes 4 (bytes_of 64 ++ bytes_of 0) ∅).
Definition p0 : pst := mk_pst (s0 false) (on_f false true :: on_f true false :: repeat closed 98) (repeat None 16) mem 128 0 tt.
Definition p1 (arg : Z) : pst :=
  mk_pst (s0 false) (on_f true true :: repeat closed 99) (Some 0 :: repeat None 15) (put_bytes 4 (bytes_of arg) mem) 128 0 tt.
Definition returns {A} (r : outcome (pst (P := unit)) A) (p : A -> bool) : bool := match r with Ret a _ => p a | _ => false end.

Lemma p0_file f rd wr : zget (ftable p0) f = Some (on_f rd wr) -> file_of f 1 (on_f rd wr) filef p0.
Proof. intros Hf. split; [done|done|done|]. split; [apply idle0|apply filef0|by_vm|done|done]. Qed.
Lemma total_repeat {A} (w : A -> Z) a n : w a = 0 -> total w (repeat a n) = 0.
Proof. intros Ha. induction n as [|n IH]; [done|]. cbn [repeat]. rewrite total_cons. lia. Qed.
Lemma zget_repeat {A} (a b : A) n i : zget (repeat a n) i = Some b -> b = a.
Proof. intros Hi. by apply zget_elem, list_elem_of_In, repeat_spec in Hi. Qed.
(** The current directory. *)
Lemma p1_balanced arg : balanced (fun _ => 0) (one 1) (p1 arg).
Proof.
  split; [apply quiet0|done|done|..]; cbn [p1 ftable ofile fs].
  - intros fd f. rewrite zget_cons. case_decide; [intros [= <-]; by_vm|]. by intros ?%zget_repeat.
  - intros f fe. unfold fds. rewrite total_cons, total_repeat, fd_some by done. rewrite zget_cons. case_decide; [by intros [= <-]|]. by intros ->%zget_repeat.
  - intros f fe. rewrite zget_cons. case_decide; [by intros [= <-]|]. by intros ->%zget_repeat.
  - intros f fe. rewrite zget_cons. case_decide; [intros [= <-] _; exists filef; split; [done|by_vm]|]. by intros ->%zget_repeat.
  - intros i. unfold refs, opens, s0. cbn [icache]. rewrite !total_cons, !total_repeat by done.
    change (weight ROOTDEV i (root false)) with (one 1 i). change (weight ROOTDEV i filef) with (one 2 i).
    change (holds (root false :: filef :: repeat blank 48) i (on_f true true)) with (one 2 i). lia.
Qed.
End Proc.
Import Small Proc.

Lemma filewrite_then_fileread_witness :
  wpp (filewrite 0 67 3) (fun r s' => r = 3 /\ exists s'', fileread 1 100 3 s' = Ret 3 s'' /\ ubyte s'' 100 = 1) p0 /\
  returns (filewrite 0 67 3 p0) (fun r => r =? 3) = true.
Proof.
  split; [|by vm_compute]. eapply wpp_mono.
  - apply (filewrite_then_fileread 0 1 1 (on_f false true) (on_f true false) filef p0 67 100 3);
      [done|by apply p0_file|by apply p0_file|done|done|done|done|by_vm..].
  - intros r s' (i & Hi & Hbig & -> & _ & _ & _ & s'' & E & _ & Hm). assert (i = 3) as ->.
    { destruct (decide (i < 3)) as [Hlt|]; [|lia]. exfalso. specialize (Hbig Hlt). revert Hbig. by_vm. }
    split; [done|]. exists s''. split; [exact E|]. rewrite Hm. by vm_compute.
Defined.
Lemma write_tx_fits_the_log_witness :
  wpp (write_tx 0 67 0 3) (fun r s' => Z.of_nat (size (logged (fs s'))) <= MAXOPBLOCKS) p0 /\
  returns (write_tx 0 67 0 3 p0) (fun r => r =? 3) = true.
Proof.
  split; [|by vm_compute]. apply (write_tx_fits_the_log 0 1 (on_f false true) filef p0 67 0 3); [by apply p0_file|done|by_vm..].
Defined.
Lemma sys_dup_keeps_counts_witness : exists s', sys_dup (p1 0) = Ret 1 s' /\ balanced (fun _ => 0) (one 1) s'.
Proof.
  destruct (sys_dup_keeps_counts (fun _ => 0) (one 1) (fun _ => Z.le_refl 0) (p1 0) (p1_balanced 0)) as (r & s' & E & Hb & Hr).
  exists s'. split; [|exact Hb]. assert (returns (sys_dup (p1 0)) (fun r => r =? 1) = true) as E1 by (by vm_compute).
  rewrite E in E1 |- *. cbn in E1. apply Z.eqb_eq in E1 as ->. reflexivity.
Defined.
Lemma sys_close_keeps_counts_witness : match sys_close (p1 0) with Ret r s' => balanced (fun _ => 0) (one 1) s' /\ r = 0 | _ => False end.
Proof.
  pose proof (sys_close_keeps_counts (fun _ => 0) (one 1) (fun _ => Z.le_refl 0) (one_nonneg 1) (p1 0) (p1_balanced 0)) as Hc.
  assert (returns (sys_close (p1 0)) (fun r => r =? 0) = true) as E1 by (by vm_compute).
  destruct (sys_close (p1 0)); try discriminate E1. apply Z.eqb_eq in E1. split; [exact (proj1 Hc)|exact E1].
Defined.
Lemma sys_open_keeps_counts_witness : match sys_open (p1 64) with Ret r s' => balanced (fun _ => 0) (one 1) s' /\ r = 1 | _ => False end.
Proof.
  pose proof (sys_open_keeps_counts (fun _ => 0) (one 1) (p1 64) [47; 102] 0 (root false) (p1_balanced 64)
    ltac:(by vm_compute) ltac:(by vm_compute) eq_refl ltac:(split; [by_vm|by vm_compute]) eq_refl ltac:(by_vm)) as Ho.
  assert (returns (sys_open (p1 64)) (fun r => r =? 1) = true) as E1 by (by vm_compute).
  destruct (sys_open (p1 64)); try discriminate E1. apply Z.eqb_eq in E1. split; [exact (proj1 Ho)|exact E1].
Defined.
