(* ===== verification/XVm.v ===== *)
(** * Page tables of xv6

    [xv6/vm.c] on the memory and the free list of [XKalloc]: walking a page
    directory, mapping pages, the kernel's part of an address space, and the
    user's part -- growing, shrinking, copying, freeing, copying data out.

    Memory is words at kernel virtual addresses, which is where the kernel sees
    all of physical memory; a page table entry holds a physical address.  The
    format of addresses and entries ([PDX], [PTX], [PGADDR], [PTE_ADDR] and the
    flags) is the processor's, and [Mmu] has it already: [xv6/mmu.h] defines the
    same macros.  [kend] and [kdata] are the linker's symbols [end] and [data].
    A null pointer is 0, and an access through it is undefined. *)
From S2P Require Import Prelude Mmu XKalloc.

Definition EXTMEM : Z := 1048576.                (* 0x100000 *)
Definition DEVSPACE : Z := 4261412864.           (* 0xFE000000 *)
Definition KERNLINK : Z := KERNBASE + EXTMEM.
Definition P2V (a : Z) : Z := u32 (a + KERNBASE).
Definition PTE_FLAGS (pte : Z) : Z := Z.land (u32 pte) 4095.
Definition PGROUNDDOWN (a : Z) : Z := Z.land a 4294963200.

Definition put (m : gmap Z Z) : M kmem unit := modify (fun s => set_free s m (freelist s)).
Definition ldw (a : Z) : M kmem Z := if a =? 0 then ub else gets (fun s => rdw (kmw s) a).
Definition stw (a x : Z) : M kmem unit := if a =? 0 then ub else s ← get; put (wrw (kmw s) a x).
(** [memset(v, 0, PGSIZE)] *)
Definition clear_page (v : Z) : M kmem unit := if v =? 0 then ub else s ← get; put (fillw (kmw s) (page_words v) 0).

(** ** Bytes of the words *)
Definition byte_shift (a : Z) : Z := 256 ^ (a `mod` 4).
Definition word_addr (a : Z) : Z := a - a `mod` 4.
Definition mbyte (m : gmap Z Z) (a : Z) : Z := u8 (rdw m (word_addr a) / byte_shift a).
Definition put_mbyte (m : gmap Z Z) (a x : Z) : gmap Z Z :=
  wrw m (word_addr a) (rdw m (word_addr a) + (u8 x - mbyte m a) * byte_shift a).
Fixpoint put_mbytes (m : gmap Z Z) (a : Z) (l : list Z) : gmap Z Z :=
  match l with [] => m | x :: l => put_mbytes (put_mbyte m a x) (a + 1) l end.
(** [memmove(v, l, n)] of a list of bytes, and of the page at [src]. *)
Definition move_bytes (v : Z) (l : list Z) : M kmem unit := s ← get; put (put_mbytes (kmw s) v l).
Definition copy_page (m : gmap Z Z) (v src : Z) : gmap Z Z :=
  foldr (fun i m' => wrw m' (v + 4 * i) (rdw m (src + 4 * i))) m (seqZ 0 1024).
Definition move_page (v src : Z) : M kmem unit := s ← get; put (copy_page (kmw s) v src).

Section Vm.
Variables kend kdata : Z.

(** ** Walking and mapping *)
Definition walkpgdir (pgdir va : Z) (alloc : bool) : M kmem Z :=
  let pde := pgdir + 4 * PDX va in
  e ← ldw pde;
  if has e PTE_P then mret (P2V (PTE_ADDR e) + 4 * PTX va) else
  if negb alloc then mret 0 else
  pgtab ← kalloc;
  if pgtab =? 0 then mret 0 else
  clear_page pgtab;;
  stw pde (Z.lor (Z.lor (Z.lor (V2P pgtab) PTE_P) PTE_W) PTE_U);;
  mret (pgtab + 4 * PTX va).

(** One page; the entry of [a] must not be present. *)
Definition map_one (pgdir a pa perm : Z) : M kmem Z :=
  pte ← walkpgdir pgdir a true;
  if pte =? 0 then mret (-1) else
  v ← ldw pte;
  if has v PTE_P then panic "remap" else
  stw pte (Z.lor (Z.lor pa perm) PTE_P);;
  mret 0.
(** [a] runs to [last] in steps of a page, round the end of memory if need be:
    the number of steps is known. *)
Definition mappages (pgdir va size pa perm : Z) : M kmem Z :=
  let a := PGROUNDDOWN va in
  let last := PGROUNDDOWN (u32 (va + size - 1)) in
  loop (Z.to_nat (u32 (last - a) / PGSIZE + 1)) (fun '(a, pa) =>
    r ← map_one pgdir a pa perm;
    mret (if r <? 0 then inr (-1) else if a =? last then inr 0
          else inl (u32 (a + PGSIZE), u32 (pa + PGSIZE)))) (a, pa).

(** ** Shrinking and freeing *)

(** Where a round of [deallocuvm] goes on: past a missing table, or a page on. *)
Definition dealloc_page (pgdir a : Z) : M kmem Z :=
  pte ← walkpgdir pgdir a false;
  if pte =? 0 then mret (u32 (PGADDR (PDX a + 1) 0 0 - PGSIZE)) else
  v ← ldw pte;
  when (has v PTE_P)
    (let pa := PTE_ADDR v in
     if pa =? 0 then panic "kfree" else
     kfree kend (P2V pa);;
     stw pte 0);;
  mret a.
Definition deallocuvm (pgdir oldsz newsz : Z) : M kmem Z :=
  if oldsz <=? newsz then mret (s32 oldsz) else
  loop (Z.to_nat (oldsz / PGSIZE + 2)) (fun a =>
    if oldsz <=? a then mret (inr (s32 newsz)) else
    a ← dealloc_page pgdir a;
    mret (inl (u32 (a + PGSIZE)))) (PGROUNDUP newsz).

Definition freevm (pgdir : Z) : M kmem unit :=
  if pgdir =? 0 then panic "freevm: no pgdir" else
  deallocuvm pgdir KERNBASE 0;;
  for_each (seqZ 0 NPDENTRIES) (fun i =>
    e ← ldw (pgdir + 4 * i);
    when (has e PTE_P) (kfree kend (P2V (PTE_ADDR e))));;
  kfree kend pgdir.

(** ** The kernel's part *)
Record kmapping := mk_kmapping { virt : Z; phys_start : Z; phys_end : Z; kperm : Z }.
Definition kmap : list kmapping :=
  [mk_kmapping KERNBASE 0 EXTMEM PTE_W;
   mk_kmapping KERNLINK (V2P KERNLINK) (V2P kdata) 0;
   mk_kmapping kdata (V2P kdata) PHYSTOP PTE_W;
   mk_kmapping DEVSPACE DEVSPACE 0 PTE_W].
Definition setupkvm : M kmem Z :=
  pgdir ← kalloc;
  if pgdir =? 0 then mret 0 else
  clear_page pgdir;;
  if DEVSPACE <? P2V PHYSTOP then panic "PHYSTOP too high" else
  r ← for_until kmap (fun k =>
    r ← mappages pgdir (virt k) (u32 (phys_end k - phys_start k)) (phys_start k) (kperm k);
    if r <? 0 then freevm pgdir;; mret (Some 0) else mret None);
  mret (default pgdir r).

(** ** The user's part *)

(** [init] has [sz] bytes. *)
Definition inituvm (pgdir : Z) (init : list Z) : M kmem unit :=
  if PGSIZE <=? zlen init then panic "inituvm: more than a page" else
  mem ← kalloc;
  clear_page mem;;
  _ ← mappages pgdir 0 PGSIZE (V2P mem) (Z.lor PTE_W PTE_U);
  move_bytes mem init.

Definition allocuvm (pgdir oldsz newsz : Z) : M kmem Z :=
  if KERNBASE <=? newsz then mret 0 else
  if newsz <? oldsz then mret (s32 oldsz) else
  loop (Z.to_nat (newsz / PGSIZE + 2)) (fun a =>
    if newsz <=? a then mret (inr newsz) else
    mem ← kalloc;
    if mem =? 0 then deallocuvm pgdir newsz oldsz;; mret (inr 0) else
    clear_page mem;;
    r ← mappages pgdir a PGSIZE (V2P mem) (Z.lor PTE_W PTE_U);
    if r <? 0 then deallocuvm pgdir newsz oldsz;; kfree kend mem;; mret (inr 0)
    else mret (inl (u32 (a + PGSIZE)))) (PGROUNDUP oldsz).

Definition clearpteu (pgdir uva : Z) : M kmem unit :=
  pte ← walkpgdir pgdir uva false;
  if pte =? 0 then panic "clearpteu" else
  v ← ldw pte;
  stw pte (Z.land v (Z.lnot PTE_U)).

(** A page of the copy; [false] is the jump to [bad]. *)
Definition copy_one (pgdir d i : Z) : M kmem bool :=
  pte ← walkpgdir pgdir i false;
  if pte =? 0 then panic "copyuvm: pte should exist" else
  v ← ldw pte;
  if negb (has v PTE_P) then panic "copyuvm: page not present" else
  let pa := PTE_ADDR v in
  let flags := PTE_FLAGS v in
  mem ← kalloc;
  if mem =? 0 then mret false else
  move_page mem (P2V pa);;
  r ← mappages d i PGSIZE (V2P mem) flags;
  if r <? 0 then kfree kend mem;; mret false else mret true.
Definition copyuvm (pgdir sz : Z) : M kmem Z :=
  d ← setupkvm;
  if d =? 0 then mret 0 else
  loop (Z.to_nat (sz / PGSIZE + 2)) (fun i =>
    if sz <=? i then mret (inr d) else
    ok ← copy_one pgdir d i;
    if ok : bool then mret (inl (u32 (i + PGSIZE))) else freevm d;; mret (inr 0)) 0.

Definition uva2ka (pgdir uva : Z) : M kmem Z :=
  pte ← walkpgdir pgdir uva false;
  v ← ldw pte;
  if negb (has v PTE_P) then mret 0 else
  if negb (has v PTE_U) then mret 0 else
  mret (P2V (PTE_ADDR v)).

(** The bytes at [p] are [buf]. *)
Definition copyout (pgdir va : Z) (buf : list Z) : M kmem Z :=
  loop (Z.to_nat (zlen buf / PGSIZE + 3)) (fun '(va, buf) =>
    if zlen buf =? 0 then mret (inr 0) else
    let va0 := PGROUNDDOWN va in
    pa0 ← uva2ka pgdir va0;
    if pa0 =? 0 then mret (inr (-1)) else
    let n := Z.min (PGSIZE - (va - va0)) (zlen buf) in
    move_bytes (pa0 + (va - va0)) (take (Z.to_nat n) buf);;
    mret (inl (u32 (va0 + PGSIZE), drop (Z.to_nat n) buf))) (va, buf).
End Vm.
