(* ===== verification/XVmSpec.v ===== *)
(** * Address spaces of xv6

    What the words of a page directory and its tables mean, who owns the pages of
    the allocator, and what the elementary operations of [XVm] -- a walk, mapping
    a page, unmapping it -- do to both.

    [pool] divides the allocator's pages into the free ones and those with a
    role: a page directory, a table of one, or a page of user memory at one
    address of one address space.  [space] says that the entries of a directory
    agree with the roles: that is what keeps tables private and user pages
    unshared. *)
From S2P Require Import Prelude Mmu XKalloc XVm.

Inductive role := Dir | Tab (pd i : Z) | Leaf (pd a : Z).
#[export] Instance role_eq_dec : EqDecision role.
Proof. solve_decision. Defined.

(** ** Entries *)
Definition pde (m : gmap Z Z) (pd i : Z) : Z := rdw m (pd + 4 * i).
Definition entry_page (e : Z) : Z := P2V (PTE_ADDR e).
Definition table (m : gmap Z Z) (pd i : Z) : Z := entry_page (pde m pd i).
Definition pte_addr (m : gmap Z Z) (pd a : Z) : Z := table m pd (PDX a) + 4 * PTX a.
(** The entry of the page at [a]; 0 where there is no table. *)
Definition pte_at (m : gmap Z Z) (pd a : Z) : Z :=
  if has (pde m pd (PDX a)) PTE_P then rdw m (pte_addr m pd a) else 0.
Definition mapped (m : gmap Z Z) (pd a : Z) : bool := has (pte_at m pd a) PTE_P.
Definition page_at (m : gmap Z Z) (pd a : Z) : Z := entry_page (pte_at m pd a).
Definition aligned (a : Z) : Prop := a `mod` PGSIZE = 0.
(** The address of a page, and of a page of user memory. *)
Definition page_va (a : Z) : Prop := aligned a /\ is_u32 a.
Definition user_va (a : Z) : Prop := aligned a /\ 0 <= a < KERNBASE.

Definition same_page (m m' : gmap Z Z) (p : Z) : Prop := forall w, w ∈ page_words p -> rdw m' w = rdw m w.

Ltac vlia := unfold page_va, user_va, aligned, is_u32, PGSIZE, KERNBASE, PHYSTOP in *; zlia.

Lemma mapped_table m pd a : mapped m pd a = true -> has (pde m pd (PDX a)) PTE_P = true /\ pte_at m pd a = rdw m (pte_addr m pd a).
Proof. unfold mapped, pte_at. destruct (has (pde m pd (PDX a)) PTE_P); [done|]. intros E. vm_compute in E. done. Qed.
Lemma user_page a : user_va a -> page_va a.
Proof. unfold user_va, page_va. intros [? ?]. split; [done|vlia]. Qed.
Lemma page_va_eq a b : page_va a -> page_va b -> PDX a = PDX b -> PTX a = PTX b -> a = b.
Proof. intros [Ha Hau] [Hb Hbu]. rewrite !PDX_div, !PTX_div by done. vlia. Qed.
Lemma word_in_page p i : 0 <= i < 1024 -> p + 4 * i ∈ page_words p.
Proof. intros. apply elem_page_words. eauto. Qed.
(** Words of two pages differ. *)
Lemma word_other_page p q w v : aligned p -> aligned q -> p <> q -> w ∈ page_words p -> v ∈ page_words q -> w <> v.
Proof. intros Hp Hq Hne Hw Hv ->. by destruct (page_words_disj p q v Hp Hq Hne Hw). Qed.
Lemma same_page_refl m p : same_page m m p.
Proof. done. Qed.
Lemma same_page_trans m m1 m2 p : same_page m m1 p -> same_page m1 m2 p -> same_page m m2 p.
Proof. intros H1 H2 w Hw. rewrite H2, H1 by done. done. Qed.

(** An entry that was made for the page at [v]. *)
Lemma entry_value pa f : aligned pa -> is_u32 pa -> 0 <= f < 4096 ->
  let e := Z.lor (Z.lor pa f) PTE_P in
  is_u32 e /\ has e PTE_P = true /\ PTE_ADDR e = pa /\ e = pa + Z.lor f PTE_P.
Proof.
  intros Hal Hu Hf. assert (0 <= Z.lor f PTE_P < 4096) as Hf' by (apply flags_range; [done|by_vm]).
  unfold aligned, PGSIZE in Hal. assert (exists p, pa = p * 4096) as [p ->] by (exists (pa / 4096); zlia).
  cbv zeta. rewrite <-Z.lor_assoc, lor_flags by done. assert (is_u32 (p * 4096 + Z.lor f PTE_P)) as H32 by (unfold is_u32 in *; zlia).
  split; [done|]. split; [|split; [|done]].
  - pose proof (has_lor_P f) as Hh. rewrite has_PTE_P_mod in *. zlia.
  - rewrite PTE_ADDR_sub by done. zlia.
Qed.

Section Spec.
Context (kend : Z) (Hkend : KERNBASE < kend).
Implicit Types (R : gmap Z role) (m : gmap Z Z) (l : list Z).

(** A page that the allocator manages. *)
Definition rpage (p : Z) : Prop := kpage kend p /\ is_u32 p.
Lemma rpage_range p : rpage p -> aligned p /\ KERNBASE <= p < KERNBASE + PHYSTOP /\ p <> 0.
Proof. intros [(Hal & He & Ht & Hp) Hu]. unfold V2P, u32 in Ht. split; [done|]. vlia. Qed.
Lemma rpage_phys p : rpage p -> aligned (V2P p) /\ V2P p = p - KERNBASE /\ 0 <= V2P p < PHYSTOP.
Proof. intros Hp. pose proof (rpage_range p Hp) as (Hal & Hr & _). unfold V2P. rewrite u32_id by vlia. split; vlia. Qed.
Lemma P2V_V2P p : rpage p -> P2V (V2P p) = p.
Proof. intros Hp. destruct (rpage_phys p Hp) as (_ & -> & _). unfold P2V. rewrite u32_id; [lia|]. destruct Hp as [_ Hu]. vlia. Qed.
Lemma rpage_aligned p : rpage p -> aligned p.
Proof. intros Hp. by destruct (rpage_range p Hp). Qed.

Record pool (s : kmem) l R : Prop := {
  pl_mem : kmem_ok kend s l;
  pl_free : forall p, p ∈ l -> R !! p = None /\ is_u32 p;
  pl_used : forall p r, R !! p = Some r -> rpage p;
  pl_roles : forall p pd i, R !! p = Some (Tab pd i) \/ R !! p = Some (Leaf pd i) -> R !! pd = Some Dir;
}.
Definition pages l R : gset Z := list_to_set l ∪ dom R.
Lemma elem_pages l R p : p ∈ pages l R <-> p ∈ l \/ is_Some (R !! p).
Proof. unfold pages. rewrite elem_of_union, elem_of_list_to_set, elem_of_dom. done. Qed.

Record space m R pd : Prop := {
  sp_dir : R !! pd = Some Dir;
  sp_pde : forall i, 0 <= i < 1024 -> is_u32 (pde m pd i);
  sp_tab : forall i, 0 <= i < 1024 -> has (pde m pd i) PTE_P = true -> R !! table m pd i = Some (Tab pd i);
  sp_tab_only : forall p i, R !! p = Some (Tab pd i) -> 0 <= i < 1024 /\ has (pde m pd i) PTE_P = true /\ p = table m pd i;
  sp_pte : forall a, page_va a -> is_u32 (pte_at m pd a);
  sp_leaf : forall a, user_va a -> mapped m pd a = true -> R !! page_at m pd a = Some (Leaf pd a);
  sp_leaf_only : forall p a, R !! p = Some (Leaf pd a) -> user_va a /\ mapped m pd a = true /\ p = page_at m pd a;
}.

(** The roles that have nothing to do with [pd]. *)
Definition belongs (pd p : Z) (r : role) : Prop :=
  match r with Dir => p = pd | Tab d _ | Leaf d _ => d = pd end.
#[export] Instance belongs_dec pd p r : Decision (belongs pd p r).
Proof. destruct r; cbn; apply _. Defined.
Definition others R (pd : Z) : gmap Z role := filter (fun x => ~ belongs pd x.1 x.2) R.
Lemma others_lookup R pd p : others R pd !! p = match R !! p with Some r => if decide (belongs pd p r) then None else Some r | None => None end.
Proof.
  unfold others. destruct (R !! p) as [r|] eqn:E.
  - case_decide; [apply map_lookup_filter_None; right; intros x Hx; cbn; naive_solver|by apply map_lookup_filter_Some].
  - apply map_lookup_filter_None. by left.
Qed.

Lemma others_idem R pd : others (others R pd) pd = others R pd.
Proof.
  apply map_eq. intros q. rewrite !others_lookup. destruct (R !! q) as [r|]; [|done]. destruct (decide (belongs pd q r)) as [H|H]; [done|]. by rewrite decide_False.
Qed.
(** ** The allocator on the pool *)
Lemma pool_same s s' l R : kmem_ok kend s' l -> pool s l R -> pool s' l R.
Proof. intros Hk [_ Hf Hu Hr]. by split. Qed.
(** Memory changes in pages that are not free. *)
Lemma pool_write s l R m : pool s l R -> (forall p w, p ∈ l -> w ∈ page_words p -> rdw m w = rdw (kmw s) w) -> pool (set_free s m (freelist s)) l R.
Proof.
  intros Hp Hm. eapply pool_same; [|exact Hp]. destruct (pl_mem _ _ _ Hp) as [Hc Hpg Hnd Hk]. split; cbn; try done.
  eapply chain_frame; [|exact Hc]. intros x Hx. apply (Hm x); [done|]. apply page_words_head.
Qed.
Lemma pool_free_page s l R p : pool s l R -> p ∈ l -> rpage p.
Proof. intros Hp Hin. split; [|by apply (pl_free _ _ _ Hp)]. pose proof (km_pages _ _ _ (pl_mem _ _ _ Hp)) as Hf. rewrite Forall_forall in Hf. by apply Hf. Qed.
Lemma kalloc_none s R : pool s [] R -> exists s', kalloc s = Ret 0 s' /\ pool s' [] R /\ kmw s' = kmw s.
Proof. intros Hp. destruct (kalloc_ok kend s [] (pl_mem _ _ _ Hp)) as (s' & E & Hk & _ & Hm). exists s'. split; [done|]. split; [by eapply pool_same|done]. Qed.
(** A page in hand: neither free nor in a role. *)
Lemma kalloc_some s p l R : pool s (p :: l) R -> exists s', kalloc s = Ret p s' /\ pool s' l R /\ kmw s' = kmw s /\
  rpage p /\ p ∉ l /\ R !! p = None.
Proof.
  intros Hp. destruct (kalloc_ok kend s (p :: l) (pl_mem _ _ _ Hp)) as (s' & E & Hk & _ & Hm). exists s'. split; [done|].
  pose proof (km_nodup _ _ _ (pl_mem _ _ _ Hp)) as [Hn _]%NoDup_cons. destruct (pl_free _ _ _ Hp p ltac:(left)) as [Hr _].
  split; [|split; [done|split; [eapply pool_free_page; [done|left]|done]]].
  destruct Hp as [_ Hf Hu Hro]. split; [exact Hk| |done|done]. intros q Hq. apply Hf. by right.
Qed.
Lemma kfree_hand s l R p : pool s l R -> rpage p -> p ∉ l -> R !! p = None -> exists s', kfree kend p s = Ret tt s' /\ pool s' (p :: l) R /\
  (forall w, w ∉ page_words p -> rdw (kmw s') w = rdw (kmw s) w).
Proof.
  intros Hp Hr Hl HR. destruct (kfree_ok kend s l p (pl_mem _ _ _ Hp) (proj1 Hr) Hl) as (s' & E & Hk & _ & Hm).
  exists s'. split; [done|]. split; [|done]. destruct Hp as [_ Hf Hu Hro]. split; [done| |done|done].
  intros q [->|Hq]%elem_of_cons; [split; [done|by destruct Hr]|by apply Hf].
Qed.
Lemma pool_hand s l R p : pool s l R -> R !! p <> Some Dir -> pool s l (delete p R).
Proof.
  intros [Hk Hf Hu Hr] Hd. split; [done|..].
  - intros q Hq. rewrite lookup_delete_None. destruct (Hf q Hq). split; [by right|done].
  - intros q r [_ H]%lookup_delete_Some. eauto.
  - intros q pd i H. assert (R !! pd = Some Dir) as Hpd. { destruct H as [[_ H]%lookup_delete_Some|[_ H]%lookup_delete_Some]; eauto. }
    rewrite lookup_delete_ne; [done|]. by intros ->.
Qed.
Lemma pool_role s l R p r : pool s l R -> rpage p -> p ∉ l -> R !! p = None -> (forall pd i, r = Tab pd i \/ r = Leaf pd i -> R !! pd = Some Dir) ->
  pool s l (<[p := r]> R).
Proof.
  intros [Hk Hf Hu Hro] Hr Hl HR Hd. split; [done|..].
  - intros q Hq. rewrite lookup_insert_ne by (intros ->; done). by apply Hf.
  - intros q r' [[<- <-]|[_ H]]%lookup_insert_Some; [done|eauto].
  - intros q pd i H. assert (R !! pd = Some Dir) as Hpd. { destruct H as [[[<- ->]|[_ H]]%lookup_insert_Some|[[<- ->]|[_ H]]%lookup_insert_Some]; eauto. }
    rewrite lookup_insert_ne; [done|]. intros ->. congruence.
Qed.

(** ** Reading and writing entries *)
Definition same_tables m m' pd : Prop :=
  same_page m m' pd /\ forall i, 0 <= i < 1024 -> has (pde m pd i) PTE_P = true -> same_page m m' (table m pd i).
Lemma pde_same m m' pd i : same_page m m' pd -> 0 <= i < 1024 -> pde m' pd i = pde m pd i.
Proof. intros H Hi. apply H. by apply word_in_page. Qed.
Lemma pte_same m m' pd a : same_tables m m' pd -> pte_at m' pd a = pte_at m pd a.
Proof.
  intros [Hd Ht]. pose proof (PDX_range a) as Hi. unfold pte_at, pte_addr, table. rewrite (pde_same m m') by done.
  destruct (has (pde m pd (PDX a)) PTE_P) eqn:E; [|done]. apply (Ht (PDX a)); [done..|]. apply word_in_page, PTX_range.
Qed.
(** The roles in [pd] are the same. *)
Definition same_roles R R' pd : Prop :=
  R' !! pd = Some Dir /\ (forall p i, R' !! p = Some (Tab pd i) <-> R !! p = Some (Tab pd i)) /\
  forall p a, R' !! p = Some (Leaf pd a) <-> R !! p = Some (Leaf pd a).
Lemma space_same m m' R R' pd : space m R pd -> same_tables m m' pd -> same_roles R R' pd -> space m' R' pd.
Proof.
  intros [Hd Hp Ht Hto Hpt Hl Hlo] Hs (Hd' & Ht' & Hl'). pose proof Hs as [Hsd _].
  assert (forall a, mapped m' pd a = mapped m pd a /\ page_at m' pd a = page_at m pd a) as Hpm by (intros a; unfold mapped, page_at; by rewrite (pte_same m m' pd a Hs)).
  split; [done|..].
  - intros i Hi. rewrite (pde_same m m') by done. by apply Hp.
  - intros i Hi. unfold table. rewrite (pde_same m m') by done. intros E. apply Ht'. by apply Ht.
  - intros p i Hi%Ht'. destruct (Hto p i Hi) as (Hr & E & ->). unfold table. rewrite (pde_same m m') by done. done.
  - intros a Ha. rewrite (pte_same m m') by done. by apply Hpt.
  - intros a Ha. destruct (Hpm a) as [-> ->]. intros E. apply Hl'. by apply Hl.
  - intros p a Hi%Hl'. destruct (Hpm a) as [-> ->]. by apply Hlo.
Qed.
Lemma pte_addr_in m pd a : pte_addr m pd a ∈ page_words (table m pd (PDX a)).
Proof. apply word_in_page, PTX_range. Qed.
Lemma table_inj m R pd i j : space m R pd -> 0 <= i < 1024 -> 0 <= j < 1024 -> has (pde m pd i) PTE_P = true -> has (pde m pd j) PTE_P = true ->
  table m pd i = table m pd j -> i = j.
Proof. intros Hs Hi Hj Ei Ej E. pose proof (sp_tab _ _ _ Hs i Hi Ei) as H1. pose proof (sp_tab _ _ _ Hs j Hj Ej) as H2. rewrite E in H1. congruence. Qed.
Lemma pte_addr_inj s l R pd a b : pool s l R -> space (kmw s) R pd -> page_va a -> page_va b ->
  has (pde (kmw s) pd (PDX a)) PTE_P = true -> has (pde (kmw s) pd (PDX b)) PTE_P = true -> pte_addr (kmw s) pd a = pte_addr (kmw s) pd b -> a = b.
Proof.
  intros Hp Hs Ha Hb Ea Eb E. pose proof (sp_tab _ _ _ Hs _ (PDX_range a) Ea) as H1. pose proof (sp_tab _ _ _ Hs _ (PDX_range b) Eb) as H2.
  pose proof (rpage_aligned _ (pl_used _ _ _ Hp _ _ H1)) as A1. pose proof (rpage_aligned _ (pl_used _ _ _ Hp _ _ H2)) as A2.
  apply entry_inj in E as [Et Ex]; [|done|done|apply PTX_range..]. apply page_va_eq; [done..| |done].
  eapply table_inj; [done|apply PDX_range..|done|done|done].
Qed.
(** One entry changes, and with it the role of the page it maps. *)
Lemma space_store s l R R' pd a v m' : pool s l R -> let m := kmw s in space m R pd -> page_va a -> has (pde m pd (PDX a)) PTE_P = true -> is_u32 v ->
  same_page m m' pd ->
  (forall i w, 0 <= i < 1024 -> has (pde m pd i) PTE_P = true -> w ∈ page_words (table m pd i) -> rdw m' w = if decide (w = pte_addr m pd a) then v else rdw m w) ->
  R' !! pd = Some Dir -> (forall p i, R' !! p = Some (Tab pd i) <-> R !! p = Some (Tab pd i)) ->
  (forall p b, R' !! p = Some (Leaf pd b) <-> if decide (b = a) then user_va a /\ has v PTE_P = true /\ p = entry_page v else R !! p = Some (Leaf pd b)) ->
  space m' R' pd /\ forall b, page_va b -> pte_at m' pd b = if decide (b = a) then v else pte_at m pd b.
Proof.
  intros Hp m Hs Ha Ea Hv Hsd Hm Hd' Ht' Hl'.
  assert (forall b, page_va b -> pte_at m' pd b = if decide (b = a) then v else pte_at m pd b) as Hpt.
  { intros b Hb. pose proof (PDX_range b) as Hi. unfold pte_at. rewrite (pde_same m m') by done. destruct (has (pde m pd (PDX b)) PTE_P) eqn:Eb.
    - replace (pte_addr m' pd b) with (pte_addr m pd b) by (unfold pte_addr, table; by rewrite (pde_same m m') by done).
      rewrite (Hm (PDX b)) by (done || apply pte_addr_in). destruct (decide (b = a)) as [->|Hne]; [by rewrite decide_True|].
      rewrite decide_False; [done|]. intros E. apply Hne. by eapply (pte_addr_inj s l R).
    - rewrite decide_False; [done|]. intros ->. congruence. }
  split; [|done]. pose proof Hs as [Hd Hpd Htb Hto Hpu Hlf Hlo]. split; [done|..].
  - intros i Hi. rewrite (pde_same m m') by done. by apply Hpd.
  - intros i Hi. unfold table. rewrite (pde_same m m') by done. intros E. apply Ht'. by apply Htb.
  - intros p i Hi%Ht'. destruct (Hto p i Hi) as (Hr & E & ->). unfold table. rewrite (pde_same m m') by done. done.
  - intros b Hb. rewrite Hpt by done. case_decide; [done|by apply Hpu].
  - intros b Hb. unfold mapped, page_at. rewrite Hpt by (by apply user_page). intros E. apply Hl'. case_decide; [by subst b|]. by apply Hlf.
  - intros p b Hb%Hl'. unfold mapped, page_at. case_decide as Eb.
    + subst b. destruct Hb as (Hu & E & ->). rewrite Hpt by done. rewrite decide_True by done. done.
    + destruct (Hlo p b Hb) as (Hu & E & ->). rewrite Hpt by (by apply user_page). rewrite decide_False by done. done.
Qed.
End Spec.
