(* ===== verification/XVmOps.v ===== *)
(** * Walks, mappings and pages of user memory

    What [walkpgdir], [mappages], a page of [deallocuvm], of [allocuvm] and of
    [copyuvm] do to an address space and to the pages of the allocator. *)
From S2P Require Import Prelude Mmu XKalloc XVm XVmSpec.

Definition upd (s : kmem) (m : gmap Z Z) : kmem := set_free s m (freelist s).
Lemma upd_upd s m m' : upd (upd s m) m' = upd s m'.
Proof. done. Qed.
Lemma ldw_run a s : a <> 0 -> ldw a s = Ret (rdw (kmw s) a) s.
Proof. intros Ha. unfold ldw. by destruct (Z.eqb_spec a 0). Qed.
Lemma stw_run a x s : a <> 0 -> stw a x s = Ret tt (upd s (wrw (kmw s) a x)).
Proof. intros Ha. unfold stw. by destruct (Z.eqb_spec a 0). Qed.
Lemma loop_end {S X A} n (body : X -> M S (X + A)) x s a s' : body x s = Ret (inr a) s' -> loop (Datatypes.S n) body x s = Ret a s'.
Proof. intros E. cbn [loop]. by exec_by E. Qed.
Lemma loop_next {S X A} n (body : X -> M S (X + A)) x s y s' : body x s = Ret (inl y) s' -> loop (Datatypes.S n) body x s = loop n body y s'.
Proof. intros E. cbn [loop]. by exec_by E. Qed.
Lemma loop_ub {S X A} n (body : X -> M S (X + A)) x s : body x s = UB -> loop (Datatypes.S n) body x s = UB.
Proof. intros E. cbn [loop]. unfold mbind, M_bind. by rewrite E. Qed.
Lemma clear_page_run v s : v <> 0 -> clear_page v s = Ret tt (upd s (fillw (kmw s) (page_words v) 0)).
Proof. intros Hv. unfold clear_page. by destruct (Z.eqb_spec v 0). Qed.
Lemma same_page_wrw m a x p : a ∉ page_words p -> same_page m (wrw m a x) p.
Proof. intros Ha w Hw. apply rdw_wrw_ne. intros ->. done. Qed.
Lemma same_page_fillw m q x p : aligned p -> aligned q -> p <> q -> same_page m (fillw m (page_words q) x) p.
Proof. intros Hp Hq Hne w Hw. apply rdw_fillw_out. exact (page_words_disj p q w Hp Hq Hne Hw). Qed.
Lemma not_in_page p q i : aligned p -> aligned q -> p <> q -> 0 <= i < 1024 -> p + 4 * i ∉ page_words q.
Proof. intros Hp Hq Hne Hi. exact (page_words_disj p q _ Hp Hq Hne (word_in_page p i Hi)). Qed.

Lemma pages_role l (R : gmap Z role) p r : pages l (<[p := r]> R) = {[p]} ∪ pages l R.
Proof. unfold pages. rewrite dom_insert_L. set_solver. Qed.
Lemma pages_cons l (R : gmap Z role) p : pages (p :: l) R = {[p]} ∪ pages l R.
Proof. unfold pages. set_solver. Qed.
Lemma pages_back l (R : gmap Z role) p r : R !! p = Some r -> pages (p :: l) (delete p R) = pages l R.
Proof. intros HR. rewrite pages_cons. unfold pages. rewrite dom_delete_L. assert (p ∈ dom R) by (by apply elem_of_dom_2 in HR). set_unfold. intros q. destruct (decide (q = p)); naive_solver. Qed.

Section Ops.
Context (kend : Z) (Hkend : KERNBASE < kend).
Implicit Types (R : gmap Z role) (m : gmap Z Z) (l : list Z) (s : kmem).
Notation pool := (pool kend).
Notation rpage := (rpage kend).

(** An operation on [pd] that takes pages off the free list, and the pages [X]
    that its caller had in hand: roles are added, none is lost; other address
    spaces, and all memory outside of the tables of [pd] and of the pages that
    were free, are as before. *)
Record grows (X : gset Z) (pd : Z) s l R s' l' R' : Prop := {
  gr_pool : pool s' l' R';
  gr_space : space (kmw s') R' pd;
  gr_pages : pages l' R' = X ∪ pages l R;
  gr_keep : R ⊆ R';
  gr_others : others R' pd = others R pd;
  gr_free : forall q, q ∈ l' -> q ∈ l;
  gr_tab : forall q i, R' !! q = Some (Tab pd i) -> R !! q = Some (Tab pd i) \/ q ∈ l;
  gr_mem : forall q, aligned q -> q ∉ l -> q <> pd -> (forall i, R !! q <> Some (Tab pd i)) -> same_page (kmw s) (kmw s') q;
}.
Lemma vgrows_refl pd s l R : pool s l R -> space (kmw s) R pd -> grows ∅ pd s l R s l R.
Proof. intros Hp Hs. split; try done; [by rewrite union_empty_l_L|by left]. Qed.
Lemma pool_aligned s l R p r : pool s l R -> R !! p = Some r -> aligned p /\ p <> 0.
Proof. intros Hp H. pose proof (rpage_range kend Hkend p (pl_used _ _ _ _ Hp _ _ H)) as (? & _ & ?). done. Qed.
Lemma space_dir s l R pd : pool s l R -> space (kmw s) R pd -> aligned pd /\ KERNBASE <= pd.
Proof. intros Hp Hs. pose proof (rpage_range kend Hkend pd (pl_used _ _ _ _ Hp _ _ (sp_dir _ _ _ Hs))) as (? & ? & _). split; [done|lia]. Qed.
Lemma space_table s l R pd i : pool s l R -> space (kmw s) R pd -> 0 <= i < 1024 -> has (pde (kmw s) pd i) PTE_P = true ->
  aligned (table (kmw s) pd i) /\ KERNBASE <= table (kmw s) pd i /\ table (kmw s) pd i <> pd /\ table (kmw s) pd i ∉ l.
Proof.
  intros Hp Hs Hi E. pose proof (sp_tab _ _ _ Hs i Hi E) as Ht. pose proof (rpage_range kend Hkend _ (pl_used _ _ _ _ Hp _ _ Ht)) as (? & ? & _).
  split; [done|]. split; [lia|]. split.
  - intros Eq. rewrite Eq in Ht. rewrite (sp_dir _ _ _ Hs) in Ht. done.
  - intros Hin. destruct (pl_free _ _ _ _ Hp _ Hin). congruence.
Qed.
Lemma vgrows_trans X Y pd s l R s1 l1 R1 s2 l2 R2 : grows X pd s l R s1 l1 R1 -> grows Y pd s1 l1 R1 s2 l2 R2 -> grows (Y ∪ X) pd s l R s2 l2 R2.
Proof.
  intros [Hp Hs Hpg Hk Ho Hf Ht Hm] [Hp2 Hs2 Hpg2 Hk2 Ho2 Hf2 Ht2 Hm2]. split; try done.
  - by rewrite Hpg2, Hpg, union_assoc_L.
  - by etrans.
  - congruence.
  - eauto.
  - intros q i [H|H]%Ht2; [eauto|right; eauto].
  - intros q Ha Hl Hd Hn. apply (same_page_trans _ (kmw s1)); [by apply Hm|]. apply Hm2; [done|by intros ?%Hf|done|].
    intros i [Hi|Hi]%Ht; [by apply (Hn i)|done].
Qed.

(** ** Walks *)
Lemma walk_hit s l R pd a b : pool s l R -> space (kmw s) R pd -> has (pde (kmw s) pd (PDX a)) PTE_P = true ->
  walkpgdir pd a b s = Ret (pte_addr (kmw s) pd a) s /\ pte_addr (kmw s) pd a <> 0.
Proof.
  intros Hp Hs E. destruct (space_dir _ _ _ _ Hp Hs) as [_ Hd]. pose proof (PDX_range a) as Hi. pose proof (PTX_range a) as Ht. split.
  - unfold walkpgdir. exec_by (ldw_run (pd + 4 * PDX a) s ltac:(vlia)). fold (pde (kmw s) pd (PDX a)). by rewrite E.
  - destruct (space_table _ _ _ _ _ Hp Hs Hi E) as (_ & Hr & _). unfold pte_addr. vlia.
Qed.
Lemma walk_miss s l R pd a : pool s l R -> space (kmw s) R pd -> has (pde (kmw s) pd (PDX a)) PTE_P = false -> walkpgdir pd a false s = Ret 0 s.
Proof.
  intros Hp Hs E. destruct (space_dir _ _ _ _ Hp Hs) as [_ Hd]. pose proof (PDX_range a) as Hi.
  unfold walkpgdir. exec_by (ldw_run (pd + 4 * PDX a) s ltac:(vlia)). fold (pde (kmw s) pd (PDX a)). by rewrite E.
Qed.
(** The new table [t]. *)
Definition dir_entry (t : Z) : Z := Z.lor (Z.lor (Z.lor (V2P t) PTE_P) PTE_W) PTE_U.
Definition new_table m (pd i t : Z) : gmap Z Z := wrw (fillw m (page_words t) 0) (pd + 4 * i) (dir_entry t).
Lemma dir_entry_value t : rpage t -> is_u32 (dir_entry t) /\ has (dir_entry t) PTE_P = true /\ entry_page (dir_entry t) = t.
Proof.
  intros Ht. destruct (rpage_phys kend Hkend t Ht) as (Hal & E & Hr).
  assert (dir_entry t = Z.lor (Z.lor (V2P t) 6) PTE_P) as -> by (unfold dir_entry; by rewrite <-!Z.lor_assoc).
  destruct (entry_value (V2P t) 6 Hal ltac:(vlia) ltac:(lia)) as (Hu & Hpr & Ha & _). split; [done|]. split; [done|].
  unfold entry_page. rewrite Ha. by apply (P2V_V2P kend).
Qed.
Lemma new_table_ok s l R pd i t : pool s (t :: l) R -> space (kmw s) R pd -> 0 <= i < 1024 -> has (pde (kmw s) pd i) PTE_P = false ->
  let m' := new_table (kmw s) pd i t in
  (forall j, 0 <= j < 1024 -> pde m' pd j = if decide (j = i) then dir_entry t else pde (kmw s) pd j) /\
  (forall a, pte_at m' pd a = pte_at (kmw s) pd a) /\
  (forall q, aligned q -> q <> t -> q <> pd -> same_page (kmw s) m' q).
Proof.
  intros Hp Hs Hi E m'. pose proof (pool_free_page _ _ _ _ t Hp ltac:(left)) as Hrt. pose proof (rpage_range kend Hkend t Hrt) as (Hat & Hrange & _).
  destruct (space_dir _ _ _ _ Hp Hs) as [Had Hd]. pose proof (pl_free _ _ _ _ Hp t ltac:(left)) as [HRt _].
  assert (t <> pd) as Hne by (intros ->; by rewrite (sp_dir _ _ _ Hs) in HRt).
  assert (forall q, aligned q -> q <> t -> q <> pd -> same_page (kmw s) m' q) as Hsame.
  { intros q Haq Hqt Hqd. apply (same_page_trans _ (fillw (kmw s) (page_words t) 0)); [by apply same_page_fillw|].
    apply same_page_wrw. by apply not_in_page. }
  assert (forall j, 0 <= j < 1024 -> pde m' pd j = if decide (j = i) then dir_entry t else pde (kmw s) pd j) as Hpde.
  { intros j Hj. unfold pde, m', new_table. case_decide as Ej; [by rewrite Ej, rdw_wrw_eq|]. rewrite rdw_wrw_ne by lia.
    apply rdw_fillw_out. by apply not_in_page. }
  split; [done|]. split; [|done]. intros a. unfold pte_at. pose proof (PDX_range a) as Hj. rewrite Hpde by done. case_decide as Ej.
  - rewrite Ej, E. destruct (dir_entry_value t Hrt) as (_ & -> & Hpage). unfold pte_addr, table. rewrite Ej, Hpde, decide_True, Hpage by done.
    unfold m', new_table. rewrite rdw_wrw_ne.
    + apply rdw_fillw_in. apply word_in_page, PTX_range.
    + eapply word_other_page; [exact Had|exact Hat|done|by apply word_in_page|apply word_in_page, PTX_range].
  - destruct (has (pde (kmw s) pd (PDX a)) PTE_P) eqn:Ea; [|done]. destruct (space_table _ _ _ _ _ Hp Hs Hj Ea) as (Hta & _ & Htd & Htl).
    unfold pte_addr, table. rewrite Hpde, decide_False by done. fold (table (kmw s) pd (PDX a)). apply (Hsame (table (kmw s) pd (PDX a))); [done| |done|apply word_in_page, PTX_range].
    intros Eq. apply Htl. rewrite Eq. left.
Qed.
Lemma new_table_space s l R pd i t : pool s (t :: l) R -> space (kmw s) R pd -> 0 <= i < 1024 -> has (pde (kmw s) pd i) PTE_P = false ->
  space (new_table (kmw s) pd i t) (<[t := Tab pd i]> R) pd.
Proof.
  intros Hp Hs Hi E. destruct (new_table_ok s l R pd i t Hp Hs Hi E) as (Hpde & Hpte & _). pose proof (pool_free_page _ _ _ _ t Hp ltac:(left)) as Hrt.
  destruct (dir_entry_value t Hrt) as (Heu & Hep & Hpage). destruct (pl_free _ _ _ _ Hp t ltac:(left)) as [HRt _].
  set (m' := new_table (kmw s) pd i t) in *. pose proof Hs as [Hd Hpd Ht Hto Hpu Hl Hlo].
  assert (t <> pd) as Hne by (intros ->; congruence).
  assert (forall j, 0 <= j < 1024 -> table m' pd j = if decide (j = i) then t else table (kmw s) pd j) as Htab.
  { intros j Hj. unfold table. rewrite Hpde by done. by case_decide. }
  split.
  - by rewrite lookup_insert_ne.
  - intros j Hj. rewrite Hpde by done. case_decide; [done|by apply Hpd].
  - intros j Hj. rewrite Hpde, Htab by done. case_decide as Ej; [subst j; by rewrite lookup_insert_eq|]. intros Ep. pose proof (Ht j Hj Ep) as Hin.
    rewrite lookup_insert_ne; [done|]. congruence.
  - intros p j [[<- [= <-]]|[Hne' H]]%lookup_insert_Some.
    + rewrite Hpde, Htab by done. by rewrite !decide_True by done.
    + destruct (Hto p j H) as (Hj & Ep & ->). rewrite Hpde, Htab by done. rewrite !decide_False; [done|..]; intros ->; congruence.
  - intros a Ha. rewrite Hpte. by apply Hpu.
  - intros a Ha. unfold mapped, page_at. rewrite Hpte. intros Ep. pose proof (Hl a Ha Ep) as Hin. unfold page_at in Hin. rewrite lookup_insert_ne; [done|]. intros Et. rewrite <-Et in Hin. congruence.
  - intros p a [[_ [=]]|[_ H]]%lookup_insert_Some. unfold mapped, page_at. rewrite Hpte. by apply Hlo.
Qed.
Lemma others_role R pd p r : R !! p = None -> belongs pd p r -> others (<[p := r]> R) pd = others R pd.
Proof.
  intros HR Hb. apply map_eq. intros q. rewrite !others_lookup. destruct (decide (p = q)) as [<-|Hne].
  - rewrite lookup_insert_eq, HR. by rewrite decide_True.
  - by rewrite lookup_insert_ne.
Qed.
Lemma new_table_grows s s1 t l R pd i : pool s (t :: l) R -> space (kmw s) R pd -> 0 <= i < 1024 -> has (pde (kmw s) pd i) PTE_P = false ->
  pool s1 l R -> kmw s1 = kmw s -> grows ∅ pd s (t :: l) R (upd s1 (new_table (kmw s) pd i t)) l (<[t := Tab pd i]> R).
Proof.
  intros Hp Hs Hi E Hp1 Hm1. destruct (new_table_ok s l R pd i t Hp Hs Hi E) as (_ & _ & Hsame).
  pose proof (pool_free_page _ _ _ _ t Hp ltac:(left)) as Hrt. destruct (pl_free _ _ _ _ Hp t ltac:(left)) as [HRt _].
  pose proof (km_nodup _ _ _ (pl_mem _ _ _ _ Hp)) as [Hn _]%NoDup_cons. pose proof (sp_dir _ _ _ Hs) as Hd.
  split.
  - apply pool_role; [|done|done|done|].
    + apply pool_write; [done|]. intros p w Hl Hw. rewrite Hm1. pose proof (pool_free_page _ _ _ _ p Hp ltac:(by right)) as Hrp. destruct (pl_free _ _ _ _ Hp p ltac:(by right)) as [HRp _].
      apply (Hsame p); [by apply (rpage_aligned kend Hkend)|by intros ->|intros ->; congruence|done].
    + intros pd' j [[= <- <-]|[=]]. done.
  - by apply new_table_space with (l := l).
  - rewrite pages_role, pages_cons. set_solver.
  - by apply insert_subseteq.
  - by apply others_role.
  - intros q Hq. by right.
  - intros q j [[<- _]|[_ H]]%lookup_insert_Some; [right; left|by left].
  - intros q Ha Hq Hqd _. apply Hsame; [done| |done]. intros ->. apply Hq. left.
Qed.
(** A walk that may make a table. *)
Lemma walk_alloc_ok s l R pd a : pool s l R -> space (kmw s) R pd ->
  exists r s' l' R', walkpgdir pd a true s = Ret r s' /\ grows ∅ pd s l R s' l' R' /\
    (forall b, pte_at (kmw s') pd b = pte_at (kmw s) pd b) /\
    if r =? 0 then l' = [] else has (pde (kmw s') pd (PDX a)) PTE_P = true /\ r = pte_addr (kmw s') pd a.
Proof.
  intros Hp Hs. pose proof (PDX_range a) as Hi. destruct (has (pde (kmw s) pd (PDX a)) PTE_P) eqn:E.
  { destruct (walk_hit s l R pd a true Hp Hs E) as [Ew Hne]. exists (pte_addr (kmw s) pd a), s, l, R. split; [done|]. split; [by apply vgrows_refl|].
    split; [done|]. by rewrite (proj2 (Z.eqb_neq _ _) Hne). }
  destruct (space_dir _ _ _ _ Hp Hs) as [_ Hd]. unfold walkpgdir. exec_by (ldw_run (pd + 4 * PDX a) s ltac:(vlia)). fold (pde (kmw s) pd (PDX a)). rewrite E. cbn [negb].
  destruct l as [|t l].
  - destruct (kalloc_none _ _ _ Hp) as (s1 & E1 & Hp1 & Hm1). exec_by E1. exists 0, s1, [], R. split; [done|]. split.
    + rewrite <-Hm1 in Hs. destruct (vgrows_refl pd s1 [] R Hp1 Hs) as [? ? ? ? ? ? ? Hmm]. split; try done. intros q Ha Hl Hq Ht. rewrite <-Hm1. by apply Hmm.
    + split; [by rewrite Hm1|done].
  - destruct (kalloc_some _ _ _ _ _ Hp) as (s1 & E1 & Hp1 & Hm1 & Hrt & _ & HRt). exec_by E1. pose proof (rpage_range kend Hkend t Hrt) as (Hat & Hrg & Hnz).
    rewrite (proj2 (Z.eqb_neq _ _) Hnz). exec_by (clear_page_run t s1 Hnz). exec_by (stw_run (pd + 4 * PDX a) (dir_entry t) (upd s1 (fillw (kmw s1) (page_words t) 0)) ltac:(vlia)).
    rewrite upd_upd, Hm1. change (wrw _ (pd + 4 * PDX a) (dir_entry t)) with (new_table (kmw s) pd (PDX a) t).
    eexists _, _, l, _. split; [done|]. split; [by apply new_table_grows|]. destruct (new_table_ok s l R pd (PDX a) t Hp Hs Hi E) as (Hpde & Hpte & _).
    split; [done|]. pose proof (PTX_range a) as Hx. destruct (Z.eqb_spec (t + 4 * PTX a) 0); [vlia|]. cbn [kmw upd set_free].
    destruct (dir_entry_value t Hrt) as (_ & Hep & Hpage). unfold pte_addr, table. rewrite Hpde, decide_True, Hpage by done. done.
Qed.

(** ** Mapping a page *)

(** The page in hand that a mapping at [a] is for: one for a user address, none
    for an address of the kernel. *)
Definition hand (h : option Z) : gset Z := match h with Some p => {[p]} | None => ∅ end.
Definition in_hand l R (a pa : Z) (h : option Z) : Prop :=
  match h with
  | Some p => user_va a /\ rpage p /\ p ∉ l /\ R !! p = None /\ pa = V2P p
  | None => ~ user_va a
  end.
Definition with_leaf R (pd a : Z) (h : option Z) : gmap Z role := match h with Some p => <[p := Leaf pd a]> R | None => R end.
Lemma in_hand_grows pd s l R s' l' R' a pa h : grows ∅ pd s l R s' l' R' -> in_hand l R a pa h -> in_hand l' R' a pa h.
Proof.
  intros Hg. destruct h as [p|]; [|done]. intros (Ha & Hr & Hl & HR & Hpa). split; [done|]. split; [done|]. split; [by intros ?%(gr_free _ _ _ _ _ _ _ _ Hg)|].
  split; [|done]. apply eq_None_not_Some. intros Hin. assert (p ∈ pages l' R') as Hp by (apply elem_pages; by right).
  rewrite (gr_pages _ _ _ _ _ _ _ _ Hg), union_empty_l_L in Hp. apply elem_pages in Hp as [?|[? ?]]; [done|congruence].
Qed.
Lemma pte_addr_free s l R pd a p : pool s l R -> space (kmw s) R pd -> has (pde (kmw s) pd (PDX a)) PTE_P = true -> p ∈ l -> pte_addr (kmw s) pd a ∉ page_words p.
Proof.
  intros Hp Hs E Hin. pose proof (PDX_range a) as Hi. destruct (space_table _ _ _ _ _ Hp Hs Hi E) as (Hal & _ & _ & Hl).
  apply not_in_page; [done| |by intros <-|apply PTX_range]. apply (rpage_aligned kend Hkend). by eapply pool_free_page.
Qed.
(** The entry of [a] is written, its table is there. *)
Lemma store_entry s l R R' pd a v : pool s l R -> space (kmw s) R pd -> page_va a -> has (pde (kmw s) pd (PDX a)) PTE_P = true -> is_u32 v ->
  let m' := wrw (kmw s) (pte_addr (kmw s) pd a) v in
  R' !! pd = Some Dir -> (forall p i, R' !! p = Some (Tab pd i) <-> R !! p = Some (Tab pd i)) ->
  (forall p b, R' !! p = Some (Leaf pd b) <-> if decide (b = a) then user_va a /\ has v PTE_P = true /\ p = entry_page v else R !! p = Some (Leaf pd b)) ->
  space m' R' pd /\ (forall b, page_va b -> pte_at m' pd b = if decide (b = a) then v else pte_at (kmw s) pd b) /\ pool (upd s m') l R /\
  forall q, aligned q -> (forall i, R !! q <> Some (Tab pd i)) -> same_page (kmw s) m' q.
Proof.
  intros Hp Hs Ha E Hv m' Hd Ht Hl. pose proof (PDX_range a) as Hi. destruct (space_table _ _ _ _ _ Hp Hs Hi E) as (Hta & Htk & Htd & Htl).
  destruct (space_dir _ _ _ _ Hp Hs) as [Hda _].
  assert (forall q, aligned q -> (forall i, R !! q <> Some (Tab pd i)) -> same_page (kmw s) m' q) as Hsame.
  { intros q Haq Hq. apply same_page_wrw. apply not_in_page; [done..| |apply PTX_range]. intros <-. apply (Hq (PDX a)). by apply (sp_tab _ _ _ Hs). }
  destruct (space_store kend Hkend s l R R' pd a v m') as [H1 H2]; try done.
  - apply Hsame; [done|]. intros i. by rewrite (sp_dir _ _ _ Hs).
  - intros i w _ _ _. unfold m'. case_decide as Ew; [by rewrite Ew, rdw_wrw_eq|by rewrite rdw_wrw_ne].
  - split; [done|]. split; [done|]. split; [|done]. apply pool_write; [done|]. intros p w Hin Hw. apply rdw_wrw_ne. intros <-. by apply (pte_addr_free s l R pd a p Hp Hs E Hin).
Qed.
Lemma store_leaf s l R pd a pa perm h : pool s l R -> space (kmw s) R pd -> page_va a -> has (pde (kmw s) pd (PDX a)) PTE_P = true ->
  mapped (kmw s) pd a = false -> aligned pa -> is_u32 pa -> 0 <= perm < 4096 -> in_hand l R a pa h ->
  let v := Z.lor (Z.lor pa perm) PTE_P in let m' := wrw (kmw s) (pte_addr (kmw s) pd a) v in
  grows (hand h) pd s l R (upd s m') l (with_leaf R pd a h) /\ forall b, page_va b -> pte_at m' pd b = if decide (b = a) then v else pte_at (kmw s) pd b.
Proof.
  intros Hp Hs Ha E Hmap Hpa Hpu Hperm Hh v m'. destruct (entry_value pa perm Hpa Hpu Hperm) as (Hvu & Hvp & Hva & _). fold v in Hvu, Hvp, Hva.
  pose proof (sp_dir _ _ _ Hs) as Hd.
  assert (forall p b, h = Some p -> R !! b = Some Dir -> p <> b) as Hne by (intros p b ->; cbn in Hh; intros Hb ->; destruct Hh as (_ & _ & _ & ? & _); congruence).
  destruct (store_entry s l R (with_leaf R pd a h) pd a v Hp Hs Ha E Hvu) as (H1 & H2 & H3 & H4).
  - destruct h as [p|]; [|done]. cbn. rewrite lookup_insert_ne; [done|]. by apply Hne.
  - intros q i. destruct h as [p|]; [|done]. cbn in Hh |- *. destruct Hh as (_ & _ & _ & HRp & _). rewrite lookup_insert_Some. naive_solver.
  - intros q b. assert (R !! q = Some (Leaf pd b) -> b <> a) as Hnb by (intros Hq ->; destruct (sp_leaf_only _ _ _ Hs q a Hq) as (_ & ? & _); congruence).
    destruct h as [p|]; cbn in Hh |- *.
    + destruct Hh as (Hu & Hrp & _ & HRp & ->). assert (entry_page v = p) as -> by (unfold entry_page; rewrite Hva; by apply (P2V_V2P kend)).
      rewrite lookup_insert_Some. case_decide; naive_solver.
    + case_decide as Eb; [|done]. split; [by intros Hq%Hnb|]. by intros (? & _).
  - split; [|exact H2]. split.
    + destruct h as [p|]; [|done]. cbn in Hh |- *. destruct Hh as (Hu & Hrp & Hpl & HRp & _). apply pool_role; [exact H3|done..|]. intros d i [[=]|[= <- _]]. done.
    + exact H1.
    + destruct h as [p|]; cbn; [by rewrite pages_role|by rewrite union_empty_l_L].
    + destruct h as [p|]; [|done]. cbn in Hh |- *. apply insert_subseteq. tauto.
    + destruct h as [p|]; [|done]. cbn in Hh |- *. apply others_role; [tauto|done].
    + done.
    + intros q i. destruct h as [p|]; [|by left]. cbn. intros [[_ [=]]|[_ H]]%lookup_insert_Some. by left.
    + intros q Hqa Hql Hqd Hqt. by apply H4.
Qed.
Lemma map_one_ok s l R pd a pa perm h : pool s l R -> space (kmw s) R pd -> page_va a -> mapped (kmw s) pd a = false ->
  aligned pa -> is_u32 pa -> 0 <= perm < 4096 -> in_hand l R a pa h ->
  exists r s' l' R', map_one pd a pa perm s = Ret r s' /\
    ((r = -1 /\ l' = [] /\ grows ∅ pd s l R s' l' R' /\ forall b, page_va b -> pte_at (kmw s') pd b = pte_at (kmw s) pd b) \/
     (r = 0 /\ grows (hand h) pd s l R s' l' R' /\
      forall b, page_va b -> pte_at (kmw s') pd b = if decide (b = a) then Z.lor (Z.lor pa perm) PTE_P else pte_at (kmw s) pd b)).
Proof.
  intros Hp Hs Ha Hmap Hpa Hpu Hperm Hh. destruct (walk_alloc_ok s l R pd a Hp Hs) as (r & s1 & l1 & R1 & E & Hg & Hpte & Hr).
  unfold map_one. exec_by E. destruct (Z.eqb_spec r 0) as [->|Hr0]; [exists (-1), s1, l1, R1; split; [done|]; by left|].
  destruct Hr as [Epd ->]. pose proof (gr_pool _ _ _ _ _ _ _ _ Hg) as Hp1. pose proof (gr_space _ _ _ _ _ _ _ _ Hg) as Hs1.
  exec_by (ldw_run (pte_addr (kmw s1) pd a) s1 Hr0). assert (rdw (kmw s1) (pte_addr (kmw s1) pd a) = pte_at (kmw s1) pd a) as -> by (unfold pte_at; by rewrite Epd).
  assert (mapped (kmw s1) pd a = false) as Hmap1 by (unfold mapped; by rewrite Hpte). pose proof Hmap1 as Hmap1'. unfold mapped in Hmap1'. rewrite Hmap1'.
  exec_by (stw_run (pte_addr (kmw s1) pd a) (Z.lor (Z.lor pa perm) PTE_P) s1 Hr0).
  destruct (store_leaf s1 l1 R1 pd a pa perm h Hp1 Hs1 Ha Epd Hmap1 Hpa Hpu Hperm (in_hand_grows _ _ _ _ _ _ _ _ _ _ Hg Hh)) as [Hg2 Hpte2].
  eexists 0, _, l1, _. split; [done|]. right. split; [done|]. split.
  - pose proof (vgrows_trans _ _ _ _ _ _ _ _ _ _ _ _ Hg Hg2) as H. by rewrite union_empty_r_L in H.
  - intros b Hb. rewrite <-(Hpte b). by apply Hpte2.
Qed.

(** ** Mapping a range *)
Lemma PGROUNDDOWN_sub a : is_u32 a -> PGROUNDDOWN a = a - a `mod` 4096.
Proof. intros Ha. rewrite <-PTE_ADDR_sub by done. unfold PGROUNDDOWN, PTE_ADDR. by rewrite u32_id. Qed.
Lemma PGROUNDUP_up a : 0 <= a -> a + 4095 < 4294967296 -> PGROUNDUP a = (a + 4095) / 4096 * 4096.
Proof.
  intros H1 H2. change (PGROUNDUP a) with (PGROUNDDOWN (u32 (a + PGSIZE - 1))). rewrite u32_id by vlia. rewrite PGROUNDDOWN_sub by vlia. vlia.
Qed.
Lemma mappages_page s s' pd a pa perm r : page_va a -> map_one pd a pa perm s = Ret r s' -> r = -1 \/ r = 0 -> mappages pd a PGSIZE pa perm s = Ret r s'.
Proof.
  intros [Ha Hu] E Hr. unfold mappages. rewrite (u32_id (a + PGSIZE - 1)) by vlia. rewrite !PGROUNDDOWN_sub by vlia. replace (a - a `mod` 4096) with a by vlia.
  replace (a + PGSIZE - 1 - (a + PGSIZE - 1) `mod` 4096) with a by vlia. rewrite Z.sub_diag. change (Z.to_nat (u32 0 / PGSIZE + 1)) with 1%nat. cbn [loop]. exec.
  exec_by E. exec. rewrite Z.eqb_refl. destruct Hr as [->| ->]; done.
Qed.
(** What a mapping of [n] bytes at [a] to [pa] makes of the entries. *)
Definition maps_to m m' (pd a n pa perm : Z) : Prop :=
  forall b, page_va b -> pte_at m' pd b = if decide (a <= b < a + n) then Z.lor (Z.lor (pa + (b - a)) perm) PTE_P else pte_at m pd b.
Definition same_outside m m' (pd a n : Z) : Prop := forall b, page_va b -> ~ (a <= b < a + n) -> pte_at m' pd b = pte_at m pd b.
Definition map_body (pd last perm : Z) : Z * Z -> M kmem (Z * Z + Z) := fun '(a, pa) =>
  r ← map_one pd a pa perm;
  mret (if r <? 0 then inr (-1) else if a =? last then inr 0 else inl (u32 (a + PGSIZE), u32 (pa + PGSIZE))).
Lemma map_body_run pd last perm a pa s r s' : map_one pd a pa perm s = Ret r s' ->
  map_body pd last perm (a, pa) s = Ret (if r <? 0 then inr (-1) else if a =? last then inr 0 else inl (u32 (a + PGSIZE), u32 (pa + PGSIZE))) s'.
Proof. intros E. unfold map_body. by exec_by E. Qed.
Lemma map_loop_ok n s l R pd a pa perm : pool s l R -> space (kmw s) R pd -> page_va a -> KERNBASE <= a -> aligned pa -> 0 <= pa ->
  let size := PGSIZE * (Z.of_nat n + 1) in a + size <= 4294967296 -> pa + size <= 4294967296 -> 0 <= perm < 4096 ->
  (forall b, page_va b -> a <= b < a + size -> mapped (kmw s) pd b = false) ->
  exists r s' l' R', loop (S n) (map_body pd (a + PGSIZE * Z.of_nat n) perm) (a, pa) s = Ret r s' /\ grows ∅ pd s l R s' l' R' /\
    ((r = -1 /\ l' = [] /\ same_outside (kmw s) (kmw s') pd a size) \/ (r = 0 /\ maps_to (kmw s) (kmw s') pd a size pa perm)).
Proof.
  revert s l R a pa. induction n as [|n IH]; intros s l R a pa Hp Hs [Ha Hau] Hk Hpa Hpa0 size Hsz Hpsz Hperm Hun.
  all: destruct (map_one_ok s l R pd a pa perm None Hp Hs ltac:(done) ltac:(apply Hun; [done|unfold size; vlia]) Hpa ltac:(unfold size in *; vlia) Hperm ltac:(cbn; vlia))
    as (r & s1 & l1 & R1 & E & Hc); cbn [loop]; exec_by (map_body_run pd (a + PGSIZE * Z.of_nat (S n)) perm a pa s r s1 E) || exec_by (map_body_run pd (a + PGSIZE * Z.of_nat 0) perm a pa s r s1 E).
  all: destruct Hc as [(-> & Hl1 & Hg & Hpte)|(-> & Hg & Hpte)]; cbn [Z.ltb Z.compare];
    [exists (-1), s1, l1, R1; split; [done|]; split; [done|]; left; split; [done|]; split; [done|]; intros b Hb _; by apply Hpte|].
  - replace (a + PGSIZE * Z.of_nat 0) with a by lia. rewrite Z.eqb_refl. exists 0, s1, l1, R1. split; [done|]. split; [done|]. right. split; [done|].
    intros b Hb. rewrite Hpte by done. unfold size. destruct (decide (b = a)) as [->|Hne]; [rewrite decide_True by vlia; by rewrite Z.sub_diag, Z.add_0_r|].
    rewrite decide_False; [done|]. destruct Hb. vlia.
  - destruct (Z.eqb_spec a (a + PGSIZE * Z.of_nat (S n))); [vlia|]. unfold size in *. rewrite (u32_id (a + PGSIZE)), (u32_id (pa + PGSIZE)) by vlia.
    destruct (IH s1 l1 R1 (a + PGSIZE) (pa + PGSIZE)) as (r & s2 & l2 & R2 & E2 & Hg2 & Hc); [apply Hg|apply Hg|split; vlia|vlia|vlia|vlia|vlia|vlia|done| |].
    { intros b Hb Hr. unfold mapped. rewrite Hpte by done. rewrite decide_False by vlia. apply Hun; [done|vlia]. }
    replace (a + PGSIZE * Z.of_nat (S n)) with (a + PGSIZE + PGSIZE * Z.of_nat n) by lia. exists r, s2, l2, R2. split; [exact E2|].
    split; [pose proof (vgrows_trans _ _ _ _ _ _ _ _ _ _ _ _ Hg Hg2) as H; by rewrite union_empty_l_L in H|].
    destruct Hc as [(-> & Hl2 & Hc)|[-> Hc]]; [left|right]; (split; [done|]).
    + split; [done|]. intros b Hb Hr. rewrite Hc by (done || vlia). rewrite Hpte by done. by rewrite decide_False by vlia.
    + intros b Hb. rewrite Hc by done. rewrite Hpte by done. destruct (decide (b = a)) as [->|Hne].
      * rewrite decide_False by vlia. rewrite decide_True by vlia. by rewrite Z.sub_diag, Z.add_0_r.
      * destruct Hb as [Hb _]. destruct (decide (a + PGSIZE <= b < a + PGSIZE + PGSIZE * (Z.of_nat n + 1))).
        -- rewrite decide_True by vlia. do 2 f_equal. lia.
        -- by rewrite decide_False by vlia.
Qed.
Lemma mappages_kernel s l R pd va size pa perm : pool s l R -> space (kmw s) R pd -> page_va va -> KERNBASE <= va -> aligned pa -> 0 <= pa ->
  aligned size -> 0 < size -> va + size <= 4294967296 -> pa + size <= 4294967296 -> 0 <= perm < 4096 ->
  (forall b, page_va b -> va <= b < va + size -> mapped (kmw s) pd b = false) ->
  exists r s' l' R', mappages pd va size pa perm s = Ret r s' /\ grows ∅ pd s l R s' l' R' /\
    ((r = -1 /\ l' = [] /\ same_outside (kmw s) (kmw s') pd va size) \/ (r = 0 /\ maps_to (kmw s) (kmw s') pd va size pa perm)).
Proof.
  intros Hp Hs [Ha Hu] Hk Hpa Hpa0 Hsz Hsz0 Hend Hpend Hperm Hun. unfold mappages. set (n := Z.to_nat (size / 4096 - 1)).
  assert (size = PGSIZE * (Z.of_nat n + 1)) as Esz by (unfold n; vlia).
  rewrite (u32_id (va + size - 1)) by vlia. rewrite !PGROUNDDOWN_sub by vlia. replace (va - va `mod` 4096) with va by vlia.
  replace (va + size - 1 - (va + size - 1) `mod` 4096) with (va + PGSIZE * Z.of_nat n) by (rewrite Esz; vlia).
  replace (Z.to_nat (u32 (va + PGSIZE * Z.of_nat n - va) / PGSIZE + 1)) with (S n) by (rewrite u32_id by vlia; vlia).
  rewrite Esz in *. by apply (map_loop_ok n s l R pd va pa perm).
Qed.

(** ** Unmapping *)

(** An operation on [pd] that gives user pages back: a page that keeps its role
    keeps its content, unless it is a table of [pd]. *)
Record shrinks (pd : Z) s l R s' l' R' : Prop := {
  sh_pool : pool s' l' R';
  sh_space : space (kmw s') R' pd;
  sh_pages : pages l' R' = pages l R;
  sh_sub : R' ⊆ R;
  sh_others : others R' pd = others R pd;
  sh_tab : forall q i, R !! q = Some (Tab pd i) -> R' !! q = Some (Tab pd i);
  sh_mem : forall q, aligned q -> R' !! q = R !! q -> (forall i, R !! q <> Some (Tab pd i)) -> same_page (kmw s) (kmw s') q;
}.
Lemma shrinks_refl pd s l R : pool s l R -> space (kmw s) R pd -> shrinks pd s l R s l R.
Proof. intros Hp Hs. by split. Qed.
Lemma shrinks_trans pd s l R s1 l1 R1 s2 l2 R2 : shrinks pd s l R s1 l1 R1 -> shrinks pd s1 l1 R1 s2 l2 R2 -> shrinks pd s l R s2 l2 R2.
Proof.
  intros [Hp Hs Hpg Hk Ho Ht Hm] [Hp2 Hs2 Hpg2 Hk2 Ho2 Ht2 Hm2]. split; try done.
  - congruence.
  - by etrans.
  - congruence.
  - eauto.
  - intros q Ha Hq Hn. assert (R1 !! q = R !! q) as Hq1.
    { destruct (R !! q) as [r|] eqn:E; [exact (lookup_weaken _ _ _ _ Hq Hk2)|exact (lookup_weaken_None _ _ _ E Hk)]. }
    apply (same_page_trans _ (kmw s1)); [by apply Hm|]. apply Hm2; [done|congruence|]. intros i Hi. apply (Hn i). congruence.
Qed.
Lemma entry_page_phys v p : is_u32 v -> entry_page v = p -> rpage p -> PTE_ADDR v = V2P p /\ PTE_ADDR v <> 0.
Proof.
  intros Hv E Hp. destruct (rpage_phys kend Hkend p Hp) as (_ & EV & HV). destruct (PTE_ADDR_range v Hv) as [Hu _]. pose proof (rpage_range kend Hkend p Hp) as (_ & Hr & _).
  unfold entry_page, P2V, u32 in E. assert (PTE_ADDR v = V2P p) as EP by vlia. split; [done|]. destruct Hp as [(_ & Hge & _) _]. lia.
Qed.
Lemma others_delete R pd p r : R !! p = Some r -> belongs pd p r -> others (delete p R) pd = others R pd.
Proof.
  intros HR Hb. apply map_eq. intros q. rewrite !others_lookup. destruct (decide (p = q)) as [<-|Hne].
  - by rewrite lookup_delete_eq, HR, decide_True.
  - by rewrite lookup_delete_ne.
Qed.
(** The page at [a], which is mapped, is freed and its entry cleared. *)
Lemma free_leaf s l R pd a : pool s l R -> space (kmw s) R pd -> user_va a -> mapped (kmw s) pd a = true ->
  let p := page_at (kmw s) pd a in
  exists s', (kfree kend p;; stw (pte_addr (kmw s) pd a) 0) s = Ret tt s' /\ shrinks pd s l R s' (p :: l) (delete p R) /\
    forall b, page_va b -> pte_at (kmw s') pd b = if decide (b = a) then 0 else pte_at (kmw s) pd b.
Proof.
  intros Hp Hs Ha Hm p. pose proof (sp_leaf _ _ _ Hs a Ha Hm) as HRp. fold p in HRp. pose proof (pl_used _ _ _ _ Hp _ _ HRp) as Hrp. pose proof (rpage_aligned kend Hkend p Hrp) as Hap.
  assert (has (pde (kmw s) pd (PDX a)) PTE_P = true) as E by (by apply mapped_table).
  assert (p ∉ l) as Hpl by (intros Hin; destruct (pl_free _ _ _ _ Hp p Hin); congruence).
  assert (pool s l (delete p R)) as Hp' by (apply pool_hand; [done|congruence]).
  destruct (kfree_hand kend s l (delete p R) p Hp' Hrp Hpl (lookup_delete_eq _ _)) as (s1 & E1 & Hp1 & Hm1). exec_by E1.
  destruct (walk_hit s l R pd a false Hp Hs E) as [_ Hnz]. rewrite stw_run by done. eexists. split; [reflexivity|].
  pose proof (PDX_range a) as Hi. destruct (space_table _ _ _ _ _ Hp Hs Hi E) as (Hta & _ & Htd & Htl). pose proof (sp_tab _ _ _ Hs _ Hi E) as HRt.
  destruct (space_dir _ _ _ _ Hp Hs) as [Hda _]. pose proof (sp_dir _ _ _ Hs) as Hd.
  assert (forall q, aligned q -> q <> p -> same_page (kmw s) (kmw s1) q) as Hsame by (intros q Haq Hqp w Hw; apply Hm1; exact (page_words_disj q p w Haq Hap Hqp Hw)).
  set (m' := kmw (upd s1 (wrw (kmw s1) (pte_addr (kmw s) pd a) 0))).
  assert (forall q, aligned q -> q <> p -> (forall i, R !! q <> Some (Tab pd i)) -> same_page (kmw s) m' q) as Hother.
  { intros q Haq Hqp Hqt. apply (same_page_trans _ (kmw s1)); [by apply Hsame|]. apply same_page_wrw, not_in_page; [done..| |apply PTX_range].
    intros <-. by apply (Hqt (PDX a)). }
  destruct (space_store kend Hkend s l R (delete p R) pd a 0 m' Hp Hs (user_page a Ha) E) as [H1 H2].
  - vlia.
  - apply Hother; [done|congruence|]. intros i. by rewrite Hd.
  - intros i w Hir Ei Hw. pose proof (sp_tab _ _ _ Hs i Hir Ei) as HRi. destruct (space_table _ _ _ _ _ Hp Hs Hir Ei) as (Hia & _ & _ & _).
    unfold m'. cbn. case_decide as Ew; [by rewrite Ew, rdw_wrw_eq|]. rewrite rdw_wrw_ne by done. apply (Hsame (table (kmw s) pd i)); [done|congruence|done].
  - rewrite lookup_delete_ne; [done|congruence].
  - intros q i. rewrite lookup_delete_Some. split; [tauto|]. intros Hq. split; [congruence|done].
  - intros q b. rewrite lookup_delete_Some. assert (has 0 PTE_P = false) as -> by done. case_decide as Eb.
    + subst b. split; [|by intros (_ & ? & _)]. intros [Hne Hq]. destruct (sp_leaf_only _ _ _ Hs q a Hq) as (_ & _ & ->). by destruct Hne.
    + split; [tauto|]. intros Hq. split; [congruence|done].
  - split; [|exact H2]. split.
    + apply pool_write; [done|]. intros q w Hq Hw. apply rdw_wrw_ne. apply elem_of_cons in Hq as [->|Hq].
      * eapply word_other_page; [exact Hta|exact Hap|congruence|apply pte_addr_in|done].
      * intros <-. by apply (pte_addr_free s l R pd a q Hp Hs E Hq).
    + exact H1.
    + by eapply pages_back.
    + apply delete_subseteq.
    + by eapply others_delete.
    + intros q i Hq. rewrite lookup_delete_ne; [done|congruence].
    + intros q Haq Hq Hqt. apply Hother; [done| |done]. intros ->. rewrite lookup_delete_eq in Hq. congruence.
Qed.

(** The mapped pages of a range are unmapped, all other entries stay. *)
Definition cleared m m' (pd lo hi : Z) : Prop :=
  forall b, page_va b -> pte_at m' pd b = if decide (lo <= b < hi) then (if mapped m pd b then 0 else pte_at m pd b) else pte_at m pd b.
Lemma cleared_none m pd lo hi : (forall b, page_va b -> lo <= b < hi -> mapped m pd b = false) -> cleared m m pd lo hi.
Proof. intros H b Hb. case_decide as Hr; [|done]. by rewrite (H b Hb Hr). Qed.
Lemma cleared_trans m m1 m2 pd lo mid hi : lo <= mid -> cleared m m1 pd lo mid -> cleared m1 m2 pd mid hi -> (hi < mid -> forall b, page_va b -> hi <= b < mid -> mapped m pd b = false) ->
  cleared m m2 pd lo hi.
Proof.
  intros Hlo H1 H2 Hover b Hb. rewrite H2 by done. unfold mapped. rewrite H1 by done. fold (mapped m pd b).
  destruct (decide (lo <= b < mid)) as [Ha|Ha], (decide (mid <= b < hi)) as [Hc|Hc]; try lia.
  - destruct (decide (lo <= b < hi)) as [Hd|Hd]; [done|]. by rewrite (Hover ltac:(lia) b Hb ltac:(lia)).
  - by rewrite decide_True by lia.
  - by rewrite decide_False by lia.
Qed.
Lemma no_table m pd a : has (pde m pd (PDX a)) PTE_P = false -> pte_at m pd a = 0.
Proof. intros E. unfold pte_at. by rewrite E. Qed.
Lemma dealloc_page_ok s l R pd a : pool s l R -> space (kmw s) R pd -> user_va a ->
  exists c s' l' R', dealloc_page kend pd a s = Ret c s' /\ shrinks pd s l R s' l' R' /\
    let nx := u32 (c + PGSIZE) in aligned nx /\ a + PGSIZE <= nx <= KERNBASE /\ cleared (kmw s) (kmw s') pd a nx /\
    forall b, page_va b -> a < b < nx -> mapped (kmw s) pd b = false.
Proof.
  intros Hp Hs Ha. pose proof (user_page a Ha) as Hpa. pose proof Ha as [Hal Hr]. assert (u32 (a + PGSIZE) = a + PGSIZE) as Enx by (apply u32_id; vlia).
  assert (forall b, page_va b -> a < b < a + PGSIZE -> mapped (kmw s) pd b = false) as Hgap by (intros b [Hb _]; vlia).
  destruct (has (pde (kmw s) pd (PDX a)) PTE_P) eqn:E.
  - destruct (walk_hit s l R pd a false Hp Hs E) as [Ew Hnz]. unfold dealloc_page. exec_by Ew. rewrite (proj2 (Z.eqb_neq _ _) Hnz). exec_by (ldw_run _ s Hnz).
    assert (rdw (kmw s) (pte_addr (kmw s) pd a) = pte_at (kmw s) pd a) as -> by (unfold pte_at; by rewrite E).
    change (has (pte_at (kmw s) pd a) PTE_P) with (mapped (kmw s) pd a). destruct (mapped (kmw s) pd a) eqn:Em.
    + destruct (free_leaf s l R pd a Hp Hs Ha Em) as (s' & Ef & Hsh & Hpte). pose proof (sp_leaf _ _ _ Hs a Ha Em) as HRp.
      destruct (entry_page_phys (pte_at (kmw s) pd a) (page_at (kmw s) pd a) (sp_pte _ _ _ Hs a Hpa) eq_refl (pl_used _ _ _ _ Hp _ _ HRp)) as [_ Hpnz].
      cbn [when]. rewrite (proj2 (Z.eqb_neq _ _) Hpnz). change (P2V (PTE_ADDR (pte_at (kmw s) pd a))) with (page_at (kmw s) pd a). exec_by Ef.
      eexists a, s', _, _. split; [done|]. split; [exact Hsh|]. cbv zeta. rewrite Enx. split; [vlia|]. split; [vlia|]. split; [|done].
      intros b Hb. rewrite Hpte by done. case_decide as Eb; [subst b; by rewrite decide_True, Em by vlia|]. destruct (decide (a <= b < a + PGSIZE)); [|done]. rewrite Hgap by (done || lia). done.
    + cbn [when]. exec. exists a, s, l, R. split; [done|]. split; [by apply shrinks_refl|]. cbv zeta. rewrite Enx. split; [vlia|]. split; [vlia|]. split; [|done].
      apply cleared_none. intros b Hb Hbr. destruct (decide (b = a)) as [->|]; [done|]. apply Hgap; [done|lia].
  - unfold dealloc_page. exec_by (walk_miss s l R pd a Hp Hs E). eexists _, s, l, R. split; [reflexivity|]. split; [by apply shrinks_refl|]. cbv zeta.
    pose proof (PDX_div a (proj2 Hpa)) as EA. assert (0 <= PDX a < 512) as Hi by (rewrite EA; vlia).
    rewrite PGADDR_add by lia. assert (u32 (u32 ((PDX a + 1) * 4194304 + 0 * 4096 + 0 - PGSIZE) + PGSIZE) = (PDX a + 1) * 4194304) as ->.
    { rewrite (u32_id (_ - PGSIZE)) by vlia. rewrite u32_id by vlia. lia. }
    assert (forall b, page_va b -> a <= b < (PDX a + 1) * 4194304 -> mapped (kmw s) pd b = false) as Hun.
    { intros b Hb Hbr. unfold mapped. rewrite no_table; [done|]. assert (PDX b = PDX a) as ->; [|done]. rewrite EA in Hbr |- *. rewrite PDX_div by apply Hb. vlia. }
    split; [vlia|]. split; [rewrite EA; vlia|]. split; [by apply cleared_none|]. intros b Hb Hbr. apply Hun; [done|lia].
Qed.
Definition dealloc_body (pd oldsz newsz : Z) : Z -> M kmem (Z + Z) := fun a =>
  if oldsz <=? a then mret (inr (s32 newsz)) else a ← dealloc_page kend pd a; mret (inl (u32 (a + PGSIZE))).
Lemma dealloc_loop_ok n s l R pd oldsz newsz a : pool s l R -> space (kmw s) R pd -> aligned a -> 0 <= a <= KERNBASE -> oldsz <= KERNBASE ->
  oldsz - a <= PGSIZE * Z.of_nat n ->
  exists s' l' R', loop (S n) (dealloc_body pd oldsz newsz) a s = Ret (s32 newsz) s' /\ shrinks pd s l R s' l' R' /\ cleared (kmw s) (kmw s') pd a oldsz.
Proof.
  revert s l R a. induction n as [|n IH]; intros s l R a Hp Hs Ha Hr Ho Hn; (destruct (Z.leb_spec oldsz a) as [Hle|Hlt];
    [rewrite (loop_end _ (dealloc_body pd oldsz newsz) a s (s32 newsz) s) by (unfold dealloc_body; by rewrite (proj2 (Z.leb_le _ _) Hle));
     exists s, l, R; split; [done|]; split; [by apply shrinks_refl|]; apply cleared_none; lia|]).
  - vlia.
  - destruct (dealloc_page_ok s l R pd a Hp Hs) as (c & s1 & l1 & R1 & E1 & Hsh & Hal & Hnx & Hcl & Hgap); [split; [done|lia]|].
    rewrite (loop_next _ (dealloc_body pd oldsz newsz) a s (u32 (c + PGSIZE)) s1) by (unfold dealloc_body; rewrite (proj2 (Z.leb_gt _ _) Hlt); by exec_by E1).
    cbv zeta in *. set (nx := u32 (c + PGSIZE)) in *. clearbody nx.
    destruct (IH s1 l1 R1 nx) as (s2 & l2 & R2 & E2 & Hsh2 & Hcl2); [apply Hsh|apply Hsh|done|vlia|done|unfold PGSIZE in *; lia|].
    exists s2, l2, R2. split; [exact E2|]. split; [by eapply shrinks_trans|]. eapply (cleared_trans _ (kmw s1)); [|exact Hcl|exact Hcl2|]; [unfold PGSIZE in *; lia|].
    intros Hover b Hb Hbr. apply Hgap; [done|lia].
Qed.
Lemma deallocuvm_ok s l R pd oldsz newsz : pool s l R -> space (kmw s) R pd -> 0 <= newsz <= KERNBASE -> 0 <= oldsz <= KERNBASE ->
  exists s' l' R', deallocuvm kend pd oldsz newsz s = Ret (s32 (Z.min oldsz newsz)) s' /\ shrinks pd s l R s' l' R' /\
    cleared (kmw s) (kmw s') pd (PGROUNDUP newsz) oldsz.
Proof.
  intros Hp Hs Hn Ho. unfold deallocuvm. rewrite PGROUNDUP_up by vlia. destruct (Z.leb_spec oldsz newsz).
  - rewrite Z.min_l by lia. exists s, l, R. split; [done|]. split; [by apply shrinks_refl|]. apply cleared_none. intros b _. vlia.
  - rewrite Z.min_r by lia. replace (Z.to_nat (oldsz / PGSIZE + 2)) with (S (Z.to_nat (oldsz / PGSIZE + 1))) by vlia.
    apply (dealloc_loop_ok (Z.to_nat (oldsz / PGSIZE + 1)) s l R pd oldsz newsz); try done; vlia.
Qed.

(** ** Freeing an address space *)
Lemma pool_hand_dir s l R pd : pool s l R -> (forall p i, R !! p <> Some (Tab pd i) /\ R !! p <> Some (Leaf pd i)) -> pool s l (delete pd R).
Proof.
  intros [Hk Hf Hu Hr] Hno. split; [done|..].
  - intros q Hq. rewrite lookup_delete_None. destruct (Hf q Hq). split; [by right|done].
  - intros q r [_ H]%lookup_delete_Some. eauto.
  - intros q d i H. assert (R !! q = Some (Tab d i) \/ R !! q = Some (Leaf d i)) as H' by (destruct H as [[_ H]%lookup_delete_Some|[_ H]%lookup_delete_Some]; auto).
    rewrite lookup_delete_ne; [by eapply Hr|]. intros <-. destruct (Hno q i). naive_solver.
Qed.
(** A page with a role is freed. *)
Lemma kfree_role s l R p r : pool s l R -> R !! p = Some r -> pool s l (delete p R) ->
  exists s', kfree kend p s = Ret tt s' /\ pool s' (p :: l) (delete p R) /\ pages (p :: l) (delete p R) = pages l R /\
    forall q, aligned q -> q <> p -> same_page (kmw s) (kmw s') q.
Proof.
  intros Hp HR Hp'. pose proof (pl_used _ _ _ _ Hp _ _ HR) as Hrp.
  destruct (kfree_hand kend s l (delete p R) p Hp' Hrp) as (s' & E & Hp2 & Hm); [intros Hin; destruct (pl_free _ _ _ _ Hp p Hin); congruence|apply lookup_delete_eq|].
  exists s'. split; [done|]. split; [done|]. split; [by eapply pages_back|]. intros q Hq Hne w Hw. apply Hm.
  exact (page_words_disj q p w Hq (rpage_aligned kend Hkend p Hrp) Hne Hw).
Qed.
Definition free_table (pd i : Z) : M kmem unit := e ← ldw (pd + 4 * i); when (has e PTE_P) (kfree kend (P2V (PTE_ADDR e))).
Lemma free_tables_ok ix s l R pd : pool s l R -> R !! pd = Some Dir -> NoDup ix -> (forall i, i ∈ ix -> 0 <= i < 1024) ->
  (forall i, i ∈ ix -> has (pde (kmw s) pd i) PTE_P = true -> R !! table (kmw s) pd i = Some (Tab pd i)) ->
  exists s' l' R', for_each ix (free_table pd) s = Ret tt s' /\ pool s' l' R' /\ pages l' R' = pages l R /\ R' ⊆ R /\
    (forall p r, R !! p = Some r -> (forall i, i ∈ ix -> has (pde (kmw s) pd i) PTE_P = true -> r <> Tab pd i) -> R' !! p = Some r) /\
    (forall p i, i ∈ ix -> R' !! p = Some (Tab pd i) -> R !! p = Some (Tab pd i) /\ p <> table (kmw s) pd i \/ has (pde (kmw s) pd i) PTE_P = false) /\
    forall q, aligned q -> R' !! q = R !! q -> same_page (kmw s) (kmw s') q.
Proof.
  revert s l R. induction ix as [|i ix IH]; intros s l R Hp Hd Hnd Hir Ht.
  { exists s, l, R. split; [done|]. do 3 (split; [done|]). split; [done|]. split; [|done]. by intros p i ?%elem_of_nil. }
  apply NoDup_cons in Hnd as [Hni Hnd]. pose proof (Hir i ltac:(left)) as Hi. pose proof (rpage_range kend Hkend pd (pl_used _ _ _ _ Hp _ _ Hd)) as (Had & Hrd & _).
  assert (free_table pd i s = when (has (pde (kmw s) pd i) PTE_P) (kfree kend (table (kmw s) pd i)) s) as Ef
    by (unfold free_table; by exec_by (ldw_run (pd + 4 * i) s ltac:(vlia))).
  cbn [for_each]. destruct (has (pde (kmw s) pd i) PTE_P) eqn:E; cbn [when] in Ef.
  - pose proof (Ht i ltac:(left) E) as HRt. set (t := table (kmw s) pd i) in *.
    destruct (kfree_role s l R t _ Hp HRt) as (s1 & E1 & Hp1 & Hpg & Hsame); [apply pool_hand; [done|congruence]|]. rewrite E1 in Ef. exec_by Ef.
    assert (same_page (kmw s) (kmw s1) pd) as Hsd by (apply Hsame; [done|congruence]).
    assert (forall j, j ∈ ix -> pde (kmw s1) pd j = pde (kmw s) pd j) as Hpde by (intros j Hj; apply pde_same; [done|apply Hir; by right]).
    assert (forall j, j ∈ ix -> table (kmw s1) pd j = table (kmw s) pd j) as Htab by (intros j Hj; unfold table; by rewrite Hpde).
    destruct (IH s1 (t :: l) (delete t R) Hp1) as (s2 & l2 & R2 & E2 & Hp2 & Hpg2 & Hsub & Hkeep & Hgone & Hsame2).
    + rewrite lookup_delete_ne; [done|congruence].
    + done.
    + intros j Hj. apply Hir. by right.
    + intros j Hj. rewrite Hpde, Htab by done. intros Ej. pose proof (Ht j ltac:(by right) Ej) as HRj. rewrite lookup_delete_ne; [done|]. intros Eq. rewrite <-Eq, HRt in HRj. injection HRj as <-. done.
    + exists s2, l2, R2. split; [exact E2|]. split; [done|]. split; [congruence|]. split; [etrans; [exact Hsub|apply delete_subseteq]|]. split; [|split].
      * intros p r HR Hr. apply Hkeep.
        -- rewrite lookup_delete_ne; [done|]. intros <-. rewrite HRt in HR. injection HR as <-. by apply (Hr i ltac:(left) E).
        -- intros j Hj. rewrite Hpde by done. apply Hr. by right.
      * intros p j [->|Hj]%elem_of_cons HR2.
        -- left. pose proof (lookup_weaken _ _ _ _ HR2 Hsub) as [Hne HR]%lookup_delete_Some. split; [done|]. intros ->. by apply Hne.
        -- destruct (Hgone p j Hj HR2) as [[[_ HR]%lookup_delete_Some Hne]|En]; [left|right].
           ++ by rewrite Htab in Hne.
           ++ by rewrite Hpde in En.
      * intros q Ha Hq. destruct (decide (q = t)) as [->|Hne].
        { rewrite HRt in Hq. pose proof (lookup_weaken _ _ _ _ Hq Hsub) as [? _]%lookup_delete_Some. done. }
        apply (same_page_trans _ (kmw s1)); [by apply Hsame|]. apply Hsame2; [done|]. by rewrite lookup_delete_ne.
  - exec_by Ef. destruct (IH s l R Hp Hd Hnd) as (s2 & l2 & R2 & E2 & Hp2 & Hpg2 & Hsub & Hkeep & Hgone & Hsame2);
      [intros j Hj; apply Hir; by right|intros j Hj; apply Ht; by right|]. exists s2, l2, R2. split; [exact E2|]. do 3 (split; [done|]). split; [|split; [|done]].
    + intros p r HR Hr. apply Hkeep; [done|]. intros j Hj. apply Hr. by right.
    + intros p j [->|Hj]%elem_of_cons HR2; [by right|]. by apply Hgone.
Qed.
Lemma freevm_ok s l R pd : pool s l R -> space (kmw s) R pd ->
  exists s' l', freevm kend pd s = Ret tt s' /\ pool s' l' (others R pd) /\ pages l' (others R pd) = pages l R /\
    forall q, aligned q -> others R pd !! q = R !! q -> same_page (kmw s) (kmw s') q.
Proof.
  intros Hp Hs. destruct (space_dir _ _ _ _ Hp Hs) as [Had Hd]. unfold freevm. destruct (Z.eqb_spec pd 0); [vlia|].
  destruct (deallocuvm_ok s l R pd KERNBASE 0 Hp Hs ltac:(vlia) ltac:(vlia)) as (s1 & l1 & R1 & E1 & Hsh & Hcl). exec_by E1.
  pose proof (sh_pool _ _ _ _ _ _ _ Hsh) as Hp1. pose proof (sh_space _ _ _ _ _ _ _ Hsh) as Hs1. pose proof (sp_dir _ _ _ Hs1) as Hd1.
  assert (forall p a, R1 !! p <> Some (Leaf pd a)) as Hnl.
  { intros p a HR. destruct (sp_leaf_only _ _ _ Hs1 p a HR) as (Hu & Hm & _). unfold mapped in Hm. rewrite (Hcl a (user_page a Hu)) in Hm. change (PGROUNDUP 0) with 0 in Hm.
    rewrite decide_True in Hm by (destruct Hu; lia). destruct (mapped (kmw s) pd a) eqn:Em; [done|]. unfold mapped in Em. congruence. }
  destruct (free_tables_ok (seqZ 0 1024) s1 l1 R1 pd Hp1 Hd1 (NoDup_seqZ _ _)) as (s2 & l2 & R2 & E2 & Hp2 & Hpg2 & Hsub2 & Hkeep & Hgone & Hsame2);
    [by intros i ?%elem_of_seqZ|intros i Hi; apply (sp_tab _ _ _ Hs1); apply elem_of_seqZ in Hi; lia|].
  change NPDENTRIES with 1024. change (fun i => e ← ldw (pd + 4 * i); when (has e PTE_P) (kfree kend (P2V (PTE_ADDR e)))) with (free_table pd). exec_by E2.
  assert (forall p i, R2 !! p <> Some (Tab pd i)) as Hnt.
  { intros p i HR. pose proof (lookup_weaken _ _ _ _ HR Hsub2) as HR1. destruct (sp_tab_only _ _ _ Hs1 p i HR1) as (Hi & Ei & Eq).
    destruct (Hgone p i) as [[_ Hne]|Ef]; [apply elem_of_seqZ; lia|done|done|congruence]. }
  assert (R2 !! pd = Some Dir) as Hd2 by (apply Hkeep; [done|done]).
  destruct (kfree_role s2 l2 R2 pd Dir Hp2 Hd2) as (s3 & E3 & Hp3 & Hpg3 & Hsame3).
  { apply pool_hand_dir; [done|]. intros p i. split; [apply Hnt|]. intros HR. by apply (Hnl p i), (lookup_weaken _ _ _ _ HR). }
  assert (delete pd R2 = others R pd) as Eo.
  { rewrite <-(sh_others _ _ _ _ _ _ _ Hsh). apply map_eq. intros p. rewrite others_lookup. destruct (decide (p = pd)) as [->|Hne].
    - rewrite lookup_delete_eq, Hd1. by rewrite decide_True.
    - rewrite lookup_delete_ne by done. destruct (R1 !! p) as [r|] eqn:E; [|exact (lookup_weaken_None _ _ _ E Hsub2)].
      destruct r as [|d i|d a]; cbn; case_decide as Ed; try done.
      + by apply Hkeep.
      + subst d. destruct (R2 !! p) as [r|] eqn:E'; [|done]. pose proof (lookup_weaken _ _ _ _ E' Hsub2) as Hr. assert (r = Tab pd i) as -> by congruence. by destruct (Hnt p i).
      + apply Hkeep; [done|]. congruence.
      + subst d. by destruct (Hnl p a).
      + by apply Hkeep. }
  rewrite Eo in *. exists s3, (pd :: l2). split; [exact E3|]. split; [done|]. split; [by rewrite Hpg3, Hpg2, (sh_pages _ _ _ _ _ _ _ Hsh)|].
  intros q Ha Hq. assert (R1 !! q = R !! q) as Hq1.
  { destruct (R !! q) as [r|] eqn:E; [|exact (lookup_weaken_None _ _ _ E (sh_sub _ _ _ _ _ _ _ Hsh))]. rewrite <-Eo in Hq. apply lookup_delete_Some in Hq as [_ Hq].
    exact (lookup_weaken _ _ _ _ Hq Hsub2). }
  assert (q <> pd) as Hqd by (intros ->; rewrite (sp_dir _ _ _ Hs), others_lookup, (sp_dir _ _ _ Hs), decide_True in Hq; done).
  assert (R2 !! q = R !! q) as Hq2 by (rewrite <-Hq, <-Eo; by rewrite lookup_delete_ne).
  apply (same_page_trans _ (kmw s1)); [apply (sh_mem _ _ _ _ _ _ _ Hsh); [done|done|]|apply (same_page_trans _ (kmw s2)); [apply Hsame2; [done|congruence]|by apply Hsame3]].
  intros i HR. apply (Hnt q i). congruence.
Qed.
End Ops.
