(* ===== verification/XVmKern.v ===== *)
(** * Whole address spaces of xv6

    [setupkvm], and with it [allocuvm] and [copyuvm], each of which gives back
    what it took when it runs out of pages. *)
From S2P Require Import Prelude Mmu XKalloc XVm XVmSpec XVmOps.

(** Free pages for each page asked for and each table would have been enough. *)
Definition too_few (l : list Z) (n : Z) : Prop := zlen l <= n + 1025.
(** Each page that was free is in hand or still free, all of [hs], or has become a
    table or a user page of [pd]. *)
Lemma exhausted kend (Hkend : KERNBASE < kend) pd s0 l0 (R0 : gmap Z role) s2 R2 hs lo n : pool kend s0 l0 R0 -> space (kmw s2) R2 pd ->
  list_to_set hs ∪ pages [] R2 = pages l0 R0 -> others R2 pd = others R0 pd -> aligned lo -> 0 <= n ->
  (forall q b, R2 !! q = Some (Leaf pd b) -> R0 !! q = Some (Leaf pd b) \/ lo <= b < lo + PGSIZE * n) ->
  zlen l0 <= zlen hs + n + 1025.
Proof.
  intros Hp0 Hs2 Hpg Ho Hal Hn Hlf.
  set (L := pd :: hs ++ (table (kmw s2) pd <$> seqZ 0 1024) ++ ((fun k => page_at (kmw s2) pd (lo + PGSIZE * k)) <$> seqZ 0 n)).
  assert (l0 ⊆ L) as Hsub.
  { intros q Hq. assert (q ∈ pages l0 R0) as Hin by (apply elem_pages; by left). rewrite <-Hpg in Hin. destruct (pl_free _ _ _ _ Hp0 q Hq) as [Hq0 _].
    unfold L. rewrite elem_of_cons, !elem_of_app. apply elem_of_union in Hin as [Hin%elem_of_list_to_set|Hin]; [tauto|].
    apply elem_pages in Hin as [?%elem_of_nil|[r Hr]]; [done|]. assert (belongs pd q r) as Hb.
    { destruct (decide (belongs pd q r)) as [|Hb]; [done|]. assert (others R2 pd !! q = Some r) as H by (rewrite others_lookup, Hr; by rewrite decide_False).
      rewrite Ho, others_lookup, Hq0 in H. done. }
    destruct r as [|d i|d b]; cbn in Hb; subst; [by left|..]; right; right.
    - left. destruct (sp_tab_only _ _ _ Hs2 q i Hr) as (Hi & _ & ->). apply list_elem_of_fmap_2. apply elem_of_seqZ. lia.
    - right. destruct (sp_leaf_only _ _ _ Hs2 q b Hr) as ([Hba _] & _ & ->). apply list_elem_of_fmap. exists ((b - lo) / 4096).
      destruct (Hlf _ b Hr) as [?|Hr']; [congruence|]. split; [|apply elem_of_seqZ; vlia]. f_equal. vlia. }
  pose proof (km_nodup _ _ _ (pl_mem _ _ _ _ Hp0)) as Hnd. apply NoDup_submseteq, submseteq_length in Hsub; [|done].
  revert Hsub. unfold L, zlen. cbn [length]. rewrite !length_app, !length_fmap, !length_seqZ. lia.
Qed.

Section Kern.
Context (kend kdata : Z) (Hkend : KERNBASE < kend) (Hdata : aligned kdata /\ KERNLINK < kdata < KERNBASE + PHYSTOP).
Implicit Types (R : gmap Z role) (m : gmap Z Z) (l : list Z) (s : kmem) (k : kmapping).
Notation pool := (pool kend).

(** ** The kernel's part *)
Definition ksize k : Z := u32 (phys_end k - phys_start k).
Definition in_map k b : Prop := virt k <= b < virt k + ksize k.
Definition kentry k b : Z := Z.lor (Z.lor (phys_start k + (b - virt k)) (kperm k)) PTE_P.
Record map_ok k : Prop := {
  mo_virt : page_va (virt k) /\ KERNBASE <= virt k;
  mo_phys : aligned (phys_start k) /\ 0 <= phys_start k;
  mo_size : aligned (ksize k) /\ 0 < ksize k;
  mo_end : virt k + ksize k <= 4294967296 /\ phys_start k + ksize k <= 4294967296;
  mo_perm : 0 <= kperm k < 4096;
}.
Lemma kmap_cases k : k ∈ kmap kdata -> aligned (virt k) /\ aligned (phys_start k) /\ 0 <= phys_start k /\ 0 <= kperm k < 4096 /\
  ((virt k = KERNBASE /\ phys_start k = 0 /\ ksize k = EXTMEM) \/
   (virt k = KERNLINK /\ phys_start k = EXTMEM /\ ksize k = kdata - KERNLINK) \/
   (virt k = kdata /\ phys_start k = kdata - KERNBASE /\ ksize k = KERNBASE + PHYSTOP - kdata) \/
   (virt k = DEVSPACE /\ phys_start k = DEVSPACE /\ ksize k = 33554432)).
Proof.
  destruct Hdata as [Ha Hr]. unfold kmap. rewrite !elem_of_cons, elem_of_nil. unfold ksize, V2P, KERNLINK, EXTMEM, DEVSPACE in *.
  intros [->|[->|[->|[->|[]]]]]; cbn [virt phys_start phys_end kperm]; (split; [vlia|]); (split; [unfold u32; vlia|]); (split; [unfold u32; vlia|]); (split; [by_vm|]).
  - left. by_vm.
  - right; left. unfold u32. split_and!; vlia.
  - right; right; left. unfold u32. split_and!; vlia.
  - right; right; right. by_vm.
Qed.
Lemma kmap_ok k : k ∈ kmap kdata -> map_ok k.
Proof.
  intros Hk. destruct (kmap_cases k Hk) as (Hv & Hp & Hp0 & Hperm & Hc). destruct Hdata as [Ha Hr]. unfold KERNLINK, EXTMEM, DEVSPACE in *.
  split; destruct Hc as [(E1 & E2 & E3)|[(E1 & E2 & E3)|[(E1 & E2 & E3)|(E1 & E2 & E3)]]]; rewrite ?E1, ?E2, ?E3; try done; vlia.
Qed.
Lemma kmap_apart k k' b : k ∈ kmap kdata -> k' ∈ kmap kdata -> in_map k b -> in_map k' b -> virt k = virt k'.
Proof.
  intros Hk Hk'. destruct (kmap_cases k Hk) as (_ & _ & _ & _ & Hc). destruct (kmap_cases k' Hk') as (_ & _ & _ & _ & Hc'). destruct Hdata as [Ha Hr]. unfold in_map, KERNLINK, EXTMEM, DEVSPACE in *.
  destruct Hc as [(E1 & _ & E3)|[(E1 & _ & E3)|[(E1 & _ & E3)|(E1 & _ & E3)]]], Hc' as [(E1' & _ & E3')|[(E1' & _ & E3')|[(E1' & _ & E3')|(E1' & _ & E3')]]];
    rewrite E1, E3, E1', E3'; vlia.
Qed.
Lemma kmap_nodup : NoDup (virt <$> kmap kdata).
Proof.
  destruct Hdata as [Ha Hr]. unfold kmap, KERNLINK, EXTMEM, DEVSPACE in *. cbn [fmap list_fmap virt].
  repeat constructor; rewrite ?elem_of_cons, ?elem_of_nil; unfold KERNBASE, PHYSTOP in *; lia.
Qed.
(** What the kernel sees through [pd]: its own mappings, and below none. *)
Definition kernel_entries m pd : Prop := forall k b, k ∈ kmap kdata -> page_va b -> in_map k b -> pte_at m pd b = kentry k b.
Definition kmap_body (pd : Z) k : M kmem (option Z) :=
  r ← mappages pd (virt k) (ksize k) (phys_start k) (kperm k);
  if r <? 0 then freevm kend pd;; mret (Some 0) else mret None.
(** All memory outside of [pd], its tables and the free pages. *)
Definition outside pd l R q : Prop := aligned q /\ q ∉ l /\ q <> pd /\ forall i, R !! q <> Some (Tab pd i).
Lemma grows_outside X pd s l R s' l' R' q : grows kend X pd s l R s' l' R' -> outside pd l R q -> outside pd l' R' q /\ same_page (kmw s) (kmw s') q.
Proof.
  intros Hg (Ha & Hl & Hd & Ht). split; [|by apply (gr_mem _ _ _ _ _ _ _ _ _ Hg)]. split; [done|]. split; [by intros ?%(gr_free _ _ _ _ _ _ _ _ _ Hg)|]. split; [done|].
  intros i [H|H]%(gr_tab _ _ _ _ _ _ _ _ _ Hg); [by apply (Ht i)|done].
Qed.
Lemma kmap_loop_ok ks s l R pd : pool s l R -> space (kmw s) R pd -> ks ⊆ kmap kdata -> NoDup (virt <$> ks) ->
  (forall k b, k ∈ ks -> page_va b -> in_map k b -> mapped (kmw s) pd b = false) ->
  (exists s' l' R', for_until ks (kmap_body pd) s = Ret None s' /\ grows kend ∅ pd s l R s' l' R' /\
     (forall k b, k ∈ ks -> page_va b -> in_map k b -> pte_at (kmw s') pd b = kentry k b) /\
     forall b, page_va b -> (forall k, k ∈ ks -> ~ in_map k b) -> pte_at (kmw s') pd b = pte_at (kmw s) pd b) \/
  (exists s1 R1 s' l', for_until ks (kmap_body pd) s = Ret (Some 0) s' /\ grows kend ∅ pd s l R s1 [] R1 /\ (forall b, user_va b -> pte_at (kmw s1) pd b = pte_at (kmw s) pd b) /\ freevm kend pd s1 = Ret tt s' /\
     pool s' l' (others R pd) /\ pages l' (others R pd) = pages l R /\ forall q, aligned q -> others R pd !! q = R1 !! q -> same_page (kmw s1) (kmw s') q).
Proof.
  revert s l R. induction ks as [|k ks IH]; intros s l R Hp Hs Hsub Hnd Hun.
  { left. exists s, l, R. split; [done|]. split; [by apply vgrows_refl|]. split; [|done]. by intros k b ?%elem_of_nil. }
  cbn [fmap list_fmap] in Hnd. apply NoDup_cons in Hnd as [Hni Hnd]. assert (k ∈ kmap kdata) as Hk by (apply Hsub; left). destruct (kmap_ok k Hk) as [[Hv Hvk] [Hpa Hp0] [Hsa Hs0] [He1 He2] Hperm].
  destruct (mappages_kernel kend Hkend s l R pd (virt k) (ksize k) (phys_start k) (kperm k) Hp Hs Hv Hvk Hpa Hp0 Hsa Hs0 He1 He2 Hperm) as (r & s1 & l1 & R1 & E & Hg & Hc).
  { intros b Hb Hr. by apply (Hun k b ltac:(left)). }
  pose proof (gr_pool _ _ _ _ _ _ _ _ _ Hg) as Hp1. pose proof (gr_space _ _ _ _ _ _ _ _ _ Hg) as Hs1.
  assert (forall b, user_va b -> ~ in_map k b) as Hku by (intros b Hb Hin; unfold in_map in Hin; destruct Hb; lia).
  destruct Hc as [(-> & -> & Hsame)|[-> Hmaps]].
  - right. destruct (freevm_ok kend Hkend s1 [] R1 pd Hp1 Hs1) as (s2 & l2 & E2 & Hp2 & Hpg2 & Hm2). rewrite (gr_others _ _ _ _ _ _ _ _ _ Hg) in Hp2, Hpg2, Hm2.
    assert (kmap_body pd k s = Ret (Some 0) s2) as Eb by (unfold kmap_body; exec_by E; change (-1 <? 0) with true; cbv iota; by exec_by E2).
    exists s1, R1, s2, l2. cbn [for_until]. exec_by Eb. split; [done|]. split; [done|]. split; [intros b Hb; apply Hsame; [by apply user_page|by apply Hku]|]. split; [done|]. split; [done|]. split; [|done].
    rewrite Hpg2, (gr_pages _ _ _ _ _ _ _ _ _ Hg). by rewrite union_empty_l_L.
  - assert (kmap_body pd k s = Ret None s1) as Eb by (unfold kmap_body; by exec_by E).
    cbn [for_until]. unfold mbind at 1 2, M_bind at 1 2. rewrite Eb.
    assert (forall k' b, k' ∈ ks -> in_map k' b -> ~ in_map k b) as Hap.
    { intros k' b Hk' H1 H2. apply Hni. rewrite (kmap_apart k k' b Hk ltac:(apply Hsub; by right) H2 H1). by apply list_elem_of_fmap_2. }
    destruct (IH s1 l1 R1 Hp1 Hs1) as [(s2 & l2 & R2 & E2 & Hg2 & Hin & Hout)|(s2 & R2 & s3 & l3 & E2 & Hg2 & Hu2 & E3 & Hp3 & Hpg3 & Hm3)].
    + intros k' Hk'. apply Hsub. by right.
    + done.
    + intros k' b Hk' Hb Hr. unfold mapped. rewrite (Hmaps b Hb). rewrite decide_False by (by apply (Hap k')). apply (Hun k' b); [by right|done..].
    + left. exists s2, l2, R2. split; [exact E2|]. split; [pose proof (vgrows_trans _ _ _ _ _ _ _ _ _ _ _ _ _ Hg Hg2) as H; by rewrite union_empty_l_L in H|]. split.
      * intros k' b [->|Hk']%elem_of_cons Hb Hr; [|by apply Hin]. rewrite Hout; [|done|intros k'' Hk'' H; by apply (Hap k'' b)]. rewrite (Hmaps b Hb), decide_True by done. done.
      * intros b Hb Hn. rewrite Hout; [|done|intros k' Hk'; apply Hn; by right]. rewrite (Hmaps b Hb), decide_False; [done|]. apply (Hn k). left.
    + right. exists s2, R2, s3, l3. rewrite (gr_others _ _ _ _ _ _ _ _ _ Hg) in Hp3, Hpg3, Hm3. split; [exact E2|].
      split; [pose proof (vgrows_trans _ _ _ _ _ _ _ _ _ _ _ _ _ Hg Hg2) as H; by rewrite union_empty_l_L in H|].
      split; [intros b Hb; rewrite Hu2, (Hmaps b (user_page b Hb)) by done; rewrite decide_False; [done|by apply Hku]|]. split; [done|]. split; [done|]. split; [|done].
      rewrite Hpg3, (gr_pages _ _ _ _ _ _ _ _ _ Hg). by rewrite union_empty_l_L.
Qed.
(** A cleared page is a directory without entries. *)
Lemma empty_dir s l R pd : pool s l R -> rpage kend pd -> pd ∉ l -> R !! pd = None ->
  let s' := upd s (fillw (kmw s) (page_words pd) 0) in let R' := <[pd := Dir]> R in
  pool s' l R' /\ space (kmw s') R' pd /\ others R' pd = R /\ (forall a, pte_at (kmw s') pd a = 0) /\
  forall q, aligned q -> q <> pd -> same_page (kmw s) (kmw s') q.
Proof.
  intros Hp Hr Hl HR s' R'. pose proof (rpage_aligned kend Hkend pd Hr) as Had.
  assert (forall q, aligned q -> q <> pd -> same_page (kmw s) (kmw s') q) as Hsame by (intros q Hq Hne; by apply same_page_fillw).
  assert (forall i, 0 <= i < 1024 -> pde (kmw s') pd i = 0) as Hpde by (intros i Hi; apply rdw_fillw_in; by apply word_in_page).
  assert (forall a, pte_at (kmw s') pd a = 0) as Hpte by (intros a; apply no_table; by rewrite Hpde by apply PDX_range).
  assert (forall p i, R !! p <> Some (Tab pd i) /\ R !! p <> Some (Leaf pd i)) as Hno by (intros p i; split; intros H; rewrite (pl_roles _ _ _ _ Hp p pd i) in HR by auto; done).
  split; [|split; [|split; [|done]]].
  - apply pool_role; [|done|done|done|by intros d i [[=]|[=]]]. apply pool_write; [done|]. intros p w Hin Hw. pose proof (pool_free_page _ _ _ _ p Hp Hin) as Hrp.
    apply (Hsame p); [by apply (rpage_aligned kend Hkend)|by intros ->|done].
  - split.
    + apply lookup_insert_eq.
    + intros i Hi. rewrite Hpde by done. vlia.
    + intros i Hi. rewrite Hpde by done. intros E. vm_compute in E. done.
    + intros p i [[_ [=]]|[_ H]]%lookup_insert_Some. by destruct (Hno p i).
    + intros a _. rewrite Hpte. vlia.
    + intros a _. unfold mapped. rewrite Hpte. intros E. vm_compute in E. done.
    + intros p a [[_ [=]]|[_ H]]%lookup_insert_Some. by destruct (Hno p a).
  - apply map_eq. intros q. rewrite others_lookup. unfold R'. destruct (decide (pd = q)) as [<-|Hne].
    + rewrite lookup_insert_eq, HR. by rewrite decide_True.
    + rewrite lookup_insert_ne by done. destruct (R !! q) as [r|] eqn:E; [|done]. rewrite decide_False; [done|].
      intros Hb. destruct r as [|d i|d a]; cbn in Hb; [congruence|subst d; by destruct (Hno q i)|subst d; by destruct (Hno q a)].
Qed.
(** A new address space [pd]: the kernel's part and no user page. *)
Record new_space (pd : Z) s l R s' l' R' : Prop := {
  ns_pool : pool s' l' R';
  ns_space : space (kmw s') R' pd;
  ns_fresh : pd ∈ l /\ R !! pd = None;
  ns_pages : pages l' R' = pages l R;
  ns_keep : R ⊆ R';
  ns_others : others R' pd = R;
  ns_free : forall q, q ∈ l' -> q ∈ l;
  ns_mem : forall q, aligned q -> q ∉ l -> same_page (kmw s) (kmw s') q;
  ns_kernel : kernel_entries (kmw s') pd;
  ns_user : forall b, user_va b -> pte_at (kmw s') pd b = 0;
}.
(** Nothing has changed but the order of the free pages. *)
Definition unchanged s l R s' l' : Prop := pool s' l' R /\ pages l' R = pages l R /\ forall q, aligned q -> q ∉ l -> same_page (kmw s) (kmw s') q.
Lemma setupkvm_ok s l R : pool s l R ->
  exists r s' l', setupkvm kend kdata s = Ret r s' /\ ((r = 0 /\ too_few l 0 /\ unchanged s l R s' l') \/ (r <> 0 /\ exists R', new_space r s l R s' l' R')).
Proof.
  intros Hp. unfold setupkvm. destruct l as [|pd l].
  { destruct (kalloc_none _ _ _ Hp) as (s' & E & Hp' & Hm). exec_by E. exists 0, s', []. split; [done|]. left. split; [done|]. split; [by vm_compute|]. split; [done|]. split; [done|]. by rewrite Hm. }
  destruct (kalloc_some _ _ _ _ _ Hp) as (s1 & E1 & Hp1 & Hm1 & Hr & Hl & HR). exec_by E1. pose proof (rpage_range kend Hkend pd Hr) as (Had & Hrg & Hnz).
  rewrite (proj2 (Z.eqb_neq _ _) Hnz). exec_by (clear_page_run pd s1 Hnz). change (DEVSPACE <? P2V PHYSTOP) with false. cbv iota.
  destruct (empty_dir s1 l R pd Hp1 Hr Hl HR) as (Hp2 & Hs2 & Ho2 & Hpte2 & Hm2). set (s2 := upd s1 _) in *. set (R2 := <[pd := Dir]> R) in *.
  change (fun k => r ← mappages pd (virt k) (u32 (phys_end k - phys_start k)) (phys_start k) (kperm k); if r <? 0 then freevm kend pd;; mret (Some 0) else mret None) with (kmap_body pd).
  assert (forall q, aligned q -> q ∉ pd :: l -> outside pd l R2 q /\ same_page (kmw s) (kmw s2) q) as Hout.
  { intros q Ha [Hq Hql]%not_elem_of_cons. split; [|rewrite <-Hm1; by apply Hm2]. split; [done|]. split; [done|]. split; [done|].
    intros i [[_ [=]]|[_ H]]%lookup_insert_Some. rewrite (pl_roles _ _ _ _ Hp q pd i) in HR by auto. done. }
  assert (pages l R2 = pages (pd :: l) R) as Hpg2 by (unfold R2; by rewrite pages_role, pages_cons).
  destruct (kmap_loop_ok (kmap kdata) s2 l R2 pd Hp2 Hs2 ltac:(done) kmap_nodup) as [(s3 & l3 & R3 & E3 & Hg & Hin & Hno)|(s3 & R3 & s4 & l4 & E3 & Hg & Hu3 & _ & Hp4 & Hpg4 & Hm4)].
  - intros k b _ _ _. unfold mapped. by rewrite Hpte2.
  - exec_by E3. exists pd, s3, l3. split; [done|]. right. split; [done|]. exists R3. split.
    + apply Hg.
    + apply Hg.
    + split; [left|done].
    + rewrite (gr_pages _ _ _ _ _ _ _ _ _ Hg), union_empty_l_L. done.
    + etrans; [|apply Hg]. by apply insert_subseteq.
    + rewrite (gr_others _ _ _ _ _ _ _ _ _ Hg). done.
    + intros q Hq. right. by apply (gr_free _ _ _ _ _ _ _ _ _ Hg).
    + intros q Ha Hq. destruct (Hout q Ha Hq) as [Ho Hs]. apply (same_page_trans _ (kmw s2)); [done|]. by destruct (grows_outside _ _ _ _ _ _ _ _ q Hg Ho).
    + done.
    + intros b Hb. rewrite Hno; [apply Hpte2|by apply user_page|]. intros k Hk Hi. destruct (kmap_ok k Hk) as [[_ Hv] _ _ _ _]. unfold in_map in Hi. destruct Hb. lia.
  - exec_by E3. exists 0, s4, l4. split; [done|]. left. split; [done|]. split.
    { apply (exhausted kend Hkend pd s (pd :: l) R s3 R3 [] 0 0 Hp (gr_space _ _ _ _ _ _ _ _ _ Hg)); [| |done|done|].
      - rewrite list_to_set_nil, (gr_pages _ _ _ _ _ _ _ _ _ Hg). by rewrite !union_empty_l_L.
      - rewrite (gr_others _ _ _ _ _ _ _ _ _ Hg), Ho2. rewrite <-Ho2. by rewrite others_idem.
      - intros q b HR3. destruct (sp_leaf_only _ _ _ (gr_space _ _ _ _ _ _ _ _ _ Hg) q b HR3) as (Hb & Hmb & _). unfold mapped in Hmb. rewrite Hu3, Hpte2 in Hmb by done. done. }
    rewrite Ho2 in *. split; [done|]. split; [congruence|].
    intros q Ha Hq. destruct (Hout q Ha Hq) as [Ho Hs]. apply (same_page_trans _ (kmw s2)); [done|]. destruct (grows_outside _ _ _ _ _ _ _ _ q Hg Ho) as [Ho3 Hs3].
    apply (same_page_trans _ (kmw s3)); [done|]. apply Hm4; [done|]. pose proof (gr_others _ _ _ _ _ _ _ _ _ Hg) as He. rewrite Ho2 in He.
    destruct (R3 !! q) as [r|] eqn:E; [|rewrite <-He, others_lookup; by rewrite E].
    assert (q ∈ pages [] R3) as Hqp by (apply elem_pages; right; by rewrite E). rewrite (gr_pages _ _ _ _ _ _ _ _ _ Hg), union_empty_l_L, Hpg2 in Hqp.
    apply elem_pages in Hqp as [?|[r' HRq]]; [done|]. rewrite HRq. rewrite <-He, others_lookup, E in HRq. case_decide; [done|]. congruence.
Qed.
End Kern.

Section Grow.
Context (kend : Z) (Hkend : KERNBASE < kend).
Implicit Types (R : gmap Z role) (m : gmap Z Z) (l : list Z) (s : kmem).
Notation pool := (pool kend).

(** ** Mapping a page in hand *)

(** What is left to show of an operation that keeps all roles. *)
Lemma grows_intro pd s l R s' l' R' : pool s' l' R' -> space (kmw s') R' pd -> pages l' R' = pages l R -> R ⊆ R' -> others R' pd = others R pd ->
  (forall q, outside pd l R q -> same_page (kmw s) (kmw s') q) -> grows kend ∅ pd s l R s' l' R'.
Proof.
  intros Hp Hs Hpg Hk Ho Hm. split; [done|done|by rewrite union_empty_l_L|done|done|..].
  - intros q Hq. assert (q ∈ pages l R) as Hin by (rewrite <-Hpg; apply elem_pages; by left). apply elem_pages in Hin as [?|[r Hr]]; [done|].
    pose proof (lookup_weaken _ _ _ _ Hr Hk) as Hr'. destruct (pl_free _ _ _ _ Hp q Hq). congruence.
  - intros q i Hq. assert (q ∈ pages l R) as Hin by (rewrite <-Hpg; apply elem_pages; right; by rewrite Hq). apply elem_pages in Hin as [?|[r Hr]]; [by right|left].
    pose proof (lookup_weaken _ _ _ _ Hr Hk) as Hr'. congruence.
  - intros q Ha Hl Hd Ht. by apply Hm.
Qed.
(** [p] comes off the free list and its content is written: the rest of memory
    is as before. *)
Record taken p s l R s1 : Prop := {
  tk_before : pool s (p :: l) R;
  tk_pool : pool s1 l R;
  tk_page : rpage kend p /\ p ∉ l /\ R !! p = None;
  tk_mem : forall q, aligned q -> q <> p -> same_page (kmw s) (kmw s1) q;
}.
(** Memory changes in a page without a role. *)
Lemma apart_space s l R pd p m' : pool s l R -> space (kmw s) R pd -> R !! p = None -> (forall q, aligned q -> q <> p -> same_page (kmw s) m' q) ->
  space m' R pd /\ forall b, pte_at m' pd b = pte_at (kmw s) pd b.
Proof.
  intros Hp Hs HR Hm. destruct (space_dir kend Hkend _ _ _ _ Hp Hs) as [Had _]. assert (same_tables (kmw s) m' pd) as Hst.
  { split; [apply Hm; [done|intros ->; by rewrite (sp_dir _ _ _ Hs) in HR]|]. intros i Hi E. destruct (space_table kend Hkend _ _ _ _ _ Hp Hs Hi E) as (Hta & _ & _ & _).
    apply Hm; [done|]. intros Eq. pose proof (sp_tab _ _ _ Hs i Hi E). congruence. }
  split; [eapply space_same; [done..|]|intros b; by apply pte_same]. split; [apply Hs|]. done.
Qed.
Lemma taken_space p s l R s1 pd : taken p s l R s1 -> space (kmw s) R pd -> space (kmw s1) R pd /\ forall b, pte_at (kmw s1) pd b = pte_at (kmw s) pd b.
Proof. intros [Hb _ (_ & _ & HR) Hm] Hs. by apply (apart_space s (p :: l) R pd p). Qed.
(** A page in hand is given back. *)
Lemma hand_back s l R pd p : pool s l R -> space (kmw s) R pd -> rpage kend p -> p ∉ pages l R ->
  exists s', kfree kend p s = Ret tt s' /\ pool s' (p :: l) R /\ space (kmw s') R pd /\ (forall b, pte_at (kmw s') pd b = pte_at (kmw s) pd b) /\
    forall q, aligned q -> q <> p -> same_page (kmw s) (kmw s') q.
Proof.
  intros Hp Hs Hr Hn. assert (p ∉ l) as Hl by (intros H; apply Hn, elem_pages; by left). assert (R !! p = None) as HR by (apply eq_None_not_Some; intros H; apply Hn, elem_pages; by right).
  destruct (kfree_hand kend s l R p Hp Hr Hl HR) as (s' & E & Hp' & Hm). assert (forall q, aligned q -> q <> p -> same_page (kmw s) (kmw s') q) as Hsame.
  { intros q Hq Hne w Hw. apply Hm. exact (page_words_disj q p w Hq (rpage_aligned kend Hkend p Hr) Hne Hw). }
  destruct (apart_space s l R pd p (kmw s') Hp Hs HR Hsame) as [Hs' Hpte]. by exists s'.
Qed.
Lemma map_hand_ok p s l R s1 pd a perm : taken p s l R s1 -> space (kmw s) R pd -> user_va a -> mapped (kmw s) pd a = false -> 0 <= perm < 4096 ->
  exists r s2 l2 R2, mappages pd a PGSIZE (V2P p) perm s1 = Ret r s2 /\ same_page (kmw s1) (kmw s2) p /\
    ((r = -1 /\ l2 = [] /\ grows kend ∅ pd s1 l R s2 l2 R2 /\ p ∉ pages l2 R2 /\ forall b, page_va b -> pte_at (kmw s2) pd b = pte_at (kmw s) pd b) \/
     (r = 0 /\ grows kend ∅ pd s (p :: l) R s2 l2 R2 /\
      forall b, page_va b -> pte_at (kmw s2) pd b = if decide (b = a) then Z.lor (Z.lor (V2P p) perm) PTE_P else pte_at (kmw s) pd b)).
Proof.
  intros Ht Hs Ha Hmap Hperm. destruct (taken_space _ _ _ _ _ _ Ht Hs) as [Hs1 Hpte1]. pose proof Ht as [Hb Hp (Hr & Hl & HR) Hm]. destruct (rpage_phys kend Hkend p Hr) as (Hpa & Ep & Hpr).
  pose proof (rpage_aligned kend Hkend p Hr) as Hap.
  assert (p <> pd) as Hpd by (intros ->; by rewrite (sp_dir _ _ _ Hs) in HR).
  destruct (map_one_ok kend Hkend s1 l R pd a (V2P p) perm (Some p) Hp Hs1 (user_page a Ha)) as (r & s2 & l2 & R2 & E & Hc);
    [unfold mapped; by rewrite Hpte1|done|vlia|done|done|].
  exists r, s2, l2, R2. split; [apply mappages_page; [by apply user_page|done|tauto]|].
  assert (forall X, grows kend X pd s1 l R s2 l2 R2 -> same_page (kmw s1) (kmw s2) p) as Hsame by (intros X Hg; apply (gr_mem _ _ _ _ _ _ _ _ _ Hg); [done..|]; intros i; by rewrite HR).
  destruct Hc as [(-> & -> & Hg & Hpte)|(-> & Hg & Hpte)]; (split; [by eapply Hsame|]).
  - left. split; [done|]. split; [done|]. split; [done|]. split; [|intros b Hb'; by rewrite Hpte, Hpte1].
    rewrite (gr_pages _ _ _ _ _ _ _ _ _ Hg), union_empty_l_L. intros [?|[? ?]]%elem_pages; [done|congruence].
  - right. split; [done|]. split; [|intros b Hb'; by rewrite Hpte, Hpte1].
    apply grows_intro; [apply Hg|apply Hg|by rewrite (gr_pages _ _ _ _ _ _ _ _ _ Hg), pages_cons|apply Hg|apply Hg|].
    intros q (Hqa & [Hqp Hql]%not_elem_of_cons & Hqd & Hqt). apply (same_page_trans _ (kmw s1)); [by apply Hm|]. by apply (gr_mem _ _ _ _ _ _ _ _ _ Hg).
Qed.
Lemma kalloc_taken p s l R s1 m1 : pool s (p :: l) R -> kalloc s = Ret p s1 -> kmw s1 = kmw s -> pool s1 l R -> rpage kend p /\ p ∉ l /\ R !! p = None ->
  (forall q, aligned q -> q <> p -> same_page (kmw s) m1 q) -> taken p s l R (upd s1 m1).
Proof.
  intros Hb E Hm Hp Hr Hs. split; [done| |done|done]. apply pool_write; [done|]. intros q w Hq Hw. rewrite Hm. apply (Hs q); [|intros ->; tauto|done].
  apply (rpage_aligned kend Hkend). by eapply pool_free_page.
Qed.
Lemma keep_after_clear m0 R0 pd s2 l2 R2 s3 l3 R3 lo hi : space m0 R0 pd -> R0 ⊆ R2 -> space (kmw s2) R2 pd -> shrinks kend pd s2 l2 R2 s3 l3 R3 ->
  cleared (kmw s2) (kmw s3) pd lo hi -> (forall b, page_va b -> lo <= b < hi -> mapped m0 pd b = false) -> R0 ⊆ R3.
Proof.
  intros Hs0 Hk Hs2 Hsh Hcl Hun. apply map_subseteq_spec. intros q r H0. pose proof (lookup_weaken _ _ _ _ H0 Hk) as H2. pose proof (sh_space _ _ _ _ _ _ _ _ Hsh) as Hs3.
  destruct (decide (belongs pd q r)) as [Hb|Hb].
  - destruct r as [|d i|d b]; cbn in Hb; subst.
    + apply Hs3.
    + by apply (sh_tab _ _ _ _ _ _ _ _ Hsh).
    + destruct (sp_leaf_only _ _ _ Hs0 q b H0) as (Hu & Hm0 & _). destruct (sp_leaf_only _ _ _ Hs2 q b H2) as (_ & Hm2 & ->).
      assert (pte_at (kmw s3) pd b = pte_at (kmw s2) pd b) as E by (rewrite (Hcl b (user_page b Hu)), decide_False; [done|]; intros Hr; rewrite (Hun b (user_page b Hu) Hr) in Hm0; done).
      unfold page_at. rewrite <-E. apply (sp_leaf _ _ _ Hs3); [done|]. unfold mapped. by rewrite E.
  - assert (others R3 pd !! q = Some r) as H3; [rewrite (sh_others _ _ _ _ _ _ _ _ Hsh), others_lookup, H2; by rewrite decide_False|].
    rewrite others_lookup in H3. destruct (R3 !! q); [case_decide; congruence|done].
Qed.
End Grow.
