(* ===== verification/XVmUser.v ===== *)
(** * The user's part of an address space

    The loops of [allocuvm], [copyuvm] and [copyout]. *)
From S2P Require Import Prelude Mmu XKalloc XVm XVmSpec XVmOps XVmKern.

(** The entry of a new user page. *)
Definition user_entry (p : Z) : Z := Z.lor (Z.lor (V2P p) (Z.lor PTE_W PTE_U)) PTE_P.
Lemma user_entry_U p : has (user_entry p) PTE_U = true.
Proof.
  unfold has, user_entry, PTE_W, PTE_U, PTE_P. change (Z.lor 2 4) with 6. rewrite !Z.land_lor_distr_l.
  destruct (Z.eqb_spec (Z.lor (Z.lor (Z.land (V2P p) 4) (Z.land 6 4)) (Z.land 1 4)) 0) as [E|]; [|done].
  apply Z.lor_eq_0_iff in E as [E _]. by apply Z.lor_eq_0_iff in E as [_ E].
Qed.
(** A page that was free is mapped at [b], and cleared. *)
Definition fresh_page (l : list Z) (m : gmap Z Z) (pd b : Z) : Prop :=
  exists p, p ∈ l /\ pte_at m pd b = user_entry p /\ forall w, w ∈ page_words p -> rdw m w = 0.

Section Alloc.
Context (kend : Z) (Hkend : KERNBASE < kend).
Implicit Types (R : gmap Z role) (m : gmap Z Z) (l : list Z) (s : kmem).
Notation pool := (pool kend).

(** ** Growing *)
Context (pd oldsz newsz : Z) (s0 : kmem) (l0 : list Z) (R0 : gmap Z role).
Context (Hp0 : pool s0 l0 R0) (Hs0 : space (kmw s0) R0 pd) (Hsz : 0 <= oldsz <= newsz) (Hnew : newsz < KERNBASE).
Notation a0 := (PGROUNDUP oldsz).
Context (Hun : forall b, page_va b -> a0 <= b < newsz -> mapped (kmw s0) pd b = false).

Record alloc_inv s l R (a : Z) : Prop := {
  ai_grows : grows kend ∅ pd s0 l0 R0 s l R;
  ai_done : forall b, user_va b -> a0 <= b < a -> fresh_page l0 (kmw s) pd b;
  ai_rest : forall b, page_va b -> ~ (a0 <= b < a) -> pte_at (kmw s) pd b = pte_at (kmw s0) pd b;
}.
(** The pages of the range that were mapped are unmapped again; [X] are pages
    in hand. *)
Lemma alloc_undo s l R X : pool s l R -> space (kmw s) R pd -> X ∪ pages l R = pages l0 R0 -> R0 ⊆ R -> others R pd = others R0 pd ->
  (forall q, outside pd l0 R0 q -> same_page (kmw s0) (kmw s) q) -> same_outside (kmw s0) (kmw s) pd a0 (newsz - a0) ->
  (forall q i, R !! q = Some (Tab pd i) -> R0 !! q = Some (Tab pd i) \/ q ∈ l0) ->
  exists s' l' R', deallocuvm kend pd newsz oldsz s = Ret (s32 oldsz) s' /\ pool s' l' R' /\ space (kmw s') R' pd /\ pages l' R' = pages l R /\ R0 ⊆ R' /\
    others R' pd = others R0 pd /\ (forall q, outside pd l0 R0 q -> same_page (kmw s0) (kmw s') q) /\ same_outside (kmw s0) (kmw s') pd a0 (newsz - a0) /\
    forall b, page_va b -> a0 <= b < newsz -> mapped (kmw s') pd b = false.
Proof.
  intros Hp Hs Hpg Hk Ho Hm Hpte Htab. destruct (deallocuvm_ok kend Hkend s l R pd newsz oldsz Hp Hs ltac:(lia) ltac:(lia)) as (s' & l' & R' & E & Hsh & Hcl).
  rewrite Z.min_r in E by lia. exists s', l', R'. split; [done|]. split; [apply Hsh|]. split; [apply Hsh|]. split; [apply Hsh|].
  assert (R0 ⊆ R') as Hk' by (eapply (keep_after_clear kend (kmw s0) R0 pd s l R); eauto). split; [done|]. split; [by rewrite (sh_others _ _ _ _ _ _ _ _ Hsh)|]. split; [|split].
  - intros q Hq. pose proof Hq as (Ha & Hl & Hd & Ht). apply (same_page_trans _ (kmw s)); [by apply Hm|]. apply (sh_mem _ _ _ _ _ _ _ _ Hsh); [done| |].
    + destruct (R0 !! q) as [r|] eqn:E0; [rewrite (lookup_weaken _ _ _ _ E0 Hk); by rewrite (lookup_weaken _ _ _ _ E0 Hk')|].
      assert (R !! q = None) as EN; [|rewrite EN; exact (lookup_weaken_None _ _ _ EN (sh_sub _ _ _ _ _ _ _ _ Hsh))].
      apply eq_None_not_Some. intros HR. assert (q ∈ pages l0 R0) as Hin by (rewrite <-Hpg; apply elem_of_union_r, elem_pages; by right). apply elem_pages in Hin as [?|[? ?]]; [done|congruence].
    + intros i [H|H]%Htab; [by apply (Ht i)|done].
  - intros b Hb Hr. rewrite (Hcl b Hb), decide_False by lia. apply Hpte; [done|lia].
  - intros b Hb Hr. unfold mapped. rewrite (Hcl b Hb), decide_True by lia. destruct (mapped (kmw s) pd b) eqn:Em; [done|]. exact Em.
Qed.
(** ** The loop *)
Definition npages (lo hi : Z) : Z := Z.max 0 ((hi - lo + 4095) / 4096).
Definition alloc_body : Z -> M kmem (Z + Z) := fun a =>
  if newsz <=? a then mret (inr newsz) else
  mem ← kalloc;
  if mem =? 0 then deallocuvm kend pd newsz oldsz;; mret (inr 0) else
  clear_page mem;;
  r ← mappages pd a PGSIZE (V2P mem) (Z.lor PTE_W PTE_U);
  if r <? 0 then deallocuvm kend pd newsz oldsz;; kfree kend mem;; mret (inr 0) else mret (inl (u32 (a + PGSIZE))).
Definition alloc_end r s' l' R' : Prop :=
  grows kend ∅ pd s0 l0 R0 s' l' R' /\ same_outside (kmw s0) (kmw s') pd a0 (newsz - a0) /\
  ((r = newsz /\ forall b, user_va b -> a0 <= b < newsz -> fresh_page l0 (kmw s') pd b) \/
   (r = 0 /\ too_few l0 (npages a0 newsz) /\ forall b, page_va b -> a0 <= b < newsz -> mapped (kmw s') pd b = false)).
Lemma alloc_inv_outside s l R a : alloc_inv s l R a -> a <= a0 + PGSIZE * npages a0 newsz -> aligned a0 -> same_outside (kmw s0) (kmw s) pd a0 (newsz - a0).
Proof.
  intros Hi Ha Hal b Hb Hr. apply (ai_rest _ _ _ _ Hi); [done|]. destruct Hb as [Hb _]. unfold npages in *. vlia.
Qed.
(** The invariant at the start of a round. *)
Definition at_page (a : Z) : Prop := user_va a /\ a0 <= a < newsz /\ aligned a0.
Lemma npages_at a : at_page a -> a0 + PGSIZE * ((a - a0) / 4096) = a /\ (a - a0) / 4096 + 1 <= npages a0 newsz.
Proof. intros ([Ha _] & Hr & Hal). unfold npages. vlia. Qed.
Lemma inv_leaf s l R a q b : alloc_inv s l R a -> R !! q = Some (Leaf pd b) -> R0 !! q = Some (Leaf pd b) \/ a0 <= b < a.
Proof.
  intros Hi HR. destruct (sp_leaf_only _ _ _ (gr_space _ _ _ _ _ _ _ _ _ (ai_grows _ _ _ _ Hi)) q b HR) as (Hb & Hm & ->).
  destruct (decide (a0 <= b < a)) as [|Hr]; [by right|left]. pose proof (ai_rest _ _ _ _ Hi b (user_page b Hb) Hr) as E. unfold page_at, mapped in *. rewrite E in *. by apply (sp_leaf _ _ _ Hs0).
Qed.
(** A fresh page stays one while further pages are mapped. *)
Lemma fresh_kept s l R s' l' R' b : pool s l R -> space (kmw s) R pd -> (forall q, q ∈ l0 -> rpage kend q) -> user_va b -> fresh_page l0 (kmw s) pd b ->
  grows kend ∅ pd s l R s' l' R' -> pte_at (kmw s') pd b = pte_at (kmw s) pd b -> fresh_page l0 (kmw s') pd b.
Proof.
  intros Hp Hs Hl0 Hb (p & Hin & Ep & Hz) Hg E. exists p. split; [done|]. split; [congruence|]. intros w Hw. rewrite <-(Hz w Hw).
  pose proof (Hl0 p Hin) as Hr. destruct (rpage_phys kend Hkend p Hr) as (Hpa & _ & Hpr). destruct (entry_value (V2P p) (Z.lor PTE_W PTE_U) Hpa ltac:(vlia) ltac:(by_vm)) as (_ & Hpres & Haddr & _).
  assert (R !! p = Some (Leaf pd b)) as HRp.
  { replace p with (page_at (kmw s) pd b); [apply (sp_leaf _ _ _ Hs); [done|]; unfold mapped; by rewrite Ep|]. unfold page_at, entry_page. rewrite Ep. unfold user_entry. rewrite Haddr. by apply (P2V_V2P kend). }
  apply (gr_mem _ _ _ _ _ _ _ _ _ Hg p); [by apply (rpage_aligned kend Hkend)|intros H; destruct (pl_free _ _ _ _ Hp p H); congruence| |intros i; by rewrite HRp|done].
  intros ->. rewrite (sp_dir _ _ _ Hs) in HRp. done.
Qed.
Lemma alloc_fail_none s R a : alloc_inv s [] R a -> at_page a -> exists s' l' R', alloc_body a s = Ret (inr 0) s' /\ alloc_end 0 s' l' R'.
Proof.
  intros Hi Hat. pose proof Hat as (Ha & Hr & Hal). pose proof (ai_grows _ _ _ _ Hi) as Hg. destruct (npages_at a Hat) as [Ea En].
  destruct (kalloc_none _ _ _ (gr_pool _ _ _ _ _ _ _ _ _ Hg)) as (s1 & E1 & Hp1 & Hm1).
  destruct (alloc_undo s1 [] R ∅ Hp1) as (s' & l' & R' & E & Hp' & Hs' & Hpg' & Hk' & Ho' & Hm' & Hpte' & Hun'); rewrite ?Hm1.
  - apply Hg.
  - by rewrite (gr_pages _ _ _ _ _ _ _ _ _ Hg), !union_empty_l_L.
  - apply Hg.
  - apply Hg.
  - intros q (Hq1 & Hq2 & Hq3 & Hq4). by apply (gr_mem _ _ _ _ _ _ _ _ _ Hg).
  - eapply alloc_inv_outside; [exact Hi|vlia|done].
  - apply Hg.
  - exists s', l', R'. unfold alloc_body. destruct (Z.leb_spec newsz a); [lia|]. exec_by E1. change (0 =? 0) with true. cbv iota. exec_by E. split; [done|].
    split; [apply grows_intro; [done|done|by rewrite Hpg', (gr_pages _ _ _ _ _ _ _ _ _ Hg), union_empty_l_L|done..]|]. split; [done|]. right. split; [done|]. split; [|done].
    pose proof (exhausted kend Hkend pd s0 l0 R0 s R [] a0 (npages a0 newsz) Hp0) as Hx. unfold too_few. apply Hx; [apply Hg| |apply Hg|done|unfold npages; lia|].
    + rewrite list_to_set_nil, (gr_pages _ _ _ _ _ _ _ _ _ Hg). by rewrite !union_empty_l_L.
    + intros q b HR. destruct (inv_leaf _ _ _ _ q b Hi HR); [by left|right]. vlia.
Qed.
Lemma alloc_step s l R p a : alloc_inv s (p :: l) R a -> at_page a ->
  (exists s' l' R', alloc_body a s = Ret (inl (a + PGSIZE)) s' /\ alloc_inv s' l' R' (a + PGSIZE)) \/
  exists s' l' R', alloc_body a s = Ret (inr 0) s' /\ alloc_end 0 s' l' R'.
Proof.
  intros Hi Hat. pose proof Hat as (Ha & Hr & Hal). pose proof (ai_grows _ _ _ _ Hi) as Hg. destruct (npages_at a Hat) as [Ea En].
  pose proof (gr_pool _ _ _ _ _ _ _ _ _ Hg) as Hp. pose proof (gr_space _ _ _ _ _ _ _ _ _ Hg) as Hs.
  destruct (kalloc_some _ _ _ _ _ Hp) as (s1 & E1 & Hp1 & Hm1 & Hrp & Hpl & HRp). destruct (rpage_range kend Hkend p Hrp) as (Hap & _ & Hpz).
  set (s2 := upd s1 (fillw (kmw s1) (page_words p) 0)).
  assert (taken kend p s l R s2) as Ht by (eapply kalloc_taken; [done|done|exact E1|done|done|done|intros q Hq Hne; rewrite Hm1; by apply same_page_fillw]).
  assert (mapped (kmw s) pd a = false) as Hma by (unfold mapped; rewrite (ai_rest _ _ _ _ Hi) by (by apply user_page || lia); apply Hun; [by apply user_page|lia]).
  destruct (map_hand_ok kend Hkend p s l R s2 pd a (Z.lor PTE_W PTE_U) Ht Hs Ha Hma ltac:(by_vm)) as (r & s3 & l3 & R3 & E3 & Hsp & Hc).
  assert (forall k : Z -> M kmem (Z + Z), (mem ← kalloc; if mem =? 0 then deallocuvm kend pd newsz oldsz;; mret (inr 0) else clear_page mem;;
    r ← mappages pd a PGSIZE (V2P mem) (Z.lor PTE_W PTE_U); if r <? 0 then deallocuvm kend pd newsz oldsz;; kfree kend mem;; mret (inr 0) else k r) s =
    (if r <? 0 then deallocuvm kend pd newsz oldsz;; kfree kend p;; mret (inr 0) else k r) s3) as Erun.
  { intros k. exec_by E1. rewrite (proj2 (Z.eqb_neq _ _) Hpz). exec_by (clear_page_run p s1 Hpz). by exec_by E3. }
  destruct Hc as [(-> & -> & Hg3 & Hnp & Hpte3)|(-> & Hg3 & Hpte3)].
  - right. destruct (alloc_undo s3 [] R3 {[p]} (gr_pool _ _ _ _ _ _ _ _ _ Hg3) (gr_space _ _ _ _ _ _ _ _ _ Hg3)) as (s' & l' & R' & E & Hp' & Hs' & Hpg' & Hk' & Ho' & Hm' & Hpte' & Hun').
    + rewrite (gr_pages _ _ _ _ _ _ _ _ _ Hg3), union_empty_l_L, <-pages_cons. by rewrite (gr_pages _ _ _ _ _ _ _ _ _ Hg), union_empty_l_L.
    + etrans; [apply Hg|apply Hg3].
    + rewrite (gr_others _ _ _ _ _ _ _ _ _ Hg3). apply Hg.
    + intros q Hq. destruct (grows_outside _ _ _ _ _ _ _ _ _ _ Hg Hq) as [(Hqa & [Hqp Hql]%not_elem_of_cons & Hqd & Hqt) Hsame]. apply (same_page_trans _ (kmw s)); [done|].
      apply (same_page_trans _ (kmw s2)); [by apply (tk_mem _ _ _ _ _ _ Ht)|by apply (gr_mem _ _ _ _ _ _ _ _ _ Hg3)].
    + intros b Hb Hbr. rewrite Hpte3 by done. apply (alloc_inv_outside _ _ _ _ Hi); [vlia|done..].
    + intros q i [H|H]%(gr_tab _ _ _ _ _ _ _ _ _ Hg3); [by apply (gr_tab _ _ _ _ _ _ _ _ _ Hg)|right]. apply (gr_free _ _ _ _ _ _ _ _ _ Hg). by right.
    + destruct (hand_back kend Hkend s' l' R' pd p Hp' Hs' Hrp) as (s4 & E4 & Hp4 & Hs4 & Hpte4 & Hm4); [by rewrite Hpg'|].
      exists s4, (p :: l'), R'. unfold alloc_body. destruct (Z.leb_spec newsz a); [lia|]. rewrite Erun. change (-1 <? 0) with true. cbv iota. exec_by E. exec_by E4. split; [done|]. split; [|split].
      * apply grows_intro; [done|done| |done|done|].
        -- rewrite pages_cons, Hpg', (gr_pages _ _ _ _ _ _ _ _ _ Hg3), union_empty_l_L, <-pages_cons. by rewrite (gr_pages _ _ _ _ _ _ _ _ _ Hg), union_empty_l_L.
        -- intros q Hq. apply (same_page_trans _ (kmw s')); [by apply Hm'|]. pose proof Hq as (Hqa & Hql & _). apply Hm4; [done|]. intros ->. apply Hql, (gr_free _ _ _ _ _ _ _ _ _ Hg). left.
      * intros b Hb Hbr. rewrite Hpte4. by apply Hpte'.
      * right. split; [done|]. split; [|intros b Hb Hbr; unfold mapped; rewrite Hpte4; by apply Hun'].
        pose proof (exhausted kend Hkend pd s0 l0 R0 s3 R3 [p] a0 ((a - a0) / 4096) Hp0) as Hx. unfold too_few. assert (zlen l0 <= zlen [p] + (a - a0) / 4096 + 1025); [|change (zlen [p]) with 1 in *; lia].
        apply Hx; [apply Hg3| | |done|vlia|].
        -- rewrite list_to_set_singleton_L, (gr_pages _ _ _ _ _ _ _ _ _ Hg3), union_empty_l_L, <-pages_cons. by rewrite (gr_pages _ _ _ _ _ _ _ _ _ Hg), union_empty_l_L.
        -- rewrite (gr_others _ _ _ _ _ _ _ _ _ Hg3). apply Hg.
        -- intros q b HR3. destruct (sp_leaf_only _ _ _ (gr_space _ _ _ _ _ _ _ _ _ Hg3) q b HR3) as (Hb & Hmb & ->). unfold mapped, page_at in *. rewrite Hpte3 in * by (by apply user_page).
           destruct (inv_leaf s (p :: l) R a (page_at (kmw s) pd b) b Hi) as [?|?]; [by apply (sp_leaf _ _ _ Hs)|by left|right; lia].
  - left. exists s3, l3, R3. unfold alloc_body. destruct (Z.leb_spec newsz a); [lia|]. rewrite Erun. change (0 <? 0) with false. cbv iota. rewrite u32_id by vlia. split; [done|].
    split.
    + pose proof (vgrows_trans _ _ _ _ _ _ _ _ _ _ _ _ _ Hg Hg3) as Hgg. by rewrite union_empty_l_L in Hgg.
    + intros b Hb Hbr. destruct (decide (b = a)) as [->|Hne].
      * exists p. split; [apply (gr_free _ _ _ _ _ _ _ _ _ Hg); left|]. split; [rewrite Hpte3 by (by apply user_page); by rewrite decide_True|].
        intros w Hw. rewrite (Hsp w Hw). unfold s2. cbn. by apply rdw_fillw_in.
      * apply (fresh_kept s (p :: l) R s3 l3 R3 b Hp Hs); [intros q Hq; eapply pool_free_page; [exact Hp0|done]|done| |done|rewrite Hpte3 by (by apply user_page); by rewrite decide_False].
        apply (ai_done _ _ _ _ Hi); [done|]. destruct Hb as [Hb _]. vlia.
    + intros b Hb Hbr. rewrite Hpte3 by done. rewrite decide_False by (intros ->; vlia). apply (ai_rest _ _ _ _ Hi); [done|]. unfold PGSIZE in *. lia.
Qed.
Lemma alloc_loop_ok n s l R a : alloc_inv s l R a -> aligned a -> a0 <= a -> a = a0 \/ a < newsz + PGSIZE -> newsz - a <= PGSIZE * Z.of_nat n ->
  exists r s' l' R', loop (S n) alloc_body a s = Ret r s' /\ alloc_end r s' l' R'.
Proof.
  assert (aligned a0 /\ 0 <= a0) as [Hal Hpos] by (rewrite PGROUNDUP_up by vlia; vlia).
  revert s l R a. induction n as [|n IH]; intros s l R a Hi Ha Hge Hlast Hn; (destruct (Z.leb_spec newsz a) as [Hle|Hlt];
    [rewrite (loop_end _ alloc_body a s newsz s) by (unfold alloc_body; by rewrite (proj2 (Z.leb_le _ _) Hle));
     exists newsz, s, l, R; split; [done|]; split; [apply Hi|]; split; [|left; split; [done|]; intros b Hb Hr; apply (ai_done _ _ _ _ Hi); [done|lia]];
     intros b Hb Hr; apply (ai_rest _ _ _ _ Hi); [done|]; destruct Hb as [Hb _]; destruct Hlast; vlia|]); [vlia|].
  assert (at_page a) as Hat by (split; [split; [done|lia]|done]). destruct l as [|p l].
  - destruct (alloc_fail_none s R a Hi Hat) as (s' & l' & R' & E & Hend). exists 0, s', l', R'. split; [by apply loop_end|done].
  - destruct (alloc_step s l R p a Hi Hat) as [(s1 & l1 & R1 & E & Hi1)|(s' & l' & R' & E & Hend)].
    + rewrite (loop_next _ _ _ _ _ _ E). apply (IH s1 l1 R1 (a + PGSIZE)); [done|vlia|unfold PGSIZE in *; lia|right; lia|unfold PGSIZE in *; lia].
    + exists 0, s', l', R'. split; [by apply loop_end|done].
Qed.
Lemma allocuvm_ok : exists r s' l' R', allocuvm kend pd oldsz newsz s0 = Ret r s' /\ alloc_end r s' l' R'.
Proof.
  unfold allocuvm. destruct (Z.leb_spec KERNBASE newsz); [lia|]. destruct (Z.ltb_spec newsz oldsz); [lia|].
  replace (Z.to_nat (newsz / PGSIZE + 2)) with (S (Z.to_nat (newsz / PGSIZE + 1))) by vlia.
  apply (alloc_loop_ok (Z.to_nat (newsz / PGSIZE + 1)) s0 l0 R0 a0).
  - split; [by apply vgrows_refl| |done]. intros b _. lia.
  - rewrite PGROUNDUP_up by vlia. vlia.
  - lia.
  - by left.
  - rewrite PGROUNDUP_up by vlia. vlia.
Qed.
End Alloc.
