(* ===== verification/XVmCopy.v ===== *)
(** * Copies of address spaces, and copies out of the kernel

    The loops of [copyuvm] and [copyout]. *)
From S2P Require Import Prelude Mmu XKalloc XVm XVmSpec XVmOps XVmKern XVmUser.

(** ** The words of a copied page *)
Lemma copy_page_in m v src j : 0 <= j < 1024 -> rdw (copy_page m v src) (v + 4 * j) = rdw m (src + 4 * j).
Proof.
  intros Hj. unfold copy_page. assert (j ∈ seqZ 0 1024) as Hin by (apply elem_of_seqZ; lia). induction (seqZ 0 1024) as [|i l IH]; [by apply elem_of_nil in Hin|].
  cbn [foldr]. destruct (decide (i = j)) as [->|Hne]; [by rewrite rdw_wrw_eq|]. rewrite rdw_wrw_ne by lia. apply IH. by apply elem_of_cons in Hin as [->|].
Qed.
Lemma copy_page_out m v src q : aligned q -> aligned v -> q <> v -> same_page m (copy_page m v src) q.
Proof.
  intros Hq Hv Hne w Hw. unfold copy_page. assert (forall i, i ∈ seqZ 0 1024 -> v + 4 * i <> w) as Hin.
  { intros i Hi%elem_of_seqZ <-. apply (page_words_disj q v _ Hq Hv Hne Hw). apply word_in_page. lia. }
  induction (seqZ 0 1024) as [|i l IH]; [done|]. cbn [foldr]. rewrite rdw_wrw_ne by (apply Hin; left). apply IH. intros j Hj. apply Hin. by right.
Qed.
(** The entry of a copy. *)
Lemma copied_entry v pa : is_u32 v -> has v PTE_P = true -> aligned pa -> is_u32 pa ->
  let e := Z.lor (Z.lor pa (PTE_FLAGS v)) PTE_P in PTE_FLAGS e = PTE_FLAGS v /\ PTE_ADDR e = pa /\ is_u32 e.
Proof.
  intros Hv Hp Hal Hpa e. assert (forall x, is_u32 x -> PTE_FLAGS x = x `mod` 4096) as HF.
  { intros x Hx. unfold PTE_FLAGS. rewrite u32_id by done. change 4095 with (2 ^ 12 - 1). by rewrite land_pow2_mod. }
  pose proof (HF v Hv) as Ev. destruct (entry_value pa (PTE_FLAGS v) Hal Hpa ltac:(rewrite Ev; vlia)) as (Hu & _ & Ha & Ee). fold e in Hu, Ha, Ee.
  split; [|by split]. rewrite HF by done. rewrite Ee.
  assert (Z.lor (PTE_FLAGS v) PTE_P = PTE_FLAGS v) as ->.
  { rewrite Ev. rewrite has_PTE_P_mod in Hp. assert (v `mod` 4096 = (v / 2) `mod` 2048 * 2 ^ 1 + 1) as -> by zlia. unfold PTE_P.
    rewrite <-(lor_disjoint_add _ 1 1) by (by_vm || lia). rewrite <-Z.lor_assoc. reflexivity. }
  rewrite Ev. vlia.
Qed.

Section Copy.
Context (kend kdata : Z) (Hkend : KERNBASE < kend) (Hdata : aligned kdata /\ KERNLINK < kdata < KERNBASE + PHYSTOP).
Implicit Types (R : gmap Z role) (m : gmap Z Z) (l : list Z) (s : kmem).
Notation pool := (pool kend).
Context (pd sz : Z) (s0 : kmem) (l0 : list Z) (R0 : gmap Z role).
Context (Hp0 : pool s0 l0 R0) (Hs0 : space (kmw s0) R0 pd) (Hsz : 0 <= sz <= KERNBASE).
Context (Hmap : forall b, user_va b -> b < sz -> mapped (kmw s0) pd b = true).
Notation m0 := (kmw s0).

(** The page of the child at [b] is a copy of the parent's. *)
Definition copied m (d b : Z) : Prop :=
  mapped m d b = true /\ PTE_FLAGS (pte_at m d b) = PTE_FLAGS (pte_at m0 pd b) /\ page_at m d b ∈ l0 /\
  forall j, 0 <= j < 1024 -> rdw m (page_at m d b + 4 * j) = rdw m0 (page_at m0 pd b + 4 * j).
(** Pages of the child come from the free list; all else is as it was. *)
Record copy_base (d : Z) s l R : Prop := {
  cp_pool : pool s l R;
  cp_space : space (kmw s) R d;
  cp_pages : pages l R = pages l0 R0;
  cp_others : others R d = R0;
  cp_free : forall q, q ∈ l -> q ∈ l0;
  cp_dir : d ∈ l0;
  cp_mem : forall q, aligned q -> q ∉ l0 -> same_page m0 (kmw s) q;
}.
Record copy_inv (d : Z) s l R (i : Z) : Prop := {
  cp_base : copy_base d s l R;
  cp_kernel : kernel_entries kdata (kmw s) d;
  cp_done : forall b, user_va b -> b < i -> copied (kmw s) d b;
  cp_rest : forall b, user_va b -> i <= b -> pte_at (kmw s) d b = 0;
}.
Lemma used_not_free q r : R0 !! q = Some r -> q ∉ l0.
Proof. intros Hq Hin. destruct (pl_free _ _ _ _ Hp0 q Hin). congruence. Qed.
Lemma role_kept d s l R q r : copy_base d s l R -> R0 !! q = Some r -> R !! q = Some r /\ ~ belongs d q r.
Proof. intros Hb Hq. rewrite <-(cp_others _ _ _ _ Hb), others_lookup in Hq. destruct (R !! q) as [r'|]; [|done]. case_decide; [done|]. by injection Hq as ->. Qed.
Lemma role_outside d s l R q : copy_base d s l R -> q ∉ l0 -> R !! q = R0 !! q.
Proof.
  intros Hb Hq. destruct (R0 !! q) as [r|] eqn:E; [by destruct (role_kept d s l R q r Hb E)|]. apply eq_None_not_Some. intros HR.
  assert (q ∈ pages l0 R0) as Hin by (rewrite <-(cp_pages _ _ _ _ Hb); apply elem_pages; by right). apply elem_pages in Hin as [?|[? ?]]; [done|congruence].
Qed.
(** The parent is as it was. *)
Lemma parent_kept d s l R : copy_base d s l R -> d <> pd /\ space (kmw s) R pd /\ forall b, pte_at (kmw s) pd b = pte_at m0 pd b.
Proof.
  intros Hb. assert (d <> pd) as Hne by (intros ->; exact (used_not_free pd Dir (sp_dir _ _ _ Hs0) (cp_dir _ _ _ _ Hb))). split; [done|].
  assert (same_tables m0 (kmw s) pd) as Hst.
  { split; [|intros j Hj E]; apply (cp_mem _ _ _ _ Hb).
    - by destruct (space_dir kend Hkend _ _ _ _ Hp0 Hs0).
    - eapply used_not_free, Hs0.
    - by destruct (space_table kend Hkend _ _ _ _ _ Hp0 Hs0 Hj E).
    - by destruct (space_table kend Hkend _ _ _ _ _ Hp0 Hs0 Hj E) as (_ & _ & _ & ?). }
  split; [|intros b; by apply pte_same]. eapply space_same; [exact Hs0|done|].
  assert (forall q r, ~ belongs d q r -> R !! q = Some r <-> R0 !! q = Some r) as Hr.
  { intros q r Hnb. rewrite <-(cp_others _ _ _ _ Hb), others_lookup. destruct (R !! q) as [r'|]; [|done]. case_decide; naive_solver. }
  split; [apply (Hr pd Dir); [cbn; congruence|apply Hs0]|]. split; intros q j; apply Hr; cbn; congruence.
Qed.
Lemma parent_page d s l R b : copy_base d s l R -> user_va b -> b < sz ->
  forall j, 0 <= j < 1024 -> rdw (kmw s) (page_at m0 pd b + 4 * j) = rdw m0 (page_at m0 pd b + 4 * j).
Proof.
  intros Hb Hu Hlt j Hj. pose proof (sp_leaf _ _ _ Hs0 b Hu (Hmap b Hu Hlt)) as HR.
  apply (cp_mem _ _ _ _ Hb (page_at m0 pd b)); [|by eapply used_not_free|by apply word_in_page]. apply (rpage_aligned kend Hkend), (pl_used _ _ _ _ Hp0 _ _ HR).
Qed.
(** The copy is abandoned. *)
Lemma copy_abandon d s l R : copy_base d s l R -> exists s' l', freevm kend d s = Ret tt s' /\ unchanged kend s0 l0 R0 s' l'.
Proof.
  intros Hb. destruct (freevm_ok kend Hkend s l R d (cp_pool _ _ _ _ Hb) (cp_space _ _ _ _ Hb)) as (s' & l' & E & Hp & Hpg & Hm). rewrite (cp_others _ _ _ _ Hb) in *.
  exists s', l'. split; [done|]. split; [done|]. split; [by rewrite Hpg; apply Hb|]. intros q Ha Hq. apply (same_page_trans _ (kmw s)); [by apply (cp_mem _ _ _ _ Hb)|].
  apply Hm; [done|]. symmetry. by eapply role_outside.
Qed.
Lemma copy_outside d s l R q : copy_base d s l R -> aligned q -> q ∉ l0 -> outside d l R q.
Proof.
  intros Hb Ha Hq. split; [done|]. split; [by intros ?%(cp_free _ _ _ _ Hb)|]. split; [intros ->; apply Hq, (cp_dir _ _ _ _ Hb)|].
  intros j HR. rewrite (role_outside _ _ _ _ _ Hb Hq) in HR. by destruct (role_kept _ _ _ _ _ _ Hb HR) as [_ []].
Qed.
Lemma others_fresh d s l R : copy_base d s l R -> others R0 d = R0.
Proof.
  intros Hb. apply map_eq. intros q. rewrite others_lookup. destruct (R0 !! q) as [r|] eqn:E; [|done]. destruct (role_kept _ _ _ _ _ _ Hb E) as [_ Hn]. by rewrite decide_False.
Qed.
Lemma copy_few d s l R i s2 R2 hs : copy_base d s l R -> user_va i -> i < sz -> pool s2 [] R2 -> space (kmw s2) R2 d -> list_to_set hs ∪ pages [] R2 = pages l0 R0 ->
  others R2 d = R0 -> (forall b, user_va b -> i <= b -> pte_at (kmw s2) d b = 0) -> zlen hs <= 1 -> too_few l0 (npages 0 sz).
Proof.
  intros Hb [Ha Hr] Hlt Hp2 Hs2 Hpg Ho Hz Hh. unfold too_few. assert (zlen l0 <= zlen hs + i / 4096 + 1025); [|unfold npages; vlia].
  apply (exhausted kend Hkend d s0 l0 R0 s2 R2 hs 0 (i / 4096)); [done..|by rewrite (others_fresh _ _ _ _ Hb)|vlia|vlia|]. intros q b HR. right.
  destruct (sp_leaf_only _ _ _ Hs2 q b HR) as (Hu & Hm & _). destruct (decide (i <= b)) as [Hge|]; [|destruct Hu; vlia].
  unfold mapped in Hm. rewrite (Hz b Hu Hge) in Hm. done.
Qed.
(** A step that maps the copy of the page at [i]. *)
Lemma copy_mapped d s l R i p s2 s3 l3 R3 : copy_inv d s (p :: l) R i -> user_va i -> i < sz -> taken kend p s l R s2 ->
  (forall j, 0 <= j < 1024 -> rdw (kmw s2) (p + 4 * j) = rdw m0 (page_at m0 pd i + 4 * j)) -> same_page (kmw s2) (kmw s3) p ->
  grows kend ∅ d s (p :: l) R s3 l3 R3 ->
  (forall b, page_va b -> pte_at (kmw s3) d b = if decide (b = i) then Z.lor (Z.lor (V2P p) (PTE_FLAGS (pte_at m0 pd i))) PTE_P else pte_at (kmw s) d b) ->
  copy_inv d s3 l3 R3 (i + PGSIZE).
Proof.
  intros Hi Hu Hlt Ht Hcont Hsp Hg Hpte. pose proof (cp_base _ _ _ _ _ Hi) as Hb. pose proof (user_page i Hu) as Hpi. destruct (tk_page _ _ _ _ _ _ Ht) as (Hrp & _ & _). split.
  - split.
    + apply Hg.
    + apply Hg.
    + rewrite (gr_pages _ _ _ _ _ _ _ _ _ Hg), union_empty_l_L. apply Hb.
    + rewrite (gr_others _ _ _ _ _ _ _ _ _ Hg). apply Hb.
    + intros q Hq%(gr_free _ _ _ _ _ _ _ _ _ Hg). by apply (cp_free _ _ _ _ Hb).
    + exact (cp_dir _ _ _ _ Hb).
    + intros q Ha Hq. apply (same_page_trans _ (kmw s)); [by apply (cp_mem _ _ _ _ Hb)|]. by destruct (grows_outside _ _ _ _ _ _ _ _ _ _ Hg (copy_outside _ _ _ _ q Hb Ha Hq)).
  - intros k b Hk Hpb Hin. rewrite Hpte by done. destruct (kmap_ok kdata Hdata k Hk) as [[_ Hv] _ _ _ _]. unfold in_map in Hin. rewrite decide_False by (intros ->; destruct Hu; lia).
    by apply (cp_kernel _ _ _ _ _ Hi).
  - intros b Hub Hlt'. destruct (decide (b = i)) as [->|Hne].
    + pose proof (sp_pte _ _ _ Hs0 i Hpi) as Hvu. destruct (rpage_phys kend Hkend p Hrp) as (Hpa & _ & Hpr).
      destruct (copied_entry (pte_at m0 pd i) (V2P p) Hvu (Hmap i Hu Hlt) Hpa ltac:(vlia)) as (HF & HA & _).
      assert (page_at (kmw s3) d i = p) as Epg by (unfold page_at, entry_page; rewrite Hpte, decide_True, HA by done; by apply (P2V_V2P kend)).
      unfold copied. rewrite Epg. unfold mapped. rewrite Hpte, decide_True by done. split; [|split; [done|split]].
      * apply (has_lor_P (Z.lor (V2P p) (PTE_FLAGS (pte_at m0 pd i)))).
      * apply (cp_free _ _ _ _ Hb). left.
      * intros j Hj. rewrite (Hsp _ (word_in_page p j Hj)). by apply Hcont.
    + assert (b < i) as Hbi by (destruct Hub, Hu; vlia). destruct (cp_done _ _ _ _ _ Hi b Hub Hbi) as (Hm & HF & Hin & Hc).
      assert (pte_at (kmw s3) d b = pte_at (kmw s) d b) as E by (rewrite Hpte by (by apply user_page); by rewrite decide_False).
      unfold copied, mapped, page_at. rewrite E. fold (mapped (kmw s) d b) (page_at (kmw s) d b). split; [done|]. split; [done|]. split; [done|]. intros j Hj. rewrite <-Hc by done.
      pose proof (sp_leaf _ _ _ (cp_space _ _ _ _ Hb) b Hub Hm) as HR. pose proof (cp_pool _ _ _ _ Hb) as Hp. pose proof (pl_used _ _ _ _ Hp _ _ HR) as Hru.
      apply (gr_mem _ _ _ _ _ _ _ _ _ Hg (page_at (kmw s) d b)); [by apply (rpage_aligned kend Hkend)|intros H; destruct (pl_free _ _ _ _ Hp _ H); congruence| |intros k; by rewrite HR|by apply word_in_page].
      intros Eq. rewrite Eq, (sp_dir _ _ _ (cp_space _ _ _ _ Hb)) in HR. done.
  - intros b Hub Hge. rewrite Hpte by (by apply user_page). rewrite decide_False by (unfold PGSIZE in *; lia). apply (cp_rest _ _ _ _ _ Hi); [done|unfold PGSIZE in *; lia].
Qed.
(** The copy fails for want of a table. *)
Lemma copy_unmapped d s l R i p s2 s3 R3 : copy_inv d s (p :: l) R i -> user_va i -> i < sz -> taken kend p s l R s2 -> grows kend ∅ d s2 l R s3 [] R3 -> p ∉ pages [] R3 ->
  (forall b, page_va b -> pte_at (kmw s3) d b = pte_at (kmw s) d b) ->
  exists s', kfree kend p s3 = Ret tt s' /\ copy_base d s' [p] R3 /\ too_few l0 (npages 0 sz).
Proof.
  intros Hi Hu Hlt Ht Hg Hnp Hpte. pose proof (cp_base _ _ _ _ _ Hi) as Hb. destruct (tk_page _ _ _ _ _ _ Ht) as (Hrp & _ & _).
  pose proof (gr_pool _ _ _ _ _ _ _ _ _ Hg) as Hp3. pose proof (gr_space _ _ _ _ _ _ _ _ _ Hg) as Hs3.
  assert ({[p]} ∪ pages [] R3 = pages l0 R0) as Hpg3 by (rewrite (gr_pages _ _ _ _ _ _ _ _ _ Hg), union_empty_l_L, <-pages_cons; apply Hb).
  assert (others R3 d = R0) as Ho3 by (rewrite (gr_others _ _ _ _ _ _ _ _ _ Hg); apply Hb).
  destruct (hand_back kend Hkend s3 [] R3 d p Hp3 Hs3 Hrp Hnp) as (s4 & E4 & Hp4 & Hs4 & _ & Hm4). exists s4. split; [done|]. split.
  - split; try done.
    + by rewrite pages_cons.
    + intros q ->%list_elem_of_singleton. apply (cp_free _ _ _ _ Hb). left.
    + exact (cp_dir _ _ _ _ Hb).
    + intros q Ha Hq. destruct (copy_outside _ _ _ _ q Hb Ha Hq) as (_ & [Hqp Hql]%not_elem_of_cons & Hqd & Hqt).
      apply (same_page_trans _ (kmw s)); [by apply (cp_mem _ _ _ _ Hb)|]. apply (same_page_trans _ (kmw s2)); [by apply (tk_mem _ _ _ _ _ _ Ht)|].
      apply (same_page_trans _ (kmw s3)); [by apply (gr_mem _ _ _ _ _ _ _ _ _ Hg)|]. apply Hm4; [done|by intros ->].
  - apply (copy_few d s (p :: l) R i s3 R3 [p]); [done..|by rewrite list_to_set_singleton_L|done| |by vm_compute].
    intros b Hub Hge. rewrite Hpte by (by apply user_page). by apply (cp_rest _ _ _ _ _ Hi).
Qed.
(** [copy_one] behind the checks of the parent's entry. *)
Definition copy_rest (d i : Z) : M kmem bool :=
  mem ← kalloc;
  if mem =? 0 then mret false else
  move_page mem (page_at m0 pd i);;
  r ← mappages d i PGSIZE (V2P mem) (PTE_FLAGS (pte_at m0 pd i));
  if r <? 0 then kfree kend mem;; mret false else mret true.
Lemma copy_one_run d s l R i : copy_base d s l R -> user_va i -> i < sz -> copy_one kend pd d i s = copy_rest d i s.
Proof.
  intros Hb Hu Hlt. destruct (parent_kept _ _ _ _ Hb) as (_ & Hsp & Hptep). pose proof (Hmap i Hu Hlt) as Hm.
  assert (mapped (kmw s) pd i = true) as Hms by (unfold mapped; by rewrite Hptep). destruct (mapped_table _ _ _ Hms) as [E Ev]. rewrite Hptep in Ev.
  destruct (walk_hit kend Hkend s l R pd i false (cp_pool _ _ _ _ Hb) Hsp E) as [Ew Hnz].
  unfold copy_one. exec_by Ew. rewrite (proj2 (Z.eqb_neq _ _) Hnz). exec_by (ldw_run _ s Hnz). rewrite <-Ev. unfold mapped in Hm. by rewrite Hm.
Qed.
Lemma copy_step d s l R i : copy_inv d s l R i -> user_va i -> i < sz ->
  (exists s' l' R', copy_one kend pd d i s = Ret true s' /\ copy_inv d s' l' R' (i + PGSIZE)) \/
  (exists s' l' R', copy_one kend pd d i s = Ret false s' /\ copy_base d s' l' R' /\ too_few l0 (npages 0 sz)).
Proof.
  intros Hi Hu Hlt. pose proof (cp_base _ _ _ _ _ Hi) as Hb. pose proof (cp_pool _ _ _ _ Hb) as Hp. pose proof (cp_space _ _ _ _ Hb) as Hs.
  rewrite (copy_one_run d s l R i Hb Hu Hlt). unfold copy_rest. destruct l as [|p l].
  - right. destruct (kalloc_none _ _ _ Hp) as (s1 & E1 & Hp1 & Hm1). exec_by E1. exists s1, [], R. split; [done|]. split.
    + destruct Hb. split; rewrite ?Hm1; done.
    + apply (copy_few d s [] R i s R []); [done..| | |apply (cp_rest _ _ _ _ _ Hi)|by vm_compute].
      * rewrite list_to_set_nil, union_empty_l_L. apply Hb.
      * apply Hb.
  - destruct (kalloc_some _ _ _ _ _ Hp) as (s1 & E1 & Hp1 & Hm1 & Hrp & Hpl & HRp). destruct (rpage_range kend Hkend p Hrp) as (Hap & _ & Hpz).
    exec_by E1. rewrite (proj2 (Z.eqb_neq _ _) Hpz). set (s2 := upd s1 (copy_page (kmw s1) p (page_at m0 pd i))). assert (move_page p (page_at m0 pd i) s1 = Ret tt s2) as E2 by done. exec_by E2.
    assert (taken kend p s l R s2) as Ht by (eapply kalloc_taken; [done|done|exact E1|done|done|done|intros q Hq Hne; rewrite Hm1; by apply copy_page_out]).
    assert (0 <= PTE_FLAGS (pte_at m0 pd i) < 4096) as HF by (unfold PTE_FLAGS; change 4095 with (2 ^ 12 - 1); rewrite land_pow2_mod by done; change (2 ^ 12) with 4096; zlia).
    assert (mapped (kmw s) d i = false) as Hmd by (unfold mapped; by rewrite (cp_rest _ _ _ _ _ Hi i Hu ltac:(lia))).
    destruct (map_hand_ok kend Hkend p s l R s2 d i _ Ht Hs Hu Hmd HF) as (r & s3 & l3 & R3 & E3 & Hcp & Hc). exec_by E3.
    destruct Hc as [(-> & -> & Hg3 & Hnp & Hpte3)|(-> & Hg3 & Hpte3)].
    + right. change (-1 <? 0) with true. cbv iota. destruct (copy_unmapped d s l R i p s2 s3 R3 Hi Hu Hlt Ht Hg3 Hnp Hpte3) as (s4 & E4 & Hb4 & Hfew). exec_by E4. eauto 6.
    + left. change (0 <? 0) with false. cbv iota. exists s3, l3, R3. split; [done|]. eapply copy_mapped; [exact Hi|done|done|exact Ht| |done|done|done].
      intros j Hj. cbn. rewrite copy_page_in by done. rewrite Hm1. by eapply parent_page.
Qed.
(** ** The loop *)
Definition copy_body (d : Z) : Z -> M kmem (Z + Z) := fun i =>
  if sz <=? i then mret (inr d) else
  ok ← copy_one kend pd d i;
  if ok : bool then mret (inl (u32 (i + PGSIZE))) else freevm kend d;; mret (inr 0).
Definition copy_end (r : Z) s' : Prop :=
  (r = 0 /\ too_few l0 (npages 0 sz) /\ exists l', unchanged kend s0 l0 R0 s' l') \/
  (r <> 0 /\ exists l' R', copy_base r s' l' R' /\ kernel_entries kdata (kmw s') r /\
    forall b, user_va b -> if decide (b < sz) then copied (kmw s') r b else pte_at (kmw s') r b = 0).
Lemma copy_loop_ok n d s l R i : d <> 0 -> copy_inv d s l R i -> aligned i -> 0 <= i < sz + PGSIZE -> sz - i <= PGSIZE * Z.of_nat n ->
  exists r s', loop (S n) (copy_body d) i s = Ret r s' /\ copy_end r s'.
Proof.
  intros Hd. revert s l R i. induction n as [|n IH]; intros s l R i Hi Ha Hr Hn; (destruct (Z.leb_spec sz i) as [Hle|Hlt];
    [rewrite (loop_end _ (copy_body d) i s d s) by (unfold copy_body; by rewrite (proj2 (Z.leb_le _ _) Hle));
     exists d, s; split; [done|]; right; split; [done|]; exists l, R; split; [apply Hi|]; split; [apply Hi|]; intros b Hb; case_decide;
     [apply (cp_done _ _ _ _ _ Hi); [done|lia]|apply (cp_rest _ _ _ _ _ Hi); [done|destruct Hb; vlia]]|]); [vlia|].
  assert (user_va i) as Hu by (split; [done|vlia]). destruct (copy_step d s l R i Hi Hu Hlt) as [(s1 & l1 & R1 & E & Hi1)|(s1 & l1 & R1 & E & Hb1 & Hfew)].
  - rewrite (loop_next _ (copy_body d) i s (i + PGSIZE) s1); [apply (IH s1 l1 R1); [done|vlia|unfold PGSIZE in *; lia|unfold PGSIZE in *; lia]|].
    unfold copy_body. rewrite (proj2 (Z.leb_gt _ _) Hlt). exec_by E. by rewrite u32_id by vlia.
  - destruct (copy_abandon d s1 l1 R1 Hb1) as (s2 & l2 & E2 & Hun). exists 0, s2. split; [|left; eauto].
    apply loop_end. unfold copy_body. rewrite (proj2 (Z.leb_gt _ _) Hlt). exec_by E. by exec_by E2.
Qed.
Lemma copyuvm_ok : exists r s', copyuvm kend kdata pd sz s0 = Ret r s' /\ copy_end r s'.
Proof.
  unfold copyuvm. destruct (setupkvm_ok kend kdata Hkend Hdata s0 l0 R0 Hp0) as (d & s1 & l1 & E & Hc). exec_by E. destruct Hc as [(-> & Hfew & Hun)|(Hd & R1 & Hn)].
  - exists 0, s1. split; [done|]. left. split; [done|]. split; [unfold too_few, npages in *; lia|eauto].
  - rewrite (proj2 (Z.eqb_neq _ _) Hd). replace (Z.to_nat (sz / PGSIZE + 2)) with (S (Z.to_nat (sz / PGSIZE + 1))) by vlia.
    apply (copy_loop_ok (Z.to_nat (sz / PGSIZE + 1)) d s1 l1 R1 0); [done| |done|unfold PGSIZE; lia|vlia]. destruct Hn as [H1 H2 [H3 _] H4 H5 H6 H7 H8 H9 H10].
    split; [by split|done|intros b [_ Hb]; lia|intros b Hb _; by apply H10].
Qed.
End Copy.
