(* ===== verification/XVmOut.v ===== *)
(** * Writing into user memory: [copyout]

    Bytes of user memory, as the user sees them, and what [copyout] makes of
    them. *)
From S2P Require Import Prelude Bytes Mmu XKalloc XVm XVmSpec XVmOps.

(** ** Bytes of words *)
Lemma byte_shift_cases a : byte_shift a = 1 /\ a `mod` 4 = 0 \/ byte_shift a = 256 /\ a `mod` 4 = 1 \/ byte_shift a = 65536 /\ a `mod` 4 = 2 \/ byte_shift a = 16777216 /\ a `mod` 4 = 3.
Proof. unfold byte_shift. assert (a `mod` 4 = 0 \/ a `mod` 4 = 1 \/ a `mod` 4 = 2 \/ a `mod` 4 = 3) as [E|[E|[E|E]]] by zlia; rewrite E; tauto. Qed.
Lemma mbyte_put m a x b : mbyte (put_mbyte m a x) b = if decide (b = a) then u8 x else mbyte m b.
Proof.
  unfold put_mbyte. destruct (decide (word_addr b = word_addr a)) as [Ew|Ew].
  - unfold mbyte at 1. rewrite Ew, rdw_wrw_eq. unfold mbyte at 1. case_decide as Eb.
    + subst b. generalize (rdw m (word_addr a)). intros w. unfold u8. destruct (byte_shift_cases a) as [[-> _]|[[-> _]|[[-> _]|[-> _]]]]; zlia.
    + assert (b `mod` 4 <> a `mod` 4) as Hne by (unfold word_addr in Ew; lia). unfold mbyte. rewrite Ew. generalize (rdw m (word_addr a)). intros w. unfold u8.
      destruct (byte_shift_cases a) as [[-> ?]|[[-> ?]|[[-> ?]|[-> ?]]]], (byte_shift_cases b) as [[-> ?]|[[-> ?]|[[-> ?]|[-> ?]]]]; try congruence; clear -x; rewrite ?Z.div_1_r, ?Z.mul_1_r; zlia.
  - rewrite decide_False by (intros ->; done). unfold mbyte. by rewrite rdw_wrw_ne.
Qed.
Lemma mbyte_puts m a l b : mbyte (put_mbytes m a l) b = match zget l (b - a) with Some x => u8 x | None => mbyte m b end.
Proof.
  revert m a. induction l as [|x l IH]; intros m a; [by rewrite zget_none by (unfold zlen; cbn; lia)|]. cbn [put_mbytes]. rewrite IH, zget_cons.
  replace (b - (a + 1)) with (b - a - 1) by lia. case_decide as E.
  - rewrite zget_none by lia. rewrite mbyte_put, decide_True by lia. done.
  - case_match; [done|]. by rewrite mbyte_put, decide_False by lia.
Qed.
Lemma word_addr_in p a : aligned p -> p <= a < p + PGSIZE -> word_addr a ∈ page_words p.
Proof. intros Hp Ha. apply elem_page_words. exists ((a - p) / 4). unfold word_addr. vlia. Qed.
(** Pages of the same words have the same bytes. *)
Lemma same_words_bytes m m' p q j : aligned p -> aligned q -> 0 <= j < 4096 -> (forall k, 0 <= k < 1024 -> rdw m' (p + 4 * k) = rdw m (q + 4 * k)) -> mbyte m' (p + j) = mbyte m (q + j).
Proof.
  intros Hp Hq Hj Hk. unfold mbyte, word_addr, byte_shift. assert ((p + j) `mod` 4 = j `mod` 4 /\ (q + j) `mod` 4 = j `mod` 4) as [-> ->] by vlia.
  replace (p + j - j `mod` 4) with (p + 4 * (j / 4)) by zlia. replace (q + j - j `mod` 4) with (q + 4 * (j / 4)) by zlia. rewrite Hk by zlia. done.
Qed.
Lemma put_mbytes_page m p a l q : aligned p -> aligned q -> q <> p -> p <= a -> a + zlen l <= p + PGSIZE -> same_page m (put_mbytes m a l) q.
Proof.
  intros Hp Hq Hne. revert m a. induction l as [|x l IH]; intros m a Ha Hl; [done|]. rewrite zlen_cons in Hl. pose proof (zlen_nonneg l). cbn [put_mbytes].
  apply (same_page_trans _ (put_mbyte m a x)); [|apply IH; lia]. apply same_page_wrw. intros Hin.
  apply (page_words_disj q p _ Hq Hp Hne Hin). apply word_addr_in; [done|lia].
Qed.

Section Out.
Context (kend : Z) (Hkend : KERNBASE < kend).
Implicit Types (R : gmap Z role) (m : gmap Z Z) (l : list Z) (s : kmem).
Notation pool := (pool kend).

Definition va_page (x : Z) : Z := x - x `mod` 4096.
(** The byte that the user sees at [x]. *)
Definition ubyte_at m pd x : Z := mbyte m (page_at m pd (va_page x) + x `mod` 4096).
(** The page at [a] is the user's to access. *)
Definition accessible m pd a : bool := mapped m pd a && has (pte_at m pd a) PTE_U.
Lemma va_page_user x : 0 <= x < KERNBASE -> user_va (va_page x).
Proof. intros Hx. unfold va_page. split; vlia. Qed.

(** ** Writing into a page *)
Lemma write_leaf s l R pd a off ch : pool s l R -> space (kmw s) R pd -> user_va a -> mapped (kmw s) pd a = true -> 0 <= off -> off + zlen ch <= PGSIZE ->
  let s' := upd s (put_mbytes (kmw s) (page_at (kmw s) pd a + off) ch) in
  pool s' l R /\ space (kmw s') R pd /\ (forall b, pte_at (kmw s') pd b = pte_at (kmw s) pd b) /\
  (forall q, aligned q -> q <> page_at (kmw s) pd a -> same_page (kmw s) (kmw s') q) /\
  forall x, 0 <= x < KERNBASE -> mapped (kmw s) pd (va_page x) = true ->
    ubyte_at (kmw s') pd x = match zget ch (x - (a + off)) with Some c => u8 c | None => ubyte_at (kmw s) pd x end.
Proof.
  intros Hp Hs Ha Hm Ho Hl s'. pose proof (sp_leaf _ _ _ Hs a Ha Hm) as HR. set (p := page_at (kmw s) pd a) in *. pose proof (zlen_nonneg ch) as Hz.
  pose proof (rpage_aligned kend Hkend p (pl_used _ _ _ _ Hp _ _ HR)) as Hpa.
  assert (forall q, aligned q -> q <> p -> same_page (kmw s) (kmw s') q) as Hsame by (intros q Hq Hne; apply (put_mbytes_page (kmw s) p); [done..|lia|lia]).
  assert (same_tables (kmw s) (kmw s') pd) as Hst.
  { destruct (space_dir kend Hkend _ _ _ _ Hp Hs) as [Had _]. split; [apply Hsame; [done|]|intros i Hi E; apply Hsame].
    - intros Eq. pose proof (sp_dir _ _ _ Hs) as Hd. rewrite Eq in Hd. congruence.
    - by destruct (space_table kend Hkend _ _ _ _ _ Hp Hs Hi E).
    - intros Eq. pose proof (sp_tab _ _ _ Hs i Hi E). congruence. }
  assert (forall b, pte_at (kmw s') pd b = pte_at (kmw s) pd b) as Hpte by (intros b; by apply pte_same).
  split; [|split; [|split; [done|split; [done|]]]].
  - apply pool_write; [done|]. intros q w Hq Hw. apply (Hsame q); [|intros ->; destruct (pl_free _ _ _ _ Hp p Hq); congruence|done].
    apply (rpage_aligned kend Hkend). by eapply pool_free_page.
  - eapply space_same; [exact Hs|done|]. split; [apply Hs|]. done.
  - intros x Hx Hmx. unfold ubyte_at. assert (page_at (kmw s') pd (va_page x) = page_at (kmw s) pd (va_page x)) as -> by (unfold page_at; by rewrite Hpte).
    pose proof (va_page_user x Hx) as Hux. pose proof (sp_leaf _ _ _ Hs _ Hux Hmx) as HRx. change (kmw s') with (put_mbytes (kmw s) (p + off) ch). destruct (decide (va_page x = a)) as [Ea|Ea].
    + rewrite Ea. fold p. rewrite mbyte_puts. replace (p + x `mod` 4096 - (p + off)) with (x - (a + off)) by (rewrite <-Ea; unfold va_page; lia). done.
    + rewrite zget_none by (destruct Ha; unfold va_page in Ea; vlia). assert (page_at (kmw s) pd (va_page x) <> p) as Hne by congruence.
      pose proof (rpage_aligned kend Hkend _ (pl_used _ _ _ _ Hp _ _ HRx)) as Hqa. unfold mbyte. f_equal. f_equal.
      apply (Hsame _ Hqa Hne). apply word_addr_in; [done|]. unfold PGSIZE. pose proof (Z.mod_pos_bound x 4096). lia.
Qed.

(** ** The loop *)
Definition has_table m pd a : bool := has (pde m pd (PDX a)) PTE_P.
Lemma uva2ka_run s l R pd a : pool s l R -> space (kmw s) R pd -> user_va a ->
  uva2ka pd a s = if has_table (kmw s) pd a then Ret (if accessible (kmw s) pd a then page_at (kmw s) pd a else 0) s else UB.
Proof.
  intros Hp Hs Ha. unfold uva2ka, has_table, accessible, mapped. destruct (has (pde (kmw s) pd (PDX a)) PTE_P) eqn:E.
  - destruct (walk_hit kend Hkend s l R pd a false Hp Hs E) as [Ew Hnz]. exec_by Ew. exec_by (ldw_run _ s Hnz).
    replace (rdw (kmw s) (pte_addr (kmw s) pd a)) with (pte_at (kmw s) pd a) by (unfold pte_at; by rewrite E).
    destruct (has (pte_at (kmw s) pd a) PTE_P); [|done]. by destruct (has (pte_at (kmw s) pd a) PTE_U).
  - by exec_by (walk_miss kend Hkend s l R pd a Hp Hs E).
Qed.
(** [n] bytes of [buf] have been written at [va], nothing else has changed. *)
Record wrote (pd va n : Z) (buf : list Z) s l R s' : Prop := {
  wr_pool : pool s' l R;
  wr_space : space (kmw s') R pd;
  wr_ptes : forall b, pte_at (kmw s') pd b = pte_at (kmw s) pd b;
  wr_mem : forall q, aligned q -> (forall b, R !! q <> Some (Leaf pd b)) -> same_page (kmw s) (kmw s') q;
  wr_bytes : forall x, 0 <= x < KERNBASE -> mapped (kmw s) pd (va_page x) = true ->
    ubyte_at (kmw s') pd x = match zget (take (Z.to_nat n) buf) (x - va) with Some c => u8 c | None => ubyte_at (kmw s) pd x end;
}.
(** The first [n] bytes of the range are the user's, and [n] is all of them or
    the next is not. *)
Record reach m pd va (buf : list Z) (n : Z) : Prop := {
  rc_range : 0 <= n <= zlen buf;
  rc_good : forall x, va <= x < va + n -> accessible m pd (va_page x) = true;
  rc_stop : n = zlen buf \/ accessible m pd (va_page (va + n)) = false;
}.
Definition copyout_end s l R pd va buf (n : Z) (o : outcome kmem Z) : Prop :=
  if (n <? zlen buf) && negb (has_table (kmw s) pd (va_page (va + n))) then o = UB
  else exists s', o = Ret (if n =? zlen buf then 0 else -1) s' /\ wrote pd va n buf s l R s'.
Definition out_body (pd : Z) : Z * list Z -> M kmem (Z * list Z + Z) := fun '(va, buf) =>
  if zlen buf =? 0 then mret (inr 0) else
  let va0 := PGROUNDDOWN va in
  pa0 ← uva2ka pd va0;
  if pa0 =? 0 then mret (inr (-1)) else
  let n := Z.min (PGSIZE - (va - va0)) (zlen buf) in
  move_bytes (pa0 + (va - va0)) (take (Z.to_nat n) buf);;
  mret (inl (u32 (va0 + PGSIZE), drop (Z.to_nat n) buf)).
Lemma wrote_nothing s l R pd va buf : pool s l R -> space (kmw s) R pd -> wrote pd va 0 buf s l R s.
Proof. intros Hp Hs. split; try done. intros x _ _. change (Z.to_nat 0) with 0%nat. rewrite take_0, zget_none; [done|]. change (zlen []) with 0. lia. Qed.
Lemma wrote_app s l R pd va c n buf s1 s2 : 0 <= c <= zlen buf -> 0 <= n <= zlen buf - c ->
  wrote pd va c buf s l R s1 -> wrote pd (va + c) n (drop (Z.to_nat c) buf) s1 l R s2 -> wrote pd va (c + n) buf s l R s2.
Proof.
  intros Hc Hn [Hp1 Hs1 Hpt1 Hm1 Hb1] [Hp2 Hs2 Hpt2 Hm2 Hb2]. split; [done|done|intros b; by rewrite Hpt2, Hpt1|..].
  - intros q Hq Hr. apply (same_page_trans _ (kmw s1)); [by apply Hm1|by apply Hm2].
  - intros x Hx Hmx. rewrite Hb2 by (try done; unfold mapped; by rewrite Hpt1). rewrite Hb1 by done.
    rewrite Z2Nat.inj_add, <-take_take_drop by lia. rewrite zget_app. rewrite zlen_take by lia. case_decide as Hlt.
    + rewrite zget_none by lia. done.
    + rewrite (zget_none (take (Z.to_nat c) buf)) by (rewrite zlen_take by lia; lia). by replace (x - va - c) with (x - (va + c)) by lia.
Qed.
(** A round that finds the page of [va] accessible. *)
Definition chunk va (buf : list Z) : Z := Z.min (PGSIZE - va `mod` 4096) (zlen buf).
Lemma out_round s l R pd va buf : pool s l R -> space (kmw s) R pd -> 0 <= va < KERNBASE -> 0 < zlen buf -> accessible (kmw s) pd (va_page va) = true ->
  exists s', out_body pd (va, buf) s = Ret (inl (va_page va + PGSIZE, drop (Z.to_nat (chunk va buf)) buf)) s' /\ wrote pd va (chunk va buf) buf s l R s'.
Proof.
  intros Hp Hs Hva Hb Hacc. pose proof (va_page_user va Hva) as Hu. assert (PGROUNDDOWN va = va_page va) as Epg by (apply PGROUNDDOWN_sub; vlia).
  assert (va - va_page va = va `mod` 4096) as Eoff by (unfold va_page; lia). pose proof (Z.mod_pos_bound va 4096 ltac:(lia)) as Hmod.
  pose proof Hacc as Hm. unfold accessible in Hm. apply andb_prop in Hm as [Hm _]. pose proof (sp_leaf _ _ _ Hs _ Hu Hm) as HR.
  destruct (rpage_range kend Hkend _ (pl_used _ _ _ _ Hp _ _ HR)) as (_ & _ & Hpz). pose proof (uva2ka_run s l R pd (va_page va) Hp Hs Hu) as Eu.
  unfold has_table in Eu. rewrite (proj1 (mapped_table _ _ _ Hm)), Hacc in Eu. fold (chunk va buf).
  assert (0 <= chunk va buf <= zlen buf /\ va `mod` 4096 + chunk va buf <= PGSIZE) as [Hc1 Hc2] by (unfold chunk, PGSIZE in *; lia).
  destruct (write_leaf s l R pd (va_page va) (va `mod` 4096) (take (Z.to_nat (chunk va buf)) buf) Hp Hs Hu Hm ltac:(lia) ltac:(by rewrite zlen_take)) as (Hp' & Hs' & Hpte' & Hm' & Hb').
  set (s' := upd s _) in *. exists s'. split.
  - unfold out_body. rewrite (proj2 (Z.eqb_neq (zlen buf) 0)) by lia. cbv zeta. rewrite Epg, Eoff. exec_by Eu. rewrite (proj2 (Z.eqb_neq _ _) Hpz). fold (chunk va buf).
    unfold move_bytes. exec. unfold put. exec. rewrite u32_id; [reflexivity|]. destruct Hu. vlia.
  - split; [done|done|done|..].
    + intros q Hq Hr. apply Hm'; [done|]. intros ->. by apply (Hr (va_page va)).
    + intros x Hx Hmx. rewrite (Hb' x Hx Hmx). by replace (x - (va_page va + va `mod` 4096)) with (x - va) by lia.
Qed.
Lemma reach_app m pd va (buf : list Z) c n : 0 <= c <= zlen buf -> (forall x, va <= x < va + c -> accessible m pd (va_page x) = true) ->
  reach m pd (va + c) (drop (Z.to_nat c) buf) n -> reach m pd va buf (c + n).
Proof.
  intros Hc Hg [Hr Hg2 Hs]. rewrite zlen_drop in Hr, Hs by done. split; [lia|..].
  - intros x Hx. destruct (decide (x < va + c)); [apply Hg; lia|apply Hg2; lia].
  - replace (va + (c + n)) with (va + c + n) by lia. destruct Hs; [left; lia|by right].
Qed.
Lemma out_loop_ok k s l R pd va buf : pool s l R -> space (kmw s) R pd -> 0 <= va -> va + zlen buf <= KERNBASE -> zlen buf + va `mod` 4096 <= PGSIZE * Z.of_nat k ->
  exists n, reach (kmw s) pd va buf n /\ copyout_end s l R pd va buf n (loop (S k) (out_body pd) (va, buf) s).
Proof.
  revert s va buf. induction k as [|k IH]; intros s va buf Hp Hs Hva Hend Hk; pose proof (zlen_nonneg buf) as Hz; pose proof (Z.mod_pos_bound va 4096 ltac:(lia)) as Hmod;
    (destruct (decide (zlen buf = 0)) as [E0|E0];
    [exists 0; split; [split; [lia|lia|by left]|]; unfold copyout_end; rewrite E0; cbn [Z.ltb Z.compare andb]; exists s; split; [|by apply wrote_nothing];
     apply loop_end; unfold out_body; by rewrite E0|]); [lia|].
  assert (va < KERNBASE) as Hlt by lia. pose proof (va_page_user va ltac:(lia)) as Hu. assert (PGROUNDDOWN va = va_page va) as Epg by (apply PGROUNDDOWN_sub; vlia).
  destruct (accessible (kmw s) pd (va_page va)) eqn:Hacc.
  - destruct (out_round s l R pd va buf Hp Hs ltac:(lia) ltac:(lia) Hacc) as (s1 & E1 & Hw). rewrite (loop_next _ _ _ _ _ _ E1). set (c := chunk va buf) in *.
    assert (0 < c <= zlen buf /\ va `mod` 4096 + c <= PGSIZE) as [Hc1 Hc2] by (unfold c, chunk, PGSIZE in *; lia).
    assert (forall x, va <= x < va + c -> accessible (kmw s) pd (va_page x) = true) as Hgood.
    { intros x Hx. replace (va_page x) with (va_page va); [done|]. unfold va_page, PGSIZE in *. zlia. }
    destruct (decide (zlen buf = c)) as [Ec|Ec].
    { exists c. split; [split; [lia|done|by left]|]. unfold copyout_end. rewrite Ec, Z.ltb_irrefl, Z.eqb_refl. exists s1. split; [|done]. apply loop_end.
      assert (drop (Z.to_nat c) buf = []) as -> by (apply drop_ge; unfold zlen in Ec; lia). done. }
    assert (va_page va + PGSIZE = va + c) as Enx by (unfold c, chunk, va_page, PGSIZE in *; lia). rewrite Enx.
    pose proof Hw as [Hp1 Hs1 Hpt1 Hm1 _].
    destruct (IH s1 (va + c) (drop (Z.to_nat c) buf) Hp1 Hs1) as (n & Hr & Hend'); rewrite ?zlen_drop by lia; [lia|lia|unfold c, chunk, va_page, PGSIZE in *; zlia|].
    assert (forall b, accessible (kmw s1) pd b = accessible (kmw s) pd b) as Ha1 by (intros b; unfold accessible, mapped; by rewrite Hpt1).
    assert (forall b, has_table (kmw s1) pd b = has_table (kmw s) pd b) as Ht1.
    { intros b. unfold has_table. rewrite (pde_same (kmw s)); [done| |apply PDX_range]. apply Hm1; [by destruct (space_dir kend Hkend _ _ _ _ Hp Hs)|]. intros a. by rewrite (sp_dir _ _ _ Hs). }
    exists (c + n). split; [apply reach_app; [lia|done|]; destruct Hr as [H1 H2 H3]; split; [done|intros x Hx; rewrite <-Ha1; by apply H2|by rewrite <-Ha1]|].
    pose proof (rc_range _ _ _ _ _ Hr) as Hnr. rewrite zlen_drop in Hnr by lia. unfold copyout_end in *. rewrite zlen_drop, Ht1 in Hend' by lia.
    replace (c + n <? zlen buf) with (n <? zlen buf - c) by lia. replace (c + n =? zlen buf) with (n =? zlen buf - c) by lia. replace (va + (c + n)) with (va + c + n) by lia.
    destruct ((n <? zlen buf - c) && negb (has_table (kmw s) pd (va_page (va + c + n)))); [done|]. destruct Hend' as (s2 & E2 & Hw2). exists s2. split; [done|].
    apply (wrote_app s l R pd va c n buf s1 s2); [lia|lia|done|done].
  - exists 0. split; [split; [lia|lia|right; by rewrite Z.add_0_r]|]. unfold copyout_end. rewrite Z.add_0_r. replace (0 <? zlen buf) with true by lia. replace (0 =? zlen buf) with false by lia.
    pose proof (uva2ka_run s l R pd (va_page va) Hp Hs Hu) as Eu. rewrite Hacc in Eu. cbn [andb]. destruct (has_table (kmw s) pd (va_page va)); cbn [negb].
    + exists s. split; [|by apply wrote_nothing]. apply loop_end. unfold out_body. rewrite (proj2 (Z.eqb_neq _ _) E0). rewrite Epg. by exec_by Eu.
    + apply loop_ub. unfold out_body. rewrite (proj2 (Z.eqb_neq _ _) E0). rewrite Epg. unfold mbind, M_bind. by rewrite Eu.
Qed.
Lemma copyout_ok s l R pd va buf : pool s l R -> space (kmw s) R pd -> 0 <= va -> va + zlen buf <= KERNBASE ->
  exists n, reach (kmw s) pd va buf n /\ copyout_end s l R pd va buf n (copyout pd va buf s).
Proof.
  intros Hp Hs Hva Hend. unfold copyout. pose proof (zlen_nonneg buf). replace (Z.to_nat (zlen buf / PGSIZE + 3)) with (S (Z.to_nat (zlen buf / PGSIZE + 2))) by vlia.
  apply (out_loop_ok (Z.to_nat (zlen buf / PGSIZE + 2)) s l R pd va buf); [done..|]. vlia.
Qed.
End Out.
