(* ===== verification/XVmInv.v ===== *)
(** * All address spaces of xv6 together

    The invariant [vm_inv] of the address spaces, the free pages and the pages
    that other parts of the kernel hold, and that every call of [XVm] keeps it. *)
From S2P Require Import Prelude Bytes Mmu XKalloc XVm XVmSpec XVmOps XVmKern XVmUser XVmCopy XVmOut.

Section Inv.
Context (kend kdata : Z) (Hkend : KERNBASE < kend) (Hdata : aligned kdata /\ KERNLINK < kdata < KERNBASE + PHYSTOP).
Implicit Types (R : gmap Z role) (m : gmap Z Z) (l : list Z) (s : kmem).
Notation pool := (pool kend).

(** ** Taking a page from the user *)
Lemma no_user_bit v : is_u32 v -> let v' := Z.land v (Z.lnot PTE_U) in
  is_u32 v' /\ has v' PTE_P = has v PTE_P /\ has v' PTE_U = false /\ PTE_ADDR v' = PTE_ADDR v.
Proof.
  intros Hv v'. assert (forall k, Z.land v' k = Z.land v (Z.land (Z.lnot PTE_U) k)) as E by (intros k; unfold v'; by rewrite Z.land_assoc).
  assert (is_u32 v') as Hu.
  { assert (v' = u32 v') as ->; [|apply u32_range]. unfold u32. change 4294967296 with (2 ^ 32). rewrite <-land_pow2_mod by done. rewrite E.
    rewrite (Z.land_comm (Z.lnot PTE_U)), Z.land_assoc, land_pow2_mod by done. rewrite Z.mod_small by exact Hv. done. }
  split; [done|]. unfold has, PTE_ADDR. rewrite !u32_id by done. rewrite !E. split; [done|]. split; [|done]. change (Z.land (Z.lnot PTE_U) PTE_U) with 0. by rewrite Z.land_0_r.
Qed.
Lemma clearpteu_ok s l R pd a : pool s l R -> space (kmw s) R pd -> user_va a -> mapped (kmw s) pd a = true ->
  exists s', clearpteu pd a s = Ret tt s' /\ pool s' l R /\ space (kmw s') R pd /\
    (forall b, page_va b -> mapped (kmw s') pd b = mapped (kmw s) pd b /\ page_at (kmw s') pd b = page_at (kmw s) pd b /\
       accessible (kmw s') pd b = accessible (kmw s) pd b && negb (b =? a)) /\
    forall q, aligned q -> (forall i, R !! q <> Some (Tab pd i)) -> same_page (kmw s) (kmw s') q.
Proof.
  intros Hp Hs Ha Hm. pose proof (user_page a Ha) as Hpa. destruct (mapped_table _ _ _ Hm) as [E Ev]. destruct (walk_hit kend Hkend s l R pd a false Hp Hs E) as [Ew Hnz].
  destruct (no_user_bit _ (sp_pte _ _ _ Hs a Hpa)) as (Hu & HP & HU & HA). set (v := pte_at (kmw s) pd a) in *.
  destruct (store_entry kend Hkend s l R R pd a (Z.land v (Z.lnot PTE_U)) Hp Hs Hpa E Hu (sp_dir _ _ _ Hs)) as (Hs' & Hpte & Hp' & Hm').
  - done.
  - intros q b. case_decide as Eb; [subst b|done]. rewrite HP. unfold entry_page. rewrite HA. split; [intros HR; by destruct (sp_leaf_only _ _ _ Hs q a HR)|].
    intros (_ & _ & ->). by apply (sp_leaf _ _ _ Hs).
  - eexists. split; [unfold clearpteu; exec_by Ew; rewrite (proj2 (Z.eqb_neq _ _) Hnz); exec_by (ldw_run _ s Hnz); rewrite <-Ev; fold v; by apply stw_run|].
    split; [done|]. split; [done|]. split; [|done]. intros b Hb. unfold accessible, mapped, page_at. cbn [kmw upd set_free]. rewrite Hpte by done. destruct (decide (b = a)) as [->|Hne].
    + fold v. unfold entry_page. rewrite HP, HU, HA, Z.eqb_refl. by rewrite !andb_false_r.
    + rewrite (proj2 (Z.eqb_neq _ _) Hne). by rewrite andb_true_r.
Qed.

(** ** Other address spaces *)
Lemma other_space s l R pd s' R' pd' : pool s l R -> space (kmw s) R pd' -> pd <> pd' -> others R' pd = others R pd ->
  (forall q r, aligned q -> R !! q = Some r -> ~ belongs pd q r -> same_page (kmw s) (kmw s') q) ->
  space (kmw s') R' pd' /\ forall b, pte_at (kmw s') pd' b = pte_at (kmw s) pd' b.
Proof.
  intros Hp Hs Hne Ho Hm. assert (same_tables (kmw s) (kmw s') pd') as Hst.
  { destruct (space_dir kend Hkend _ _ _ _ Hp Hs) as [Had _]. split; [|intros i Hi E].
    - apply (Hm pd' Dir); [done|apply Hs|]. cbn. congruence.
    - apply (Hm _ (Tab pd' i)); [by destruct (space_table kend Hkend _ _ _ _ _ Hp Hs Hi E)|by apply (sp_tab _ _ _ Hs)|]. cbn. congruence. }
  split; [|intros b; by apply pte_same]. eapply space_same; [exact Hs|done|].
  assert (forall q r, ~ belongs pd q r -> R' !! q = Some r <-> R !! q = Some r) as Hr.
  { intros q r Hnb. pose proof (others_lookup R' pd q) as E'. rewrite Ho, others_lookup in E'.
    destruct (R !! q) as [r1|], (R' !! q) as [r2|]; repeat case_decide; naive_solver. }
  split; [apply (Hr pd' Dir); [cbn; congruence|apply Hs]|]. split; intros q j; apply Hr; cbn; congruence.
Qed.
Lemma grows_other X pd s l R s' l' R' pd' : pool s l R -> grows kend X pd s l R s' l' R' -> space (kmw s) R pd' -> pd <> pd' ->
  space (kmw s') R' pd' /\ forall b, pte_at (kmw s') pd' b = pte_at (kmw s) pd' b.
Proof.
  intros Hp Hg Hs Hne. apply (other_space s l R pd); [done..|apply Hg|]. intros q r Ha HR Hb. apply (gr_mem _ _ _ _ _ _ _ _ _ Hg); [done| | |].
  - intros Hin. destruct (pl_free _ _ _ _ Hp q Hin). congruence.
  - intros ->. destruct r; cbn in Hb; [done|..].
    all: pose proof (sp_dir _ _ _ (gr_space _ _ _ _ _ _ _ _ _ Hg)) as Hd; rewrite (lookup_weaken _ _ _ _ HR (gr_keep _ _ _ _ _ _ _ _ _ Hg)) in Hd; done.
  - intros i Hi. rewrite HR in Hi. injection Hi as ->. by apply Hb.
Qed.
Lemma shrinks_other pd s l R s' l' R' pd' : pool s l R -> shrinks kend pd s l R s' l' R' -> space (kmw s) R pd' -> pd <> pd' ->
  space (kmw s') R' pd' /\ forall b, pte_at (kmw s') pd' b = pte_at (kmw s) pd' b.
Proof.
  intros Hp Hg Hs Hne. apply (other_space s l R pd); [done..|apply Hg|]. intros q r Ha HR Hb. apply (sh_mem _ _ _ _ _ _ _ _ Hg); [done| |].
  - rewrite HR. pose proof (others_lookup R' pd q) as E. rewrite (sh_others _ _ _ _ _ _ _ _ Hg), others_lookup, HR, decide_False in E by done.
    destruct (R' !! q); [case_decide; congruence|done].
  - intros i Hi. rewrite HR in Hi. injection Hi as ->. by apply Hb.
Qed.

(** ** All of them together *)

(** The address spaces there are, with the size of the user's part as the
    process table keeps it, and the pages that other parts of the kernel hold. *)
Record vmsys := mk_vmsys { vk : kmem; vspaces : gmap Z Z; vheld : list Z }.
Record vm_inv (all : gset Z) s l R (sp : gmap Z Z) (h : list Z) : Prop := {
  vi_pool : pool s l R;
  vi_space : forall pd sz, sp !! pd = Some sz -> space (kmw s) R pd /\ 0 <= sz < KERNBASE /\ forall b, user_va b -> mapped (kmw s) pd b = (b <? sz);
  vi_roles : forall p r, R !! p = Some r -> exists pd, is_Some (sp !! pd) /\ belongs pd p r;
  vi_held : NoDup h /\ forall p, p ∈ h -> rpage kend p /\ p ∉ pages l R;
  vi_all : list_to_set h ∪ pages l R = all;
}.
Lemma inv_update all s l R sp h pd s' l' R' sz' : vm_inv all s l R sp h -> pool s' l' R' -> pages l' R' = pages l R -> others R' pd = others R pd -> space (kmw s') R' pd ->
  (forall pd', pd <> pd' -> space (kmw s) R pd' -> space (kmw s') R' pd' /\ forall b, pte_at (kmw s') pd' b = pte_at (kmw s) pd' b) ->
  0 <= sz' < KERNBASE -> (forall b, user_va b -> mapped (kmw s') pd b = (b <? sz')) -> vm_inv all s' l' R' (<[pd := sz']> sp) h.
Proof.
  intros [Hp Hs Hr Hh Ha] Hp' Hpg Ho Hs' Hother Hsz Hm. split; [done|..].
  - intros pd' sz [[<- <-]|[Hne H]]%lookup_insert_Some; [done|]. destruct (Hs pd' sz H) as (H1 & H2 & H3). destruct (Hother pd' Hne H1) as [H4 H5].
    split; [done|]. split; [done|]. intros b Hb. unfold mapped. rewrite H5. by apply H3.
  - intros p r Hpr. destruct (decide (belongs pd p r)) as [Hb|Hb]; [exists pd; split; [rewrite lookup_insert_eq; eauto|done]|].
    assert (others R' pd !! p = Some r) as E by (rewrite others_lookup, Hpr; by rewrite decide_False). rewrite Ho, others_lookup in E.
    destruct (R !! p) as [r'|] eqn:Er; [|done]. case_decide; [done|]. injection E as ->. destruct (Hr p r Er) as (pd' & Hpd' & Hb'). exists pd'. split; [|done].
    destruct (decide (pd = pd')) as [<-|]; [by rewrite lookup_insert_eq; eauto|by rewrite lookup_insert_ne].
  - by rewrite Hpg.
  - by rewrite Hpg.
Qed.
Lemma inv_same_space all s l R sp h pd sz : vm_inv all s l R (<[pd := sz]> sp) h -> sp !! pd = Some sz -> vm_inv all s l R sp h.
Proof. intros Hi E. by rewrite insert_id in Hi. Qed.
Lemma others_none R pd : (forall p r, R !! p = Some r -> ~ belongs pd p r) -> others R pd = R.
Proof. intros H. apply map_eq. intros p. rewrite others_lookup. destruct (R !! p) as [r|] eqn:E; [|done]. rewrite decide_False; [done|by apply H]. Qed.

(** [growproc] upwards, and a caller of [allocuvm] in general. *)
Lemma grow_inv all s l R sp h pd sz newsz : vm_inv all s l R sp h -> sp !! pd = Some sz -> is_u32 newsz ->
  exists r s' l' R', allocuvm kend pd sz newsz s = Ret r s' /\ vm_inv all s' l' R' (if r =? 0 then sp else <[pd := r]> sp) h.
Proof.
  intros Hi E Hn. pose proof (vi_pool _ _ _ _ _ _ Hi) as Hp. destruct (vi_space _ _ _ _ _ _ Hi pd sz E) as (Hs & Hsz & Hm).
  destruct (Z.leb_spec KERNBASE newsz) as [Hbig|Hbig].
  { exists 0, s, l, R. split; [|done]. unfold allocuvm. by rewrite (proj2 (Z.leb_le _ _) Hbig). }
  destruct (Z.ltb_spec newsz sz) as [Hlt|Hge].
  { exists sz, s, l, R. split; [unfold allocuvm; rewrite (proj2 (Z.leb_gt _ _) Hbig), (proj2 (Z.ltb_lt _ _) Hlt); rewrite s32_id by (unfold KERNBASE in *; lia); done|].
    destruct (sz =? 0); [done|]. by rewrite insert_id. }
  assert (0 <= sz <= newsz) as Hr by lia. assert (PGROUNDUP sz = (sz + 4095) / 4096 * 4096) as Eup by (apply PGROUNDUP_up; unfold KERNBASE in *; lia).
  assert (forall b, user_va b -> PGROUNDUP sz <= b <-> sz <= b) as Hup by (intros b [Hb _]; rewrite Eup; vlia).
  destruct (allocuvm_ok kend Hkend pd sz newsz s l R Hp Hs Hr Hbig) as (r & s' & l' & R' & Ea & Hg & Hout & Hc).
  { intros b Hb Hbr. assert (user_va b) as Hub by (destruct Hb; split; [done|vlia]). rewrite Hm by done. apply Z.ltb_ge. apply Hup; [done|lia]. }
  exists r, s', l', R'. split; [done|]. assert (forall z, 0 <= z < KERNBASE -> (forall b, user_va b -> mapped (kmw s') pd b = (b <? z)) -> vm_inv all s' l' R' (<[pd := z]> sp) h) as Hfin.
  { intros z Hz Hmz. apply (inv_update all s l R sp h pd s' l' R' z Hi); [apply Hg|by rewrite (gr_pages _ _ _ _ _ _ _ _ _ Hg), union_empty_l_L|apply Hg|apply Hg| |done|done].
    intros pd' Hne Hs'. by apply (grows_other ∅ pd s l R s' l' R'). }
  assert (forall b, user_va b -> ~ (PGROUNDUP sz <= b < newsz) -> mapped (kmw s') pd b = (b <? sz)) as Hrest.
  { intros b Hb Hn'. unfold mapped. rewrite Hout by (by apply user_page || lia). by apply Hm. }
  destruct Hc as [[-> Hfresh]|(-> & _ & Hun)].
  - assert (vm_inv all s' l' R' (<[pd := newsz]> sp) h) as Hnew.
    { apply Hfin; [lia|]. intros b Hb. destruct (decide (PGROUNDUP sz <= b < newsz)) as [Hin|Hin].
      - destruct (Hfresh b Hb Hin) as (p & _ & Ee & _). unfold mapped. rewrite Ee. rewrite (proj2 (Z.ltb_lt _ _)) by lia. apply (has_lor_P (Z.lor (V2P p) (Z.lor PTE_W PTE_U))).
      - rewrite Hrest by done. pose proof (Hup b Hb). lia. }
    destruct (Z.eqb_spec newsz 0) as [E0|]; [|done]. apply (inv_same_space _ _ _ _ _ _ pd newsz); [done|]. rewrite E. f_equal. lia.
  - cbn. apply (inv_same_space _ _ _ _ _ _ pd sz); [|done]. apply Hfin; [done|]. intros b Hb. destruct (decide (PGROUNDUP sz <= b < newsz)) as [Hin|Hin].
    + rewrite Hun by (by apply user_page || lia). symmetry. apply Z.ltb_ge. apply Hup; [done|lia].
    + by apply Hrest.
Qed.
Lemma shrink_inv all s l R sp h pd sz newsz : vm_inv all s l R sp h -> sp !! pd = Some sz -> is_u32 newsz ->
  exists r s' l' R', deallocuvm kend pd sz newsz s = Ret r s' /\ r = Z.min sz newsz /\ vm_inv all s' l' R' (<[pd := r]> sp) h.
Proof.
  intros Hi E Hn. pose proof (vi_pool _ _ _ _ _ _ Hi) as Hp. destruct (vi_space _ _ _ _ _ _ Hi pd sz E) as (Hs & Hsz & Hm).
  destruct (Z.leb_spec sz newsz) as [Hle|Hgt].
  { exists sz, s, l, R. split; [unfold deallocuvm; rewrite (proj2 (Z.leb_le _ _) Hle); rewrite s32_id by (unfold KERNBASE in *; lia); done|]. split; [lia|]. by rewrite insert_id. }
  assert (PGROUNDUP newsz = (newsz + 4095) / 4096 * 4096) as Eup by (apply PGROUNDUP_up; unfold KERNBASE, is_u32 in *; lia).
  destruct (deallocuvm_ok kend Hkend s l R pd sz newsz Hp Hs ltac:(unfold is_u32 in *; lia) ltac:(lia)) as (s' & l' & R' & Ed & Hg & Hcl).
  rewrite Z.min_r, s32_id in Ed by (unfold KERNBASE, is_u32 in *; lia). exists newsz, s', l', R'. split; [done|]. split; [lia|].
  apply (inv_update all s l R sp h pd s' l' R' newsz Hi); [apply Hg|apply Hg|apply Hg|apply Hg| |unfold is_u32 in *; lia|].
  - intros pd' Hne Hs'. by apply (shrinks_other pd s l R s' l' R').
  - intros b Hb. pose proof (Hm b Hb) as Hmb. unfold mapped in *. rewrite (Hcl b (user_page b Hb)). destruct Hb as [Hal Hbr]. case_decide as Hc.
    + assert ((if mapped (kmw s) pd b then 0 else pte_at (kmw s) pd b) = (if b <? sz then 0 else pte_at (kmw s) pd b)) as -> by (unfold mapped; by rewrite Hmb).
      rewrite (proj2 (Z.ltb_lt b sz)) by lia. symmetry. change (has 0 PTE_P) with false. rewrite Eup in Hc. apply Z.ltb_ge. vlia.
    + rewrite Hmb. rewrite Eup in Hc. destruct (Z.ltb_spec b sz), (Z.ltb_spec b newsz); try done; vlia.
Qed.
(** Memory changes outside of the pages with a role. *)
Lemma inv_memory all s l R sp h s' l' h' : vm_inv all s l R sp h -> pool s' l' R -> (forall q, aligned q -> is_Some (R !! q) -> same_page (kmw s) (kmw s') q) ->
  NoDup h' /\ (forall p, p ∈ h' -> rpage kend p /\ p ∉ pages l' R) -> list_to_set h' ∪ pages l' R = all -> vm_inv all s' l' R sp h'.
Proof.
  intros [Hp Hs Hr Hh Ha] Hp' Hm Hh' Ha'. split; [done| |done|done|done]. intros pd sz E. destruct (Hs pd sz E) as (H1 & H2 & H3).
  destruct (other_space s l R (pd + 1) s' R pd) as [H4 H5]; [done|done|lia|done|intros q r Hq Hqr _; apply Hm; [done|eauto]|].
  split; [done|]. split; [done|]. intros b Hb. unfold mapped. rewrite H5. by apply H3.
Qed.
Lemma inv_unchanged all s l R sp h s' l' : vm_inv all s l R sp h -> unchanged kend s l R s' l' -> vm_inv all s' l' R sp h.
Proof.
  intros Hi (Hp' & Hpg & Hm). apply (inv_memory all s l R sp h s' l' h Hi Hp').
  - intros q Hq [r Hr]. apply Hm; [done|]. intros Hin. destruct (pl_free _ _ _ _ (vi_pool _ _ _ _ _ _ Hi) q Hin). congruence.
  - destruct Hi. by rewrite Hpg.
  - destruct Hi. by rewrite Hpg.
Qed.
(** A new space, made of pages that were free. *)
Lemma inv_new all s l R sp h pd s' l' R' sz : vm_inv all s l R sp h -> pool s' l' R' -> space (kmw s') R' pd -> pages l' R' = pages l R -> others R' pd = R ->
  pd ∈ l -> (forall q, aligned q -> q ∉ l -> same_page (kmw s) (kmw s') q) -> 0 <= sz < KERNBASE -> (forall b, user_va b -> mapped (kmw s') pd b = (b <? sz)) ->
  vm_inv all s' l' R' (<[pd := sz]> sp) h.
Proof.
  intros Hi Hp' Hs' Hpg Ho Hin Hm Hsz Hmap. pose proof (vi_pool _ _ _ _ _ _ Hi) as Hp.
  assert (others R' pd = others R pd) as Ho' by (rewrite <-Ho; by rewrite others_idem).
  apply (inv_update all s l R sp h pd s' l' R' sz Hi); try done. intros pd' Hne Hspc. apply (other_space s l R pd); [done..|]. intros q r Hq Hqr _. apply Hm; [done|].
  intros Hl. destruct (pl_free _ _ _ _ Hp q Hl). congruence.
Qed.
(** The directory of a new space is that of no other. *)
Lemma fresh_dir all s l R sp h d : vm_inv all s l R sp h -> d ∈ l -> sp !! d = None.
Proof.
  intros Hi Hd. apply eq_None_not_Some. intros [sz E]. pose proof (sp_dir _ _ _ (proj1 (vi_space _ _ _ _ _ _ Hi d sz E))) as HR.
  destruct (pl_free _ _ _ _ (vi_pool _ _ _ _ _ _ Hi) d Hd). congruence.
Qed.
Lemma setup_inv all s l R sp h : vm_inv all s l R sp h ->
  exists d s' l' R', setupkvm kend kdata s = Ret d s' /\ (d = 0 \/ sp !! d = None) /\ (2052 <= zlen l -> d <> 0 /\ 1026 < zlen l') /\
    vm_inv all s' l' R' (if d =? 0 then sp else <[d := 0]> sp) h.
Proof.
  intros Hi. destruct (setupkvm_ok kend kdata Hkend Hdata s l R (vi_pool _ _ _ _ _ _ Hi)) as (d & s' & l' & E & [(-> & Hf & Hun)|(Hd & R' & [H1 H2 [H3 H3'] H4 H5 H6 H7 H8 H9 H10])]).
  - exists 0, s', l', R. split; [done|]. split; [by left|]. split; [unfold too_few in Hf; lia|]. by apply (inv_unchanged all s l R).
  - exists d, s', l', R'. split; [done|]. split; [right; by apply (fresh_dir all s l R sp h)|]. split.
    + intros Hl. split; [done|]. pose proof (exhausted kend Hkend d s l R s' R' l' 0 0 (vi_pool _ _ _ _ _ _ Hi) H2) as Hx.
      assert (zlen l <= zlen l' + 0 + 1025); [|lia]. apply Hx; [by rewrite <-H4; unfold pages; rewrite list_to_set_nil, union_empty_l_L|by rewrite <-H6, others_idem|done|done|].
      intros q b Hq. destruct (sp_leaf_only _ _ _ H2 q b Hq) as (Hb & Hmb & _). unfold mapped in Hmb. rewrite H10 in Hmb by done. done.
    + rewrite (proj2 (Z.eqb_neq _ _) Hd). apply (inv_new all s l R sp h d s' l' R'); try done.
      intros b Hb. unfold mapped. rewrite H10 by done. change (has 0 PTE_P) with false. destruct Hb. lia.
Qed.
Lemma fork_inv all s l R sp h pd sz : vm_inv all s l R sp h -> sp !! pd = Some sz ->
  exists d s' l' R', copyuvm kend kdata pd sz s = Ret d s' /\ (d = 0 \/ sp !! d = None) /\ vm_inv all s' l' R' (if d =? 0 then sp else <[d := sz]> sp) h.
Proof.
  intros Hi E. pose proof (vi_pool _ _ _ _ _ _ Hi) as Hp. destruct (vi_space _ _ _ _ _ _ Hi pd sz E) as (Hs & Hsz & Hm).
  destruct (copyuvm_ok kend kdata Hkend Hdata pd sz s l R Hp Hs ltac:(lia)) as (d & s' & Ec & Hc); [intros b Hb Hlt; rewrite Hm by done; by apply Z.ltb_lt|].
  destruct Hc as [(-> & _ & l' & Hun)|(Hd & l' & R' & [H1 H2 H3 H4 H5 H6 H7] & _ & Hpt)].
  - exists 0, s', l', R. split; [done|]. split; [by left|]. by apply (inv_unchanged all s l R).
  - exists d, s', l', R'. split; [done|]. split; [right; by apply (fresh_dir all s l R sp h)|].
    rewrite (proj2 (Z.eqb_neq _ _) Hd). apply (inv_new all s l R sp h d s' l' R'); try done.
    intros b Hb. specialize (Hpt b Hb). case_decide as Hlt.
    + destruct Hpt as (-> & _). symmetry. by apply Z.ltb_lt.
    + unfold mapped. rewrite Hpt. symmetry. apply Z.ltb_ge. lia.
Qed.
Lemma free_inv all s l R sp h pd sz : vm_inv all s l R sp h -> sp !! pd = Some sz ->
  exists s' l' R', freevm kend pd s = Ret tt s' /\ vm_inv all s' l' R' (delete pd sp) h.
Proof.
  intros Hi E. pose proof (vi_pool _ _ _ _ _ _ Hi) as Hp. destruct (vi_space _ _ _ _ _ _ Hi pd sz E) as (Hs & _ & _).
  destruct (freevm_ok kend Hkend s l R pd Hp Hs) as (s' & l' & Ef & Hp' & Hpg & Hm). exists s', l', (others R pd). split; [done|]. destruct Hi as [_ Hspc Hr Hh Ha].
  split; [done| | |by rewrite Hpg|by rewrite Hpg].
  - intros pd' sz' [Hne H]%lookup_delete_Some. destruct (Hspc pd' sz' H) as (H1 & H2 & H3).
    destruct (other_space s l R pd s' (others R pd) pd' Hp H1 Hne (others_idem R pd)) as [H4 H5].
    { intros q r Hq Hqr Hb. apply Hm; [done|]. rewrite others_lookup, Hqr. by rewrite decide_False. }
    split; [done|]. split; [done|]. intros b Hb. unfold mapped. rewrite H5. by apply H3.
  - intros p r Hpr. rewrite others_lookup in Hpr. destruct (R !! p) as [r'|] eqn:Er; [|done]. case_decide as Hb; [done|]. injection Hpr as ->.
    destruct (Hr p r Er) as (pd' & Hpd' & Hb'). exists pd'. split; [|done]. rewrite lookup_delete_ne; [done|]. by intros ->.
Qed.
Lemma copyout_inv all s l R sp h pd sz va buf r s' : vm_inv all s l R sp h -> sp !! pd = Some sz -> 0 <= va -> va + zlen buf <= KERNBASE ->
  copyout pd va buf s = Ret r s' -> vm_inv all s' l R sp h.
Proof.
  intros Hi E Hva Hend Ec. pose proof (vi_pool _ _ _ _ _ _ Hi) as Hp. destruct (vi_space _ _ _ _ _ _ Hi pd sz E) as (Hs & Hsz & Hm).
  destruct (copyout_ok kend Hkend s l R pd va buf Hp Hs Hva Hend) as (n & _ & Ho). unfold copyout_end in Ho. rewrite Ec in Ho.
  destruct ((n <? zlen buf) && negb (has_table (kmw s) pd (va_page (va + n)))); [done|]. destruct Ho as (s2 & [= _ <-] & [H1 H2 H3 H4 _]).
  apply (inv_same_space _ _ _ _ _ _ pd sz); [|done]. apply (inv_update all s l R sp h pd s' l R sz Hi); try done.
  - intros pd' Hne Hspc. apply (other_space s l R pd); [done..|]. intros q r' Hq Hqr Hb. apply H4; [done|]. intros b Hqb. rewrite Hqr in Hqb. injection Hqb as ->. by apply Hb.
  - intros b Hb. unfold mapped. rewrite H3. by apply Hm.
Qed.
Lemma guard_inv all s l R sp h pd sz a : vm_inv all s l R sp h -> sp !! pd = Some sz -> user_va a -> a < sz ->
  exists s', clearpteu pd a s = Ret tt s' /\ vm_inv all s' l R sp h.
Proof.
  intros Hi E Ha Hlt. pose proof (vi_pool _ _ _ _ _ _ Hi) as Hp. destruct (vi_space _ _ _ _ _ _ Hi pd sz E) as (Hs & Hsz & Hm).
  destruct (clearpteu_ok s l R pd a Hp Hs Ha) as (s' & Ec & H1 & H2 & H3 & H4); [rewrite Hm by done; by apply Z.ltb_lt|]. exists s'. split; [done|].
  apply (inv_same_space _ _ _ _ _ _ pd sz); [|done]. apply (inv_update all s l R sp h pd s' l R sz Hi); try done.
  - intros pd' Hne Hspc. apply (other_space s l R pd); [done..|]. intros q r' Hq Hqr Hb. apply H4; [done|]. intros b Hqb. rewrite Hqr in Hqb. injection Hqb as ->. by apply Hb.
  - intros b Hb. destruct (H3 b (user_page b Hb)) as (-> & _). by apply Hm.
Qed.
(** The first process: its program is in a page at 0. *)
Lemma init_inv all s l R sp h pd init : vm_inv all s l R sp h -> sp !! pd = Some 0 -> 1026 < zlen l -> zlen init < PGSIZE ->
  exists s' l' R', inituvm pd init s = Ret tt s' /\ vm_inv all s' l' R' (<[pd := PGSIZE]> sp) h.
Proof.
  intros Hi E Hl Hz. pose proof (vi_pool _ _ _ _ _ _ Hi) as Hp0. destruct (vi_space _ _ _ _ _ _ Hi pd 0 E) as (Hs & _ & Hmap). destruct l as [|p l]; [done|].
  assert (user_va 0) as Hu0 by (split; by_vm).
  destruct (kalloc_some _ _ _ _ _ Hp0) as (s1 & E1 & Hp1 & Hm1 & Hr & Hpl & HR). destruct (rpage_range kend Hkend p Hr) as (Hap & _ & Hpz).
  set (s2 := upd s1 (fillw (kmw s1) (page_words p) 0)).
  assert (taken kend p s l R s2) as Ht by (eapply kalloc_taken; [done|done|exact E1|done|done|done|intros q Hq Hne; rewrite Hm1; by apply same_page_fillw]).
  destruct (map_hand_ok kend Hkend p s l R s2 pd 0 (Z.lor PTE_W PTE_U) Ht Hs Hu0 ltac:(by rewrite Hmap) ltac:(by_vm)) as (r & s3 & l3 & R3 & E3 & _ & [(_ & -> & Hg & Hnp & Hpte)|(_ & Hg & Hpte)]).
  { exfalso. pose proof (exhausted kend Hkend pd s (p :: l) R s3 R3 [p] 0 0 Hp0 (gr_space _ _ _ _ _ _ _ _ _ Hg)) as Hx.
    assert (zlen (p :: l) <= zlen [p] + 0 + 1025) as Hc; [apply Hx; try done|].
    - by rewrite (gr_pages _ _ _ _ _ _ _ _ _ Hg), union_empty_l_L, pages_cons, list_to_set_singleton_L.
    - apply Hg.
    - intros q b Hq. destruct (sp_leaf_only _ _ _ (gr_space _ _ _ _ _ _ _ _ _ Hg) q b Hq) as (Hb & Hmb & _). unfold mapped in Hmb. rewrite Hpte in Hmb by (by apply user_page).
      fold (mapped (kmw s) pd b) in Hmb. rewrite Hmap in Hmb by done. destruct Hb. lia.
    - clear -Hc Hl. change (zlen [p]) with 1 in Hc. lia. }
  assert (pte_at (kmw s3) pd 0 = user_entry p) as E0 by (rewrite Hpte by (by apply user_page); by rewrite decide_True).
  assert (mapped (kmw s3) pd 0 = true) as Hm0 by (unfold mapped; rewrite E0; apply (has_lor_P (Z.lor (V2P p) (Z.lor PTE_W PTE_U)))).
  assert (page_at (kmw s3) pd 0 = p) as Epg.
  { destruct (rpage_phys kend Hkend p Hr) as (Hpa & _ & Hpr). destruct (entry_value (V2P p) (Z.lor PTE_W PTE_U) Hpa ltac:(vlia) ltac:(by_vm)) as (_ & _ & HA & _).
    unfold page_at, entry_page. rewrite E0. unfold user_entry. rewrite HA. by apply (P2V_V2P kend). }
  destruct (write_leaf kend Hkend s3 l3 R3 pd 0 0 init (gr_pool _ _ _ _ _ _ _ _ _ Hg) (gr_space _ _ _ _ _ _ _ _ _ Hg) Hu0 Hm0) as (Hp4 & Hs4 & Hpte4 & Hm4 & _); [done|lia|].
  rewrite Epg, Z.add_0_r in *. eexists _, l3, R3. split.
  { unfold inituvm. rewrite (proj2 (Z.leb_gt _ _) Hz). exec_by E1. exec_by (clear_page_run p s1 Hpz). exec_by E3. reflexivity. }
  apply (inv_update all s (p :: l) R sp h pd _ l3 R3 PGSIZE Hi); [exact Hp4|by rewrite (gr_pages _ _ _ _ _ _ _ _ _ Hg), union_empty_l_L|apply Hg|exact Hs4| |by_vm|].
  - intros pd' Hne Hs'. destruct (grows_other ∅ pd s (p :: l) R s3 l3 R3 pd' Hp0 Hg Hs' Hne) as [Hs3 Hq3].
    destruct (other_space s3 l3 R3 pd (upd s3 (put_mbytes (kmw s3) p init)) R3 pd' (gr_pool _ _ _ _ _ _ _ _ _ Hg) Hs3 Hne eq_refl) as [H1 H2]; [|split; [exact H1|intros b; by rewrite H2, Hq3]].
    intros q r' Hq Hqr Hb. apply Hm4; [done|]. intros ->. pose proof (sp_leaf _ _ _ (gr_space _ _ _ _ _ _ _ _ _ Hg) 0 Hu0 Hm0) as HR0. rewrite Epg, Hqr in HR0. injection HR0 as ->. by apply Hb.
  - intros b Hb. unfold mapped. rewrite Hpte4, Hpte by (by apply user_page). case_decide as Hd.
    + subst b. change (0 <? PGSIZE) with true. apply (has_lor_P (Z.lor (V2P p) (Z.lor PTE_W PTE_U))).
    + fold (mapped (kmw s) pd b). rewrite Hmap by done. destruct Hb. unfold PGSIZE in *. vlia.
Qed.

(** ** Pages for other parts of the kernel *)
Lemma held_free all s l R sp h p : vm_inv all s l R sp h -> p ∈ h -> rpage kend p /\ p ∉ l /\ R !! p = None.
Proof.
  intros Hi Hp. destruct (proj2 (vi_held _ _ _ _ _ _ Hi) p Hp) as [Hr Hn]. split; [done|]. split; [intros H; apply Hn, elem_pages; by left|].
  apply eq_None_not_Some. intros H. apply Hn, elem_pages. by right.
Qed.
Lemma kalloc_inv all s l R sp h : vm_inv all s l R sp h ->
  exists p s' l', kalloc s = Ret p s' /\ (l = [] /\ p = 0 \/ l = p :: l' /\ p <> 0) /\ vm_inv all s' l' R sp (if p =? 0 then h else p :: h).
Proof.
  intros Hi. pose proof (vi_pool _ _ _ _ _ _ Hi) as Hp. destruct (vi_held _ _ _ _ _ _ Hi) as [Hnd Hh]. destruct l as [|p l].
  - destruct (kalloc_none _ _ _ Hp) as (s' & E & Hp' & Hm). exists 0, s', []. split; [done|]. split; [by left|]. apply (inv_memory all s [] R sp h s' [] h Hi Hp'); [by rewrite Hm|done|apply Hi].
  - destruct (kalloc_some _ _ _ _ _ Hp) as (s' & E & Hp' & Hm & Hr & Hl & HR). exists p, s', l. split; [done|]. destruct (rpage_range kend Hkend p Hr) as (_ & _ & Hnz).
    split; [by right|]. rewrite (proj2 (Z.eqb_neq _ _) Hnz). pose proof (pages_cons l R p) as Epg. apply (inv_memory all s (p :: l) R sp h s' l (p :: h) Hi Hp'); [by rewrite Hm| |].
    + split; [constructor; [|done]|].
      * intros Hin. destruct (Hh p Hin) as [_ Hn]. apply Hn, elem_pages. left. left.
      * intros q [->|Hq]%elem_of_cons.
        -- split; [done|]. intros [?|[? ?]]%elem_pages; [done|congruence].
        -- destruct (Hh q Hq) as [Hrq Hn]. split; [done|]. intros Hin. apply Hn. rewrite Epg. by apply elem_of_union_r.
    + rewrite <-(vi_all _ _ _ _ _ _ Hi), Epg, list_to_set_cons. set_solver.
Qed.
Lemma kfree_inv all s l R sp h p : vm_inv all s l R sp h -> p ∈ h ->
  exists s', kfree kend p s = Ret tt s' /\ vm_inv all s' (p :: l) R sp (filter (fun x => x <> p) h).
Proof.
  intros Hi Hin. destruct (held_free _ _ _ _ _ _ _ Hi Hin) as (Hr & Hl & HR). destruct (vi_held _ _ _ _ _ _ Hi) as [Hnd Hh].
  destruct (kfree_hand kend s l R p (vi_pool _ _ _ _ _ _ Hi) Hr Hl HR) as (s' & E & Hp' & Hm). exists s'. split; [done|]. pose proof (pages_cons l R p) as Epg.
  apply (inv_memory all s l R sp h s' (p :: l) _ Hi Hp').
  - intros q Hq [r Hqr] w Hw. apply Hm. apply (page_words_disj q p w Hq (rpage_aligned kend Hkend p Hr)); [congruence|done].
  - split; [by apply NoDup_filter|]. intros q [Hne Hq]%list_elem_of_filter. destruct (Hh q Hq) as [Hrq Hn]. split; [done|]. rewrite Epg. set_solver.
  - rewrite Epg, <-(vi_all _ _ _ _ _ _ Hi). apply set_eq. intros q. rewrite !elem_of_union, !elem_of_list_to_set, list_elem_of_filter, elem_of_singleton.
    destruct (decide (q = p)) as [->|]; tauto.
Qed.
Lemma write_inv all s l R sp h p a x : vm_inv all s l R sp h -> p ∈ h -> a ∈ page_words p -> vm_inv all (upd s (wrw (kmw s) a x)) l R sp h.
Proof.
  intros Hi Hin Ha. destruct (held_free _ _ _ _ _ _ _ Hi Hin) as (Hr & Hl & HR). pose proof (vi_pool _ _ _ _ _ _ Hi) as Hp. pose proof (rpage_aligned kend Hkend p Hr) as Hap.
  assert (forall q, aligned q -> q <> p -> same_page (kmw s) (wrw (kmw s) a x) q) as Hsame.
  { intros q Hq Hne. apply same_page_wrw. intros Hw. by apply (page_words_disj q p a Hq Hap Hne Hw). }
  apply (inv_memory all s l R sp h _ l h Hi).
  - apply pool_write; [done|]. intros q w Hq Hw. apply (Hsame q); [|intros ->; done|done]. apply (rpage_aligned kend Hkend). by eapply pool_free_page.
  - intros q Hq [r Hqr]. apply Hsame; [done|congruence].
  - apply Hi.
  - apply Hi.
Qed.
End Inv.
