(* ===== verification/XVmThm.v ===== *)
(** * What [vm.c] of xv6 promises

    Growing, copying and writing user memory, each on every branch, and that
    whatever sequence of calls is made every page has one use. *)
From S2P Require Import Prelude Bytes Mmu XKalloc XVm XVmSpec XVmOps XVmKern XVmUser XVmCopy XVmOut XVmInv.

Section Calls.
Context (kend kdata : Z).

(** ** The calls on the address spaces of a machine *)
Inductive vstep : vmsys -> vmsys -> Prop :=
| vs_setup s sp h d s' : setupkvm kend kdata s = Ret d s' ->
    vstep (mk_vmsys s sp h) (mk_vmsys s' (if d =? 0 then sp else <[d := 0]> sp) h)
| vs_grow s sp h pd sz newsz r s' : sp !! pd = Some sz -> is_u32 newsz -> allocuvm kend pd sz newsz s = Ret r s' ->
    vstep (mk_vmsys s sp h) (mk_vmsys s' (if r =? 0 then sp else <[pd := r]> sp) h)
| vs_shrink s sp h pd sz newsz r s' : sp !! pd = Some sz -> is_u32 newsz -> deallocuvm kend pd sz newsz s = Ret r s' ->
    vstep (mk_vmsys s sp h) (mk_vmsys s' (<[pd := r]> sp) h)
| vs_fork s sp h pd sz d s' : sp !! pd = Some sz -> copyuvm kend kdata pd sz s = Ret d s' ->
    vstep (mk_vmsys s sp h) (mk_vmsys s' (if d =? 0 then sp else <[d := sz]> sp) h)
| vs_free s sp h pd sz s' : sp !! pd = Some sz -> freevm kend pd s = Ret tt s' ->
    vstep (mk_vmsys s sp h) (mk_vmsys s' (delete pd sp) h)
| vs_copyout s sp h pd sz va buf r s' : sp !! pd = Some sz -> 0 <= va -> va + zlen buf <= KERNBASE -> copyout pd va buf s = Ret r s' ->
    vstep (mk_vmsys s sp h) (mk_vmsys s' sp h)
| vs_guard s sp h pd sz a s' : sp !! pd = Some sz -> user_va a -> a < sz -> clearpteu pd a s = Ret tt s' ->
    vstep (mk_vmsys s sp h) (mk_vmsys s' sp h)
| vs_kalloc s sp h p s' : kalloc s = Ret p s' ->
    vstep (mk_vmsys s sp h) (mk_vmsys s' sp (if p =? 0 then h else p :: h))
| vs_kfree s sp h p s' : p ∈ h -> kfree kend p s = Ret tt s' ->
    vstep (mk_vmsys s sp h) (mk_vmsys s' sp (filter (fun x => x <> p) h))
| vs_write s sp h p a x : p ∈ h -> a ∈ page_words p ->          (* a page that another part holds *)
    vstep (mk_vmsys s sp h) (mk_vmsys (upd s (wrw (kmw s) a x)) sp h).

(** ** What a page is used for *)
Inductive use := UFree | UHeld | UDir | UTable (pd i : Z) | UPage (pd a : Z).
Definition used_as (x : vmsys) (free : list Z) (p : Z) (u : use) : Prop :=
  let m := kmw (vk x) in
  match u with
  | UFree => p ∈ free
  | UHeld => p ∈ vheld x
  | UDir => is_Some (vspaces x !! p)
  | UTable pd i => is_Some (vspaces x !! pd) /\ 0 <= i < 1024 /\ has (pde m pd i) PTE_P = true /\ p = table m pd i
  | UPage pd a => is_Some (vspaces x !! pd) /\ user_va a /\ mapped m pd a = true /\ p = page_at m pd a
  end.

Context (Hkend : KERNBASE < kend) (Hdata : aligned kdata /\ KERNLINK < kdata < KERNBASE + PHYSTOP).
Lemma vstep_inv all x y l R : vstep x y -> vm_inv kend all (vk x) l R (vspaces x) (vheld x) ->
  exists l' R', vm_inv kend all (vk y) l' R' (vspaces y) (vheld y).
Proof.
  intros Hs. destruct Hs as [s sp h d s' E|s sp h pd sz nz r s' Hp Hn E|s sp h pd sz nz r s' Hp Hn E|s sp h pd sz d s' Hp E|s sp h pd sz s' Hp E|
    s sp h pd sz va buf r s' Hp Hva Hend E|s sp h pd sz a s' Hp Ha Hlt E|s sp h p s' E|s sp h p s' Hp E|s sp h p a w Hp Ha]; cbn [vk vspaces vheld]; intros Hi.
  - destruct (setup_inv kend kdata Hkend Hdata all s l R sp h Hi) as (d' & s2 & l' & R' & E' & _ & _ & Hi'). rewrite E in E'. injection E'; intros; subst; eauto.
  - destruct (grow_inv kend kdata Hkend Hdata all s l R sp h pd sz nz Hi Hp Hn) as (d' & s2 & l' & R' & E' & Hi'). rewrite E in E'. injection E'; intros; subst; eauto.
  - destruct (shrink_inv kend kdata Hkend Hdata all s l R sp h pd sz nz Hi Hp Hn) as (d' & s2 & l' & R' & E' & _ & Hi'). rewrite E in E'. injection E'; intros; subst; eauto.
  - destruct (fork_inv kend kdata Hkend Hdata all s l R sp h pd sz Hi Hp) as (d' & s2 & l' & R' & E' & _ & Hi'). rewrite E in E'. injection E'; intros; subst; eauto.
  - destruct (free_inv kend kdata Hkend Hdata all s l R sp h pd sz Hi Hp) as (s2 & l' & R' & E' & Hi'). rewrite E in E'. injection E'; intros; subst; eauto.
  - exists l, R. by apply (copyout_inv kend kdata Hkend Hdata all s l R sp h pd sz va buf r s').
  - destruct (guard_inv kend kdata Hkend Hdata all s l R sp h pd sz a Hi Hp Ha Hlt) as (s2 & E' & Hi'). rewrite E in E'. injection E'; intros; subst; eauto.
  - destruct (kalloc_inv kend kdata Hkend Hdata all s l R sp h Hi) as (p' & s2 & l' & E' & _ & Hi'). rewrite E in E'. injection E'; intros; subst; eauto.
  - destruct (kfree_inv kend kdata Hkend Hdata all s l R sp h p Hi Hp) as (s2 & E' & Hi'). rewrite E in E'. injection E'; intros; subst; eauto.
  - exists l, R. by apply (write_inv kend kdata Hkend Hdata all s l R sp h p a w).
Qed.
Lemma vsteps_inv all x y l R : rtc vstep x y -> vm_inv kend all (vk x) l R (vspaces x) (vheld x) ->
  exists l' R', vm_inv kend all (vk y) l' R' (vspaces y) (vheld y).
Proof.
  intros H. revert l R. induction H as [x|x y z Hxy _ IH]; intros l R Hi; [eauto|]. destruct (vstep_inv all x y l R Hxy Hi) as (l' & R' & Hi'). eauto.
Qed.
(** At the start all pages are free. *)
Lemma start_inv s l : kmem_ok kend s l -> Forall is_u32 l -> vm_inv kend (list_to_set l) s l ∅ ∅ [].
Proof.
  intros Hk Hu. split.
  - split; [done|..].
    + intros p Hp. split; [by rewrite lookup_empty|]. by eapply Forall_forall.
    + intros p r H. by rewrite lookup_empty in H.
    + intros p pd i H. rewrite lookup_empty in H. by destruct H.
  - intros pd sz H. by rewrite lookup_empty in H.
  - intros p r H. by rewrite lookup_empty in H.
  - split; [constructor|]. by intros p ?%elem_of_nil.
  - unfold pages. rewrite dom_empty_L. by rewrite list_to_set_nil, union_empty_l_L, union_empty_r_L.
Qed.
Lemma used_role all x l R p u : vm_inv kend all (vk x) l R (vspaces x) (vheld x) -> used_as x l p u ->
  match u with
  | UFree => p ∈ l | UHeld => p ∈ vheld x
  | UDir => R !! p = Some Dir | UTable pd i => R !! p = Some (Tab pd i) | UPage pd a => R !! p = Some (Leaf pd a)
  end.
Proof.
  intros Hi. destruct u as [| | |pd i|pd a]; cbn [used_as]; [done|done|..].
  - intros [sz E]. apply (vi_space _ _ _ _ _ _ _ Hi p sz E).
  - intros ([sz E] & Hr & Hp & ->). by apply (sp_tab _ _ _ (proj1 (vi_space _ _ _ _ _ _ _ Hi pd sz E))).
  - intros ([sz E] & Ha & Hm & ->). by apply (sp_leaf _ _ _ (proj1 (vi_space _ _ _ _ _ _ _ Hi pd sz E))).
Qed.
Lemma role_used all x l R p r : vm_inv kend all (vk x) l R (vspaces x) (vheld x) -> R !! p = Some r -> exists u, used_as x l p u.
Proof.
  intros Hi Hr. destruct (vi_roles _ _ _ _ _ _ _ Hi p r Hr) as (pd & [sz E] & Hb). destruct (vi_space _ _ _ _ _ _ _ Hi pd sz E) as (Hs & _ & _).
  destruct r as [|d i|d a]; cbn in Hb; subst.
  - exists UDir. cbn. eauto.
  - exists (UTable pd i). cbn. split; [eauto|]. by apply (sp_tab_only _ _ _ Hs).
  - exists (UPage pd a). cbn. split; [eauto|]. by apply (sp_leaf_only _ _ _ Hs).
Qed.
Lemma inv_uses all x l R : vm_inv kend all (vk x) l R (vspaces x) (vheld x) ->
  (forall p, p ∈ all <-> exists u, used_as x l p u) /\ (forall p u u', used_as x l p u -> used_as x l p u' -> u = u').
Proof.
  intros Hi. assert (forall p, p ∈ all <-> p ∈ vheld x \/ p ∈ l \/ is_Some (R !! p)) as Hall.
  { intros p. rewrite <-(vi_all _ _ _ _ _ _ _ Hi), elem_of_union, elem_of_list_to_set, elem_pages. done. }
  pose proof (vi_pool _ _ _ _ _ _ _ Hi) as Hp. split.
  - intros p. rewrite Hall. split.
    + intros [H|[H|[r H]]]; [by exists UHeld|by exists UFree|]. by eapply role_used.
    + intros (u & Hu). apply (used_role all x l R p u Hi) in Hu. destruct u; eauto.
  - intros p u u' Hu Hu'. apply (used_role all x l R p u Hi) in Hu. apply (used_role all x l R p u' Hi) in Hu'.
    assert (p ∈ l -> R !! p = None /\ p ∉ vheld x) as Hf.
    { intros Hl. split; [by apply (pl_free _ _ _ _ Hp)|]. intros Hh. by destruct (held_free _ _ _ _ _ _ _ _ Hi Hh) as (_ & ? & _). }
    assert (p ∈ vheld x -> R !! p = None) as Hh by (intros Hh; by destruct (held_free _ _ _ _ _ _ _ _ Hi Hh) as (_ & _ & ?)).
    destruct u, u'; try done; try (destruct (Hf ltac:(assumption)); done || congruence); try (rewrite (Hh ltac:(assumption)) in *; congruence); congruence.
Qed.
Lemma reached_inv s vstart vend s1 x : freelist s = 0 -> first_page vstart <= vend ->
  let ps := range_pages (first_page vstart) (range_size vstart vend) in Forall (rpage kend) ps -> kinit1 kend vstart vend s = Ret tt s1 ->
  rtc vstep (mk_vmsys s1 ∅ []) x -> exists l R, vm_inv kend (list_to_set ps) (vk x) l R (vspaces x) (vheld x).
Proof.
  intros Hfree Hrange ps Hpages Hinit Hcalls.
  destruct (kinit1_ok kend s vstart vend Hfree Hrange) as (s' & E & Hok & _); [eapply Forall_impl; [exact Hpages|]; by intros p [? _]|].
  rewrite E in Hinit. injection Hinit as ->. fold ps in Hok.
  assert (Forall is_u32 (reverse ps)) as Hu by (apply Forall_reverse; eapply Forall_impl; [exact Hpages|]; by intros p [_ ?]).
  destruct (vsteps_inv _ _ x _ _ Hcalls (start_inv s1 (reverse ps) Hok Hu)) as (l & R & Hi). exists l, R.
  assert (list_to_set ps =@{gset Z} list_to_set (reverse ps)) as ->; [|done]. apply set_eq. intros p. by rewrite !elem_of_list_to_set, elem_of_reverse.
Qed.
End Calls.

(** C35. Every page has one use.  After [kinit1] on a range of memory, and after any
    sequence of calls -- new address spaces, growing, shrinking, copying, freeing,
    writing and guarding their memory, and [kalloc] and [kfree] for other parts of
    the kernel, which write what they like into the pages they hold -- each page
    of the range is exactly one of these: free, held by another part, a page
    directory, one table of one directory, or the page at one address of one
    address space.  So no memory is shared, none is lost, and none that is in use
    is handed out.  What a process can reach are the pages below its size. *)
Theorem every_page_has_one_use (kend kdata : Z) (s : kmem) (vstart vend : Z) (s1 : kmem) (x : vmsys)
    (Hkend : KERNBASE < kend) (Hdata : aligned kdata /\ KERNLINK < kdata < KERNBASE + PHYSTOP)
    (Hfree : freelist s = 0) (Hrange : first_page vstart <= vend)
    (Hpages : Forall (rpage kend) (range_pages (first_page vstart) (range_size vstart vend)))
    (Hinit : kinit1 kend vstart vend s = Ret tt s1)
    (Hcalls : rtc (vstep kend kdata) (mk_vmsys s1 ∅ []) x) :
  exists free, kmem_ok kend (vk x) free /\
    (forall p, p ∈ range_pages (first_page vstart) (range_size vstart vend) <-> exists u, used_as x free p u) /\
    (forall p u u', used_as x free p u -> used_as x free p u' -> u = u') /\
    forall pd sz a, vspaces x !! pd = Some sz -> user_va a -> mapped (kmw (vk x)) pd a = (a <? sz).
Proof.
  destruct (reached_inv kend kdata Hkend Hdata s vstart vend s1 x Hfree Hrange Hpages Hinit Hcalls) as (l & R & Hi).
  destruct (inv_uses kend _ x l R Hi) as [Hall Huniq]. exists l. split; [apply (vi_pool _ _ _ _ _ _ _ Hi)|]. split; [|split; [done|]].
  - intros p. by rewrite <-Hall, elem_of_list_to_set.
  - intros pd sz a Ep Ha. by apply (vi_space _ _ _ _ _ _ _ Hi pd sz Ep).
Qed.

(** C36. No call fails in the kernel.  Where such calls have led, each further one
    returns: [setupkvm], [allocuvm], [deallocuvm], [copyuvm], [freevm] on any
    address space there is, with any size, and [kalloc] and the [kfree] of a page
    that is held, run into no panic and no stray pointer; out of memory is the
    result 0. *)
Theorem vm_calls_return (kend kdata : Z) (s : kmem) (vstart vend : Z) (s1 : kmem) (x : vmsys) (pd sz newsz : Z)
    (Hkend : KERNBASE < kend) (Hdata : aligned kdata /\ KERNLINK < kdata < KERNBASE + PHYSTOP)
    (Hfree : freelist s = 0) (Hrange : first_page vstart <= vend)
    (Hpages : Forall (rpage kend) (range_pages (first_page vstart) (range_size vstart vend)))
    (Hinit : kinit1 kend vstart vend s = Ret tt s1)
    (Hcalls : rtc (vstep kend kdata) (mk_vmsys s1 ∅ []) x)
    (Hpd : vspaces x !! pd = Some sz) (Hsz : is_u32 newsz) :
  (exists d s', setupkvm kend kdata (vk x) = Ret d s') /\
  (exists r s', allocuvm kend pd sz newsz (vk x) = Ret r s') /\
  (exists r s', deallocuvm kend pd sz newsz (vk x) = Ret r s') /\
  (exists d s', copyuvm kend kdata pd sz (vk x) = Ret d s') /\
  (exists s', freevm kend pd (vk x) = Ret tt s') /\
  (exists p s', kalloc (vk x) = Ret p s') /\
  forall p, p ∈ vheld x -> exists s', kfree kend p (vk x) = Ret tt s'.
Proof.
  destruct (reached_inv kend kdata Hkend Hdata s vstart vend s1 x Hfree Hrange Hpages Hinit Hcalls) as (l & R & Hi).
  split; [destruct (setup_inv kend kdata Hkend Hdata _ _ _ _ _ _ Hi) as (? & ? & ? & ? & ? & _); eauto|].
  split; [destruct (grow_inv kend kdata Hkend Hdata _ _ _ _ _ _ pd sz newsz Hi Hpd Hsz) as (? & ? & ? & ? & ? & _); eauto|].
  split; [destruct (shrink_inv kend kdata Hkend Hdata _ _ _ _ _ _ pd sz newsz Hi Hpd Hsz) as (? & ? & ? & ? & ? & _); eauto|].
  split; [destruct (fork_inv kend kdata Hkend Hdata _ _ _ _ _ _ pd sz Hi Hpd) as (? & ? & ? & ? & ? & _); eauto|].
  split; [destruct (free_inv kend kdata Hkend Hdata _ _ _ _ _ _ pd sz Hi Hpd) as (? & ? & ? & ? & _); eauto|].
  split; [destruct (kalloc_inv kend kdata Hkend Hdata _ _ _ _ _ _ Hi) as (? & ? & ? & ? & _); eauto|].
  intros p Hp. destruct (kfree_inv kend kdata Hkend Hdata _ _ _ _ _ _ p Hi Hp) as (? & ? & _); eauto.
Qed.

(** [growproc] takes the size 0 that [deallocuvm] returns for a failure, and
    keeps the old size: but the memory is gone. *)
Lemma deallocuvm_to_zero (kend : Z) (s : kmem) (l : list Z) (R : gmap Z role) (pd sz : Z)
    (Hkend : KERNBASE < kend) (Hp : pool kend s l R) (Hs : space (kmw s) R pd) (Hsz : 0 < sz < KERNBASE) :
  exists s', deallocuvm kend pd sz 0 s = Ret 0 s' /\ forall b, user_va b -> b < sz -> mapped (kmw s') pd b = false.
Proof.
  destruct (deallocuvm_ok kend Hkend s l R pd sz 0 Hp Hs ltac:(unfold KERNBASE; lia) ltac:(lia)) as (s' & l' & R' & E & _ & Hc).
  rewrite Z.min_r in E by lia. exists s'. split; [done|].
  intros b Hb Hlt. unfold mapped. rewrite (Hc b (user_page b Hb)). change (PGROUNDUP 0) with 0. rewrite decide_True by (destruct Hb; unfold KERNBASE in *; lia).
  unfold mapped. by destruct (has (pte_at (kmw s) pd b) PTE_P) eqn:Em.
Qed.

(** C37. Growing.  Between sizes below the kernel, with nothing mapped in between,
    [allocuvm] returns the new size, and every page of the range is a page that
    was free, cleared, writable and the user's; or it returns 0, nothing of the
    range is mapped, and the free pages were not enough for the pages asked for
    and the tables of an address space.  Either way the entries outside of the
    range, all other roles of pages, and all memory but the tables of [pd] and
    pages that were free are as before, and no page is lost. *)
Theorem allocuvm_grows_or_undoes (kend : Z) (s : kmem) (l : list Z) (R : gmap Z role) (pd oldsz newsz : Z)
    (Hkend : KERNBASE < kend) (Hp : pool kend s l R) (Hs : space (kmw s) R pd) (Hsz : 0 <= oldsz <= newsz) (Hnew : newsz < KERNBASE)
    (Hun : forall b, page_va b -> PGROUNDUP oldsz <= b < newsz -> mapped (kmw s) pd b = false) :
  exists r s' l' R', allocuvm kend pd oldsz newsz s = Ret r s' /\ grows kend ∅ pd s l R s' l' R' /\
    same_outside (kmw s) (kmw s') pd (PGROUNDUP oldsz) (newsz - PGROUNDUP oldsz) /\
    ((r = newsz /\ forall b, user_va b -> PGROUNDUP oldsz <= b < newsz -> fresh_page l (kmw s') pd b) \/
     (r = 0 /\ zlen l <= npages (PGROUNDUP oldsz) newsz + 1025 /\ forall b, page_va b -> PGROUNDUP oldsz <= b < newsz -> mapped (kmw s') pd b = false)).
Proof. exact (allocuvm_ok kend Hkend pd oldsz newsz s l R Hp Hs Hsz Hnew Hun). Qed.

(** C38. Copying.  [copyuvm] of an address space whose pages below [sz] are mapped
    returns the directory of a new one: it has the kernel's mappings, the user
    reads in it the bytes that it read in the original, with the same rights
    to each page, and nothing is mapped from [sz] on.  The original is as it
    was, its pages are its own, and the copy is made of pages that were free.
    Or there are not enough free pages; then the result is 0 and all pages
    are given back. *)
Theorem copyuvm_copies (kend kdata : Z) (s : kmem) (l : list Z) (R : gmap Z role) (pd sz : Z)
    (Hkend : KERNBASE < kend) (Hdata : aligned kdata /\ KERNLINK < kdata < KERNBASE + PHYSTOP)
    (Hp : pool kend s l R) (Hs : space (kmw s) R pd) (Hsz : 0 <= sz <= KERNBASE) (Hmap : forall b, user_va b -> b < sz -> mapped (kmw s) pd b = true) :
  exists d s' l', copyuvm kend kdata pd sz s = Ret d s' /\
    ((d = 0 /\ zlen l <= npages 0 sz + 1025 /\ unchanged kend s l R s' l') \/
     (d <> 0 /\ d ∈ l /\ exists R', pool kend s' l' R' /\ space (kmw s') R' d /\ pages l' R' = pages l R /\ others R' d = R /\
        kernel_entries kdata (kmw s') d /\ (forall b, user_va b -> sz <= b -> mapped (kmw s') d b = false) /\
        forall x, 0 <= x -> va_page x < sz ->
          ubyte_at (kmw s') d x = ubyte_at (kmw s) pd x /\ PTE_FLAGS (pte_at (kmw s') d (va_page x)) = PTE_FLAGS (pte_at (kmw s) pd (va_page x)) /\
          ubyte_at (kmw s') pd x = ubyte_at (kmw s) pd x /\ pte_at (kmw s') pd (va_page x) = pte_at (kmw s) pd (va_page x))).
Proof.
  destruct (copyuvm_ok kend kdata Hkend Hdata pd sz s l R Hp Hs Hsz Hmap) as (d & s' & E & [(-> & Hfew & l' & Hun)|(Hd & l' & R' & Hb & Hk & Hpt)]).
  - exists 0, s', l'. split; [done|]. by left.
  - exists d, s', l'. split; [done|]. right. split; [done|]. split; [apply (cp_dir _ _ _ _ _ _ _ _ Hb)|]. exists R'. pose proof Hb as [H1 H2 H3 H4 H5 H6 H7].
    do 5 (split; [done|]). split; [intros b Hu Hge; specialize (Hpt b Hu); rewrite decide_False in Hpt by lia; unfold mapped; by rewrite Hpt|].
    intros x Hx Hlt. assert (user_va (va_page x)) as Hu by (apply va_page_user; unfold va_page in Hlt; vlia). specialize (Hpt _ Hu). rewrite decide_True in Hpt by done.
    destruct Hpt as (_ & HF & Hin & Hc). destruct (parent_kept kend kdata Hkend Hdata pd sz s l R Hp Hs Hsz d s' l' R' Hb) as (_ & _ & Hpte). pose proof (Z.mod_pos_bound x 4096 ltac:(lia)) as Hj.
    pose proof (parent_page kend Hkend pd sz s l R Hp Hs Hmap d s' l' R' (va_page x) Hb Hu Hlt) as Hc'.
    pose proof (rpage_aligned kend Hkend _ (pool_free_page _ _ _ _ _ Hp Hin)) as Hda. pose proof (sp_leaf _ _ _ Hs _ Hu (Hmap _ Hu Hlt)) as HR. pose proof (rpage_aligned kend Hkend _ (pl_used _ _ _ _ Hp _ _ HR)) as Hqa.
    split; [by apply same_words_bytes|]. split; [done|]. split; [|done]. unfold ubyte_at. replace (page_at (kmw s') pd (va_page x)) with (page_at (kmw s) pd (va_page x)) by (unfold page_at; by rewrite Hpte).
    by apply same_words_bytes.
Qed.

(** C39. Writing to the user.  [copyout] of the bytes [buf] to [va] writes the first
    [n] of them, and no other byte of user memory and no page that is not the
    space's changes.  [n] is all of them, and the result 0, when all the pages of
    the range are the user's; otherwise the byte behind the first [n] is
    the first in a page that is not, and the result is -1 -- or, when there is not
    even a table for that page, [uva2ka] reads an entry through a null pointer. *)
Theorem copyout_writes_user_bytes (kend : Z) (s : kmem) (l : list Z) (R : gmap Z role) (pd va : Z) (buf : list Z)
    (Hkend : KERNBASE < kend) (Hp : pool kend s l R) (Hs : space (kmw s) R pd) (Hva : 0 <= va) (Hend : va + zlen buf <= KERNBASE) :
  exists n, 0 <= n <= zlen buf /\ (forall x, va <= x < va + n -> accessible (kmw s) pd (va_page x) = true) /\
    (n = zlen buf \/ accessible (kmw s) pd (va_page (va + n)) = false) /\
    if (n <? zlen buf) && negb (has_table (kmw s) pd (va_page (va + n))) then copyout pd va buf s = UB
    else exists s', copyout pd va buf s = Ret (if n =? zlen buf then 0 else -1) s' /\ pool kend s' l R /\ space (kmw s') R pd /\
      (forall b, pte_at (kmw s') pd b = pte_at (kmw s) pd b) /\
      (forall q, aligned q -> (forall b, R !! q <> Some (Leaf pd b)) -> same_page (kmw s) (kmw s') q) /\
      forall x, 0 <= x < KERNBASE -> mapped (kmw s) pd (va_page x) = true ->
        ubyte_at (kmw s') pd x = match zget (take (Z.to_nat n) buf) (x - va) with Some c => u8 c | None => ubyte_at (kmw s) pd x end.
Proof.
  destruct (copyout_ok kend Hkend s l R pd va buf Hp Hs Hva Hend) as (n & [H1 H2 H3] & Hc). exists n. split; [done|]. split; [done|]. split; [done|].
  unfold copyout_end in Hc. destruct ((n <? zlen buf) && negb (has_table (kmw s) pd (va_page (va + n)))); [done|]. destruct Hc as (s' & E & []). by exists s'.
Qed.

(** * A machine with 2200 free pages behind a kernel of two *)
Definition vm_data : Z := 2148536320.
Definition vm_end : Z := 2148540416.
Definition vm_top : Z := vm_end + PGSIZE * 2200.
Lemma vm_end_ok : KERNBASE < vm_end.
Proof. by_vm. Qed.
Lemma vm_data_ok : aligned vm_data /\ KERNLINK < vm_data < KERNBASE + PHYSTOP.
Proof. split; by_vm. Qed.
Lemma vm_size : is_u32 5000.
Proof. vlia. Qed.
Lemma vm_zero : user_va 0.
Proof. split; by_vm. Qed.
Lemma vm_range : first_page vm_end <= vm_top.
Proof. by_vm. Qed.
Lemma vm_pages : Forall (rpage vm_end) (range_pages (first_page vm_end) (range_size vm_end vm_top)).
Proof.
  change (first_page vm_end) with vm_end. change (range_size vm_end vm_top) with 2200%nat. apply Forall_forall. intros x (i & -> & Hi%elem_of_seqZ)%list_elem_of_fmap.
  change (Z.of_nat 2200) with 2200 in Hi. unfold rpage, kpage, V2P, vm_end, PGSIZE, KERNBASE, PHYSTOP, is_u32.  rewrite u32_id by vlia. zlia.
Qed.
Lemma vm_start : exists s1, kinit1 vm_end vm_end vm_top ex0 = Ret tt s1 /\ exists l, pool vm_end s1 l ∅ /\ zlen l = 2200.
Proof.
  destruct (kinit1_ok vm_end ex0 vm_end vm_top eq_refl ltac:(by_vm)) as (s1 & E & Hok & _); [eapply Forall_impl; [exact vm_pages|]; by intros p [? _]|].
  exists s1. split; [done|]. eexists. split.
  - eapply (vi_pool vm_end _ s1 _ ∅ ∅ []), start_inv; [exact Hok|]. apply Forall_reverse. eapply Forall_impl; [exact vm_pages|]. by intros p [_ ?].
  - unfold zlen. rewrite length_reverse. unfold range_pages. rewrite length_fmap, length_seqZ. by_vm.
Qed.
(** A new address space. *)
Lemma vm_setup : exists s1 d s2, kinit1 vm_end vm_end vm_top ex0 = Ret tt s1 /\ d <> 0 /\ setupkvm vm_end vm_data s1 = Ret d s2 /\
  rtc (vstep vm_end vm_data) (mk_vmsys s1 ∅ []) (mk_vmsys s2 {[d := 0]} []).
Proof.
  destruct vm_start as (s1 & E & l & Hp & Hl). destruct (setupkvm_ok vm_end vm_data vm_end_ok vm_data_ok s1 l ∅ Hp) as (d & s2 & l2 & E2 & [(-> & Hf & _)|(Hd & _)]).
  { unfold too_few in Hf. lia. }
  exists s1, d, s2. split; [done|]. split; [done|]. split; [done|]. apply rtc_once.
  pose proof (vs_setup vm_end vm_data s1 ∅ [] d s2 E2) as H. by rewrite (proj2 (Z.eqb_neq _ _) Hd) in H.
Qed.
(** A directory without entries, and 5000 bytes of memory in it. *)
Lemma vm_empty : exists s l R d, pool vm_end s l R /\ space (kmw s) R d /\ (forall b, pte_at (kmw s) d b = 0) /\ zlen l = 2199.
Proof.
  destruct vm_start as (s1 & _ & [|d l] & Hp & Hl); [done|].
  destruct (kalloc_some _ _ _ _ _ Hp) as (s2 & _ & Hp2 & _ & Hr & Hdl & HR).
  destruct (empty_dir vm_end vm_data vm_end_ok s2 l ∅ d Hp2 Hr Hdl HR) as (Hp3 & Hs3 & _ & Hpte & _).
  rewrite zlen_cons in Hl. eexists _, l, _, d. split; [exact Hp3|]. split; [exact Hs3|]. split; [exact Hpte|lia].
Qed.
Lemma vm_grown : exists s l R d, pool vm_end s l R /\ space (kmw s) R d /\
  forall b, user_va b -> b < 5000 -> accessible (kmw s) d b = true /\ mapped (kmw s) d b = true.
Proof.
  destruct vm_empty as (s & l & R & d & Hp & Hs & Hpte & Hl).
  destruct (allocuvm_ok vm_end vm_end_ok d 0 5000 s l R Hp Hs ltac:(lia) ltac:(by_vm)) as (r & s' & l' & R' & _ & Hg & _ & [(_ & Hf)|(_ & Hf & _)]).
  - intros b _ _. unfold mapped. by rewrite Hpte.
  - exists s', l', R', d. split; [apply Hg|]. split; [apply Hg|]. intros b Hb Hlt. change (PGROUNDUP 0) with 0 in Hf. destruct (Hf b Hb ltac:(destruct Hb; lia)) as (p & Hin & Ee & _).
    pose proof (rpage_phys vm_end vm_end_ok p (pool_free_page _ _ _ _ _ Hp Hin)) as (Ha & _ & Hr). unfold accessible, mapped. rewrite Ee.
    split; [rewrite user_entry_U, andb_true_r|]; apply (has_lor_P (Z.lor (V2P p) (Z.lor PTE_W PTE_U))).
  - change (npages (PGROUNDUP 0) 5000) with 2 in Hf. unfold too_few in Hf. lia.
Qed.

Lemma every_page_has_one_use_witness : exists x free d, vspaces x !! d = Some 0 /\ used_as x free d UDir /\ (forall u, used_as x free d u -> u = UDir) /\
  mapped (kmw (vk x)) d 0 = false.
Proof.
  destruct vm_setup as (s1 & d & s2 & E & _ & _ & Hc).
  destruct (every_page_has_one_use vm_end vm_data ex0 vm_end vm_top s1 _ vm_end_ok vm_data_ok eq_refl vm_range vm_pages E Hc) as (free & _ & _ & Huniq & Hm).
  assert (({[d := 0]} : gmap Z Z) !! d = Some 0) as Hd by apply lookup_singleton_eq.
  exists (mk_vmsys s2 {[d := 0]} []), free, d. split; [exact Hd|]. split; [exists 0; exact Hd|]. split.
  - intros u Hu. apply (Huniq d); [exact Hu|exists 0; exact Hd].
  - exact (Hm d 0 0 Hd vm_zero).
Defined.
Lemma vm_calls_return_witness : exists s d s', setupkvm vm_end vm_data s = Ret d s' /\ exists d' s'', copyuvm vm_end vm_data d 0 s' = Ret d' s''.
Proof.
  destruct vm_setup as (s1 & d & s2 & E & _ & E2 & Hc).
  assert (({[d := 0]} : gmap Z Z) !! d = Some 0) as Hd by apply lookup_singleton_eq.
  destruct (vm_calls_return vm_end vm_data ex0 vm_end vm_top s1 (mk_vmsys s2 {[d := 0]} []) d 0 5000 vm_end_ok vm_data_ok eq_refl vm_range vm_pages E Hc Hd vm_size) as (_ & _ & _ & H & _).
  exists s1, d, s2. split; [exact E2|exact H].
Defined.
Lemma allocuvm_grows_or_undoes_witness : exists s d s', allocuvm vm_end d 0 5000 s = Ret 5000 s' /\ mapped (kmw s') d 4096 = true.
Proof.
  destruct vm_empty as (s & l & R & d & Hp & Hs & Hpte & Hl).
  destruct (allocuvm_grows_or_undoes vm_end s l R d 0 5000 vm_end_ok Hp Hs ltac:(lia) ltac:(by_vm)) as (r & s' & l' & R' & E & _ & _ & [(-> & Hf)|(_ & Hf & _)]).
  - intros b _ _. unfold mapped. by rewrite Hpte.
  - exists s, d, s'. split; [exact E|]. destruct (Hf 4096 ltac:(split; by_vm) ltac:(split; by_vm)) as (p & _ & Ee & _). unfold mapped. rewrite Ee. apply has_lor_P.
  - change (npages (PGROUNDUP 0) 5000) with 2 in Hf. lia.
Defined.
Lemma copyuvm_copies_witness : exists s pd d s', copyuvm vm_end vm_data pd 5000 s = Ret d s' /\
  (d = 0 \/ ubyte_at (kmw s') d 4100 = ubyte_at (kmw s) pd 4100 /\ mapped (kmw s') d 8192 = false).
Proof.
  destruct vm_grown as (s & l & R & pd & Hp & Hs & Hm).
  destruct (copyuvm_copies vm_end vm_data s l R pd 5000 vm_end_ok vm_data_ok Hp Hs ltac:(by_vm)) as (d & s' & l' & E & H); [intros b Hb Hlt; by apply Hm|].
  exists s, pd, d, s'. split; [exact E|]. destruct H as [(-> & _)|(_ & _ & R' & _ & _ & _ & _ & _ & Hun & Hx)]; [by left|right].
  split; [apply (Hx 4100); by_vm|]. apply Hun; [split|]; by_vm.
Defined.
Lemma copyout_writes_user_bytes_witness : exists s d s', copyout d 4094 [1; 2; 3; 4] s = Ret 0 s' /\ ubyte_at (kmw s') d 4096 = 3.
Proof.
  destruct vm_grown as (s & l & R & d & Hp & Hs & Hm).
  destruct (copyout_writes_user_bytes vm_end s l R d 4094 [1; 2; 3; 4] vm_end_ok Hp Hs ltac:(by_vm) ltac:(by_vm)) as (n & Hn & _ & Hstop & Hc). change (zlen [1; 2; 3; 4]) with 4 in *.
  assert (n = 4) as ->.
  { destruct Hstop as [->|Hf]; [done|]. destruct (decide (n = 4)); [done|]. rewrite (proj1 (Hm (va_page (4094 + n)) ltac:(apply va_page_user; unfold KERNBASE; lia) ltac:(unfold va_page; zlia))) in Hf. done. }
  cbn [Z.ltb Z.compare Pos.compare Pos.compare_cont andb Z.eqb Pos.eqb] in Hc. destruct Hc as (s' & E & _ & _ & _ & _ & Hb). exists s, d, s'. split; [exact E|].
  rewrite (Hb 4096); [by_vm|by_vm|]. apply Hm; [split|]; by_vm.
Defined.
