(* ===== verification/XMem.v ===== *)
(** * Processes of xv6 and the memory they own

    [XProc] calls the page allocator and the page tables through the class
    [KernOps]; here the operations are those of [kalloc.c] and [vm.c], as
    [XKalloc] and [XVm] have them.  The state is the memory, [None] once a call
    has panicked or run into undefined behaviour, and beside it the state [F] of
    the file system, which is not part of this component. *)
From S2P Require Import Prelude Mmu XKalloc XVm XVmSpec XVmOps XVmKern XVmInv XVmThm XProc XProcSpec XProcInv XProcThm.

(** What [proc.c] calls of the file system. *)
Class FileOps (F : Type) := {
  fdup : Z -> F -> Z * F;
  fclose : Z -> F -> F;
  fidup : Z -> F -> Z * F;
  fiput : Z -> F -> F;
  fnamei : string -> F -> Z * F
}.

Section Mem.
Context {F : Type} `{FileOps F} (kend kdata : Z) (initcode : list Z).
Implicit Types (k : kmem) (f : F).

(** ** The operations of the memory *)
Definition mem_do (m : M kmem unit) (e : option kmem * F) : option kmem * F :=
  match fst e with
  | Some k => (match m k with Ret _ k' => Some k' | _ => None end, snd e)
  | None => e
  end.
(** A result 0 is a failure for the caller. *)
Definition mem_try (m : M kmem Z) (e : option kmem * F) : option Z * (option kmem * F) :=
  match fst e with
  | Some k => match m k with
      | Ret r k' => (if u32 r =? 0 then None else Some (u32 r), (Some k', snd e))
      | _ => (None, (None, snd e))
      end
  | None => (None, e)
  end.
#[local] Instance mem_ops : KernOps (option kmem * F) := {
  kalloc := mem_try XKalloc.kalloc;
  kfree p := mem_do (XKalloc.kfree kend p);
  setupkvm := mem_try (XVm.setupkvm kend kdata);
  inituvm pd := mem_do (XVm.inituvm pd initcode);
  copyuvm pd sz := mem_try (XVm.copyuvm kend kdata pd sz);
  allocuvm pd oldsz newsz := mem_try (XVm.allocuvm kend pd oldsz newsz);
  deallocuvm pd oldsz newsz := mem_try (XVm.deallocuvm kend pd oldsz newsz);
  freevm pd := mem_do (XVm.freevm kend pd);
  filedup fd e := let r := fdup fd (snd e) in (fst r, (fst e, snd r));
  fileclose fd e := (fst e, fclose fd (snd e));
  idup ip e := let r := fidup ip (snd e) in (fst r, (fst e, snd r));
  iput ip e := (fst e, fiput ip (snd e));
  namei path e := let r := fnamei path (snd e) in (fst r, (fst e, snd r))
}.
Notation kern := (xkern (option kmem * F)).

Implicit Types (s : kern) (p : proc).

(** ** The machine

    The calls of processes, among them [sbrk]; and what else goes on: the file
    system and other parts of the kernel take pages, the list [o], and give them
    back, pages that are held are written, and so is the memory of the user (a store
    of the user's own is a [copyout] of one byte). *)
Definition holds (p : proc) : bool := negb (state_eqb (p_state p) UNUSED).
Definition process (s : kern) (i : Z) (p : proc) : Prop := zget (procs s) i = Some p /\ holds p = true.

Inductive machstep : kern * list Z -> kern * list Z -> Prop :=
| ms_call s o s' : pcall s s' -> machstep (s, o) (s', o)
(** A process that gives up all of its memory cannot go on. *)
| ms_sbrk s o s' c p n : cur s = Some c -> zget (procs s) c = Some p -> -2147483648 <= n < 2147483648 -> p_sz p + n <> 0 ->
    ends (sys_sbrk n) s s' -> machstep (s, o) (s', o)
| ms_files s o f : machstep (s, o) (with_ext (fst (ext s), f) s, o)
| ms_kalloc s o k f q k' : ext s = (Some k, f) -> XKalloc.kalloc k = Ret q k' ->
    machstep (s, o) (with_ext (Some k', f) s, if q =? 0 then o else q :: o)
| ms_kfree s o k f q k' : ext s = (Some k, f) -> q ∈ o -> XKalloc.kfree kend q k = Ret tt k' ->
    machstep (s, o) (with_ext (Some k', f) s, filter (fun x => x <> q) o)
| ms_write s o k f q a x : ext s = (Some k, f) -> q ∈ o \/ (exists i p, process s i p /\ q = p_kstack p) -> a ∈ page_words q ->
    machstep (s, o) (with_ext (Some (upd k (wrw (kmw k) a x)), f) s, o)
| ms_copyout s o k f i p va buf r k' : ext s = (Some k, f) -> process s i p -> 0 <= va -> va + zlen buf <= KERNBASE ->
    copyout (p_pgdir p) va buf k = Ret r k' -> machstep (s, o) (with_ext (Some k', f) s, o)
| ms_guard s o k f i p a k' : ext s = (Some k, f) -> process s i p -> user_va a -> a < p_sz p -> clearpteu (p_pgdir p) a k = Ret tt k' ->
    machstep (s, o) (with_ext (Some k', f) s, o).

(** ** What a page is for *)
Inductive memuse := MFree | MOther | MStack (i : Z) | MDir (i : Z) | MTable (i t : Z) | MPage (i a : Z).
Definition used_for (s : kern) k (free o : list Z) (q : Z) (u : memuse) : Prop :=
  let m := kmw k in
  match u with
  | MFree => q ∈ free
  | MOther => q ∈ o
  | MStack i => exists p, process s i p /\ q = p_kstack p
  | MDir i => exists p, process s i p /\ q = p_pgdir p
  | MTable i t => exists p, process s i p /\ 0 <= t < 1024 /\ has (pde m (p_pgdir p) t) PTE_P = true /\ q = table m (p_pgdir p) t
  | MPage i a => exists p, process s i p /\ user_va a /\ mapped m (p_pgdir p) a = true /\ q = page_at m (p_pgdir p) a
  end.

(** ** What the process table holds *)
Definition item (p : proc) : Z * (Z * Z) := (p_kstack p, (p_pgdir p, p_sz p)).
Definition items (p : proc) : list (Z * (Z * Z)) := if holds p then [item p] else [].
Definition res (ps : list proc) : list (Z * (Z * Z)) := ps ≫= items.

Lemma res_timap g ps : (forall i p, zget ps i = Some p -> items (g i p) = items p) -> res (timap g ps) = res ps.
Proof.
  unfold timap. revert g. induction ps as [|p ps IH]; intros g Hg; [done|]. unfold res. cbn [imap]. rewrite !bind_cons. f_equal.
  - by apply (Hg 0).
  - assert (imap ((fun n p => g (Z.of_nat n) p) ∘ Datatypes.S) ps = imap (fun n p => (fun i => g (i + 1)) (Z.of_nat n) p) ps) as ->.
    { apply imap_ext. intros n q _. cbn. f_equal. lia. }
    apply (IH (fun i => g (i + 1))). intros i q Hq. apply Hg. revert Hq. unfold zget. destruct (Z.leb_spec 0 i); [|done]. destruct (Z.leb_spec 0 (i + 1)); [|lia].
    replace (Z.to_nat (i + 1)) with (Datatypes.S (Z.to_nat i)) by lia. done.
Qed.
Lemma res_slot ps i p : zget ps i = Some p ->
  exists rest, res ps ≡ₚ items p ++ rest /\ forall g, res (timap (at_slot i g) ps) ≡ₚ items (g p) ++ rest.
Proof.
  intros Hp. pose proof (zget_Some_range _ _ _ Hp) as Hr. assert (ps !! Z.to_nat i = Some p) as Hl by (unfold zget in Hp; by rewrite (proj2 (Z.leb_le 0 i)) in Hp by lia).
  exists (res (take (Z.to_nat i) ps) ++ res (drop (Datatypes.S (Z.to_nat i)) ps)). split.
  - rewrite <-(take_drop_middle ps _ p Hl) at 1. unfold res. rewrite bind_app, bind_cons. by rewrite Permutation_app_swap_app.
  - intros g. rewrite <-(zset_timap ps i p g Hp). unfold zset. rewrite (proj2 (Z.leb_le 0 i)) by lia.
    rewrite insert_take_drop by (by eapply lookup_lt_Some). unfold res. rewrite bind_app, bind_cons. by rewrite Permutation_app_swap_app.
Qed.
Lemma elem_res s x : x ∈ res (procs s) <-> exists i p, process s i p /\ x = item p.
Proof.
  unfold res, process. rewrite list_elem_of_bind. split.
  - intros (p & Hx & Hp). unfold items in Hx. destruct (holds p) eqn:Eh; [|by apply elem_of_nil in Hx]. apply list_elem_of_singleton in Hx as ->.
    apply list_elem_of_lookup in Hp as [n Hn]. exists (Z.of_nat n), p. split; [|done]. split; [|done]. unfold zget. rewrite (proj2 (Z.leb_le 0 _)) by lia. by rewrite Nat2Z.id.
  - intros (i & p & (Hp & Eh) & ->). exists p. split; [unfold items; rewrite Eh; by apply list_elem_of_singleton|by apply zget_elem in Hp].
Qed.
(** Items that differ belong to different processes. *)
Lemma res_inj {A} (g : Z * (Z * Z) -> A) s i j p q : NoDup (g <$> res (procs s)) -> process s i p -> process s j q -> g (item p) = g (item q) -> i = j.
Proof.
  intros Hnd [Hp Eh] [Hq Ehq] E. destruct (decide (i = j)) as [|Hne]; [done|exfalso]. destruct (res_slot _ _ _ Hp) as (rest & H1 & H2).
  unfold items in H1. rewrite Eh in H1. rewrite H1 in Hnd. apply NoDup_cons in Hnd as [Hn _]. apply Hn. rewrite E. apply list_elem_of_fmap_2.
  specialize (H2 (with_state UNUSED)). change (items (with_state UNUSED p)) with (@nil (Z * (Z * Z))) in H2. cbn [app] in H2. rewrite <-H2.
  apply (elem_res (tab (at_slot i (with_state UNUSED)) s)). exists j, q. split; [|done]. split; [|done]. cbn. rewrite timap_get, Hq. unfold at_slot. by destruct (Z.eqb_spec j i).
Qed.

(** ** Memory, with the address spaces [D] and the pages [H] that are in use *)
Section Inv.
Context (Hkend : KERNBASE < kend) (Hdata : aligned kdata /\ KERNLINK < kdata < KERNBASE + PHYSTOP) (all : gset Z).
Definition cinv k (D : list (Z * Z)) (H : list Z) : Prop := NoDup (fst <$> D) /\ exists l R, vm_inv kend all k l R (list_to_map D) H.

Lemma cinv_perm k D D' K K' : D ≡ₚ D' -> K ≡ₚ K' -> cinv k D K -> cinv k D' K'.
Proof.
  intros HD HK (Hnd & l & R & [H1 H2 H3 [H4 H5] H6]). split; [by rewrite <-HD|]. exists l, R. rewrite <-(list_to_map_proper D D' Hnd HD). split; [done..| |].
  - split; [by rewrite <-HK|]. intros q. rewrite <-HK. apply H5.
  - rewrite <-H6. f_equal. apply set_eq. intros q. rewrite !elem_of_list_to_set. by rewrite HK.
Qed.
Lemma in_spaces D pd sz : NoDup (fst <$> D) -> (pd, sz) ∈ D -> (list_to_map D : gmap Z Z) !! pd = Some sz.
Proof. apply elem_of_list_to_map_1. Qed.
(** A directory is an address and not 0. *)
Lemma dir_value k l R sp K pd sz : vm_inv kend all k l R sp K -> sp !! pd = Some sz -> is_u32 pd /\ pd <> 0 /\ 0 <= sz < KERNBASE.
Proof.
  intros Hi E. destruct (vi_space _ _ _ _ _ _ _ Hi pd sz E) as (Hs & Hsz & _). pose proof (pl_used _ _ _ _ (vi_pool _ _ _ _ _ _ _ Hi) pd Dir (sp_dir _ _ _ Hs)) as Hr.
  split; [apply Hr|]. split; [by destruct (rpage_range kend Hkend pd Hr) as (_ & _ & ?)|done].
Qed.
Lemma mem_try_ok m k f r k' : m k = Ret r k' -> mem_try m (Some k, f) = (if u32 r =? 0 then None else Some (u32 r), (Some k', f)).
Proof. intros E. unfold mem_try. cbn [fst snd]. by rewrite E. Qed.
Lemma mem_do_ok m k f k' : m k = Ret tt k' -> mem_do m (Some k, f) = (Some k', f).
Proof. intros E. unfold mem_do. cbn [fst snd]. by rewrite E. Qed.

Lemma kalloc_mem k f D K : cinv k D K ->
  exists r k', kalloc (Some k, f) = (r, (Some k', f)) /\ match r with Some q => cinv k' D (q :: K) | None => cinv k' D K end.
Proof.
  intros (Hnd & l & R & Hi). destruct (kalloc_inv kend kdata Hkend Hdata all k l R _ K Hi) as (q & k' & l' & E & _ & Hi').
  eexists _, k'. split; [exact (mem_try_ok _ _ f _ _ E)|]. destruct (Z.eqb_spec q 0) as [->|Hq]; [split; [done|by exists l', R]|].
  destruct (proj2 (vi_held _ _ _ _ _ _ _ Hi') q ltac:(left)) as [[_ Hu] _]. rewrite u32_id by done. rewrite (proj2 (Z.eqb_neq _ _) Hq). split; [done|]. by exists l', R.
Qed.
Lemma kfree_mem k f D q K : cinv k D (q :: K) -> exists k', kfree q (Some k, f) = (Some k', f) /\ cinv k' D K.
Proof.
  intros (Hnd & l & R & Hi). destruct (kfree_inv kend kdata Hkend Hdata all k l R _ (q :: K) q Hi ltac:(left)) as (k' & E & Hi').
  exists k'. split; [exact (mem_do_ok _ _ f _ E)|]. split; [done|]. exists (q :: l), R.
  assert (filter (fun x => x <> q) (q :: K) = K) as EK; [|by rewrite EK in Hi'].
  destruct (vi_held _ _ _ _ _ _ _ Hi) as [[Hq _]%NoDup_cons _]. rewrite list.filter_cons, decide_False by tauto. clear -Hq.
  induction K as [|x K IH]; [done|]. apply not_elem_of_cons in Hq as [Hx Hq]. rewrite list.filter_cons, decide_True by done. f_equal. by apply IH.
Qed.
(** A new address space. *)
Lemma new_space_mem m k f D K sz : cinv k D K ->
  (forall l R, vm_inv kend all k l R (list_to_map D) K -> exists d k' l' R', m k = Ret d k' /\ (d = 0 \/ (list_to_map D : gmap Z Z) !! d = None) /\
     vm_inv kend all k' l' R' (if d =? 0 then list_to_map D else <[d := sz]> (list_to_map D)) K) ->
  exists r k', mem_try m (Some k, f) = (r, (Some k', f)) /\ match r with Some d => cinv k' ((d, sz) :: D) K | None => cinv k' D K end.
Proof.
  intros (Hnd & l & R & Hi) Hm. destruct (Hm l R Hi) as (d & k' & l' & R' & E & Hf & Hi'). eexists _, k'. split; [exact (mem_try_ok _ _ f _ _ E)|].
  destruct (Z.eqb_spec d 0) as [->|Hd]; [split; [done|by exists l', R']|]. destruct Hf as [?|Hf]; [done|].
  destruct (dir_value _ _ _ _ _ d sz Hi' (lookup_insert_eq _ _ _)) as (Hu & _). rewrite u32_id by done. rewrite (proj2 (Z.eqb_neq _ _) Hd). split; [|by exists l', R'].
  rewrite fmap_cons. constructor; [|done]. by apply not_elem_of_list_to_map.
Qed.
Lemma setupkvm_mem k f D K : cinv k D K ->
  exists r k', setupkvm (Some k, f) = (r, (Some k', f)) /\ match r with Some d => cinv k' ((d, 0) :: D) K | None => cinv k' D K end.
Proof.
  intros Hc. apply (new_space_mem (XVm.setupkvm kend kdata) k f D K 0 Hc). intros l R Hi. destruct (setup_inv kend kdata Hkend Hdata all k l R _ K Hi) as (d & k' & l' & R' & E & Hf & _ & Hi'). eauto 8.
Qed.
Lemma copyuvm_mem k f D K pd sz : cinv k D K -> (pd, sz) ∈ D ->
  exists r k', copyuvm pd sz (Some k, f) = (r, (Some k', f)) /\ match r with Some d => cinv k' ((d, sz) :: D) K | None => cinv k' D K end.
Proof.
  intros Hc Hin. apply (new_space_mem (XVm.copyuvm kend kdata pd sz) k f D K sz Hc). intros l R Hi.
  destruct (fork_inv kend kdata Hkend Hdata all k l R _ K pd sz Hi (in_spaces D pd sz (proj1 Hc) Hin)) as (d & k' & l' & R' & E & Hf & Hi'). eauto 8.
Qed.
Lemma head_space D pd sz : (list_to_map ((pd, sz) :: D) : gmap Z Z) !! pd = Some sz.
Proof. apply lookup_insert_eq. Qed.
Lemma freevm_mem k f D K pd sz : cinv k ((pd, sz) :: D) K -> exists k', freevm pd (Some k, f) = (Some k', f) /\ cinv k' D K.
Proof.
  intros (Hnd & l & R & Hi). destruct (free_inv kend kdata Hkend Hdata all k l R _ K pd sz Hi (head_space D pd sz)) as (k' & l' & R' & E & Hi').
  exists k'. split; [exact (mem_do_ok _ _ f _ E)|]. rewrite fmap_cons in Hnd. apply NoDup_cons in Hnd as [Hn Hnd]. split; [done|]. exists l', R'.
  cbn [list_to_map foldr] in Hi'. change (list_to_map ((pd, sz) :: D) : gmap Z Z) with (<[pd := sz]> (list_to_map D) : gmap Z Z) in Hi'.
  rewrite delete_insert_id in Hi' by (by apply not_elem_of_list_to_map). done.
Qed.
(** A space changes its size; a result 0 is a failure that leaves it. *)
Lemma resize_mem m k f D K pd sz : cinv k ((pd, sz) :: D) K ->
  (forall l R, vm_inv kend all k l R (<[pd := sz]> (list_to_map D)) K -> exists r k' l' R', m k = Ret r k' /\
     vm_inv kend all k' l' R' (if r =? 0 then <[pd := sz]> (list_to_map D) else <[pd := r]> (<[pd := sz]> (list_to_map D))) K) ->
  exists r k', mem_try m (Some k, f) = (r, (Some k', f)) /\ match r with Some sz' => cinv k' ((pd, sz') :: D) K | None => cinv k' ((pd, sz) :: D) K end.
Proof.
  intros (Hnd & l & R & Hi) Hm. destruct (Hm l R Hi) as (r & k' & l' & R' & E & Hi'). eexists _, k'. split; [exact (mem_try_ok _ _ f _ _ E)|].
  destruct (Z.eqb_spec r 0) as [->|Hr]; [split; [done|by exists l', R']|]. rewrite insert_insert_eq in Hi'.
  destruct (dir_value _ _ _ _ _ pd r Hi' (lookup_insert_eq _ _ _)) as (_ & _ & Hb). rewrite u32_id by (unfold is_u32, KERNBASE in *; lia). rewrite (proj2 (Z.eqb_neq _ _) Hr).
  split; [done|by exists l', R'].
Qed.
Lemma allocuvm_mem k f D K pd sz newsz : cinv k ((pd, sz) :: D) K -> is_u32 newsz ->
  exists r k', allocuvm pd sz newsz (Some k, f) = (r, (Some k', f)) /\ match r with Some sz' => cinv k' ((pd, sz') :: D) K | None => cinv k' ((pd, sz) :: D) K end.
Proof.
  intros Hc Hn. apply (resize_mem (XVm.allocuvm kend pd sz newsz) k f D K pd sz Hc). intros l R Hi.
  apply (grow_inv kend kdata Hkend Hdata all k l R _ K pd sz newsz Hi (lookup_insert_eq _ _ _) Hn).
Qed.
Lemma deallocuvm_mem k f D K pd sz newsz : cinv k ((pd, sz) :: D) K -> is_u32 newsz -> newsz <> 0 ->
  exists r k', deallocuvm pd sz newsz (Some k, f) = (r, (Some k', f)) /\ match r with Some sz' => cinv k' ((pd, sz') :: D) K | None => cinv k' ((pd, sz) :: D) K end.
Proof.
  intros Hc Hn Hnz. apply (resize_mem (XVm.deallocuvm kend pd sz newsz) k f D K pd sz Hc). intros l R Hi.
  destruct (shrink_inv kend kdata Hkend Hdata all k l R _ K pd sz newsz Hi (lookup_insert_eq _ _ _) Hn) as (r & k' & l' & R' & E & Er & Hi').
  exists r, k', l', R'. split; [done|]. destruct (Z.eqb_spec r 0) as [E0|]; [|done]. assert (sz = 0) as -> by (unfold is_u32 in *; lia).
  rewrite E0, insert_insert_eq in Hi'. done.
Qed.

(** ** The invariant *)
Definition owns (s : kern) (o : list Z) : Prop :=
  exists k f, ext s = (Some k, f) /\ cinv k (snd <$> res (procs s)) ((fst <$> res (procs s)) ++ o).

(** A change that leaves alone what a process holds. *)
Definition keeps_mem (p p' : proc) : Prop := (p_state p' = UNUSED <-> p_state p = UNUSED) /\ same_mem p p'.
Lemma keeps_items p p' : keeps_mem p p' -> items p' = items p.
Proof.
  intros [Hs (E1 & E2 & E3)]. unfold items, holds, item. rewrite E1, E2, E3. assert (state_eqb (p_state p') UNUSED = state_eqb (p_state p) UNUSED) as ->; [|done].
  unfold state_eqb. apply bool_decide_ext. done.
Qed.
Lemma owns_tab s s' o g : owns s o -> procs s' = timap g (procs s) -> fst (ext s') = fst (ext s) ->
  (forall i p, zget (procs s) i = Some p -> keeps_mem p (g i p)) -> owns s' o.
Proof.
  intros (k & f & E & Hc) Ep Ee Hg. exists k, (snd (ext s')). rewrite Ep, res_timap by (intros i p Hp; by apply keeps_items, Hg). split; [|done].
  rewrite E in Ee. by destruct (ext s'); cbn in *; subst.
Qed.
Lemma owns_slot s s' o i g : owns s o -> procs s' = timap (at_slot i g) (procs s) -> fst (ext s') = fst (ext s) ->
  (forall p, zget (procs s) i = Some p -> keeps_mem p (g p)) -> owns s' o.
Proof. intros Ho Ep Ee Hg. apply (owns_tab s s' o _ Ho Ep Ee). intros j p Hp. unfold at_slot. destruct (Z.eqb_spec j i) as [->|]; [by apply Hg|done]. Qed.
Lemma owns_same s s' o : owns s o -> procs s' = procs s -> fst (ext s') = fst (ext s) -> owns s' o.
Proof. intros Ho Ep Ee. apply (owns_tab s s' o (fun _ p => p) Ho); [by rewrite timap_id|done|done]. Qed.
Lemma file_steps e e' : rtc file_step e e' -> fst e' = fst e.
Proof.
  induction 1 as [|x y z Hxy _ IH]; [done|]. rewrite IH. destruct Hxy as [[a ->]|[[a ->]|[[a ->]|[[a ->]|[a ->]]]]]; done.
Qed.
Lemma wake_keeps ch p : keeps_mem p (wake ch p).
Proof.
  split; [|apply wake_mem]. pose proof (wake_same ch p) as (_ & _ & _ & _ & _ & _ & _ & _ & [->|[-> ->]] & _); done.
Qed.
(** A slot that held nothing holds something now, or the other way round. *)
Lemma owns_put s s' o i p p' k f : zget (procs s) i = Some p -> p_state p = UNUSED -> p_state p' <> UNUSED ->
  procs s' = timap (at_slot i (fun _ => p')) (procs s) -> ext s' = (Some k, f) ->
  cinv k ((p_pgdir p', p_sz p') :: (snd <$> res (procs s))) (p_kstack p' :: (fst <$> res (procs s)) ++ o) -> owns s' o.
Proof.
  intros Hp Hu Hu' Ep Ee Hc. exists k, f. split; [done|]. destruct (res_slot _ _ _ Hp) as (rest & H1 & H2). specialize (H2 (fun _ => p')). rewrite <-Ep in H2.
  assert (items p = []) as Ei by (unfold items, holds, state_eqb; by rewrite bool_decide_true). assert (items p' = [item p']) as Ei' by (unfold items, holds, state_eqb; by rewrite bool_decide_false).
  rewrite Ei in H1. rewrite Ei' in H2. cbn [app] in H1, H2. eapply cinv_perm; [| |exact Hc].
  - by rewrite H1, H2.
  - by rewrite H1, H2.
Qed.
Lemma owns_take s s' o i p g k f : zget (procs s) i = Some p -> p_state p <> UNUSED -> p_state (g p) = UNUSED ->
  procs s' = timap (at_slot i g) (procs s) -> ext s' = (Some k, f) ->
  (forall D K, snd <$> res (procs s) ≡ₚ (p_pgdir p, p_sz p) :: D -> fst <$> res (procs s) ≡ₚ p_kstack p :: K -> cinv k D (K ++ o)) -> owns s' o.
Proof.
  intros Hp Hu Hu' Ep Ee Hc. exists k, f. split; [done|]. destruct (res_slot _ _ _ Hp) as (rest & H1 & H2). specialize (H2 g). rewrite <-Ep in H2.
  assert (items (g p) = []) as Ei by (unfold items, holds, state_eqb; by rewrite bool_decide_true). assert (items p = [item p]) as Ei' by (unfold items, holds, state_eqb; by rewrite bool_decide_false).
  rewrite Ei' in H1. rewrite Ei in H2. cbn [app] in H1, H2. eapply cinv_perm; [| |apply (Hc (snd <$> rest) (fst <$> rest))].
  - by rewrite H2.
  - by rewrite H2.
  - by rewrite H1.
  - by rewrite H1.
Qed.
Lemma owns_items s s' o g k f : procs s' = timap g (procs s) -> ext s' = (Some k, f) -> (forall i p, zget (procs s) i = Some p -> items (g i p) = items p) ->
  cinv k (snd <$> res (procs s)) ((fst <$> res (procs s)) ++ o) -> owns s' o.
Proof. intros Ep Ee Hg Hc. exists k, f. split; [done|]. by rewrite Ep, res_timap. Qed.
Lemma unused_items p : p_state p = UNUSED -> items p = [].
Proof. intros E. unfold items, holds, state_eqb. by rewrite bool_decide_true. Qed.
Lemma space_of s i p : zget (procs s) i = Some p -> p_state p <> UNUSED -> (p_pgdir p, p_sz p) ∈ (snd <$> res (procs s)).
Proof.
  intros Hp Hs. change (p_pgdir p, p_sz p) with (snd (item p)). apply list_elem_of_fmap_2, elem_res. exists i, p. split; [|done]. split; [done|].
  unfold holds, state_eqb. by rewrite bool_decide_false.
Qed.

(** ** Every call of a process *)
Lemma fork_owns s s' o : pt_ok s -> owns s o -> nextpid s < 2147483647 -> ends fork s s' -> owns s' o.
Proof.
  intros Hok Ho Hpid He. destruct (cur s) as [c|] eqn:Hc; cycle 1.
  { exfalso. revert He. unfold fork, myproc, ends. rewrite exec_bind, exec_get, Hc. by intros [[a Ha]|Ha]. }
  destruct (pt_cur s c Hok Hc) as (cp & Hcp & Hrun). pose proof Ho as (k & f0 & Ee & Hci).
  destruct (kalloc_mem k f0 _ _ Hci) as (r & k1 & Ek & Hc1). rewrite <-Ee in Ek.
  destruct (fork_ok s c cp) as [(s1 & Hr & i & g & n & e & Hs1 & Hn & Hf)|(i & p & q' & e & Hi & Hch & (e1 & e2 & E1 & E2 & Hfs) & Hr)];
    try done; [by apply (pk_len s)|by rewrite Hrun|by apply (pk_ofile s Hok c)|by apply (pk_ofile s Hok)|..]; rewrite (ends_ret _ _ _ _ _ Hr He).
  - destruct Hs1 as [->|[-> Hfail]]; [done|].
    assert (exists k', e = (Some k', f0) /\ cinv k' (snd <$> res (procs s)) ((fst <$> res (procs s)) ++ o)) as (k' & -> & Hck).
    { destruct Hfail as [E|(ks & e1 & e2 & E1 & E2 & ->)].
      - rewrite E in Ek. injection Ek as <- ->. eauto.
      - rewrite E1 in Ek. injection Ek as <- ->. destruct (copyuvm_mem k1 f0 _ _ (p_pgdir cp) (p_sz cp) Hc1) as (r & k2 & E & Hc2); [apply (space_of s c cp); [done|by rewrite Hrun]|].
        rewrite E2 in E. injection E as <- ->. destruct (kfree_mem k2 f0 _ _ _ Hc2) as (k3 & E3 & Hc3). rewrite E3. eauto. }
    apply (owns_items s _ o (at_slot i g) k' f0); [done|done| |done]. intros j p Hp. unfold at_slot. destruct (Z.eqb_spec j i) as [->|]; [|done].
    destruct (Hf p Hp) as [Hu Hpo]. rewrite (unused_items p Hu). apply unused_items. destruct Hpo as [->|(ks & [->|(t & ->)])]; done.
  - destruct Hi as (Hp & Hu & _). destruct Hch as [(C1 & _ & _) (C2 & _) _ _ _]. rewrite E1 in Ek. injection Ek as <- ->.
    destruct (copyuvm_mem k1 f0 _ _ (p_pgdir cp) (p_sz cp) Hc1) as (r & k2 & E & Hc2); [apply (space_of s c cp); [done|by rewrite Hrun]|].
    rewrite E2 in E. injection E as <- ->. pose proof (file_steps _ _ Hfs) as Hfe. destruct e as [me fe]. cbn in Hfe. subst me.
    eapply (owns_put s _ o i p q' k2 fe Hp Hu); [by rewrite C1|done|done|by rewrite C2].
Qed.
Lemma reap_owns s s' o i p prio : owns s o -> zget (procs s) i = Some p -> p_state p <> UNUSED ->
  s' = tab (at_slot i (reaped prio)) (with_ext (freevm (p_pgdir p) (kfree (p_kstack p) (ext s))) s) -> owns s' o.
Proof.
  intros (k & f & Ee & Hci) Hp Hs ->. destruct (res_slot _ _ _ Hp) as (rest & H1 & _).
  assert (items p = [item p]) as Ei by (unfold items, holds, state_eqb; by rewrite bool_decide_false). rewrite Ei in H1. cbn [app] in H1.
  assert (cinv k ((p_pgdir p, p_sz p) :: (snd <$> rest)) (p_kstack p :: (fst <$> rest) ++ o)) as Hc0.
  { eapply cinv_perm; [| |exact Hci]; by rewrite H1. }
  destruct (kfree_mem k f _ _ _ Hc0) as (k1 & E1 & Hc1). destruct (freevm_mem k1 f _ _ _ _ Hc1) as (k2 & E2 & Hc2).
  eapply (owns_take s _ o i p (reaped prio) k2 f Hp Hs); [by destruct prio|done|cbn [ext with_ext tab with_procs]; by rewrite Ee, E1, E2|].
  intros D K HD HK. eapply cinv_perm; [| |exact Hc2].
  - rewrite H1 in HD. by apply Permutation_cons_inv in HD.
  - f_equiv. rewrite H1 in HK. by apply Permutation_cons_inv in HK.
Qed.
Lemma call_owns s s' o : pt_ok s -> owns s o -> pcall s s' -> owns s' o.
Proof.
  intros Hok Ho Hstep.
  assert (forall A (m : Z -> M kern A), ends (myproc ≫= m) s s' -> exists c p, cur s = Some c /\ zget (procs s) c = Some p /\ p_state p = RUNNING) as Hcur.
  { intros A m He. destruct (cur s) as [c|] eqn:Hc; [destruct (pt_cur s c Hok Hc) as (p & ? & ?); by exists c, p|].
    exfalso. unfold ends, myproc in He. rewrite exec_bind, exec_get, Hc in He. by destruct He as [[a Ha]|Ha]. }
  destruct Hstep as [Hn He|Hn He|Hn He|He|He|He|ch He|pid He|pid pr He|ch He|Hn He].
  - destruct (scheduler_ok s (pk_len s Hok)) as (ch & Hb & Hr). destruct ch as [[i p]|]; rewrite (ends_ret _ _ _ _ _ Hr He); [|by apply (owns_same s)].
    destruct Hb as (_ & Hp & Hs & _). apply (owns_slot s _ o i start Ho); [done|done|]. intros q Hq. assert (q = p) as -> by congruence. split; [by rewrite Hs|done].
  - by eapply fork_owns.
  - destruct (Hcur _ _ He) as (c & p & Hc & Hp & Hrun). destruct (pk_init s Hok) as (ip & ipp & Hip & _).
    destruct (exit_ok s c ip p) as (e & G & Hr & Hfs & HG); try done; [by apply pk_len|congruence|by apply (pk_ofile s)|].
    rewrite (ends_leave _ _ _ _ Hr He). apply (owns_tab s _ o G Ho); [done|exact (file_steps _ _ Hfs)|]. intros i q Hq. destruct (HG i q Hq) as [_ Hm _ Hself Hoth _]. split; [|done].
    destruct (decide (i = c)) as [->|Hi]; [rewrite (Hself eq_refl); assert (q = p) as -> by congruence; by rewrite Hrun|]. by destruct (Hoth Hi) as [->|[-> ->]].
  - destruct (Hcur _ _ He) as (c & me & Hc & Hme & Hrun). destruct (wait_ends s c Hok Hc) as [(i & p & (Hp & [_ Hz] & _) & Hr & _)|(_ & me' & b & Hme' & _ & Hr)].
    + rewrite (reap_ok s i p true Hp) in Hr. rewrite (ends_ret _ _ _ _ _ Hr He). eapply reap_owns; [exact Ho|exact Hp|by rewrite Hz|done].
    + destruct (_ || _); destruct Hr as [Hr _]; [by rewrite (ends_ret _ _ _ _ _ Hr He)|]. rewrite (ends_leave _ _ _ _ Hr He).
      apply (owns_slot s _ o c (asleep (ChProc c)) Ho); [done|done|]. intros q Hq. assert (q = me) as -> by congruence. split; [by rewrite Hrun|done].
  - destruct (Hcur _ _ He) as (c & me & Hc & Hme & Hrun). destruct (wait_ends s c Hok Hc) as [(i & p & (Hp & [_ Hz] & _) & _ & me' & _ & Hr)|(_ & me' & b & Hme' & _ & Hr)].
    + set (s1 := with_out _ s) in *. unfold mbind, M_bind in Hr. rewrite (reap_ok s1 i p false Hp) in Hr. rewrite (ends_ret _ _ _ _ _ Hr He).
      eapply (reap_owns s1); [by apply (owns_same s)|exact Hp|by rewrite Hz|done].
    + destruct (_ || _); destruct Hr as [_ Hr]; [by rewrite (ends_ret _ _ _ _ _ Hr He)|]. rewrite (ends_leave _ _ _ _ Hr He).
      apply (owns_slot s _ o c (asleep (ChProc c)) Ho); [done|done|]. intros q Hq. assert (q = me) as -> by congruence. split; [by rewrite Hrun|done].
  - destruct (Hcur _ _ He) as (c & p & Hc & Hp & Hrun). rewrite (ends_leave _ _ _ _ (yield_ok s c p Hc Hp) He).
    apply (owns_slot s _ o c (with_state RUNNABLE) Ho); [done|done|]. intros q Hq. assert (q = p) as -> by congruence. split; [by rewrite Hrun|done].
  - destruct (cur s) as [c|] eqn:Hc; [|unfold sleep in He; destruct He as [[a Ha]|Ha]; rewrite exec_get, Hc in Ha; done].
    destruct (pt_cur s c Hok Hc) as (p & Hp & Hrun). rewrite (ends_leave _ _ _ _ (sleep_ok s c p ch Hc Hp) He).
    apply (owns_slot s _ o c (asleep ch) Ho); [done|done|]. intros q Hq. assert (q = p) as -> by congruence. split; [by rewrite Hrun|done].
  - destruct (kill_ok s pid (pk_len s Hok)) as [(i & p & _ & Hr)|[_ Hr]]; rewrite (ends_ret _ _ _ _ _ Hr He); [|done].
    apply (owns_slot s _ o i kill_proc Ho); [done|done|]. intros q _. unfold kill_proc, state_eqb, keeps_mem. case_bool_decide as E; cbn; [rewrite E|]; done.
  - destruct (setpriority_ok s pid pr (pk_len s Hok)) as [(i & p & _ & Hr)|[_ Hr]]; rewrite (ends_ret _ _ _ _ _ Hr He); [|done].
    by apply (owns_slot s _ o i (with_priority pr) Ho).
  - rewrite (ends_ret _ _ _ _ _ (wakeup1_ok ch s (pk_len s Hok)) He). apply (owns_tab s _ o (fun _ => wake ch) Ho); [done|done|]. intros. apply wake_keeps.
  - rewrite (ends_ret _ _ _ _ _ (timer_tick_ok s (pk_len s Hok) Hn) He). eapply (owns_tab s _ o _ Ho); [reflexivity|done|].
    intros i p _. destruct (wake_keeps ChTicks p) as [E Em]. unfold account. destruct (p_state (wake ChTicks p)) eqn:E2; (split; [cbn; rewrite ?E2; done|exact Em]).
Qed.

(** [sbrk]. *)
Lemma owns_resize s s' o i p sz' k f : zget (procs s) i = Some p -> p_state p <> UNUSED ->
  procs s' = timap (at_slot i (with_sz sz')) (procs s) -> ext s' = (Some k, f) ->
  (forall D K, snd <$> res (procs s) ≡ₚ (p_pgdir p, p_sz p) :: D -> fst <$> res (procs s) ≡ₚ p_kstack p :: K ->
     cinv k ((p_pgdir p, sz') :: D) (p_kstack p :: K ++ o)) -> owns s' o.
Proof.
  intros Hp Hu Ep Ee Hc. exists k, f. split; [done|]. destruct (res_slot _ _ _ Hp) as (rest & H1 & H2). specialize (H2 (with_sz sz')). rewrite <-Ep in H2.
  assert (items (with_sz sz' p) = [item (with_sz sz' p)]) as Ei by (unfold items, holds, state_eqb; by rewrite bool_decide_false). assert (items p = [item p]) as Ei' by (unfold items, holds, state_eqb; by rewrite bool_decide_false).
  rewrite Ei' in H1. rewrite Ei in H2. cbn [app] in H1, H2. eapply cinv_perm; [| |apply (Hc (snd <$> rest) (fst <$> rest))].
  - by rewrite H2.
  - by rewrite H2.
  - by rewrite H1.
  - by rewrite H1.
Qed.
Lemma sbrk_ok s o c p n : owns s o -> cur s = Some c -> zget (procs s) c = Some p -> p_state p = RUNNING -> -2147483648 <= n < 2147483648 -> p_sz p + n <> 0 ->
  exists a e sz', sys_sbrk n s = Ret a (with_ext e (tab (at_slot c (with_sz sz')) s)) /\ owns (with_ext e (tab (at_slot c (with_sz sz')) s)) o.
Proof.
  intros (k & f & Ee & Hci) Hc Hp Hrun Hn Hnz. assert (myproc s = Ret c s) as Hm by (unfold myproc; exec; by rewrite Hc).
  destruct (res_slot _ _ _ Hp) as (rest & H1 & _). assert (items p = [item p]) as Ei by (unfold items, holds, state_eqb; by rewrite Hrun, bool_decide_false). rewrite Ei in H1. cbn [app] in H1.
  assert (cinv k ((p_pgdir p, p_sz p) :: (snd <$> rest)) (p_kstack p :: (fst <$> rest) ++ o)) as Hc0 by (eapply cinv_perm; [| |exact Hci]; by rewrite H1).
  assert (0 <= p_sz p < KERNBASE) as Hsz.
  { destruct Hc0 as (_ & l & R & Hi). exact (proj2 (proj2 (dir_value _ _ _ _ _ _ _ Hi (head_space _ _ _)))). }
  assert (forall sz' k', cinv k' ((p_pgdir p, sz') :: (snd <$> rest)) (p_kstack p :: (fst <$> rest) ++ o) ->
    owns (with_ext (Some k', f) (tab (at_slot c (with_sz sz')) s)) o) as Hend.
  { intros sz' k' Hk'. eapply (owns_resize s _ o c p sz' k' f Hp); [by rewrite Hrun|done|done|]. intros D K HD HK. eapply cinv_perm; [| |exact Hk'].
    - f_equiv. rewrite H1 in HD. by apply Permutation_cons_inv in HD.
    - f_equiv. f_equiv. rewrite H1 in HK. by apply Permutation_cons_inv in HK. }
  assert (tab (at_slot c (with_sz (p_sz p))) s = s) as Esame by (rewrite (tab_slot_const c p) by done; replace (with_sz (p_sz p) p) with p by (by destruct p); by apply tab_same).
  assert (forall r k', match r with Some sz' => cinv k' ((p_pgdir p, sz') :: (snd <$> rest)) (p_kstack p :: (fst <$> rest) ++ o)
      | None => cinv k' ((p_pgdir p, p_sz p) :: (snd <$> rest)) (p_kstack p :: (fst <$> rest) ++ o) end ->
    exists a e sz', (r ← (match r with Some sz => upd_proc c (with_sz sz) ;; mret 0 | None => mret (-1) end); mret (if r <? 0 then -1 else p_sz p))
      (with_ext (Some k', f) s) = Ret a (with_ext e (tab (at_slot c (with_sz sz')) s)) /\ owns (with_ext e (tab (at_slot c (with_sz sz')) s)) o) as Hfin.
  { intros [sz'|] k' Hk'; eexists _, (Some k', f).
    - exists sz'. split; [|by apply Hend]. rewrite exec_bind. by exec_by (upd_proc_ok (with_ext (Some k', f) s) c p (with_sz sz') Hp).
    - exists (p_sz p). split; [|by apply Hend]. rewrite Esame. done. }
  unfold sys_sbrk, growproc. exec_by Hm. exec_by (get_proc_ok s c p Hp). rewrite exec_bind. exec_by Hm. rewrite exec_bind. exec_by (get_proc_ok s c p Hp).
  destruct (Z.ltb_spec 0 n).
  - destruct (allocuvm_mem k f _ _ _ (p_sz p) (u32 (p_sz p + n)) Hc0 (u32_range _)) as (r & k' & E & Hk'). rewrite <-Ee in E.
    rewrite exec_bind. unfold ext_try. exec_by (ext_get_ok (allocuvm (p_pgdir p) (p_sz p) (u32 (p_sz p + n))) s). rewrite E. cbn [fst snd]. by apply Hfin.
  - destruct (Z.ltb_spec n 0).
    + destruct (deallocuvm_mem k f _ _ _ (p_sz p) (u32 (p_sz p + n)) Hc0 (u32_range _)) as (r & k' & E & Hk'); [unfold u32, KERNBASE in *; zlia|]. rewrite <-Ee in E.
      rewrite exec_bind. unfold ext_try. exec_by (ext_get_ok (deallocuvm (p_pgdir p) (p_sz p) (u32 (p_sz p + n))) s). rewrite E. cbn [fst snd]. by apply Hfin.
    + destruct (Hfin (Some (p_sz p)) k Hc0) as (a & e & sz' & E & Hoe). exists a, e, sz'. split; [|done]. rewrite <-E. rewrite <-Ee. by destruct s.
Qed.

(** ** The steps of the machine *)
Definition good (x : kern * list Z) : Prop := pt_ok (fst x) /\ owns (fst x) (snd x).
(** The memory changes and the table does not. *)
Lemma good_ext s o o' e : good (s, o) -> owns (with_ext e s) o' -> good (with_ext e s, o').
Proof. intros [Hok _] Ho. split; [by apply (pt_ok_same s)|done]. Qed.
Lemma stack_of s i p : process s i p -> p_kstack p ∈ (fst <$> res (procs s)).
Proof. intros Hp. change (p_kstack p) with (fst (item p)). apply list_elem_of_fmap_2, elem_res. by exists i, p. Qed.
Lemma process_space s k l R K i p : vm_inv kend all k l R (list_to_map (snd <$> res (procs s))) K -> NoDup (fst <$> (snd <$> res (procs s))) -> process s i p ->
  (list_to_map (snd <$> res (procs s)) : gmap Z Z) !! p_pgdir p = Some (p_sz p).
Proof. intros _ Hnd Hp. apply in_spaces; [done|]. change (p_pgdir p, p_sz p) with (snd (item p)). apply list_elem_of_fmap_2, elem_res. by exists i, p. Qed.
(** A call of another part of the kernel that leaves the address spaces. *)
Lemma owns_call s o o' k f k' : owns s o -> ext s = (Some k, f) ->
  (forall l R, vm_inv kend all k l R (list_to_map (snd <$> res (procs s))) ((fst <$> res (procs s)) ++ o) -> NoDup (fst <$> (snd <$> res (procs s))) ->
     exists l' R' K, vm_inv kend all k' l' R' (list_to_map (snd <$> res (procs s))) K /\ K ≡ₚ (fst <$> res (procs s)) ++ o') -> owns (with_ext (Some k', f) s) o'.
Proof.
  intros (k0 & f0 & Ee & Hnd & l & R & Hi) E Hc. rewrite E in Ee. injection Ee as <- <-. exists k', f. split; [done|].
  destruct (Hc l R Hi Hnd) as (l' & R' & K & Hi' & HK). apply (cinv_perm _ _ _ K _ (Permutation_refl _) HK). split; [done|]. by exists l', R'.
Qed.
Lemma filter_out (q : Z) (l : list Z) : q ∉ l -> filter (fun x => x <> q) l = l.
Proof. induction l as [|x l IH]; [done|]. intros [Hx Hl]%not_elem_of_cons. rewrite list.filter_cons, decide_True by done. f_equal. by apply IH. Qed.

Lemma machstep_good x y : good x -> machstep x y -> good y.
Proof.
  intros Hg Hstep. destruct Hstep as [s o s' Hcall|s o s' c p n Hc Hp Hn Hnz He|s o f|s o k f q k' Ee E|s o k f q k' Ee Hq E|s o k f q a w Ee Hq Ha|
    s o k f i p va buf r k' Ee Hp Hva Hend E|s o k f i p a k' Ee Hp Ha Hlt E]; pose proof Hg as [Hok Ho]; cbn [fst snd] in Hok, Ho.
  - split; [by apply (kstep_ok s); [|apply k_call]|by apply (call_owns s)].
  - assert (p_state p = RUNNING) as Hrun by (by apply (pk_run s Hok c p Hp)). destruct (sbrk_ok s o c p n Ho Hc Hp Hrun Hn Hnz) as (a & e & sz' & E & Ho').
    rewrite (ends_ret _ _ _ _ _ E He). split; [|done]. apply (pt_ok_same (tab (at_slot c (with_sz sz')) s)); try done.
    apply pt_ok_evolve_cur; [done|..]; intros j q Hq; unfold at_slot; destruct (j =? c); try apply keeps_proc_refl; [split; try done; by left|naive_solver..].
  - apply (good_ext s o); [done|]. by apply (owns_same s).
  - apply (good_ext s o); [done|]. apply (owns_call s o _ k f k' Ho Ee). intros l R Hi _. destruct (kalloc_inv kend kdata Hkend Hdata all k l R _ _ Hi) as (q' & k2 & l' & E' & _ & Hi').
    rewrite E in E'. injection E' as <- <-. exists l', R. eexists. split; [exact Hi'|]. destruct (q =? 0); [done|]. by rewrite Permutation_middle.
  - apply (good_ext s o); [done|]. apply (owns_call s o _ k f k' Ho Ee). intros l R Hi _. destruct (kfree_inv kend kdata Hkend Hdata all k l R _ _ q Hi) as (k2 & E' & Hi'); [apply elem_of_app; by right|].
    rewrite E in E'. injection E' as <-. exists (q :: l), R. eexists. split; [exact Hi'|]. rewrite list.filter_app, (filter_out q (fst <$> res (procs s))); [done|].
    intros Hin. destruct (vi_held _ _ _ _ _ _ _ Hi) as [Hnd _]. apply NoDup_app in Hnd as (_ & Hd & _). by apply (Hd q Hin).
  - apply (good_ext s o); [done|]. apply (owns_call s o _ k f _ Ho Ee). intros l R Hi _. exists l, R. eexists. split; [|reflexivity].
    apply (write_inv kend kdata Hkend Hdata all k l R _ _ q a w Hi); [|done]. apply elem_of_app. destruct Hq as [Hq|(i & p & Hp & ->)]; [by right|left]. by apply (stack_of s i).
  - apply (good_ext s o); [done|]. apply (owns_call s o _ k f k' Ho Ee). intros l R Hi Hnd. exists l, R. eexists. split; [|reflexivity].
    apply (copyout_inv kend kdata Hkend Hdata all k l R _ _ (p_pgdir p) (p_sz p) va buf r k' Hi); [by eapply process_space|done..].
  - apply (good_ext s o); [done|]. apply (owns_call s o _ k f k' Ho Ee). intros l R Hi Hnd.
    destruct (guard_inv kend kdata Hkend Hdata all k l R _ _ (p_pgdir p) (p_sz p) a Hi) as (k2 & E' & Hi'); [by eapply process_space|done|done|].
    rewrite E in E'. injection E' as <-. exists l, R. eexists. split; [exact Hi'|reflexivity].
Qed.
Lemma machsteps_good x y : rtc machstep x y -> good x -> good y.
Proof. induction 1 as [|x y z Hxy _ IH]; [done|]. intros Hg. by apply IH, (machstep_good x). Qed.

(** The uses of the pages are one. *)
Lemma good_uses s o : good (s, o) -> exists k f free, ext s = (Some k, f) /\ kmem_ok kend k free /\
  (forall q, q ∈ all <-> exists u, used_for s k free o q u) /\ (forall q u u', used_for s k free o q u -> used_for s k free o q u' -> u = u') /\
  forall i p a, process s i p -> user_va a -> mapped (kmw k) (p_pgdir p) a = (a <? p_sz p).
Proof.
  intros [_ (k & f & Ee & Hnd & l & R & Hi)]. cbn [fst snd] in *. exists k, f, l. split; [done|]. split; [apply (vi_pool _ _ _ _ _ _ _ Hi)|].
  set (x := mk_vmsys k (list_to_map (snd <$> res (procs s))) ((fst <$> res (procs s)) ++ o)).
  destruct (inv_uses kend all x l R Hi) as [Hall Huniq].
  assert (forall i p, process s i p -> (list_to_map (snd <$> res (procs s)) : gmap Z Z) !! p_pgdir p = Some (p_sz p)) as Hsp by (intros i p Hp; by eapply process_space).
  assert (forall pd, is_Some ((list_to_map (snd <$> res (procs s)) : gmap Z Z) !! pd) -> exists i p, process s i p /\ pd = p_pgdir p) as Hof.
  { intros pd [sz E]. apply elem_of_list_to_map_2, list_elem_of_fmap in E as (y & Ey & (i & p & Hp & ->)%elem_res). exists i, p. split; [done|]. cbn in Ey. congruence. }
  set (view := fun (u : memuse) => match u with
    | MFree => UFree | MOther => UHeld | MStack _ => UHeld | MDir _ => UDir
    | MTable i t => UTable (from_option p_pgdir 0 (zget (procs s) i)) t | MPage i a => UPage (from_option p_pgdir 0 (zget (procs s) i)) a end).
  assert (forall q u, used_for s k l o q u -> used_as x l q (view u)) as Hview.
  { intros q u Hu. destruct u as [| |i|i|i t|i a]; cbn in Hu |- *; [done|apply elem_of_app; by right|..].
    - destruct Hu as (p & Hp & ->). apply elem_of_app. left. by apply (stack_of s i).
    - destruct Hu as (p & Hp & ->). by rewrite (Hsp i p Hp).
    - destruct Hu as (p & Hp & Ht & Hh & ->). pose proof Hp as [Ez _]. rewrite Ez. cbn. split; [by rewrite (Hsp i p Hp)|done].
    - destruct Hu as (p & Hp & Ha & Hm & ->). pose proof Hp as [Ez _]. rewrite Ez. cbn. split; [by rewrite (Hsp i p Hp)|done]. }
  split; [|split].
  - intros q. rewrite Hall. split; [|intros [u Hu]; exists (view u); by apply Hview]. intros [u Hu]. destruct u as [| | |pd t|pd a]; cbn in Hu.
    + by exists MFree.
    + apply elem_of_app in Hu as [Hu|Hu]; [|by exists MOther]. apply list_elem_of_fmap in Hu as (y & -> & (i & p & Hp & ->)%elem_res). exists (MStack i). cbn. by exists p.
    + destruct (Hof q Hu) as (i & p & Hp & ->). exists (MDir i). by exists p.
    + destruct Hu as (Hd & Ht & Hh & ->). destruct (Hof pd Hd) as (i & p & Hp & ->). exists (MTable i t). by exists p.
    + destruct Hu as (Hd & Ha & Hm & ->). destruct (Hof pd Hd) as (i & p & Hp & ->). exists (MPage i a). by exists p.
  - intros q u u' Hu Hu'. pose proof (Huniq q _ _ (Hview q u Hu) (Hview q u' Hu')) as Hv. destruct (vi_held _ _ _ _ _ _ _ Hi) as [Hndh _]. pose proof Hndh as (Hndk & Hdis & _)%NoDup_app.
    assert (forall i j p p', process s i p -> process s j p' -> p_pgdir p = p_pgdir p' -> i = j) as Hdir.
    { intros i j p p' Hp Hp' E. rewrite <-list_fmap_compose in Hnd. by apply (res_inj (fst ∘ snd) s i j p p' Hnd). }
    destruct u as [| |i|i|i t|i a], u' as [| |j|j|j t'|j a']; cbn in Hv; try done; cbn in Hu, Hu'.
    + destruct Hu' as (p & Hp & ->). destruct (Hdis _ (stack_of s j p Hp) Hu).
    + destruct Hu as (p & Hp & ->). destruct (Hdis _ (stack_of s i p Hp) Hu').
    + destruct Hu as (p & Hp & ->), Hu' as (p' & Hp' & E). f_equal. by apply (res_inj fst s i j p p' Hndk).
    + destruct Hu as (p & Hp & ->), Hu' as (p' & Hp' & E). f_equal. by eapply Hdir.
    + destruct Hu as (p & Hp & _), Hu' as (p' & Hp' & _). pose proof Hp as [Ez _]. pose proof Hp' as [Ez' _]. rewrite Ez, Ez' in Hv. cbn in Hv. injection Hv as E ->. f_equal. by eapply Hdir.
    + destruct Hu as (p & Hp & _), Hu' as (p' & Hp' & _). pose proof Hp as [Ez _]. pose proof Hp' as [Ez' _]. rewrite Ez, Ez' in Hv. cbn in Hv. injection Hv as E ->. f_equal. by eapply Hdir.
  - intros i p a Hp Ha. by apply (vi_space _ _ _ _ _ _ _ Hi _ _ (Hsp i p Hp)).
Qed.
End Inv.

(** ** From the first process on *)
Lemma boot_good k0 k1 f vstart vend (Hkend : KERNBASE < kend) (Hdata : aligned kdata /\ KERNLINK < kdata < KERNBASE + PHYSTOP)
    (Hfree : freelist k0 = 0) (Hrange : first_page vstart <= vend)
    (Hpages : Forall (rpage kend) (range_pages (first_page vstart) (range_size vstart vend))) (Hinit : kinit1 kend vstart vend k0 = Ret tt k1)
    (Hmany : 2100 <= Z.of_nat (range_size vstart vend)) (Hcode : zlen initcode < PGSIZE) :
  exists s0, userinit (boot_kern (Some k1, f)) = Ret tt s0 /\ good (list_to_set (range_pages (first_page vstart) (range_size vstart vend))) (s0, []).
Proof.
  destruct (reached_inv kend kdata Hkend Hdata k0 vstart vend k1 (mk_vmsys k1 ∅ []) Hfree Hrange Hpages Hinit (rtc_refl _ _)) as (l & R & Hi).
  set (all := list_to_set _) in *. cbn [vk vspaces vheld] in Hi.
  assert (R = ∅) as -> by (apply map_eq; intros q; rewrite lookup_empty; destruct (R !! q) as [r|] eqn:E; [|done]; destruct (vi_roles _ _ _ _ _ _ _ Hi q r E) as (pd & [sz Hsz] & _); by rewrite lookup_empty in Hsz).
  assert (2100 <= zlen l) as Hlen.
  { pose proof (vi_all _ _ _ _ _ _ _ Hi) as Ha. unfold pages in Ha. rewrite dom_empty_L, union_empty_r_L, list_to_set_nil, union_empty_l_L in Ha.
    assert (range_pages (first_page vstart) (range_size vstart vend) ⊆ l) as Hsub by (intros q Hq; apply (elem_of_list_to_set (C := gset Z)); rewrite Ha; by apply elem_of_list_to_set).
    apply NoDup_submseteq, submseteq_length in Hsub.
    - unfold range_pages in Hsub. rewrite length_fmap, length_seqZ in Hsub. unfold zlen. lia.
    - unfold range_pages. apply NoDup_fmap; [intros a b E; unfold PGSIZE in E; lia|apply NoDup_seqZ]. }
  destruct (kalloc_inv kend kdata Hkend Hdata all k1 l ∅ ∅ [] Hi) as (ks & k2 & l2 & E2 & [[-> _]|[-> Hks]] & Hi2); [done|].
  rewrite (proj2 (Z.eqb_neq _ _) Hks) in Hi2. rewrite zlen_cons in Hlen.
  destruct (setup_inv kend kdata Hkend Hdata all k2 l2 ∅ ∅ [ks] Hi2) as (d & k3 & l3 & R3 & E3 & _ & [Hd Hl3] & Hi3); [lia|]. rewrite (proj2 (Z.eqb_neq _ _) Hd) in Hi3.
  destruct (init_inv kend kdata Hkend Hdata all k3 l3 R3 _ [ks] d initcode Hi3 (lookup_insert_eq _ _ _) Hl3 Hcode) as (k4 & l4 & R4 & E4 & Hi4). rewrite insert_insert_eq in Hi4.
  destruct (proj2 (vi_held _ _ _ _ _ _ _ Hi4) ks ltac:(left)) as [[_ Hku] _]. destruct (dir_value Hkend _ _ _ _ _ _ d PGSIZE Hi4 (lookup_insert_eq _ _ _)) as (Hdu & _).
  assert (kalloc (Some k1, f) = (Some ks, (Some k2, f))) as A2.
  { etrans; [exact (mem_try_ok _ _ f _ _ E2)|]. rewrite u32_id by done. by rewrite (proj2 (Z.eqb_neq _ _) Hks). }
  assert (setupkvm (Some k2, f) = (Some d, (Some k3, f))) as A3.
  { etrans; [exact (mem_try_ok _ _ f _ _ E3)|]. rewrite u32_id by done. by rewrite (proj2 (Z.eqb_neq _ _) Hd). }
  assert (inituvm d (Some k3, f) = (Some k4, f)) as A4 by exact (mem_do_ok _ _ f _ E4).
  destruct (userinit_table (boot_kern (Some k1, f))) as [[_ Hfail]|(e' & p & Hrun & (e1 & e2 & B2 & B3 & -> & B4) & Hst & _)]; [by apply boot_slot|done..| |].
  { destruct Hfail as [(e1 & B)|(ks' & e1 & e2 & B & B')]; cbn [ext boot_kern] in *; rewrite A2 in B; [done|]. injection B as <- <-. rewrite A3 in B'. done. }
  cbn [ext boot_kern] in B2. rewrite A2 in B2. injection B2 as Eks <-. rewrite A3 in B3. injection B3 as Epd <-. rewrite <-Epd, A4 in Hrun.
  eexists. split; [exact Hrun|]. split; [exact (userinit_ok _ _ Hrun)|]. cbn [fst snd].
  eapply (owns_put all (boot_kern (Some k1, f)) _ [] 0 zero_proc p k4 _); [done|done|by rewrite Hst|done|done|].
  rewrite <-Eks, <-Epd, B4. change (res (procs (boot_kern (Some k1, f)))) with (@nil (Z * (Z * Z))). split; [by apply NoDup_singleton|]. by exists l4, R4.
Qed.

End Mem.

(** * A machine without files *)
#[local] Instance no_files : FileOps unit := {
  fdup fd e := (fd, e);
  fclose _ e := e;
  fidup ip e := (ip, e);
  fiput _ e := e;
  fnamei _ e := (1, e)
}.
Lemma vm_many : 2100 <= Z.of_nat (range_size vm_end vm_top).
Proof. by_vm. Qed.
