(* ===== verification/JServ.v ===== *)
(** * Requests to the file server of JOS

    [oslab6/fs/serv.c], and of [oslab6/lib/file.c] what a client does around a
    request: the table of open files, the requests, and the dispatch of one
    request.  The server works on the files of [JFs], over any implementation of
    the block cache's interface; the pages it shares with its clients are the
    kernel's, behind the interface [PageSys].

    The page of a request is [ipc], its bytes at their offsets.  The page of an
    open file is shared with the clients that have it open: [fds] holds these
    pages, [struct Fd] by address.  Bytes past the page of the request are not
    the server's to touch -- the next address is the disk map -- so that an
    access there is undefined. *)
From S2P Require Import Prelude Bytes Mmu JBlock JBlockSpec JFs.

Definition MAXOPEN : Z := 1024.
Definition FILEVA : Z := 3489660928.             (* 0xD0000000 *)
Definition MAXPATHLEN : Z := 1024.
Definition O_ACCMODE : Z := 3.
Definition O_CREAT : Z := 256.
Definition O_TRUNC : Z := 512.
Definition O_EXCL : Z := 1024.
Definition PTE_SHARE : Z := 1024.
Definition DEVFILE : Z := 102.                   (* devfile.dev_id, 'f' *)
Definition FSREQ_OPEN : Z := 1.
Definition FSREQ_SET_SIZE : Z := 2.
Definition FSREQ_READ : Z := 3.
Definition FSREQ_WRITE : Z := 4.
Definition FSREQ_STAT : Z := 5.
Definition FSREQ_FLUSH : Z := 6.
Definition FSREQ_SYNC : Z := 8.

Record OpenFile := mk_open { o_fileid : Z; o_file : Z; o_mode : Z; o_fd : Z }.
Record Fd := mk_Fd { fd_dev_id : Z; fd_offset : Z; fd_omode : Z; fd_id : Z }.
Record Stat := mk_Stat { st_name : list Z; st_size : Z; st_isdir : Z }.

(** What the server asks of the kernel: the number of mappings of the page at an
    address of the server ([pageref]), and a new page there. *)
Class PageSys (K : Type) := { pageref : Z -> K -> Z; page_alloc : Z -> M K Z }.

Section Server.
Context {S K : Type} `{BlockOps S} `{PageSys K}.

Record sst := mk_sst { dst : S; kst : K; opentab : list OpenFile; fds : gmap Z Fd; ipc : gmap Z Z }.
Definition with_dst (d : S) (s : sst) : sst := mk_sst d (kst s) (opentab s) (fds s) (ipc s).
Definition with_kst (k : K) (s : sst) : sst := mk_sst (dst s) k (opentab s) (fds s) (ipc s).
Definition with_opentab (l : list OpenFile) (s : sst) : sst := mk_sst (dst s) (kst s) l (fds s) (ipc s).
Definition with_fds (m : gmap Z Fd) (s : sst) : sst := mk_sst (dst s) (kst s) (opentab s) m (ipc s).
Definition with_ipc (m : gmap Z Z) (s : sst) : sst := mk_sst (dst s) (kst s) (opentab s) (fds s) m.

Definition on_disk {A} (m : M S A) : M sst A := fun s =>
  match m (dst s) with
  | Ret a d => Ret a (with_dst d s)
  | Panic msg d => Panic msg (with_dst d s)
  | Leave d => Leave (with_dst d s)
  | UB => UB
  end.
Definition on_kern {A} (m : M K A) : M sst A := fun s =>
  match m (kst s) with
  | Ret a k => Ret a (with_kst k s)
  | Panic msg k => Panic msg (with_kst k s)
  | Leave k => Leave (with_kst k s)
  | UB => UB
  end.

(** ** The request page *)
Definition ibyte (s : sst) (i : Z) : Z := u8 (rdw (ipc s) i).
Definition req_word (i : Z) : M sst Z := gets (fun s => word (ibyte s) i).
Definition req_bytes (i n : Z) : M sst (list Z) := gets (fun s => ibyte s <$> seqZ i n).
Fixpoint put_ipc (m : gmap Z Z) (i : Z) (l : list Z) : gmap Z Z :=
  match l with [] => m | c :: l => put_ipc (wrw m i (u8 c)) (i + 1) l end.
Definition ret_bytes (i : Z) (l : list Z) : M sst unit :=
  if PGSIZE <? i + zlen l then ub else modify (fun s => with_ipc (put_ipc (ipc s) i l) s).
Definition ret_word (i x : Z) : M sst unit := ret_bytes i [x; x / 256; x / 65536; x / 16777216].
(** A string, up to its NUL. *)
Fixpoint until_nul (l : list Z) : list Z :=
  match l with c :: l => if c =? 0 then [] else c :: until_nul l | [] => [] end.

(** ** Open files *)
Definition get_open (i : Z) : M sst OpenFile := s ← get; deref (zget (opentab s) i).
Definition set_open (i : Z) (u : OpenFile -> OpenFile) : M sst unit :=
  o ← get_open i; modify (fun s => with_opentab (zset (opentab s) i (u o)) s).
Definition get_fd (va : Z) : M sst Fd := s ← get; deref (fds s !! va).
Definition set_fd (va : Z) (u : Fd -> Fd) : M sst unit :=
  f ← get_fd va; modify (fun s => with_fds (<[va := u f]> (fds s)) s).

Definition serve_init : M sst unit :=
  for_each (seqZ 0 MAXOPEN) (fun i => set_open i (fun o => mk_open i (o_file o) (o_mode o) (FILEVA + i * PGSIZE))).

(** A new open file at the entry [i]: the file id, as an [int], and the entry. *)
Definition take_entry (i : Z) : M sst (option (Z * option Z)) :=
  o ← get_open i;
  set_open i (fun o => mk_open (u32 (o_fileid o + MAXOPEN)) (o_file o) (o_mode o) (o_fd o));;
  modify (fun s => with_fds (<[o_fd o := mk_Fd 0 0 0 0]> (fds s)) s);;   (* memset(o_fd, 0, PGSIZE) *)
  mret (Some (s32 (u32 (o_fileid o + MAXOPEN)), Some i)).
Definition try_entry (i : Z) : M sst (option (Z * option Z)) :=
  o ← get_open i;
  ref ← gets (fun s => pageref (o_fd o) (kst s));
  if ref =? 0 then
    r ← on_kern (page_alloc (o_fd o));
    if r <? 0 then mret (Some (r, None)) else take_entry i
  else if ref =? 1 then take_entry i
  else mret None.
Definition openfile_alloc : M sst (Z * option Z) :=
  r ← for_until (seqZ 0 MAXOPEN) try_entry;
  mret (default (- E_MAX_OPEN, None) r).

Definition openfile_lookup (fileid : Z) : M sst (Z + Z) :=
  let i := fileid `mod` MAXOPEN in
  o ← get_open i;
  ref ← gets (fun s => pageref (o_fd o) (kst s));
  mret (if (ref <=? 1) || negb (o_fileid o =? fileid) then inl (- E_INVAL) else inr i).

(** ** The requests *)

(** [x ←! m; k] is [if ((r = m) < 0) return r], for a function that returns an
    [int]. *)
Definition try_int {A} (m : M sst (Z + A)) (k : A -> M sst Z) : M sst Z :=
  r ← m; match r with inl e => mret e | inr x => k x end.

(** The open file and its page. *)
Definition fill_open (i f omode : Z) : M sst Z :=
  set_open i (fun o => mk_open (o_fileid o) f (o_mode o) (o_fd o));;
  o ← get_open i;
  set_fd (o_fd o) (fun d => mk_Fd DEVFILE (fd_offset d) (Z.land omode O_ACCMODE) (o_fileid o));;
  set_open i (fun o => mk_open (o_fileid o) (o_file o) omode (o_fd o));;
  mret (o_fd o).
(** The value returned, and the page for the client if there is one. *)
Definition serve_open : M sst (Z * option Z) :=
  l ← req_bytes 0 (MAXPATHLEN - 1);
  let path := until_nul l in
  omode ← req_word MAXPATHLEN;
  '(r, o) ← openfile_alloc;
  if r <? 0 then mret (r, None) else
  i ← deref o;
  f ← on_disk
    (f ←? (if negb (Z.land omode O_CREAT =? 0) then
             r ← file_create path;
             match r with
             | inl e => if (Z.land omode O_EXCL =? 0) && (e =? - E_FILE_EXISTS) then file_open path else mret (inl e)
             | inr f => mret (inr f)
             end
           else file_open path);
     _ ←? (if negb (Z.land omode O_TRUNC =? 0) then file_set_size f 0 else mret (inr tt));
     file_open path);
  match f with
  | inl e => mret (e, None)
  | inr f => pg ← fill_open i f omode; mret (0, Some pg)
  end.

Definition serve_set_size : M sst Z :=
  fileid ← req_word 0;
  try_int (openfile_lookup fileid) (fun i =>
  o ← get_open i;
  size ← req_word 4;
  try_int (on_disk (file_set_size (o_file o) (s32 size))) (fun _ => mret 0)).

(** The bytes are stored into the page as they are read; when the read fails the
    page may hold some of them, here it holds none. *)
Definition serve_read : M sst Z :=
  fileid ← req_word 0;
  try_int (openfile_lookup fileid) (fun i =>
  o ← get_open i;
  n ← req_word 4;
  d ← get_fd (o_fd o);
  try_int (on_disk (file_read (o_file o) n (fd_offset d))) (fun '(r, l) =>
  ret_bytes 0 l;;
  set_fd (o_fd o) (fun d => mk_Fd (fd_dev_id d) (s32 (fd_offset d + r)) (fd_omode d) (fd_id d));;
  mret r)).

(** Of the buffer there are no more bytes than the page has. *)
Definition serve_write : M sst Z :=
  fileid ← req_word 0;
  try_int (openfile_lookup fileid) (fun i =>
  o ← get_open i;
  n ← req_word 4;
  buf ← req_bytes 8 (Z.min n (PGSIZE - 8));
  d ← get_fd (o_fd o);
  try_int (on_disk (file_write (o_file o) buf n (fd_offset d))) (fun r =>
  set_fd (o_fd o) (fun d => mk_Fd (fd_dev_id d) (s32 (fd_offset d + r)) (fd_omode d) (fd_id d));;
  mret r)).

(** [strcpy] out of the disk map; a name that fills its field is the end of it. *)
Fixpoint load_string (fuel : nat) (a : Z) : M S (list Z) :=
  match fuel with
  | O => ub
  | Datatypes.S fuel => c ← b_load8 a; if c =? 0 then mret [] else l ← load_string fuel (a + 1); mret (c :: l)
  end.
Definition serve_stat : M sst Z :=
  fileid ← req_word 0;
  try_int (openfile_lookup fileid) (fun i =>
  o ← get_open i;
  name ← on_disk (load_string (Z.to_nat MAXNAMELEN) (f_name (o_file o)));
  ret_bytes 0 (name ++ [0]);;
  size ← on_disk (load_size (o_file o));
  ret_word 128 (u32 size);;
  ty ← on_disk (b_load32 (f_type (o_file o)));
  ret_word 132 (if ty =? FTYPE_DIR then 1 else 0);;
  mret 0).

Definition serve_flush : M sst Z :=
  fileid ← req_word 0;
  try_int (openfile_lookup fileid) (fun i => o ← get_open i; on_disk (file_flush (o_file o));; mret 0).
Definition serve_sync : M sst Z := on_disk fs_sync;; mret 0.

(** [handlers] *)
Definition handler (req : Z) : option (M sst Z) :=
  if req =? FSREQ_READ then Some serve_read else
  if req =? FSREQ_STAT then Some serve_stat else
  if req =? FSREQ_FLUSH then Some serve_flush else
  if req =? FSREQ_WRITE then Some serve_write else
  if req =? FSREQ_SET_SIZE then Some serve_set_size else
  if req =? FSREQ_SYNC then Some serve_sync else None.

(** One round of [serve]: the request that was received, and the reply -- value,
    page (0 for none) and permissions -- if one is sent.  The server then unmaps
    the page of the request, which stays the client's. *)
Definition serve (req perm : Z) : M sst (option (Z * Z * Z)) :=
  if Z.land perm PTE_P =? 0 then mret None else
  if req =? FSREQ_OPEN then
    '(r, pg) ← serve_open;
    mret (Some (match pg with
                | Some pg => (r, pg, Z.lor PTE_P (Z.lor PTE_U (Z.lor PTE_W PTE_SHARE)))
                | None => (r, 0, perm)
                end))
  else match handler req with
  | Some h => r ← h; mret (Some (r, 0, perm))
  | None => mret (Some (- E_INVAL, 0, perm))
  end.

(** ** The requests of a client ([lib/file.c])

    The client waits for the reply, its request page is the page of the server:
    [fsipc] is the server's round.  [fd] is the address of the shared page. *)
Definition fsipc (type : Z) : M sst Z :=
  r ← serve type (Z.lor PTE_P (Z.lor PTE_W PTE_U));
  match r with Some (r, _, _) => mret r | None => leave end.
Definition devfile_flush (fd : Z) : M sst Z :=
  d ← get_fd fd; ret_word 0 (fd_id d);; fsipc FSREQ_FLUSH.
Definition devfile_read (fd n : Z) : M sst (Z * list Z) :=
  d ← get_fd fd;
  ret_word 0 (fd_id d);;
  ret_word 4 n;;
  r ← fsipc FSREQ_READ;
  if r <? 0 then mret (r, []) else
  assertb "r <= n" (u32 r <=? n);;
  assertb "r <= PGSIZE" (r <=? PGSIZE);;
  l ← req_bytes 0 r;
  mret (r, l).
Definition devfile_write (fd : Z) (buf : list Z) : M sst Z :=
  let n := Z.min (zlen buf) (PGSIZE - 8) in
  d ← get_fd fd;
  ret_word 0 (fd_id d);;
  ret_word 4 n;;
  ret_bytes 8 (take (Z.to_nat n) buf);;
  r ← fsipc FSREQ_WRITE;
  if r <? 0 then mret r else
  assertb "r <= n" (u32 r <=? n);;
  assertb "r <= PGSIZE" (r <=? PGSIZE);;
  mret r.
(** [strcpy] from the name of the reply, then its size and kind. *)
Definition devfile_stat (fd : Z) : M sst (Z * Stat) :=
  d ← get_fd fd;
  ret_word 0 (fd_id d);;
  r ← fsipc FSREQ_STAT;
  if r <? 0 then mret (r, mk_Stat [] 0 0) else
  l ← req_bytes 0 PGSIZE;
  size ← req_word 128;
  isdir ← req_word 132;
  mret (0, mk_Stat (until_nul l) (s32 size) (s32 isdir)).
Definition devfile_trunc (fd newsize : Z) : M sst Z :=
  d ← get_fd fd; ret_word 0 (fd_id d);; ret_word 4 (u32 newsize);; fsipc FSREQ_SET_SIZE.
Definition sync : M sst Z := fsipc FSREQ_SYNC.
(** [seek] of [lib/fd.c], on the page that [fd_lookup] found. *)
Definition seek (fd offset : Z) : M sst Z :=
  set_fd fd (fun d => mk_Fd (fd_dev_id d) offset (fd_omode d) (fd_id d));; mret 0.
End Server.
