(* ===== verification/JServThm.v ===== *)
(** * What the file server of JOS promises to its clients

    File ids name open files and nothing else, and a client reads back through
    the server what it wrote through the server.  A read of more than a page
    makes the server write behind the page of the request. *)
From S2P Require Import Prelude Bytes Mmu JBlock JBlockSpec JFs JFsSpec JFile JFileIO JFileTrunc JDir JDirMake JFsThm JServ.

(** Counts of mappings: a new page is mapped once, and no other count changes. *)
Class PageSysOk (K : Type) `{PageSys K} : Prop := {
  ps_alloc : forall va k, pageref va k = 0 -> exists r k', page_alloc va k = Ret r k' /\
    (forall va', va' <> va -> pageref va' k' = pageref va' k) /\ pageref va k' = if r <? 0 then 0 else 1;
  ps_nonneg : forall va k, 0 <= pageref va k;
}.

Section Run.
Context {S K : Type} `{BlockMem S} `{PageSysOk K}.
Implicit Types (s : sst (S := S) (K := K)).

Lemma on_disk_run {A} (m : M S A) s a d : m (dst s) = Ret a d -> on_disk m s = Ret a (with_dst d s).
Proof. unfold on_disk. by intros ->. Qed.
Lemma on_kern_run {A} (m : M K A) s a k : m (kst s) = Ret a k -> on_kern m s = Ret a (with_kst k s).
Proof. unfold on_kern. by intros ->. Qed.
Lemma get_open_run s i o : zget (opentab s) i = Some o -> get_open i s = Ret o s.
Proof. intros E. unfold get_open. exec. by rewrite E. Qed.
Lemma set_open_run s i o u : zget (opentab s) i = Some o -> set_open i u s = Ret tt (with_opentab (zset (opentab s) i (u o)) s).
Proof. intros E. unfold set_open. by exec_by (get_open_run s i o E). Qed.
Lemma get_fd_run s va d : fds s !! va = Some d -> get_fd va s = Ret d s.
Proof. intros E. unfold get_fd. exec. by rewrite E. Qed.
Lemma set_fd_run s va d u : fds s !! va = Some d -> set_fd va u s = Ret tt (with_fds (<[va := u d]> (fds s)) s).
Proof. intros E. unfold set_fd. by exec_by (get_fd_run s va d E). Qed.
Lemma put_ipc_byte m i l q : u8 (rdw (put_ipc m i l) q) = match zget l (q - i) with Some c => u8 c | None => u8 (rdw m q) end.
Proof.
  revert m i. induction l as [|c l IH]; intros m i; [by rewrite zget_none by (unfold zlen; cbn; lia)|]. cbn [put_ipc].
  rewrite IH, zget_cons. replace (q - (i + 1)) with (q - i - 1) by lia. case_decide as Hq.
  - assert (q = i) as -> by lia. rewrite zget_none by lia. rewrite rdw_wrw_eq. unfold u8. zlia.
  - case_match; [done|]. by rewrite rdw_wrw_ne by lia.
Qed.
Lemma ret_bytes_run i l s : i + zlen l <= PGSIZE -> ret_bytes i l s = Ret tt (with_ipc (put_ipc (ipc s) i l) s).
Proof. intros Hl. unfold ret_bytes. by destruct (Z.ltb_spec PGSIZE (i + zlen l)); [lia|]. Qed.
(** A word that was stored is read back, and the words apart from it are kept. *)
Definition bytes4 (x : Z) : list Z := [x; x / 256; x / 65536; x / 16777216].
Lemma word_put m i x : is_u32 x -> word (fun q => u8 (rdw (put_ipc m i (bytes4 x)) q)) i = x.
Proof.
  intros Hx. unfold word. rewrite !put_ipc_byte. replace (i - i) with 0 by lia. replace (i + 1 - i) with 1 by lia.
  replace (i + 2 - i) with 2 by lia. replace (i + 3 - i) with 3 by lia. change (zget (bytes4 x) 0) with (Some x). change (zget (bytes4 x) 1) with (Some (x / 256)). change (zget (bytes4 x) 2) with (Some (x / 65536)).
  change (zget (bytes4 x) 3) with (Some (x / 16777216)). unfold u8, is_u32 in *.
  zlia.
Qed.
Lemma word_put_ne m i l j : j + 3 < i \/ i + zlen l <= j -> word (fun q => u8 (rdw (put_ipc m i l) q)) j = word (fun q => u8 (rdw m q)) j.
Proof. intros Hj. apply word_ext. intros q Hq. rewrite put_ipc_byte. rewrite zget_none by lia. done. Qed.

(** ** File ids *)
Record tab_ok s : Prop := {
  tb_len : zlen (opentab s) = MAXOPEN;
  tb_fd : forall i o, zget (opentab s) i = Some o -> o_fd o = FILEVA + i * PGSIZE;
  tb_id : forall i o, zget (opentab s) i = Some o -> is_u32 (o_fileid o) /\ o_fileid o `mod` MAXOPEN = i;
}.
(** [fid] is the id of the file [i], which a client has open. *)
Definition names_file s (fid i : Z) : Prop :=
  exists o, zget (opentab s) i = Some o /\ o_fileid o = fid /\ 1 < pageref (o_fd o) (kst s).
Lemma openfile_lookup_ok s fid : tab_ok s -> is_u32 fid ->
  exists r, openfile_lookup fid s = Ret r s /\
    match r with inr i => names_file s fid i | inl e => e = - E_INVAL /\ forall i, ~ names_file s fid i end.
Proof.
  intros [Hl Hf Hi] Hu. unfold openfile_lookup. set (i := fid `mod` MAXOPEN).
  assert (0 <= i < MAXOPEN) as Hir by (unfold i, MAXOPEN; zlia). destruct (zget_in_range (opentab s) i ltac:(lia)) as [o Ho].
  exec_by (get_open_run s i o Ho). exec.
  destruct ((pageref (o_fd o) (kst s) <=? 1) || negb (o_fileid o =? fid)) eqn:E; eexists; (split; [done|]).
  - split; [done|]. intros j (o' & Ho' & Hid & Hr). destruct (Hi j o' Ho') as [_ Hj]. rewrite Hid in Hj. fold i in Hj. subst j.
    assert (o' = o) as -> by congruence. rewrite Hid, Z.eqb_refl in E. cbn in E. lia.
  - exists o. split; [done|]. apply orb_false_iff in E as [E1 E2]. split; lia.
Qed.
Lemma names_lookup s fid i : tab_ok s -> is_u32 fid -> names_file s fid i -> openfile_lookup fid s = Ret (inr i) s.
Proof.
  intros Ht Hu Hn. destruct (openfile_lookup_ok s fid Ht Hu) as ([e|j] & E & Hr); [by destruct Hr as [_ Hno]; destruct (Hno i)|].
  destruct Hn as (o & Ho & Hid & _), Hr as (o' & Ho' & Hid' & _). destruct (tb_id _ Ht i o Ho) as [_ <-], (tb_id _ Ht j o' Ho') as [_ Hj].
  rewrite E, <-Hj. congruence.
Qed.

(** The entry [i] is taken for a new open file. *)
Definition take_open s i o (k : K) : sst :=
  mk_sst (dst s) k (zset (opentab s) i (mk_open (u32 (o_fileid o + MAXOPEN)) (o_file o) (o_mode o) (o_fd o)))
    (<[o_fd o := mk_Fd 0 0 0 0]> (fds s)) (ipc s).
Lemma take_entry_run s i o : zget (opentab s) i = Some o ->
  take_entry i s = Ret (Some (s32 (u32 (o_fileid o + MAXOPEN)), Some i)) (take_open s i o (kst s)).
Proof. intros Ho. unfold take_entry. exec_by (get_open_run s i o Ho). by exec_by (set_open_run s i o (fun o => mk_open (u32 (o_fileid o + MAXOPEN)) (o_file o) (o_mode o) (o_fd o)) Ho). Qed.
(** Either no entry is free, or the first that is free is taken -- or there is no
    page for it. *)
Lemma open_scan_ok s l : tab_ok s -> (forall i, i ∈ l -> 0 <= i < MAXOPEN) ->
  for_until l try_entry s = Ret None s \/
  exists i o k, zget (opentab s) i = Some o /\ pageref (o_fd o) (kst s) <= 1 /\
    (forall va, va <> o_fd o -> pageref va k = pageref va (kst s)) /\
    ((exists r, r < 0 /\ pageref (o_fd o) k = 0 /\ for_until l try_entry s = Ret (Some (r, None)) (with_kst k s)) \/
     (pageref (o_fd o) k = 1 /\ for_until l try_entry s = Ret (Some (s32 (u32 (o_fileid o + MAXOPEN)), Some i)) (take_open s i o k))).
Proof.
  intros Ht. induction l as [|i l IH]; intros Hl; [by left|]. cbn [for_until].
  pose proof (Hl i ltac:(left)) as Hi. destruct (zget_in_range (opentab s) i) as [o Ho]; [by rewrite (tb_len _ Ht)|].
  specialize (IH ltac:(intros j Hj; apply Hl; by right)).
  assert (try_entry i s = (if pageref (o_fd o) (kst s) =? 0 then r ← on_kern (page_alloc (o_fd o)); if r <? 0 then mret (Some (r, None)) else take_entry i
    else if pageref (o_fd o) (kst s) =? 1 then take_entry i else mret None) s) as Eb.
  { unfold try_entry. exec_by (get_open_run s i o Ho). by exec. }
  destruct (Z.eqb_spec (pageref (o_fd o) (kst s)) 0) as [H3|H3].
  { destruct (ps_alloc (o_fd o) (kst s) H3) as (r & k & Ek & Hoth & Hr). right. exists i, o, k. split; [done|]. split; [lia|]. split; [done|].
    pose proof (on_kern_run (page_alloc (o_fd o)) s r k Ek) as Ek'. rewrite (bind_Ret _ _ _ _ _ Ek') in Eb. destruct (Z.ltb_spec r 0).
    - left. exists r. split; [done|]. split; [done|]. by exec_by Eb.
    - right. split; [done|]. assert (zget (opentab (with_kst k s)) i = Some o) as Ho' by done. rewrite (take_entry_run _ i o Ho') in Eb. by exec_by Eb. }
  destruct (Z.eqb_spec (pageref (o_fd o) (kst s)) 1) as [H4|H4].
  { right. exists i, o, (kst s). split; [done|]. split; [lia|]. split; [done|]. right. split; [done|]. rewrite (take_entry_run s i o Ho) in Eb. by exec_by Eb. }
  unfold mbind, M_bind. rewrite Eb. exact IH.
Qed.

Lemma next_id x : is_u32 x -> u32 (x + MAXOPEN) `mod` MAXOPEN = x `mod` MAXOPEN.
Proof. unfold u32, MAXOPEN, is_u32. zlia. Qed.
(** The page of the entry [i] is not open before and after. *)
Lemma names_quiet s i o k fid j : tab_ok s -> zget (opentab s) i = Some o -> pageref (o_fd o) (kst s) <= 1 -> pageref (o_fd o) k <= 1 ->
  (forall va, va <> o_fd o -> pageref va k = pageref va (kst s)) -> names_file (with_kst k s) fid j <-> names_file s fid j.
Proof.
  intros Ht Ho H3 H4 Hoth. unfold names_file. cbn. split; intros (o' & Ho' & Hid & Hp); exists o'; (split; [done|]); (split; [done|]);
    (destruct (decide (o_fd o' = o_fd o)) as [Eo|Ne]; [rewrite Eo in Hp; lia|]); [by rewrite Hoth in Hp|by rewrite Hoth].
Qed.
Lemma take_open_tab s i o k : tab_ok s -> zget (opentab s) i = Some o -> tab_ok (take_open s i o k).
Proof.
  intros [Hl Hf Hi] Ho. pose proof (zget_Some_range _ _ _ Ho) as Hr. split; cbn; [by rewrite zlen_zset|..]; intros j o'; rewrite zget_zset; case_decide as Hd.
  - destruct Hd as [<- _]. intros [= <-]. exact (Hf i o Ho).
  - apply Hf.
  - destruct Hd as [<- _]. intros [= <-]. cbn. destruct (Hi i o Ho) as [Hu Hm]. split; [apply u32_range|]. by rewrite next_id.
  - apply Hi.
Qed.
Lemma take_open_names s i o k fid j : tab_ok s -> zget (opentab s) i = Some o -> pageref (o_fd o) k <= 1 ->
  names_file (take_open s i o k) fid j <-> names_file (with_kst k s) fid j.
Proof.
  intros Ht Ho Hp. pose proof (zget_Some_range _ _ _ Ho) as Hr. unfold names_file, take_open. cbn. destruct (decide (j = i)) as [->|Hne].
  - rewrite zget_zset_eq by done. split; intros (o' & Ho' & Hid & Hp'); [injection Ho' as <-; cbn in Hp'; lia|assert (o' = o) as -> by congruence; lia].
  - by rewrite zget_zset_ne.
Qed.

(** What [openfile_alloc] does. *)
Definition alloc_result s s' (r : Z) (oi : option Z) : Prop :=
  match oi with
  | None => r < 0 /\ opentab s' = opentab s
  | Some i => exists old k, zget (opentab s) i = Some old /\ pageref (o_fd old) (kst s) <= 1 /\ pageref (o_fd old) k = 1 /\
      r = s32 (u32 (o_fileid old + MAXOPEN)) /\ s' = take_open s i old k
  end.
Lemma alloc_ok s : tab_ok s -> exists r o s', openfile_alloc s = Ret (r, o) s' /\ tab_ok s' /\ dst s' = dst s /\ ipc s' = ipc s /\
  (forall fid j, names_file s' fid j <-> names_file s fid j) /\ alloc_result s s' r o.
Proof.
  intros Ht. unfold openfile_alloc.
  destruct (open_scan_ok s (seqZ 0 MAXOPEN) Ht) as [E|(i & o & k & Ho & Hr & Hoth & Hcase)];
    [intros i Hi'%elem_of_seqZ; lia|exec_by E; by exists (- E_MAX_OPEN), None, s|].
  destruct Hcase as [(r & Hneg & H0k & E)|[H1k E]]; exec_by E.
  - exists r, None, (with_kst k s). split; [done|]. split; [by destruct Ht; split|]. do 2 (split; [done|]). split; [|done].
    intros fid j. apply (names_quiet s i o); try done. lia.
  - eexists _, (Some i), _. split; [reflexivity|]. split; [by apply take_open_tab|]. do 2 (split; [done|]).
    split; [|exists o, k; done]. intros fid j. rewrite (take_open_names s i o k fid j Ht Ho ltac:(lia)). apply (names_quiet s i o); try done; lia.
Qed.
Lemma fresh_id s i old j : tab_ok s -> zget (opentab s) i = Some old -> pageref (o_fd old) (kst s) <= 1 ->
  ~ names_file s (u32 (o_fileid old + MAXOPEN)) j.
Proof.
  intros Ht Ho Hr (o' & Ho' & Hid & Hp). destruct (tb_id _ Ht i old Ho) as [Hu Hm], (tb_id _ Ht j o' Ho') as [_ Hj].
  rewrite Hid, next_id in Hj by done. assert (j = i) as -> by congruence. assert (o' = old) as -> by congruence. lia.
Qed.
(** C31. File ids.  [openfile_alloc] returns an entry that no client has open, or
    fails and changes no open file.  The id it gives is the one of no open file;
    every id that a client uses keeps its file; and once the client has mapped
    the page, the new id finds the entry and the id the entry had before is
    refused. *)
Theorem openfile_alloc_gives_fresh_id s : tab_ok s ->
  exists r o s', openfile_alloc s = Ret (r, o) s' /\ tab_ok s' /\ dst s' = dst s /\
    (forall fid j, names_file s' fid j <-> names_file s fid j) /\
    match o with
    | None => r < 0 /\ opentab s' = opentab s
    | Some i => exists old, zget (opentab s) i = Some old /\ pageref (o_fd old) (kst s) <= 1 /\
        let fid := u32 (o_fileid old + MAXOPEN) in
        r = s32 fid /\ fds s' !! o_fd old = Some (mk_Fd 0 0 0 0) /\ (forall j, ~ names_file s fid j) /\
        forall k, 1 < pageref (o_fd old) k ->
          openfile_lookup fid (with_kst k s') = Ret (inr i) (with_kst k s') /\
          openfile_lookup (o_fileid old) (with_kst k s') = Ret (inl (- E_INVAL)) (with_kst k s')
    end.
Proof.
  intros Ht. destruct (alloc_ok s Ht) as (r & oi & s' & E & Ht' & Hd & _ & Hn & Hres). exists r, oi, s'. do 4 (split; [done|]).
  destruct oi as [i|]; [|done]. destruct Hres as (o & k & Ho & Hr & H1k & -> & ->). exists o. do 2 (split; [done|]). cbv zeta.
  split; [done|]. split; [by cbn; rewrite lookup_insert_eq|]. destruct (tb_id _ Ht i o Ho) as [Hu Hm].
  assert (is_u32 (u32 (o_fileid o + MAXOPEN))) as Hu' by apply u32_range. split; [intros j; by eapply fresh_id|].
  pose proof (zget_Some_range _ _ _ Ho) as Hr'. intros k2 Hk2. assert (tab_ok (with_kst k2 (take_open s i o k))) as Ht2 by (destruct Ht'; by split). split.
  - apply names_lookup; [done|done|]. eexists. split; [by apply zget_zset_eq|]. done.
  - destruct (openfile_lookup_ok _ (o_fileid o) Ht2 Hu) as ([e|j] & El & Hres); [by destruct Hres as [-> _]|]. exfalso.
    destruct Hres as (o' & Ho' & Hid & _). destruct (tb_id _ Ht2 j o' Ho') as [_ Hj]. rewrite Hid, Hm in Hj. subst j.
    cbn in Ho'. rewrite zget_zset_eq in Ho' by done. injection Ho' as <-. cbn in Hid. revert Hid. unfold u32, MAXOPEN, is_u32 in *. zlia.
Qed.

(** ** Reading and writing *)

(** The page at [fd] is the one of the open file [i], on [f] at [off]. *)
Record client_file s (fd i f off : Z) (o : OpenFile) (d : Fd) : Prop := {
  cf_tab : tab_ok s;
  cf_entry : zget (opentab s) i = Some o;
  cf_o : o_fd o = fd /\ o_file o = f;
  cf_ref : 1 < pageref fd (kst s);
  cf_fd : fds s !! fd = Some d;
  cf_d : fd_id d = o_fileid o /\ fd_offset d = off;
  cf_disk : b_ok (dst s);
  cf_file : file_ok (b_view (dst s)) f;
  cf_sized : sized (b_view (dst s)) f;
}.
(** The request page with an id, a count, and the bytes of a write. *)
Definition request (m : gmap Z Z) (fid n : Z) (l : list Z) : gmap Z Z := put_ipc (put_ipc (put_ipc m 0 (bytes4 fid)) 4 (bytes4 n)) 8 l.
Lemma request_id m fid n l : is_u32 fid -> word (fun q => u8 (rdw (request m fid n l) q)) 0 = fid.
Proof. intros Hf. unfold request. rewrite word_put_ne by lia. rewrite word_put_ne by lia. by apply word_put. Qed.
Lemma request_n m fid n l : is_u32 n -> word (fun q => u8 (rdw (request m fid n l) q)) 4 = n.
Proof. intros Hn. unfold request. rewrite word_put_ne by lia. by apply word_put. Qed.
Lemma put_ipc_list m i l : Forall (fun x => 0 <= x < 256) l -> (fun q => u8 (rdw (put_ipc m i l) q)) <$> seqZ i (zlen l) = l.
Proof.
  intros Hl. pose proof (zlen_nonneg l) as Hn.
  rewrite (fmap_seqZ_ext _ (fun q => u8 (default 0 (zget l q))) i 0).
  2: { intros q Hq. rewrite put_ipc_byte. replace (i + q - i) with q by lia. destruct (zget_in_range l q Hq) as [c Hc]. replace (0 + q) with q by lia. by rewrite Hc. }
  apply zget_ext; [unfold zlen; rewrite length_fmap, length_seqZ; unfold zlen in Hn; lia|].
  intros q Hq. unfold zlen in Hq at 1. rewrite length_fmap, length_seqZ in Hq.
  assert (zget ((fun q => u8 (default 0 (zget l q))) <$> seqZ 0 (zlen l)) q = Some (u8 (default 0 (zget l q)))) as ->.
  { unfold zget at 1. destruct (Z.leb_spec 0 q); [|lia]. rewrite list_lookup_fmap, lookup_seqZ_lt by lia. cbn. by replace (0 + Z.of_nat (Z.to_nat q)) with q by lia. }
  destruct (zget_in_range l q) as [c Hc]; [lia|]. rewrite Hc. cbn. apply zget_elem in Hc. assert (0 <= c < 256) by (by apply (proj1 (Forall_forall _ l) Hl)).
  unfold u8. f_equal. zlia.
Qed.

Lemma client_lookup s fd i f off o d : client_file s fd i f off o d -> is_u32 (o_fileid o) /\ openfile_lookup (o_fileid o) s = Ret (inr i) s.
Proof.
  intros [Ht He [Ho Hf] Hr _ _ _ _ _]. destruct (tb_id _ Ht i o He) as [Hu _]. split; [done|]. apply names_lookup; [done|done|].
  exists o. split; [done|]. split; [done|]. by rewrite Ho.
Qed.
Lemma client_ipc s fd i f off o d m : client_file s fd i f off o d -> client_file (with_ipc m s) fd i f off o d.
Proof. intros [[? ? ?] ? ? ? ? ? ? ? ?]. by split; [split|..]. Qed.
Definition moved_fd (d : Fd) (off : Z) : Fd := mk_Fd (fd_dev_id d) off (fd_omode d) (fd_id d).
Lemma client_move s fd i f off off' o d (g : S) m : client_file s fd i f off o d -> b_ok g -> file_ok (b_view g) f -> sized (b_view g) f ->
  client_file (mk_sst g (kst s) (opentab s) (<[fd := moved_fd d off']> (fds s)) m) fd i f off' o (moved_fd d off').
Proof. intros [[? ? ?] ? ? ? ? [? ?] ? ? ?] ? ? ?. split; try done. cbn. by rewrite lookup_insert_eq. Qed.

Lemma seek_run s fd d off : fds s !! fd = Some d -> seek fd off s = Ret 0 (with_fds (<[fd := moved_fd d off]> (fds s)) s).
Proof. intros Hd. unfold seek. by exec_by (set_fd_run s fd d (fun d => mk_Fd (fd_dev_id d) off (fd_omode d) (fd_id d)) Hd). Qed.
Lemma fbyte_range (g : S) f q : 0 <= fbyte (b_view g) f q < 256.
Proof. unfold fbyte. destruct (fblock (b_view g) f (q / BLKSIZE) =? 0); [lia|apply bm_range]. Qed.
Lemma fsipc_write s : fsipc FSREQ_WRITE s = serve_write s.
Proof. change (fsipc FSREQ_WRITE s) with ((r ← (r ← serve_write; mret (Some (r, 0, 7))); match r with Some (r, _, _) => mret r | None => leave end) s). unfold mbind, M_bind. by destruct (serve_write s). Qed.
Lemma fsipc_read s : fsipc FSREQ_READ s = serve_read s.
Proof. change (fsipc FSREQ_READ s) with ((r ← (r ← serve_read; mret (Some (r, 0, 7))); match r with Some (r, _, _) => mret r | None => leave end) s). unfold mbind, M_bind. by destruct (serve_read s). Qed.
Lemma serve_write_run s fd i f off o d l r g : client_file s fd i f off o d ->
  word (ibyte s) 0 = o_fileid o -> word (ibyte s) 4 = zlen l -> zlen l <= PGSIZE - 8 -> ibyte s <$> seqZ 8 (zlen l) = l ->
  file_write f l (zlen l) off (dst s) = Ret r g ->
  serve_write s = match r with
    | inl e => Ret e (with_dst g s)
    | inr c => Ret c (mk_sst g (kst s) (opentab s) (<[fd := moved_fd d (s32 (off + c))]> (fds s)) (ipc s))
    end.
Proof.
  intros Hcl Hid Hn Hle Hl E. destruct (client_lookup _ _ _ _ _ _ _ Hcl) as [_ El]. pose proof Hcl as [_ He [Ho Hf] _ Hd [Hi Hof] _ _ _].
  unfold serve_write, req_word, req_bytes, try_int. exec. rewrite Hid. exec_by El. exec_by (get_open_run s i o He). exec. rewrite Hn, Z.min_l, Hl by lia.
  rewrite Ho, Hf. exec_by (get_fd_run s fd d Hd). rewrite Hof. exec_by (on_disk_run _ s _ _ E). destruct r as [e|c]; [done|].
  assert (fds (with_dst g s) !! fd = Some d) as Hd' by done. exec_by (set_fd_run _ fd d (fun d => mk_Fd (fd_dev_id d) (s32 (fd_offset d + c)) (fd_omode d) (fd_id d)) Hd').
  unfold moved_fd. by rewrite <-Hof.
Qed.
Lemma serve_read_run s fd i f off o d n r g : client_file s fd i f off o d ->
  word (ibyte s) 0 = o_fileid o -> word (ibyte s) 4 = n -> file_read f n off (dst s) = Ret r g ->
  serve_read s = match r with
    | inl e => Ret e (with_dst g s)
    | inr (c, l) => if PGSIZE <? zlen l then UB else
        Ret c (mk_sst g (kst s) (opentab s) (<[fd := moved_fd d (s32 (off + c))]> (fds s)) (put_ipc (ipc s) 0 l))
    end.
Proof.
  intros Hcl Hid Hn E. destruct (client_lookup _ _ _ _ _ _ _ Hcl) as [_ El]. pose proof Hcl as [_ He [Ho Hf] _ Hd [Hi Hof] _ _ _].
  unfold serve_read, req_word, try_int. exec. rewrite Hid. exec_by El. exec_by (get_open_run s i o He). exec. rewrite Hn.
  rewrite Ho, Hf. exec_by (get_fd_run s fd d Hd). rewrite Hof. exec_by (on_disk_run _ s _ _ E). destruct r as [e|[c l]]; [done|].
  unfold ret_bytes. rewrite Z.add_0_l. destruct (PGSIZE <? zlen l); [reflexivity|]. exec.
  assert (fds (with_ipc (put_ipc (ipc (with_dst g s)) 0 l) (with_dst g s)) !! fd = Some d) as Hd' by done.
  exec_by (set_fd_run _ fd d (fun d => mk_Fd (fd_dev_id d) (s32 (fd_offset d + c)) (fd_omode d) (fd_id d)) Hd').
  unfold moved_fd. by rewrite <-Hof.
Qed.
Lemma devfile_write_run s fd i f off o d buf r g : client_file s fd i f off o d -> Forall (fun x => 0 <= x < 256) buf ->
  let l := take (Z.to_nat (PGSIZE - 8)) buf in
  file_write f l (zlen l) off (dst s) = Ret r g -> match r with inl e => e < 0 | inr c => c = zlen l end ->
  devfile_write fd buf s = match r with
    | inl e => Ret e (with_dst g (with_ipc (request (ipc s) (o_fileid o) (zlen l) l) s))
    | inr c => Ret c (mk_sst g (kst s) (opentab s) (<[fd := moved_fd d (s32 (off + c))]> (fds s)) (request (ipc s) (o_fileid o) (zlen l) l))
    end.
Proof.
  intros Hcl Hbuf l E Hres. destruct (client_lookup _ _ _ _ _ _ _ Hcl) as [Hu _]. pose proof Hcl as [_ _ _ _ Hd [Hi _] _ _ _].
  unfold devfile_write. pose proof (zlen_nonneg buf) as Hz. set (n := Z.min (zlen buf) (PGSIZE - 8)).
  assert (take (Z.to_nat n) buf = l) as El. { unfold l, n. change PGSIZE with 4096. unfold zlen. destruct (decide (Z.of_nat (length buf) <= 4088)); [|by rewrite Z.min_r by lia]. by rewrite !take_ge by lia. }
  assert (zlen l = n) as En by (rewrite <-El; unfold n in *; apply zlen_take; change PGSIZE with 4096; lia).
  assert (0 <= n <= 4088) as Hn by (unfold n; change PGSIZE with 4096; lia). assert (Forall (fun x => 0 <= x < 256) l) as Hl by (by apply Forall_take).
  exec_by (get_fd_run s fd d Hd). rewrite Hi, El. unfold ret_word. fold (bytes4 (o_fileid o)) (bytes4 n).
  exec_by (ret_bytes_run 0 (bytes4 (o_fileid o)) s ltac:(done)). set (s1 := with_ipc _ s). exec_by (ret_bytes_run 4 (bytes4 n) s1 ltac:(done)). set (s2 := with_ipc _ s1).
  exec_by (ret_bytes_run 8 l s2 ltac:(rewrite En; change PGSIZE with 4096; lia)).
  set (s3 := with_ipc (put_ipc (ipc s2) 8 l) s2). rewrite <-En.
  assert (s3 = with_ipc (request (ipc s) (o_fileid o) (zlen l) l) s) as E3 by (unfold s3, s2, s1, request; by rewrite En).
  assert (client_file s3 fd i f off o d) as Hcl3 by (rewrite E3; by apply client_ipc).
  assert (fsipc FSREQ_WRITE s3 = match r with
    | inl e => Ret e (with_dst g s3)
    | inr c => Ret c (mk_sst g (kst s3) (opentab s3) (<[fd := moved_fd d (s32 (off + c))]> (fds s3)) (ipc s3)) end) as Ew.
  { rewrite fsipc_write. apply (serve_write_run s3 fd i f off o d l); [done|..|rewrite E3; exact E]; rewrite ?E3.
    - by apply request_id.
    - apply request_n. unfold is_u32. lia.
    - change PGSIZE with 4096. lia.
    - by apply put_ipc_list. }
  unfold mbind at 1, M_bind at 1. rewrite Ew, E3. destruct r as [e|c].
  - by destruct (Z.ltb_spec e 0); [|lia].
  - subst c. rewrite En. destruct (Z.ltb_spec n 0); [lia|]. rewrite u32_id by (unfold is_u32; lia). unfold assertb. rewrite Z.leb_refl. exec.
    by destruct (Z.leb_spec n PGSIZE) as [_|]; [|change PGSIZE with 4096 in *; lia].
Qed.
Lemma devfile_read_run s fd i f off o d n r g : client_file s fd i f off o d -> is_u32 n -> file_read f n off (dst s) = Ret r g ->
  match r with inl e => e < 0 | inr (c, l) => c = zlen l /\ c <= n /\ Forall (fun x => 0 <= x < 256) l end ->
  devfile_read fd n s = match r with
    | inl e => Ret (e, []) (with_dst g (with_ipc (request (ipc s) (o_fileid o) n []) s))
    | inr (c, l) => if PGSIZE <? c then UB else
        Ret (c, l) (mk_sst g (kst s) (opentab s) (<[fd := moved_fd d (s32 (off + c))]> (fds s)) (put_ipc (request (ipc s) (o_fileid o) n []) 0 l))
    end.
Proof.
  intros Hcl Hu E Hres. destruct (client_lookup _ _ _ _ _ _ _ Hcl) as [Hid _]. pose proof Hcl as [_ _ _ _ Hd [Hi _] _ _ _].
  unfold devfile_read. exec_by (get_fd_run s fd d Hd). rewrite Hi. unfold ret_word. fold (bytes4 (o_fileid o)) (bytes4 n).
  exec_by (ret_bytes_run 0 (bytes4 (o_fileid o)) s ltac:(done)). set (s1 := with_ipc _ s). exec_by (ret_bytes_run 4 (bytes4 n) s1 ltac:(done)).
  set (s2 := with_ipc (put_ipc (ipc s1) 4 (bytes4 n)) s1). assert (s2 = with_ipc (request (ipc s) (o_fileid o) n []) s) as E2 by done.
  assert (client_file s2 fd i f off o d) as Hcl2 by (rewrite E2; by apply client_ipc).
  assert (word (ibyte s2) 0 = o_fileid o /\ word (ibyte s2) 4 = n) as [H3 H4] by (rewrite E2; split; [by apply request_id|by apply request_n]).
  pose proof (serve_read_run s2 fd i f off o d n r g Hcl2 H3 H4 E) as Er. unfold mbind at 1, M_bind at 1. rewrite fsipc_read, Er. destruct r as [e|[c l]].
  - by destruct (Z.ltb_spec e 0); [|lia].
  - destruct Hres as (-> & Hle & Hl). pose proof (zlen_nonneg l). destruct (Z.ltb_spec PGSIZE (zlen l)) as [|Hfit]; [done|]. destruct (Z.ltb_spec (zlen l) 0); [lia|].
    change PGSIZE with 4096 in *. rewrite u32_id by (unfold is_u32; lia). unfold assertb. destruct (Z.leb_spec (zlen l) n); [|lia]. exec.
    destruct (Z.leb_spec (zlen l) 4096); [|lia]. unfold req_bytes. exec. cbn [mret M_ret]. do 2 f_equal. by apply put_ipc_list.
Qed.

(** C33. A client's write and read through the server.  [devfile_write] sends the
    first bytes of the buffer, as many as the request page holds; they are
    written at the offset of the descriptor, which moves behind them, and after
    [seek]ing back [devfile_read] returns exactly them.  Only a full disk makes
    the write fail; files that share nothing with this one keep their content. *)
Theorem devfile_write_read_back s fd i f off o d buf : client_file s fd i f off o d -> Forall (fun x => 0 <= x < 256) buf ->
  let l := take (Z.to_nat (PGSIZE - 8)) buf in
  0 <= off -> off + zlen l <= MAXFILESIZE ->
  exists r s1, devfile_write fd buf s = Ret r s1 /\
    (forall g, apart (b_view (dst s)) f g -> same_file (b_view (dst s)) (b_view (dst s1)) g) /\
    if r <? 0 then r = - E_NO_DISK /\ full (b_view (dst s1))
    else r = zlen l /\ fsize (b_view (dst s1)) f = Z.max (fsize (b_view (dst s)) f) (off + zlen l) /\
      client_file s1 fd i f (off + zlen l) o (moved_fd d (off + zlen l)) /\
      exists s2, (seek fd off;; devfile_read fd (zlen l)) s1 = Ret (zlen l, l) s2 /\
        fds s2 !! fd = Some (moved_fd d (off + zlen l)).
Proof.
  intros Hcl Hbuf l Hoff Hmax. pose proof Hcl as [_ _ _ _ Hd _ Hok Hf Hsz]. pose proof (zlen_nonneg l) as Hl0.
  assert (Forall (fun x => 0 <= x < 256) l) as Hl by (by apply Forall_take).
  assert (zlen l <= 4088) as Hl4 by (unfold l, zlen; rewrite length_take; change PGSIZE with 4096; lia).
  destruct (write_then_read f l off (dst s) Hok Hf Hsz Hl Hoff Hmax) as (r & g & E & Hok' & Hf' & Hs' & Hap & Hr).
  pose proof (devfile_write_run s fd i f off o d buf r g Hcl Hbuf E) as Ew. unfold sized in Hsz.
  assert (s32 (off + zlen l) = off + zlen l) as E32 by (apply s32_id; slia).
  destruct r as [e|c].
  - destruct Hr as (-> & Hfull & _). rewrite Ew by by_vm. eexists _, _. split; [reflexivity|]. split; [exact Hap|]. change (- E_NO_DISK <? 0) with true. done.
  - destruct Hr as (-> & _ & g2 & E2). rewrite Ew by done. rewrite E32. eexists _, _. split; [reflexivity|]. split; [exact Hap|].
    destruct (Z.ltb_spec (zlen l) 0); [lia|]. split; [done|]. split; [done|].
    assert (sized (b_view g) f) as Hsz' by (unfold sized; rewrite Hs'; lia).
    pose proof (client_move s fd i f off (off + zlen l) o d g (request (ipc s) (o_fileid o) (zlen l) l) Hcl Hok' Hf' Hsz') as Hcl1.
    match type of Hcl1 with client_file ?x _ _ _ _ _ _ => set (s1 := x) in * end. split; [done|].
    pose proof (client_move s1 fd i f (off + zlen l) off o _ g (ipc s1) Hcl1 Hok' Hf' Hsz') as Hcl2. exec_by (seek_run s1 fd _ off (cf_fd _ _ _ _ _ _ _ Hcl1)).
    match goal with |- exists s2, devfile_read fd _ ?x = _ /\ _ => set (s2 := x) end.
    pose proof (devfile_read_run s2 fd i f off o _ (zlen l) (inr (zlen l, l)) g2 Hcl2 ltac:(unfold is_u32; lia) E2 ltac:(done)) as Er.
    rewrite Er. change PGSIZE with 4096. destruct (Z.ltb_spec 4096 (zlen l)); [lia|]. eexists. split; [reflexivity|]. cbn [fds]. rewrite lookup_insert_eq, E32. done.
Qed.

(** C34. A read of more than a page.  The server does not limit the count of a
    request to the page: when the file has more than a page of bytes at the
    offset, it stores them behind the page of the request, where the disk is
    mapped.  (On a full disk a hole in the file stops it before.) *)
Theorem devfile_read_overruns_the_page s fd i f off o d n : client_file s fd i f off o d -> is_u32 n -> 0 <= off ->
  PGSIZE < n -> PGSIZE < fsize (b_view (dst s)) f - off ->
  devfile_read fd n s = UB \/ exists s', devfile_read fd n s = Ret (- E_NO_DISK, []) s' /\ full (b_view (dst s')).
Proof.
  intros Hcl Hu Hoff Hn Hsize. pose proof Hcl as [_ _ _ _ Hd _ Hok Hf Hsz]. pose proof Hsz as Hsz0. unfold sized in Hsz. change PGSIZE with 4096 in *.
  destruct (file_read_ok f n off (dst s) Hok Hf Hsz0 ltac:(slia) Hu) as (r & g & E & Hg & Hr). rewrite Z.max_r in Hr by lia.
  pose proof (devfile_read_run s fd i f off o d n r g Hcl Hu E) as Er. destruct r as [e|[c l]].
  - right. destruct Hr as (-> & _ & Hfull). rewrite Er by by_vm. eauto.
  - left. destruct Hr as [-> ->]. rewrite Er.
    + change PGSIZE with 4096. destruct (Z.ltb_spec 4096 (Z.min n (fsize (b_view (dst s)) f - off))); [done|lia].
    + unfold zlen. rewrite length_fmap, length_seqZ. split; [lia|]. split; [lia|]. apply Forall_fmap, Forall_forall. intros q _. apply fbyte_range.
Qed.

(** ** Opening *)
(** The path and the mode of the request. *)
Definition asks s (path : list Z) (omode : Z) : Prop :=
  until_nul (ibyte s <$> seqZ 0 (MAXPATHLEN - 1)) = path /\ word (ibyte s) MAXPATHLEN = omode.
Lemma open_twice path (g : S) : b_ok g -> tree_ok (b_view g) -> cstring path ->
  let w := resolve (b_view g) path in
  exists g', (f ←? file_open path; _ ←? mret (inr tt); file_open path) g = Ret (if w_ret w <? 0 then inl (w_ret w) else inr (w_file w)) g' /\
    b_view g' = b_view g /\ b_ok g'.
Proof.
  intros Hok Ht Hp w. destruct (file_open_ok path g Hok Ht Hp) as (g1 & E1 & Hv1 & Hok1). cbv zeta in E1. fold w in E1. unfold try_. exec_by E1.
  destruct (w_ret w <? 0) eqn:Ew; [by exists g1|]. exec. rewrite <-Hv1 in Ht. destruct (file_open_ok path g1 Hok1 Ht Hp) as (g2 & E2 & Hv2 & Hok2).
  cbv zeta in E2. rewrite Hv1 in E2. fold w in E2. rewrite Ew in E2. exists g2. split; [exact E2|]. split; [congruence|done].
Qed.
Lemma fill_open_run s i o d f omode : zget (opentab s) i = Some o -> fds s !! o_fd o = Some d ->
  fill_open i f omode s = Ret (o_fd o) (mk_sst (dst s) (kst s) (zset (opentab s) i (mk_open (o_fileid o) f omode (o_fd o)))
    (<[o_fd o := mk_Fd DEVFILE (fd_offset d) (Z.land omode O_ACCMODE) (o_fileid o)]> (fds s)) (ipc s)).
Proof.
  intros Ho Hd. pose proof (zget_Some_range _ _ _ Ho) as Hr. unfold fill_open. exec_by (set_open_run s i o (fun o => mk_open (o_fileid o) f (o_mode o) (o_fd o)) Ho).
  set (o1 := mk_open (o_fileid o) f (o_mode o) (o_fd o)). set (s1 := with_opentab _ s). assert (zget (opentab s1) i = Some o1) as Ho1 by (by apply zget_zset_eq).
  exec_by (get_open_run s1 i o1 Ho1). assert (fds s1 !! o_fd o1 = Some d) as Hd1 by done.
  exec_by (set_fd_run s1 (o_fd o1) d (fun d => mk_Fd DEVFILE (fd_offset d) (Z.land omode O_ACCMODE) (o_fileid o1)) Hd1). set (s2 := with_fds _ s1).
  assert (zget (opentab s2) i = Some o1) as Ho2 by done. exec_by (set_open_run s2 i o1 (fun o => mk_open (o_fileid o) (o_file o) omode (o_fd o)) Ho2).
  unfold s2, s1. cbn. unfold with_opentab, with_fds. cbn. by rewrite zset_zset_eq.
Qed.
(** What a reply to an open request means. *)
Definition opened_as s s' (path : list Z) (omode r pg perm : Z) : Prop :=
  let w := resolve (b_view (dst s)) path in
  if r <? 0 then pg = 0 /\ perm = 7
  else r = 0 /\ 0 <= w_ret w /\ perm = Z.lor PTE_P (Z.lor PTE_U (Z.lor PTE_W PTE_SHARE)) /\
    exists i o, pg = FILEVA + i * PGSIZE /\ (forall j, ~ names_file s (o_fileid o) j) /\
      forall k, 1 < pageref pg k -> file_ok (b_view (dst s)) (w_file w) -> sized (b_view (dst s)) (w_file w) ->
        client_file (with_kst k s') pg i (w_file w) 0 o (mk_Fd DEVFILE 0 (Z.land omode O_ACCMODE) (o_fileid o)).
End Run.

(** ** A small server

    On the small disk of [JFsThm]: the first open file is on the empty file a,
    and one client has it open.  The kernel is its counts of mappings. *)
Module Server.
#[export] Instance counts : PageSys (gmap Z nat) :=
  {| pageref := fun va k => Z.of_nat (default 0%nat (k !! va)); page_alloc := fun va k => Ret 0 (<[va := 1%nat]> k) |}.
#[export] Instance counts_ok : PageSysOk (gmap Z nat).
Proof.
  split; cbn; [|lia]. intros va k _. eexists _, _. split; [reflexivity|]. cbn. split; [|by rewrite lookup_insert_eq].
  intros va' Hne. by rewrite lookup_insert_ne.
Qed.
Definition tab (f : Z) : list OpenFile := (fun i => mk_open i (if i =? 0 then f else 0) 0 (FILEVA + i * PGSIZE)) <$> seqZ 0 MAXOPEN.
Definition fd0 : Fd := mk_Fd DEVFILE 0 2 0.
(** The path "/a" and mode 0. *)
Definition page : gmap Z Z := put_ipc ∅ 0 [47; 97; 0].
Definition srv (g : bcst) : sst := mk_sst g ({[ FILEVA := 2%nat ]} : gmap Z nat) (tab file_a) {[ FILEVA := fd0 ]} page.

Lemma zget_tab f i o : zget (tab f) i = Some o -> 0 <= i < MAXOPEN /\ o = mk_open i (if i =? 0 then f else 0) 0 (FILEVA + i * PGSIZE).
Proof.
  intros Hi. pose proof (zget_Some_range _ _ _ Hi) as Hr. unfold tab, zlen in Hr. rewrite length_fmap, length_seqZ in Hr. change MAXOPEN with 1024 in *.
  split; [lia|]. revert Hi. unfold zget, tab. destruct (Z.leb_spec 0 i); [|lia]. change MAXOPEN with 1024. rewrite list_lookup_fmap, lookup_seqZ_lt by lia.
  intros [= <-]. by replace (0 + Z.of_nat (Z.to_nat i)) with i by lia.
Qed.
Lemma srv_tab g : tab_ok (srv g).
Proof.
  split; [done|..]; cbn [opentab srv]; intros i o [Hi ->]%zget_tab; [done|]. cbn. unfold is_u32, MAXOPEN in *. split; [lia|zlia].
Qed.
Lemma srv_client g : b_ok g -> file_ok (b_view g) file_a -> sized (b_view g) file_a ->
  client_file (srv g) FILEVA 0 file_a 0 (mk_open 0 file_a 0 FILEVA) fd0.
Proof. intros Hok Hf Hs. split; [apply srv_tab|reflexivity|done|by_vm|reflexivity|done|done|done|done]. Qed.
Lemma file_a_sized : sized (b_view s0) file_a.
Proof. unfold sized. rewrite s0_b_view, file_a_size. slia. Qed.
End Server.
Import Server.

Lemma openfile_alloc_gives_fresh_id_witness : exists r o s', openfile_alloc (srv s0) = Ret (r, o) s' /\ tab_ok s' /\ r = 1025 /\ o = Some 1.
Proof.
  destruct (openfile_alloc_gives_fresh_id (srv s0) (srv_tab s0)) as (r & o & s' & E & Ht & _). exists r, o, s'. split; [exact E|]. split; [exact Ht|].
  assert (match openfile_alloc (srv s0) with Ret (r, o) _ => bool_decide (r = 1025 /\ o = Some 1) | _ => false end = true) as Ev by (by vm_compute).
  rewrite E in Ev. by apply bool_decide_eq_true in Ev.
Defined.
Lemma devfile_write_read_back_witness : exists r s1, devfile_write FILEVA [104; 105] (srv s0) = Ret r s1 /\
  if r <? 0 then r = - E_NO_DISK /\ full (b_view (dst s1))
  else r = 2 /\ exists s2, (seek FILEVA 0;; devfile_read FILEVA 2) s1 = Ret (2, [104; 105]) s2.
Proof.
  destruct (devfile_write_read_back (srv s0) FILEVA 0 file_a 0 (mk_open 0 file_a 0 FILEVA) fd0 [104; 105]) as (r & s1 & E & _ & Hr).
  - apply srv_client; [exact s0_ok|rewrite s0_b_view; exact file_a_ok|exact file_a_sized].
  - repeat (apply Forall_cons; split; [lia|]); apply Forall_nil_2.
  - lia.
  - by_vm.
  - exists r, s1. split; [exact E|]. destruct (r <? 0); [exact Hr|]. destruct Hr as (-> & _ & _ & s2 & E2 & _). split; [reflexivity|]. exists s2. exact E2.
Defined.
Lemma devfile_read_overruns_the_page_witness : exists g, fsize (b_view g) file_a = 8192 /\
  (devfile_read FILEVA 8192 (srv g) = UB \/ exists s', devfile_read FILEVA 8192 (srv g) = Ret (- E_NO_DISK, []) s' /\ full (b_view (dst s'))).
Proof.
  destruct (file_set_size_ok file_a 8192 s0 s0_ok) as (g & _ & Hok & Hs & Hr); [rewrite s0_b_view; exact file_a_ok|exact file_a_sized|lia|].
  exists g. split; [exact Hs|]. rewrite s0_b_view, file_a_size in Hr. change (8192 <? 0) with false in Hr. cbv iota in Hr.
  apply (devfile_read_overruns_the_page (srv g) FILEVA 0 file_a 0 (mk_open 0 file_a 0 FILEVA) fd0 8192).
  - apply srv_client; [exact Hok|exact (rs_ok _ _ _ _ Hr)|unfold sized; rewrite Hs; slia].
  - unfold is_u32. lia.
  - lia.
  - by_vm.
  - cbn [dst srv]. rewrite Hs. by_vm.
Defined.
